(* ===== verification/_CoqProject ===== *)
-Q . S2P
Prelude.v
Reservation.v
Counters.v
Versioned.v
Cache.v
Engine.v
Source.v
Janitor.v
NetIP.v
NetTypes.v
ZdbPool.v
PortM.v
Storage.v
Device.v
BtrfsUtil.v
Btrfs.v
Disk.v
StorageInit.v
Bus.v
Netlink.v
NetResource.v
VmPrim.v
ZdbPrim.v
ContainerPrim.v
Primitives.v
Converter.v
Failures.v
VmDaemon.v
Flist.v
Zinit.v
Ndmz.v
Yggdrasil.v
Networker.v
NetBoot.v
Identity.v
Capacity.v
ZdbClient.v
ContainerDaemon.v
Upgrade.v
Identityd.v
