(* ===== verification/Prelude.v ===== *)
(** Zero-OS: the node daemons that run the workloads of the grid.

    A node gets reservations (a container, a volume, a 0-db namespace, a
    network, a virtual machine, a public address) from the explorer, provisions
    them, reports the result, counts the capacity they take, and decommissions
    them when they have expired or are to be deleted. This development models
    that core, from the poll of the explorer over the provisioners of every kind
    of workload to the volumes on the disks, and of the daemons that the provisioners
    ask, those of storage, containers, virtual machines, flists and networks, with the
    identity, the capacity and the upgrade of the node itself.

    * Parts of the program and the files that model them

    - [Prelude]: what all files share. 64-bit integers with their wrap-around
      ([u64], [+u], [-u], [*u]), results of Go calls ([res]: a value, an error,
      or a panic), the state and error monad [M], errors with [Wrap] and
      [Cause], the parts of the standard library the program uses (decimal
      printing and parsing, [HasPrefix], [Split], sorting, [Sprintf] of a format without
      arguments), lemmas on sums.
    - [Reservation]: src/pkg/provision/reservation.go. The reservation and its
      result, [validate], [Expired], [SplitID], and the id of a network.
    - [Counters]: src/pkg/provision/primitives/counters.go. The capacity of
      each kind of workload ([processVolume], [processContainer], ...,
      [getResourceRequirement]), the counters, and the memory check. [Cas] is
      the lock-free counter as a step relation over interleaved goroutines.
    - [Versioned]: src/pkg/versioned. The files the cache writes.
    - [Cache]: src/pkg/provision/primitives/cache/cache.go. The directory of
      reservations. The class [CacheOps] is the interface
      [provision.ReservationCache], [CacheLaws] what the engine relies on, and
      [Fs_CacheLaws] the proof that the directory provides it.
    - [Engine]: src/pkg/provision/engine.go. [run] is the loop of
      [Engine.Run] on a list of inputs (a job of the source, a tick of the
      clean-up), [process] one job, [provision], [decommission] and
      [DecommissionCached] the three handlers.
    - [Source]: src/pkg/provision/source.go and
      src/pkg/provision/explorer. The polling loop, the decommissioning
      loop, the merge of sources as a step relation, and the poller.
    - [Janitor]: src/pkg/provision/cleanup.go. The clean-up of what no
      reservation keeps.
    - [ZdbPool]: src/pkg/storage/zdbpool. The 0-db namespaces of a volume and
      the binary header of a namespace.
    - [PortM]: src/pkg/network/portm. The port allocator and its store.
    - [Storage]: src/pkg/storage/storage.go and zdb.go. Where a
      volume, a namespace or a virtual disk is placed, over the pool interface
      of src/pkg/storage/filesystem/filesystem.go ([PoolOps], [PoolLaws]).
    - [Device]: src/pkg/storage/filesystem/device.go and migrate.go. The disks as
      lsblk reports them, the scan, and the disks of version 1 that are wiped.
    - [BtrfsUtil]: src/pkg/storage/filesystem/btrfs_utils.go and utils.go. The
      parsers of what the btrfs program prints and of the mount table.
    - [Btrfs]: src/pkg/storage/filesystem/btrfs.go. The pools behind [PoolOps];
      [BtrfsLaws] is what the btrfs commands do, and
      [btrfs_implements_pools] that the pools then keep [PoolLaws].
    - [Disk]: src/pkg/storage/disk.go. The virtual disks, with the functions of
      path/filepath they are found with.
    - [StorageInit]: the start of the module in src/pkg/storage/storage.go
      ([initialize], [ensureCache]) and the shutdown of disks.
    - [NetIP]: net.IP and net.IPNet of the Go library as the program uses them, and
      src/pkg/network/ifaceutil/mac.go.
    - [Bus]: the interfaces of the daemons (src/pkg/storage.go, zdb.go,
      container.go, flist.go, network.go, vm.go), the log of requests with the
      resources it leaves in use, and primitives/crypto.go.
    - [VmPrim], [ZdbPrim], [ContainerPrim], [Primitives]: the provisioners and
      decommissioners of src/pkg/provision/primitives: vm.go, vmutils.go and
      kubernetes.go; zdb.go; container.go; volume.go, network.go, public_ip.go,
      debug.go and the tables of provisioner.go.
    - [Converter]: converter.go of the same directory. The workloads of the explorer
      and the reservations and results they become.
    - [Failures]: the cache of failures of the two daemons below, and their state.
    - [VmDaemon]: src/pkg/vm. The machines of cloud-hypervisor: [Run], [Delete],
      the search for a process by its command line, the monitors; [Race] is a
      deletion and a turn of the monitor as a step relation.
    - [Flist]: src/pkg/flist. Download, mount and unmount of flists, and the
      cleaners, over the storage daemon and the node ([FlistNode]).
    - [ContainerDaemon]: src/pkg/container. The specification of a container, [Run],
      [Inspect], [Delete], and the watcher that starts containers again, over
      containerd ([Containerd], [Oci] with their laws).
    - [Zinit]: src/pkg/zinit. The protocol of the init socket and its commands;
      [ZinitOps] is what others use of it.
    - [NetTypes]: src/pkg/network/types, ifaceutil/ip.go, the addresses of the Go library
      as text, and the records of the kernel's network.
    - [Netlink]: the packages the network daemon is built from (namespace, options,
      ifaceutil, bridge, macvlan, macvtap, tuntap, wireguard, nft, dhcp) over the
      kernel ([NetKernel]).
    - [NetResource]: src/pkg/network/nr and public/wireguard.go. The part of a user's
      network on this node, and the containers that join it.
    - [Ndmz]: src/pkg/network/ndmz. The namespace through which the networks reach the
      internet, the leases of their addresses ([Ipam]) and the DHCP monitor.
    - [Yggdrasil]: src/pkg/network/yggdrasil. The overlay network and its peers.
    - [Networker]: src/pkg/network/networker.go and v1.go. The daemon: its files, its
      wireguard ports, and the requests of the provisioners.
    - [NetBoot]: src/pkg/network/bootstrap, public, latency, and the programs of
      src/cmds/internet and src/cmds/modules/networkd that start the network.
    - [Upgrade]: src/pkg/upgrade and src/pkg/version. The client of the hub, the
      watchers, the upgrader and the version strings.
    - [Identity]: src/pkg/identity, src/pkg/crypto, src/pkg/provision/crypto.go,
      src/pkg/kernel and src/pkg/environment. The seed file, the key and the manager,
      signatures and encryption, the parameters of the kernel and the environment.
    - [Capacity]: src/pkg/capacity and src/cmds/modules/capacityd. The parsers of
      dmidecode and smartctl, the units of the node, and the daemon that reports them.
    - [ZdbClient]: src/pkg/zdb. The client of a 0-db.
    - [Identityd]: src/cmds/identityd and src/pkg/geoip. The daemon that registers the
      node, installs its packages and follows its flist.
    * How the parts interact

    A [Source] delivers [ReservationJob]s to the engine's channel. The engine
    drops a job whose id it has seen in the last half hour, provisions or
    decommissions the others through the functions of the primitives, and talks
    to three parties: the cache, the counters ([Statser]) and the explorer
    ([Feedbacker]). The cache in its turn feeds the decommissioning source
    (expired reservations) and restores the counters at start-up ([Sync]). The
    job marked as last releases the janitor, which asks the explorer about each
    object it finds on the node. The provisioners ask the daemons for disks, taps,
    mounts, containers and volumes; the storage module answers for volumes and
    namespaces and calls the pools.

    The provisioners and decommissioners of the engine are arguments of [Engine]:
    its theorems hold for all of them. [Primitives.Provisioners] is the table the
    program gives it, and [engine_vm_failure] a theorem on the engine with that
    table; [storage_module] is the storage daemon behind the provisioners of
    volumes ([volumeProvision_no_overcommit]). The explorer, the other daemons,
    the clock, [mem.VirtualMemory], the JSON codec of reservations and the
    Argon2/MD5 hashes are arguments too. Each is a class or a record of
    functions with the laws the program relies on; a module whose name ends in
    [Demo] instantiates it with concrete functions, on which the witnesses
    evaluate.

    A provisioner does not return what it has taken, so its world is [PState]:
    the world of the daemons, the log of the requests that change something with
    their answers, and whether the error that deferred functions look at is set.
    [held] reads from a log what is still in use; [uses], [quiet] and [emits] are
    the judgements by which the proofs follow a provisioner step by step. A
    deferred clean-up is [on_error] around the rest of the function, so an error
    that is returned through a shadowed variable is a value that passes it. A
    daemon that does not answer makes its stub panic.

    * State and operations

    A method with a pointer receiver is a function on its state in the monad
    [M S A := S -> S * res A]: on an error the state reached so far is kept,
    because Go does not roll back. The state of the engine [St] is the cache,
    the counters, [memCache], the world [W] and a log of the calls made to the
    world; the log is what lets a theorem say what was called, with what and in
    which order. A nil dereference or an index out of range is [Panic]. Locks
    that are held for a whole method are not modelled: such methods run one at a
    time. Where the program has real interleaving (the counter's
    compare-and-swap, the merge of sources) the model is a step relation and the
    theorem is about all its runs.

    * What the theorems show

    Engine: the memory promised to workloads stays within the budget along every
    run ([run_memory_budget]); a successful and a failed provisioning, a
    decommissioning, and the two in sequence, also for the update of a network, which is not
    counted but taken off ([provision_success],
    [provision_failure], [decommission_spec], [provision_decommission]); nothing is
    provisioned twice ([provision_once], [provision_idempotent]); the janitor
    waits for the last job ([cleanup_after_last]).

    Cache: it refines a finite map from ids to reservations ([Add_Get]), finds
    what has expired, survives a first boot with its volumes only, and restores
    the counters ([GetExpired_spec], [removeAllButPersistent_spec],
    [Sync_networks]).

    Sources: the polling loop delivers every reservation exactly once while its
    errors are temporary ([poll_delivers]), sources merge without loss
    ([combined_merges]), and the poller sorts by dependency ([Poll_ordered]).

    Counters: linearizability ([counter_linearizable]), termination of the
    counter's loop ([counter_terminates]) and agreement of the accounting with
    what a virtual machine gets ([vmSize_accounted]).

    Janitor: it removes only what is unwanted and nothing a running container
    uses, and a 0-db only when all its namespaces are unwanted ([CleanupResources_safe], [cleanupVolumes_protects],
    [cleanupZdbContainer_keeps]).

    Storage: volumes are never overcommitted ([create_no_overcommit]), release
    removes one name and nothing else ([ReleaseFilesystem_spec]), namespaces
    reserve what they ask for ([Create_Reserved], [ReadHeader_WriteHeader]).

    Disks: the scan reports every disk once and knows which are free
    ([scan_spec]), only free disks are formatted, and none twice
    ([initialize_formats]), the btrfs pools refine the pool interface
    ([btrfs_implements_pools], [maintenance_spec], [parseSubvolList_show]), and a
    virtual disk is one file directly in a volume of disks
    ([safePath_inside], [Allocate_spec]).

    Provisioners: what a failing provisioner took is given back, at every step of a
    machine or a kubernetes node ([engine_vm_failure], [vm_failure_gives_back]),
    for a container once its mounts are prepared ([containerProvision_gives_back])
    and for a 0-db container up to the errors named there
    ([createZdbContainer_gives_back]); decommissioning gives back what
    provisioning took ([vm_decommission_gives_back]). A user cannot reach beyond
    his own: volumes ([containerProvision_owned]), directories
    ([containerProvision_dirs_inside]), the command line of the kernel
    ([constructCMDLine_words]), addresses ([publicIP_matches_machine]). What a
    successful run has asked for is [virtualMachineProvision_runs],
    [containerProvision_runs], [zdbProvision_spec] and [zdbDecommission_spec]; the
    upgrade of running 0-dbs leaves none out and keeps the name, the network and the
    data of those it replaces ([upgradeRunningZdb_spec]). Volumes keep the storage
    from being overcommitted ([volumeProvision_no_overcommit]) with the size of
    [volumeProvision_size]. In the tables every type has its functions, which make only
    requests that belong to the type ([workload_tables], with [own] for the requests).

    Conversion: the ids of the explorer are those of the reservation
    ([converted_identity]), a container finds the volumes of its own reservation
    ([volume_reference]), a volume gets what the explorer asked for
    ([volume_workload_stored]), results come back as they were sent
    ([result_roundtrip]), and a workload that cannot be converted stops the poll
    ([Poll_stops]).

    Daemons: a container is confined to what it was given ([Run_confines]), is
    described as it was run ([Run_Inspect]), is deleted when it cannot be started
    ([Run_gives_back]), is given up when it exits again and again
    ([container_crash_loop]) and is not started again while it is deleted
    ([deleted_not_restarted], [stop_task_ends]); its environment and its command are
    those of the reservation and of the startup file ([mergeEnvs_spec],
    [Entrypoint_splits]). A machine that runs is found by its process ([process_found]), one is
    started with the configuration that is saved and the arguments of its
    specification ([Run_starts], where [command] spells them out), one that crashes
    again and again is given up ([crash_loop_ends]), and the wait for one that is
    deleted ends ([wait_gone_ends]) and wins over the monitor when it comes first
    ([deletion_wins]; [deleted_machine_runs] when it does not). A flist that is
    downloaded is a file under the digest of its content ([downloadFlist_integrity]), a failed mount
    keeps no volume ([mount_gives_back]), an unmount cleans up whatever fails
    ([Umount_spec]), and the cleaner spares what is in use ([cleanupAll_stale]).
    An upgrade leaves the services and the files alone until the daemon itself is up to date,
    when the flist contains it and it may upgrade itself ([applyUpgrade_self_first]), never loses a file ([copyFile_safe]), spares what it
    needs itself ([uninstall_spec]), and only goes forward
    ([semver_Watch_increasing]; [repo_event_spec] for repositories); its version
    strings are read back ([version_roundtrip]). The answers of zinit stay in step with
    the commands, without empty lines at their start and with errors passed through [Sprintf]
    ([session_in_step], [garbled_error], [ServiceState_roundtrip]).

    Network: while the ports of the networks of a node are taken, each its own, a creation or
    an update that succeeds keeps it so, and a failed creation keeps no port
    ([CreateNR_ports]; a failed update loses one, and then two networks can get the same,
    [port_freed_twice]), a network is
    reported as it was created, up to the byte that is overwritten
    ([CreateNR_GetSubnet], [IPNet_roundtrip]), a container that cannot join a
    network resource leaves no namespace and no link, but for a namespace that cannot be opened
    or closed ([nr_Join_undone]), networks keep their lease and have an IPv6 address of
    their own ([allocateIPv4_unique]), the addresses that are derived are
    [Convert4to6_spec] and [SubnetFor_in_Subnet], the interface of the node is the one
    that is meant ([SelectZOS_spec]) and the peers are the nearest ones that may be
    used ([Sorter_Run_spec]).

    Identity and capacity: a node keeps its keys over its restarts
    ([NewManager_stable]; [unversioned_seed_lost] is the seed it loses), a reservation
    that is signed is accepted ([Sign_Verify]), what is encrypted for a node is what it
    decrypts ([ECDH_roundtrip]), and the report of the hardware is read as dmidecode prints it
    ([parseDMI_show] with [report_lines] for the text, [parseDMI_total]). The node announces only a version to which it was
    upgraded ([upgrade_announced]), and takes a package for installed whose installation
    failed ([failed_package_recorded]). A client of a 0-db that is connected stays so
    ([session_safe]).

    Where the code does something else than it means to, a theorem states what
    it does: [Allocate_overcommits], [poll_error_restarts],
    [unversioned_unreadable], [network_resource_counted],
    [NetworkID_users_collide], [fs_never_reserves], [List_unlabelled],
    [volumeProvision_size]; the examples [running_machine_refused], [mount_volumes],
    [datastore_endpoint_injects], [createZdbContainer_leaks] and
    [containerProvision_leaks] do the same on a concrete node.

    * Bounds

    Integers are [Z] with the wrap-around of their width written out at each
    operation; a theorem that needs no wrap-around says so in a hypothesis
    ([is_u64], [room], or a bound on the memory of the node). A float of a
    workload is kept as its IEEE value and converted where the code converts
    it. Printing a 64-bit number uses 20 digits of fuel ([itoa_fuel]), enough
    for 2^64. The loop of the port allocator is over the ports of the range that
    are left. The retries of a call to the explorer ([retry_reply], [retry_request])
    take the number of attempts the back-off allows as an argument, and the
    theorems hold for every number of them. So do the waits of the provisioners
    ([retries] of a back-off, [polls] of an installation, [rounds] in the tables).
    [hw_rounds] rehashes until a window of the hash is an address in range; that
    [md5_rounds] times are enough is a law of [MD5]. The loop of [ContainerDaemon.Delete] has
    nine turns ([stop_turns], enough by [stop_task_ends]); the wait of [VmDaemon.Delete] has
    twelve turns of fuel ([delete_turns]), enough by [wait_gone_ends] whatever the
    process does; the waits of [Flist] end when their time is up and take the
    number of looks ([polls]). The links of the hub and the wait for services to stop
    have no bound in the code, so an [Upgrader] carries one ([up_hops], [up_turns]) and
    a run that reaches it is one that has not returned ([Panic]). The polls of the
    network daemon ([IsPluggedTimeout], [wait_gw], [wait_addrs]) end when their time is
    up and take the number of looks; the numbers of an address are read with the eight
    groups it can have ([parse_groups]). The parser of dmidecode has the number of its
    lines as fuel ([read_lines], [read_sections]), which is enough by [parseDMI_total].

    * What is not modelled

    The start-up code of the other daemons (flags, zbus servers, logging), the user
    interfaces and the monitors of the host are not modelled: they only call others. Of the
    network daemon the streams of addresses are left out. Code
    under stubs is generated. Failing disks under the cache are not modelled, nor
    the goroutine scheduler where a component owns its state alone. *)

From stdpp Require Import gmap strings list sorting.
From Stdlib Require Import Ascii ZArith Lia.

Open Scope Z_scope.

Declare Scope go_scope.
Delimit Scope go_scope with go.

(** ** Machine integers

    Go's fixed-width integers are [Z] kept in range by the wrap-around of
    each operation. *)

Definition W64 : Z := 18446744073709551616.

Definition u64 (z : Z) : Z := z mod W64.
Definition u64_add (a b : Z) : Z := u64 (a + b).
Definition u64_sub (a b : Z) : Z := u64 (a - b).
Definition u64_mul (a b : Z) : Z := u64 (a * b).
Definition u32 (z : Z) : Z := z mod 4294967296.
Definition u16 (z : Z) : Z := z mod 65536.
Definition u8 (z : Z) : Z := z mod 256.

Notation "a +u b" := (u64_add a b) (at level 50, left associativity) : go_scope.
Notation "a -u b" := (u64_sub a b) (at level 50, left associativity) : go_scope.
Notation "a *u b" := (u64_mul a b) (at level 40, left associativity) : go_scope.

Definition is_u64 (z : Z) : Prop := 0 <= z < W64.

Definition mib : Z := 1048576.
Definition gib : Z := 1073741824.

(** ** Floating point

    The only float64 values the modelled code computes with are non-negative
    and finite; [f64] is such a value, [f64_man * 2 ^ f64_exp]. *)

Record f64 := MkF64 { f64_man : Z; f64_exp : Z }.

(** [uint64(x)]: truncation towards zero. *)
Definition f64_trunc (x : f64) : Z :=
  if 0 <=? f64_exp x then f64_man x * 2 ^ f64_exp x
  else f64_man x / 2 ^ (- f64_exp x).

(** Multiplication by [2 ^ k] is exact. *)
Definition f64_scale (k : Z) (x : f64) : f64 := MkF64 (f64_man x) (f64_exp x + k).

(** [math.Ceil]. *)
Definition f64_ceil (x : f64) : Z :=
  if 0 <=? f64_exp x then f64_man x * 2 ^ f64_exp x
  else - (- f64_man x / 2 ^ (- f64_exp x)).

(** The mantissas of two values for their smaller exponent. *)
Definition f64_align (x y : f64) : Z * Z * Z :=
  let e := Z.min (f64_exp x) (f64_exp y) in
  (f64_man x * 2 ^ (f64_exp x - e), f64_man y * 2 ^ (f64_exp y - e), e).

Definition f64_max (x y : f64) : f64 :=
  let '(a, b, _) := f64_align x y in if a <? b then y else x.

Definition f64_min (x y : f64) : f64 :=
  let '(a, b, _) := f64_align x y in if a <? b then x else y.

(** [round53 n] is the integer value of [float64(n)] for an integer [n]:
    round to nearest, ties to even, on a 53-bit significand. *)
Definition round53 (n : Z) : Z :=
  let s := Z.log2 n - 52 in
  if s <=? 0 then n
  else
    let q := Z.shiftr n s in
    let r := n - Z.shiftl q s in
    let half := Z.shiftl 1 (s - 1) in
    if (half <? r) || ((r =? half) && Z.odd q)
    then Z.shiftl (q + 1) s
    else Z.shiftl q s.

(** [float64(n)], and the sum and the product of two values. *)
Definition f64_of (n : Z) : f64 := MkF64 (round53 n) 0.

Definition f64_add (x y : f64) : f64 :=
  let '(a, b, e) := f64_align x y in MkF64 (round53 (a + b)) e.

Definition f64_mul (x y : f64) : f64 :=
  MkF64 (round53 (f64_man x * f64_man y)) (f64_exp x + f64_exp y).

(** ** Errors and results

    One value per kind of error the code distinguishes; [ErrWrap] is
    [errors.Wrap] of github.com/pkg/errors, which keeps the cause. *)

Inductive DeviceType := SSDDevice | HDDDevice | OtherDevice (name : string).

Inductive error :=
| ErrNotExist
| ErrExist
| ErrIsDir
| ErrNotVersioned
| ErrNoFreePort
| ErrPollEOS
| ErrNetwork
| ErrHTTP (status : Z)
| ErrNotEnoughSpace (d : DeviceType)
| ErrInvalidDeviceType (d : DeviceType)
| ErrDeviceNotMounted
| ErrConflict (port : Z)
| ErrUnexpectedEOF
| ErrUnsupportedWorkload
| ErrRequestFailure
| ErrSyntax
| ErrRange
(** [unix.EINVAL], [netlink.LinkNotFoundError] and [ns.NSPathNotExistErr] *)
| ErrInvalid
| ErrLinkNotFound (name : string)
| ErrNSPathNotExist (path : string)
| ErrMsg (msg : string)
| ErrWrap (msg : string) (cause : error).

(** [errors.Cause]: the innermost error. *)
Fixpoint Cause (e : error) : error :=
  match e with ErrWrap _ e' => Cause e' | _ => e end.

(** The message of an error, [err.Error()]. *)
Fixpoint Error (e : error) : string :=
  match e with
  | ErrNotExist => "no such file or directory"
  | ErrExist => "file exists"
  | ErrIsDir => "is a directory"
  | ErrNotVersioned => "no version information"
  | ErrNoFreePort => "no free port find"
  | ErrPollEOS => "end of stream"
  | ErrNetwork => "network error"
  | ErrHTTP _ => "unexpected http status"
  | ErrNotEnoughSpace SSDDevice => "Not enough space left in pools of this type ssd"
  | ErrNotEnoughSpace HDDDevice => "Not enough space left in pools of this type hdd"
  | ErrNotEnoughSpace (OtherDevice d) => "Not enough space left in pools of this type " +:+ d
  | ErrInvalidDeviceType SSDDevice => "invalid device type 'ssd'. type unknown"
  | ErrInvalidDeviceType HDDDevice => "invalid device type 'hdd'. type unknown"
  | ErrInvalidDeviceType (OtherDevice d) => "invalid device type '" +:+ d +:+ "'. type unknown"
  | ErrDeviceNotMounted => "device not mounted"
  | ErrConflict _ => "conflict"
  | ErrUnexpectedEOF => "unexpected EOF"
  | ErrUnsupportedWorkload => "workload type not supported"
  | ErrRequestFailure => "request failure"
  | ErrSyntax => "invalid syntax"
  | ErrRange => "value out of range"
  | ErrInvalid => "invalid argument"
  | ErrLinkNotFound name => "Link " +:+ name +:+ " not found"
  | ErrNSPathNotExist path => "failed to Statfs " +:+ path +:+ ": no such file or directory"
  | ErrMsg m => m
  | ErrWrap m e' => m +:+ ": " +:+ Error e'
  end.

(** [os.IsNotExist] and [os.IsExist] look at the error itself only. *)
Definition IsNotExist (e : error) : bool :=
  match e with ErrNotExist => true | _ => false end.

Definition IsExist (e : error) : bool := match e with ErrExist => true | _ => false end.

(** The outcome of a Go call: a value, an error, or a run-time panic (nil
    dereference, index out of range) that unwinds the goroutine. *)
Inductive res (A : Type) :=
| Ok (a : A)
| Err (e : error)
| Panic (msg : string).
Arguments Ok {A} a.
Arguments Err {A} e.
Arguments Panic {A} msg.

Definition res_map {A B} (f : A -> B) (r : res A) : res B :=
  match r with Ok a => Ok (f a) | Err e => Err e | Panic m => Panic m end.

Definition is_ok {A} (r : res A) : bool := match r with Ok _ => true | _ => false end.

(** ** The state and error monad

    A Go procedure over a state [S]: it always leaves a state behind, also
    when it returns an error. *)

Definition M (S A : Type) : Type := S -> S * res A.

#[export] Instance M_ret {S} : MRet (M S) := fun A a s => (s, Ok a).
#[export] Instance M_bind {S} : MBind (M S) := fun A B k m s =>
  match m s with
  | (s', Ok a) => k a s'
  | (s', Err e) => (s', Err e)
  | (s', Panic p) => (s', Panic p)
  end.

Definition throw {S A} (e : error) : M S A := fun s => (s, Err e).
Definition panic {S A} (m : string) : M S A := fun s => (s, Panic m).
Definition gets {S A} (f : S -> A) : M S A := fun s => (s, Ok (f s)).
Definition modify {S} (f : S -> S) : M S unit := fun s => (f s, Ok tt).
Definition lift {S A} (r : res A) : M S A := fun s => (s, r).

(** [if err := m; err != nil]: the error as a value. A panic is not caught. *)
Definition try {S A} (m : M S A) : M S (A + error) := fun s =>
  match m s with
  | (s', Ok a) => (s', Ok (inl a))
  | (s', Err e) => (s', Ok (inr e))
  | (s', Panic p) => (s', Panic p)
  end.

(** The error is logged and dropped. *)
Definition ignore {S A} (m : M S A) : M S unit := fun s =>
  match m s with
  | (s', Panic p) => (s', Panic p)
  | (s', _) => (s', Ok tt)
  end.

(** [errors.Wrap(err, msg)] around a call. *)
Definition wrap {S A} (msg : string) (m : M S A) : M S A := fun s =>
  match m s with
  | (s', Err e) => (s', Err (ErrWrap msg e))
  | r => r
  end.

Definition when_ {S} (b : bool) (m : M S unit) : M S unit :=
  if b then m else mret tt.

(** [for _, x := range l { body x }] where the body's error returns. *)
Fixpoint for_each {S A} (body : A -> M S unit) (l : list A) : M S unit :=
  match l with
  | [] => mret tt
  | x :: l => body x ;; for_each body l
  end.

(** [backoff.RetryNotify] and [backoff.Retry]: until the call succeeds or the time
    is up; [retries] is how many times it is called again. *)
Fixpoint retry {S A} (retries : nat) (m : M S A) : M S A :=
  got ← try m;
  match got, retries with
  | inl a, _ => mret a
  | inr e, O => throw e
  | inr _, S n => retry n m
  end.

(** [log.Fatal] on an error: the program ends. *)
Definition or_exit {S A} (m : M S A) : M S A :=
  got ← try m;
  match got with inl a => mret a | inr _ => panic "exit status 1" end.

(** ** Strings *)

Definition HasPrefix (s p : string) : bool := String.prefix p s.

Fixpoint Contains (s sub : string) : bool :=
  String.prefix sub s ||
  match s with EmptyString => false | String _ s' => Contains s' sub end.

(** [strings.ToLower] on ASCII. *)
Definition lower (c : Ascii.ascii) : Ascii.ascii :=
  let n := Ascii.nat_of_ascii c in
  if ((65 <=? n) && (n <=? 90))%nat then Ascii.ascii_of_nat (n + 32) else c.

Fixpoint ToLower (s : string) : string :=
  match s with EmptyString => EmptyString | String c s => String (lower c) (ToLower s) end.

(** [strings.EqualFold] on ASCII. *)
Definition EqualFold (s t : string) : bool := (ToLower s =? ToLower t)%string.

(** [strings.HasSuffix], and [strings.TrimSuffix] and [strings.TrimPrefix]. *)
Definition HasSuffix (s p : string) : bool :=
  let n := (String.length s - String.length p)%nat in
  (String.length p <=? String.length s)%nat && (String.substring n (String.length p) s =? p)%string.

Definition TrimSuffix (s p : string) : string :=
  if HasSuffix s p then String.substring 0 (String.length s - String.length p) s else s.

Definition TrimPrefix (s p : string) : string :=
  if HasPrefix s p then String.substring (String.length p) (String.length s - String.length p) s else s.

(** [strings.SplitN(s, sep, 2)] for a one-character separator: the part
    before its first occurrence and the part after, or [None]. *)
Fixpoint split_first (sep : Ascii.ascii) (s : string) : option (string * string) :=
  match s with
  | EmptyString => None
  | String c s' =>
      if Ascii.eqb c sep then Some (EmptyString, s')
      else match split_first sep s' with
           | Some (a, b) => Some (String c a, b)
           | None => None
           end
  end.

(** [strings.Split] at a character. *)
Fixpoint Split (sep : Ascii.ascii) (s : string) : list string :=
  match s with
  | EmptyString => [EmptyString]
  | String c s' =>
      if Ascii.eqb c sep then EmptyString :: Split sep s'
      else match Split sep s' with
           | x :: l => String c x :: l
           | [] => [String c EmptyString]
           end
  end.

Definition digit (c : Ascii.ascii) : option Z :=
  let n := Z.of_nat (Ascii.nat_of_ascii c) in
  if (48 <=? n) && (n <=? 57) then Some (n - 48) else None.

Fixpoint digits_value (acc : Z) (s : string) : option Z :=
  match s with
  | EmptyString => Some acc
  | String c s' =>
      match digit c with
      | Some d => digits_value (acc * 10 + d) s'
      | None => None
      end
  end.

(** [strconv.ParseUint(s, 10, 64)]. *)
Definition ParseUint (s : string) : res Z :=
  match s with
  | EmptyString => Err ErrSyntax
  | _ => match digits_value 0 s with
         | None => Err ErrSyntax
         | Some v => if v <? W64 then Ok v else Err ErrRange
         end
  end.

(** [strconv.ParseInt(s, 10, 64)] and [strconv.Atoi] on a 64-bit machine:
    an optional sign, then digits, in the range of int64. *)
Definition ParseInt (s : string) : res Z :=
  let '(neg, body) :=
    match s with
    | String c s' =>
        if Ascii.eqb c "-"%char then (true, s')
        else if Ascii.eqb c "+"%char then (false, s')
        else (false, s)
    | EmptyString => (false, s)
    end in
  match body with
  | EmptyString => Err ErrSyntax
  | _ => match digits_value 0 body with
         | None => Err ErrSyntax
         | Some v =>
             if neg then if v <=? 9223372036854775808 then Ok (- v) else Err ErrRange
             else if v <? 9223372036854775808 then Ok v else Err ErrRange
         end
  end.

Definition digit_ascii (d : Z) : Ascii.ascii := Ascii.ascii_of_nat (48 + Z.to_nat d).

(** [itoa_fuel] writes the decimal digits of [n] in front of [acc]; every
    round divides [n] by ten, so 20 rounds write any 64-bit value. *)
Fixpoint itoa_fuel (fuel : nat) (n : Z) (acc : string) : string :=
  match fuel with
  | O => acc
  | S f =>
      let acc' := String (digit_ascii (n mod 10)) acc in
      if n <? 10 then acc' else itoa_fuel f (n / 10) acc'
  end.

(** [fmt.Sprintf("%d", n)] of an unsigned 64-bit value. *)
Definition Itoa (n : Z) : string := itoa_fuel 20 n EmptyString.

(** The order in which a range visits the entries of a map. *)
Class MapOrder := {
  map_range {A : Type} : list A -> list A;
  map_range_perm {A} (l : list A) : map_range l ≡ₚ l
}.

(** ** Sorting

    [sort.Slice] is not stable: it returns some permutation of the slice
    that is sorted for the order. The modelled code is generic in it. *)

Class Sorter := {
  sort_slice {A : Type} (less : A -> A -> bool) : list A -> list A;
  sort_slice_perm {A} (less : A -> A -> bool) (l : list A) :
    sort_slice less l ≡ₚ l;
  sort_slice_sorted {A} (less : A -> A -> bool) (l : list A) :
    (forall x y, less x y = true -> less y x = false) ->
    (forall x y z, less y x = false -> less z y = false -> less z x = false) ->
    Sorted (fun x y => less y x = false) (sort_slice less l)
}.

(** Insertion sort, the sorter the examples run with. *)
Fixpoint insert_by {A} (less : A -> A -> bool) (x : A) (l : list A) : list A :=
  match l with
  | [] => [x]
  | y :: l' => if less y x then y :: insert_by less x l' else x :: l
  end.

Definition insertion_sort {A} (less : A -> A -> bool) (l : list A) : list A :=
  foldr (insert_by less) [] l.

(** ** Automation *)

Create HintDb zos.
Create HintDb zos_monad.

(** Splits a run of the monad at its first call. *)
Ltac run_step :=
  match goal with
  | H : context [match ?m ?s with pair _ _ => _ end] |- _ =>
      let s' := fresh "st" in let r := fresh "r" in let E := fresh "Hrun" in
      destruct (m s) as [s' r] eqn:E; destruct r
  | |- context [match ?m ?s with pair _ _ => _ end] =>
      let s' := fresh "st" in let r := fresh "r" in let E := fresh "Hrun" in
      destruct (m s) as [s' r] eqn:E; destruct r
  end.

Ltac u64_solve := unfold u64_add, u64_sub, u64_mul, u64, is_u64, W64 in *; lia.

(** ** Lemmas *)

Section integers.

Lemma u64_range z : is_u64 (u64 z).
Proof. unfold is_u64, u64. apply Z.mod_pos_bound. reflexivity. Qed.

Lemma u64_id z : is_u64 z -> u64 z = z.
Proof. intros. apply Z.mod_small. assumption. Qed.

Lemma u64_add_exact a b : is_u64 a -> is_u64 b -> a + b < W64 -> (a +u b)%go = a + b.
Proof. unfold is_u64. intros. apply u64_id. unfold is_u64. lia. Qed.

Lemma u64_sub_exact a b : is_u64 a -> is_u64 b -> b <= a -> (a -u b)%go = a - b.
Proof. unfold is_u64. intros. apply u64_id. unfold is_u64. lia. Qed.

Lemma u64_mul_exact a b : 0 <= a -> 0 <= b -> a * b < W64 -> (a *u b)%go = a * b.
Proof. intros. apply u64_id. unfold is_u64. nia. Qed.

Lemma u64_add_u64_l a b : u64 (u64 a + b) = u64 (a + b).
Proof. unfold u64. apply Zplus_mod_idemp_l. Qed.

Lemma u64_add_u64_r a b : u64 (a + u64 b) = u64 (a + b).
Proof. unfold u64. apply Zplus_mod_idemp_r. Qed.

End integers.

Section floats.

Lemma round53_small n : 0 <= n < 2 ^ 53 -> round53 n = n.
Proof.
  intros [H0 H]. unfold round53.
  destruct (Z.leb_spec (Z.log2 n - 52) 0) as [|Hs]; [reflexivity|].
  assert (n <> 0) by (intros ->; cbn in Hs; lia).
  pose proof (Z.log2_lt_pow2 n 53). lia.
Qed.

(** Rounding moves a value by at most half a unit in the last place. *)
Lemma round53_bounds n : 0 < n ->
  2 ^ Z.log2 n <= round53 n <= 2 ^ (Z.log2 n + 1).
Proof.
  intros Hn. pose proof (Z.log2_spec n Hn) as [Hlo Hhi].
  rewrite Z.add_1_r in *. unfold round53.
  destruct (Z.leb_spec (Z.log2 n - 52) 0) as [|Hs]; [lia|].
  set (s := Z.log2 n - 52) in *. set (q := Z.shiftr n s) in *.
  assert (Hq : q = n / 2 ^ s) by (apply Z.shiftr_div_pow2; lia).
  assert (Hp : 0 < 2 ^ s) by (apply Z.pow_pos_nonneg; lia).
  assert (Hlog : Z.log2 n = 52 + s) by lia.
  assert (Hpow : 2 ^ Z.log2 n = 2 ^ 52 * 2 ^ s) by (rewrite Hlog, Z.pow_add_r; lia).
  assert (Hpow1 : 2 ^ Z.succ (Z.log2 n) = 2 ^ 53 * 2 ^ s).
  { rewrite Hlog. replace (Z.succ (52 + s)) with (53 + s) by lia. rewrite Z.pow_add_r; lia. }
  assert (2 ^ 52 <= q) by (rewrite Hq; apply Z.div_le_lower_bound; lia).
  assert (q < 2 ^ 53) by (rewrite Hq; apply Z.div_lt_upper_bound; lia).
  rewrite !Z.shiftl_mul_pow2, Hpow, Hpow1 by lia.
  destruct (_ || _); nia.
Qed.

Lemma round53_nonneg n : 0 <= n -> 0 <= round53 n.
Proof.
  intros H. destruct (decide (n = 0)) as [->|]; [reflexivity|].
  pose proof (round53_bounds n ltac:(lia)).
  pose proof (Z.pow_nonneg 2 (Z.log2 n)). lia.
Qed.

(** A multiple of [2 ^ 30] below [2 ^ 83] is a float64. *)
Lemma round53_gib k : 0 <= k < 2 ^ 53 -> round53 (k * gib) = k * gib.
Proof.
  intros [H0 H]. destruct (decide (k = 0)) as [->|Hk]; [reflexivity|].
  unfold round53. destruct (Z.leb_spec (Z.log2 (k * gib) - 52) 0) as [|Hs]; [reflexivity|].
  set (s := Z.log2 (k * gib) - 52) in *.
  assert (Hs30 : s <= 30).
  { pose proof (Z.log2_lt_pow2 (k * gib) 83). unfold gib in *. lia. }
  assert (Hsplit : k * gib = (k * 2 ^ (30 - s)) * 2 ^ s).
  { rewrite <- Z.mul_assoc, <- Z.pow_add_r by lia.
    replace (30 - s + s) with 30 by lia. unfold gib. lia. }
  assert (Hp : 0 < 2 ^ s) by (apply Z.pow_pos_nonneg; lia).
  assert (Hq : Z.shiftr (k * gib) s = k * 2 ^ (30 - s)).
  { rewrite Z.shiftr_div_pow2, Hsplit by lia. apply Z.div_mul. lia. }
  rewrite Hq, !Z.shiftl_mul_pow2, <- Hsplit, Z.sub_diag by lia.
  assert (0 < 1 * 2 ^ (s - 1)) by (pose proof (Z.pow_pos_nonneg 2 (s - 1)); lia).
  destruct (Z.ltb_spec (1 * 2 ^ (s - 1)) 0); [lia|].
  destruct (Z.eqb_spec 0 (1 * 2 ^ (s - 1))); [lia|]. reflexivity.
Qed.

End floats.

Section decimal.

Lemma digit_digit_ascii d : 0 <= d < 10 -> digit (digit_ascii d) = Some d.
Proof.
  intros H. assert (Hd : d ∈ (seqZ 0 10)) by (apply elem_of_seqZ; lia).
  revert d Hd H. apply (Forall_forall (fun d => 0 <= d < 10 -> digit (digit_ascii d) = Some d)).
  repeat constructor.
Qed.

Lemma itoa_fuel_value f : forall n, 0 <= n < 10 ^ Z.of_nat f -> (0 < f)%nat ->
  exists k, 1 <= k /\ forall a acc,
    digits_value a (itoa_fuel f n acc) = digits_value (a * 10 ^ k + n) acc.
Proof.
  induction f as [|f IH]; intros n Hn Hf; [lia|].
  assert (Hmod : 0 <= n mod 10 < 10) by (apply Z.mod_pos_bound; lia).
  cbn [itoa_fuel]. destruct (Z.ltb_spec n 10) as [Hlt|Hge].
  - exists 1. split; [lia|]. intros a acc. cbn [digits_value].
    rewrite digit_digit_ascii by assumption. f_equal. rewrite Z.mod_small; lia.
  - assert (Hf0 : f <> 0%nat) by (intros ->; cbn in Hn; lia).
    destruct (IH (n / 10)) as (k & Hk & Heq); [|lia|].
    { rewrite Nat2Z.inj_succ, Z.pow_succ_r in Hn by lia.
      split; [apply Z.div_pos; lia|apply Z.div_lt_upper_bound; lia]. }
    exists (k + 1). split; [lia|]. intros a acc. rewrite Heq. cbn [digits_value].
    rewrite digit_digit_ascii by assumption. f_equal.
    rewrite Z.pow_add_r by lia. pose proof (Z.div_mod n 10). lia.
Qed.

Lemma digits_value_Itoa n : is_u64 n -> digits_value 0 (Itoa n) = Some n.
Proof.
  intros Hn. unfold Itoa.
  destruct (itoa_fuel_value 20 n) as (k & _ & Heq); [u64_solve|lia|].
  rewrite Heq. reflexivity.
Qed.

Lemma itoa_fuel_nonempty f : forall n c s, itoa_fuel f n (String c s) <> EmptyString.
Proof.
  induction f as [|f IH]; intros n c s; cbn [itoa_fuel]; [done|].
  destruct (n <? 10); [done|apply IH].
Qed.

Lemma Itoa_nonempty n : Itoa n <> EmptyString.
Proof.
  unfold Itoa. change 20%nat with (S 19). generalize 19%nat as f. intros f.
  cbn [itoa_fuel]. destruct (n <? 10); [done|apply itoa_fuel_nonempty].
Qed.

(** Printing an unsigned integer and parsing it back. *)
Lemma ParseUint_Itoa n : is_u64 n -> ParseUint (Itoa n) = Ok n.
Proof.
  intros Hn. pose proof (digits_value_Itoa n Hn) as Hv.
  pose proof (Itoa_nonempty n) as He. unfold ParseUint.
  destruct (Itoa n) as [|c s]; [done|]. rewrite Hv.
  destruct (Z.ltb_spec n W64); [done|u64_solve].
Qed.

Lemma digit_not_dash c d : digit c = Some d -> Ascii.eqb c "-" = false.
Proof.
  intros H. destruct (Ascii.eqb_spec c "-") as [->|]; [discriminate H|done].
Qed.

(** A number has no dash, so a dash after it is the first one. *)
Lemma split_first_digits s t : forall a v, digits_value a s = Some v ->
  split_first "-" (s +:+ String "-" t) = Some (s, t).
Proof.
  induction s as [|c s IH]; intros a v H; [reflexivity|].
  change (String c s +:+ String "-" t) with (String c (s +:+ String "-" t)).
  cbn [digits_value split_first] in H |- *. destruct (digit c) eqn:Ed; [|done].
  rewrite (digit_not_dash _ _ Ed), (IH _ _ H). reflexivity.
Qed.

End decimal.

Section splitting.
  Context (sep : Ascii.ascii).

Lemma split_first_cons a s : split_first sep (String a s) = None ->
  Ascii.eqb a sep = false /\ split_first sep s = None.
Proof.
  cbn [split_first]. destruct (Ascii.eqb a sep); [done|].
  by destruct (split_first sep s) as [[]|].
Qed.

Lemma split_first_app k v : split_first sep k = None -> split_first sep (k +:+ String sep v) = Some (k, v).
Proof.
  induction k as [|c k IH]; intros Hk.
  - change ("" +:+ String sep v) with (String sep v). cbn [split_first]. by rewrite Ascii.eqb_refl.
  - apply split_first_cons in Hk as [Hc Hk].
    change (String c k +:+ String sep v) with (String c (k +:+ String sep v)). cbn [split_first]. by rewrite Hc, IH.
Qed.

Lemma Split_app c s : split_first sep c = None ->
  Split sep (c +:+ String sep s) = c :: Split sep s.
Proof.
  induction c as [|a c IH]; intros Hc; cbn [String.append].
  - change ("" +:+ String sep s) with (String sep s). cbn [Split]. by rewrite Ascii.eqb_refl.
  - apply split_first_cons in Hc as [Ha Hc].
    change (String a c +:+ String sep s) with (String a (c +:+ String sep s)). cbn [Split].
    by rewrite Ha, IH.
Qed.

Lemma Split_end c : split_first sep c = None -> Split sep c = [c].
Proof.
  induction c as [|a c IH]; intros Hc; [done|]. apply split_first_cons in Hc as [Ha Hc]. cbn [Split].
  by rewrite Ha, IH.
Qed.

Lemma Split_elem s : Forall (fun c => split_first sep c = None) (Split sep s).
Proof.
  induction s as [|a s IH]; cbn [Split]; [by repeat constructor|].
  destruct (Ascii.eqb a sep) eqn:Ha; [by constructor|].
  inversion IH as [|x l Hx Hl Heq]; constructor; try done; cbn [split_first]; rewrite Ha;
    [done|by rewrite Hx].
Qed.

Lemma Split_nonempty s : Split sep s <> [].
Proof.
  destruct s as [|a s]; [done|]. cbn [Split]. destruct (Ascii.eqb a sep); [done|]. by case_match.
Qed.

(** One more word at the end. *)
Lemma Split_snoc s w : split_first sep w = None ->
  Split sep (s +:+ String sep w) = Split sep s ++ [w].
Proof.
  intros Hw. induction s as [|a s IH].
  - change ("" +:+ String sep w) with (String sep w). cbn [Split].
    by rewrite Ascii.eqb_refl, Split_end.
  - change (String a s +:+ String sep w) with (String a (s +:+ String sep w)). cbn [Split].
    rewrite IH. destruct (Ascii.eqb a sep); [done|].
    pose proof (Split_nonempty s). by destruct (Split sep s).
Qed.

End splitting.

Section substrings.

Lemma substring_0 a : forall b, String.substring 0 (String.length a) (a +:+ b) = a.
Proof.
  induction a as [|c a IH]; intros b; [by destruct b|].
  change (String c a +:+ b) with (String c (a +:+ b)). cbn. by rewrite IH.
Qed.

Lemma substring_skip a b k m : String.length a = k ->
  String.substring k m (a +:+ b) = String.substring 0 m b.
Proof.
  intros <-. induction a as [|c a IH]; [done|].
  change (String c a +:+ b) with (String c (a +:+ b)). cbn. exact IH.
Qed.

Lemma substring_whole s : String.substring 0 (String.length s) s = s.
Proof. induction s as [|c s IH]; [done|]. cbn. by rewrite IH. Qed.

Lemma substring_suffix a b : String.substring (String.length a) (String.length b) (a +:+ b) = b.
Proof. induction a as [|c a IH]; [apply substring_whole|exact IH]. Qed.

Lemma prefix_app p s : String.prefix p (p +:+ s) = true.
Proof.
  induction p as [|c p IH]; [by destruct s|]. change (String c p +:+ s) with (String c (p +:+ s)).
  cbn [String.prefix]. by destruct (Ascii.ascii_dec c c).
Qed.

Lemma TrimPrefix_app p s : TrimPrefix (p +:+ s) p = s.
Proof.
  unfold TrimPrefix, HasPrefix. rewrite prefix_app, substring_skip by done.
  assert (String.length (p +:+ s) - String.length p = String.length s)%nat as ->.
  { induction p as [|c p IH]; [apply Nat.sub_0_r|exact IH]. }
  apply substring_whole.
Qed.

End substrings.

Section sorting.
  Context {A : Type} (less : A -> A -> bool).

Lemma insert_by_perm x l : insert_by less x l ≡ₚ x :: l.
Proof.
  induction l as [|y l IH]; cbn; [done|].
  destruct (less y x); [|done]. rewrite IH. apply Permutation_swap.
Qed.

Lemma insertion_sort_perm l : insertion_sort less l ≡ₚ l.
Proof.
  induction l as [|x l IH]; cbn; [done|]. by rewrite insert_by_perm, IH.
Qed.

Lemma insert_by_sorted x l :
  (forall x y, less x y = true -> less y x = false) ->
  Sorted (fun x y => less y x = false) l ->
  Sorted (fun x y => less y x = false) (insert_by less x l).
Proof.
  intros Has Hs. induction Hs as [|y l Hs IH Hhd]; cbn; [repeat constructor|].
  destruct (less y x) eqn:E.
  - constructor; [exact IH|]. destruct l as [|z l]; cbn; [by repeat constructor; apply Has|].
    inversion Hhd; subst. destruct (less z x); constructor; auto.
  - repeat constructor; assumption.
Qed.

End sorting.

#[export] Instance insertion_Sorter : Sorter := {|
  sort_slice := @insertion_sort;
  sort_slice_perm := @insertion_sort_perm;
  sort_slice_sorted A less l Has _ :=
    (fix go l := match l return Sorted _ (insertion_sort less l) with
                 | [] => Sorted_nil _
                 | x :: l => insert_by_sorted less x _ Has (go l)
                 end) l
|}.

(** Replacing one element of a list of queues. *)
Lemma concat_fmap_insert {A B} (f : A -> list B) (l : list A) i x y : l !! i = Some x ->
  exists rest, concat (f <$> l) ≡ₚ f x ++ rest /\ concat (f <$> <[i := y]> l) ≡ₚ f y ++ rest.
Proof.
  intros Hi. exists (concat (f <$> take i l) ++ concat (f <$> drop (S i) l)).
  assert (Hsplit : forall l1 z l2, concat (f <$> l1 ++ z :: l2) ≡ₚ
    f z ++ (concat (f <$> l1) ++ concat (f <$> l2))).
  { intros l1 z l2. rewrite fmap_app, fmap_cons, concat_app. cbn [concat].
    by rewrite !(assoc_L (++)), (comm (++) (concat (f <$> l1)) (f z)). }
  split.
  - rewrite <- (take_drop_middle l i x Hi) at 1. apply Hsplit.
  - rewrite (insert_take_drop l i y) by by eapply lookup_lt_Some. apply Hsplit.
Qed.

(** Sums. *)
Definition zsum {A} (f : A -> Z) (l : list A) : Z := foldr (fun x a => f x + a) 0 l.

Lemma zsum_perm {A} (f : A -> Z) l l' : l ≡ₚ l' -> zsum f l = zsum f l'.
Proof. unfold zsum. induction 1; cbn; lia. Qed.

Lemma zsum_app {A} (f : A -> Z) l l' : zsum f (l ++ l') = zsum f l + zsum f l'.
Proof. unfold zsum. induction l as [|x l IH]; cbn; [done|]. rewrite IH. lia. Qed.

Lemma zsum_nonneg {A} (f : A -> Z) l : (forall x, x ∈ l -> 0 <= f x) -> 0 <= zsum f l.
Proof.
  unfold zsum. induction l as [|x l IH]; intros Hf; cbn; [done|].
  pose proof (Hf x ltac:(by left)). specialize (IH ltac:(intros; apply Hf; by right)). lia.
Qed.

Lemma zsum_fmap {A B} (g : A -> B) (f : B -> Z) l : zsum f (g <$> l) = zsum (fun x => f (g x)) l.
Proof. unfold zsum. induction l as [|x l IH]; cbn; [done|]. by rewrite IH. Qed.

Lemma zsum_ext {A} (f g : A -> Z) l : (forall x, x ∈ l -> f x = g x) -> zsum f l = zsum g l.
Proof.
  unfold zsum. induction l as [|x l IH]; intros Hf; cbn; [done|].
  rewrite (Hf x) by by left. rewrite IH; [done|]. intros y Hy. apply Hf. by right.
Qed.

(** The sum of a map over a list of its keys. *)
Lemma zsum_keys (m : gmap string Z) l : l ≡ₚ (map_to_list m).*1 ->
  zsum (fun n => default 0 (m !! n)) l = zsum snd (map_to_list m).
Proof.
  intros Hl. rewrite (zsum_perm _ _ _ Hl), zsum_fmap. apply zsum_ext. intros [n v] Hin.
  apply elem_of_map_to_list in Hin. cbn. by rewrite Hin.
Qed.

(** Adding up with wrap-around is wrapping the sum. *)
Lemma foldl_u64_add {A} (f : A -> Z) l : forall a, is_u64 a ->
  foldl (fun t x => (t +u f x)%go) a l = u64 (a + zsum f l).
Proof.
  induction l as [|x l IH]; intros a Ha; cbn [foldl zsum foldr].
  { rewrite Z.add_0_r. by rewrite u64_id. }
  rewrite IH by apply u64_range. unfold u64_add. rewrite u64_add_u64_l. f_equal.
  change (foldr (fun x0 a0 => f x0 + a0) 0 l) with (zsum f l). lia.
Qed.

Section monad.
  Context {S A B : Type}.
  Implicit Types (m : M S A) (k : A -> M S B) (s : S).

Lemma bind_Ok m k s s' a : m s = (s', Ok a) -> (m ≫= k) s = k a s'.
Proof. unfold mbind, M_bind. by intros ->. Qed.

Lemma bind_Err m k s s' e : m s = (s', Err e) -> (m ≫= k) s = (s', Err e).
Proof. unfold mbind, M_bind. by intros ->. Qed.

Lemma bind_inv m k s s' b : (m ≫= k) s = (s', Ok b) ->
  exists s1 a, m s = (s1, Ok a) /\ k a s1 = (s', Ok b).
Proof.
  unfold mbind, M_bind. destruct (m s) as [s1 [a|e|p]]; intros; simplify_eq; eauto.
Qed.

Lemma wrap_Ok msg (m : M S A) s s' a : wrap msg m s = (s', Ok a) -> m s = (s', Ok a).
Proof. unfold wrap. destruct (m s) as [s1 []]; congruence. Qed.

Lemma try_inl (m : M S A) s s' a : try m s = (s', Ok (inl a)) -> m s = (s', Ok a).
Proof. unfold try. destruct (m s) as [s1 []]; congruence. Qed.

Lemma try_Ok m s s' a : m s = (s', Ok a) -> try m s = (s', Ok (inl a)).
Proof. unfold try. by intros ->. Qed.

Lemma try_Err m s s' e : m s = (s', Err e) -> try m s = (s', Ok (inr e)).
Proof. unfold try. by intros ->. Qed.

End monad.

(** A procedure keeps an invariant whatever it returns. *)
Definition keeps {S A} (I : S -> Prop) (m : M S A) : Prop :=
  forall s, I s -> I (fst (m s)).

Section keeps.
  Context {S : Type} (I : S -> Prop).

Lemma keeps_ret {A} (a : A) : keeps I (mret a).
Proof. by intros s. Qed.

Lemma keeps_throw {A} e : keeps I (throw (A := A) e).
Proof. by intros s. Qed.

Lemma keeps_panic {A} p : keeps I (panic (A := A) p).
Proof. by intros s. Qed.

Lemma keeps_gets {A} (f : S -> A) : keeps I (gets f).
Proof. by intros s. Qed.

Lemma keeps_lift {A} (r : res A) : keeps I (lift r).
Proof. by intros s. Qed.

Lemma keeps_modify f : (forall s, I s -> I (f s)) -> keeps I (modify f).
Proof. intros Hf s. apply Hf. Qed.

Lemma keeps_bind {A B} (m : M S A) (k : A -> M S B) :
  keeps I m -> (forall a, keeps I (k a)) -> keeps I (m ≫= k).
Proof.
  intros Hm Hk s Hs. specialize (Hm s Hs). unfold mbind, M_bind.
  destruct (m s) as [s' [a|e|p]]; cbn in *; [by apply Hk|done|done].
Qed.

(** With what the first part has returned. *)
Lemma keeps_bind_run {A B} (m : M S A) (k : A -> M S B) :
  keeps I m -> (forall s s' a, m s = (s', Ok a) -> keeps I (k a)) -> keeps I (m ≫= k).
Proof.
  intros Hm Hk s Hs. specialize (Hm s Hs). unfold mbind, M_bind.
  destruct (m s) as [s' [a|e|p]] eqn:Em; cbn in *; [by apply (Hk s s')|done|done].
Qed.

Lemma keeps_try {A} (m : M S A) : keeps I m -> keeps I (try m).
Proof.
  intros Hm s Hs. specialize (Hm s Hs). unfold try. by destruct (m s) as [s' []].
Qed.

Lemma keeps_ignore {A} (m : M S A) : keeps I m -> keeps I (ignore m).
Proof.
  intros Hm s Hs. specialize (Hm s Hs). unfold ignore. by destruct (m s) as [s' []].
Qed.

Lemma keeps_wrap {A} msg (m : M S A) : keeps I m -> keeps I (wrap msg m).
Proof.
  intros Hm s Hs. specialize (Hm s Hs). unfold wrap. by destruct (m s) as [s' []].
Qed.

Lemma keeps_when b (m : M S unit) : keeps I m -> keeps I (when_ b m).
Proof. intros Hm. destruct b; [exact Hm|apply keeps_ret]. Qed.

Lemma keeps_for_each {A} (body : A -> M S unit) l :
  (forall x, x ∈ l -> keeps I (body x)) -> keeps I (for_each body l).
Proof.
  induction l as [|x l IH]; intros H; cbn; [apply keeps_ret|].
  apply keeps_bind; [apply H; set_solver|intros _; apply IH; set_solver].
Qed.

(** What a call leaves behind, when its first part keeps [I]. *)
Lemma keeps_then {A B} (K : S -> Prop) (m : M S A) (k : A -> M S B) s :
  keeps I m -> (forall s, I s -> K s) -> (forall a s, I s -> K (fst (k a s))) ->
  I s -> K (fst ((m ≫= k) s)).
Proof.
  intros Hm HK Hk Hs. specialize (Hm s Hs). unfold mbind, M_bind.
  destruct (m s) as [s' [a|e|p]]; cbn in *; auto.
Qed.

End keeps.

#[export] Hint Resolve keeps_ret keeps_throw keeps_panic keeps_gets keeps_lift keeps_modify
  keeps_bind keeps_try keeps_ignore keeps_wrap keeps_when : zos_monad.
#[export] Hint Resolve u64_range u64_id : zos.

(** ** A format without arguments

    [fmt.Sprintf] of a text, and [fmt.Errorf] and [errors.Wrapf] with it: each percent
    sign begins a directive, whose argument is missing; [printf] gives what is printed. *)

(** [utf8.DecodeRuneInString]: the bytes of the first character, and the rest; a byte
    that begins none stands for U+FFFD. *)
Definition in_range (lo hi : nat) (c : ascii) : bool := (lo <=? nat_of_ascii c)%nat && (nat_of_ascii c <=? hi)%nat.

Definition decode_rune (s : string) : string * string :=
  let invalid s := (String "239" (String "191" (String "189" "")), s) in
  match s with
  | EmptyString => ("", "")
  | String a s1 =>
      if in_range 0 127 a then (String a "", s1)
      else
        match s1 with
        | String b s2 =>
            if in_range 194 223 a && in_range 128 191 b then (String a (String b ""), s2)
            else
              match s2 with
              | String c s3 =>
                  if (Ascii.eqb a "224" && in_range 160 191 b || Ascii.eqb a "237" && in_range 128 159 b ||
                      (in_range 225 236 a || in_range 238 239 a) && in_range 128 191 b) && in_range 128 191 c
                  then (String a (String b (String c "")), s3)
                  else
                    match s3 with
                    | String d s4 =>
                        if (Ascii.eqb a "240" && in_range 144 191 b || Ascii.eqb a "244" && in_range 128 143 b ||
                            in_range 241 243 a && in_range 128 191 b) && in_range 128 191 c && in_range 128 191 d
                        then (String a (String b (String c (String d ""))), s4)
                        else invalid s1
                    | EmptyString => invalid s1
                    end
              | EmptyString => invalid s1
              end
        | EmptyString => invalid s1
        end
  end.

(** [parsenum]: whether there is a number, and what follows it; nothing follows one that is
    too large. *)
Fixpoint parsenum (n : Z) (present : bool) (s : string) : bool * string :=
  match s with
  | String c s' =>
      match digit c with
      | Some x => if 1000000 <? n then (false, "") else parsenum (n * 10 + x) true s'
      | None => (present, s)
      end
  | EmptyString => (present, "")
  end.

(** [argNumber]: whether there is an index in brackets, which is a bad one when there are no
    arguments, whether it is a number, and what follows it. *)
Definition argNumber (s : string) : bool * bool * string :=
  match s with
  | String "[" s' =>
      match split_first "]" s' with
      | Some (index, rest) =>
          if (String.length s <? 3)%nat then (true, false, s')
          else let '(ok, more) := parsenum 0 false index in (true, ok && (more =? "")%string, rest)
      | None => (true, false, s')
      end
  | _ => (false, false, s)
  end.

Fixpoint skip_flags (s : string) : string :=
  match s with
  | String ("#" | "0" | "+" | "-" | " ") s' => skip_flags s'
  | _ => s
  end.

(** A directive, after its percent sign: what is printed, and what follows, if anything
    is left to look at. *)
Definition directive (s : string) : string * option string :=
  let '(bad, after, s) := argNumber (skip_flags s) in
  let '(out, bad, after, s) :=
    match s with
    | String "*" s' => ("%!(BADWIDTH)", bad, false, s')
    | _ => let '(present, s') := parsenum 0 false s in ("", bad || after && present, after, s')
    end in
  let '(out, bad, after, s) :=
    match s with
    | String "." s' =>
        let '(bad', after', s') := argNumber s' in
        let bad := bad || after || bad' in
        match s' with
        | String "*" s' => (out +:+ "%!(BADPREC)", bad, false, s')
        | _ => (out, bad, after', snd (parsenum 0 false s'))
        end
    | _ => (out, bad, after, s)
    end in
  let '(bad, s) := if after : bool then (bad, s) else let '(bad', _, s') := argNumber s in (bad || bad', s') in
  match s with
  | EmptyString => (out +:+ "%!(NOVERB)", None)
  | _ =>
      let '(verb, rest) := decode_rune s in
      (out +:+ (if (verb =? "%")%string then "%" else "%!" +:+ verb +:+ (if bad : bool then "(BADINDEX)" else "(MISSING)")),
       Some rest)
  end.

Fixpoint printf (fuel : nat) (s : string) : string :=
  match fuel, s with
  | S fuel, String c s' =>
      if Ascii.eqb c "%" then
        match directive s' with
        | (out, Some rest) => out +:+ printf fuel rest
        | (out, None) => out
        end
      else String c (printf fuel s')
  | _, _ => ""
  end.

(** A directive is not longer than the text. *)
Definition Sprintf (format : string) : string := printf (String.length format) format.

Example Sprintf_percent :
  Sprintf "disk is 97% full" = "disk is 97%!f(MISSING)ull" /\ Sprintf "100%" = "100%!(NOVERB)" /\
  Sprintf "%% %[1]d %.*x %é" = "% %!d(BADINDEX) %!(BADPREC)%!x(MISSING) %!é(MISSING)".
Proof. split_and!; reflexivity. Qed.

Lemma Sprintf_plain s : split_first "%" s = None -> Sprintf s = s.
Proof.
  intros Hs. unfold Sprintf. induction s as [|c s IH]; [done|]. revert Hs.
  cbn [split_first String.length printf]. destruct (Ascii.eqb c "%"); [done|].
  destruct (split_first "%" s) as [[??]|]; [done|]. intros _. by rewrite IH.
Qed.
