(* ===== verification/Reservation.v ===== *)
(** Reservations and their results: src/pkg/provision/reservation.go, the
    reservation types of src/pkg/provision/primitives/order.go,
    src/pkg/provision/filesystem.go and [NetworkID] of
    src/pkg/provision/engine.go.

    An instant is the number of nanoseconds since the Unix epoch, a duration
    a number of nanoseconds. [time.Now()] is an argument [now]. *)

From stdpp Require Import gmap strings list.
From Stdlib Require Import Ascii ZArith Lia.
From S2P Require Import Prelude.

Open Scope Z_scope.

(** ** Data *)

(** [time.Time{}], the first of January of year 1. *)
Definition nullTime : Z := -62135596800000000000.
Definition epoch : Z := 0.

(** [json.Marshal(nil)]. *)
Definition nullRaw : string := "null".

Definition ReservationType := string.

Definition ContainerReservation : ReservationType := "container".
Definition VolumeReservation : ReservationType := "volume".
Definition NetworkReservation : ReservationType := "network".
Definition NetworkResourceReservation : ReservationType := "network_resource".
Definition ZDBReservation : ReservationType := "zdb".
Definition DebugReservation : ReservationType := "debug".
Definition KubernetesReservation : ReservationType := "kubernetes".
Definition PublicIPReservation : ReservationType := "public_ip".
Definition VirtualMachineReservation : ReservationType := "virtual_machine".

(** The values of [workloads.ResultStateEnum] come from the explorer's
    generated models; the code relies on their being different. *)
Class ResultStates := {
  StateError : Z;
  StateOk : Z;
  StateDeleted : Z;
  StateOk_not_Error : StateOk <> StateError
}.

Record Result := MkResult {
  res_Type : ReservationType;
  res_ID : string;
  res_Created : Z;
  res_State : Z;
  res_Error : string;
  res_Data : string;
  res_Signature : string
}.

Record Reservation := MkReservation {
  r_ID : string;
  r_NodeID : string;
  r_User : string;
  r_Type : ReservationType;
  r_Data : string;
  r_Created : Z;
  r_Duration : Z;
  r_Signature : string;
  r_ToDelete : bool;
  r_Tag : gmap string string;
  r_Reference : string;
  r_Result : Result;
  r_Version : Z
}.

#[export] Instance Result_eq_dec : EqDecision Result.
Proof. solve_decision. Defined.
#[export] Instance Reservation_eq_dec : EqDecision Reservation.
Proof. solve_decision. Defined.

(** [Result{}] and [Reservation{}], given the zero value of the state. *)
Definition zeroResult : Result := MkResult "" "" nullTime 0 "" "" "".
Definition zeroReservation : Reservation :=
  MkReservation "" "" "" "" "" nullTime 0 "" false ∅ "" zeroResult 0.

(** Assignments to a field. *)
Definition set_ID (id : string) (r : Reservation) : Reservation :=
  MkReservation id (r_NodeID r) (r_User r) (r_Type r) (r_Data r) (r_Created r)
    (r_Duration r) (r_Signature r) (r_ToDelete r) (r_Tag r) (r_Reference r)
    (r_Result r) (r_Version r).
Definition set_Result (x : Result) (r : Reservation) : Reservation :=
  MkReservation (r_ID r) (r_NodeID r) (r_User r) (r_Type r) (r_Data r) (r_Created r)
    (r_Duration r) (r_Signature r) (r_ToDelete r) (r_Tag r) (r_Reference r)
    x (r_Version r).
Definition set_res_ID (id : string) (x : Result) : Result :=
  MkResult (res_Type x) id (res_Created x) (res_State x) (res_Error x) (res_Data x)
    (res_Signature x).
Definition set_Signature (sig : string) (x : Result) : Result :=
  MkResult (res_Type x) (res_ID x) (res_Created x) (res_State x) (res_Error x)
    (res_Data x) sig.

(** ** Operations *)

(** A nil tag is replaced by an empty one; the entries of [n] win. *)
Definition AppendTag (t : option (gmap string string)) (n : gmap string string) :
    gmap string string :=
  n ∪ default ∅ t.

(** The reservation and the workload part of a full reservation id. *)
Definition SplitID (r : Reservation) : res (Z * Z) :=
  match split_first "-" (r_ID r) with
  | None => Err (ErrMsg "invalid reservation id format (wront length)")
  | Some (p0, p1) =>
      match ParseUint p0 with
      | Ok reservation =>
          match ParseUint p1 with
          | Ok workload => Ok (reservation, workload)
          | Err e => Err (ErrWrap "invalid reservation id format (workload part)" e)
          | Panic m => Panic m
          end
      | Err e => Err (ErrWrap "invalid reservation id format (reservation part)" e)
      | Panic m => Panic m
      end
  end.

Definition Expired (now : Z) (r : Reservation) : bool :=
  r_Created r + r_Duration r <? now.

Definition validate (now : Z) (r : Reservation) : res unit :=
  if r_Duration r <=? 0 then
    Err (ErrMsg ("reservation " +:+ r_ID r +:+ " has not duration"))
  else if r_Created r =? nullTime then
    Err (ErrMsg ("wrong creation date in reservation " +:+ r_ID r))
  else if Expired now r then
    Err (ErrMsg ("reservation " +:+ r_ID r +:+ " has expired"))
  else Ok tt.

(** [Result.IsNil]: the creation date and the data are unset. *)
Definition IsNil (x : Result) : bool :=
  ((res_Created x =? epoch) || (res_Created x =? nullTime)) &&
  (bool_decide (res_Data x = EmptyString) || bool_decide (res_Data x = nullRaw)).

(** The bytes that are signed: the state as a byte, the error, the data. *)
Definition Bytes (x : Result) : string :=
  String (ascii_of_nat (Z.to_nat (u8 (res_State x)))) (res_Error x +:+ res_Data x).

Definition FilesystemName (r : Reservation) : string := r_ID r.

(** [strings.Split(name, "-")[0]] is the part before the first dash. *)
Definition WorkloadIDFromFilesystem (name : string) : res Z :=
  ParseInt (match split_first "-" name with Some (p, _) => p | None => name end).

(** [base58.Encode(md5.Sum(b))]; base58 is a third-party package. *)
Class NetHash := md5_base58 : string -> string.

Definition NetworkID `{NetHash} (userID name : string) : string :=
  let b := md5_base58 (userID +:+ name) in
  if 13 <? Z.of_nat (String.length b) then String.substring 0 13 b else b.

(** [ID: fmt.Sprintf("%d-%d", w.GetID(), w.WorkloadID())]. *)
Definition workload_gwid (id workload : Z) : string :=
  Itoa id +:+ "-" +:+ Itoa workload.

(** ** Lemmas *)

Lemma set_ID_same r : set_ID (r_ID r) r = r.
Proof. by destruct r. Qed.

Lemma set_ID_set_ID a b r : set_ID a (set_ID b r) = set_ID a r.
Proof. done. Qed.

Lemma string_app_assoc (a b c : string) : (a +:+ b) +:+ c = a +:+ (b +:+ c).
Proof.
  induction a as [|x a IH]; [done|].
  change (String x ((a +:+ b) +:+ c) = String x (a +:+ (b +:+ c))). by rewrite IH.
Qed.

Lemma string_app_nil_r (a : string) : a +:+ EmptyString = a.
Proof.
  induction a as [|x a IH]; [done|].
  change (String x (a +:+ EmptyString) = String x a). by rewrite IH.
Qed.

(** What a reservation that passes [validate] satisfies. *)
Lemma validate_Ok now r : validate now r = Ok tt <->
  0 < r_Duration r /\ r_Created r <> nullTime /\ now <= r_Created r + r_Duration r.
Proof.
  unfold validate, Expired. destruct (Z.leb_spec (r_Duration r) 0).
  { split; [done|lia]. }
  destruct (Z.eqb_spec (r_Created r) nullTime); [split; [done|lia]|].
  destruct (Z.ltb_spec (r_Created r + r_Duration r) now); split; (done || lia).
Qed.

Lemma validate_no_panic now r m : validate now r <> Panic m.
Proof. unfold validate. by repeat case_match. Qed.

#[export] Hint Resolve validate_no_panic : zos.

(** ** Properties *)

(** The id the explorer's converter gives a workload,
    [fmt.Sprintf("%d-%d", id, workload)], is split by [SplitID] into the two
    numbers it was made of, for every pair of 64-bit numbers. *)
Theorem SplitID_workload_gwid id workload r :
  is_u64 id -> is_u64 workload ->
  SplitID (set_ID (workload_gwid id workload) r) = Ok (id, workload).
Proof.
  intros Hi Hw. unfold SplitID, workload_gwid. cbn [r_ID set_ID].
  change ("-" +:+ Itoa workload) with (String "-" (Itoa workload)).
  rewrite (split_first_digits _ _ _ _ (digits_value_Itoa id Hi)).
  by rewrite !ParseUint_Itoa.
Qed.

Lemma SplitID_workload_gwid_witness :
  SplitID (set_ID (workload_gwid 4211 7) zeroReservation) = Ok (4211, 7).
Proof.
  apply (SplitID_workload_gwid 4211 7 zeroReservation); unfold is_u64, W64; lia.
Defined.

(** The network id of a user's network is computed from the
    concatenation of the user id and the name, with nothing between them, so
    two different users reach the same network id: user [u] with network
    [v ++ n] and user [u ++ v] with network [n]. *)
Theorem NetworkID_users_collide `{NetHash} (u v n : string) :
  NetworkID u (v +:+ n) = NetworkID (u +:+ v) n.
Proof. unfold NetworkID. by rewrite string_app_assoc. Qed.
