(* ===== verification/Counters.v ===== *)
(** Capacity accounting of the provision engine:
    src/pkg/provision/primitives/counters.go, with the workload schemas it
    decodes (volume.go, container.go, zdb.go, kubernetes.go and vmutils.go of
    the same package) and the size table [vmSize] of vmutils.go.

    [Module Cas] models the lock-free [CounterUint64] under concurrent use;
    the rest of the file uses its sequential behaviour, which the theorem on
    [Cas] justifies. *)

From stdpp Require Import gmap strings list.
From Stdlib Require Import Ascii ZArith Lia.
From S2P Require Import Prelude Reservation.

Open Scope Z_scope.

(** ** Workload schemas *)

Record Volume := MkVolume { vol_Size : Z; vol_Type : DeviceType }.

Record ContainerCapacity := MkCapacity {
  cap_CPU : Z; cap_Memory : Z; cap_DiskType : DeviceType; cap_DiskSize : Z
}.

Record ZDB := MkZDB {
  zdb_Size : Z; zdb_Mode : string; zdb_Password : string;
  zdb_DiskType : DeviceType; zdb_Public : bool
}.

Record VMCustomSize := MkCustom { cus_CRU : Z; cus_MRU : f64; cus_SRU : f64 }.

(** The size part of a virtual machine. *)
Record VM := MkVM { vm_Size : Z; vm_Custom : VMCustomSize }.

(** [json.Unmarshal] of [Reservation.Data] into each schema, as far as the
    accounting reads it. *)
Class Decoders := {
  dec_Volume : string -> res Volume;
  dec_Container : string -> res ContainerCapacity;
  dec_ZDB : string -> res ZDB;
  dec_Kubernetes : string -> res VM;
  dec_VM : string -> res VM
}.

#[export] Instance DeviceType_eq_dec : EqDecision DeviceType.
Proof. solve_decision. Defined.

(** ** Resource units *)

Record resourceUnits := MkUnits { u_SRU : Z; u_HRU : Z; u_MRU : Z; u_CRU : Z }.

Definition no_units : resourceUnits := MkUnits 0 0 0 0.

(** The units of the size table, without the memory overhead. *)
Definition base_units (vm : VM) : resourceUnits :=
  let u cru mru sru := MkUnits (sru * gib) 0 (mru * gib) cru in
  match vm_Size vm with
  | -1 => MkUnits (f64_trunc (cus_SRU (vm_Custom vm)) *u gib)%go 0
                  (f64_trunc (cus_MRU (vm_Custom vm)) *u gib)%go
                  (u64 (cus_CRU (vm_Custom vm)))
  | 1 => u 1 2 50
  | 2 => u 2 4 100
  | 3 => u 2 8 25
  | 4 => u 2 8 50
  | 5 => u 2 8 200
  | 6 => u 4 16 50
  | 7 => u 4 16 100
  | 8 => u 4 16 400
  | 9 => u 8 32 100
  | 10 => u 8 32 200
  | 11 => u 8 32 800
  | 12 => u 1 64 200
  | 13 => u 1 64 400
  | 14 => u 1 64 800
  | 15 => u 1 2 25
  | 16 => u 2 4 50
  | 17 => u 4 8 50
  | 18 => u 1 1 25
  | _ => no_units
  end.

(** 5% of the memory is added, 1 GiB at most. *)
Definition memory_overhead (mru : Z) : Z :=
  let extra := (mru *u 5)%go / 100 in
  if gib <? extra then gib else extra.

Definition getResourceRequirement (vm : VM) : resourceUnits :=
  let u := base_units vm in
  MkUnits (u_SRU u) (u_HRU u) (u_MRU u +u memory_overhead (u_MRU u))%go (u_CRU u).

(** [vmSize] of vmutils.go, what the virtual machine is started with: number
    of cpus, memory and disk in MiB. *)
Definition vmSize (vm : VM) : res (Z * Z * Z) :=
  let s cpu mem disk := Ok (cpu, mem * 1024, disk * 1024) in
  match vm_Size vm with
  | -1 => Ok (u8 (cus_CRU (vm_Custom vm)),
              f64_trunc (f64_scale 10 (cus_MRU (vm_Custom vm))),
              f64_trunc (f64_scale 10 (cus_SRU (vm_Custom vm))))
  | 1 => s 1 2 50
  | 2 => s 2 4 100
  | 3 => s 2 8 25
  | 4 => s 2 8 50
  | 5 => s 2 8 200
  | 6 => s 4 16 50
  | 7 => s 4 16 100
  | 8 => s 4 16 400
  | 9 => s 8 32 100
  | 10 => s 8 32 200
  | 11 => s 8 32 800
  | 12 => s 1 64 200
  | 13 => s 1 64 400
  | 14 => s 1 64 800
  | 15 => s 1 2 25
  | 16 => s 2 4 50
  | 17 => s 4 8 50
  | 18 => s 1 1 25
  | _ => Err (ErrMsg "unsupported vm size, only size -1, and 1 to 18 are supported")
  end.

Section process.
  Context `{Decoders}.

Definition processVolume (r : Reservation) : res resourceUnits :=
  res_map (fun v =>
    match vol_Type v with
    | SSDDevice => MkUnits (vol_Size v *u gib)%go 0 0 0
    | HDDDevice => MkUnits 0 (vol_Size v *u gib)%go 0 0
    | OtherDevice _ => no_units
    end) (dec_Volume (r_Data r)).

Definition processContainer (r : Reservation) : res resourceUnits :=
  res_map (fun c =>
    let size := (cap_DiskSize c *u mib)%go in
    MkUnits (if decide (cap_DiskType c = SSDDevice) then size else 0)
            (if decide (cap_DiskType c = HDDDevice) then size else 0)
            (cap_Memory c *u mib)%go (cap_CPU c)) (dec_Container (r_Data r)).

Definition processZdb (r : Reservation) : res resourceUnits :=
  if decide (r_Type r = ZDBReservation) then
    res_map (fun z =>
      match zdb_DiskType z with
      | SSDDevice => MkUnits (zdb_Size z *u gib)%go 0 0 0
      | HDDDevice => MkUnits 0 (zdb_Size z *u gib)%go 0 0
      | OtherDevice _ => no_units
      end) (dec_ZDB (r_Data r))
  else Err (ErrMsg ("wrong type or reservation " +:+ r_Type r)).

Definition processKubernetes (r : Reservation) : res resourceUnits :=
  res_map getResourceRequirement (dec_Kubernetes (r_Data r)).

Definition processVM (r : Reservation) : res resourceUnits :=
  res_map getResourceRequirement (dec_VM (r_Data r)).

End process.

(** ** Counters *)

(** A [CounterUint64] used by one goroutine at a time. *)
Definition counter_Increment (v c : Z) : Z := (c +u v)%go.
Definition counter_Decrement (v c : Z) : Z :=
  let dec := if c <? v then c else v in (c -u dec)%go.

Record Counters := MkCounters {
  containers : Z; volumes : Z; networks : Z; zdbs : Z; k8s : Z; vms : Z;
  SRU : Z; HRU : Z; MRU : Z; CRU : Z
}.

Definition zeroCounters : Counters := MkCounters 0 0 0 0 0 0 0 0 0 0.

(** One workload counter, chosen by the reservation type. *)
Definition on_volumes (f : Z -> Z) (c : Counters) : Counters :=
  MkCounters (containers c) (f (volumes c)) (networks c) (zdbs c) (k8s c) (vms c)
    (SRU c) (HRU c) (MRU c) (CRU c).
Definition on_containers (f : Z -> Z) (c : Counters) : Counters :=
  MkCounters (f (containers c)) (volumes c) (networks c) (zdbs c) (k8s c) (vms c)
    (SRU c) (HRU c) (MRU c) (CRU c).
Definition on_zdbs (f : Z -> Z) (c : Counters) : Counters :=
  MkCounters (containers c) (volumes c) (networks c) (f (zdbs c)) (k8s c) (vms c)
    (SRU c) (HRU c) (MRU c) (CRU c).
Definition on_k8s (f : Z -> Z) (c : Counters) : Counters :=
  MkCounters (containers c) (volumes c) (networks c) (zdbs c) (f (k8s c)) (vms c)
    (SRU c) (HRU c) (MRU c) (CRU c).
Definition on_vms (f : Z -> Z) (c : Counters) : Counters :=
  MkCounters (containers c) (volumes c) (networks c) (zdbs c) (k8s c) (f (vms c))
    (SRU c) (HRU c) (MRU c) (CRU c).
Definition on_networks (f : Z -> Z) (c : Counters) : Counters :=
  MkCounters (containers c) (volumes c) (f (networks c)) (zdbs c) (k8s c) (vms c)
    (SRU c) (HRU c) (MRU c) (CRU c).

(** The four resource counters, each moved by its units. *)
Definition on_units (f : Z -> Z -> Z) (u : resourceUnits) (c : Counters) : Counters :=
  MkCounters (containers c) (volumes c) (networks c) (zdbs c) (k8s c) (vms c)
    (f (u_SRU u) (SRU c)) (f (u_HRU u) (HRU c)) (f (u_MRU u) (MRU c)) (f (u_CRU u) (CRU c)).

Section statser.
  Context `{Decoders}.

(** The workload counter is moved before the data is decoded, the resource
    counters only when decoding succeeds. *)
Definition Increment (r : Reservation) : M Counters unit :=
  let t := r_Type r in
  let one := counter_Increment 1 in
  u ← (if decide (t = VolumeReservation) then
         modify (on_volumes one) ;; lift (processVolume r)
       else if decide (t = ContainerReservation) then
         modify (on_containers one) ;; lift (processContainer r)
       else if decide (t = ZDBReservation) then
         modify (on_zdbs one) ;; lift (processZdb r)
       else if decide (t = KubernetesReservation) then
         modify (on_k8s one) ;; lift (processKubernetes r)
       else if decide (t = VirtualMachineReservation) then
         modify (on_vms one) ;; lift (processVM r)
       else if decide (t = NetworkReservation \/ t = NetworkResourceReservation) then
         modify (on_networks one) ;; mret no_units
       else mret no_units : M Counters resourceUnits);
  modify (on_units counter_Increment u).

Definition Decrement (r : Reservation) : M Counters unit :=
  let t := r_Type r in
  let one := counter_Decrement 1 in
  u ← (if decide (t = VolumeReservation) then
         modify (on_volumes one) ;; lift (processVolume r)
       else if decide (t = ContainerReservation) then
         modify (on_containers one) ;; lift (processContainer r)
       else if decide (t = ZDBReservation) then
         modify (on_zdbs one) ;; lift (processZdb r)
       else if decide (t = KubernetesReservation) then
         modify (on_k8s one) ;; lift (processKubernetes r)
       else if decide (t = VirtualMachineReservation) then
         modify (on_vms one) ;; lift (processVM r)
       else if decide (t = NetworkReservation \/ t = NetworkResourceReservation) then
         modify (on_networks one) ;; mret no_units
       else mret no_units : M Counters resourceUnits);
  modify (on_units counter_Decrement u).

(** The memory check of the admission control. *)
Definition CheckMemoryRequirements (r : Reservation) (usableMemoryBytes : Z) : res unit :=
  let requested :=
    if decide (r_Type r = ContainerReservation) then processContainer r
    else if decide (r_Type r = KubernetesReservation) then processKubernetes r
    else if decide (r_Type r = VirtualMachineReservation) then processVM r
    else Ok no_units in
  match requested with
  | Err e => Err e
  | Panic m => Panic m
  | Ok u =>
      if negb (u_MRU u =? 0) && (usableMemoryBytes <? u_MRU u)
      then Err (ErrMsg "not enough free resources to support this memory size")
      else Ok tt
  end.

End statser.

(** What is reported to the explorer: [uint16] truncates the counters. *)
Record WorkloadAmount := MkWorkloadAmount {
  wa_Network : Z; wa_Volume : Z; wa_ZDBNamespace : Z; wa_Container : Z;
  wa_K8sVM : Z; wa_GenericVM : Z
}.

Definition CurrentWorkloads (c : Counters) : WorkloadAmount :=
  MkWorkloadAmount (u16 (networks c)) (u16 (volumes c)) (u16 (zdbs c))
    (u16 (containers c)) (u16 (k8s c)) (u16 (vms c)).

(** Units in GiB: dividing the float by [2 ^ 30] is exact. *)
Record ResourceAmount := MkResourceAmount {
  ra_Cru : Z; ra_Mru : f64; ra_Hru : f64; ra_Sru : f64
}.

Definition in_gib (v : Z) : f64 := f64_scale (-30) (MkF64 (round53 v) 0).

Definition CurrentUnits (c : Counters) : ResourceAmount :=
  MkResourceAmount (CRU c) (in_gib (MRU c)) (in_gib (HRU c)) (in_gib (SRU c)).

(** ** Concurrent counters

    Goroutines share one [CounterUint64]. [Increment] is one atomic add;
    [Decrement] loads the value, computes, and swaps it in only if the
    counter still holds the value it loaded, otherwise it starts over. *)
Module Cas.

Inductive op := OpInc (v : Z) | OpDec (v : Z).

(** What one call does to the counter when nothing interferes. *)
Definition apply_op (c : Z) (o : op) : Z :=
  match o with
  | OpInc v => counter_Increment v c
  | OpDec v => counter_Decrement v c
  end.

(** A goroutine: the calls it has still to make, and, inside the loop of
    [Decrement], the value [current] it has loaded. *)
Inductive thread :=
| Calls (ops : list op)
| Loaded (v current : Z) (ops : list op).

Record state := MkState {
  value : Z;
  threads : list thread;
  (* the calls that have taken effect, oldest first *)
  log : list op
}.

(** The calls a goroutine has not completed. *)
Definition pending (t : thread) : list op :=
  match t with Calls ops => ops | Loaded v _ ops => OpDec v :: ops end.

Inductive step : state -> state -> Prop :=
| step_add i v ops s :
    threads s !! i = Some (Calls (OpInc v :: ops)) ->
    step s (MkState (counter_Increment v (value s)) (<[i := Calls ops]> (threads s))
              (log s ++ [OpInc v]))
| step_load i v ops s :
    threads s !! i = Some (Calls (OpDec v :: ops)) ->
    step s (MkState (value s) (<[i := Loaded v (value s) ops]> (threads s)) (log s))
| step_swap i v current ops s :
    threads s !! i = Some (Loaded v current ops) ->
    value s = current ->
    let dec := if current <? v then current else v in
    step s (MkState (current -u dec)%go (<[i := Calls ops]> (threads s))
              (log s ++ [OpDec v]))
| step_retry i v current ops s :
    threads s !! i = Some (Loaded v current ops) ->
    value s <> current ->
    step s (MkState (value s) (<[i := Calls (OpDec v :: ops)]> (threads s)) (log s)).

Definition init (c : Z) (calls : list (list op)) : state := MkState c (Calls <$> calls) [].

Definition all_pending (ts : list thread) : list op := concat (pending <$> ts).

Definition done_ (s : state) : Prop := Forall (fun t => t = Calls []) (threads s).

End Cas.

(** A decoder to run the definitions with: every schema is written as one
    decimal number. *)
Definition demo_Decoders : Decoders := {|
  dec_Volume s := res_map (fun n => MkVolume n SSDDevice) (ParseInt s);
  dec_Container s := res_map (fun n => MkCapacity 1 n HDDDevice 1024) (ParseInt s);
  dec_ZDB s := res_map (fun n => MkZDB n "seq" "" HDDDevice false) (ParseInt s);
  dec_Kubernetes s := res_map (fun n => MkVM n (MkCustom 0 (MkF64 0 0) (MkF64 0 0))) (ParseInt s);
  dec_VM s := res_map (fun n => MkVM n (MkCustom 0 (MkF64 0 0) (MkF64 0 0))) (ParseInt s)
|}.

Definition demo_reservation (id : string) (t : ReservationType) (data : string) : Reservation :=
  MkReservation id "node" "user" t data 1000 1000000 "" false ∅ "" zeroResult 1.

(** ** Lemmas *)

Ltac counters_unfold :=
  unfold on_volumes, on_containers, on_zdbs, on_k8s, on_vms, on_networks, on_units in *.

Lemma counter_Decrement_spec v c : is_u64 c -> is_u64 v ->
  counter_Decrement v c = Z.max 0 (c - v).
Proof.
  unfold counter_Decrement, is_u64. intros Hc Hv.
  destruct (Z.ltb_spec c v); rewrite u64_sub_exact; unfold is_u64; lia.
Qed.

Lemma counter_inc_dec v c : is_u64 c -> is_u64 v -> c + v < W64 ->
  counter_Decrement v (counter_Increment v c) = c.
Proof.
  intros Hc Hv Hr. unfold counter_Increment. rewrite u64_add_exact by assumption.
  rewrite counter_Decrement_spec; unfold is_u64 in *; lia.
Qed.

Definition counters_ok (c : Counters) : Prop :=
  is_u64 (containers c) /\ is_u64 (volumes c) /\ is_u64 (networks c) /\ is_u64 (zdbs c) /\
  is_u64 (k8s c) /\ is_u64 (vms c) /\ is_u64 (SRU c) /\ is_u64 (HRU c) /\
  is_u64 (MRU c) /\ is_u64 (CRU c).

Definition units_ok (u : resourceUnits) : Prop :=
  is_u64 (u_SRU u) /\ is_u64 (u_HRU u) /\ is_u64 (u_MRU u) /\ is_u64 (u_CRU u).

(** There is room for one more workload of these units: no counter wraps. *)
Definition room (u : resourceUnits) (c : Counters) : Prop :=
  containers c + 1 < W64 /\ volumes c + 1 < W64 /\ networks c + 1 < W64 /\
  zdbs c + 1 < W64 /\ k8s c + 1 < W64 /\ vms c + 1 < W64 /\
  SRU c + u_SRU u < W64 /\ HRU c + u_HRU u < W64 /\
  MRU c + u_MRU u < W64 /\ CRU c + u_CRU u < W64.

Lemma on_units_inc_dec u c : counters_ok c -> units_ok u -> room u c ->
  on_units counter_Decrement u (on_units counter_Increment u c) = c.
Proof.
  unfold counters_ok, units_ok, room, on_units. destruct c; cbn. intros.
  destruct_and!. f_equal; by apply counter_inc_dec.
Qed.

Lemma on_units_range u c : counters_ok c -> counters_ok (on_units counter_Increment u c).
Proof.
  unfold counters_ok, on_units, counter_Increment, u64_add. cbn. intros.
  destruct_and!. split_and!; try assumption; apply u64_range.
Qed.

Lemma getResourceRequirement_ok vm : units_ok (getResourceRequirement vm).
Proof.
  assert (H : is_u64 (u_SRU (base_units vm)) /\ is_u64 (u_HRU (base_units vm)) /\
              is_u64 (u_CRU (base_units vm))).
  { unfold base_units. repeat case_match; cbn;
      split_and!; try apply u64_range; unfold is_u64, W64, gib; lia. }
  unfold units_ok, getResourceRequirement. cbn. destruct_and!.
  split_and!; try assumption. apply u64_range.
Qed.

Section statser_lemmas.
  Context `{Decoders}.

(** The workload part of [Increment] and [Decrement], common to both. *)
Definition workload_counter (t : ReservationType) : (Z -> Z) -> Counters -> Counters :=
  if decide (t = VolumeReservation) then on_volumes
  else if decide (t = ContainerReservation) then on_containers
  else if decide (t = ZDBReservation) then on_zdbs
  else if decide (t = KubernetesReservation) then on_k8s
  else if decide (t = VirtualMachineReservation) then on_vms
  else if decide (t = NetworkReservation \/ t = NetworkResourceReservation) then on_networks
  else fun _ c => c.

(** The resource units a reservation takes. *)
Definition units (r : Reservation) : res resourceUnits :=
  let t := r_Type r in
  if decide (t = VolumeReservation) then processVolume r
  else if decide (t = ContainerReservation) then processContainer r
  else if decide (t = ZDBReservation) then processZdb r
  else if decide (t = KubernetesReservation) then processKubernetes r
  else if decide (t = VirtualMachineReservation) then processVM r
  else Ok no_units.

Lemma Increment_eq r c :
  let c1 := workload_counter (r_Type r) (counter_Increment 1) c in
  Increment r c = match units r with
                  | Ok u => (on_units counter_Increment u c1, Ok tt)
                  | Err e => (c1, Err e)
                  | Panic m => (c1, Panic m)
                  end.
Proof.
  unfold Increment, workload_counter, units, mbind, M_bind, modify, lift, mret, M_ret.
  by repeat case_decide; try destruct (_ : res resourceUnits).
Qed.

Lemma Decrement_eq r c :
  let c1 := workload_counter (r_Type r) (counter_Decrement 1) c in
  Decrement r c = match units r with
                  | Ok u => (on_units counter_Decrement u c1, Ok tt)
                  | Err e => (c1, Err e)
                  | Panic m => (c1, Panic m)
                  end.
Proof.
  unfold Decrement, workload_counter, units, mbind, M_bind, modify, lift, mret, M_ret.
  by repeat case_decide; try destruct (_ : res resourceUnits).
Qed.

Lemma workload_counter_inc_dec t u c : counters_ok c -> room u c ->
  workload_counter t (counter_Decrement 1) (workload_counter t (counter_Increment 1) c) = c.
Proof.
  unfold counters_ok, room. intros. destruct_and!. unfold workload_counter.
  repeat case_decide; destruct c; counters_unfold; cbn in *; try reflexivity;
    f_equal; apply counter_inc_dec; unfold is_u64, W64 in *; lia.
Qed.

(** The workload counter and the resource counters are different fields. *)
Lemma workload_counter_on_units t f g u c :
  workload_counter t f (on_units g u c) = on_units g u (workload_counter t f c).
Proof. unfold workload_counter. by repeat case_decide; destruct c. Qed.

Lemma workload_counter_range t c : counters_ok c ->
  counters_ok (workload_counter t (counter_Increment 1) c).
Proof.
  unfold counters_ok. intros. destruct_and!.
  unfold workload_counter. repeat case_decide; destruct c; counters_unfold; cbn in *;
    split_and!; try assumption; apply u64_range.
Qed.

(** The memory counter. *)
Lemma MRU_workload_counter t f c : MRU (workload_counter t f c) = MRU c.
Proof. unfold workload_counter. by repeat case_decide. Qed.

Lemma MRU_Increment r c : MRU (fst (Increment r c)) =
  match units r with Ok u => counter_Increment (u_MRU u) (MRU c) | _ => MRU c end.
Proof. rewrite Increment_eq. destruct (units r); cbn; by rewrite MRU_workload_counter. Qed.

Lemma MRU_Decrement r c : MRU (fst (Decrement r c)) =
  match units r with Ok u => counter_Decrement (u_MRU u) (MRU c) | _ => MRU c end.
Proof. rewrite Decrement_eq. destruct (units r); cbn; by rewrite MRU_workload_counter. Qed.

(** Only containers and virtual machines take memory. *)
Lemma units_MRU r u : units r = Ok u ->
  is_u64 (u_MRU u) /\
  (r_Type r = ContainerReservation \/ r_Type r = KubernetesReservation \/
   r_Type r = VirtualMachineReservation \/ u_MRU u = 0).
Proof.
  unfold units, processVolume, processContainer, processZdb, processKubernetes, processVM.
  assert (is_u64 0) by (unfold is_u64, W64; lia). intros Hu.
  repeat case_decide; unfold res_map in Hu; repeat case_match; simplify_eq; cbn;
    split; auto 6; apply u64_range || apply getResourceRequirement_ok.
Qed.

End statser_lemmas.

Section cas_lemmas.
  Import Cas.

(** What holds of every state a set of goroutines reaches. *)
Definition cas_inv (c : Z) (calls : list (list op)) (s : state) : Prop :=
  value s = foldl apply_op c (log s) /\
  log s ++ all_pending (threads s) ≡ₚ concat calls /\
  forall i t, threads s !! i = Some t ->
    exists d, calls !! i = Some (d ++ pending t) /\ d `sublist_of` log s.

Lemma cas_inv_init c calls : cas_inv c calls (init c calls).
Proof.
  unfold cas_inv, init, all_pending. cbn. split_and!; [done| |].
  - rewrite <- list_fmap_compose. by rewrite (list_fmap_ext _ id), list_fmap_id.
  - intros i t Ht. apply list_lookup_fmap_Some in Ht as (ops & -> & Hops).
    exists []. split; [done|apply sublist_nil_l].
Qed.

(** A thread moves without completing a call. *)
Lemma cas_inv_stutter c calls s i t t' : cas_inv c calls s ->
  threads s !! i = Some t -> pending t' = pending t ->
  cas_inv c calls (MkState (value s) (<[i := t']> (threads s)) (log s)).
Proof.
  intros (Hv & Hp & Hord) Hi Heq. unfold cas_inv. cbn. split_and!; [done| |].
  - destruct (concat_fmap_insert pending _ i t t' Hi) as (rest & H1 & H2).
    by rewrite H2, Heq, <- H1.
  - intros j tj Hj. apply list_lookup_insert_Some in Hj as [(-> & <- & _)|[_ Hj]];
      [rewrite Heq|]; by apply Hord.
Qed.

(** A thread completes its first call. *)
Lemma cas_inv_commit c calls s i t o ops v : cas_inv c calls s ->
  threads s !! i = Some t -> pending t = o :: ops -> v = apply_op (value s) o ->
  cas_inv c calls (MkState v (<[i := Calls ops]> (threads s)) (log s ++ [o])).
Proof.
  intros (Hv & Hp & Hord) Hi Heq ->. unfold cas_inv. cbn. split_and!.
  - by rewrite foldl_app, <- Hv.
  - destruct (concat_fmap_insert pending _ i t (Calls ops) Hi) as (rest & H1 & H2).
    rewrite H2. rewrite H1, Heq in Hp. by rewrite <- (assoc_L (++)).
  - intros j tj Hj. apply list_lookup_insert_Some in Hj as [(-> & <- & _)|[_ Hj]].
    + destruct (Hord _ _ Hi) as (d & Hd & Hsub). exists (d ++ [o]).
      rewrite <- (assoc_L (++)). cbn. rewrite <- Heq. split; [done|].
      by apply sublist_app.
    + destruct (Hord _ _ Hj) as (d & Hd & Hsub). exists d. split; [done|].
      by apply sublist_inserts_r.
Qed.

Lemma cas_inv_step c calls s s' : cas_inv c calls s -> step s s' -> cas_inv c calls s'.
Proof.
  intros Hinv Hstep. destruct Hstep as [i v ops s Hi|i v ops s Hi|i v cur ops s Hi <- dec|i v cur ops s Hi Hne].
  - by eapply cas_inv_commit.
  - by eapply cas_inv_stutter.
  - by eapply cas_inv_commit.
  - by eapply cas_inv_stutter.
Qed.

Lemma cas_inv_reachable c calls s : rtc step (init c calls) s -> cas_inv c calls s.
Proof.
  intros Hr. pose proof (cas_inv_init c calls) as H0.
  induction Hr; [done|]. eauto using cas_inv_step.
Qed.

End cas_lemmas.

(** ** Properties *)

Section statser_properties.
  Context `{Decoders}.

(** Counting a workload and counting it back is the identity on counters that
    do not wrap. *)
Lemma Increment_Decrement r c :
  counters_ok c ->
  (forall u, units r = Ok u -> units_ok u) ->
  room (match units r with Ok u => u | _ => no_units end) c ->
  fst (Decrement r (fst (Increment r c))) = c.
Proof.
  intros Hc Hu Hr. rewrite Increment_eq, Decrement_eq.
  destruct (units r) as [u|e|m]; cbn [fst] in *;
    [|by eapply workload_counter_inc_dec..].
  rewrite workload_counter_on_units.
  rewrite (workload_counter_inc_dec (r_Type r) u) by assumption.
  apply on_units_inc_dec; auto.
Qed.

(** The memory admission check accepts a workload exactly when its data decodes
    and the memory it asks for, with the overhead of virtual machines, is within
    the usable memory; only containers, kubernetes nodes and virtual machines
    ask for memory. *)
Lemma CheckMemoryRequirements_spec r usable :
  0 <= usable ->
  CheckMemoryRequirements r usable = Ok tt <->
  (r_Type r = ContainerReservation \/ r_Type r = KubernetesReservation \/
   r_Type r = VirtualMachineReservation ->
   exists u, units r = Ok u /\ u_MRU u <= usable).
Proof.
  intros Hus. unfold CheckMemoryRequirements, units.
  assert (Hchk : forall u : resourceUnits,
    (if negb (u_MRU u =? 0) && (usable <? u_MRU u)
     then Err (ErrMsg "not enough free resources to support this memory size")
     else Ok tt) = Ok tt <-> u_MRU u <= usable).
  { intros u. destruct (Z.eqb_spec (u_MRU u) 0), (Z.ltb_spec usable (u_MRU u)); cbn;
      split; (done || lia). }
  assert (Hreq : forall req : res resourceUnits,
    match req with
    | Ok u => if negb (u_MRU u =? 0) && (usable <? u_MRU u)
              then Err (ErrMsg "not enough free resources to support this memory size")
              else Ok tt
    | Err e => Err e
    | Panic m => Panic m
    end = Ok tt <-> exists u, req = Ok u /\ u_MRU u <= usable).
  { intros [u|e|m]; [rewrite Hchk|..]; split; try done; try naive_solver. }
  rewrite Hreq. clear Hreq Hchk.
  destruct (decide (r_Type r = ContainerReservation)) as [E|N1];
    [|destruct (decide (r_Type r = KubernetesReservation)) as [E|N2];
      [|destruct (decide (r_Type r = VirtualMachineReservation)) as [E|N3]]].
  4: { split; [intros _ [|[|]]; done|intros _; exists no_units; split; [done|cbn; lia]]. }
  all: rewrite E; split; [intros Hex _; exact Hex|intros Hex; apply Hex; tauto].
Qed.

End statser_properties.

(** C37 (equivalence): the two tables of the standard virtual machine sizes
    agree: for a size from 1 to 18 the accounting charges exactly the cpus and
    the disk the machine is started with, and its memory plus the overhead of
    5%, at most 1 GiB. *)
Theorem vmSize_accounted vm cpu mem disk :
  1 <= vm_Size vm <= 18 ->
  vmSize vm = Ok (cpu, mem, disk) ->
  getResourceRequirement vm =
    MkUnits (disk * mib) 0 (mem * mib + Z.min gib (mem * mib * 5 / 100)) cpu.
Proof.
  destruct vm as [z custom]. cbn [vm_Size]. intros Hs.
  assert (z = 1 \/ z = 2 \/ z = 3 \/ z = 4 \/ z = 5 \/ z = 6 \/ z = 7 \/ z = 8 \/ z = 9 \/
          z = 10 \/ z = 11 \/ z = 12 \/ z = 13 \/ z = 14 \/ z = 15 \/ z = 16 \/ z = 17 \/
          z = 18) as Hz by lia. clear Hs.
  destruct_or! Hz; subst z; intros [= <- <- <-]; reflexivity.
Qed.

Lemma vmSize_accounted_witness :
  let vm := MkVM 7 (MkCustom 0 (MkF64 0 0) (MkF64 0 0)) in
  getResourceRequirement vm =
    MkUnits (102400 * mib) 0 (16384 * mib + Z.min gib (16384 * mib * 5 / 100)) 4.
Proof. intros vm. apply (vmSize_accounted vm); [cbn; lia|reflexivity]. Defined.

Lemma cas_done_log c calls s : cas_inv c calls s -> Cas.done_ s -> Cas.log s ≡ₚ concat calls.
Proof.
  intros (_ & Hp & _) Hd. unfold Cas.done_ in Hd. rewrite Forall_lookup in Hd.
  rewrite <- Hp. replace (Cas.all_pending (Cas.threads s)) with (@nil Cas.op); [by rewrite app_nil_r|].
  symmetry. unfold Cas.all_pending. apply concat_nil_Forall, Forall_fmap, Forall_lookup.
  intros i t Ht. cbn. by rewrite (Hd _ _ Ht).
Qed.

(** C27 (invariant): the lock-free counter is linearizable. Whatever way
    goroutines interleave, the counter always holds what the calls that took
    effect, one after the other in the order of the log, make of its initial
    value; when all have finished the log holds every call exactly once, those
    of each goroutine in the order it made them. No decrement is lost, doubled
    or applied to a stale value. *)
Theorem counter_linearizable c calls s :
  rtc Cas.step (Cas.init c calls) s ->
  Cas.value s = foldl Cas.apply_op c (Cas.log s) /\
  (Cas.done_ s ->
   Cas.log s ≡ₚ concat calls /\
   Forall (fun ops => ops `sublist_of` Cas.log s) calls).
Proof.
  intros Hr. assert (Hlen : length (Cas.threads s) = length calls).
  { assert (H0 : length (Cas.threads (Cas.init c calls)) = length calls)
      by apply length_fmap.
    induction Hr as [|x y z Hs _ IH]; [done|]. apply IH.
    destruct Hs; cbn; by rewrite length_insert. }
  apply cas_inv_reachable in Hr as Hinv. pose proof Hinv as (Hv & _ & Hord). split; [done|].
  intros Hd. split; [by eapply cas_done_log|]. unfold Cas.done_ in Hd. rewrite Forall_lookup in Hd.
  - apply Forall_lookup. intros i ops Hi.
    destruct (lookup_lt_is_Some_2 (Cas.threads s) i) as [t Ht].
    { rewrite Hlen. by eapply lookup_lt_Some. }
    destruct (Hord _ _ Ht) as (d & Hops & Hsub). rewrite (Hd _ _ Ht), app_nil_r in Hops.
    by simplify_eq.
Qed.

(** *** Termination

    A measure that every step makes smaller: the calls that are left, and, as
    long as the value stays, how far each goroutine is in its loop. *)

Definition weight (v : Z) (t : Cas.thread) : nat :=
  match t with
  | Cas.Calls _ => 1
  | Cas.Loaded _ current _ => if decide (current = v) then 0 else 2
  end.

Definition calls_left (ts : list Cas.thread) : nat := sum_list_with (fun t => length (Cas.pending t)) ts.
Definition weights (v : Z) (ts : list Cas.thread) : nat := sum_list_with (weight v) ts.

Definition cas_measure (s : Cas.state) : nat :=
  calls_left (Cas.threads s) * (2 * length (Cas.threads s) + 1) + weights (Cas.value s) (Cas.threads s).

Lemma sum_list_with_insert {A} (f : A -> nat) l i x y : l !! i = Some x ->
  (sum_list_with f (<[i := y]> l) + f x = sum_list_with f l + f y)%nat.
Proof.
  revert i. induction l as [|z l IH]; intros i Hi; [done|]. destruct i as [|i]; cbn in *.
  - injection Hi as ->. lia.
  - specialize (IH i Hi).
    change (f z + sum_list_with f (<[i := y]> l) + f x = f z + sum_list_with f l + f y)%nat. lia.
Qed.

Lemma weights_bound v ts : (weights v ts <= 2 * length ts)%nat.
Proof.
  induction ts as [|t ts IH]; cbn; [lia|]. unfold weights in IH.
  assert (weight v t <= 2)%nat by (destruct t; cbn; [lia|]; case_decide; lia). lia.
Qed.

Lemma cas_measure_step s s' : Cas.step s s' ->
  length (Cas.threads s') = length (Cas.threads s) /\ (cas_measure s' < cas_measure s)%nat.
Proof.
  intros Hstep. unfold cas_measure, calls_left, weights.
  destruct Hstep as [i v ops s Hi|i v ops s Hi|i v current ops s Hi Hv|i v current ops s Hi Hv];
    cbn [Cas.threads Cas.value]; rewrite length_insert; (split; [done|]);
    match goal with |- context [<[i := ?t']> _] =>
      pose proof (sum_list_with_insert (fun t => length (Cas.pending t)) _ i _ t' Hi) as Hp;
      pose proof (sum_list_with_insert (weight (Cas.value s)) _ i _ t' Hi) as Hw
    end; cbn [Cas.pending length weight] in Hp, Hw;
    rewrite ?decide_True, ?decide_False in Hw by done.
  1,3: match goal with |- context [sum_list_with (weight ?v) ?ts] =>
         pose proof (weights_bound v ts) as Hb; rewrite length_insert in Hb; unfold weights in Hb end; nia.
  all: lia.
Qed.

Lemma cas_measure_nsteps n s s' : nsteps Cas.step n s s' -> (cas_measure s' + n <= cas_measure s)%nat.
Proof.
  induction 1 as [|n x y z Hstep _ IH]; [lia|]. apply cas_measure_step in Hstep as [_ Hlt]. lia.
Qed.

Lemma cas_measure_init c calls :
  cas_measure (Cas.init c calls) = (length (concat calls) * (2 * length calls + 1) + length calls)%nat.
Proof.
  unfold cas_measure. cbn [Cas.threads Cas.value Cas.init]. rewrite length_fmap.
  assert (Hc : calls_left (Cas.Calls <$> calls) = length (concat calls)).
  { induction calls as [|l calls IH]; [done|]. cbn [concat]. rewrite length_app, <- IH. done. }
  assert (Hw : weights c (Cas.Calls <$> calls) = length calls).
  { clear Hc. induction calls as [|l calls IH]; [done|]. cbn [length]. rewrite <- IH. done. }
  by rewrite Hc, Hw.
Qed.

(** A goroutine with calls left can always go on. *)
Lemma cas_stuck_done s : (forall s', ~ Cas.step s s') -> Cas.done_ s.
Proof.
  intros Hstop. apply Forall_lookup. intros i t Hi.
  destruct t as [[|[v|v] ops]|v current ops]; [done|exfalso..].
  - by eapply Hstop, Cas.step_add.
  - by eapply Hstop, Cas.step_load.
  - destruct (decide (Cas.value s = current));
      [by eapply Hstop, Cas.step_swap|by eapply Hstop, Cas.step_retry].
Qed.

(** C40 (termination): the loop of the counter ends whatever the goroutines do.
    From the start no execution is longer than a bound that grows with the
    number of calls times the number of goroutines, though nothing bounds how
    often one of them has to retry but the calls of the others; and an
    execution that cannot go on has made all the calls. *)
Theorem counter_terminates c calls :
  (forall n s, nsteps Cas.step n (Cas.init c calls) s ->
    (n <= length (concat calls) * (2 * length calls + 1) + length calls)%nat) /\
  (forall s, rtc Cas.step (Cas.init c calls) s -> (forall s', ~ Cas.step s s') ->
    Cas.done_ s /\ Cas.log s ≡ₚ concat calls).
Proof.
  split.
  - intros n s Hn. apply cas_measure_nsteps in Hn. rewrite cas_measure_init in Hn. lia.
  - intros s Hr Hstop. apply cas_stuck_done in Hstop. split; [done|].
    by eapply cas_done_log; [apply cas_inv_reachable|].
Qed.

Lemma counter_terminates_witness :
  (forall n s, nsteps Cas.step n (Cas.init 1 [[Cas.OpDec 5]; [Cas.OpInc 3]]) s -> (n <= 12)%nat) /\
  exists s, rtc Cas.step (Cas.init 1 [[Cas.OpInc 3]]) s /\ Cas.log s ≡ₚ [Cas.OpInc 3].
Proof.
  split; [exact (proj1 (counter_terminates 1 [[Cas.OpDec 5]; [Cas.OpInc 3]]))|].
  eexists. split; [eapply rtc_l; [apply (Cas.step_add 0 3 []); reflexivity|apply rtc_refl]|].
  refine (proj2 (proj2 (counter_terminates 1 [[Cas.OpInc 3]]) _ _ _)).
  - eapply rtc_l; [apply (Cas.step_add 0 3 []); reflexivity|apply rtc_refl].
  - intros s' Hs. inversion Hs as [i v ops ? Hi|i v ops ? Hi|i v cur ops ? Hi|i v cur ops ? Hi]; subst;
      destruct i as [|[|i]]; cbn in Hi; discriminate.
Defined.

Lemma counter_linearizable_witness :
  let s := Cas.MkState 0 [Cas.Calls []; Cas.Calls []] [Cas.OpInc 3; Cas.OpDec 5] in
  Cas.value s = foldl Cas.apply_op 1 (Cas.log s) /\
  Cas.log s ≡ₚ concat [[Cas.OpDec 5]; [Cas.OpInc 3]].
Proof.
  intros s.
  (* the second goroutine's increment comes between the load and the swap of
     the first one's decrement, which then retries *)
  destruct (counter_linearizable 1 [[Cas.OpDec 5]; [Cas.OpInc 3]] s) as [Hv Hd].
  - eapply rtc_l; [apply (Cas.step_load 0 5 []); reflexivity|].
    eapply rtc_l; [apply (Cas.step_add 1 3 []); reflexivity|].
    eapply rtc_l; [apply (Cas.step_retry 0 5 1 []); [reflexivity|discriminate]|].
    eapply rtc_l; [apply (Cas.step_load 0 5 []); reflexivity|].
    eapply rtc_l; [apply (Cas.step_swap 0 5 4 []); reflexivity|].
    apply rtc_refl.
  - split; [exact Hv|]. apply Hd. repeat constructor.
Defined.
