(* ===== verification/Versioned.v ===== *)
(** Versioned data streams: src/pkg/versioned/data.go and version.go.

    A stream is a string: what has not been read yet. Read errors of the
    underlying reader are not modelled, so every error of the version decoder
    is one of those that data.go turns into [ErrNotVersioned]. *)

From stdpp Require Import gmap strings list.
From Stdlib Require Import Ascii ZArith Lia.
From S2P Require Import Prelude.

Open Scope Z_scope.

(** ** Decoding a JSON string from a stream *)

Definition dquote : ascii := "034".
Definition backslash : ascii := "092".

Definition is_space (c : ascii) : bool :=
  Ascii.eqb c " " || Ascii.eqb c "009" || Ascii.eqb c "010" || Ascii.eqb c "013".

Fixpoint skip_spaces (s : string) : string :=
  match s with
  | String c s' => if is_space c then skip_spaces s' else s
  | EmptyString => s
  end.

(** Everything up to the closing quote, escapes kept, and the rest of the
    stream. Control characters are not allowed in a JSON string. *)
Fixpoint scan_string (s : string) : option (string * string) :=
  match s with
  | EmptyString => None
  | String c s' =>
      if Ascii.eqb c dquote then Some (EmptyString, s')
      else if Z.of_nat (nat_of_ascii c) <? 32 then None
      else if Ascii.eqb c backslash then
        match s' with
        | EmptyString => None
        | String e s'' =>
            match scan_string s'' with
            | Some (a, rest) => Some (String c (String e a), rest)
            | None => None
            end
        end
      else match scan_string s' with
           | Some (a, rest) => Some (String c a, rest)
           | None => None
           end
  end.

(** A character a JSON string holds without an escape. *)
Definition plain_char (c : ascii) : bool :=
  negb (Ascii.eqb c dquote) && negb (Ascii.eqb c backslash) &&
  (32 <=? Z.of_nat (nat_of_ascii c)).

Fixpoint plain (s : string) : bool :=
  match s with EmptyString => true | String c s' => plain_char c && plain s' end.

(** [unquote] is encoding/json's replacement of escapes in the contents of a
    string literal; it leaves a string of plain characters alone. *)
Class JsonUnquote := {
  unquote : string -> option string;
  unquote_plain s : plain s = true -> unquote s = Some s
}.

(** github.com/blang/semver. *)
Class Semver := {
  Version : Type;
  Parse : string -> res Version;
  ver_String : Version -> string;
  ver_le : Version -> Version -> bool;
  Parse_String v : Parse (ver_String v) = Ok v;
  ver_String_plain v : plain (ver_String v) = true
}.

Section versioned.
  Context `{JsonUnquote} `{Semver}.

(** [json.NewDecoder(r).Decode(&ver)] and [dec.Buffered()] with what is left
    of the reader: [None] when the first value is not a string. *)
Definition decode_string (s : string) : option (string * string) :=
  match skip_spaces s with
  | String c s' =>
      if Ascii.eqb c dquote then
        match scan_string s' with
        | Some (raw, rest) => option_map (fun v => (v, rest)) (unquote raw)
        | None => None
        end
      else None
  | EmptyString => None
  end.

(** [json.Marshal(version)]: the version as a JSON string. *)
Definition marshal_version (v : Version) : string :=
  String dquote (ver_String v +:+ String dquote EmptyString).

Definition IsNotVersioned (e : error) : bool :=
  match Cause e with ErrNotVersioned => true | _ => false end.

Definition MustParse (s : string) : res Version :=
  match Parse s with
  | Ok v => Ok v
  | _ => Panic "semver: Parse"
  end.

(** The version and the rest of the stream. *)
Definition NewReader (s : string) : res (Version * string) :=
  match decode_string s with
  | None => Err ErrNotVersioned
  | Some (ver, rest) =>
      match Parse ver with
      | Ok v => Ok (v, rest)
      | _ => Err (ErrWrap "version" ErrNotVersioned)
      end
  end.

(** What the writer has written once it is created. *)
Definition NewWriter (v : Version) : string := marshal_version v.

(** The content of an existing file. *)
Definition ReadFile (zero : Version) (all : string) : (Version * string) * option error :=
  match NewReader all with
  | Ok (v, data) => ((v, data), None)
  | _ => ((zero, all), Some ErrNotVersioned)
  end.

(** The file is truncated, then the version and the data are written. *)
Definition WriteFile (v : Version) (data : string) : string := NewWriter v +:+ data.

(** ** Lemmas *)

Lemma scan_plain s rest : plain s = true ->
  scan_string (s +:+ String dquote rest) = Some (s, rest).
Proof.
  induction s as [|c s IH]; intros Hp; [reflexivity|].
  change (String c s +:+ String dquote rest) with (String c (s +:+ String dquote rest)).
  cbn [plain] in Hp. unfold plain_char in Hp.
  rewrite !andb_true_iff, !negb_true_iff, Z.leb_le in Hp.
  destruct Hp as [[[Hq Hb] Hc] Hp]. cbn [scan_string]. rewrite Hq, Hb, (IH Hp).
  by destruct (Z.ltb_spec (Z.of_nat (nat_of_ascii c)) 32); [lia|].
Qed.

Lemma decode_marshal_version v rest :
  decode_string (marshal_version v +:+ rest) = Some (ver_String v, rest).
Proof.
  unfold decode_string, marshal_version.
  change (String dquote (ver_String v +:+ String dquote EmptyString) +:+ rest)
    with (String dquote ((ver_String v +:+ String dquote EmptyString) +:+ rest)).
  replace ((ver_String v +:+ String dquote EmptyString) +:+ rest)
    with (ver_String v +:+ String dquote rest).
  - change (skip_spaces (String dquote ?x)) with (String dquote x).
    cbn [skip_spaces is_space Ascii.eqb]. rewrite Ascii.eqb_refl, scan_plain by apply ver_String_plain.
    by rewrite unquote_plain by apply ver_String_plain.
  - induction (ver_String v) as [|c s IH]; [done|].
    change (String c (s +:+ String dquote rest) =
            String c ((s +:+ String dquote EmptyString) +:+ rest)). by f_equal.
Qed.

Lemma NewReader_NewWriter v rest : NewReader (NewWriter v +:+ rest) = Ok (v, rest).
Proof.
  unfold NewReader, NewWriter. rewrite decode_marshal_version. by rewrite Parse_String.
Qed.

(** ** Properties *)

(** Reading a file that was written with a version gives back
    that version and exactly the bytes of the data, whatever they are. *)
Theorem ReadFile_WriteFile zero v data :
  ReadFile zero (WriteFile v data) = ((v, data), None).
Proof. unfold ReadFile, WriteFile. by rewrite NewReader_NewWriter. Qed.

(** A stream that does not start with a JSON string is reported
    as not versioned, which [IsNotVersioned] recognises, and so is one whose
    string is not a version. *)
Lemma NewReader_not_versioned s e :
  NewReader s = Err e -> IsNotVersioned e = true.
Proof.
  unfold NewReader. destruct (decode_string s) as [[ver rest]|]; [|by intros [= <-]].
  destruct (Parse ver) as [v|e'|m]; [done|by intros [= <-]..].
Qed.

End versioned.

(** ** A concrete instance, to run the definitions with *)

(** Strings without escapes. *)
Definition demo_unquote (s : string) : option string := if plain s then Some s else None.

Lemma demo_unquote_plain s : plain s = true -> demo_unquote s = Some s.
Proof. unfold demo_unquote. by intros ->. Qed.

Definition demo_JsonUnquote : JsonUnquote :=
  {| unquote := demo_unquote; unquote_plain := demo_unquote_plain |}.

(** Three versions. *)
Inductive demo_version := V0 | V1 | V2.

Definition demo_ver_String (v : demo_version) : string :=
  match v with V0 => "0.0.0" | V1 => "1.0.0" | V2 => "2.0.0" end.

Definition demo_Parse (s : string) : res demo_version :=
  if decide (s = "0.0.0") then Ok V0
  else if decide (s = "1.0.0") then Ok V1
  else if decide (s = "2.0.0") then Ok V2
  else Err (ErrMsg "No Major.Minor.Patch elements found").

Definition demo_ver_le (a b : demo_version) : bool :=
  match a, b with V0, _ => true | V1, V0 => false | V1, _ => true | V2, V2 => true | V2, _ => false end.

Lemma demo_Parse_String v : demo_Parse (demo_ver_String v) = Ok v.
Proof. by destruct v. Qed.

Lemma demo_ver_String_plain v : plain (demo_ver_String v) = true.
Proof. by destruct v. Qed.

Definition demo_Semver : Semver := {|
  Version := demo_version;
  Parse := demo_Parse;
  ver_String := demo_ver_String;
  ver_le := demo_ver_le;
  Parse_String := demo_Parse_String;
  ver_String_plain := demo_ver_String_plain
|}.

(** The laws of the JSON decoder and of semver hold of these. *)
Lemma ReadFile_WriteFile_witness :
  let H := demo_JsonUnquote in let H0 := demo_Semver in
  ReadFile V0 (WriteFile V2 "data") = ((V2, "data"), None).
Proof. intros H H0. exact (@ReadFile_WriteFile H H0 V0 V2 "data"). Defined.

