(* ===== verification/Cache.v ===== *)
(** The reservation cache of the provision engine:
    src/pkg/provision/primitives/cache/cache.go, and the first-boot marker of
    src/pkg/app/boot.go it starts from.

    The cache is a directory with one file per reservation, named by the
    reservation id; the file holds the schema version and the reservation as
    JSON. The state is that directory; [path.Join(root, id)] is the entry of
    that name. Calls of the file system fail only the way POSIX says they do
    on such a directory (an entry that exists, that is missing, that is a
    directory): a failing disk is not modelled. The methods take the lock of
    the store for their whole body, so they run one at a time.

    [CacheOps] and [CacheLaws] are what the engine uses of the cache
    ([provision.ReservationCache]); [Fs_CacheLaws] shows that the directory
    keeps those laws. *)

From stdpp Require Import gmap strings list.
From Stdlib Require Import Ascii ZArith Lia.
From S2P Require Import Prelude Reservation Counters Versioned.

Open Scope Z_scope.

(** ** The interface *)

(** The tag of a reservation is not part of its JSON. *)
Definition strip_tag (r : Reservation) : Reservation :=
  MkReservation (r_ID r) (r_NodeID r) (r_User r) (r_Type r) (r_Data r) (r_Created r)
    (r_Duration r) (r_Signature r) (r_ToDelete r) ∅ (r_Reference r)
    (r_Result r) (r_Version r).

Class CacheOps (C : Type) := {
  cache_Add : Reservation -> M C unit;
  cache_Get : string -> M C Reservation;
  cache_Remove : string -> M C unit;
  cache_Exists : string -> M C bool;
  cache_NetworkExists : string -> M C bool
}.

(** [cache_abs] is the map of reservations a cache stands for, [cache_inv]
    what holds of a cache whose every entry can be read, [cache_storable] what
    a reservation needs to be written. *)
Class CacheLaws (C : Type) `{CacheOps C} := {
  cache_inv : C -> Prop;
  cache_abs : C -> gmap string Reservation;
  cache_storable : Reservation -> Prop;
  cache_Get_found c id r : cache_inv c -> cache_abs c !! id = Some r ->
    cache_Get id c = (c, Ok r);
  cache_Get_missing c id : cache_inv c -> cache_abs c !! id = None ->
    exists e, cache_Get id c = (c, Err e);
  cache_Add_new c r : cache_inv c -> cache_storable r -> cache_abs c !! r_ID r = None ->
    exists c', cache_Add r c = (c', Ok tt) /\ cache_inv c' /\
               cache_abs c' = <[r_ID r := strip_tag r]> (cache_abs c);
  cache_Add_taken c r : cache_inv c -> is_Some (cache_abs c !! r_ID r) ->
    exists e, cache_Add r c = (c, Err e);
  cache_Remove_spec c id : cache_inv c ->
    exists c', cache_Remove id c = (c', Ok tt) /\ cache_inv c' /\
               cache_abs c' = delete id (cache_abs c);
  cache_Exists_spec c id : cache_inv c ->
    cache_Exists id c = (c, Ok (bool_decide (is_Some (cache_abs c !! id))));
  cache_NetworkExists_pure c id : cache_inv c ->
    exists r, cache_NetworkExists id c = (c, r) /\ (forall m, r <> Panic m);
  cache_NetworkExists_none c id : cache_inv c ->
    (forall id' r, cache_abs c !! id' = Some r -> r_Type r <> NetworkReservation) ->
    cache_NetworkExists id c = (c, Ok false)
}.

(** ** Encoding of a reservation *)

(** [json.Encoder.Encode] and [json.Decoder.Decode] on reservations. Encoding
    fails on data that is not JSON; decoding reads the first value of the
    stream and leaves what follows. *)
Class ReservationJson := {
  encode : Reservation -> option string;
  decode : string -> option Reservation;
  encodable : Reservation -> Prop;
  decode_encode r : encodable r ->
    exists s, encode r = Some s /\ forall rest, decode (s +:+ rest) = Some (strip_tag r)
}.

(** The part of [pkg.NetResource] the cache reads: its name. *)
Class NetDecoder := dec_NetResource_Name : string -> res string.

(** ** The directory *)

Inductive entry := File (content : string) | Dir.

Record Fs := MkFs {
  (** the entries of the root directory, or nothing when it does not exist *)
  fs_root : option (gmap string entry);
  (** /var/run/modules/provisiond exists *)
  fs_booted : bool
}.

Definition set_root (d : option (gmap string entry)) (s : Fs) : Fs := MkFs d (fs_booted s).

Definition IsFirstBoot (s : Fs) : bool := negb (fs_booted s).

(** The marker is created with O_EXCL. *)
Definition MarkBooted : M Fs unit := fun s =>
  if fs_booted s then (s, Err ErrExist) else (MkFs (fs_root s) true, Ok tt).

Definition MkdirAll : M Fs unit := modify (fun s => set_root (Some (default ∅ (fs_root s))) s).

Definition lookup_entry (id : string) (s : Fs) : option entry := d ← fs_root s; d !! id.

(** [ioutil.ReadDir]: the entries sorted by name. *)
Definition by_name {A} (a b : string * A) : bool := String.ltb (fst a) (fst b).

Definition ReadDir (s : Fs) : res (list (string * entry)) :=
  match fs_root s with
  | None => Err ErrNotExist
  | Some d => Ok (insertion_sort by_name (map_to_list d))
  end.

(** [os.OpenFile(path, O_CREATE|O_WRONLY [|O_EXCL])]: the content the file
    starts with. There is no O_TRUNC. *)
Definition OpenFile (excl : bool) (id : string) : M Fs string := fun s =>
  match lookup_entry id s with
  | None => (set_root (Some (<[id := File ""]> (default ∅ (fs_root s)))) s, Ok "")
  | Some e =>
      if excl then (s, Err ErrExist)
      else match e with File c => (s, Ok c) | Dir => (s, Err ErrIsDir) end
  end.

(** Writing [data] at the start of a file whose content is [old]. *)
Definition overwrite (old data : string) : string :=
  data +:+ String.substring (String.length data) (String.length old - String.length data) old.

Definition write_file (id data : string) : M Fs unit :=
  modify (fun s => match fs_root s with
                   | None => s
                   | Some d => set_root (Some (<[id := File data]> d)) s
                   end).

(** [os.Remove]: a directory below the root is removed when it is empty, which
    the directories here are. *)
Definition os_Remove (id : string) : M Fs unit := fun s =>
  match lookup_entry id s with
  | None => (s, Err ErrNotExist)
  | Some _ => (set_root (delete id <$> fs_root s) s, Ok tt)
  end.

Section cache.
  Context `{JsonUnquote} `{Semver} `{ReservationJson} `{NetDecoder} `{NetHash}
    `{ResultStates} `{Decoders}.

(** The schema version 1.0.0. *)
Variable reservationSchemaV1 : Version.

(** ** Operations *)

(** When the file is not versioned the reader is replaced by one of version
    0.0.0, but the error of [NewReader] is still set and is returned next. *)
Definition get (id : string) : M Fs Reservation := fun s =>
  match lookup_entry id s with
  | None => (s, Err (ErrWrap ("reservation " +:+ id +:+ " not found") ErrNotExist))
  | Some Dir => (s, Err ErrIsDir)
  | Some (File content) =>
      match NewReader content with
      | Err e => (s, Err e)
      | Panic m => (s, Panic m)
      | Ok (version, rest) =>
          if ver_le version reservationSchemaV1 then
            match decode rest with
            | Some r => (s, Ok r)
            | None => (s, Err (ErrMsg "json"))
            end
          else (s, Err (ErrMsg "unknown reservation object version"))
      end
  end.

Definition Get (id : string) : M Fs Reservation := get id.

Definition getType (id : string) : M Fs ReservationType :=
  r ← get id; mret (r_Type r).

Definition add (r : Reservation) (update : bool) : M Fs unit :=
  MkdirAll ;;
  opened ← try (OpenFile (negb update) (r_ID r));
  match opened with
  | inr ErrExist => throw (ErrMsg ("reservation " +:+ r_ID r +:+ " already in the store"))
  | inr e => throw e
  | inl old =>
      let header := NewWriter reservationSchemaV1 in
      match encode r with
      | Some body => write_file (r_ID r) (overwrite old (header +:+ body))
      | None => write_file (r_ID r) (overwrite old header) ;; throw (ErrMsg "json")
      end
  end.

Definition Add (r : Reservation) : M Fs unit := add r false.

Definition Remove (id : string) : M Fs unit :=
  removed ← try (os_Remove id);
  match removed with
  | inr e => if IsNotExist (Cause e) then mret tt else throw e
  | inl _ => mret tt
  end.

Definition Exists (id : string) : M Fs bool := fun s =>
  (s, Ok (bool_decide (is_Some (lookup_entry id s)))).

(** The reservations of the entries that are files, in order; the first one
    that cannot be read is an error. *)
Fixpoint list_entries (infos : list (string * entry)) : M Fs (list Reservation) :=
  match infos with
  | [] => mret []
  | (_, Dir) :: infos => list_entries infos
  | (name, File _) :: infos =>
      got ← try (get name);
      match got with
      | inr e => throw (ErrWrap "failed get reservation" e)
      | inl r => rs ← list_entries infos; mret (r :: rs)
      end
  end.

(** Named [list_] because [list] is a type here. *)
Definition list_ : M Fs (list Reservation) := fun s =>
  match ReadDir s with
  | Ok infos => list_entries infos s
  | Err e => (s, Err e)
  | Panic m => (s, Panic m)
  end.

(** The loop of [GetExpired]: an empty file is removed and ends the call, with
    what [os.Remove] returns as the error and no reservations. *)
Fixpoint expired_entries (now : Z) (infos : list (string * entry)) (rs : list Reservation) :
    M Fs (list Reservation) :=
  match infos with
  | [] => mret rs
  | (_, Dir) :: infos => expired_entries now infos rs
  | (name, File c) :: infos =>
      if decide (c = "") then os_Remove name ;; mret []
      else
        r ← get name;
        expired_entries now infos (if Expired now r then rs ++ [r] else rs)
  end.

Definition GetExpired (now : Z) : M Fs (list Reservation) := fun s =>
  match ReadDir s with
  | Ok infos => expired_entries now infos [] s
  | Err e => (s, Err e)
  | Panic m => (s, Panic m)
  end.

(** Only reservations of type "network" are looked at. *)
Fixpoint network_exists (id : string) (rs : list Reservation) : res bool :=
  match rs with
  | [] => Ok false
  | r :: rs =>
      if decide (r_Type r = NetworkReservation) then
        match dec_NetResource_Name (r_Data r) with
        | Ok name => if decide (NetworkID (r_User r) name = id) then Ok true
                     else network_exists id rs
        | Err e => Err (ErrWrap "failed to unmarshal network from reservation" e)
        | Panic m => Panic m
        end
      else network_exists id rs
  end.

Definition NetworkExists (id : string) : M Fs bool :=
  rs ← list_; lift (network_exists id rs).

(** First loop of [incrementCounters]: workloads that are not networks are
    counted; the first reservation of each network is kept in a map, here the
    list of its entries. *)
Fixpoint count_workloads (now : Z) (rs : list Reservation)
    (unique : list (string * Reservation)) : M Counters (list (string * Reservation)) :=
  match rs with
  | [] => mret unique
  | r :: rs =>
      if Expired now r || negb (res_State (r_Result r) =? StateOk)
      then count_workloads now rs unique
      else if decide (r_Type r = NetworkResourceReservation \/ r_Type r = NetworkReservation) then
        match dec_NetResource_Name (r_Data r) with
        | Ok name =>
            let netID := NetworkID (r_User r) name in
            if decide (netID ∈ unique.*1) then count_workloads now rs unique
            else count_workloads now rs (unique ++ [(netID, r)])
        | Err e => throw (ErrWrap "failed to unmarshal network from reservation" e)
        | Panic m => panic m
        end
      else
        wrap "fail to update stats" (Increment r) ;; count_workloads now rs unique
  end.

(** Go iterates over the map in any order; the counter a network moves does
    not depend on it. *)
Definition incrementCounters (now : Z) : Fs -> M Counters unit := fun s =>
  match snd (list_ s) with
  | Ok rs =>
      unique ← count_workloads now rs [];
      for_each (fun kr => wrap "fail to update stats" (Increment (snd kr))) unique
  | Err e => throw e
  | Panic m => panic m
  end.

(** [Sync] updates the statser with all reservations in the cache. *)
Definition Sync (now : Z) : Fs -> M Counters unit := incrementCounters now.

(** One step of the walk of [removeAllButPersistent], on a file. *)
Definition keep_persistent (name : string) (c : string) : M Fs unit :=
  if decide (c = "") then os_Remove name
  else
    t ← getType name;
    if decide (t = VolumeReservation) then mret tt else os_Remove name.

(** [filepath.Walk] visits the entries in order; directories are left alone
    (the size the file system reports for a directory is taken not to be 0). *)
Definition removeAllButPersistent : M Fs unit := fun s =>
  match ReadDir s with
  | Err _ => (s, Ok tt)
  | Panic m => (s, Panic m)
  | Ok infos =>
      for_each (fun e => match e with
                         | (name, File c) => keep_persistent name c
                         | (_, Dir) => mret tt
                         end) infos s
  end.

(** The result of a workload as the explorer knows it. *)
Class ResultClient := NodeWorkloadGet : string -> res Result.

Fixpoint update_results `{ResultClient} (rs : list Reservation) : M Fs unit :=
  match rs with
  | [] => mret tt
  | r :: rs =>
      if negb (IsNil (r_Result r)) then update_results rs
      else match NodeWorkloadGet (r_ID r) with
           | Ok x =>
               let result := MkResult (r_Type r) (res_ID x) (res_Created x) (res_State x)
                               (res_Error x) (res_Data x) (res_Signature x) in
               ignore (add (set_Result result r) true) ;; update_results rs
           | Err _ => update_results rs
           | Panic m => panic m
           end
  end.

Definition updateReservationResults `{ResultClient} : M Fs unit :=
  rs ← list_; update_results rs.

Definition NewFSStore `{ResultClient} : M Fs unit := fun s =>
  ((if IsFirstBoot s then
      removeAllButPersistent ;; wrap "fail to mark provisiond as booted" MarkBooted
    else mret tt) ;;
   MkdirAll ;;
   ignore updateReservationResults) s.

(** ** Lemmas *)

(** The reservation a file holds. *)
Definition decodes (c : string) : option Reservation :=
  match NewReader c with
  | Ok (v, rest) => if ver_le v reservationSchemaV1 then decode rest else None
  | _ => None
  end.

(** Every entry of the store is a file that can be read. *)
Definition fs_inv (s : Fs) : Prop :=
  exists d, fs_root s = Some d /\
    forall name e, d !! name = Some e -> exists c r, e = File c /\ decodes c = Some r.

Definition entry_res (e : entry) : option Reservation :=
  match e with File c => decodes c | Dir => None end.

Definition fs_abs (s : Fs) : gmap string Reservation :=
  omap entry_res (default ∅ (fs_root s)).

Lemma lookup_entry_root s d id : fs_root s = Some d -> lookup_entry id s = d !! id.
Proof. unfold lookup_entry. by intros ->. Qed.

Lemma fs_abs_lookup s id : fs_abs s !! id = lookup_entry id s ≫= entry_res.
Proof.
  unfold fs_abs, lookup_entry. rewrite lookup_omap.
  destruct (fs_root s) as [d|]; cbn; [done|]. by rewrite lookup_empty.
Qed.

Lemma fs_inv_lookup s id e : fs_inv s -> lookup_entry id s = Some e ->
  exists c r, e = File c /\ decodes c = Some r.
Proof. intros (d & Hd & Hall) He. unfold lookup_entry in He. rewrite Hd in He. eauto. Qed.

Lemma fs_abs_None s id : fs_inv s -> fs_abs s !! id = None <-> lookup_entry id s = None.
Proof.
  intros Hinv. rewrite fs_abs_lookup. split; [|by intros ->].
  destruct (lookup_entry id s) as [e|] eqn:He; [|done].
  destruct (fs_inv_lookup _ _ _ Hinv He) as (c & r & -> & Hc). cbn. by rewrite Hc.
Qed.

Lemma get_decodes s id c : lookup_entry id s = Some (File c) ->
  forall r, decodes c = Some r -> get id s = (s, Ok r).
Proof.
  intros He r. unfold decodes, get. rewrite He.
  destruct (NewReader c) as [[v rest]|e|m]; try done.
  destruct (ver_le v reservationSchemaV1); [|done]. intros Hdec. by rewrite Hdec.
Qed.

Lemma get_found s id r : fs_inv s -> fs_abs s !! id = Some r -> get id s = (s, Ok r).
Proof.
  intros Hinv. rewrite fs_abs_lookup. destruct (lookup_entry id s) as [e|] eqn:He; [|done].
  destruct (fs_inv_lookup _ _ _ Hinv He) as (c & r' & -> & Hc). cbn. intros Hr.
  by eapply get_decodes.
Qed.

Lemma fs_inv_set s d id c r : fs_root s = Some d -> fs_inv s -> decodes c = Some r ->
  fs_inv (set_root (Some (<[id := File c]> d)) s).
Proof.
  intros Hd (d' & Hd' & Hall) Hc. rewrite Hd in Hd'. injection Hd' as <-.
  eexists. split; [done|]. intros name e He.
  apply lookup_insert_Some in He as [[-> <-]|[_ He]]; eauto.
Qed.

Lemma fs_abs_set s d id c r : fs_root s = Some d -> decodes c = Some r ->
  fs_abs (set_root (Some (<[id := File c]> d)) s) = <[id := r]> (fs_abs s).
Proof.
  intros Hd Hc. unfold fs_abs. cbn. rewrite Hd. by apply omap_insert_Some.
Qed.

Lemma list_entries_spec s infos : fs_inv s ->
  (forall x, x ∈ infos -> lookup_entry (fst x) s = Some (snd x)) ->
  exists rs, list_entries infos s = (s, Ok rs) /\
    Forall2 (fun x r => entry_res (snd x) = Some r) infos rs.
Proof.
  intros Hinv. induction infos as [|[name e] infos IH]; intros Hin.
  { exists []. split; [done|constructor]. }
  destruct IH as (rs & Hrs & Hall); [set_solver|].
  assert (He : lookup_entry name s = Some e) by (apply (Hin (name, e)); set_solver).
  destruct (fs_inv_lookup _ _ _ Hinv He) as (c & r & -> & Hc).
  exists (r :: rs). split; [|by constructor].
  cbn [list_entries]. unfold mbind, M_bind, try.
  rewrite (get_decodes _ _ _ He _ Hc), Hrs. done.
Qed.

Lemma omap_values (d : gmap string entry) :
  omap (fun x => entry_res (snd x)) (map_to_list d) ≡ₚ (map_to_list (omap entry_res d)).*2.
Proof.
  induction d as [|name e d Hnone IH] using map_ind.
  { by rewrite omap_empty, !map_to_list_empty. }
  rewrite map_to_list_insert, omap_insert by done. cbn.
  destruct (entry_res e) as [r|].
  - rewrite map_to_list_insert; [cbn; by rewrite IH|].
    by rewrite lookup_omap, Hnone.
  - rewrite delete_id; [done|]. by rewrite lookup_omap, Hnone.
Qed.

Lemma ReadDir_spec s d : fs_root s = Some d ->
  exists infos, ReadDir s = Ok infos /\ infos ≡ₚ map_to_list d.
Proof.
  intros Hd. unfold ReadDir. rewrite Hd. eexists. split; [done|apply insertion_sort_perm].
Qed.

Lemma ReadDir_lookup s infos x : ReadDir s = Ok infos -> x ∈ infos ->
  lookup_entry (fst x) s = Some (snd x).
Proof.
  unfold ReadDir, lookup_entry. destruct (fs_root s) as [d|]; [|done]. intros [= <-].
  rewrite insertion_sort_perm. destruct x as [n e]. by rewrite elem_of_map_to_list.
Qed.

(** Listing the store reads every reservation in it. *)
Lemma list_spec s : fs_inv s -> exists rs, list_ s = (s, Ok rs) /\
  rs ≡ₚ (map_to_list (fs_abs s)).*2.
Proof.
  intros Hinv. pose proof Hinv as (d & Hd & Hall).
  destruct (ReadDir_spec s d Hd) as (infos & Hinfos & Hperm).
  destruct (list_entries_spec s infos Hinv) as (rs & Hrs & Hf2).
  { intros x. by apply ReadDir_lookup. }
  exists rs. split; [unfold list_; by rewrite Hinfos|].
  unfold fs_abs. rewrite Hd. cbn [default].
  assert (Hf : rs = omap (fun x => entry_res (snd x)) infos).
  { clear -Hf2. induction Hf2 as [|x r xs rs Hx _ IH]; [done|]. cbn. by rewrite Hx, IH. }
  rewrite Hf, Hperm. apply omap_values.
Qed.

Lemma Get_missing s id : fs_inv s -> fs_abs s !! id = None -> exists e, Get id s = (s, Err e).
Proof.
  intros Hinv Hn. apply fs_abs_None in Hn; [|done]. unfold Get, get. rewrite Hn. eauto.
Qed.

Lemma MkdirAll_present s d : fs_root s = Some d -> MkdirAll s = (s, Ok tt).
Proof.
  intros Hd. unfold MkdirAll, modify, set_root. rewrite Hd. cbn. by destruct s; cbn in *; subst.
Qed.

Section writing.
Hypothesis schema_refl : ver_le reservationSchemaV1 reservationSchemaV1 = true.

Lemma decodes_written old body r :
  encode r = Some body ->
  (forall rest, decode (body +:+ rest) = Some (strip_tag r)) ->
  decodes (overwrite old (NewWriter reservationSchemaV1 +:+ body)) = Some (strip_tag r).
Proof.
  intros _ Hdec. unfold decodes, overwrite. rewrite string_app_assoc, NewReader_NewWriter.
  by rewrite schema_refl, Hdec.
Qed.

(** Writing a reservation, new or over what its file holds. *)
Lemma add_written s d r update old :
  fs_root s = Some d -> fs_inv s -> encodable r ->
  (d !! r_ID r = None /\ old = "" \/ d !! r_ID r = Some (File old) /\ update = true) ->
  exists s', add r update s = (s', Ok tt) /\ fs_inv s' /\
             fs_abs s' = <[r_ID r := strip_tag r]> (fs_abs s).
Proof.
  intros Hd Hinv Henc Hcase. destruct (decode_encode r Henc) as (body & Hbody & Hdec).
  pose proof (decodes_written old body r Hbody Hdec) as Hw.
  set (c := overwrite old (NewWriter reservationSchemaV1 +:+ body)) in *.
  exists (set_root (Some (<[r_ID r := File c]> d)) s). split_and!.
  - unfold add, mbind, M_bind. rewrite (MkdirAll_present s d Hd).
    unfold try, OpenFile. rewrite (lookup_entry_root s d (r_ID r) Hd), Hd.
    destruct Hcase as [[Hn ->]|[Hs ->]]; [rewrite Hn|rewrite Hs]; cbn;
      rewrite Hbody; unfold write_file, modify; cbn; rewrite ?Hd; [|done]. unfold set_root.
    by rewrite insert_insert_eq.
  - by eapply fs_inv_set.
  - by apply fs_abs_set.
Qed.

End writing.

Lemma Add_taken s r : fs_inv s -> is_Some (fs_abs s !! r_ID r) -> exists e, Add r s = (s, Err e).
Proof.
  intros Hinv [x Hx]. pose proof Hinv as (d & Hd & _). rewrite fs_abs_lookup in Hx.
  destruct (lookup_entry (r_ID r) s) as [e|] eqn:He; [|done].
  eexists. unfold Add, add, mbind, M_bind. rewrite (MkdirAll_present s d Hd).
  unfold try, OpenFile. by rewrite He.
Qed.

Lemma Remove_spec s id : fs_inv s ->
  exists s', Remove id s = (s', Ok tt) /\ fs_inv s' /\ fs_abs s' = delete id (fs_abs s).
Proof.
  intros Hinv. pose proof Hinv as (d & Hd & Hall). unfold Remove, mbind, M_bind, try, os_Remove.
  destruct (lookup_entry id s) as [e|] eqn:He.
  - rewrite Hd. cbn. eexists. split_and!; [done| |].
    + exists (delete id d). split; [done|]. intros n x [_ Hx]%lookup_delete_Some. eauto.
    + unfold fs_abs. cbn. by rewrite Hd, omap_delete.
  - exists s. split_and!; [done..|]. rewrite delete_id; [done|].
    by apply fs_abs_None.
Qed.

Lemma Exists_spec s id : fs_inv s ->
  Exists id s = (s, Ok (bool_decide (is_Some (fs_abs s !! id)))).
Proof.
  intros Hinv. unfold Exists. do 2 f_equal. apply bool_decide_ext.
  rewrite <- !not_eq_None_Some, fs_abs_None; done.
Qed.

Lemma network_exists_none id rs :
  (forall r, r ∈ rs -> r_Type r <> NetworkReservation) -> network_exists id rs = Ok false.
Proof.
  induction rs as [|r rs IH]; intros Hall; [done|]. cbn.
  rewrite decide_False by (apply Hall; set_solver). apply IH. set_solver.
Qed.

Lemma network_exists_no_panic (Hdec : forall s m, dec_NetResource_Name s <> Panic m) id rs m :
  network_exists id rs <> Panic m.
Proof.
  induction rs as [|r rs IH]; cbn; [done|]. case_decide; [|done].
  specialize (Hdec (r_Data r)). destruct (dec_NetResource_Name (r_Data r)); [|done|by destruct (Hdec msg)].
  by case_decide.
Qed.

Lemma decodes_empty : decodes "" = None.
Proof. done. Qed.

Lemma expired_entries_spec now s infos : fs_inv s ->
  (forall x, x ∈ infos -> lookup_entry (fst x) s = Some (snd x)) -> forall acc,
  expired_entries now infos acc s =
    (s, Ok (acc ++ filter (fun r => Expired now r = true)
                     (omap (fun x => entry_res (snd x)) infos))).
Proof.
  intros Hinv. induction infos as [|[name e] infos IH]; intros Hin acc.
  { cbn. by rewrite app_nil_r. }
  assert (He : lookup_entry name s = Some e) by (apply (Hin (name, e)); set_solver).
  destruct (fs_inv_lookup _ _ _ Hinv He) as (c & r & -> & Hc).
  cbn [expired_entries]. rewrite decide_False by (intros ->; by rewrite decodes_empty in Hc).
  unfold mbind, M_bind. rewrite (get_decodes _ _ _ He _ Hc), IH by set_solver.
  assert (omap (fun x => entry_res (snd x)) ((name, File c) :: infos) =
          r :: omap (fun x => entry_res (snd x)) infos) as -> by (cbn; by rewrite Hc).
  rewrite filter_cons.
  destruct (Expired now r) eqn:E.
  - rewrite decide_True by done. by rewrite <- (assoc_L (++)).
  - by rewrite decide_False by done.
Qed.

(** The walk of the first boot, on entries that are all in the store. *)
Lemma keep_persistent_walk infos : forall s, fs_inv s -> NoDup infos.*1 ->
  (forall x, x ∈ infos -> lookup_entry (fst x) s = Some (snd x)) ->
  exists s', for_each (fun e => match e with
                                | (name, File c) => keep_persistent name c
                                | (_, Dir) => mret tt
                                end) infos s = (s', Ok tt) /\ fs_inv s' /\
    forall id, fs_abs s' !! id =
      r ← fs_abs s !! id;
      if decide (id ∈ infos.*1 /\ r_Type r <> VolumeReservation) then None else Some r.
Proof.
  induction infos as [|[name e] infos IH]; intros s Hinv Hnd Hin.
  { exists s. split_and!; [done..|]. intros id. destruct (fs_abs s !! id); cbn; [|done].
    rewrite decide_False; [done|set_solver]. }
  apply NoDup_cons in Hnd as [Hni Hnd].
  assert (He : lookup_entry name s = Some e) by (apply (Hin (name, e)); set_solver).
  destruct (fs_inv_lookup _ _ _ Hinv He) as (c & r & -> & Hc).
  assert (Habs : fs_abs s !! name = Some r) by (rewrite fs_abs_lookup, He; done).
  assert (Hstep : exists s1, keep_persistent name c s = (s1, Ok tt) /\ fs_inv s1 /\
    fs_abs s1 = (if decide (r_Type r = VolumeReservation) then fs_abs s else delete name (fs_abs s)) /\
    forall n, n <> name -> lookup_entry n s1 = lookup_entry n s).
  { unfold keep_persistent, getType, mbind, M_bind.
    rewrite decide_False by (intros ->; by rewrite decodes_empty in Hc).
    rewrite (get_decodes _ _ _ He _ Hc). cbn. case_decide as Ht; [exists s; split_and!; done|].
    destruct (Remove_spec s name Hinv) as (s1 & Hrun & Hinv1 & Habs1).
    unfold Remove, mbind, M_bind, try, os_Remove in Hrun. unfold os_Remove.
    rewrite He in Hrun |- *. injection Hrun as <-. eexists. split_and!; [done..|].
    intros n Hn. unfold lookup_entry, set_root. cbn. destruct (fs_root s) as [d|]; [|done].
    cbn. by rewrite lookup_delete_ne. }
  destruct Hstep as (s1 & Hrun & Hinv1 & Habs1 & Hoth).
  destruct (IH s1) as (s' & Hfor & Hinv' & Hlk); [done|done| |].
  { intros [n x] Hx. cbn. rewrite Hoth; [by apply (Hin (n, x)); set_solver|].
    intros ->. apply Hni. apply list_elem_of_fmap. exists (name, x). done. }
  exists s'. split_and!; [|done|].
  - cbn [for_each]. unfold mbind, M_bind. by rewrite Hrun.
  - intros id. rewrite Hlk, Habs1, fmap_cons. cbn [fst].
    destruct (decide (id = name)) as [->|Hne].
    + rewrite Habs. case_decide as Ht.
      * rewrite Habs. cbn. rewrite !decide_False by naive_solver. done.
      * rewrite lookup_delete_eq. cbn. rewrite decide_True; [done|set_solver].
    + replace ((if decide (r_Type r = VolumeReservation) then fs_abs s
                else delete name (fs_abs s)) !! id) with (fs_abs s !! id)
        by (case_decide; [done|by rewrite lookup_delete_ne]).
      destruct (fs_abs s !! id) as [x|]; cbn; [|done].
      destruct (decide (id ∈ infos.*1 /\ r_Type x <> VolumeReservation)) as [[Hi Ht]|Hni'].
      * rewrite decide_True; [done|]. split; [by right|done].
      * rewrite decide_False; [done|]. by intros [[?|?]%elem_of_cons ?]; [|apply Hni'].
Qed.

(** Reading never changes the store. *)
Lemma get_state id s : fst (get id s) = s.
Proof. unfold get. by repeat case_match. Qed.

Lemma NewReader_no_panic c m : NewReader c <> Panic m.
Proof. unfold NewReader. by repeat case_match. Qed.

Lemma get_unreadable id s c : lookup_entry id s = Some (File c) -> decodes c = None ->
  exists e, get id s = (s, Err e).
Proof.
  intros He. unfold decodes, get. rewrite He. pose proof (NewReader_no_panic c) as Hp.
  destruct (NewReader c) as [[v rest]|e|m]; [|by eauto|by destruct (Hp m)].
  destruct (ver_le v reservationSchemaV1); [|by eauto]. intros Hd. rewrite Hd. eauto.
Qed.

(** One file that cannot be read makes listing the whole store fail. *)
Lemma list_poisoned s name c : lookup_entry name s = Some (File c) -> decodes c = None ->
  exists e, list_ s = (s, Err e).
Proof.
  intros He Hc. unfold list_, ReadDir. unfold lookup_entry in He.
  destruct (fs_root s) as [d|] eqn:Hd; [|done]. cbn in He.
  assert (Hin : (name, File c) ∈ insertion_sort by_name (map_to_list d)).
  { rewrite insertion_sort_perm. by apply elem_of_map_to_list. }
  assert (Hlk : forall x, x ∈ insertion_sort by_name (map_to_list d) ->
    lookup_entry (fst x) s = Some (snd x)).
  { intros x Hx. apply (ReadDir_lookup s (insertion_sort by_name (map_to_list d))); [|done].
    unfold ReadDir. by rewrite Hd. }
  revert Hin Hlk. generalize (insertion_sort by_name (map_to_list d)) as infos.
  induction infos as [|[n e] infos IH]; intros Hin Hlk; [by apply not_elem_of_nil in Hin|].
  pose proof (Hlk (n, e) ltac:(by left)) as Hn. cbn in Hn.
  assert (Htail : forall x, x ∈ infos -> lookup_entry (fst x) s = Some (snd x))
    by (intros; apply Hlk; by right).
  destruct e as [c'|]; cbn [list_entries].
  - unfold mbind, M_bind, try. destruct (decodes c') as [r|] eqn:Hc'.
    + rewrite (get_decodes _ _ _ Hn _ Hc').
      destruct IH as [err Herr]; [|done|rewrite Herr; by eauto].
      apply elem_of_cons in Hin as [[= <- <-]|Hin]; [congruence|done].
    + destruct (get_unreadable _ _ _ Hn Hc') as [err ->]. by eauto.
  - apply elem_of_cons in Hin as [[= ]|Hin]. by apply IH.
Qed.

(** A reservation [Sync] takes into account, and its network id. *)
Definition live (now : Z) (r : Reservation) : bool :=
  negb (Expired now r) && (res_State (r_Result r) =? StateOk).

Definition is_net (r : Reservation) : Prop :=
  r_Type r = NetworkResourceReservation \/ r_Type r = NetworkReservation.

Definition net_id (now : Z) (r : Reservation) : option string :=
  if live now r then
    if decide (r_Type r = NetworkResourceReservation \/ r_Type r = NetworkReservation) then
      match dec_NetResource_Name (r_Data r) with
      | Ok name => Some (NetworkID (r_User r) name)
      | _ => None
      end
    else None
  else None.

(** The networks that are live on the node. *)
Definition net_ids (now : Z) (rs : list Reservation) : gset string :=
  list_to_set (omap (net_id now) rs).

Lemma Increment_networks r c : ~ is_net r -> networks (fst (Increment r c)) = networks c.
Proof.
  intros Hn. rewrite Increment_eq. unfold is_net in Hn.
  assert (Hw : networks (workload_counter (r_Type r) (counter_Increment 1) c) = networks c).
  { unfold workload_counter. repeat case_decide; try done. naive_solver. }
  by destruct (units r).
Qed.

Lemma Increment_network r c : is_net r ->
  Increment r c = (on_units counter_Increment no_units (on_networks (counter_Increment 1) c), Ok tt).
Proof.
  intros [E|E]; rewrite Increment_eq; unfold units, workload_counter; by rewrite E.
Qed.

Lemma count_networks l c : Forall (fun kr : string * Reservation => is_net (snd kr)) l ->
  is_u64 (networks c) ->
  exists c', for_each (fun kr => wrap "fail to update stats" (Increment (snd kr))) l c = (c', Ok tt) /\
    networks c' = u64 (networks c + Z.of_nat (length l)).
Proof.
  intros Hall. revert c. induction Hall as [|kr l Hn _ IH]; intros c Hc.
  { exists c. split; [done|]. cbn. rewrite Z.add_0_r. by rewrite u64_id. }
  cbn [for_each]. unfold mbind, M_bind, wrap. rewrite (Increment_network _ c Hn).
  destruct (IH (on_units counter_Increment no_units (on_networks (counter_Increment 1) c)))
    as (c' & Hrun & Hnet); [apply u64_range|].
  exists c'. split; [done|]. rewrite Hnet. cbn. unfold counter_Increment, u64_add.
  rewrite u64_add_u64_l. f_equal. lia.
Qed.

Lemma count_workloads_spec now rs : forall unique c c' unique',
  count_workloads now rs unique c = (c', Ok unique') ->
  NoDup unique.*1 -> Forall (fun kr : string * Reservation => is_net (snd kr)) unique ->
  networks c' = networks c /\ NoDup unique'.*1 /\
  Forall (fun kr : string * Reservation => is_net (snd kr)) unique' /\
  list_to_set (C := gset string) unique'.*1 = list_to_set unique.*1 ∪ net_ids now rs.
Proof.
  unfold net_ids.
  induction rs as [|r rs IH]; intros unique c c' unique' Hrun Hnd Hnet.
  { injection Hrun as <- <-. split_and!; [done..|set_solver]. }
  cbn [count_workloads] in Hrun.
  assert (list_to_set (C := gset string) (omap (net_id now) (r :: rs)) =
    match net_id now r with Some x => {[x]} | None => ∅ end ∪
    list_to_set (omap (net_id now) rs)) as ->
    by (cbn; destruct (net_id now r); cbn; set_solver).
  unfold net_id at 1, live.
  destruct (Expired now r), (res_State (r_Result r) =? StateOk); cbn in Hrun |- *;
    rewrite ?(left_id_L ∅ (∪)); try by eapply IH.
  destruct (decide (r_Type r = NetworkResourceReservation \/ r_Type r = NetworkReservation)) as [Hn|Hn].
  - destruct (dec_NetResource_Name (r_Data r)) as [name|e|m]; [|done..].
    case_decide as Hin.
    + destruct (IH _ _ _ _ Hrun) as (? & ? & ? & Heq); [done..|].
      split_and!; [done..|]. rewrite Heq. set_solver.
    + destruct (IH _ _ _ _ Hrun) as (? & ? & ? & Heq).
      * rewrite fmap_app. apply NoDup_app. split_and!; [done| |apply NoDup_singleton].
        intros x Hx Hx'. cbn in Hx'. apply list_elem_of_singleton in Hx' as ->. done.
      * apply Forall_app. split; [done|]. by apply Forall_singleton.
      * split_and!; [done..|]. rewrite Heq, fmap_app, list_to_set_app_L. cbn. set_solver.
  - unfold mbind, M_bind, wrap in Hrun.
    pose proof (Increment_networks r c Hn) as Hinc.
    destruct (Increment r c) as [c1 [[]|e|m]]; [|done..].
    destruct (IH _ _ _ _ Hrun) as (Hc & ? & ? & Heq); [done..|].
    rewrite (left_id_L ∅ (∪)). split_and!; [by rewrite Hc|done..].
Qed.

(** ** Properties *)

(** The directory implements the interface. *)

#[export] Instance Fs_CacheOps : CacheOps Fs := {|
  cache_Add := Add; cache_Get := Get; cache_Remove := Remove;
  cache_Exists := Exists; cache_NetworkExists := NetworkExists
|}.

Section refinement.
Hypothesis schema_refl : ver_le reservationSchemaV1 reservationSchemaV1 = true.

Lemma Fs_Add_new s r : fs_inv s -> encodable r -> fs_abs s !! r_ID r = None ->
  exists s', Add r s = (s', Ok tt) /\ fs_inv s' /\
             fs_abs s' = <[r_ID r := strip_tag r]> (fs_abs s).
Proof.
  intros Hinv Henc Hn. pose proof Hinv as (d & Hd & _).
  apply (add_written schema_refl s d r false ""); [done..|]. left. split; [|done].
  rewrite <- (lookup_entry_root s d _ Hd). by apply fs_abs_None.
Qed.

Lemma Fs_NetworkExists_none s id : fs_inv s ->
  (forall id' r, fs_abs s !! id' = Some r -> r_Type r <> NetworkReservation) ->
  NetworkExists id s = (s, Ok false).
Proof.
  intros Hinv Hall. destruct (list_spec s Hinv) as (rs & Hl & Hperm).
  unfold NetworkExists. rewrite (bind_Ok _ _ _ _ _ Hl). unfold lift. f_equal.
  apply network_exists_none. intros r. rewrite Hperm. intros Hr.
  apply list_elem_of_fmap in Hr as ([id' r'] & -> & Hr). apply elem_of_map_to_list in Hr. eauto.
Qed.

Hypothesis dec_NetResource_no_panic : forall d m, dec_NetResource_Name d <> Panic m.

Lemma Fs_NetworkExists_pure s id : fs_inv s ->
  exists r, NetworkExists id s = (s, r) /\ (forall m, r <> Panic m).
Proof.
  intros Hinv. destruct (list_spec s Hinv) as (rs & Hl & _). unfold NetworkExists.
  rewrite (bind_Ok _ _ _ _ _ Hl). eexists. split; [done|].
  intros m. by apply network_exists_no_panic.
Qed.

Definition Fs_CacheLaws : CacheLaws Fs := {|
  cache_inv := fs_inv; cache_abs := fs_abs; cache_storable := encodable;
  cache_Get_found := get_found; cache_Get_missing := Get_missing;
  cache_Add_new := Fs_Add_new; cache_Add_taken := Add_taken;
  cache_Remove_spec := Remove_spec; cache_Exists_spec := Exists_spec;
  cache_NetworkExists_pure := Fs_NetworkExists_pure;
  cache_NetworkExists_none := Fs_NetworkExists_none
|}.

(** C6 (refinement): adding a reservation to a readable cache under a new id
    stores it: it is read back (all of it but its tag, which is not part of
    the JSON), every other reservation is read as before, and the cache stays
    readable; under an id that is taken the call fails and nothing changes. *)
Theorem Add_Get s r :
  fs_inv s -> encodable r ->
  (fs_abs s !! r_ID r = None ->
   exists s', Add r s = (s', Ok tt) /\ fs_inv s' /\
     Get (r_ID r) s' = (s', Ok (strip_tag r)) /\
     forall id x, id <> r_ID r -> Get id s = (s, Ok x) -> Get id s' = (s', Ok x)) /\
  (forall x, Get (r_ID r) s = (s, Ok x) -> exists e, Add r s = (s, Err e)).
Proof.
  intros Hinv Henc. pose proof Hinv as (d & Hd & _).
  assert (Hget : forall t id x, fs_inv t -> Get id t = (t, Ok x) -> fs_abs t !! id = Some x).
  { intros t id x Ht Hg. destruct (fs_abs t !! id) as [y|] eqn:Hy.
    - unfold Get in Hg. rewrite (get_found t id y Ht Hy) in Hg. by simplify_eq.
    - destruct (Get_missing t id Ht Hy) as [e He]. rewrite He in Hg. done. }
  split.
  - intros Hn. destruct (add_written schema_refl s d r false "" Hd Hinv Henc) as (s' & Hadd & Hinv' & Habs).
    { left. split; [|done]. rewrite <- (lookup_entry_root s d _ Hd). by apply fs_abs_None. }
    exists s'. split_and!; [done|done| |].
    + apply get_found; [done|]. by rewrite Habs, lookup_insert_eq.
    + intros id x Hne Hx. apply get_found; [done|].
      rewrite Habs, lookup_insert_ne by done. by apply Hget.
  - intros x Hx. apply Add_taken; [done|]. exists x. by apply Hget.
Qed.

(** Rewriting a cached reservation without truncating its
    file is sound: whatever the file held before, also when it was longer, the
    reservation read back is the new one. *)
Lemma update_Get s r old :
  fs_inv s -> encodable r -> lookup_entry (r_ID r) s = Some (File old) ->
  exists s', add r true s = (s', Ok tt) /\ fs_inv s' /\
    Get (r_ID r) s' = (s', Ok (strip_tag r)).
Proof.
  intros Hinv Henc He. pose proof Hinv as (d & Hd & _).
  rewrite (lookup_entry_root s d _ Hd) in He.
  destruct (add_written schema_refl s d r true old Hd Hinv Henc) as (s' & Hadd & Hinv' & Habs); [by right|].
  exists s'. split_and!; [done..|]. apply get_found; [done|]. by rewrite Habs, lookup_insert_eq.
Qed.

End refinement.

(** Asking for the expired reservations of a readable cache
    changes nothing and returns exactly those whose creation date plus
    duration has passed. *)
Theorem GetExpired_spec now s :
  fs_inv s ->
  exists rs, GetExpired now s = (s, Ok rs) /\
    rs ≡ₚ filter (fun r => Expired now r = true) (map_to_list (fs_abs s)).*2.
Proof.
  intros Hinv. pose proof Hinv as (d & Hd & _).
  destruct (ReadDir_spec s d Hd) as (infos & Hinfos & Hperm).
  eexists. split.
  - unfold GetExpired. rewrite Hinfos. apply expired_entries_spec; [done|].
    intros x. by apply ReadDir_lookup.
  - cbn. rewrite Hperm, omap_values. unfold fs_abs. by rewrite Hd.
Qed.

(** The clean-up of the first boot keeps the volumes, whose
    data survives a reboot, and removes every other reservation. *)
Theorem removeAllButPersistent_spec s :
  fs_inv s ->
  exists s', removeAllButPersistent s = (s', Ok tt) /\ fs_inv s' /\
    fs_abs s' = filter (fun kr => r_Type (snd kr) = VolumeReservation) (fs_abs s).
Proof.
  intros Hinv. pose proof Hinv as (d & Hd & _).
  destruct (ReadDir_spec s d Hd) as (infos & Hinfos & Hperm).
  destruct (keep_persistent_walk infos s Hinv) as (s' & Hrun & Hinv' & Hlk).
  { rewrite Hperm. apply NoDup_fst_map_to_list. }
  { intros x. by apply ReadDir_lookup. }
  exists s'. split_and!; [unfold removeAllButPersistent; by rewrite Hinfos|done|].
  apply map_eq. intros id. rewrite Hlk, map_lookup_filter.
  destruct (fs_abs s !! id) as [r|] eqn:Hr; cbn; [|done].
  assert (Hin : id ∈ infos.*1).
  { rewrite fs_abs_lookup, (lookup_entry_root s d id Hd) in Hr.
    destruct (d !! id) as [e|] eqn:He; [|done]. rewrite Hperm.
    apply list_elem_of_fmap. exists (id, e). split; [done|]. by apply elem_of_map_to_list. }
  destruct (decide (r_Type r = VolumeReservation)) as [Ht|Ht].
  - rewrite decide_False by naive_solver. by rewrite option_guard_True.
  - rewrite decide_True by done. by rewrite option_guard_False.
Qed.

(** Re-counting the cached workloads at start-up counts each
    network once, however many reservations of it are cached: the network
    counter grows by the number of different live networks. *)
Theorem Sync_networks now s c c' rs :
  fs_inv s -> is_u64 (networks c) ->
  list_ s = (s, Ok rs) ->
  Sync now s c = (c', Ok tt) ->
  networks c' = u64 (networks c + Z.of_nat (size (net_ids now rs))).
Proof.
  intros Hinv Hc Hlist. unfold Sync, incrementCounters. rewrite Hlist. cbn [snd].
  intros (c1 & unique & Hcount & Hfor)%bind_inv.
  destruct (count_workloads_spec _ _ _ _ _ _ Hcount) as (Hnet & Hnd & Hall & Hset);
    [constructor..|].
  destruct (count_networks unique c1 Hall) as (c2 & Hrun & Hn); [by rewrite Hnet|].
  rewrite Hfor in Hrun. injection Hrun as <-. rewrite Hn, Hnet. do 3 f_equal.
  assert (list_to_set (C := gset string) unique.*1 = net_ids now rs) as <-
    by (rewrite Hset; cbn; set_solver).
  rewrite size_list_to_set by done.
  by rewrite length_fmap.
Qed.

(** A file written before files carried a version, the JSON of a
    reservation and nothing else, cannot be read, although its content
    decodes: [get] prepares a reader of version 0.0.0 for it and then returns
    the error of the first attempt. Listing the store fails with it, and so do
    [Sync] and [NetworkExists]. *)
Theorem unversioned_unreadable s id r t :
  encodable r -> encode r = Some (String "{" t) ->
  lookup_entry id s = Some (File (String "{" t)) ->
  (exists e, Get id s = (s, Err e) /\ IsNotVersioned e = true) /\
  decode (String "{" t) = Some (strip_tag r) /\
  (exists e, list_ s = (s, Err e)) /\
  (forall nid, exists e, NetworkExists nid s = (s, Err e)).
Proof.
  intros Henc Hbody He.
  assert (Hr : NewReader (String "{" t) = Err ErrNotVersioned) by done.
  destruct (list_poisoned s id (String "{" t)) as [e Hl]; [done|by unfold decodes; rewrite Hr|].
  split_and!.
  - exists ErrNotVersioned. split; [|done]. unfold Get, get. by rewrite He, Hr.
  - destruct (decode_encode r Henc) as (s' & Hs' & Hdec). rewrite Hbody in Hs'.
    injection Hs' as <-. specialize (Hdec ""). by rewrite string_app_nil_r in Hdec.
  - by exists e.
  - intros nid. exists e. unfold NetworkExists. by apply bind_Err.
Qed.

End cache.

(** ** Witnesses

    A store to run the definitions on: a reservation is written as its id and
    its type, two JSON strings after an opening brace. *)
Module Demo.

Definition v1 : @Version demo_Semver := V1.

Definition mk (id : string) (t : ReservationType) : Reservation :=
  MkReservation id "node" "user" t "16" 1000 1000000 "" false ∅ ""
    (MkResult t id 2000 1 "" "{}" "") 1.

Definition quoted (s rest : string) : string :=
  String dquote (s +:+ String dquote rest).

Definition body (r : Reservation) (rest : string) : string :=
  String "{" (quoted (r_ID r) (quoted (r_Type r) rest)).

Definition read_quoted (s : string) : option (string * string) :=
  match s with
  | String c s' => if Ascii.eqb c dquote then scan_string s' else None
  | EmptyString => None
  end.

Definition read_body (s : string) : option Reservation :=
  match s with
  | String c s' =>
      if Ascii.eqb c "{" then
        '(id, s1) ← read_quoted s'; '(t, _) ← read_quoted s1; Some (mk id t)
      else None
  | EmptyString => None
  end.

Definition ok (r : Reservation) : Prop :=
  plain (r_ID r) = true /\ plain (r_Type r) = true /\ strip_tag r = mk (r_ID r) (r_Type r).

Lemma quoted_app s a b : quoted s a +:+ b = quoted s (a +:+ b).
Proof.
  unfold quoted.
  change (String dquote ((s +:+ String dquote a) +:+ b) =
          String dquote (s +:+ String dquote (a +:+ b))).
  by rewrite string_app_assoc.
Qed.

Lemma read_quoted_plain s rest : plain s = true -> read_quoted (quoted s rest) = Some (s, rest).
Proof. intros Hs. exact (scan_plain s rest Hs). Qed.

Lemma read_body_ok r : ok r ->
  exists s, Some (body r "") = Some s /\ forall rest, read_body (s +:+ rest) = Some (strip_tag r).
Proof.
  intros (Hi & Ht & Heq). eexists. split; [done|]. intros rest. rewrite Heq.
  change (read_body (String "{" (quoted (r_ID r) (quoted (r_Type r) "") +:+ rest)) =
          Some (mk (r_ID r) (r_Type r))).
  rewrite !quoted_app. cbn [read_body]. rewrite Ascii.eqb_refl.
  rewrite read_quoted_plain by done. unfold mbind, option_bind. cbv beta iota.
  by rewrite read_quoted_plain.
Qed.

Definition json : ReservationJson := {|
  encode r := Some (body r ""); decode := read_body; encodable := ok; decode_encode := read_body_ok
|}.

Definition states : ResultStates := {|
  StateError := 0; StateOk := 1; StateDeleted := 2; StateOk_not_Error := ltac:(done)
|}.

Definition hash : NetHash := fun s => s.
Definition net : NetDecoder := fun s => Ok s.

Definition file (r : Reservation) : entry :=
  File (NewWriter v1 +:+ body r "").

Definition dir (rs : list Reservation) : Fs :=
  MkFs (Some (list_to_map ((fun r => (r_ID r, file r)) <$> rs))) false.

#[local] Existing Instances json states hash net demo_JsonUnquote demo_Semver.

Lemma dir_inv rs : Forall ok rs -> fs_inv v1 (dir rs).
Proof.
  intros Hok. exists (list_to_map ((fun r => (r_ID r, file r)) <$> rs)). split; [done|].
  intros name e He. apply elem_of_list_to_map_2, list_elem_of_fmap in He as (r & [= -> ->] & Hr).
  rewrite Forall_forall in Hok. specialize (Hok _ Hr).
  destruct (read_body_ok r Hok) as (s & [= <-] & Hs).
  eexists _, (strip_tag r). split; [done|].
  unfold decodes. rewrite NewReader_NewWriter. specialize (Hs "").
  by rewrite string_app_nil_r in Hs.
Qed.

Lemma Add_Get_witness :
  exists s', Add v1 (mk "7-2" "zdb") (dir [mk "7-1" "volume"]) = (s', Ok tt) /\
    Get v1 "7-2" s' = (s', Ok (mk "7-2" "zdb")) /\ Get v1 "7-1" s' = (s', Ok (mk "7-1" "volume")).
Proof.
  destruct (Add_Get v1 eq_refl (dir [mk "7-1" "volume"]) (mk "7-2" "zdb")) as [Hnew _].
  - apply dir_inv. by repeat constructor.
  - done.
  - destruct (Hnew eq_refl) as (s' & Hadd & _ & Hget & Hother).
    exists s'. split_and!; [done..|]. by apply Hother.
Defined.

Lemma GetExpired_spec_witness :
  exists rs, GetExpired v1 1000000000 (dir [mk "7-1" "volume"; mk "7-2" "zdb"]) =
    (dir [mk "7-1" "volume"; mk "7-2" "zdb"], Ok rs) /\ length rs = 2%nat.
Proof.
  destruct (GetExpired_spec v1 1000000000 (dir [mk "7-1" "volume"; mk "7-2" "zdb"]))
    as (rs & Hrun & Hperm).
  - apply dir_inv. by repeat constructor.
  - exists rs. split; [done|]. by rewrite Hperm.
Defined.

Lemma removeAllButPersistent_spec_witness :
  exists s', removeAllButPersistent v1 (dir [mk "7-1" "volume"; mk "7-2" "zdb"]) = (s', Ok tt) /\
    fs_abs v1 s' = {["7-1" := mk "7-1" "volume"]}.
Proof.
  destruct (removeAllButPersistent_spec v1 (dir [mk "7-1" "volume"; mk "7-2" "zdb"]))
    as (s' & Hrun & _ & Habs).
  - apply dir_inv. by repeat constructor.
  - exists s'. split; [done|]. by rewrite Habs.
Defined.

Lemma Sync_networks_witness :
  let s := dir [mk "7-1" "network_resource"; mk "7-2" "zdb"; mk "7-3" "network_resource"] in
  let _ := demo_Decoders in
  networks (fst (Sync v1 2000 s zeroCounters)) = 1.
Proof.
  intros s d.
  rewrite (Sync_networks (H5 := d) v1 2000 s zeroCounters (fst (Sync v1 2000 s zeroCounters))
    [mk "7-1" "network_resource"; mk "7-2" "zdb"; mk "7-3" "network_resource"]); [done| | | |].
  - apply dir_inv. by repeat constructor.
  - done.
  - by vm_compute.
  - by vm_compute.
Defined.

Lemma unversioned_unreadable_witness :
  let s := MkFs (Some {["7-1" := File (body (mk "7-1" "volume") "")]}) true in
  exists e, Get v1 "7-1" s = (s, Err e) /\ IsNotVersioned e = true.
Proof.
  intros s.
  destruct (unversioned_unreadable v1 s "7-1" (mk "7-1" "volume")
    (quoted "7-1" (quoted "volume" ""))) as [Hget _]; [done..|exact Hget].
Defined.

End Demo.
