(* ===== verification/Engine.v ===== *)
(** The provision engine: src/pkg/provision/engine.go.

    The engine is generic in the cache it works on, through the interface of
    [Cache]. [W] is the world outside the engine: the workloads that run on the
    node, the explorer, the clock and the memory of the node. Everything the
    engine does to the world goes through [call], which also appends an event
    to a log, so that theorems can say what was called, with what, and in which
    order. The clock is read from the world; it moves when the world moves,
    that is in calls and between the steps of [Run].

    The counters are those of [Counters] ([primitives.Counters] is the only
    [Statser] of the program). The engine's goroutine is modelled on its own;
    [DecommissionCached] is called by other daemons through zbus and is modelled
    as a procedure on the same state. *)

From stdpp Require Import gmap strings list.
From Stdlib Require Import Ascii ZArith Lia.
From S2P Require Import Prelude Reservation Counters Cache.

Open Scope Z_scope.

(** ** The node *)

(** What the engine reads of the world: [time.Now] and the total and the
    available bytes of [mem.VirtualMemory]. *)
Class Node (W : Type) := {
  Now : W -> Z;
  VirtualMemory : W -> res (Z * Z)
}.

(** [json.Marshal] of what a provisioner returns. *)
Class InfoJson (Info : Type) := marshal_info : Info -> res string.

Inductive event :=
| EvProvision (r : Reservation)
| EvDecommission (r : Reservation)
| EvFeedback (nodeID : string) (x : Result)
| EvDeleted (nodeID id : string)
| EvUpdateStats (nodeID : string) (w : WorkloadAmount) (u : ResourceAmount)
| EvCleanup.

(** [storaged.GetCacheFS]: the disk type and the size of the cache. *)
Record Engine (W Info : Type) := MkEngine {
  nodeID : string;
  provisioners : gmap string (Reservation -> M W Info);
  decomissioners : gmap string (Reservation -> M W unit);
  signer_Sign : string -> res string;
  feedback_Feedback : string -> Result -> M W unit;
  feedback_Deleted : string -> string -> M W unit;
  feedback_UpdateStats : string -> WorkloadAmount -> ResourceAmount -> M W unit;
  storaged_GetCacheFS : option (M W (DeviceType * Z));
  janitor : option (M W unit);
  reservedMemoryBytes : Z
}.
Arguments nodeID {W Info}.
Arguments provisioners {W Info}.
Arguments decomissioners {W Info}.
Arguments signer_Sign {W Info}.
Arguments feedback_Feedback {W Info}.
Arguments feedback_Deleted {W Info}.
Arguments feedback_UpdateStats {W Info}.
Arguments storaged_GetCacheFS {W Info}.
Arguments janitor {W Info}.
Arguments reservedMemoryBytes {W Info}.

(** What the engine changes. [st_mem] is [memCache]: the instant at which each
    entry expires. *)
Record St (C W : Type) := MkSt {
  st_cache : C;
  st_stats : Counters;
  st_world : W;
  st_log : list event;
  st_mem : gmap string Z
}.
Arguments MkSt {C W}.
Arguments st_cache {C W}.
Arguments st_stats {C W}.
Arguments st_world {C W}.
Arguments st_log {C W}.
Arguments st_mem {C W}.

Section lifting.
  Context {C W : Type}.

Definition on_cache {A} (m : M C A) : M (St C W) A := fun s =>
  let '(c, x) := m (st_cache s) in
  (MkSt c (st_stats s) (st_world s) (st_log s) (st_mem s), x).

Definition on_stats {A} (m : M Counters A) : M (St C W) A := fun s =>
  let '(c, x) := m (st_stats s) in
  (MkSt (st_cache s) c (st_world s) (st_log s) (st_mem s), x).

Definition on_world {A} (m : M W A) : M (St C W) A := fun s =>
  let '(w, x) := m (st_world s) in
  (MkSt (st_cache s) (st_stats s) w (st_log s) (st_mem s), x).

Definition call {A} (ev : event) (m : M W A) : M (St C W) A := fun s =>
  let '(w, x) := m (st_world s) in
  (MkSt (st_cache s) (st_stats s) w (st_log s ++ [ev]) (st_mem s), x).

End lifting.

(** ** Memory *)

Definition minimunZosMemory : Z := 2 * gib.

(** Dividing and multiplying by [2 ^ 30] are exact. The result is below
    [2 ^ 64] unless the argument is within [2 ^ 10] of it. *)
Definition roundTotalMemory (t : Z) : Z := f64_trunc (f64_scale (-30) (f64_of t)) * gib.

(** The float64 nearest to 0.1. *)
Definition f64_tenth : f64 := MkF64 3602879701896397 (-55).

(** The memory [New] keeps for the system, given the total of the node. *)
Definition reservedMemory (total : Z) : Z :=
  let totalMemory := roundTotalMemory total in
  let reserved := f64_max (f64_mul (f64_of totalMemory) f64_tenth) (f64_of minimunZosMemory) in
  f64_ceil (f64_scale (-30) reserved) * gib.

(** ** Encoding of a signature *)

Definition hex_digit (n : nat) : ascii :=
  if (n <? 10)%nat then ascii_of_nat (48 + n) else ascii_of_nat (87 + n).

Fixpoint hex_EncodeToString (s : string) : string :=
  match s with
  | EmptyString => EmptyString
  | String c s' =>
      String (hex_digit (nat_of_ascii c / 16))
        (String (hex_digit (nat_of_ascii c mod 16)) (hex_EncodeToString s'))
  end.

Section engine.
  Context {C W Info : Type} `{CacheOps C} `{Node W} `{InfoJson Info}
    `{NetDecoder} `{NetHash} `{ResultStates} `{Decoders}.

Notation state := (St C W).
Implicit Types (e : Engine W Info) (r : Reservation).

(** [New], for what the engine is configured with. *)
Definition New (w : W) (e : Engine W Info) : res (Engine W Info) :=
  match VirtualMemory w with
  | Ok (total, _) =>
      Ok (MkEngine _ _ (nodeID e) (provisioners e) (decomissioners e) (signer_Sign e)
            (feedback_Feedback e) (feedback_Deleted e) (feedback_UpdateStats e)
            (storaged_GetCacheFS e) (janitor e) (reservedMemory total))
  | Err err => Err (ErrWrap "failed retrieve memory stats" err)
  | Panic m => Panic m
  end.

(** The arithmetic of [getUsableMemoryBytes]: the total and the usable bytes,
    from the memory of the node and the memory the workloads have reserved. *)
Definition usable_memory (reserved mtotal mavailable : Z) (u : ResourceAmount) : Z * Z :=
  let total := (roundTotalMemory mtotal -u reserved)%go in
  let available := if reserved <? mavailable then (mavailable -u reserved)%go else 0 in
  let workloadReserved := f64_trunc (f64_scale 30 (ra_Mru u)) in
  let workloadFree := if workloadReserved <? total then (total -u workloadReserved)%go else 0 in
  (total, f64_trunc (f64_min (f64_of workloadFree) (f64_of available))).

Definition getUsableMemoryBytes e : M state (Z * Z) := fun s =>
  match VirtualMemory (st_world s) with
  | Ok (mtotal, mavailable) =>
      (s, Ok (usable_memory (reservedMemoryBytes e) mtotal mavailable (CurrentUnits (st_stats s))))
  | Err err => (s, Err err)
  | Panic m => (s, Panic m)
  end.

(** ** Results *)

Definition buildResult (now : Z) (id : string) (typ : ReservationType) (err : option error)
    (info : option Info) : res Result :=
  let marshalled := match info with None => Ok nullRaw | Some i => marshal_info i end in
  match marshalled with
  | Ok br =>
      Ok (MkResult typ id now (match err with Some _ => StateError | None => StateOk end)
            (match err with Some x => Error x | None => "" end) br "")
  | Err x => Err (ErrWrap "failed to encode result" x)
  | Panic m => Panic m
  end.

(** [Bytes] writes to a buffer, which does not fail. *)
Definition signResult e (x : Result) : res Result :=
  match signer_Sign e (Bytes x) with
  | Ok sig => Ok (set_Signature (hex_EncodeToString sig) x)
  | Err err => Err (ErrWrap "failed to signed the result" err)
  | Panic m => Panic m
  end.

(** The signature is written into the caller's result; the result after the
    call comes with the error, if any. *)
Definition reply e (x : Result) : M state (Result * option error) :=
  match signResult e x with
  | Ok x' =>
      sent ← try (call (EvFeedback (nodeID e) x') (feedback_Feedback e (nodeID e) x'));
      mret (x', match sent with inl _ => None | inr err => Some err end)
  | Err err => mret (x, Some err)
  | Panic m => panic m
  end.

(** ** Provisioning *)

(** The reservation comes back with its result's id and signature set. *)
Definition migrateToPool e r : M state Reservation :=
  got ← try (on_cache (cache_Get (r_Reference r)));
  match got with
  | inr _ => mret r
  | inl oldRes =>
      if decide (r_ID oldRes = r_Reference r) then
        if negb (bool_decide (r_Type oldRes = NetworkReservation)) &&
           negb (bool_decide (r_Data oldRes = r_Data r))
        then throw (ErrMsg "trying to upgrade workloads to new version. new workload content is different from the old one. upgrade refused")
        else
          on_cache (cache_Remove (r_ID oldRes)) ;;
          on_cache (cache_Add r) ;;
          signed ← wrap "error while signing reservation result"
                     (lift (signResult e (set_res_ID (r_ID r) (r_Result r))));
          call (EvFeedback (nodeID e) signed) (feedback_Feedback e (nodeID e) signed) ;;
          mret (set_Result signed r)
      else mret r
  end.

Definition provisionForward e r : M state Info :=
  match provisioners e !! r_Type r with
  | None => throw (ErrMsg ("type of reservation not supported: " +:+ r_Type r))
  | Some fn =>
      '(_, usable) ← getUsableMemoryBytes e;
      wrap "failed to apply provision" (lift (CheckMemoryRequirements r usable)) ;;
      call (EvProvision r) (fn r)
  end.

(** The id a workload runs under: that of the reservation it replaces. *)
Definition use_reference r : Reservation :=
  if decide (r_Reference r = "") then r else set_ID (r_Reference r) r.

(** An update of a network is not counted. *)
Definition network_update r : M state bool :=
  if decide (r_Type r = NetworkResourceReservation) then
    match dec_NetResource_Name (r_Data r) with
    | Ok name =>
        wrap "failed to check if network exists"
          (on_cache (cache_NetworkExists (NetworkID (r_User r) name)))
    | Err err => throw (ErrWrap "failed to unmarshal network from reservation" err)
    | Panic m => panic m
    end
  else mret false.

(** What follows the call of the provisioner. When the result cannot be
    encoded [buildResult] returns a nil result, whose id the error message
    reads. *)
Definition provision_finish e (realID : string) r (forwarded : Info + error) : M state unit :=
  now ← gets (fun s => Now (st_world s));
  let provisionError := match forwarded with inl _ => None | inr err => Some err end in
  let returned := match forwarded with inl i => Some i | inr _ => None end in
  match buildResult now realID (r_Type r) provisionError returned with
  | Err _ => panic "nil pointer dereference"
  | Panic m => panic m
  | Ok result =>
      '(result, _) ← reply e result;
      match provisionError with
      | Some err =>
          ignore (call (EvDeleted (nodeID e) realID) (feedback_Deleted e (nodeID e) realID)) ;;
          throw err
      | None =>
          let r := set_Result result (set_ID realID r) in
          wrap ("failed to cache reservation " +:+ r_ID r +:+ " locally") (on_cache (cache_Add r)) ;;
          exists_ ← network_update r;
          if exists_ : bool then mret tt else ignore (on_stats (Increment r))
      end
  end.

Definition provision e r : M state unit :=
  now ← gets (fun s => Now (st_world s));
  wrap "failed validation of reservation" (lift (validate now r)) ;;
  r ← (if decide (r_Reference r = "") then mret r else migrateToPool e r);
  got ← try (on_cache (cache_Get (r_ID r)));
  match got with
  | inl cached =>
      if IsNil (r_Result cached) then mret tt
      else ignore (reply e (r_Result cached))
  | inr _ =>
      let realID := r_ID r in
      let r := use_reference r in
      forwarded ← try (provisionForward e r);
      provision_finish e realID r forwarded
  end.

(** ** Decommissioning *)

Definition decommission e r : M state unit :=
  exists_ ← wrap ("failed to check if reservation " +:+ r_ID r +:+ " exists in cache")
              (on_cache (cache_Exists (r_ID r)));
  if negb exists_ then
    ignore (call (EvDeleted (nodeID e) (r_ID r)) (feedback_Deleted e (nodeID e) (r_ID r)))
  else
    let realID := r_ID r in
    let r := use_reference r in
    if res_State (r_Result r) =? StateError then mret tt
    else
      match decomissioners e !! r_Type r with
      | Some fn => wrap "decommissioning of reservation failed" (call (EvDecommission r) (fn r))
      | None => mret tt
      end ;;
      let r := set_ID realID r in
      wrap ("failed to remove reservation " +:+ r_ID r +:+ " from cache")
        (on_cache (cache_Remove (r_ID r))) ;;
      ignore (on_stats (Decrement r)) ;;
      wrap "failed to mark reservation as deleted"
        (call (EvDeleted (nodeID e) (r_ID r)) (feedback_Deleted e (nodeID e) (r_ID r))).

(** [backoff.Retry]: the package calls [reply] until it succeeds or a minute
    has passed; [retries] is the number of calls it has time for after the
    first. *)
Fixpoint retry_reply e (x : Result) (retries : nat) : M state unit :=
  '(x, err) ← reply e x;
  match err, retries with
  | None, _ => mret tt
  | Some err, O => throw err
  | Some _, S n => retry_reply e x n
  end.

Definition DecommissionCached e (retries : nat) (id reason : string) : M state unit :=
  r ← on_cache (cache_Get id);
  now ← gets (fun s => Now (st_world s));
  result ← wrap ("failed to build result object for reservation: " +:+ id)
             (lift (buildResult now id (r_Type r) (Some (ErrMsg reason)) None));
  ignore (decommission e r) ;;
  retry_reply e result retries.

(** ** Statistics *)

Definition add_Sru (n : Z) (u : ResourceAmount) : ResourceAmount :=
  MkResourceAmount (ra_Cru u) (ra_Mru u) (ra_Hru u) (f64_add (ra_Sru u) (f64_of n)).
Definition add_Hru (n : Z) (u : ResourceAmount) : ResourceAmount :=
  MkResourceAmount (ra_Cru u) (ra_Mru u) (f64_add (ra_Hru u) (f64_of n)) (ra_Sru u).

(** The memory that is reported: the larger of what is reserved and what is
    used, both with the system's part. *)
Definition reported_mru (reservedBytes total usable : Z) (u : ResourceAmount) : f64 :=
  let reserved := f64_add (f64_scale 30 (ra_Mru u)) (f64_of reservedBytes) in
  let used := ((total +u reservedBytes) -u usable)%go in
  f64_scale (-30) (f64_max reserved (f64_of used)).

Definition updateStats e : M state unit :=
  wl ← gets (fun s => CurrentWorkloads (st_stats s));
  u ← gets (fun s => CurrentUnits (st_stats s));
  u ← match storaged_GetCacheFS e with
      | None => mret u
      | Some get =>
          '(disk, size) ← on_world get;
          mret (match disk with
                | SSDDevice => add_Sru (size / gib) u
                | HDDDevice => add_Hru (size / gib) u
                | OtherDevice _ => u
                end)
      end;
  '(total, usable) ← getUsableMemoryBytes e;
  let u := MkResourceAmount (ra_Cru u) (reported_mru (reservedMemoryBytes e) total usable u)
             (ra_Hru u) (ra_Sru u) in
  call (EvUpdateStats (nodeID e) wl u) (feedback_UpdateStats e (nodeID e) wl u).

(** What the stream [Counters] sends: the signed view of the counters. *)
Record ProvisionCounters := MkPC {
  pc_Container : Z; pc_Volume : Z; pc_Network : Z; pc_ZDB : Z; pc_VM : Z
}.

Definition provision_counters (c : Counters) : ProvisionCounters :=
  let wls := CurrentWorkloads c in
  MkPC (wa_Container wls) (wa_Volume wls) (wa_Network wls) (wa_ZDBNamespace wls) (wa_K8sVM wls).

(** ** The loop *)

Record ReservationJob := MkJob { job_Reservation : Reservation; job_last : bool }.

(** 30 minutes. *)
Definition DefaultExpiration : Z := 1800000000000.

(** [memCache.Get]: an entry is gone once its expiration has passed. *)
Definition mem_Get (id : string) (s : state) : bool :=
  match st_mem s !! id with
  | Some expiration => negb (expiration <? Now (st_world s))
  | None => false
  end.

Definition mem_Set (id : string) (s : state) : state :=
  MkSt (st_cache s) (st_stats s) (st_world s) (st_log s)
    (<[id := Now (st_world s) + DefaultExpiration]> (st_mem s)).

(** A reservation received from the source. Errors are logged and end the
    round before the statistics are sent. *)
Definition process e r : M state unit :=
  now ← gets (fun s => Now (st_world s));
  if Expired now r || r_ToDelete r then
    done ← try (decommission e r);
    match done with inr _ => mret tt | inl _ => ignore (updateStats e) end
  else
    seen ← gets (mem_Get (r_ID r));
    if seen : bool then mret tt
    else
      modify (mem_Set (r_ID r)) ;;
      done ← try (provision e r);
      match done with inr _ => mret tt | inl _ => ignore (updateStats e) end.

Definition run_cleanup e : M state unit :=
  match janitor e with
  | None => mret tt
  | Some clean => ignore (call EvCleanup clean)
  end.

Inductive status := Running | Returned | Blocked | Panicked.

(** [cleanUp] is a channel of capacity 2; its content is a number of tokens. *)
Record RunState := MkRun {
  rs_st : state;
  rs_all : bool;
  rs_cleanUp : nat;
  rs_status : status
}.

Inductive input :=
| InDone
| InClosed
| InJob (j : ReservationJob)
| InCleanUp
| InCron
| InTick (w : W).

Definition finish (x : state * res unit) (all : bool) (n : nat) : RunState :=
  MkRun (fst x) all n (match snd x with Panic _ => Panicked | _ => Running end).

(** One round of the loop on what [select] picked; [InCron] is the cron
    goroutine, which waits while the channel is full, and [InTick] the world
    moving on its own. Sending to [cleanUp] blocks the loop for ever when the
    channel is full, since the loop is the only receiver. *)
Definition run_input e (i : input) (rs : RunState) : RunState :=
  match rs_status rs with
  | Running =>
      match i with
      | InDone | InClosed => MkRun (rs_st rs) (rs_all rs) (rs_cleanUp rs) Returned
      | InJob j =>
          if job_last j then
            if (rs_cleanUp rs <? 2)%nat
            then MkRun (rs_st rs) true (S (rs_cleanUp rs)) Running
            else MkRun (rs_st rs) true (rs_cleanUp rs) Blocked
          else finish (process e (job_Reservation j) (rs_st rs)) (rs_all rs) (rs_cleanUp rs)
      | InCleanUp =>
          match rs_cleanUp rs with
          | O => rs
          | S n => if rs_all rs then finish (run_cleanup e (rs_st rs)) true n
                   else MkRun (rs_st rs) false n Running
          end
      | InCron =>
          if (rs_cleanUp rs <? 2)%nat
          then MkRun (rs_st rs) (rs_all rs) (S (rs_cleanUp rs)) Running else rs
      | InTick w =>
          MkRun (MkSt (st_cache (rs_st rs)) (st_stats (rs_st rs)) w (st_log (rs_st rs))
                   (st_mem (rs_st rs))) (rs_all rs) (rs_cleanUp rs) Running
      end
  | _ => rs
  end.

Definition run e (ins : list input) (rs : RunState) : RunState :=
  foldl (fun rs i => run_input e i rs) rs ins.

Definition run_init (s : state) : RunState := MkRun s false 0 Running.

End engine.

(** ** Lemmas on memory *)

Lemma f64_of_small n : 0 <= n < 2 ^ 53 -> f64_of n = MkF64 n 0.
Proof. intros. unfold f64_of. by rewrite round53_small. Qed.

Lemma f64_trunc_gib n : f64_trunc (f64_scale (-30) (MkF64 n 0)) = n / gib.
Proof. done. Qed.

(** On a node whose memory a float64 holds, the rounding is a division. *)
Lemma roundTotalMemory_small t : 0 <= t < 2 ^ 53 -> roundTotalMemory t = t / gib * gib.
Proof. intros. unfold roundTotalMemory. by rewrite f64_of_small, f64_trunc_gib. Qed.

Lemma f64_trunc_min a b : f64_trunc (f64_min (MkF64 a 0) (MkF64 b 0)) = Z.min a b.
Proof.
  unfold f64_min, f64_align. cbn. rewrite !Z.mul_1_r.
  destruct (Z.ltb_spec a b); unfold f64_trunc; cbn; lia.
Qed.

Lemma trunc_in_gib n : 0 <= n < 2 ^ 53 -> f64_trunc (f64_scale 30 (in_gib n)) = n.
Proof.
  intros. unfold in_gib. rewrite round53_small by done. change (n * 1 = n). lia.
Qed.

(** A tenth of [k] GiB, rounded up to a GiB, for every node of less than 4 TiB:
    multiplying by the float64 0.1 and rounding up gives the exact answer. *)
Lemma reservedMemory_gib k : 0 <= k < 4096 ->
  reservedMemory (k * gib) = Z.max 2 ((k + 9) / 10) * gib.
Proof.
  intros Hk.
  assert (Hall : forallb (fun k => reservedMemory (k * gib) =? Z.max 2 ((k + 9) / 10) * gib)
    (seqZ 0 4096) = true) by by vm_compute.
  rewrite forallb_forall in Hall. apply Z.eqb_eq, Hall, list_elem_of_In, elem_of_seqZ. lia.
Qed.

Lemma gib_floor t : 0 <= t -> 0 <= t / gib * gib <= t.
Proof.
  intros Ht. pose proof (Z.mul_div_le t gib ltac:(done)).
  pose proof (Z.div_pos t gib Ht ltac:(done)). unfold gib in *. lia.
Qed.

Lemma roundTotalMemory_idemp t : 0 <= t < 2 ^ 53 ->
  roundTotalMemory (t / gib * gib) = roundTotalMemory t.
Proof.
  intros Ht. pose proof (gib_floor t ltac:(lia)).
  rewrite !roundTotalMemory_small by lia.
  by rewrite Z.div_mul.
Qed.

Lemma reservedMemory_spec t : 0 <= t < 4096 * gib ->
  reservedMemory t = Z.max 2 ((t / gib + 9) / 10) * gib.
Proof.
  intros Ht. rewrite <- reservedMemory_gib.
  - unfold reservedMemory. rewrite roundTotalMemory_idemp; [done|unfold gib in *; lia].
  - split; [apply Z.div_pos; unfold gib; lia|apply Z.div_lt_upper_bound; unfold gib in *; lia].
Qed.

(** The usable memory, on any node whose memory is below [2 ^ 53] bytes. *)
Lemma usable_memory_eq reserved mt ma c :
  0 <= reserved < 2 ^ 53 -> 0 <= mt < 2 ^ 53 -> 0 <= ma < 2 ^ 53 -> 0 <= MRU c < 2 ^ 53 ->
  reserved <= mt / gib * gib ->
  usable_memory reserved mt ma (CurrentUnits c) =
    (mt / gib * gib - reserved,
     Z.max 0 (Z.min (mt / gib * gib - reserved - MRU c) (ma - reserved))).
Proof.
  intros Hr Hmt Hma Hc Hle. unfold usable_memory. cbn [CurrentUnits ra_Mru].
  rewrite roundTotalMemory_small, trunc_in_gib by done.
  pose proof (gib_floor mt ltac:(lia)).
  rewrite u64_sub_exact by (unfold is_u64, W64; lia).
  set (total := mt / gib * gib - reserved).
  assert (0 <= total < 2 ^ 53) by lia.
  destruct (Z.ltb_spec reserved ma), (Z.ltb_spec (MRU c) total);
    rewrite ?u64_sub_exact by (unfold is_u64, W64; lia);
    rewrite !f64_of_small, f64_trunc_min by lia; f_equal; lia.
Qed.

(** ** Lemmas on runs *)

Definition no_panic {S A} (m : M S A) : Prop := forall s s' p, m s <> (s', Panic p).

Section engine_lemmas.
  Context {C W Info : Type} `{CacheLaws C} `{Node W} `{InfoJson Info}
    `{NetDecoder} `{NetHash} `{ResultStates} `{Decoders}.

Implicit Types (e : Engine W Info) (r : Reservation) (s : St C W).

(** Signing works, and the explorer's client returns an error rather than
    panicking. *)
Record engine_ok e : Prop := {
  ok_sign : forall b, exists sig, signer_Sign e b = Ok sig;
  ok_feedback : forall n x, no_panic (feedback_Feedback e n x);
  ok_deleted : forall n i, no_panic (feedback_Deleted e n i)
}.

(** The result as it is sent. *)
Definition signed e (x : Result) : Result :=
  match signer_Sign e (Bytes x) with
  | Ok sig => set_Signature (hex_EncodeToString sig) x
  | _ => x
  end.

Definition with_log (w : W) (evs : list event) s : St C W :=
  MkSt (st_cache s) (st_stats s) w (st_log s ++ evs) (st_mem s).

Lemma with_log_with_log w1 evs1 w2 evs2 s :
  with_log w2 evs2 (with_log w1 evs1 s) = with_log w2 (evs1 ++ evs2) s.
Proof. unfold with_log. cbn. by rewrite (assoc_L (++)). Qed.

Lemma on_cache_same {A} (m : M C A) s x :
  m (st_cache s) = (st_cache s, x) -> on_cache m s = (s, x).
Proof. unfold on_cache. intros ->. by destruct s. Qed.

Lemma call_eq {A} ev (m : M W A) s :
  call ev m s = (with_log (fst (m (st_world s))) [ev] s, snd (m (st_world s))).
Proof. unfold call. by destruct (m (st_world s)). Qed.

Lemma ignore_call {A} ev (m : M W A) s : no_panic m ->
  exists w, ignore (call ev m) s = (with_log w [ev] s, Ok tt).
Proof.
  intros Hm. unfold ignore. rewrite call_eq. destruct (m (st_world s)) as [w [a|err|p]] eqn:E;
    [by exists w..|by destruct (Hm _ _ _ E)].
Qed.

Lemma reply_run e x s : engine_ok e ->
  exists w err, reply e x s =
    (with_log w [EvFeedback (nodeID e) (signed e x)] s, Ok (signed e x, err)).
Proof.
  intros [Hsign Hfb _]. unfold reply, signResult, signed.
  destruct (Hsign (Bytes x)) as [sig ->]. set (x' := set_Signature _ x).
  unfold mbind, M_bind, try. rewrite call_eq.
  destruct (feedback_Feedback e (nodeID e) x' (st_world s)) as [w [[]|err|p]] eqn:E; cbn.
  - by exists w, None.
  - by exists w, (Some err).
  - by destruct (Hfb _ _ _ _ _ E).
Qed.

(** A run of [Increment] or [Decrement] whose error is dropped. *)
Lemma ignore_stats (m : M Counters unit) s :
  (forall p, snd (m (st_stats s)) <> Panic p) ->
  ignore (on_stats m) s =
    (MkSt (st_cache s) (fst (m (st_stats s))) (st_world s) (st_log s) (st_mem s), Ok tt).
Proof.
  unfold ignore, on_stats. intros Hm. destruct (m (st_stats s)) as [c [[]|err|p]]; [done..|].
  by destruct (Hm p).
Qed.

Lemma Increment_no_panic r c p : (forall p, units r <> Panic p) -> snd (Increment r c) <> Panic p.
Proof. intros Hu. rewrite Increment_eq. destruct (units r) eqn:E; [done..|by destruct (Hu msg)]. Qed.

Lemma Decrement_no_panic r c p : (forall p, units r <> Panic p) -> snd (Decrement r c) <> Panic p.
Proof. intros Hu. rewrite Decrement_eq. destruct (units r) eqn:E; [done..|by destruct (Hu msg)]. Qed.

(** The accounting looks at the type and the data only. *)
Lemma units_set_Result x r : units (set_Result x r) = units r.
Proof. done. Qed.

Lemma units_set_ID i r : units (set_ID i r) = units r.
Proof. done. Qed.

Lemma Increment_set_Result x r c : Increment (set_Result x r) c = Increment r c.
Proof. done. Qed.

(** The first half of [provision] on a reservation that is not cached. *)
Lemma provision_fresh e r s :
  validate (Now (st_world s)) r = Ok tt -> r_Reference r = "" ->
  cache_inv (st_cache s) -> cache_abs (st_cache s) !! r_ID r = None ->
  provision e r s =
    (x ← try (provisionForward e r); provision_finish e (r_ID r) r x) s.
Proof.
  intros Hv Href Hinv Hn. unfold provision, gets. unfold mbind at 1, M_bind at 1. cbn.
  unfold wrap, lift at 1. rewrite Hv. unfold mbind at 1, M_bind at 1. cbn.
  rewrite decide_True by done. unfold mbind at 1, M_bind at 1, mret, M_ret.
  destruct (cache_Get_missing _ _ Hinv Hn) as [err Herr].
  rewrite (bind_Ok _ _ s s (inr err)).
  - unfold use_reference. by rewrite decide_True.
  - apply try_Err. by apply on_cache_same.
Qed.

(** The provisioner is reached with the counters and the cache untouched. *)
Lemma provisionForward_run e r s s1 x : provisionForward e r s = (s1, x) ->
  (exists w evs, s1 = with_log w evs s /\ (evs = [] \/ evs = [EvProvision r])).
Proof.
  assert (Hs : s = with_log (st_world s) [] s)
    by (unfold with_log; rewrite app_nil_r; by destruct s).
  unfold provisionForward. destruct (provisioners e !! r_Type r) as [fn|].
  2:{ unfold throw. intros [= <- <-]. eauto. }
  unfold mbind, M_bind, getUsableMemoryBytes.
  destruct (VirtualMemory (st_world s)) as [[mt ma]|err|p]; [|intros [= <- <-]; by eauto..].
  destruct (usable_memory _ _ _ _) as [total usable]. unfold wrap, lift.
  destruct (CheckMemoryRequirements r usable) as [[]|err|p]; [|intros [= <- <-]; by eauto..].
  rewrite call_eq. intros [= <- <-]. eauto.
Qed.

(** The end of a successful [provision], up to the counting. *)
Lemma provision_finish_ok e r s info data :
  engine_ok e -> cache_inv (st_cache s) -> (forall x, cache_storable (set_Result x r)) ->
  cache_abs (st_cache s) !! r_ID r = None -> marshal_info info = Ok data ->
  let x := signed e (MkResult (r_Type r) (r_ID r) (Now (st_world s)) StateOk "" data "") in
  exists c w,
    cache_inv c /\ cache_abs c = <[r_ID r := strip_tag (set_Result x r)]> (cache_abs (st_cache s)) /\
    provision_finish e (r_ID r) r (inl info) s =
      (b ← network_update (set_Result x r);
       if b : bool then mret tt else ignore (on_stats (Increment r)))
      (MkSt c (st_stats s) w (st_log s ++ [EvFeedback (nodeID e) x]) (st_mem s)).
Proof.
  intros Hok Hinv Hst Hn Hm x.
  destruct (reply_run e (MkResult (r_Type r) (r_ID r) (Now (st_world s)) StateOk "" data "") s Hok)
    as (w & err & Hreply).
  destruct (cache_Add_new (st_cache s) (set_Result x r)) as (c & Hadd & Hinv' & Habs);
    [done|by apply Hst|done|].
  exists c, w. split_and!; [done..|].
  unfold provision_finish, gets, buildResult. unfold mbind at 1, M_bind at 1. cbn. rewrite Hm.
  rewrite (bind_Ok _ _ _ _ _ Hreply), set_ID_same. fold x.
  rewrite (bind_Ok _ _ _ (MkSt c (st_stats s) w (st_log s ++ [EvFeedback (nodeID e) x]) (st_mem s)) tt);
    [done|].
  unfold wrap, on_cache, with_log. cbn. by rewrite Hadd.
Qed.

(** The end of a failed one. *)
Lemma provision_finish_err e id r s err :
  engine_ok e ->
  let x := signed e (MkResult (r_Type r) id (Now (st_world s)) StateError (Error err) nullRaw "") in
  exists w, provision_finish e id r (inr err) s =
    (with_log w [EvFeedback (nodeID e) x; EvDeleted (nodeID e) id] s, Err err).
Proof.
  intros Hok x.
  destruct (reply_run e (MkResult (r_Type r) id (Now (st_world s)) StateError (Error err) nullRaw "") s Hok)
    as (w & err' & Hreply).
  destruct (ignore_call (EvDeleted (nodeID e) id) (feedback_Deleted e (nodeID e) id)
    (with_log w [EvFeedback (nodeID e) x] s) (ok_deleted _ Hok _ _)) as (w' & Hdel).
  exists w'. unfold provision_finish, gets, buildResult. unfold mbind at 1, M_bind at 1. cbn.
  rewrite (bind_Ok _ _ _ _ _ Hreply), (bind_Ok _ _ _ _ _ Hdel). unfold throw.
  by rewrite with_log_with_log.
Qed.

(** The admitted run of [provisionForward]. *)
Lemma provisionForward_ok e r s (fn : Reservation -> M W Info) mt ma w info :
  provisioners e !! r_Type r = Some fn ->
  VirtualMemory (st_world s) = Ok (mt, ma) ->
  CheckMemoryRequirements r
    (snd (usable_memory (reservedMemoryBytes e) mt ma (CurrentUnits (st_stats s)))) = Ok tt ->
  fn r (st_world s) = (w, Ok info) ->
  provisionForward e r s = (with_log w [EvProvision r] s, Ok info).
Proof.
  intros Hfn Hvm Hcheck Hrun. unfold provisionForward. rewrite Hfn.
  unfold mbind, M_bind, getUsableMemoryBytes. rewrite Hvm.
  destruct (usable_memory _ _ _ _) as [total usable]. cbn in Hcheck. unfold wrap, lift.
  by rewrite Hcheck, call_eq, Hrun.
Qed.

(** [decommission] of a cached reservation, up to its decommissioner. *)
Lemma decommission_cached e r s s1 :
  engine_ok e -> cache_inv (st_cache s) -> (forall p, units r <> Panic p) ->
  is_Some (cache_abs (st_cache s) !! r_ID r) -> res_State (r_Result r) <> StateError ->
  match decomissioners e !! r_Type r with
  | Some fn => wrap "decommissioning of reservation failed"
                 (call (EvDecommission (use_reference r)) (fn (use_reference r)))
  | None => mret tt
  end s = (s1, Ok tt) ->
  exists s' x, decommission e r s = (s', x) /\ (forall p, x <> Panic p) /\
    cache_inv (st_cache s') /\
    cache_abs (st_cache s') = delete (r_ID r) (cache_abs (st_cache s)) /\
    st_stats s' = fst (Decrement r (st_stats s)) /\
    st_log s' = st_log s1 ++ [EvDeleted (nodeID e) (r_ID r)].
Proof.
  intros Hok Hinv Hu Hin Hst Hdec.
  assert (Hfr : st_cache s1 = st_cache s /\ st_stats s1 = st_stats s).
  { destruct (decomissioners e !! r_Type r) as [fn|]; [|by injection Hdec as <-].
    unfold wrap in Hdec. rewrite call_eq in Hdec.
    destruct (fn _ _) as [w [[]|?|?]]; cbn in Hdec; by simplify_eq. }
  destruct Hfr as [Hc Hs].
  assert (Href : r_Type (use_reference r) = r_Type r /\ r_Result (use_reference r) = r_Result r /\
    set_ID (r_ID r) (use_reference r) = r).
  { unfold use_reference. case_decide; cbn; by rewrite ?set_ID_set_ID, set_ID_same. }
  destruct Href as (Ht & Hr & Hid).
  unfold decommission. rewrite (bind_Ok _ _ s s true).
  2:{ unfold wrap. rewrite (on_cache_same _ s _ (cache_Exists_spec _ (r_ID r) Hinv)).
      by rewrite bool_decide_true. }
  cbn [negb]. rewrite Hr, Ht, Hid. destruct (Z.eqb_spec (res_State (r_Result r)) StateError); [done|].
  rewrite (bind_Ok _ _ _ _ _ Hdec).
  destruct (cache_Remove_spec (st_cache s1) (r_ID r)) as (c & Hrem & Hinv' & Habs); [by rewrite Hc|].
  rewrite (bind_Ok _ _ s1 (MkSt c (st_stats s1) (st_world s1) (st_log s1) (st_mem s1)) tt)
    by (unfold wrap, on_cache; by rewrite Hrem).
  rewrite (bind_Ok _ _ _ _ _ (ignore_stats (Decrement r) (MkSt c _ _ _ _)
    (fun p => Decrement_no_panic r _ p Hu))).
  unfold wrap. rewrite call_eq. pose proof (ok_deleted _ Hok (nodeID e) (r_ID r)) as Hdel.
  cbn [st_world]. destruct (feedback_Deleted e (nodeID e) (r_ID r) (st_world s1)) as [w x] eqn:E.
  assert (Hx : forall p, x <> Panic p) by (intros p ->; by destruct (Hdel _ _ _ E)).
  eexists _, (match x with Err err => Err (ErrWrap "failed to mark reservation as deleted" err) | y => y end).
  split; [by destruct x|]. split; [by destruct x|]. cbn. by rewrite Habs, Hc, Hs.
Qed.

End engine_lemmas.

(** ** Invariants of the engine's procedures

    [I] is a property of the state that the cache does not matter for and that
    the calls of the [allowed] kinds keep; every procedure of the engine that
    makes only such calls keeps it. *)
Section frame.
  Context {C W Info : Type} `{CacheOps C} `{Node W} `{InfoJson Info}
    `{NetDecoder} `{NetHash} `{ResultStates} `{Decoders}.
  Context (e : Engine W Info) (I : St C W -> Prop) (allowed : event -> bool).
  Context (I_cache : forall A (m : M C A), keeps I (on_cache m)).
  Context (I_world : forall A (m : M W A), keeps I (on_world m)).
  Context (I_call : forall A ev (m : M W A), allowed ev = true -> keeps I (call ev m)).
  Context (I_reply : forall n x, allowed (EvFeedback n x) = true).
  Context (I_deleted : forall n i, allowed (EvDeleted n i) = true).

Lemma keeps_usable : keeps I (getUsableMemoryBytes e).
Proof. intros s Hs. unfold getUsableMemoryBytes. by destruct (VirtualMemory _) as [[]| |]. Qed.

Lemma keeps_reply x : keeps I (reply e x).
Proof.
  unfold reply. destruct (signResult e x); auto with zos_monad.
Qed.

Lemma keeps_migrateToPool r : keeps I (migrateToPool e r).
Proof.
  unfold migrateToPool. apply keeps_bind; [auto with zos_monad|].
  intros [old|err]; [|auto with zos_monad].
  case_decide; [|auto with zos_monad]. destruct (_ && _); auto 10 with zos_monad.
Qed.

Lemma keeps_network_update r : keeps I (network_update r).
Proof.
  unfold network_update. case_decide; [|auto with zos_monad].
  destruct (dec_NetResource_Name (r_Data r)); auto with zos_monad.
Qed.

Lemma keeps_updateStats : (forall n w u, allowed (EvUpdateStats n w u) = true) ->
  keeps I (updateStats e).
Proof.
  intros Hst. unfold updateStats. apply keeps_bind; [auto with zos_monad|intros wl].
  apply keeps_bind; [auto with zos_monad|intros u]. apply keeps_bind.
  { destruct (storaged_GetCacheFS e) as [get|]; [|auto with zos_monad].
    apply keeps_bind; [auto with zos_monad|]. intros []. auto with zos_monad. }
  intros u'. apply keeps_bind; [apply keeps_usable|]. intros []. auto with zos_monad.
Qed.

Lemma keeps_decommission r : (forall r, allowed (EvDecommission r) = true) ->
  (forall r, keeps I (on_stats (Decrement r))) -> keeps I (decommission e r).
Proof.
  intros Hev Hdec. unfold decommission. apply keeps_bind; [auto with zos_monad|].
  intros []; cbn; [|auto with zos_monad]. destruct (_ =? _); [auto with zos_monad|].
  apply keeps_bind; [|auto 10 with zos_monad].
  destruct (decomissioners e !! _); auto with zos_monad.
Qed.

(** [provision], given what its second half does. *)
Lemma keeps_provision (K : St C W -> Prop) r s :
  (forall s, I s -> K s) ->
  (forall r' s, (r_Reference r = "" -> r' = r) -> I s ->
     K (fst ((x ← try (provisionForward e (use_reference r'));
              provision_finish e (r_ID r') (use_reference r') x) s))) ->
  I s -> K (fst (provision e r s)).
Proof.
  intros HK Hfwd Hs. unfold provision.
  apply (keeps_then I); [auto with zos_monad|done| |done]. clear s Hs. intros now s Hs.
  apply (keeps_then I); [auto with zos_monad|done| |done]. clear s Hs. intros _ s Hs.
  assert (Hget : forall r' s, (r_Reference r = "" -> r' = r) -> I s ->
    K (fst ((got ← try (on_cache (cache_Get (r_ID r')));
             match got with
             | inl cached => if IsNil (r_Result cached) then mret tt
                             else ignore (reply e (r_Result cached))
             | inr _ => x ← try (provisionForward e (use_reference r'));
                        provision_finish e (r_ID r') (use_reference r') x
             end) s))).
  { clear s Hs. intros r' s Hr' Hs. pose proof keeps_reply as Hrep.
    apply (keeps_then I); [auto with zos_monad|done| |done]. clear s Hs.
    intros [cached|err] s Hs; [|by apply Hfwd].
    destruct (IsNil _); [by apply HK|]. apply HK. by apply keeps_ignore. }
  case_decide as Href; [by apply Hget|].
  apply (keeps_then I); [apply keeps_migrateToPool|done| |done].
  clear s Hs. intros r' s Hs. by apply Hget.
Qed.

(** [provision_finish] without the counting. *)
Lemma keeps_provision_finish (K : St C W -> Prop) id r forwarded s :
  (forall s, I s -> K s) ->
  (forall s, I s -> match forwarded with
                    | inl _ => K (fst (ignore (on_stats (Increment r)) s))
                    | inr _ => True
                    end) ->
  I s -> K (fst (provision_finish e id r forwarded s)).
Proof.
  intros HK Hinc Hs. unfold provision_finish.
  apply (keeps_then I); [auto with zos_monad|done| |done]. clear s Hs. intros now s Hs.
  destruct (buildResult _ _ _ _ _) as [x|err|p]; [|by apply HK..].
  apply (keeps_then I); [apply keeps_reply|done| |done]. clear s Hs. intros [x' _] s Hs.
  destruct forwarded as [info|err].
  - apply (keeps_then I); [auto with zos_monad|done| |done]. clear s Hs. intros _ s Hs.
    apply (keeps_then I); [apply keeps_network_update|done| |done].
    clear s Hs. intros [] s Hs; [by apply HK|]. by apply (Hinc s).
  - apply HK. revert s Hs.
    change (keeps I (ignore (call (EvDeleted (nodeID e) id) (feedback_Deleted e (nodeID e) id)) ;;
                     throw (A := unit) err)). auto 10 with zos_monad.
Qed.

(** One reservation of the source, given [provision]. *)
Lemma keeps_process r :
  (forall n w u, allowed (EvUpdateStats n w u) = true) ->
  (forall r, allowed (EvDecommission r) = true) ->
  (forall r, keeps I (on_stats (Decrement r))) ->
  (forall s, I s -> I (mem_Set (r_ID r) s)) -> keeps I (provision e r) ->
  keeps I (process e r).
Proof.
  intros Hst Hev Hdec Hmem Hprov. pose proof (keeps_updateStats Hst).
  pose proof (keeps_decommission r Hev Hdec).
  unfold process. apply keeps_bind; [auto with zos_monad|]. intros now. destruct (_ || _).
  - apply keeps_bind; [auto with zos_monad|]. intros []; auto with zos_monad.
  - apply keeps_bind; [auto with zos_monad|]. intros []; [auto with zos_monad|].
    apply keeps_bind; [by apply keeps_modify|intros _].
    apply keeps_bind; [auto with zos_monad|]. intros []; auto with zos_monad.
Qed.

End frame.

(** A property of the counters does not depend on the rest of the state. *)
Section stats_frame.
  Context {C W : Type} (P : Counters -> Prop).

Lemma keeps_stats_cache A (m : M C A) : keeps (fun s : St C W => P (st_stats s)) (on_cache m).
Proof. intros s Hs. unfold on_cache. by destruct (m _). Qed.

Lemma keeps_stats_world A (m : M W A) : keeps (fun s : St C W => P (st_stats s)) (on_world m).
Proof. intros s Hs. unfold on_world. by destruct (m _). Qed.

Lemma keeps_stats_call A ev (m : M W A) : true = true ->
  keeps (fun s : St C W => P (st_stats s)) (call ev m).
Proof. intros _ s Hs. unfold call. by destruct (m _). Qed.

End stats_frame.

#[export] Hint Resolve keeps_stats_cache keeps_stats_world keeps_stats_call : zos_monad.

(** ** Properties *)

(** A reservation that is valid, not cached, replaces none, is admitted by the
    memory check, and whose provisioner succeeds. *)
Section admitted.
  Context {C W Info : Type} `{CacheLaws C} `{Node W} `{InfoJson Info}
    `{NetDecoder} `{NetHash} `{ResultStates} `{Decoders}.
  Context (e : Engine W Info) (r : Reservation) (s : St C W) (fn : Reservation -> M W Info)
    (mt ma : Z) (w : W) (info : Info) (data : string).
  Context (Hok : engine_ok e) (Hinv : cache_inv (st_cache s))
    (Hstorable : forall x, cache_storable (set_Result x r))
    (Hunits : forall p, units r <> Panic p)
    (Hvalid : validate (Now (st_world s)) r = Ok tt) (Href : r_Reference r = "")
    (Hnew : cache_abs (st_cache s) !! r_ID r = None)
    (Hfn : provisioners e !! r_Type r = Some fn)
    (Hvm : VirtualMemory (st_world s) = Ok (mt, ma))
    (Hcheck : CheckMemoryRequirements r
      (snd (usable_memory (reservedMemoryBytes e) mt ma (CurrentUnits (st_stats s)))) = Ok tt)
    (Hrun : fn r (st_world s) = (w, Ok info)) (Hmarshal : marshal_info info = Ok data).

(** The result that is sent and cached. *)
Definition ok_result : Result :=
  signed e (MkResult (r_Type r) (r_ID r) (Now w) StateOk "" data "").

(** Whether a reservation updates a network that the node has, as the code decides it with
    the cache [c]; the reservation is in this cache already. *)
Definition update_of (c : C) : res bool :=
  if decide (r_Type r = NetworkResourceReservation) then
    match dec_NetResource_Name (r_Data r) with
    | Ok name => snd (cache_NetworkExists (NetworkID (r_User r) name) c)
    | Err err => Err err
    | Panic p => Panic p
    end
  else Ok false.

Lemma admitted_run :
  exists c w', cache_inv c /\
    cache_abs c = <[r_ID r := strip_tag (set_Result ok_result r)]> (cache_abs (st_cache s)) /\
    provision e r s =
      (b ← network_update (set_Result ok_result r);
       if b : bool then mret tt else ignore (on_stats (Increment r)))
      (MkSt c (st_stats s) w' (st_log s ++ [EvProvision r; EvFeedback (nodeID e) ok_result])
         (st_mem s)).
Proof using All.
  rewrite (provision_fresh e r s) by done.
  rewrite (bind_Ok _ _ _ _ _ (try_Ok _ _ _ _
    (provisionForward_ok e r s fn mt ma w info Hfn Hvm Hcheck Hrun))).
  destruct (provision_finish_ok e r (with_log w [EvProvision r] s) info data)
    as (c & w' & Hinv' & Habs & ->); [done..|].
  exists c, w'. split_and!; [done..|]. cbn. by rewrite <- (assoc_L (++)).
Qed.

Lemma update_run x c (w' : W) log : cache_inv c ->
  network_update (set_Result x r) (MkSt c (st_stats s) w' log (st_mem s)) =
    (MkSt c (st_stats s) w' log (st_mem s),
     match update_of c with
     | Ok b => Ok b
     | Err err => Err (ErrWrap (match dec_NetResource_Name (r_Data r) with
                                | Ok _ => "failed to check if network exists"
                                | _ => "failed to unmarshal network from reservation"
                                end) err)
     | Panic p => Panic p
     end).
Proof using All.
  intros Hc. unfold network_update, update_of. cbn. case_decide; [|done].
  destruct (dec_NetResource_Name (r_Data r)) as [name|err|p]; [|done..].
  destruct (cache_NetworkExists_pure c (NetworkID (r_User r) name) Hc) as (b & Hb & _).
  unfold wrap, on_cache. cbn. rewrite Hb. by destruct b.
Qed.

Lemma admitted_counted :
  exists s' x, provision e r s = (s', x) /\ cache_inv (st_cache s') /\
    cache_abs (st_cache s') = <[r_ID r := strip_tag (set_Result ok_result r)]> (cache_abs (st_cache s)) /\
    st_log s' = st_log s ++ [EvProvision r; EvFeedback (nodeID e) ok_result] /\
    match update_of (st_cache s') with
    | Ok false => x = Ok tt /\ st_stats s' = fst (Increment r (st_stats s))
    | Ok true => x = Ok tt /\ st_stats s' = st_stats s
    | Err err => (exists msg, x = Err (ErrWrap msg err)) /\ st_stats s' = st_stats s
    | Panic p => x = Panic p
    end.
Proof using All.
  destruct admitted_run as (c & w' & Hinv' & Habs & ->).
  unfold mbind at 1, M_bind at 1. rewrite update_run by done.
  destruct (update_of c) as [[]|err|p] eqn:Hu.
  2: rewrite ignore_stats by (intros p; by apply Increment_no_panic).
  all: eexists _, _; split; [reflexivity|]; cbn; rewrite Hu; split_and!; try done.
  by eexists.
Qed.

(** C3 (functional): provisioning a reservation that is valid, not cached,
    replaces none and is admitted by the memory check, with a provisioner that
    succeeds, calls the provisioner once, then sends the signed result with
    state ok, caches the reservation with that result and changes nothing else
    in the cache. Its capacity is added to the counters once; but nothing is added when the
    reservation is a network resource that updates a network of the cache ([update_of]), nor
    when this cannot be decided: then the error is returned, after the reservation is cached. *)
Theorem provision_success :
  exists s' x, provision e r s = (s', x) /\ cache_inv (st_cache s') /\
    cache_abs (st_cache s') = <[r_ID r := strip_tag (set_Result ok_result r)]> (cache_abs (st_cache s)) /\
    st_log s' = st_log s ++ [EvProvision r; EvFeedback (nodeID e) ok_result] /\
    (r_Type r <> NetworkResourceReservation -> update_of (st_cache s') = Ok false) /\
    match update_of (st_cache s') with
    | Ok false => x = Ok tt /\ st_stats s' = fst (Increment r (st_stats s))
    | Ok true => x = Ok tt /\ st_stats s' = st_stats s
    | Err err => (exists msg, x = Err (ErrWrap msg err)) /\ st_stats s' = st_stats s
    | Panic p => x = Panic p
    end.
Proof using All.
  destruct admitted_counted as (s' & x & Hprov & Hc & Habs & Hlog & Hx). exists s', x. split_and!; try done.
  intros Hnet. unfold update_of. by rewrite decide_False.
Qed.

(** C2 (roundtrip): provisioning a reservation that is valid, not cached,
    replaces none and is admitted by the memory check, and decommissioning it
    (it comes back from the cache once it has expired) leaves the cache as it was before,
    and the counters too: nothing of the accounting leaks. There is one exception: a network
    resource that was an update ([update_of]) was not counted, and decommissioning takes
    its capacity off the counters all the same. The counters
    are below their limits: no sum of them wraps at 64 bits. *)
Theorem provision_decommission s1 cached (undo : Reservation -> M W unit) w2 :
  counters_ok (st_stats s) ->
  (forall u, units r = Ok u -> units_ok u) ->
  room (match units r with Ok u => u | _ => no_units end) (st_stats s) ->
  provision e r s = (s1, Ok tt) -> cache_Get (r_ID r) (st_cache s1) = (st_cache s1, Ok cached) ->
  decomissioners e !! r_Type r = Some undo -> undo cached (st_world s1) = (w2, Ok tt) ->
  exists s2 y, decommission e cached s1 = (s2, y) /\ (forall p, y <> Panic p) /\
    cache_inv (st_cache s2) /\ cache_abs (st_cache s2) = cache_abs (st_cache s) /\
    (r_Type r <> NetworkResourceReservation -> update_of (st_cache s1) = Ok false) /\
    exists update, update_of (st_cache s1) = Ok update /\
      st_stats s2 = if update then fst (Decrement r (st_stats s)) else st_stats s.
Proof using All.
  intros Hcs Hu Hroom Hprov Hget Hundo Hw2.
  destruct admitted_counted as (s1' & x1 & Hprov' & Hinv1 & Habs1 & Hlog1 & Hst1).
  rewrite Hprov in Hprov'. injection Hprov' as <- <-.
  assert (Hup : exists update, update_of (st_cache s1) = Ok update /\
    st_stats s1 = if update then st_stats s else fst (Increment r (st_stats s))).
  { destruct (update_of (st_cache s1)) as [[]|err|p]; [| | |done]; destruct Hst1 as [Hx Hst1];
      [by exists true|by exists false|by destruct Hx]. }
  clear Hst1. destruct Hup as (update & Hup & Hst1).
  assert (Hc : cached = strip_tag (set_Result ok_result r)).
  { rewrite (cache_Get_found _ _ (strip_tag (set_Result ok_result r)) Hinv1) in Hget;
      [congruence|by rewrite Habs1, lookup_insert_eq]. }
  assert (Huse : use_reference cached = cached) by (subst; unfold use_reference; by rewrite decide_True).
  destruct (decommission_cached e cached s1 (with_log w2 [EvDecommission cached] s1))
    as (s2 & y & Hdec & Hy & Hinv2 & Habs2 & Hst2 & _); try done.
  - by subst.
  - subst. cbn. rewrite Habs1, lookup_insert_eq. by eauto.
  - subst. unfold ok_result, signed. cbn. destruct (signer_Sign e _); apply StateOk_not_Error.
  - rewrite Huse. subst. cbn. rewrite Hundo. unfold wrap. by rewrite call_eq, Hw2.
  - exists s2, y. split_and!; try assumption.
    + rewrite Habs2, Habs1. subst. cbn. by apply delete_insert_id.
    + intros Hnet. unfold update_of. by rewrite decide_False.
    + exists update. split; [done|]. rewrite Hst2, Hst1. subst cached. destruct update; [done|].
      change (fst (Decrement r (fst (Increment r (st_stats s)))) = st_stats s).
      by apply Increment_Decrement.
Qed.

(** A network resource that is admitted and whose provisioner
    succeeds is counted every time it is provisioned under a new reservation, also when a reservation of the same
    network is already in the cache: the test for an update looks at
    reservations of type "network" only. *)
Theorem network_resource_counted name :
  r_Type r = NetworkResourceReservation -> dec_NetResource_Name (r_Data r) = Ok name ->
  (forall id x, cache_abs (st_cache s) !! id = Some x -> r_Type x <> NetworkReservation) ->
  exists s', provision e r s = (s', Ok tt) /\
    networks (st_stats s') = (networks (st_stats s) +u 1)%go.
Proof using All.
  intros Hnet Hname Hall. destruct admitted_run as (c & w' & Hinv' & Habs & ->).
  assert (Hnone : cache_NetworkExists (NetworkID (r_User r) name) c = (c, Ok false)).
  { apply cache_NetworkExists_none; [done|]. intros id x. rewrite Habs.
    intros [[_ <-]|[_ Hx]]%lookup_insert_Some; [cbn; by rewrite Hnet|by eapply Hall]. }
  unfold network_update. cbn. rewrite decide_True, Hname by done.
  rewrite (bind_Ok _ _ _ _ false) by (unfold wrap, on_cache; cbn; by rewrite Hnone).
  rewrite ignore_stats by (intros p; by apply Increment_no_panic).
  eexists. split; [done|]. cbn. rewrite Increment_eq. unfold units, workload_counter.
  rewrite Hnet. done.
Qed.

End admitted.

Section engine_properties.
  Context {C W Info : Type} `{CacheLaws C} `{Node W} `{InfoJson Info}
    `{NetDecoder} `{NetHash} `{ResultStates} `{Decoders}.

Implicit Types (e : Engine W Info) (r : Reservation) (s : St C W).

(** C25 (error): when a reservation that is not cached cannot be provisioned,
    for whatever reason (no provisioner for its type, not enough memory, the
    provisioner fails), the error is returned, the cache and the counters stay
    as they were, an error result is sent and the reservation is marked as
    deleted, in that order; the provisioner was called at most once. *)
Theorem provision_failure e r s s1 err :
  engine_ok e -> cache_inv (st_cache s) ->
  validate (Now (st_world s)) r = Ok tt -> r_Reference r = "" ->
  cache_abs (st_cache s) !! r_ID r = None ->
  provisionForward e r s = (s1, Err err) ->
  let x := signed e (MkResult (r_Type r) (r_ID r) (Now (st_world s1)) StateError (Error err) nullRaw "") in
  exists s' tried, provision e r s = (s', Err err) /\
    st_cache s' = st_cache s /\ st_stats s' = st_stats s /\
    (tried = [] \/ tried = [EvProvision r]) /\
    st_log s' = st_log s ++ tried ++ [EvFeedback (nodeID e) x; EvDeleted (nodeID e) (r_ID r)].
Proof.
  intros Hok Hinv Hv Href Hn Hfwd x.
  destruct (provisionForward_run e r s s1 _ Hfwd) as (w & evs & -> & Hevs).
  rewrite (provision_fresh e r s) by done. rewrite (bind_Ok _ _ _ _ _ (try_Err _ _ _ _ Hfwd)).
  destruct (provision_finish_err e (r_ID r) r (with_log w evs s) err Hok) as (w' & ->).
  rewrite with_log_with_log. eexists _, evs. by repeat split.
Qed.

(** Provisioning is idempotent: a reservation that is
    already in the cache is not provisioned again, whatever its provisioner;
    the cache and the counters do not change, and all that is sent, if the
    cached result is set, is that result again. *)
Theorem provision_idempotent e r s cached :
  engine_ok e -> cache_inv (st_cache s) ->
  validate (Now (st_world s)) r = Ok tt -> r_Reference r = "" ->
  cache_abs (st_cache s) !! r_ID r = Some cached ->
  exists s', provision e r s = (s', Ok tt) /\
    st_cache s' = st_cache s /\ st_stats s' = st_stats s /\
    st_log s' = st_log s ++
      (if IsNil (r_Result cached) then []
       else [EvFeedback (nodeID e) (signed e (r_Result cached))]).
Proof.
  intros Hok Hinv Hv Href Hc.
  unfold provision, gets. unfold mbind at 1, M_bind at 1. cbn.
  unfold wrap, lift at 1. rewrite Hv. unfold mbind at 1, M_bind at 1. cbn.
  rewrite decide_True by done. unfold mbind at 1, M_bind at 1, mret, M_ret.
  rewrite (bind_Ok _ _ s s (inl cached))
    by (apply try_Ok, on_cache_same, cache_Get_found; done).
  destruct (IsNil (r_Result cached)).
  - exists s. by rewrite app_nil_r.
  - destruct (reply_run e (r_Result cached) s Hok) as (w & err & Hr).
    unfold ignore. rewrite Hr. by eexists.
Qed.

(** C26 (functional): decommissioning a cached reservation whose
    decommissioner succeeds removes it from the cache and only it, gives its
    capacity back, and reports it as deleted; if the decommissioner fails
    nothing is removed, given back or reported, so that it is tried again. *)
Theorem decommission_spec e r s (fn : Reservation -> M W unit) w x :
  engine_ok e -> cache_inv (st_cache s) -> (forall p, units r <> Panic p) ->
  is_Some (cache_abs (st_cache s) !! r_ID r) -> res_State (r_Result r) <> StateError ->
  decomissioners e !! r_Type r = Some fn ->
  fn (use_reference r) (st_world s) = (w, x) ->
  match x with
  | Ok _ => exists s' y, decommission e r s = (s', y) /\ (forall p, y <> Panic p) /\
      cache_inv (st_cache s') /\
      cache_abs (st_cache s') = delete (r_ID r) (cache_abs (st_cache s)) /\
      st_stats s' = fst (Decrement r (st_stats s)) /\
      st_log s' = st_log s ++ [EvDecommission (use_reference r); EvDeleted (nodeID e) (r_ID r)]
  | Err err => exists err', decommission e r s =
      (with_log w [EvDecommission (use_reference r)] s, Err err') /\ Cause err' = Cause err
  | Panic p => True
  end.
Proof.
  intros Hok Hinv Hu Hin Hst Hfn Hrun. destruct x as [[]|err|p]; [| |done].
  - destruct (decommission_cached e r s (with_log w [EvDecommission (use_reference r)] s))
      as (s' & y & Hdec & Hy & Hinv' & Habs & Hstats & Hlog); [done..| |].
    { rewrite Hfn. unfold wrap. by rewrite call_eq, Hrun. }
    exists s', y. split_and!; try assumption. rewrite Hlog. cbn. by rewrite <- (assoc_L (++)).
  - exists (ErrWrap "decommissioning of reservation failed" err). split; [|done]. unfold decommission. rewrite (bind_Ok _ _ s s true).
    2:{ unfold wrap. rewrite (on_cache_same _ s _ (cache_Exists_spec _ (r_ID r) Hinv)).
        by rewrite bool_decide_true. }
    assert (Hr : r_Type (use_reference r) = r_Type r /\ r_Result (use_reference r) = r_Result r)
      by (unfold use_reference; by case_decide).
    destruct Hr as [Ht Hr]. cbn [negb]. rewrite Hr, Ht, Hfn.
    destruct (Z.eqb_spec (res_State (r_Result r)) StateError); [done|].
    apply bind_Err. unfold wrap. by rewrite call_eq, Hrun.
Qed.

End engine_properties.

Section memory.
  Context {C W Info : Type} `{CacheOps C} `{Node W} `{InfoJson Info}
    `{NetDecoder} `{NetHash} `{ResultStates} `{Decoders}.
  Context (e : Engine W Info) (mt : Z).

(** The memory workloads may reserve on a node with [mt] bytes. *)
Definition memory_budget : Z := mt / gib * gib - reservedMemory mt.

Definition budget_ok (c : Counters) : Prop := 0 <= MRU c <= memory_budget.

Definition within_budget (s : St C W) : Prop := budget_ok (st_stats s).

Lemma memory_budget_bounds : 2 * gib <= mt < 4096 * gib ->
  0 <= reservedMemory mt < 2 ^ 53 /\ 0 <= memory_budget < 2 ^ 53.
Proof.
  intros Hmt. unfold memory_budget. rewrite reservedMemory_spec by (unfold gib in *; lia).
  set (k := mt / gib).
  assert (2 <= k < 4096) by (split; [apply Z.div_le_lower_bound|apply Z.div_lt_upper_bound];
    unfold gib in *; lia).
  assert ((k + 9) / 10 <= Z.max 2 k /\ 0 <= (k + 9) / 10).
  { split; [apply Z.div_le_upper_bound; lia|apply Z.div_pos; lia]. }
  unfold gib. lia.
Qed.

(** An admitted workload fits in the budget. *)
Lemma provisionForward_admits r (s s1 : St C W) info u :
  (forall w t a, VirtualMemory w = Ok (t, a) -> t = mt /\ 0 <= a <= mt) ->
  reservedMemoryBytes e = reservedMemory mt -> 2 * gib <= mt < 4096 * gib ->
  within_budget s ->
  provisionForward e r s = (s1, Ok info) -> units r = Ok u ->
  MRU (st_stats s) + u_MRU u <= memory_budget.
Proof.
  intros Hvm Hres Hmt Hs Hrun Hu. unfold within_budget, budget_ok in Hs.
  destruct (memory_budget_bounds Hmt) as [Hr Hb].
  unfold provisionForward in Hrun. destruct (provisioners e !! r_Type r) as [fn|]; [|done].
  unfold mbind, M_bind, getUsableMemoryBytes in Hrun.
  destruct (VirtualMemory (st_world s)) as [[t a]|err|p] eqn:Evm; [|done..].
  destruct (Hvm _ _ _ Evm) as [-> Ha]. rewrite Hres in Hrun.
  rewrite usable_memory_eq in Hrun by (unfold memory_budget, gib in *; lia).
  unfold wrap, lift in Hrun.
  destruct (CheckMemoryRequirements r _) as [[]|err|p] eqn:Ec; [|done..].
  pose proof (proj1 (CheckMemoryRequirements_spec r _ (Z.le_max_l _ _)) Ec) as Hfit.
  destruct (units_MRU r u Hu) as [Hu64 Ht].
  assert (u_MRU u = 0 \/ exists u', units r = Ok u' /\
    u_MRU u' <= Z.max 0 (Z.min (mt / gib * gib - reservedMemory mt - MRU (st_stats s))
                               (a - reservedMemory mt))) as [->|(u' & Hu' & Hle)] by tauto.
  - lia.
  - rewrite Hu in Hu'. injection Hu' as <-. unfold memory_budget in *. unfold is_u64 in Hu64. lia.
Qed.

Lemma within_budget_Decrement r (s : St C W) : memory_budget < W64 ->
  within_budget s -> within_budget (fst (on_stats (Decrement r) s)).
Proof.
  intros Hb Hs. pose proof (MRU_Decrement r (st_stats s)) as Hm. unfold within_budget, budget_ok, on_stats in *.
  destruct (Decrement r (st_stats s)) as [c x]. cbn in *. rewrite Hm.
  destruct (units r) as [u| |] eqn:Hu; [|lia..].
  destruct (units_MRU r u Hu) as [Hu64 _]. unfold is_u64 in Hu64.
  rewrite counter_Decrement_spec by (unfold is_u64; lia). lia.
Qed.

Lemma within_budget_Increment r (s : St C W) : memory_budget < W64 ->
  (forall u, units r = Ok u -> MRU (st_stats s) + u_MRU u <= memory_budget) ->
  within_budget s -> within_budget (fst (ignore (on_stats (Increment r)) s)).
Proof.
  intros Hb Hfit Hs. pose proof (MRU_Increment r (st_stats s)) as Hm.
  unfold within_budget, budget_ok, ignore, on_stats in *.
  destruct (Increment r (st_stats s)) as [c x]. cbn in *.
  assert (0 <= MRU c <= memory_budget).
  { rewrite Hm. destruct (units r) as [u| |] eqn:Hu; [|lia..].
    specialize (Hfit u eq_refl). destruct (units_MRU r u Hu) as [Hu64 _].
    unfold counter_Increment. unfold is_u64 in Hu64. rewrite u64_add_exact by (unfold is_u64; lia). lia. }
  by destruct x.
Qed.

(** The state of the engine after one round keeps what [process] and
    [run_cleanup] keep. *)
Lemma run_keeps (I : St C W -> Prop) ins rs :
  (forall r, keeps I (process e r)) -> keeps I (run_cleanup e) ->
  (forall s w, I s -> I (with_log w [] s)) ->
  I (rs_st rs) -> I (rs_st (run e ins rs)).
Proof.
  intros Hp Hc Hw. revert rs. induction ins as [|i ins IH]; intros rs Hs; [done|].
  apply IH. unfold run_input. destruct (rs_status rs); [|done..].
  destruct i as [| |j| | |w]; cbn; try done.
  - destruct (job_last j); [by case_match|]. cbn. by apply Hp.
  - destruct (rs_cleanUp rs); [done|]. destruct (rs_all rs); [by apply Hc|done].
  - by case_match.
  - specialize (Hw (rs_st rs) w Hs). unfold with_log in Hw. by rewrite app_nil_r in Hw.
Qed.

(** Admission, provisioning and counting together. *)
Lemma within_budget_provision r :
  (forall w t a, VirtualMemory w = Ok (t, a) -> t = mt /\ 0 <= a <= mt) ->
  reservedMemoryBytes e = reservedMemory mt -> 2 * gib <= mt < 4096 * gib ->
  keeps within_budget (provision (C := C) e r).
Proof.
  intros Hvm Hres Hmt s Hs. destruct (memory_budget_bounds Hmt) as [_ Hb].
  apply (keeps_provision e within_budget (fun _ => true));
    [apply keeps_stats_cache|apply keeps_stats_call|done|done| |done].
  clear s Hs. intros r' s _ Hs.
  destruct (provisionForward e (use_reference r') s) as [s1 x] eqn:Hfwd.
  destruct (provisionForward_run e _ s s1 x Hfwd) as (w & evs & -> & _).
  unfold mbind, M_bind, try. rewrite Hfwd. destruct x as [info|err|p]; [| |done].
  - apply (keeps_provision_finish e (fun s' => st_stats s' = st_stats s) (fun _ => true));
      [apply (keeps_stats_cache (fun c => c = st_stats s))
      |apply (keeps_stats_call (fun c => c = st_stats s))|done|done| | |done].
    + intros s2 Heq. unfold within_budget. by rewrite Heq.
    + intros s2 Heq. apply within_budget_Increment; [unfold W64; lia| |].
      * intros u Hu. rewrite Heq. by eapply provisionForward_admits.
      * unfold within_budget. by rewrite Heq.
  - by apply (keeps_provision_finish e within_budget (fun _ => true));
      [apply keeps_stats_cache|apply keeps_stats_call|..].
Qed.

(** C1 (invariant): the memory reserved by workloads never exceeds the memory
    of the node less what is kept for the system. It holds along every run of
    the engine, whatever reservations arrive and in whatever order, whatever
    the provisioners do, and whether or not single rounds fail; the memory of
    the node is from 2 GiB to 4 TiB. *)
Theorem run_memory_budget ins s :
  (forall w t a, VirtualMemory w = Ok (t, a) -> t = mt /\ 0 <= a <= mt) ->
  reservedMemoryBytes e = reservedMemory mt -> 2 * gib <= mt < 4096 * gib ->
  within_budget s ->
  within_budget (rs_st (run e ins (run_init s))).
Proof.
  intros Hvm Hres Hmt Hs. destruct (memory_budget_bounds Hmt) as [_ Hb].
  apply run_keeps; [| |by intros|done].
  - intros r. apply (keeps_process e within_budget (fun _ => true)); try done.
    + apply keeps_stats_cache.
    + apply keeps_stats_world.
    + apply keeps_stats_call.
    + intros r' s0 Hs0. apply within_budget_Decrement; [unfold W64; lia|done].
    + by apply within_budget_provision.
  - unfold run_cleanup. destruct (janitor e) as [clean|]; [|auto with zos_monad].
    apply keeps_ignore. by apply keeps_stats_call.
Qed.

End memory.

(** ** Properties of the log *)

(** The ids of the reservations the provisioners were called with. *)
Definition provisioned (l : list event) : list string :=
  omap (fun ev => match ev with EvProvision r => Some (r_ID r) | _ => None end) l.

Definition not_provision (ev : event) : bool :=
  match ev with EvProvision _ => false | _ => true end.
Definition not_cleanup (ev : event) : bool :=
  match ev with EvCleanup => false | _ => true end.

Lemma provisioned_snoc l ev : not_provision ev = true -> provisioned (l ++ [ev]) = provisioned l.
Proof. intros He. unfold provisioned. rewrite omap_app. destruct ev; cbn; by rewrite ?app_nil_r. Qed.

Section log_frame.
  Context {C W : Type} (P : list event -> gmap string Z -> Prop) (allowed : event -> bool).
  Context (P_snoc : forall l m ev, allowed ev = true -> P l m -> P (l ++ [ev]) m).

Notation I := (fun s : St C W => P (st_log s) (st_mem s)).

Lemma keeps_log_cache A (m : M C A) : keeps I (on_cache m).
Proof. intros s Hs. unfold on_cache. by destruct (m _). Qed.

Lemma keeps_log_world A (m : M W A) : keeps I (on_world m).
Proof. intros s Hs. unfold on_world. by destruct (m _). Qed.

Lemma keeps_log_stats A (m : M Counters A) : keeps I (on_stats m).
Proof. intros s Hs. unfold on_stats. by destruct (m _). Qed.

Lemma keeps_log_call A ev (m : M W A) : allowed ev = true -> keeps I (call ev m).
Proof. intros Hev s Hs. unfold call. destruct (m _). by apply P_snoc. Qed.

End log_frame.

Section log.
  Context {C W Info : Type} `{CacheOps C} `{Node W} `{InfoJson Info}
    `{NetDecoder} `{NetHash} `{ResultStates} `{Decoders}.
  Context (e : Engine W Info).

(** [provision] never calls the janitor. *)
Lemma provision_no_cleanup r :
  keeps (fun s : St C W => EvCleanup ∉ st_log s) (provision e r).
Proof.
  intros s Hs.
  assert (Hsnoc : forall l (m : gmap string Z) ev, not_cleanup ev = true ->
    EvCleanup ∉ l -> EvCleanup ∉ l ++ [ev]) by (intros l m ev Hev Hl; destruct ev; set_solver).
  pose proof (fun A => keeps_log_cache (C := C) (W := W) (fun l _ => EvCleanup ∉ l) A) as Hcache.
  pose proof (fun A => keeps_log_call (C := C) (W := W) (fun l _ => EvCleanup ∉ l) not_cleanup Hsnoc A) as Hcall.
  apply (keeps_provision e (fun s => EvCleanup ∉ st_log s) not_cleanup); try done.
  clear s Hs. intros r' s _ Hs.
  destruct (provisionForward e (use_reference r') s) as [s1 x] eqn:Hfwd.
  destruct (provisionForward_run e _ s s1 x Hfwd) as (w & evs & -> & Hevs).
  assert (Hs1 : EvCleanup ∉ st_log (with_log w evs s)).
  { unfold with_log. cbn. destruct Hevs as [->| ->]; set_solver. }
  unfold mbind, M_bind, try. rewrite Hfwd. destruct x as [info|err|p]; [| |done].
  all: apply (keeps_provision_finish e (fun s => EvCleanup ∉ st_log s) not_cleanup); try done.
  intros s2 Hs2. unfold ignore, on_stats. by destruct (Increment _ _) as [c []].
Qed.

Lemma process_no_cleanup r : keeps (fun s : St C W => EvCleanup ∉ st_log s) (process e r).
Proof.
  assert (Hsnoc : forall l (m : gmap string Z) ev, not_cleanup ev = true ->
    EvCleanup ∉ l -> EvCleanup ∉ l ++ [ev]) by (intros l m ev Hev Hl; destruct ev; set_solver).
  apply (keeps_process e (fun s => EvCleanup ∉ st_log s) not_cleanup); try done.
  - apply (keeps_log_cache (fun l _ => EvCleanup ∉ l)).
  - apply (keeps_log_world (fun l _ => EvCleanup ∉ l)).
  - by apply (keeps_log_call (fun l _ => EvCleanup ∉ l) not_cleanup).
  - intros r'. apply (keeps_log_stats (fun l _ => EvCleanup ∉ l)).
  - apply provision_no_cleanup.
Qed.

(** The janitor only runs once the source has delivered
    everything it had: however often the cron job fires, no clean-up happens
    in a run in which the job marked as the last one has not been received. *)
Theorem cleanup_after_last ins (s : St C W) :
  EvCleanup ∉ st_log s ->
  Forall (fun i => match i with InJob j => job_last j = false | _ => True end) ins ->
  EvCleanup ∉ st_log (rs_st (run e ins (run_init s))).
Proof.
  intros Hs Hins.
  assert (Hall : rs_all (run_init s) = false) by done.
  assert (Hst : EvCleanup ∉ st_log (rs_st (run_init s))) by done.
  revert Hall Hst. generalize (run_init s) as rs. clear s Hs.
  induction Hins as [|i ins Hi _ IH]; intros rs Hall Hst; [done|].
  apply IH; unfold run_input; destruct (rs_status rs); try done;
    destruct i as [| |j| | |w]; cbn; try done.
  - by rewrite Hi.
  - rewrite Hall. by destruct (rs_cleanUp rs).
  - by case_match.
  - rewrite Hi. cbn. by apply process_no_cleanup.
  - rewrite Hall. by destruct (rs_cleanUp rs).
  - by case_match.
Qed.

(** The calls [provision] makes to provisioners: at most one, with the id of
    the reservation when it replaces none. *)
Lemma provision_calls r (s : St C W) : r_Reference r = "" ->
  let s' := fst (provision e r s) in
  st_mem s' = st_mem s /\
  (provisioned (st_log s') = provisioned (st_log s) \/
   provisioned (st_log s') = provisioned (st_log s) ++ [r_ID r]).
Proof.
  intros Href s'. subst s'. set (m := st_mem s). set (L := provisioned (st_log s)).
  set (P L' := fun l m' => m' = m /\ provisioned l = L').
  assert (Hsnoc : forall L' l m' ev, not_provision ev = true -> P L' l m' -> P L' (l ++ [ev]) m').
  { intros L' l m' ev Hev [-> Hl]. split; [done|]. by rewrite provisioned_snoc. }
  apply (keeps_provision e (fun s => P L (st_log s) (st_mem s)) not_provision); try done.
  - apply (keeps_log_cache (P L)).
  - apply (keeps_log_call (P L) not_provision (Hsnoc L)).
  - intros s2 [? ?]. auto.
  - intros r' s2 Hr' [Hm2 HL2]. rewrite (Hr' Href). unfold use_reference. rewrite decide_True by done.
    destruct (provisionForward e r s2) as [s3 x] eqn:Hfwd.
    destruct (provisionForward_run e _ s2 s3 x Hfwd) as (w & evs & -> & Hevs).
    assert (Hs3 : exists L', (L' = L \/ L' = L ++ [r_ID r]) /\
      P L' (st_log (with_log w evs s2)) (st_mem (with_log w evs s2))).
    { unfold P, with_log. cbn. destruct Hevs as [->| ->]; [exists L|exists (L ++ [r_ID r])].
      - rewrite app_nil_r. auto.
      - unfold provisioned in *. rewrite omap_app, HL2. auto. }
    destruct Hs3 as (L' & HL' & Hs3).
    assert (HPL' : forall l m', P L' l m' -> m' = m /\ (provisioned l = L \/ provisioned l = L ++ [r_ID r]))
      by (intros l m' [? ?]; destruct HL'; subst; auto).
    unfold mbind, M_bind, try. rewrite Hfwd. destruct x as [info|err|p]; [| |by apply HPL'].
    all: apply (keeps_provision_finish e (fun s => P L' (st_log s) (st_mem s)) not_provision);
      try done; try apply (keeps_log_cache (P L'));
      try apply (keeps_log_call (P L') not_provision (Hsnoc L'));
      try (intros s4 Hs4; by apply HPL').
    intros s4 Hs4. apply HPL'. unfold ignore, on_stats. by destruct (Increment _ _) as [c []].
Qed.

(** Everything but [provision] calls no provisioner and leaves [memCache]. *)
Lemma quiet_calls (P : list event -> gmap string Z -> Prop) :
  (forall l m ev, not_provision ev = true -> P l m -> P (l ++ [ev]) m) ->
  let I := fun s : St C W => P (st_log s) (st_mem s) in
  (forall r, keeps I (decommission e r)) /\ keeps I (updateStats e) /\ keeps I (run_cleanup e).
Proof.
  intros Hsnoc I.
  pose proof (keeps_log_cache (C := C) (W := W) P) as Hcache.
  pose proof (keeps_log_world (C := C) (W := W) P) as Hworld.
  pose proof (keeps_log_stats (C := C) (W := W) P) as Hstats.
  pose proof (keeps_log_call (C := C) (W := W) P not_provision Hsnoc) as Hcall.
  split_and!.
  - intros r. by apply (keeps_decommission e I not_provision).
  - by apply (keeps_updateStats e I not_provision).
  - unfold run_cleanup. destruct (janitor e) as [clean|]; [|auto with zos_monad].
    apply keeps_ignore. by apply Hcall.
Qed.

(** [memCache] remembers every provisioned id, and its entries are still good
    at the instant [t1]. *)
Definition once (t1 : Z) (l : list event) (m : gmap string Z) : Prop :=
  NoDup (provisioned l) /\ (forall x, x ∈ provisioned l -> is_Some (m !! x)) /\
  (forall x t, m !! x = Some t -> t1 <= t).

Lemma once_snoc t1 l m ev : not_provision ev = true -> once t1 l m -> once t1 (l ++ [ev]) m.
Proof. intros Hev. unfold once. by rewrite provisioned_snoc. Qed.

Lemma process_once t0 r :
  (forall w : W, t0 <= Now w <= t0 + DefaultExpiration) -> r_Reference r = "" ->
  keeps (fun s : St C W => once (t0 + DefaultExpiration) (st_log s) (st_mem s)) (process e r).
Proof.
  intros Hnow Href. set (t1 := t0 + DefaultExpiration).
  destruct (quiet_calls (once t1) (once_snoc t1)) as (Hdec & Hst & _).
  unfold process. apply keeps_bind; [auto with zos_monad|]. intros now. destruct (_ || _).
  { apply keeps_bind; [auto with zos_monad|]. intros []; auto with zos_monad. }
  intros s (Hnd & Hin & Hold). rewrite (bind_Ok (gets _) _ s s (mem_Get (r_ID r) s)) by done.
  destruct (mem_Get (r_ID r) s) eqn:Hseen; [exact (conj Hnd (conj Hin Hold))|].
  assert (Hfresh : r_ID r ∉ provisioned (st_log s)).
  { intros Hx. destruct (Hin _ Hx) as [t Ht]. unfold mem_Get in Hseen. rewrite Ht in Hseen.
    specialize (Hold _ _ Ht). specialize (Hnow (st_world s)).
    destruct (Z.ltb_spec t (Now (st_world s))); [lia|done]. }
  set (s1 := mem_Set (r_ID r) s). rewrite (bind_Ok (modify _) _ s s1 tt) by done.
  assert (Hs2 : once t1 (st_log (fst (provision e r s1))) (st_mem (fst (provision e r s1)))).
  { destruct (provision_calls r s1 Href) as [Hm Hl]. unfold once. rewrite Hm. cbn in Hl |- *.
    assert (Hkeys : forall x, x ∈ provisioned (st_log s) ++ [r_ID r] ->
      is_Some (<[r_ID r:=Now (st_world s) + DefaultExpiration]> (st_mem s) !! x)).
    { intros x [Hx|Hx%list_elem_of_singleton]%elem_of_app; [|subst; rewrite lookup_insert_eq; eauto].
      rewrite lookup_insert_is_Some'. auto. }
    split_and!.
    - destruct Hl as [->| ->]; [done|]. apply NoDup_app.
      split_and!; [done| |apply NoDup_singleton]. set_solver.
    - intros x Hx. apply Hkeys. destruct Hl as [Hl|Hl]; rewrite Hl in Hx; set_solver.
    - intros x t [[_ <-]|[_ Ht]]%lookup_insert_Some; [|by eapply Hold].
      subst t1. specialize (Hnow (st_world s)). lia. }
  revert Hs2. unfold mbind, M_bind, try. destruct (provision e r s1) as [s2 [[]|err|p]]; cbn; [|done..].
  intros Hs2. apply (keeps_ignore _ _ Hst). exact Hs2.
Qed.

(** C7 (safety): no reservation is provisioned twice in half an hour. In a run
    of the engine from an empty [memCache] whose clock stays within 30 minutes,
    on reservations that replace no older one, the provisioners are called
    with pairwise different ids, however often the source delivers each. *)
Theorem provision_once t0 ins (s : St C W) :
  (forall w : W, t0 <= Now w <= t0 + DefaultExpiration) ->
  Forall (fun i => match i with InJob j => r_Reference (job_Reservation j) = "" | _ => True end) ins ->
  st_mem s = ∅ -> provisioned (st_log s) = [] ->
  NoDup (provisioned (st_log (rs_st (run e ins (run_init s))))).
Proof.
  intros Hnow Hins Hmem Hlog. set (t1 := t0 + DefaultExpiration).
  assert (Hs : once t1 (st_log (rs_st (run_init s))) (st_mem (rs_st (run_init s)))).
  { unfold once. cbn. rewrite Hlog, Hmem. split_and!; [constructor|set_solver|].
    intros x t Hx. by rewrite lookup_empty in Hx. }
  revert Hs. generalize (run_init s) as rs. clear s Hmem Hlog.
  destruct (quiet_calls (once t1) (once_snoc t1)) as (_ & _ & Hclean).
  induction Hins as [|i ins Hi _ IH]; intros rs Hs; [apply Hs|].
  apply IH. unfold run_input. destruct (rs_status rs); [|done..].
  destruct i as [| |j| | |w]; cbn; try done.
  - destruct (job_last j); [by case_match|]. cbn. by apply process_once.
  - destruct (rs_cleanUp rs); [done|]. destruct (rs_all rs); [by apply Hclean|done].
  - by case_match.
Qed.

End log.

(** ** Witnesses

    A node of 8 GiB whose clock is the world, a cache that is a map, and an
    engine that provisions virtual machines and network resources. *)
Module EngineDemo.

#[local] Notation cache := (gmap string Reservation).

Definition has_network (id : string) (c : cache) : bool :=
  existsb (fun kr => bool_decide (r_Type (snd kr) = NetworkReservation) &&
                     bool_decide (r_User (snd kr) +:+ r_Data (snd kr) = id)) (map_to_list c).

#[export] Instance cache_ops : CacheOps cache := {|
  cache_Add r c := match c !! r_ID r with
                   | Some _ => (c, Err ErrExist)
                   | None => (<[r_ID r := strip_tag r]> c, Ok tt)
                   end;
  cache_Get id c := (c, match c !! id with Some r => Ok r | None => Err ErrNotExist end);
  cache_Remove id c := (delete id c, Ok tt);
  cache_Exists id c := (c, Ok (bool_decide (is_Some (c !! id))));
  cache_NetworkExists id c := (c, Ok (has_network id c))
|}.

#[export] Program Instance cache_laws : CacheLaws cache := {|
  cache_inv _ := True; cache_abs c := c; cache_storable _ := True
|}.
Next Obligation. intros c id r _ Hc. cbn. by rewrite Hc. Qed.
Next Obligation. intros c id _ Hc. cbn. rewrite Hc. eauto. Qed.
Next Obligation. intros c r _ _ Hc. cbn. rewrite Hc. eauto. Qed.
Next Obligation. intros c r _ [x Hc]. cbn. rewrite Hc. eauto. Qed.
Next Obligation. intros c id _. cbn. eauto. Qed.
Next Obligation. done. Qed.
Next Obligation. intros c id _. cbn. eauto. Qed.
Next Obligation.
  intros c id _ Hall. cbn. unfold has_network. do 2 f_equal. apply not_true_is_false.
  intros (kr & Hin & Hk)%existsb_exists. apply list_elem_of_In in Hin. destruct kr as [k x].
  apply elem_of_map_to_list in Hin. apply andb_true_iff in Hk as [Hk _].
  apply bool_decide_eq_true in Hk. by apply (Hall k x).
Qed.

#[export] Instance node : Node Z := {|
  Now w := w; VirtualMemory _ := Ok (8 * gib, 6 * gib)
|}.
#[export] Instance info : InfoJson string := fun s => Ok s.
#[export] Instance net : NetDecoder := fun s => Ok s.
#[export] Instance hash : NetHash := fun s => s.
#[export] Instance states : ResultStates := {|
  StateError := 0; StateOk := 1; StateDeleted := 2; StateOk_not_Error := ltac:(done)
|}.
#[export] Existing Instance demo_Decoders.

Definition start (r : Reservation) : M Z string := fun w => (w + 5, Ok "{}").
Definition stop (r : Reservation) : M Z unit := fun w => (w + 5, Ok tt).

Definition eng : Engine Z string := {|
  nodeID := "node";
  provisioners := {[VirtualMachineReservation := start; NetworkResourceReservation := start]};
  decomissioners := {[VirtualMachineReservation := stop]};
  signer_Sign b := Ok b;
  feedback_Feedback _ _ w := (w, Ok tt);
  feedback_Deleted _ _ w := (w, Err ErrNetwork);
  feedback_UpdateStats _ _ _ w := (w, Ok tt);
  storaged_GetCacheFS := None;
  janitor := None;
  reservedMemoryBytes := reservedMemory (8 * gib)
|}.

Definition vm : Reservation := demo_reservation "1-1" VirtualMachineReservation "1".
Definition big : Reservation := demo_reservation "1-2" VirtualMachineReservation "6".
Definition nr : Reservation := demo_reservation "1-3" NetworkResourceReservation "n".

Definition init : St cache Z := MkSt ∅ zeroCounters 2000 [] ∅.

Lemma eng_ok : engine_ok eng.
Proof. split; [by eauto|..]; intros n x s s' p; discriminate. Qed.

Lemma vm_units p : units vm <> Panic p.
Proof. by vm_compute. Qed.

Lemma admitted r : r_Type r <> ContainerReservation ->
  r = vm \/ r = nr ->
  CheckMemoryRequirements r
    (snd (usable_memory (reservedMemoryBytes eng) (8 * gib) (6 * gib) (CurrentUnits zeroCounters)))
  = Ok tt.
Proof. intros _ [->| ->]; by vm_compute. Qed.

Lemma provision_success_witness :
  exists s', provision eng vm init = (s', Ok tt) /\ vms (st_stats s') = 1.
Proof.
  destruct (provision_success eng vm init start (8 * gib) (6 * gib) 2005 "{}" "{}" eng_ok ltac:(exact I)
    ltac:(exact (fun _ => I)) vm_units ltac:(by vm_compute) ltac:(by vm_compute) ltac:(by vm_compute) ltac:(by vm_compute) ltac:(by vm_compute) (admitted vm ltac:(done) ltac:(by left))
    ltac:(by vm_compute) ltac:(by vm_compute)) as (s' & x & Hrun & _ & _ & _ & Hup & Hst).
  rewrite Hup in Hst by done. destruct Hst as [-> Hst]. exists s'. split; [done|]. by rewrite Hst.
Defined.

Lemma provision_failure_witness :
  st_stats (fst (provision eng big init)) = zeroCounters.
Proof.
  destruct (provisionForward eng big init) as [s1 x] eqn:Hfwd.
  assert (Hx : exists err, x = Err err) by (revert Hfwd; vm_compute; intros [= <- <-]; eauto).
  destruct Hx as [err ->].
  destruct (provision_failure eng big init s1 err eng_ok ltac:(exact I) ltac:(by vm_compute) ltac:(by vm_compute) ltac:(by vm_compute) Hfwd)
    as (s' & tried & Hrun & Hc & Hs & Ht & Hl).
  rewrite Hrun. exact Hs.
Defined.

Lemma provision_idempotent_witness :
  let s := MkSt {["1-1" := vm]} zeroCounters 2000 [] ∅ : St cache Z in
  fst (provision eng vm s) = s.
Proof.
  intros s.
  destruct (provision_idempotent eng vm s vm eng_ok ltac:(exact I) ltac:(by vm_compute) ltac:(by vm_compute) ltac:(by vm_compute))
    as (s' & Hrun & Hc & Hs & Hl).
  rewrite Hrun. by vm_compute in Hrun; simplify_eq.
Defined.

Lemma decommission_spec_witness :
  let s := MkSt {["1-1" := set_Result (MkResult "" "" 0 1 "" "" "") vm]} zeroCounters 2000 [] ∅
    : St cache Z in
  st_cache (fst (decommission eng (set_Result (MkResult "" "" 0 1 "" "" "") vm) s)) = ∅.
Proof.
  intros s.
  destruct (decommission_spec eng (set_Result (MkResult "" "" 0 1 "" "" "") vm) s stop 2005 (Ok tt)
    eng_ok ltac:(exact I) vm_units ltac:(by eexists) ltac:(done) ltac:(by vm_compute) ltac:(by vm_compute))
    as (s' & y & Hrun & _ & _ & Habs & _).
  rewrite Hrun. exact Habs.
Defined.

Lemma provision_decommission_witness :
  exists s2, fst (decommission eng (strip_tag (set_Result (ok_result eng vm 2005 "{}") vm))
    (fst (provision eng vm init))) = s2 /\ st_stats s2 = zeroCounters.
Proof.
  destruct (provision_decommission eng vm init start (8 * gib) (6 * gib) 2005 "{}" "{}" eng_ok ltac:(exact I)
    ltac:(exact (fun _ => I)) vm_units ltac:(by vm_compute) ltac:(by vm_compute) ltac:(by vm_compute) ltac:(by vm_compute) ltac:(by vm_compute) (admitted vm ltac:(done) ltac:(by left))
    ltac:(by vm_compute) ltac:(by vm_compute) (fst (provision eng vm init))
    (strip_tag (set_Result (ok_result eng vm 2005 "{}") vm)) stop 2010)
    as (s2 & y & Hrun & _ & _ & _ & Hnet & update & Hup & Hst).
  - unfold counters_ok, is_u64, W64. cbn. lia.
  - intros u Hu. vm_compute in Hu. injection Hu as <-. unfold units_ok, is_u64, W64. cbn. lia.
  - by vm_compute.
  - by vm_compute.
  - by vm_compute.
  - done.
  - by vm_compute.
  - exists s2. rewrite Hrun. split; [done|]. rewrite Hnet in Hup by done. injection Hup as <-. exact Hst.
Defined.

Lemma network_resource_counted_witness :
  networks (st_stats (fst (provision eng nr init))) = 1.
Proof.
  destruct (network_resource_counted eng nr init start (8 * gib) (6 * gib) 2005 "{}" "{}" eng_ok ltac:(exact I)
    ltac:(exact (fun _ => I)) ltac:(by vm_compute) ltac:(by vm_compute) ltac:(by vm_compute) ltac:(by vm_compute) ltac:(by vm_compute) ltac:(by vm_compute)
    (admitted nr ltac:(done) ltac:(by right)) ltac:(by vm_compute) ltac:(by vm_compute) "n" ltac:(by vm_compute) ltac:(by vm_compute) ltac:(done))
    as (s' & Hrun & Hn).
  rewrite Hrun. exact Hn.
Defined.

Lemma run_memory_budget_witness :
  within_budget (8 * gib)
    (rs_st (run eng [InJob (MkJob vm false); InJob (MkJob big false); InTick 9000] (run_init init))).
Proof.
  apply run_memory_budget.
  - intros w t a [= <- <-]. unfold gib. lia.
  - done.
  - unfold gib. lia.
  - by vm_compute.
Defined.

Lemma cleanup_after_last_witness :
  EvCleanup ∉ st_log (rs_st (run eng [InCron; InCleanUp; InJob (MkJob vm false)] (run_init init))).
Proof. apply cleanup_after_last; [set_solver|by repeat constructor]. Defined.

(** The same node with its clock stopped. *)
Definition frozen : Node unit := {|
  Now _ := 2000; VirtualMemory _ := Ok (8 * gib, 6 * gib)
|}.

Definition eng1 : Engine unit string := {|
  nodeID := "node";
  provisioners := {[VirtualMachineReservation := fun _ w => (w, Ok "{}")]};
  decomissioners := ∅;
  signer_Sign b := Ok b;
  feedback_Feedback _ _ w := (w, Err ErrNetwork);
  feedback_Deleted _ _ w := (w, Ok tt);
  feedback_UpdateStats _ _ _ w := (w, Ok tt);
  storaged_GetCacheFS := None;
  janitor := None;
  reservedMemoryBytes := reservedMemory (8 * gib)
|}.

Lemma provision_once_witness :
  let _ := frozen in
  NoDup (provisioned (st_log (rs_st (run eng1 [InJob (MkJob vm false); InCron; InJob (MkJob vm false)]
    (run_init (MkSt ∅ zeroCounters tt [] ∅ : St cache unit)))))).
Proof.
  intros n. apply (provision_once eng1 0).
  - intros w. cbn. unfold DefaultExpiration. lia.
  - by repeat constructor.
  - done.
  - done.
Defined.

End EngineDemo.
