(* ===== verification/Source.v ===== *)
(** Where the engine's reservations come from and where its results go:
    src/pkg/provision/source.go (the polling, the decommissioning and the
    combined source), src/pkg/provision/explorer/source.go (the poller of the
    explorer), src/pkg/provision/explorer/feedback.go, and the provision order of
    src/pkg/provision/primitives/order.go.

    A source is a goroutine that sends on a channel; its model is the list of
    jobs it sends. The polling loop is a function of the outcomes of its calls
    of [Poll], in the order in which they return. *)

From stdpp Require Import gmap strings list sorting.
From Stdlib Require Import Ascii ZArith Lia.
From S2P Require Import Prelude Reservation Counters Cache Engine.

Open Scope Z_scope.
Open Scope go_scope.

(** ** The poller of the explorer *)

Definition ProvisionOrder : gmap ReservationType Z :=
  list_to_map [
    (DebugReservation, 0);
    (NetworkReservation, 1);
    (NetworkResourceReservation, 2);
    (ZDBReservation, 3);
    (VolumeReservation, 4);
    (ContainerReservation, 5);
    (PublicIPReservation, 6);
    (KubernetesReservation, 7);
    (VirtualMachineReservation, 8)].

(** What a map of the code gives for a key: 0 for one that is not there. *)
Definition order_of (order : gmap ReservationType Z) (t : ReservationType) : Z := default 0 (order !! t).

(** [errors.Is] and [errors.As] follow the chain of wrapped errors. *)
Definition is_unsupported (e : error) : bool :=
  match Cause e with ErrUnsupportedWorkload => true | _ => false end.

Section poller.
  (** [Workload] is the explorer's type of workloads, [NodeWorkloads] the call
      of its client: the workloads from an id on and the last id, and
      [inputConv] the converter. *)
  Context {Workload : Type} `{Sorter}.
  Context (NodeWorkloads : Z -> (list Workload * Z) + error)
    (inputConv : Workload -> Reservation + error)
    (provisionOrder : option (gmap ReservationType Z)).

(** The conversion loop: unsupported workloads are skipped, any other error
    ends it. *)
Fixpoint convert_all (l : list Workload) : list Reservation + error :=
  match l with
  | [] => inl []
  | wl :: l =>
      match inputConv wl with
      | inl r => match convert_all l with inl rs => inl (r :: rs) | inr e => inr e end
      | inr e => if is_unsupported e then convert_all l else inr e
      end
  end.

Definition by_order (order : gmap ReservationType Z) (a b : Reservation) : bool :=
  order_of order (r_Type a) <? order_of order (r_Type b).

(** The three results of [Poll]: reservations, last id and error. *)
Definition Poll (from : Z) : list Reservation * Z * option error :=
  match NodeWorkloads from with
  | inr e => ([], 0, Some (ErrWrap "error while retrieving workloads from explorer" e))
  | inl (l, lastID) =>
      match convert_all l with
      | inl result =>
          (match provisionOrder with
           | Some order => sort_slice (by_order order) result
           | None => result
           end, lastID, None)
      | inr e => ([], 0, Some e)
      end
  end.

End poller.

(** ** The polling source *)

Definition shouldRetry (e : error) : bool :=
  match Cause e with
  | ErrNetwork => true
  | ErrHTTP status => (status <? 200) || (299 <? status)
  | _ => false
  end.

Definition is_EOS (e : option error) : bool :=
  match e with Some ErrPollEOS => true | _ => false end.

Record pollState := MkPoll {
  poll_next : Z;
  poll_previousLastID : Z;
  poll_triggerCleanup : bool;
  poll_done : bool
}.

Definition poll_init : pollState := MkPoll 0 0 true false.

(** The job that tells the engine that everything has been delivered. *)
Definition last_job : ReservationJob := MkJob zeroReservation true.

(** What one call of [Poll] returned, and whether the context was done when it
    was looked at. *)
Record pollOut := MkOut {
  out_res : list Reservation;
  out_lastID : Z;
  out_err : option error;
  out_ctx : bool
}.

(** One turn of the loop: the state and the jobs sent. *)
Definition poll_turn (o : pollOut) (p : pollState) : pollState * list ReservationJob :=
  match out_err o, is_EOS (out_err o) with
  | Some e, false =>
      (if shouldRetry e then p
       else MkPoll (out_lastID o +u 1) (poll_previousLastID p) (poll_triggerCleanup p) false, [])
  | _, eos =>
      let next := out_lastID o +u 1 in
      if out_ctx o then (MkPoll next (poll_previousLastID p) (poll_triggerCleanup p) true, [])
      else
        let trigger := poll_triggerCleanup p && (poll_previousLastID p =? out_lastID o) in
        (MkPoll next (out_lastID o) (poll_triggerCleanup p && negb trigger) eos,
         ((fun r => MkJob r false) <$> out_res o) ++ (if trigger then [last_job] else []))
  end.

(** The loop, on the outcomes of its polls. *)
Fixpoint poll_run (outs : list pollOut) (p : pollState) : pollState * list ReservationJob :=
  match outs with
  | [] => (p, [])
  | o :: outs =>
      if poll_done p then (p, [])
      else
        let '(p1, jobs) := poll_turn o p in
        let '(p2, jobs') := poll_run outs p1 in (p2, jobs ++ jobs')
  end.

(** ** The decommissioning source *)

(** Every 20 seconds the expired reservations of the cache are sent; [exps] is
    what [GetExpired] returned, with the state of the context. *)
Fixpoint decommission_run (exps : list (res (list Reservation) * bool)) : list ReservationJob :=
  match exps with
  | [] => []
  | (Ok rs, false) :: exps => ((fun r => MkJob r false) <$> rs) ++ decommission_run exps
  | (Ok _, true) :: _ => []
  | (_, _) :: exps => decommission_run exps
  end.

(** ** The combined source

    One goroutine per source receives a job and sends it on; the output is
    closed when all of them are done. *)
Module Combined.

Inductive sender :=
| Receiving (pending : list ReservationJob)
| Sending (n : ReservationJob) (pending : list ReservationJob)
| Done.

Record state := MkState {
  senders : list sender;
  out : list ReservationJob;
  closed : bool
}.

Definition left_over (s : sender) : list ReservationJob :=
  match s with Receiving l => l | Sending n l => n :: l | Done => [] end.

Inductive step : state -> state -> Prop :=
| step_receive i n l s :
    senders s !! i = Some (Receiving (n :: l)) ->
    step s (MkState (<[i := Sending n l]> (senders s)) (out s) (closed s))
| step_send i n l s :
    senders s !! i = Some (Sending n l) ->
    step s (MkState (<[i := Receiving l]> (senders s)) (out s ++ [n]) (closed s))
| step_done i s :
    senders s !! i = Some (Receiving []) ->
    step s (MkState (<[i := Done]> (senders s)) (out s) (closed s))
| step_close s :
    Forall (fun x => x = Done) (senders s) -> closed s = false ->
    step s (MkState (senders s) (out s) true).

Definition init (sources : list (list ReservationJob)) : state :=
  MkState (Receiving <$> sources) [] false.

End Combined.

(** ** Feedback to the explorer *)

Section feedback.
  Context {W : Type}.

(** [backoff.Retry] with an operation that is retried on a failed request only;
    [retries] is the number of calls there is time for after the first. *)
Fixpoint retry_request (op : M W unit) (retries : nat) : M W unit :=
  done ← try op;
  match done with
  | inl _ => mret tt
  | inr e =>
      match Cause e, retries with
      | ErrRequestFailure, S n => retry_request op n
      | _, _ => throw e
      end
  end.

Context {SchemaResult : Type} (converter : Result -> res SchemaResult).
Context (PutResult : string -> string -> SchemaResult -> M W unit)
  (PutDeleted : string -> string -> M W unit)
  (NodeUpdateUsedResources : string -> ResourceAmount -> WorkloadAmount -> M W unit).

Definition Feedback (retries : nat) (nodeID : string) (r : Result) : M W unit :=
  wr ← wrap "failed to convert result into schema type" (lift (converter r));
  retry_request (PutResult nodeID (res_ID r) wr) retries.

Definition Deleted (retries : nat) (nodeID id : string) : M W unit :=
  retry_request (PutDeleted nodeID id) retries.

Definition UpdateStats (retries : nat) (nodeID : string) (w : WorkloadAmount) (u : ResourceAmount) :
    M W unit :=
  retry_request (NodeUpdateUsedResources nodeID u w) retries.

End feedback.

(** ** Lemmas *)

Lemma by_order_asym order x y : by_order order x y = true -> by_order order y x = false.
Proof. unfold by_order. rewrite Z.ltb_lt, Z.ltb_ge. lia. Qed.

Lemma by_order_trans order x y z :
  by_order order y x = false -> by_order order z y = false -> by_order order z x = false.
Proof. unfold by_order. rewrite !Z.ltb_ge. lia. Qed.

(** Sorted neighbours of a transitive order are sorted throughout. *)
Lemma sort_by_order `{Sorter} order l i j a b :
  sort_slice (by_order order) l !! i = Some a -> sort_slice (by_order order) l !! j = Some b ->
  (i < j)%nat -> order_of order (r_Type a) <= order_of order (r_Type b).
Proof.
  intros Ha Hb Hij.
  assert (Hs : StronglySorted (fun x y => by_order order y x = false) (sort_slice (by_order order) l)).
  { apply Sorted_StronglySorted; [intros x y z; by apply by_order_trans|].
    apply sort_slice_sorted; [apply by_order_asym|apply by_order_trans]. }
  revert i j Ha Hb Hij. induction Hs as [|x l' _ IH Hall]; intros i j Ha Hb Hij; [done|].
  destruct j as [|j]; [lia|]. destruct i as [|i]; cbn in Ha, Hb.
  - injection Ha as ->. rewrite Forall_forall in Hall.
    specialize (Hall b (list_elem_of_lookup_2 _ _ _ Hb)). unfold by_order in Hall.
    apply Z.ltb_ge in Hall. lia.
  - apply (IH i j); [done..|lia].
Qed.

(** The reservations among jobs. *)
Definition delivered (jobs : list ReservationJob) : list Reservation :=
  omap (fun j => if job_last j then None else Some (job_Reservation j)) jobs.

Lemma delivered_app l1 l2 : delivered (l1 ++ l2) = delivered l1 ++ delivered l2.
Proof. apply omap_app. Qed.

Lemma delivered_jobs rs : delivered ((fun r => MkJob r false) <$> rs) = rs.
Proof. unfold delivered. induction rs as [|r rs IH]; cbn; [done|by f_equal]. Qed.

Lemma seqZ_app m n k : 0 <= n -> 0 <= k -> seqZ m (n + k) = seqZ m n ++ seqZ (m + n) k.
Proof. intros. apply seqZ_app; lia. Qed.

(** ** Properties *)

(** The poller hands the engine the workloads of the explorer
    in an order in which their dependencies come first: networks, then
    namespaces and volumes, then containers, public addresses and virtual
    machines. No workload is lost or invented by the sort. *)
Theorem Poll_ordered `{Sorter} {Workload} (NodeWorkloads : Z -> (list Workload * Z) + error)
    inputConv from rs lastID :
  Poll NodeWorkloads inputConv (Some ProvisionOrder) from = (rs, lastID, None) ->
  (exists l conv, NodeWorkloads from = inl (l, lastID) /\ convert_all inputConv l = inl conv /\
     rs ≡ₚ conv) /\
  forall i j a b, rs !! i = Some a -> rs !! j = Some b -> (i < j)%nat ->
    order_of ProvisionOrder (r_Type a) <= order_of ProvisionOrder (r_Type b).
Proof.
  unfold Poll. destruct (NodeWorkloads from) as [[l last]|e] eqn:Hn; [|done].
  destruct (convert_all inputConv l) as [conv|e] eqn:Hc; [|done]. intros [= <- <-]. split.
  - exists l, conv. split_and!; [done..|]. apply sort_slice_perm.
  - intros i j a b. apply sort_by_order.
Qed.

(** An outcome of [Poll] from [next]: a temporary error, or every reservation
    with an id from [next] to the last id. *)
Definition honest (db : Z -> list Reservation) (next : Z) (o : pollOut) : Prop :=
  out_ctx o = false /\
  match out_err o with
  | Some ErrPollEOS | None =>
      next <= out_lastID o + 1 < W64 /\ out_res o ≡ₚ concat (db <$> seqZ next (out_lastID o + 1 - next))
  | Some e => shouldRetry e = true
  end.

Fixpoint honest_run (db : Z -> list Reservation) (outs : list pollOut) (p : pollState) : Prop :=
  match outs with
  | [] => True
  | o :: outs => honest db (poll_next p) o /\ honest_run db outs (fst (poll_turn o p))
  end.

(** What an honest turn does: nothing, or the reservations between two ids. *)
Lemma honest_turn db o p p' jobs : honest db (poll_next p) o -> 0 <= poll_next p ->
  poll_turn o p = (p', jobs) ->
  poll_next p <= poll_next p' /\
  delivered jobs ≡ₚ concat (db <$> seqZ (poll_next p) (poll_next p' - poll_next p)).
Proof.
  intros [Hctx Ho] Hp. unfold poll_turn. rewrite Hctx.
  assert (Hok : forall eos trigger,
    poll_next p <= out_lastID o + 1 < W64 /\
      out_res o ≡ₚ concat (db <$> seqZ (poll_next p) (out_lastID o + 1 - poll_next p)) ->
    (MkPoll (out_lastID o +u 1) (out_lastID o) (poll_triggerCleanup p && negb trigger) eos,
     ((fun r => MkJob r false) <$> out_res o) ++ (if trigger : bool then [last_job] else []))
      = (p', jobs) ->
    poll_next p <= poll_next p' /\
    delivered jobs ≡ₚ concat (db <$> seqZ (poll_next p) (poll_next p' - poll_next p))).
  { intros eos trigger [Hlast Hres] [= <- <-]. cbn [poll_next].
    assert ((out_lastID o +u 1) = out_lastID o + 1) as ->.
    { unfold u64_add. apply u64_id. unfold is_u64. lia. }
    split; [lia|]. rewrite delivered_app, delivered_jobs, Hres.
    by destruct trigger; rewrite app_nil_r. }
  destruct (out_err o) as [e|]; [|by apply Hok].
  assert (He : e = ErrPollEOS \/ is_EOS (Some e) = false /\ shouldRetry e = true)
    by (destruct e; auto).
  destruct He as [->|[Heos Hretry]]; [by apply Hok|]. rewrite Heos, Hretry.
  intros [= <- <-]. by rewrite Z.sub_diag.
Qed.

Lemma honest_run_delivers db outs : forall p, honest_run db outs p -> 0 <= poll_next p ->
  let '(p', jobs) := poll_run outs p in
  poll_next p <= poll_next p' /\
  delivered jobs ≡ₚ concat (db <$> seqZ (poll_next p) (poll_next p' - poll_next p)).
Proof.
  induction outs as [|o outs IH]; intros p Hrun Hp; cbn [poll_run].
  { by rewrite Z.sub_diag. }
  destruct (poll_done p); [by rewrite Z.sub_diag|]. cbn [honest_run] in Hrun. destruct Hrun as [Ho Hrun].
  destruct (poll_turn o p) as [p1 jobs] eqn:Hturn.
  destruct (honest_turn db o p p1 jobs Ho Hp Hturn) as [Hle Hdel].
  specialize (IH p1 Hrun ltac:(lia)). destruct (poll_run outs p1) as [p2 jobs2].
  destruct IH as [Hle2 Hdel2]. split; [lia|].
  rewrite delivered_app, Hdel, Hdel2, <- concat_app, <- fmap_app.
  replace (poll_next p2 - poll_next p) with
    ((poll_next p1 - poll_next p) + (poll_next p2 - poll_next p1)) by lia.
  rewrite seqZ_app by lia. by replace (poll_next p + (poll_next p1 - poll_next p)) with (poll_next p1) by lia.
Qed.

(** C16 (liveness): polling loses nothing and repeats nothing. If every poll
    either fails with a temporary error or returns the reservations from the
    id it asked for up to the last id it reports, then after any number of
    polls the engine has received every reservation with an id below the next
    one to ask for, each exactly as often as the explorer holds it. *)
Theorem poll_delivers db outs :
  honest_run db outs poll_init ->
  let '(p, jobs) := poll_run outs poll_init in
  delivered jobs ≡ₚ concat (db <$> seqZ 0 (poll_next p)).
Proof.
  intros Hrun. pose proof (honest_run_delivers db outs poll_init Hrun ltac:(done)) as Hd.
  destruct (poll_run outs poll_init) as [p jobs]. destruct Hd as [_ Hd].
  rewrite Hd. cbn [poll_next poll_init]. by rewrite Z.sub_0_r.
Qed.

Lemma poll_delivers_witness :
  let db i := [demo_reservation (Itoa i) ZDBReservation ""] in
  delivered (snd (poll_run [MkOut [] 0 (Some (ErrWrap "retry" ErrNetwork)) false;
                            MkOut (db 0 ++ db 1) 1 None false; MkOut (db 2) 2 None false] poll_init))
  ≡ₚ db 0 ++ db 1 ++ db 2.
Proof.
  intros db. apply (poll_delivers db [MkOut [] 0 (Some (ErrWrap "retry" ErrNetwork)) false;
    MkOut (db 0 ++ db 1) 1 None false; MkOut (db 2) 2 None false]).
  cbn. unfold honest. cbn. unfold W64. split_and!; done || lia.
Defined.

(** A poll that fails with an error that is not temporary does not
    skip the failing reservation: [Poll] reports 0 as the last id with every
    error, so the loop asks for the reservations from 1 on again, wherever it
    had got to. *)
Theorem poll_error_restarts `{Sorter} {Workload} (NodeWorkloads : Z -> (list Workload * Z) + error)
    inputConv order p rs lastID e ctx :
  Poll NodeWorkloads inputConv order (poll_next p) = (rs, lastID, Some e) ->
  shouldRetry e = false -> e <> ErrPollEOS ->
  poll_next (fst (poll_turn (MkOut rs lastID (Some e) ctx) p)) = 1 /\
  snd (poll_turn (MkOut rs lastID (Some e) ctx) p) = [].
Proof.
  intros Hpoll Hretry Heos.
  assert (rs = [] /\ lastID = 0) as [-> ->].
  { unfold Poll in Hpoll. destruct (NodeWorkloads _) as [[l last]|e']; [|by simplify_eq].
    destruct (convert_all inputConv l); by simplify_eq. }
  unfold poll_turn. cbn [out_err out_lastID].
  assert (is_EOS (Some e) = false) as -> by (by destruct e). by rewrite Hretry.
Qed.

Lemma poll_error_restarts_witness :
  let conv (n : Z) : Reservation + error := inr (ErrMsg "bad workload") in
  poll_next (fst (poll_turn (MkOut [] 0 (Some (ErrMsg "bad workload")) false)
    (MkPoll 5000 4999 false false))) = 1.
Proof.
  intros conv.
  apply (poll_error_restarts (fun n => inl ([n], n)) conv None (MkPoll 5000 4999 false false) [] 0
    (ErrMsg "bad workload") false); done.
Defined.

Lemma Poll_ordered_witness :
  let conv t : Reservation + error := inl (demo_reservation "1-1" t "") in
  fst (fst (Poll (fun _ => inl ([VirtualMachineReservation; NetworkReservation; ZDBReservation], 7))
    conv (Some ProvisionOrder) 3)) !! 0%nat = Some (demo_reservation "1-1" NetworkReservation "").
Proof.
  intros conv.
  destruct (Poll_ordered (fun _ => inl ([VirtualMachineReservation; NetworkReservation; ZDBReservation], 7))
    conv 3 _ 7 eq_refl) as [_ _]. by vm_compute.
Defined.

Section combined_lemmas.
  Import Combined.

(** What holds of every state the goroutines reach. *)
Definition combined_inv (sources : list (list ReservationJob)) (s : state) : Prop :=
  out s ++ concat (left_over <$> senders s) ≡ₚ concat sources /\
  (forall i x, senders s !! i = Some x ->
     exists d, sources !! i = Some (d ++ left_over x) /\ d `sublist_of` out s) /\
  (closed s = true -> Forall (fun x => x = Done) (senders s)).

Lemma combined_inv_init sources : combined_inv sources (init sources).
Proof.
  unfold combined_inv, init. cbn. split_and!; [| |done].
  - rewrite <- list_fmap_compose. by rewrite (list_fmap_ext _ id), list_fmap_id.
  - intros i x Hx. apply list_lookup_fmap_Some in Hx as (l & -> & Hl).
    exists []. split; [done|apply sublist_nil_l].
Qed.

Lemma combined_inv_step sources s s' : combined_inv sources s -> step s s' -> combined_inv sources s'.
Proof.
  intros (Hperm & Hord & Hclosed) Hstep.
  assert (Hmove : forall i x y o, senders s !! i = Some x -> x <> Done -> left_over x = o ++ left_over y ->
    combined_inv sources (MkState (<[i := y]> (senders s)) (out s ++ o) (closed s))).
  { intros i x y o Hi Hx Heq. unfold combined_inv. cbn. split_and!.
    - destruct (concat_fmap_insert left_over (senders s) i x y Hi) as (rest & H1 & H2).
      rewrite H2, <- Hperm, H1, Heq, <- !(assoc_L (++)). done.
    - intros k z Hz. apply list_lookup_insert_Some in Hz as [(-> & <- & _)|[_ Hz]].
      + destruct (Hord _ _ Hi) as (d & Hd & Hsub). exists (d ++ o). rewrite Hd, Heq, (assoc_L (++)).
        split; [done|]. by apply sublist_app.
      + destruct (Hord _ _ Hz) as (d & Hd & Hsub). exists d. split; [done|].
        by apply sublist_inserts_r.
    - intros Hcl. specialize (Hclosed Hcl). rewrite Forall_forall in Hclosed.
      destruct Hx. apply Hclosed. by eapply list_elem_of_lookup_2. }
  destruct Hstep as [i n l s Hi|i n l s Hi|i s Hi|s Hall Hcl].
  - rewrite <- (app_nil_r (out s)). by eapply Hmove.
  - by eapply (Hmove i _ (Receiving l) [n]).
  - rewrite <- (app_nil_r (out s)). by eapply Hmove.
  - by repeat split.
Qed.

(** Merging sources keeps every job and the order of each source.
    However the goroutines interleave, when the merged channel is closed it has
    carried exactly the jobs of all the sources, and the jobs of one source
    in the order in which that source sent them. *)
Theorem combined_merges sources s :
  rtc step (init sources) s -> closed s = true ->
  out s ≡ₚ concat sources /\ forall i l, sources !! i = Some l -> l `sublist_of` out s.
Proof.
  intros Hrun Hcl.
  assert (Hinv : combined_inv sources s /\ length (senders s) = length sources).
  { revert Hrun. apply (rtc_ind_r (fun s => combined_inv sources s /\
      length (senders s) = length sources)).
    - split; [apply combined_inv_init|]. apply length_fmap.
    - intros s1 s2 _ Hstep [Hi Hl]. split; [by eapply combined_inv_step|].
      destruct Hstep; cbn; by rewrite ?length_insert. }
  destruct Hinv as [(Hperm & Hord & Hdone) Hlen]. specialize (Hdone Hcl). rewrite Forall_forall in Hdone.
  split.
  - rewrite <- Hperm. assert (concat (left_over <$> senders s) = []) as ->; [|by rewrite app_nil_r].
    apply concat_nil_Forall, Forall_fmap, Forall_forall. intros x Hx. by rewrite (Hdone x Hx).
  - intros i l Hi. destruct (lookup_lt_is_Some_2 (senders s) i) as [x Hx].
    { rewrite Hlen. by eapply lookup_lt_Some. }
    destruct (Hord _ _ Hx) as (d & Hd & Hsub).
    rewrite (Hdone x (list_elem_of_lookup_2 _ _ _ Hx)) in Hd. cbn in Hd. rewrite app_nil_r in Hd.
    congruence.
Qed.

Lemma combined_merges_witness :
  let s := MkState [Done; Done] [last_job; MkJob zeroReservation false] true in
  out s ≡ₚ concat [[MkJob zeroReservation false]; [last_job]].
Proof.
  intros s.
  refine (proj1 (combined_merges [[MkJob zeroReservation false]; [last_job]] s _ eq_refl)).
  eapply rtc_l; [by apply (step_receive 1 last_job [])|].
  eapply rtc_l; [by apply (step_send 1 last_job [])|].
  eapply rtc_l; [by apply (step_receive 0 (MkJob zeroReservation false) [])|].
  eapply rtc_l; [by apply (step_send 0 (MkJob zeroReservation false) [])|].
  eapply rtc_l; [by apply (step_done 0)|].
  eapply rtc_l; [by apply (step_done 1)|].
  eapply rtc_l; [by apply step_close; [repeat constructor|]|].
  apply rtc_refl.
Defined.

End combined_lemmas.
