(* ===== verification/Janitor.v ===== *)
(** The janitor, which removes what no reservation uses any more:
    src/pkg/provision/cleanup.go, with [DeleteZdbContainer] of
    src/pkg/provision/common/zdb.go.

    The other daemons of the node (containerd, storaged, vmd, networkd, flistd)
    and the 0-db instances are reached over zbus or a socket; [Bus] is what the
    janitor calls of them, over a world [W]. The explorer is not changed by the
    janitor and answers the same question the same way during one clean-up. The
    calls that remove something are logged. *)

From stdpp Require Import gmap strings list.
From Stdlib Require Import Ascii ZArith Lia.
From S2P Require Import Prelude Reservation.

Open Scope Z_scope.

(** ** Data *)

Record Filesystem := MkFilesystem { jfs_Name : string; jfs_Path : string }.

Record Container := MkContainer {
  con_RootFS : string;
  con_Mounts : list string;
  con_Namespace : string
}.

Record Bus (W : Type) := MkBus {
  getter_Get : string -> res Reservation;
  LinkList : W -> res (list string);
  netd_RemovePubTap : string -> M W unit;
  netd_ZDBDestroy : string -> M W unit;
  vmd_List : W -> res (list string);
  vmd_Delete : string -> M W unit;
  vdisk_List : W -> res (list string);
  vdisk_Deallocate : string -> M W unit;
  storaged_ListFilesystems : W -> res (list Filesystem);
  storaged_ReleaseFilesystem : string -> M W unit;
  contd_ListNS : W -> res (list string);
  contd_List : string -> W -> res (list string);
  contd_Inspect : string -> string -> W -> res Container;
  contd_Delete : string -> string -> M W unit;
  flistd_Umount : string -> M W unit;
  zdb_Connect : string -> W -> res unit;
  zdb_Namespaces : string -> W -> res (list string);
  zdb_DeleteNamespace : string -> string -> M W unit
}.
Arguments getter_Get {W}.
Arguments LinkList {W}.
Arguments netd_RemovePubTap {W}.
Arguments netd_ZDBDestroy {W}.
Arguments vmd_List {W}.
Arguments vmd_Delete {W}.
Arguments vdisk_List {W}.
Arguments vdisk_Deallocate {W}.
Arguments storaged_ListFilesystems {W}.
Arguments storaged_ReleaseFilesystem {W}.
Arguments contd_ListNS {W}.
Arguments contd_List {W}.
Arguments contd_Inspect {W}.
Arguments contd_Delete {W}.
Arguments flistd_Umount {W}.
Arguments zdb_Connect {W}.
Arguments zdb_Namespaces {W}.
Arguments zdb_DeleteNamespace {W}.

Inductive removal :=
| DelTap (id : string)
| DelVM (id : string)
| DelVdisk (name : string)
| DelFs (name : string)
| DelNs (container ns : string)
| DelContainer (id : string)
| DelZdbNetwork (ns : string)
| DelRootFS (path : string).

Record JState (W : Type) := MkJ { j_world : W; j_log : list removal }.
Arguments MkJ {W}.
Arguments j_world {W}.
Arguments j_log {W}.

(** ** Matching of names *)

(** The digits a string starts with, and the rest. *)
Fixpoint span_digits (s : string) : string * string :=
  match s with
  | EmptyString => (EmptyString, EmptyString)
  | String c s' =>
      match digit c with
      | Some _ => let '(a, b) := span_digits s' in (String c a, b)
      | None => (EmptyString, s)
      end
  end.

(** [^(\d+-\d+)]: the prefix of the name that is a workload id, or "". *)
Definition vdiskIDMatch (name : string) : string :=
  let '(a, rest) := span_digits name in
  match a, rest with
  | EmptyString, _ => EmptyString
  | _, String c rest' =>
      if Ascii.eqb c "-" then
        let '(b, _) := span_digits rest' in
        match b with EmptyString => EmptyString | _ => a +:+ String "-" b end
      else EmptyString
  | _, EmptyString => EmptyString
  end.

(** [^p-(\d+-1)$]: the id of the reservation of a public tap. *)
Definition pubIPIDMatch (name : string) : option string :=
  match name with
  | String c1 (String c2 s) =>
      if Ascii.eqb c1 "p" && Ascii.eqb c2 "-" then
        let '(a, rest) := span_digits s in
        if negb (bool_decide (a = EmptyString)) && bool_decide (rest = "-1")
        then Some (a +:+ "-1") else None
      else None
  | _ => None
  end.

Definition ZDBPoolPrefix : string := "zdb".

Section janitor.
  Context {W : Type} (j : Bus W).

(** A question to a daemon, and an action. *)
Definition query {A} (f : W -> res A) : M (JState W) A := fun s => (s, f (j_world s)).

Definition act {A} (ev : removal) (m : M W A) : M (JState W) A := fun s =>
  let '(w, x) := m (j_world s) in (MkJ w (j_log s ++ [ev]), x).

(** ** Operations *)

Definition checkToDelete (id : string) : res bool :=
  match getter_Get j id with
  | Ok r => Ok (r_ToDelete r)
  | Err e => match Cause e with ErrHTTP 404 => Ok true | _ => Err e end
  | Panic m => Panic m
  end.

(** The answer, with an error taken for "no". *)
Definition check_or_keep (id : string) : M (JState W) bool :=
  got ← try (lift (checkToDelete id));
  mret (match got with inl b => b | inr _ => false end).

Definition cleanup_link (name : string) : M (JState W) unit :=
  match pubIPIDMatch name with
  | None => mret tt
  | Some id =>
      toDelete ← check_or_keep id;
      when_ toDelete (ignore (act (DelTap id) (netd_RemovePubTap j id)))
  end.

Definition cleanupPublicIPs : M (JState W) unit :=
  links ← query (LinkList j); for_each cleanup_link links.

Definition cleanup_vm (vm : string) : M (JState W) unit :=
  toDelete ← check_or_keep vm;
  when_ toDelete (ignore (act (DelVM vm) (vmd_Delete j vm))).

Definition cleanupVms : M (JState W) unit :=
  vms ← query (vmd_List j); for_each cleanup_vm vms.

Definition cleanup_vdisk (name : string) : M (JState W) unit :=
  let gwid := vdiskIDMatch name in
  match gwid with
  | EmptyString => mret tt
  | _ => delete ← check_or_keep gwid;
         when_ delete (ignore (act (DelVdisk name) (vdisk_Deallocate j name)))
  end.

Definition cleanupVdisks : M (JState W) unit :=
  vdisks ← wrap "failed to list virtual disks" (query (vdisk_List j));
  for_each cleanup_vdisk vdisks.

(** The mounts that are volumes of the node. *)
Definition zos_mounts (c : Container) : list string :=
  filter (fun m => HasPrefix m "/mnt/" = true) (con_Mounts c).

(** The containers of a namespace: one that cannot be inspected is skipped. *)
Fixpoint protected_ids (ns : string) (ids : list string) (toSave : gset string) :
    M (JState W) (gset string) :=
  match ids with
  | [] => mret toSave
  | id :: ids =>
      info ← try (query (contd_Inspect j ns id));
      match info with
      | inr _ => protected_ids ns ids toSave
      | inl c => protected_ids ns ids (toSave ∪ {[con_RootFS c]} ∪ list_to_set (zos_mounts c))
      end
  end.

Fixpoint protected_namespaces (nss : list string) (toSave : gset string) :
    M (JState W) (gset string) :=
  match nss with
  | [] => mret toSave
  | ns :: nss =>
      ids ← query (contd_List j ns);
      toSave ← protected_ids ns ids toSave;
      protected_namespaces nss toSave
  end.

Definition protectedVolumesFromContainers : M (JState W) (gset string) :=
  nss ← query (contd_ListNS j); protected_namespaces nss ∅.

Definition release (name : string) : M (JState W) unit :=
  ignore (act (DelFs name) (storaged_ReleaseFilesystem j name)).

Definition cleanup_volume (protected : gset string) (v : Filesystem) : M (JState W) unit :=
  if decide (jfs_Path v ∈ protected) then mret tt
  else if (String.length (jfs_Name v) =? 64)%nat then release (jfs_Name v)
  else if HasPrefix (jfs_Name v) ZDBPoolPrefix then release (jfs_Name v)
  else if decide (jfs_Name v = "fcvms") then release (jfs_Name v)
  else
    delete ← check_or_keep (jfs_Name v);
    when_ delete (release (jfs_Name v)).

Definition cleanupVolumes : M (JState W) unit :=
  protected ← wrap "failed to list retrieve protected volumes" protectedVolumesFromContainers;
  volumes ← query (storaged_ListFilesystems j);
  for_each (cleanup_volume protected) volumes.

Definition DeleteZdbContainer (id : string) : M (JState W) unit :=
  inspected ← try (query (contd_Inspect j "zdb" id));
  match inspected with
  | inr e => if Contains (Error e) "not found" then mret tt
             else throw (ErrWrap ("failed to inspect container '" +:+ id +:+ "'") e)
  | inl info =>
      wrap ("failed to delete container " +:+ id) (act (DelContainer id) (contd_Delete j "zdb" id)) ;;
      wrap "failed to destroy zdb network namespace"
        (act (DelZdbNetwork (con_Namespace info)) (netd_ZDBDestroy j (con_Namespace info))) ;;
      wrap ("failed to unmount flist at " +:+ con_RootFS info)
        (act (DelRootFS (con_RootFS info)) (flistd_Umount j (con_RootFS info)))
  end.

(** The namespaces that stay. A namespace leaves the map whether or not its
    deletion succeeds. *)
Fixpoint cleanup_namespaces (id : string) (nss : list string) (mapped : gset string) :
    M (JState W) (gset string) :=
  match nss with
  | [] => mret mapped
  | ns :: nss =>
      if decide (ns = "default") then cleanup_namespaces id nss mapped
      else
        let mapped := {[ns]} ∪ mapped in
        toDelete ← check_or_keep ns;
        if toDelete : bool then
          ignore (act (DelNs id ns) (zdb_DeleteNamespace j id ns)) ;;
          cleanup_namespaces id nss (mapped ∖ {[ns]})
        else cleanup_namespaces id nss mapped
  end.

Definition cleanupZdbContainer (id : string) : M (JState W) unit :=
  query (zdb_Connect j id) ;;
  namespaces ← wrap "failed to list zdb namespace" (query (zdb_Namespaces j id));
  mapped ← cleanup_namespaces id namespaces ∅;
  if decide (mapped = ∅) then DeleteZdbContainer id else mret tt.

Definition cleanupZdbContainers : M (JState W) unit :=
  containers ← wrap "failed to list zdb containers" (query (contd_List j "zdb"));
  for_each (fun id => ignore (cleanupZdbContainer id)) containers.

Definition CleanupResources : M (JState W) unit :=
  ignore cleanupZdbContainers ;;
  ignore cleanupPublicIPs ;;
  ignore cleanupVms ;;
  ignore cleanupVolumes ;;
  ignore cleanupVdisks.

(** ** Lemmas *)

Lemma keeps_query {A} (I : JState W -> Prop) (f : W -> res A) : keeps I (query f).
Proof. by intros s. Qed.

Lemma check_or_keep_run id s b : snd (check_or_keep id s) = Ok b ->
  b = match checkToDelete id with Ok b => b | _ => false end.
Proof.
  unfold check_or_keep, mbind, M_bind, try, lift, mret, M_ret.
  destruct (checkToDelete id); by intros [= <-].
Qed.

(** The explorer wants the workload gone, or does not know it. *)
Definition unwanted (id : string) : Prop :=
  (exists r, getter_Get j id = Ok r /\ r_ToDelete r = true) \/
  (exists e, getter_Get j id = Err e /\ Cause e = ErrHTTP 404).

Lemma checkToDelete_unwanted id : checkToDelete id = Ok true <-> unwanted id.
Proof.
  unfold checkToDelete, unwanted. destruct (getter_Get j id) as [r|e|m].
  - split; [intros [= Hr]; left; eauto|]. intros [(r' & [= ->] & ->)|(e & [=] & _)]. done.
  - split; [|by intros [(r & [=] & _)|(e' & [= ->] & ->)]].
    intros Hc. right. exists e. split; [done|]. by repeat case_match.
  - split; [done|]. by intros [(r & [=] & _)|(e & [=] & _)].
Qed.

Lemma unwanted_dec id : unwanted id \/ ~ unwanted id.
Proof. rewrite <- checkToDelete_unwanted. destruct (checkToDelete id) as [[]| |]; auto. Qed.

(** A running container uses the volume at this path. *)
Definition in_use (w : W) (path : string) : Prop :=
  exists nss ns ids id c, contd_ListNS j w = Ok nss /\ ns ∈ nss /\ contd_List j ns w = Ok ids /\
    id ∈ ids /\ contd_Inspect j ns id w = Ok c /\ (path = con_RootFS c \/ path ∈ zos_mounts c).

(** A 0-db container of the node that answered with its namespaces, none of which is kept:
    each of them is the default one or unwanted. *)
Definition emptied (id : string) : Prop :=
  (exists w ids, contd_List j "zdb" w = Ok ids /\ id ∈ ids) /\
  exists w nss, zdb_Namespaces j id w = Ok nss /\ forall ns, ns ∈ nss -> ns <> "default" -> unwanted ns.

(** The description of such a container. *)
Definition emptied_container (c : Container) : Prop :=
  exists id w, emptied id /\ contd_Inspect j "zdb" id w = Ok c.

(** What makes a removal right: what is removed was found on the node, and nothing keeps
    it. A volume, whatever its name, was not in use when the volumes were listed. *)
Definition justified (ev : removal) : Prop :=
  match ev with
  | DelTap id => unwanted id /\
      exists w links name, LinkList j w = Ok links /\ name ∈ links /\ pubIPIDMatch name = Some id
  | DelVM id => unwanted id /\ exists w vms, vmd_List j w = Ok vms /\ id ∈ vms
  | DelVdisk name => vdiskIDMatch name <> "" /\ unwanted (vdiskIDMatch name) /\
      exists w disks, vdisk_List j w = Ok disks /\ name ∈ disks
  | DelFs name =>
      (String.length name = 64%nat \/ HasPrefix name ZDBPoolPrefix = true \/ name = "fcvms" \/ unwanted name) /\
      exists w vols v, storaged_ListFilesystems j w = Ok vols /\ v ∈ vols /\ jfs_Name v = name /\
        ~ in_use w (jfs_Path v)
  | DelNs id ns => ns <> "default" /\ unwanted ns /\
      exists w nss, zdb_Namespaces j id w = Ok nss /\ ns ∈ nss
  | DelContainer id => emptied id
  | DelZdbNetwork ns => exists c, emptied_container c /\ ns = con_Namespace c
  | DelRootFS path => exists c, emptied_container c /\ path = con_RootFS c
  end.

Definition all_logged (P : removal -> Prop) (s : JState W) : Prop := Forall P (j_log s).

Lemma keeps_act {A} (P : removal -> Prop) ev (m : M W A) : P ev -> keeps (all_logged P) (act ev m).
Proof.
  intros Hev s Hs. unfold act, all_logged. destruct (m (j_world s)). cbn.
  apply Forall_app. split; [done|]. by apply Forall_singleton.
Qed.

(** An action guarded by the explorer's answer. *)
Lemma keeps_checked {A} (I : JState W -> Prop) id (k : bool -> M (JState W) A) :
  (unwanted id -> keeps I (k true)) -> keeps I (k false) ->
  keeps I (check_or_keep id ≫= k).
Proof.
  rewrite <- checkToDelete_unwanted.
  intros Ht Hf s Hs. unfold check_or_keep, mbind, M_bind, try, lift, mret, M_ret in *.
  destruct (checkToDelete id) as [[]|e|m]; cbn; [by apply Ht|by apply Hf..|done].
Qed.

Lemma keeps_checked_when (I : JState W -> Prop) id (m : M (JState W) unit) :
  (unwanted id -> keeps I m) -> keeps I (b ← check_or_keep id; when_ b m).
Proof. intros Hm. apply keeps_checked; [exact Hm|apply keeps_ret]. Qed.

Lemma keeps_cleanup_namespaces (P : removal -> Prop) id nss : forall mapped,
  (forall ns, ns ∈ nss -> ns <> "default" -> unwanted ns -> P (DelNs id ns)) ->
  keeps (all_logged P) (cleanup_namespaces id nss mapped).
Proof.
  induction nss as [|ns nss IH]; intros mapped HP; cbn [cleanup_namespaces]; [auto with zos_monad|].
  assert (HP' : forall n, n ∈ nss -> n <> "default" -> unwanted n -> P (DelNs id n))
    by (intros n Hn; apply HP; by right).
  case_decide; [by apply IH|]. apply keeps_checked; [|by apply IH].
  intros Hun. apply keeps_bind; [|intros _; by apply IH].
  apply keeps_ignore, keeps_act, HP; [by left|done..].
Qed.

Lemma query_inv {A} (f : W -> res A) s s' a : query f s = (s', Ok a) -> s' = s /\ f (j_world s) = Ok a.
Proof. unfold query. by intros [= -> ->]. Qed.

Lemma wrap_query_inv {A} msg (f : W -> res A) s s' a :
  wrap msg (query f) s = (s', Ok a) -> s' = s /\ f (j_world s) = Ok a.
Proof. intros H%wrap_Ok. by apply query_inv. Qed.

Lemma keeps_DeleteZdbContainer id : emptied id -> keeps (all_logged justified) (DeleteZdbContainer id).
Proof.
  intros He. unfold DeleteZdbContainer. apply keeps_bind_run; [apply keeps_try, keeps_query|].
  intros s s' [info|e] Hrun; [|destruct (Contains _ _); auto with zos_monad].
  apply try_inl, query_inv in Hrun as [_ Hi].
  assert (Hc : emptied_container info) by (by exists id, (j_world s)).
  apply keeps_bind; [by apply keeps_wrap, keeps_act|intros _].
  apply keeps_bind; [apply keeps_wrap, keeps_act; by exists info|intros _].
  apply keeps_wrap, keeps_act. by exists info.
Qed.

Lemma keeps_release name : justified (DelFs name) -> keeps (all_logged justified) (release name).
Proof. intros Hj. apply keeps_ignore, keeps_act, Hj. Qed.

Lemma keeps_cleanup_volume protected v w vols :
  storaged_ListFilesystems j w = Ok vols -> v ∈ vols -> (in_use w (jfs_Path v) -> jfs_Path v ∈ protected) ->
  keeps (all_logged justified) (cleanup_volume protected v).
Proof.
  intros Hvols Hv Huse. unfold cleanup_volume. case_decide as Hp; [auto with zos_monad|].
  assert (Hfound : exists w vols x, storaged_ListFilesystems j w = Ok vols /\ x ∈ vols /\ jfs_Name x = jfs_Name v /\
    ~ in_use w (jfs_Path x)) by (exists w, vols, v; naive_solver).
  destruct (Nat.eqb_spec (String.length (jfs_Name v)) 64); [apply keeps_release; split; [by left|done]|].
  destruct (HasPrefix (jfs_Name v) ZDBPoolPrefix) eqn:Hz; [apply keeps_release; split; [by right; left|done]|].
  case_decide; [apply keeps_release; split; [by right; right; left|done]|].
  apply keeps_checked_when. intros Hun. apply keeps_release. split; [by right; right; right|done].
Qed.

(** ** Reading what is in use *)

Lemma keeps_protected (I : JState W -> Prop) : keeps I protectedVolumesFromContainers.
Proof.
  assert (Hids : forall ns ids toSave, keeps I (protected_ids ns ids toSave)).
  { intros ns ids. induction ids as [|id ids IH]; intros toSave; cbn; [apply keeps_ret|].
    apply keeps_bind; [apply keeps_try, keeps_query|intros []; apply IH]. }
  apply keeps_bind; [apply keeps_query|]. intros nss. generalize (∅ : gset string).
  induction nss as [|ns nss IH]; intros toSave; cbn; [apply keeps_ret|].
  apply keeps_bind; [apply keeps_query|]. intros ids. apply keeps_bind; [apply Hids|apply IH].
Qed.

Lemma protected_ids_spec ns ids : forall toSave s s' p,
  protected_ids ns ids toSave s = (s', Ok p) ->
  s' = s /\ toSave ⊆ p /\
  forall id c, id ∈ ids -> contd_Inspect j ns id (j_world s) = Ok c ->
    {[con_RootFS c]} ∪ list_to_set (zos_mounts c) ⊆ p.
Proof.
  induction ids as [|id ids IH]; intros toSave s s' p Hrun; cbn [protected_ids] in Hrun.
  { injection Hrun as <- <-. split_and!; [done|set_solver|]. intros id c Hid. set_solver. }
  unfold mbind, M_bind, try, query in Hrun.
  destruct (contd_Inspect j ns id (j_world s)) as [c|e|m] eqn:Hc; [| |done].
  all: destruct (IH _ _ _ _ Hrun) as (-> & Hsub & Hall); split_and!; [done|set_solver|].
  all: intros id' c' [->|Hid]%elem_of_cons Hc'; [|by eapply Hall].
  - assert (c' = c) as -> by congruence. set_solver.
  - congruence.
Qed.

Lemma protected_namespaces_spec nss : forall toSave s s' p,
  protected_namespaces nss toSave s = (s', Ok p) ->
  s' = s /\ toSave ⊆ p /\
  forall ns ids id c, ns ∈ nss -> contd_List j ns (j_world s) = Ok ids -> id ∈ ids ->
    contd_Inspect j ns id (j_world s) = Ok c ->
    {[con_RootFS c]} ∪ list_to_set (zos_mounts c) ⊆ p.
Proof.
  induction nss as [|ns nss IH]; intros toSave s s' p Hrun; cbn [protected_namespaces] in Hrun.
  { injection Hrun as <- <-. split_and!; [done|set_solver|]. intros ns ids id c Hns. set_solver. }
  apply bind_inv in Hrun as (s1 & ids & Hl & Hrun). unfold query in Hl. injection Hl as <- Hl.
  apply bind_inv in Hrun as (s2 & p1 & Hp1 & Hrun).
  destruct (protected_ids_spec _ _ _ _ _ _ Hp1) as (-> & Hsub1 & Hall1).
  destruct (IH _ _ _ _ Hrun) as (-> & Hsub & Hall). split_and!; [done|set_solver|].
  intros ns' ids' id c [->|Hns]%elem_of_cons Hids Hid Hc; [|by eapply Hall].
  assert (ids' = ids) as -> by congruence. etrans; [by eapply Hall1|done].
Qed.

Lemma protected_in_use s s' p path :
  protectedVolumesFromContainers s = (s', Ok p) -> in_use (j_world s) path -> s' = s /\ path ∈ p.
Proof.
  intros Hrun (nss & ns & ids & id & c & Hnss & Hns & Hids & Hid & Hc & Hpath).
  apply bind_inv in Hrun as (s1 & nss' & Hq & Hrun). unfold query in Hq. injection Hq as <- Hq.
  assert (nss' = nss) as -> by congruence.
  destruct (protected_namespaces_spec _ _ _ _ _ Hrun) as (-> & _ & Hall). split; [done|].
  specialize (Hall ns ids id c Hns Hids Hid Hc). set_solver.
Qed.

Lemma cleanup_namespaces_spec id nss : forall mapped s s' mapped',
  cleanup_namespaces id nss mapped s = (s', Ok mapped') ->
  forall ns, ~ unwanted ns -> (ns ∈ nss /\ ns <> "default") \/ ns ∈ mapped -> ns ∈ mapped'.
Proof.
  induction nss as [|n nss IH]; intros mapped s s' mapped' Hrun ns Hun Hns; cbn in Hrun.
  { injection Hrun as <- <-. set_solver. }
  case_decide as Hd.
  { eapply IH; [done..|]. destruct Hns as [[[->|?]%elem_of_cons ?]|?]; [done|auto|auto]. }
  apply bind_inv in Hrun as (s1 & b & Hb & Hrun).
  pose proof (check_or_keep_run n s b ltac:(by rewrite Hb)) as Hbv. destruct b.
  - assert (Hn : unwanted n) by (apply checkToDelete_unwanted; destruct (checkToDelete n) as [[]| |]; done).
    apply bind_inv in Hrun as (s2 & [] & _ & Hrun). eapply IH; [done..|].
    assert (ns <> n) by congruence. set_solver.
  - eapply IH; [done..|]. set_solver.
Qed.

(** ** Properties *)

Lemma keeps_cleanupZdbContainer id : (exists w ids, contd_List j "zdb" w = Ok ids /\ id ∈ ids) ->
  keeps (all_logged justified) (cleanupZdbContainer id).
Proof.
  intros Hid. unfold cleanupZdbContainer. apply keeps_bind; [apply keeps_query|intros _].
  apply keeps_bind_run; [apply keeps_wrap, keeps_query|intros s s' nss Hnss].
  apply wrap_query_inv in Hnss as [_ Hnss]. apply keeps_bind_run.
  { apply keeps_cleanup_namespaces. intros ns Hns Hd Hun. split_and!; [done..|]. by exists (j_world s), nss. }
  intros s1 s2 mapped Hrun. case_decide as Hm; [|auto with zos_monad]. apply keeps_DeleteZdbContainer.
  split; [done|]. exists (j_world s), nss. split; [done|]. intros ns Hns Hd.
  destruct (unwanted_dec ns) as [|Hun]; [done|].
  pose proof (cleanup_namespaces_spec _ _ _ _ _ _ Hrun ns Hun ltac:(auto)). set_solver.
Qed.

Lemma keeps_cleanupVolumes : keeps (all_logged justified) cleanupVolumes.
Proof.
  unfold cleanupVolumes. intros s Hs. pose proof (keeps_protected (fun s' => s' = s) s eq_refl) as Hsame.
  destruct (protectedVolumesFromContainers s) as [s1 x] eqn:Hp. cbn in Hsame. subst s1.
  assert (Hw : forall A (k : _ -> M (JState W) A), (forall p, x = Ok p -> all_logged justified (fst (k p s))) ->
    all_logged justified (fst ((wrap "failed to list retrieve protected volumes" protectedVolumesFromContainers ≫= k) s))).
  { intros A k Hk. unfold mbind, M_bind, wrap. rewrite Hp. destruct x; [by apply Hk|done..]. }
  apply Hw. intros p ->. unfold mbind, M_bind, query.
  destruct (storaged_ListFilesystems j (j_world s)) as [vols|e|m] eqn:Hv; [|done..].
  apply keeps_for_each; [|done]. intros v Hin. apply (keeps_cleanup_volume p v (j_world s) vols); [done..|].
  intros Huse. by eapply protected_in_use.
Qed.

(** One of the five steps after the other, each from the state the last one left, whether
    or not it has failed. *)
Definition all_steps (s : JState W) : JState W :=
  foldl (fun s (step : M (JState W) unit) => fst (step s)) s
    [cleanupZdbContainers; cleanupPublicIPs; cleanupVms; cleanupVolumes; cleanupVdisks].

(** C8 (safety): a clean-up removes only what it found on the node and no reservation
    keeps: a virtual machine, a public tap, a virtual disk or a namespace is removed only
    when the explorer does not know its reservation (404) or wants it deleted, a
    volume only then or when it has one of the three names that are left-overs, and in
    either case only when no running container used it; a 0-db container, its network and its
    root file system only when every namespace the 0-db had, the default one apart, is
    unknown to the explorer or to be deleted.
    An explorer that cannot be reached keeps everything. A run that no daemon
    breaks off is all five steps in their order, whichever of them fails: it never returns
    an error. *)
Theorem CleanupResources_safe s s' x :
  j_log s = [] -> CleanupResources s = (s', x) ->
  Forall justified (j_log s') /\ (forall e, x <> Err e) /\ (x = Ok tt -> s' = all_steps s).
Proof.
  intros Hs Hrun. split_and!.
  - assert (Hs' : all_logged justified s) by (unfold all_logged; by rewrite Hs).
    cut (keeps (all_logged justified) CleanupResources); [intros HK; specialize (HK s Hs'); by rewrite Hrun in HK|].
    unfold CleanupResources.
    repeat (apply keeps_bind; [apply keeps_ignore|intros _]); [..|apply keeps_ignore].
    4: apply keeps_cleanupVolumes.
    all: apply keeps_bind_run; [try apply keeps_wrap; apply keeps_query|intros s0 s1 found Hf].
    1,4: apply wrap_query_inv in Hf as [_ Hf].
    3,4: apply query_inv in Hf as [_ Hf].
    all: apply keeps_for_each; intros y Hy.
    + apply keeps_ignore, keeps_cleanupZdbContainer. by exists (j_world s0), found.
    + unfold cleanup_vdisk.
      destruct (vdiskIDMatch y) as [|c id] eqn:Hid; [auto with zos_monad|].
      apply keeps_checked_when. intros Hun. apply keeps_ignore, keeps_act. cbn. rewrite Hid.
      split_and!; [done..|]. by exists (j_world s0), found.
    + unfold cleanup_link. destruct (pubIPIDMatch y) as [id|] eqn:Hid; [|auto with zos_monad].
      apply keeps_checked_when. intros Hun. apply keeps_ignore, keeps_act. split; [done|].
      by exists (j_world s0), found, y.
    + apply keeps_checked_when. intros Hun. apply keeps_ignore, keeps_act. split; [done|].
      by exists (j_world s0), found.
  - revert Hrun. unfold CleanupResources, mbind, M_bind, ignore.
    repeat match goal with |- context [match ?m ?s with pair _ _ => _ end] =>
      destruct (m s) as [? []] end; by intros [= <- <-].
  - intros ->. revert Hrun. unfold CleanupResources, all_steps, mbind, M_bind, ignore. cbn [foldl].
    repeat match goal with |- context [match ?m ?s with pair _ _ => _ end] =>
      destruct (m s) as [? []] eqn:?; cbn [fst] end; try done; by intros [= <-].
Qed.

(** A volume that a running container uses, as its root file
    system or mounted into it, is not released: if every volume of some name is
    in use when the clean-up of volumes starts, no volume of that name is
    released, whatever the explorer says. *)
Theorem cleanupVolumes_protects s name vols :
  j_log s = [] -> storaged_ListFilesystems j (j_world s) = Ok vols ->
  (forall v, v ∈ vols -> jfs_Name v = name -> in_use (j_world s) (jfs_Path v)) ->
  DelFs name ∉ j_log (fst (cleanupVolumes s)).
Proof.
  intros Hs Hvols Huse. set (P := fun ev => ev <> DelFs name).
  assert (HP : forall l, Forall P l -> DelFs name ∉ l)
    by (intros l Hl Hin; rewrite Forall_forall in Hl; by apply (Hl _ Hin)).
  apply HP. change (all_logged P (fst (cleanupVolumes s))).
  assert (Hs' : all_logged P s) by (unfold all_logged; by rewrite Hs).
  unfold cleanupVolumes.
  destruct (wrap "failed to list retrieve protected volumes" protectedVolumesFromContainers s)
    as [s1 x] eqn:Hprot.
  assert (Hkeep : keeps (fun s' => s' = s)
    (wrap "failed to list retrieve protected volumes" protectedVolumesFromContainers))
    by (apply keeps_wrap, keeps_protected).
  specialize (Hkeep s eq_refl). rewrite Hprot in Hkeep. cbn in Hkeep. subst s1.
  destruct x as [p|e|m]; [|by unfold mbind, M_bind; rewrite Hprot..].
  assert (Hp : protectedVolumesFromContainers s = (s, Ok p)).
  { unfold wrap in Hprot. by destruct (protectedVolumesFromContainers s) as [? []]; simplify_eq. }
  rewrite (bind_Ok _ _ _ _ _ Hprot).
  rewrite (bind_Ok (query _) _ s s vols) by (unfold query; by rewrite Hvols).
  apply keeps_for_each; [|done]. intros v Hv. unfold cleanup_volume.
  destruct (decide (jfs_Path v ∈ p)) as [|Hnp]; [apply keeps_ret|].
  assert (Hn : P (DelFs (jfs_Name v))).
  { intros [= Hn]. apply Hnp. by eapply protected_in_use; [|apply Huse]. }
  assert (Hrel : keeps (all_logged P) (release (jfs_Name v))) by by apply keeps_ignore, keeps_act.
  repeat (case_match; [exact Hrel|]). by apply keeps_checked_when.
Qed.

(** A 0-db container is removed only when none of its namespaces
    is to be kept: if the clean-up of a container deletes it, every namespace
    the 0-db had, "default" apart, is unknown to the explorer or to be deleted. *)
Theorem cleanupZdbContainer_keeps id s nss ns :
  j_log s = [] -> zdb_Namespaces j id (j_world s) = Ok nss ->
  DelContainer id ∈ j_log (fst (cleanupZdbContainer id s)) ->
  ns ∈ nss -> ns <> "default" -> unwanted ns.
Proof.
  intros Hs Hnss Hdel Hns Hdef. destruct (unwanted_dec ns) as [|Hun]; [done|exfalso]. set (P := fun ev => ev <> DelContainer id).
  assert (HP : all_logged P (fst (cleanupZdbContainer id s))).
  { unfold cleanupZdbContainer.
    assert (Hs' : all_logged P s) by (unfold all_logged; by rewrite Hs).
    destruct (zdb_Connect j id (j_world s)) as [[]|e|m] eqn:Hcon.
    2,3: unfold mbind at 1, M_bind at 1; unfold query; rewrite Hcon; exact Hs'.
    rewrite (bind_Ok (query (zdb_Connect j id)) _ s s tt) by (unfold query; by rewrite Hcon).
    rewrite (bind_Ok _ _ s s nss) by (unfold wrap, query; by rewrite Hnss).
    pose proof (keeps_cleanup_namespaces P id nss ∅ (fun _ _ _ _ H => ltac:(discriminate H)) s Hs') as Hlog.
    destruct (cleanup_namespaces id nss ∅ s) as [s1 [mapped|e|m]] eqn:Hrun;
      [|by unfold mbind, M_bind; rewrite Hrun..].
    rewrite (bind_Ok _ _ _ _ _ Hrun).
    pose proof (cleanup_namespaces_spec _ _ _ _ _ _ Hrun ns Hun ltac:(auto)).
    rewrite decide_False by set_solver. exact Hlog. }
  unfold all_logged in HP. rewrite Forall_forall in HP. by apply (HP _ Hdel).
Qed.

End janitor.

(** ** Witnesses

    A node whose explorer keeps the reservation "1-1" and knows no other. *)
Module JanitorDemo.

Definition ok {A} (a : A) : unit -> res A := fun _ => Ok a.
Definition did : M unit unit := fun w => (w, Ok tt).

Definition bus : Bus unit := {|
  getter_Get id := if decide (id = "1-1") then Ok zeroReservation
                   else Err (ErrWrap "explorer" (ErrHTTP 404));
  LinkList := ok ["lo"; "p-2-1"; "p-2-2"];
  netd_RemovePubTap _ := did; netd_ZDBDestroy _ := did;
  vmd_List := ok ["1-1"; "2-1"]; vmd_Delete _ := did;
  vdisk_List := ok ["1-1-vda"; "2-2-vda"; "old"]; vdisk_Deallocate _ := did;
  storaged_ListFilesystems := ok [MkFilesystem "3-1" "/mnt/p/3-1"; MkFilesystem "4-1" "/mnt/p/4-1"];
  storaged_ReleaseFilesystem _ := did;
  contd_ListNS := ok ["ns"]; contd_List ns := ok (if decide (ns = "zdb") then ["z1"] else ["c1"]);
  contd_Inspect _ _ := ok (MkContainer "/mnt/p/3-1" ["/etc/x"] "net");
  contd_Delete _ _ := did; flistd_Umount _ := did;
  zdb_Connect _ := ok tt; zdb_Namespaces _ := ok ["default"; "5-1"];
  zdb_DeleteNamespace _ _ := did
|}.

Definition start : JState unit := MkJ tt [].

Lemma CleanupResources_safe_witness :
  Forall (justified bus) (j_log (fst (CleanupResources bus start))) /\
  j_log (fst (CleanupResources bus start)) =
    [DelNs "z1" "5-1"; DelContainer "z1"; DelZdbNetwork "net"; DelRootFS "/mnt/p/3-1";
     DelTap "2-1"; DelVM "2-1"; DelFs "4-1"; DelVdisk "2-2-vda"].
Proof.
  split; [|by vm_compute].
  exact (proj1 (CleanupResources_safe bus start _ _ eq_refl (surjective_pairing (CleanupResources bus start)))).
Defined.

Lemma cleanupVolumes_protects_witness : DelFs "3-1" ∉ j_log (fst (cleanupVolumes bus start)).
Proof.
  apply (cleanupVolumes_protects bus start "3-1"
    [MkFilesystem "3-1" "/mnt/p/3-1"; MkFilesystem "4-1" "/mnt/p/4-1"]); [done..|].
  intros v [->|[->|Hv]%elem_of_cons]%elem_of_cons Hn; [|done|by apply not_elem_of_nil in Hv].
  exists ["ns"], "ns", ["c1"], "c1", (MkContainer "/mnt/p/3-1" ["/etc/x"] "net").
  split_and!; [done|by left|done|by left|done|by left].
Defined.

Lemma cleanupZdbContainer_keeps_witness : unwanted bus "5-1".
Proof.
  apply (cleanupZdbContainer_keeps bus "z1" start ["default"; "5-1"]); [done|done| |by right; left|done].
  apply list_elem_of_In. vm_compute. auto.
Defined.

End JanitorDemo.
