(* ===== verification/NetIP.v ===== *)
(** Addresses: the part of the package net that the program uses ([IP], [IPMask],
    [IPNet] and their methods), and the hardware addresses that
    src/pkg/network/ifaceutil/mac.go computes from a hash.

    An [IP] is its bytes; a nil slice is the empty list. *)

From stdpp Require Import list strings.
From Stdlib Require Import Ascii ZArith Lia.
From S2P Require Import Prelude.

Open Scope Z_scope.

(** ** The package net *)

Definition IP := list Z.
Definition IPMask := list Z.
Record IPNet := MkIPNet { net_IP : IP; net_Mask : IPMask }.

#[export] Instance IPNet_eq_dec : EqDecision IPNet.
Proof. solve_decision. Defined.

(** [net.IPNet{}]. *)
Definition zeroIPNet : IPNet := MkIPNet [] [].

Definition v4InV6Prefix : list Z := [0; 0; 0; 0; 0; 0; 0; 0; 0; 0; 255; 255].

Definition IPv4 (a b c d : Z) : IP := v4InV6Prefix ++ [a; b; c; d].

Definition To4 (ip : IP) : option IP :=
  if (length ip =? 4)%nat then Some ip
  else if (length ip =? 16)%nat && bool_decide (take 12 ip = v4InV6Prefix)
  then Some (drop 12 ip) else None.

Definition To16 (ip : IP) : option IP :=
  match ip with
  | [a; b; c; d] => Some (IPv4 a b c d)
  | _ => if (length ip =? 16)%nat then Some ip else None
  end.

Definition and_bytes (l m : list Z) : list Z := zip_with Z.land l m.

(** The network number and mask of a net, both of the same length. *)
Definition networkNumberAndMask (n : IPNet) : option (IP * IPMask) :=
  match To4 (net_IP n) with
  | Some ip4 =>
      if (length (net_Mask n) =? 4)%nat then Some (ip4, net_Mask n)
      else if (length (net_Mask n) =? 16)%nat then Some (ip4, drop 12 (net_Mask n)) else None
  | None =>
      if (length (net_IP n) =? 16)%nat && (length (net_Mask n) =? 16)%nat
      then Some (net_IP n, net_Mask n) else None
  end.

(** [IPNet.Contains]. When the net is not valid its number is nil, of length 0,
    which contains the nil address only. *)
Definition net_Contains (n : IPNet) (ip : IP) : bool :=
  let '(nn, m) := default ([], []) (networkNumberAndMask n) in
  let ip := default ip (To4 ip) in
  (length ip =? length nn)%nat && bool_decide (and_bytes nn m = and_bytes ip m).

Definition IsLoopback (ip : IP) : bool :=
  match To4 ip with
  | Some ip4 => nth 0 ip4 0 =? 127
  | None => bool_decide (ip = replicate 15 0 ++ [1])
  end.

Definition IsInterfaceLocalMulticast (ip : IP) : bool :=
  (length ip =? 16)%nat && (nth 0 ip 0 =? 255) && (Z.land (nth 1 ip 0) 15 =? 1).

Definition IsLinkLocalMulticast (ip : IP) : bool :=
  match To4 ip with
  | Some ip4 => (nth 0 ip4 0 =? 224) && (nth 1 ip4 0 =? 0) && (nth 2 ip4 0 =? 0)
  | None => (length ip =? 16)%nat && (nth 0 ip 0 =? 255) && (Z.land (nth 1 ip 0) 15 =? 2)
  end.

Definition IsLinkLocalUnicast (ip : IP) : bool :=
  match To4 ip with
  | Some ip4 => (nth 0 ip4 0 =? 169) && (nth 1 ip4 0 =? 254)
  | None => (length ip =? 16)%nat && (nth 0 ip 0 =? 254) && (Z.land (nth 1 ip 0) 192 =? 128)
  end.

(** ** Printing *)

Definition hex_ascii (n : Z) : ascii :=
  if n <? 10 then digit_ascii n else ascii_of_nat (87 + Z.to_nat n).

Definition hex_byte (b : Z) : string :=
  String (hex_ascii (b / 16)) (String (hex_ascii (b mod 16)) EmptyString).

(** A number of 16 bits in base 16, without leading zeros. *)
Definition hex16 (n : Z) : string :=
  let d k := String (hex_ascii ((n / 16 ^ k) mod 16)) EmptyString in
  if n <? 16 then d 0
  else if n <? 256 then d 1 +:+ d 0
  else if n <? 4096 then d 2 +:+ d 1 +:+ d 0
  else d 3 +:+ d 2 +:+ d 1 +:+ d 0.

Fixpoint join_with (sep : string) (l : list string) : string :=
  match l with
  | [] => EmptyString
  | [x] => x
  | x :: l => x +:+ sep +:+ join_with sep l
  end.

(** The groups of 16 bits of an IPv6 address. *)
Fixpoint groups (ip : IP) : list Z :=
  match ip with a :: b :: ip => a * 256 + b :: groups ip | _ => [] end.

(** The zeros at the head of a list. *)
Fixpoint zeros (l : list Z) : nat :=
  match l with 0 :: l => S (zeros l) | _ => O end.

(** The first longest run of zero groups: where it starts and its length. *)
Fixpoint longest_zeros (pos : nat) (best : nat * nat) (l : list Z) : nat * nat :=
  match l with
  | [] => best
  | x :: l' =>
      let n := zeros l in
      longest_zeros (S pos) (if (best.2 <? n)%nat then (pos, n) else best) l'
  end.

(** [IP.String]. *)
Definition IP_String (ip : IP) : string :=
  match ip, To4 ip with
  | [], _ => "<nil>"
  | _, Some ip4 => join_with "." (Itoa <$> ip4)
  | _, None =>
      if (length ip =? 16)%nat then
        let g := groups ip in
        let '(start, n) := longest_zeros 0 (0%nat, 0%nat) g in
        if (n <? 2)%nat then join_with ":" (hex16 <$> g)
        else join_with ":" (hex16 <$> take start g) +:+ "::" +:+
             join_with ":" (hex16 <$> drop (start + n) g)
      else "?" +:+ foldr (fun b s => hex_byte b +:+ s) EmptyString ip
  end.

(** The leading ones of a byte, when zeros follow them. *)
Definition byte_ones (v : Z) : option Z :=
  match v with
  | 0 => Some 0 | 128 => Some 1 | 192 => Some 2 | 224 => Some 3 | 240 => Some 4
  | 248 => Some 5 | 252 => Some 6 | 254 => Some 7 | 255 => Some 8 | _ => None
  end.

(** The length of a mask; [None] when its ones are not all at its head. *)
Fixpoint simpleMaskLength (m : IPMask) : option Z :=
  match m with
  | [] => Some 0
  | 255 :: m => Z.add 8 <$> simpleMaskLength m
  | v :: m => if forallb (Z.eqb 0) m then byte_ones v else None
  end.

(** [IPNet.String]. *)
Definition net_String (n : IPNet) : string :=
  match networkNumberAndMask n with
  | None => "<nil>"
  | Some (nn, m) =>
      match simpleMaskLength m with
      | None => IP_String nn +:+ "/" +:+ foldr (fun b s => hex_byte b +:+ s) EmptyString m
      | Some l => IP_String nn +:+ "/" +:+ Itoa l
      end
  end.

(** [HardwareAddr.String]. *)
Definition hw_String (addr : list Z) : string := join_with ":" (hex_byte <$> addr).

Example IP_String_v4 : IP_String (IPv4 8 8 4 4) = "8.8.4.4".
Proof. reflexivity. Qed.
Example IP_String_v6 : IP_String [32;1;72;96;72;96;0;0;0;0;0;0;0;0;136;136] = "2001:4860:4860::8888".
Proof. reflexivity. Qed.
Example net_String_v4 : net_String (MkIPNet (IPv4 10 1 2 0) [255; 255; 255; 0]) = "10.1.2.0/24".
Proof. reflexivity. Qed.
Example IP_String_loopback : IP_String (replicate 15 0 ++ [1]) = "::1".
Proof. reflexivity. Qed.

(** ** Hardware addresses *)

(** [bytes.Compare(a, b) <= 0]: lexicographic order. *)
Fixpoint bytes_le (a b : list Z) : bool :=
  match a, b with
  | [], _ => true
  | _, [] => false
  | x :: a, y :: b => (x <? y) || ((x =? y) && bytes_le a b)
  end.

Definition macPUR1 : list Z := [0; 81; 255].
Definition macPLR1 : list Z := [0; 3].
Definition macPUR2 : list Z := [144; 0; 255].
Definition macPR2EL : list Z := [51; 51].
Definition macPLR2 : list Z := [0; 84].
Definition macPUR3 : list Z := [255; 255; 255; 255; 255; 254].
Definition macPLR3 : list Z := [144; 2].

(** The upper bounds are compared with the end of the address. *)
Definition isHardwareAddrInValidRange (addr : list Z) : bool :=
  let tail n := drop (6 - n) addr in
  if bytes_le (tail 3%nat) macPUR1 then bytes_le macPLR1 (take 2 addr)
  else if bytes_le (tail 3%nat) macPUR2 then
    bytes_le macPLR2 (take 2 addr) && negb (bool_decide (take 2 addr = macPR2EL))
  else bytes_le addr macPUR3 && bytes_le macPLR3 (take 2 addr).

(** The local bit set and the multicast bit cleared, in place. *)
Definition set_local (offset : nat) (hs : list Z) : list Z :=
  <[offset := Z.land (Z.lor (nth offset hs 0) 2) 254]> hs.

(** The windows of six bytes of a hash from [offset] on, [n] more of them; the
    hash as it is left, with the address when one is in range. *)
Fixpoint hw_windows (n offset : nat) (hs : list Z) : list Z * option (list Z) :=
  let hs := set_local offset hs in
  let addr := take 6 (drop offset hs) in
  if isHardwareAddrInValidRange addr then (hs, Some addr)
  else match n with O => (hs, None) | S n => hw_windows n (S offset) hs end.

(** The outer loop hashes what it has until a window is in range. *)
Fixpoint hw_rounds (md5 : list Z -> list Z) (fuel : nat) (b : list Z) : option (list Z) :=
  match fuel with
  | O => None
  | S fuel =>
      match hw_windows 10 0 (md5 b) with
      | (_, Some addr) => Some addr
      | (hs, None) => hw_rounds md5 fuel hs
      end
  end.

(** [md5.Sum]. That some number of rounds is enough depends on the hash. *)
Class MD5 := {
  md5_Sum : list Z -> list Z;
  md5_length b : length (md5_Sum b) = 16%nat;
  md5_bytes b : Forall (fun x => 0 <= x < 256) (md5_Sum b);
  md5_rounds : nat;
  md5_found b : is_Some (hw_rounds md5_Sum md5_rounds b)
}.

Definition bytes_of (s : string) : list Z :=
  (fun c => Z.of_nat (nat_of_ascii c)) <$> String.list_ascii_of_string s.

Definition HardwareAddrFromInputBytes `{MD5} (b : list Z) : list Z :=
  default [] (hw_rounds md5_Sum md5_rounds b).

(** ** Lemmas *)

#[local] Notation bytes := (Forall (fun x => 0 <= x < 256)).

(** Local and unicast. *)
Lemma local_byte x : 0 <= x < 256 ->
  0 <= Z.land (Z.lor x 2) 254 < 256 /\ Z.testbit (Z.land (Z.lor x 2) 254) 0 = false /\
  Z.testbit (Z.land (Z.lor x 2) 254) 1 = true.
Proof.
  intros Hx. split; [|by rewrite !Z.land_spec, !Z.lor_spec, !andb_false_r, orb_true_r].
  assert (Hl : 0 <= Z.lor x 2) by (apply Z.lor_nonneg; lia).
  pose proof (Z.land_nonneg (Z.lor x 2) 254). split; [lia|].
  rewrite Z.land_comm. replace 254 with (Z.land 254 (Z.ones 8)) by reflexivity.
  rewrite <- Z.land_assoc, (Z.land_comm (Z.ones 8)), Z.land_assoc, Z.land_ones by lia.
  apply Z.mod_pos_bound. lia.
Qed.

Definition local_address (a : list Z) : Prop :=
  length a = 6%nat /\ bytes a /\ isHardwareAddrInValidRange a = true /\
  Z.testbit (nth 0 a 0) 0 = false /\ Z.testbit (nth 0 a 0) 1 = true.

Lemma set_local_spec offset hs : (offset + 6 <= length hs)%nat -> bytes hs ->
  length (set_local offset hs) = length hs /\ bytes (set_local offset hs) /\
  let a := take 6 (drop offset (set_local offset hs)) in
  length a = 6%nat /\ bytes a /\ Z.testbit (nth 0 a 0) 0 = false /\ Z.testbit (nth 0 a 0) 1 = true.
Proof.
  intros Hl Hb. unfold set_local. set (x := nth offset hs 0).
  assert (Hx : 0 <= x < 256).
  { destruct (lookup_lt_is_Some_2 hs offset) as [y Hy]; [lia|]. subst x.
    rewrite (nth_lookup_Some _ _ _ _ Hy). exact (Forall_lookup_1 _ _ _ _ Hb Hy). }
  destruct (local_byte x Hx) as (Hr & H0 & H1). rewrite length_insert.
  assert (Hb' : bytes (<[offset := Z.land (Z.lor x 2) 254]> hs)) by exact (Forall_insert _ _ _ _ Hb Hr).
  split; [done|]. split; [exact Hb'|]. cbn zeta.
  rewrite (nth_lookup_Some _ _ _ (Z.land (Z.lor x 2) 254))
    by (rewrite lookup_take_lt, lookup_drop, Nat.add_0_r by lia; apply list_lookup_insert_eq; lia).
  split; [rewrite length_take, length_drop, length_insert; lia|].
  split; [by apply Forall_take, Forall_drop|done].
Qed.

Lemma hw_windows_spec n : forall offset hs hs' addr, (offset + n + 6 <= length hs)%nat -> bytes hs ->
  hw_windows n offset hs = (hs', addr) ->
  length hs' = length hs /\ bytes hs' /\ forall a, addr = Some a -> local_address a.
Proof.
  induction n as [|n IH]; intros offset hs hs' addr Hl Hb; cbn [hw_windows];
    destruct (set_local_spec offset hs) as (Hl1 & Hb1 & Hw); [lia|done| |lia|done|];
    revert Hl1 Hb1 Hw; generalize (set_local offset hs); intros hs1 Hl1 Hb1 Hw;
    destruct (isHardwareAddrInValidRange (take 6 (drop offset hs1))) eqn:Er; intros Hrun;
    try (injection Hrun as <- <-; cbn zeta in Hw; split; [done|]; split; [exact Hb1|]; intros a [= <-]; unfold local_address; tauto).
  rewrite <- Hl1. apply (IH (S offset)); [lia|done|exact Hrun].
Qed.

(** The address that comes out has six bytes, is in range, and is local and
    unicast. *)
Lemma HardwareAddr_spec `{MD5} b : local_address (HardwareAddrFromInputBytes b).
Proof.
  unfold HardwareAddrFromInputBytes. destruct (md5_found b) as [a Ha]. rewrite Ha.
  cbn [default from_option]. revert b Ha.
  generalize md5_rounds as fuel. induction fuel as [|fuel IH]; intros b Ha; [done|].
  cbn [hw_rounds] in Ha. destruct (hw_windows 10 0 (md5_Sum b)) as [hs [a'|]] eqn:Ew.
  - injection Ha as ->. eapply hw_windows_spec in Ew as (_ & _ & Hw);
      [by apply Hw|rewrite md5_length; lia|apply md5_bytes].
  - by apply (IH hs).
Qed.

(** The bytes of a net's number are those of the addresses it contains, under
    the mask. *)
Lemma net_Contains_network n ip : net_Contains n ip = true ->
  exists nn m, (networkNumberAndMask n = Some (nn, m) \/ (networkNumberAndMask n = None /\ ip = [])) /\
    and_bytes (default ip (To4 ip)) m = and_bytes nn m.
Proof.
  unfold net_Contains. destruct (networkNumberAndMask n) as [[nn m]|] eqn:E; cbn.
  - intros [_ Hb%bool_decide_eq_true]%andb_prop. exists nn, m. split; [by left|done].
  - intros [Hl%Nat.eqb_eq _]%andb_prop. exists [], []. split; [right|].
    + split; [done|]. destruct ip as [|a ip]; [done|]. exfalso. unfold To4 in Hl.
      destruct (length (a :: ip) =? 4)%nat eqn:E4; cbn in Hl; [done|].
      revert Hl. destruct (_ && _) eqn:E16; [|done]. apply andb_prop in E16 as [E16%Nat.eqb_eq _].
      cbn -[drop length]. rewrite length_drop. cbn in E16 |- *. lia.
    + unfold and_bytes. by rewrite zip_with_nil_r.
Qed.
