(* ===== verification/NetTypes.v ===== *)
(** The data of the network daemon: how addresses are read ([net.ParseIP] and
    [net.ParseCIDR] of the Go library), src/pkg/network/types (types.go), the links,
    routes and changes of the kernel's network that github.com/vishvananda/netlink
    names, and the derived addresses of src/pkg/network/ifaceutil/ip.go. *)

From stdpp Require Import list strings.
From Stdlib Require Import Ascii ZArith Lia.
From S2P Require Import Prelude Reservation NetIP.

Open Scope Z_scope.

(** ** Reading addresses *)

(** Numbers that reach [big] are refused. *)
Definition big : Z := 16777215.

Definition xdigit (c : ascii) : option Z :=
  let n := Z.of_nat (nat_of_ascii c) in
  if (48 <=? n) && (n <=? 57) then Some (n - 48)
  else if (97 <=? n) && (n <=? 102) then Some (n - 87)
  else if (65 <=? n) && (n <=? 70) then Some (n - 55) else None.

(** The number at the head of a string and what follows it. *)
Fixpoint number (base : Z) (value : ascii -> option Z) (seen : bool) (n : Z) (s : string) : option (Z * string) :=
  match s with
  | EmptyString => if seen then Some (n, EmptyString) else None
  | String c s' =>
      match value c with
      | Some d =>
          let n := n * base + d in
          if big <=? n then None else number base value true n s'
      | None => if seen then Some (n, s) else None
      end
  end.

Definition dtoi (s : string) : option (Z * string) := number 10 digit false 0 s.
Definition xtoi (s : string) : option (Z * string) := number 16 xdigit false 0 s.

Fixpoint parse_fields (i : nat) (s : string) : option (list Z) :=
  let field s :=
    match dtoi s with
    | Some (n, s) => if n >? 255 then None else Some (n, s)
    | None => None
    end in
  match i with
  | O => if (s =? "")%string then Some [] else None
  | S i =>
      match s with
      | String "." s => '(n, s) ← field s; l ← parse_fields i s; Some (n :: l)
      | _ => None
      end
  end.

Definition parseIPv4 (s : string) : option IP :=
  match parse_fields 4 (String "." s) with
  | Some [a; b; c; d] => Some (IPv4 a b c d)
  | _ => None
  end.

(** The groups of an IPv6 address that are left in [s]: the bytes read so far, and
    where the ellipsis stands. *)
Fixpoint parse_groups (fuel : nat) (ip : list Z) (ellipsis : option nat) (s : string)
    : option (list Z * option nat) :=
  match fuel with
  | O => if (s =? "")%string then Some (ip, ellipsis) else None
  | S fuel =>
      match xtoi s with
      | None => None
      | Some (n, rest) =>
          if n >? 65535 then None
          else if HasPrefix rest "." then
            if negb (bool_decide (is_Some ellipsis)) && negb (length ip =? 12)%nat then None
            else if (16 <? length ip + 4)%nat then None
            else match parseIPv4 s with
                 | Some ip4 => Some (ip ++ drop 12 ip4, ellipsis)
                 | None => None
                 end
          else
            let ip := ip ++ [n / 256; n mod 256] in
            match rest with
            | EmptyString => Some (ip, ellipsis)
            | String ":" (String ":" rest) =>
                match ellipsis with
                | Some _ => None
                | None =>
                    if (rest =? "")%string then Some (ip, Some (length ip))
                    else parse_groups fuel ip (Some (length ip)) rest
                end
            | String ":" EmptyString => None
            | String ":" rest => parse_groups fuel ip ellipsis rest
            | _ => None
            end
      end
  end.

Definition expand (ip : list Z) (ellipsis : option nat) : option IP :=
  if (length ip <? 16)%nat then
    match ellipsis with
    | None => None
    | Some e => Some (take e ip ++ replicate (16 - length ip) 0 ++ drop e ip)
    end
  else match ellipsis with Some _ => None | None => Some ip end.

Definition parseIPv6 (s : string) : option IP :=
  match s with
  | String ":" (String ":" s) =>
      if (s =? "")%string then Some (replicate 16 0)
      else '(ip, e) ← parse_groups 8 [] (Some 0%nat) s; expand ip e
  | _ => '(ip, e) ← parse_groups 8 [] None s; expand ip e
  end.

(** The first dot or colon decides. *)
Fixpoint parse_as (s whole : string) : option IP :=
  match s with
  | EmptyString => None
  | String "." _ => parseIPv4 whole
  | String ":" _ => parseIPv6 whole
  | String _ s => parse_as s whole
  end.

(** [net.ParseIP]: nil when the text is not an address. *)
Definition ParseIP (s : string) : IP := default [] (parse_as s s).

Fixpoint mask_bytes (l : nat) (n : Z) : IPMask :=
  match l with
  | O => []
  | S l => if n >=? 8 then 255 :: mask_bytes l (n - 8)
           else (255 - Z.shiftr 255 n) :: mask_bytes l 0
  end.

Definition CIDRMask (ones bits : Z) : IPMask :=
  if negb ((bits =? 32) || (bits =? 128)) || (ones <? 0) || (ones >? bits) then []
  else mask_bytes (Z.to_nat (bits / 8)) ones.

(** [IP.Mask], with an address of the length of the mask, or an IPv4 one in 16 bytes. *)
Definition IP_Mask (ip : IP) (m : IPMask) : IP :=
  let ip := if (length m =? 4)%nat then default ip (To4 ip) else ip in
  if (length ip =? length m)%nat then and_bytes ip m else [].

Definition ParseCIDR (s : string) : option (IP * IPNet) :=
  match split_first "/" s with
  | None => None
  | Some (addr, mask) =>
      let '(iplen, ip) := match parseIPv4 addr with
                          | Some ip => (32, Some ip)
                          | None => (128, parseIPv6 addr)
                          end in
      match ip, dtoi mask with
      | Some ip, Some (n, EmptyString) =>
          if n >? iplen then None
          else let m := CIDRMask n iplen in Some (ip, MkIPNet (IP_Mask ip m) m)
      | _, _ => None
      end
  end.

(** An address of either form that is the same address. *)
Definition IP_Equal (a b : IP) : bool :=
  bool_decide (default a (To4 a) = default b (To4 b)).

Definition IsMulticast (ip : IP) : bool :=
  match To4 ip with
  | Some ip4 => Z.land (nth 0 ip4 0) 240 =? 224
  | None => (length ip =? 16)%nat && (nth 0 ip 0 =? 255)
  end.

Definition IsUnspecified (ip : IP) : bool :=
  IP_Equal ip (IPv4 0 0 0 0) || IP_Equal ip (replicate 16 0).

Definition IsGlobalUnicast (ip : IP) : bool :=
  ((length ip =? 4)%nat || (length ip =? 16)%nat) &&
  negb (IP_Equal ip (IPv4 255 255 255 255)) && negb (IsUnspecified ip) && negb (IsLoopback ip) &&
  negb (IsMulticast ip) && negb (IsLinkLocalUnicast ip).

(** [ulaPrefix], [IsULA], and [yggPrefix], [isYgg]. *)
Definition ulaPrefix : IPNet := MkIPNet (ParseIP "fc00::") (CIDRMask 7 128).
Definition IsULA (ip : IP) : bool := net_Contains ulaPrefix ip.

Definition yggPrefix : IPNet := MkIPNet (ParseIP "200::") (CIDRMask 7 128).
Definition isYgg (ip : IP) : bool := net_Contains yggPrefix ip.

Example ParseIP_v4 : ParseIP "100.127.0.1" = IPv4 100 127 0 1.
Proof. reflexivity. Qed.
Example ParseIP_v6 : ParseIP "fe80::1" = [254; 128] ++ replicate 13 0 ++ [1].
Proof. reflexivity. Qed.
Example ParseIP_mixed : ParseIP "::ffff:1.2.3.4" = IPv4 1 2 3 4.
Proof. reflexivity. Qed.
Example ParseIP_full : ParseIP "2001:db8:1:2:3:4:5:6789" = [32; 1; 13; 184; 0; 1; 0; 2; 0; 3; 0; 4; 0; 5; 103; 137].
Proof. reflexivity. Qed.
Example ParseIP_not : (ParseIP "10.1.2", ParseIP "1::2::3", ParseIP "10.1.2.256", ParseIP "1:2") = ([], [], [], []).
Proof. reflexivity. Qed.
Example ParseCIDR_v4 : ParseCIDR "10.1.2.7/20" = Some (IPv4 10 1 2 7, MkIPNet [10; 1; 0; 0] [255; 255; 240; 0]).
Proof. reflexivity. Qed.

(** ** types.go *)

Definition PublicNamespace : string := "public".
Definition PublicIface : string := "public".
Definition DefaultBridge : string := "zos".
Definition PublicBridge : string := "br-pub".

(** [ParseIPNet]: nothing is no net, and the net keeps the bits of the host. *)
Definition ParseIPNet (txt : string) : res IPNet :=
  if (txt =? "")%string then Ok zeroIPNet
  else match ParseCIDR txt with
       | None => Err (ErrMsg ("invalid CIDR address: " +:+ txt))
       | Some (ip, n) => Ok (MkIPNet ip (net_Mask n))
       end.

Definition MustParseIPNet (txt : string) : res IPNet :=
  match ParseIPNet txt with Err e => Panic (Error e) | r => r end.

(** [UnmarshalText] into a net: its new value, and the old one when it fails. *)
Definition UnmarshalText (i : IPNet) (text : string) : IPNet * option error :=
  match ParseIPNet text with
  | Ok v => (v, None)
  | Err e => (i, Some e)
  | Panic _ => (i, None)
  end.

(** The JSON string of a net, without its quotes. *)
Definition MarshalText (i : IPNet) : string :=
  if (length (net_IP i) =? 0)%nat then "" else net_String i.

Definition IPNet_Nil (n : IPNet) : bool := bool_decide (net_IP n = []) && bool_decide (net_Mask n = []).

Definition VlanIface : string := "vlan".
Definition MacVlanIface : string := "macvlan".

Record IfaceInfo := MkIfaceInfo {
  ii_Name : string; ii_Addrs : list IPNet; ii_Gateway : list IP; ii_MacAddress : list Z
}.

Record PubIface := MkPubIface {
  pi_Master : string; pi_Type : string; pi_Vlan : Z; pi_IPv4 : IPNet; pi_IPv6 : IPNet;
  pi_GW4 : IP; pi_GW6 : IP; pi_Version : Z
}.

Record types_Node := MkNode {
  n_NodeID : string; n_FarmID : Z; n_Ifaces : list IfaceInfo; n_PublicConfig : option PubIface;
  n_ExitNode : Z; n_WGPorts : list Z
}.

(** The records of github.com/threefoldtech/tfexplorer/models/generated/directory, as far
    as they are read here, and the values of its [IfaceTypeEnum]. *)
Record directory_Iface := MkDirIface {
  di_Name : string; di_Addrs : list IPNet; di_Gateway : list IP; di_MacAddress : list Z
}.

Record directory_PublicIface := MkDirPublicIface {
  dp_Master : string; dp_Type : Z; dp_Ipv4 : IPNet; dp_Ipv6 : IPNet; dp_Gw4 : IP; dp_Gw6 : IP;
  dp_Version : Z
}.

Record directory_Node := MkDirNode {
  dn_NodeId : string; dn_FarmId : Z; dn_Ifaces : list directory_Iface;
  dn_PublicConfig : option directory_PublicIface; dn_WgPorts : list Z
}.

Class IfaceTypes := {
  IfaceTypeVlan : Z;
  IfaceTypeMacvlan : Z;
  IfaceType_String : Z -> string;
  IfaceType_Vlan : IfaceType_String IfaceTypeVlan = "vlan";
  IfaceType_Macvlan : IfaceType_String IfaceTypeMacvlan = "macvlan"
}.

Definition NewIfaceInfoFromSchema (iface : directory_Iface) : IfaceInfo :=
  MkIfaceInfo (di_Name iface) (di_Addrs iface) (di_Gateway iface) [].

Definition IfaceInfo_ToSchema (i : IfaceInfo) : directory_Iface :=
  MkDirIface (ii_Name i) (ii_Addrs i) (ii_Gateway i) [].

(** The first address that is neither link local nor IPv4. *)
Definition DefaultIP (i : IfaceInfo) : res IP :=
  if (length (ii_Gateway i) =? 0)%nat then Err (ErrMsg "interface has not gateway")
  else
    let usable (addr : IPNet) :=
      negb (IsLinkLocalUnicast (net_IP addr) || IsLinkLocalMulticast (net_IP addr) ||
            bool_decide (is_Some (To4 (net_IP addr)))) &&
      bool_decide (is_Some (To16 (net_IP addr))) in
    match List.find usable (ii_Addrs i) with
    | Some addr => Ok (net_IP addr)
    | None => Err (ErrMsg "no ipv6 address with default gateway")
    end.

Definition PubIface_ToSchema `{IfaceTypes} (p : PubIface) : directory_PublicIface :=
  MkDirPublicIface (pi_Master p)
    (if (pi_Type p =? VlanIface)%string then IfaceTypeVlan
     else if (pi_Type p =? MacVlanIface)%string then IfaceTypeMacvlan else 0)
    (pi_IPv4 p) (pi_IPv4 p) (pi_GW4 p) (pi_GW6 p) (pi_Version p).

Definition NewPubIfaceFromSchema `{IfaceTypes} (p : directory_PublicIface) : PubIface :=
  MkPubIface (dp_Master p) (IfaceType_String (dp_Type p)) 0 (dp_Ipv4 p) (dp_Ipv6 p)
    (dp_Gw4 p) (dp_Gw6 p) (dp_Version p).

Definition NewNodeFromSchema `{IfaceTypes} (node : directory_Node) : types_Node :=
  MkNode (dn_NodeId node) (u64 (dn_FarmId node))
    ((fun iface => MkIfaceInfo (di_Name iface) (di_Addrs iface) (di_Gateway iface) (di_MacAddress iface))
       <$> dn_Ifaces node)
    (NewPubIfaceFromSchema <$> dn_PublicConfig node) 0 (u64 <$> dn_WgPorts node).

(** ** ip.go *)

Definition IPv6SuffixFromInputBytes `{MD5} (b : list Z) (n : Z) : res (list Z) :=
  if n <=? 0 then Ok []
  else if n >? 16 then Panic "up to 16 bytes are allowed"
  else Ok (take (Z.to_nat n) (md5_Sum b)).

Fixpoint hex_groups (gs : nat) (ob : list Z) : string :=
  match ob with
  | [] => ""
  | o :: ob => hex_byte o +:+ (if (gs =? 1)%nat then ":" +:+ hex_groups 0 ob else hex_groups (S gs) ob)
  end.

Definition IPv6SuffixFromInputBytesAsHex `{MD5} (b : list Z) (n : Z) : res string :=
  res_map (fun ob => TrimSuffix (hex_groups (length ob mod 2) ob) ":") (IPv6SuffixFromInputBytes b n).

(** ** Links, routes and changes of them *)

(** The Go type of a link, with what is its own. *)
Inductive LinkKind :=
| Bridge
| Macvlan (mode : Z)
| Macvtap (mode : Z)
| Tuntap (mode : Z)
| Veth (peer : string)
| Device
| WireguardLink
| GenericLink (type : string).

Definition MACVLAN_MODE_BRIDGE : Z := 3.
Definition TUNTAP_MODE_TAP : Z := 2.

Record Link := MkLink {
  ln_Name : string; ln_Index : Z; ln_ParentIndex : Z; ln_MasterIndex : Z; ln_HardwareAddr : list Z;
  ln_MTU : Z; ln_TxQLen : Z; ln_Up : bool; ln_Namespace : option string; ln_Kind : LinkKind
}.

(** [Link.Type]. *)
Definition ln_Type (l : Link) : string :=
  match ln_Kind l with
  | Bridge => "bridge" | Macvlan _ => "macvlan" | Macvtap _ => "macvtap" | Tuntap _ => "tuntap"
  | Veth _ => "veth" | Device => "device" | WireguardLink => "wireguard" | GenericLink t => t
  end.

(** A link that is to be added. *)
Definition new_link (name : string) (mtu parent : Z) (ns : option string) (kind : LinkKind) : Link :=
  MkLink name 0 parent 0 [] mtu 0 false ns kind.

(** A nil destination is a net without bytes. *)
Record Route := MkRoute { rt_Dst : IPNet; rt_Gw : IP; rt_LinkIndex : Z }.

(** [wgtypes.PeerConfig] and [wgtypes.Config]. *)
Record PeerConfig := MkPeerConfig {
  pc_PublicKey : list Z; pc_Endpoint : option (IP * Z); pc_AllowedIPs : list IPNet;
  pc_KeepaliveInterval : Z; pc_ReplaceAllowedIPs : bool
}.

Record WgConfig := MkWgConfig {
  wc_PrivateKey : list Z; wc_ListenPort : Z; wc_ReplacePeers : bool; wc_Peers : list PeerConfig
}.

(** What the daemon changes in a network namespace. *)
Inductive netop :=
| LinkAdd (l : Link)
| LinkDel (l : Link)
| LinkSetUp (l : Link)
| LinkSetDown (l : Link)
| LinkSetMaster (l master : Link)
| LinkSetMasterByIndex (l : Link) (index : Z)
| LinkSetNoMaster (l : Link)
| LinkSetHardwareAddr (l : Link) (hw : list Z)
| LinkSetNsFd (l : Link) (target : option string)
| SetPromiscOn (l : Link)
| RenameLink (old new : string)
| AddrAdd (l : Link) (addr : IPNet)
| AddrDel (l : Link) (addr : IPNet)
| RouteAdd (r : Route)
| RouteDel (r : Route)
| Sysctl (key val : string)
| ConfigureDevice (name : string) (cfg : WgConfig)
| SetupVeth (name : string) (mtu : Z) (peer_ns : option string)
| Nft (cmd : list string) (rules : string)
(** the namespace of a thread is mounted on a path, and unmounted *)
| NsMount (source path : string)
| NsUnmount (path : string).

(** ** Lemmas *)

Section reading.

Lemma digit_range c d : digit c = Some d -> 0 <= d < 10.
Proof.
  unfold digit. destruct (_ && _) eqn:E; [|done]. apply andb_prop in E as [E1 E2].
  intros [= <-]. apply Z.leb_le in E1, E2. lia.
Qed.

Lemma digits_value_ge s : forall a v, 0 <= a -> digits_value a s = Some v -> a <= v.
Proof.
  induction s as [|c s IH]; intros a v Ha; cbn [digits_value]; [intros [= <-]; lia|].
  destruct (digit c) as [d|] eqn:Ed; [|done]. apply digit_range in Ed. intros Hv.
  apply IH in Hv; lia.
Qed.

(** What stops the reading of a decimal number. *)
Definition no_digit (s : string) : Prop :=
  match s with EmptyString => True | String c _ => digit c = None end.

Lemma number_digits s rest : forall a v seen, 0 <= a -> digits_value a s = Some v -> v < big ->
  no_digit rest -> (seen = true \/ s <> EmptyString) -> number 10 digit seen a (s +:+ rest) = Some (v, rest).
Proof.
  induction s as [|c s IH]; intros a v seen Ha; cbn [digits_value].
  - intros [= <-] Hb Hr [->|]; [|done]. change ("" +:+ rest) with rest.
    destruct rest as [|c rest]; [done|]. unfold no_digit in Hr. cbn [number]. by rewrite Hr.
  - destruct (digit c) as [d|] eqn:Ed; [|done]. intros Hv Hb Hr _.
    change (String c s +:+ rest) with (String c (s +:+ rest)). cbn [number]. rewrite Ed.
    apply digit_range in Ed. pose proof (digits_value_ge s (a * 10 + d) v ltac:(lia) Hv).
    cbv zeta. destruct (Z.leb_spec big (a * 10 + d)); [lia|].
    apply (IH (a * 10 + d)); [lia|done..|by left].
Qed.

Lemma dtoi_Itoa n rest : 0 <= n < big -> no_digit rest -> dtoi (Itoa n +:+ rest) = Some (n, rest).
Proof.
  intros Hn Hr. apply number_digits; [lia|apply digits_value_Itoa; unfold is_u64, W64, big in *; lia|lia|done|].
  right. apply Itoa_nonempty.
Qed.

Lemma parse_field n i s : 0 <= n <= 255 -> no_digit s ->
  parse_fields (S i) (String "." (Itoa n +:+ s)) = l ← parse_fields i s; Some (n :: l).
Proof.
  intros Hn Hs. cbn -[dtoi Itoa]. rewrite (dtoi_Itoa n s) by (done || (unfold big; lia)). cbn -[dtoi Itoa].
  destruct (n >? 255) eqn:E; [apply Z.gtb_lt in E; lia|done].
Qed.

Lemma parseIPv4_dotted a b c d : 0 <= a <= 255 -> 0 <= b <= 255 -> 0 <= c <= 255 -> 0 <= d <= 255 ->
  parseIPv4 (join_with "." (Itoa <$> [a; b; c; d])) = Some (IPv4 a b c d).
Proof.
  intros Ha Hb Hc Hd. unfold parseIPv4. change (Itoa <$> [a; b; c; d]) with [Itoa a; Itoa b; Itoa c; Itoa d].
  cbn [join_with]. rewrite <- (string_app_nil_r (Itoa d)).
  change (parse_fields 4 (String "." (Itoa a +:+ String "." (Itoa b +:+ String "." (Itoa c +:+ String "." (Itoa d +:+ "")))))
    ≫= (fun l => match l with [a; b; c; d] => Some (IPv4 a b c d) | _ => None end) = Some (IPv4 a b c d)).
  rewrite (parse_field a), (parse_field b), (parse_field c), (parse_field d) by done. done.
Qed.

Lemma split_first_none_app c s t : split_first c s = None -> split_first c t = None -> split_first c (s +:+ t) = None.
Proof.
  induction s as [|x s IH]; intros Hs Ht; [done|].
  change (String x s +:+ t) with (String x (s +:+ t)). cbn [split_first] in *.
  destruct (Ascii.eqb x c); [done|]. destruct (split_first c s) as [[]|]; [done|]. by rewrite IH.
Qed.

(** A decimal number has no character that is not a digit. *)
Lemma split_first_Itoa c n : digit c = None -> is_u64 n -> split_first c (Itoa n) = None.
Proof.
  intros Hc Hn. generalize (digits_value_Itoa n Hn). generalize 0 as a. generalize (Itoa n) as s.
  induction s as [|x s IH]; intros a; [done|]. cbn [digits_value split_first].
  destruct (digit x) as [d|] eqn:Ed; [|done]. intros Hv.
  destruct (Ascii.eqb_spec x c) as [->|]; [congruence|]. by rewrite (IH _ Hv).
Qed.

Definition is_byte (x : Z) : Prop := 0 <= x <= 255.

(** [IP.String] of an IPv4 address, in either form. *)
Lemma parse_String_v4 a b c d : is_byte a -> is_byte b -> is_byte c -> is_byte d ->
  split_first "/" (IP_String [a; b; c; d]) = None /\ parseIPv4 (IP_String [a; b; c; d]) = Some (IPv4 a b c d).
Proof.
  intros Ha Hb Hc Hd. split; [|by apply parseIPv4_dotted]. unfold is_byte in *.
  change (IP_String [a; b; c; d]) with (Itoa a +:+ "." +:+ Itoa b +:+ "." +:+ Itoa c +:+ "." +:+ Itoa d).
  repeat apply split_first_none_app; try done; apply split_first_Itoa; try done; unfold is_u64, W64; lia.
Qed.

Lemma CIDRMask_4 k : 0 <= k <= 32 ->
  simpleMaskLength (CIDRMask k 32) = Some k /\ length (CIDRMask k 32) = 4%nat.
Proof.
  intros Hk. assert (Hin : k ∈ (Z.of_nat <$> seq 0 33)).
  { apply list_elem_of_fmap. exists (Z.to_nat k). rewrite elem_of_seq. lia. }
  revert k Hk Hin. assert (Hall : Forall (fun k => simpleMaskLength (CIDRMask k 32) = Some k /\
    length (CIDRMask k 32) = 4%nat) (Z.of_nat <$> seq 0 33)) by (repeat constructor).
  intros k _ Hin. exact (proj1 (Forall_forall _ _) Hall k Hin).
Qed.

End reading.

(** The two forms of an IPv4 address. *)
Definition is_v4 (ip : IP) (a b c d : Z) : Prop := ip = [a; b; c; d] \/ ip = IPv4 a b c d.

Lemma is_v4_String ip a b c d : is_v4 ip a b c d -> To4 ip = Some [a; b; c; d] /\ IP_String ip = IP_String [a; b; c; d].
Proof. by intros [-> | ->]. Qed.

(** An IPv4 net that is written to JSON and read again is the same net, its
    host bits included; its address comes back in 16 bytes, in whichever form it was. *)
Theorem IPNet_roundtrip ip a b c d k : is_v4 ip a b c d ->
  is_byte a -> is_byte b -> is_byte c -> is_byte d -> 0 <= k <= 32 ->
  ParseIPNet (MarshalText (MkIPNet ip (CIDRMask k 32))) = Ok (MkIPNet (IPv4 a b c d) (CIDRMask k 32)).
Proof.
  intros Hip Ha Hb Hc Hd Hk. destruct (CIDRMask_4 k Hk) as [Hm Hl].
  assert (Hs : MarshalText (MkIPNet ip (CIDRMask k 32)) = IP_String [a; b; c; d] +:+ String "/" (Itoa k +:+ "")).
  { destruct (is_v4_String _ _ _ _ _ Hip) as [H4 Hs]. unfold MarshalText, net_String, networkNumberAndMask.
    cbn [net_IP net_Mask]. rewrite H4. replace (length ip =? 0)%nat with false by by destruct Hip as [-> | ->].
    cbn [length Nat.eqb]. rewrite Hl. cbn [Nat.eqb]. rewrite Hm. by rewrite string_app_nil_r. }
  rewrite Hs. unfold ParseIPNet.
  destruct (parse_String_v4 a b c d) as [Hn Hp]; [done..|].
  replace (_ =? "")%string with false.
  2: { symmetry. apply String.eqb_neq. by destruct (IP_String [a; b; c; d]). }
  unfold ParseCIDR. rewrite split_first_app by done. rewrite Hp, (dtoi_Itoa k "") by (done || (unfold big; lia)).
  replace (k >? 32) with false by lia. done.
Qed.

Lemma IPNet_roundtrip_witness :
  MarshalText (MkIPNet [10; 1; 2; 7] (CIDRMask 20 32)) = "10.1.2.7/20" /\
  ParseIPNet (MarshalText (MkIPNet [10; 1; 2; 7] (CIDRMask 20 32))) = Ok (MkIPNet (IPv4 10 1 2 7) (CIDRMask 20 32)).
Proof. split; [vm_compute; reflexivity|]. apply (IPNet_roundtrip [10; 1; 2; 7] 10 1 2 7 20); [by left|unfold is_byte; lia..]. Defined.

(** A public interface that goes through the schema of the explorer: the VLAN is lost, and
    the IPv6 net is replaced by the IPv4 one. *)
Theorem PubIface_schema `{IfaceTypes} p : pi_Type p = VlanIface \/ pi_Type p = MacVlanIface ->
  NewPubIfaceFromSchema (PubIface_ToSchema p) =
    MkPubIface (pi_Master p) (pi_Type p) 0 (pi_IPv4 p) (pi_IPv4 p) (pi_GW4 p) (pi_GW6 p) (pi_Version p).
Proof.
  unfold NewPubIfaceFromSchema, PubIface_ToSchema. cbn. intros [-> | ->]; cbn;
    [by rewrite IfaceType_Vlan|by rewrite IfaceType_Macvlan].
Qed.
