(* ===== verification/ZdbPool.v ===== *)
(** 0-db volumes: src/pkg/storage/zdbpool (ns_header.go, index.go, pool.go).

    A 0-db volume is a directory with one directory per namespace; the file
    zdb-namespace of a namespace starts with a binary header that holds the size
    reserved for it. Bytes are the characters of a string. The name of a
    namespace is one path element: the join of paths with ".." or "/" in a name
    is not modelled. *)

From stdpp Require Import gmap strings list.
From Stdlib Require Import Ascii ZArith Lia.
From S2P Require Import Prelude Reservation Cache.

Open Scope Z_scope.

(** ** Little-endian integers *)

Definition byte_ascii (z : Z) : ascii := ascii_of_nat (Z.to_nat (u8 z)).

(** The [n] low bytes of [z], least significant first. *)
Fixpoint le_encode (n : nat) (z : Z) : string :=
  match n with
  | O => EmptyString
  | S n => String (byte_ascii z) (le_encode n (z / 256))
  end.

Fixpoint le_decode (s : string) : Z :=
  match s with
  | EmptyString => 0
  | String c s' => Z.of_nat (nat_of_ascii c) + 256 * le_decode s'
  end.

(** [io.ReadFull] of [n] bytes. *)
Fixpoint take_bytes (n : nat) (s : string) : option (string * string) :=
  match n, s with
  | O, _ => Some (EmptyString, s)
  | S _, EmptyString => None
  | S n, String c s' =>
      match take_bytes n s' with
      | Some (a, rest) => Some (String c a, rest)
      | None => None
      end
  end.

Definition read_bytes (n : nat) (s : string) : res (string * string) :=
  match take_bytes n s with
  | Some x => Ok x
  | None => Err (if decide (s = EmptyString) then ErrMsg "EOF" else ErrUnexpectedEOF)
  end.

(** ** Headers *)

Definition nsFlagsPublic : Z := 1.
Definition nsFlagsWorm : Z := 2.
Definition nsFlagsExtended : Z := 4.

Record baseHeader := MkBase {
  bh_NameLength : Z; bh_PasswordLength : Z; bh_MaxSize : Z; bh_Flags : Z
}.

Record Header := MkHeader {
  h_Version : Z; h_Name : string; h_Password : string; h_MaxSize : Z
}.

(** [binary.Write] of the two structures. *)
Definition encode_base (b : baseHeader) : string :=
  le_encode 1 (bh_NameLength b) +:+ le_encode 1 (bh_PasswordLength b) +:+
  le_encode 4 (bh_MaxSize b) +:+ le_encode 1 (bh_Flags b).

Definition encode_extended (version maxSize : Z) : string :=
  le_encode 4 version +:+ le_encode 8 maxSize.

(** What is written to a buffer or to a file; writing does not fail here. *)
Definition WriteHeader (h : Header) : string :=
  encode_base (MkBase (u8 (Z.of_nat (String.length (h_Name h))))
                 (u8 (Z.of_nat (String.length (h_Password h)))) 0
                 (Z.lor nsFlagsPublic nsFlagsExtended)) +:+
  h_Name h +:+ h_Password h +:+ encode_extended 1 (h_MaxSize h).

Definition decode_base (s : string) : res (baseHeader * string) :=
  match read_bytes 7 s with
  | Ok (b, rest) =>
      Ok (MkBase (le_decode (String.substring 0 1 b)) (le_decode (String.substring 1 1 b))
            (le_decode (String.substring 2 4 b)) (le_decode (String.substring 6 1 b)), rest)
  | Err e => Err e
  | Panic m => Panic m
  end.

(** The stream is a string; what is left of it after the header is dropped, as
    the callers do. *)
Definition ReadHeader (s : string) : res Header :=
  match decode_base s with
  | Err e => Err e
  | Panic m => Panic m
  | Ok (bh, s1) =>
      match read_bytes (Z.to_nat (bh_NameLength bh)) s1 with
      | Err e => Err (ErrWrap "invalid header. bad name" e)
      | Panic m => Panic m
      | Ok (name, s2) =>
          match read_bytes (Z.to_nat (bh_PasswordLength bh)) s2 with
          | Err e => Err (ErrWrap "invalid header. bad name" e)
          | Panic m => Panic m
          | Ok (passwrd, s3) =>
              if Z.land (bh_Flags bh) nsFlagsExtended =? 0
              then Ok (MkHeader 0 name passwrd (bh_MaxSize bh))
              else
                match read_bytes 12 s3 with
                | Err e => Err e
                | Panic m => Panic m
                | Ok (eh, _) =>
                    Ok (MkHeader (le_decode (String.substring 0 4 eh)) name passwrd
                          (le_decode (String.substring 4 8 eh)))
                end
          end
      end
  end.

(** ** The index header *)

Inductive IndexMode :=
| IndexModeKeyValue | IndexModeSequential | IndexModeDirectKey | IndexModeDirectBlock
| IndexModeUnknown (b : Z).

#[export] Instance IndexMode_eq_dec : EqDecision IndexMode.
Proof. solve_decision. Defined.

Definition index_mode (b : Z) : IndexMode :=
  match b with
  | 0 => IndexModeKeyValue | 1 => IndexModeSequential
  | 2 => IndexModeDirectKey | 3 => IndexModeDirectBlock
  | _ => IndexModeUnknown b
  end.

Definition IndexMode_String (m : IndexMode) : string :=
  match m with
  | IndexModeKeyValue => "key-value"
  | IndexModeSequential => "sequential"
  | IndexModeDirectKey => "direct-key"
  | IndexModeDirectBlock => "direct-block"
  | IndexModeUnknown _ => "unknown"
  end.

Record IndexHeader := MkIndexHeader {
  ih_Magic : string; ih_Version : Z; ih_Created : Z; ih_Opened : Z; ih_Fileid : Z;
  ih_Mode : IndexMode
}.

(** The structure has 27 bytes. *)
Definition ReadIndex (s : string) : res IndexHeader :=
  match read_bytes 27 s with
  | Ok (b, _) =>
      Ok (MkIndexHeader (String.substring 0 4 b) (le_decode (String.substring 4 4 b))
            (le_decode (String.substring 8 8 b)) (le_decode (String.substring 16 8 b))
            (le_decode (String.substring 24 2 b)) (index_mode (le_decode (String.substring 26 1 b))))
  | Err e => Err e
  | Panic m => Panic m
  end.

(** ** The pool *)

(** A directory of the volume, as far as it is looked at: its files
    zdb-namespace and zdb-index-00000. *)
Record nsDir := MkNsDir { nd_namespace : option string; nd_index : option string }.

Inductive zentry := ZFile | ZDir (d : nsDir).

(** The volume at the path of the pool. *)
Notation ZDBPool := (gmap string zentry).

Record NSInfo := MkNSInfo { ns_Name : string; ns_Size : Z }.

Definition ns_dir (name : string) (p : ZDBPool) : option nsDir :=
  match p !! name with Some (ZDir d) => Some d | _ => None end.

Definition ZDBPool_Create (name password : string) (size : Z) : M ZDBPool unit := fun p =>
  match p !! name with
  | Some ZFile => (p, Err (ErrWrap "namespace directory creation failed" ErrExist))
  | _ =>
      let d := default (MkNsDir None None) (ns_dir name p) in
      (<[name := ZDir (MkNsDir (Some (WriteHeader (MkHeader 0 name password size))) (nd_index d))]> p,
       Ok tt)
  end.

(** The path of the file below a plain file is an error of its own (ENOTDIR),
    which [os.IsNotExist] is false of. *)
Definition ZDBPool_Namespace (name : string) (p : ZDBPool) : res NSInfo :=
  match p !! name with
  | None => Err ErrNotExist
  | Some ZFile => Err (ErrMsg "not a directory")
  | Some (ZDir d) =>
      match nd_namespace d with
      | None => Err ErrNotExist
      | Some content =>
          match ReadHeader content with
          | Ok h => Ok (MkNSInfo name (h_MaxSize h))
          | Err e => Err (ErrWrap "failed to read namespace header" e)
          | Panic m => Panic m
          end
      end
  end.

Fixpoint list_namespaces (p : ZDBPool) (dirs : list (string * zentry)) : res (list NSInfo) :=
  match dirs with
  | [] => Ok []
  | (_, ZFile) :: dirs => list_namespaces p dirs
  | (name, ZDir _) :: dirs =>
      if decide (name = "default") then list_namespaces p dirs
      else match ZDBPool_Namespace name p with
           | Ok info => res_map (cons info) (list_namespaces p dirs)
           | Err e => if IsNotExist e then list_namespaces p dirs else Err e
           | Panic m => Panic m
           end
  end.

Definition ZDBPool_Namespaces (p : ZDBPool) : res (list NSInfo) :=
  list_namespaces p (insertion_sort by_name (map_to_list p)).

Definition sum_sizes (ns : list NSInfo) : Z :=
  foldl (fun total n => (total +u ns_Size n)%go) 0 ns.

Definition ZDBPool_Reserved (p : ZDBPool) : res Z := res_map sum_sizes (ZDBPool_Namespaces p).

Definition ZDBPool_Exists (name : string) (p : ZDBPool) : bool :=
  match ns_dir name p with
  | Some d => bool_decide (is_Some (nd_namespace d))
  | None => false
  end.

Definition ZDBPool_IndexMode (name : string) (p : ZDBPool) : res IndexMode :=
  match p !! name with
  | None => Err ErrNotExist
  | Some ZFile => Err (ErrMsg "not a directory")
  | Some (ZDir d) =>
      match nd_index d with
      | None => Err ErrNotExist
      | Some content =>
          match ReadIndex content with
          | Ok h => Ok (ih_Mode h)
          | Err e => Err (ErrWrap "failed to read namespace index header" e)
          | Panic m => Panic m
          end
      end
  end.

(** ** Lemmas *)

Lemma le_decode_encode n : forall z, 0 <= z < 256 ^ Z.of_nat n -> le_decode (le_encode n z) = z.
Proof.
  induction n as [|n IH]; intros z Hz; cbn [le_encode le_decode]; [cbn in Hz; lia|].
  rewrite Nat2Z.inj_succ, Z.pow_succ_r in Hz by lia.
  rewrite IH by (split; [apply Z.div_pos; lia|apply Z.div_lt_upper_bound; lia]).
  unfold byte_ascii, u8. pose proof (Z.mod_pos_bound z 256 ltac:(lia)).
  rewrite nat_ascii_embedding by lia. pose proof (Z.div_mod z 256). lia.
Qed.

Lemma length_le_encode n : forall z, String.length (le_encode n z) = n.
Proof. induction n as [|n IH]; intros z; cbn; [done|by rewrite IH]. Qed.

Lemma take_bytes_app a : forall rest, take_bytes (String.length a) (a +:+ rest) = Some (a, rest).
Proof.
  induction a as [|c a IH]; intros rest; [by destruct rest|].
  change (String c a +:+ rest) with (String c (a +:+ rest)). cbn. by rewrite IH.
Qed.

Lemma read_bytes_app n a rest : String.length a = n -> read_bytes n (a +:+ rest) = Ok (a, rest).
Proof. intros <-. unfold read_bytes. by rewrite take_bytes_app. Qed.

(** The encoded base header is read back field by field. *)
Lemma decode_encode_base b rest :
  0 <= bh_NameLength b < 256 -> 0 <= bh_PasswordLength b < 256 ->
  0 <= bh_MaxSize b < 4294967296 -> 0 <= bh_Flags b < 256 ->
  decode_base (encode_base b +:+ rest) = Ok (b, rest).
Proof.
  intros H1 H2 H3 H4. unfold decode_base.
  rewrite (read_bytes_app 7) by done.
  unfold encode_base.
  rewrite (substring_skip (le_encode 1 (bh_NameLength b)) _ 1 1) by done.
  rewrite <- !(string_app_assoc (le_encode 1 (bh_NameLength b))).
  rewrite (substring_skip (le_encode 1 (bh_NameLength b) +:+ le_encode 1 (bh_PasswordLength b)) _ 2 4)
    by done.
  rewrite <- !(string_app_assoc (le_encode 1 (bh_NameLength b) +:+ le_encode 1 (bh_PasswordLength b))).
  rewrite (substring_skip _ (le_encode 1 (bh_Flags b)) 6 1) by done.
  rewrite !string_app_assoc.
  rewrite (substring_0 (le_encode 1 (bh_NameLength b)) :
    forall x, String.substring 0 1 (le_encode 1 (bh_NameLength b) +:+ x) = _).
  rewrite (substring_0 (le_encode 1 (bh_PasswordLength b)) :
    forall x, String.substring 0 1 (le_encode 1 (bh_PasswordLength b) +:+ x) = _).
  rewrite (substring_0 (le_encode 4 (bh_MaxSize b)) :
    forall x, String.substring 0 4 (le_encode 4 (bh_MaxSize b) +:+ x) = _).
  rewrite <- (string_app_nil_r (le_encode 1 (bh_Flags b))) at 1.
  rewrite (substring_0 (le_encode 1 (bh_Flags b)) :
    forall x, String.substring 0 1 (le_encode 1 (bh_Flags b) +:+ x) = _).
  rewrite !le_decode_encode by (cbn; lia). by destruct b.
Qed.

(** The bytes an entry of the volume has reserved. *)
Definition entry_size (e : string * zentry) : Z :=
  match e with
  | (_, ZFile) => 0
  | (name, ZDir d) =>
      if decide (name = "default") then 0
      else match nd_namespace d with
           | None => 0
           | Some c => match ReadHeader c with Ok h => h_MaxSize h | _ => 0 end
           end
  end.

(** Every namespace of the volume has a header that can be read. *)
Definition readable (p : ZDBPool) : Prop :=
  forall name d c, p !! name = Some (ZDir d) -> name <> "default" -> nd_namespace d = Some c ->
    exists h, ReadHeader c = Ok h.

Lemma list_namespaces_spec p dirs : readable p ->
  (forall x, x ∈ dirs -> p !! fst x = Some (snd x)) ->
  exists ns, list_namespaces p dirs = Ok ns /\ zsum ns_Size ns = zsum entry_size dirs.
Proof.
  intros Hread. induction dirs as [|[name e] dirs IH]; intros Hin; cbn; [by eexists|].
  destruct IH as (ns & Hns & Hsum); [intros; apply Hin; by right|].
  pose proof (Hin (name, e) ltac:(by left)) as Hp. cbn in Hp.
  destruct e as [|d]; [by eexists|]. case_decide as Hd; [by eexists|].
  unfold ZDBPool_Namespace. rewrite Hp. destruct (nd_namespace d) as [c|] eqn:Hc; cbn; [|by eexists].
  destruct (Hread name d c Hp Hd Hc) as [h Hh]. rewrite Hh, Hns. cbn. eexists. split; [done|].
  cbn. change (foldr (fun x a => ns_Size x + a) 0 ns) with (zsum ns_Size ns). by rewrite Hsum.
Qed.

Lemma Reserved_spec p : readable p ->
  ZDBPool_Reserved p = Ok (u64 (zsum entry_size (map_to_list p))).
Proof.
  intros Hread. unfold ZDBPool_Reserved, ZDBPool_Namespaces.
  destruct (list_namespaces_spec p (insertion_sort by_name (map_to_list p)) Hread) as (ns & -> & Hsum).
  { intros [name e] Hx. rewrite insertion_sort_perm in Hx. by apply elem_of_map_to_list in Hx. }
  cbn. unfold sum_sizes. rewrite foldl_u64_add by done. rewrite Hsum.
  by rewrite (zsum_perm _ _ _ (insertion_sort_perm _ _)).
Qed.

(** ** Properties *)

Lemma ReadHeader_written h rest :
  (String.length (h_Name h) < 256)%nat -> (String.length (h_Password h) < 256)%nat ->
  is_u64 (h_MaxSize h) ->
  ReadHeader (WriteHeader h +:+ rest) = Ok (MkHeader 1 (h_Name h) (h_Password h) (h_MaxSize h)).
Proof.
  intros Hn Hp Hs. unfold is_u64, W64 in Hs. unfold ReadHeader, WriteHeader. rewrite !string_app_assoc.
  assert (Hu8 : forall k, (k < 256)%nat -> u8 (Z.of_nat k) = Z.of_nat k)
    by (intros; apply Z.mod_small; lia).
  rewrite decode_encode_base; cycle 1.
  1-2: cbn; rewrite Hu8 by done; lia.
  1-2: done.
  cbn [bh_NameLength bh_PasswordLength bh_Flags bh_MaxSize]. rewrite !Hu8, !Nat2Z.id by done.
  rewrite (read_bytes_app _ (h_Name h)) by done.
  rewrite (read_bytes_app _ (h_Password h)) by done. cbn [Z.land].
  rewrite (read_bytes_app 12 (encode_extended 1 (h_MaxSize h))) by done. unfold encode_extended.
  rewrite (substring_skip (le_encode 4 1) _ 4 8) by done.
  rewrite (substring_0 (le_encode 4 1) :
    forall x, String.substring 0 4 (le_encode 4 1 +:+ x) = le_encode 4 1).
  rewrite <- (string_app_nil_r (le_encode 8 (h_MaxSize h))).
  rewrite (substring_0 (le_encode 8 (h_MaxSize h)) :
    forall x, String.substring 0 8 (le_encode 8 (h_MaxSize h) +:+ x) = le_encode 8 (h_MaxSize h)).
  rewrite !le_decode_encode by (cbn; lia). done.
Qed.

(** The header written for a namespace is read back: its name,
    its password and its full 64-bit size, whatever follows it in the file,
    when the name and the password are below 256 bytes. *)
Theorem ReadHeader_WriteHeader h rest :
  (String.length (h_Name h) < 256)%nat -> (String.length (h_Password h) < 256)%nat ->
  is_u64 (h_MaxSize h) ->
  ReadHeader (WriteHeader h +:+ rest) = Ok (MkHeader 1 (h_Name h) (h_Password h) (h_MaxSize h)).
Proof. exact (ReadHeader_written h rest). Qed.

Lemma ReadHeader_WriteHeader_witness :
  ReadHeader (WriteHeader (MkHeader 0 "12-1" "secret" 5368709120) +:+ "xyz") =
    Ok (MkHeader 1 "12-1" "secret" 5368709120).
Proof.
  apply (ReadHeader_WriteHeader (MkHeader 0 "12-1" "secret" 5368709120) "xyz");
    [apply Nat.ltb_lt; by vm_compute..|by vm_compute].
Defined.

(** Creating a namespace that does not exist reserves its
    size and nothing else: the namespace is found, the reserved size of the
    volume grows by exactly that size, and every other namespace keeps its
    size. *)
Theorem Create_Reserved name size p total :
  readable p -> (String.length name < 256)%nat -> is_u64 size -> name <> "default" ->
  p !! name <> Some ZFile -> ZDBPool_Exists name p = false ->
  ZDBPool_Reserved p = Ok total ->
  exists p', ZDBPool_Create name "" size p = (p', Ok tt) /\ readable p' /\
    ZDBPool_Namespace name p' = Ok (MkNSInfo name size) /\
    ZDBPool_Exists name p' = true /\
    ZDBPool_Reserved p' = Ok (total +u size)%go /\
    forall n, n <> name -> ZDBPool_Namespace n p' = ZDBPool_Namespace n p.
Proof.
  intros Hread Hlen Hsize Hdef Hfile Hex Htotal.
  set (d := default (MkNsDir None None) (ns_dir name p)).
  set (c := WriteHeader (MkHeader 0 name "" size)).
  set (e := ZDir (MkNsDir (Some c) (nd_index d))).
  assert (Hh : ReadHeader c = Ok (MkHeader 1 name "" size)).
  { rewrite <- (string_app_nil_r c).
    by apply (ReadHeader_written (MkHeader 0 name "" size)); [|apply Nat.ltb_lt|]. }
  assert (Hread' : readable (<[name := e]> p)).
  { intros n d' c' [[_ [= <-]]|[_ Hn]]%lookup_insert_Some Hd Hc; [|by eapply Hread].
    injection Hc as <-. by eexists. }
  exists (<[name := e]> p). split_and!; [|done|..].
  - unfold ZDBPool_Create. destruct (p !! name) as [[]|]; [done|done|done].
  - unfold ZDBPool_Namespace. rewrite lookup_insert_eq. subst e. cbn. by rewrite Hh.
  - unfold ZDBPool_Exists, ns_dir. by rewrite lookup_insert_eq.
  - rewrite (Reserved_spec _ Hread) in Htotal. injection Htotal as <-.
    rewrite (Reserved_spec _ Hread'). f_equal. unfold u64_add. rewrite u64_add_u64_l. f_equal.
    rewrite <- insert_delete_eq.
    rewrite (zsum_perm _ _ _ (map_to_list_insert _ _ _ (lookup_delete_eq p name))). cbn.
    rewrite decide_False, Hh by done. cbn.
    assert (Hold : zsum entry_size (map_to_list p) = zsum entry_size (map_to_list (delete name p))).
    { destruct (p !! name) as [e0|] eqn:He; [|by rewrite delete_id].
      rewrite <- (zsum_perm _ _ _ (map_to_list_delete p name e0 He)). cbn.
      destruct e0 as [|d0]; [done|]. unfold ZDBPool_Exists, ns_dir in Hex. rewrite He in Hex.
      apply bool_decide_eq_false in Hex. rewrite decide_False by done.
      destruct (nd_namespace d0); [by destruct Hex|done]. }
    change (foldr (fun x a => entry_size x + a) 0 ?l) with (zsum entry_size l). lia.
  - intros n Hn. unfold ZDBPool_Namespace. by rewrite lookup_insert_ne.
Qed.

Lemma Create_Reserved_witness :
  exists p', ZDBPool_Create "12-1" "" 1073741824 {["lost" := ZFile]} = (p', Ok tt) /\
    ZDBPool_Reserved p' = Ok 1073741824.
Proof.
  destruct (Create_Reserved "12-1" 1073741824 {["lost" := ZFile]} 0) as (p' & Hc & _ & _ & _ & Hr & _).
  - intros name d c Hd. by apply lookup_singleton_Some in Hd as [_ Hd].
  - apply Nat.ltb_lt. by vm_compute.
  - done.
  - done.
  - done.
  - done.
  - by vm_compute.
  - exists p'. by split.
Defined.
