(* ===== verification/PortM.v ===== *)
(** The port allocator: src/pkg/network/portm (allocator.go, interface.go) and its
    backend src/pkg/network/portm/backend (store.go, fs.go), with the set of ports
    of src/pkg/set/int.go.

    The allocator works on any [Store]; [StoreLaws] is what it relies on. Each
    call holds the lock of the store, so calls run one at a time. *)

From stdpp Require Import gmap strings list.
From Stdlib Require Import Ascii ZArith Lia.
From S2P Require Import Prelude Reservation Cache.

Open Scope Z_scope.

(** ** The set of ports *)
Module UIntSet.

Definition Add (i : Z) : M (gset Z) unit := fun s =>
  if decide (i ∈ s) then (s, Err (ErrConflict i)) else ({[i]} ∪ s, Ok tt).

Definition Remove (i : Z) : M (gset Z) unit := modify (fun s => s ∖ {[i]}).

Definition List_ : M (gset Z) (list Z) := gets elements.

(** A port is added once: the second time is a conflict, until it is removed. *)
Lemma Add_Add i s s' : Add i s = (s', Ok tt) ->
  Add i s' = (s', Err (ErrConflict i)) /\ fst (Remove i s') = s ∖ {[i]} /\
  fst (Add i (fst (Remove i s'))) = s'.
Proof.
  unfold Add at 1. case_decide; [done|]. intros [= <-]. unfold Add, Remove, modify. cbn.
  rewrite decide_True by set_solver. split_and!; [done|set_solver|].
  rewrite decide_False by set_solver. cbn. apply set_eq. intros x.
  destruct (decide (x = i)); set_solver.
Qed.

End UIntSet.

(** ** Stores *)

Class StoreOps (S : Type) := {
  store_Reserve : string -> Z -> M S bool;
  store_Release : string -> Z -> M S unit;
  store_LastReserved : string -> M S Z;
  store_GetByNS : string -> M S (list Z)
}.

(** [ports] is the set of reserved ports of a namespace, [last] the port
    reserved last, or -1. *)
Class StoreLaws (S : Type) `{StoreOps S} := {
  ports : S -> string -> gset Z;
  last : S -> string -> Z;
  GetByNS_spec s ns : exists l, store_GetByNS ns s = (s, Ok l) /\ forall p, p ∈ l <-> p ∈ ports s ns;
  LastReserved_spec s ns : store_LastReserved ns s = (s, Ok (last s ns));
  Reserve_free s ns p : p ∉ ports s ns ->
    exists s', store_Reserve ns p s = (s', Ok true) /\ last s' ns = p /\
      forall ns', ports s' ns' = if decide (ns' = ns) then {[p]} ∪ ports s ns else ports s ns'
}.

(** ** The allocator *)

Record PortRange := MkRange { Start : Z; End_ : Z }.

Section allocator.
  Context {S : Type} `{StoreOps S} (pRange : PortRange).

Definition contains (s : list Z) (port : Z) : bool := bool_decide (port ∈ s).

(** The loop over the ports from [start] to the end of the range. *)
Fixpoint reserve_loop (ns : string) (allocated : list Z) (candidates : list Z) : M S Z :=
  match candidates with
  | [] => throw ErrNoFreePort
  | port :: candidates =>
      if contains allocated port then reserve_loop ns allocated candidates
      else
        reserved ← store_Reserve ns port;
        if reserved : bool then mret port else reserve_loop ns allocated candidates
  end.

Definition start_from (lastReserved : Z) : Z :=
  if (lastReserved =? -1) || (End_ pRange <=? lastReserved) then Start pRange else lastReserved.

Definition Allocator_Reserve (ns : string) : M S Z :=
  allocated ← store_GetByNS ns;
  l ← store_LastReserved ns;
  let start := start_from l in
  reserve_loop ns allocated (seqZ start (End_ pRange - start + 1)).

Definition Allocator_Release (ns : string) (port : Z) : M S unit := store_Release ns port.

End allocator.

(** ** The file system store

    One directory per namespace, one empty file per port, and the file
    last_reserved. *)

Record fsStore := MkFsStore { fss_dirs : gmap string (gmap string string) }.

Definition lastPort : string := "last_reserved".

(** [strconv.Itoa] of a port. *)
Definition itoa (p : Z) : string := if p <? 0 then String "-" (Itoa (- p)) else Itoa p.

Definition fs_Reserve (ns : string) (port : Z) : M fsStore bool := fun s =>
  let dir := default ∅ (fss_dirs s !! ns) in
  match dir !! itoa port with
  | Some _ => (MkFsStore (<[ns := dir]> (fss_dirs s)), Ok false)
  | None => (MkFsStore (<[ns := <[lastPort := itoa port]> (<[itoa port := ""]> dir)]> (fss_dirs s)),
             Ok true)
  end.

Definition fs_Release (ns : string) (port : Z) : M fsStore unit := fun s =>
  match fss_dirs s !! ns with
  | Some dir =>
      match dir !! itoa port with
      | Some _ => (MkFsStore (<[ns := delete (itoa port) dir]> (fss_dirs s)), Ok tt)
      | None => (s, Err ErrNotExist)
      end
  | None => (s, Err ErrNotExist)
  end.

Definition fs_LastReserved (ns : string) : M fsStore Z := fun s =>
  match fss_dirs s !! ns ≫= (fun dir => dir !! lastPort) with
  | None => (s, Ok (-1))
  | Some data => (s, ParseInt data)
  end.

Fixpoint parse_names (names : list string) : res (list Z) :=
  match names with
  | [] => Ok []
  | n :: names =>
      match ParseInt n with
      | Ok p => res_map (cons p) (parse_names names)
      | Err e => Err e
      | Panic m => Panic m
      end
  end.

(** Every entry of the directory is taken for a port. *)
Definition fs_GetByNS (ns : string) : M fsStore (list Z) := fun s =>
  match fss_dirs s !! ns with
  | None => (s, Err ErrNotExist)
  | Some dir => (s, parse_names (insertion_sort by_name (map_to_list dir)).*1)
  end.

#[export] Instance fs_StoreOps : StoreOps fsStore := {|
  store_Reserve := fs_Reserve; store_Release := fs_Release;
  store_LastReserved := fs_LastReserved; store_GetByNS := fs_GetByNS
|}.

(** ** Lemmas *)

Lemma reserve_loop_spec {S} `{StoreLaws S} ns allocated s candidates :
  (forall p, p ∈ allocated <-> p ∈ ports s ns) ->
  match list_find (fun p => p ∉ ports s ns) candidates with
  | Some (_, p) => exists s', reserve_loop ns allocated candidates s = (s', Ok p) /\
      last s' ns = p /\
      forall ns', ports s' ns' = if decide (ns' = ns) then {[p]} ∪ ports s ns else ports s ns'
  | None => reserve_loop ns allocated candidates s = (s, Err ErrNoFreePort)
  end.
Proof.
  intros Hall. induction candidates as [|p candidates IH]; [done|]. cbn [list_find reserve_loop].
  unfold contains. destruct (decide (p ∉ ports s ns)) as [Hp|Hp].
  - rewrite bool_decide_false by (by rewrite Hall). cbn.
    destruct (Reserve_free s ns p Hp) as (s' & Hr & Hl & Hports).
    exists s'. split; [|done]. by rewrite (bind_Ok _ _ _ _ _ Hr).
  - rewrite bool_decide_true by (rewrite Hall; by destruct (decide (p ∈ ports s ns))).
    destruct (list_find _ candidates) as [[i q]|]; cbn; exact IH.
Qed.

Lemma not_a_number_poisons names n : n ∈ names -> ParseInt n = Err ErrSyntax ->
  exists e, parse_names names = Err e.
Proof.
  intros Hn He. induction names as [|m names IH]; [by apply not_elem_of_nil in Hn|]. cbn.
  assert (Hcase : (exists p, ParseInt m = Ok p) \/ (exists e, ParseInt m = Err e)).
  { unfold ParseInt. repeat case_match; eauto. }
  destruct Hcase as [[p Hp]|[e Hp]]; rewrite Hp; [|by eauto].
  apply elem_of_cons in Hn as [->|Hn]; [congruence|].
  destruct (IH Hn) as [e ->]. by exists e.
Qed.

(** ** Properties *)

(** On a lawful store, reserving a port returns the first
    free port of the range from the port reserved last on, marks it as
    reserved in that namespace and changes nothing else; so no port is handed
    out twice. When there is no free port from there to the end it fails and
    changes nothing. *)
Lemma Reserve_spec {S} `{StoreLaws S} (pRange : PortRange) ns s :
  let start := start_from pRange (last s ns) in
  match list_find (fun p => p ∉ ports s ns) (seqZ start (End_ pRange - start + 1)) with
  | Some (_, p) => start <= p <= End_ pRange /\ p ∉ ports s ns /\
      exists s', Allocator_Reserve pRange ns s = (s', Ok p) /\ last s' ns = p /\
        forall ns', ports s' ns' = if decide (ns' = ns) then {[p]} ∪ ports s ns else ports s ns'
  | None => Allocator_Reserve pRange ns s = (s, Err ErrNoFreePort)
  end.
Proof.
  intros start. unfold Allocator_Reserve.
  destruct (GetByNS_spec s ns) as (l & Hget & Hl).
  rewrite (bind_Ok _ _ _ _ _ Hget), (bind_Ok _ _ _ _ _ (LastReserved_spec s ns)). fold start.
  pose proof (reserve_loop_spec ns l s (seqZ start (End_ pRange - start + 1)) Hl) as Hloop.
  destruct (list_find _ _) as [[i p]|] eqn:Hfind; [|exact Hloop].
  apply list_find_Some in Hfind as (Hp & Hfree & _).
  apply list_elem_of_lookup_2, elem_of_seqZ in Hp. split_and!; [lia|lia|done|exact Hloop].
Qed.

(** On the file system store the allocator never reserves a port.
    Listing a namespace fails when its directory does not exist, and nothing
    but a reservation creates it; once it exists it holds last_reserved, whose
    name is taken for a port, and listing fails again. *)
Theorem fs_never_reserves (pRange : PortRange) ns s :
  (fss_dirs s !! ns = None \/ exists dir, fss_dirs s !! ns = Some dir /\ is_Some (dir !! lastPort)) ->
  (exists e, Allocator_Reserve pRange ns s = (s, Err e)) /\
  (forall p s', store_Reserve ns p s = (s', Ok true) ->
     exists dir, fss_dirs s' !! ns = Some dir /\ is_Some (dir !! lastPort)).
Proof.
  intros Hs. split.
  - assert (Hget : exists e, store_GetByNS ns s = (s, Err e)).
    { cbn. unfold fs_GetByNS. destruct Hs as [->|(dir & -> & c & Hc)]; [by eauto|].
      destruct (not_a_number_poisons (insertion_sort by_name (map_to_list dir)).*1 lastPort) as [e ->];
        [|done|by eauto].
      rewrite insertion_sort_perm. apply list_elem_of_fmap. exists (lastPort, c).
      split; [done|]. by apply elem_of_map_to_list. }
    destruct Hget as [e He]. exists e. unfold Allocator_Reserve. by apply bind_Err.
  - intros p s' Hr. cbn in Hr. unfold fs_Reserve in Hr.
    destruct (default ∅ (fss_dirs s !! ns) !! itoa p); [done|]. injection Hr as <-. cbn.
    rewrite lookup_insert_eq. eexists. split; [done|]. rewrite lookup_insert_eq. eauto.
Qed.

(** ** Witnesses *)

Module PortDemo.

(** A store in memory. *)
#[local] Notation store := (gmap string (gset Z * Z)).

Definition get (s : store) (ns : string) : gset Z * Z := default (∅, -1) (s !! ns).

#[export] Instance store_ops : StoreOps store := {|
  store_Reserve ns p s :=
    let '(ps, l) := get s ns in
    if decide (p ∈ ps) then (s, Ok false) else (<[ns := ({[p]} ∪ ps, p)]> s, Ok true);
  store_Release ns p s :=
    let '(ps, l) := get s ns in (<[ns := (ps ∖ {[p]}, l)]> s, Ok tt);
  store_LastReserved ns s := (s, Ok (snd (get s ns)));
  store_GetByNS ns s := (s, Ok (elements (fst (get s ns))))
|}.

#[export] Program Instance store_laws : StoreLaws store := {|
  ports s ns := fst (get s ns); last s ns := snd (get s ns)
|}.
Next Obligation. intros s ns. eexists. split; [done|]. intros p. apply elem_of_elements. Qed.
Next Obligation. done. Qed.
Next Obligation.
  intros s ns p Hp. cbn in *. destruct (get s ns) as [ps l] eqn:Hg. cbn in Hp.
  rewrite decide_False by done. eexists. split; [done|]. unfold get.
  rewrite lookup_insert_eq. split; [done|]. intros ns'.
  case_decide; subst; [by rewrite lookup_insert_eq|by rewrite lookup_insert_ne].
Qed.

Lemma fs_never_reserves_witness :
  exists e, Allocator_Reserve (MkRange 1000 1010) "ns" (MkFsStore ∅) = (MkFsStore ∅, Err e).
Proof.
  destruct (fs_never_reserves (MkRange 1000 1010) "ns" (MkFsStore ∅)) as [He _]; [by left|exact He].
Defined.

End PortDemo.
