(* ===== verification/Storage.v ===== *)
(** The storage module: src/pkg/storage/storage.go (pools, volumes and quotas),
    src/pkg/storage/zdb.go (volumes of 0-db) and src/pkg/storage/disk.go (virtual
    disks), on the interfaces of src/pkg/storage/filesystem/filesystem.go.

    [PoolOps] is the interface [filesystem.Pool] and [filesystem.Volume]: what
    the module calls, over a world [W] that holds the disks and the mounts; a
    pool is known by its name. [PoolLaws] is what the module relies on: which
    calls change which volumes, and that the reserved size of a pool is the sum
    of the sizes of its volumes. *)

From stdpp Require Import gmap strings list sorting.
From Stdlib Require Import Ascii ZArith Lia FunctionalExtensionality.
From S2P Require Import Prelude Reservation Cache ZdbPool.

Open Scope Z_scope.
Open Scope go_scope.

#[export] Instance DevType_eq_dec : EqDecision DeviceType.
Proof. solve_decision. Defined.

(** ** Interfaces *)

Record Usage := MkUsage { Size : Z; Used : Z }.

(** A volume: its pool, its name, its id and its path. *)
Record Volume := MkVolume { v_Pool : string; v_Name : string; v_ID : Z; v_Path : string }.

Class PoolOps (W : Type) := {
  pool_Type : string -> DeviceType;
  pool_Mounted : string -> W -> option string;
  pool_Mount : string -> M W string;
  pool_MountWithoutScan : string -> M W string;
  pool_UnMount : string -> M W unit;
  pool_Shutdown : string -> M W unit;
  pool_Usage : string -> W -> res Usage;
  pool_Reserved : string -> W -> res Z;
  pool_Volumes : string -> W -> res (list Volume);
  pool_AddVolume : string -> string -> M W Volume;
  pool_RemoveVolume : string -> string -> M W unit;
  vol_Usage : Volume -> W -> res Usage;
  vol_Limit : Volume -> Z -> M W unit;
  (** the 0-db directory at the path of a volume *)
  vol_zdb : string -> W -> ZDBPool;
  vol_set_zdb : string -> ZDBPool -> W -> W
}.

(** The type assertion [v.( *zdbBtrfsVolume)]: a volume has that type when its
    name starts with "zdb". *)
Definition IsZDBVolume (v : Volume) : bool := HasPrefix (v_Name v) "zdb".

(** [pkg.Filesystem]. *)
Record Filesystem := MkFilesystem {
  f_ID : Z; f_FsType : string; f_Name : string; f_Path : string; f_Usage : Usage;
  f_DiskType : DeviceType
}.

Record Allocation := MkAllocation { VolumeID : string; VolumePath : string }.

Record candidate := MkCandidate { c_Pool : string; c_Available : Z }.

Definition CacheTarget : string := "/var/cache".
Definition cacheLabel : string := "zos-cache".
Definition cacheSize : Z := 100 * gib.
Definition vdiskVolumeName : string := "vdisks".
Definition ZDBPoolPrefix : string := "zdb".

Section module.
  Context {W : Type} `{PoolOps W} `{Sorter}.

(** The pools of the module, in the order of [s.pools]. *)
Variable pools : list string.

Definition mounted (p : string) (w : W) : bool := bool_decide (is_Some (pool_Mounted p w)).

Definition is_mounted (p : string) : M W bool := gets (mounted p).

Definition ask {A} (f : W -> res A) : M W A := fun w => (w, f w).

Definition filesystem_of (v : Volume) (u : Usage) (t : DeviceType) : Filesystem :=
  MkFilesystem (v_ID v) "btrfs" (v_Name v) (v_Path v) u t.

(** ** Finding space *)

(** Reverse order of the size of the pool. *)
Definition more_available (a b : candidate) : bool := c_Available b <? c_Available a.

(** The loop of [checkForCandidates]; [want] is its argument [mounted]. *)
Fixpoint check_pools (size : Z) (poolType : DeviceType) (want : bool) (ps : list string)
    (candidates : list candidate) : M W (list candidate) :=
  match ps with
  | [] => mret (sort_slice more_available candidates)
  | p :: ps =>
      poolIsMounted ← is_mounted p;
      if negb (Bool.eqb want poolIsMounted) then check_pools size poolType want ps candidates
      else if negb (bool_decide (pool_Type p = poolType)) then
        check_pools size poolType want ps candidates
      else
        (if negb poolIsMounted && negb want then pool_MountWithoutScan p ;; mret tt else mret tt) ;;
        usage ← try (ask (pool_Usage p));
        match usage with
        | inr _ => check_pools size poolType want ps candidates
        | inl usage =>
            reserved ← try (ask (pool_Reserved p));
            match reserved with
            | inr _ => check_pools size poolType want ps candidates
            | inl reserved =>
                if Size usage <? reserved +u size then
                  (if negb poolIsMounted && negb want
                   then pool_UnMount p ;; pool_Shutdown p else mret tt) ;;
                  check_pools size poolType want ps candidates
                else
                  let candidates := candidates ++ [MkCandidate p (Size usage)] in
                  if negb want then mret candidates
                  else check_pools size poolType want ps candidates
            end
        end
  end.

Definition checkForCandidates (size : Z) (poolType : DeviceType) (want : bool) : M W (list candidate) :=
  check_pools size poolType want pools [].

Definition findCandidates (size : Z) (poolType : DeviceType) : M W (list candidate) :=
  candidates ← wrap "failed to search candidate on mounted pools" (checkForCandidates size poolType true);
  candidates ← (match candidates with
                | [] => wrap "failed to search candidates on unmounted pools"
                          (checkForCandidates size poolType false)
                | _ => mret candidates
                end);
  match candidates with
  | [] => throw (ErrNotEnoughSpace poolType)
  | _ => mret candidates
  end.

(** ** Creating volumes *)

Fixpoint add_to_first (name : string) (candidates : list candidate) : M W Volume :=
  match candidates with
  | [] => throw (ErrMsg "failed to create subvolume, logs might have more information")
  | c :: candidates =>
      added ← try (pool_AddVolume (c_Pool c) name);
      match added with
      | inl volume => mret volume
      | inr _ => add_to_first name candidates
      end
  end.

Definition createSubvol (size : Z) (name : string) (poolType : DeviceType) : M W Volume :=
  match poolType with
  | OtherDevice _ => throw (ErrInvalidDeviceType poolType)
  | _ => candidates ← findCandidates size poolType; add_to_first name candidates
  end.

Definition createSubvolWithQuota (size : Z) (name : string) (poolType : DeviceType) : M W Volume :=
  volume ← createSubvol size name poolType;
  vol_Limit volume size ;;
  mret volume.

Definition CreateFilesystem (name : string) (size : Z) (poolType : DeviceType) : M W Filesystem :=
  if HasPrefix name "zdb" then throw (ErrMsg "invalid volume name. zdb prefix is reserved")
  else
    fs ← createSubvolWithQuota size name poolType;
    usage ← ask (vol_Usage fs);
    mret (filesystem_of fs usage poolType).

(** ** Releasing and listing *)

(** The loop over the volumes of one pool; [n] is their number. *)
Fixpoint release_volumes (p name : string) (n : nat) (vols : list Volume) : M W unit :=
  match vols with
  | [] => mret tt
  | v :: vols =>
      (if decide (v_Name v = name) then
         pool_RemoveVolume p (v_Name v) ;;
         (if (n =? 1)%nat then pool_UnMount p ;; pool_Shutdown p else mret tt)
       else mret tt) ;;
      release_volumes p name n vols
  end.

Definition release_pool (name p : string) : M W unit :=
  m ← is_mounted p;
  if negb m then mret tt
  else
    volumes ← ask (pool_Volumes p);
    release_volumes p name (length volumes) volumes.

(** The warning that the file system was not found is always logged. *)
Definition ReleaseFilesystem (name : string) : M W unit := for_each (release_pool name) pools.

Fixpoint list_volumes (p : string) (vols : list Volume) : M W (list Filesystem) :=
  match vols with
  | [] => mret []
  | v :: vols =>
      if decide (v_Name v = cacheLabel \/ v_Name v = vdiskVolumeName) then list_volumes p vols
      else
        usage ← ask (vol_Usage v);
        rest ← list_volumes p vols;
        mret (filesystem_of v usage (pool_Type p) :: rest)
  end.

Fixpoint list_pools (ps : list string) : M W (list Filesystem) :=
  match ps with
  | [] => mret []
  | p :: ps =>
      m ← is_mounted p;
      if negb m then list_pools ps
      else
        volumes ← ask (pool_Volumes p);
        fss ← list_volumes p volumes;
        rest ← list_pools ps;
        mret (fss ++ rest)
  end.

Definition ListFilesystems : M W (list Filesystem) := list_pools pools.

(** The first volume of that name in the mounted pools. *)
Fixpoint path_in (name : string) (ps : list string) : M W (string * Filesystem) :=
  match ps with
  | [] => throw (ErrWrap ("subvolume '" +:+ name +:+ "' not found") ErrNotExist)
  | p :: ps =>
      m ← is_mounted p;
      if negb m then path_in name ps
      else
        volumes ← ask (pool_Volumes p);
        match list_find (fun v => v_Name v = name) volumes with
        | Some (_, v) =>
            usage ← ask (vol_Usage v);
            mret (p, filesystem_of v usage (pool_Type p))
        | None => path_in name ps
        end
  end.

Definition Path (name : string) : M W Filesystem :=
  '(_, fs) ← path_in name pools; mret fs.

Definition GetCacheFS : M W Filesystem := Path cacheLabel.

(** ** Virtual disks *)

Fixpoint vdisk_volume (candidates : list candidate) : M W (option Volume) :=
  match candidates with
  | [] => mret None
  | c :: candidates =>
      volumes ← try (ask (pool_Volumes (c_Pool c)));
      match volumes with
      | inr _ => vdisk_volume candidates
      | inl volumes =>
          match list_find (fun v => v_Name v = vdiskVolumeName) volumes with
          | Some (_, v) => mret (Some v)
          | None => vdisk_volume candidates
          end
      end
  end.

Definition VDiskFindCandidate (size : Z) : M W string :=
  candidates ← findCandidates size SSDDevice;
  found ← vdisk_volume candidates;
  match found, candidates with
  | Some v, _ => mret (v_Path v)
  | None, c :: _ =>
      volume ← wrap "failed to create vdisk pool" (pool_AddVolume (c_Pool c) vdiskVolumeName);
      mret (v_Path volume)
  | None, [] => panic "index out of range"
  end.

Fixpoint vdisk_pools (ps : list string) : M W (list string) :=
  match ps with
  | [] => mret []
  | p :: ps =>
      m ← is_mounted p;
      if negb (bool_decide (pool_Type p = SSDDevice)) || negb m then vdisk_pools ps
      else
        volumes ← wrap ("failed to list pool '" +:+ p +:+ "' volumes") (ask (pool_Volumes p));
        rest ← vdisk_pools ps;
        mret ((v_Path <$> filter (fun v => v_Name v = vdiskVolumeName) volumes) ++ rest)
  end.

Definition VDiskPools : M W (list string) := vdisk_pools pools.

(** ** Unused pools *)

Fixpoint shutdown_pools (ps : list string) : M W unit :=
  match ps with
  | [] => mret tt
  | p :: ps =>
      m ← is_mounted p;
      if m : bool then
        volumes ← ask (pool_Volumes p);
        match volumes with
        | _ :: _ => shutdown_pools ps
        | [] => pool_UnMount p ;; ignore (pool_Shutdown p) ;; shutdown_pools ps
        end
      else ignore (pool_Shutdown p) ;; shutdown_pools ps
  end.

Definition shutdownUnusedPools : M W unit := shutdown_pools pools.

(** ** 0-db *)

(** The 0-db volume among these that holds the namespace. *)
Definition holds_ns (nsID : string) (w : W) (v : Volume) : bool :=
  IsZDBVolume v && ZDBPool_Exists nsID (vol_zdb (v_Path v) w).

Fixpoint find_ns (nsID : string) (diskType : option DeviceType) (ps : list string) :
    M W (option Allocation) :=
  match ps with
  | [] => mret None
  | p :: ps =>
      m ← is_mounted p;
      if negb m then find_ns nsID diskType ps
      else if negb (match diskType with Some t => bool_decide (pool_Type p = t) | None => true end)
      then find_ns nsID diskType ps
      else
        volumes ← wrap ("failed to list volume on pool " +:+ p) (ask (pool_Volumes p));
        w ← gets id;
        match list_find (fun v => holds_ns nsID w v = true) volumes with
        | Some (_, v) => mret (Some (MkAllocation (v_Name v) (v_Path v)))
        | None => find_ns nsID diskType ps
        end
  end.

Definition Find (nsID : string) : M W Allocation :=
  found ← find_ns nsID None pools;
  match found with
  | Some a => mret a
  | None => throw (ErrMsg "not found")
  end.

Record zdbcandidate := MkZdbCandidate { zc_Volume : Volume; zc_Free : Z }.

(** The volumes of one pool: the room is judged by the size of the volume and
    the size of the pool. *)
Fixpoint zdb_volumes (size : Z) (usage : Usage) (targetMode : IndexMode) (vols : list Volume) :
    M W (list zdbcandidate) :=
  match vols with
  | [] => mret []
  | v :: vols =>
      if negb (IsZDBVolume v) then zdb_volumes size usage targetMode vols
      else
        volumeUsage ← ask (vol_Usage v);
        if Size usage <? Size volumeUsage +u size then zdb_volumes size usage targetMode vols
        else
          indexMode ← gets (fun w => ZDBPool_IndexMode "default" (vol_zdb (v_Path v) w));
          match indexMode with
          | Ok m =>
              if decide (m = targetMode) then
                rest ← zdb_volumes size usage targetMode vols;
                mret (MkZdbCandidate v (Size usage -u (Size volumeUsage +u size)) :: rest)
              else zdb_volumes size usage targetMode vols
          | _ => zdb_volumes size usage targetMode vols
          end
  end.

Fixpoint zdb_pools (size : Z) (poolType : DeviceType) (targetMode : IndexMode) (ps : list string) :
    M W (list zdbcandidate) :=
  match ps with
  | [] => mret []
  | p :: ps =>
      m ← is_mounted p;
      if negb m || negb (bool_decide (pool_Type p = poolType)) then zdb_pools size poolType targetMode ps
      else
        usage ← ask (pool_Usage p);
        volumes ← ask (pool_Volumes p);
        here ← zdb_volumes size usage targetMode volumes;
        rest ← zdb_pools size poolType targetMode ps;
        mret (here ++ rest)
  end.

Definition checkForZDBCandidateVolumes (size : Z) (poolType : DeviceType) (targetMode : IndexMode) :
    M W (list zdbcandidate) := zdb_pools size poolType targetMode pools.

Definition more_free (a b : zdbcandidate) : bool := zc_Free b <? zc_Free a.

(** [zdb.Create] on the directory of a volume. *)
Definition zdb_create (v : Volume) (nsID : string) (size : Z) : M W unit := fun w =>
  match ZDBPool_Create nsID "" size (vol_zdb (v_Path v) w) with
  | (p', Ok _) => (vol_set_zdb (v_Path v) p' w, Ok tt)
  | (_, Err e) => (w, Err (ErrWrap "failed to create namespace directory" e))
  | (_, Panic m) => (w, Panic m)
  end.

(** [uuid] is the random id of a new volume; the mode "seq" is that of
    [pkg.ZDBModeSeq]. *)
Definition Allocate (uuid nsID : string) (diskType : DeviceType) (size : Z) (mode : string) :
    M W Allocation :=
  match diskType with
  | OtherDevice _ => throw (ErrInvalidDeviceType diskType)
  | _ =>
      found ← find_ns nsID (Some diskType) pools;
      match found with
      | Some a => mret a
      | None =>
          let targetMode := if decide (mode = "seq") then IndexModeSequential else IndexModeKeyValue in
          candidates ← checkForZDBCandidateVolumes size diskType targetMode;
          volume ← match sort_slice more_free candidates with
                   | c :: _ => mret (zc_Volume c)
                   | [] => wrap "failed to create sub-volume"
                             (createSubvol size (ZDBPoolPrefix +:+ uuid) diskType)
                   end;
          zdb_create volume nsID size ;;
          mret (MkAllocation (v_Name volume) (v_Path volume))
      end
  end.

End module.

(** ** What the module relies on *)

(** [vols w p]: the volumes of a pool with the size each has reserved;
    [psize p]: the size of a pool; [wf_volume v]: [v] is a volume some pool
    returned. *)
Class PoolView (W : Type) := {
  vols : W -> string -> gmap string Z;
  psize : string -> Z;
  wf_volume : Volume -> Prop
}.

Class PoolLaws (W : Type) `{PoolOps W} `{PoolView W} : Prop := {
  law_Usage p w u : pool_Usage p w = Ok u -> Size u = psize p;
  law_Reserved p w r : pool_Reserved p w = Ok r -> r = u64 (zsum snd (map_to_list (vols w p)));
  law_mount p w : vols (fst (pool_MountWithoutScan p w)) = vols w;
  law_unmount p w : vols (fst (pool_UnMount p w)) = vols w;
  law_shutdown p w : vols (fst (pool_Shutdown p w)) = vols w;
  (** a new volume is empty; a failed call may leave one behind *)
  law_AddVolume p n w :
    let '(w', x) := pool_AddVolume p n w in
    (forall q, q <> p -> vols w' q = vols w q) /\
    match x with
    | Ok v => vols w p !! n = None /\ vols w' p = <[n := 0]> (vols w p) /\ v_Pool v = p /\ v_Name v = n /\
        wf_volume v
    | _ => vols w' p = vols w p \/ (vols w p !! n = None /\ vols w' p = <[n := 0]> (vols w p))
    end;
  (** the quota of a volume that is not of 0-db is what it has reserved *)
  law_Limit v size w :
    0 < size -> wf_volume v -> HasPrefix (v_Name v) "zdb" = false -> is_Some (vols w (v_Pool v) !! v_Name v) ->
    let '(w', x) := vol_Limit v size w in
    (forall q, q <> v_Pool v -> vols w' q = vols w q) /\
    match x with
    | Ok _ => vols w' (v_Pool v) = <[v_Name v := size]> (vols w (v_Pool v))
    | _ => vols w' (v_Pool v) = vols w (v_Pool v)
    end;
  law_RemoveVolume p n w :
    let '(w', x) := pool_RemoveVolume p n w in
    (forall q, q <> p -> vols w' q = vols w q) /\
    match x with
    | Ok _ => vols w' p = delete n (vols w p)
    | _ => vols w' p = vols w p \/ vols w' p = delete n (vols w p)
    end;
  (** only the pool itself is mounted or unmounted *)
  law_mounted_Remove p n w q : pool_Mounted q (fst (pool_RemoveVolume p n w)) = pool_Mounted q w;
  law_mounted_UnMount p w q : q <> p -> pool_Mounted q (fst (pool_UnMount p w)) = pool_Mounted q w;
  law_mounted_Shutdown p w q : pool_Mounted q (fst (pool_Shutdown p w)) = pool_Mounted q w;
  law_Volumes p w l : pool_Volumes p w = Ok l -> forall n, n ∈ v_Name <$> l <-> is_Some (vols w p !! n)
}.

(** ** Looking for space mounts and unmounts pools, and does nothing else *)
Section frame.
  Context {W : Type} `{PoolOps W} `{Sorter} (I : W -> Prop).
  Context (keeps_mount : forall p, keeps I (pool_MountWithoutScan p)).
  Context (keeps_unmount : forall p, keeps I (pool_UnMount p)).
  Context (keeps_shutdown : forall p, keeps I (pool_Shutdown p)).

Lemma keeps_ask {A} (f : W -> res A) : keeps I (ask f).
Proof. by intros w. Qed.

#[local] Hint Resolve keeps_ask : zos_monad.

Lemma keeps_mount_if b p : keeps I (if b : bool then pool_MountWithoutScan p ;; mret tt else mret tt).
Proof. destruct b; auto with zos_monad. Qed.

Lemma keeps_unmount_if b p : keeps I (if b : bool then pool_UnMount p ;; pool_Shutdown p else mret tt).
Proof. destruct b; auto with zos_monad. Qed.

Lemma keeps_check_pools size t want ps : forall cs, keeps I (check_pools size t want ps cs).
Proof.
  induction ps as [|p ps IH]; intros cs; cbn [check_pools]; [apply keeps_ret|].
  apply keeps_bind; [apply keeps_gets|intros m].
  destruct (negb _); [apply IH|]. destruct (negb _); [apply IH|].
  apply keeps_bind; [apply keeps_mount_if|intros _].
  apply keeps_bind; [apply keeps_try, keeps_ask|intros [u|]; [|apply IH]].
  apply keeps_bind; [apply keeps_try, keeps_ask|intros [rv|]; [|apply IH]].
  destruct (_ <? _).
  - apply keeps_bind; [apply keeps_unmount_if|intros _; apply IH].
  - destruct (negb want); [apply keeps_ret|apply IH].
Qed.

Lemma keeps_findCandidates pools size t : keeps I (findCandidates pools size t).
Proof.
  unfold findCandidates. apply keeps_bind; [apply keeps_wrap, keeps_check_pools|intros cs].
  apply keeps_bind; [destruct cs; [apply keeps_wrap, keeps_check_pools|apply keeps_ret]|].
  intros cs'. destruct cs'; auto with zos_monad.
Qed.

Lemma keeps_vdisk_volume cs : keeps I (vdisk_volume cs).
Proof.
  induction cs as [|c cs IH]; cbn [vdisk_volume]; [apply keeps_ret|].
  apply keeps_bind; [apply keeps_try, keeps_ask|intros [vs|]; [|exact IH]].
  destruct (list_find _ vs) as [[]|]; [apply keeps_ret|exact IH].
Qed.

Lemma keeps_VDiskPools pools : keeps I (VDiskPools pools).
Proof.
  unfold VDiskPools. induction pools as [|p ps IH]; cbn [vdisk_pools]; [apply keeps_ret|].
  apply keeps_bind; [apply keeps_gets|intros m]. destruct (_ || _); [exact IH|].
  apply keeps_bind; [apply keeps_wrap, keeps_ask|intros vs].
  apply keeps_bind; [exact IH|intros rest; apply keeps_ret].
Qed.

Lemma keeps_VDiskFindCandidate pools size : (forall p n, keeps I (pool_AddVolume p n)) ->
  keeps I (VDiskFindCandidate pools size).
Proof.
  intros Hadd. unfold VDiskFindCandidate.
  apply keeps_bind; [apply keeps_findCandidates|intros cs].
  apply keeps_bind; [apply keeps_vdisk_volume|intros [v|]]; [apply keeps_ret|].
  destruct cs; auto 6 with zos_monad.
Qed.

End frame.

Section storage_lemmas.
  Context {W : Type} `{PoolLaws W} `{Sorter}.

(** What a pool has promised to its volumes. *)
Definition promised (w : W) (p : string) : Z := zsum snd (map_to_list (vols w p)).

(** No pool has promised more than it has. *)
Definition no_overcommit (w : W) : Prop :=
  forall p, (forall n s, vols w p !! n = Some s -> 0 <= s) /\ promised w p <= psize p.

Lemma promised_nonneg w p : no_overcommit w -> 0 <= promised w p.
Proof.
  intros Hw. apply zsum_nonneg. intros [n s] Hin. apply elem_of_map_to_list in Hin.
  by apply (proj1 (Hw p)) in Hin.
Qed.

Lemma promised_insert w w' p n s : vols w p !! n = None -> vols w' p = <[n := s]> (vols w p) ->
  promised w' p = promised w p + s.
Proof.
  intros Hn Heq. unfold promised. rewrite Heq, (zsum_perm _ _ _ (map_to_list_insert _ _ _ Hn)). cbn.
  unfold zsum. lia.
Qed.

(** None of it touches a volume. *)
Lemma keeps_vols_mount v p : keeps (fun w => vols w = v) (pool_MountWithoutScan p).
Proof. intros w Hw. by rewrite law_mount. Qed.

Lemma keeps_vols_unmount v p : keeps (fun w => vols w = v) (pool_UnMount p).
Proof. intros w Hw. by rewrite law_unmount. Qed.

Lemma keeps_vols_shutdown v p : keeps (fun w => vols w = v) (pool_Shutdown p).
Proof. intros w Hw. by rewrite law_shutdown. Qed.

#[local] Hint Resolve keeps_vols_mount keeps_vols_unmount keeps_vols_shutdown : core.

(** The state after the first part of a successful run. *)
Lemma bind_inv_keeps {A B} v (m : M W A) (k : A -> M W B) w w' b :
  keeps (fun w => vols w = v) m -> vols w = v -> (m ≫= k) w = (w', Ok b) ->
  exists w1 a, m w = (w1, Ok a) /\ k a w1 = (w', Ok b) /\ vols w1 = v.
Proof.
  intros Hm Hw Hrun. apply bind_inv in Hrun as (w1 & a & Hm1 & Hk).
  exists w1, a. split_and!; [done..|]. specialize (Hm w Hw). by rewrite Hm1 in Hm.
Qed.

Lemma try_ask_inv {A} (f : W -> res A) w w1 a :
  try (ask f) w = (w1, Ok a) -> w1 = w /\ match a with inl x => f w = Ok x | inr e => f w = Err e end.
Proof. unfold try, ask. destruct (f w); by intros [= <- <-]. Qed.

(** A pool with room, by the numbers the interface reports. *)
Lemma fits w1 w p size u rv : vols w1 = vols w -> no_overcommit w ->
  psize p + size < W64 -> 0 <= size ->
  pool_Usage p w1 = Ok u -> pool_Reserved p w1 = Ok rv -> (rv +u size) <= Size u ->
  promised w p + size <= psize p.
Proof.
  intros Hw1 Hw Hmax Hsize Hu Hr Hfit.
  rewrite (law_Usage _ _ _ Hu), (law_Reserved _ _ _ Hr), Hw1 in Hfit.
  unfold u64_add in Hfit. rewrite u64_add_u64_l in Hfit. fold (promised w p) in Hfit.
  pose proof (promised_nonneg w p Hw). pose proof (proj2 (Hw p)).
  rewrite u64_id in Hfit by (unfold is_u64; lia). lia.
Qed.

(** A candidate has the right type and room for the new volume. *)
Definition suitable (w : W) (size : Z) (t : DeviceType) (c : candidate) : Prop :=
  pool_Type (c_Pool c) = t /\ promised w (c_Pool c) + size <= psize (c_Pool c).

Lemma check_pools_spec w0 size t want ps : no_overcommit w0 -> 0 <= size ->
  (forall p, psize p + size < W64) -> forall cs w w' result, vols w = vols w0 ->
  check_pools size t want ps cs w = (w', Ok result) ->
  Forall (suitable w0 size t) cs -> Forall (suitable w0 size t) result.
Proof.
  intros Hw0 Hsize Hmax. induction ps as [|p ps IH]; intros cs w w' result Hw Hrun Hcs.
  { cbn in Hrun. injection Hrun as _ <-. by rewrite sort_slice_perm. }
  cbn [check_pools] in Hrun.
  apply (bind_inv_keeps (vols w0)) in Hrun as (w1 & m & _ & Hrun & Hw1); [|apply keeps_gets|done].
  destruct (negb (Bool.eqb want m)); [by eapply IH|].
  destruct (bool_decide_reflect (pool_Type p = t)) as [Ht|]; cbn [negb] in Hrun; [|by eapply IH].
  apply (bind_inv_keeps (vols w0)) in Hrun as (w2 & [] & _ & Hrun & Hw2); [|apply keeps_mount_if; auto|done].
  apply bind_inv in Hrun as (w3 & u & Hu & Hrun). apply try_ask_inv in Hu as [-> Hu].
  destruct u as [u|]; [|by apply (IH cs w2 w')].
  apply bind_inv in Hrun as (w3 & rv & Hr & Hrun). apply try_ask_inv in Hr as [-> Hr].
  destruct rv as [rv|]; [|by apply (IH cs w2 w')].
  destruct (Z.ltb_spec (Size u) (rv +u size)) as [Hbig|Hfit].
  - apply (bind_inv_keeps (vols w0)) in Hrun as (w3 & [] & _ & Hrun & Hw3);
      [by apply (IH cs w3 w')|apply keeps_unmount_if; auto|done].
  - assert (Hnew : Forall (suitable w0 size t) (cs ++ [MkCandidate p (Size u)])).
    { apply Forall_app. split; [done|]. apply Forall_singleton. split; [done|].
      by apply (fits w2 w0 p size u rv). }
    destruct want; cbn [negb] in Hrun; [by apply (IH (cs ++ [MkCandidate p (Size u)]) w2 w')|]. by injection Hrun as _ <-.
Qed.

Lemma findCandidates_spec pools size t w w' result :
  no_overcommit w -> 0 <= size -> (forall p, psize p + size < W64) ->
  findCandidates pools size t w = (w', Ok result) -> Forall (suitable w size t) result.
Proof.
  intros Hw Hsize Hmax Hrun.
  assert (Hck : forall msg want w1 w2 cs, vols w1 = vols w ->
    (wrap msg (checkForCandidates pools size t want)) w1 = (w2, Ok cs) -> Forall (suitable w size t) cs).
  { intros msg want w1 w2 cs Hw1 Hr. unfold wrap, checkForCandidates in Hr.
    destruct (check_pools size t want pools [] w1) as [w3 [cs'|e|m]] eqn:Hc; simplify_eq.
    by apply (check_pools_spec w size t want pools Hw Hsize Hmax [] w1 w2 cs). }
  apply (bind_inv_keeps (vols w)) in Hrun as (w1 & cs & Hcs & Hrun & Hw1);
    [|apply keeps_wrap, keeps_check_pools; auto|done].
  assert (Hfst := Hck _ _ _ _ _ eq_refl Hcs).
  apply bind_inv in Hrun as (w2 & cs2 & Hcs2 & Hrun).
  assert (Hall : Forall (suitable w size t) cs2).
  { destruct cs; [by apply (Hck _ _ w1 w2 cs2 Hw1 Hcs2)|by injection Hcs2 as _ <-]. }
  destruct cs2; [done|]. by injection Hrun as _ <-.
Qed.

(** ** Adding a volume *)

(** The same promises as in [w0]. *)
Definition as_promised (w0 w : W) : Prop := no_overcommit w /\ forall p, promised w p = promised w0 p.

Lemma as_promised_refl w : no_overcommit w -> as_promised w w.
Proof. by split. Qed.

Lemma as_promised_vols w0 w w' : vols w' = vols w -> as_promised w0 w -> as_promised w0 w'.
Proof. unfold as_promised, no_overcommit, promised. by intros ->. Qed.

(** An empty volume promises nothing. *)
Lemma as_promised_empty w0 w w' p n :
  (forall q, q <> p -> vols w' q = vols w q) ->
  vols w' p = vols w p \/ (vols w p !! n = None /\ vols w' p = <[n := 0]> (vols w p)) ->
  as_promised w0 w -> as_promised w0 w'.
Proof.
  intros Hother Hp [Hno Hprom].
  assert (Hsame : forall q, promised w' q = promised w q).
  { intros q. destruct (decide (q = p)) as [->|Hq]; [|unfold promised; by rewrite Hother].
    destruct Hp as [Hp|[Hn Hp]]; [unfold promised; by rewrite Hp|].
    rewrite (promised_insert w w' p n 0 Hn Hp). lia. }
  split; [|intros q; by rewrite Hsame].
  intros q. rewrite Hsame. split; [|apply Hno]. intros m x Hx.
  destruct (decide (q = p)) as [->|Hq]; [|rewrite Hother in Hx by done; by eapply Hno].
  destruct Hp as [Hp|[_ Hp]]; rewrite Hp in Hx; [by eapply Hno|].
  apply lookup_insert_Some in Hx as [[_ <-]|[_ Hx]]; [done|by eapply Hno].
Qed.

Lemma as_promised_AddVolume w0 p n : keeps (as_promised w0) (pool_AddVolume p n).
Proof.
  intros w Hw. pose proof (law_AddVolume p n w) as Hl.
  destruct (pool_AddVolume p n w) as [w' x]. destruct Hl as [Hother Hx].
  apply (as_promised_empty w0 w w' p n Hother); [|done].
  destruct x as [v|e|m]; [right; tauto|done..].
Qed.

Lemma add_to_first_keeps w0 name cs : keeps (as_promised w0) (add_to_first name cs).
Proof.
  induction cs as [|c cs IH]; cbn; [apply keeps_throw|].
  apply keeps_bind; [apply keeps_try, as_promised_AddVolume|intros []; [apply keeps_ret|apply IH]].
Qed.

Lemma add_to_first_spec w0 size t name cs : forall w w' v,
  as_promised w0 w -> Forall (suitable w0 size t) cs ->
  add_to_first name cs w = (w', Ok v) ->
  v_Name v = name /\ suitable w0 size t (MkCandidate (v_Pool v) 0) /\
  vols w' (v_Pool v) !! name = Some 0 /\ wf_volume v.
Proof.
  induction cs as [|c cs IH]; intros w w' v Hw Hcs Hrun; [done|]. cbn in Hrun.
  inversion Hcs as [|? ? Hc Hcs' [Heq1 Heq2]]; subst.
  pose proof (law_AddVolume (c_Pool c) name w) as Hl.
  pose proof (as_promised_AddVolume w0 (c_Pool c) name w Hw) as Hw1.
  unfold mbind, M_bind, try in Hrun.
  destruct (pool_AddVolume (c_Pool c) name w) as [w1 [v1|e|m]]; [| |done].
  - injection Hrun as <- <-. destruct Hl as (_ & Hn & Hv & Hp & Hname & Hwf).
    subst. rewrite Hp. split_and!; [done|exact Hc| |done]. by rewrite Hv, lookup_insert_eq.
  - by apply (IH w1 w' v).
Qed.

(** Writing a quota over the empty volume. *)
Lemma limit_promised w0 w w' p n size :
  as_promised w0 w -> vols w p !! n = Some 0 -> 0 <= size -> promised w0 p + size <= psize p ->
  (forall q, q <> p -> vols w' q = vols w q) -> vols w' p = <[n := size]> (vols w p) ->
  no_overcommit w' /\
  forall q, promised w' q = promised w0 q + (if decide (q = p) then size else 0).
Proof.
  intros [Hno Hprom] Hn Hsize Hfit Hother Hp.
  assert (Hpp : promised w' p = promised w p + size).
  { unfold promised. rewrite Hp, <- insert_delete_eq.
    rewrite (zsum_perm _ _ _ (map_to_list_insert _ _ _ (lookup_delete_eq (vols w p) n))).
    rewrite <- (zsum_perm _ _ _ (map_to_list_delete (vols w p) n 0 Hn)).
    unfold zsum. cbn. lia. }
  assert (Hall : forall q, promised w' q = promised w0 q + (if decide (q = p) then size else 0)).
  { intros q. case_decide; subst; [by rewrite Hpp, Hprom|].
    unfold promised at 1. rewrite Hother by done. fold (promised w q). rewrite Hprom. lia. }
  split; [|done]. intros q. rewrite Hall. split.
  - intros m x Hx. destruct (decide (q = p)) as [->|Hq].
    + rewrite Hp in Hx. apply lookup_insert_Some in Hx as [[_ <-]|[_ Hx]]; [done|by eapply Hno].
    + rewrite Hother in Hx by done. by eapply Hno.
  - case_decide; subst; [done|]. rewrite Z.add_0_r, <- Hprom. apply Hno.
Qed.

(** ** Removing a volume *)

(** [w'] is [w] without the volume [n] of the pool [p]; other pools are as
    mounted as before. *)
Definition removed (p n : string) (w w' : W) : Prop :=
  (forall q, q <> p -> vols w' q = vols w q /\ pool_Mounted q w' = pool_Mounted q w) /\
  vols w' p = delete n (vols w p).

Lemma removed_unmount p w w' : pool_UnMount p w = (w', Ok tt) ->
  vols w' = vols w /\ forall q, q <> p -> pool_Mounted q w' = pool_Mounted q w.
Proof.
  intros Hrun. pose proof (law_unmount p w) as Hv. pose proof (law_mounted_UnMount p w) as Hm.
  rewrite Hrun in Hv, Hm. by split.
Qed.

Lemma removed_shutdown p w w' : pool_Shutdown p w = (w', Ok tt) ->
  vols w' = vols w /\ forall q, pool_Mounted q w' = pool_Mounted q w.
Proof.
  intros Hrun. pose proof (law_shutdown p w) as Hv. pose proof (law_mounted_Shutdown p w) as Hm.
  rewrite Hrun in Hv, Hm. by split.
Qed.

Lemma removed_volume p n w w' : pool_RemoveVolume p n w = (w', Ok tt) -> removed p n w w'.
Proof.
  intros Hrun. pose proof (law_RemoveVolume p n w) as Hl. pose proof (law_mounted_Remove p n w) as Hm.
  rewrite Hrun in Hl, Hm. destruct Hl as [Hother Hp]. split; [|done]. intros q Hq. by split; [apply Hother|].
Qed.

(** Removing and then perhaps unmounting the pool. *)
Lemma removed_one p n (b : bool) w w' :
  (pool_RemoveVolume p n ;; (if b then pool_UnMount p ;; pool_Shutdown p else mret tt)) w = (w', Ok tt) ->
  removed p n w w'.
Proof.
  intros (w1 & [] & Hfirst & Hrun)%bind_inv. apply removed_volume in Hfirst as [Hother Hp].
  destruct b; [|by injection Hrun as <-].
  apply bind_inv in Hrun as (w2 & [] & [Hv2 Hm2]%removed_unmount & [Hv3 Hm3]%removed_shutdown).
  split; [|by rewrite Hv3, Hv2]. intros q Hq. destruct (Hother q Hq) as [Hvq Hmq].
  by rewrite Hv3, Hv2, Hm3, Hm2.
Qed.

Lemma release_volumes_spec p name n l : forall w w',
  release_volumes p name n l w = (w', Ok tt) ->
  (forall q, q <> p -> vols w' q = vols w q /\ pool_Mounted q w' = pool_Mounted q w) /\
  vols w' p = (if decide (name ∈ v_Name <$> l) then delete name (vols w p) else vols w p).
Proof.
  induction l as [|v l IH]; intros w w' Hrun; cbn [release_volumes] in Hrun.
  { injection Hrun as <-. split; [done|]. rewrite decide_False; [done|apply not_elem_of_nil]. }
  apply bind_inv in Hrun as (w1 & [] & Hfirst & Hrun). destruct (IH w1 w' Hrun) as [Hother Hp].
  destruct (decide (v_Name v = name)) as [Hn|Hn].
  - apply removed_one in Hfirst as [Hother1 Hp1]. rewrite Hn in Hp1. split.
    + intros q Hq. destruct (Hother q Hq) as [-> ->]. by apply Hother1.
    + rewrite Hp, Hp1, (decide_True (P := name ∈ v_Name <$> v :: l)) by (rewrite <- Hn; by left).
      case_decide; [by rewrite delete_delete_eq|done].
  - injection Hfirst as <-. split; [done|]. rewrite Hp.
    destruct (decide (name ∈ v_Name <$> l)) as [Hin|Hin].
    + rewrite decide_True by (by right). done.
    + rewrite decide_False; [done|]. intros [Heq|Hin']%elem_of_cons; [by destruct Hn|done].
Qed.

Lemma release_pool_spec name p w w' : release_pool name p w = (w', Ok tt) ->
  (forall q, q <> p -> vols w' q = vols w q /\ pool_Mounted q w' = pool_Mounted q w) /\
  vols w' p = (if mounted p w then delete name (vols w p) else vols w p).
Proof.
  unfold release_pool. intros Hrun. rewrite (bind_Ok _ _ w w (mounted p w)) in Hrun by done.
  destruct (mounted p w); cbn [negb] in Hrun; [|by injection Hrun as <-].
  apply bind_inv in Hrun as (w1 & l & Hl & Hrun). unfold ask in Hl. injection Hl as <- Hl.
  destruct (release_volumes_spec p name (length l) l w w' Hrun) as [Hother Hp]. split; [done|].
  rewrite Hp. case_decide as Hn; [done|].
  rewrite (law_Volumes p w l Hl) in Hn. rewrite delete_id; [done|].
  by destruct (vols w p !! name); [destruct Hn|].
Qed.

(** The promises that creating a volume makes. *)
Lemma createSubvolWithQuota_promised pools size name t w :
  no_overcommit w -> 0 < size -> (forall p, psize p + size < W64) -> HasPrefix name "zdb" = false ->
  let '(w', x) := createSubvolWithQuota pools size name t w in
  no_overcommit w' /\
  match x with
  | Ok v => v_Name v = name /\ pool_Type (v_Pool v) = t /\
      vols w' (v_Pool v) !! name = Some size /\
      forall p, promised w' p = promised w p + (if decide (p = v_Pool v) then size else 0)
  | _ => forall p, promised w' p = promised w p
  end.
Proof.
  intros Hw Hsize Hmax Hname.
  assert (Hkeep : keeps (as_promised w) (createSubvol pools size name t)).
  { unfold createSubvol. destruct t; [| |apply keeps_throw].
    all: apply keeps_bind; [|intros; apply add_to_first_keeps].
    all: intros w1 Hw1; eapply as_promised_vols; [|exact Hw1]; by apply keeps_findCandidates; auto. }
  specialize (Hkeep w (as_promised_refl w Hw)).
  unfold createSubvolWithQuota. unfold mbind at 1, M_bind at 1.
  destruct (createSubvol pools size name t w) as [w1 [v|e|m]] eqn:Hcreate; [|exact Hkeep..].
  cbn in Hkeep.
  assert (Hv : v_Name v = name /\ suitable w size t (MkCandidate (v_Pool v) 0) /\
    vols w1 (v_Pool v) !! name = Some 0 /\ wf_volume v).
  { unfold createSubvol in Hcreate. destruct t; [| |done].
    all: apply (bind_inv_keeps (vols w)) in Hcreate as (w2 & cs & Hcs & Hadd & Hw2);
      [|apply keeps_findCandidates; auto|done].
    all: eapply add_to_first_spec; [|by eapply findCandidates_spec; [..|exact Hcs]; [|lia|]|exact Hadd].
    all: by eapply as_promised_vols; [|apply as_promised_refl]. }
  destruct Hv as (Hvn & [Htype Hfit] & Hv0 & Hwf). cbn in Htype, Hfit.
  pose proof (law_Limit v size w1 Hsize Hwf ltac:(by rewrite Hvn) ltac:(rewrite Hvn; eauto)) as Hl.
  unfold mbind, M_bind. destruct (vol_Limit v size w1) as [w2 x]. destruct Hl as [Hother Hx].
  rewrite Hvn in Hx. destruct x as [[]|e|m]; cbn.
  - destruct (limit_promised w w1 w2 (v_Pool v) name size) as [Hno Hp]; try done; [lia|].
    split_and!; try done. by rewrite Hx, lookup_insert_eq.
  - eapply (as_promised_empty w w1 w2 (v_Pool v) name Hother); auto.
  - eapply (as_promised_empty w w1 w2 (v_Pool v) name Hother); auto.
Qed.

(** ** Properties *)

(** C4 (invariant): storage is never overcommitted by volumes with a quota: if
    no pool has promised more than its size, then after creating a volume the
    same holds. When the creation succeeds the volume is in a pool of the
    requested type, with the requested quota, and exactly that much more is
    promised, by that pool alone; when it fails nothing more is promised. *)
Theorem create_no_overcommit pools size name t w :
  no_overcommit w -> 0 < size -> (forall p, psize p + size < W64) -> HasPrefix name "zdb" = false ->
  let '(w', x) := createSubvolWithQuota pools size name t w in
  no_overcommit w' /\
  match x with
  | Ok v => v_Name v = name /\ pool_Type (v_Pool v) = t /\
      vols w' (v_Pool v) !! name = Some size /\
      forall p, promised w' p = promised w p + (if decide (p = v_Pool v) then size else 0)
  | _ => forall p, promised w' p = promised w p
  end.
Proof. exact (createSubvolWithQuota_promised pools size name t w). Qed.

(** Releasing a file system removes the volume of that name
    from every mounted pool and touches nothing else: no other volume of these
    pools, and no volume of a pool that is not mounted. *)
Theorem ReleaseFilesystem_spec pools name w w' :
  NoDup pools -> ReleaseFilesystem pools name w = (w', Ok tt) ->
  forall p, vols w' p =
    if decide (p ∈ pools) then (if mounted p w then delete name (vols w p) else vols w p)
    else vols w p.
Proof.
  unfold ReleaseFilesystem. intros Hnd. revert w. induction Hnd as [|p pools Hp Hnd IH];
    intros w Hrun q; cbn [for_each] in Hrun.
  { by injection Hrun as <-. }
  apply bind_inv in Hrun as (w1 & [] & Hfirst & Hrun).
  destruct (release_pool_spec name p w w1 Hfirst) as [Hother Hself].
  specialize (IH w1 Hrun q). rewrite IH. destruct (decide (q = p)) as [->|Hq].
  - rewrite decide_False, decide_True by (done || by left). exact Hself.
  - destruct (Hother q Hq) as [Hv Hm]. unfold mounted. rewrite Hv, Hm.
    destruct (decide (q ∈ pools)) as [Hin|Hin].
    + by rewrite decide_True by by right.
    + rewrite decide_False; [done|]. by intros [?|?]%elem_of_cons.
Qed.

End storage_lemmas.

(** ** A node in memory

    An instance of the interface that keeps its laws: pools of 100 GiB, of SSDs,
    whose volumes are a map. *)
Module StorageDemo.

Record vol := MkVol { sv_limit : Z; sv_zdb : ZDBPool }.
Record pool := MkPool { sp_mounted : bool; sp_vols : gmap string vol }.

#[local] Notation world := (gmap string pool).

Definition reserved_of (n : string) (v : vol) : Z :=
  if HasPrefix n "zdb" then match ZDBPool_Reserved (sv_zdb v) with Ok r => r | _ => 0 end
  else sv_limit v.

Definition get (p : string) (w : world) : pool := default (MkPool false ∅) (w !! p).

Definition set_mounted (b : bool) (p : string) (w : world) : world :=
  <[p := MkPool b (sp_vols (get p w))]> w.
Definition set_vols (f : gmap string vol -> gmap string vol) (p : string) (w : world) : world :=
  <[p := MkPool (sp_mounted (get p w)) (f (sp_vols (get p w)))]> w.

Definition sizes (w : world) (p : string) : gmap string Z :=
  map_imap (fun n v => Some (reserved_of n v)) (sp_vols (get p w)).

Definition volume (p n : string) : Volume := Storage.MkVolume p n 257 (p +:+ "/" +:+ n).

Definition at_path (path : string) (w : world) : option (string * string * vol) :=
  match split_first "/" path with
  | Some (p, n) => v ← sp_vols (get p w) !! n; Some (p, n, v)
  | None => None
  end.

#[export] Instance ops : PoolOps world := {|
  pool_Type _ := SSDDevice;
  pool_Mounted p w := if sp_mounted (get p w) then Some ("/mnt/" +:+ p) else None;
  pool_Mount p w := (set_mounted true p w, Ok p);
  pool_MountWithoutScan p w := (set_mounted true p w, Ok p);
  pool_UnMount p w := (set_mounted false p w, Ok tt);
  pool_Shutdown p w := (w, Ok tt);
  pool_Usage p w := Ok (MkUsage (100 * gib) 0);
  pool_Reserved p w := Ok (u64 (zsum snd (map_to_list (sizes w p))));
  pool_Volumes p w := Ok (volume p <$> (map_to_list (sp_vols (get p w))).*1);
  pool_AddVolume p n w :=
    match sp_vols (get p w) !! n with
    | Some _ => (w, Err ErrExist)
    | None => (set_vols (insert n (MkVol 0 ∅)) p w, Ok (volume p n))
    end;
  pool_RemoveVolume p n w := (set_vols (delete n) p w, Ok tt);
  vol_Usage v w := Ok (MkUsage (default 0 (sizes w (v_Pool v) !! v_Name v)) 0);
  vol_Limit v size w :=
    (set_vols (alter (fun x => MkVol size (sv_zdb x)) (v_Name v)) (v_Pool v) w, Ok tt);
  vol_zdb path w := match at_path path w with Some (_, _, v) => sv_zdb v | None => ∅ end;
  vol_set_zdb path z w :=
    match at_path path w with
    | Some (p, n, v) => set_vols (insert n (MkVol (sv_limit v) z)) p w
    | None => w
    end
|}.

Lemma get_set f p w q : sp_vols (get q (set_vols f p w)) =
  if decide (q = p) then f (sp_vols (get p w)) else sp_vols (get q w).
Proof.
  unfold get, set_vols. case_decide; subst; [by rewrite lookup_insert_eq|by rewrite lookup_insert_ne].
Qed.

Lemma sizes_set f p w q : sizes (set_vols f p w) q =
  if decide (q = p) then map_imap (fun n v => Some (reserved_of n v)) (f (sp_vols (get p w)))
  else sizes w q.
Proof. unfold sizes. rewrite get_set. by case_decide. Qed.

Lemma get_mounted b p w q : get q (set_mounted b p w) =
  if decide (q = p) then MkPool b (sp_vols (get p w)) else get q w.
Proof.
  unfold get, set_mounted. case_decide; subst; [by rewrite lookup_insert_eq|by rewrite lookup_insert_ne].
Qed.

Lemma sizes_mounted b p w : sizes (set_mounted b p w) = sizes w.
Proof.
  apply functional_extensionality. intros q. unfold sizes. rewrite get_mounted.
  by case_decide; subst.
Qed.

Lemma sizes_lookup w p n : sizes w p !! n = reserved_of n <$> sp_vols (get p w) !! n.
Proof.
  unfold sizes. rewrite map_lookup_imap. by destruct (sp_vols (get p w) !! n).
Qed.

#[export] Instance view : PoolView world := {|
  vols := sizes; psize _ := 100 * gib; wf_volume _ := True
|}.

#[export] Instance laws : PoolLaws world.
Proof.
  split.
  - by intros p w u [= <-].
  - by intros p w r [= <-].
  - intros p w. apply sizes_mounted.
  - intros p w. apply sizes_mounted.
  - done.
  - intros p n w. cbn. destruct (sp_vols (get p w) !! n) as [v|] eqn:Hn; [by split; auto|].
    split; [intros q Hq; by rewrite sizes_set, decide_False|].
    rewrite sizes_set, decide_True, sizes_lookup, Hn by done. split_and!; [done| |done..].
    rewrite map_imap_insert_Some with (y := 0); [done|].
    unfold reserved_of. by destruct (HasPrefix n "zdb").
  - intros v size w Hsize _ Hz [s Hs]. cbn. split; [intros q Hq; by rewrite sizes_set, decide_False|].
    rewrite sizes_set, decide_True by done. apply map_eq. intros n. rewrite map_lookup_imap.
    rewrite sizes_lookup in Hs. destruct (decide (n = v_Name v)) as [->|Hn].
    + rewrite lookup_alter_eq, lookup_insert_eq. destruct (sp_vols _ !! v_Name v); [|done].
      cbn. unfold reserved_of. by rewrite Hz.
    + rewrite lookup_alter_ne, lookup_insert_ne, sizes_lookup by done. by destruct (sp_vols _ !! n).
  - intros p n w. cbn. split; [intros q Hq; by rewrite sizes_set, decide_False|].
    rewrite sizes_set, decide_True by done. apply map_imap_delete.
  - intros p n w q. cbn. unfold get, set_vols. destruct (decide (q = p)) as [->|];
      [by rewrite lookup_insert_eq|by rewrite lookup_insert_ne].
  - intros p w q Hq. cbn. by rewrite get_mounted, decide_False.
  - done.
  - intros p w l [= <-] n. rewrite sizes_lookup, <- list_fmap_compose, fmap_is_Some.
    rewrite (list_fmap_ext _ id) by done. rewrite list_fmap_id, list_elem_of_fmap. split.
    + intros ([m v] & -> & Hm). apply elem_of_map_to_list in Hm. eauto.
    + intros [v Hv]. exists (n, v). split; [done|]. by apply elem_of_map_to_list.
Qed.

(** One pool with a volume of 90 GiB and a 0-db volume of sequential mode. *)
Definition index_seq : string := le_encode 26 0 +:+ le_encode 1 1.

Definition full : world :=
  {["p" := MkPool true
     {["data" := MkVol (90 * gib) ∅;
       "zdb1" := MkVol 0 {["default" := ZDir (MkNsDir None (Some index_seq))]}]}]}.

Lemma full_ok : no_overcommit full.
Proof.
  intros p. destruct (decide (p = "p")) as [->|Hp].
  - split; [|by vm_compute]. intros n x. rewrite sizes_lookup.
    destruct (sp_vols (get "p" full) !! n) as [v|] eqn:Hv; [|done]. cbn. intros [= <-].
    unfold get, full in Hv. rewrite lookup_singleton_eq in Hv. cbn in Hv.
    apply lookup_insert_Some in Hv as [[<- <-]|[_ Hv]]; [by vm_compute|].
    apply lookup_singleton_Some in Hv as [<- <-]. by vm_compute.
  - assert (Hs : sizes full p = ∅).
    { unfold sizes, get, full. by rewrite lookup_singleton_ne. }
    split; [cbn; rewrite Hs; intros n x; by rewrite lookup_empty|].
    unfold promised. cbn. by rewrite Hs.
Qed.

Lemma create_no_overcommit_witness :
  exists w' v, createSubvolWithQuota ["p"] (5 * gib) "7-1" SSDDevice full = (w', Ok v) /\
    no_overcommit w' /\ sizes w' "p" !! "7-1" = Some (5 * gib).
Proof.
  pose proof (create_no_overcommit ["p"] (5 * gib) "7-1" SSDDevice full full_ok
    ltac:(done) ltac:(done) ltac:(done)) as Hc.
  destruct (createSubvolWithQuota ["p"] (5 * gib) "7-1" SSDDevice full) as [w' [v|e|m]] eqn:Hrun;
    [|by vm_compute in Hrun..].
  destruct Hc as (Hno & Hn & _ & Hq & _). exists w', v. split_and!; [done..|].
  assert (Hp : v_Pool v = "p") by (vm_compute in Hrun; by injection Hrun as _ <-).
  by rewrite Hp in Hq.
Defined.

Lemma ReleaseFilesystem_spec_witness :
  sizes (fst (ReleaseFilesystem ["p"] "data" full)) "p" = delete "data" (sizes full "p").
Proof.
  destruct (ReleaseFilesystem ["p"] "data" full) as [w' [[]|e|m]] eqn:Hrun; [|by vm_compute in Hrun..].
  exact (ReleaseFilesystem_spec ["p"] "data" full w' (NoDup_singleton "p") Hrun "p").
Defined.

(** Reserving a namespace can overcommit a pool. The room on a
    0-db volume is judged by what that volume has reserved and the size of the
    whole pool; what the other volumes of the pool have reserved is left out.
    Here a pool of 100 GiB with a volume of 90 GiB accepts a namespace of 50. *)
Theorem Allocate_overcommits :
  no_overcommit full /\
  exists w' a, Allocate ["p"] "uuid" "12-1" SSDDevice (50 * gib) "seq" full = (w', Ok a) /\
    promised w' "p" = 140 * gib /\ psize "p" = 100 * gib.
Proof.
  split; [apply full_ok|].
  destruct (Allocate ["p"] "uuid" "12-1" SSDDevice (50 * gib) "seq" full) as [w' [a|e|m]] eqn:Hrun;
    [|by vm_compute in Hrun..].
  exists w', a. split_and!; [done| |done].
  assert (Hp : promised (fst (Allocate ["p"] "uuid" "12-1" SSDDevice (50 * gib) "seq" full)) "p" =
    140 * gib) by by vm_compute.
  by rewrite Hrun in Hp.
Qed.

End StorageDemo.
