(* ===== verification/Device.v ===== *)
(** The disks of the node: src/pkg/storage/filesystem/device.go (the device manager
    that runs lsblk and seektime) and src/pkg/storage/filesystem/migrate.go (the
    disks of version 1 that are wiped).

    What lsblk and seektime print while the disks are scanned are variables of
    the section, as is the JSON decoder. The state of the manager is its cache of
    devices. *)

From stdpp Require Import gmap strings list sorting.
From Stdlib Require Import Ascii ZArith Lia.
From S2P Require Import Prelude Reservation.

Open Scope Z_scope.

(** ** Data *)

Inductive Device := MkDevice {
  d_Path : string;
  d_Label : string;
  d_Filesystem : string;
  d_Children : list Device;
  d_DiskType : DeviceType;
  d_ReadTime : Z;
  d_Subsystems : string;
  d_HasPartions : bool
}.

Definition BtrfsFSType : string := "btrfs".

Definition is_empty {A} (l : list A) : bool := match l with [] => true | _ => false end.

(** A device is used when it has a label, a file system, children or partitions. *)
Definition Used (d : Device) : bool :=
  negb (d_Label d =? "")%string || negb (d_Filesystem d =? "")%string ||
  negb (is_empty (d_Children d)) || d_HasPartions d.

(** The type and the read time are those of the whole disk, for all its parts. *)
Fixpoint setDeviceType (typ : DeviceType) (readTime : Z) (d : Device) : Device :=
  MkDevice (d_Path d) (d_Label d) (d_Filesystem d) (map (setDeviceType typ readTime) (d_Children d))
    typ readTime (d_Subsystems d) (d_HasPartions d).

(** The tree of devices as a flat list; a device that had children remembers it
    in [HasPartions]. *)
Fixpoint flatten_device (d : Device) : list Device :=
  MkDevice (d_Path d) (d_Label d) (d_Filesystem d) [] (d_DiskType d) (d_ReadTime d) (d_Subsystems d)
    (d_HasPartions d || negb (is_empty (d_Children d))) ::
  concat (map flatten_device (d_Children d)).

Definition flattenDevices (devices : list Device) : list Device :=
  concat (map flatten_device devices).

(** An unknown type counts as a hard disk. *)
Definition deviceTypeFromString (typ : string) : DeviceType :=
  if (ToLower typ =? "ssd")%string then SSDDevice else HDDDevice.

(** [ByReadTime.Less]. *)
Definition faster (a b : Device) : bool := d_ReadTime a <? d_ReadTime b.

(** ** The device manager *)
Section manager.
  (** the output of lsblk, its decoder, and the type and time of seektime *)
  Context (lsblk : res string) (decode_lsblk : string -> res (list Device)).
  Context (seektime : string -> res (string * Z)).

(** USB disks are left out. *)
Definition Raw : res (list Device) :=
  match lsblk with
  | Ok out =>
      if (out =? "")%string then Ok []
      else
        match decode_lsblk out with
        | Ok devices => Ok (filter (fun d => d_Subsystems d <> "block:scsi:usb:pci") devices)
        | Err e => Err e
        | Panic m => Panic m
        end
  | Err e => Err e
  | Panic m => Panic m
  end.

Fixpoint setDeviceTypes (devices : list Device) : res (list Device) :=
  match devices with
  | [] => Ok []
  | d :: devices =>
      match seektime (d_Path d) with
      | Ok (typ, rt) =>
          match setDeviceTypes devices with
          | Ok rest => Ok (setDeviceType (deviceTypeFromString typ) rt d :: rest)
          | r => r
          end
      | Err e => Err e
      | Panic m => Panic m
      end
  end.

(** The error of [Raw] is wrapped and dropped: the scan goes on with no disk. *)
Definition scan : M (list Device) (list Device) := fun cache =>
  match cache with
  | _ :: _ => (cache, Ok cache)
  | [] =>
      match (match Raw with Ok devs => Ok devs | Err _ => Ok [] | Panic m => Panic m end) with
      | Ok devs =>
          match setDeviceTypes devs with
          | Ok devs => (flattenDevices devs, Ok (flattenDevices devs))
          | Err e => (cache, Err e)
          | Panic m => (cache, Panic m)
          end
      | Err e => (cache, Err e)
      | Panic m => (cache, Panic m)
      end
  end.

Definition Devices : M (list Device) (list Device) := scan.

Definition ByLabel (label : string) : M (list Device) (list Device) :=
  devices ← scan; mret (filter (fun d => d_Label d = label) devices).

(** [Device]; named after its path argument here. *)
Definition DeviceAt (path : string) : M (list Device) Device :=
  devices ← scan;
  match list_find (fun d => d_Path d = path) devices with
  | Some (_, d) => mret d
  | None => throw (ErrMsg "device not found")
  end.

(** ** Migration from version 1 *)

Definition zosV1PoolPrefix : string := "sp_".

(** The disks to wipe. *)
Definition is_v1 (d : Device) : bool :=
  HasPrefix (d_Label d) zosV1PoolPrefix ||
  existsb (fun child => HasPrefix (d_Label child) zosV1PoolPrefix) (d_Children d).

Definition destroyMe (devices : list Device) : list Device := filter (fun d => is_v1 d = true) devices.

(** [wipe] and [partprobe] are calls on a world; their errors are only logged.
    The result is the manager after its reset: an empty cache. *)
Definition migrate {W} (wipe : Device -> M W unit) (partprobe : M W unit) : M W (list Device) :=
  devices ← wrap "migration failed, couldn't list disks" (lift Raw);
  for_each (fun d => ignore (wipe d)) (destroyMe devices) ;;
  (if is_empty (destroyMe devices) then mret tt else ignore partprobe) ;;
  mret [].

End manager.

(** ** The scan *)

(** A device and all below it, in the order of lsblk. *)
Fixpoint nodes (d : Device) : list Device := d :: concat (map nodes (d_Children d)).

Lemma Device_tree_ind (P : Device -> Prop) :
  (forall d, Forall P (d_Children d) -> P d) -> forall d, P d.
Proof.
  intros Hstep. fix IH 1. intros [p l f children t r sub h]. apply Hstep. cbn.
  induction children as [|c children IHc]; constructor; [apply IH|apply IHc].
Qed.

(** What the scan makes of a node of a disk of type [t] and read time [rt]. *)
Record scanned (t : DeviceType) (rt : Z) (n d : Device) : Prop := {
  sc_Path : d_Path d = d_Path n;
  sc_Label : d_Label d = d_Label n;
  sc_Filesystem : d_Filesystem d = d_Filesystem n;
  sc_DiskType : d_DiskType d = t;
  sc_ReadTime : d_ReadTime d = rt;
  sc_Children : d_Children d = [];
  sc_Used : Used d = Used n
}.

Lemma Forall2_concat {A B} (R : A -> B -> Prop) ls ks :
  Forall2 (Forall2 R) ls ks -> Forall2 R (concat ls) (concat ks).
Proof. induction 1; [constructor|]. by apply Forall2_app. Qed.

Lemma flatten_scanned t rt d :
  Forall2 (scanned t rt) (nodes d) (flatten_device (setDeviceType t rt d)).
Proof.
  induction d as [d IH] using Device_tree_ind. destruct d as [p l f children dt r sub h]. cbn in *.
  constructor.
  - split; try done. unfold Used. cbn. rewrite orb_false_r.
    destruct (l =? "")%string, (f =? "")%string, h, children; done.
  - apply Forall2_concat. rewrite map_map. induction IH; constructor; done.
Qed.

Section scan.
  Context (lsblk : res string) (decode_lsblk : string -> res (list Device)).
  Context (seektime : string -> res (string * Z)).

(** The devices of one disk after a scan. *)
Definition scanned_disk (root : Device) (ds : list Device) : Prop :=
  exists typ rt, seektime (d_Path root) = Ok (typ, rt) /\
    Forall2 (scanned (deviceTypeFromString typ) rt) (nodes root) ds.

Lemma setDeviceTypes_scanned devs out : setDeviceTypes seektime devs = Ok out ->
  Forall2 scanned_disk devs (map flatten_device out).
Proof.
  revert out. induction devs as [|d devs IH]; intros out; cbn; [intros [= <-]; constructor|].
  destruct (seektime (d_Path d)) as [[typ rt]|e|m] eqn:Hs; [|done..].
  destruct (setDeviceTypes seektime devs) as [rest|e|m]; [|done..]. intros [= <-].
  cbn [map]. constructor; [|by apply IH]. exists typ, rt. split; [done|]. apply flatten_scanned.
Qed.

(** A scan lists every disk, partition and part of a partition
    that lsblk reports exactly once, in its order, USB disks left out; each is
    free after the scan exactly when it has no label, no file system and no parts
    (although the list is flat), and it has the type and the read time that
    seektime gives for the whole disk. *)
Theorem scan_spec devs cache ds :
  Raw lsblk decode_lsblk = Ok devs ->
  scan lsblk decode_lsblk seektime [] = (cache, Ok ds) ->
  cache = ds /\ exists parts, ds = concat parts /\ Forall2 scanned_disk devs parts.
Proof.
  intros Hraw. unfold scan. rewrite Hraw.
  destruct (setDeviceTypes seektime devs) as [out|e|m] eqn:Ht; [|done..].
  intros [= <- <-]. split; [done|]. exists (map flatten_device out).
  split; [done|]. by apply setDeviceTypes_scanned.
Qed.

(** Migration wipes exactly the disks that carry, or have a part that carries, a
    label of version 1. *)
Lemma destroyMe_spec devs d : d ∈ destroyMe devs <->
  d ∈ devs /\ (HasPrefix (d_Label d) zosV1PoolPrefix = true \/
    exists child, child ∈ d_Children d /\ HasPrefix (d_Label child) zosV1PoolPrefix = true).
Proof.
  unfold destroyMe, is_v1. rewrite list_elem_of_filter, orb_true_iff, existsb_exists.
  setoid_rewrite <- list_elem_of_In. tauto.
Qed.

End scan.

(** ** Witness *)
Module DeviceDemo.

Definition part (p : string) : Device := MkDevice p "" "" [] (OtherDevice "") 0 "" false.

(** A free disk, and one with a partition. *)
Definition disks : list Device :=
  [part "/dev/vda"; MkDevice "/dev/vdb" "" "" [part "/dev/vdb1"] (OtherDevice "") 0 "" false].

Lemma scan_spec_witness :
  let '(cache, r) := scan (Ok "json") (fun _ => Ok disks) (fun _ => Ok ("SSD", 7)) [] in
  exists ds, r = Ok ds /\ Used <$> ds = [false; true; false] /\ cache = ds /\
  exists parts, ds = concat parts /\ Forall2 (scanned_disk (fun _ => Ok ("SSD", 7))) disks parts.
Proof.
  eexists. split; [reflexivity|]. split; [reflexivity|].
  exact (scan_spec (Ok "json") (fun _ => Ok disks) (fun _ => Ok ("SSD", 7)) disks _ _ eq_refl eq_refl).
Defined.

End DeviceDemo.
