(* ===== verification/BtrfsUtil.v ===== *)
(** The btrfs program: src/pkg/storage/filesystem/btrfs_utils.go, which runs it and
    parses what it prints, and the mount table of
    src/pkg/storage/filesystem/utils.go.

    The text is ASCII: white space is one of the six ASCII white space
    characters (in the regular expressions, all of them but the vertical tab).
    [Sscanf] and the two regular expressions are written out for
    what the parsers use of them: every input of [Sscanf] here is one line, and
    its formats hold only literals, blanks, [%d] and [%s]. *)

From stdpp Require Import gmap strings list.
From Stdlib Require Import Ascii ZArith Lia.
From S2P Require Import Prelude Reservation Device.

Open Scope Z_scope.

(** ** Data *)

Record BtrfsDevice := MkBtrfsDevice {
  bd_Missing : bool; bd_DevID : Z; bd_Size : Z; bd_Used : Z; bd_Path : string
}.

Record Btrfs := MkBtrfs {
  b_Label : string; b_UUID : string; b_TotalDevices : Z; b_Used : Z;
  b_Devices : list BtrfsDevice; b_Warnings : string
}.

Record BtrfsVolume := MkBtrfsVolume {
  bv_Path : string; bv_ID : Z; bv_Generation : Z; bv_ParentID : Z
}.

Record BtrfsQGroup := MkQGroup {
  q_ID : string; q_Rfer : Z; q_Excl : Z; q_MaxRfer : Z; q_MaxExcl : Z
}.

Record DiskUsage := MkDiskUsage { du_Profile : string; du_Total : Z; du_Used : Z }.

Record BtrfsDiskUsage := MkBtrfsDiskUsage {
  Data : DiskUsage; System : DiskUsage; Metadata : DiskUsage; GlobalReserve : DiskUsage
}.

(** ** Text *)

Definition nl : ascii := "010".

Definition is_white (c : ascii) : bool :=
  let n := nat_of_ascii c in ((9 <=? n) && (n <=? 13) || (n =? 32))%nat.

Fixpoint skip_white (s : string) : string :=
  match s with
  | String c s' => if is_white c then skip_white s' else s
  | EmptyString => s
  end.

(** The longest prefix of characters in a class, and the rest. *)
Fixpoint span (f : ascii -> bool) (s : string) : string * string :=
  match s with
  | String c s' => if f c then let '(a, b) := span f s' in (String c a, b) else (EmptyString, s)
  | EmptyString => (EmptyString, EmptyString)
  end.

(** Without the white space at the end. *)
Fixpoint trim_right (s : string) : string :=
  match s with
  | String c s' =>
      match trim_right s' with
      | EmptyString => if is_white c then EmptyString else String c EmptyString
      | t => String c t
      end
  | EmptyString => EmptyString
  end.

Definition TrimSpace (s : string) : string := trim_right (skip_white s).

(** [strings.Split(s, "\n\n")]. *)
Fixpoint split_blocks (s : string) : list string :=
  match s with
  | EmptyString => [EmptyString]
  | String c s' =>
      match s' with
      | String d s'' =>
          if Ascii.eqb c nl && Ascii.eqb d nl then EmptyString :: split_blocks s''
          else match split_blocks s' with
               | x :: l => String c x :: l
               | [] => [String c EmptyString]
               end
      | EmptyString => [String c EmptyString]
      end
  end.

(** [s[strings.Index(s, sub):]], or [None] when the index is -1. *)
Fixpoint from_index (sub s : string) : option string :=
  if HasPrefix s sub then Some s
  else match s with String _ s' => from_index sub s' | EmptyString => None end.

(** ** Sscanf *)

Inductive verb := VLit (c : ascii) | VSpace | VD | VS.
Inductive value := VInt (z : Z) | VStr (s : string).

(** The format, a run of blanks collapsed to one. *)
Fixpoint verbs (format : string) : list verb :=
  match format with
  | EmptyString => []
  | String c format' =>
      if Ascii.eqb c "%" then
        match format' with
        | String d rest => (if Ascii.eqb d "d" then VD else VS) :: verbs rest
        | EmptyString => []
        end
      else if is_white c then
        match verbs format' with
        | VSpace :: l => VSpace :: l
        | l => VSpace :: l
        end
      else VLit c :: verbs format'
  end.

Definition is_digit (c : ascii) : bool := match digit c with Some _ => true | None => false end.

(** [%d]: an optional sign and digits, as an int64. *)
Definition scan_int (s : string) : option (Z * string) :=
  let s := skip_white s in
  let '(sign, s') :=
    match s with
    | String c s' => if Ascii.eqb c "-" || Ascii.eqb c "+" then (String c EmptyString, s') else (EmptyString, s)
    | EmptyString => (EmptyString, s)
    end in
  let '(digits, rest) := span is_digit s' in
  match ParseInt (sign +:+ digits) with Ok z => Some (z, rest) | _ => None end.

(** [%s]: up to the next white space. *)
Definition scan_word (s : string) : option (string * string) :=
  match span (fun c => negb (is_white c)) (skip_white s) with
  | (EmptyString, _) => None
  | (w, rest) => Some (w, rest)
  end.

(** The values of the verbs, or [None] for an error. What follows the last verb
    in the input does not matter. *)
Fixpoint sscanf (f : list verb) (s : string) : option (list value) :=
  match f with
  | [] => Some []
  | VLit c :: f =>
      match s with
      | String d s' => if Ascii.eqb c d then sscanf f s' else None
      | EmptyString => None
      end
  | VSpace :: f =>
      match s with
      | String d _ => if is_white d then sscanf f (skip_white s) else None
      | EmptyString => sscanf f s
      end
  | VD :: f =>
      match scan_int s with
      | Some (z, s') => match sscanf f s' with Some l => Some (VInt z :: l) | None => None end
      | None => None
      end
  | VS :: f =>
      match scan_word s with
      | Some (w, s') => match sscanf f s' with Some l => Some (VStr w :: l) | None => None end
      | None => None
      end
  end.

Definition Sscanf (s format : string) : option (list value) := sscanf (verbs format) s.

(** ** Parsers *)

Definition ErrScan : error := ErrMsg "input does not match format".

(** The table of [parseSubvolInfo]: the last line of each name, a value of "-"
    left out. *)
Definition info_values (output : string) : gmap string string :=
  foldl (fun values line =>
    match split_first ":" line with
    | Some (name, v) =>
        if (TrimSpace v =? "-")%string then values
        else <[TrimSpace name := TrimSpace v]> values
    | None => values
    end) ∅ (Split nl output).

Definition info_int (values : gmap string string) (name : string) : option Z :=
  match Sscanf (default "" (values !! name)) "%d" with Some [VInt z] => Some z | _ => None end.

Definition parseSubvolInfo (output : string) : res BtrfsVolume :=
  let values := info_values output in
  match info_int values "Subvolume ID", info_int values "Parent ID", info_int values "Generation" with
  | Some id, Some parent, Some gen => Ok (MkBtrfsVolume "" id gen parent)
  | _, _, _ => Err ErrScan
  end.

Definition parse_volume (line : string) : option BtrfsVolume :=
  match Sscanf line "ID %d gen %d top level %d path %s" with
  | Some [VInt id; VInt gen; VInt parent; VStr path] => Some (MkBtrfsVolume path id gen parent)
  | _ => None
  end.

Fixpoint parse_volumes (lines : list string) : res (list BtrfsVolume) :=
  match lines with
  | [] => Ok []
  | line :: lines =>
      let line := TrimSpace line in
      if (line =? "")%string then parse_volumes lines
      else
        match parse_volume line with
        | Some v => res_map (cons v) (parse_volumes lines)
        | None => Err ErrScan
        end
  end.

Definition parseSubvolList (output : string) : res (list BtrfsVolume) :=
  parse_volumes (Split nl output).

(** A line that does not match is skipped. *)
Definition parseDevice (line : string) : option BtrfsDevice :=
  match Sscanf (TrimSpace line) "devid    %d size %d used %d path %s" with
  | Some [VInt id; VInt size; VInt used; VStr path] => Some (MkBtrfsDevice false id size used path)
  | _ => None
  end.

Definition parseDevices (lines : list string) : list BtrfsDevice :=
  omap (fun line => if (line =? "")%string then None else parseDevice line) lines.

(** [label[1:len(label)-1]]; on a label of one byte the slice is out of range. *)
Definition unquote_label (label : string) : res string :=
  if (label =? "none")%string then Ok label
  else if (String.length label <? 2)%nat then Panic "slice bounds out of range"
  else Ok (String.substring 1 (String.length label - 2) label).

Definition is_warning (line : string) : bool := HasPrefix (TrimSpace line) "**".

(** The first three arguments are the lines of one block. *)
Definition parseFS (line0 line1 : string) (lines : list string) : res Btrfs :=
  match Sscanf line0 "Label: %s uuid: %s" with
  | Some [VStr label; VStr uuid] =>
      match unquote_label label with
      | Ok label =>
          match Sscanf (TrimSpace line1) "Total devices %d FS bytes used %d" with
          | Some [VInt totDevice; VInt used] =>
              let warnings := String.concat "" (TrimSpace <$> filter (fun l => is_warning l = true) lines) in
              let devs := parseDevices (filter (fun l => is_warning l = false) lines) in
              Ok (MkBtrfs label uuid totDevice used devs warnings)
          | _ => Err ErrScan
          end
      | Err e => Err e
      | Panic m => Panic m
      end
  | _ => Err ErrScan
  end.

(** What comes before the label in a block is dropped; a block without a label
    is an index out of range, one of less than three lines is skipped. On an
    error the file systems before it are returned with it. *)
Fixpoint parse_blocks (blocks : list string) : res (list Btrfs * option error) :=
  match blocks with
  | [] => Ok ([], None)
  | block :: blocks =>
      if (TrimSpace block =? "")%string then parse_blocks blocks
      else
        match from_index "Label:" block with
        | None => Panic "slice bounds out of range"
        | Some block =>
            match Split nl block with
            | line0 :: line1 :: line2 :: lines =>
                match parseFS line0 line1 (line2 :: lines) with
                | Ok fs => res_map (fun '(fss, err) => (fs :: fss, err)) (parse_blocks blocks)
                | Err e => Ok ([], Some e)
                | Panic m => Panic m
                end
            | _ => parse_blocks blocks
            end
        end
  end.

Definition parseList (output : string) : res (list Btrfs * option error) := parse_blocks (split_blocks output).

(** *** Regular expressions

    Both expressions are deterministic: a run of digits or of word characters
    is followed by something else, so the longest run is the only one that can
    match. *)

(** The value of digits; [strconv.ParseUint] gives the largest number on
    overflow, and the error is dropped. *)
Definition saturating (digits : string) : Z :=
  match ParseUint digits with Ok v => v | _ => W64 - 1 end.

Definition digits1 (s : string) : option (string * string) :=
  match span is_digit s with (EmptyString, _) => None | (d, rest) => Some (d, rest) end.

(** [\s] and [\s+]. *)
Definition re_white (c : ascii) : bool := is_white c && negb (Ascii.eqb c "011").

Definition white1 (s : string) : option string :=
  match span re_white s with (EmptyString, _) => None | (_, rest) => Some rest end.

(** [\d+|none]. *)
Definition limit1 (s : string) : option (string * string) :=
  match digits1 s with
  | Some r => Some r
  | None => if HasPrefix s "none" then Some ("none", String.substring 4 (String.length s - 4) s) else None
  end.

Definition limit_value (l : string) : Z := if (l =? "none")%string then 0 else saturating l.

Definition char1 (c : ascii) (s : string) : option string :=
  match s with String d s' => if Ascii.eqb c d then Some s' else None | EmptyString => None end.

(** A line of [btrfs qgroup show], and what follows it. *)
Definition match_qgroup (s : string) : option (BtrfsQGroup * string) :=
  '(a, s) ← digits1 s; s ← char1 "/" s; '(b, s) ← digits1 s; s ← white1 s;
  '(rfer, s) ← digits1 s; s ← white1 s; '(excl, s) ← digits1 s; s ← white1 s;
  '(maxrfer, s) ← limit1 s; s ← white1 s; '(maxexcl, s) ← limit1 s;
  Some (MkQGroup (a +:+ "/" +:+ b) (saturating rfer) (saturating excl)
          (limit_value maxrfer) (limit_value maxexcl),
        snd (span (fun c => negb (Ascii.eqb c nl)) s)).

(** All matches from left to right; [skip] characters still belong to the last
    one. With [bol] a match starts at the beginning of a line. *)
Fixpoint find_all {A} (bol : bool) (m : string -> option (A * string)) (start : bool) (skip : nat)
    (s : string) : list A :=
  match s with
  | EmptyString => []
  | String c s' =>
      match skip with
      | S k => find_all bol m (Ascii.eqb c nl) k s'
      | O =>
          match (if negb bol || start then m s else None) with
          | Some (x, rest) =>
              x :: find_all bol m (Ascii.eqb c nl) (String.length s' - String.length rest) s'
          | None => find_all bol m (Ascii.eqb c nl) 0 s'
          end
      end
  end.

Definition parseQGroups (output : string) : gmap string BtrfsQGroup :=
  foldl (fun qgroups q => <[q_ID q := q]> qgroups) ∅ (find_all true match_qgroup true 0 output).

Definition is_word (c : ascii) : bool :=
  let n := nat_of_ascii c in
  (is_digit c || ((65 <=? n) && (n <=? 90))%nat || ((97 <=? n) && (n <=? 122))%nat || (n =? 95)%nat).

Definition word1 (s : string) : option (string * string) :=
  match span is_word s with (EmptyString, _) => None | (d, rest) => Some (d, rest) end.

Fixpoint literal (l s : string) : option string :=
  match l with EmptyString => Some s | String c l => s ← char1 c s; literal l s end.

(** A match of the expression for [btrfs filesystem df]. *)
Definition match_df (s : string) : option ((string * string * string * string) * string) :=
  '(name, s) ← word1 s; s ← char1 "," s;
  s ← (match s with String c s => if re_white c then Some s else None | EmptyString => None end);
  '(profile, s) ← word1 s; s ← char1 ":" s; s ← white1 s; s ← literal "total=" s;
  '(total, s) ← digits1 s; s ← char1 "," s; s ← white1 s; s ← literal "used=" s;
  '(used, s) ← digits1 s;
  Some ((name, profile, total, used), s).

Definition noUsage : DiskUsage := MkDiskUsage "" 0 0.

Definition set_usage (name : string) (d : DiskUsage) (u : BtrfsDiskUsage) : BtrfsDiskUsage :=
  if (name =? "Data")%string then MkBtrfsDiskUsage d (System u) (Metadata u) (GlobalReserve u)
  else if (name =? "System")%string then MkBtrfsDiskUsage (Data u) d (Metadata u) (GlobalReserve u)
  else if (name =? "Metadata")%string then MkBtrfsDiskUsage (Data u) (System u) d (GlobalReserve u)
  else if (name =? "GlobalReserve")%string then MkBtrfsDiskUsage (Data u) (System u) (Metadata u) d
  else u.

Definition is_usage_name (name : string) : bool :=
  bool_decide (name ∈ ["Data"; "System"; "Metadata"; "GlobalReserve"]).

Fixpoint df_lines (lines : list (string * string * string * string)) (u : BtrfsDiskUsage) :
    res BtrfsDiskUsage :=
  match lines with
  | [] => Ok u
  | (name, profile, total, used) :: lines =>
      if negb (is_usage_name name) then df_lines lines u
      else
        match ParseUint total, ParseUint used with
        | Ok t, Ok d => df_lines lines (set_usage name (MkDiskUsage (ToLower profile) t d) u)
        | Ok _, r | r, _ => res_map (fun _ => u) r
        end
  end.

Definition parseFilesystemDF (output : string) : res BtrfsDiskUsage :=
  df_lines (find_all false match_df true 0 output) (MkBtrfsDiskUsage noUsage noUsage noUsage noUsage).

(** ** Running btrfs

    [run] is the function of that name in utils.go: a program and its arguments,
    and what it prints. A program that only reports leaves the world as it is,
    so [output] keeps only what it prints. *)

Class Executer (W : Type) := { run : string -> list string -> M W string }.

Section util.
  Context {W : Type} `{Executer W}.

Definition output (args : list string) (w : W) : res string := snd (run "btrfs" args w).

Definition act (args : list string) : M W unit := run "btrfs" args ;; mret tt.

(** The list read so far and the error, if there is one. *)
Definition List_ (label : string) (mounted : bool) (w : W) : res (list Btrfs * option error) :=
  match output (["filesystem"; "show"; "--raw"] ++ (if mounted then ["-m"] else []) ++
                (if (label =? "")%string then [] else [label])) w with
  | Ok out => parseList out
  | Err e => Ok ([], Some e)
  | Panic m => Panic m
  end.

Definition SubvolumeList (root : string) (w : W) : res (list BtrfsVolume) :=
  match output ["subvolume"; "list"; "-o"; root] w with
  | Ok out => parseSubvolList out
  | Err e => Err e
  | Panic m => Panic m
  end.

Definition SubvolumeInfo (path : string) (w : W) : res BtrfsVolume :=
  match output ["subvolume"; "show"; path] w with
  | Ok out =>
      res_map (fun v => MkBtrfsVolume path (bv_ID v) (bv_Generation v) (bv_ParentID v)) (parseSubvolInfo out)
  | Err e => Err e
  | Panic m => Panic m
  end.

Definition SubvolumeAdd (root : string) : M W unit := act ["subvolume"; "create"; root].
Definition SubvolumeRemove (root : string) : M W unit := act ["subvolume"; "delete"; root].
Definition DeviceAdd (dev root : string) : M W unit := act ["device"; "add"; dev; root].
Definition DeviceRemove (dev root : string) : M W unit := act ["device"; "remove"; dev; root].
Definition QGroupEnable (root : string) : M W unit := act ["quota"; "enable"; root].

Definition QGroupList (path : string) (w : W) : res (gmap string BtrfsQGroup) :=
  res_map parseQGroups (output ["qgroup"; "show"; "-re"; "--raw"; path] w).

Definition QGroupLimit (size : Z) (path : string) : M W unit :=
  act ["qgroup"; "limit"; if 0 <? size then Itoa size else "none"; path].

Definition QGroupDestroy (id path : string) : M W unit := act ["qgroup"; "destroy"; id; path].

Definition GetDiskUsage (path : string) (w : W) : res BtrfsDiskUsage :=
  match output ["filesystem"; "df"; "--raw"; path] w with
  | Ok out => parseFilesystemDF out
  | Err e => Err e
  | Panic m => Panic m
  end.

End util.

(** The methods of [BtrfsUtil], as the pools use them. *)
Class BtrfsUtil (W : Type) := {
  u_List : string -> bool -> W -> res (list Btrfs * option error);
  u_SubvolumeList : string -> W -> res (list BtrfsVolume);
  u_SubvolumeInfo : string -> W -> res BtrfsVolume;
  u_SubvolumeAdd : string -> M W unit;
  u_SubvolumeRemove : string -> M W unit;
  u_DeviceAdd : string -> string -> M W unit;
  u_DeviceRemove : string -> string -> M W unit;
  u_QGroupEnable : string -> M W unit;
  u_QGroupList : string -> W -> res (gmap string BtrfsQGroup);
  u_QGroupLimit : Z -> string -> M W unit;
  u_QGroupDestroy : string -> string -> M W unit;
  u_GetDiskUsage : string -> W -> res BtrfsDiskUsage;
  (** the promoted [run] *)
  u_run : string -> list string -> M W string
}.

Definition newUtils {W} (e : Executer W) : BtrfsUtil W := {|
  u_List := List_; u_SubvolumeList := SubvolumeList; u_SubvolumeInfo := SubvolumeInfo;
  u_SubvolumeAdd := SubvolumeAdd; u_SubvolumeRemove := SubvolumeRemove;
  u_DeviceAdd := DeviceAdd; u_DeviceRemove := DeviceRemove; u_QGroupEnable := QGroupEnable;
  u_QGroupList := QGroupList; u_QGroupLimit := QGroupLimit; u_QGroupDestroy := QGroupDestroy;
  u_GetDiskUsage := GetDiskUsage; u_run := run
|}.

(** ** The mount table *)

(** [strings.Fields]; the fuel is the length of the text: each field takes at
    least one character of it. *)
Fixpoint fields (fuel : nat) (s : string) : list string :=
  match fuel with
  | O => []
  | S f =>
      match span (fun c => negb (is_white c)) (skip_white s) with
      | (EmptyString, _) => []
      | (w, rest) => w :: fields f rest
      end
  end.

Definition Fields (s : string) : list string := fields (String.length s) s.

Fixpoint mount_target (lines : list string) (device : string) : res (option string) :=
  match lines with
  | [] => Ok None
  | line :: lines =>
      match Fields line with
      | [] => mount_target lines device
      | f0 :: fs =>
          if (f0 =? device)%string then
            match fs with f1 :: _ => Ok (Some f1) | [] => Panic "index out of range" end
          else mount_target lines device
      end
  end.

Definition getMountTarget (table device : string) : res (option string) :=
  mount_target (Split nl table) device.

(** A line with less than two fields, also an empty one, is an index out of
    range; the end of the table is not a line. *)
Fixpoint mount_point (lines : list string) (path : string) : res bool :=
  match lines with
  | [] | [EmptyString] => Ok false
  | line :: lines =>
      match Fields line with
      | _ :: f1 :: _ => if (f1 =? path)%string then Ok true else mount_point lines path
      | _ => Panic "index out of range"
      end
  end.

Definition IsMountPoint (table path : string) : res bool := mount_point (Split nl table) path.

(** ** Reading what btrfs prints *)

Fixpoint all_chars (f : ascii -> bool) (s : string) : bool :=
  match s with String c s => f c && all_chars f s | EmptyString => true end.

Definition not_white (c : ascii) : bool := negb (is_white c).

(** A word: not empty, without white space. *)
Definition is_word_of (s : string) : Prop := s <> "" /\ all_chars not_white s = true.

Lemma span_all f s : forall c rest, all_chars f s = true -> f c = false ->
  span f (s +:+ String c rest) = (s, String c rest).
Proof.
  induction s as [|d s IH]; intros c rest Hs Hc.
  { change (span f (String c rest) = ("", String c rest)). cbn [span]. by rewrite Hc. }
  apply andb_true_iff in Hs as [Hd Hs].
  change (String d s +:+ String c rest) with (String d (s +:+ String c rest)). cbn [span].
  by rewrite Hd, IH.
Qed.

Lemma span_all_end f s : all_chars f s = true -> span f s = (s, "").
Proof.
  induction s as [|d s IH]; intros Hs; [done|]. apply andb_true_iff in Hs as [Hd Hs]. cbn [span].
  by rewrite Hd, IH.
Qed.

Lemma all_digits s : forall a v, digits_value a s = Some v -> all_chars is_digit s = true.
Proof.
  induction s as [|c s IH]; intros a v; [done|]. cbn [digits_value all_chars]. unfold is_digit at 1.
  destruct (digit c); [|done]. apply IH.
Qed.

Lemma digit_not_sign c d : digit c = Some d ->
  is_white c = false /\ Ascii.eqb c "-" = false /\ Ascii.eqb c "+" = false.
Proof. destruct c as [[] [] [] [] [] [] [] []]; (discriminate || done). Qed.

Lemma ParseInt_Itoa n : 0 <= n < 2 ^ 63 -> ParseInt (Itoa n) = Ok n.
Proof.
  intros Hn. assert (Hu : is_u64 n) by (unfold is_u64, W64; lia).
  pose proof (digits_value_Itoa n Hu) as Hv. pose proof (Itoa_nonempty n) as He.
  destruct (Itoa n) as [|c s]; [done|]. unfold ParseInt.
  assert (Hc : exists d, digit c = Some d) by (cbn in Hv; destruct (digit c); [eauto|done]).
  destruct Hc as [d Hd]. destruct (digit_not_sign c d Hd) as (_ & -> & ->). rewrite Hv.
  change (2 ^ 63) with 9223372036854775808 in Hn. by destruct (Z.ltb_spec n 9223372036854775808); [|lia].
Qed.

(** Reading a number that is followed by a blank. *)
Lemma scan_int_Itoa n c rest : 0 <= n < 2 ^ 63 -> is_white c = true ->
  scan_int (Itoa n +:+ String c rest) = Some (n, String c rest).
Proof.
  intros Hn Hc. assert (Hu : is_u64 n) by (unfold is_u64, W64; lia).
  pose proof (digits_value_Itoa n Hu) as Hv. pose proof (Itoa_nonempty n) as He.
  pose proof (ParseInt_Itoa n Hn) as Hp. pose proof (all_digits _ _ _ Hv) as Hall.
  assert (Hcd : is_digit c = false).
  { unfold is_digit. destruct (digit c) as [d|] eqn:Hd; [|done].
    destruct (digit_not_sign c d Hd) as [Hw _]. by rewrite Hw in Hc. }
  unfold scan_int. destruct (Itoa n) as [|d s]; [done|].
  assert (Hd : exists x, digit d = Some x) by (cbn in Hv; destruct (digit d); [eauto|done]).
  destruct Hd as [x Hd]. destruct (digit_not_sign d x Hd) as (Hdw & Hm & Hpl).
  change (String d s +:+ String c rest) with (String d (s +:+ String c rest)). cbn [skip_white].
  rewrite Hdw. cbv zeta. rewrite Hm, Hpl. cbn [orb].
  change (String d (s +:+ String c rest)) with (String d s +:+ String c rest).
  rewrite span_all by done. cbv beta iota. change ("" +:+ String d s) with (String d s). by rewrite Hp.
Qed.

Lemma scan_word_end s : is_word_of s -> scan_word s = Some (s, "").
Proof.
  intros [Hne Hs]. unfold scan_word. destruct s as [|c s]; [done|].
  assert (Hc : is_white c = false) by (cbn in Hs; unfold not_white in Hs; by destruct (is_white c)).
  cbn [skip_white]. rewrite Hc.
  rewrite span_all_end by exact Hs. done.
Qed.

Lemma trim_right_last s c : is_white c = false -> trim_right (s +:+ String c "") = s +:+ String c "".
Proof.
  intros Hc. induction s as [|d s IH].
  { change (trim_right (String c "") = String c ""). cbn [trim_right]. by rewrite Hc. }
  change (String d s +:+ String c "") with (String d (s +:+ String c "")). cbn [trim_right].
  rewrite IH. by destruct s.
Qed.

(** The end of a word is its last character. *)
Lemma word_last s : is_word_of s -> exists t c, s = t +:+ String c "" /\ is_white c = false.
Proof.
  intros [Hne Hs]. induction s as [|c s IH]; [done|]. cbn in Hs. apply andb_true_iff in Hs as [Hc Hs].
  destruct s as [|d s].
  - exists "", c. split; [done|]. unfold not_white in Hc. by destruct (is_white c).
  - destruct IH as (t & e & Heq & He); [done|done|]. exists (String c t), e. split; [|done].
    by rewrite Heq.
Qed.

Lemma all_chars_split f sep s : f sep = false -> all_chars f s = true -> split_first sep s = None.
Proof.
  intros Hf. induction s as [|c s IH]; intros Hs; [done|].
  cbn [all_chars] in Hs. apply andb_true_iff in Hs as [Hc Hs]. cbn [split_first].
  destruct (Ascii.eqb_spec c sep) as [->|]; [congruence|]. by rewrite IH.
Qed.

(** What [btrfs subvolume list] prints, one line for each subvolume. *)
Definition show_volume (v : BtrfsVolume) : string :=
  "ID " +:+ (Itoa (bv_ID v) +:+ (" gen " +:+ (Itoa (bv_Generation v) +:+ (" top level " +:+
  (Itoa (bv_ParentID v) +:+ (" path " +:+ bv_Path v)))))).

Definition show_volumes (vs : list BtrfsVolume) : string :=
  foldr (fun v out => show_volume v +:+ String nl out) "" vs.

Definition printable (v : BtrfsVolume) : Prop :=
  0 <= bv_ID v < 2 ^ 63 /\ 0 <= bv_Generation v < 2 ^ 63 /\ 0 <= bv_ParentID v < 2 ^ 63 /\
  is_word_of (bv_Path v).

Lemma sscanf_lit c f s : sscanf (VLit c :: f) (String c s) = sscanf f s.
Proof. cbn [sscanf]. by rewrite Ascii.eqb_refl. Qed.

Lemma sscanf_blank_lit c f s : is_white c = false ->
  sscanf (VSpace :: VLit c :: f) (String " " (String c s)) = sscanf f s.
Proof.
  intros Hc. cbn [sscanf]. change (is_white " ") with true. cbv iota.
  change (skip_white (String " " (String c s))) with (skip_white (String c s)). cbn [skip_white].
  by rewrite Hc, Ascii.eqb_refl.
Qed.

Lemma skip_white_Itoa n s : is_u64 n -> skip_white (String " " (Itoa n +:+ s)) = Itoa n +:+ s.
Proof.
  intros Hu. change (skip_white (String " " (Itoa n +:+ s))) with (skip_white (Itoa n +:+ s)).
  pose proof (digits_value_Itoa n Hu) as Hv. pose proof (Itoa_nonempty n) as He.
  destruct (Itoa n) as [|d t]; [done|].
  change (String d t +:+ s) with (String d (t +:+ s)). cbn [skip_white].
  cbn [digits_value] in Hv. destruct (digit d) as [x|] eqn:Hd; [|done].
  destruct (digit_not_sign d x Hd) as [Hw _]. by rewrite Hw.
Qed.

Lemma sscanf_blank_int n f rest : 0 <= n < 2 ^ 63 ->
  sscanf (VSpace :: VD :: f) (String " " (Itoa n +:+ String " " rest)) =
  match sscanf f (String " " rest) with Some l => Some (VInt n :: l) | None => None end.
Proof.
  intros Hn. cbn [sscanf]. change (is_white " ") with true. cbv iota.
  rewrite skip_white_Itoa by (unfold is_u64, W64; lia). by rewrite scan_int_Itoa.
Qed.

Lemma sscanf_blank_word w : is_word_of w -> sscanf [VSpace; VS] (String " " w) = Some [VStr w].
Proof.
  intros Hw. cbn [sscanf]. change (is_white " ") with true. cbv iota.
  change (skip_white (String " " w)) with (skip_white w).
  assert (Hskip : skip_white w = w).
  { destruct Hw as [Hne Hall]. destruct w as [|c w]; [done|]. cbn in Hall. cbn [skip_white].
    unfold not_white in Hall. by destruct (is_white c). }
  by rewrite Hskip, scan_word_end.
Qed.

Lemma parse_volume_show v : printable v -> parse_volume (show_volume v) = Some v.
Proof.
  destruct v as [path id gen parent]. intros (Hid & Hgen & Hparent & Hpath). cbn [bv_ID bv_Generation
    bv_ParentID bv_Path] in *.
  unfold parse_volume, Sscanf, show_volume. cbn [bv_ID bv_Generation bv_ParentID bv_Path].
  change (verbs "ID %d gen %d top level %d path %s") with
    [VLit "I"; VLit "D"; VSpace; VD; VSpace; VLit "g"; VLit "e"; VLit "n"; VSpace; VD; VSpace;
     VLit "t"; VLit "o"; VLit "p"; VSpace; VLit "l"; VLit "e"; VLit "v"; VLit "e"; VLit "l"; VSpace; VD;
     VSpace; VLit "p"; VLit "a"; VLit "t"; VLit "h"; VSpace; VS].
  change (" path " +:+ path) with (String " " (String "p" (String "a" (String "t" (String "h" (String " " path)))))).
  change (" top level " +:+ ?x) with
    (String " " (String "t" (String "o" (String "p" (String " " (String "l" (String "e" (String "v"
      (String "e" (String "l" (String " " x))))))))))).
  change (" gen " +:+ ?x) with (String " " (String "g" (String "e" (String "n" (String " " x))))).
  change ("ID " +:+ ?x) with (String "I" (String "D" (String " " x))).
  rewrite !sscanf_lit, sscanf_blank_int by done.
  rewrite sscanf_blank_lit, !sscanf_lit, sscanf_blank_int by done.
  rewrite sscanf_blank_lit, !sscanf_lit, sscanf_blank_lit, !sscanf_lit, sscanf_blank_int by done.
  rewrite sscanf_blank_lit, !sscanf_lit, sscanf_blank_word by done. reflexivity.
Qed.

Lemma all_chars_app f a b : all_chars f (a +:+ b) = all_chars f a && all_chars f b.
Proof.
  induction a as [|c a IH]; [done|].
  change (String c a +:+ b) with (String c (a +:+ b)). cbn [all_chars]. by rewrite IH, andb_assoc.
Qed.

Lemma all_chars_impl (f g : ascii -> bool) s : (forall c, f c = true -> g c = true) ->
  all_chars f s = true -> all_chars g s = true.
Proof.
  intros Hfg. induction s as [|c s IH]; [done|]. cbn [all_chars]. rewrite !andb_true_iff. intros []. auto.
Qed.

Definition not_nl (c : ascii) : bool := negb (Ascii.eqb c nl).

Lemma Itoa_not_nl n : is_u64 n -> all_chars not_nl (Itoa n) = true.
Proof.
  intros Hu. eapply all_chars_impl; [|exact (all_digits _ _ _ (digits_value_Itoa n Hu))].
  intros c. unfold is_digit. by destruct c as [[] [] [] [] [] [] [] []].
Qed.

Lemma word_not_nl w : is_word_of w -> all_chars not_nl w = true.
Proof.
  intros [_ Hw]. eapply all_chars_impl; [|exact Hw]. by intros [[] [] [] [] [] [] [] []].
Qed.

Lemma show_volume_not_nl v : printable v -> all_chars not_nl (show_volume v) = true.
Proof.
  intros (Hid & Hgen & Hparent & Hpath).
  unfold show_volume. assert (Hu : forall n, 0 <= n < 2 ^ 63 -> all_chars not_nl (Itoa n) = true)
    by (intros n Hn; apply Itoa_not_nl; unfold is_u64, W64; lia).
  by rewrite !all_chars_app, !Hu, (word_not_nl _ Hpath).
Qed.

Lemma TrimSpace_show_volume v : printable v -> TrimSpace (show_volume v) = show_volume v.
Proof.
  intros (_ & _ & _ & Hpath). destruct (word_last _ Hpath) as (t & c & Heq & Hc).
  unfold show_volume. rewrite Heq.
  change (TrimSpace ("ID " +:+ ?x)) with (trim_right ("ID " +:+ x)).
  rewrite <- !string_app_assoc. by apply trim_right_last.
Qed.

(** The list of subvolumes that btrfs prints is read back, every
    subvolume with its path, id, generation and parent, in the order printed,
    when no path holds white space. *)
Theorem parseSubvolList_show vs :
  Forall printable vs -> parseSubvolList (show_volumes vs) = Ok vs.
Proof.
  unfold parseSubvolList. induction 1 as [|v vs Hv Hvs IH]; [done|].
  change (show_volumes (v :: vs)) with (show_volume v +:+ String nl (show_volumes vs)).
  rewrite Split_app by by eapply all_chars_split, show_volume_not_nl. cbn [parse_volumes].
  rewrite TrimSpace_show_volume, parse_volume_show by done. rewrite IH.
  destruct (String.eqb_spec (show_volume v) "") as [He|]; [|done]. discriminate He.
Qed.

Lemma parseSubvolList_show_witness :
  let vs := [MkBtrfsVolume "12-1" 259 14 5; MkBtrfsVolume "zdb-3f" 262 21 5] in
  parseSubvolList (show_volumes vs) = Ok vs.
Proof.
  cbv zeta. apply (parseSubvolList_show [MkBtrfsVolume "12-1" 259 14 5; MkBtrfsVolume "zdb-3f" 262 21 5]).
  repeat constructor; done.
Defined.
