(* ===== verification/Btrfs.v ===== *)
(** The pools of the storage module: src/pkg/storage/filesystem/btrfs.go.

    A pool is a btrfs file system: its name, which is the label of the file
    system, and its devices. What it holds is on the disks and is read through
    the btrfs program ([BtrfsUtil]) and the mount table. [Sys] is what else the
    pools use of the operating system. Paths are joined from clean elements: the
    name of a pool or of a volume is one path element, and the name of a volume
    is the last element of its path. Numeric ids are not negative.

    [pools] implements the interface [PoolOps] of [Storage]; [BtrfsLaws] says what
    the commands do to a file system, and [btrfs_PoolLaws] that the pools then
    keep the laws the storage module relies on. *)

From stdpp Require Import gmap strings list.
From Stdlib Require Import Ascii ZArith Lia FunctionalExtensionality.
From S2P Require Import Prelude Reservation Cache ZdbPool Storage Device BtrfsUtil.

Open Scope Z_scope.
Open Scope go_scope.

(** ** The operating system *)

Class Sys (W : Type) := {
  MkdirAll : string -> M W unit;
  sys_Mount : string -> string -> M W unit;
  sys_Unmount : string -> M W unit;
  proc_mounts : W -> string;
  FilesUsage : string -> W -> res Z;
  hdparm : string -> M W unit;
  (** the 0-db directory at a path *)
  zdb_at : string -> W -> ZDBPool;
  set_zdb_at : string -> ZDBPool -> W -> W;
  (** [DeviceManager.ByLabel] *)
  dev_ByLabel : string -> W -> res (list Device)
}.

Record btrfsPool := MkBtrfsPool { p_name : string; p_devices : list Device }.

(** A profile that is not in the map has divisor 0. *)
Definition raidSizeDivisor (profile : string) : Z :=
  if (profile =? "single")%string then 1
  else if (profile =? "raid1")%string || (profile =? "raid10")%string then 2 else 0.

Definition Join (dir name : string) : string := dir +:+ "/" +:+ name.

(** The id of the quota group of a subvolume. *)
Definition gid (id : Z) : string := "0/" +:+ Itoa id.

Section btrfs.
  Context {W : Type} `{BtrfsUtil W} `{Sys W}.

(** Each line of /proc/mounts has six fields, so the parser does not panic. *)
Definition GetMountTarget (device : string) (w : W) : option string :=
  match getMountTarget (proc_mounts w) device with Ok t => t | _ => None end.

(** ** Creating and listing file systems *)

Definition create (name policy : string) (force : bool) (devices : list Device) : M W btrfsPool :=
  let name := TrimSpace name in
  if (name =? "")%string then throw (ErrMsg "invalid name")
  else
    block ← ask (dev_ByLabel name);
    if negb (is_empty block) then throw (ErrMsg "unique name is required")
    else if existsb Used devices then throw (ErrMsg "device is already used")
    else
      u_run "mkfs.btrfs" (["-L"; name; "-d"; policy; "-m"; policy] ++ (if force then ["-f"] else []) ++
                          (d_Path <$> devices)) ;;
      mret (MkBtrfsPool name
        ((fun d => MkDevice (d_Path d) name BtrfsFSType (d_Children d) (d_DiskType d) (d_ReadTime d)
                     (d_Subsystems d) (d_HasPartions d)) <$> devices)).

Definition Create (name policy : string) (devices : list Device) : M W btrfsPool :=
  create name policy false devices.

Definition CreateForce (name policy : string) (devices : list Device) : M W btrfsPool :=
  create name policy true devices.

Fixpoint labelled_pools (flt : btrfsPool -> bool) (available : list Btrfs) : M W (list btrfsPool) :=
  match available with
  | [] => mret []
  | fs :: available =>
      if (b_Label fs =? "")%string then labelled_pools flt available
      else
        devices ← ask (dev_ByLabel (b_Label fs));
        let pool := MkBtrfsPool (b_Label fs) devices in
        if negb (flt pool) then labelled_pools flt available
        else if is_empty devices then
          throw (ErrMsg ("pool " +:+ b_Label fs +:+ " has no corresponding devices on the system"))
        else rest ← labelled_pools flt available; mret (pool :: rest)
  end.

Definition List_fs (flt : btrfsPool -> bool) : M W (list btrfsPool) :=
  available ← ask (u_List "" false);
  match available with
  | (available, None) => labelled_pools flt available
  | (_, Some e) => throw e
  end.

(** ** A pool *)

Fixpoint first_target (devices : list BtrfsDevice) (w : W) : option string :=
  match devices with
  | [] => None
  | d :: devices =>
      match GetMountTarget (bd_Path d) w with
      | Some target => Some target
      | None => first_target devices w
      end
  end.

(** [mounted]. *)
Definition fs_mounted (fs : Btrfs) (w : W) : option string := first_target (b_Devices fs) w.

(** The error of the list is ignored, what was read before it is not. Where the
    parser of the list panics so does the code; here the pool is not mounted. *)
Definition Mounted (p : btrfsPool) (w : W) : option string :=
  match u_List (p_name p) true w with
  | Ok ([fs], _) => fs_mounted fs w
  | _ => None
  end.

Definition pool_Path (p : btrfsPool) : string := Join "/mnt" (p_name p).

Definition newBtrfsVolume (p : btrfsPool) (id : Z) (root name : string) : Volume :=
  MkVolume (p_name p) name id (Join root name).

Definition Volumes (p : btrfsPool) (w : W) : res (list Volume) :=
  match Mounted p w with
  | None => Err ErrDeviceNotMounted
  | Some mnt =>
      res_map (fun subs => (fun sub => newBtrfsVolume p (bv_ID sub) mnt (bv_Path sub)) <$> subs)
        (u_SubvolumeList mnt w)
  end.

(** The order in which a Go map is read is not specified; it is that of
    [map_to_list] here. *)
Definition maintenance (p : btrfsPool) : M W unit :=
  volumes ← ask (Volumes p);
  qgroups ← ask (u_QGroupList (pool_Path p));
  for_each (fun qgroupID =>
    if bool_decide (qgroupID ∈ (fun v => gid (v_ID v)) <$> volumes) then mret tt
    else u_QGroupDestroy qgroupID (pool_Path p)) (map_to_list qgroups).*1.

Definition mount_at_home (p : btrfsPool) (device : string) : M W string :=
  MkdirAll (pool_Path p) ;;
  sys_Mount device (pool_Path p) ;;
  wrap "failed to enable qgroup" (u_QGroupEnable (pool_Path p)) ;;
  maintenance p ;;
  mret (pool_Path p).

Definition Mount (p : btrfsPool) : M W string :=
  listed ← ask (u_List (p_name p) false);
  match listed with
  | ([fs], _) =>
      match b_Devices fs with
      | [] => mret ""
      | d :: _ =>
          target ← gets (fs_mounted fs);
          match target with
          | Some mnt => mret mnt
          | None => mount_at_home p (bd_Path d)
          end
      end
  | _ => throw (ErrMsg ("unknown pool '" +:+ p_name p +:+ "'"))
  end.

Definition MountWithoutScan (p : btrfsPool) : M W string :=
  match p_devices p with
  | [] => MkdirAll (pool_Path p) ;; panic "index out of range"
  | d :: _ => mount_at_home p (d_Path d)
  end.

Definition UnMount (p : btrfsPool) : M W unit :=
  mnt ← gets (Mounted p);
  match mnt with
  | None => mret tt
  | Some mnt => sys_Unmount mnt
  end.

Definition AddVolume (p : btrfsPool) (name : string) : M W Volume :=
  mnt ← gets (Mounted p);
  match mnt with
  | None => throw ErrDeviceNotMounted
  | Some mnt =>
      u_SubvolumeAdd (Join mnt name) ;;
      volume ← ask (u_SubvolumeInfo (Join mnt name));
      mret (newBtrfsVolume p (bv_ID volume) mnt name)
  end.

(** The quota group is looked for at the path of the pool, wherever the pool is
    mounted. *)
Definition RemoveVolume (p : btrfsPool) (name : string) : M W unit :=
  mnt ← gets (Mounted p);
  match mnt with
  | None => throw ErrDeviceNotMounted
  | Some mnt =>
      info ← ask (u_SubvolumeInfo (Join mnt name));
      u_SubvolumeRemove (Join mnt name) ;;
      wrap ("failed to delete qgroup " +:+ gid (bv_ID info))
        (u_QGroupDestroy (gid (bv_ID info)) (pool_Path p))
  end.

(** The sum over the devices of the first file system of that name; a profile
    without divisor is a division by zero. *)
Definition pool_usage (p : btrfsPool) (w : W) : res Usage :=
  match Mounted p w with
  | None => Err ErrDeviceNotMounted
  | Some mnt =>
      match u_GetDiskUsage mnt w with
      | Ok du =>
          match u_List (p_name p) true w with
          | Ok (_, Some e) => Err e
          | Ok ([], None) => Err (ErrMsg ("could not find total size of pool " +:+ p_name p))
          | Ok (fs :: _, None) =>
              let totalSize := foldl (fun t dev => t +u u64 (bd_Size dev)) 0 (b_Devices fs) in
              let divisor := raidSizeDivisor (du_Profile (Data du)) in
              if divisor =? 0 then Panic "integer divide by zero"
              else Ok (MkUsage (totalSize / divisor) (u64 (b_Used fs)))
          | Err e => Err e
          | Panic m => Panic m
          end
      | Err e => Err e
      | Panic m => Panic m
      end
  end.

(** A pool has at least one device; on one that has none the code panics. *)
Definition Type_ (p : btrfsPool) : DeviceType :=
  match p_devices p with d :: _ => d_DiskType d | [] => OtherDevice "" end.

Definition Shutdown (p : btrfsPool) : M W unit :=
  for_each (fun d => hdparm (d_Path d)) (p_devices p).

(** The devices of a pool have different paths. *)
Definition AddDevice (p : btrfsPool) (device : Device) : M W btrfsPool :=
  mnt ← gets (Mounted p);
  match mnt with
  | None => throw ErrDeviceNotMounted
  | Some mnt =>
      u_DeviceAdd (d_Path device) mnt ;;
      mret (MkBtrfsPool (p_name p) (p_devices p ++
        [MkDevice (d_Path device) (p_name p) BtrfsFSType (d_Children device) (d_DiskType device)
           (d_ReadTime device) (d_Subsystems device) (d_HasPartions device)]))
  end.

Definition RemoveDevice (p : btrfsPool) (device : Device) : M W btrfsPool :=
  mnt ← gets (Mounted p);
  match mnt with
  | None => throw ErrDeviceNotMounted
  | Some mnt =>
      u_DeviceRemove (d_Path device) mnt ;;
      mret (MkBtrfsPool (p_name p) (filter (fun d => d_Path d <> d_Path device) (p_devices p)))
  end.

(** ** A volume *)

(** The quota group of a volume; without one nothing is known of the usage. *)
Definition with_group (v : Volume) (w : W) (usage : BtrfsQGroup -> res Usage) : res Usage :=
  match u_SubvolumeInfo (v_Path v) w with
  | Ok info =>
      match u_QGroupList (v_Path v) w with
      | Ok groups =>
          match groups !! gid (bv_ID info) with
          | None => Ok (MkUsage 0 0)
          | Some group => usage group
          end
      | Err e => Err e
      | Panic m => Panic m
      end
  | Err e => Err e
  | Panic m => Panic m
  end.

(** A volume without a limit reserves the size of its files. *)
Definition btrfsVolume_Usage (v : Volume) (w : W) : res Usage :=
  with_group v w (fun group =>
    if q_MaxRfer group =? 0 then
      match FilesUsage (v_Path v) w with
      | Ok size => Ok (MkUsage size (q_Rfer group))
      | Err e => Err (ErrWrap "failed to get subvolume usage" e)
      | Panic m => Panic m
      end
    else Ok (MkUsage (q_MaxRfer group) (q_Rfer group))).

Definition zdbBtrfsVolume_Usage (v : Volume) (w : W) : res Usage :=
  with_group v w (fun group =>
    match ZDBPool_Reserved (zdb_at (v_Path v) w) with
    | Ok size => Ok (MkUsage size (q_Rfer group))
    | Err e => Err (ErrWrap "failed to calculate namespaces size" e)
    | Panic m => Panic m
    end).

(** The type of a volume follows from its name. *)
Definition volume_Usage (v : Volume) (w : W) : res Usage :=
  if IsZDBVolume v then zdbBtrfsVolume_Usage v w else btrfsVolume_Usage v w.

Definition Limit (v : Volume) (size : Z) : M W unit := u_QGroupLimit size (v_Path v).

Fixpoint sum_usage (volumes : list Volume) (total : Z) (w : W) : res Z :=
  match volumes with
  | [] => Ok total
  | v :: volumes =>
      match volume_Usage v w with
      | Ok usage => sum_usage volumes (total +u Size usage) w
      | Err e => Err e
      | Panic m => Panic m
      end
  end.

Definition Reserved (p : btrfsPool) (w : W) : res Z :=
  match Volumes p w with
  | Ok volumes => sum_usage volumes 0 w
  | Err e => Err e
  | Panic m => Panic m
  end.

End btrfs.

(** ** The interface of the storage module

    The module knows a pool by its name. *)
Definition pools {W} `{BtrfsUtil W} `{Sys W} (pool_of : string -> btrfsPool) : PoolOps W := {|
  pool_Type p := Type_ (pool_of p);
  pool_Mounted p := Mounted (pool_of p);
  pool_Mount p := Mount (pool_of p);
  pool_MountWithoutScan p := MountWithoutScan (pool_of p);
  pool_UnMount p := UnMount (pool_of p);
  pool_Shutdown p := Shutdown (pool_of p);
  pool_Usage p := pool_usage (pool_of p);
  pool_Reserved p := Reserved (pool_of p);
  pool_Volumes p := Volumes (pool_of p);
  pool_AddVolume p := AddVolume (pool_of p);
  pool_RemoveVolume p := RemoveVolume (pool_of p);
  vol_Usage := volume_Usage;
  vol_Limit := Limit;
  vol_zdb := zdb_at;
  vol_set_zdb := set_zdb_at
|}.

(** ** What the commands do

    A file system holds subvolumes by name and quota groups by id. [pool_of] is
    the pool of a name, [raw_size] the size of all its devices, [raid] its data
    profile. *)

Record subvol := MkSubvol { sub_ID : Z; sub_files : Z; sub_zdb : ZDBPool }.

Class FsView (W : Type) := {
  subvols : W -> string -> gmap string subvol;
  qgroups : W -> string -> gmap string BtrfsQGroup;
  pool_of : string -> btrfsPool;
  raw_size : string -> Z;
  raid : string -> string
}.

Definition home (p : string) : string := Join "/mnt" p.

(** [m] changes no subvolume and no quota group. *)
Definition inert {W A} `{FsView W} (m : M W A) : Prop :=
  forall w, subvols (fst (m w)) = subvols w /\ qgroups (fst (m w)) = qgroups w.

(** [m] changes the pool [p] only, to the subvolumes [f] and the groups [g] if
    it succeeds, and not at all if it does not. *)
Definition updates {W A} `{FsView W} (m : M W A) (p : string) (w : W)
    (ok : gmap string subvol -> gmap string BtrfsQGroup -> Prop) : Prop :=
  (forall q, q <> p -> subvols (fst (m w)) q = subvols w q /\ qgroups (fst (m w)) q = qgroups w q) /\
  match snd (m w) with
  | Ok _ => ok (subvols (fst (m w)) p) (qgroups (fst (m w)) p)
  | _ => subvols (fst (m w)) p = subvols w p /\ qgroups (fst (m w)) p = qgroups w p
  end.

(** The documented behaviour of the btrfs commands and of the system calls, on
    pools that are mounted at their own path, as this code mounts them. *)
Class BtrfsLaws (W : Type) `{BtrfsUtil W} `{Sys W} `{FsView W} : Prop := {
  b_name p : p_name (pool_of p) = p;
  b_home p w mnt : Mounted (pool_of p) w = Some mnt -> mnt = home p;
  (** every subvolume has an id of its own *)
  b_ids p w n m s s' : subvols w p !! n = Some s -> subvols w p !! m = Some s' ->
    sub_ID s = sub_ID s' -> n = m;
  b_id_u64 p w n s : subvols w p !! n = Some s -> is_u64 (sub_ID s);
  (** what is reported is there *)
  b_List p w fs rest : u_List p true w = Ok (fs :: rest, None) ->
    foldl (fun t dev => t +u u64 (bd_Size dev)) 0 (b_Devices fs) = raw_size p;
  b_df p w du : u_GetDiskUsage (home p) w = Ok du -> du_Profile (Data du) = raid p;
  b_SubvolumeList p w l : u_SubvolumeList (home p) w = Ok l ->
    ((fun v => (bv_Path v, bv_ID v)) <$> l) ≡ₚ map_to_list (sub_ID <$> subvols w p);
  b_SubvolumeInfo p n w v : u_SubvolumeInfo (Join (home p) n) w = Ok v ->
    sub_ID <$> subvols w p !! n = Some (bv_ID v);
  b_QGroupList p w gs : is_Some (Mounted (pool_of p) w) -> u_QGroupList (home p) w = Ok gs -> gs = qgroups w p;
  b_QGroupList_vol p n w gs : is_Some (subvols w p !! n) ->
    u_QGroupList (Join (home p) n) w = Ok gs -> gs = qgroups w p;
  b_FilesUsage p n w s size : subvols w p !! n = Some s ->
    FilesUsage (Join (home p) n) w = Ok size -> size = sub_files s;
  b_zdb p n w s : subvols w p !! n = Some s -> zdb_at (Join (home p) n) w = sub_zdb s;
  (** what does not touch the file systems, nor the mounts of other pools *)
  b_MkdirAll path : inert (MkdirAll path);
  b_Mount dev target : inert (sys_Mount dev target);
  b_Unmount target : inert (sys_Unmount target);
  b_hdparm dev : inert (hdparm dev);
  b_mounted_hdparm dev w q : Mounted (pool_of q) (fst (hdparm dev w)) = Mounted (pool_of q) w;
  b_mounted_Unmount p w q : q <> p ->
    Mounted (pool_of q) (fst (sys_Unmount (home p) w)) = Mounted (pool_of q) w;
  b_mounted_Remove p n w q :
    Mounted (pool_of q) (fst (u_SubvolumeRemove (Join (home p) n) w)) = Mounted (pool_of q) w;
  b_mounted_Destroy id p w q :
    Mounted (pool_of q) (fst (u_QGroupDestroy id (home p) w)) = Mounted (pool_of q) w;
  (** quota stays enabled: the groups of the subvolumes do not change *)
  b_QGroupEnable p w : updates (u_QGroupEnable (home p)) p w (fun sv gs =>
    sv = subvols w p /\ forall n s, sv !! n = Some s ->
      gs !! gid (sub_ID s) = qgroups w p !! gid (sub_ID s));
  (** a new subvolume is empty, has a new id, and a group without a limit *)
  b_SubvolumeAdd p n w : updates (u_SubvolumeAdd (Join (home p) n)) p w (fun sv gs =>
    subvols w p !! n = None /\ exists id, is_u64 id /\ sv = <[n := MkSubvol id 0 ∅]> (subvols w p) /\
    (forall m s, subvols w p !! m = Some s -> sub_ID s <> id) /\
    (forall m s, subvols w p !! m = Some s -> gs !! gid (sub_ID s) = qgroups w p !! gid (sub_ID s)) /\
    (forall g, gs !! gid id = Some g -> q_MaxRfer g = 0));
  b_SubvolumeRemove p n w : updates (u_SubvolumeRemove (Join (home p) n)) p w (fun sv gs =>
    sv = delete n (subvols w p) /\ forall m s, sv !! m = Some s ->
      gs !! gid (sub_ID s) = qgroups w p !! gid (sub_ID s));
  b_QGroupDestroy id p w : updates (u_QGroupDestroy id (home p)) p w (fun sv gs =>
    sv = subvols w p /\ gs = delete id (qgroups w p));
  b_QGroupLimit size p n w : 0 < size -> updates (u_QGroupLimit size (Join (home p) n)) p w (fun sv gs =>
    sv = subvols w p /\ forall s, sv !! n = Some s ->
      exists g, q_MaxRfer g = size /\ gs = <[gid (sub_ID s) := g]> (qgroups w p))
}.

(** What [Usage] reports as the size of a volume. *)
Definition reserved_size (n : string) (s : subvol) (group : option BtrfsQGroup) : Z :=
  match group with
  | None => 0
  | Some g =>
      if HasPrefix n "zdb" then match ZDBPool_Reserved (sub_zdb s) with Ok r => r | _ => 0 end
      else if q_MaxRfer g =? 0 then sub_files s else q_MaxRfer g
  end.

(** The volumes of a pool with the size each has reserved. *)
Definition promise {W} `{FsView W} (w : W) (p : string) : gmap string Z :=
  map_imap (fun n s => Some (reserved_size n s (qgroups w p !! gid (sub_ID s)))) (subvols w p).

#[export] Instance btrfs_view {W} `{FsView W} : PoolView W := {|
  vols := promise;
  psize p := raw_size p / raidSizeDivisor (raid p);
  wf_volume v := v_Path v = Join (home (v_Pool v)) (v_Name v)
|}.

Lemma gid_inj a b : is_u64 a -> is_u64 b -> gid a = gid b -> a = b.
Proof.
  unfold gid. intros Ha Hb Hg. injection Hg as Hg. change (Itoa a = Itoa b) in Hg.
  pose proof (ParseUint_Itoa a Ha) as H1. rewrite Hg, ParseUint_Itoa in H1 by done. by injection H1.
Qed.

Section laws.
  Context {W : Type} `{BtrfsLaws W}.

Lemma promise_lookup w p n :
  promise w p !! n = (fun s => reserved_size n s (qgroups w p !! gid (sub_ID s))) <$> subvols w p !! n.
Proof. unfold promise. rewrite map_lookup_imap. by destruct (subvols w p !! n). Qed.

(** [w'] has the subvolumes of [w] and their groups; other groups may differ. *)
Definition agree (w w' : W) : Prop := forall p, subvols w' p = subvols w p /\
  forall n s, subvols w p !! n = Some s -> qgroups w' p !! gid (sub_ID s) = qgroups w p !! gid (sub_ID s).

Lemma agree_refl w : agree w w.
Proof. by intros p. Qed.

Lemma agree_promise w w' : agree w w' -> promise w' = promise w.
Proof.
  intros Ha. apply functional_extensionality. intros p. destruct (Ha p) as [Hs Hg].
  apply map_eq. intros n. rewrite !promise_lookup, Hs.
  destruct (subvols w p !! n) as [s|] eqn:Hn; [|done]. cbn. by rewrite (Hg n s Hn).
Qed.

Lemma agree_inert {A} w0 (m : M W A) : inert m -> keeps (agree w0) m.
Proof.
  intros Hm w Hw p. destruct (Hm w) as [Hs Hq]. rewrite Hs, Hq. apply Hw.
Qed.

(** A step that changes one pool, on which it keeps the subvolumes and their groups. *)
Lemma agree_updates {A} w0 w (m : M W A) p ok : agree w0 w -> updates m p w ok ->
  (forall sv gs, ok sv gs -> sv = subvols w p /\ forall n s, subvols w p !! n = Some s ->
     gs !! gid (sub_ID s) = qgroups w p !! gid (sub_ID s)) ->
  agree w0 (fst (m w)).
Proof.
  intros Hw [Hother Hp] Hok q. destruct (Hw q) as [Hs Hg].
  assert (Hself : q = p -> subvols (fst (m w)) p = subvols w p /\
    forall n s, subvols w p !! n = Some s ->
      qgroups (fst (m w)) p !! gid (sub_ID s) = qgroups w p !! gid (sub_ID s)).
  { intros _. destruct (snd (m w)) as [a|e|k]; [by apply Hok|by destruct Hp as [-> ->]..]. }
  destruct (decide (q = p)) as [->|Hq].
  - destruct (Hself eq_refl) as [-> Hg']. split; [done|]. intros n s Hn.
    rewrite Hg' with (n := n) by by rewrite Hs. by apply (Hg n).
  - destruct (Hother q Hq) as [-> ->]. by split.
Qed.

Lemma keeps_QGroupEnable w0 p : keeps (agree w0) (u_QGroupEnable (home p)).
Proof.
  intros w Hw. apply (agree_updates w0 w _ p _ Hw (b_QGroupEnable p w)).
  intros sv gs [-> Hg]. split; [done|exact Hg].
Qed.

(** Destroying a group that no subvolume of the pool has. *)
Lemma keeps_QGroupDestroy w0 p id :
  (forall n s, subvols w0 p !! n = Some s -> gid (sub_ID s) <> id) ->
  keeps (agree w0) (u_QGroupDestroy id (home p)).
Proof.
  intros Hid w Hw. apply (agree_updates w0 w _ p _ Hw (b_QGroupDestroy id p w)).
  intros sv gs [-> ->]. split; [done|]. intros n s Hn. rewrite lookup_delete_ne; [done|].
  destruct (Hw p) as [Hs _]. rewrite Hs in Hn. apply not_eq_sym. by eapply Hid.
Qed.

Lemma home_Path p : pool_Path (pool_of p) = home p.
Proof. unfold pool_Path. by rewrite b_name. Qed.

Lemma Volumes_spec p w l : Volumes (pool_of p) w = Ok l ->
  ((fun v => (v_Name v, v_ID v)) <$> l) ≡ₚ map_to_list (sub_ID <$> subvols w p) /\
  Forall (fun v => v_Pool v = p /\ v_Path v = Join (home p) (v_Name v)) l.
Proof.
  unfold Volumes. destruct (Mounted (pool_of p) w) as [mnt|] eqn:Hm; [|done].
  rewrite (b_home p w mnt Hm). destruct (u_SubvolumeList (home p) w) as [subs|e|k] eqn:Hl; [|done..].
  intros [= <-]. split.
  - rewrite <- list_fmap_compose. by apply b_SubvolumeList.
  - apply Forall_fmap, Forall_true. intros v. cbn. by rewrite b_name.
Qed.

(** A volume of the list is a subvolume, with its id. *)
Lemma Volumes_elem p w l n s : Volumes (pool_of p) w = Ok l -> subvols w p !! n = Some s ->
  exists v, v ∈ l /\ v_Name v = n /\ v_ID v = sub_ID s.
Proof.
  intros Hl Hn. apply Volumes_spec in Hl as [Hl _].
  assert (Hin : (n, sub_ID s) ∈ (fun v => (v_Name v, v_ID v)) <$> l).
  { rewrite Hl. apply elem_of_map_to_list. by rewrite lookup_fmap, Hn. }
  apply list_elem_of_fmap in Hin as (v & [= -> ->] & Hv). by exists v.
Qed.

Lemma keeps_maintenance w0 p : keeps (agree w0) (maintenance (pool_of p)).
Proof.
  unfold maintenance. intros w Hw. unfold mbind, M_bind, ask.
  destruct (Volumes (pool_of p) w) as [l|e|k] eqn:Hl; [|done..]. rewrite home_Path.
  destruct (u_QGroupList (home p) w) as [gs|e|k]; [|done..].
  apply keeps_for_each; [|done]. intros id _. case_bool_decide as Hid; [apply keeps_ret|].
  apply keeps_QGroupDestroy. intros n s Hn <-. apply Hid.
  destruct (Hw p) as [Hs _]. rewrite <- Hs in Hn.
  destruct (Volumes_elem p w l n s Hl Hn) as (v & Hv & _ & Hvid).
  apply list_elem_of_fmap. exists v. by rewrite Hvid.
Qed.

Lemma keeps_mount_at_home w0 p dev : keeps (agree w0) (mount_at_home (pool_of p) dev).
Proof.
  unfold mount_at_home. rewrite home_Path.
  apply keeps_bind; [apply agree_inert, b_MkdirAll|intros _].
  apply keeps_bind; [apply agree_inert, b_Mount|intros _].
  apply keeps_bind; [apply keeps_wrap, keeps_QGroupEnable|intros _].
  apply keeps_bind; [apply keeps_maintenance|intros _]. apply keeps_ret.
Qed.

Lemma keeps_Shutdown w0 p : keeps (agree w0) (Shutdown (pool_of p)).
Proof. apply keeps_for_each. intros d _. apply agree_inert, b_hdparm. Qed.

Lemma keeps_UnMount w0 p : keeps (agree w0) (UnMount (pool_of p)).
Proof.
  unfold UnMount. apply keeps_bind; [apply keeps_gets|].
  intros [mnt|]; [apply agree_inert, b_Unmount|apply keeps_ret].
Qed.

Lemma keeps_MountWithoutScan w0 p : keeps (agree w0) (MountWithoutScan (pool_of p)).
Proof.
  unfold MountWithoutScan. destruct (p_devices (pool_of p)).
  - apply keeps_bind; [apply agree_inert, b_MkdirAll|intros _; apply keeps_panic].
  - apply keeps_mount_at_home.
Qed.

(** ** Reserved *)

Lemma volume_Usage_spec p w v s u :
  subvols w p !! v_Name v = Some s -> v_Path v = Join (home p) (v_Name v) ->
  volume_Usage v w = Ok u -> Size u = reserved_size (v_Name v) s (qgroups w p !! gid (sub_ID s)).
Proof.
  intros Hs Hpath.
  assert (Hgroup : forall usage, with_group v w usage = Ok u ->
    (qgroups w p !! gid (sub_ID s) = None /\ Size u = 0) \/
    exists g, qgroups w p !! gid (sub_ID s) = Some g /\ usage g = Ok u).
  { intros usage. unfold with_group. rewrite Hpath.
    destruct (u_SubvolumeInfo _ w) as [info|e|k] eqn:Hi; [|done..].
    apply b_SubvolumeInfo in Hi. rewrite Hs in Hi. injection Hi as <-.
    destruct (u_QGroupList _ w) as [gs|e|k] eqn:Hg; [|done..].
    rewrite (b_QGroupList_vol p (v_Name v) w gs) by eauto.
    destruct (qgroups w p !! gid (sub_ID s)) as [g|]; [intros Hg'; right; eauto|intros [= <-]; by left]. }
  unfold volume_Usage, reserved_size, IsZDBVolume. destruct (HasPrefix (v_Name v) "zdb").
  - intros Hu. destruct (Hgroup _ Hu) as [[-> ->]|(g & -> & Hg)]; [done|].
    rewrite Hpath, (b_zdb p _ w s Hs) in Hg.
    by destruct (ZDBPool_Reserved (sub_zdb s)); simplify_eq.
  - intros Hu. destruct (Hgroup _ Hu) as [[-> ->]|(g & -> & Hg)]; [done|].
    destruct (q_MaxRfer g =? 0); [|by injection Hg as <-]. rewrite Hpath in Hg.
    destruct (FilesUsage _ w) as [size|e|k] eqn:Hf; [|done..]. injection Hg as <-.
    by rewrite (b_FilesUsage p _ w s size Hs Hf).
Qed.

Lemma sum_usage_spec p w l : forall total r, is_u64 total ->
  Forall (fun v => is_Some (subvols w p !! v_Name v) /\ v_Path v = Join (home p) (v_Name v)) l ->
  sum_usage l total w = Ok r ->
  r = u64 (total + zsum (fun v => default 0 (promise w p !! v_Name v)) l).
Proof.
  induction l as [|v l IH]; intros total r Ht Hl; cbn [sum_usage].
  { intros [= <-]. cbn. by rewrite Z.add_0_r, u64_id. }
  inversion Hl as [|? ? [[s Hs] Hpath] Hl']; subst.
  destruct (volume_Usage v w) as [u|e|k] eqn:Hu; [|done..]. intros Hrun.
  rewrite (IH _ _ (u64_range _) Hl' Hrun). unfold u64_add. rewrite u64_add_u64_l. f_equal.
  cbn [zsum foldr]. rewrite promise_lookup, Hs. cbn.
  rewrite (volume_Usage_spec p w v s u Hs Hpath Hu). unfold zsum. lia.
Qed.

Lemma Volumes_names p w l : Volumes (pool_of p) w = Ok l -> v_Name <$> l ≡ₚ (map_to_list (promise w p)).*1.
Proof.
  intros Hl. apply Volumes_spec in Hl as [Hl _].
  assert (Hn : v_Name <$> l ≡ₚ (map_to_list (sub_ID <$> subvols w p)).*1).
  { rewrite <- Hl, <- list_fmap_compose. done. }
  rewrite Hn. apply NoDup_Permutation; [apply NoDup_fst_map_to_list..|]. intros n.
  rewrite !list_elem_of_fmap. split; intros ([m x] & -> & Hm); apply elem_of_map_to_list in Hm.
  - rewrite lookup_fmap in Hm. destruct (subvols w p !! m) as [s|] eqn:Hs; [|done].
    exists (m, reserved_size m s (qgroups w p !! gid (sub_ID s))). split; [done|]. apply elem_of_map_to_list. rewrite promise_lookup, Hs. reflexivity.
  - rewrite promise_lookup in Hm. destruct (subvols w p !! m) as [s|] eqn:Hs; [|done].
    exists (m, sub_ID s). split; [done|]. apply elem_of_map_to_list. rewrite lookup_fmap, Hs. reflexivity.
Qed.

Lemma btrfs_Reserved_spec p w r : Reserved (pool_of p) w = Ok r ->
  r = u64 (zsum snd (map_to_list (promise w p))).
Proof.
  unfold Reserved. destruct (Volumes (pool_of p) w) as [l|e|k] eqn:Hl; [|done..]. intros Hr.
  apply (sum_usage_spec p w l 0 r) in Hr; [|done|].
  - rewrite Hr, Z.add_0_l, <- (zsum_keys _ _ (Volumes_names p w l Hl)), zsum_fmap. done.
  - pose proof (Volumes_names p w l Hl) as Hn. apply Volumes_spec in Hl as [_ Hl].
    rewrite Forall_forall in *. intros v Hv. destruct (Hl v Hv) as [_ Hpath]. split; [|done].
    assert (Hin : v_Name v ∈ (map_to_list (promise w p)).*1) by (rewrite <- Hn; by apply list_elem_of_fmap_2).
    apply list_elem_of_fmap in Hin as ([n x] & Hname & Hin). cbn in Hname. rewrite Hname.
    apply elem_of_map_to_list in Hin. rewrite promise_lookup in Hin.
    destruct (subvols w p !! n); [eauto|done].
Qed.

(** ** Changes *)

Lemma promise_other w w' q : subvols w' q = subvols w q -> qgroups w' q = qgroups w q ->
  promise w' q = promise w q.
Proof. unfold promise. by intros -> ->. Qed.

Lemma updates_other {A} (m : M W A) p w ok q : updates m p w ok -> q <> p ->
  promise (fst (m w)) q = promise w q.
Proof. intros [Hother _] Hq. destruct (Hother q Hq). by apply promise_other. Qed.

Lemma AddVolume_promise p n w :
  let '(w', x) := AddVolume (pool_of p) n w in
  (forall q, q <> p -> promise w' q = promise w q) /\
  match x with
  | Ok v => promise w p !! n = None /\ promise w' p = <[n := 0]> (promise w p) /\ v_Pool v = p /\
      v_Name v = n /\ v_Path v = Join (home p) n
  | _ => promise w' p = promise w p \/ (promise w p !! n = None /\ promise w' p = <[n := 0]> (promise w p))
  end.
Proof.
  unfold AddVolume, mbind, M_bind, gets, ask.
  destruct (Mounted (pool_of p) w) as [mnt|] eqn:Hm; [|by split; [|left]].
  rewrite (b_home p w mnt Hm). pose proof (b_SubvolumeAdd p n w) as Hadd.
  destruct (u_SubvolumeAdd (Join (home p) n) w) as [w' x] eqn:Hrun.
  pose proof (fun q => updates_other _ _ _ _ q Hadd) as Hother. destruct Hadd as [_ Hx].
  rewrite Hrun in Hother, Hx. cbn in Hother, Hx. destruct x as [[]|e|k].
  2,3: split; [exact Hother|left]; by destruct Hx; apply promise_other.
  destruct Hx as (Hn & id & Hid & Hs & Hfresh & Hg & Hlim).
  assert (Hnew : promise w p !! n = None /\ promise w' p = <[n := 0]> (promise w p)).
  { rewrite promise_lookup, Hn. split; [done|]. apply map_eq. intros m.
    rewrite promise_lookup, Hs. destruct (decide (m = n)) as [->|Hmn].
    - rewrite !lookup_insert_eq. cbn. unfold reserved_size.
      destruct (qgroups w' p !! gid id) as [g|] eqn:Hgid; [|done]. rewrite (Hlim g eq_refl). cbn.
      by destruct (HasPrefix n "zdb").
    - rewrite !lookup_insert_ne, promise_lookup by done.
      destruct (subvols w p !! m) as [s|] eqn:Hsm; [|done]. cbn. by rewrite (Hg m s Hsm). }
  destruct (u_SubvolumeInfo (Join (home p) n) w') as [v|e|k]; cbn.
  - split; [exact Hother|]. rewrite b_name. tauto.
  - by split; [exact Hother|right].
  - by split; [exact Hother|right].
Qed.

Lemma Limit_promise v size w :
  0 < size -> v_Path v = Join (home (v_Pool v)) (v_Name v) -> HasPrefix (v_Name v) "zdb" = false ->
  is_Some (promise w (v_Pool v) !! v_Name v) ->
  let '(w', x) := Limit v size w in
  (forall q, q <> v_Pool v -> promise w' q = promise w q) /\
  match x with
  | Ok _ => promise w' (v_Pool v) = <[v_Name v := size]> (promise w (v_Pool v))
  | _ => promise w' (v_Pool v) = promise w (v_Pool v)
  end.
Proof.
  intros Hsize Hpath Hz Hin. unfold Limit. rewrite Hpath.
  set (p := v_Pool v) in *. set (n := v_Name v) in *.
  pose proof (b_QGroupLimit size p n w Hsize) as Hlim.
  destruct (u_QGroupLimit size (Join (home p) n) w) as [w' x] eqn:Hrun.
  pose proof (fun q => updates_other _ _ _ _ q Hlim) as Hother. destruct Hlim as [_ Hx].
  rewrite Hrun in Hother, Hx. cbn in Hother, Hx. split; [exact Hother|].
  destruct x as [[]|e|k]; [|by destruct Hx; apply promise_other..].
  destruct Hx as [Hs Hg]. rewrite promise_lookup in Hin.
  destruct (subvols w p !! n) as [s|] eqn:Hn; [|by destruct Hin].
  destruct (Hg s ltac:(by rewrite Hs)) as (g & Hmax & Hgs).
  apply map_eq. intros m. rewrite promise_lookup, Hs, Hgs. destruct (decide (m = n)) as [->|Hmn].
  - rewrite Hn, lookup_insert_eq. cbn. rewrite lookup_insert_eq. unfold reserved_size.
    rewrite Hz, Hmax. by destruct (Z.eqb_spec size 0); [lia|].
  - rewrite lookup_insert_ne, promise_lookup by done.
    destruct (subvols w p !! m) as [s'|] eqn:Hm; [|done]. cbn. rewrite lookup_insert_ne; [done|].
    intros Hid. apply gid_inj in Hid; [|by eapply b_id_u64..].
    apply Hmn. by rewrite (b_ids p w n m s s' Hn Hm Hid).
Qed.

Lemma RemoveVolume_promise p n w :
  let '(w', x) := RemoveVolume (pool_of p) n w in
  (forall q, q <> p -> promise w' q = promise w q) /\
  match x with
  | Ok _ => promise w' p = delete n (promise w p)
  | _ => promise w' p = promise w p \/ promise w' p = delete n (promise w p)
  end.
Proof.
  unfold RemoveVolume, mbind, M_bind, gets, ask, wrap.
  destruct (Mounted (pool_of p) w) as [mnt|] eqn:Hm; [|by split; [|left]].
  rewrite (b_home p w mnt Hm), home_Path.
  destruct (u_SubvolumeInfo (Join (home p) n) w) as [info|e|k] eqn:Hi; [|by split; [|left]..].
  apply b_SubvolumeInfo in Hi. destruct (subvols w p !! n) as [s|] eqn:Hn; [|done]. injection Hi as <-.
  pose proof (b_SubvolumeRemove p n w) as Hrem.
  destruct (u_SubvolumeRemove (Join (home p) n) w) as [w1 x] eqn:Hrun.
  pose proof (fun q => updates_other _ _ _ _ q Hrem) as Hother. destruct Hrem as [_ Hx].
  rewrite Hrun in Hother, Hx. cbn in Hother, Hx.
  destruct x as [[]|e|k]; [|by split; [exact Hother|left; destruct Hx; apply promise_other]..].
  destruct Hx as [Hs Hg].
  assert (Hdel : promise w1 p = delete n (promise w p)).
  { apply map_eq. intros m. rewrite promise_lookup, Hs. destruct (decide (m = n)) as [->|Hmn].
    - by rewrite !lookup_delete_eq.
    - rewrite !lookup_delete_ne, promise_lookup by done.
      destruct (subvols w p !! m) as [s'|] eqn:Hsm; [|done]. cbn.
      rewrite (Hg m s'); [done|]. by rewrite Hs, lookup_delete_ne. }
  assert (Hkeep : agree w1 (fst (u_QGroupDestroy (gid (sub_ID s)) (home p) w1))).
  { apply keeps_QGroupDestroy; [|apply agree_refl]. intros m s' Hm' Hid.
    rewrite Hs in Hm'. apply lookup_delete_Some in Hm' as [Hmn Hm'].
    apply gid_inj in Hid; [|by eapply b_id_u64..]. by apply Hmn, (b_ids p w n m s s'). }
  apply agree_promise in Hkeep.
  destruct (u_QGroupDestroy (gid (sub_ID s)) (home p) w1) as [w2 [[]|e|k]]; cbn in Hkeep; rewrite Hkeep;
    (split; [exact Hother|]); [exact Hdel|by right..].
Qed.

Lemma pool_usage_size p w u : pool_usage (pool_of p) w = Ok u ->
  Size u = raw_size p / raidSizeDivisor (raid p).
Proof.
  unfold pool_usage. destruct (Mounted (pool_of p) w) as [mnt|] eqn:Hm; [|done].
  rewrite (b_home p w mnt Hm), b_name.
  destruct (u_GetDiskUsage (home p) w) as [du|e|k] eqn:Hd; [|done..]. rewrite (b_df p w du Hd).
  destruct (u_List p true w) as [[[|fs fss] [e|]]|e|k] eqn:Hl; try done.
  destruct (raidSizeDivisor (raid p) =? 0); [done|]. intros [= <-]. cbn. by rewrite (b_List p w fs fss Hl).
Qed.

Lemma mounted_Shutdown p w q :
  Mounted (pool_of q) (fst (Shutdown (pool_of p) w)) = Mounted (pool_of q) w.
Proof.
  apply (keeps_for_each (fun w' => Mounted (pool_of q) w' = Mounted (pool_of q) w)); [|done].
  intros d _ w' Hw'. by rewrite b_mounted_hdparm.
Qed.

Lemma mounted_UnMount p w q : q <> p ->
  Mounted (pool_of q) (fst (UnMount (pool_of p) w)) = Mounted (pool_of q) w.
Proof.
  intros Hq. unfold UnMount, mbind, M_bind, gets.
  destruct (Mounted (pool_of p) w) as [mnt|] eqn:Hm; [|done].
  rewrite (b_home p w mnt Hm). by apply b_mounted_Unmount.
Qed.

Lemma mounted_Remove p n w q :
  Mounted (pool_of q) (fst (RemoveVolume (pool_of p) n w)) = Mounted (pool_of q) w.
Proof.
  unfold RemoveVolume, mbind, M_bind, gets, ask, wrap.
  destruct (Mounted (pool_of p) w) as [mnt|] eqn:Hm; [|done].
  rewrite (b_home p w mnt Hm), home_Path.
  destruct (u_SubvolumeInfo (Join (home p) n) w) as [info|e|k]; [|done..].
  pose proof (b_mounted_Remove p n w q) as Hm1.
  destruct (u_SubvolumeRemove (Join (home p) n) w) as [w1 [[]|e|k]]; [|done..]. cbn in Hm1.
  pose proof (b_mounted_Destroy (gid (bv_ID info)) p w1 q) as Hm2.
  destruct (u_QGroupDestroy (gid (bv_ID info)) (home p) w1) as [w2 [[]|e|k]]; cbn in *; congruence.
Qed.

(** C9 (refinement): the btrfs pools implement the interface of the storage
    module. If the btrfs commands behave as documented, then mounting,
    unmounting and shutting down change no volume, the reserved size of a pool
    is the sum of what its volumes have promised (the limit of a volume, the
    size of its files where it has none, the namespaces of a 0-db volume), a
    volume is added empty, limited to exactly its quota, and removed alone, and
    what fails half-way leaves no more behind than the interface allows. *)
Theorem btrfs_implements_pools : @PoolLaws W (pools pool_of) btrfs_view.
Proof.
  split.
  - intros p w u. apply pool_usage_size.
  - intros p w r. apply btrfs_Reserved_spec.
  - intros p w. apply agree_promise, keeps_MountWithoutScan, agree_refl.
  - intros p w. apply agree_promise, keeps_UnMount, agree_refl.
  - intros p w. apply agree_promise, keeps_Shutdown, agree_refl.
  - intros p n w. cbn. pose proof (AddVolume_promise p n w) as Hadd.
    destruct (AddVolume (pool_of p) n w) as [w' [v|e|k]]; [|done..].
    destruct Hadd as (Hother & Hn & Hp & Hpool & Hname & Hpath). by rewrite Hpool, Hname.
  - intros v size w. apply Limit_promise.
  - intros p n w. apply RemoveVolume_promise.
  - intros p n w q. apply mounted_Remove.
  - intros p w q. apply mounted_UnMount.
  - intros p w q. apply mounted_Shutdown.
  - intros p w l Hl n. rewrite (Volumes_names p w l Hl), list_elem_of_fmap. split.
    + intros ([m x] & -> & Hm). apply elem_of_map_to_list in Hm. eauto.
    + intros [x Hx]. exists (n, x). split; [done|]. by apply elem_of_map_to_list.
Qed.

(** The loop of [maintenance] over the ids [l], [kept] are the ids it leaves. *)
Lemma destroy_all p (kept l : list string) : forall w w',
  for_each (fun id => if bool_decide (id ∈ kept) then mret tt
                      else u_QGroupDestroy id (home p)) l w = (w', Ok tt) ->
  (forall q, subvols w' q = subvols w q) /\
  (forall q, q <> p -> qgroups w' q = qgroups w q) /\
  forall id, qgroups w' p !! id =
    if bool_decide (id ∈ l) && negb (bool_decide (id ∈ kept)) then None else qgroups w p !! id.
Proof.
  induction l as [|id l IH]; intros w w' Hrun; cbn [for_each] in Hrun; [by injection Hrun as <-|].
  apply bind_inv in Hrun as (w1 & [] & Hfirst & Hrun).
  destruct (IH w1 w' Hrun) as (Hs & Hother & Hp). clear IH Hrun.
  case_bool_decide as Hk.
  - injection Hfirst as <-. split_and!; [done..|]. intros id'. rewrite Hp.
    destruct (decide (id' = id)) as [->|Hne].
    + by rewrite (bool_decide_eq_true_2 (id ∈ kept)), !andb_false_r.
    + by rewrite (bool_decide_ext (id' ∈ id :: l) (id' ∈ l)) by set_solver.
  - pose proof (b_QGroupDestroy id p w) as [Ho Hx]. rewrite Hfirst in Ho, Hx. destruct Hx as [Hs1 Hg1].
    cbn in Ho, Hs1, Hg1. split_and!.
    + intros q. rewrite Hs. destruct (decide (q = p)) as [->|Hq]; [done|by apply Ho].
    + intros q Hq. rewrite Hother by done. by apply Ho.
    + intros id'. rewrite Hp, Hg1. destruct (decide (id' = id)) as [->|Hne].
      * rewrite lookup_delete_eq, (bool_decide_eq_true_2 (id ∈ id :: l)) by by left.
        rewrite (bool_decide_eq_false_2 (id ∈ kept)) by done. cbn. by case_match.
      * rewrite lookup_delete_ne by done.
        by rewrite (bool_decide_ext (id' ∈ id :: l) (id' ∈ l)) by set_solver.
Qed.

(** After mounting a pool the clean-up of its quota groups
    removes exactly the groups that belong to no volume: every group of a volume
    is left as it was, every other one is gone, and no volume and no other pool
    is touched. *)
Theorem maintenance_spec p w w' :
  maintenance (pool_of p) w = (w', Ok tt) ->
  (forall q, subvols w' q = subvols w q) /\
  (forall q, q <> p -> qgroups w' q = qgroups w q) /\
  forall id, qgroups w' p !! id =
    if decide (id ∈ (fun v => gid (sub_ID v.2)) <$> map_to_list (subvols w p))
    then qgroups w p !! id else None.
Proof.
  unfold maintenance, mbind at 1, M_bind at 1, ask at 1.
  destruct (Volumes (pool_of p) w) as [l|e|k] eqn:Hl; [|done..]. rewrite home_Path.
  unfold mbind at 1, M_bind at 1, ask at 1.
  destruct (u_QGroupList (home p) w) as [gs|e|k] eqn:Hg; [|done..].
  intros Hrun. apply destroy_all in Hrun as (Hs & Hother & Hp). split_and!; [done..|].
  intros id. rewrite Hp. 
  assert (Hm : is_Some (Mounted (pool_of p) w)).
  { unfold Volumes in Hl. destruct (Mounted (pool_of p) w); [eauto|done]. }
  rewrite (b_QGroupList p w gs Hm Hg).
  assert (Hkept : id ∈ (fun v => gid (v_ID v)) <$> l <->
    id ∈ (fun v => gid (sub_ID v.2)) <$> map_to_list (subvols w p)).
  { apply Volumes_spec in Hl as [Hl _]. rewrite !list_elem_of_fmap. split.
    - intros (v & -> & Hv). apply (list_elem_of_fmap_2 (fun v => (v_Name v, v_ID v))) in Hv.
      rewrite Hl in Hv. apply elem_of_map_to_list in Hv. rewrite lookup_fmap in Hv.
      destruct (subvols w p !! v_Name v) as [s|] eqn:Hn; [|done]. injection Hv as Hid.
      exists (v_Name v, s). rewrite <- Hid. split; [done|by apply elem_of_map_to_list].
    - intros ([n s] & -> & Hn). apply elem_of_map_to_list in Hn. cbn.
      assert (Hin : (n, sub_ID s) ∈ (fun v => (v_Name v, v_ID v)) <$> l).
      { rewrite Hl. apply elem_of_map_to_list. by rewrite lookup_fmap, Hn. }
      apply list_elem_of_fmap in Hin as (v & [= -> ->] & Hv). by exists v. }
  case_decide as Hd.
  - by rewrite (bool_decide_eq_true_2 _ (proj2 Hkept Hd)), andb_false_r.
  - rewrite (bool_decide_eq_false_2 (id ∈ _ <$> l)) by tauto. rewrite andb_true_r.
    case_bool_decide as Hin; [done|]. apply eq_None_not_Some. intros [g Hgid]. apply Hin.
    apply list_elem_of_fmap. exists (id, g). split; [done|]. by apply elem_of_map_to_list.
Qed.

End laws.

Lemma scan_unlabelled uuid :
  Sscanf ("Label: none  uuid: " +:+ uuid) "Label: %s uuid: %s" =
  match scan_word (skip_white uuid) with Some (u, _) => Some [VStr "none"; VStr u] | None => None end.
Proof.
  change (Sscanf ("Label: none  uuid: " +:+ uuid) "Label: %s uuid: %s") with
    (match (match scan_word (skip_white uuid) with Some (u, _) => Some [VStr u] | None => None end) with
     | Some l => Some (VStr "none" :: l)
     | None => None
     end).
  by destruct (scan_word (skip_white uuid)) as [[u r]|].
Qed.

Lemma parseFS_unlabelled uuid line1 lines fs :
  parseFS ("Label: none  uuid: " +:+ uuid) line1 lines = Ok fs -> b_Label fs = "none".
Proof.
  unfold parseFS. rewrite scan_unlabelled.
  destruct (scan_word (skip_white uuid)) as [[u ?]|]; [|discriminate].
  change (unquote_label "none") with (Ok "none"). cbv beta iota.
  destruct (Sscanf (TrimSpace line1) _) as [[|[z|x] [|[z'|x'] []]]|]; try discriminate.
  by intros [= <-].
Qed.

(** Listing the file systems of the node fails as soon as one of them
    has no label: btrfs shows such a file system with the label "none", which
    the parser keeps, so the test for an empty label never holds and a pool
    called "none" without devices is an error. The file systems before it in
    the list are ones whose devices are found. *)
Theorem List_unlabelled {W} `{BtrfsUtil W} `{Sys W} (w : W) before line1 lines fs after uuid :
  parseFS ("Label: none  uuid: " +:+ uuid) line1 lines = Ok fs ->
  u_List "" false w = Ok (before ++ fs :: after, None) ->
  Forall (fun b => exists d ds, dev_ByLabel (b_Label b) w = Ok (d :: ds)) before ->
  dev_ByLabel "none" w = Ok [] ->
  exists e, List_fs (fun _ => true) w = (w, Err e).
Proof.
  intros Hfs Hlist Hbefore Hnone.
  apply parseFS_unlabelled in Hfs as Hlabel.
  unfold List_fs, mbind, M_bind, ask. rewrite Hlist. clear Hlist. cbv beta iota.
  induction Hbefore as [|b before (d & ds & Hd) Hbefore IH]; cbn.
  - rewrite Hlabel. cbn. unfold mbind, M_bind, ask. rewrite Hnone. cbn. by eexists.
  - destruct (b_Label b =? "")%string; [exact IH|]. unfold mbind, M_bind, ask. rewrite Hd. cbn.
    destruct IH as [e IH]. rewrite IH. by exists e.
Qed.

(** ** Witnesses

    One pool, which may be mounted and may hold the volume "v". *)
Module BtrfsDemo.

Record world := MkWorld { wm : bool; wv : option Z; wg : gmap string BtrfsQGroup }.

Definition root : string := "/mnt/pool".
Definition vpath : string := "/mnt/pool/v".
Definition fail {A} : M world A := throw (ErrMsg "btrfs").
Definition sub (files : Z) : subvol := MkSubvol 256 files ∅.
Definition group (limit : Z) : BtrfsQGroup := MkQGroup (gid 256) 0 0 limit 0.
Definition show : Btrfs := MkBtrfs "pool" "uuid" 1 0 [MkBtrfsDevice false 1 (100 * gib) 0 "/dev/vda"] "".

#[export] Instance util : BtrfsUtil world := {|
  u_List label mnt w :=
    Ok (if bool_decide (label = "pool") && (negb mnt || wm w) then [show] else [], None);
  u_SubvolumeList path w :=
    if decide (path = root)
    then Ok (match wv w with Some _ => [MkBtrfsVolume "v" 256 7 5] | None => [] end)
    else Err (ErrMsg "btrfs");
  u_SubvolumeInfo path w :=
    if decide (path = vpath)
    then match wv w with Some _ => Ok (MkBtrfsVolume vpath 256 7 5) | None => Err (ErrMsg "btrfs") end
    else Err (ErrMsg "btrfs");
  u_SubvolumeAdd path := fun w =>
    if decide (path = vpath)
    then match wv w with
         | None => (MkWorld (wm w) (Some 0) (<[gid 256 := group 0]> (wg w)), Ok tt)
         | Some _ => fail w
         end
    else fail w;
  u_SubvolumeRemove path := fun w =>
    if decide (path = vpath) then (MkWorld (wm w) None (wg w), Ok tt) else fail w;
  u_DeviceAdd _ _ := fail;
  u_DeviceRemove _ _ := fail;
  u_QGroupEnable _ := mret tt;
  u_QGroupList path w :=
    if decide (path = root \/ path = vpath) then Ok (wg w) else Err (ErrMsg "btrfs");
  u_QGroupLimit size path := fun w =>
    if decide (path = vpath) then (MkWorld (wm w) (wv w) (<[gid 256 := group size]> (wg w)), Ok tt)
    else fail w;
  u_QGroupDestroy id path := fun w =>
    if decide (path = root) then (MkWorld (wm w) (wv w) (delete id (wg w)), Ok tt) else fail w;
  u_GetDiskUsage path w :=
    Ok (MkBtrfsDiskUsage (MkDiskUsage "single" 0 0) noUsage noUsage noUsage);
  u_run _ _ := fail
|}.

#[export] Instance sys : Sys world := {|
  MkdirAll _ := mret tt;
  sys_Mount _ target := fun w =>
    if decide (target = root) then (MkWorld true (wv w) (wg w), Ok tt) else fail w;
  sys_Unmount target := fun w =>
    if decide (target = root) then (MkWorld false (wv w) (wg w), Ok tt) else fail w;
  proc_mounts w := if wm w then "/dev/vda /mnt/pool btrfs rw 0 0" else "";
  FilesUsage _ w := Ok (default 0 (wv w));
  hdparm _ := mret tt;
  zdb_at _ _ := ∅;
  set_zdb_at _ _ w := w;
  dev_ByLabel label w := Ok (if decide (label = "pool")
    then [MkDevice "/dev/vda" "pool" BtrfsFSType [] SSDDevice 10 "" false] else [])
|}.

#[export] Instance fsview : FsView world := {|
  subvols w p := if decide (p = "pool")
    then match wv w with Some files => {["v" := sub files]} | None => ∅ end else ∅;
  qgroups w p := if decide (p = "pool") then wg w else ∅;
  pool_of p := MkBtrfsPool p [MkDevice "/dev/vda" p BtrfsFSType [] SSDDevice 10 "" false];
  raw_size p := 100 * gib;
  raid p := "single"
|}.

Lemma home_inv p : home p = root -> p = "pool".
Proof. by intros [= Hp]. Qed.

Lemma path_inv p n : Join (home p) n = vpath -> p = "pool" /\ n = "v".
Proof.
  intros Hp. change (String "/" (String "m" (String "n" (String "t" (String "/" (p +:+ "/" +:+ n))))) = vpath)
    in Hp. injection Hp as Hp.
  destruct p as [|c0 [|c1 [|c2 [|c3 [|c4 p]]]]]; try discriminate Hp.
  - injection Hp as -> -> -> -> Hn. by split; [|exact Hn].
  - injection Hp as -> -> -> -> -> Hp. destruct p as [|c5 []]; discriminate Hp.
Qed.

Lemma path_not_root p n : Join (home p) n <> root.
Proof.
  intros Hp. change (String "/" (String "m" (String "n" (String "t" (String "/" (p +:+ "/" +:+ n))))) = root)
    in Hp. injection Hp as Hp.
  destruct p as [|c0 [|c1 [|c2 [|c3 [|c4 p]]]]]; discriminate Hp.
Qed.

Lemma mounted_pool p w : Mounted (pool_of p) w = if bool_decide (p = "pool") && wm w then Some root else None.
Proof.
  unfold Mounted. cbn. case_bool_decide; [|done]. unfold fs_mounted. destruct w as [[] v g]; [|done].
  by vm_compute.
Qed.

#[export] Instance laws : BtrfsLaws world.
Proof.
  split.
  - done.
  - intros p w mnt. rewrite mounted_pool. case_bool_decide; [subst|done].
    by destruct (wm w); intros [= <-].
  - intros p w n m s s'. cbn. case_decide; [|done]. destruct (wv w); [|done].
    by intros [<- _]%lookup_singleton_Some [<- _]%lookup_singleton_Some.
  - intros p w n s. cbn. case_decide; [|done]. destruct (wv w); [|done].
    by intros [_ <-]%lookup_singleton_Some.
  - intros p w fs rest. cbn. by destruct (_ && _); intros [= <- <-].
  - by intros p w du [= <-].
  - intros p w l. cbn. case_decide as Hp; [|done]. apply home_inv in Hp as ->. cbn.
    by destruct (wv w); intros [= <-].
  - intros p n w v. cbn. case_decide as Hp; [|done]. apply path_inv in Hp as [-> ->]. cbn.
    destruct (wv w); [|done]. by intros [= <-].
  - intros p w gs. rewrite mounted_pool. case_bool_decide as Hp; [subst|by intros []].
    intros _ [= <-]. done.
  - intros p n w gs _. cbn. case_decide as Hp; [|done]. intros [= <-].
    destruct Hp as [Hp|Hp]; [by apply path_not_root in Hp|by apply path_inv in Hp as [-> _]].
  - intros p n w s size. cbn. case_decide; [|done]. destruct (wv w); [|done].
    by intros [_ <-]%lookup_singleton_Some [= <-].
  - intros p n w s. cbn. case_decide; [|done]. destruct (wv w); [|done].
    by intros [_ <-]%lookup_singleton_Some.
  - done.
  - intros dev target w. cbn. by case_decide.
  - intros target w. cbn. by case_decide.
  - done.
  - done.
  - intros p w q Hq. rewrite !mounted_pool. cbn. case_decide as Hp; [|done].
    apply home_inv in Hp as ->. by rewrite bool_decide_eq_false_2.
  - intros p n w q. rewrite !mounted_pool. cbn. by case_decide.
  - intros id p w q. rewrite !mounted_pool. cbn. by case_decide.
  - intros p w. by split; [|cbn].
  - intros p n w. unfold updates. cbn. case_decide as Hp; [apply path_inv in Hp as [-> ->]|by repeat split].
    destruct (wv w) as [files|] eqn:Hv; cbn; [repeat split; intros; by rewrite ?Hv|]. split; [intros q Hq; by case_decide|].
    split; [done|]. exists 256. split_and!; [done|done|by intros m s Hm..|].
    intros g. rewrite decide_True, lookup_insert_eq by done. by intros [= <-].
  - intros p n w. unfold updates. cbn. case_decide as Hp; [apply path_inv in Hp as [-> ->]|by repeat split].
    split; [intros q Hq; by case_decide|]. cbn. split; [|by intros m s Hm].
    by destruct (wv w).
  - intros id p w. unfold updates. cbn. case_decide as Hp; [apply home_inv in Hp as ->|by repeat split].
    by split; [intros q Hq; by case_decide|].
  - intros size p n w _. unfold updates. cbn. case_decide as Hp; [apply path_inv in Hp as [-> ->]|by repeat split].
    split; [intros q Hq; by case_decide|]. cbn. split; [done|].
    destruct (wv w) as [files|]; cbn; [|done]. intros s Hs. exists (group size). split; [done|].
    injection Hs as <-. done.
Qed.

(** A mounted pool without volumes, and with a group that is left over. *)
Definition empty : world := MkWorld true None ∅.
Definition left_over : world := MkWorld true (Some 5) {[gid 256 := group 0; gid 99 := group 0]}.

Lemma btrfs_implements_pools_witness :
  @PoolLaws world (pools pool_of) btrfs_view /\
  (let p := pool_of "pool" in
   let w := fst ((v ← AddVolume p "v"; Limit v (10 * gib)) empty) in
   Reserved p w = Ok (10 * gib) /\ promise w "pool" = {["v" := 10 * gib]}) /\
  pool_usage (pool_of "pool") empty = Ok (MkUsage (100 * gib) 0).
Proof. split_and!; [exact btrfs_implements_pools|by vm_compute..]. Defined.

Lemma maintenance_spec_witness :
  let w' := fst (maintenance (pool_of "pool") left_over) in
  wg left_over !! gid 99 = Some (group 0) /\ qgroups w' "pool" !! gid 99 = None /\
  qgroups w' "pool" !! gid 256 = Some (group 0).
Proof.
  assert (Hrun : snd (maintenance (pool_of "pool") left_over) = Ok tt) by (vm_compute; reflexivity).
  split; [vm_compute; reflexivity|].
  destruct (maintenance (pool_of "pool") left_over) as [w' x] eqn:Heq. cbn in Hrun. subst x.
  destruct (maintenance_spec "pool" left_over w' Heq) as (_ & _ & Hg). cbn [fst].
  split; rewrite Hg; vm_compute; reflexivity.
Defined.

(** What btrfs prints of a node with one pool and one file system of another owner. *)
Definition printed : string :=
"Label: 'pool'  uuid: 74595911-0f79-4c2e-925f-105d1279fb48
	Total devices 1 FS bytes used 196608
	devid    1 size 1048576000 used 138412032 path /dev/vda

Label: none  uuid: e8784776-6288-49e2-9cb0-29e50707bd73
	Total devices 1 FS bytes used 196608
	devid    1 size 1048576000 used 138412032 path /dev/vdb
".

Definition printer : Executer world := {| run _ _ := mret printed |}.

Definition foreign : Btrfs := MkBtrfs "none" "e8784776-6288-49e2-9cb0-29e50707bd73" 1 196608
  [MkBtrfsDevice false 1 1048576000 138412032 "/dev/vdb"] "".

Lemma List_unlabelled_witness :
  exists e, List_fs (H := newUtils printer) (fun _ => true) empty = (empty, Err e).
Proof.
  refine (List_unlabelled (H := newUtils printer) empty
    [MkBtrfs "pool" "74595911-0f79-4c2e-925f-105d1279fb48" 1 196608
       [MkBtrfsDevice false 1 1048576000 138412032 "/dev/vda"] ""]
    "	Total devices 1 FS bytes used 196608"
    ["	devid    1 size 1048576000 used 138412032 path /dev/vdb"] foreign []
    "e8784776-6288-49e2-9cb0-29e50707bd73" _ _ _ _).
  - by vm_compute.
  - by vm_compute.
  - repeat constructor. do 2 eexists. by vm_compute.
  - by vm_compute.
Defined.

End BtrfsDemo.
