(* ===== verification/Disk.v ===== *)
(** Virtual disks: src/pkg/storage/disk.go, on the volumes that [Storage] keeps
    for them.

    A disk is a file directly in a volume called "vdisks". [DiskOps] is what the
    module uses of the file system, and of the programs that resize a disk;
    [DiskLaws] says what these calls do to the files. Paths are cleaned and
    split as the package path/filepath does it. *)

From stdpp Require Import gmap strings list sorting.
From Stdlib Require Import Ascii ZArith Lia.
From S2P Require Import Prelude Reservation Cache ZdbPool Storage Device BtrfsUtil.

Open Scope Z_scope.
Open Scope go_scope.

(** ** Paths *)

Definition slash : ascii := "/".

(** One element of a path on the stack of those before it. *)
Definition push (rooted : bool) (st : list string) (c : string) : list string :=
  if (c =? "")%string || (c =? ".")%string then st
  else if (c =? "..")%string then
    match st with
    | [] => if rooted then [] else [".."]
    | top :: rest => if (top =? "..")%string then ".." :: st else rest
    end
  else c :: st.

Definition norm (rooted : bool) (l : list string) : list string := rev (foldl (push rooted) [] l).

Fixpoint join (l : list string) : string :=
  match l with
  | [] => ""
  | [c] => c
  | c :: l => c +:+ String slash (join l)
  end.

(** [filepath.Clean]. *)
Definition Clean (path : string) : string :=
  if HasPrefix path "/" then String slash (join (norm true (Split slash path)))
  else match norm false (Split slash path) with [] => "." | l => join l end.

(** [filepath.Join] of two elements. *)
Definition Join (a b : string) : string :=
  if (a =? "")%string then if (b =? "")%string then "" else Clean b
  else Clean (a +:+ String slash b).

(** The part of a path up to its last slash, the slash included. *)
Fixpoint upto_slash (path : string) : string :=
  match path with
  | EmptyString => EmptyString
  | String c rest =>
      match upto_slash rest with
      | EmptyString => if Ascii.eqb c slash then String c EmptyString else EmptyString
      | t => String c t
      end
  end.

(** [filepath.Base]. *)
Definition Base (path : string) : string :=
  if (path =? "")%string then "."
  else match rev (filter (fun c => c <> "") (Split slash path)) with
       | c :: _ => c
       | [] => "/"
       end.

(** [filepath.Dir]. *)
Definition Dir (path : string) : string := Clean (upto_slash path).

Definition safePath (base id : string) : res string :=
  let path := Join base id in
  if (Clean (Dir path) =? base)%string then Ok path
  else Err (ErrMsg ("invalid disk id: '" +:+ id +:+ "'")).

(** ** The module *)

(** An int64. *)
Definition i64 (z : Z) : Z := u64 (z + 2 ^ 63) - 2 ^ 63.

Record VDisk := MkVDisk { vd_Path : string; vd_Size : Z }.

Class DiskOps (W : Type) := {
  os_Stat : string -> W -> res Z;
  os_Create : string -> M W unit;
  os_Open : string -> W -> res unit;
  io_Copy : string -> string -> M W unit;
  SetAttr_NOCOW : string -> M W unit;
  Fallocate : string -> Z -> M W unit;
  os_Remove : string -> M W unit;
  os_RemoveAll : string -> M W unit;
  (** name, whether it is a directory, and size of each entry *)
  io_ReadDir : string -> W -> res (list (string * bool * Z));
  TempDir : M W string;
  exec_mount : string -> string -> M W unit;
  exec_resize_max : string -> M W unit;
  sys_Unmount : string -> M W unit
}.

Section vdisk.
  Context {W : Type} `{PoolOps W} `{Sorter} `{DiskOps W}.

(** The pools of the storage module. *)
Variable pools : list string.

Fixpoint find_in (id : string) (bases : list string) : M W string :=
  match bases with
  | [] => throw ErrNotExist
  | base :: bases =>
      path ← lift (safePath base id);
      found ← try (ask (os_Stat path));
      match found with inl _ => mret path | inr _ => find_in id bases end
  end.

Definition findDisk (id : string) : M W string :=
  bases ← wrap ("failed to find disk with id '" +:+ id +:+ "'") (VDiskPools pools);
  find_in id bases.

(** [defer f()]: [f] runs after [m], whatever it returns; its result is dropped. *)
Definition deferred {A} (f : M W unit) (m : M W A) : M W A := fun w =>
  let '(w', x) := m w in
  match x with Panic p => (w', x) | _ => (fst (f w'), x) end.

Definition expandfs (disk : string) : M W unit :=
  dname ← wrap "couldn't create a temp dir to mount the btrfs fs to resize it" TempDir;
  deferred (os_RemoveAll dname)
    (wrap "couldn't mount the btrfs fs to resize it" (exec_mount disk dname) ;;
     deferred (sys_Unmount dname)
       (wrap "failed to resize file system to disk size" (exec_resize_max dname))).

(** The clean-up runs on the errors that are assigned to the outer [err]. *)
Definition or_remove {A} (path : string) (m : M W A) : M W A := fun w =>
  let '(w', x) := m w in
  match x with Err _ => (fst (os_RemoveAll path w'), x) | _ => (w', x) end.

(** What follows [os.Create]. The error of opening the source disk is a new
    variable, which the clean-up does not see; that of [Fallocate] is replaced
    by the result of [expandfs]. *)
Definition fill (path : string) (size : Z) (sourceDisk : string) : M W unit :=
  opened ← (if (sourceDisk =? "")%string then mret (inl tt)
            else try (ask (os_Open sourceDisk)));
  match opened with
  | inr e => throw e
  | inl _ =>
      (if (sourceDisk =? "")%string then mret tt else ignore (io_Copy sourceDisk path)) ;;
      or_remove path
        (SetAttr_NOCOW path ;;
         if (sourceDisk =? "")%string then Fallocate path (i64 (size * mib))
         else ignore (Fallocate path (i64 (size * mib))) ;; expandfs path)
  end.

(** [size] is in MiB. *)
Definition Allocate (id : string) (size : Z) (sourceDisk : string) : M W string :=
  existing ← try (findDisk id);
  match existing with
  | inl _ => throw (ErrWrap ("disk with id '" +:+ id +:+ "' already exists") ErrExist)
  | inr _ =>
      base ← wrap "failed to find a candidate to host vdisk" (VDiskFindCandidate pools (u64 size));
      path ← lift (safePath base id);
      or_remove path (os_Create path) ;;
      fill path size sourceDisk ;;
      mret path
  end.

Definition Deallocate (id : string) : M W unit :=
  found ← try (findDisk id);
  match found with
  | inr e => if IsNotExist e then mret tt else throw e
  | inl path =>
      removed ← try (os_Remove path);
      match removed with
      | inr e => if IsNotExist e then mret tt else throw e
      | inl _ => mret tt
      end
  end.

Definition Exists (id : string) : M W bool :=
  found ← try (findDisk id); mret (match found with inl _ => true | inr _ => false end).

Definition Inspect (id : string) : M W VDisk :=
  path ← findDisk id;
  size ← ask (os_Stat path);
  mret (MkVDisk path size).

(** The loop returns after the first pool. *)
Definition ListDisks : M W (list VDisk) :=
  bases ← VDiskPools pools;
  match bases with
  | [] => mret []
  | base :: _ =>
      items ← wrap "failed to list virtual disks" (ask (io_ReadDir base));
      mret ((fun '(name, _, size) => MkVDisk (Join base name) size) <$>
              filter (fun '(_, isdir, _) => isdir = false) items)
  end.

End vdisk.

(** ** No disk outside of its volume *)

(** An element that stays as it is: not empty, not a dot or two, without slash. *)
Definition clean_elem (c : string) : Prop :=
  c <> "" /\ c <> "." /\ c <> ".." /\ split_first slash c = None.

Definition no_slash (c : string) : Prop := split_first slash c = None.

(** The path of a volume: rooted, clean, and not the root. *)
Definition base_ok (base : string) : Prop :=
  exists bs, bs <> [] /\ Forall clean_elem bs /\ base = String slash (join bs).

Lemma no_slash_cons a s : no_slash (String a s) -> Ascii.eqb a slash = false /\ no_slash s.
Proof. apply split_first_cons. Qed.

Lemma Split_no_slash s : Forall no_slash (Split slash s).
Proof. apply Split_elem. Qed.

Lemma Split_join l : Forall no_slash l -> l <> [] -> Split slash (join l) = l.
Proof.
  induction 1 as [|c [|d l] Hc Hl IH]; intros Hne; [done|by apply Split_end|].
  change (join (c :: d :: l)) with (c +:+ String slash (join (d :: l))).
  by rewrite Split_app, IH.
Qed.

Lemma clean_no_slash l : Forall clean_elem l -> Forall no_slash l.
Proof. intros Hl. eapply Forall_impl; [exact Hl|]. by intros c (_ & _ & _ & Hc). Qed.

(** A clean element is pushed. *)
Lemma push_clean st c : clean_elem c -> push true st c = c :: st.
Proof.
  intros (H1 & H2 & H3 & _). unfold push. apply String.eqb_neq in H1, H2, H3. by rewrite H1, H2, H3.
Qed.

Lemma push_keeps_clean st c : Forall clean_elem st -> no_slash c -> Forall clean_elem (push true st c).
Proof.
  intros Hst Hc. unfold push.
  destruct (String.eqb_spec c ""), (String.eqb_spec c "."); cbn; try done.
  destruct (String.eqb_spec c "..").
  - destruct Hst as [|top st (_ & _ & Htop & _) Hst]; [done|]. by apply String.eqb_neq in Htop as ->.
  - by constructor.
Qed.

Lemma foldl_push_clean l st : Forall clean_elem l -> foldl (push true) st l = rev l ++ st.
Proof.
  intros Hl. revert st. induction Hl as [|c l Hc Hl IH]; intros st; [done|]. cbn [foldl rev].
  by rewrite push_clean, IH, <- app_assoc.
Qed.

Lemma norm_clean l : Forall clean_elem l -> norm true l = l.
Proof. intros Hl. unfold norm. by rewrite foldl_push_clean, app_nil_r, rev_involutive. Qed.

Lemma norm_is_clean l : Forall no_slash l -> Forall clean_elem (norm true l).
Proof.
  intros Hl. unfold norm. apply Forall_rev.
  assert (Hgen : forall st, Forall clean_elem st -> Forall clean_elem (foldl (push true) st l)); [|by apply Hgen].
  induction Hl as [|c l Hc Hl IH]; intros st Hst; [done|]. by apply IH, push_keeps_clean.
Qed.

(** Empty elements at the end do not count. *)
Lemma norm_empty_end l : norm true (l ++ [""]) = norm true l.
Proof. unfold norm. by rewrite foldl_app. Qed.

Lemma Clean_rooted s : Clean (String slash s) = String slash (join (norm true (Split slash s))).
Proof.
  unfold Clean. change (Split slash (String slash s)) with ("" :: Split slash s).
  assert (Hp : HasPrefix (String slash s) "/" = true) by by destruct s. by rewrite Hp.
Qed.

Lemma Clean_join l : Forall clean_elem l -> Clean (String slash (join l)) = String slash (join l).
Proof.
  intros Hl. rewrite Clean_rooted. destruct l as [|c l]; [done|].
  rewrite Split_join by (by apply clean_no_slash || done). by rewrite norm_clean.
Qed.

Lemma join_snoc l c : l <> [] -> join (l ++ [c]) = join l +:+ String slash c.
Proof.
  induction l as [|d [|e l] IH]; intros Hne; [done|done|].
  change (join ((d :: e :: l) ++ [c])) with (d +:+ String slash (join ((e :: l) ++ [c]))).
  change (join (d :: e :: l)) with (d +:+ String slash (join (e :: l))).
  rewrite IH by done. by rewrite string_app_assoc.
Qed.

Lemma upto_slash_none c : no_slash c -> upto_slash c = "".
Proof.
  induction c as [|a c IH]; intros Hc; [done|]. apply no_slash_cons in Hc as [Ha Hc]. cbn [upto_slash].
  by rewrite IH, Ha.
Qed.

Lemma upto_slash_app s c : no_slash c -> upto_slash (s +:+ String slash c) = s +:+ String slash "".
Proof.
  intros Hc. induction s as [|a s IH].
  - change (upto_slash (String slash c) = String slash ""). cbn [upto_slash]. by rewrite upto_slash_none.
  - change (String a s +:+ String slash c) with (String a (s +:+ String slash c)). cbn [upto_slash].
    rewrite IH. by destruct s.
Qed.

(** The directory of a rooted clean path with at least two elements, and of the others. *)
Lemma Dir_join l c : Forall clean_elem l -> clean_elem c ->
  Dir (String slash (join (l ++ [c]))) = String slash (join l).
Proof.
  intros Hl Hc. pose proof Hc as (_ & _ & _ & Hs). unfold Dir. destruct l as [|d l].
  - change (String slash (join ([] ++ [c]))) with ("" +:+ String slash c). by rewrite upto_slash_app.
  - rewrite join_snoc by done.
    change (String slash (join (d :: l) +:+ String slash c)) with
      (String slash (join (d :: l)) +:+ String slash c). rewrite upto_slash_app by done.
    change (String slash (join (d :: l)) +:+ String slash "") with
      (String slash (join (d :: l) +:+ String slash "")).
    rewrite <- join_snoc, Clean_rooted, Split_join, norm_empty_end, norm_clean; try done.
    + apply Forall_app. split; [by apply clean_no_slash|by repeat constructor].
Qed.

(** A disk never lies outside of the volume it is looked for in. A
    disk id is turned into a path only when that path is one element directly
    below the volume, whatever dots and slashes the id holds (any other id is an
    error), and an id that is one element is that element. *)
Theorem safePath_inside base id :
  base_ok base ->
  (forall path, safePath base id = Ok path ->
     exists name, clean_elem name /\ path = base +:+ String slash name) /\
  (clean_elem id -> safePath base id = Ok (base +:+ String slash id)).
Proof.
  intros (bs & Hne & Hbs & ->).
  assert (Hjoin : Join (String slash (join bs)) id =
    String slash (join (norm true (Split slash (join bs +:+ String slash id))))) by exact (Clean_rooted _).
  unfold safePath. rewrite Hjoin. split.
  - intros path. set (cs := norm true _).
    assert (Hcs : Forall clean_elem cs) by apply norm_is_clean, Split_no_slash.
    destruct cs as [|c cs _] using rev_ind.
    + change (Clean (Dir (String slash (join [])))) with "/".
      destruct (String.eqb_spec "/" (String slash (join bs))) as [Heq|]; [|done].
      destruct bs as [|b bs]; [done|]. inversion Hbs as [|? ? (Hb & _) _]; subst.
      destruct b; [done|]. destruct bs; discriminate Heq.
    + apply Forall_app in Hcs as [Hcs Hc]. inversion Hc as [|? ? Hc' _]; subst.
      rewrite Dir_join, Clean_join by done.
      destruct (String.eqb_spec (String slash (join cs)) (String slash (join bs))) as [Heq|]; [|done].
      intros [= <-]. exists c. split; [done|]. rewrite <- Heq, join_snoc; [done|].
      intros ->. destruct bs as [|b bs]; [done|]. inversion Hbs as [|? ? (Hb & _) _]; subst.
      destruct b; [done|]. destruct bs; discriminate Heq.
  - intros Hid. assert (Hall : Forall clean_elem (bs ++ [id])) by (apply Forall_app; auto).
    rewrite <- join_snoc, Split_join, norm_clean by (done || by apply clean_no_slash || by destruct bs).
    rewrite Dir_join, Clean_join, String.eqb_refl, join_snoc by done. done.
Qed.

Lemma safePath_inside_witness :
  safePath "/mnt/p/vdisks" "12-1" = Ok "/mnt/p/vdisks/12-1" /\
  safePath "/mnt/p/vdisks" "../../x" = Err (ErrMsg "invalid disk id: '../../x'") /\
  exists name, clean_elem name /\ "/mnt/p/vdisks/12-1" = "/mnt/p/vdisks" +:+ String slash name.
Proof.
  split; [reflexivity|]. split; [reflexivity|].
  assert (Hb : base_ok "/mnt/p/vdisks").
  { exists ["mnt"; "p"; "vdisks"]. split; [done|]. split; [by repeat constructor|done]. }
  exact (proj1 (safePath_inside "/mnt/p/vdisks" "12-1" Hb) "/mnt/p/vdisks/12-1" eq_refl).
Defined.

(** ** What an allocation does to the files *)

(** The files of the pools by path, with their size. *)
Class DiskView (W : Type) := { files : W -> gmap string Z }.

Class DiskLaws (W : Type) `{PoolOps W} `{DiskOps W} `{DiskView W} : Prop := {
  l_Stat path w : match files w !! path with
    | Some size => os_Stat path w = Ok size
    | None => exists e, os_Stat path w = Err e
    end;
  l_Create path w : match os_Create path w with
    | (w', Ok _) => files w' = <[path := 0]> (files w)
    | (w', _) => files w' = files w
    end;
  l_SetAttr path w : files (fst (SetAttr_NOCOW path w)) = files w;
  (** a file grows to the size; a failed call may have grown it in part *)
  l_Fallocate path size w old : files w !! path = Some old ->
    let '(w', x) := Fallocate path size w in
    exists n, files w' = <[path := n]> (files w) /\ (is_ok x = true -> n = Z.max old size);
  l_RemoveAll path w : files (fst (os_RemoveAll path w)) = delete path (files w);
  (** mounting a pool or adding a volume touches no disk *)
  l_mount p w : files (fst (pool_MountWithoutScan p w)) = files w;
  l_unmount p w : files (fst (pool_UnMount p w)) = files w;
  l_shutdown p w : files (fst (pool_Shutdown p w)) = files w;
  l_AddVolume p n w : files (fst (pool_AddVolume p n w)) = files w
}.

Section disk_laws.
  Context {W : Type} `{DiskLaws W} `{Sorter}.

Definition same_files (f : gmap string Z) (w : W) : Prop := files w = f.

Lemma keeps_files_mount f p : keeps (same_files f) (pool_MountWithoutScan p).
Proof. intros w Hw. unfold same_files. by rewrite l_mount. Qed.

Lemma keeps_files_unmount f p : keeps (same_files f) (pool_UnMount p).
Proof. intros w Hw. unfold same_files. by rewrite l_unmount. Qed.

Lemma keeps_files_shutdown f p : keeps (same_files f) (pool_Shutdown p).
Proof. intros w Hw. unfold same_files. by rewrite l_shutdown. Qed.

Lemma keeps_files_add f p n : keeps (same_files f) (pool_AddVolume p n).
Proof. intros w Hw. unfold same_files. by rewrite l_AddVolume. Qed.

#[local] Hint Resolve keeps_files_mount keeps_files_unmount keeps_files_shutdown keeps_files_add : core.

Lemma keeps_find_in f id bases : keeps (same_files f) (find_in id bases).
Proof.
  induction bases as [|base bases IH]; cbn [find_in]; [apply keeps_throw|].
  apply keeps_bind; [apply keeps_lift|intros path].
  apply keeps_bind; [apply keeps_try, keeps_ask|intros [x|e]; [apply keeps_ret|exact IH]].
Qed.

Lemma keeps_findDisk pools f id : keeps (same_files f) (findDisk pools id).
Proof.
  apply keeps_bind; [apply keeps_wrap, keeps_VDiskPools|intros bases; apply keeps_find_in].
Qed.

(** The disk id is not taken in any volume, mounted or not. *)
Definition fresh (id : string) (w : W) : Prop :=
  forall base path, safePath base id = Ok path -> files w !! path = None.

(** After the file has been created: it is filled, or it is removed. *)
Lemma fill_spec path size w f : 0 <= size -> 0 <= i64 (size * mib) ->
  f !! path = None -> files w = <[path := 0]> f ->
  match fill path size "" w with
  | (w', Ok _) => files w' = <[path := i64 (size * mib)]> f
  | (w', Err _) => files w' = f
  | _ => True
  end.
Proof.
  intros Hsize Hi Hf Hw. unfold fill, or_remove, mbind, M_bind. cbn [String.eqb mret M_ret].
  pose proof (l_SetAttr path w) as Ha.
  destruct (SetAttr_NOCOW path w) as [w1 [[]|e|m]]; cbn in Ha; [| |done].
  - pose proof (l_Fallocate path (i64 (size * mib)) w1 0 ltac:(by rewrite Ha, Hw, lookup_insert_eq)) as Hfa.
    destruct (Fallocate path (i64 (size * mib)) w1) as [w2 [[]|e|m]]; cbn in Hfa; [| |done].
    + destruct Hfa as (n & Hn & Hmax). rewrite Hn, Ha, Hw, insert_insert_eq, Hmax by done.
      by rewrite Z.max_r.
    + destruct Hfa as (n & Hn & _). rewrite l_RemoveAll, Hn, Ha, Hw, insert_insert_eq.
      by rewrite delete_insert_id.
  - by rewrite l_RemoveAll, Ha, Hw, delete_insert_id.
Qed.

(** Allocating an empty disk under an id that is not taken
    creates one file, of that id directly in a volume, of exactly the size
    asked for in MiB, and changes no other file; when it fails it leaves no
    file behind. Under an id that is found it fails and changes nothing. *)
Theorem Allocate_spec pools id size w :
  0 <= size < 2 ^ 43 ->
  (fresh id w -> match Allocate pools id size "" w with
   | (w', Ok path) => files w' = <[path := size * mib]> (files w) /\ files w !! path = None /\
       exists base, safePath base id = Ok path
   | (w', Err _) => files w' = files w
   | _ => True
   end) /\
  (forall w1 path, findDisk pools id w = (w1, Ok path) ->
     exists w' e, Allocate pools id size "" w = (w', Err e) /\ files w' = files w).
Proof.
  intros Hsize. assert (Hi : i64 (size * mib) = size * mib).
  { unfold i64, u64, W64, mib. rewrite Z.mod_small by lia. lia. }
  pose proof (keeps_findDisk pools (files w) id w eq_refl) as Hfind. unfold Allocate.
  split.
  2: { intros w2 path Hf. rewrite Hf in Hfind. unfold mbind at 1, M_bind at 1, try. rewrite Hf.
       do 2 eexists. split; [reflexivity|exact Hfind]. }
  unfold mbind at 1, M_bind at 1, try. destruct (findDisk pools id w) as [w1 x]. cbn in Hfind.
  intros Hfresh. destruct x as [p|e|m]; [exact Hfind| |done].
  unfold mbind at 1, M_bind at 1.
  assert (Hcand : keeps (same_files (files w)) (wrap "failed to find a candidate to host vdisk"
    (VDiskFindCandidate pools (u64 size)))) by (apply keeps_wrap, keeps_VDiskFindCandidate; auto).
  specialize (Hcand w1 Hfind). destruct (wrap _ _ w1) as [w2 [base|e'|m]]; [|exact Hcand|done].
  cbn in Hcand. unfold mbind at 1, M_bind at 1, lift.
  destruct (safePath base id) as [path|e'|m] eqn:Hpath; [|exact Hcand|done].
  pose proof (Hfresh base path Hpath) as Hnone. rewrite <- Hcand in Hnone |- *.
  unfold mbind at 1, M_bind at 1, or_remove. pose proof (l_Create path w2) as Hc.
  destruct (os_Create path w2) as [w3 [[]|e'|m]]; [|by rewrite l_RemoveAll, Hc, delete_id|done].
  pose proof (fill_spec path size w3 (files w2) ltac:(lia) ltac:(unfold mib in *; lia) Hnone Hc) as Hfill.
  unfold mbind, M_bind. destruct (fill path size "" w3) as [w4 [[]|e'|m]]; cbn; [|exact Hfill|done].
  rewrite Hi in Hfill. eauto.
Qed.

End disk_laws.

(** ** Witness

    One mounted pool of 100 GiB with its volume of disks; the world is the files. *)
Module DiskDemo.

#[local] Notation world := (gmap string Z).

Definition vdisks : Volume := MkVolume "p" "vdisks" 257 "/mnt/p/vdisks".

#[export] Instance pool_ops : PoolOps world := {|
  pool_Type _ := SSDDevice;
  pool_Mounted p _ := Some ("/mnt/" +:+ p);
  pool_Mount p := mret p;
  pool_MountWithoutScan p := mret p;
  pool_UnMount _ := mret tt;
  pool_Shutdown _ := mret tt;
  pool_Usage _ _ := Ok (MkUsage (100 * gib) 0);
  pool_Reserved _ _ := Ok 0;
  pool_Volumes _ _ := Ok [vdisks];
  pool_AddVolume _ _ := throw ErrExist;
  pool_RemoveVolume _ _ := throw ErrNotExist;
  vol_Usage _ _ := Ok (MkUsage 0 0);
  vol_Limit _ _ := mret tt;
  vol_zdb _ _ := ∅;
  vol_set_zdb _ _ w := w
|}.

#[export] Instance disk_ops : DiskOps world := {|
  os_Stat path w := match w !! path with Some size => Ok size | None => Err ErrNotExist end;
  os_Create path w := (<[path := 0]> w, Ok tt);
  os_Open path w := match w !! path with Some _ => Ok tt | None => Err ErrNotExist end;
  io_Copy src path w := (<[path := default 0 (w !! src)]> w, Ok tt);
  SetAttr_NOCOW _ := mret tt;
  Fallocate path size w := (alter (Z.max size) path w, Ok tt);
  os_Remove path w := (delete path w, Ok tt);
  os_RemoveAll path w := (delete path w, Ok tt);
  io_ReadDir _ _ := Ok [];
  TempDir := mret "/tmp/btrfs-resize";
  exec_mount _ _ := mret tt;
  exec_resize_max _ := mret tt;
  sys_Unmount _ := mret tt
|}.

#[export] Instance disk_view : DiskView world := {| files w := w |}.

#[export] Instance disk_laws : DiskLaws world.
Proof.
  split; try done.
  - intros path w. cbn. destruct (w !! path); eauto.
  - intros path size w old Hold. change (w !! path = Some old) in Hold. exists (Z.max size old). cbn. split; [|intros; lia].
    apply map_eq. intros q. destruct (decide (q = path)) as [->|Hq].
    + by rewrite lookup_alter_eq, Hold, lookup_insert_eq.
    + by rewrite lookup_alter_ne, lookup_insert_ne.
Qed.

Lemma Allocate_spec_witness :
  snd (Allocate ["p"] "12-1" 10 "" ∅) = Ok "/mnt/p/vdisks/12-1" /\
  files (fst (Allocate ["p"] "12-1" 10 "" ∅)) = {["/mnt/p/vdisks/12-1" := 10 * mib]} /\
  snd (Exists ["p"] "12-1" {["/mnt/p/vdisks/12-1" := 10 * mib]}) = Ok true.
Proof.
  assert (Hrun : snd (Allocate ["p"] "12-1" 10 "" ∅) = Ok "/mnt/p/vdisks/12-1") by (vm_compute; reflexivity).
  split; [exact Hrun|]. split; [|vm_compute; reflexivity].
  pose proof (proj1 (Allocate_spec ["p"] "12-1" 10 ∅ ltac:(lia)) (fun base path _ => lookup_empty path)) as Hs.
  destruct (Allocate ["p"] "12-1" 10 "" ∅) as [w' x]. cbn in Hrun. subst x.
  destruct Hs as [Hs _]. exact Hs.
Defined.

End DiskDemo.
