(* ===== verification/StorageInit.v ===== *)
(** The start of the storage module: [initialize], [ensureCache] and the shutdown
    of disks of src/pkg/storage/storage.go.

    The state is the module and the world; [formatted] is the log of the groups of
    devices that [CreateForce] was called on, in order. [InitOps] is what the
    module uses of the file systems ([filesystem.Filesystem]), the device manager
    and the system; file systems are known by their name, as in [Storage]. *)

From stdpp Require Import gmap strings list sorting.
From Stdlib Require Import Ascii ZArith Lia.
From S2P Require Import Prelude Reservation Cache ZdbPool Storage Device BtrfsUtil.

Open Scope Z_scope.
Open Scope go_scope.

(** ** Data *)

(** [Raid], [Disks] and [MaxPools]; the last two are uint8. *)
Record StoragePolicy := MkPolicy { Raid : string; Disks : Z; MaxPools : Z }.

Record BrokenPool := MkBrokenPool { bp_Label : string; bp_Err : error }.
Record BrokenDevice := MkBrokenDevice { bdev_Path : string; bdev_Err : error }.

Record Module_ := MkModule {
  m_pools : list string;
  m_brokenPools : list BrokenPool;
  m_brokenDevices : list BrokenDevice;
  m_totalSSD : Z;
  m_totalHDD : Z
}.

Definition diskBase (raid : string) : option Z :=
  if (raid =? "single")%string then Some 1
  else if (raid =? "raid1")%string then Some 2
  else if (raid =? "raid10")%string then Some 4
  else None.

Class InitOps (W : Type) := {
  fs_List : M W (list string);
  fs_CreateForce : string -> string -> list Device -> M W string;
  new_uuid : W -> W * string;
  devices_Devices : W -> res (list Device);
  pool_Devices : string -> W -> list string;
  Partprobe : M W unit;
  GetHypervisor : W -> res string;
  (** the content of /proc/mounts *)
  proc_table : W -> string;
  BindMount : Volume -> string -> M W unit;
  SetFlag : string -> M W unit;
  mount_tmpfs : string -> string -> M W unit;
  (** what smartctl prints of a disk; [None] when it exits with a failure *)
  smartctl : string -> W -> option (res string)
}.

Record InitState (W : Type) := MkInit {
  i_module : Module_; i_world : W; formatted : list (list Device)
}.
Arguments MkInit {W}.
Arguments i_module {W}.
Arguments i_world {W}.
Arguments formatted {W}.

Section init.
  Context {W : Type} `{PoolOps W} `{Sorter} `{InitOps W}.
  #[local] Notation state := (InitState W).

(** A call on the world, and a change of the module. *)
Definition world {A} (m : M W A) : M state A := fun s =>
  let '(w, x) := m (i_world s) in (MkInit (i_module s) w (formatted s), x).

Definition update (f : Module_ -> Module_) : M state unit :=
  modify (fun s => MkInit (f (i_module s)) (i_world s) (formatted s)).

Definition add_pool (p : string) : M state unit :=
  update (fun m => MkModule (m_pools m ++ [p]) (m_brokenPools m) (m_brokenDevices m)
    (m_totalSSD m) (m_totalHDD m)).

Definition add_broken_pool (p : string) (e : error) : M state unit :=
  update (fun m => MkModule (m_pools m) (m_brokenPools m ++ [MkBrokenPool p e]) (m_brokenDevices m)
    (m_totalSSD m) (m_totalHDD m)).

Definition add_broken_devices (devs : list Device) (e : error) : M state unit :=
  update (fun m => MkModule (m_pools m) (m_brokenPools m)
    (m_brokenDevices m ++ ((fun d => MkBrokenDevice (d_Path d) e) <$> devs)) (m_totalSSD m) (m_totalHDD m)).

Definition set_totals (ssd hdd : Z) : M state unit :=
  update (fun m => MkModule (m_pools m) (m_brokenPools m) (m_brokenDevices m) ssd hdd).

(** ** The scan of the disks *)

Definition mount_existing (pool : string) : M state unit :=
  mounted ← try (world (pool_Mount pool));
  match mounted with inl _ => add_pool pool | inr e => add_broken_pool pool e end.

(** [CreateForce], with the log. *)
Definition format (raid : string) (devs : list Device) : M state string :=
  id ← world (fun w => let '(w, id) := new_uuid w in (w, Ok id));
  modify (fun s => MkInit (i_module s) (i_world s) (formatted s ++ [devs])) ;;
  world (fs_CreateForce id raid devs).

(** The pools made of these groups of devices; a group on which the file system
    cannot be created is broken. *)
Fixpoint create_pools (raid : string) (groups : list (list Device)) : M state (list string) :=
  match groups with
  | [] => mret []
  | devs :: groups =>
      created ← try (format raid devs);
      match created with
      | inl pool => rest ← create_pools raid groups; mret (pool :: rest)
      | inr e => add_broken_devices devs e ;; create_pools raid groups
      end
  end.

(** The first [n] groups of [k] devices. *)
Fixpoint groups_of (n k : nat) (disks : list Device) : list (list Device) :=
  match n with O => [] | S n => take k disks :: groups_of n k (drop k disks) end.

(** How many pools to make of [len] devices of one type when [created] exist. *)
Definition possible_pools (policy : StoragePolicy) (len created : Z) : Z :=
  let possible := len / Disks policy in
  if negb (MaxPools policy =? 0) && (MaxPools policy <? possible - created) then MaxPools policy
  else possible.

(** The loop over the two types of devices. *)
Fixpoint create_all (policy : StoragePolicy) (fdisks : list (list Device)) (created : Z) :
    M state (list string) :=
  match fdisks with
  | [] => mret []
  | disks :: fdisks =>
      if Disks policy =? 0 then panic "integer divide by zero"
      else
        let n := possible_pools policy (Z.of_nat (length disks)) created in
        new ← create_pools (Raid policy) (groups_of (Z.to_nat n) (Z.to_nat (Disks policy)) disks);
        rest ← create_all policy fdisks (created + Z.of_nat (length new));
        mret (new ++ rest)
  end.

Fixpoint totals (ps : list string) (ssd hdd : Z) (w : W) : res (Z * Z) :=
  match ps with
  | [] => Ok (ssd, hdd)
  | p :: ps =>
      match pool_Usage p w with
      | Ok usage =>
          match pool_Type p with
          | HDDDevice => totals ps ssd (hdd +u Size usage) w
          | SSDDevice => totals ps (ssd +u Size usage) hdd w
          | OtherDevice _ => totals ps ssd hdd w
          end
      | Err _ => totals ps ssd hdd w
      | Panic m => Panic m
      end
  end.

(** ** The cache *)

Fixpoint find_cache (ps : list string) : M W (option Volume) :=
  match ps with
  | [] => mret None
  | p :: ps =>
      m ← is_mounted p;
      if negb m then find_cache ps
      else
        filesystems ← ask (pool_Volumes p);
        match list_find (fun v => v_Name v = cacheLabel) filesystems with
        | Some (_, v) => mret (Some v)
        | None => find_cache ps
        end
  end.

Definition new_cache (pools : list string) (t : DeviceType) : M W (option Volume) :=
  created ← try (createSubvolWithQuota pools cacheSize cacheLabel t);
  mret (match created with inl fs => Some fs | inr _ => None end).

Definition ensureCache (pools : list string) : M W unit :=
  cacheFs ← find_cache pools;
  cacheFs ← (match cacheFs with Some fs => mret (Some fs) | None => new_cache pools SSDDevice end);
  cacheFs ← (match cacheFs with Some fs => mret (Some fs) | None => new_cache pools HDDDevice end);
  match cacheFs with
  | None =>
      SetFlag "limited-cache" ;;
      mount_tmpfs CacheTarget "size=500M"
  | Some fs =>
      ignore (vol_Limit fs cacheSize) ;;
      mountpoint ← ask (fun w => IsMountPoint (proc_table w) CacheTarget);
      if mountpoint : bool then mret tt else BindMount fs CacheTarget
  end.

(** ** initialize *)

(** What follows the creation of the new pools. *)
Definition finish (newPools : list string) : M state unit :=
  for_each (fun pool => world (pool_Mount pool) ;; add_pool pool) newPools ;;
  pools ← gets (fun s => m_pools (i_module s));
  '(ssd, hdd) ← world (ask (totals pools 0 0));
  set_totals ssd hdd ;;
  world Partprobe ;;
  world (ensureCache pools) ;;
  hyperVisor ← try (world (ask GetHypervisor));
  match hyperVisor with
  | inl h => if (h =? "")%string then ignore (world (shutdownUnusedPools pools)) else mret tt
  | inr _ => ignore (world (shutdownUnusedPools pools))
  end.

(** The goroutine that checks the disks every five minutes is started at the end;
    its step is [shutdownDisks]. *)
Definition initialize (policy : StoragePolicy) : M state unit :=
  existingPools ← world fs_List;
  for_each mount_existing existingPools ;;
  disks ← world (ask devices_Devices);
  let freeDisks := sort_slice faster (filter (fun d => Used d = false) disks) in
  match diskBase (Raid policy) with
  | None => throw (ErrMsg ("unrecognized storage policy " +:+ Raid policy))
  | Some base =>
      if negb (Disks policy mod base =? 0) then
        throw (ErrMsg "invalid amount of disks for volume")
      else
        let ssds := filter (fun d => d_DiskType d = SSDDevice) freeDisks in
        let hdds := filter (fun d => d_DiskType d <> SSDDevice) freeDisks in
        newPools ← create_all policy [ssds; hdds] 0;
        finish newPools
  end.

(** ** Shutting disks down *)

(** Some block of the output that is not blank says that the disk is active. *)
Definition checkDiskPowerStatus (path : string) (w : W) : res bool :=
  match smartctl path w with
  | None => Ok false
  | Some out =>
      res_map (fun out => existsb (fun block => negb (TrimSpace block =? "")%string && Contains block "ACTIVE")
                            (split_blocks out)) out
  end.

Fixpoint shutdown_devices (p : string) (devices : list string) : M W unit :=
  match devices with
  | [] => mret tt
  | d :: devices =>
      on ← try (ask (checkDiskPowerStatus d));
      m ← is_mounted p;
      match on with
      | inl on =>
          (if (m : bool) || negb on then mret tt else ignore (pool_Shutdown p)) ;;
          shutdown_devices p devices
      | inr _ => shutdown_devices p devices
      end
  end.

Definition shutdownDisks (pools : list string) : M W unit :=
  for_each (fun p => devices ← gets (pool_Devices p); shutdown_devices p devices) pools.

Definition Total (m : Module_) (kind : DeviceType) : res Z :=
  match kind with
  | SSDDevice => Ok (m_totalSSD m)
  | HDDDevice => Ok (m_totalHDD m)
  | OtherDevice k => Err (ErrMsg ("kind " +:+ k +:+ " unknown"))
  end.

Definition BrokenPools (m : Module_) : list BrokenPool := m_brokenPools m.
Definition BrokenDevices (m : Module_) : list BrokenDevice := m_brokenDevices m.

End init.

(** The module at start, and the policy of [New]. *)
Definition newModule : Module_ := MkModule [] [] [] 0 0.
Definition defaultPolicy : StoragePolicy := MkPolicy "single" 1 0.

(** ** What is formatted *)

Lemma groups_of_prefix n k : forall disks, (n * k <= length disks)%nat ->
  concat (groups_of n k disks) ++ drop (n * k) disks = disks.
Proof.
  induction n as [|n IH]; intros disks Hl; [done|]. cbn [groups_of concat].
  rewrite <- app_assoc. replace (S n * k)%nat with (k + n * k)%nat by lia.
  rewrite <- drop_drop, IH by (rewrite length_drop; lia). apply take_drop.
Qed.

Lemma groups_of_length n k : forall disks, (n * k <= length disks)%nat ->
  Forall (fun g => length g = k /\ g ⊆ disks) (groups_of n k disks).
Proof.
  induction n as [|n IH]; intros disks Hl; cbn [groups_of]; constructor.
  - split; [rewrite length_take; lia|]. intros d Hd. rewrite <- (take_drop k disks). apply elem_of_app. by left.
  - eapply Forall_impl; [apply IH; rewrite length_drop; lia|]. cbn. intros g [Hg Hsub].
    split; [done|]. intros d Hd. rewrite <- (take_drop k disks). apply elem_of_app. by right; apply Hsub.
Qed.

(** There are enough devices for the pools that are made. *)
Lemma possible_pools_fit policy len created :
  0 < Disks policy -> 0 <= created ->
  (Z.to_nat (possible_pools policy (Z.of_nat len) created) * Z.to_nat (Disks policy) <= len)%nat.
Proof.
  intros Hd Hc. set (n := possible_pools policy (Z.of_nat len) created).
  assert (Hn : n <= Z.of_nat len / Disks policy).
  { unfold n, possible_pools. destruct (_ && _) eqn:Hb; [|lia].
    apply andb_true_iff in Hb as [_ Hb]. apply Z.ltb_lt in Hb. lia. }
  destruct (Z.le_gt_cases n 0); [replace (Z.to_nat n) with 0%nat by lia; lia|].
  assert (Hmul : Disks policy * (Z.of_nat len / Disks policy) <= Z.of_nat len) by (apply Z.mul_div_le; lia).
  apply Nat2Z.inj_le. rewrite Nat2Z.inj_mul, !Z2Nat.id by lia. nia.
Qed.

Section init_lemmas.
  Context {W : Type} `{PoolOps W} `{Sorter} `{InitOps W}.
  #[local] Notation state := (InitState W).

Definition logged (f : list (list Device)) (s : state) : Prop := formatted s = f.

Lemma keeps_world {A} f (m : M W A) : keeps (logged f) (world m).
Proof. intros s Hs. unfold world. by destruct (m (i_world s)). Qed.

Lemma keeps_update f g : keeps (logged f) (update g).
Proof. by intros s Hs. Qed.

#[local] Hint Resolve keeps_world keeps_update : zos_monad.

Lemma keeps_mount_existing f p : keeps (logged f) (mount_existing p).
Proof.
  apply keeps_bind; [auto with zos_monad|intros []]; apply keeps_update.
Qed.

Lemma format_log raid g s s' x : format raid g s = (s', x) -> formatted s' = formatted s ++ [g].
Proof.
  unfold format, world, mbind, M_bind, modify. destruct (new_uuid (i_world s)) as [w id]. cbn.
  destruct (fs_CreateForce id raid g w) as [w' y]. by intros [= <- _].
Qed.

(** The groups are formatted from the first on, all of them on success. *)
Lemma create_pools_log raid groups : forall s s' x,
  create_pools raid groups s = (s', x) ->
  exists k, formatted s' = formatted s ++ take k groups /\ (is_ok x = true -> take k groups = groups).
Proof.
  induction groups as [|g groups IH]; intros s s' x Hrun; cbn [create_pools] in Hrun.
  { injection Hrun as <- <-. exists 0%nat. by rewrite app_nil_r. }
  assert (Hstep : forall s1 s2 y, formatted s1 = formatted s ++ [g] ->
    create_pools raid groups s1 = (s2, y) -> exists k, formatted s2 = formatted s ++ take k (g :: groups) /\
    (is_ok y = true -> take k (g :: groups) = g :: groups)).
  { intros s1 s2 y Hs1 Hr. destruct (IH s1 s2 y Hr) as (k & Hk & Hall). exists (S k). cbn [take].
    split; [by rewrite Hk, Hs1, <- app_assoc|]. intros Hy. by rewrite Hall. }
  unfold mbind at 1, M_bind at 1, try in Hrun. destruct (format raid g s) as [s1 y] eqn:Hf.
  apply format_log in Hf. destruct y as [p|e|m]; cbn in Hrun.
  - unfold mbind, M_bind in Hrun. destruct (create_pools raid groups s1) as [s2 z] eqn:Hr.
    destruct (Hstep s1 s2 z Hf Hr) as (k & Hk & Hall).
    destruct z as [l|e|m]; injection Hrun as <- <-; by exists k.
  - unfold mbind, M_bind, add_broken_devices, update, modify in Hrun. cbn in Hrun.
    by eapply Hstep; [|exact Hrun].
  - injection Hrun as <- <-. exists 1%nat. split; [done|done].
Qed.

(** What one run may format of the disks of each type: part of them, in groups. *)
Definition grouped (policy : StoragePolicy) (fdisks gs : list (list Device)) : Prop :=
  concat gs ⊆+ concat fdisks /\
  Forall (fun g => Z.of_nat (length g) = Disks policy /\ exists disks, disks ∈ fdisks /\ g ⊆ disks) gs.

Lemma create_all_log policy : 0 <= Disks policy -> forall fdisks created s s' x,
  0 <= created -> create_all policy fdisks created s = (s', x) ->
  exists gs, formatted s' = formatted s ++ gs /\ grouped policy fdisks gs /\
    (is_ok x = true -> Disks policy = 1 -> MaxPools policy = 0 -> concat gs = concat fdisks).
Proof.
  intros Hd0 fdisks. induction fdisks as [|disks fdisks IH]; intros created s s' x Hc Hrun;
    cbn [create_all] in Hrun.
  { injection Hrun as <- <-. exists []. rewrite app_nil_r. repeat split; constructor. }
  destruct (Z.eqb_spec (Disks policy) 0) as [|Hd].
  { injection Hrun as <- <-. exists []. rewrite app_nil_r. split; [done|]. split; [|done].
    split; [apply submseteq_nil_l|constructor]. }
  cbv zeta in Hrun. set (n := possible_pools policy (Z.of_nat (length disks)) created) in *.
  pose proof (possible_pools_fit policy (length disks) created ltac:(lia) Hc) as Hfit. fold n in Hfit.
  set (all := groups_of (Z.to_nat n) (Z.to_nat (Disks policy)) disks) in *.
  pose proof (groups_of_prefix _ _ disks Hfit) as Hpre. fold all in Hpre.
  pose proof (groups_of_length _ _ disks Hfit) as Hlen. fold all in Hlen.
  assert (Hfirst : forall k, concat (take k all) ⊆+ disks /\
    Forall (fun g => Z.of_nat (length g) = Disks policy /\ exists ds, ds ∈ disks :: fdisks /\ g ⊆ ds) (take k all)).
  { intros k. split.
    - rewrite <- Hpre, <- (take_drop k all), concat_app, take_drop, <- app_assoc.
      by apply submseteq_inserts_r.
    - apply Forall_take. eapply Forall_impl; [exact Hlen|]. cbn. intros g [Hg Hsub].
      split; [lia|]. exists disks. split; [by left|done]. }
  unfold mbind at 1, M_bind at 1 in Hrun.
  destruct (create_pools (Raid policy) all s) as [s1 y] eqn:Hnew.
  destruct (create_pools_log _ _ _ _ _ Hnew) as (k & Hlog & Hall). destruct (Hfirst k) as [Hsub Hok].
  assert (Hcons : forall gs, grouped policy fdisks gs -> grouped policy (disks :: fdisks) (take k all ++ gs)).
  { intros gs [Hs Hg]. split; [rewrite concat_app; by apply submseteq_app|].
    apply Forall_app. split; [done|]. eapply Forall_impl; [exact Hg|]. cbn. intros g [Hl (ds & Hin & Hgd)].
    split; [done|]. exists ds. split; [by right|done]. }
  assert (Hstop : formatted s1 = formatted s ++ (take k all ++ []) /\
    grouped policy (disks :: fdisks) (take k all ++ [])).
  { rewrite app_nil_r. split; [done|]. rewrite <- (app_nil_r (take k all)). apply Hcons.
    split; [apply submseteq_nil_l|constructor]. }
  destruct y as [new|e|m]; [|injection Hrun as <- <-; eexists; split_and!; [apply Hstop..|done]..].
  unfold mbind, M_bind in Hrun.
  destruct (create_all policy fdisks (created + Z.of_nat (length new)) s1) as [s2 z] eqn:Hrest.
  apply IH in Hrest as (gs & Hlog2 & Hgs & Hfull); [|lia].
  assert (Hs' : s' = s2 /\ is_ok x = is_ok z) by (destruct z; by injection Hrun as <- <-).
  destruct Hs' as [-> Hxz]. exists (take k all ++ gs). split; [by rewrite Hlog2, Hlog, <- app_assoc|].
  split; [by apply Hcons|]. intros Hx Hone Hmax. rewrite concat_app, Hfull by (done || congruence).
  cbn [concat]. f_equal. rewrite (Hall eq_refl), <- Hpre at 1.
  assert (Hn : n = Z.of_nat (length disks)).
  { unfold n, possible_pools. by rewrite Hone, Hmax, Z.div_1_r. }
  rewrite Hn, Hone, Nat2Z.id, Nat.mul_1_r, drop_all, app_nil_r. done.
Qed.

Lemma keeps_finish f newPools : keeps (logged f) (finish newPools).
Proof.
  unfold finish. apply keeps_bind.
  { apply keeps_for_each. intros p _. apply keeps_bind; [apply keeps_world|intros _; apply keeps_update]. }
  intros _. apply keeps_bind; [apply keeps_gets|intros pools].
  apply keeps_bind; [apply keeps_world|intros [ssd hdd]].
  apply keeps_bind; [apply keeps_update|intros _].
  apply keeps_bind; [apply keeps_world|intros _]. apply keeps_bind; [apply keeps_world|intros _].
  apply keeps_bind; [apply keeps_try, keeps_world|intros [h|e]]; [destruct (_ =? _)%string|];
    auto with zos_monad.
Qed.

Lemma keeps_mounting f ps : keeps (logged f) (for_each mount_existing ps).
Proof. apply keeps_for_each. intros p _. apply keeps_mount_existing. Qed.

(** A group of disks of one type. *)
Definition homogeneous (g : list Device) : Prop :=
  Forall (fun d => d_DiskType d = SSDDevice) g \/ Forall (fun d => d_DiskType d <> SSDDevice) g.

Lemma grouped_homogeneous policy free gs :
  grouped policy [filter (fun d => d_DiskType d = SSDDevice) free;
                  filter (fun d => d_DiskType d <> SSDDevice) free] gs ->
  Forall (fun g => Z.of_nat (length g) = Disks policy /\ homogeneous g) gs.
Proof.
  intros [_ Hg]. eapply Forall_impl; [exact Hg|]. cbn. intros g [Hl (ds & Hin & Hsub)]. split; [done|].
  rewrite !elem_of_cons in Hin. unfold homogeneous. rewrite !Forall_forall.
  destruct Hin as [->|[->|Hin]]; [left|right|by apply elem_of_nil in Hin];
    intros d Hd; by apply Hsub, list_elem_of_filter in Hd as [].
Qed.

(** C28 (safety): the storage module formats only free disks, and none twice. Of
    the disks that are reported at the start, those that end up in calls of
    [CreateForce] are unused (no label, no file system, no partition) and are
    taken at most once; each call gets as many disks as the policy says, all of
    them solid state or none. Nothing else is formatted, whatever fails on the
    way. With the policy of [New], one disk for each pool, a start that
    succeeds formats every free disk. *)
Theorem initialize_formats policy disks s s' x :
  (forall w ds, devices_Devices w = Ok ds -> ds = disks) ->
  0 <= Disks policy -> formatted s = [] ->
  initialize policy s = (s', x) ->
  concat (formatted s') ⊆+ filter (fun d => Used d = false) disks /\
  Forall (fun g => Z.of_nat (length g) = Disks policy /\
    (Forall (fun d => d_DiskType d = SSDDevice) g \/ Forall (fun d => d_DiskType d <> SSDDevice) g))
    (formatted s') /\
  (policy = defaultPolicy -> x = Ok tt ->
   concat (formatted s') ≡ₚ filter (fun d => Used d = false) disks).
Proof.
  intros Hdisks Hd Hs.
  set (free := filter (fun d => Used d = false) disks).
  assert (Hempty : formatted s' = [] -> x <> Ok tt -> concat (formatted s') ⊆+ free /\
    Forall (fun g => Z.of_nat (length g) = Disks policy /\ homogeneous g) (formatted s') /\
    (policy = defaultPolicy -> x = Ok tt -> concat (formatted s') ≡ₚ free)).
  { intros -> Hx. split; [apply submseteq_nil_l|]. split; [constructor|done]. }
  unfold initialize. unfold mbind at 1, M_bind at 1.
  pose proof (keeps_world [] fs_List s Hs) as Hk.
  destruct (world fs_List s) as [s1 [existing|e|m]]; cbn in Hk; [|intros [= <- <-]; by apply Hempty..].
  unfold mbind at 1, M_bind at 1. apply (keeps_mounting [] existing) in Hk.
  destruct (for_each mount_existing existing s1) as [s2 [[]|e|m]]; cbn in Hk;
    [|intros [= <- <-]; by apply Hempty..].
  unfold mbind at 1, M_bind at 1. apply (keeps_world [] (ask devices_Devices)) in Hk.
  destruct (world (ask devices_Devices) s2) as [s3 [ds|e|m]] eqn:Hds; cbn in Hk;
    [|intros [= <- <-]; by apply Hempty..].
  assert (ds = disks) as ->.
  { unfold world, ask in Hds. apply (Hdisks (i_world s2)). by injection Hds. }
  cbv zeta. set (sorted := sort_slice faster _).
  destruct (diskBase (Raid policy)) as [base|]; [|intros [= <- <-]; by apply Hempty].
  destruct (negb _); [intros [= <- <-]; by apply Hempty|].
  unfold mbind, M_bind. destruct (create_all _ _ _ s3) as [s4 y] eqn:Hall.
  apply create_all_log in Hall as (gs & Hlog & Hgs & Hfull); [|done|done].
  assert (Hperm : concat [filter (fun d => d_DiskType d = SSDDevice) sorted;
                          filter (fun d => d_DiskType d <> SSDDevice) sorted] ≡ₚ free).
  { cbn [concat]. rewrite app_nil_r. unfold free. rewrite <- (sort_slice_perm faster (filter _ disks)).
    fold sorted. apply filter_app_complement. }
  assert (Hsub : concat gs ⊆+ free) by (rewrite <- Hperm; apply Hgs).
  apply grouped_homogeneous in Hgs. rewrite Hk in Hlog. cbn in Hlog.
  assert (Hdone : formatted s' = gs -> (x = Ok tt -> is_ok y = true) -> concat (formatted s') ⊆+ free /\
    Forall (fun g => Z.of_nat (length g) = Disks policy /\ homogeneous g) (formatted s') /\
    (policy = defaultPolicy -> x = Ok tt -> concat (formatted s') ≡ₚ free)).
  { intros -> Hx. split_and!; [done..|]. intros -> Hok. by rewrite (Hfull (Hx Hok) eq_refl eq_refl). }
  destruct y as [new|e|m]; [|intros [= <- <-]; by apply Hdone..].
  pose proof (keeps_finish gs new s4 Hlog) as Hf. intros Hrun. rewrite Hrun in Hf. by apply Hdone.
Qed.

End init_lemmas.

(** ** Witness

    A node with a free solid state disk, a free hard disk and a disk in use. *)
Module InitDemo.
Import StorageDemo.

Definition disk (path label : string) (t : DeviceType) (rt : Z) : Device :=
  MkDevice path label "" [] t rt "" false.

Definition disks : list Device :=
  [disk "/dev/sda" "" HDDDevice 900; disk "/dev/sdb" "data" SSDDevice 20; disk "/dev/sdc" "" SSDDevice 10].

#[export] Instance init_ops : InitOps (gmap string pool) := {|
  fs_List := mret [];
  fs_CreateForce id _ _ := fun w => (<[id := MkPool false ∅]> w, Ok id);
  new_uuid w := (w, "pool" +:+ Itoa (Z.of_nat (size w)));
  devices_Devices _ := Ok disks;
  pool_Devices p _ := [];
  Partprobe := mret tt;
  GetHypervisor _ := Ok "";
  proc_table _ := "";
  BindMount _ _ := mret tt;
  SetFlag _ := mret tt;
  mount_tmpfs _ _ := mret tt;
  smartctl _ _ := Some (Ok "ACTIVE")
|}.

Definition start : InitState (gmap string pool) := MkInit newModule ∅ [].

Lemma initialize_formats_witness :
  let s' := fst (initialize defaultPolicy start) in
  m_pools (i_module s') = ["pool0"; "pool1"] /\
  d_Path <$> concat (formatted s') = ["/dev/sdc"; "/dev/sda"] /\
  concat (formatted s') ≡ₚ filter (fun d => Used d = false) disks.
Proof.
  split; [vm_compute; reflexivity|]. split; [vm_compute; reflexivity|].
  assert (Hrun : snd (initialize defaultPolicy start) = Ok tt) by (vm_compute; reflexivity).
  destruct (initialize defaultPolicy start) as [s' x] eqn:Heq. cbn in Hrun. subst x. cbn [fst].
  destruct (initialize_formats defaultPolicy disks start s' (Ok tt)) as (_ & _ & Hperm);
    [by intros w ds [= <-]|done|done|exact Heq|]. by apply Hperm.
Defined.

End InitDemo.
