(* ===== verification/Bus.v ===== *)
(** What the provisioners of src/pkg/provision/primitives work on: the daemons of
    the node behind the bus, the log of what they were asked to do, and which
    resources of the node a log leaves in use.

    A stub of src/pkg/stubs turns a method of a daemon into a request; it panics
    when the daemon does not answer. Each daemon is a record of procedures over
    a world [W]; the interfaces are those of src/pkg (storage.go, zdb.go,
    container.go, flist.go, network.go, vm.go). *)

From stdpp Require Import gmap strings list.
From Stdlib Require Import Ascii ZArith Lia.
From S2P Require Import Prelude Reservation Counters NetIP NetTypes Storage.

Open Scope Z_scope.

(** ** Data of the interfaces *)

Record MountOptions := MkMountOptions { mo_ReadOnly : bool; mo_Limit : Z; mo_Type : DeviceType }.

Definition DefaultMountOptions : MountOptions := MkMountOptions false 256 SSDDevice.
Definition ReadOnlyMountOptions : MountOptions := MkMountOptions true 0 (OtherDevice "").

Record MountInfo := MkMountInfo { mi_Source : string; mi_Target : string }.

(** The backends of the logs, and the statistics backends as they came. *)
Record Logs := MkLogs { log_Type : string; log_Stdout : string; log_Stderr : string }.

(** [stats.Stats]. *)
Record Stats := MkStats { stats_Type : string; stats_Endpoint : string }.

(** [pkg.Container]. *)
Record ContainerSpec := MkContainerSpec {
  ct_Name : string; ct_RootFS : string; ct_Env : list string; ct_WorkingDir : string;
  ct_Namespace : string;
  ct_Mounts : list MountInfo; ct_Entrypoint : string; ct_Interactive : bool;
  ct_CPU : Z; ct_Memory : Z; ct_Logs : list Logs; ct_Stats : list Stats; ct_Elevated : bool
}.

Record VMIface := MkVMIface {
  if_Tap : string; if_MAC : string; if_IP4AddressCIDR : IPNet; if_IP4GatewayIP : IP;
  if_IP4Net : IPNet; if_IP6AddressCIDR : IPNet; if_IP6GatewayIP : IP; if_Public : bool
}.

Record VMNetworkInfo := MkVMNetworkInfo {
  vn_Ifaces : list VMIface; vn_Nameservers : list IP; vn_NewStyle : bool
}.

Record VMDisk := MkVMDisk { vmd_Path : string; vmd_ReadOnly : bool; vmd_Root : bool }.

(** [pkg.VM]. *)
Record VMSpec := MkVMSpec {
  vs_Name : string; vs_CPU : Z; vs_Memory : Z; vs_Network : VMNetworkInfo;
  vs_KernelImage : string; vs_InitrdImage : string; vs_KernelArgs : string;
  vs_Disks : list VMDisk; vs_NoKeepAlive : bool
}.

Record Member := MkMember { mb_Namespace : string; mb_IPv6 : IP; mb_IPv4 : IP; mb_YggdrasilIP : IP }.

Record ContainerNetworkConfig := MkContainerNetworkConfig {
  cn_IPs : list string; cn_PublicIP6 : bool; cn_YggdrasilIP : bool
}.

Record Peer := MkPeer {
  peer_Subnet : IPNet; peer_WGPublicKey : string; peer_AllowedIPs : list IPNet; peer_Endpoint : string
}.

Record NetResource := MkNetResource {
  nr_Name : string; nr_NetID : string; nr_NetworkIPRange : IPNet; nr_NodeID : string;
  nr_Subnet : IPNet; nr_WGPrivateKey : string; nr_WGPublicKey : string; nr_WGListenPort : Z;
  nr_Peers : list Peer
}.

(** ** The daemons *)

Record StorageModule (W : Type) := MkStorageModule {
  sm_Path : string -> M W string;
  sm_CreateFilesystem : string -> Z -> DeviceType -> M W string;
  sm_ReleaseFilesystem : string -> M W unit;
  sm_Allocate : string -> DeviceType -> Z -> string -> M W Allocation;
  sm_Find : string -> M W Allocation
}.
Arguments sm_Path {W}.
Arguments sm_CreateFilesystem {W}.
Arguments sm_ReleaseFilesystem {W}.
Arguments sm_Allocate {W}.
Arguments sm_Find {W}.

(** [vdk_Inspect] gives the path of the disk. *)
Record VDiskModule (W : Type) := MkVDiskModule {
  vdk_Allocate : string -> Z -> string -> M W string;
  vdk_Deallocate : string -> M W unit;
  vdk_Exists : string -> M W bool;
  vdk_Inspect : string -> M W string
}.
Arguments vdk_Allocate {W}.
Arguments vdk_Deallocate {W}.
Arguments vdk_Exists {W}.
Arguments vdk_Inspect {W}.

Record Flister (W : Type) := MkFlister {
  fl_Mount : string -> string -> MountOptions -> M W string;
  fl_NamedMount : string -> string -> string -> MountOptions -> M W string;
  fl_Umount : string -> M W unit;
  fl_HashFromRootPath : string -> M W string;
  fl_FlistHash : string -> M W string
}.
Arguments fl_Mount {W}.
Arguments fl_NamedMount {W}.
Arguments fl_Umount {W}.
Arguments fl_HashFromRootPath {W}.
Arguments fl_FlistHash {W}.

Record ContainerModule (W : Type) := MkContainerModule {
  cm_Run : string -> ContainerSpec -> M W string;
  cm_Inspect : string -> string -> M W ContainerSpec;
  cm_List : string -> M W (list string);
  cm_Delete : string -> string -> M W unit
}.
Arguments cm_Run {W}.
Arguments cm_Inspect {W}.
Arguments cm_List {W}.
Arguments cm_Delete {W}.

Record VMModule (W : Type) := MkVMModule {
  vmm_Run : VMSpec -> M W unit;
  vmm_Inspect : string -> M W unit;
  vmm_Delete : string -> M W unit;
  vmm_Exists : string -> M W bool;
  vmm_Logs : string -> M W string
}.
Arguments vmm_Run {W}.
Arguments vmm_Inspect {W}.
Arguments vmm_Delete {W}.
Arguments vmm_Exists {W}.
Arguments vmm_Logs {W}.

Record Networker (W : Type) := MkNetworker {
  nw_CreateNR : NetResource -> M W string;
  nw_DeleteNR : NetResource -> M W unit;
  nw_Join : string -> string -> ContainerNetworkConfig -> M W Member;
  nw_Leave : string -> string -> M W unit;
  nw_ZDBPrepare : list Z -> M W string;
  nw_ZDBDestroy : string -> M W unit;
  nw_SetupTap : string -> M W string;
  nw_TapExists : string -> M W bool;
  nw_RemoveTap : string -> M W unit;
  nw_PublicIPv4Support : M W bool;
  nw_SetupPubTap : string -> M W string;
  nw_RemovePubTap : string -> M W unit;
  nw_GetSubnet : string -> M W IPNet;
  nw_GetNet : string -> M W IPNet;
  nw_GetPublicIPv6Subnet : M W IPNet;
  nw_GetDefaultGwIP : string -> M W (IP * IP);
  nw_GetIPv6From4 : string -> IP -> M W IPNet;
  nw_Addrs : string -> string -> M W (list IP)
}.
Arguments nw_CreateNR {W}.
Arguments nw_DeleteNR {W}.
Arguments nw_Join {W}.
Arguments nw_Leave {W}.
Arguments nw_ZDBPrepare {W}.
Arguments nw_ZDBDestroy {W}.
Arguments nw_SetupTap {W}.
Arguments nw_TapExists {W}.
Arguments nw_RemoveTap {W}.
Arguments nw_PublicIPv4Support {W}.
Arguments nw_SetupPubTap {W}.
Arguments nw_RemovePubTap {W}.
Arguments nw_GetSubnet {W}.
Arguments nw_GetNet {W}.
Arguments nw_GetPublicIPv6Subnet {W}.
Arguments nw_GetDefaultGwIP {W}.
Arguments nw_GetIPv6From4 {W}.
Arguments nw_Addrs {W}.

Record IdentityManager (W : Type) := MkIdentityManager {
  id_NodeID : M W string;
  id_Decrypt : string -> M W string;
  id_DecryptECDH : string -> string -> M W string
}.
Arguments id_NodeID {W}.
Arguments id_Decrypt {W}.
Arguments id_DecryptECDH {W}.

(** The explorer: a workload is the address of a public ip workload, or another
    kind of workload; a node its farm, a farm its addresses (reservation,
    gateway), a user its public key. *)
Record Explorer (W : Type) := MkExplorer {
  ex_Client : M W unit;
  ex_NodeWorkloadGet : string -> M W (option IPNet);
  ex_NodeGet : string -> M W Z;
  ex_FarmGet : Z -> M W (list (Z * IP));
  ex_UserGet : Z -> M W string
}.
Arguments ex_Client {W}.
Arguments ex_NodeWorkloadGet {W}.
Arguments ex_NodeGet {W}.
Arguments ex_FarmGet {W}.
Arguments ex_UserGet {W}.

(** A 0-db instance, by the id of its container. *)
Record ZdbClient (W : Type) := MkZdbClient {
  zc_Connect : string -> M W unit;
  zc_Exist : string -> string -> M W bool;
  zc_Namespaces : string -> M W (list string);
  zc_CreateNamespace : string -> string -> M W unit;
  zc_DeleteNamespace : string -> string -> M W unit;
  zc_SetPassword : string -> string -> string -> M W unit;
  zc_SetPublic : string -> string -> bool -> M W unit;
  zc_SetSize : string -> string -> Z -> M W unit
}.
Arguments zc_Connect {W}.
Arguments zc_Exist {W}.
Arguments zc_Namespaces {W}.
Arguments zc_CreateNamespace {W}.
Arguments zc_DeleteNamespace {W}.
Arguments zc_SetPassword {W}.
Arguments zc_SetPublic {W}.
Arguments zc_SetSize {W}.

(** The services of zinit; [AddService] and [RemoveService] write files. *)
Record Zinit (W : Type) := MkZinit {
  zi_New : M W unit;
  zi_List : M W (list string);
  zi_AddService : string -> string -> M W unit;
  zi_Monitor : string -> M W unit;
  zi_Stop : string -> M W unit;
  zi_Forget : string -> M W unit;
  zi_RemoveService : string -> M W unit
}.
Arguments zi_New {W}.
Arguments zi_List {W}.
Arguments zi_AddService {W}.
Arguments zi_Monitor {W}.
Arguments zi_Stop {W}.
Arguments zi_Forget {W}.
Arguments zi_RemoveService {W}.

(** The file system, a shell, and the cache of the reservations. *)
Record System (W : Type) := MkSystem {
  sys_Stat : string -> M W unit;
  sys_MkdirAll : string -> M W unit;
  sys_Remove : string -> M W unit;
  sys_LookPath : string -> M W string;
  sys_sh : string -> M W unit;
  sys_cache_Get : string -> M W Reservation
}.
Arguments sys_Stat {W}.
Arguments sys_MkdirAll {W}.
Arguments sys_Remove {W}.
Arguments sys_LookPath {W}.
Arguments sys_sh {W}.
Arguments sys_cache_Get {W}.

Record Daemons (W : Type) := MkDaemons {
  storaged : StorageModule W;
  vdiskd : VDiskModule W;
  flistd : Flister W;
  contd : ContainerModule W;
  vmd : VMModule W;
  networkd : Networker W;
  identityd : IdentityManager W;
  explorer : Explorer W;
  zdbs : ZdbClient W;
  zinit : Zinit W;
  node : System W
}.
Arguments storaged {W}.
Arguments vdiskd {W}.
Arguments flistd {W}.
Arguments contd {W}.
Arguments vmd {W}.
Arguments networkd {W}.
Arguments identityd {W}.
Arguments explorer {W}.
Arguments zdbs {W}.
Arguments zinit {W}.
Arguments node {W}.

(** ** What is asked of the daemons *)

(** The requests that change something; [NodeCall] is a system call or a program
    that a daemon runs itself, and [NetCall] a change of the network, in the namespace
    at a path or in that of the host. *)
Inductive op :=
| CreateFilesystem (name : string) (size : Z) (t : DeviceType)
| ReleaseFilesystem (name : string)
| ZDBAllocate (ns : string) (t : DeviceType) (size : Z) (mode : string)
| DiskAllocate (name : string) (size : Z) (source : string)
| DiskDeallocate (name : string)
| FlistMount (url storage : string) (opts : MountOptions)
| FlistNamedMount (name url storage : string) (opts : MountOptions)
| FlistUmount (path : string)
| ContainerRun (ns : string) (c : ContainerSpec)
| ContainerDelete (ns id : string)
| VMRun (vm : VMSpec)
| VMDelete (name : string)
| NetCreateNR (nr : NetResource)
| NetDeleteNR (nr : NetResource)
| NetJoin (net id : string) (cfg : ContainerNetworkConfig)
| NetLeave (net id : string)
| NetZDBPrepare (hw : list Z)
| NetZDBDestroy (ns : string)
| NetSetupTap (net : string)
| NetRemoveTap (net : string)
| NetSetupPubTap (id : string)
| NetRemovePubTap (id : string)
| ZdbCreateNamespace (db ns : string)
| ZdbDeleteNamespace (db ns : string)
| ZdbSetPassword (db ns password : string)
| ZdbSetPublic (db ns : string) (public : bool)
| ZdbSetSize (db ns : string) (size : Z)
| ZinitAdd (name exec : string)
| ZinitMonitor (name : string)
| ZinitStop (name : string)
| ZinitForget (name : string)
| ZinitRemove (name : string)
| Mkdir (path : string)
| RemoveFile (path : string)
| Shell (script : string)
| NodeCall (call : string) (args : list string)
| NetCall (ns : option string) (o : netop).

(** A request and its answer: the error, or what matters of the result (a path,
    an id). *)
Record event := Ran { ev_op : op; ev_out : string + error }.

(** [p_err] is whether the error that deferred functions look at is set. *)
Record PState (W : Type) := MkP { p_world : W; p_log : list event; p_err : bool }.
Arguments MkP {W}.
Arguments p_world {W}.
Arguments p_log {W}.
Arguments p_err {W}.

Section calls.
  Context {W : Type}.

Notation PM := (M (PState W)).

(** A question. *)
Definition call {A} (m : M W A) : PM A := fun s =>
  let '(w, x) := m (p_world s) in (MkP w (p_log s) (p_err s), x).

(** A request that is logged. When the daemon does not answer there is nothing
    to log. *)
Definition act {A} (show : A -> string) (o : op) (m : M W A) : PM A := fun s =>
  let '(w, x) := m (p_world s) in
  (MkP w (match x with
          | Ok a => p_log s ++ [Ran o (inl (show a))]
          | Err e => p_log s ++ [Ran o (inr e)]
          | Panic _ => p_log s
          end) (p_err s), x).

Definition act_ (o : op) (m : M W unit) : PM unit := act (fun _ => "") o m.
(** A system call or a program. *)
Definition node_call (name : string) (args : list string) (m : M W unit) : PM unit :=
  act_ (NodeCall name args) m.

Definition act_path (o : op) (m : M W string) : PM string := act (fun path => path) o m.

Definition set_err (s : PState W) : PState W := MkP (p_world s) (p_log s) true.

(** [defer func() { if err != nil { cleanup } }()] in front of [m], where [err] is
    the result of the function. The clean-up also runs when a panic passes
    while [err] is set; its own errors are dropped. *)
Definition on_error {A} (cleanup : PM unit) (m : PM A) : PM A := fun s =>
  let '(s1, x) := m s in
  if match x with Ok _ => false | Err _ => true | Panic _ => p_err s1 end
  then
    let '(s2, y) := cleanup (set_err s1) in
    (s2, match y with Panic p => Panic p | _ => x end)
  else (s1, x).

(** [if err != nil { cleanup }; return err] after [err = m]. *)
Definition or_else {A} (cleanup : PM unit) (m : PM A) : PM A := fun s =>
  let '(s1, x) := m s in
  match x with
  | Err _ =>
      let '(s2, y) := cleanup (set_err s1) in
      (s2, match y with Panic p => Panic p | _ => x end)
  | _ => (s1, x)
  end.

End calls.

Notation PM W := (M (PState W)).

(** ** Resources *)

(** A kind and a name. *)
Definition resource : Type := string * list string.
#[export] Instance resource_eq_dec : EqDecision resource := _.
#[export] Instance resource_countable : Countable resource := _.
Notation resources := (@gset resource resource_eq_dec resource_countable).

Definition RDisk (name : string) : resource := ("disk", [name]).
Definition RTap (net : string) : resource := ("tap", [net]).
Definition RPubTap (id : string) : resource := ("public tap", [id]).
Definition RVM (name : string) : resource := ("machine", [name]).
Definition RContainer (ns id : string) : resource := ("container", [ns; id]).
Definition RMount (path : string) : resource := ("mount", [path]).
Definition RMember (net id : string) : resource := ("member", [net; id]).
Definition RVolume (name : string) : resource := ("volume", [name]).
Definition RZdb (ns : string) : resource := ("0-db storage", [ns]).
Definition RService (name : string) : resource := ("service", [name]).
Definition RNetns (path : string) : resource := ("network namespace", [path]).
Definition RLink (name : string) : resource := ("link", [name]).
Definition RVeth (path : string) : resource := ("veth pair", [path]).

(** What a request takes: a machine or a container is there as soon as it has
    been asked for, because its process can stay behind when the request fails.
    A read-only flist is mounted once for all that use it, so no workload holds
    it. Of the links, those of the host's namespace are counted: the others go
    with their namespace. A veth pair with one end in a namespace is there as soon as it was
    asked for, and goes with this namespace, both its ends. *)
Definition takes (ev : event) : resources :=
  match ev_op ev, ev_out ev with
  | VMRun vm, _ => {[RVM (vs_Name vm)]}
  | ContainerRun ns c, _ => {[RContainer ns (ct_Name c)]}
  | DiskAllocate name _ _, inl _ => {[RDisk name]}
  | NetSetupTap net, inl _ => {[RTap net]}
  | NetSetupPubTap id, inl _ => {[RPubTap id]}
  | NetJoin net id _, inl _ => {[RMember net id]}
  | FlistMount _ _ _, inl path => {[RMount path]}
  | FlistNamedMount _ _ _ opts, inl path => if mo_ReadOnly opts then ∅ else {[RMount path]}
  | CreateFilesystem name _ _, inl _ => {[RVolume name]}
  | ZDBAllocate ns _ _ _, inl _ => {[RZdb ns]}
  | ZinitAdd name _, _ => {[RService name]}
  | NetCall _ (NsMount _ path), inl _ => {[RNetns path]}
  | NetCall (Some path) (SetupVeth _ _ _), _ => {[RVeth path]}
  | NetCall None (LinkAdd l), inl _ => if ln_Namespace l is None then {[RLink (ln_Name l)]} else ∅
  | _, _ => ∅
  end.

(** What a request gives back. A resource that a daemon was asked to release and
    did not is no longer the provisioner's. *)
Definition gives (o : op) : resources :=
  match o with
  | VMDelete name => {[RVM name]}
  | ContainerDelete ns id => {[RContainer ns id]}
  | DiskDeallocate name => {[RDisk name]}
  | NetRemoveTap net => {[RTap net]}
  | NetRemovePubTap id => {[RPubTap id]}
  | NetLeave net id => {[RMember net id]}
  | FlistUmount path => {[RMount path]}
  | ReleaseFilesystem name => {[RVolume name]}
  | ZinitRemove name => {[RService name]}
  | NetCall _ (NsUnmount path) => {[RNetns path; RVeth path]}
  | NetCall None (LinkDel l) => {[RLink (ln_Name l)]}
  | NetCall None (LinkSetNsFd l (Some _)) => {[RLink (ln_Name l)]}
  | _ => ∅
  end.

(** What is held after some requests. *)
Definition held (evs : list event) (R : resources) : resources :=
  foldl (fun R ev => (R ∪ takes ev) ∖ gives (ev_op ev)) R evs.

(** ** Running with resources

    [uses P m Q E]: with at most [P] held, [m] leaves at most [Q a] held when it
    returns [a], and at most [E] when it returns an error. *)

Section uses.
  Context {W : Type}.
  Implicit Types (P E : resources).

Definition uses {A : Type} (P : resources) (m : PM W A) (Q : A -> resources) (E : resources) : Prop :=
  forall s s' x, m s = (s', x) -> exists evs, p_log s' = p_log s ++ evs /\
    match x with
    | Ok a => held evs P ⊆ Q a
    | Err _ => held evs P ⊆ E
    | Panic _ => True
    end.

(** It asks for nothing. *)
Definition quiet {A} (m : PM W A) : Prop := forall s, p_log (fst (m s)) = p_log s.

Lemma held_mono evs : forall R R', R ⊆ R' -> held evs R ⊆ held evs R'.
Proof. induction evs as [|ev evs IH]; intros R R' H; cbn; [done|]. apply IH. set_solver. Qed.

Lemma held_app l l' R : held (l ++ l') R = held l' (held l R).
Proof. apply foldl_app. Qed.

Lemma quiet_call {A} (m : M W A) : quiet (call m).
Proof. intros s. unfold call. by destruct (m (p_world s)). Qed.

Lemma quiet_ret {A} (a : A) : quiet (mret a).
Proof. done. Qed.

Lemma quiet_lift {A} (r : res A) : quiet (lift r).
Proof. done. Qed.

Lemma quiet_throw {A} e : quiet (throw (A := A) e).
Proof. done. Qed.

Lemma quiet_panic {A} p : quiet (panic (A := A) p).
Proof. done. Qed.

Lemma quiet_bind {A B} (m : PM W A) (k : A -> PM W B) :
  quiet m -> (forall a, quiet (k a)) -> quiet (m ≫= k).
Proof.
  intros Hm Hk s. specialize (Hm s). unfold mbind, M_bind.
  destruct (m s) as [s1 [a|e|p]]; cbn in *; [by rewrite Hk|done|done].
Qed.

Lemma quiet_wrap {A} msg (m : PM W A) : quiet m -> quiet (wrap msg m).
Proof. intros Hm s. specialize (Hm s). unfold wrap. by destruct (m s) as [s1 []]. Qed.

Lemma quiet_try {A} (m : PM W A) : quiet m -> quiet (try m).
Proof. intros Hm s. specialize (Hm s). unfold try. by destruct (m s) as [s1 []]. Qed.

Lemma quiet_ignore {A} (m : PM W A) : quiet m -> quiet (ignore m).
Proof. intros Hm s. specialize (Hm s). unfold ignore. by destruct (m s) as [s1 []]. Qed.

Lemma uses_weaken {A : Type} P (m : PM W A) Q E P' Q' E' :
  uses P m Q E -> P' ⊆ P -> (forall a, Q a ⊆ Q' a) -> E ⊆ E' -> uses P' m Q' E'.
Proof.
  intros Hm HP HQ HE s s' x Hx. destruct (Hm s s' x Hx) as (evs & Hl & Hh). exists evs.
  split; [done|]. pose proof (held_mono evs P' P HP). destruct x; [|set_solver|done].
  etrans; [eassumption|]. etrans; [eassumption|apply HQ].
Qed.

Lemma uses_quiet {A : Type} P (m : PM W A) (Q : A -> resources) E :
  quiet m -> (forall a, P ⊆ Q a) -> P ⊆ E -> uses P m Q E.
Proof.
  intros Hm HQ HE s s' x Hx. exists []. specialize (Hm s). rewrite Hx in Hm. cbn in Hm.
  split; [by rewrite app_nil_r|]. by destruct x; [apply HQ| |].
Qed.

Lemma uses_ret {A : Type} P (a : A) (Q : A -> resources) E : P ⊆ Q a -> uses P (mret a) Q E.
Proof. intros H s s' x [= <- <-]. exists []. split; [by rewrite app_nil_r|done]. Qed.

Lemma uses_throw {A : Type} P (e : error) (Q : A -> resources) E : P ⊆ E -> uses P (throw e) Q E.
Proof. intros H s s' x [= <- <-]. exists []. split; [by rewrite app_nil_r|done]. Qed.

Lemma uses_act {A : Type} P (show : A -> string) (o : op) (m : M W A) (Q : A -> resources) E :
  (forall a, (P ∪ takes (Ran o (inl (show a)))) ∖ gives o ⊆ Q a) ->
  (forall e, (P ∪ takes (Ran o (inr e))) ∖ gives o ⊆ E) ->
  uses P (act show o m) Q E.
Proof.
  intros HQ HE s s' x. unfold act. destruct (m (p_world s)) as [w [a|e|p]]; intros [= <- <-]; cbn.
  - exists [Ran o (inl (show a))]. split; [done|apply HQ].
  - exists [Ran o (inr e)]. split; [done|apply HE].
  - exists []. by rewrite app_nil_r.
Qed.

Lemma uses_bind {A B : Type} P (m : PM W A) Q (k : A -> PM W B) Q' E :
  uses P m Q E -> (forall a, uses (Q a) (k a) Q' E) -> uses P (m ≫= k) Q' E.
Proof.
  intros Hm Hk s s' x. unfold mbind, M_bind. destruct (m s) as [s1 y] eqn:Em.
  destruct (Hm _ _ _ Em) as (evs & Hl & Hh). destruct y as [a|e|p]; intros Hx.
  - destruct (Hk a _ _ _ Hx) as (evs' & Hl' & Hh'). exists (evs ++ evs').
    rewrite Hl', Hl, held_app. split; [by rewrite (assoc_L (++))|].
    pose proof (held_mono evs' _ _ Hh). destruct x; [set_solver|set_solver|done].
  - injection Hx as <- <-. by exists evs.
  - injection Hx as <- <-. by exists evs.
Qed.

(** A question before the rest. *)
Lemma uses_ask {A B : Type} P (m : PM W A) (k : A -> PM W B) (Q : B -> resources) E :
  quiet m -> P ⊆ E -> (forall a, uses P (k a) Q E) -> uses P (m ≫= k) Q E.
Proof. intros Hm HE Hk. eapply uses_bind; [by apply (uses_quiet P m (fun _ => P))|exact Hk]. Qed.

(** A decoder before the rest. *)
Lemma uses_decoded {A B : Type} P msg (r : res A) (a : A) (k : A -> PM W B) (Q : B -> resources) E :
  r = Ok a -> uses P (k a) Q E -> uses P (wrap msg (lift r) ≫= k) Q E.
Proof. intros -> H. exact H. Qed.

Lemma uses_wrap {A : Type} P (msg : string) (m : PM W A) Q E : uses P m Q E -> uses P (wrap msg m) Q E.
Proof.
  intros Hm s s' x. unfold wrap. destruct (m s) as [s1 y] eqn:Em.
  destruct (Hm _ _ _ Em) as (evs & Hl & Hh). destruct y; intros [= <- <-]; by exists evs.
Qed.

Lemma uses_try {A : Type} P (m : PM W A) Q E E' :
  uses P m (fun a => Q (inl a)) E' -> (forall e, E' ⊆ Q (inr e)) -> uses P (try m) Q E.
Proof.
  intros Hm HE s s' x. unfold try. destruct (m s) as [s1 y] eqn:Em.
  destruct (Hm _ _ _ Em) as (evs & Hl & Hh). destruct y as [a|e|p]; intros [= <- <-]; exists evs;
    (split; [done|]); [done| |done]. specialize (HE e). set_solver.
Qed.

Lemma uses_ignore {A : Type} P (m : PM W A) Q E :
  uses P m (fun _ => Q tt) (Q tt) -> uses P (ignore m) Q E.
Proof.
  intros Hm s s' x. unfold ignore. destruct (m s) as [s1 y] eqn:Em.
  destruct (Hm _ _ _ Em) as (evs & Hl & Hh). destruct y as [a|e|p]; intros [= <- <-]; by exists evs.
Qed.

(** Both ways of cleaning up: whatever the clean-up returns, [E] is what is left. *)
Lemma uses_or_else {A : Type} P (c : PM W unit) (m : PM W A) Q E E' :
  uses P m Q E' -> uses E' c (fun _ => E) E -> uses P (or_else c m) Q E.
Proof.
  intros Hm Hc s s' x. unfold or_else. destruct (m s) as [s1 y] eqn:Em.
  destruct (Hm _ _ _ Em) as (evs & Hl & Hh). destruct y as [a|e|p].
  - intros [= <- <-]. by exists evs.
  - destruct (c (set_err s1)) as [s2 z] eqn:Ec. destruct (Hc _ _ _ Ec) as (evs' & Hl' & Hh').
    intros [= <- <-]. exists (evs ++ evs'). cbn in Hl'. rewrite Hl', Hl, held_app.
    split; [by rewrite (assoc_L (++))|]. pose proof (held_mono evs' _ _ Hh).
    destruct z; [set_solver|set_solver|done].
  - intros [= <- <-]. by exists evs.
Qed.

Lemma uses_on_error {A : Type} P (c : PM W unit) (m : PM W A) Q E E' :
  uses P m Q E' -> uses E' c (fun _ => E) E -> uses P (on_error c m) Q E.
Proof.
  intros Hm Hc s s' x. unfold on_error. destruct (m s) as [s1 y] eqn:Em.
  destruct (Hm _ _ _ Em) as (evs & Hl & Hh). destruct y as [a|e|p].
  - intros [= <- <-]. by exists evs.
  - destruct (c (set_err s1)) as [s2 z] eqn:Ec. destruct (Hc _ _ _ Ec) as (evs' & Hl' & Hh').
    intros [= <- <-]. exists (evs ++ evs'). cbn in Hl'. rewrite Hl', Hl, held_app.
    split; [by rewrite (assoc_L (++))|]. pose proof (held_mono evs' _ _ Hh).
    destruct z; [set_solver|set_solver|done].
  - destruct (p_err s1).
    + destruct (c (set_err s1)) as [s2 z] eqn:Ec. destruct (Hc _ _ _ Ec) as (evs' & Hl' & _).
      intros [= <- <-]. exists (evs ++ evs'). cbn in Hl'. rewrite Hl', Hl.
      split; [by rewrite (assoc_L (++))|]. by destruct z.
    + intros [= <- <-]. by exists evs.
Qed.

(** *** Runs that return *)

Lemma quiet_log {A} (m : PM W A) s s' x : quiet m -> m s = (s', x) -> p_log s' = p_log s.
Proof. intros Hm Hx. specialize (Hm s). by rewrite Hx in Hm. Qed.

Lemma on_error_Ok {A} c (m : PM W A) s s' a : on_error c m s = (s', Ok a) -> m s = (s', Ok a).
Proof.
  unfold on_error. destruct (m s) as [s1 [b|e|p]]; [done| |].
  - destruct (c (set_err s1)) as [s2 []]; congruence.
  - destruct (p_err s1); [|congruence]. destruct (c (set_err s1)) as [s2 []]; congruence.
Qed.

Lemma on_error_Err {A} (c : PM W unit) (m : PM W A) s s' e : on_error c m s = (s', Err e) ->
  exists s1 y, m s = (s1, Err e) /\ c (set_err s1) = (s', y) /\ (forall p, y <> Panic p).
Proof.
  unfold on_error. destruct (m s) as [s1 [a|e'|p]]; [done| |].
  - destruct (c (set_err s1)) as [s2 y] eqn:Ec. intros [= <- Hy]. exists s1, y.
    destruct y; by simplify_eq.
  - destruct (p_err s1); [|done]. destruct (c (set_err s1)) as [s2 []]; congruence.
Qed.

(** A question before the rest of a run that fails. *)
Lemma ask_Err {A B} (m : PM W A) (k : A -> PM W B) s s' e : quiet m -> (m ≫= k) s = (s', Err e) ->
  p_log s' = p_log s \/ exists s1 a, p_log s1 = p_log s /\ k a s1 = (s', Err e).
Proof.
  intros Hm. specialize (Hm s). unfold mbind, M_bind. destruct (m s) as [s1 [a|e'|p]]; cbn in Hm;
    intros; simplify_eq; eauto.
Qed.

Lemma or_else_Ok {A} c (m : PM W A) s s' a : or_else c m s = (s', Ok a) -> m s = (s', Ok a).
Proof.
  unfold or_else. destruct (m s) as [s1 [b|e|p]]; [done| |done].
  destruct (c (set_err s1)) as [s2 []]; congruence.
Qed.

Lemma act_Ok {A} (show : A -> string) (o : op) (m : M W A) s s' a :
  act show o m s = (s', Ok a) -> p_log s' = p_log s ++ [Ran o (inl (show a))].
Proof. unfold act. destruct (m (p_world s)) as [w []]; intros; by simplify_eq. Qed.

Lemma try_inv {S A} (m : M S A) s s' y : try m s = (s', Ok y) ->
  m s = (s', match y with inl a => Ok a | inr e => Err e end).
Proof. unfold try. destruct (m s) as [s1 [a|e|p]]; intros; by simplify_eq. Qed.

(** A request that is logged with its answer. *)
Lemma act_inv {A} (show : A -> string) (o : op) (m : M W A) s s' x :
  act show o m s = (s', x) -> (forall p, x <> Panic p) ->
  p_log s' = p_log s ++ [Ran o (match x with Ok a => inl (show a) | Err e => inr e | Panic _ => inl "" end)].
Proof.
  unfold act. destruct (m (p_world s)) as [w [a|e|p]]; intros [= <- <-] Hp; [done..|by destruct (Hp p)].
Qed.

Lemma ignore_inv {S A} (m : M S A) s s' : ignore m s = (s', Ok tt) ->
  exists x, m s = (s', x) /\ (forall p, x <> Panic p).
Proof. unfold ignore. destruct (m s) as [s1 [a|e|p]]; intros [= <-]; by eexists. Qed.

Lemma ignore_inv' {S A} (m : M S A) s s' y : ignore m s = (s', y) -> (forall p, y <> Panic p) ->
  exists x, m s = (s', x) /\ (forall p, x <> Panic p).
Proof.
  unfold ignore. destruct (m s) as [s1 [a|e|p]]; intros [= <- <-] Hp; [by eexists..|by destruct (Hp p)].
Qed.

Lemma call_inv {A} (m : M W A) s s' x : call m s = (s', x) -> exists w w', m w = (w', x).
Proof. unfold call. destruct (m (p_world s)) as [w' y] eqn:E. intros [= <- <-]. eauto. Qed.

(** What a request makes of the world. *)
Lemma node_call_world name args (m : M W unit) s s' x : node_call name args m s = (s', x) ->
  m (p_world s) = (p_world s', x).
Proof. unfold node_call, act_, act. destruct (m (p_world s)) as [w []]; by intros [= <- <-]. Qed.

Lemma call_world {A} (m : M W A) s s' x : call m s = (s', x) -> m (p_world s) = (p_world s', x).
Proof. unfold call. destruct (m (p_world s)) as [w y]. by intros [= <- <-]. Qed.

(** Procedures that return no error: what they call is under [try]. *)
Definition no_error {A} (m : PM W A) : Prop := forall s s' e, m s <> (s', Err e).

Lemma no_error_ret {A} (a : A) : no_error (mret a).
Proof. by intros s s' e. Qed.

Lemma no_error_try {A} (m : PM W A) : no_error (try m).
Proof. intros s s' e. unfold try. by destruct (m s) as [s1 []]. Qed.

Lemma no_error_ignore {A} (m : PM W A) : no_error (ignore m).
Proof. intros s s' e. unfold ignore. by destruct (m s) as [s1 []]. Qed.

Lemma no_error_bind {A B} (m : PM W A) (k : A -> PM W B) :
  no_error m -> (forall a, no_error (k a)) -> no_error (m ≫= k).
Proof.
  intros Hm Hk s s' e. unfold mbind, M_bind. destruct (m s) as [s1 [a|e'|p]] eqn:E; [apply Hk| |done].
  by destruct (Hm _ _ _ E).
Qed.

Lemma or_else_Err {A} (c : PM W unit) (m : PM W A) s s' e : or_else c m s = (s', Err e) ->
  exists s1 y, m s = (s1, Err e) /\ c (set_err s1) = (s', y) /\ (forall p, y <> Panic p).
Proof.
  unfold or_else. destruct (m s) as [s1 [a|e'|p]]; [done| |done].
  destruct (c (set_err s1)) as [s2 y] eqn:Ec. intros [= <- Hy]. exists s1, y.
  destruct y; by simplify_eq.
Qed.

Lemma wrap_Err {A} msg (m : PM W A) s s' e : wrap msg m s = (s', Err e) ->
  exists e', m s = (s', Err e') /\ e = ErrWrap msg e'.
Proof. unfold wrap. destruct (m s) as [s1 [a|e'|p]]; intros; simplify_eq. by eexists. Qed.

(** The first call fails, or the rest. *)
Lemma bind_Err_inv {S A B} (m : M S A) (k : A -> M S B) s s' e : (m ≫= k) s = (s', Err e) ->
  m s = (s', Err e) \/ exists s1 a, m s = (s1, Ok a) /\ k a s1 = (s', Err e).
Proof.
  unfold mbind, M_bind. destruct (m s) as [s1 [a|e'|p]]; intros; simplify_eq; eauto.
Qed.

End uses.

(** *** What is asked for

    [emits P m]: whatever [m] returns, also when a daemon does not answer, it only
    adds requests that satisfy [P] to the log. *)

Section emits.
  Context {W : Type}.
  Implicit Types (P : event -> Prop).

Definition emits {A} (P : event -> Prop) (m : PM W A) : Prop :=
  forall s, exists evs, p_log (fst (m s)) = p_log s ++ evs /\ Forall P evs.

Lemma emits_quiet {A} P (m : PM W A) : quiet m -> emits P m.
Proof. intros Hm s. exists []. by rewrite Hm, app_nil_r. Qed.

Lemma emits_act {A} P (show : A -> string) (o : op) (m : M W A) :
  (forall out, P (Ran o out)) -> emits P (act show o m).
Proof.
  intros HP s. unfold act. destruct (m (p_world s)) as [w [a|e|p]]; cbn;
    [eexists; split; [reflexivity|by repeat constructor]..|exists []; by rewrite app_nil_r].
Qed.

(** What follows runs only when the first part has returned. *)
Lemma emits_bind {A B} P (m : PM W A) (k : A -> PM W B) :
  emits P m -> (forall a s s', m s = (s', Ok a) -> emits P (k a)) -> emits P (m ≫= k).
Proof.
  intros Hm Hk s. destruct (Hm s) as (evs & Hl & HP). unfold mbind, M_bind.
  destruct (m s) as [s1 [a|e|p]] eqn:Em; [|by exists evs..]. cbn in Hl.
  destruct (Hk a s s1 Em s1) as (evs' & Hl' & HP'). exists (evs ++ evs').
  rewrite Hl', Hl, (assoc_L (++)). split; [done|]. by apply Forall_app.
Qed.

Lemma emits_wrap {A} P msg (m : PM W A) : emits P m -> emits P (wrap msg m).
Proof. intros Hm s. specialize (Hm s). unfold wrap. by destruct (m s) as [s1 []]. Qed.

Lemma emits_try {A} P (m : PM W A) : emits P m -> emits P (try m).
Proof. intros Hm s. specialize (Hm s). unfold try. by destruct (m s) as [s1 []]. Qed.

Lemma emits_ignore {A} P (m : PM W A) : emits P m -> emits P (ignore m).
Proof. intros Hm s. specialize (Hm s). unfold ignore. by destruct (m s) as [s1 []]. Qed.

Lemma emits_node_call P name args (m : M W unit) : (forall out, P (Ran (NodeCall name args) out)) ->
  emits P (node_call name args m).
Proof. apply emits_act. Qed.

Lemma emits_cleanup P (c : PM W unit) (s s1 : PState W) evs : emits P c -> p_log s1 = p_log s ++ evs -> Forall P evs ->
  exists evs', p_log (fst (c (set_err s1))) = p_log s ++ evs' /\ Forall P evs'.
Proof.
  intros Hc Hl HP. destruct (Hc (set_err s1)) as (evs' & Hl' & HP'). exists (evs ++ evs').
  rewrite Hl'. cbn. rewrite Hl, (assoc_L (++)). split; [done|]. by apply Forall_app.
Qed.

Lemma emits_or_else {A} P c (m : PM W A) : emits P c -> emits P m -> emits P (or_else c m).
Proof.
  intros Hc Hm s. destruct (Hm s) as (evs & Hl & HP). unfold or_else.
  destruct (m s) as [s1 [a|e|p]]; [by exists evs| |by exists evs].
  pose proof (emits_cleanup P c s s1 evs Hc Hl HP) as Hx. by destruct (c (set_err s1)).
Qed.

Lemma emits_on_error {A} P c (m : PM W A) : emits P c -> emits P m -> emits P (on_error c m).
Proof.
  intros Hc Hm s. destruct (Hm s) as (evs & Hl & HP). unfold on_error.
  destruct (m s) as [s1 x]. destruct (match x with Ok _ => _ | _ => _ end); [|by exists evs].
  pose proof (emits_cleanup P c s s1 evs Hc Hl HP) as Hx. by destruct (c (set_err s1)).
Qed.

Lemma emits_for_each {A} P (body : A -> PM W unit) l :
  (forall x, emits P (body x)) -> emits P (for_each body l).
Proof.
  intros Hb. induction l as [|x l IH]; cbn [for_each]; [by apply emits_quiet|].
  by apply emits_bind.
Qed.

Lemma ignored_call name args (m : M W unit) (s s' : PState W) u : ignore (node_call name args m) s = (s', Ok u) ->
  exists out, p_log s' = p_log s ++ [Ran (NodeCall name args) out].
Proof.
  destruct u. intros (x & Hx & Hp)%ignore_inv. apply act_inv in Hx; [|done]. by eexists.
Qed.

Lemma emits_run {A} P (m : PM W A) s s' x : emits P m -> m s = (s', x) ->
  exists evs, p_log s' = p_log s ++ evs /\ Forall P evs.
Proof. intros Hm Hx. specialize (Hm s). by rewrite Hx in Hm. Qed.

End emits.

(** Requests that take no more than [T]. *)
Lemma held_takes T evs : forall R, Forall (fun ev => takes ev ⊆ T) evs -> held evs R ⊆ R ∪ T.
Proof.
  induction evs as [|ev evs IH]; intros R H1; [set_solver|]. apply Forall_cons in H1 as [Hev Hevs]. cbn.
  etrans; [by apply IH|]. set_solver.
Qed.

(** A request that takes nothing. *)
Definition neutral (ev : event) : Prop := takes ev = ∅.

Lemma held_neutral evs : forall R, Forall neutral evs -> held evs R ⊆ R.
Proof.
  induction evs as [|ev evs IH]; intros R H1; [done|]. apply Forall_cons in H1 as [Hev Hevs]. cbn.
  etrans; [by apply IH|]. unfold neutral in Hev. rewrite Hev. set_solver.
Qed.

Lemma uses_neutral {W A} P (m : PM W A) : emits neutral m -> uses P m (fun _ => P) P.
Proof.
  intros Hm s s' x Hx. destruct (emits_run _ _ _ _ _ Hm Hx) as (evs & Hl & Hn). exists evs. split; [done|].
  destruct x; [by apply held_neutral..|done].
Qed.

#[export] Hint Resolve emits_quiet emits_act emits_wrap emits_try emits_ignore emits_or_else
  emits_on_error : zos_monad.

(** Splits a returning run at its first call. *)
Ltac ok_bind H s a Hs := apply bind_inv in H as (s & a & Hs & H).

#[export] Hint Resolve quiet_call quiet_ret quiet_lift quiet_throw quiet_panic quiet_bind quiet_wrap
  quiet_try quiet_ignore : zos_monad.

(** ** Secrets: src/pkg/provision/primitives/crypto.go *)

Definition hex_value (c : ascii) : option nat :=
  let n := nat_of_ascii c in
  if ((48 <=? n) && (n <=? 57))%nat then Some (n - 48)%nat
  else if ((97 <=? n) && (n <=? 102))%nat then Some (n - 87)%nat
  else if ((65 <=? n) && (n <=? 70))%nat then Some (n - 55)%nat
  else None.

(** [hex.DecodeString]. *)
Fixpoint hex_DecodeString (s : string) : res string :=
  match s with
  | EmptyString => Ok EmptyString
  | String a (String b s') =>
      match hex_value a, hex_value b with
      | Some x, Some y =>
          match hex_DecodeString s' with
          | Ok t => Ok (String (ascii_of_nat (16 * x + y)) t)
          | e => e
          end
      | _, _ => Err (ErrMsg "encoding/hex: invalid byte")
      end
  | String a EmptyString =>
      match hex_value a with
      | Some _ => Err (ErrMsg "encoding/hex: odd length hex string")
      | None => Err (ErrMsg "encoding/hex: invalid byte")
      end
  end.

Section secrets.
  Context {W : Type} (d : Daemons W).

Definition fetchUserPublicKey (userID : string) : PM W string :=
  iid ← lift (ParseInt userID);
  call (ex_Client (explorer d)) ;;
  pubkey ← call (ex_UserGet (explorer d) iid);
  lift (hex_DecodeString pubkey).

(** Before version 1 secrets were encrypted with the key of the node alone. *)
Definition decryptSecret (secret userID : string) (reservationVersion : Z) : PM W string :=
  if (secret =? "")%string then mret ""
  else
    bytes ← lift (hex_DecodeString secret);
    if reservationVersion =? 0 then call (id_Decrypt (identityd d) bytes)
    else
      userPubKey ← wrap ("failed to retrieve user " +:+ userID +:+ " public key")
                     (fetchUserPublicKey userID);
      call (id_DecryptECDH (identityd d) bytes userPubKey).

Lemma quiet_decryptSecret secret userID v : quiet (decryptSecret secret userID v).
Proof.
  unfold decryptSecret. destruct (secret =? "")%string; [auto with zos_monad|].
  apply quiet_bind; [auto with zos_monad|intros bytes].
  destruct (v =? 0); [auto with zos_monad|].
  unfold fetchUserPublicKey. auto 10 with zos_monad.
Qed.

End secrets.

(** ** Daemons to run the definitions with

    They keep nothing; a method whose name [fail] accepts returns an error. *)
Module BusDemo.

Section demo.
  Context {W : Type} (fail : string -> bool).

Definition says {A} (method : string) (a : A) : M W A := fun w =>
  (w, if fail method then Err (ErrMsg (method +:+ " failed: not found")) else Ok a).

Definition subnet : IPNet := MkIPNet [10; 1; 2; 0] [255; 255; 255; 0].
Definition public6 : IP := [42; 16; 180; 2; 0; 0; 0; 0; 0; 0; 0; 0; 0; 0; 0; 7].
Definition ygg6 : IP := [2; 1; 9; 9; 0; 0; 0; 0; 0; 0; 0; 0; 0; 0; 0; 9].

Definition container (name : string) : ContainerSpec :=
  MkContainerSpec name ("/roots/old-" +:+ name) [] "" "ns" [MkMountInfo "/mnt/v" "/data"] "/bin/zdb"
    false 0 0 [] [] false.

Definition daemons_on : Daemons W := {|
  storaged := {|
    sm_Path name := says "Path" ("/mnt/" +:+ name);
    sm_CreateFilesystem name _ _ := says "CreateFilesystem" ("/mnt/" +:+ name);
    sm_ReleaseFilesystem _ := says "ReleaseFilesystem" tt;
    sm_Allocate _ _ _ _ := says "Allocate" (MkAllocation "zdb1" "/mnt/zdb1");
    sm_Find _ := says "Find" (MkAllocation "zdb1" "/mnt/zdb1") |};
  vdiskd := {|
    vdk_Allocate name _ _ := says "vdisk.Allocate" ("/vdisks/" +:+ name);
    vdk_Deallocate _ := says "Deallocate" tt;
    vdk_Exists _ w := (w, Ok (negb (fail "Exists")));
    vdk_Inspect name := says "vdisk.Inspect" ("/vdisks/" +:+ name) |};
  flistd := {|
    fl_Mount url _ _ := says "Mount" "/roots/new";
    fl_NamedMount name _ _ _ := says "NamedMount" ("/roots/" +:+ name);
    fl_Umount _ := says "Umount" tt;
    fl_HashFromRootPath _ := says "HashFromRootPath" "abc";
    fl_FlistHash _ := says "FlistHash" "def" |};
  contd := {|
    cm_Run _ c := says "Run" (ct_Name c);
    cm_Inspect _ id := says "Inspect" (container id);
    cm_List _ := says "List" ["zdb1"];
    cm_Delete _ _ := says "Delete" tt |};
  vmd := {|
    vmm_Run _ := says "vm.Run" tt;
    vmm_Inspect _ := says "vm.Inspect" tt;
    vmm_Delete _ := says "vm.Delete" tt;
    vmm_Exists _ w := (w, Ok (negb (fail "vm.Exists")));
    vmm_Logs _ := says "Logs" "" |};
  networkd := {|
    nw_CreateNR _ := says "CreateNR" "ns";
    nw_DeleteNR _ := says "DeleteNR" tt;
    nw_Join _ _ _ := says "Join" (MkMember "ns" [] [10; 1; 2; 3] []);
    nw_Leave _ _ := says "Leave" tt;
    nw_ZDBPrepare _ := says "ZDBPrepare" "zdb-ns";
    nw_ZDBDestroy _ := says "ZDBDestroy" tt;
    nw_SetupTap net := says "SetupTap" ("t-" +:+ net);
    nw_TapExists _ w := (w, Ok (negb (fail "TapExists")));
    nw_RemoveTap _ := says "RemoveTap" tt;
    nw_PublicIPv4Support w := (w, Ok true);
    nw_SetupPubTap id := says "SetupPubTap" ("p-" +:+ id);
    nw_RemovePubTap _ := says "RemovePubTap" tt;
    nw_GetSubnet _ := says "GetSubnet" subnet;
    nw_GetNet _ := says "GetNet" (MkIPNet [10; 1; 0; 0] [255; 255; 0; 0]);
    nw_GetPublicIPv6Subnet := says "GetPublicIPv6Subnet" (MkIPNet public6 (replicate 8 255 ++ replicate 8 0));
    nw_GetDefaultGwIP _ := says "GetDefaultGwIP" ([10; 1; 2; 1], []);
    nw_GetIPv6From4 _ _ := says "GetIPv6From4" zeroIPNet;
    nw_Addrs _ _ := says "Addrs" [public6; ygg6] |};
  identityd := {|
    id_NodeID := says "NodeID" "node";
    id_Decrypt s := says "Decrypt" s;
    id_DecryptECDH s _ := says "DecryptECDH" s |};
  explorer := {|
    ex_Client := says "Client" tt;
    ex_NodeWorkloadGet _ := says "NodeWorkloadGet" (Some (MkIPNet [185; 69; 166; 9] [255; 255; 255; 0]));
    ex_NodeGet _ := says "NodeGet" 1;
    ex_FarmGet _ := says "FarmGet" [(7, [185; 69; 166; 1])];
    ex_UserGet _ := says "UserGet" "aa" |};
  zdbs := {|
    zc_Connect _ := says "Connect" tt;
    zc_Exist _ _ w := (w, Ok (negb (fail "Exist")));
    zc_Namespaces _ := says "Namespaces" ["default"];
    zc_CreateNamespace _ _ := says "CreateNamespace" tt;
    zc_DeleteNamespace _ _ := says "DeleteNamespace" tt;
    zc_SetPassword _ _ _ := says "SetPassword" tt;
    zc_SetPublic _ _ _ := says "SetPublic" tt;
    zc_SetSize _ _ _ := says "SetSize" tt |};
  zinit := {|
    zi_New := says "New" tt;
    zi_List := says "zinit.List" [];
    zi_AddService _ _ := says "AddService" tt;
    zi_Monitor _ := says "Monitor" tt;
    zi_Stop _ := says "Stop" tt;
    zi_Forget _ := says "Forget" tt;
    zi_RemoveService _ := says "RemoveService" tt |};
  node := {|
    sys_Stat _ := says "Stat" tt;
    sys_MkdirAll _ := says "MkdirAll" tt;
    sys_Remove _ := says "Remove" tt;
    sys_LookPath name := says "LookPath" ("/bin/" +:+ name);
    sys_sh _ := says "sh" tt;
    sys_cache_Get id := says "Get" (demo_reservation id VolumeReservation "1") |}
|}.

End demo.

Definition daemons : (string -> bool) -> Daemons unit := daemons_on.

(** The same node with another storage daemon. *)
Definition with_storage {W} (sm : StorageModule W) (d : Daemons W) : Daemons W :=
  MkDaemons W sm (vdiskd d) (flistd d) (contd d) (vmd d) (networkd d) (identityd d) (explorer d) (zdbs d)
    (zinit d) (node d).

(** The methods of a list fail. *)
Definition failing (l : list string) (method : string) : bool := existsb (String.eqb method) l.

Definition start : PState unit := MkP tt [] false.

#[export] Instance demo_MD5 : MD5.
Proof. refine {| md5_Sum _ := [18; 0; 0; 0; 0; 0; 0; 0; 0; 0; 0; 0; 0; 0; 0; 0]; md5_rounds := 1 |}.
  - done.
  - intros b. by repeat constructor.
  - intros b. eexists. vm_compute. reflexivity.
Defined.

End BusDemo.
