(* ===== verification/Netlink.v ===== *)
(** The packages of src/pkg/network that the network daemon is built from: namespace
    (namespace.go), options, ifaceutil (interface.go), bridge, macvlan, macvtap, tuntap,
    wireguard, nft and dhcp.

    [NetKernel] is what they use of the kernel and of the programs of the node, over a
    world [W]. A call names the network namespace it runs in: [None] is that of the host,
    [Some path] that at a path; [ns.NetNS.Do] is [ns_Do]. A handle of a namespace is its
    path. What changes the network is in the log as a [NetCall], other system calls as
    a [NodeCall]. *)

From stdpp Require Import gmap strings list.
From Stdlib Require Import Ascii ZArith Lia.
From S2P Require Import Prelude Reservation Versioned NetIP NetTypes Storage BtrfsUtil Disk Bus.

Open Scope Z_scope.

(** ** The kernel *)

Class NetKernel (W : Type) := {
  nk_LinkByName : option string -> string -> M W Link;
  nk_LinkByIndex : option string -> Z -> M W Link;
  nk_LinkList : option string -> M W (list Link);
  nk_AddrList : option string -> Link -> Z -> M W (list IPNet);
  nk_RouteList : option string -> Link -> Z -> M W (list Route);
  nk_RouteGet : option string -> IP -> M W unit;
  (** a change of the network *)
  nk_do : option string -> netop -> M W unit;
  (** [ip.SetupVeth]: the names of the end on the host and of that in the namespace *)
  nk_SetupVeth : option string -> string -> Z -> option string -> M W (string * string);
  nk_RandomVethName : M W string;
  (** [wgctrl]: a client, and the listen port of a device *)
  nk_wgctrl : M W unit;
  nk_GeneratePrivateKey : M W (list Z);
  nk_wgDevice : option string -> string -> M W Z;
  (** the namespaces: [ns.GetNS], [Close], and switching to one *)
  nk_GetNS : string -> M W unit;
  nk_Close : string -> M W unit;
  nk_Enter : string -> M W unit;
  (** the path of the namespace of this thread *)
  nk_ThreadNS : M W string;
  (** files, and the other system calls *)
  nk_Stat : string -> M W unit;
  nk_ReadFile : string -> M W string;
  nk_ReadDir : string -> M W (list (string * bool));
  nk_Readlink : string -> M W string;
  nk_LookPath : string -> M W string;
  nk_rand : nat -> M W (list Z);
  nk_sys : string -> list string -> M W unit
}.

(** [wgtypes.ParseKey], [Key.String] and [netlink.ParseAddr]. *)
Class WgKeys := {
  wg_ParseKey : string -> res (list Z);
  wg_KeyString : list Z -> string;
  nl_ParseAddr : string -> res IPNet
}.

Definition FAMILY_ALL : Z := 0.
Definition FAMILY_V4 : Z := 2.
Definition FAMILY_V6 : Z := 10.

(** [defer c()] in front of [m]; the result of [c] is dropped. *)
Definition finally {S A} (c : M S unit) (m : M S A) : M S A := fun s =>
  let '(s1, x) := m s in
  let '(s2, y) := c s1 in
  (s2, match y with Panic p => Panic p | _ => x end).

(** [if err != nil { return fmt.Errorf("...%v", err) }]: a new error with the text of the
    old one. *)
Definition retext {S A} (msg : string) (m : M S A) : M S A := fun s =>
  match m s with
  | (s', Err e) => (s', Err (ErrMsg (msg +:+ Error e)))
  | r => r
  end.

(** [if err := m; err != nil && !os.IsExist(err) { return err }], and the same with
    [os.IsNotExist]. *)
Definition unless {S} (fine : error -> bool) (m : M S unit) : M S unit := fun s =>
  match m s with
  | (s', Err e) => (s', if fine e then Ok tt else Err e)
  | r => r
  end.

Definition netNSPath : string := "/var/run/netns".
Definition ns_path (name : string) : string := Join netNSPath name.

(** [fmt.Sprintf("%d")] of a flag and of a number. *)
Definition flag (t : bool) : string := if t then "1" else "0".

(** A field of the table: the mount point of a network namespace. *)
Definition is_ns_line (path line : string) : bool :=
  match Fields line with
  | f0 :: f1 :: _ => (f0 =? "nsfs")%string && (f1 =? path)%string
  | _ => false
  end.

(** [isNamespaceMounted], on the content of /proc/mounts. *)
Definition mounts_have (table name : string) : bool :=
  existsb (is_ns_line (ns_path name)) (Split nl table).

(** A kernel parameter of an interface: what is in front of its name, what follows, and
    the value. *)
Record sysOption := MkSysOption { so_pre : string; so_post : string; so_val : string }.

Inductive RouterAdvertisements := RAOff | RAAcceptIfForwardingIsDisabled | RAAcceptIfForwardingIsEnabled.

Definition ra_value (f : RouterAdvertisements) : string :=
  match f with
  | RAOff => "0" | RAAcceptIfForwardingIsDisabled => "1" | RAAcceptIfForwardingIsEnabled => "2"
  end.

Definition IPv6Disable (f : bool) : sysOption := MkSysOption "net.ipv6.conf." ".disable_ipv6" (flag f).
Definition ProxyArp (f : bool) : sysOption := MkSysOption "net.ipv4.conf." ".proxy_arp" (flag f).
Definition AcceptRA (f : RouterAdvertisements) : sysOption :=
  MkSysOption "net.ipv6.conf." ".accept_ra" (ra_value f).
Definition LearnDefaultRouteInRA (f : bool) : sysOption :=
  MkSysOption "net.ipv6.conf." ".accept_ra_defrtr" (flag f).

(** [wireguard.Peer]. *)
Record WgPeer := MkWgPeer { wp_PublicKey : string; wp_Endpoint : string; wp_AllowedIPs : list string }.

Definition is_Bridge (l : Link) : bool := match ln_Kind l with Bridge => true | _ => false end.
Definition is_Macvlan (l : Link) : bool := match ln_Kind l with Macvlan _ => true | _ => false end.

Definition LinkFilter (links : list Link) (types : list string) : list Link :=
  filter (fun l => ln_Type l ∈ types) links.

Definition filterBridge (links : list Link) : list Link :=
  filter (fun l => ln_Type l = "bridge" /\ is_Bridge l = true) links.

Definition vethName (from to : string) : string :=
  let name := from +:+ "to" +:+ to in
  if (13 <? String.length name)%nat then String.substring 0 13 name else name.

(** The parts of a string around its last [sep]. *)
Fixpoint split_last (sep : ascii) (s : string) : option (string * string) :=
  match s with
  | EmptyString => None
  | String c s =>
      match split_last sep s with
      | Some (a, b) => Some (String c a, b)
      | None => if Ascii.eqb c sep then Some (EmptyString, s) else None
      end
  end.

Definition has_char (c : ascii) (s : string) : bool := bool_decide (is_Some (split_first c s)).

(** [net.SplitHostPort]. *)
Definition SplitHostPort (s : string) : res (string * string) :=
  match split_last ":" s with
  | None => Err (ErrMsg "missing port in address")
  | Some (host, port) =>
      match s with
      | String "[" rest =>
          match split_first "]" rest with
          | None => Err (ErrMsg "missing ']' in address")
          | Some (host, tail) =>
              if negb (tail =? ":" +:+ port)%string then
                Err (ErrMsg (if HasPrefix tail ":" then "too many colons in address" else "missing port in address"))
              else if has_char "[" (host +:+ tail) then Err (ErrMsg "unexpected '[' in address")
              else if has_char "]" tail then Err (ErrMsg "unexpected ']' in address")
              else Ok (host, port)
          end
      | _ =>
          if has_char ":" host then Err (ErrMsg "too many colons in address")
          else if has_char "[" s then Err (ErrMsg "unexpected '[' in address")
          else if has_char "]" s then Err (ErrMsg "unexpected ']' in address")
          else Ok (host, port)
      end
  end.

Fixpoint res_all {A B} (f : A -> res B) (l : list A) : res (list B) :=
  match l with
  | [] => Ok []
  | x :: l =>
      match f x with
      | Ok y => res_map (cons y) (res_all f l)
      | Err e => Err e
      | Panic p => Panic p
      end
  end.

Definition res_bind {A B} (r : res A) (f : A -> res B) : res B :=
  match r with Ok a => f a | Err e => Err e | Panic p => Panic p end.

(** *** wireguard.go: the configuration of a peer *)

Definition keepalive : Z := 20000000000.

Definition newPeer `{WgKeys} (pubkey endpoint : string) (allowedIPs : list string) : res PeerConfig :=
  res_bind (wg_ParseKey pubkey) (fun key =>
  res_bind (if (endpoint =? "")%string then Ok None
            else res_bind (SplitHostPort endpoint) (fun '(host, p) =>
                 res_map (fun port => Some (ParseIP host, port)) (ParseInt p))) (fun ep =>
  res_map (fun ips => MkPeerConfig key ep ips keepalive true)
    (res_all (fun s => match ParseCIDR s with
                       | Some (ip, n) => Ok (MkIPNet ip (net_Mask n))
                       | None => Err (ErrMsg ("invalid CIDR address: " +:+ s))
                       end) allowedIPs))).

Section packages.
  Context {W : Type} `{NetKernel W} `{WgKeys}.

Notation PM := (PM W).

Definition net_do (ns : option string) (o : netop) : PM unit := act_ (NetCall ns o) (nk_do ns o).
Definition sys (name : string) (args : list string) : PM unit := node_call name args (nk_sys name args).
Definition LinkByName (ns : option string) (name : string) : PM Link := call (nk_LinkByName ns name).
Definition AddrList (ns : option string) (l : Link) (family : Z) : PM (list IPNet) := call (nk_AddrList ns l family).
Definition GetNS (path : string) : PM string := call (nk_GetNS path) ;; mret path.
Definition ns_Close (path : string) : PM unit := call (nk_Close path).

(** [ns.NetNS.Do]: [f] runs in the namespace. *)
Definition ns_Do {A} (path : string) (f : option string -> PM A) : PM A :=
  call (nk_Enter path) ;; f (Some path).

(** In a namespace when there is one, otherwise where the caller runs. *)
Definition in_ns {A} (cur ns : option string) (f : option string -> PM A) : PM A :=
  match ns with Some path => ns_Do path f | None => f cur end.

(** *** namespace.go *)

(** The body of the goroutine. *)
Definition unshare_mount (nsPath : string) : PM unit :=
  cur ← call nk_ThreadNS;
  orig ← GetNS cur;
  finally (ns_Close orig)
    (sys "unshare" ["CLONE_NEWNET"] ;;
     finally (sys "setns" [orig])
       (retext ("failed to bind mount ns at " +:+ nsPath +:+ ": ") (net_do None (NsMount cur nsPath)))).

Definition namespace_Create (name : string) : PM string :=
  wrap ("failed to create network namespace directory " +:+ netNSPath) (sys "mkdir" [netNSPath]) ;;
  (let share := sys "mount" [""; netNSPath; "MS_SHARED|MS_REC"] in
   shared ← try share;
   match shared with
   | inl _ => mret tt
   | inr ErrInvalid =>
       retext ("mount --rbind " +:+ netNSPath +:+ " " +:+ netNSPath +:+ " failed: ")
         (sys "mount" [netNSPath; netNSPath; "MS_BIND|MS_REC"]) ;;
       retext ("mount --make-rshared " +:+ netNSPath +:+ " failed: ") share
   | inr e => throw (ErrMsg ("mount --make-rshared " +:+ netNSPath +:+ " failed: " +:+ Error e))
   end) ;;
  let nsPath := ns_path name in
  wrap ("failed to create file " +:+ nsPath) (sys "create" [nsPath]) ;;
  finally (sys "removeall" [nsPath])
    (retext "failed to create namespace: " (unshare_mount nsPath) ;; GetNS nsPath).

Definition namespace_Delete (ns : option string) : PM unit :=
  match ns with
  | None => throw (ErrMsg "invalid namespace")
  | Some nsPath =>
      ns_Close nsPath ;;
      when_ (HasPrefix nsPath netNSPath)
        (retext ("failed to unmount NS: at " +:+ nsPath +:+ ": ") (net_do None (NsUnmount nsPath)) ;;
         retext ("failed to remove ns path " +:+ nsPath +:+ ": ") (sys "remove" [nsPath]))
  end.

Definition isNamespaceMounted (name : string) : PM bool :=
  table ← wrap "failed to list mounts" (call (nk_ReadFile "/proc/mounts"));
  mret (mounts_have table name).

(** A file that is not a mount point is removed. *)
Definition namespace_Exists (name : string) : PM bool :=
  stat ← try (call (nk_Stat (ns_path name)));
  match stat with
  | inr _ => mret false
  | inl _ =>
      mounted ← try (isNamespaceMounted name);
      match mounted with
      | inr _ => mret false
      | inl true => mret true
      | inl false => ignore (sys "remove" [ns_path name]) ;; mret false
      end
  end.

Definition namespace_GetByName (name : string) : PM string := GetNS (ns_path name).

Definition namespace_List (prefix : string) : PM (list string) :=
  infos ← wrap "failed to read network namespace directory" (call (nk_ReadDir netNSPath));
  mret ((filter (fun info => info.2 = false /\ (prefix = "" \/ HasPrefix info.1 prefix = true)) infos).*1).

(** *** options *)

Definition sys_apply (ns : option string) (link : string) (o : sysOption) : PM unit :=
  net_do ns (Sysctl (so_pre o +:+ link +:+ so_post o) (so_val o)).

Definition options_Set (ns : option string) (link : string) (opts : list sysOption) : PM unit :=
  for_each (sys_apply ns link) opts.

Definition SetIPv6Forwarding (ns : option string) (f : bool) : PM unit :=
  net_do ns (Sysctl "net.ipv6.conf.all.forwarding" (flag f)).
Definition SetIPv6AcceptRA (ns : option string) (f : RouterAdvertisements) : PM unit :=
  net_do ns (Sysctl "net.ipv6.conf.all.accept_ra" (ra_value f)).
Definition SetIPv6LearnDefaultRouteInRA (ns : option string) (f : bool) : PM unit :=
  net_do ns (Sysctl "net.ipv6.conf.all.accept_ra_defrtr" (flag f)).

(** *** interface.go *)

Definition IsPlugged (inf : string) : PM bool :=
  data ← try (call (nk_ReadFile ("/sys/class/net/" +:+ inf +:+ "/carrier")));
  mret (match data with inl data => (TrimSpace data =? "1")%string | inr _ => false end).

(** A look per second until the time is up. *)
Fixpoint IsPluggedTimeout (polls : nat) (name : string) : PM bool :=
  match polls with
  | O => mret false
  | S polls => plugged ← IsPlugged name; if plugged : bool then mret true else IsPluggedTimeout polls name
  end.

Definition IsVirtEth (inf : string) : PM bool :=
  dest ← try (call (nk_Readlink ("/sys/class/net/" +:+ inf +:+ "/device")));
  mret (match dest with inl dest => Contains (Base dest) "virtio" | inr _ => false end).

Definition HasDefaultGW (ns : option string) (link : Link) (family : Z) : PM (bool * IP) :=
  addrs ← AddrList ns link family;
  if (length addrs =? 0)%nat then mret (false, [])
  else
    routes ← call (nk_RouteList ns link family);
    mret (match List.find (fun r => negb (length (rt_Gw r) =? 0)%nat) routes with
          | Some r => (true, rt_Gw r)
          | None => (false, [])
          end).

Definition SetLoUp (ns : option string) : PM unit :=
  lo ← LinkByName ns "lo"; net_do ns (LinkSetUp lo).

Definition RandomName (prefix : string) : PM string :=
  b ← retext "failed to generate random name: " (call (nk_rand 4));
  mret (prefix +:+ foldr (fun x s => hex_byte x +:+ s) "" b).

(** The error of the second [LinkByName] is not looked at: without the link the next call
    panics, while the error is set. *)
Definition MakeVethPair (name master : string) (mtu : Z) : PM Link :=
  masterLink ← LinkByName None master;
  let peer := name +:+ "-p" in
  let veth := MkLink name 0 0 0 [] mtu 0 true None (Veth peer) in
  net_do None (LinkAdd veth) ;;
  on_error (ignore (net_do None (LinkDel veth)))
    (got ← try (LinkByName None peer);
     match got with
     | inr _ => modify set_err ;; panic "nil pointer dereference"
     | inl peerLink =>
         net_do None (LinkSetMaster peerLink masterLink) ;;
         wrap "could not set veth peer up" (net_do None (LinkSetUp peerLink)) ;;
         LinkByName None name
     end).

Definition VethByName (name : string) : PM Link :=
  link ← wrap ("veth " +:+ name +:+ " not found") (LinkByName None name);
  if negb (ln_Type link =? "veth")%string then throw (ErrMsg ("device '" +:+ name +:+ "' is not a veth pair"))
  else match ln_Kind link with Veth _ => mret link | _ => panic "interface conversion" end.

Definition iface_Exists (name : string) (netNS : option string) : PM bool :=
  got ← try (in_ns None netNS (fun ns => LinkByName ns name));
  mret (match got with inl _ => true | inr _ => false end).

(** The error of entering the namespace is dropped: no link, and no error. *)
Definition iface_Get (name : string) (netNS : option string) : PM (option Link) :=
  match netNS with
  | None => l ← LinkByName None name; mret (Some l)
  | Some path =>
      entered ← try (call (nk_Enter path));
      match entered with
      | inl _ => l ← LinkByName (Some path) name; mret (Some l)
      | inr _ => mret None
      end
  end.

Definition GetMAC (name : string) (netNS : option string) : PM (list Z) :=
  in_ns None netNS (fun ns => link ← LinkByName ns name; mret (ln_HardwareAddr link)).

Definition SetMAC (cur : option string) (name : string) (mac : list Z) (netNS : option string) : PM unit :=
  in_ns cur netNS (fun ns =>
    link ← LinkByName ns name;
    if bool_decide (ln_HardwareAddr link = mac) then mret tt
    else
      net_do ns (LinkSetDown link) ;;
      finally (net_do ns (LinkSetUp link)) (net_do ns (LinkSetHardwareAddr link mac))).

(** The error of a lookup is returned when it says that a file is missing, and dropped
    otherwise. *)
Definition iface_Delete (name : string) (netNS : option string) : PM unit :=
  in_ns None netNS (fun ns =>
    got ← try (LinkByName ns name);
    match got with
    | inr e => if negb (IsNotExist e) then mret tt else throw e
    | inl link => net_do ns (LinkDel link)
    end).

Fixpoint first_public6 (links : list Link) : PM string :=
  match links with
  | [] => throw (ErrMsg "no valid IPv6 address found in host namespace")
  | link :: links =>
      addrs ← AddrList None link FAMILY_V6;
      if existsb (fun a => IsGlobalUnicast (net_IP a) && negb (IsULA (net_IP a))) addrs
      then mret (ln_Name link) else first_public6 links
  end.

Definition HostIPV6Iface (useZos : bool) : PM string :=
  links ← call (nk_LinkList None);
  zos ← LinkByName None "zos";
  first_public6 (LinkFilter links ["device"] ++ if useZos then [zos] else []).

Definition ParentIface (iface : string) (netNS : option string) : PM Link :=
  index ← in_ns None netNS (fun ns => l ← LinkByName ns iface; mret (ln_ParentIndex l));
  call (nk_LinkByIndex None index).

(** *** bridge.go *)

Definition bridge_New (name : string) : PM Link :=
  let bridge := new_link name 1500 0 None Bridge in
  unless IsExist (net_do None (LinkAdd bridge)) ;;
  net_do None (LinkSetUp bridge) ;;
  l ← retext ("could not lookup " +:+ name +:+ ": ") (LinkByName None name);
  if is_Bridge l then mret l else throw (ErrMsg (name +:+ " already exists but is not a bridge")).

Definition bridge_Get (name : string) : PM Link :=
  link ← wrap ("bridge " +:+ name +:+ " not found") (LinkByName None name);
  if negb (ln_Type link =? "bridge")%string then throw (ErrMsg ("device '" +:+ name +:+ "' is not a bridge"))
  else if is_Bridge link then mret link else panic "interface conversion".

Definition bridge_Delete (name : string) : PM unit :=
  got ← try (LinkByName None name);
  match got with
  | inr (ErrLinkNotFound _) => mret tt
  | inr e => throw e
  | inl link => net_do None (LinkDel link)
  end.

Definition bridge_List : PM (list Link) :=
  links ← call (nk_LinkList None); mret (filterBridge links).

Definition bridge_Exists (name : string) : PM bool :=
  got ← try (LinkByName None name);
  mret (match got with inl link => is_Bridge link | inr _ => false end).

Definition AttachNic (link bridge : Link) : PM unit :=
  wrap "could not set veth peer up" (net_do None (LinkSetUp link)) ;;
  wrap "failed to disable ipv6 on link interface" (options_Set None (ln_Name link) [IPv6Disable true]) ;;
  net_do None (LinkSetMaster link bridge).

Definition bridge_Attach (link bridge : Link) (name : option string) : PM unit :=
  if (ln_Type link =? "device")%string then AttachNic link bridge
  else if (ln_Type link =? "bridge")%string then
    if is_Bridge link then
      veth ← MakeVethPair (default (vethName (ln_Name link) (ln_Name bridge)) name) (ln_Name bridge) 1500;
      AttachNic veth link
    else panic "interface conversion"
  else throw (ErrMsg ("unsupported link type '" +:+ ln_Type link +:+ "'")).

Definition AttachNicWithMac (link bridge : Link) : PM unit :=
  net_do None (LinkSetHardwareAddr bridge (ln_HardwareAddr link)) ;;
  net_do None (LinkSetMaster link bridge).

Definition DetachNic (link : Link) : PM unit := net_do None (LinkSetNoMaster link).

(** *** macvlan.go *)

(** The new interface gets its name in its namespace. The link that the function ends
    with is nil when it is not a macvlan. *)
Definition macvlan_rename (ns : option string) (mv : Link) (name : string) : PM (option Link * option error) :=
  let tmpName := ln_Name mv in
  let undo e := ignore (net_do ns (LinkDel mv)) ;; mret (Some mv, Some (ErrMsg e)) in
  set ← try (options_Set ns tmpName [ProxyArp false]);
  match set with
  | inr e => undo ("failed to set proxy_arp on newly added interface " +:+ tmpName +:+ ": " +:+ Error e)
  | inl _ =>
      renamed ← try (net_do ns (RenameLink tmpName name));
      match renamed with
      | inr e => undo ("failed to rename macvlan to " +:+ name +:+ ": " +:+ Error e)
      | inl _ =>
          got ← try (LinkByName ns name);
          match got with
          | inr e => mret (Some mv, Some (ErrMsg ("failed to refetch macvlan " +:+ name +:+ ": " +:+ Error e)))
          | inl link =>
              if is_Macvlan link then mret (Some link, None)
              else mret (None, Some (ErrMsg ("link " +:+ name +:+ " should be of type macvlan")))
          end
      end
  end.

(** Without a namespace the error of the renaming is dropped. *)
Definition macvlan_Create (name master : string) (netns : option string) : PM (option Link) :=
  m ← retext ("failed to lookup master " +:+ master +:+ ": ") (LinkByName None master);
  tmpName ← call nk_RandomVethName;
  let mv := new_link tmpName 1500 (ln_Index m) netns (Macvlan MACVLAN_MODE_BRIDGE) in
  retext "failed to create macvlan: " (net_do None (LinkAdd mv)) ;;
  match netns with
  | Some path =>
      '(l, e) ← ns_Do path (fun ns => macvlan_rename ns mv name);
      match e : option error with Some e => throw e | None => mret l end
  | None => '(l, _) ← macvlan_rename None mv name; mret l
  end.

Definition macvlan_Install (link : Link) (hw : list Z) (ips : list IPNet) (routes : list Route)
    (netns : option string) : PM unit :=
  in_ns None netns (fun ns =>
    when_ (negb (length hw =? 0)%nat && negb (bool_decide (ln_HardwareAddr link = hw)))
      (wrap ("failed to set MAC address on interface " +:+ ln_Name link)
         (net_do ns (LinkSetHardwareAddr link hw))) ;;
    for_each (fun ip => unless IsExist (net_do ns (AddrAdd link ip))) ips ;;
    retext ("failed to set " +:+ ln_Name link +:+ " UP: ") (net_do ns (LinkSetUp link)) ;;
    for_each (fun r => unless IsExist (net_do ns (RouteAdd (MkRoute (rt_Dst r) (rt_Gw r) (ln_Index link))))) routes).

Definition macvlan_GetByName (ns : option string) (name : string) : PM Link :=
  link ← LinkByName ns name;
  if is_Macvlan link then mret link else throw (ErrMsg ("link " +:+ name +:+ " is not a macvlan")).

(** *** macvtap and tuntap *)

(** The link that is added goes again when the error is in the variable that the deferred
    function looks at. *)
Definition or_del {A} (tap : Link) (m : PM A) : PM A := or_else (ignore (net_do None (LinkDel tap))) m.

(** A link as one of another Go type. *)
Definition as_kind (k : LinkKind) (l : Link) : Link :=
  MkLink (ln_Name l) (ln_Index l) (ln_ParentIndex l) (ln_MasterIndex l) (ln_HardwareAddr l)
    (ln_MTU l) (ln_TxQLen l) (ln_Up l) (ln_Namespace l) k.

Definition CreateMACvTap (name master : string) (hw : list Z) : PM Link :=
  masterIface ← wrap "failed to look up tap master" (LinkByName None master);
  let tap := MkLink name 0 (ln_Index masterIface) 0 [] 1500 500 false None (Macvtap MACVLAN_MODE_BRIDGE) in
  wrap "could not add tap device" (net_do None (LinkAdd tap)) ;;
  or_del tap (wrap "could not set hw address" (net_do None (LinkSetHardwareAddr tap hw))) ;;
  wrap "failed to disable ipv6 on interface host side" (options_Set None name [IPv6Disable true]) ;;
  link ← or_del tap (wrap ("failed to refetch tap interface " +:+ name) (LinkByName None name));
  tap ← match ln_Kind link with
        | Macvtap mode =>
            if negb (mode =? MACVLAN_MODE_BRIDGE) then
              throw (ErrMsg "tuntap iface does not have the expected 'bridge' mode")
            else mret link
        | GenericLink _ => mret (as_kind (Macvtap MACVLAN_MODE_BRIDGE) link)
        | _ => throw (ErrMsg ("link " +:+ name +:+ " should be of type macvtap"))
        end;
  or_del tap (wrap "could not bring up macvtap iface" (net_do None (LinkSetUp tap))) ;;
  or_del tap (wrap "could not bring set promsic on iface" (net_do None (SetPromiscOn tap))) ;;
  mret tap.

Definition CreateTap (name master : string) : PM Link :=
  masterIface ← wrap "failed to look up tap master" (LinkByName None master);
  let tap := new_link name 1500 (ln_Index masterIface) None (Tuntap TUNTAP_MODE_TAP) in
  wrap "could not add tap device" (net_do None (LinkAdd tap)) ;;
  or_del tap (wrap "could not set tap master" (net_do None (LinkSetMasterByIndex tap (ln_Index masterIface)))) ;;
  wrap "failed to disable ipv6 on interface host side" (options_Set None name [IPv6Disable true]) ;;
  link ← or_del tap (wrap ("failed to refetch tap interface " +:+ name) (LinkByName None name));
  tap ← match ln_Kind link with
        | Tuntap mode =>
            if negb (mode =? TUNTAP_MODE_TAP) then
              throw (ErrMsg "tuntap iface does not have the expected 'tap' mode")
            else mret link
        | GenericLink _ => mret (as_kind (Tuntap TUNTAP_MODE_TAP) link)
        | _ => throw (ErrMsg ("link " +:+ name +:+ " should be of type tuntap"))
        end;
  or_del tap (wrap "could not bring up tap iface" (net_do None (LinkSetUp tap))) ;;
  mret tap.

(** *** wireguard.go *)

Definition wireguard_GetByName (ns : option string) (name : string) : PM Link :=
  link ← LinkByName ns name;
  if negb (ln_Type link =? "wireguard")%string then throw (ErrMsg ("link " +:+ name +:+ " is not of type wireguard"))
  else mret link.

Definition wireguard_New (ns : option string) (name : string) : PM Link :=
  unless IsExist (net_do ns (LinkAdd (new_link name 1420 0 None WireguardLink))) ;;
  wireguard_GetByName ns name.

(** The listen port of the device. *)
Definition wg_Device (ns : option string) (w : Link) : PM Z :=
  call nk_wgctrl ;; call (nk_wgDevice ns (ln_Name w)).

Definition SetAddr (ns : option string) (w : Link) (cidr : string) : PM unit :=
  addr ← lift (nl_ParseAddr cidr); unless IsExist (net_do ns (AddrAdd w addr)).

Definition UnsetAddr (ns : option string) (w : Link) (cidr : string) : PM unit :=
  addr ← lift (nl_ParseAddr cidr); unless IsNotExist (net_do ns (AddrDel w addr)).

Definition Configure (ns : option string) (w : Link) (privateKey : string) (listenPort : Z)
    (peers : list WgPeer) : PM unit :=
  net_do ns (LinkSetDown w) ;;
  call nk_wgctrl ;;
  peersConfig ← lift (res_all (fun p => newPeer (wp_PublicKey p) (wp_Endpoint p) (wp_AllowedIPs p)) peers);
  key ← lift (wg_ParseKey privateKey);
  wrap "failed to configure wireguard interface"
    (net_do ns (ConfigureDevice (ln_Name w) (MkWgConfig key listenPort true peersConfig))) ;;
  wrap ("failed to bring wireguard interface " +:+ ln_Name w +:+ " up") (unless IsExist (net_do ns (LinkSetUp w))).

Definition GenerateKey (dir : string) : PM (list Z) :=
  let path := Join dir "key.priv" in
  data ← try (call (nk_ReadFile path));
  match data with
  | inl data => lift (wg_ParseKey data)
  | inr e =>
      if negb (IsNotExist e) then throw e
      else
        key ← call nk_GeneratePrivateKey;
        sys "mkdir" [dir] ;;
        sys "write" [path; wg_KeyString key] ;;
        mret key
  end.

Definition LoadKey (dir : string) : PM (list Z) :=
  b ← call (nk_ReadFile (Join dir "key.priv")); lift (wg_ParseKey b).

(** *** nft.go and dhcp.go *)

Definition nft_Apply (rules ns : string) : PM unit :=
  wrap "failed to execute nft"
    (net_do None (Nft (if (ns =? "")%string then ["nft"; "-f"; "-"]
                       else ["ip"; "netns"; "exec"; ns; "nft"; "-f"; "-"]) rules)).

(** The namespace the program runs in, then its arguments. *)
Definition Probe_Start (ns : option string) (inf : string) : PM unit :=
  sys "udhcpc" [default "" ns; "-f"; "-i"; inf; "-t"; "20"; "-T"; "1"; "-s"; "/usr/share/udhcp/simple.script";
                "-p"; "/run/udhcpc." +:+ inf +:+ ".pid"; "--now"].

(** The state of the process is not known before [Wait]. *)
Definition Probe_Stop (inf : string) : PM unit :=
  sys "kill" [inf] ;; ignore (sys "wait" [inf]).

End packages.

(** ** Lemmas *)

Section package_lemmas.
  Context {W : Type} {kernel : NetKernel W}.
  Implicit Types P : event -> Prop.

Lemma finally_Ok {S A} (c : M S unit) (m : M S A) s s' a : finally c m s = (s', Ok a) ->
  exists s1, m s = (s1, Ok a) /\ exists y, c s1 = (s', y).
Proof.
  unfold finally. destruct (m s) as [s1 x]. destruct (c s1) as [s2 y] eqn:Ec. intros [= <- Hx].
  exists s1. split; [by destruct y; simplify_eq|by exists y].
Qed.

Lemma emits_finally {A} P (c : PM W unit) (m : PM W A) : emits P c -> emits P m -> emits P (finally c m).
Proof.
  intros Hc Hm s. destruct (Hm s) as (evs & Hl & HP). unfold finally. destruct (m s) as [s1 x]. cbn in Hl.
  destruct (Hc s1) as (evs' & Hl' & HP'). destruct (c s1) as [s2 y]. cbn in *. exists (evs ++ evs').
  rewrite Hl', Hl, (assoc_L (++)). split; [done|]. by apply Forall_app.
Qed.

Lemma emits_retext {A} P msg (m : PM W A) : emits P m -> emits P (retext msg m).
Proof. intros Hm s. specialize (Hm s). unfold retext. by destruct (m s) as [s1 []]. Qed.

Lemma emits_unless P fine (m : PM W unit) : emits P m -> emits P (unless fine m).
Proof. intros Hm s. specialize (Hm s). unfold unless. by destruct (m s) as [s1 [|e|]]. Qed.

Lemma emits_when P b (m : PM W unit) : emits P m -> emits P (when_ b m).
Proof. intros Hm. destruct b; [done|]. by apply emits_quiet. Qed.

Lemma emits_ns_Do {A} P path (f : option string -> PM W A) : emits P (f (Some path)) -> emits P (ns_Do path f).
Proof. intros Hf. apply emits_bind; [auto with zos_monad|by intros]. Qed.

Lemma emits_net P ns o : (forall out, P (Ran (NetCall ns o) out)) -> emits P (net_do ns o).
Proof. apply emits_act. Qed.

Lemma emits_sys P name args : (forall out, P (Ran (NodeCall name args) out)) -> emits P (sys name args).
Proof. apply emits_act. Qed.

Lemma quiet_LinkByName ns name : quiet (LinkByName ns name).
Proof. apply quiet_call. Qed.

Lemma quiet_AddrList ns l f : quiet (AddrList ns l f).
Proof. apply quiet_call. Qed.

Lemma quiet_GetNS path : quiet (GetNS path).
Proof. apply quiet_bind; auto with zos_monad. Qed.

Lemma quiet_namespace_GetByName name : quiet (namespace_GetByName name).
Proof. apply quiet_GetNS. Qed.

Lemma quiet_ns_Close path : quiet (ns_Close path).
Proof. apply quiet_call. Qed.

Lemma quiet_modify_err : quiet (W := W) (modify set_err).
Proof. done. Qed.

Lemma quiet_retext {A} msg (m : PM W A) : quiet m -> quiet (retext msg m).
Proof. intros Hm s. specialize (Hm s). unfold retext. by destruct (m s) as [s1 []]. Qed.

Lemma quiet_finally {A} c (m : PM W A) : quiet c -> quiet m -> quiet (finally c m).
Proof.
  intros Hc Hm s. specialize (Hm s). unfold finally. destruct (m s) as [s1 x]. specialize (Hc s1).
  destruct (c s1) as [s2 y]. cbn in *. congruence.
Qed.

Lemma quiet_ns_Do {A} path (f : option string -> PM W A) : quiet (f (Some path)) -> quiet (ns_Do path f).
Proof. intros Hf. apply quiet_bind; [auto with zos_monad|done]. Qed.

Lemma uses_retext {A : Type} R msg (m : PM W A) (Q : A -> resources) E : uses R m Q E -> uses R (retext msg m) Q E.
Proof.
  intros Hm s s' x. unfold retext. destruct (m s) as [s1 y] eqn:Em.
  destruct (Hm _ _ _ Em) as (evs & Hl & Hh). destruct y; intros [= <- <-]; by exists evs.
Qed.

Lemma uses_finally {A : Type} R (c : PM W unit) (m : PM W A) (Q : A -> resources) E :
  emits neutral c -> uses R m Q E -> uses R (finally c m) Q E.
Proof.
  intros Hc Hm s s' x. unfold finally. destruct (m s) as [s1 y] eqn:Em.
  destruct (Hm _ _ _ Em) as (evs & Hl & Hh). destruct (c s1) as [s2 z] eqn:Ec.
  destruct (emits_run _ _ _ _ _ Hc Ec) as (evs' & Hl' & Hn). intros [= <- <-]. exists (evs ++ evs').
  rewrite Hl', Hl, held_app, (assoc_L (++)). split; [done|]. pose proof (held_neutral evs' (held evs R) Hn).
  destruct z, y; try done; set_solver.
Qed.

End package_lemmas.

#[export] Hint Resolve quiet_LinkByName quiet_AddrList quiet_GetNS quiet_namespace_GetByName quiet_ns_Close
  quiet_modify_err quiet_retext quiet_finally : zos_monad.

(** Takes a procedure apart down to the changes it makes; what is left is that they are
    among those allowed. *)
Ltac emits_step :=
  match goal with
  | |- emits _ (_ ≫= _) => apply emits_bind; [|intros ? ? ? ?]
  | |- emits _ (wrap _ _) => apply emits_wrap
  | |- emits _ (retext _ _) => apply emits_retext
  | |- emits _ (unless _ _) => apply emits_unless
  | |- emits _ (try _) => apply emits_try
  | |- emits _ (ignore _) => apply emits_ignore
  | |- emits _ (finally _ _) => apply emits_finally
  | |- emits _ (on_error _ _) => apply emits_on_error
  | |- emits _ (or_else _ _) => apply emits_or_else
  | |- emits _ (when_ _ _) => apply emits_when
  | |- emits _ (for_each _ _) => apply emits_for_each; intros ?
  | |- emits _ (ns_Do _ _) => apply emits_ns_Do
  | |- emits _ (net_do _ _) => apply emits_net; intros ?
  | |- emits _ (sys _ _) => apply emits_sys; intros ?
  | |- emits _ (act _ _ _) => apply emits_act; intros ?
  | |- emits _ (match ?x with _ => _ end) => destruct x
  | |- emits _ _ => apply emits_quiet; solve [auto with zos_monad]
  end.
Ltac emits_tac := repeat emits_step; try done.

Section namespaces.
  Context {W : Type} {kernel : NetKernel W}.

(** A new namespace is held once it is mounted, also when it cannot be opened. *)
Lemma uses_namespace_Create name :
  uses (W := W) ∅ (namespace_Create name) (fun p => {[RNetns p]}) {[RNetns (ns_path name)]}.
Proof.
  unfold namespace_Create. set (nsPath := ns_path name).
  eapply uses_bind with (Q := fun _ => ∅).
  { eapply uses_weaken; [apply uses_neutral; emits_tac|set_solver..]. }
  intros _. eapply uses_bind with (Q := fun _ => ∅).
  { eapply uses_weaken; [apply uses_neutral; emits_tac|set_solver..]. }
  intros _. eapply uses_bind with (Q := fun _ => ∅).
  { eapply uses_weaken; [apply uses_neutral; emits_tac|set_solver..]. }
  intros _. apply uses_finally; [emits_tac|].
  eapply uses_bind with (Q := fun _ => {[RNetns nsPath]}).
  - apply uses_retext. unfold unshare_mount. apply uses_ask; [auto with zos_monad|set_solver|intros cur].
    apply uses_ask; [auto with zos_monad|set_solver|intros orig].
    apply uses_finally; [emits_tac|]. eapply uses_bind with (Q := fun _ => ∅).
    { eapply uses_weaken; [apply uses_neutral; emits_tac|set_solver..]. }
    intros _. apply uses_finally; [emits_tac|]. apply uses_retext, uses_act; intros ?; cbn; set_solver.
  - intros _. apply uses_ask; [auto with zos_monad|set_solver|intros u]. apply uses_ret. set_solver.
Qed.

Lemma namespace_Create_path name (s s' : PState W) p : namespace_Create name s = (s', Ok p) -> p = ns_path name.
Proof.
  unfold namespace_Create. intros Hrun. ok_bind Hrun s1 u1 H1. ok_bind Hrun s2 u2 H2. ok_bind Hrun s3 u3 H3.
  apply finally_Ok in Hrun as (s4 & Hrun & _). ok_bind Hrun s6 u6 H6. unfold GetNS in Hrun.
  ok_bind Hrun s7 u7 H7. by injection Hrun as _ <-.
Qed.

(** Deleting a namespace that can be closed. *)
Lemma uses_namespace_Delete path R :
  (forall w, is_ok (nk_Close path w).2 = true) -> HasPrefix path netNSPath = true ->
  uses (W := W) R (namespace_Delete (Some path)) (fun _ => R ∖ {[RNetns path]}) (R ∖ {[RNetns path]}).
Proof.
  intros Hc Hp s s' x. unfold namespace_Delete. rewrite Hp. unfold when_.
  unfold mbind at 1, M_bind. unfold ns_Close, call at 1. specialize (Hc (p_world s)).
  destruct (nk_Close path (p_world s)) as [w [[]|e|m]]; [|done..]. cbn [snd fst] in *. intros Hx.
  refine (uses_bind R _ (fun _ => R ∖ {[RNetns path]}) _ (fun _ => R ∖ {[RNetns path]}) _ _ _ _ _ _ Hx).
  - apply uses_retext, uses_act; intros ?; cbn; set_solver.
  - intros _. eapply uses_weaken; [apply uses_neutral; emits_tac|set_solver..].
Qed.

End namespaces.

Section names.

Lemma length_append (a b : string) : String.length (a +:+ b) = (String.length a + String.length b)%nat.
Proof. induction a as [|c a IH]; [done|]. cbn. by rewrite <- IH. Qed.

Lemma length_substring n s : (String.length (String.substring 0 n s) <= n)%nat.
Proof. revert s. induction n as [|n IH]; intros [|c s]; cbn; [lia..|]. specialize (IH s). lia. Qed.

(** Both ends of the pair that joins two bridges have names that the kernel takes. *)
Lemma vethName_length from to : (String.length (vethName from to +:+ "-p") <= 15)%nat.
Proof.
  rewrite length_append. cbn [String.length]. unfold vethName.
  set (name := from +:+ "to" +:+ to). destruct (Nat.ltb_spec 13 (String.length name)); [|lia].
  pose proof (length_substring 13 name). lia.
Qed.

End names.

(** ** A kernel

    Links by namespace and name, and the namespaces that are mounted; [k_fail] is the
    name of a change that fails. *)

Module NetDemo.

Record kern := MkKern { k_links : gmap (string * string) Link; k_ns : list string; k_next : Z; k_fail : string }.

Definition at_ (ns : option string) : string := default "" ns.

Definition set_links (f : gmap (string * string) Link -> gmap (string * string) Link) (w : kern) : kern :=
  MkKern (f (k_links w)) (k_ns w) (k_next w + 1) (k_fail w).

Definition with_index (i : Z) (l : Link) : Link :=
  MkLink (ln_Name l) i (ln_ParentIndex l) (ln_MasterIndex l) (ln_HardwareAddr l) (ln_MTU l) (ln_TxQLen l)
    (ln_Up l) (ln_Namespace l) (ln_Kind l).

Definition with_name (name : string) (l : Link) : Link :=
  MkLink name (ln_Index l) (ln_ParentIndex l) (ln_MasterIndex l) (ln_HardwareAddr l) (ln_MTU l) (ln_TxQLen l)
    (ln_Up l) (ln_Namespace l) (ln_Kind l).

Definition op_name (o : netop) : string :=
  match o with
  | LinkAdd _ => "LinkAdd" | LinkSetUp _ => "LinkSetUp" | RouteAdd _ => "RouteAdd" | Sysctl _ _ => "Sysctl"
  | LinkSetMaster _ _ => "LinkSetMaster" | LinkSetMasterByIndex _ _ => "LinkSetMasterByIndex"
  | ConfigureDevice _ _ => "ConfigureDevice" | _ => ""
  end.

Definition lo : Link := new_link "lo" 65536 0 None (GenericLink "loopback").

Definition change (ns : option string) (o : netop) (w : kern) : kern :=
  let key name := (at_ ns, name) in
  match o with
  | LinkAdd l =>
      set_links <[(at_ (match ln_Namespace l with Some p => Some p | None => ns end), ln_Name l) := with_index (k_next w) l]> w
  | LinkDel l => set_links (delete (key (ln_Name l))) w
  | RenameLink old new =>
      match k_links w !! key old with
      | Some l => set_links (fun m => <[key new := with_name new l]> (delete (key old) m)) w
      | None => w
      end
  | LinkSetNsFd l target => set_links (fun m => <[(at_ target, ln_Name l) := l]> (delete (key (ln_Name l)) m)) w
  | NsMount _ p => MkKern (<[(p, "lo") := lo]> (k_links w)) (p :: k_ns w) (k_next w) (k_fail w)
  | NsUnmount p => MkKern (k_links w) (filter (fun q => q <> p) (k_ns w)) (k_next w) (k_fail w)
  | _ => w
  end.

#[export] Instance demo_kernel : NetKernel kern := {|
  nk_LinkByName ns name w := (w, match k_links w !! (at_ ns, name) with Some l => Ok l | None => Err (ErrLinkNotFound name) end);
  nk_LinkByIndex ns i w := (w, Err (ErrLinkNotFound ""));
  nk_LinkList ns w := (w, Ok ((filter (fun x => x.1.1 = at_ ns) (map_to_list (k_links w))).*2));
  nk_AddrList _ _ _ w := (w, Ok []);
  nk_RouteList _ _ _ w := (w, Ok []);
  nk_RouteGet _ _ w := (w, Ok tt);
  nk_do ns o w := if (k_fail w =? op_name o)%string then (w, Err (ErrMsg "refused")) else (change ns o w, Ok tt);
  nk_SetupVeth ns name mtu host w :=
    (set_links (fun m => <[(at_ ns, name) := with_index (k_next w) (new_link name mtu 0 None (Veth "veth7"))]>
                (<[(at_ host, "veth7") := with_index (k_next w + 1000) (new_link "veth7" mtu 0 None (Veth name))]> m)) w,
     Ok ("veth7", name));
  nk_RandomVethName w := (w, Ok "vethtmp");
  nk_wgctrl w := (w, Ok tt);
  nk_GeneratePrivateKey w := (w, Ok [1]);
  nk_wgDevice _ _ w := (w, Ok 5555);
  nk_GetNS p w := (w, if bool_decide (p ∈ "/proc/thread" :: k_ns w) then Ok tt else Err (ErrNSPathNotExist p));
  nk_Close _ w := (w, Ok tt);
  nk_Enter p w := (w, if bool_decide (p ∈ k_ns w) then Ok tt else Err (ErrMsg "error switching to ns"));
  nk_ThreadNS w := (w, Ok "/proc/thread");
  nk_Stat p w := (w, if bool_decide (p ∈ k_ns w) then Ok tt else Err ErrNotExist);
  nk_ReadFile p w :=
    (w, if (p =? "/proc/mounts")%string
        then Ok (foldr (fun q s => "nsfs " +:+ q +:+ " nsfs rw 0 0" +:+ String nl s) "" (k_ns w)) else Err ErrNotExist);
  nk_ReadDir _ w := (w, Ok []);
  nk_Readlink _ w := (w, Err ErrNotExist);
  nk_LookPath p w := (w, Ok ("/bin/" +:+ p));
  nk_rand _ w := (w, Ok [1; 2; 3; 4]);
  nk_sys _ _ w := (w, Ok tt)
|}.

#[export] Instance demo_keys : WgKeys := {|
  wg_ParseKey s := if (s =? "")%string then Err (ErrMsg "wgtypes: incorrect key size: 0") else Ok (bytes_of s);
  wg_KeyString k := "key";
  nl_ParseAddr s := match ParseCIDR s with Some (ip, i) => Ok (MkIPNet ip (net_Mask i)) | None => Err (ErrMsg "invalid CIDR address") end
|}.

Definition zos_bridges : gmap (string * string) Link :=
  list_to_map [(("", "zos"), MkLink "zos" 2 0 0 [] 1500 0 true None Bridge);
               (("", "br-pub"), MkLink "br-pub" 3 0 0 [] 1500 0 true None Bridge);
               (("", "br-ndmz"), MkLink "br-ndmz" 4 0 0 [] 1500 0 true None Bridge)].

Definition node : PState kern := MkP (MkKern zos_bridges [] 10 "none") [] false.
Definition failing_node (name : string) : PState kern := MkP (MkKern zos_bridges [] 10 name) [] false.

(** A tap device whose master cannot be set is removed. *)
Example tap_removed : let run := CreateTap "t-net" "zos" (failing_node "LinkSetMasterByIndex") in
  k_links (p_world run.1) !! ("", "t-net") = None /\ is_ok run.2 = false.
Proof. vm_compute. done. Qed.

(** One whose IPv6 cannot be disabled stays: its error is not the one that is looked at. *)
Example tap_stays : let run := CreateTap "t-net" "zos" (failing_node "Sysctl") in
  is_ok run.2 = false /\ ln_Name <$> (k_links (p_world run.1) !! ("", "t-net")) = Some "t-net".
Proof. vm_compute. done. Qed.

(** A namespace is found once it is created, and not after it is deleted. *)
Example namespace_life :
  let made := namespace_Create "n-abc" node in
  let gone := namespace_Delete (Some "/var/run/netns/n-abc") made.1 in
  (namespace_Exists "n-abc" made.1).2 = Ok true /\ (namespace_Exists "n-abc" gone.1).2 = Ok false.
Proof. vm_compute. done. Qed.

End NetDemo.
