(* ===== verification/NetResource.v ===== *)
(** The part of a user's network on a node: src/pkg/network/nr (net_resource.go,
    container.go, nft.go) with src/pkg/network/public/wireguard.go.

    A network resource has a bridge in the namespace of the host and a namespace of its
    own, with an interface on the bridge and a wireguard interface; a container joins with
    a namespace whose eth0 is plugged into the bridge.

    [attachToNRBridge] writes into the array of the subnet's address, which the resource
    shares with its caller: [Create] returns the resource as it leaves it. *)

From stdpp Require Import gmap strings list.
From Stdlib Require Import Ascii ZArith Lia.
From S2P Require Import Prelude Reservation Versioned NetIP NetTypes Storage BtrfsUtil Disk Bus Netlink.

Open Scope Z_scope.

(** ** Names and addresses *)

(** The kernel takes names of interfaces of 15 characters. *)
Definition short_name (what prefix id : string) : res string :=
  let name := prefix +:+ id in
  if (15 <? String.length name)%nat then Err (ErrMsg (what +:+ " " +:+ name)) else Ok name.

Definition BridgeName (id : string) : res string := short_name "bridge namespace too long" "b-" id.
Definition Namespace (id : string) : res string := short_name "network namespace too long" "n-" id.
Definition NRIface (id : string) : res string := short_name "NR interface name too long" "n-" id.
Definition WGName (id : string) : res string := short_name "network namespace too long" "w-" id.

(** [ip[len(ip)-i]] of a slice. *)
Definition from_end (i : nat) (ip : IP) : res Z :=
  match rev ip !! (i - 1)%nat with Some b => Ok b | None => Panic "index out of range" end.

Definition wgIP (subnet : IPNet) : res IPNet :=
  res_bind (from_end 3 (net_IP subnet)) (fun a =>
  res_map (fun b => MkIPNet (IPv4 100 64 a b) (CIDRMask 16 32)) (from_end 2 (net_IP subnet))).

(** [ip[len(ip)-1] = 1]. *)
Definition first_address (ip : IP) : res IP :=
  match ip with
  | [] => Panic "index out of range"
  | _ => Ok (<[(length ip - 1)%nat := 1]> ip)
  end.

(** [h.Sum(b)] appends the hash of what was written, which is nothing, to [b]. *)
Definition Convert4to6 `{MD5} (netID : string) (ip : IP) : res IP :=
  let md5NetID := bytes_of netID ++ md5_Sum [] in
  let '(secondtolast, last) :=
    if (length ip =? 16)%nat then (nth 14 ip 0, nth 15 ip 0)
    else if (length ip =? 4)%nat then (nth 2 ip 0, nth 3 ip 0) else (0, 0) in
  match md5NetID with
  | b0 :: b1 :: b2 :: b3 :: b4 :: _ =>
      Ok (ParseIP ("fd" +:+ hex16 b0 +:+ ":" +:+ hex16 b1 +:+ hex16 b2 +:+ ":" +:+ hex16 b3 +:+ hex16 b4 +:+
                   ":" +:+ hex16 secondtolast +:+ "::" +:+ hex16 last))
  | _ => Panic "index out of range"
  end.

(** ** nft.go *)

Definition quoted (s : string) : string := String dquote (s +:+ String dquote "").

Definition unlines (l : list string) : string := foldr (fun x s => x +:+ String nl s) "" l.

Definition nr_rules : string := unlines
  [""; "flush ruleset"; "";
   "table inet nat {";
   "  chain prerouting {";
   "    type nat hook prerouting priority dstnat; policy accept;";
   "  }"; "";
   "  chain input {";
   "    type nat hook input priority 100; policy accept;";
   "  }"; "";
   "  chain output {";
   "    type nat hook output priority -100; policy accept;";
   "  }"; "";
   "  chain postrouting {";
   "    type nat hook postrouting priority srcnat; policy accept;";
   "    oifname " +:+ quoted "public" +:+ " masquerade fully-random;";
   "  }";
   "}"; "";
   "table inet filter {";
   "    chain base_checks {";
   "        # allow established/related connections";
   "        ct state {established, related} accept";
   "        # early drop of invalid connections";
   "        ct state invalid drop";
   "    }";
   "  chain input {";
   "    type filter hook input priority 0; policy accept;";
   "    jump base_checks";
   "    ip6 nexthdr icmpv6 accept";
   "    iifname " +:+ quoted "public" +:+ " counter drop";
   "  }"; "";
   "  chain forward {";
   "    type filter hook forward priority 0; policy accept;";
   "        # is there already an existing stream? (outgoing)";
   "        jump base_checks";
   "        # if not, verify if it's new and coming in from the br4-gw network";
   "        # if it is, drop it";
   "        iifname " +:+ quoted "public" +:+ " counter drop";
   "  }"; "";
   "  chain output {";
   "    type filter hook output priority 0; policy accept;";
   "  }";
   "}"].

(** ** net_resource.go *)

Definition with_Subnet (ip : IP) (r : NetResource) : NetResource :=
  MkNetResource (nr_Name r) (nr_NetID r) (nr_NetworkIPRange r) (nr_NodeID r)
    (MkIPNet ip (net_Mask (nr_Subnet r))) (nr_WGPrivateKey r) (nr_WGPublicKey r) (nr_WGListenPort r) (nr_Peers r).

Definition wgPeers (r : NetResource) : list WgPeer :=
  (fun p => MkWgPeer (peer_WGPublicKey p) (peer_Endpoint p) (net_String <$> peer_AllowedIPs p)) <$> nr_Peers r.

(** [nr.ContainerConfig]. *)
Record ContainerConfig := MkContainerConfig {
  cc_ContainerID : string; cc_IPs : list IP; cc_PublicIP6 : bool; cc_IPv4Only : bool
}.

Definition default_route (any : string) (bits : Z) (gw : IP) (index : Z) : Route :=
  MkRoute (MkIPNet (ParseIP any) (CIDRMask 0 bits)) gw index.

Section resource.
  Context {W : Type} `{NetKernel W} `{WgKeys} `{MD5} `{MapOrder}.

Notation PM := (PM W).

Definition add_addr (ns : option string) (link : Link) (addr : IPNet) : PM unit :=
  unless IsExist (net_do ns (AddrAdd link addr)).

Definition createBridge (r : NetResource) : PM unit :=
  name ← lift (BridgeName (nr_NetID r));
  exists_ ← bridge_Exists name;
  if exists_ : bool then mret tt
  else
    bridge_New name ;;
    wrap ("failed to disable ip6 on bridge " +:+ name) (options_Set None name [IPv6Disable true]).

Definition createNetNS (r : NetResource) : PM unit :=
  name ← lift (Namespace (nr_NetID r));
  exists_ ← namespace_Exists name;
  if exists_ : bool then mret tt
  else
    netNS ← namespace_Create name;
    finally (ns_Close netNS)
      (ns_Do netNS (fun ns => SetIPv6Forwarding ns true ;; SetLoUp ns)).

(** The addresses of the interface on the bridge; the subnet as it is afterwards. *)
Definition configure_bridge_iface (ns : option string) (r : NetResource) (name : string) : PM NetResource :=
  link ← LinkByName ns name;
  ip ← lift (first_address (net_IP (nr_Subnet r)));
  add_addr ns link (MkIPNet ip (net_Mask (nr_Subnet r))) ;;
  ipv6 ← lift (Convert4to6 (nr_NetID r) ip);
  add_addr ns link (MkIPNet ipv6 (CIDRMask 64 128)) ;;
  add_addr ns link (MkIPNet (ParseIP "fe80::1") (CIDRMask 64 128)) ;;
  net_do ns (LinkSetUp link) ;;
  mret (with_Subnet ip r).

Definition not_there {A} (nsName : string) (m : PM A) : PM A := fun s =>
  match m s with
  | (s', Err _) => (s', Err (ErrMsg ("network namespace " +:+ nsName +:+ " does not exits")))
  | x => x
  end.

Definition attachToNRBridge (r : NetResource) : PM NetResource :=
  nsName ← lift (Namespace (nr_NetID r));
  nrIfaceName ← lift (NRIface (nr_NetID r));
  netNS ← not_there nsName (namespace_GetByName nsName);
  finally (ns_Close netNS)
    (bridgeName ← lift (BridgeName (nr_NetID r));
     there ← iface_Exists nrIfaceName (Some netNS);
     when_ (negb there) (macvlan_Create nrIfaceName bridgeName (Some netNS) ;; mret tt) ;;
     ns_Do netNS (fun ns => configure_bridge_iface ns r nrIfaceName)).

Definition nr_applyFirewall (r : NetResource) : PM unit :=
  nsName ← lift (Namespace (nr_NetID r));
  wrap "failed to apply nft rule set" (nft_Apply nr_rules nsName).

Definition nr_Create (r : NetResource) : PM NetResource :=
  createBridge r ;;
  createNetNS r ;;
  r ← attachToNRBridge r;
  nr_applyFirewall r ;;
  mret r.

(** The addresses of the wireguard interface become the one of the resource. *)
Definition set_wg_addresses (ns : option string) (wg : Link) (want : string) : PM unit :=
  addrs ← AddrList ns wg FAMILY_ALL;
  let cur : gset string := list_to_set (net_String <$> addrs) in
  let toAdd := {[want]} ∖ cur in
  let toRemove := cur ∖ {[want]} in
  for_each (fun addr => wrap ("failed to set address " +:+ addr +:+ " on wireguard interface " +:+ ln_Name wg)
                          (unless IsExist (SetAddr ns wg addr))) (map_range (elements toAdd)) ;;
  for_each (fun addr => wrap ("failed to unset address " +:+ addr +:+ " on wireguard interface " +:+ ln_Name wg)
                          (unless IsNotExist (UnsetAddr ns wg addr))) (map_range (elements toRemove)).

Definition ConfigureWG (r : NetResource) (privateKey : string) : PM unit :=
  nsName ← lift (Namespace (nr_NetID r));
  netNS ← not_there nsName (namespace_GetByName nsName);
  ns_Do netNS (fun ns =>
    wgName ← lift (WGName (nr_NetID r));
    wg ← wrap ("failed to get wireguard interface " +:+ wgName) (wireguard_GetByName ns wgName);
    wrap "failed to configure wireguard interface" (Configure ns wg privateKey (nr_WGListenPort r) (wgPeers r)) ;;
    want ← lift (wgIP (nr_Subnet r));
    set_wg_addresses ns wg (net_String want) ;;
    wrap "failed to add route" (unless IsExist (net_do ns (RouteAdd (MkRoute (nr_NetworkIPRange r) [] (ln_Index wg)))))).

(** The error of deleting the namespace is dropped. *)
Definition nr_Delete (r : NetResource) : PM unit :=
  netnsName ← lift (Namespace (nr_NetID r));
  bridgeName ← lift (BridgeName (nr_NetID r));
  there ← bridge_Exists bridgeName;
  when_ there (bridge_Delete bridgeName) ;;
  there ← namespace_Exists netnsName;
  when_ there (netResNS ← namespace_GetByName netnsName; ignore (namespace_Delete (Some netResNS))).

Definition HasWireguard (r : NetResource) : PM bool :=
  nsName ← lift (Namespace (nr_NetID r));
  nrNetNS ← namespace_GetByName nsName;
  finally (ns_Close nrNetNS)
    (wgName ← lift (WGName (nr_NetID r));
     ns_Do nrNetNS (fun ns =>
       got ← try (wireguard_GetByName ns wgName);
       match got with
       | inl _ => mret true
       | inr (ErrLinkNotFound _) => mret false
       | inr e => throw e
       end)).

Definition SetWireguard (r : NetResource) (wg : Link) : PM unit :=
  nsName ← lift (Namespace (nr_NetID r));
  nrNetNS ← namespace_GetByName nsName;
  finally (ns_Close nrNetNS) (net_do None (LinkSetNsFd wg (Some nrNetNS))).

(** *** public/wireguard.go *)

Definition getPublicNamespace : PM (option string) :=
  ns ← try (namespace_GetByName PublicNamespace);
  mret (match ns with inl ns => Some ns | inr _ => None end).

(** In the public namespace when there is one, from where the link is moved to the host. *)
Definition NewWireguard (name : string) : PM Link :=
  ns ← getPublicNamespace;
  match ns with
  | Some ns =>
      finally (ns_Close ns)
        (wg ← ns_Do ns (fun n => wg ← wireguard_New n name; net_do n (LinkSetNsFd wg None) ;; mret wg);
         wireguard_GetByName None (ln_Name wg))
  | None => wireguard_New None name
  end.

(** ** container.go *)

Definition setup_veth (ns : option string) (name : string) (mtu : Z) (host : option string) : PM (string * string) :=
  act (fun p => p.1) (NetCall ns (SetupVeth name mtu host)) (nk_SetupVeth ns name mtu host).

(** What runs in the namespace of the container: the name of the other end of eth0 and
    the member. *)
Definition join_ns (r : NetResource) (cfg : ContainerConfig) (ns : option string) : PM (string * Member) :=
  let private6 := negb (cc_IPv4Only cfg) && negb (cc_PublicIP6 cfg) in
  SetLoUp ns ;;
  '(hostVeth, containerVeth) ← wrap ("failed to create veth pair in namespace (" +:+ cc_ContainerID cfg +:+ ")")
    (setup_veth ns "eth0" 1500 None);
  eth0 ← LinkByName ns containerVeth;
  for_each (fun addr => add_addr ns eth0 (MkIPNet addr (CIDRMask 24 32))) (cc_IPs cfg) ;;
  ipv6 ← (if private6 then
            ip ← match cc_IPs cfg with ip :: _ => mret ip | [] => panic "index out of range" end;
            ipv6 ← lift (Convert4to6 (nr_NetID r) ip);
            add_addr ns eth0 (MkIPNet ipv6 (CIDRMask 64 128)) ;;
            mret ipv6
          else mret []);
  if (length (net_IP (nr_Subnet r)) =? 0)%nat
  then throw (ErrMsg ("invalid network resource (" +:+ nr_NetID r +:+ "): empty subnet"))
  else
    gw ← lift (first_address (net_IP (nr_Subnet r)));
    let routes := default_route "0.0.0.0" 32 gw (ln_Index eth0) ::
                  if private6 then [default_route "::" 128 (ParseIP "fe80::1") (ln_Index eth0)] else [] in
    for_each (fun route => wrap "failed to set route on eth0" (unless IsExist (net_do ns (RouteAdd route)))) routes ;;
    mret (hostVeth, MkMember (cc_ContainerID cfg) ipv6 (List.last (cc_IPs cfg) []) []).

(** The namespace goes again when joining fails. *)
Definition nr_Join (r : NetResource) (cfg : ContainerConfig) : PM Member :=
  name ← lift (BridgeName (nr_NetID r));
  br ← bridge_Get name;
  netspace ← namespace_Create (cc_ContainerID cfg);
  on_error (ignore (namespace_Delete (Some netspace)))
    ('(hostVethName, join) ← ns_Do netspace (join_ns r cfg);
     hostVeth ← LinkByName None hostVethName;
     wrap ("failed to disable ip6 on bridge " +:+ ln_Name hostVeth)
       (options_Set None (ln_Name hostVeth) [IPv6Disable true]) ;;
     AttachNic hostVeth br ;;
     mret join).

Definition nr_Leave (containerID : string) : PM unit :=
  got ← try (namespace_GetByName containerID);
  match got with
  | inr (ErrNSPathNotExist _) => mret tt
  | inr e => if IsNotExist e then mret tt else throw e
  | inl namespc => finally (ns_Close namespc) (namespace_Delete (Some namespc))
  end.

End resource.

(** ** Addresses *)

Section addresses.

Lemma hex_digit d : 0 <= d < 16 -> xdigit (hex_ascii d) = Some d /\
  forall s w, parse_as (String (hex_ascii d) s) w = parse_as s w.
Proof.
  intros Hd. assert (Hin : d ∈ (Z.of_nat <$> seq 0 16)).
  { apply list_elem_of_fmap. exists (Z.to_nat d). rewrite elem_of_seq. lia. }
  assert (Hall : Forall (fun d => xdigit (hex_ascii d) = Some d /\
    forall s w, parse_as (String (hex_ascii d) s) w = parse_as s w) (Z.of_nat <$> seq 0 16)) by (repeat constructor).
  exact (proj1 (Forall_forall _ _) Hall d Hin).
Qed.

Lemma nibbles b : 0 <= b < 256 -> 0 <= b / 16 < 16 /\ 0 <= b mod 16 < 16 /\ b = 16 * (b / 16) + b mod 16.
Proof.
  intros Hb. pose proof (Z.mod_pos_bound b 16 ltac:(lia)). pose proof (Z.div_mod b 16 ltac:(lia)). lia.
Qed.

Lemma word_bytes a b : 0 <= b < 256 -> (a * 256 + b) / 256 = a /\ (a * 256 + b) mod 256 = b.
Proof. intros Hb. rewrite Z.add_comm, Z.div_add, Z.mod_add, Z.div_small, Z.mod_small by lia. lia. Qed.

(** A number without leading zeros: two digits from 16 on. *)
Lemma hex16_byte b : 0 <= b < 256 ->
  hex16 b = if b <? 16 then String (hex_ascii b) "" else String (hex_ascii (b / 16)) (String (hex_ascii (b mod 16)) "").
Proof.
  intros Hb. unfold hex16. change (16 ^ 0) with 1. change (16 ^ 1) with 16. rewrite Z.div_1_r.
  destruct (Z.ltb_spec b 16); [by rewrite Z.mod_small by lia|]. destruct (Z.ltb_spec b 256); [|lia].
  by rewrite (Z.mod_small (b / 16) 16) by apply nibbles, Hb.
Qed.

Lemma number_hex d seen a s : 0 <= d < 16 -> a * 16 + d < big ->
  number 16 xdigit seen a (String (hex_ascii d) s) = number 16 xdigit true (a * 16 + d) s.
Proof.
  intros Hd Hb. cbn [number]. rewrite (proj1 (hex_digit d Hd)). cbv zeta.
  destruct (Z.leb_spec big (a * 16 + d)); [lia|done].
Qed.

(** What stops the reading of a group. *)
Definition group_end (s : string) : Prop := s = "" \/ exists t, s = String ":" t.

Lemma number_end a s : group_end s -> number 16 xdigit true a s = Some (a, s).
Proof. by intros [->|[t ->]]. Qed.

Lemma number_byte b seen a s : 16 <= b < 256 -> 0 <= a < 256 ->
  number 16 xdigit seen a (hex16 b +:+ s) = number 16 xdigit true (a * 256 + b) s.
Proof.
  intros Hb Ha. rewrite hex16_byte by lia. destruct (Z.ltb_spec b 16); [lia|].
  change (String ?x (String ?y "") +:+ s) with (String x (String y s)).
  destruct (nibbles b) as (? & ? & ?); [lia|].
  rewrite !number_hex by (unfold big; lia). f_equal. lia.
Qed.

Lemma xtoi_byte b s : 0 <= b < 256 -> group_end s -> xtoi (hex16 b +:+ s) = Some (b, s).
Proof.
  intros Hb Hs. unfold xtoi. destruct (Z.ltb_spec b 16).
  - rewrite hex16_byte by lia. destruct (Z.ltb_spec b 16); [|lia].
    change (String ?x "" +:+ s) with (String x s). rewrite number_hex by (unfold big; lia). by apply number_end.
  - rewrite number_byte by lia. by apply number_end.
Qed.

Lemma xtoi_bytes a b s : 16 <= a < 256 -> 16 <= b < 256 -> group_end s ->
  xtoi (hex16 a +:+ hex16 b +:+ s) = Some (a * 256 + b, s).
Proof. intros Ha Hb Hs. unfold xtoi. rewrite !number_byte by lia. by apply number_end. Qed.

Lemma parse_as_byte b s w : 0 <= b < 256 -> parse_as (hex16 b +:+ s) w = parse_as s w.
Proof.
  intros Hb. rewrite hex16_byte by lia. destruct (nibbles b Hb) as (? & ? & ?).
  destruct (Z.ltb_spec b 16).
  - change (String ?x "" +:+ s) with (String x s). apply hex_digit. lia.
  - change (String ?x (String ?y "") +:+ s) with (String x (String y s)).
    rewrite (proj2 (hex_digit (b / 16) ltac:(lia))). apply hex_digit. lia.
Qed.

(** A group that is followed by another one. *)
Lemma parse_group fuel ip e s n t c : xtoi s = Some (n, String ":" (String c t)) -> 0 <= n < 65536 -> c <> ":"%char ->
  parse_groups (S fuel) ip e s = parse_groups fuel (ip ++ [n / 256; n mod 256]) e (String c t).
Proof.
  intros Hx Hn Hc. cbn [parse_groups]. rewrite Hx.
  destruct (n >? 65535) eqn:E; [apply Z.gtb_lt in E; lia|].
  change (HasPrefix (String ":" (String c t)) ".") with false.
  by destruct c as [[] [] [] [] [] [] [] []].
Qed.

Lemma hex16_head b : 0 <= b < 256 -> exists c t, hex16 b = String c t /\ c <> ":"%char.
Proof.
  intros Hb. destruct (nibbles b Hb) as (? & ? & ?).
  rewrite hex16_byte by lia. destruct (Z.ltb_spec b 16); eexists _, _; (split; [reflexivity|]); intros Hc.
  - pose proof (proj1 (hex_digit b ltac:(lia))) as Hx. by rewrite Hc in Hx.
  - pose proof (proj1 (hex_digit (b / 16) ltac:(lia))) as Hx. by rewrite Hc in Hx.
Qed.

(** The same with the next group written as a number. *)
Lemma parse_group_hex fuel ip e s n b t : xtoi s = Some (n, String ":" (hex16 b +:+ t)) ->
  0 <= n < 65536 -> 0 <= b < 256 ->
  parse_groups (S fuel) ip e s = parse_groups fuel (ip ++ [n / 256; n mod 256]) e (hex16 b +:+ t).
Proof.
  intros Hx Hn Hb. destruct (hex16_head b Hb) as (c & u & Hu & Hc). rewrite Hu in *.
  change (String c u +:+ t) with (String c (u +:+ t)) in *. by apply parse_group.
Qed.

Lemma parse_ellipsis fuel ip s n rest : xtoi s = Some (n, String ":" (String ":" rest)) -> 0 <= n < 65536 ->
  rest <> "" ->
  parse_groups (S fuel) ip None s =
    parse_groups fuel (ip ++ [n / 256; n mod 256]) (Some (length ip + 2)%nat) rest.
Proof.
  intros Hx Hn Hr. cbn [parse_groups]. rewrite Hx. destruct (n >? 65535) eqn:E; [apply Z.gtb_lt in E; lia|].
  change (HasPrefix (String ":" (String ":" rest)) ".") with false. cbv zeta iota.
  apply String.eqb_neq in Hr. by rewrite Hr, length_app.
Qed.

Lemma parse_last fuel ip e s n : xtoi s = Some (n, "") -> 0 <= n < 65536 ->
  parse_groups (S fuel) ip e s = Some (ip ++ [n / 256; n mod 256], e).
Proof.
  intros Hx Hn. cbn [parse_groups]. rewrite Hx. destruct (n >? 65535) eqn:E; [apply Z.gtb_lt in E; lia|done].
Qed.

(** The last two groups, around an ellipsis. *)
Lemma parse_tail ip x y : 0 <= x < 256 -> 0 <= y < 256 ->
  parse_groups 5 ip None (hex16 x +:+ "::" +:+ hex16 y) = Some (ip ++ [0; x] ++ [0; y], Some (length ip + 2)%nat).
Proof.
  intros Hx Hy. destruct (hex16_head y Hy) as (c & u & Hu & Hc).
  rewrite (parse_ellipsis _ _ _ x (hex16 y)); [|apply xtoi_byte; [lia|right; by eexists]|lia|by rewrite Hu].
  rewrite (parse_last _ _ _ _ y); [|rewrite <- (string_app_nil_r (hex16 y)); apply xtoi_byte; [lia|by left]|lia].
  rewrite (Z.div_small x 256), (Z.mod_small x 256), (Z.div_small y 256), (Z.mod_small y 256) by lia.
  by rewrite <- app_assoc.
Qed.

Definition two_digits : Z -> Prop := fun b => 16 <= b < 256.

(** The text of the address, read. *)
Lemma ParseIP_converted b0 b1 b2 b3 b4 x y : Forall two_digits [b0; b1; b2; b3; b4] ->
  0 <= x < 256 -> 0 <= y < 256 ->
  ParseIP ("fd" +:+ hex16 b0 +:+ ":" +:+ hex16 b1 +:+ hex16 b2 +:+ ":" +:+ hex16 b3 +:+ hex16 b4 +:+
           ":" +:+ hex16 x +:+ "::" +:+ hex16 y) =
    [253; b0; b1; b2; b3; b4; 0; x; 0; 0; 0; 0; 0; 0; 0; y].
Proof.
  unfold two_digits. intros Hb Hx Hy. rewrite !Forall_cons in Hb. destruct Hb as (H0 & H1 & H2 & H3 & H4 & _).
  set (w4 := hex16 x +:+ "::" +:+ hex16 y). set (w3 := hex16 b3 +:+ hex16 b4 +:+ ":" +:+ w4).
  set (w2 := hex16 b1 +:+ hex16 b2 +:+ ":" +:+ w3). set (w1 := "fd" +:+ hex16 b0 +:+ ":" +:+ w2).
  assert (Hp : parse_groups 8 [] None w1 = Some ([253; b0; b1; b2; b3; b4] ++ [0; x] ++ [0; y], Some 8%nat)).
  { unfold w1, w2. rewrite (parse_group_hex _ _ _ _ (253 * 256 + b0) b1 (hex16 b2 +:+ ":" +:+ w3)); [|..|lia]; [|
      change (number 16 xdigit true 253 (hex16 b0 +:+ ":" +:+ w2) = Some (253 * 256 + b0, String ":" w2));
      rewrite number_byte by lia; rewrite number_end by (right; by eexists); done|lia].
    unfold w3. rewrite (parse_group_hex _ _ _ _ (b1 * 256 + b2) b3 (hex16 b4 +:+ ":" +:+ w4)); [|
      apply xtoi_bytes; [lia|lia|right; by eexists]|lia|lia].
    unfold w4. rewrite (parse_group_hex _ _ _ _ (b3 * 256 + b4) x ("::" +:+ hex16 y)); [|
      apply xtoi_bytes; [lia|lia|right; by eexists]|lia|lia].
    rewrite parse_tail by done. cbn [app length Nat.add].
    destruct (word_bytes 253 b0) as [-> ->]; [lia|]. destruct (word_bytes b1 b2) as [-> ->]; [lia|].
    destruct (word_bytes b3 b4) as [-> ->]; [lia|]. done. }
  unfold ParseIP. change (default [] (parse_as w1 w1) = [253; b0; b1; b2; b3; b4; 0; x; 0; 0; 0; 0; 0; 0; 0; y]).
  change (parse_as w1 w1) with (parse_as (hex16 b0 +:+ ":" +:+ w2) w1). rewrite parse_as_byte by lia.
  change (default [] (parse_groups 8 [] None w1 ≫= (fun '(ip, e) => expand ip e)) =
          [253; b0; b1; b2; b3; b4; 0; x; 0; 0; 0; 0; 0; 0; 0; y]).
  by rewrite Hp.
Qed.

End addresses.

(** The last two bytes of an address. *)
Definition last_two (ip : IP) : Z * Z := (nth (length ip - 2) ip 0, nth (length ip - 1) ip 0).

(** An id of five characters or more, all of which take two digits. *)
Definition id_prefix (netID : string) (p : list Z) : Prop :=
  length p = 5%nat /\ Forall two_digits p /\ exists rest, bytes_of netID = p ++ rest.

(** The IPv6 address that is derived from an IPv4 address of a network
    carries the first five characters of the network's id and the last two bytes of the
    address. So the addresses of one network that differ in those bytes differ, and
    networks whose ids begin alike share their addresses. *)
Theorem Convert4to6_spec `{MD5} netID p ip : id_prefix netID p ->
  Forall (fun b => 0 <= b < 256) ip -> length ip = 4%nat \/ length ip = 16%nat ->
  Convert4to6 netID ip =
    Ok ([253] ++ p ++ [0; (last_two ip).1; 0; 0; 0; 0; 0; 0; 0; (last_two ip).2]).
Proof.
  intros (Hl & Hp & rest & Hid) Hb Hlen. unfold Convert4to6. rewrite Hid.
  destruct p as [|b0 [|b1 [|b2 [|b3 [|b4 [|]]]]]]; [done..| |done].
  assert (Hnth : forall i, 0 <= nth i ip 0 < 256).
  { intros i. destruct (nth_in_or_default i ip 0) as [Hin| ->]; [|lia].
    apply (proj1 (Forall_forall _ _) Hb). by apply list_elem_of_In. }
  set (xy := if (length ip =? 16)%nat then _ else _).
  assert (Hxy : xy = last_two ip).
  { unfold xy, last_two. by destruct Hlen as [-> | ->]. }
  rewrite Hxy. unfold last_two. cbn [app fst snd]. apply (f_equal Ok). by apply ParseIP_converted.
Qed.

Section join.
  Context {W : Type} {kernel : NetKernel W} {md5 : MD5}.

(** What runs in the namespace of the container takes a veth pair and nothing else. *)
Lemma emits_join_ns r cfg p : emits (fun ev => takes ev ⊆ {[RVeth p]}) (join_ns (W := W) r cfg (Some p)).
Proof. unfold join_ns, SetLoUp, add_addr, setup_veth. emits_tac. Qed.

Lemma emits_AttachNic P (link bridge : Link) :
  (forall out, P (Ran (NetCall None (LinkSetUp link)) out)) ->
  (forall out, P (Ran (NetCall None (LinkSetMaster link bridge)) out)) ->
  (forall out, P (Ran (NetCall None (Sysctl ("net.ipv6.conf." +:+ ln_Name link +:+ ".disable_ipv6") "1")) out)) ->
  emits (W := W) P (AttachNic link bridge).
Proof. intros H1 H2 H3. unfold AttachNic, options_Set, for_each, sys_apply. emits_tac. Qed.

Lemma quiet_bridge_Get name : quiet (W := W) (bridge_Get name).
Proof.
  unfold bridge_Get. apply quiet_bind; [auto with zos_monad|intros l].
  destruct (negb _); [auto with zos_monad|]. destruct (is_Bridge l); auto with zos_monad.
Qed.

(** What follows the creation of the namespace, up to the point where it is undone. *)
Lemma emits_join_rest r cfg br p :
  emits (W := W) (fun ev => takes ev ⊆ {[RVeth p]})
    ('(hostVethName, join) ← ns_Do p (join_ns r cfg);
     hostVeth ← LinkByName None hostVethName;
     wrap ("failed to disable ip6 on bridge " +:+ ln_Name hostVeth)
       (options_Set None (ln_Name hostVeth) [IPv6Disable true]) ;;
     AttachNic hostVeth br ;;
     mret join).
Proof.
  apply emits_bind; [apply emits_ns_Do, emits_join_ns|intros [hostVethName join] _ _ _].
  unfold options_Set, for_each, sys_apply. emits_tac. by apply emits_AttachNic.
Qed.

(** Deleting the namespace gives it back with the pair; when it cannot be closed, nothing. *)
Lemma undo_namespace p s s' x : HasPrefix p netNSPath = true ->
  ignore (namespace_Delete (W := W) (Some p)) s = (s', x) -> (forall m, x <> Panic m) ->
  exists evs, p_log s' = p_log s ++ evs /\
    (held evs {[RNetns p; RVeth p]} = ∅ \/ (evs = [] /\ exists w, is_ok (nk_Close p w).2 = false)).
Proof.
  intros Hpre Hrun Hx. unfold namespace_Delete in Hrun. rewrite Hpre in Hrun. unfold when_ in Hrun.
  unfold mbind at 1, M_bind, ignore, ns_Close, call at 1 in Hrun.
  destruct (nk_Close p (p_world s)) as [w [[]|e|m]] eqn:Hc.
  2,3: injection Hrun as <- _; exists []; rewrite app_nil_r; split; [done|]; right; split; [done|];
    exists (p_world s); by rewrite Hc.
  assert (Hu : uses (W := W) {[RNetns p; RVeth p]}
    (retext ("failed to unmount NS: at " +:+ p +:+ ": ") (net_do None (NsUnmount p)) ;;
     retext ("failed to remove ns path " +:+ p +:+ ": ") (sys "remove" [p])) (fun _ => ∅) ∅).
  { eapply uses_bind with (Q := fun _ => ∅); [apply uses_retext, uses_act; intros ?; cbn; set_solver|].
    intros _. eapply uses_weaken; [apply uses_neutral; emits_tac|set_solver..]. }
  match type of Hrun with (let '(_, _) := ?m ?t in _) = _ => destruct (m t) as [s2 y] eqn:E end.
  destruct (Hu _ _ _ E) as (evs & Hl & Hh). exists evs. cbn [p_log] in Hl.
  destruct y as [u|e|m]; injection Hrun as <- <-; [split; [done|left]; set_solver..|by destruct (Hx m)].
Qed.


End join.

Module NrDemo.
Import BusDemo NetDemo.

Definition net1 : NetResource :=
  MkNetResource "mynet" "8xKqZ2mGhTvbn" (MkIPNet [10; 1; 0; 0] (CIDRMask 16 32)) "node"
    (MkIPNet [10; 1; 2; 0] (CIDRMask 24 32)) "6b6579" "pub" 5555
    [MkPeer (MkIPNet [10; 1; 3; 0] (CIDRMask 24 32)) "peerkey" [MkIPNet [10; 1; 3; 0] (CIDRMask 24 32)] "1.2.3.4:6000"].

Lemma Convert4to6_spec_witness :
  id_prefix "8xKqZ2mGhTvbn" [56; 120; 75; 113; 90] /\
  Convert4to6 "8xKqZ2mGhTvbn" [10; 1; 2; 7] = Ok [253; 56; 120; 75; 113; 90; 0; 2; 0; 0; 0; 0; 0; 0; 0; 7].
Proof.
  assert (Hid : id_prefix "8xKqZ2mGhTvbn" [56; 120; 75; 113; 90]).
  { split_and!; [done|by repeat (constructor; [unfold two_digits; lia|])|]. by eexists. }
  split; [done|].
  apply (Convert4to6_spec "8xKqZ2mGhTvbn" [56; 120; 75; 113; 90] [10; 1; 2; 7] Hid);
    [by repeat (constructor; [lia|])|by left].
Defined.

(** Two networks whose ids differ after the fifth character, in the same subnet. *)
Example same_addresses :
  Convert4to6 "8xKqZ2mGhTvbn" [10; 1; 2; 7] = Convert4to6 "8xKqZanotherX" [10; 9; 2; 7].
Proof. vm_compute. done. Qed.

(** The node with the bridge of the network. *)
Definition bridged (fail : string) : PState NetDemo.kern :=
  let s := (createBridge net1 NetDemo.node).1 in
  MkP (NetDemo.MkKern (NetDemo.k_links (p_world s)) [] 20 fail) [] false.

Definition member : ContainerConfig := MkContainerConfig "ct1" [[10; 1; 2; 7]] false false.

Definition failed_join := nr_Join net1 member (bridged "RouteAdd").


Example joined : let run := nr_Join net1 member (bridged "none") in
  match run.2 with Ok m => mb_IPv6 m | _ => [] end = [253; 56; 120; 75; 113; 90; 0; 2; 0; 0; 0; 0; 0; 0; 0; 7] /\
  NetDemo.k_ns (p_world run.1) = ["/var/run/netns/ct1"] /\
  elements (held (p_log run.1) ∅) = [RNetns "/var/run/netns/ct1"; RVeth "/var/run/netns/ct1"] /\
  elements (held (p_log failed_join.1) ∅) = [].
Proof. cbv zeta. split_and!; vm_compute; reflexivity. Qed.

End NrDemo.
