(* ===== verification/VmPrim.v ===== *)
(** Virtual machines and kubernetes nodes as workloads:
    src/pkg/provision/primitives/vm.go, vmutils.go and kubernetes.go.

    Provisioning takes a disk, one or two tap devices and the machine; what a
    failing provisioning has taken it gives back in deferred functions, which
    are [on_error] around the rest. *)

From stdpp Require Import gmap strings list.
From Stdlib Require Import Ascii ZArith Lia.
From S2P Require Import Prelude Reservation Counters NetIP Disk Bus.

Open Scope Z_scope.

(** ** Strings *)

(** [strings.ContainsAny] for ASCII characters. *)
Fixpoint ContainsAny (s : string) (chars : list ascii) : bool :=
  match s with
  | EmptyString => false
  | String c s => existsb (Ascii.eqb c) chars || ContainsAny s chars
  end.

(** The encodings of the runes that [unicode.IsSpace] accepts: the ASCII ones,
    U+0085, U+00A0, U+1680, U+2000 to U+200A, U+2028, U+2029, U+202F, U+205F and
    U+3000. *)
Definition rune_bytes (l : list nat) : string := String.string_of_list_ascii (ascii_of_nat <$> l).

Definition space_runes : list string :=
  rune_bytes <$> ([[9]; [10]; [11]; [12]; [13]; [32]; [194; 133]; [194; 160]; [225; 154; 128]]
    ++ ((fun k => [226; 128; 128 + k]) <$> seq 0 11)
    ++ [[226; 128; 168]; [226; 128; 169]; [226; 128; 175]; [226; 129; 159]; [227; 128; 128]])%nat.

(** The length of the first of some patterns that a string starts with. *)
Fixpoint prefix_len (patterns : list string) (s : string) : nat :=
  match patterns with
  | [] => 0
  | p :: patterns => if HasPrefix s p then String.length p else prefix_len patterns s
  end.

(** Drops patterns from the head; [skip] characters of one are still to drop. *)
Fixpoint trim_left (patterns : list string) (skip : nat) (s : string) : string :=
  match s with
  | EmptyString => EmptyString
  | String _ s' =>
      match skip with
      | S k => trim_left patterns k s'
      | O =>
          match prefix_len patterns s with
          | O => s
          | S k => trim_left patterns k s'
          end
      end
  end.

Definition rev_string (s : string) : string :=
  String.string_of_list_ascii (rev (String.list_ascii_of_string s)).

(** [strings.TrimSpace]. *)
Definition TrimSpace (s : string) : string :=
  rev_string (trim_left (rev_string <$> space_runes) 0 (rev_string (trim_left space_runes 0 s))).

(** [strings.Replace(s, a, b, -1)] for characters. *)
Fixpoint replace_char (a b : ascii) (s : string) : string :=
  match s with
  | EmptyString => EmptyString
  | String c s => String (if Ascii.eqb c a then b else c) (replace_char a b s)
  end.

(** [fmt.Sprintf("%d", n)] of a signed value. *)
Definition FormatInt (n : Z) : string := if n <? 0 then "-" +:+ Itoa (- n) else Itoa n.

Definition tab : ascii := "009".
Definition newline : ascii := "010".
Definition form_feed : ascii := "012".
Definition carriage_return : ascii := "013".
Definition space : ascii := " ".
Definition quote : ascii := "034".

(** [^[0-9a-zA-Z-.]*$]. *)
Definition name_char (c : ascii) : bool :=
  let n := nat_of_ascii c in
  ((48 <=? n) && (n <=? 57) || (97 <=? n) && (n <=? 122) || (65 <=? n) && (n <=? 90)
   || (n =? 45) || (n =? 46))%nat.

Fixpoint matches_name (s : string) : bool :=
  match s with EmptyString => true | String c s => name_char c && matches_name s end.

(** ** Data *)

Record VMConfig := MkVMConfig {
  cfg_VM : VM; cfg_NetworkID : string; cfg_IP : IP; cfg_SSHKeys : list string;
  cfg_PublicIP : Z; cfg_Name : string
}.

(** [MasterIPs] is empty for a master. *)
Record Kubernetes := MkKubernetes {
  k8s_VM : VMConfig; k8s_ClusterSecret : string; k8s_MasterIPs : list IP;
  k8s_PlainClusterSecret : string; k8s_DatastoreEndpoint : string; k8s_DisableDefaultIngress : bool
}.

Record VMResult := MkVMResult { vmr_ID : string; vmr_IP : string }.

Record ImageInfo := MkImageInfo { img_Initrd : string; img_Kernel : string; img_ImagePath : string }.

(** [json.Unmarshal] into the two schemas. The machine is inlined into the
    schema of kubernetes, and the plain secret is not part of it. *)
Class VMSchemas := {
  dec_VMConfig : string -> res VMConfig;
  dec_K8s : string -> res Kubernetes;
  dec_K8s_VM s k : dec_K8s s = Ok k -> dec_VMConfig s = Ok (k8s_VM k)
}.

Definition VMREPO : string := "https://hub.grid.tf/tf-official-vms/".
Definition VMTAG : string := "latest".
Definition k3osFlistURL : string := "https://hub.grid.tf/lee/k3os-ch.flist".

(** ** Validation *)

Definition bad_key : error :=
  ErrMsg "ssh keys can't contain intermediate whitespace chars other than white space".

Definition valid_IP (ip : IP) : bool :=
  match To4 ip, To16 ip with None, None => false | _, _ => true end.

Definition check_keys (chars : list ascii) (keys : list string) : res unit :=
  if existsb (fun key => ContainsAny (TrimSpace key) chars) keys then Err bad_key else Ok tt.

Definition VM_Validate (k : VMConfig) : res unit :=
  if negb (matches_name (cfg_Name k)) then
    Err (ErrMsg "the name must consist of alphanumeric characters, dot, and dash ony")
  else if negb (valid_IP (cfg_IP k)) then Err (ErrMsg "invalid IP")
  else if negb (vm_Size (cfg_VM k) =? -1) &&
          ((vm_Size (cfg_VM k) <? 1) || (18 <? vm_Size (cfg_VM k))) then
    Err (ErrMsg "unsupported vm size %d, only size -1, and 1 to 18 are supported")
  else check_keys [tab; carriage_return; newline; form_feed; quote] (cfg_SSHKeys k).

Definition K8s_Validate (k : Kubernetes) : res unit :=
  match VM_Validate (k8s_VM k) with
  | Ok _ =>
      if ContainsAny (k8s_PlainClusterSecret k) [space; tab; carriage_return; newline; form_feed] then
        Err (ErrMsg "cluster secret shouldn't contain whitespace chars")
      else if existsb (fun ip => negb (valid_IP ip)) (k8s_MasterIPs k) then
        Err (ErrMsg "invalid master IP")
      else Ok tt
  | x => x
  end.

(** ** Command lines of the kernel *)

Fixpoint add_keys (cmdline : string) (keys : list string) : res string :=
  match keys with
  | [] => Ok cmdline
  | key :: keys =>
      let trimmed := TrimSpace key in
      if ContainsAny trimmed [tab; carriage_return; newline; form_feed] then Err bad_key
      else add_keys (cmdline +:+ " ssh=" +:+ replace_char space "," trimmed) keys
  end.

Definition constructCMDLine (config : VMConfig) : res string :=
  add_keys "root=/dev/vda rw console=ttyS0 reboot=k panic=1" (cfg_SSHKeys config).

Fixpoint add_masters (cmdline : string) (ips : list IP) : res string :=
  match ips with
  | [] => Ok cmdline
  | ip :: ips =>
      match To4 ip, To16 ip with
      | Some _, _ => add_masters (cmdline +:+ " k3os.server_url=https://" +:+ IP_String ip +:+ ":6443") ips
      | None, Some _ =>
          add_masters (cmdline +:+ " k3os.server_url=https://[" +:+ IP_String ip +:+ "]:6443") ips
      | None, None => Err (ErrMsg "invalid master IP")
      end
  end.

Definition quoted (s : string) : string := String quote (s +:+ String quote EmptyString).

Fixpoint add_authorized (cmdline : string) (keys : list string) : res string :=
  match keys with
  | [] => Ok cmdline
  | key :: keys =>
      let trimmed := TrimSpace key in
      if ContainsAny trimmed [quote; newline] then
        Err (ErrMsg "ssh keys shouldn't contain double quotes or intermediate new lines")
      else add_authorized (cmdline +:+ " ssh_authorized_keys=" +:+ quoted trimmed) keys
  end.

Definition install_cmdline (cfg : Kubernetes) : res string :=
  let start := "console=ttyS0 reboot=k panic=1 k3os.mode=install k3os.install.silent k3os.debug k3os.install.device=/dev/vda k3os.token="
    +:+ k8s_PlainClusterSecret cfg +:+ " k3os.k3s_args=" +:+ quoted "--flannel-iface=eth0" in
  match add_masters start (k8s_MasterIPs cfg) with
  | Ok cmdline =>
      match add_authorized cmdline (cfg_SSHKeys (k8s_VM cfg)) with
      | Ok cmdline =>
          let cmdline :=
            if (k8s_DatastoreEndpoint cfg =? "")%string then cmdline
            else cmdline +:+ " k3os.k3s_args=" +:+
                   quoted ("--datastore-endpoint=" +:+ k8s_DatastoreEndpoint cfg) in
          Ok (if k8s_DisableDefaultIngress cfg
              then cmdline +:+ " k3os.k3s_args=" +:+ quoted "--disable=traefik" else cmdline)
      | x => x
      end
  | x => x
  end.

(** ** Provisioning *)


Section vm.
  Context {W : Type} `{NetHash} `{MD5} `{VMSchemas} (d : Daemons W).

Definition pubIPResID (reservationID : Z) : string := FormatInt reservationID +:+ "-1".

Definition diskName (id : string) : string := id +:+ "-vda".

Definition ensureFList (url : string) : PM W string :=
  hash ← call (fl_FlistHash (flistd d) url);
  let name := "k8s:" +:+ hash in
  act_path (FlistNamedMount name url "" ReadOnlyMountOptions)
    (fl_NamedMount (flistd d) name url "" ReadOnlyMountOptions).

Definition constructImageInfo (imagePath : string) : PM W ImageInfo :=
  has_initrd ← try (call (sys_Stat (node d) (imagePath +:+ "/initrd")));
  let initrd := match has_initrd with inl _ => imagePath +:+ "/initrd" | inr _ => "" end in
  let kernel := imagePath +:+ "/kernel" in
  wrap "couldn't stat kernel" (call (sys_Stat (node d) kernel)) ;;
  let image := imagePath +:+ "/image.raw" in
  wrap "couldn't stat image.raw" (call (sys_Stat (node d) image)) ;;
  mret (MkImageInfo initrd kernel image).

(** The gateway of the first address of the farm that is reserved by [rid]; nil
    without one. *)
Definition public_gateway (rid : Z) (addresses : list (Z * IP)) : IP :=
  default [] (snd <$> head (filter (fun a => a.1 = rid) addresses)).

(** A workload of another kind is returned as the empty net without an error:
    [errors.Wrap] of a nil error is nil. *)
Definition getPubIPConfig (rid : Z) : PM W (IPNet * IP) :=
  wrap "could not create explorer client" (call (ex_Client (explorer d))) ;;
  ip ← wrap "could not load public ip reservation"
         (call (ex_NodeWorkloadGet (explorer d) (FormatInt rid +:+ "-1")));
  match ip with
  | None => mret (zeroIPNet, [])
  | Some ip =>
      self ← call (id_NodeID (identityd d));
      farm ← wrap "could not get our own node description" (call (ex_NodeGet (explorer d) self));
      addresses ← wrap "could not get our own farm" (call (ex_FarmGet (explorer d) farm));
      match public_gateway rid addresses with
      | [] => throw (ErrMsg "unable to identify public ip gateway")
      | gw => mret (ip, gw)
      end
  end.

(** 8.8.8.8, 1.1.1.1 and 2001:4860:4860::8888. *)
Definition nameservers : list IP :=
  [IPv4 8 8 8 8; IPv4 1 1 1 1; [32; 1; 72; 96; 72; 96; 0; 0; 0; 0; 0; 0; 0; 0; 136; 136]].

Definition public_iface (pubIface : string) (cfg : VMConfig) : PM W (list VMIface) :=
  if cfg_PublicIP cfg =? 0 then mret []
  else
    '(pubIP, pubGw) ← wrap "could not get public ip config" (getPubIPConfig (cfg_PublicIP cfg));
    let mac := HardwareAddrFromInputBytes (bytes_of (FormatInt (cfg_PublicIP cfg) +:+ "-1")) in
    mret [MkVMIface pubIface (hw_String mac) pubIP pubGw zeroIPNet zeroIPNet [] true].

Definition buildNetworkInfo (rversion : Z) (userID iface pubIface : string) (cfg : VMConfig) :
    PM W VMNetworkInfo :=
  let netID := NetworkID userID (cfg_NetworkID cfg) in
  subnet ← wrap "could not get network resource subnet" (call (nw_GetSubnet (networkd d) netID));
  if negb (net_Contains subnet (cfg_IP cfg)) then
    throw (ErrMsg ("IP " +:+ IP_String (cfg_IP cfg) +:+ " is not part of local nr subnet " +:+ net_String subnet))
  else
    privNet ← wrap "could not get network range" (call (nw_GetNet (networkd d) netID));
    '(gw4, gw6) ← wrap "could not get network resource default gateway"
                    (call (nw_GetDefaultGwIP (networkd d) netID));
    privIP6 ← wrap "could not convert private ipv4 to ipv6"
                (call (nw_GetIPv6From4 (networkd d) netID (cfg_IP cfg)));
    public ← public_iface pubIface cfg;
    mret (MkVMNetworkInfo
            (MkVMIface iface "" (MkIPNet (cfg_IP cfg) (net_Mask subnet)) gw4 privNet privIP6 gw6 false
               :: public)
            nameservers (2 <=? rversion)).

(** The disk of a machine, which is found or allocated, its tap devices, and
    what is done with them; [needsInstall] is whether the disk is new. *)
Definition with_disk {A} (name : string) (size : Z) (source : string)
    (body : bool -> string -> PM W A) : PM W A :=
  present ← call (vdk_Exists (vdiskd d) name);
  diskPath ← (if present : bool
              then wrap "could not get path to existing disk" (call (vdk_Inspect (vdiskd d) name))
              else wrap "failed to reserve filesystem for vm"
                     (act_path (DiskAllocate name (i64 size) source)
                        (vdk_Allocate (vdiskd d) name (i64 size) source)));
  on_error (ignore (act_ (DiskDeallocate name) (vdk_Deallocate (vdiskd d) name)))
    (body (negb present) diskPath).

Definition with_taps {A} (netID : string) (publicIP : Z) (body : string -> string -> PM W A) : PM W A :=
  iface ← wrap "could not set up tap device"
            (act_path (NetSetupTap netID) (nw_SetupTap (networkd d) netID));
  on_error (ignore (act_ (NetRemoveTap netID) (nw_RemoveTap (networkd d) netID)))
    (if publicIP =? 0 then body iface ""
     else
       let id := pubIPResID publicIP in
       pubIface ← wrap "could not set up tap device for public network"
                    (act_path (NetSetupPubTap id) (nw_SetupPubTap (networkd d) id));
       on_error (ignore (act_ (NetRemovePubTap id) (nw_RemovePubTap (networkd d) id)))
         (body iface pubIface)).

(** What both provisioners check before they take anything. *)
Definition check_network (netID : string) (publicIP : Z) : PM W unit :=
  present ← wrap "could not check if tap device exists" (call (nw_TapExists (networkd d) netID));
  if present : bool then throw (ErrMsg "another vm with same network already exists")
  else
    supported ← (if publicIP =? 0 then mret true else call (nw_PublicIPv4Support (networkd d)));
    if supported : bool then mret tt
    else throw (ErrMsg "public ipv4 is requested, but not supported on this node").

Definition vm_Run (vm : VMSpec) : PM W unit := act_ (VMRun vm) (vmm_Run (vmd d) vm).
Definition vm_Delete (name : string) : PM W unit := act_ (VMDelete name) (vmm_Delete (vmd d) name).

Definition vmRun (name : string) (cpu memory : Z) (diskPath : string) (image : ImageInfo)
    (cmdline : string) (net : VMNetworkInfo) : PM W unit :=
  vm_Run (MkVMSpec name cpu (i64 memory) net (img_Kernel image) (img_Initrd image) cmdline
            [MkVMDisk diskPath false false] false).

Definition vm_result (r : Reservation) (config : VMConfig) : VMResult :=
  MkVMResult (r_ID r) (IP_String (cfg_IP config)).

Definition virtualMachineProvisionImpl (r : Reservation) : PM W VMResult :=
  config ← wrap "failed to decode reservation schema" (lift (dec_VMConfig (r_Data r)));
  lift (VM_Validate config) ;;
  let netID := NetworkID (r_User r) (cfg_NetworkID config) in
  check_network netID (cfg_PublicIP config) ;;
  '(cpu, memory, disk) ← wrap "could not interpret vm size" (lift (vmSize (cfg_VM config)));
  running ← try (call (vmm_Inspect (vmd d) (r_ID r)));
  match running with
  | inl _ => mret (vm_result r config)
  | inr _ =>
      imagePath ← wrap "could not mount k3os flist"
        (ensureFList (VMREPO +:+ ToLower (cfg_Name config) +:+ "-" +:+ VMTAG +:+ ".flist"));
      image ← constructImageInfo imagePath;
      with_disk (diskName (FilesystemName r)) disk (img_ImagePath image) (fun _ diskPath =>
        with_taps netID (cfg_PublicIP config) (fun iface pubIface =>
          net ← wrap "could not generate network info"
                  (buildNetworkInfo (r_Version r) (r_User r) iface pubIface config);
          cmdline ← lift (constructCMDLine config);
          or_else (ignore (vm_Delete (r_ID r)))
            (vmRun (r_ID r) cpu memory diskPath image cmdline net) ;;
          mret (vm_result r config)))
  end.

(** Polls every three seconds; [polls] is how often the five minutes allow. *)
Fixpoint wait_installed (name : string) (polls : nat) : PM W unit :=
  present ← call (vmm_Exists (vmd d) name);
  if negb present then mret tt
  else
    match polls with
    | S polls => wait_installed name polls
    | O =>
        ignore (call (vmm_Logs (vmd d) name)) ;;
        ignore (vm_Delete name) ;;
        throw (ErrMsg "failed to install vm in 5 minutes")
    end.

Definition kubernetesInstall (polls : nat) (name : string) (cpu memory : Z)
    (diskPath imagePath : string) (net : VMNetworkInfo) (cfg : Kubernetes) : PM W unit :=
  cmdline ← lift (install_cmdline cfg);
  wrap "could not run vm"
    (vm_Run (MkVMSpec name cpu (i64 memory) net (imagePath +:+ "/k3os-vmlinux")
               (imagePath +:+ "/k3os-initrd-amd64") cmdline
               [MkVMDisk diskPath false false; MkVMDisk (imagePath +:+ "/k3os-amd64.iso") true false]
               true)) ;;
  wait_installed name polls ;;
  vm_Delete name.

Definition kubernetesRun (name : string) (cpu memory : Z) (diskPath imagePath : string)
    (net : VMNetworkInfo) : PM W unit :=
  vm_Run (MkVMSpec name cpu (i64 memory) net (imagePath +:+ "/k3os-vmlinux")
            (imagePath +:+ "/k3os-initrd-amd64") "console=ttyS0 reboot=k panic=1"
            [MkVMDisk diskPath false false] false).

Definition set_secret (secret : string) (k : Kubernetes) : Kubernetes :=
  MkKubernetes (k8s_VM k) (k8s_ClusterSecret k) (k8s_MasterIPs k) secret
    (k8s_DatastoreEndpoint k) (k8s_DisableDefaultIngress k).

Definition kubernetesProvisionImpl (polls : nat) (r : Reservation) : PM W VMResult :=
  config ← wrap "failed to decode reservation schema" (lift (dec_K8s (r_Data r)));
  secret ← wrap "failed to decrypt namespace password"
             (decryptSecret d (k8s_ClusterSecret config) (r_User r) (r_Version r));
  let config := set_secret secret config in
  let vmc := k8s_VM config in
  lift (K8s_Validate config) ;;
  let netID := NetworkID (r_User r) (cfg_NetworkID vmc) in
  check_network netID (cfg_PublicIP vmc) ;;
  '(cpu, memory, disk) ← wrap "could not interpret vm size" (lift (vmSize (cfg_VM vmc)));
  running ← try (call (vmm_Inspect (vmd d) (r_ID r)));
  match running with
  | inl _ => mret (vm_result r vmc)
  | inr _ =>
      imagePath ← wrap "could not mount k3os flist" (ensureFList k3osFlistURL);
      with_disk (diskName (FilesystemName r)) disk "" (fun needsInstall diskPath =>
        with_taps netID (cfg_PublicIP vmc) (fun iface pubIface =>
          net ← wrap "could not generate network info"
                  (buildNetworkInfo (r_Version r) (r_User r) iface pubIface vmc);
          (if needsInstall : bool
           then wrap "failed to install k3s"
                  (or_else (ignore (vm_Delete (r_ID r)))
                     (kubernetesInstall polls (r_ID r) cpu memory diskPath imagePath net config))
           else mret tt) ;;
          or_else (ignore (vm_Delete (r_ID r)))
            (kubernetesRun (r_ID r) cpu memory diskPath imagePath net) ;;
          mret (vm_result r vmc)))
  end.

(** ** Decommissioning, of both *)

Definition vmDecomission (r : Reservation) : PM W unit :=
  cfg ← wrap "failed to decode reservation schema" (lift (dec_VMConfig (r_Data r)));
  wrap ("failed to delete vm " +:+ r_ID r) (vm_Delete (r_ID r)) ;;
  let netID := NetworkID (r_User r) (cfg_NetworkID cfg) in
  wrap "could not clean up tap device" (act_ (NetRemoveTap netID) (nw_RemoveTap (networkd d) netID)) ;;
  (if cfg_PublicIP cfg =? 0 then mret tt
   else let id := pubIPResID (cfg_PublicIP cfg) in
        wrap "could not clean up public tap device"
          (act_ (NetRemovePubTap id) (nw_RemovePubTap (networkd d) id))) ;;
  wrap "could not remove vDisk"
    (act_ (DiskDeallocate (diskName (r_ID r))) (vdk_Deallocate (vdiskd d) (diskName (r_ID r)))).

End vm.

(** ** Resources *)

(** What a machine takes. *)
Definition vm_resources `{NetHash} (r : Reservation) (cfg : VMConfig) : resources :=
  {[RDisk (diskName (r_ID r)); RTap (NetworkID (r_User r) (cfg_NetworkID cfg)); RVM (r_ID r)]} ∪
  (if cfg_PublicIP cfg =? 0 then ∅ else {[RPubTap (pubIPResID (cfg_PublicIP cfg))]}).

Section vm_uses.
  Context {W : Type} `{NetHash} `{MD5} `{VMSchemas} (d : Daemons W).
  Implicit Types (P E : resources).

Lemma uses_with_disk {A : Type} P name size src (body : bool -> string -> PM W A) (Q : A -> resources) E :
  (forall b path, uses (P ∪ {[RDisk name]}) (body b path) Q (E ∪ {[RDisk name]})) ->
  P ⊆ E -> uses P (with_disk d name size src body) Q E.
Proof.
  intros Hb HE. unfold with_disk.
  apply uses_ask; [auto with zos_monad|done|intros b].
  apply uses_bind with (Q := fun _ => P ∪ {[RDisk name]}).
  - destruct b; apply uses_wrap.
    + apply uses_quiet; [auto with zos_monad|set_solver..].
    + apply uses_act; cbn; set_solver.
  - intros path. eapply uses_on_error; [apply Hb|].
    apply uses_ignore, uses_act; cbn; set_solver.
Qed.

Lemma uses_with_taps {A : Type} P net pub (body : string -> string -> PM W A) (Q : A -> resources) E :
  let T := {[RTap net]} ∪ (if pub =? 0 then ∅ else {[RPubTap (pubIPResID pub)]}) in
  (forall i j, uses (P ∪ T) (body i j) Q (E ∪ T)) -> P ⊆ E -> uses P (with_taps d net pub body) Q E.
Proof.
  intros T Hb HE. subst T. unfold with_taps.
  apply uses_bind with (Q := fun _ => P ∪ {[RTap net]}); [apply uses_wrap, uses_act; cbn; set_solver|].
  intros i. apply uses_on_error with (E' := E ∪ {[RTap net]});
    [|apply uses_ignore, uses_act; cbn; set_solver].
  destruct (pub =? 0).
  - eapply uses_weaken; [apply Hb|set_solver..].
  - apply uses_bind with (Q := fun _ => P ∪ {[RTap net]} ∪ {[RPubTap (pubIPResID pub)]});
      [apply uses_wrap, uses_act; cbn; set_solver|].
    intros j. apply uses_on_error with (E' := E ∪ {[RTap net]} ∪ {[RPubTap (pubIPResID pub)]});
      [|apply uses_ignore, uses_act; cbn; set_solver].
    eapply uses_weaken; [apply Hb|set_solver..].
Qed.

Lemma uses_run P E name (m : PM W unit) :
  uses P m (fun _ => P ∪ {[RVM name]}) (P ∪ {[RVM name]}) -> P ∖ {[RVM name]} ⊆ E ->
  uses P (or_else (ignore (vm_Delete d name)) m) (fun _ => P ∪ {[RVM name]}) E.
Proof.
  intros Hm HE. eapply uses_or_else; [exact Hm|]. apply uses_ignore, uses_act; cbn; set_solver.
Qed.

Lemma uses_vm_Run P vm : uses P (vm_Run d vm) (fun _ => P ∪ {[RVM (vs_Name vm)]}) (P ∪ {[RVM (vs_Name vm)]}).
Proof. apply uses_act; cbn; set_solver. Qed.

Lemma uses_ensureFList P url : uses P (ensureFList d url) (fun _ => P) P.
Proof.
  unfold ensureFList. apply uses_ask; [auto with zos_monad|done|intros hash]. apply uses_act; cbn; set_solver.
Qed.

Lemma quiet_constructImageInfo path : quiet (constructImageInfo d path).
Proof. unfold constructImageInfo. auto 10 with zos_monad. Qed.

Lemma quiet_check_network net pub : quiet (check_network d net pub).
Proof.
  unfold check_network. apply quiet_bind; [auto with zos_monad|]. intros []; [auto with zos_monad|].
  apply quiet_bind; [destruct (pub =? 0); auto with zos_monad|]. intros []; auto with zos_monad.
Qed.

Lemma quiet_getPubIPConfig rid : quiet (getPubIPConfig d rid).
Proof.
  unfold getPubIPConfig. apply quiet_bind; [auto with zos_monad|intros _].
  apply quiet_bind; [auto with zos_monad|intros [ip|]; [|auto with zos_monad]].
  do 3 (apply quiet_bind; [auto with zos_monad|intros ?]).
  destruct (public_gateway rid _); auto with zos_monad.
Qed.

Lemma quiet_public_iface i cfg : quiet (public_iface d i cfg).
Proof.
  unfold public_iface. destruct (cfg_PublicIP cfg =? 0); [auto with zos_monad|].
  apply quiet_bind; [apply quiet_wrap, quiet_getPubIPConfig|]. intros []. auto with zos_monad.
Qed.

Lemma quiet_buildNetworkInfo v u i j cfg : quiet (buildNetworkInfo d v u i j cfg).
Proof.
  unfold buildNetworkInfo. apply quiet_bind; [auto with zos_monad|intros subnet].
  destruct (negb _); [auto with zos_monad|].
  apply quiet_bind; [auto with zos_monad|intros ?]. apply quiet_bind; [auto with zos_monad|intros []].
  apply quiet_bind; [auto with zos_monad|intros ?].
  apply quiet_bind; [apply quiet_public_iface|]. auto with zos_monad.
Qed.

Lemma uses_wait_installed P name polls : uses P (wait_installed d name polls) (fun _ => P) P.
Proof.
  induction polls as [|polls IH]; cbn [wait_installed];
    (apply uses_ask; [auto with zos_monad|done|]); intros []; cbn [negb]; try (by apply uses_ret); [|exact IH].
  apply uses_ask; [auto with zos_monad|done|intros _].
  apply uses_bind with (Q := fun _ => P); [|intros _; by apply uses_throw].
  apply uses_ignore, uses_act; cbn; set_solver.
Qed.

Lemma uses_kubernetesInstall P polls name cpu mem disk image net cfg :
  uses P (kubernetesInstall d polls name cpu mem disk image net cfg)
    (fun _ => P ∪ {[RVM name]}) (P ∪ {[RVM name]}).
Proof.
  unfold kubernetesInstall.
  apply uses_ask; [auto with zos_monad|set_solver|intros line].
  apply uses_bind with (Q := fun _ => P ∪ {[RVM name]}); [apply uses_wrap, uses_vm_Run|intros _].
  apply uses_bind with (Q := fun _ => P ∪ {[RVM name]}); [apply uses_wait_installed|intros _].
  apply uses_act; cbn; set_solver.
Qed.

(** The two provisioners, with what they take. *)
Lemma uses_virtualMachine P r cfg : dec_VMConfig (r_Data r) = Ok cfg ->
  uses P (virtualMachineProvisionImpl d r) (fun _ => P ∪ vm_resources r cfg) P.
Proof.
  intros Hdec. unfold virtualMachineProvisionImpl. apply (uses_decoded _ _ _ cfg); [done|].
  apply uses_ask; [auto with zos_monad|done|intros _].
  apply uses_ask; [apply quiet_check_network|done|intros _].
  apply uses_ask; [auto with zos_monad|done|intros [[cpu mem] disk]].
  apply uses_ask; [auto with zos_monad|done|]. intros [_|_]; [apply uses_ret; set_solver|].
  apply uses_bind with (Q := fun _ => P); [apply uses_wrap, uses_ensureFList|intros path].
  apply uses_ask; [apply quiet_constructImageInfo|done|intros image].
  apply uses_with_disk; [|done]. intros b disk'. apply uses_with_taps; [|set_solver]. intros i j.
  apply uses_ask; [apply quiet_wrap, quiet_buildNetworkInfo|set_solver|intros net].
  apply uses_ask; [auto with zos_monad|set_solver|intros line].
  eapply uses_bind; [apply uses_run; [apply uses_vm_Run|set_solver]|intros ?].
  apply uses_ret. unfold vm_resources. set_solver.
Qed.

Lemma uses_kubernetes P polls r k :
  dec_K8s (r_Data r) = Ok k ->
  uses P (kubernetesProvisionImpl d polls r) (fun _ => P ∪ vm_resources r (k8s_VM k)) P.
Proof.
  intros Hdec. unfold kubernetesProvisionImpl. apply (uses_decoded _ _ _ k); [done|].
  apply uses_ask; [apply quiet_wrap, quiet_decryptSecret|done|intros secret].
  apply uses_ask; [auto with zos_monad|done|intros _].
  apply uses_ask; [apply quiet_check_network|done|intros _].
  apply uses_ask; [auto with zos_monad|done|intros [[cpu mem] disk]].
  apply uses_ask; [auto with zos_monad|done|]. intros [_|_]; [apply uses_ret; set_solver|].
  apply uses_bind with (Q := fun _ => P); [apply uses_wrap, uses_ensureFList|intros path].
  apply uses_with_disk; [|done]. intros b disk'. apply uses_with_taps; [|set_solver]. intros i j.
  apply uses_ask; [apply quiet_wrap, quiet_buildNetworkInfo|set_solver|intros net].
  match goal with |- uses ?S _ _ _ => apply uses_bind with (Q := fun _ => S ∪ {[RVM (r_ID r)]}) end.
  - destruct b; [|apply uses_ret, union_subseteq_l].
    apply uses_wrap, uses_run; [apply uses_kubernetesInstall|set_solver].
  - intros ?. eapply uses_bind; [apply uses_run; [apply uses_vm_Run|set_solver]|intros ?].
    apply uses_ret. unfold vm_resources. set_solver.
Qed.

Lemma uses_vmDecomission P r cfg E : dec_VMConfig (r_Data r) = Ok cfg ->
  P ∪ vm_resources r cfg ⊆ E ->
  uses (P ∪ vm_resources r cfg) (vmDecomission d r) (fun _ => P) E.
Proof.
  intros Hdec HE. unfold vmDecomission. apply (uses_decoded _ _ _ cfg); [done|].
  set (T := {[RTap (NetworkID (r_User r) (cfg_NetworkID cfg))]} : resources).
  set (D := {[RDisk (diskName (r_ID r))]} : resources).
  set (V := if cfg_PublicIP cfg =? 0 then ∅ else {[RPubTap (pubIPResID (cfg_PublicIP cfg))]} : resources).
  assert (Hr : vm_resources r cfg = D ∪ T ∪ {[RVM (r_ID r)]} ∪ V) by (subst; unfold vm_resources; set_solver).
  rewrite Hr in *.
  apply uses_bind with (Q := fun _ => P ∪ D ∪ T ∪ V); [apply uses_wrap, uses_act; cbn; set_solver|intros _].
  apply uses_bind with (Q := fun _ => P ∪ D ∪ V); [apply uses_wrap, uses_act; cbn; set_solver|intros _].
  apply uses_bind with (Q := fun _ => P ∪ D); [|intros _; apply uses_wrap, uses_act; cbn; set_solver].
  unfold V. destruct (cfg_PublicIP cfg =? 0); [apply uses_ret; set_solver|].
  apply uses_wrap, uses_act; cbn; set_solver.
Qed.

End vm_uses.

(** ** Properties *)

(** *** Runs that return *)

Section vm_runs.
  Context {W : Type} `{NetHash} `{MD5} `{VMSchemas} (d : Daemons W).

Lemma with_disk_Ok {A} name size src (body : bool -> string -> PM W A) s s' a :
  with_disk d name size src body s = (s', Ok a) ->
  exists b path s1 evs, body b path s1 = (s', Ok a) /\ p_log s1 = p_log s ++ evs /\
    evs = (if b : bool then [Ran (DiskAllocate name (i64 size) src) (inl path)] else []).
Proof.
  unfold with_disk. intros Hrun. ok_bind Hrun s1 b H1'. ok_bind Hrun s2 path H2'.
  apply on_error_Ok in Hrun. exists (negb b), path, s2.
  assert (Hq : p_log s1 = p_log s) by (eapply quiet_log, H1'; auto with zos_monad).
  destruct b; apply wrap_Ok in H2'; cbn [negb].
  - exists []. split_and!; [done| |done]. rewrite app_nil_r, <- Hq. eapply quiet_log, H2'.
    auto with zos_monad.
  - eexists. split_and!; [done| |done]. rewrite <- Hq. by apply act_Ok in H2'.
Qed.

Lemma with_taps_Ok {A} net pub (body : string -> string -> PM W A) s s' a :
  with_taps d net pub body s = (s', Ok a) ->
  exists i j s1 evs, body i j s1 = (s', Ok a) /\
    p_log s1 = p_log s ++ Ran (NetSetupTap net) (inl i) :: evs /\
    evs = (if pub =? 0 then [] else [Ran (NetSetupPubTap (pubIPResID pub)) (inl j)]).
Proof.
  unfold with_taps. intros Hrun. ok_bind Hrun s1 i H1'. apply wrap_Ok, act_Ok in H1'.
  apply on_error_Ok in Hrun. destruct (pub =? 0).
  - exists i, "", s1, []. by rewrite H1'.
  - ok_bind Hrun s2 j H2'. apply on_error_Ok in Hrun. apply wrap_Ok, act_Ok in H2'.
    exists i, j, s2. eexists. split_and!; [done| |done]. rewrite H2', H1', <- (assoc_L (++)). done.
Qed.

(** The first interface is the tap, with the address asked for, which is in the
    subnet. *)
Lemma buildNetworkInfo_Ok v u i j cfg s s' net : buildNetworkInfo d v u i j cfg s = (s', Ok net) ->
  exists face faces, vn_Ifaces net = face :: faces /\ if_Tap face = i /\ if_Public face = false /\
    net_IP (if_IP4AddressCIDR face) = cfg_IP cfg /\
    (if cfg_PublicIP cfg =? 0 then faces = []
     else exists p, faces = [p] /\ if_Tap p = j /\ if_Public p = true).
Proof.
  unfold buildNetworkInfo. intros Hrun. ok_bind Hrun s1 subnet H1'. destruct (negb _); [done|].
  ok_bind Hrun s2 priv H2'. ok_bind Hrun s3 gws H3'. destruct gws as [gw4 gw6].
  ok_bind Hrun s4 ip6 H4'. ok_bind Hrun s5 public H5'. injection Hrun as <- <-. cbn [vn_Ifaces].
  eexists _, _. split_and!; [done..|]. unfold public_iface in H5'.
  destruct (cfg_PublicIP cfg =? 0); [by injection H5' as <- <-|].
  ok_bind H5' s6 ips H6'. destruct ips as [ip gw]. injection H5' as <- <-. by eexists.
Qed.

End vm_runs.

(** *** Command lines *)

Lemma ContainsAny_app a b chars : ContainsAny (a +:+ b) chars = ContainsAny a chars || ContainsAny b chars.
Proof.
  induction a as [|c a IH]; [done|].
  change (String c a +:+ b) with (String c (a +:+ b)). cbn [ContainsAny]. by rewrite IH, orb_assoc.
Qed.

Lemma ContainsAny_replace a b s chars : existsb (Ascii.eqb b) chars = false ->
  ContainsAny s chars = false -> ContainsAny (replace_char a b s) chars = false.
Proof.
  intros Hb. induction s as [|c s IH]; [done|]. cbn [ContainsAny replace_char].
  intros [Hc Hs]%orb_false_elim. rewrite (IH Hs). destruct (Ascii.eqb c a); by rewrite ?Hb, ?Hc.
Qed.

Lemma ContainsAny_incl s chars chars' : (forall c, c ∈ chars' -> c ∈ chars) ->
  ContainsAny s chars = false -> ContainsAny s chars' = false.
Proof.
  intros Hc. induction s as [|a s IH]; [done|]. cbn [ContainsAny].
  intros [Ha Hs]%orb_false_elim. rewrite (IH Hs), orb_false_r.
  destruct (existsb (Ascii.eqb a) chars') eqn:E; [|done].
  apply existsb_exists in E as (c & Hin%list_elem_of_In & Heq).
  rewrite <- Ha. symmetry. apply existsb_exists. exists c. split; [by apply list_elem_of_In, Hc|done].
Qed.

Lemma replace_char_none a b s : Ascii.eqb b a = false -> split_first a (replace_char a b s) = None.
Proof.
  intros Hb. induction s as [|c s IH]; [done|]. cbn [replace_char split_first].
  destruct (Ascii.eqb c a) eqn:Hc; by rewrite ?Hb, ?Hc, IH.
Qed.

(** What becomes of an ssh key: one word. *)
Definition key_word (key : string) : string := "ssh=" +:+ replace_char space "," (TrimSpace key).

Lemma add_keys_spec keys : forall line,
  existsb (fun key => ContainsAny (TrimSpace key) [tab; carriage_return; newline; form_feed; quote]) keys = false ->
  ContainsAny line [tab; carriage_return; newline; form_feed; quote] = false ->
  exists line', add_keys line keys = Ok line' /\
    Split space line' = Split space line ++ (key_word <$> keys) /\
    ContainsAny line' [tab; carriage_return; newline; form_feed; quote] = false.
Proof.
  induction keys as [|key keys IH]; intros line Hk Hl; cbn [add_keys].
  { exists line. by rewrite app_nil_r. }
  cbn [existsb] in Hk. apply orb_false_elim in Hk as [Hkey Hk].
  rewrite (ContainsAny_incl _ [tab; carriage_return; newline; form_feed; quote]
    [tab; carriage_return; newline; form_feed] ltac:(set_solver) Hkey).
  change (" ssh=" +:+ replace_char space "," (TrimSpace key)) with (String space (key_word key)).
  destruct (IH (line +:+ String space (key_word key)) Hk) as (line' & Hrun & Hw & Hc).
  - rewrite ContainsAny_app, Hl. change (String space (key_word key))
      with (" ssh=" +:+ replace_char space "," (TrimSpace key)).
    rewrite ContainsAny_app, (ContainsAny_replace space "," (TrimSpace key)
      [tab; carriage_return; newline; form_feed; quote] (eq_refl _) Hkey). reflexivity.
  - exists line'. split_and!; [done| |done]. rewrite Hw, Split_snoc.
    + by rewrite <- (assoc_L (++)).
    + assert (Hn := replace_char_none space "," (TrimSpace key) (eq_refl _)).
      change (key_word key)
        with (String "s" (String "s" (String "h" (String "=" (replace_char space "," (TrimSpace key)))))).
      cbn [split_first]. by rewrite Hn.
Qed.

Section vm_properties.
  Context {W : Type} `{NetHash} `{MD5} `{VMSchemas} (d : Daemons W).

(** Failing gives back what was taken. *)
Lemma vm_failure_held polls r s s' e (R : resources) :
  virtualMachineProvisionImpl d r s = (s', Err e) \/
  kubernetesProvisionImpl d polls r s = (s', Err e) ->
  exists evs, p_log s' = p_log s ++ evs /\ held evs R ⊆ R.
Proof.
  intros [Hrun|Hrun].
  - destruct (dec_VMConfig (r_Data r)) as [cfg|e'|p] eqn:Hdec;
      [by eapply (uses_virtualMachine d R r cfg) in Hrun|..];
      unfold virtualMachineProvisionImpl in Hrun; rewrite Hdec in Hrun; inversion Hrun; subst;
      exists []; by rewrite app_nil_r.
  - destruct (dec_K8s (r_Data r)) as [k|e'|p] eqn:Hdec;
      [by eapply (uses_kubernetes d R polls r k) in Hrun|..];
      unfold kubernetesProvisionImpl in Hrun; rewrite Hdec in Hrun; inversion Hrun; subst;
      exists []; by rewrite app_nil_r.
Qed.

(** When a machine or a kubernetes node cannot be provisioned, for
    whatever reason and at whatever step, everything that was taken for it has
    been given back: of its disk, its tap devices and its machine nothing is held
    that was not held before. *)
Theorem vm_failure_gives_back polls r s s' e (R : resources) :
  virtualMachineProvisionImpl d r s = (s', Err e) \/
  kubernetesProvisionImpl d polls r s = (s', Err e) ->
  exists evs, p_log s' = p_log s ++ evs /\ held evs R ⊆ R.
Proof. exact (vm_failure_held polls r s s' e R). Qed.

(** C13 (roundtrip): provisioning a machine or a kubernetes node and then
    decommissioning the same reservation gives back all that it took: the two
    name the same disk, taps and machine. *)
Theorem vm_decommission_gives_back polls r s s1 s2 x (R : resources) :
  virtualMachineProvisionImpl d r s = (s1, Ok x) \/ kubernetesProvisionImpl d polls r s = (s1, Ok x) ->
  vmDecomission d r s1 = (s2, Ok tt) ->
  exists evs, p_log s2 = p_log s ++ evs /\ held evs R ⊆ R.
Proof.
  intros Hrun Hdec.
  assert (Hup : exists cfg evs, dec_VMConfig (r_Data r) = Ok cfg /\ p_log s1 = p_log s ++ evs /\
    held evs R ⊆ R ∪ vm_resources r cfg).
  { destruct Hrun as [Hrun|Hrun].
    - destruct (dec_VMConfig (r_Data r)) as [cfg|e'|p] eqn:Hd;
        [|unfold virtualMachineProvisionImpl in Hrun; by rewrite Hd in Hrun..].
      destruct (uses_virtualMachine d R r cfg Hd _ _ _ Hrun) as (evs & Hl & Hh). eauto.
    - destruct (dec_K8s (r_Data r)) as [k|e'|p] eqn:Hd;
        [|unfold kubernetesProvisionImpl in Hrun; by rewrite Hd in Hrun..].
      destruct (uses_kubernetes d R polls r k Hd _ _ _ Hrun) as (evs & Hl & Hh).
      exists (k8s_VM k), evs. split; [by apply dec_K8s_VM|done]. }
  destruct Hup as (cfg & evs & Hcfg & Hl & Hh).
  destruct (uses_vmDecomission d R r cfg _ Hcfg (reflexivity _) _ _ _ Hdec) as (evs' & Hl' & Hh').
  exists (evs ++ evs'). rewrite Hl', Hl, held_app. split; [by rewrite (assoc_L (++))|].
  etrans; [apply held_mono, Hh|exact Hh'].
Qed.

(** A machine that is provisioned either runs already, and then
    nothing is asked for, or is started once, as the last of all requests: with the cpus
    and the memory of its size, on the disk of that size that was found or
    allocated, behind the taps that were set up for its network and, if asked
    for, its public address, and with the ssh keys on its command line. *)
Theorem virtualMachineProvision_runs r cfg s s' x :
  dec_VMConfig (r_Data r) = Ok cfg -> virtualMachineProvisionImpl d r s = (s', Ok x) ->
  VM_Validate cfg = Ok tt /\ x = vm_result r cfg /\
  (p_log s' = p_log s \/
   exists cpu mem disk image flist new path tap pub net line,
     vmSize (cfg_VM cfg) = Ok (cpu, mem, disk) /\ constructCMDLine cfg = Ok line /\
     p_log s' = p_log s ++ [flist] ++
       (if new : bool
        then [Ran (DiskAllocate (diskName (r_ID r)) (i64 disk) (img_ImagePath image)) (inl path)] else []) ++
       [Ran (NetSetupTap (NetworkID (r_User r) (cfg_NetworkID cfg))) (inl tap)] ++
       (if cfg_PublicIP cfg =? 0 then []
        else [Ran (NetSetupPubTap (pubIPResID (cfg_PublicIP cfg))) (inl pub)]) ++
       [Ran (VMRun (MkVMSpec (r_ID r) cpu (i64 mem) net (img_Kernel image) (img_Initrd image) line
               [MkVMDisk path false false] false)) (inl "")] /\
     exists face faces, vn_Ifaces net = face :: faces /\ if_Tap face = tap /\ if_Public face = false /\
       net_IP (if_IP4AddressCIDR face) = cfg_IP cfg /\
       (if cfg_PublicIP cfg =? 0 then faces = []
        else exists p, faces = [p] /\ if_Tap p = pub /\ if_Public p = true)).
Proof.
  intros Hdec. unfold virtualMachineProvisionImpl. rewrite Hdec. intros Hrun.
  ok_bind Hrun s1 c H1'. injection H1' as <- <-.
  ok_bind Hrun s2 u H2'. destruct (VM_Validate cfg) as [[]|?|?] eqn:Hv; try done. injection H2' as <- <-.
  ok_bind Hrun s3 u3 H3'. apply quiet_log in H3'; [|apply quiet_check_network].
  ok_bind Hrun s4 sz H4'. destruct (vmSize (cfg_VM cfg)) as [[[cpu mem] disk]|?|?]; try done.
  injection H4' as <- <-.
  ok_bind Hrun s5 run H5'. apply quiet_log in H5'; [|auto with zos_monad].
  rewrite <- H3', <- H5'. clear H3' H5'. destruct run as [_|_].
  { injection Hrun as <- <-. by auto. }
  ok_bind Hrun s6 path H6'. apply wrap_Ok in H6'. unfold ensureFList in H6'.
  ok_bind H6' s7 hash H7'. apply quiet_log in H7'; [|auto with zos_monad]. apply act_Ok in H6'.
  ok_bind Hrun s8 image H8'. apply quiet_log in H8'; [|apply quiet_constructImageInfo].
  apply with_disk_Ok in Hrun as (new & dpath & s9 & evs & Hrun & H9' & Hevs).
  apply with_taps_Ok in Hrun as (tap & pub & s10 & evs' & Hrun & H10' & Hevs').
  ok_bind Hrun s11 net H11'. apply wrap_Ok in H11'. pose proof (buildNetworkInfo_Ok _ _ _ _ _ _ _ _ _ H11') as Hnet.
  apply quiet_log in H11'; [|apply quiet_buildNetworkInfo].
  ok_bind Hrun s12 line H12'. destruct (constructCMDLine cfg) as [l|?|?] eqn:Hline; try done.
  injection H12' as <- <-.
  ok_bind Hrun s13 u13 H13'. injection Hrun as <- <-. apply or_else_Ok, act_Ok in H13'.
  split_and!; [done..|]. right. eexists _, _, _, _, _, _, _, _, _, _, _.
  split_and!; [done..| |exact Hnet].
  rewrite H13', H11', H10', H9', H8', H6', H7', Hevs, Hevs', <- !(assoc_L (++)). done.
Qed.

End vm_properties.

(** The ssh keys of a machine that passes validation cannot bring other
    parameters onto the command line of its kernel: the line is made, its words,
    between spaces, are the five fixed ones and one for each key, and it has none
    of the other white space that validation looks for and no quote. *)
Theorem constructCMDLine_words cfg : VM_Validate cfg = Ok tt ->
  exists line, constructCMDLine cfg = Ok line /\
    Split space line = ["root=/dev/vda"; "rw"; "console=ttyS0"; "reboot=k"; "panic=1"] ++
      ((fun key => "ssh=" +:+ replace_char space "," (TrimSpace key)) <$> cfg_SSHKeys cfg) /\
    ContainsAny line [tab; carriage_return; newline; form_feed; quote] = false.
Proof.
  unfold VM_Validate. destruct (negb (matches_name _)); [done|]. destruct (negb (valid_IP _)); [done|].
  destruct (_ && _); [done|]. unfold check_keys. destruct (existsb _ _) eqn:E; [done|]. intros _.
  apply (add_keys_spec _ "root=/dev/vda rw console=ttyS0 reboot=k panic=1" E). reflexivity.
Qed.

(** ** Deviations *)

Section vm_deviations.
  Context {W : Type} `{NetHash} `{MD5} `{VMSchemas} (d : Daemons W).

(** A machine that runs has a tap device, and that is looked at first: provisioning
    it again is an error, although the code goes on to ask whether the machine
    runs already. *)
Lemma running_machine_refused r cfg s w :
  dec_VMConfig (r_Data r) = Ok cfg -> VM_Validate cfg = Ok tt ->
  nw_TapExists (networkd d) (NetworkID (r_User r) (cfg_NetworkID cfg)) (p_world s) = (w, Ok true) ->
  virtualMachineProvisionImpl d r s =
    (MkP w (p_log s) (p_err s), Err (ErrMsg "another vm with same network already exists")).
Proof.
  intros Hdec Hv Htap. unfold virtualMachineProvisionImpl. rewrite Hdec.
  unfold check_network, call, wrap, lift, mbind, M_bind. by rewrite Hv, Htap.
Qed.

(** A workload of another kind is taken for a public address: the machine gets an
    interface without address or gateway, and no error is returned. *)
Lemma other_workload_accepted rid s w1 w2 :
  ex_Client (explorer d) (p_world s) = (w1, Ok tt) ->
  ex_NodeWorkloadGet (explorer d) (FormatInt rid +:+ "-1") w1 = (w2, Ok None) ->
  getPubIPConfig d rid s = (MkP w2 (p_log s) (p_err s), Ok (zeroIPNet, [])).
Proof.
  intros Hc Hw. unfold getPubIPConfig, call, wrap, mbind, M_bind.
  rewrite Hc. cbn [p_world p_log p_err]. by rewrite Hw.
Qed.

End vm_deviations.

(** ** The definitions at work *)
Module VmDemo.

Definition cfg : VMConfig :=
  MkVMConfig (MkVM 3 (MkCustom 0 (MkF64 0 0) (MkF64 0 0))) "net" [10; 1; 2; 3]
    ["  ssh-rsa AAAA me@home "] 7 "ubuntu".

Definition k8s (endpoint : string) : Kubernetes := MkKubernetes cfg "" [] "" endpoint false.

#[export] Instance schemas : VMSchemas.
Proof.
  refine {| dec_VMConfig _ := Ok cfg; dec_K8s s := Ok (k8s s) |}. by intros s k [= <-].
Defined.

#[export] Instance hash : NetHash := fun s => s.

Definition r : Reservation := demo_reservation "12-1" VirtualMachineReservation "".

Import BusDemo.

(** A machine that starts. *)
Definition fresh : list string := ["Exists"; "TapExists"; "vm.Inspect"; "vm.Exists"].

Definition run (fail : list string) : PState unit * res VMResult :=
  virtualMachineProvisionImpl (daemons (failing fail)) r start.

Example fresh_machine : length (p_log (fst (run fresh))) = 5%nat /\ snd (run fresh) = Ok (MkVMResult "12-1" "10.1.2.3").
Proof. vm_compute. by split. Qed.

Example masters_cmdline : install_cmdline (MkKubernetes cfg "" [[10; 1; 2; 9]] "secret" "" true) =
  Ok ("console=ttyS0 reboot=k panic=1 k3os.mode=install k3os.install.silent k3os.debug k3os.install.device=/dev/vda k3os.token=secret k3os.k3s_args="
    +:+ quoted "--flannel-iface=eth0" +:+ " k3os.server_url=https://10.1.2.9:6443 ssh_authorized_keys="
    +:+ quoted "ssh-rsa AAAA me@home" +:+ " k3os.k3s_args=" +:+ quoted "--disable=traefik").
Proof. vm_compute. reflexivity. Qed.

(** The endpoint of the datastore is not validated: a quote in it ends the
    argument it stands in, and what follows are other parameters of the kernel. *)
Example datastore_endpoint_injects :
  let endpoint := "x" +:+ String quote " init=/bin/sh " in
  K8s_Validate (k8s endpoint) = Ok tt /\
  exists line, install_cmdline (k8s endpoint) = Ok line /\ In "init=/bin/sh" (Split space line).
Proof.
  split; [vm_compute; reflexivity|]. eexists. split; [reflexivity|]. vm_compute.
  repeat first [left; reflexivity | right].
Qed.

(** Validation does not look for a vertical tab, which is white space to the
    kernel. *)
Example vertical_tab_passes :
  VM_Validate (MkVMConfig (cfg_VM cfg) "net" [10; 1; 2; 3] ["a" +:+ String "011" "init=/bin/sh"] 0 "") = Ok tt.
Proof. vm_compute. reflexivity. Qed.

Lemma vm_failure_gives_back_witness :
  exists evs, p_log (fst (run ("vm.Run" :: fresh))) = [] ++ evs /\ held evs ∅ ⊆ ∅.
Proof.
  eapply (vm_failure_gives_back (daemons (failing ("vm.Run" :: fresh))) 0 r start).
  left. vm_compute. reflexivity.
Defined.

Lemma vm_decommission_gives_back_witness :
  exists evs, p_log (fst (vmDecomission (daemons (failing fresh)) r (fst (run fresh)))) = [] ++ evs /\
    held evs ∅ ⊆ ∅.
Proof.
  eapply (vm_decommission_gives_back (daemons (failing fresh)) 0 r start).
  - left. vm_compute. reflexivity.
  - vm_compute. reflexivity.
Defined.

Lemma virtualMachineProvision_runs_witness :
  VM_Validate cfg = Ok tt /\ MkVMResult "12-1" "10.1.2.3" = vm_result r cfg /\
  (p_log (fst (run fresh)) = [] \/ exists vm, last (p_log (fst (run fresh))) = Some (Ran (VMRun vm) (inl ""))).
Proof.
  destruct (virtualMachineProvision_runs (daemons (failing fresh)) r cfg start (fst (run fresh))
    (MkVMResult "12-1" "10.1.2.3")) as (Hv & Hx & Hl); [reflexivity|vm_compute; reflexivity|].
  split; [exact Hv|]. split; [exact Hx|]. right. eexists. vm_compute. reflexivity.
Defined.

Lemma constructCMDLine_words_witness :
  exists line, constructCMDLine cfg = Ok line /\
    Split space line = ["root=/dev/vda"; "rw"; "console=ttyS0"; "reboot=k"; "panic=1"; "ssh=ssh-rsa,AAAA,me@home"].
Proof.
  destruct (constructCMDLine_words cfg (eq_refl _)) as (line & Hrun & Hw & _).
  exists line. split; [exact Hrun|]. rewrite Hw. vm_compute. reflexivity.
Defined.

End VmDemo.
