(* ===== verification/ZdbPrim.v ===== *)
(** 0-db namespaces as workloads: src/pkg/provision/primitives/zdb.go.

    A namespace lives in a 0-db that runs in a container of its own on a volume;
    several namespaces share a volume. Provisioning allocates the storage, makes
    sure that the container of the volume runs, and configures the namespace in
    it. [upgradeRunningZdb] restarts the containers that run an old version. *)

From stdpp Require Import gmap strings list.
From Stdlib Require Import Ascii ZArith Lia.
From S2P Require Import Prelude Reservation Counters NetIP Storage Disk Bus.

Open Scope Z_scope.
Open Scope go_scope.

Definition zdbFlistURL : string :=
  "https://hub.grid.tf/tf-autobuilder/threefoldtech-0-db-release-development-c81c68391d.flist".
Definition zdbContainerNS : string := "zdb".
Definition zdbPort : Z := 9900.
Definition ZDBIface : string := "zdb0".

(** [ips] as they are printed. *)
Record ZDBResult := MkZDBResult { zr_Namespace : string; zr_IPs : list string; zr_Port : Z }.

Definition isPublic (ip : IP) : bool :=
  match To4 ip with
  | Some _ => false
  | None =>
      negb (IsLoopback ip || IsLinkLocalUnicast ip || IsLinkLocalMulticast ip ||
            IsInterfaceLocalMulticast ip)
  end.

(** 200::/7. *)
Definition yggNet : IPNet := MkIPNet (2 :: replicate 15 0) (254 :: replicate 15 0).

Definition isYgg (ip : IP) : bool := net_Contains yggNet ip.

Definition socketDir (containerID : string) : string := "/var/run/zdb_" +:+ containerID.
Definition socketFile (containerID : string) : string := Join (socketDir containerID) "zdb.sock".

Definition not_found (e : error) : bool := Contains (Error e) "not found".

Section zdb.
  Context {W : Type} `{Decoders} `{MD5} (d : Daemons W).

(** Of each address: whether it is a public or a yggdrasil one, and those that
    are one of the two. *)
Definition zdb_addresses (ips : list IP) : bool * bool * list IP :=
  (existsb (fun ip => isPublic ip && negb (isYgg ip)) ips, existsb isYgg ips,
   filter (fun ip => isPublic ip && negb (isYgg ip) || isYgg ip = true) ips).

(** One round of [getIP]: the addresses found so far are kept when [Addrs]
    fails. *)
Fixpoint wait_addresses (retries : nat) (namespace : string) (sofar : list IP) : PM W (list IP) :=
  got ← try (call (nw_Addrs (networkd d) ZDBIface namespace));
  let '(done_, found, err) :=
    match got with
    | inl ips =>
        let '(public, ygg, found) := zdb_addresses ips in
        (public && ygg, found, ErrMsg "waiting for more addresses")
    | inr e => (false, sofar, e)
    end in
  if done_ : bool then mret found
  else
    match retries with
    | S n => wait_addresses n namespace found
    | O =>
        match found with
        | [] => throw (ErrWrap ("failed to get an IP for interface " +:+ ZDBIface) err)
        | _ => mret found
        end
    end.

Definition waitZDBIPs (retries : nat) (namespace : string) : PM W (list IP) :=
  wait_addresses retries namespace [].

Definition zdb_mount_options (t : DeviceType) : MountOptions := MkMountOptions false 10 t.

(** On a hard disk, else on an ssd. *)
Fixpoint zdb_rootfs_on (types : list DeviceType) (err : error) : PM W string :=
  match types with
  | [] => throw (ErrWrap "failed to allocate rootfs for zdb container" err)
  | t :: types =>
      got ← try (act_path (FlistMount zdbFlistURL "" (zdb_mount_options t))
                   (fl_Mount (flistd d) zdbFlistURL "" (zdb_mount_options t)));
      match got with
      | inl rootFS => mret rootFS
      | inr e => zdb_rootfs_on types e
      end
  end.

Definition zdbRootFS : PM W string := zdb_rootfs_on [HDDDevice; SSDDevice] (ErrMsg "").

Definition umount (path : string) : PM W unit := act_ (FlistUmount path) (fl_Umount (flistd d) path).

Definition container_delete (ns id : string) : PM W unit :=
  act_ (ContainerDelete ns id) (cm_Delete (contd d) ns id).

Definition zdb_container (name rootfs cmd netns volumepath socketdir : string) : ContainerSpec :=
  MkContainerSpec name rootfs [] "" netns
    [MkMountInfo volumepath "/data"; MkMountInfo socketdir "/socket"] cmd false 0 0 [] [] false.

Definition zdbRun (name rootfs cmd netns volumepath socketdir : string) : PM W unit :=
  let c := zdb_container name rootfs cmd netns volumepath socketdir in
  act_path (ContainerRun zdbContainerNS c) (cm_Run (contd d) zdbContainerNS c) ;;
  mret tt.

Definition zdb_cmd (mode volumeID : string) : string :=
  "/bin/zdb --data /data --index /data --mode " +:+ mode +:+ "  --listen :: --port " +:+
  Itoa zdbPort +:+ " --socket /socket/zdb.sock --dualnet --admin " +:+ volumeID +:+ " --protect".

Definition connect (name : string) : PM W unit := call (zc_Connect (zdbs d) name).

(** From the check for an instance that runs already; the clean-up is called on
    the errors after the container was asked for. *)
Definition zdb_cleanup (name rootFS : string) : PM W unit :=
  ignore (container_delete zdbContainerNS name) ;; ignore (umount rootFS).

Definition start_zdb (retries : nat) (allocation : Allocation) (mode rootFS netNsName : string) : PM W unit :=
  let name := VolumeID allocation in
  running ← try (connect name);
  match running with
  | inl _ => mret tt
  | inr _ =>
      removed ← try (act_ (RemoveFile (socketFile name)) (sys_Remove (node d) (socketFile name)));
      match removed with
      | inr e => if IsNotExist e then mret tt else throw e
      | inl _ => mret tt
      end ;;
      wrap "failed to create container"
        (or_else (zdb_cleanup name rootFS)
           (zdbRun name rootFS (zdb_cmd mode (VolumeID allocation)) netNsName (VolumePath allocation)
              (socketDir name))) ;;
      wrap "failed to establish connection to zdb"
        (or_else (zdb_cleanup name rootFS) (retry retries (connect name)))
  end.

Definition createZdbContainer (retries : nat) (allocation : Allocation) (mode : string) : PM W unit :=
  let name := VolumeID allocation in
  let hw := HardwareAddrFromInputBytes (bytes_of (VolumeID allocation)) in
  rootFS ← zdbRootFS;
  netNsName ← wrap "failed to prepare zdb network"
                (or_else (ignore (umount rootFS))
                   (act_path (NetZDBPrepare hw) (nw_ZDBPrepare (networkd d) hw)));
  made ← try (act_ (Mkdir (socketDir name)) (sys_MkdirAll (node d) (socketDir name)));
  match made with
  | inr e =>
      if IsExist e then mret tt
      else throw (ErrWrap ("failed to create directory: " +:+ socketDir name) e)
  | inl _ => mret tt
  end ;;
  start_zdb retries allocation mode rootFS netNsName.

Definition inspect_zdb (name : string) : PM W ContainerSpec :=
  call (cm_Inspect (contd d) zdbContainerNS name).

Definition ensureZdbContainer (retries : nat) (allocation : Allocation) (mode : string) :
    PM W ContainerSpec :=
  found ← try (inspect_zdb (VolumeID allocation));
  match found with
  | inl cont => mret cont
  | inr e =>
      if not_found e then
        createZdbContainer retries allocation mode ;;
        inspect_zdb (VolumeID allocation)
      else throw e
  end.

(** ** The namespace in the 0-db *)

Definition createZDBNamespace (containerID nsID : string) (config : ZDB) (password : string) : PM W unit :=
  wrap ("failed to connect to 0-db: " +:+ containerID) (connect containerID) ;;
  present ← call (zc_Exist (zdbs d) containerID nsID);
  (if present : bool then mret tt
   else wrap ("failed to create namespace in 0-db: " +:+ containerID)
          (act_ (ZdbCreateNamespace containerID nsID)
             (zc_CreateNamespace (zdbs d) containerID nsID))) ;;
  (if (password =? "")%string then mret tt
   else wrap ("failed to set password namespace " +:+ nsID +:+ " in 0-db: " +:+ containerID)
          (act_ (ZdbSetPassword containerID nsID password)
             (zc_SetPassword (zdbs d) containerID nsID password))) ;;
  wrap ("failed to make namespace " +:+ nsID +:+ " public in 0-db: " +:+ containerID)
    (act_ (ZdbSetPublic containerID nsID (zdb_Public config))
       (zc_SetPublic (zdbs d) containerID nsID (zdb_Public config))) ;;
  wrap ("failed to set size on namespace " +:+ nsID +:+ " in 0-db: " +:+ containerID)
    (act_ (ZdbSetSize containerID nsID (zdb_Size config *u gib))
       (zc_SetSize (zdbs d) containerID nsID (zdb_Size config *u gib))).

Definition zdbProvisionImpl (retries : nat) (r : Reservation) : PM W ZDBResult :=
  let nsID := r_ID r in
  config ← wrap "failed to decode reservation schema" (lift (dec_ZDB (r_Data r)));
  password ← wrap "failed to decrypt namespace password"
               (decryptSecret d (zdb_Password config) (r_User r) (r_Version r));
  allocation ← wrap "failed to allocate storage"
    (act VolumeID (ZDBAllocate nsID (zdb_DiskType config) (zdb_Size config *u gib) (zdb_Mode config))
       (sm_Allocate (storaged d) nsID (zdb_DiskType config) (zdb_Size config *u gib) (zdb_Mode config)));
  cont ← wrap "failed to ensure zdb containe running"
           (ensureZdbContainer retries allocation (zdb_Mode config));
  containerIPs ← wrap "failed to find IP address on zdb0 interface"
                   (waitZDBIPs retries (ct_Namespace cont));
  wrap "failed to create zdb namespace"
    (createZDBNamespace (VolumeID allocation) nsID config password) ;;
  mret (MkZDBResult nsID (IP_String <$> containerIPs) zdbPort).

(** [common.DeleteZdbContainer]. *)
Definition deleteZdbContainer (containerID : string) : PM W unit :=
  found ← try (inspect_zdb containerID);
  match found with
  | inr e =>
      if not_found e then mret tt
      else throw (ErrWrap ("failed to inspect container '" +:+ containerID +:+ "'") e)
  | inl info =>
      wrap ("failed to delete container " +:+ containerID) (container_delete zdbContainerNS containerID) ;;
      wrap "failed to destroy zdb network namespace"
        (act_ (NetZDBDestroy (ct_Namespace info)) (nw_ZDBDestroy (networkd d) (ct_Namespace info))) ;;
      wrap ("failed to unmount flist at " +:+ ct_RootFS info) (umount (ct_RootFS info))
  end.

Definition zdbDecommission (retries : nat) (r : Reservation) : PM W unit :=
  let nsID := r_ID r in
  config ← wrap "failed to decode reservation schema" (lift (dec_ZDB (r_Data r)));
  found ← try (call (sm_Find (storaged d) nsID));
  match found with
  | inr e => if not_found e then mret tt else throw e
  | inl allocation =>
      wrap "failed to find namespace zdb container"
        (ensureZdbContainer retries allocation (zdb_Mode config)) ;;
      let containerID := VolumeID allocation in
      wrap ("failed to connect to 0-db: " +:+ containerID) (connect containerID) ;;
      wrap ("failed to delete namespace in 0-db: " +:+ containerID)
        (act_ (ZdbDeleteNamespace containerID nsID) (zc_DeleteNamespace (zdbs d) containerID nsID)) ;;
      ns ← wrap "failed to retrieve zdb namespaces" (call (zc_Namespaces (zdbs d) containerID));
      if decide (ns = ["default"]) then
        wrap "failed to decommission zdb container" (deleteZdbContainer containerID) ;;
        act_ (ReleaseFilesystem containerID) (sm_ReleaseFilesystem (storaged d) containerID)
      else mret tt
  end.
(** ** Upgrades of running instances *)

(** The source of the last mount with a target; "" without one. *)
Definition mount_source (target : string) (mounts : list MountInfo) : string :=
  foldl (fun found m => if (mi_Target m =? target)%string then mi_Source m else found) "" mounts.

(** One container: an error leads to the next one. *)
Definition upgrade_zdb (expected c : string) : PM W unit :=
  if (c =? "")%string then mret tt
  else
    inspected ← try (inspect_zdb c);
    match inspected with
    | inr _ => mret tt
    | inl info =>
        got ← try (call (fl_HashFromRootPath (flistd d) (ct_RootFS info)));
        match got with
        | inr _ => mret tt
        | inl hash =>
            if (expected =? hash)%string then mret tt
            else
              let volumepath := mount_source "/data" (ct_Mounts info) in
              let socketdir := mount_source "/socket" (ct_Mounts info) in
              if (volumepath =? "")%string then mret tt
              else
                stopped ← try (container_delete zdbContainerNS c);
                match stopped with
                | inr _ => mret tt
                | inl _ =>
                    ignore (umount (ct_RootFS info)) ;;
                    mounted ← try zdbRootFS;
                    match mounted with
                    | inr _ => mret tt
                    | inl rootfs =>
                        started ← try (zdbRun (ct_Name info) rootfs (ct_Entrypoint info)
                                         (ct_Namespace info) volumepath socketdir);
                        match started with
                        | inr _ => ignore (umount rootfs)
                        | inl _ => mret tt
                        end
                    end
                end
        end
    end.

Definition upgradeRunningZdb : PM W unit :=
  containers ← call (cm_List (contd d) zdbContainerNS);
  expected ← call (fl_FlistHash (flistd d) zdbFlistURL);
  for_each (upgrade_zdb expected) containers.

End zdb.

(** ** Lemmas *)

Section zdb_lemmas.
  Context {W : Type} `{Decoders} `{MD5} (d : Daemons W).

Definition is_mount (ev : event) : Prop :=
  exists t, ev_op ev = FlistMount zdbFlistURL "" (zdb_mount_options t).

Definition failed (ev : event) : Prop := exists e, ev_out ev = inr e.

(** The mounts that were tried; the last one gave the root file system. *)
Lemma zdb_rootfs_run types : forall err s s' x, zdb_rootfs_on d types err s = (s', x) ->
  exists evs, p_log s' = p_log s ++ evs /\ Forall is_mount evs /\
    (forall path, x = Ok path -> exists tried t, Forall failed tried /\ evs = tried ++
       [Ran (FlistMount zdbFlistURL "" (zdb_mount_options t)) (inl path)]) /\
    (forall e, x = Err e -> Forall failed evs).
Proof.
  induction types as [|t types IH]; intros err s s' x; cbn [zdb_rootfs_on].
  { intros [= <- <-]. exists []. rewrite app_nil_r. by repeat split. }
  unfold try, act_path, act, mbind, M_bind.
  destruct (fl_Mount (flistd d) zdbFlistURL "" (zdb_mount_options t) (p_world s)) as [w [path|e|p]].
  - intros [= <- <-]. cbn. eexists. split; [done|]. split; [constructor; [by eexists|done]|].
    split; [|done]. intros p [= <-]. exists [], t. by repeat constructor.
  - intros Hrun. destruct (IH e _ _ _ Hrun) as (evs & Hl & Hm & Hok & Herr). cbn in Hl.
    exists (Ran (FlistMount zdbFlistURL "" (zdb_mount_options t)) (inr e) :: evs). split_and!.
    + by rewrite Hl, <- (assoc_L (++)).
    + constructor; [by eexists|done].
    + intros path Hx. destruct (Hok path Hx) as (tried & t' & Hf & ->). eexists (_ :: tried), t'.
      split; [|done]. constructor; [by eexists|done].
    + intros e' Hx. constructor; [by eexists|by eapply Herr].
  - intros [= <- <-]. exists []. cbn. rewrite app_nil_r. by repeat split.
Qed.

(** *** What happens to one container during an upgrade *)

(** What is mounted on a target: the source of the last mount there, or nothing. *)
Inductive mounted_at (target : string) (mounts : list MountInfo) : string -> Prop :=
| mounted_last l m l' : mounts = l ++ m :: l' -> mi_Target m = target ->
    Forall (fun m' => mi_Target m' <> target) l' -> mounted_at target mounts (mi_Source m)
| mounted_none : Forall (fun m => mi_Target m <> target) mounts -> mounted_at target mounts "".

Lemma mount_source_at target mounts : mounted_at target mounts (mount_source target mounts).
Proof.
  induction mounts as [|m mounts IH] using rev_ind; [by apply mounted_none|].
  unfold mount_source. rewrite foldl_snoc. fold (mount_source target mounts).
  destruct (String.eqb_spec (mi_Target m) target) as [Ht|Ht].
  - by apply (mounted_last _ _ mounts m []).
  - destruct IH as [l m0 l' -> Hm Hl'|Hnone].
    + apply (mounted_last _ _ l m0 (l' ++ [m])); [by rewrite <- (assoc_L (++))|done|].
      apply Forall_app. split; [done|by repeat constructor].
    + apply mounted_none, Forall_app. split; [done|by repeat constructor].
Qed.

(** The instance that runs as [c], and the flist that it has been mounted from. *)
Definition runs_from (c : string) (s : PState W) (info : ContainerSpec) (hash : res string) : Prop :=
  exists w w', cm_Inspect (contd d) "zdb" c (p_world s) = (w, Ok info) /\
    fl_HashFromRootPath (flistd d) (ct_RootFS info) w = (w', hash).

(** Why an instance is left alone: it has no name, it or its flist cannot be looked at,
    its flist is the expected one, or nothing is known to be mounted on /data. *)
Inductive left_alone (expected c : string) (s : PState W) : Prop :=
| left_nameless : c = "" -> left_alone expected c s
| left_unknown w e : cm_Inspect (contd d) "zdb" c (p_world s) = (w, Err e) -> left_alone expected c s
| left_no_hash info e : runs_from c s info (Err e) -> left_alone expected c s
| left_current info : runs_from c s info (Ok expected) -> left_alone expected c s
| left_no_data info hash : runs_from c s info (Ok hash) -> mounted_at "/data" (ct_Mounts info) "" ->
    left_alone expected c s.

(** An instance of another flist, with its data volume and the directory of its socket. *)
Definition outdated (expected c : string) (s : PState W) (info : ContainerSpec) (data socket : string) : Prop :=
  (exists hash, hash <> expected /\ runs_from c s info (Ok hash)) /\ data <> "" /\
  mounted_at "/data" (ct_Mounts info) data /\ mounted_at "/socket" (ct_Mounts info) socket.

(** The container that takes the place of [info]: same name, command, network, data
    volume and socket, on a new root file system. *)
Definition replacement (info : ContainerSpec) (rootfs data socket : string) : ContainerSpec := {|
  ct_Name := ct_Name info; ct_RootFS := rootfs; ct_Env := []; ct_WorkingDir := "";
  ct_Namespace := ct_Namespace info;
  ct_Mounts := [{| mi_Source := data; mi_Target := "/data" |}; {| mi_Source := socket; mi_Target := "/socket" |}];
  ct_Entrypoint := ct_Entrypoint info; ct_Interactive := false; ct_CPU := 0; ct_Memory := 0;
  ct_Logs := []; ct_Stats := []; ct_Elevated := false
|}.

Inductive started (c : ContainerSpec) : list event -> Prop :=
| started_ok id : started c [Ran (ContainerRun "zdb" c) (inl id)]
| started_failed e out : started c [Ran (ContainerRun "zdb" c) (inr e); Ran (FlistUmount (ct_RootFS c)) out].

Inductive upgraded (expected c : string) (s : PState W) : list event -> Prop :=
| upgraded_left : left_alone expected c s -> upgraded expected c s []
| upgraded_not_stopped info data socket e : outdated expected c s info data socket ->
    upgraded expected c s [Ran (ContainerDelete "zdb" c) (inr e)]
| upgraded_no_rootfs info data socket out mounts : outdated expected c s info data socket ->
    Forall is_mount mounts -> Forall failed mounts ->
    upgraded expected c s (Ran (ContainerDelete "zdb" c) (inl "") ::
      Ran (FlistUmount (ct_RootFS info)) out :: mounts)
| upgraded_restarted info data socket out tried t rootfs tail : outdated expected c s info data socket ->
    Forall is_mount tried -> started (replacement info rootfs data socket) tail ->
    upgraded expected c s (Ran (ContainerDelete "zdb" c) (inl "") ::
      Ran (FlistUmount (ct_RootFS info)) out ::
      tried ++ Ran (FlistMount zdbFlistURL "" (zdb_mount_options t)) (inl rootfs) :: tail).

(** One instance after the other. *)
Inductive upgrades (expected : string) : list string -> PState W -> PState W -> Prop :=
| upgrades_none s : upgrades expected [] s s
| upgrades_next c cs s s1 s2 evs : upgraded expected c s evs -> p_log s1 = p_log s ++ evs ->
    upgrades expected cs s1 s2 -> upgrades expected (c :: cs) s s2.

Lemma umount_inv path s s' : ignore (umount d path) s = (s', Ok tt) ->
  exists out, p_log s' = p_log s ++ [Ran (FlistUmount path) out].
Proof.
  intros (x & Hx & Hp)%ignore_inv. apply act_inv in Hx; [|done]. by eexists.
Qed.

(** Starting the new container. *)
Lemma restart_inv info rootfs data socket s s' :
  (started ← try (zdbRun d (ct_Name info) rootfs (ct_Entrypoint info) (ct_Namespace info) data socket);
   match started with inr _ => ignore (umount d rootfs) | inl _ => mret tt end) s = (s', Ok tt) ->
  exists tail, p_log s' = p_log s ++ tail /\ started (replacement info rootfs data socket) tail.
Proof.
  intros Hrun. ok_bind Hrun s1 y Hy. apply try_inv in Hy.
  unfold zdbRun, mbind, M_bind in Hy.
  destruct (act_path _ _ s) as [s2 z] eqn:Hz in Hy. destruct z as [id|e|p].
  - destruct y as [u|e]; [|done]. injection Hy as <-. injection Hrun as <-. apply act_inv in Hz; [|done].
    eexists. split; [exact Hz|constructor].
  - destruct y as [u|e']; [done|]. injection Hy as <- <-. apply act_inv in Hz; [|done].
    apply umount_inv in Hrun as [out Hout].
    eexists. split; [rewrite Hout, Hz, <- (assoc_L (++)); reflexivity|constructor].
  - by destruct y.
Qed.

Lemma no_error_upgrade_zdb expected c : no_error (upgrade_zdb d expected c).
Proof.
  unfold upgrade_zdb. destruct (c =? "")%string; [apply no_error_ret|].
  apply no_error_bind; [apply no_error_try|intros [info|e]; [|apply no_error_ret]].
  apply no_error_bind; [apply no_error_try|intros [hash|e]; [|apply no_error_ret]].
  destruct (expected =? hash)%string; [apply no_error_ret|].
  destruct (mount_source "/data" (ct_Mounts info) =? "")%string; [apply no_error_ret|].
  apply no_error_bind; [apply no_error_try|intros [u|e]; [|apply no_error_ret]].
  apply no_error_bind; [apply no_error_ignore|intros _].
  apply no_error_bind; [apply no_error_try|intros [rootfs|e]; [|apply no_error_ret]].
  apply no_error_bind; [apply no_error_try|intros [u'|e]; [apply no_error_ret|apply no_error_ignore]].
Qed.

(** Failed mounts take nothing. *)
Lemma held_failed_mounts evs R : Forall is_mount evs -> Forall failed evs -> held evs R ⊆ R.
Proof.
  intros Hm Hf. revert R. induction evs as [|[o out] evs IH]; intros R; [done|].
  apply Forall_cons in Hm as [[t Ht] Hm]. apply Forall_cons in Hf as [[e He] Hf]. cbn in Ht, He. subst.
  etrans; [by apply IH|]. cbn. set_solver.
Qed.

(** The directory of the socket and an old socket are no obstacle. *)
Definition socket_ok (evs : list event) : Prop :=
  (forall path e, Ran (Mkdir path) (inr e) ∈ evs -> IsExist e = true) /\
  (forall path e, Ran (RemoveFile path) (inr e) ∈ evs -> IsNotExist e = true).

Lemma upgrade_zdb_run expected c s s' : upgrade_zdb d expected c s = (s', Ok tt) ->
  exists evs, p_log s' = p_log s ++ evs /\ upgraded expected c s evs.
Proof.
  assert (Hnil : left_alone expected c s -> forall s0 : PState W, p_log s0 = p_log s ->
    exists evs, p_log s0 = p_log s ++ evs /\ upgraded expected c s evs)
    by (intros Hleft s0 ->; exists []; rewrite app_nil_r; split; [done|by apply upgraded_left]).
  intros Hrun. unfold upgrade_zdb in Hrun.
  destruct (String.eqb_spec c "") as [Hc|_]; [injection Hrun as <-; apply Hnil; [by apply left_nameless|done]|].
  ok_bind Hrun s1 inspected H1. apply try_inv in H1.
  assert (Hl1 : p_log s1 = p_log s) by (eapply quiet_log, H1; apply quiet_call). apply call_world in H1.
  destruct inspected as [info|e]; [|injection Hrun as <-; apply Hnil; [by eapply left_unknown|done]].
  ok_bind Hrun s2 got H2. apply try_inv in H2.
  assert (Hl2 : p_log s2 = p_log s) by (rewrite <- Hl1; eapply quiet_log, H2; apply quiet_call).
  apply call_world in H2.
  assert (Hfrom : runs_from c s info (match got with inl hash => Ok hash | inr e => Err e end))
    by by exists (p_world s1), (p_world s2).
  destruct got as [hash|e]; [|injection Hrun as <-; apply Hnil; [by eapply left_no_hash|done]].
  destruct (String.eqb_spec expected hash) as [<-|Hne];
    [injection Hrun as <-; apply Hnil; [by eapply left_current|done]|].
  pose proof (mount_source_at "/data" (ct_Mounts info)) as Hdata.
  pose proof (mount_source_at "/socket" (ct_Mounts info)) as Hsocket.
  destruct (String.eqb_spec (mount_source "/data" (ct_Mounts info)) "") as [Hno|Hsome];
    [rewrite Hno in Hdata; injection Hrun as <-; apply Hnil; [by eapply left_no_data|done]|].
  revert Hrun Hdata Hsocket Hsome. cbv zeta. generalize (mount_source "/data" (ct_Mounts info)) as data.
  generalize (mount_source "/socket" (ct_Mounts info)) as socket. intros socket data Hrun Hdata Hsocket Hsome.
  assert (Hout : outdated expected c s info data socket) by (split_and!; [by exists hash|done..]).
  rewrite <- Hl2. ok_bind Hrun s3 stopped H3. apply try_inv, act_inv in H3; [|by destruct stopped].
  destruct stopped as [[]|e].
  2:{ injection Hrun as <-. eexists. split; [exact H3|]. by eapply upgraded_not_stopped. }
  ok_bind Hrun s4 u H4. destruct u. apply umount_inv in H4 as [out H4].
  ok_bind Hrun s5 newroot H5. apply try_inv in H5.
  apply zdb_rootfs_run in H5 as (mounts & H5 & Hm & Hok & Herr).
  destruct newroot as [rootfs|e].
  - destruct (Hok rootfs (eq_refl _)) as (tried & t & _ & ->).
    apply (restart_inv info) in Hrun as (tail & Hrun & Htail).
    eexists. split; [rewrite Hrun, H5, H4, H3, <- !(assoc_L (++)); reflexivity|].
    apply Forall_app in Hm as [Hm _]. by eapply upgraded_restarted.
  - injection Hrun as <-. eexists. split; [rewrite H5, H4, H3, <- !(assoc_L (++)); reflexivity|].
    eapply upgraded_no_rootfs; [done..|by eapply Herr].
Qed.

(** The clean-up of a container that was asked for. *)
Lemma cleanup_inv ns name rootfs s s' y :
  (ignore (container_delete d ns name) ;; ignore (umount d rootfs)) s = (s', y) ->
  (forall p, y <> Panic p) ->
  exists a b, p_log s' = p_log s ++ [Ran (ContainerDelete ns name) a; Ran (FlistUmount rootfs) b].
Proof.
  intros Hrun Hp. unfold mbind, M_bind in Hrun.
  destruct (ignore (container_delete d ns name) s) as [s1 [[]|e|p]] eqn:Hx.
  - apply ignore_inv in Hx as (x & Hx & Hxp). apply act_inv in Hx; [|done].
    destruct y as [[]|e|p].
    + apply umount_inv in Hrun as [b Hb]. eexists _, b. by rewrite Hb, Hx, <- (assoc_L (++)).
    + by apply no_error_ignore in Hrun.
    + by destruct (Hp p).
  - by apply no_error_ignore in Hx.
  - injection Hrun as _ <-. by destruct (Hp p).
Qed.

Lemma retry_quiet {A} n (m : PM W A) : quiet m -> quiet (retry n m).
Proof.
  intros Hm. induction n as [|n IH]; cbn [retry]; (apply quiet_bind; [auto with zos_monad|]);
    intros [a|e]; auto with zos_monad.
Qed.

Lemma zdbRun_inv name rootfs cmd netns vol sock s s' x :
  zdbRun d name rootfs cmd netns vol sock s = (s', x) -> (forall p, x <> Panic p) ->
  exists out, p_log s' = p_log s ++ [Ran (ContainerRun zdbContainerNS
    (zdb_container name rootfs cmd netns vol sock)) out] /\
    (is_ok x = match out with inl _ => true | inr _ => false end).
Proof.
  unfold zdbRun, mbind, M_bind. intros Hrun Hp.
  destruct (act_path _ _ s) as [s1 [id|e|p]] eqn:Ha in Hrun; injection Hrun as <- <-;
    [..|by destruct (Hp p)]; apply act_inv in Ha; try done; by eexists.
Qed.

Lemma start_zdb_Err retries a mode rootfs netns s s' e :
  start_zdb d retries a mode rootfs netns s = (s', Err e) ->
  exists evs, p_log s' = p_log s ++ evs /\ forall R0 R,
    R0 ⊆ R ∪ {[RMount rootfs]} -> socket_ok evs -> held evs R0 ⊆ R.
Proof.
  unfold start_zdb. intros Hrun.
  apply bind_Err_inv in Hrun as [Hrun|(s1 & running & Hc & Hrun)]; [by apply no_error_try in Hrun|].
  apply quiet_log in Hc; [|apply quiet_try, quiet_call]. destruct running as [u|e1]; [done|].
  apply bind_Err_inv in Hrun as [Hrun|(s2 & removed & Hrm & Hrun)]; [by apply no_error_try in Hrun|].
  apply try_inv, act_inv in Hrm; [|by destruct removed]. rewrite Hc in Hrm. clear Hc.
  apply bind_Err_inv in Hrun as [Hrun|(s3 & u3 & Hs3 & Hrun)].
  { destruct removed as [u|e2]; [done|]. destruct (IsNotExist e2) eqn:He2; [done|].
    injection Hrun as <- _. eexists. split; [exact Hrm|]. intros R0 R _ [_ Hsock]. exfalso.
    rewrite (Hsock (socketFile (VolumeID a)) e2) in He2; [done|]. set_solver. }
  assert (s3 = s2) as -> by (destruct removed as [u|e2]; [|destruct (IsNotExist e2)]; by inversion Hs3).
  clear Hs3. set (rm := Ran _ _) in Hrm.
  assert (Hrm0 : forall R0 : resources, held [rm] R0 ⊆ R0) by (intros R0; destruct removed; cbn; set_solver).
  clearbody rm. apply bind_Err_inv in Hrun as [Hrun|(s4 & u4 & Hs4 & Hrun)]; apply wrap_Err in Hrun as (e2 & Hrun & _).
  - apply or_else_Err in Hrun as (s4 & y & Hm & Hc & Hy). apply zdbRun_inv in Hm as (out & Hm & _); [|done].
    apply cleanup_inv in Hc as (c1 & c2 & Hc); [|done]. cbn in Hc.
    eexists. split; [rewrite Hc, Hm, Hrm, <- !(assoc_L (++)); reflexivity|]. intros R0 R HR _.
    rewrite held_app. pose proof (Hrm0 R0). cbn. destruct out, c1, c2; set_solver.
  - apply wrap_Ok, or_else_Ok, zdbRun_inv in Hs4 as (out & Hs4 & _); [|done].
    apply or_else_Err in Hrun as (s5 & y & Hm & Hc & Hy).
    apply quiet_log in Hm; [|apply retry_quiet, quiet_call].
    apply cleanup_inv in Hc as (c1 & c2 & Hc); [|done]. cbn in Hc.
    eexists. split; [rewrite Hc, Hm, Hs4, Hrm, <- !(assoc_L (++)); reflexivity|]. intros R0 R HR _.
    rewrite held_app. pose proof (Hrm0 R0). cbn. destruct out, c1, c2; set_solver.
Qed.

(** The addresses that are reported are public or yggdrasil ones, and there is one. *)
Definition reachable (ip : IP) : Prop := isPublic ip = true \/ isYgg ip = true.

Lemma zdb_addresses_reachable ips : Forall reachable (zdb_addresses ips).2.
Proof.
  apply Forall_forall. intros ip [Hin _]%list_elem_of_filter. unfold reachable.
  apply orb_prop in Hin as [[Hin _]%andb_prop|Hin]; auto.
Qed.

Lemma zdb_addresses_some ips : (zdb_addresses ips).1.2 = true -> (zdb_addresses ips).2 <> [].
Proof.
  cbn. intros (ip & Hin%list_elem_of_In & Hy)%existsb_exists Hnil.
  assert (Hf : ip ∈ filter (fun ip => isPublic ip && negb (isYgg ip) || isYgg ip = true) ips)
    by (apply list_elem_of_filter; split; [by rewrite Hy, orb_true_r|done]).
  rewrite Hnil in Hf. by apply not_elem_of_nil in Hf.
Qed.

Lemma wait_addresses_Ok retries ns : forall sofar s s' ips, Forall reachable sofar ->
  wait_addresses d retries ns sofar s = (s', Ok ips) ->
  p_log s' = p_log s /\ Forall reachable ips /\ ips <> [].
Proof.
  induction retries as [|retries IH]; intros sofar s s' ips Hs; cbn [wait_addresses]; intros Hrun;
    ok_bind Hrun s1 got Hg; (apply quiet_log in Hg; [|apply quiet_try, quiet_call]);
    rewrite <- Hg; clear Hg; destruct got as [found|e];
    try (destruct (zdb_addresses found) as [[public ygg] reach] eqn:Ez;
         pose proof (zdb_addresses_reachable found) as Hr; pose proof (zdb_addresses_some found) as Hne;
         rewrite Ez in Hr, Hne; cbn in Hr, Hne; destruct (public && ygg) eqn:Ep).
  1, 4: injection Hrun as <- <-; apply andb_prop in Ep as [_ Ep]; by auto.
  3, 4: by eapply IH, Hrun.
  1: destruct reach as [|ip reach]; [done|]; by injection Hrun as <- <-.
  destruct sofar as [|ip sofar]; [done|]; by injection Hrun as <- <-.
Qed.

(** The requests that configure a namespace. *)
Definition configure (present : bool) (db ns password : string) (config : ZDB) : list event :=
  (if present then [] else [Ran (ZdbCreateNamespace db ns) (inl "")]) ++
  (if (password =? "")%string then [] else [Ran (ZdbSetPassword db ns password) (inl "")]) ++
  [Ran (ZdbSetPublic db ns (zdb_Public config)) (inl "");
   Ran (ZdbSetSize db ns (zdb_Size config *u gib)) (inl "")].

Lemma createZDBNamespace_Ok db ns config password s s' :
  createZDBNamespace d db ns config password s = (s', Ok tt) ->
  exists present, p_log s' = p_log s ++ configure present db ns password config /\
    exists w w', zc_Exist (zdbs d) db ns w = (w', Ok present).
Proof.
  unfold createZDBNamespace, configure. intros Hrun. ok_bind Hrun s1 u1 H1.
  apply wrap_Ok, quiet_log in H1; [|apply quiet_call].
  ok_bind Hrun s2 present H2. pose proof (call_inv _ _ _ _ H2) as Hex.
  apply quiet_log in H2; [|apply quiet_call].
  ok_bind Hrun s3 u3 H3. ok_bind Hrun s4 u4 H4. ok_bind Hrun s5 u5 H5.
  apply wrap_Ok, act_Ok in H5, Hrun. exists present. split; [|exact Hex]. rewrite Hrun, H5.
  assert (H3' : p_log s3 = p_log s2 ++ (if present then [] else [Ran (ZdbCreateNamespace db ns) (inl "")])).
  { destruct present; [injection H3 as <-; by rewrite app_nil_r|by apply wrap_Ok, act_Ok in H3]. }
  assert (H4' : p_log s4 = p_log s3 ++
    (if (password =? "")%string then [] else [Ran (ZdbSetPassword db ns password) (inl "")])).
  { destruct (password =? "")%string; [injection H4 as <-; by rewrite app_nil_r|by apply wrap_Ok, act_Ok in H4]. }
  rewrite H4', H3', H2, H1. by rewrite <- !(assoc_L (++)).
Qed.

Lemma upgrade_all expected cs : forall s s', for_each (upgrade_zdb d expected) cs s = (s', Ok tt) ->
  upgrades expected cs s s'.
Proof.
  induction cs as [|c cs IH]; intros s s' Hrun; cbn [for_each] in Hrun; [injection Hrun as <-; constructor|].
  ok_bind Hrun s1 u H1. destruct u. apply upgrade_zdb_run in H1 as (evs & Hl & Hu).
  eapply upgrades_next; [done..|by apply IH].
Qed.

Lemma emits_rootfs P types err : (forall ev, is_mount ev -> P ev) -> emits P (zdb_rootfs_on d types err).
Proof.
  intros HP. revert err. induction types as [|t types IH]; intros err; cbn [zdb_rootfs_on];
    [auto with zos_monad|].
  apply emits_bind; [apply emits_try, emits_act; intros; apply HP; by eexists|].
  intros []; auto with zos_monad.
Qed.

(** What creating a container asks for. *)
Definition creates (a : Allocation) (mode : string) (ev : event) : Prop :=
  is_mount ev \/
  match ev_op ev with
  | ContainerRun ns c => ns = zdbContainerNS /\ exists rootfs netns, c = zdb_container (VolumeID a) rootfs
      (zdb_cmd mode (VolumeID a)) netns (VolumePath a) (socketDir (VolumeID a))
  | ContainerDelete ns id => ns = zdbContainerNS /\ id = VolumeID a
  | FlistUmount _ | NetZDBPrepare _ | Mkdir _ | RemoveFile _ => True
  | _ => False
  end.

Lemma emits_create retries a mode : emits (creates a mode) (createZdbContainer d retries a mode).
Proof.
  unfold createZdbContainer. apply emits_bind; [apply emits_rootfs; by left|intros rootfs _ _ _].
  apply emits_bind; [apply emits_wrap, emits_or_else; [apply emits_ignore|]; apply emits_act; by right|].
  intros netns _ _ _. apply emits_bind; [apply emits_try, emits_act; by right|intros made _ _ _].
  apply emits_bind; [destruct made as [|e]; [|destruct (IsExist e)]; auto with zos_monad|intros _ _ _ _].
  assert (Hc : emits (creates a mode) (zdb_cleanup d (VolumeID a) rootfs))
    by (apply emits_bind; [|intros _ _ _ _]; apply emits_ignore, emits_act; by right).
  unfold start_zdb. apply emits_bind; [apply emits_quiet, quiet_try, quiet_call|].
  intros [|] _ _ _; [auto with zos_monad|].
  apply emits_bind; [apply emits_try, emits_act; by right|intros removed _ _ _].
  apply emits_bind; [destruct removed as [|e']; [|destruct (IsNotExist e')]; auto with zos_monad|intros _ _ _ _].
  apply emits_bind; [|intros _ _ _ _]; apply emits_wrap, emits_or_else; try exact Hc.
  - apply emits_bind; [apply emits_act|auto with zos_monad]. intros out. right. cbn. by eauto.
  - apply emits_quiet, retry_quiet, quiet_call.
Qed.

(** The container runs at the end. *)
Lemma ensureZdbContainer_Ok retries a mode s s' cont :
  ensureZdbContainer d retries a mode s = (s', Ok cont) ->
  exists evs, p_log s' = p_log s ++ evs /\ Forall (creates a mode) evs /\
    exists w w', cm_Inspect (contd d) zdbContainerNS (VolumeID a) w = (w', Ok cont).
Proof.
  unfold ensureZdbContainer. intros Hrun. ok_bind Hrun s1 found H1. apply try_inv in H1.
  assert (Hl : p_log s1 = p_log s) by (eapply quiet_log, H1; apply quiet_call). rewrite <- Hl.
  destruct found as [c|e]; [|destruct (not_found e); [|done]].
  - injection Hrun as <- <-. exists []. rewrite app_nil_r. split_and!; [done..|]. by eapply call_inv.
  - ok_bind Hrun s2 u H2. destruct (emits_run _ _ _ _ _ (emits_create _ _ _) H2) as (evs & He & Hc).
    exists evs. rewrite <- He. split_and!; [|exact Hc|by eapply call_inv].
    eapply quiet_log, Hrun. apply quiet_call.
Qed.

Lemma deleteZdbContainer_Ok id s s' : deleteZdbContainer d id s = (s', Ok tt) ->
  exists gone, p_log s' = p_log s ++ gone /\ (gone = [] \/ exists netns rootfs, gone =
    [Ran (ContainerDelete zdbContainerNS id) (inl ""); Ran (NetZDBDestroy netns) (inl "");
     Ran (FlistUmount rootfs) (inl "")]).
Proof.
  unfold deleteZdbContainer. intros Hrun. ok_bind Hrun s1 found H1. apply try_inv in H1.
  assert (Hl : p_log s1 = p_log s) by (eapply quiet_log, H1; apply quiet_call). rewrite <- Hl.
  destruct found as [info|e]; [|destruct (not_found e); [|done]].
  - ok_bind Hrun s2 u2 H2. ok_bind Hrun s3 u3 H3. apply wrap_Ok, act_Ok in H2, H3, Hrun.
    eexists. split; [rewrite Hrun, H3, H2, <- !(assoc_L (++)); reflexivity|]. right. by eexists _, _.
  - injection Hrun as <-. exists []. rewrite app_nil_r. by auto.
Qed.

End zdb_lemmas.

(** ** Properties *)

Section zdb_properties.
  Context {W : Type} `{Decoders} `{MD5} (d : Daemons W).

(** When the container of a 0-db cannot be created, its root file
    system is not left mounted and the container not left behind, whichever step
    fails, as long as the directory of its socket can be made and an old socket
    removed: on these two errors the code returns without cleaning up. *)
Theorem createZdbContainer_gives_back retries a mode s s' e (R : resources) :
  createZdbContainer d retries a mode s = (s', Err e) ->
  exists evs, p_log s' = p_log s ++ evs /\ (socket_ok evs -> held evs R ⊆ R).
Proof.
  unfold createZdbContainer. intros Hrun. apply bind_Err_inv in Hrun as [Hrun|(s1 & rootfs & Hroot & Hrun)].
  { apply zdb_rootfs_run in Hrun as (evs & Hl & Hm & _ & Hf). exists evs. split; [done|]. intros _.
    by eapply held_failed_mounts, Hf. }
  apply zdb_rootfs_run in Hroot as (mounts & Hl1 & Hm & Hok & _).
  destruct (Hok rootfs (eq_refl _)) as (tried & t & Hf & ->). clear Hok.
  apply Forall_app in Hm as [Hm _].
  assert (Hmnt : held (tried ++ [Ran (FlistMount zdbFlistURL "" (zdb_mount_options t)) (inl rootfs)]) R
    ⊆ R ∪ {[RMount rootfs]}).
  { rewrite held_app. pose proof (held_failed_mounts tried R Hm Hf). cbn. set_solver. }
  set (mounts := tried ++ _) in *. clearbody mounts. clear tried Hm Hf.
  apply bind_Err_inv in Hrun as [Hrun|(s2 & netns & Hnet & Hrun)].
  { apply wrap_Err in Hrun as (e1 & Hrun & _). apply or_else_Err in Hrun as (s2 & y & Hact & Hum & Hy).
    apply act_inv in Hact; [|done].
    destruct y as [[]|e2|p]; [|by apply no_error_ignore in Hum|by destruct (Hy p)].
    apply umount_inv in Hum as [out Hum]. cbn in Hum.
    eexists. split; [rewrite Hum, Hact, Hl1, <- !(assoc_L (++)); reflexivity|]. intros _.
    rewrite held_app. cbn. destruct out; set_solver. }
  apply wrap_Ok, or_else_Ok, act_Ok in Hnet.
  apply bind_Err_inv in Hrun as [Hrun|(s3 & made & Hmk & Hrun)]; [by apply no_error_try in Hrun|].
  apply try_inv, act_inv in Hmk; [|by destruct made].
  assert (Hl3 : p_log s3 = p_log s ++ mounts ++ [Ran (NetZDBPrepare (HardwareAddrFromInputBytes
      (bytes_of (VolumeID a)))) (inl netns); Ran (Mkdir (socketDir (VolumeID a)))
      (match made with inl _ => inl "" | inr e => inr e end)]).
  { rewrite Hmk, Hnet, Hl1, <- !(assoc_L (++)). by destruct made. }
  clear Hl1 Hnet Hmk.
  apply bind_Err_inv in Hrun as [Hrun|(s4 & u4 & Hs4 & Hrun)].
  { destruct made as [u|e3]; [done|]. destruct (IsExist e3) eqn:He3; [done|]. injection Hrun as <- _.
    eexists. split; [exact Hl3|]. intros [Hdir _]. exfalso. rewrite (Hdir (socketDir (VolumeID a)) e3) in He3; [done|].
    set_solver. }
  assert (s4 = s3) as -> by (destruct made as [u|e3]; [|destruct (IsExist e3)]; by inversion Hs4). clear Hs4.
  destruct (start_zdb_Err _ _ _ _ _ _ _ _ _ Hrun) as (evs & Hl & Hev).
  eexists. split; [rewrite Hl, Hl3, <- !(assoc_L (++)); reflexivity|]. intros Hsock.
  rewrite !held_app. apply Hev.
  - etrans; [apply held_mono, Hmnt|]. cbn. destruct made; set_solver.
  - split; intros path e' Hin; [apply (proj1 Hsock path e')|apply (proj2 Hsock path e')]; set_solver.
Qed.


(** Provisioning a namespace allocates its size in bytes on a disk
    of its type, makes sure that the 0-db of the volume runs, and then creates the
    namespace there if it is missing, sets its password if it has one, whether it
    is public, and its size, in this order; the result has at least one address,
    public or yggdrasil. *)
Theorem zdbProvision_spec retries r s s' x : zdbProvisionImpl d retries r s = (s', Ok x) ->
  exists config password allocation cont ips evs present,
    dec_ZDB (r_Data r) = Ok config /\ Forall (creates allocation (zdb_Mode config)) evs /\
    (exists w w', cm_Inspect (contd d) zdbContainerNS (VolumeID allocation) w = (w', Ok cont)) /\
    p_log s' = p_log s ++
      Ran (ZDBAllocate (r_ID r) (zdb_DiskType config) (zdb_Size config *u gib) (zdb_Mode config))
        (inl (VolumeID allocation)) ::
      evs ++ configure present (VolumeID allocation) (r_ID r) password config /\
    x = MkZDBResult (r_ID r) (IP_String <$> ips) 9900 /\ Forall reachable ips /\ ips <> [].
Proof.
  unfold zdbProvisionImpl. destruct (dec_ZDB (r_Data r)) as [config|e|p]; [|done..]. intros Hrun.
  ok_bind Hrun s1 c H1. injection H1 as <- <-. ok_bind Hrun s2 password H2.
  apply wrap_Ok, quiet_log in H2; [|apply quiet_decryptSecret].
  ok_bind Hrun s3 allocation H3. apply wrap_Ok, act_Ok in H3.
  ok_bind Hrun s4 cont H4. apply wrap_Ok in H4.
  ok_bind Hrun s5 ips H5. apply wrap_Ok, wait_addresses_Ok in H5 as (H5 & Hips & Hne); [|done].
  ok_bind Hrun s6 u6 H6. destruct u6. apply wrap_Ok, createZDBNamespace_Ok in H6 as (present & H6 & _).
  injection Hrun as <- <-.
  assert (Hen : exists evs, p_log s4 = p_log s3 ++ evs /\ Forall (creates allocation (zdb_Mode config)) evs /\
    exists w w', cm_Inspect (contd d) zdbContainerNS (VolumeID allocation) w = (w', Ok cont)).
  { by eapply ensureZdbContainer_Ok, H4. }
  destruct Hen as (evs & H4' & Hcr & Hin). exists config, password, allocation, cont, ips, evs, present.
  split_and!; [done|exact Hcr|exact Hin| |done..].
  by rewrite H6, H5, H4', H3, H2, <- !(assoc_L (++)).
Qed.

(** Decommissioning a namespace that exists deletes it in its 0-db,
    and then removes the container and the volume of the 0-db when, and only
    when, the 0-db has no namespace left but its default one. *)
Theorem zdbDecommission_spec retries r s s' : zdbDecommission d retries r s = (s', Ok tt) ->
  p_log s' = p_log s \/
  exists allocation evs ns removed,
    (exists w w', sm_Find (storaged d) (r_ID r) w = (w', Ok allocation)) /\
    (exists w w', zc_Namespaces (zdbs d) (VolumeID allocation) w = (w', Ok ns)) /\
    p_log s' = p_log s ++ evs ++
      Ran (ZdbDeleteNamespace (VolumeID allocation) (r_ID r)) (inl "") :: removed /\
    (if decide (ns = ["default"])
     then exists gone, removed = gone ++ [Ran (ReleaseFilesystem (VolumeID allocation)) (inl "")] /\
       (gone = [] \/ exists netns rootfs, gone =
          [Ran (ContainerDelete zdbContainerNS (VolumeID allocation)) (inl "");
           Ran (NetZDBDestroy netns) (inl ""); Ran (FlistUmount rootfs) (inl "")])
     else removed = []).
Proof.
  unfold zdbDecommission. destruct (dec_ZDB (r_Data r)) as [config|e|p]; [|done..]. intros Hrun.
  ok_bind Hrun s1 c H1. injection H1 as <- <-. ok_bind Hrun s2 found H2. apply try_inv in H2.
  assert (Hl2 : p_log s2 = p_log s) by (eapply quiet_log, H2; apply quiet_call). rewrite <- Hl2.
  destruct found as [a|e]; [|destruct (not_found e); [injection Hrun as <-; by left|done]].
  right. ok_bind Hrun s3 cont H3. apply wrap_Ok, ensureZdbContainer_Ok in H3 as (evs & H3 & _).
  ok_bind Hrun s4 u4 H4. apply wrap_Ok, quiet_log in H4; [|apply quiet_call].
  ok_bind Hrun s5 u5 H5. apply wrap_Ok, act_Ok in H5.
  ok_bind Hrun s6 ns H6. apply wrap_Ok in H6.
  assert (Hl6 : p_log s6 = p_log s5) by (eapply quiet_log, H6; apply quiet_call).
  assert (Hl : p_log s6 = p_log s2 ++ evs ++ [Ran (ZdbDeleteNamespace (VolumeID a) (r_ID r)) (inl "")])
    by (rewrite Hl6, H5, H4, H3, <- (assoc_L (++)); done).
  apply call_inv in H2, H6. destruct (decide (ns = ["default"])) as [->|Hns].
  - ok_bind Hrun s7 u7 H7. destruct u7. apply wrap_Ok, deleteZdbContainer_Ok in H7 as (gone & H7 & Hg).
    apply act_Ok in Hrun. exists a, evs, ["default"]. eexists.
    split_and!; [done|done| |]; [rewrite Hrun, H7, Hl, <- !(assoc_L (++)); reflexivity|].
    rewrite decide_True by done. eexists. split; [reflexivity|exact Hg].
  - injection Hrun as <-. exists a, evs, ns, []. rewrite decide_False by done.
    split_and!; [done|done|exact Hl|done].
Qed.

End zdb_properties.

(** ** The definitions at work *)
Module ZdbDemo.

Import BusDemo.

#[export] Instance decoders : Decoders := demo_Decoders.

Definition alloc : Allocation := MkAllocation "zdb1" "/mnt/zdb1".
Definition r : Reservation := demo_reservation "9-1" ZDBReservation "5".

(** No instance answers. *)
Definition fresh : list string := ["Connect"].

Definition create (fail : list string) : PState unit * res unit :=
  createZdbContainer (daemons (failing fail)) 2 alloc "seq" start.

(** When the directory of the socket cannot be made the root file system stays
    mounted, and also when an old socket cannot be removed; when an instance
    answers already, a root file system that nothing uses stays mounted. *)
Example createZdbContainer_leaks :
  is_ok (snd (create ["Connect"; "MkdirAll"])) = false /\
  elements (held (p_log (fst (create ["Connect"; "MkdirAll"]))) ∅) = [RMount "/roots/new"] /\
  is_ok (snd (create ["Connect"; "Remove"])) = false /\
  elements (held (p_log (fst (create ["Connect"; "Remove"]))) ∅) = [RMount "/roots/new"] /\
  snd (create []) = Ok tt /\
  elements (held (p_log (fst (create []))) ∅) = [RMount "/roots/new"].
Proof. split_and!; vm_compute; reflexivity. Qed.

Lemma createZdbContainer_gives_back_witness :
  exists evs, p_log (fst (create fresh)) = [] ++ evs /\ (socket_ok evs -> held evs ∅ ⊆ ∅).
Proof.
  eapply (createZdbContainer_gives_back (daemons (failing fresh)) 2 alloc "seq" start).
  vm_compute. reflexivity.
Defined.


Definition provisioned : PState unit * res ZDBResult :=
  zdbProvisionImpl (daemons (failing ["Exist"])) 2 r start.

Lemma zdbProvision_spec_witness :
  snd provisioned = Ok (MkZDBResult "9-1" ["2a10:b402::7"; "201:909::9"] 9900) /\
  exists config password allocation cont ips evs present,
    dec_ZDB (r_Data r) = Ok config /\ Forall (creates allocation (zdb_Mode config)) evs /\
    (exists w w', cm_Inspect (contd (daemons (failing ["Exist"]))) zdbContainerNS (VolumeID allocation) w = (w', Ok cont)) /\
    p_log (fst provisioned) = p_log start ++
      Ran (ZDBAllocate (r_ID r) (zdb_DiskType config) (zdb_Size config *u gib) (zdb_Mode config))
        (inl (VolumeID allocation)) ::
      evs ++ configure present (VolumeID allocation) (r_ID r) password config /\
    MkZDBResult "9-1" ["2a10:b402::7"; "201:909::9"] 9900 = MkZDBResult (r_ID r) (IP_String <$> ips) 9900 /\
    Forall reachable ips /\ ips <> [].
Proof.
  split; [vm_compute; reflexivity|].
  apply (zdbProvision_spec (daemons (failing ["Exist"])) 2 r start). vm_compute. reflexivity.
Defined.

Lemma zdbDecommission_spec_witness :
  let run := zdbDecommission (daemons (failing [])) 2 r start in
  length (p_log (fst run)) = 5%nat /\
  (p_log (fst run) = [] \/ exists allocation evs ns removed,
    (exists w w', sm_Find (storaged (daemons (failing []))) (r_ID r) w = (w', Ok allocation)) /\
    (exists w w', zc_Namespaces (zdbs (daemons (failing []))) (VolumeID allocation) w = (w', Ok ns)) /\
    p_log (fst run) = [] ++ evs ++
      Ran (ZdbDeleteNamespace (VolumeID allocation) (r_ID r)) (inl "") :: removed).
Proof.
  split; [vm_compute; reflexivity|].
  destruct (zdbDecommission_spec (daemons (failing [])) 2 r start
    (fst (zdbDecommission (daemons (failing [])) 2 r start))) as [Hl|(a & evs & ns & rm & Ha & Hn & Hl & _)];
    [vm_compute; reflexivity|left; exact Hl|right; exists a, evs, ns, rm; split; [exact Ha|split; [exact Hn|exact Hl]]].
Defined.

End ZdbDemo.
