(* ===== verification/ContainerPrim.v ===== *)
(** Containers as workloads: src/pkg/provision/primitives/container.go.

    The deferred clean-ups of the provisioner look at the variable [err]; an
    error in a variable of the same name in an inner block is returned without
    them noticing. Such an error is a value [inr e] under [on_error] here, and
    becomes an error outside of it. *)

From stdpp Require Import gmap strings list.
From Stdlib Require Import Ascii ZArith Lia.
From S2P Require Import Prelude Reservation Counters NetIP Storage Disk Bus ZdbPrim.

Open Scope Z_scope.
Open Scope go_scope.

(** ** Data *)

Record Network := MkNetwork {
  cnet_NetworkID : string; cnet_IPs : list IP; cnet_PublicIP6 : bool; cnet_YggdrasilIP : bool
}.

Record Mount := MkMount { mnt_VolumeID : string; mnt_Mountpoint : string }.

Record LogsConfig := MkLogsConfig {
  lc_Type : string; lc_Stdout : string; lc_Stderr : string;
  lc_SecretStdout : string; lc_SecretStderr : string
}.

Record ContainerConfig := MkContainerConfig {
  cc_FList : string; cc_FlistStorage : string;
  cc_Env : gmap string string; cc_SecretEnv : gmap string string;
  cc_Entrypoint : string; cc_Interactive : bool; cc_Mounts : list Mount; cc_Network : Network;
  cc_Capacity : ContainerCapacity; cc_Logs : list LogsConfig; cc_Stats : list Stats
}.

Record ContainerResult := MkContainerResult {
  cr_ID : string; cr_IPv6 : string; cr_IPv4 : string; cr_IPYgg : string
}.

(** [json.Unmarshal], and the order in which [range] goes through a map, which
    the language leaves open. *)
Class ContainerSchema := {
  dec_ContainerConfig : string -> res ContainerConfig;
  range : gmap string string -> list (string * string);
  range_perm m : range m ≡ₚ map_to_list m
}.

Definition FListElevated : string := "https://hub.grid.tf/tf-elevated/".

(** ** Operations *)

Definition validateContainerConfig (config : ContainerConfig) : res unit :=
  if (cnet_NetworkID (cc_Network config) =? "")%string then
    Err (ErrMsg "network ID cannot be empty")
  else if (length (cnet_IPs (cc_Network config)) =? 0)%nat then
    Err (ErrMsg "missing container IP address")
  else if (cc_FList config =? "")%string then Err (ErrMsg "missing flist url")
  else if cap_Memory (cc_Capacity config) <? 64 then
    Err (ErrMsg "amount of memory allocated for the container cannot be lower then 64 megabytes")
  else if cap_CPU (cc_Capacity config) =? 0 then
    Err (ErrMsg "cannot create a container with 0 CPU allocated")
  else Ok tt.

Fixpoint findRootFS (mounts : list MountInfo) : res string :=
  match mounts with
  | [] => Err (ErrMsg "rootfs flist mountpoint not found")
  | m :: mounts => if (mi_Target m =? "/sandbox")%string then Ok (mi_Source m) else findRootFS mounts
  end.

Section container.
  Context {W : Type} `{NetHash} `{ContainerSchema} (d : Daemons W).

Definition tenantNS (user : string) : string := "ns" +:+ user.

(** The volumes must belong to the user. *)
Definition check_volume (user : string) (m : Mount) : PM W unit :=
  volumeRes ← wrap ("failed to retrieve the owner of volume " +:+ mnt_VolumeID m)
                (call (sys_cache_Get (node d) (mnt_VolumeID m)));
  if (r_User volumeRes =? user)%string then mret tt
  else throw (ErrMsg ("cannot use volume " +:+ mnt_VolumeID m +:+ ", user " +:+ user +:+
                      " is not the owner of it")).

Definition env_entry (kv : string * string) : string := kv.1 +:+ "=" +:+ kv.2.

Fixpoint decrypt_env (user : string) (version : Z) (l : list (string * string)) : PM W (list string) :=
  match l with
  | [] => mret []
  | (k, v) :: l =>
      v ← wrap ("failed to decrypt secret env var '" +:+ k +:+ "'") (decryptSecret d v user version);
      rest ← decrypt_env user version l;
      mret (env_entry (k, v) :: rest)
  end.

Definition decrypt_log (user : string) (version : Z) (secret plain : string) : PM W string :=
  if (secret =? "")%string then mret plain
  else wrap "failed to decrypt log.secret_stdout var" (decryptSecret d secret user version).

Fixpoint decrypt_logs (user : string) (version : Z) (l : list LogsConfig) : PM W (list Logs) :=
  match l with
  | [] => mret []
  | c :: l =>
      stdout ← decrypt_log user version (lc_SecretStdout c) (lc_Stdout c);
      stderr ← decrypt_log user version (lc_SecretStderr c) (lc_Stderr c);
      rest ← decrypt_logs user version l;
      mret (MkLogs (lc_Type c) stdout stderr :: rest)
  end.

Definition mount_options (c : ContainerCapacity) : MountOptions :=
  if (cap_DiskSize c =? 0) || bool_decide (cap_DiskType c = OtherDevice "")
  then DefaultMountOptions
  else MkMountOptions false (cap_DiskSize c) (cap_DiskType c).

(** The mounts of the volumes. The error of [MkdirAll] is in a variable of its
    own. *)
Fixpoint prepare_mounts (mnt : string) (l : list Mount) : PM W (list MountInfo + error) :=
  match l with
  | [] => mret (inl [])
  | m :: l =>
      let mountpoint := Join "/" (mnt_Mountpoint m) in
      let dir := Join mnt mountpoint in
      made ← try (act_ (Mkdir dir) (sys_MkdirAll (node d) dir));
      match made with
      | inr e => mret (inr e)
      | inl _ =>
          source ← wrap ("failed to get the mountpoint path of the volume " +:+ mnt_VolumeID m)
                     (call (sm_Path (storaged d) (mnt_VolumeID m)));
          rest ← prepare_mounts mnt l;
          mret (match rest with inl l => inl (MkMountInfo source mountpoint :: l) | inr e => inr e end)
      end
  end.

(** [backoff.RetryNotify] of [getIP], [retries] times after the first. *)
Definition waitContainerIP (retries : nat) (ifaceName namespace : string) : PM W IP :=
  wrap ("failed to get an IP for interface " +:+ ifaceName)
    (retry retries
       (ips ← call (nw_Addrs (networkd d) ifaceName namespace);
        match filter (fun ip => isPublic ip = true) ips with
        | ip :: _ => mret ip
        | [] => throw (ErrMsg "waiting for more addresses")
        end)).

Definition container_spec (id namespace mnt : string) (env : list string) (mounts : list MountInfo)
    (logs : list Logs) (config : ContainerConfig) : ContainerSpec :=
  MkContainerSpec id mnt env "" namespace mounts (cc_Entrypoint config) (cc_Interactive config)
    (cap_CPU (cc_Capacity config)) (cap_Memory (cc_Capacity config) *u mib) logs (cc_Stats config)
    (HasPrefix (cc_FList config) FListElevated).

(** From the call of [Run]; what follows it does not trigger the clean-ups. *)
Definition run_container (retries : nat) (ns : string) (spec : ContainerSpec) (join : Member)
    (config : ContainerConfig) : PM W (ContainerResult + error) :=
  id ← wrap "error starting container"
         (act_path (ContainerRun ns spec) (cm_Run (contd d) ns spec));
  ip6 ← (if cnet_PublicIP6 (cc_Network config)
         then
           got ← try (waitContainerIP retries "pub" (mb_Namespace join));
           mret (match got with
                 | inr e => inr (ErrWrap "error reading container ipv6" e)
                 | inl ip =>
                     if (length (cnet_IPs (cc_Network config)) =? 0)%nat
                     then inr (ErrMsg ("no ipv6 found for container " +:+ id))
                     else inl ip
                 end)
         else mret (inl (mb_IPv6 join)));
  mret (match ip6 with
        | inr e => inr e
        | inl ip6 => inl (MkContainerResult id (IP_String ip6) (IP_String (mb_IPv4 join))
                            (IP_String (mb_YggdrasilIP join)))
        end).

Definition delete_and_umount (ns id mnt : string) : PM W unit :=
  ignore (container_delete d ns id) ;; ignore (umount d mnt).

(** Once the network is joined. *)
Definition deploy_container (retries : nat) (r : Reservation) (config : ContainerConfig) (netID : string)
    (env : list string) (logs : list Logs) (join : Member) : PM W ContainerResult :=
  let ns := tenantNS (r_User r) in
  let id := r_ID r in
  got ← on_error (ignore (act_ (NetLeave netID id) (nw_Leave (networkd d) netID id)))
    (let opts := mount_options (cc_Capacity config) in
     mnt ← act_path (FlistNamedMount (FilesystemName r) (cc_FList config) (cc_FlistStorage config) opts)
             (fl_NamedMount (flistd d) (FilesystemName r) (cc_FList config) (cc_FlistStorage config) opts);
     mounts ← prepare_mounts mnt (cc_Mounts config);
     match mounts with
     | inr e => mret (inr e)
     | inl mounts =>
         on_error (delete_and_umount ns id mnt)
           (run_container retries ns
              (container_spec id (mb_Namespace join) mnt env mounts logs config) join config)
     end);
  match got with inl x => mret x | inr e => throw e end.

Definition containerProvisionImpl (retries : nat) (r : Reservation) : PM W ContainerResult :=
  let ns := tenantNS (r_User r) in
  let id := r_ID r in
  config ← lift (dec_ContainerConfig (r_Data r));
  found ← try (call (cm_Inspect (contd d) ns id));
  match found with
  | inl _ =>
      match cnet_IPs (cc_Network config) with
      | ip :: _ => mret (MkContainerResult id "" (IP_String ip) "")
      | [] => panic "index out of range"
      end
  | inr _ =>
      wrap "container provision schema not valid" (lift (validateContainerConfig config)) ;;
      let netID := NetworkID (r_User r) (cnet_NetworkID (cc_Network config)) in
      subnet ← try (call (nw_GetSubnet (networkd d) netID));
      match subnet with
      | inr _ => throw (ErrMsg ("network " +:+ cnet_NetworkID (cc_Network config) +:+
                                " is not installed on this node"))
      | inl _ => mret tt
      end ;;
      for_each (check_volume (r_User r)) (cc_Mounts config) ;;
      secret_env ← decrypt_env (r_User r) (r_Version r) (range (cc_SecretEnv config));
      let env := (env_entry <$> range (cc_Env config)) ++ secret_env in
      logs ← decrypt_logs (r_User r) (r_Version r) (cc_Logs config);
      let net := MkContainerNetworkConfig (IP_String <$> cnet_IPs (cc_Network config))
                   (cnet_PublicIP6 (cc_Network config)) (cnet_YggdrasilIP (cc_Network config)) in
      join ← act mb_Namespace (NetJoin netID id net) (nw_Join (networkd d) netID id net);
      deploy_container retries r config netID env logs join
  end.

Definition containerDecommission (r : Reservation) : PM W unit :=
  let ns := tenantNS (r_User r) in
  let id := r_ID r in
  config ← lift (dec_ContainerConfig (r_Data r));
  found ← try (call (cm_Inspect (contd d) ns id));
  match found with
  | inl info =>
      wrap ("failed to delete container " +:+ id) (container_delete d ns id) ;;
      rootFS ← lift (if ct_Interactive info then findRootFS (ct_Mounts info) else Ok (ct_RootFS info));
      wrap ("failed to unmount flist at " +:+ rootFS) (umount d rootFS)
  | inr _ => mret tt
  end ;;
  let netID := NetworkID (r_User r) (cnet_NetworkID (cc_Network config)) in
  subnet ← try (call (nw_GetSubnet (networkd d) netID));
  match subnet with
  | inl _ => wrap "failed to delete container network namespace"
               (act_ (NetLeave netID id) (nw_Leave (networkd d) netID id))
  | inr _ => mret tt
  end.

End container.

(** ** Lemmas *)

(** Below a base, with clean elements. *)
Definition inside (bs : list string) (path : string) : Prop :=
  exists l, Forall clean_elem l /\ path = String slash (join (bs ++ l)).

Lemma Join_root x : inside [] (Join "/" x).
Proof.
  exists (norm true (Split slash (String slash x))). split; [apply norm_is_clean, Split_no_slash|].
  exact (Clean_rooted (String slash x)).
Qed.

Lemma Split_under bs t : bs <> [] -> Forall clean_elem bs ->
  Split slash (join bs +:+ String slash t) = bs ++ Split slash t.
Proof.
  intros Hne Hbs. induction Hbs as [|b [|b' bs] Hb Hbs IH]; [done| |].
  - apply Split_app, Hb.
  - change (join (b :: b' :: bs)) with (b +:+ String slash (join (b' :: bs))).
    rewrite string_app_assoc. change (String slash (join (b' :: bs)) +:+ String slash t)
      with (String slash (join (b' :: bs) +:+ String slash t)).
    rewrite Split_app by apply Hb. cbn [app]. f_equal. by apply IH.
Qed.

(** Joining a rooted path to a base stays below the base. *)
Lemma Join_inside bs x : bs <> [] -> Forall clean_elem bs ->
  inside bs (Join (String slash (join bs)) (Join "/" x)).
Proof.
  intros Hne Hbs. destruct (Join_root x) as (l & Hl & ->). cbn [app]. exists l. split; [done|].
  unfold Join. cbn [String.eqb].
  change (String slash (join bs) +:+ String slash (String slash (join l)))
    with (String slash (join bs +:+ String slash (String slash (join l)))).
  rewrite Clean_rooted, (Split_under bs _ Hne Hbs).
  change (Split slash (String slash (join l))) with ("" :: Split slash (join l)).
  assert (Hn : norm true (bs ++ "" :: Split slash (join l)) = bs ++ l); [|by rewrite Hn].
  unfold norm. rewrite foldl_app, (foldl_push_clean bs []) by done.
  cbn [foldl]. change (push true (rev bs ++ []) "") with (rev bs ++ []).
  destruct (decide (l = [])) as [->|Hln].
  - cbn. by rewrite !app_nil_r, rev_involutive.
  - rewrite (Split_join l (clean_no_slash l Hl) Hln).
    rewrite (foldl_push_clean l) by done. by rewrite !rev_app_distr, !rev_involutive.
Qed.

Section container_lemmas.
  Context {W : Type} `{NetHash} `{ContainerSchema} (d : Daemons W).

Lemma quiet_check_volume user m : quiet (check_volume d user m).
Proof.
  unfold check_volume. apply quiet_bind; [auto with zos_monad|intros owner].
  destruct (_ =? _)%string; auto with zos_monad.
Qed.

Lemma quiet_for_each {A} (body : A -> PM W unit) l : (forall x, quiet (body x)) -> quiet (for_each body l).
Proof. intros Hb. induction l; cbn [for_each]; [auto with zos_monad|]. by apply quiet_bind. Qed.

Lemma quiet_decrypt_env user v l : quiet (decrypt_env d user v l).
Proof.
  induction l as [|[k x] l IH]; cbn [decrypt_env]; [auto with zos_monad|].
  apply quiet_bind; [apply quiet_wrap, quiet_decryptSecret|intros]. by apply quiet_bind.
Qed.

Lemma quiet_decrypt_log user v secret plain : quiet (decrypt_log d user v secret plain).
Proof.
  unfold decrypt_log. destruct (secret =? "")%string; [auto with zos_monad|].
  apply quiet_wrap, quiet_decryptSecret.
Qed.

Lemma quiet_decrypt_logs user v l : quiet (decrypt_logs d user v l).
Proof.
  induction l as [|c l IH]; cbn [decrypt_logs]; [auto with zos_monad|].
  do 2 (apply quiet_bind; [apply quiet_decrypt_log|intros]). by apply quiet_bind.
Qed.

(** A volume of the user. *)
Definition owned (user : string) (m : Mount) : Prop :=
  exists w w' owner, sys_cache_Get (node d) (mnt_VolumeID m) w = (w', Ok owner) /\ r_User owner = user.

Lemma check_volumes_Ok user l : forall s s' u,
  for_each (check_volume d user) l s = (s', Ok u) -> Forall (owned user) l.
Proof.
  induction l as [|m l IH]; intros s s' u Hrun; [done|]. cbn [for_each] in Hrun.
  ok_bind Hrun s1 u1 H1. constructor; [|by eapply IH]. unfold check_volume in H1.
  ok_bind H1 s2 owner H2. apply wrap_Ok, call_inv in H2 as (w & w' & H2).
  exists w, w', owner. split; [done|]. by destruct (String.eqb_spec (r_User owner) user).
Qed.

(** A mount of a container for a volume that is asked for: the volume's path, at a
    clean path from the root. *)
Definition mounted_at (m : Mount) (i : MountInfo) : Prop :=
  mi_Target i = Join "/" (mnt_Mountpoint m) /\
  exists w w', sm_Path (storaged d) (mnt_VolumeID m) w = (w', Ok (mi_Source i)).

Lemma prepare_mounts_Ok mnt l : forall s s' mounts,
  prepare_mounts d mnt l s = (s', Ok (inl mounts)) -> Forall2 mounted_at l mounts.
Proof.
  induction l as [|m l IH]; intros s s' mounts; cbn [prepare_mounts]; intros Hrun.
  { injection Hrun as <- <-. constructor. }
  ok_bind Hrun s1 made H1. destruct made as [u|e]; [|done].
  ok_bind Hrun s2 source H2. apply wrap_Ok, call_inv in H2 as (w & w' & H2).
  ok_bind Hrun s3 rest H3. destruct rest as [rest|e]; [|done]. injection Hrun as <- <-.
  constructor; [|by eapply IH]. split; [done|]. cbn. by eauto.
Qed.

(** What provisioning a container may ask for. *)
Definition allowed (r : Reservation) (ev : event) : Prop :=
  match ev_op ev with
  | ContainerRun ns spec => ns = tenantNS (r_User r) /\ ct_Name spec = r_ID r /\
      exists config, dec_ContainerConfig (r_Data r) = Ok config /\
        validateContainerConfig config = Ok tt /\
        Forall (owned (r_User r)) (cc_Mounts config) /\
        Forall2 mounted_at (cc_Mounts config) (ct_Mounts spec)
  | ContainerDelete ns id => ns = tenantNS (r_User r) /\ id = r_ID r
  | Mkdir path => exists w w' url storage opts mnt x,
      fl_NamedMount (flistd d) (r_ID r) url storage opts w = (w', Ok mnt) /\ path = Join mnt (Join "/" x)
  | NetJoin _ id _ | NetLeave _ id => id = r_ID r
  | FlistNamedMount name _ _ _ => name = r_ID r
  | FlistUmount _ => True
  | _ => False
  end.

Lemma act_call {A} (show : A -> string) (o : op) (m : M W A) s s' a :
  act show o m s = (s', Ok a) -> exists w w', m w = (w', Ok a).
Proof. unfold act. destruct (m (p_world s)) as [w' []] eqn:E; intros; simplify_eq; eauto. Qed.

Lemma emits_prepare_mounts P mnt l : (forall x out, P (Ran (Mkdir (Join mnt (Join "/" x))) out)) ->
  emits P (prepare_mounts d mnt l).
Proof.
  intros HP. induction l as [|m l IH]; cbn [prepare_mounts]; [auto with zos_monad|].
  apply emits_bind; [apply emits_try, emits_act, HP|intros [|] _ _ _; [|auto with zos_monad]].
  apply emits_bind; [auto with zos_monad|intros source _ _ _].
  apply emits_bind; [exact IH|auto with zos_monad].
Qed.

Lemma quiet_waitContainerIP n i ns : quiet (waitContainerIP d n i ns).
Proof.
  unfold waitContainerIP. apply quiet_wrap, retry_quiet, quiet_bind; [auto with zos_monad|].
  intros ips. destruct (filter _ ips); auto with zos_monad.
Qed.

Lemma emits_run_container P n ns spec join config : (forall out, P (Ran (ContainerRun ns spec) out)) ->
  emits P (run_container d n ns spec join config).
Proof.
  intros HP. unfold run_container. apply emits_bind; [apply emits_wrap, emits_act, HP|intros id _ _ _].
  apply emits_bind; [|auto with zos_monad]. destruct (cnet_PublicIP6 _); [|auto with zos_monad].
  apply emits_bind; [apply emits_quiet, quiet_try, quiet_waitContainerIP|auto with zos_monad].
Qed.

Lemma emits_container retries r : emits (allowed r) (containerProvisionImpl d retries r).
Proof.
  unfold containerProvisionImpl.
  apply emits_bind; [auto with zos_monad|intros config s1 s1' Hdec].
  assert (Hc : dec_ContainerConfig (r_Data r) = Ok config) by (unfold lift in Hdec; congruence).
  apply emits_bind; [auto with zos_monad|intros [_|_] _ _ _].
  { destruct (cnet_IPs _); auto with zos_monad. }
  apply emits_bind; [auto with zos_monad|intros u s2 s2' Hv].
  assert (Hval : validateContainerConfig config = Ok tt)
    by (apply wrap_Ok in Hv; unfold lift in Hv; destruct u; congruence).
  apply emits_bind; [auto with zos_monad|intros subnet _ _ _].
  apply emits_bind; [destruct subnet; auto with zos_monad|intros _ _ _ _].
  apply emits_bind; [apply emits_quiet, quiet_for_each; intros; apply quiet_check_volume|].
  intros u' s3 s3' Hvol. apply check_volumes_Ok in Hvol.
  apply emits_bind; [apply emits_quiet, quiet_decrypt_env|intros env _ _ _].
  apply emits_bind; [apply emits_quiet, quiet_decrypt_logs|intros logs _ _ _].
  apply emits_bind; [by apply emits_act|intros join _ _ _].
  apply emits_bind; [|intros [|] _ _ _; auto with zos_monad].
  apply emits_on_error; [by apply emits_ignore, emits_act|].
  apply emits_bind; [by apply emits_act|intros mnt s4 s4' Hmnt]. apply act_call in Hmnt as (w & w' & Hmnt).
  apply emits_bind; [apply emits_prepare_mounts; intros x out; cbn; by eauto 20|].
  intros [mounts|e] s5 s5' Hm; [|auto with zos_monad]. apply prepare_mounts_Ok in Hm.
  apply emits_on_error.
  - apply emits_bind; [|intros _ _ _ _]; by apply emits_ignore, emits_act.
  - apply emits_run_container. intros out. cbn. by eauto 10.
Qed.

(** The directories that were made for the mounts. *)
Definition made_dirs (mnt : string) (l : list Mount) : list event :=
  (fun m => Ran (Mkdir (Join mnt (Join "/" (mnt_Mountpoint m)))) (inl "")) <$> l.

Lemma prepare_mounts_log mnt l : forall s s' mounts,
  prepare_mounts d mnt l s = (s', Ok (inl mounts)) -> p_log s' = p_log s ++ made_dirs mnt l.
Proof.
  induction l as [|m l IH]; intros s s' mounts; cbn [prepare_mounts]; intros Hrun.
  { injection Hrun as <- <-. by rewrite app_nil_r. }
  ok_bind Hrun s1 made H1. apply try_inv, act_inv in H1; [|by destruct made].
  destruct made as [u|e]; [|done].
  ok_bind Hrun s2 source H2. apply wrap_Ok, quiet_log in H2; [|apply quiet_call].
  ok_bind Hrun s3 rest H3. destruct rest as [rest|e]; [|done]. injection Hrun as <- <-.
  rewrite (IH _ _ _ H3), H2, H1, <- (assoc_L (++)). done.
Qed.

Lemma run_container_rest n ns spec joined config s s' x (k : string -> PM W (ContainerResult + error)) :
  (forall cid, quiet (k cid)) -> (forall cid, no_error (k cid)) ->
  run_container d n ns spec joined config s = (s', x) ->
  (forall p, x <> Panic p) ->
  run_container d n ns spec joined config =
    (id ← wrap "error starting container" (act_path (ContainerRun ns spec) (cm_Run (contd d) ns spec)); k id) ->
  exists out, p_log s' = p_log s ++ [Ran (ContainerRun ns spec) out] /\
    match out with inl _ => is_ok x = true | inr _ => is_ok x = false end.
Proof.
  intros Hq Hk Hrun Hp Heq. rewrite Heq in Hrun. clear Heq. unfold mbind, M_bind in Hrun.
  destruct (wrap _ _ s) as [s1 [cid|e|p]] eqn:Hw in Hrun.
  - apply wrap_Ok, act_Ok in Hw. specialize (Hq cid s1). rewrite Hrun in Hq. cbn in Hq.
    eexists. split; [rewrite Hq, Hw; reflexivity|]. cbn. destruct x as [y|e|p]; [done| |by destruct (Hp p)].
    by destruct (Hk cid _ _ _ Hrun).
  - injection Hrun as <- <-. apply wrap_Err in Hw as (e1 & Hw & _). apply act_inv in Hw; [|done].
    by eexists.
  - injection Hrun as <- <-. by destruct (Hp p).
Qed.

(** The start is the only request, and its failure the only error. *)
Lemma run_container_inv n ns spec joined config s s' x :
  run_container d n ns spec joined config s = (s', x) -> (forall p, x <> Panic p) ->
  exists out, p_log s' = p_log s ++ [Ran (ContainerRun ns spec) out] /\
    match out with inl _ => is_ok x = true | inr _ => is_ok x = false end.
Proof.
  intros Hrun Hp. eapply run_container_rest; [| |exact Hrun|exact Hp|reflexivity]; intros cid.
  - apply quiet_bind; [|auto with zos_monad]. destruct (cnet_PublicIP6 _); [|auto with zos_monad].
    apply quiet_bind; [apply quiet_try, quiet_waitContainerIP|auto with zos_monad].
  - apply no_error_bind; [|intros; apply no_error_ret]. destruct (cnet_PublicIP6 _); [|apply no_error_ret].
    apply no_error_bind; [apply no_error_try|intros; apply no_error_ret].
Qed.

Lemma run_container_Ok n ns spec join config s s' x : run_container d n ns spec join config s = (s', Ok (inl x)) ->
  p_log s' = p_log s ++ [Ran (ContainerRun ns spec) (inl (cr_ID x))] /\
  cr_IPv4 x = IP_String (mb_IPv4 join) /\ cr_IPYgg x = IP_String (mb_YggdrasilIP join).
Proof.
  unfold run_container. intros Hrun. ok_bind Hrun s1 cid H1. apply wrap_Ok, act_Ok in H1.
  ok_bind Hrun s2 ip6 H2. injection Hrun as <- Hx. destruct ip6 as [ip6|e]; [|done].
  injection Hx as <-. cbn. rewrite <- H1. split; [|done]. eapply quiet_log, H2.
  destruct (cnet_PublicIP6 _); [|auto with zos_monad].
  apply quiet_bind; [apply quiet_try, quiet_waitContainerIP|auto with zos_monad].
Qed.

Definition no_failed_run (evs : list event) : Prop :=
  forall ns spec e, Ran (ContainerRun ns spec) (inr e) ∉ evs.

Lemma no_failed_run_app a b : no_failed_run a -> no_failed_run b -> no_failed_run (a ++ b).
Proof. intros Ha Hb ns spec e [Hin|Hin]%elem_of_app; [by eapply Ha|by eapply Hb]. Qed.

Lemma no_failed_run_one o out : (forall ns spec, o <> ContainerRun ns spec) \/ is_ok (match out with inl a => Ok a | inr e => Err e end) = true ->
  no_failed_run [Ran o out].
Proof.
  intros Ho ns spec e Hin%list_elem_of_singleton. injection Hin as <- <-.
  destruct Ho as [Ho|Ho]; [by eapply Ho|done].
Qed.

Lemma emits_no_failed_run {A} (m : PM W A) s s' x :
  emits (fun ev => forall ns spec, ev_op ev <> ContainerRun ns spec) m -> m s = (s', x) ->
  exists evs, p_log s' = p_log s ++ evs /\ no_failed_run evs.
Proof.
  intros Hm Hx. destruct (emits_run _ _ _ _ _ Hm Hx) as (evs & Hl & Hall). exists evs. split; [done|].
  intros ns spec e Hin. by apply (proj1 (Forall_forall _ _) Hall _ Hin ns spec).
Qed.

Lemma held_made_dirs mnt l R : held (made_dirs mnt l) R ⊆ R.
Proof.
  revert R. induction l as [|m l IH]; intros R; [done|]. cbn. etrans; [apply IH|]. cbn. set_solver.
Qed.

(** When the rest fails after the network is joined, what the container took is
    given back if it was its start that failed. *)
Lemma deploy_container_Err retries r config netID env logs joined s s' e :
  deploy_container d retries r config netID env logs joined s = (s', Err e) ->
  exists evs, p_log s' = p_log s ++ evs /\
    (no_failed_run evs \/
     forall R R0 : resources, R0 ⊆ R ∪ {[RMember netID (r_ID r)]} -> held evs R0 ⊆ R).
Proof.
  unfold deploy_container. intros Hrun.
  apply bind_Err_inv in Hrun as [Hrun|(s1 & got & Hok & Hrun)].
  - apply on_error_Err in Hrun as (s1 & y & Hbody & Hleave & Hy).
    apply ignore_inv' in Hleave as (x & Hleave & Hx); [|done]. apply act_inv in Hleave; [|done]. cbn in Hleave.
    apply bind_Err_inv in Hbody as [Hm|(s2 & mnt & Hm & Hbody)].
    { apply act_inv in Hm; [|done]. eexists. split; [rewrite Hleave, Hm, <- (assoc_L (++)); reflexivity|].
      left. apply no_failed_run_app; apply no_failed_run_one; by left. }
    apply act_Ok in Hm. apply bind_Err_inv in Hbody as [Hp|(s3 & mounts & Hp & Hbody)].
    { apply emits_no_failed_run in Hp as (evs & Hp & Hn); [|by apply emits_prepare_mounts].
      eexists. split; [rewrite Hleave, Hp, Hm, <- !(assoc_L (++)); reflexivity|].
      left. apply no_failed_run_app; [apply no_failed_run_one; by left|].
      apply no_failed_run_app; [done|apply no_failed_run_one; by left]. }
    destruct mounts as [mounts|]; [|done]. apply prepare_mounts_log in Hp.
    apply on_error_Err in Hbody as (s4 & z & Hc & Hclean & Hz).
    apply run_container_inv in Hc as ([?|e2] & Hc & Hx'); [done| |done]. apply cleanup_inv in Hclean as (c1 & c2 & Hclean); [|done].
    cbn in Hclean. eexists.
    split; [rewrite Hleave, Hclean, Hc, Hp, Hm, <- !(assoc_L (++)); reflexivity|]. right. intros R R0 HR.
    rewrite !held_app. set (R1 := held (made_dirs _ _) _).
    assert (HR1 : R1 ⊆ R ∪ {[RMember netID (r_ID r)]} ∪ {[RMount mnt]}).
    { subst R1. etrans; [apply held_made_dirs|]. cbn. destruct (mo_ReadOnly _); set_solver. }
    clearbody R1. cbn. destruct c1, c2, x; set_solver.
  - destruct got as [y|e']; [done|]. injection Hrun as <- <-.
    apply on_error_Ok in Hok. ok_bind Hok s2 mnt Hm. apply act_Ok in Hm. ok_bind Hok s3 mounts Hp.
    destruct mounts as [mounts|e2].
    + apply prepare_mounts_log in Hp. apply on_error_Ok in Hok.
      apply run_container_inv in Hok as ([cid|?] & Hok & Hx'); [|done|done].
      eexists. split; [rewrite Hok, Hp, Hm, <- !(assoc_L (++)); reflexivity|]. left.
      repeat apply no_failed_run_app; try (apply no_failed_run_one; first [by left|by right]).
      unfold made_dirs. intros ns spec e2 Hin. by apply list_elem_of_fmap in Hin as (m & Hx & _).
    + injection Hok as <- <-. apply emits_no_failed_run in Hp as (evs & Hp & Hn); [|by apply emits_prepare_mounts].
      eexists. split; [rewrite Hp, Hm, <- !(assoc_L (++)); reflexivity|]. left.
      apply no_failed_run_app; [apply no_failed_run_one; by left|done].
Qed.

End container_lemmas.

(** ** Properties *)

(** The next question of a run that fails; [Hs] says that nothing was asked for so
    far, and [Hno] is for when it stays so. *)
Ltac asks Hrun Hno Hs s a tac :=
  apply ask_Err in Hrun;
  [destruct Hrun as [Hask|(s & a & Hask & Hrun)];
   [apply Hno; congruence|apply (eq_trans Hask) in Hs; clear Hask]
  |solve [tac]].

Section container_properties.
  Context {W : Type} `{NetHash} `{ContainerSchema} (d : Daemons W).

(** C11 (safety): a container is started only in the name space of the user of the
    reservation and under the id of the reservation, from a valid description,
    and with the volumes of that user only: each is cached as a reservation of
    the user, and is mounted where it was asked for, at a path made clean from
    the root of the container. *)
Theorem containerProvision_owned retries r s s' x evs ns spec out :
  containerProvisionImpl d retries r s = (s', x) -> p_log s' = p_log s ++ evs ->
  Ran (ContainerRun ns spec) out ∈ evs ->
  ns = tenantNS (r_User r) /\ ct_Name spec = r_ID r /\
  exists config, dec_ContainerConfig (r_Data r) = Ok config /\
    validateContainerConfig config = Ok tt /\
    Forall (fun m => exists w w' owner,
      sys_cache_Get (node d) (mnt_VolumeID m) w = (w', Ok owner) /\ r_User owner = r_User r)
      (cc_Mounts config) /\
    Forall2 (fun m i => mi_Target i = Join "/" (mnt_Mountpoint m) /\
      exists w w', sm_Path (storaged d) (mnt_VolumeID m) w = (w', Ok (mi_Source i)))
      (cc_Mounts config) (ct_Mounts spec).
Proof.
  intros Hrun Hl Hin. destruct (emits_run _ _ _ _ _ (emits_container d retries r) Hrun) as (evs' & Hl' & Hall).
  assert (evs' = evs) as -> by (rewrite Hl in Hl'; by apply app_inv_head in Hl').
  exact (proj1 (Forall_forall _ _) Hall _ Hin).
Qed.

(** The directories that are made for the mounts of a container are all
    inside of its root file system, whatever the mount points that were asked
    for say: no "..", slash or empty name leads out of it. The flist daemon mounts
    at a clean path. *)
Theorem containerProvision_dirs_inside retries r s s' x evs path out :
  (forall url storage opts w w' mnt,
     fl_NamedMount (flistd d) (r_ID r) url storage opts w = (w', Ok mnt) -> base_ok mnt) ->
  containerProvisionImpl d retries r s = (s', x) -> p_log s' = p_log s ++ evs ->
  Ran (Mkdir path) out ∈ evs ->
  exists mnt root rest, (exists url storage opts w w',
      fl_NamedMount (flistd d) (r_ID r) url storage opts w = (w', Ok mnt)) /\
    mnt = String slash (join root) /\ Forall clean_elem rest /\
    path = String slash (join (root ++ rest)).
Proof.
  intros Hbase Hrun Hl Hin.
  destruct (emits_run _ _ _ _ _ (emits_container d retries r) Hrun) as (evs' & Hl' & Hall).
  assert (evs' = evs) as -> by (rewrite Hl in Hl'; by apply app_inv_head in Hl').
  destruct (proj1 (Forall_forall _ _) Hall _ Hin) as (w & w' & u & st & o & mnt & p & Hm & ->).
  destruct (Hbase _ _ _ _ _ _ Hm) as (bs & Hne & Hbs & ->).
  destruct (Join_inside bs p Hne Hbs) as (l & Hcl & ->). by eauto 15.
Qed.

(** A container that is provisioned either runs already, and then
    nothing is asked for, or it joins its network, its flist is mounted with the
    size and the type of disk it asked for, the directories of its mounts are
    made and it is started, in this order; its environment is what it asked for
    followed by its decrypted secrets, and its memory is given in bytes. *)
Theorem containerProvision_runs retries r config s s' x :
  dec_ContainerConfig (r_Data r) = Ok config -> containerProvisionImpl d retries r s = (s', Ok x) ->
  p_log s' = p_log s \/
  exists cfg join mnt env mounts logs,
    let netID := NetworkID (r_User r) (cnet_NetworkID (cc_Network config)) in
    let spec := container_spec (r_ID r) (mb_Namespace join) mnt
                  ((env_entry <$> range (cc_Env config)) ++ env) mounts logs config in
    p_log s' = p_log s ++ Ran (NetJoin netID (r_ID r) cfg) (inl (mb_Namespace join)) ::
      Ran (FlistNamedMount (r_ID r) (cc_FList config) (cc_FlistStorage config)
             (mount_options (cc_Capacity config))) (inl mnt) ::
      made_dirs mnt (cc_Mounts config) ++ [Ran (ContainerRun (tenantNS (r_User r)) spec) (inl (cr_ID x))] /\
    cn_IPs cfg = IP_String <$> cnet_IPs (cc_Network config) /\
    cr_IPv4 x = IP_String (mb_IPv4 join) /\ cr_IPYgg x = IP_String (mb_YggdrasilIP join).
Proof.
  intros Hdec. unfold containerProvisionImpl. rewrite Hdec. intros Hrun.
  ok_bind Hrun s1 c H1. injection H1 as <- <-.
  ok_bind Hrun s2 found H2. apply quiet_log in H2; [|apply quiet_try, quiet_call]. rewrite <- H2. clear H2.
  destruct found as [_|_].
  { left. destruct (cnet_IPs (cc_Network config)); [done|]. by injection Hrun as <- _. }
  right. ok_bind Hrun s3 u3 H3. apply quiet_log in H3; [|auto with zos_monad].
  ok_bind Hrun s4 subnet H4. apply quiet_log in H4; [|apply quiet_try, quiet_call].
  ok_bind Hrun s5 u5 H5. apply quiet_log in H5; [|destruct subnet; auto with zos_monad].
  ok_bind Hrun s6 u6 H6. apply quiet_log in H6; [|apply quiet_for_each; intros; apply quiet_check_volume].
  ok_bind Hrun s7 env H7. apply quiet_log in H7; [|apply quiet_decrypt_env].
  ok_bind Hrun s8 logs H8. apply quiet_log in H8; [|apply quiet_decrypt_logs].
  ok_bind Hrun s9 joined H9. apply act_Ok in H9.
  ok_bind Hrun s10 got H10. apply on_error_Ok in H10.
  destruct got as [y|e]; [|done]. injection Hrun as <- <-.
  ok_bind H10 s11 mnt H11. apply act_Ok in H11. ok_bind H10 s12 mounts H12.
  destruct mounts as [mounts|e]; [|done]. apply prepare_mounts_log in H12.
  apply on_error_Ok, run_container_Ok in H10 as (H10 & H4' & Hy).
  eexists _, joined, mnt, env, mounts, logs. cbn zeta.
  split; [|split; [|split; [exact H4'|exact Hy]]].
  - rewrite H10, H12, H11, H9, H8, H7, H6, H5, H4, H3, <- !(assoc_L (++)). reflexivity.
  - reflexivity.
Qed.

(** C33 (safety): a container that cannot be started leaves nothing behind: when its
    start fails, it has left its network again, its root file system is
    unmounted and the container deleted. *)
Theorem containerProvision_gives_back retries r s s' e evs ns spec e1 (R : resources) :
  containerProvisionImpl d retries r s = (s', Err e) -> p_log s' = p_log s ++ evs ->
  Ran (ContainerRun ns spec) (inr e1) ∈ evs -> held evs R ⊆ R.
Proof.
  intros Hrun Hl Hin.
  assert (Hno : p_log s' = p_log s -> held evs R ⊆ R).
  { intros Hs. rewrite Hs in Hl. rewrite <- (app_nil_r (p_log s)) in Hl at 1.
    apply app_inv_head in Hl as <-. done. }
  assert (Hs : p_log s = p_log s) by done. unfold containerProvisionImpl in Hrun.
  asks Hrun Hno Hs s1 config ltac:(auto with zos_monad).
  asks Hrun Hno Hs s2 found ltac:(apply quiet_try, quiet_call).
  destruct found as [_|_]; [by destruct (cnet_IPs _)|].
  asks Hrun Hno Hs s3 u3 ltac:(auto with zos_monad).
  asks Hrun Hno Hs s4 subnet ltac:(apply quiet_try, quiet_call).
  asks Hrun Hno Hs s5 u5 ltac:(destruct subnet; auto with zos_monad).
  asks Hrun Hno Hs s6 u6 ltac:(apply quiet_for_each; intros; apply quiet_check_volume).
  asks Hrun Hno Hs s7 env ltac:(apply quiet_decrypt_env).
  asks Hrun Hno Hs s8 logs ltac:(apply quiet_decrypt_logs).
  rewrite <- Hs in Hl. clear Hno Hs.
  apply bind_Err_inv in Hrun as [Hrun|(s9 & joined & Hj & Hrun)].
  { apply act_inv in Hrun; [|done]. rewrite Hl in Hrun. apply app_inv_head in Hrun as ->.
    by apply no_failed_run_one in Hin; [|left]. }
  apply act_Ok in Hj. apply deploy_container_Err in Hrun as (evs' & Hl' & Hcase).
  rewrite Hl', Hj, <- (assoc_L (++)) in Hl. apply app_inv_head in Hl as <-.
  destruct Hcase as [Hn|Hgone].
  - exfalso. apply elem_of_app in Hin as [Hin|Hin]; [|by eapply Hn].
    by apply no_failed_run_one in Hin; [|left].
  - rewrite held_app. apply Hgone. cbn. set_solver.
Qed.

End container_properties.

(** ** The definitions at work *)
Module ContainerDemo.

Import BusDemo.

Definition cfg : ContainerConfig :=
  MkContainerConfig "https://hub/x.flist" "" {["A" := "b"]} ∅ "/bin/sh" false
    [MkMount "3-1" "../../etc"; MkMount "3-2" "data"]
    (MkNetwork "net" [[10; 1; 2; 3]] true false) (MkCapacity 1 128 SSDDevice 512)
    [MkLogsConfig "redis" "redis://out" "redis://err" "" ""] [].

#[export] Instance schema : ContainerSchema := {|
  dec_ContainerConfig _ := Ok cfg;
  range := map_to_list;
  range_perm m := reflexivity _
|}.

#[export] Instance hash : NetHash := fun s => s.

Definition r : Reservation := demo_reservation "5-1" ContainerReservation "".

Definition run (fail : list string) : PState unit * res ContainerResult :=
  containerProvisionImpl (daemons (failing fail)) 1 r start.

(** A container that does not run yet. *)
Definition fresh : list string := ["Inspect"].

Definition dirs (evs : list event) : list string :=
  omap (fun ev => match ev_op ev with Mkdir p => Some p | _ => None end) evs.

Example fresh_container :
  snd (run fresh) = Ok (MkContainerResult "5-1" "2a10:b402::7" "10.1.2.3" "<nil>") /\
  dirs (p_log (fst (run fresh))) = ["/roots/5-1/etc"; "/roots/5-1/data"].
Proof. split; vm_compute; reflexivity. Qed.

(** On these errors the clean-ups see no error, or are not there yet: the network
    stays joined, and the root file system mounted. *)
Example containerProvision_leaks :
  is_ok (snd (run ["Inspect"; "MkdirAll"])) = false /\
  elements (held (p_log (fst (run ["Inspect"; "MkdirAll"]))) ∅) ≡ₚ
    [RMember "usernet" "5-1"; RMount "/roots/5-1"] /\
  is_ok (snd (run ["Inspect"; "Path"])) = false /\
  elements (held (p_log (fst (run ["Inspect"; "Path"]))) ∅) = [RMount "/roots/5-1"] /\
  is_ok (snd (run ["Inspect"; "Addrs"])) = false /\
  length (elements (held (p_log (fst (run ["Inspect"; "Addrs"]))) ∅)) = 3%nat.
Proof.
  split_and!; try (vm_compute; reflexivity).
  vm_compute. apply Permutation_swap || reflexivity.
Qed.

Definition started_spec (fail : list string) : option ContainerSpec :=
  head (omap (fun ev => match ev_op ev with ContainerRun _ c => Some c | _ => None end)
    (p_log (fst (run fail)))).

Definition spec : ContainerSpec := default (container "") (started_spec fresh).

Lemma containerProvision_owned_witness :
  "nsuser" = tenantNS (r_User r) /\ ct_Name spec = "5-1" /\
  exists config, dec_ContainerConfig (r_Data r) = Ok config /\ validateContainerConfig config = Ok tt.
Proof.
  destruct (containerProvision_owned (daemons (failing fresh)) 1 r start (fst (run fresh)) (snd (run fresh))
    (p_log (fst (run fresh))) "nsuser" spec (inl "5-1")) as (Hns & Hid & config & Hdec & Hv & _).
  - vm_compute. reflexivity.
  - reflexivity.
  - vm_compute. do 4 right. left.
  - split; [exact Hns|]. split; [exact Hid|]. exists config. split; [exact Hdec|exact Hv].
Defined.

Lemma containerProvision_dirs_inside_witness :
  exists mnt root rest, (exists url storage opts w w',
      fl_NamedMount (flistd (daemons (failing fresh))) "5-1" url storage opts w = (w', Ok mnt)) /\
    mnt = String slash (join root) /\ Forall clean_elem rest /\
    "/roots/5-1/etc" = String slash (join (root ++ rest)).
Proof.
  apply (containerProvision_dirs_inside (daemons (failing fresh)) 1 r start (fst (run fresh))
    (snd (run fresh)) (p_log (fst (run fresh))) "/roots/5-1/etc" (inl "")).
  - intros url storage opts w w' mnt. cbn. intros [= <- <-]. exists ["roots"; "5-1"].
    split; [discriminate|]. split; [|reflexivity]. repeat constructor; discriminate.
  - vm_compute. reflexivity.
  - reflexivity.
  - vm_compute. do 2 right. left.
Defined.

Lemma containerProvision_runs_witness :
  p_log (fst (run fresh)) = [] \/ length (p_log (fst (run fresh))) = 5%nat.
Proof.
  destruct (containerProvision_runs (daemons (failing fresh)) 1 r cfg start (fst (run fresh))
    (MkContainerResult "5-1" "2a10:b402::7" "10.1.2.3" "<nil>")) as [Hl|(? & ? & ? & ? & ? & ? & Hl & _)].
  - reflexivity.
  - vm_compute. reflexivity.
  - left. exact Hl.
  - right. rewrite Hl. reflexivity.
Defined.

Lemma containerProvision_gives_back_witness :
  held (p_log (fst (run ["Inspect"; "Run"]))) ∅ ⊆ ∅.
Proof.
  eapply (containerProvision_gives_back (daemons (failing ["Inspect"; "Run"])) 1 r start
    (fst (run ["Inspect"; "Run"])) (ErrWrap "error starting container" (ErrMsg "Run failed: not found"))
    (p_log (fst (run ["Inspect"; "Run"]))) "nsuser" spec (ErrMsg "Run failed: not found") ∅).
  - vm_compute. reflexivity.
  - reflexivity.
  - vm_compute. do 4 right. left.
Defined.

End ContainerDemo.
