(* ===== verification/Primitives.v ===== *)
(** The other workloads and the table of all of them:
    src/pkg/provision/primitives/volume.go, network.go, public_ip.go, debug.go
    and provisioner.go, with [NetResource.Valid] of src/pkg/network.go.

    [Provisioners] and [Decommissioners] are the maps that the engine is given;
    the world of the engine is then the state of the provisioners. *)

From stdpp Require Import gmap strings list.
From Stdlib Require Import Ascii ZArith Lia.
From S2P Require Import Prelude Reservation Counters Cache Engine Source NetIP NetTypes Storage.
From S2P Require Import Disk Bus VmPrim ZdbPrim ContainerPrim.

Open Scope Z_scope.
Open Scope go_scope.

(** ** Data *)

(** What a provisioner returns, by kind of workload; networks and debug
    workloads return nil. *)
Inductive Info :=
| InfoNil
| InfoVolume (id : string)
| InfoContainer (x : ContainerResult)
| InfoZDB (x : ZDBResult)
| InfoVM (x : VMResult)
| InfoPublicIP (id ip : string).

Record Debug := MkDebug { dbg_Host : string; dbg_Port : Z; dbg_Channel : string }.

Class Schemas := {
  dec_NetResource : string -> res NetResource;
  dec_PublicIP : string -> res IPNet;
  dec_Debug : string -> res Debug
}.

(** ** Network resources *)

Definition Peer_Valid (p : Peer) : res unit :=
  if (peer_WGPublicKey p =? "")%string then Err (ErrMsg "peer wireguard public key cannot empty")
  else if IPNet_Nil (peer_Subnet p) then Err (ErrMsg "peer wireguard subnet cannot empty")
  else if (length (peer_AllowedIPs p) <=? 0)%nat then
    Err (ErrMsg "peer wireguard allowedIPs cannot empty")
  else Ok tt.

Fixpoint Peers_Valid (l : list Peer) : res unit :=
  match l with
  | [] => Ok tt
  | p :: l => match Peer_Valid p with Ok _ => Peers_Valid l | x => x end
  end.

Definition NetResource_Valid (nr : NetResource) : res unit :=
  if (nr_NetID nr =? "")%string then Err (ErrMsg "network ID cannot be empty")
  else if (nr_Name nr =? "")%string then Err (ErrMsg "network name cannot be empty")
  else if IPNet_Nil (nr_NetworkIPRange nr) then Err (ErrMsg "network IP range cannot be empty")
  else if (nr_NodeID nr =? "")%string then Err (ErrMsg "network resource node ID cannot empty")
  else if (length (net_IP (nr_Subnet nr)) =? 0)%nat then
    Err (ErrMsg "network resource subnet cannot empty")
  else if (nr_WGPrivateKey nr =? "")%string then
    Err (ErrMsg "network resource wireguard private key cannot empty")
  else if (nr_WGPublicKey nr =? "")%string then
    Err (ErrMsg "network resource wireguard public key cannot empty")
  else if nr_WGListenPort nr =? 0 then
    Err (ErrMsg "network resource wireguard listen port cannot empty")
  else Peers_Valid (nr_Peers nr).

Definition set_NetID (id : string) (nr : NetResource) : NetResource :=
  MkNetResource (nr_Name nr) id (nr_NetworkIPRange nr) (nr_NodeID nr) (nr_Subnet nr)
    (nr_WGPrivateKey nr) (nr_WGPublicKey nr) (nr_WGListenPort nr) (nr_Peers nr).

(** ** Public addresses *)

Definition PublicIP_Valid (ip : IPNet) : res unit :=
  if (length (net_IP ip) =? 0)%nat then Err (ErrMsg "empty ip value")
  else match To4 (net_IP ip) with None => Err (ErrMsg "invalid ip format") | Some _ => Ok tt end.

Definition filterName (reservationID : string) : string := "r-" +:+ reservationID.

(** [strings.Replace(s, c, "", -1)] for a character. *)
Fixpoint remove_char (c : ascii) (s : string) : string :=
  match s with
  | EmptyString => EmptyString
  | String a s => if Ascii.eqb a c then remove_char c s else String a (remove_char c s)
  end.

Definition set_at (i : nat) (b : Z) (l : list Z) : list Z := <[i := b]> l.

(** The address that a host with this hardware address gives itself in the net
    of [base]. An address or a hardware address that is too short panics. *)
Definition predictedSlaac (base : IP) (mac : string) : res string :=
  match hex_DecodeString (remove_char ":" mac) with
  | Ok hw =>
      match bytes_of hw with
      | h0 :: h1 :: h2 :: h3 :: h4 :: h5 :: _ =>
          if (length base <? 16)%nat then Panic "index out of range"
          else Ok (IP_String
            (set_at 15 h5 (set_at 14 h4 (set_at 13 h3 (set_at 12 254 (set_at 11 255
              (set_at 10 h2 (set_at 9 h1 (set_at 8 (Z.lxor h0 2) base)))))))))
      | _ => Panic "index out of range"
      end
  | Err _ => Err (ErrMsg ("Could not parse MAC address " +:+ mac))
  | Panic m => Panic m
  end.

Definition in_quotes (s : string) : string := "'" +:+ s +:+ "'" +:+ String newline EmptyString.

(** The rules of a public address, line by line; comments and empty lines of the
    script are left out. *)
Definition setup_script (fName iface ip ipv6 mac : string) : string :=
  String.concat "" ((fun cmd => "nft " +:+ in_quotes cmd) <$> [
    "add chain arp filter " +:+ fName;
    "add chain bridge filter " +:+ fName;
    "add rule arp filter input iifname " +:+ quoted iface +:+ " jump " +:+ fName;
    "add rule bridge filter forward iifname " +:+ quoted iface +:+ " jump " +:+ fName;
    "add rule arp filter " +:+ fName +:+ " arp operation reply arp saddr ip . arp saddr ether != { "
      +:+ ip +:+ " . " +:+ mac +:+ " } drop";
    "add rule bridge filter " +:+ fName +:+ " ip saddr . ether saddr != { " +:+ ip +:+ " . " +:+ mac
      +:+ " } counter drop";
    "add rule bridge filter " +:+ fName +:+ " ip6 saddr . ether saddr != { " +:+ ipv6 +:+ " . " +:+ mac
      +:+ " } counter drop";
    "add rule bridge filter " +:+ fName +:+ " icmpv6 type nd-router-advert drop";
    "add rule bridge filter " +:+ fName +:+ " ip6 version 6 udp sport 547 drop";
    "add rule bridge filter " +:+ fName +:+ " ip version 4 udp sport 67 drop"]).

Definition handle_of (family kind fName : string) : string :=
  "a=$( nft -a list table " +:+ family +:+ " filter | awk '/" +:+ kind +:+ " " +:+ fName
    +:+ "/{ print $NF}' )" +:+ String newline EmptyString.

Definition delete_handle (what : string) : string :=
  "nft 'delete " +:+ what +:+ " handle '${a}" +:+ String newline EmptyString.

Definition teardown_family (family rule_chain fName : string) : string :=
  "nft " +:+ in_quotes ("flush chain " +:+ family +:+ " filter " +:+ fName) +:+
  handle_of family "jump" fName +:+ delete_handle ("rule " +:+ family +:+ " filter " +:+ rule_chain) +:+
  handle_of family "chain" fName +:+ delete_handle ("chain " +:+ family +:+ " filter").

Definition teardown_script (fName : string) : string :=
  teardown_family "bridge" "forward" fName +:+ teardown_family "arp" "input" fName.

Section primitives.
  Context {W : Type} `{NetHash} `{MD5} `{Decoders} `{VMSchemas} `{ContainerSchema} `{Schemas}
    (d : Daemons W).

(** The rounds that retries and installations have time for. *)
Context (rounds : nat).

(** ** Volumes *)

Definition volumeProvisionImpl (r : Reservation) : PM W string :=
  config ← lift (dec_Volume (r_Data r));
  deployed ← try (call (sm_Path (storaged d) (r_ID r)));
  match deployed with
  | inl _ => mret (r_ID r)
  | inr _ =>
      let size := vol_Size config *u gib in
      act_path (CreateFilesystem (FilesystemName r) size (vol_Type config))
        (sm_CreateFilesystem (storaged d) (FilesystemName r) size (vol_Type config)) ;;
      mret (r_ID r)
  end.

Definition volumeDecommission (r : Reservation) : PM W unit :=
  act_ (ReleaseFilesystem (r_ID r)) (sm_ReleaseFilesystem (storaged d) (r_ID r)).

(** ** Networks *)

Definition networkProvisionImpl (r : Reservation) : PM W unit :=
  nr ← wrap "failed to unmarshal network from reservation" (lift (dec_NetResource (r_Data r)));
  wrap "validation of the network resource failed" (lift (NetResource_Valid nr)) ;;
  let nr := set_NetID (NetworkID (r_User r) (nr_Name nr)) nr in
  wrap ("failed to create network resource for network " +:+ nr_NetID nr)
    (act_path (NetCreateNR nr) (nw_CreateNR (networkd d) nr)) ;;
  mret tt.

Definition networkDecommission (r : Reservation) : PM W unit :=
  nr ← wrap "failed to unmarshal network from reservation" (lift (dec_NetResource (r_Data r)));
  let nr := set_NetID (NetworkID (r_User r) (nr_Name nr)) nr in
  wrap "failed to delete network resource" (act_ (NetDeleteNR nr) (nw_DeleteNR (networkd d) nr)).

(** ** Public addresses *)

Definition sh (script : string) : PM W unit :=
  wrap "could not setup firewall rules for public ip" (act_ (Shell script) (sys_sh (node d) script)).

Definition publicIPProvisionImpl (r : Reservation) : PM W (string * string) :=
  config ← wrap "failed to decode reservation schema" (lift (dec_PublicIP (r_Data r)));
  wrap "failed to validate ip reservation" (lift (PublicIP_Valid config)) ;;
  pubIP6Base ← wrap "could not look up ipv6 prefix" (call (nw_GetPublicIPv6Subnet (networkd d)));
  let tapName := "p-" +:+ r_ID r in
  let mac := hw_String (HardwareAddrFromInputBytes (bytes_of (r_ID r))) in
  predictedIPv6 ← wrap "could not look up ipv6 prefix" (lift (predictedSlaac (net_IP pubIP6Base) mac));
  sh (setup_script (filterName (r_ID r)) tapName (IP_String (default [] (To4 (net_IP config))))
        predictedIPv6 mac) ;;
  mret (r_ID r, IP_String (net_IP config)).

Definition publicIPDecomission (r : Reservation) : PM W unit :=
  ignore (sh (teardown_script (filterName (r_ID r)))) ;;
  act_ (NetRemovePubTap (r_ID r)) (nw_RemovePubTap (networkd d) (r_ID r)).

(** ** Debug *)

Definition zlf_name (ID : string) : string := "zlf-debug-" +:+ ID.

Definition startZLF (ID : string) (cfg : Debug) : PM W string :=
  path ← wrap "failed to start zlf" (call (sys_LookPath (node d) "zlf"));
  wrap "fail to connect to zinit" (call (zi_New (zinit d))) ;;
  self ← call (id_NodeID (identityd d));
  let channel := if (dbg_Channel cfg =? "")%string then self +:+ "-logs" else dbg_Channel cfg in
  let exec := path +:+ " --host " +:+ dbg_Host cfg +:+ " --port " +:+ FormatInt (dbg_Port cfg) +:+
              " --channel " +:+ channel in
  let name := zlf_name ID in
  wrap "fail to add init service to zinit"
    (act_ (ZinitAdd name exec) (zi_AddService (zinit d) name exec)) ;;
  wrap "failed to start monitoring zlf service"
    (act_ (ZinitMonitor name) (zi_Monitor (zinit d) name)) ;;
  mret name.

(** A service whose name contains the one that is looked for is taken for it. *)
Definition stopZLF (ID : string) : PM W unit :=
  wrap "fail to connect to zinit" (call (zi_New (zinit d))) ;;
  let name := zlf_name ID in
  services ← wrap "failed to list zinit services" (call (zi_List (zinit d)));
  if negb (existsb (fun s => Contains s name) services) then mret tt
  else
    wrap ("failed to stop " +:+ name +:+ " zlf service") (act_ (ZinitStop name) (zi_Stop (zinit d) name)) ;;
    wrap ("failed to forget " +:+ name +:+ " zlf service")
      (act_ (ZinitForget name) (zi_Forget (zinit d) name)) ;;
    wrap ("failed to delete " +:+ name +:+ " zlf service")
      (act_ (ZinitRemove name) (zi_RemoveService (zinit d) name)).

Definition debugProvision (r : Reservation) : PM W unit :=
  cfg ← lift (dec_Debug (r_Data r));
  startZLF (r_ID r) cfg ;; mret tt.

Definition debugDecommission (r : Reservation) : PM W unit := stopZLF (r_ID r).

(** ** The tables *)

Definition returning {A} (f : A -> Info) (m : PM W A) : PM W Info := x ← m; mret (f x).

Definition Provisioners : gmap string (Reservation -> PM W Info) :=
  list_to_map [
    (ContainerReservation, fun r => returning InfoContainer (containerProvisionImpl d rounds r));
    (VolumeReservation, fun r => returning InfoVolume (volumeProvisionImpl r));
    (NetworkReservation, fun r => returning (fun _ => InfoNil) (networkProvisionImpl r));
    (NetworkResourceReservation, fun r => returning (fun _ => InfoNil) (networkProvisionImpl r));
    (ZDBReservation, fun r => returning InfoZDB (zdbProvisionImpl d rounds r));
    (DebugReservation, fun r => returning (fun _ => InfoNil) (debugProvision r));
    (KubernetesReservation, fun r => returning InfoVM (kubernetesProvisionImpl d rounds r));
    (PublicIPReservation, fun r => returning (fun x => InfoPublicIP x.1 x.2) (publicIPProvisionImpl r));
    (VirtualMachineReservation, fun r => returning InfoVM (virtualMachineProvisionImpl d r))].

Definition Decommissioners : gmap string (Reservation -> PM W unit) :=
  list_to_map [
    (ContainerReservation, containerDecommission d);
    (VolumeReservation, volumeDecommission);
    (NetworkReservation, networkDecommission);
    (NetworkResourceReservation, networkDecommission);
    (ZDBReservation, zdbDecommission d rounds);
    (DebugReservation, debugDecommission);
    (KubernetesReservation, vmDecomission d);
    (PublicIPReservation, publicIPDecomission);
    (VirtualMachineReservation, vmDecomission d)].

(** [RuntimeUpgrade]: the error is dropped. *)
Definition RuntimeUpgrade : PM W unit := ignore (upgradeRunningZdb d).

End primitives.

(** The storage daemon in front of the storage module; [uuid] is the name of the
    next 0-db volume. *)
Definition storage_module {W : Type} `{PoolOps W} `{Sorter} (uuid : string) (pools : list string) :
    StorageModule W := {|
  sm_Path name := fs ← Storage.Path pools name; mret (f_Path fs);
  sm_CreateFilesystem name size t := fs ← Storage.CreateFilesystem pools name size t; mret (f_Path fs);
  sm_ReleaseFilesystem name := Storage.ReleaseFilesystem pools name;
  sm_Allocate ns t size mode := Storage.Allocate pools uuid ns t size mode;
  sm_Find ns := Storage.Find pools ns
|}.

(** ** Volumes *)

Lemma volume_size_eq n : 0 <= n < W64 ->
  0 <= (n *u gib)%go < W64 /\ ((n *u gib)%go = n * gib <-> n < 2 ^ 34) /\
  ((n *u gib)%go = 0 <-> (2 ^ 34 | n)).
Proof.
  intros Hn. unfold u64_mul, u64. assert (HW : W64 = 2 ^ 34 * gib) by reflexivity.
  split; [|split].
  - apply Z.mod_pos_bound. reflexivity.
  - split; intros H.
    + assert (Hb : 0 <= (n * gib) mod W64 < W64) by (apply Z.mod_pos_bound; reflexivity).
      rewrite HW in Hb, H. unfold gib in *. lia.
    + apply Z.mod_small. rewrite HW. unfold gib. lia.
  - rewrite HW. rewrite Z.mul_mod_distr_r by done.
    rewrite <- Z.mod_divide by done. unfold gib. lia.
Qed.

(** ** What a workload may ask for *)

(** Kubernetes nodes are machines too. *)
Definition is_machine (r : Reservation) : Prop :=
  r_Type r = KubernetesReservation \/ r_Type r = VirtualMachineReservation.

(** The requests of the workloads of each type: on the disks, containers, machines, rules
    and services that are named by the reservation, on the networks of its user, and for a
    0-db on the container that it shares with others. *)
Inductive own `{NetHash} (r : Reservation) : op -> Prop :=
| own_volume size t : r_Type r = VolumeReservation -> own r (CreateFilesystem (FilesystemName r) size t)
| own_volume_release : r_Type r = VolumeReservation -> own r (ReleaseFilesystem (r_ID r))
| own_network nr name : r_Type r = NetworkReservation \/ r_Type r = NetworkResourceReservation ->
    nr_NetID nr = NetworkID (r_User r) name -> own r (NetCreateNR nr)
| own_network_delete nr name : r_Type r = NetworkReservation \/ r_Type r = NetworkResourceReservation ->
    nr_NetID nr = NetworkID (r_User r) name -> own r (NetDeleteNR nr)
| own_join net cfg : r_Type r = ContainerReservation -> own r (NetJoin (NetworkID (r_User r) net) (r_ID r) cfg)
| own_leave net : r_Type r = ContainerReservation -> own r (NetLeave (NetworkID (r_User r) net) (r_ID r))
| own_rootfs url storage opts : r_Type r = ContainerReservation -> own r (FlistNamedMount (FilesystemName r) url storage opts)
| own_rootfs_umount path : r_Type r = ContainerReservation -> own r (FlistUmount path)
| own_mkdir path : r_Type r = ContainerReservation -> own r (Mkdir path)
| own_container c : r_Type r = ContainerReservation -> ct_Name c = r_ID r -> own r (ContainerRun (tenantNS (r_User r)) c)
| own_container_delete : r_Type r = ContainerReservation -> own r (ContainerDelete (tenantNS (r_User r)) (r_ID r))
| own_zdb_volume t size mode : r_Type r = ZDBReservation -> own r (ZDBAllocate (r_ID r) t size mode)
| own_zdb_release volume : r_Type r = ZDBReservation -> own r (ReleaseFilesystem volume)
| own_zdb_flist opts : r_Type r = ZDBReservation -> own r (FlistMount zdbFlistURL "" opts)
| own_zdb_umount path : r_Type r = ZDBReservation -> own r (FlistUmount path)
| own_zdb_prepare hw : r_Type r = ZDBReservation -> own r (NetZDBPrepare hw)
| own_zdb_destroy ns : r_Type r = ZDBReservation -> own r (NetZDBDestroy ns)
| own_zdb_dir id : r_Type r = ZDBReservation -> own r (Mkdir (socketDir id))
| own_zdb_socket id : r_Type r = ZDBReservation -> own r (RemoveFile (socketFile id))
| own_zdb_run c : r_Type r = ZDBReservation -> own r (ContainerRun zdbContainerNS c)
| own_zdb_delete id : r_Type r = ZDBReservation -> own r (ContainerDelete zdbContainerNS id)
| own_zdb_create db : r_Type r = ZDBReservation -> own r (ZdbCreateNamespace db (r_ID r))
| own_zdb_remove db : r_Type r = ZDBReservation -> own r (ZdbDeleteNamespace db (r_ID r))
| own_zdb_password db password : r_Type r = ZDBReservation -> own r (ZdbSetPassword db (r_ID r) password)
| own_zdb_public db public : r_Type r = ZDBReservation -> own r (ZdbSetPublic db (r_ID r) public)
| own_zdb_size db size : r_Type r = ZDBReservation -> own r (ZdbSetSize db (r_ID r) size)
| own_service exec : r_Type r = DebugReservation -> own r (ZinitAdd (zlf_name (r_ID r)) exec)
| own_service_monitor : r_Type r = DebugReservation -> own r (ZinitMonitor (zlf_name (r_ID r)))
| own_service_stop : r_Type r = DebugReservation -> own r (ZinitStop (zlf_name (r_ID r)))
| own_service_forget : r_Type r = DebugReservation -> own r (ZinitForget (zlf_name (r_ID r)))
| own_service_remove : r_Type r = DebugReservation -> own r (ZinitRemove (zlf_name (r_ID r)))
| own_k3os name : r_Type r = KubernetesReservation -> own r (FlistNamedMount name k3osFlistURL "" ReadOnlyMountOptions)
| own_image name image : r_Type r = VirtualMachineReservation ->
    own r (FlistNamedMount name (VMREPO +:+ image) "" ReadOnlyMountOptions)
| own_disk size source : is_machine r -> own r (DiskAllocate (diskName (FilesystemName r)) size source)
| own_disk_free : is_machine r -> own r (DiskDeallocate (diskName (FilesystemName r)))
| own_tap net : is_machine r -> own r (NetSetupTap (NetworkID (r_User r) net))
| own_tap_remove net : is_machine r -> own r (NetRemoveTap (NetworkID (r_User r) net))
| own_pub_tap ip : is_machine r -> own r (NetSetupPubTap (pubIPResID ip))
| own_pub_tap_remove ip : is_machine r -> own r (NetRemovePubTap (pubIPResID ip))
| own_machine vm : is_machine r -> vs_Name vm = r_ID r -> own r (VMRun vm)
| own_machine_delete : is_machine r -> own r (VMDelete (r_ID r))
| own_rules iface ip ip6 mac : r_Type r = PublicIPReservation ->
    own r (Shell (setup_script (filterName (r_ID r)) iface ip ip6 mac))
| own_rules_remove : r_Type r = PublicIPReservation -> own r (Shell (teardown_script (filterName (r_ID r))))
| own_public_tap : r_Type r = PublicIPReservation -> own r (NetRemovePubTap (r_ID r)).

(** The types of workloads. *)
Definition workload_types : list string :=
  [ContainerReservation; VolumeReservation; NetworkReservation; NetworkResourceReservation; ZDBReservation;
   DebugReservation; KubernetesReservation; PublicIPReservation; VirtualMachineReservation].

(** What the engine sends to the explorer for a workload of each type. *)
Inductive result_of : string -> Info -> Prop :=
| result_container x : result_of ContainerReservation (InfoContainer x)
| result_volume id : result_of VolumeReservation (InfoVolume id)
| result_network : result_of NetworkReservation InfoNil
| result_network_resource : result_of NetworkResourceReservation InfoNil
| result_zdb x : result_of ZDBReservation (InfoZDB x)
| result_debug : result_of DebugReservation InfoNil
| result_kubernetes x : result_of KubernetesReservation (InfoVM x)
| result_public_ip id ip : result_of PublicIPReservation (InfoPublicIP id ip)
| result_machine x : result_of VirtualMachineReservation (InfoVM x).

(** What a workload cannot do without: a container joins a network and mounts volumes; a
    machine has a tap device in a network, and the rules of its public address. *)
Inductive needs : string -> string -> Prop :=
| container_needs u :
    u ∈ [NetworkReservation; NetworkResourceReservation; VolumeReservation] -> needs ContainerReservation u
| machine_needs t u : t ∈ [KubernetesReservation; VirtualMachineReservation] ->
    u ∈ [NetworkReservation; NetworkResourceReservation; PublicIPReservation] -> needs t u.

Section scopes.
  Context {W : Type} `{NetHash} `{MD5} `{Decoders} `{VMSchemas} `{ContainerSchema} `{Schemas}
    (d : Daemons W) (rounds : nat) (r : Reservation).

(** Every request of a program is one that the workload may make. *)
Definition scoped {A} (m : PM W A) : Prop := emits (fun ev => own r (ev_op ev)) m.

Hint Constructors own : core.
#[local] Hint Resolve quiet_decryptSecret quiet_check_network quiet_constructImageInfo quiet_buildNetworkInfo
  quiet_waitContainerIP quiet_check_volume quiet_decrypt_env quiet_decrypt_logs quiet_for_each : zos_monad.

(** One step of a program. *)
Ltac scoped_step := first
  [ apply emits_quiet; solve [auto with zos_monad]
  | apply emits_bind; [|intros]
  | apply emits_try | apply emits_wrap | apply emits_ignore
  | apply emits_or_else | apply emits_on_error
  | apply emits_act; intros; cbn [ev_op]; eauto
  | match goal with |- context [match ?x with _ => _ end] => destruct x end ].

Lemma scoped_volume : r_Type r = VolumeReservation ->
  scoped (volumeProvisionImpl d r) /\ scoped (volumeDecommission d r).
Proof. intros Ht. unfold volumeProvisionImpl, volumeDecommission. split; repeat scoped_step. Qed.

Lemma scoped_network : r_Type r = NetworkReservation \/ r_Type r = NetworkResourceReservation ->
  scoped (networkProvisionImpl d r) /\ scoped (networkDecommission d r).
Proof.
  intros Ht. unfold networkProvisionImpl, networkDecommission. split; repeat scoped_step.
Qed.

Lemma scoped_debug : r_Type r = DebugReservation -> scoped (debugProvision d r) /\ scoped (debugDecommission d r).
Proof.
  intros Ht. unfold debugProvision, debugDecommission, startZLF, stopZLF. split; repeat scoped_step.
Qed.

Lemma scoped_public_ip : r_Type r = PublicIPReservation ->
  scoped (publicIPProvisionImpl d r) /\ scoped (publicIPDecomission d r).
Proof. intros Ht. unfold publicIPProvisionImpl, publicIPDecomission, sh. split; repeat scoped_step. Qed.

Lemma scoped_container : r_Type r = ContainerReservation ->
  scoped (containerProvisionImpl d rounds r) /\ scoped (containerDecommission d r).
Proof.
  intros Ht. unfold containerProvisionImpl, deploy_container, run_container, delete_and_umount, container_delete,
    umount, containerDecommission.
  split; repeat ((apply emits_prepare_mounts; intros; cbn [ev_op]; eauto) || scoped_step).
Qed.

Lemma scoped_rootfs types err : r_Type r = ZDBReservation -> scoped (zdb_rootfs_on d types err).
Proof.
  intros Ht. revert err. induction types as [|t types IH]; intros err; cbn [zdb_rootfs_on];
    repeat (apply IH || scoped_step).
Qed.

Lemma scoped_ensure a mode : r_Type r = ZDBReservation -> scoped (ensureZdbContainer d rounds a mode).
Proof.
  intros Ht. unfold ensureZdbContainer, createZdbContainer, start_zdb, zdb_cleanup, container_delete, umount, zdbRun, inspect_zdb,
    connect.
  repeat ((by apply scoped_rootfs) || apply emits_quiet, retry_quiet, quiet_call || scoped_step).
Qed.

Lemma quiet_addresses n ns : forall sofar, quiet (wait_addresses d n ns sofar).
Proof.
  induction n as [|n IH]; intros sofar; cbn [wait_addresses]; (apply quiet_bind; [auto with zos_monad|intros got]);
    repeat case_match; auto with zos_monad.
Qed.

Lemma scoped_zdb : r_Type r = ZDBReservation ->
  scoped (zdbProvisionImpl d rounds r) /\ scoped (zdbDecommission d rounds r).
Proof.
  intros Ht. unfold zdbProvisionImpl, waitZDBIPs, createZDBNamespace, zdbDecommission, deleteZdbContainer, container_delete,
    umount, connect, inspect_zdb.
  split; repeat ((by apply scoped_ensure) || apply emits_quiet, quiet_addresses || scoped_step).
Qed.

Lemma scoped_wait name polls : is_machine r -> name = r_ID r -> scoped (wait_installed d name polls).
Proof.
  intros Ht ->. induction polls as [|n IH]; cbn [wait_installed]; unfold vm_Delete; repeat (apply IH || scoped_step).
Qed.

Lemma scoped_machine : is_machine r -> scoped (vmDecomission d r).
Proof. intros Ht. unfold vmDecomission, vm_Delete. repeat scoped_step. Qed.

Lemma scoped_kubernetes : r_Type r = KubernetesReservation -> scoped (kubernetesProvisionImpl d rounds r).
Proof.
  intros Ht. assert (Hm : is_machine r) by by left.
  unfold kubernetesProvisionImpl, ensureFList, with_disk, with_taps, kubernetesInstall, kubernetesRun, vm_Run, vm_Delete.
  repeat ((by apply scoped_wait) || scoped_step).
Qed.

Lemma scoped_vm : r_Type r = VirtualMachineReservation -> scoped (virtualMachineProvisionImpl d r).
Proof.
  intros Ht. assert (Hm : is_machine r) by by right.
  unfold virtualMachineProvisionImpl, ensureFList, with_disk, with_taps, vmRun, vm_Run, vm_Delete.
  repeat scoped_step.
Qed.

Lemma scoped_returning {A} (f : A -> Info) m : scoped m -> scoped (returning f m).
Proof. intros Hm. apply emits_bind; [exact Hm|intros; scoped_step]. Qed.

Lemma returning_Ok {A} (f : A -> Info) (m : PM W A) s s' x :
  returning f m s = (s', Ok x) -> exists y, x = f y.
Proof. unfold returning, mbind, M_bind. destruct (m s) as [s1 [y|e|p]]; [intros [= _ <-]; by exists y|done..]. Qed.

(** The provisioner of a type does what belongs to the type. *)
Lemma provisioner_scoped f : Provisioners d rounds !! r_Type r = Some f ->
  r_Type r ∈ workload_types /\ scoped (f r) /\ forall s s' x, f r s = (s', Ok x) -> result_of (r_Type r) x.
Proof.
  intros Hf%elem_of_list_to_map_2. unfold Provisioners in Hf.
  repeat (apply elem_of_cons in Hf as [[= Ht ->]|Hf]); [..|by apply elem_of_nil in Hf];
    (split; [rewrite Ht; set_solver|split; [apply scoped_returning|intros s s' x [y ->]%returning_Ok; rewrite Ht; constructor]]).
  - by apply scoped_container.
  - by apply scoped_volume.
  - apply scoped_network. by left.
  - apply scoped_network. by right.
  - by apply scoped_zdb.
  - by apply scoped_debug.
  - by apply scoped_kubernetes.
  - by apply scoped_public_ip.
  - by apply scoped_vm.
Qed.

Lemma decommissioner_scoped f : Decommissioners d rounds !! r_Type r = Some f ->
  r_Type r ∈ workload_types /\ scoped (f r).
Proof.
  intros Hf%elem_of_list_to_map_2. unfold Decommissioners in Hf.
  repeat (apply elem_of_cons in Hf as [[= Ht ->]|Hf]); [..|by apply elem_of_nil in Hf];
    (split; [rewrite Ht; set_solver|]).
  - by apply scoped_container.
  - by apply scoped_volume.
  - apply scoped_network. by left.
  - apply scoped_network. by right.
  - by apply scoped_zdb.
  - by apply scoped_debug.
  - apply scoped_machine. by left.
  - by apply scoped_public_ip.
  - apply scoped_machine. by right.
Qed.

Lemma workload_order t u : needs t u -> order_of ProvisionOrder u < order_of ProvisionOrder t.
Proof.
  intros [v Hv|t' v Ht Hv].
  - assert (Ha : Forall (fun u => order_of ProvisionOrder u < order_of ProvisionOrder ContainerReservation)
      [NetworkReservation; NetworkResourceReservation; VolumeReservation])
      by (repeat constructor; vm_compute; reflexivity).
    rewrite Forall_forall in Ha. by apply Ha.
  - assert (Ha : Forall (fun t => Forall (fun u => order_of ProvisionOrder u < order_of ProvisionOrder t)
      [NetworkReservation; NetworkResourceReservation; PublicIPReservation])
      [KubernetesReservation; VirtualMachineReservation])
      by (repeat constructor; vm_compute; reflexivity).
    rewrite Forall_forall in Ha. specialize (Ha _ Ht). rewrite Forall_forall in Ha. by apply Ha.
Qed.

End scopes.

(** The keys of a table that is given as a list. *)
Lemma table_keys {A} (l : list (string * A)) (keys : list string) t :
  l.*1 ≡ₚ keys -> is_Some ((list_to_map l : gmap string A) !! t) <-> t ∈ keys.
Proof.
  intros Hk. rewrite <- Hk, <- elem_of_dom, dom_list_to_map_L, elem_of_list_to_set. done.
Qed.

Section primitive_properties.
  Context {W : Type} `{NetHash} `{MD5} `{Decoders} `{VMSchemas} `{ContainerSchema} `{Schemas}
    (d : Daemons W) (rounds : nat).

(** C38 (bounds): the bytes that a volume is asked with. When the storage daemon
    answers, provisioning a volume that is not deployed makes one request, whose
    size is [Size] GiB in 64 bits: it is what the reservation says exactly when
    [Size] is below 2^34, and it is 0, which is no quota at all, exactly when
    [Size] is a multiple of 2^34. *)
Theorem volumeProvision_size r v s s' x w e :
  dec_Volume (r_Data r) = Ok v -> is_u64 (vol_Size v) ->
  sm_Path (storaged d) (r_ID r) (p_world s) = (w, Err e) ->
  volumeProvisionImpl d r s = (s', x) -> (forall p, x <> Panic p) ->
  exists size out, p_log s' = p_log s ++ [Ran (CreateFilesystem (FilesystemName r) size (vol_Type v)) out] /\
    0 <= size < W64 /\ (size = vol_Size v * gib <-> vol_Size v < 2 ^ 34) /\
    (size = 0 <-> (2 ^ 34 | vol_Size v)).
Proof.
  intros Hdec Hsize Hpath Hrun Hx. exists (vol_Size v *u gib)%go.
  pose proof (volume_size_eq (vol_Size v) Hsize) as Hb.
  unfold volumeProvisionImpl in Hrun. rewrite Hdec in Hrun.
  unfold mbind, M_bind, lift, try, call in Hrun. rewrite Hpath in Hrun.
  unfold act_path, act in Hrun. cbn in Hrun.
  destruct (sm_CreateFilesystem _ _ _ _ w) as [w1 [path|e'|p]]; simplify_eq/=;
    [injection Hrun as <- <-; by eexists (inl _)|by eexists (inr _)|by destruct (Hx p)].
Qed.

Lemma returning_Err {A} (f : A -> Info) (m : PM W A) s s' e :
  returning f m s = (s', Err e) -> m s = (s', Err e).
Proof. unfold returning, mbind, M_bind. by destruct (m s) as [s1 []]; intros; simplify_eq. Qed.

(** A failure of the engine is its own, or that of the provisioner. *)
Lemma provisionForward_Err {C W' I : Type} `{Node W'} `{InfoJson I}
    (e : Engine W' I) r (s s' : St C W') err :
  provisionForward e r s = (s', Err err) ->
  st_world s' = st_world s \/
  exists fn, provisioners e !! r_Type r = Some fn /\ fn r (st_world s) = (st_world s', Err err).
Proof.
  unfold provisionForward. destruct (provisioners e !! r_Type r) as [fn|]; [|by intros [= <- _]; left].
  unfold mbind, M_bind, getUsableMemoryBytes.
  destruct (VirtualMemory (st_world s)) as [[mt ma]|?|?]; [|by intros; simplify_eq; left..].
  destruct (usable_memory _ _ _ _) as [total usable]. unfold wrap, lift.
  destruct (CheckMemoryRequirements r usable) as [[]|?|?]; [|by intros; simplify_eq; left..].
  rewrite call_eq. intros Hrun. right. exists fn. split; [done|].
  destruct (fn r (st_world s)) as [w x]. by simplify_eq/=.
Qed.


(** C5 (safety): what the engine gets from a machine or a kubernetes node that it
    cannot provision, whatever stops it (the type, the memory of the node or any
    step of the provisioner): an error, after which of the disk, the tap devices
    and the machine nothing is held that was not held before. *)
Theorem engine_vm_failure {C : Type} `{Node (PState W)} `{InfoJson Info}
    (e : Engine (PState W) Info) (r : Reservation) (s s' : St C (PState W)) err (R : resources) :
  provisioners e = Provisioners d rounds ->
  r_Type r = VirtualMachineReservation \/ r_Type r = KubernetesReservation ->
  provisionForward e r s = (s', Err err) ->
  exists evs, p_log (st_world s') = p_log (st_world s) ++ evs /\ held evs R ⊆ R.
Proof.
  intros He Ht Hrun. apply provisionForward_Err in Hrun as [->|(fn & Hfn & Hrun)].
  { exists []. by rewrite app_nil_r. }
  rewrite He in Hfn. eapply (vm_failure_held d rounds r).
  by destruct Ht as [Ht|Ht]; rewrite Ht in Hfn; injection Hfn as <-; apply returning_Err in Hrun;
    [left|right].
Qed.

End primitive_properties.

(** ** Volumes on the storage module *)
Section volumes_on_storage.
  Context {W : Type} `{PoolLaws W} `{Sorter} `{Decoders} (d : Daemons W).
  Context (uuid : string) (pools : list string)
    (storaged_module : storaged d = storage_module uuid pools).

Lemma path_in_same name ps w : fst (path_in name ps w) = w.
Proof.
  induction ps as [|p ps IH]; [done|]. cbn [path_in]. unfold mbind, M_bind, is_mounted, gets, ask.
  destruct (negb _); [exact IH|]. destruct (pool_Volumes p w) as [l|e|m]; [|done..].
  destruct (list_find _ l) as [[i v]|]; [|exact IH]. by destruct (vol_Usage v w).
Qed.

Lemma Path_same name w : fst (sm_Path (storage_module uuid pools) name w) = w.
Proof.
  cbn. unfold Storage.Path, mbind, M_bind. pose proof (path_in_same name pools w) as Hp.
  destruct (path_in name pools w) as [w1 [[q fs]|e|m]]; exact Hp.
Qed.

Lemma CreateFilesystem_promised name size t w :
  no_overcommit w -> 0 < size -> (forall p, psize p + size < W64) ->
  let '(w', x) := sm_CreateFilesystem (storage_module uuid pools) name size t w in
  no_overcommit w' /\
  match x with
  | Ok _ => exists p, pool_Type p = t /\ vols w' p !! name = Some size
  | _ => True
  end.
Proof.
  intros Hw Hsize Hmax. cbn. unfold Storage.CreateFilesystem.
  destruct (HasPrefix name "zdb") eqn:Hz; [done|].
  pose proof (createSubvolWithQuota_promised pools size name t w Hw Hsize Hmax Hz) as Hc.
  unfold mbind, M_bind. destruct (createSubvolWithQuota pools size name t w) as [w1 [v|e|m]];
    [|by destruct Hc..]. destruct Hc as (Hno & Hn & Ht & Hq & _).
  unfold ask. by destruct (vol_Usage v w1); cbn; eauto.
Qed.

(** Volumes never overcommit the storage. When the provisioner
    works on the storage module, and the size is one that fits 64 bits, no pool
    promises more than it has after a volume is provisioned; and a volume that
    was not there before and is provisioned has, in a pool of the type that was
    asked for, the quota that the reservation says. *)
Theorem volumeProvision_no_overcommit r v s :
  dec_Volume (r_Data r) = Ok v -> 0 < vol_Size v < 2 ^ 34 -> no_overcommit (p_world s) ->
  (forall p, psize p + vol_Size v * gib < W64) ->
  let '(s', x) := volumeProvisionImpl d r s in
  no_overcommit (p_world s') /\
  match x with
  | Ok id => id = r_ID r /\
      (p_log s' = p_log s \/
       exists p, pool_Type p = vol_Type v /\ vols (p_world s') p !! r_ID r = Some (vol_Size v * gib))
  | _ => True
  end.
Proof.
  intros Hdec Hsize Hw Hmax. unfold volumeProvisionImpl. rewrite Hdec, storaged_module.
  assert (Hexact : (vol_Size v *u gib)%go = vol_Size v * gib)
    by (apply u64_mul_exact; unfold gib, W64; lia).
  unfold mbind, M_bind, lift, try, call. pose proof (Path_same (r_ID r) (p_world s)) as Hp.
  destruct (sm_Path _ (r_ID r) (p_world s)) as [w [path|e|m]]; cbn in Hp; subst w; cbn; [by auto| |done].
  rewrite Hexact.
  pose proof (CreateFilesystem_promised (FilesystemName r) (vol_Size v * gib) (vol_Type v) (p_world s)
    Hw ltac:(unfold gib; lia) Hmax) as Hc.
  unfold act_path, act. cbn in Hc |- *.
  destruct ((Storage.CreateFilesystem pools _ _ _ ≫= _) (p_world s)) as [w [path|e'|m]]; cbn;
    destruct Hc as [Hno Hc]; by auto.
Qed.

End volumes_on_storage.

(** ** The address of a host *)

Lemma hex_ascii_value x : 0 <= x < 16 -> hex_value (hex_ascii x) = Some (Z.to_nat x).
Proof.
  intros Hx. assert (Hk : exists k, (k < 16)%nat /\ x = Z.of_nat k) by (exists (Z.to_nat x); lia).
  destruct Hk as (k & Hk & ->). do 16 (destruct k as [|k]; [reflexivity|]). lia.
Qed.

Lemma hex_decode_two a b t x y : hex_value a = Some x -> hex_value b = Some y ->
  hex_DecodeString (String a (String b t)) =
  match hex_DecodeString t with Ok s => Ok (String (ascii_of_nat (16 * x + y)) s) | e => e end.
Proof. intros Hx Hy. cbn [hex_DecodeString]. by rewrite Hx, Hy. Qed.

Lemma hex_byte_decode b t : 0 <= b < 256 ->
  hex_DecodeString (hex_byte b +:+ t) =
  match hex_DecodeString t with Ok s => Ok (String (ascii_of_nat (Z.to_nat b)) s) | e => e end.
Proof.
  intros Hb. assert (0 <= b / 16 < 16) by (split; [apply Z.div_pos|apply Z.div_lt_upper_bound]; lia).
  assert (0 <= b mod 16 < 16) by (apply Z.mod_pos_bound; lia).
  change (hex_byte b +:+ t) with (String (hex_ascii (b / 16)) (String (hex_ascii (b mod 16)) t)).
  erewrite hex_decode_two by by apply hex_ascii_value.
  replace (16 * Z.to_nat (b / 16) + Z.to_nat (b mod 16))%nat with (Z.to_nat b); [done|].
  pose proof (Z.div_mod b 16). lia.
Qed.

Lemma hex_ascii_colon x : 0 <= x < 16 -> Ascii.eqb (hex_ascii x) ":" = false.
Proof.
  intros Hx. assert (Hk : exists k, (k < 16)%nat /\ x = Z.of_nat k) by (exists (Z.to_nat x); lia).
  destruct Hk as (k & Hk & ->). do 16 (destruct k as [|k]; [reflexivity|]). lia.
Qed.

Lemma remove_char_byte b t : 0 <= b < 256 ->
  remove_char ":" (hex_byte b +:+ t) = hex_byte b +:+ remove_char ":" t.
Proof.
  intros Hb. assert (0 <= b / 16 < 16) by (split; [apply Z.div_pos|apply Z.div_lt_upper_bound]; lia).
  assert (0 <= b mod 16 < 16) by (apply Z.mod_pos_bound; lia).
  change (hex_byte b +:+ t) with (String (hex_ascii (b / 16)) (String (hex_ascii (b mod 16)) t)).
  cbn [remove_char]. by rewrite !hex_ascii_colon.
Qed.

Lemma bytes_of_cons b s : 0 <= b < 256 ->
  bytes_of (String (ascii_of_nat (Z.to_nat b)) s) = b :: bytes_of s.
Proof. intros Hb. cbn. rewrite nat_ascii_embedding by lia. by rewrite Z2Nat.id by lia. Qed.

(** A hardware address is read back as it was printed. *)
Lemma hw_String_decode hw : Forall (fun b => 0 <= b < 256) hw ->
  exists s, hex_DecodeString (remove_char ":" (hw_String hw)) = Ok s /\ bytes_of s = hw.
Proof.
  unfold hw_String. induction hw as [|b hw IH]; intros Hhw; [by exists ""|].
  apply Forall_cons in Hhw as [Hb Hhw]. destruct (IH Hhw) as (s & Hs & Hbytes).
  exists (String (ascii_of_nat (Z.to_nat b)) s). split; [|by rewrite bytes_of_cons, Hbytes].
  assert (Hstep : remove_char ":" (join_with ":" (hex_byte <$> b :: hw)) =
    hex_byte b +:+ remove_char ":" (join_with ":" (hex_byte <$> hw))).
  { destruct hw; [by apply remove_char_byte|]. exact (remove_char_byte b _ Hb). }
  by rewrite Hstep, hex_byte_decode, Hs.
Qed.

(** The last 64 bits of an address made from a hardware address. *)
Definition eui64 (hw : list Z) : list Z :=
  match hw with
  | [h0; h1; h2; h3; h4; h5] => [Z.lxor h0 2; h1; h2; 255; 254; h3; h4; h5]
  | _ => []
  end.

Lemma predictedSlaac_spec base hw : Forall (fun b => 0 <= b < 256) hw -> length hw = 6%nat ->
  predictedSlaac base (hw_String hw) =
  if (length base <? 16)%nat then Panic "index out of range"
  else Ok (IP_String (take 8 base ++ eui64 hw ++ drop 16 base)).
Proof.
  intros Hb Hl. unfold predictedSlaac. destruct (hw_String_decode hw Hb) as (s & -> & ->).
  do 6 (destruct hw as [|? hw]; [done|]). destruct hw; [|done].
  destruct (length base <? 16)%nat eqn:Hbase; [done|]. apply Nat.ltb_ge in Hbase.
  do 16 (destruct base as [|? base]; [cbn in Hbase; lia|]). reflexivity.
Qed.

Section public_ip_properties.
  Context {W : Type} `{MD5} `{Schemas} (d : Daemons W).

Lemma public_iface_mac tap cfg s s' i : public_iface d tap cfg s = (s', Ok [i]) ->
  if_MAC i = hw_String (HardwareAddrFromInputBytes (bytes_of (pubIPResID (cfg_PublicIP cfg)))).
Proof.
  unfold public_iface. destruct (cfg_PublicIP cfg =? 0); [done|]. unfold mbind, M_bind.
  destruct (wrap _ _ s) as [s1 [[ip gw]|e|p]]; [|done..]. by intros [= _ <-].
Qed.

(** A machine sends what its public address lets through. When the
    workload of a public address has been provisioned, the rules of its tap
    device let pass one hardware address with one IPv4 and one IPv6 address:
    the hardware address is the one that the interface of the machine with this
    public address gets, and the IPv6 address is made of the public prefix and
    that hardware address. *)
Theorem publicIP_matches_machine r s s' x tap cfg s1 s1' i :
  publicIPProvisionImpl d r s = (s', Ok x) ->
  r_ID r = pubIPResID (cfg_PublicIP cfg) -> public_iface d tap cfg s1 = (s1', Ok [i]) ->
  exists config ip4 base,
    dec_PublicIP (r_Data r) = Ok config /\ To4 (net_IP config) = Some ip4 /\ (16 <= length base)%nat /\
    p_log s' = p_log s ++ [Ran (Shell (setup_script (filterName (r_ID r)) ("p-" +:+ r_ID r) (IP_String ip4)
      (IP_String (take 8 base ++ eui64 (HardwareAddrFromInputBytes (bytes_of (r_ID r))) ++ drop 16 base))
      (if_MAC i))) (inl "")] /\
    x = (r_ID r, IP_String (net_IP config)).
Proof.
  intros Hrun Hid Hiface. rewrite (public_iface_mac tap cfg s1 s1' i Hiface), <- Hid. clear Hiface.
  unfold publicIPProvisionImpl in Hrun.
  destruct (dec_PublicIP (r_Data r)) as [config|?|?]; [|done..]. exists config.
  ok_bind Hrun s2 c Hc. injection Hc as <- <-. ok_bind Hrun s3 u Hu.
  destruct (PublicIP_Valid config) as [[]|?|?] eqn:Hv; [|done..].
  unfold PublicIP_Valid in Hv. destruct (length (net_IP config) =? 0)%nat; [done|].
  destruct (To4 (net_IP config)) as [ip4|]; [|done]. exists ip4.
  injection Hu as <- <-. ok_bind Hrun s4 base Hb. apply quiet_log in Hb; [|auto with zos_monad].
  exists (net_IP base). ok_bind Hrun s5 addr Ha.
  destruct (HardwareAddr_spec (bytes_of (r_ID r))) as (Hl & Hbytes & _).
  rewrite predictedSlaac_spec in Ha by done.
  destruct (length (net_IP base) <? 16)%nat eqn:Hbase; [done|]. apply Nat.ltb_ge in Hbase.
  injection Ha as <- <-. ok_bind Hrun s6 v Hsh. injection Hrun as <- <-.
  apply wrap_Ok, act_Ok in Hsh. rewrite Hb in Hsh. split_and!; done.
Qed.

End public_ip_properties.

(** ** A node *)
Module PrimitivesDemo.

Import BusDemo VmDemo.

#[export] Instance decoders : Decoders := demo_Decoders.
#[export] Existing Instance ContainerDemo.schema.
#[export] Existing Instances StorageDemo.ops StorageDemo.view StorageDemo.laws.

Definition address : IPNet := MkIPNet (IPv4 185 69 166 9) [255; 255; 255; 0].

#[export] Instance workloads : Schemas := {|
  dec_NetResource _ := Err (ErrMsg "unexpected end of JSON input");
  dec_PublicIP _ := Ok address;
  dec_Debug s := Ok (MkDebug s 6379 "")
|}.

(** A volume of 2^34 GiB is asked for with 0 bytes. *)
Definition huge : Reservation := demo_reservation "3-1" VolumeReservation "17179869184".

Definition no_path : Daemons unit := daemons (failing ["Path"]).

Lemma volumeProvision_size_witness :
  p_log (fst (volumeProvisionImpl no_path huge start)) =
    [Ran (CreateFilesystem "3-1" 0 SSDDevice) (inl "/mnt/3-1")] /\
  exists size out, p_log (fst (volumeProvisionImpl no_path huge start)) =
      p_log start ++ [Ran (CreateFilesystem "3-1" size SSDDevice) out] /\
    0 <= size < W64 /\ (size = 2 ^ 34 * gib <-> 2 ^ 34 < 2 ^ 34) /\ (size = 0 <-> (2 ^ 34 | 2 ^ 34)).
Proof.
  split; [vm_compute; reflexivity|].
  eapply (volumeProvision_size no_path huge (Counters.MkVolume (2 ^ 34) SSDDevice) start).
  - vm_compute. reflexivity.
  - vm_compute. split; congruence.
  - vm_compute. reflexivity.
  - vm_compute. reflexivity.
  - congruence.
Defined.


(** A machine that does not start, in the engine. *)
#[export] Instance pnode : Node (PState unit) := {|
  Now _ := 2000; VirtualMemory _ := Ok (8 * gib, 6 * gib)
|}.
#[export] Instance info : InfoJson Info := fun _ => Ok "{}".

Definition broken : Daemons unit := daemons (failing ("vm.Run" :: fresh)).

Definition eng : Engine (PState unit) Info := {|
  nodeID := "node";
  provisioners := Provisioners broken 3;
  decomissioners := Decommissioners broken 3;
  signer_Sign b := Ok b;
  feedback_Feedback _ _ w := (w, Ok tt);
  feedback_Deleted _ _ w := (w, Ok tt);
  feedback_UpdateStats _ _ _ w := (w, Ok tt);
  storaged_GetCacheFS := None;
  janitor := None;
  reservedMemoryBytes := reservedMemory (8 * gib)
|}.

Definition vm : Reservation := demo_reservation "12-1" VirtualMachineReservation "1".
Definition idle : St (gmap string Reservation) (PState unit) := MkSt ∅ zeroCounters start [] ∅.

Lemma engine_vm_failure_witness :
  let s' := fst (provisionForward (C := gmap string Reservation) eng vm idle) in
  length (p_log (st_world s')) = 9%nat /\
  exists evs, p_log (st_world s') = p_log start ++ evs /\ held evs ∅ ⊆ ∅.
Proof.
  split; [vm_compute; reflexivity|].
  eapply (engine_vm_failure broken 3 eng vm idle); [reflexivity|by left|].
  vm_compute. reflexivity.
Defined.

(** A volume on a pool of 100 GiB of which 90 are promised. *)
Definition stored : Daemons (gmap string StorageDemo.pool) :=
  with_storage (storage_module "uuid" ["p"]) (daemons_on (failing [])).

Definition volume : Reservation := demo_reservation "7-1" VolumeReservation "5".

Lemma volumeProvision_no_overcommit_witness :
  exists s', volumeProvisionImpl stored volume (MkP StorageDemo.full [] false) = (s', Ok "7-1") /\
    no_overcommit (p_world s') /\
    exists p, vols (p_world s') p !! "7-1" = Some (5 * gib).
Proof.
  pose proof (volumeProvision_no_overcommit stored "uuid" ["p"] eq_refl volume
    (Counters.MkVolume 5 SSDDevice) (MkP StorageDemo.full [] false) ltac:(by vm_compute)
    ltac:(by vm_compute) StorageDemo.full_ok ltac:(done)) as Hv.
  destruct (volumeProvisionImpl stored volume (MkP StorageDemo.full [] false)) as [s' [id|e|m]] eqn:Hrun;
    [|by vm_compute in Hrun..].
  destruct Hv as (Hno & -> & Hq). exists s'. split_and!; [done..|].
  destruct Hq as [Hl|(p & _ & Hq)]; [|by eauto].
  assert (Hlog : length (p_log (fst (volumeProvisionImpl stored volume (MkP StorageDemo.full [] false)))) = 1%nat)
    by (vm_compute; reflexivity).
  rewrite Hrun in Hlog. cbn in Hlog, Hl. by rewrite Hl in Hlog.
Defined.

(** The public address 7 of a machine. *)
Definition ip : Reservation := demo_reservation "7-1" PublicIPReservation "".
Definition public_cfg : VMConfig := MkVMConfig (cfg_VM cfg) "net" [10; 1; 2; 3] [] 7 "".

Lemma publicIP_matches_machine_witness :
  exists i, snd (public_iface (daemons (failing [])) "p-7-1" public_cfg start) = Ok [i] /\
  exists config ip4 base, dec_PublicIP "" = Ok config /\ To4 (net_IP config) = Some ip4 /\
    (16 <= length base)%nat /\
    p_log (fst (publicIPProvisionImpl (daemons (failing [])) ip start)) =
      [] ++ [Ran (Shell (setup_script "r-7-1" "p-7-1" (IP_String ip4)
        (IP_String (take 8 base ++ eui64 (HardwareAddrFromInputBytes (bytes_of "7-1")) ++ drop 16 base))
        (if_MAC i))) (inl "")] /\
    ("7-1", "185.69.166.9") = ("7-1", IP_String (net_IP config)).
Proof.
  eexists. split; [vm_compute; reflexivity|].
  eapply (publicIP_matches_machine (daemons (failing [])) ip start _ _ "p-7-1" public_cfg start).
  - vm_compute. reflexivity.
  - vm_compute. reflexivity.
  - vm_compute. reflexivity.
Defined.

End PrimitivesDemo.
