(* ===== verification/Converter.v ===== *)
(** The workloads of the explorer and the reservations they become:
    src/pkg/provision/primitives/converter.go.

    The records of this file are what the converter reads of the explorer's generated
    models (github.com/threefoldtech/tfexplorer/models/generated/workloads); an
    enumeration of which only the text is used is that text. [ConverterJson] is
    encoding/json, with the law that the provisioners read what was written. *)

From stdpp Require Import gmap strings list.
From Stdlib Require Import Ascii ZArith Lia.
From S2P Require Import Prelude Reservation Counters Cache Engine Source NetIP Storage BtrfsUtil.
From S2P Require Import Disk Bus VmPrim ZdbPrim ContainerPrim Primitives.

Open Scope Z_scope.
Open Scope go_scope.

(** ** The explorer's models *)

Inductive WorkloadTypeEnum :=
| WorkloadTypeZDB
| WorkloadTypeContainer
| WorkloadTypeVolume
| WorkloadTypeNetwork
| WorkloadTypeKubernetes
| WorkloadTypePublicIP
| WorkloadTypeVirtualMachine
| WorkloadTypeNetworkResource
| WorkloadTypeOther (name : string).

(** The names of the types are those of the reservations; no other type has one of
    them. *)
Class WorkloadTypes := {
  wt_String : WorkloadTypeEnum -> string;
  wt_zdb : wt_String WorkloadTypeZDB = ZDBReservation;
  wt_container : wt_String WorkloadTypeContainer = ContainerReservation;
  wt_volume : wt_String WorkloadTypeVolume = VolumeReservation;
  wt_network : wt_String WorkloadTypeNetwork = NetworkReservation;
  wt_kubernetes : wt_String WorkloadTypeKubernetes = KubernetesReservation;
  wt_public_ip : wt_String WorkloadTypePublicIP = PublicIPReservation;
  wt_virtual_machine : wt_String WorkloadTypeVirtualMachine = VirtualMachineReservation;
  wt_network_resource : wt_String WorkloadTypeNetworkResource = NetworkResourceReservation
}.

Inductive NextActionEnum := NextActionDelete | NextActionDeleted | NextActionOther (name : string).

Record NetworkConnection := MkNetworkConnection {
  nc_NetworkId : string; nc_Ipaddress : IP; nc_PublicIp6 : bool; nc_YggdrasilIP : bool
}.

Record SchemaStats := MkSchemaStats { ss_Type : string; ss_Data : string }.

Record SContainer := MkSContainer {
  sc_Flist : string; sc_HubUrl : string; sc_Environment : gmap string string;
  sc_SecretEnvironment : gmap string string; sc_Entrypoint : string; sc_Interactive : bool;
  sc_Volumes : list Mount; sc_NetworkConnection : list NetworkConnection;
  sc_Logs : list LogsConfig; sc_Stats : list SchemaStats;
  sc_Cpu : Z; sc_Memory : Z; sc_DiskType : string; sc_DiskSize : Z
}.

Record SZDB := MkSZDB {
  sz_Size : Z; sz_Mode : string; sz_Password : string; sz_DiskType : string; sz_Public : bool
}.

Record SK8S := MkSK8S {
  sk_Size : Z; sk_CustomSize : VMCustomSize; sk_NetworkId : string; sk_Ipaddress : IP;
  sk_ClusterSecret : string; sk_MasterIps : list IP; sk_SshKeys : list string; sk_PublicIP : Z;
  sk_DatastoreEndpoint : string; sk_DisableDefaultIngress : bool
}.

Record SVM := MkSVM {
  sv_Name : string; sv_Size : Z; sv_NetworkId : string; sv_Ipaddress : IP; sv_SshKeys : list string;
  sv_PublicIP : Z
}.

Record WireguardPeer := MkWireguardPeer {
  wp_PublicKey : string; wp_Endpoint : string; wp_Iprange : IPNet; wp_AllowedIprange : list IPNet
}.

Record SNetworkResource := MkSNetworkResource {
  sn_Name : string; sn_NetworkIprange : IPNet; sn_Iprange : IPNet;
  sn_WireguardPrivateKeyEncrypted : string; sn_WireguardPublicKey : string;
  sn_WireguardListenPort : Z; sn_Peers : list WireguardPeer
}.

(** The dynamic type of a workload. *)
Inductive Body :=
| BContainer (c : SContainer)
| BVolume (size : Z) (type : string)
| BZDB (z : SZDB)
| BK8S (k : SK8S)
| BVM (v : SVM)
| BPublicIP (ip : IPNet)
| BNetworkResource (n : SNetworkResource)
| BOther.

Record SResult := MkSResult {
  sr_Category : WorkloadTypeEnum; sr_WorkloadId : string; sr_DataJson : string; sr_Signature : string;
  sr_State : Z; sr_Message : string; sr_Epoch : Z
}.

Record Workload := MkWorkload {
  wl_ID : Z; wl_WorkloadID : Z; wl_CustomerTid : Z; wl_Type : WorkloadTypeEnum; wl_Epoch : Z;
  wl_Signature : string; wl_NextAction : NextActionEnum; wl_Reference : string; wl_Result : SResult;
  wl_Version : Z; wl_NodeID : string; wl_Body : Body
}.

(** [json.Marshal] of what a workload becomes, and [json.Unmarshal] of the settings of
    the statistics. *)
Class ConverterJson := {
  enc_Volume : Counters.Volume -> string + error;
  enc_ZDB : ZDB -> string + error;
  enc_Container : ContainerConfig -> string + error;
  enc_K8s : Kubernetes -> string + error;
  enc_VM : VMConfig -> string + error;
  enc_PublicIP : IPNet -> string + error;
  enc_NetResource : NetResource -> string + error;
  dec_Redis : string -> string + error
}.

(** ** Conversions *)

Definition disk_type (s : string) : option DeviceType :=
  let s := ToLower s in
  if (s =? "hdd")%string then Some HDDDevice else if (s =? "ssd")%string then Some SSDDevice else None.

Definition zeroNetwork : Network := MkNetwork "" [] false false.

Definition container_mount (reservationID : string) (m : Mount) : Mount :=
  MkMount (if HasPrefix (mnt_VolumeID m) "-" then reservationID +:+ mnt_VolumeID m else mnt_VolumeID m)
    (mnt_Mountpoint m).

Definition container_stats `{ConverterJson} (s : SchemaStats) : Stats :=
  if negb (ss_Type s =? "redis")%string then MkStats "unknown" ""
  else
    match dec_Redis (ss_Data s) with
    | inl endpoint => MkStats (ss_Type s) endpoint
    | inr _ => MkStats "unknown" ""
    end.

(** A log of a type that is not supported is kept: what is set for it is overwritten. *)
Definition ContainerToProvisionType `{ConverterJson} (w : Workload) (reservationID : string) :
    res (ContainerConfig * string) :=
  match wl_Body w with
  | BContainer c =>
      match disk_type (sc_DiskType c) with
      | None => Err (ErrMsg ("unknown disk type: " +:+ sc_DiskType c))
      | Some diskType =>
          Ok (MkContainerConfig (sc_Flist c) (sc_HubUrl c) (sc_Environment c) (sc_SecretEnvironment c)
                (sc_Entrypoint c) (sc_Interactive c) (container_mount reservationID <$> sc_Volumes c)
                (match sc_NetworkConnection c with
                 | nc :: _ => MkNetwork (nc_NetworkId nc) [nc_Ipaddress nc] (nc_PublicIp6 nc) (nc_YggdrasilIP nc)
                 | [] => zeroNetwork
                 end)
                (MkCapacity (u64 (sc_Cpu c)) (u64 (sc_Memory c)) diskType (u64 (sc_DiskSize c)))
                (sc_Logs c) (container_stats <$> sc_Stats c), wl_NodeID w)
      end
  | _ => Err (ErrMsg "failed to convert container workload, wrong format")
  end.

Definition VolumeToProvisionType (w : Workload) : res (Counters.Volume * string) :=
  match wl_Body w with
  | BVolume size type =>
      match disk_type type with
      | Some t => Ok (Counters.MkVolume (u64 size) t, wl_NodeID w)
      | None => Err (ErrMsg ("disk type " +:+ type +:+ " not supported"))
      end
  | _ => Err (ErrMsg "failed to convert volume workload, wrong format")
  end.

Definition ZDBToProvisionType (w : Workload) : res (ZDB * string) :=
  match wl_Body w with
  | BZDB z =>
      match disk_type (sz_DiskType z) with
      | None => Err (ErrMsg ("device type " +:+ sz_DiskType z +:+ " not supported"))
      | Some t =>
          if (sz_Mode z =? "seq")%string || (sz_Mode z =? "user")%string then
            Ok (MkZDB (u64 (sz_Size z)) (sz_Mode z) (sz_Password z) t (sz_Public z), wl_NodeID w)
          else Err (ErrMsg ("0-db mode " +:+ sz_Mode z +:+ " not supported"))
      end
  | _ => Err (ErrMsg "failed to convert zdb workload, wrong format")
  end.

Definition K8SToProvisionType (w : Workload) : res (Kubernetes * string) :=
  match wl_Body w with
  | BK8S k =>
      Ok (MkKubernetes
            (MkVMConfig (MkVM (sk_Size k) (sk_CustomSize k)) (sk_NetworkId k) (sk_Ipaddress k) (sk_SshKeys k)
               (sk_PublicIP k) "")
            (sk_ClusterSecret k) (sk_MasterIps k) "" (sk_DatastoreEndpoint k) (sk_DisableDefaultIngress k),
          wl_NodeID w)
  | _ => Err (ErrMsg "failed to convert kubernetes workload, wrong format")
  end.

(** The size of its own that a machine may have is not copied. *)
Definition VMToProvisionType (w : Workload) : res (VMConfig * string) :=
  match wl_Body w with
  | BVM v =>
      Ok (MkVMConfig (MkVM (sv_Size v) (MkCustom 0 (f64_of 0) (f64_of 0))) (sv_NetworkId v) (sv_Ipaddress v)
            (sv_SshKeys v) (sv_PublicIP v) (sv_Name v), wl_NodeID w)
  | _ => Err (ErrMsg "failed to convert kubernetes workload, wrong format")
  end.

Definition PublicIPToProvisionType (w : Workload) : res (IPNet * string) :=
  match wl_Body w with
  | BPublicIP ip => Ok (ip, wl_NodeID w)
  | _ => Err (ErrMsg "failed to convert kubernetes workload, wrong format")
  end.

Definition WireguardToProvisionType (p : WireguardPeer) : Peer :=
  MkPeer (wp_Iprange p) (wp_PublicKey p) (wp_AllowedIprange p) (wp_Endpoint p).

Definition NetworkResourceToProvisionType (w : Workload) : res NetResource :=
  match wl_Body w with
  | BNetworkResource n =>
      Ok (MkNetResource (sn_Name n) (sn_Name n) (sn_NetworkIprange n) (wl_NodeID w) (sn_Iprange n)
            (sn_WireguardPrivateKeyEncrypted n) (sn_WireguardPublicKey n) (u16 (sn_WireguardListenPort n))
            (WireguardToProvisionType <$> sn_Peers n))
  | _ => Err (ErrMsg "failed to convert kubernetes workload, wrong format")
  end.

Definition resultFromSchemaType `{WorkloadTypes} (r : SResult) : Result :=
  MkResult (wt_String (sr_Category r)) (sr_WorkloadId r) (sr_Epoch r) (sr_State r) (sr_Message r)
    (sr_DataJson r) (sr_Signature r).

Definition result_type (t : ReservationType) : option WorkloadTypeEnum :=
  if (t =? VolumeReservation)%string then Some WorkloadTypeVolume
  else if (t =? ContainerReservation)%string then Some WorkloadTypeContainer
  else if (t =? ZDBReservation)%string then Some WorkloadTypeZDB
  else if (t =? NetworkReservation)%string || (t =? NetworkResourceReservation)%string then Some WorkloadTypeNetwork
  else if (t =? KubernetesReservation)%string then Some WorkloadTypeKubernetes
  else if (t =? PublicIPReservation)%string then Some WorkloadTypePublicIP
  else if (t =? VirtualMachineReservation)%string then Some WorkloadTypeVirtualMachine
  else None.

Definition ResultToSchemaType (r : Result) : res SResult :=
  match result_type (res_Type r) with
  | Some t =>
      Ok (MkSResult t (res_ID r) (res_Data r) (res_Signature r) (res_State r) (res_Error r) (res_Created r))
  | None => Err (ErrMsg ("unknown reservation type: " +:+ res_Type r))
  end.

Definition MaxInt64 : Z := 2 ^ 63 - 1.

Definition to_delete (a : NextActionEnum) : bool :=
  match a with NextActionDelete | NextActionDeleted => true | NextActionOther _ => false end.

Definition workload_id (w : Workload) : string :=
  FormatInt (wl_ID w) +:+ String "-" (FormatInt (wl_WorkloadID w)).

(** The reservation with its node and its data. *)
Definition reservation_of `{WorkloadTypes} (w : Workload) (node data : string) : Reservation :=
  MkReservation (workload_id w) node (FormatInt (wl_CustomerTid w)) (wt_String (wl_Type w)) data (wl_Epoch w)
    MaxInt64 (wl_Signature w) (to_delete (wl_NextAction w)) ∅ (wl_Reference w)
    (resultFromSchemaType (wl_Result w)) (wl_Version w).

(** A converted workload with its encoding. *)
Definition encoded `{WorkloadTypes} {A} (enc : A -> string + error) (w : Workload) (converted : res (A * string)) :
    res Reservation :=
  match converted with
  | Ok (data, node) =>
      match enc data with inl data => Ok (reservation_of w node data) | inr e => Err e end
  | Err e => Err e
  | Panic p => Panic p
  end.

Definition WorkloadToProvisionType `{WorkloadTypes} `{ConverterJson} (w : Workload) : res Reservation :=
  match wl_Type w with
  | WorkloadTypeZDB => encoded enc_ZDB w (ZDBToProvisionType w)
  | WorkloadTypeVolume => encoded enc_Volume w (VolumeToProvisionType w)
  | WorkloadTypeNetworkResource =>
      encoded enc_NetResource w (res_map (fun n => (n, "")) (NetworkResourceToProvisionType w))
  | WorkloadTypeContainer =>
      let reservationID := match split_first "-" (workload_id w) with Some (p, _) => p | None => workload_id w end in
      encoded enc_Container w (ContainerToProvisionType w reservationID)
  | WorkloadTypeKubernetes => encoded enc_K8s w (K8SToProvisionType w)
  | WorkloadTypePublicIP => encoded enc_PublicIP w (PublicIPToProvisionType w)
  | WorkloadTypeVirtualMachine => encoded enc_VM w (VMToProvisionType w)
  | WorkloadTypeNetwork | WorkloadTypeOther _ => Ok (reservation_of w "" "")
  end.

(** What the poller is given; the converter does not panic. *)
Definition inputConv `{WorkloadTypes} `{ConverterJson} (w : Workload) : Reservation + error :=
  match WorkloadToProvisionType w with
  | Ok r => inl r
  | Err e => inr e
  | Panic p => inr (ErrMsg p)
  end.

(** ** Ids and validity *)

Section converted.
  Context `{WorkloadTypes} `{ConverterJson}.

Lemma encoded_Ok {A} (enc : A -> string + error) w c r : encoded enc w c = Ok r ->
  exists data node s, c = Ok (data, node) /\ enc data = inl s /\ r = reservation_of w node s.
Proof.
  unfold encoded. destruct c as [[data node]|e|p]; [|done..]. destruct (enc data) as [s|e] eqn:He; [|done].
  intros [= <-]. eauto 10.
Qed.

Lemma converted_of w r : WorkloadToProvisionType w = Ok r -> exists node data, r = reservation_of w node data.
Proof.
  unfold WorkloadToProvisionType. destruct (wl_Type w);
    try (intros (? & ? & ? & _ & _ & ->)%encoded_Ok; by eauto). all: intros [= <-]; by eauto.
Qed.

Lemma FormatInt_nonneg n : 0 <= n -> FormatInt n = Itoa n.
Proof. intros Hn. unfold FormatInt. by rewrite (proj2 (Z.ltb_ge n 0) Hn). Qed.

Lemma split_workload_id w : 0 <= wl_ID w < 2 ^ 63 ->
  split_first "-" (workload_id w) = Some (Itoa (wl_ID w), FormatInt (wl_WorkloadID w)).
Proof.
  intros Hid. unfold workload_id. rewrite FormatInt_nonneg by lia.
  eapply split_first_digits, digits_value_Itoa. unfold is_u64, W64. lia.
Qed.

(** The id and the validity of a reservation: the two numbers of its id are those of
    the explorer, the janitor reads the first one from the name of its volume, and the
    engine accepts it at any time for which the sum of its date and 2^63 nanoseconds has
    not passed. *)
Theorem converted_identity w r now : WorkloadToProvisionType w = Ok r ->
  0 <= wl_ID w < 2 ^ 63 -> 0 <= wl_WorkloadID w < 2 ^ 63 ->
  SplitID r = Ok (wl_ID w, wl_WorkloadID w) /\ WorkloadIDFromFilesystem (FilesystemName r) = Ok (wl_ID w) /\
  (wl_Epoch w <> nullTime -> now <= wl_Epoch w + MaxInt64 -> validate now r = Ok tt).
Proof.
  intros (node & data & ->)%converted_of Hid Hwid. split; [|split].
  - unfold SplitID. cbn [r_ID reservation_of]. rewrite split_workload_id, FormatInt_nonneg by lia.
    by rewrite !ParseUint_Itoa by (unfold is_u64, W64; lia).
  - unfold WorkloadIDFromFilesystem, FilesystemName. cbn [r_ID reservation_of]. rewrite split_workload_id by lia.
    by apply ParseInt_Itoa.
  - intros Hepoch Hnow. unfold validate, Expired. cbn [r_Duration r_Created reservation_of].
    rewrite (proj2 (Z.eqb_neq _ _) Hepoch), (proj2 (Z.ltb_ge _ _) Hnow). done.
Qed.

(** The volume of a container that is named by a dash and a number is the one that the
    workload of that number in the same reservation becomes. *)
Theorem volume_reference w v rw rv c i mp :
  WorkloadToProvisionType w = Ok rw -> wl_Type w = WorkloadTypeContainer -> wl_Body w = BContainer c ->
  WorkloadToProvisionType v = Ok rv -> wl_ID v = wl_ID w -> 0 <= wl_ID w < 2 ^ 63 ->
  sc_Volumes c !! i = Some (MkMount (String "-" (FormatInt (wl_WorkloadID v))) mp) ->
  exists cfg, enc_Container cfg = inl (r_Data rw) /\ cc_Mounts cfg !! i = Some (MkMount (r_ID rv) mp).
Proof.
  intros Hw Ht Hc (node & data & ->)%converted_of Hid Hrange Hm.
  unfold WorkloadToProvisionType in Hw. rewrite Ht, split_workload_id in Hw by done.
  apply encoded_Ok in Hw as (cfg & node' & s & Hcfg & Henc & ->). exists cfg. split; [done|].
  unfold ContainerToProvisionType in Hcfg. rewrite Hc in Hcfg. destruct (disk_type _); [|done].
  injection Hcfg as <- _. cbn [cc_Mounts]. rewrite list_lookup_fmap, Hm. cbn [fmap option_fmap option_map].
  unfold container_mount. cbn [mnt_VolumeID mnt_Mountpoint].
  assert (HasPrefix (String "-" (FormatInt (wl_WorkloadID v))) "-" = true) as -> by (by destruct (FormatInt (wl_WorkloadID v))).
  cbn [r_ID reservation_of]. unfold workload_id. by rewrite Hid, (FormatInt_nonneg (wl_ID w)) by lia.
Qed.

(** Results go to the explorer and come back with the type that they are reported
    under: for a network resource it is that of a network. *)
Theorem result_roundtrip r s : ResultToSchemaType r = Ok s ->
  resultFromSchemaType s =
    MkResult (if (res_Type r =? NetworkResourceReservation)%string then NetworkReservation else res_Type r)
      (res_ID r) (res_Created r) (res_State r) (res_Error r) (res_Data r) (res_Signature r).
Proof.
  unfold ResultToSchemaType. destruct (result_type (res_Type r)) as [t|] eqn:Ht; [|done]. intros [= <-].
  unfold resultFromSchemaType. cbn. f_equal. unfold result_type in Ht.
  destruct (String.eqb_spec (res_Type r) NetworkResourceReservation) as [Heq|Hne].
  { rewrite Heq in Ht. injection Ht as <-. apply wt_network. }
  repeat match type of Ht with
  | (if (?a =? ?b)%string || _ then _ else _) = _ => destruct (String.eqb_spec a b) as [->|]; cbn [orb] in Ht
  | (if (?a =? ?b)%string then _ else _) = _ => destruct (String.eqb_spec a b) as [->|]
  | Some _ = Some _ => injection Ht as <-
  end; auto using wt_zdb, wt_container, wt_volume, wt_network, wt_kubernetes, wt_public_ip, wt_virtual_machine; done.
Qed.

End converted.

(** ** From the explorer to the disks *)

(** The provisioner reads what the converter has written. *)
Class ConverterJsonLaws `{ConverterJson} `{Decoders} := {
  volume_read v s : enc_Volume v = inl s -> dec_Volume s = Ok v
}.

Section volumes.
  Context {W : Type} {ops : PoolOps W} {view : PoolView W} {laws : PoolLaws W} `{ConverterJsonLaws} `{WorkloadTypes} `{Sorter}.
  Context (d : Daemons W) (suffix : string) (pools : list string).
  Context (storaged_module : storaged d = storage_module suffix pools).

(** A volume of the explorer gets what was asked for. The reservation
    of a volume workload of [size] GiB, provisioned on the storage module, gives the
    volume named by the workload, in a pool of the type it names, the quota of that
    many GiB, and no pool promises more than it has. *)
Theorem volume_workload_stored w r size type t s :
  wl_Type w = WorkloadTypeVolume -> wl_Body w = BVolume size type -> disk_type type = Some t ->
  WorkloadToProvisionType w = Ok r -> 0 < size < 2 ^ 34 ->
  no_overcommit (p_world s) -> (forall p, psize p + size * gib < W64) ->
  let '(s', x) := volumeProvisionImpl d r s in
  no_overcommit (p_world s') /\
  match x with
  | Ok id => id = workload_id w /\
      (p_log s' = p_log s \/
       exists p, pool_Type p = t /\ vols (p_world s') p !! workload_id w = Some (size * gib))
  | _ => True
  end.
Proof.
  intros Ht Hb Hd Hw Hsize Hno Hmax. unfold WorkloadToProvisionType in Hw. rewrite Ht in Hw.
  apply encoded_Ok in Hw as (v & node & data & Hv & Henc & ->).
  unfold VolumeToProvisionType in Hv. rewrite Hb, Hd in Hv. injection Hv as <- <-.
  apply volume_read in Henc. assert (Hu : u64 size = size) by (apply Z.mod_small; unfold W64; lia).
  rewrite Hu in Henc.
  exact (volumeProvision_no_overcommit d suffix pools storaged_module (reservation_of w (wl_NodeID w) data)
    (Counters.MkVolume size t) s Henc Hsize Hno Hmax).
Qed.

End volumes.

(** ** A workload that cannot be converted *)

Section poll.
  Context `{WorkloadTypes} `{ConverterJson} `{Sorter}.
  Context (NodeWorkloads : Z -> (list Workload * Z) + error) (order : option (gmap ReservationType Z)).

(** One workload that the converter refuses, a volume on a disk of an unknown type say,
    keeps the node from seeing any of the workloads that come with it. *)
Theorem Poll_stops from l lastID w size type :
  NodeWorkloads from = inl (l, lastID) -> w ∈ l -> wl_Type w = WorkloadTypeVolume ->
  wl_Body w = BVolume size type -> disk_type type = None ->
  exists e, Poll NodeWorkloads inputConv order from = ([], 0, Some e).
Proof.
  intros Hl Hw Ht Hb Hd.
  assert (Hconv : exists e, convert_all inputConv l = inr e).
  { assert (Hbad : inputConv w = inr (ErrMsg ("disk type " +:+ type +:+ " not supported"))).
    { unfold inputConv, WorkloadToProvisionType, VolumeToProvisionType. by rewrite Ht, Hb, Hd. }
    clear Hl. induction l as [|w' l IH]; [by apply elem_of_nil in Hw|]. cbn [convert_all].
    apply elem_of_cons in Hw as [<-|Hw]; [rewrite Hbad; cbn; eauto|]. destruct (IH Hw) as [e He].
    destruct (inputConv w') as [r|e']; [rewrite He; eauto|]. destruct (is_unsupported e'); eauto. }
  destruct Hconv as [e He]. exists e. unfold Poll. by rewrite Hl, He.
Qed.

End poll.

(** ** A node that gets workloads *)
Module ConvDemo.
Import PrimitivesDemo.

#[local] Instance types : WorkloadTypes.
Proof.
  refine {| wt_String t := match t with
    | WorkloadTypeZDB => ZDBReservation | WorkloadTypeContainer => ContainerReservation
    | WorkloadTypeVolume => VolumeReservation | WorkloadTypeNetwork => NetworkReservation
    | WorkloadTypeKubernetes => KubernetesReservation | WorkloadTypePublicIP => PublicIPReservation
    | WorkloadTypeVirtualMachine => VirtualMachineReservation
    | WorkloadTypeNetworkResource => NetworkResourceReservation | WorkloadTypeOther s => s end |}; reflexivity.
Defined.

#[local] Instance json : ConverterJson := {|
  enc_Volume v :=
    if bool_decide (0 <= vol_Size v < 2 ^ 63) && bool_decide (vol_Type v = SSDDevice) then inl (Itoa (vol_Size v))
    else inr (ErrMsg "json");
  enc_ZDB z := inl (zdb_Password z);
  enc_Container c := inl (join_with "," (mnt_VolumeID <$> cc_Mounts c));
  enc_K8s k := inl (k8s_ClusterSecret k);
  enc_VM v := inl (cfg_Name v);
  enc_PublicIP _ := inl "ip";
  enc_NetResource n := inl (nr_Name n);
  dec_Redis s := inl s
|}.

#[local] Instance json_laws : ConverterJsonLaws.
Proof.
  split. intros [size t] s. cbn [enc_Volume json vol_Size vol_Type]. destruct (bool_decide (0 <= size < 2 ^ 63)) eqn:Hs; [|done].
  destruct (bool_decide (t = SSDDevice)) eqn:Ht; [|done]. intros [= <-].
  apply bool_decide_eq_true in Hs, Ht. subst t.
  change (res_map (fun n => Counters.MkVolume n SSDDevice) (ParseInt (Itoa size)) = Ok (Counters.MkVolume size SSDDevice)).
  by rewrite ParseInt_Itoa.
Qed.

Definition workload (id : Z) (t : WorkloadTypeEnum) (b : Body) : Workload :=
  MkWorkload 7 id 12 t 1000 "sig" (NextActionOther "deploy") "" (MkSResult t "" "" "" 0 "" 0) 1 "node" b.

Definition volume : Workload := workload 1 WorkloadTypeVolume (BVolume 5 "SSD").

Definition container : Workload := workload 2 WorkloadTypeContainer
  (BContainer (MkSContainer "flist" "" ∅ ∅ "" false [MkMount "-1" "/data"; MkMount "3-1" "/other"] [] [] [] 1 64 "ssd" 0)).

Definition volume_reservation : Reservation :=
  MkReservation "7-1" "node" "12" VolumeReservation "5" 1000 MaxInt64 "sig" false ∅ ""
    (MkResult VolumeReservation "" 0 0 "" "" "") 1.

Lemma volume_converted : WorkloadToProvisionType volume = Ok volume_reservation.
Proof. vm_compute. reflexivity. Qed.

Lemma volume_workload_stored_witness :
  exists s', volumeProvisionImpl stored volume_reservation (MkP StorageDemo.full [] false) = (s', Ok "7-1") /\
    no_overcommit (p_world s') /\
    exists p, vols (p_world s') p !! "7-1" = Some (5 * gib).
Proof.
  pose proof (volume_workload_stored stored "uuid" ["p"] eq_refl volume volume_reservation 5 "SSD" SSDDevice
    (MkP StorageDemo.full [] false) eq_refl eq_refl eq_refl volume_converted ltac:(by vm_compute)
    StorageDemo.full_ok ltac:(done)) as Hv.
  destruct (volumeProvisionImpl stored volume_reservation (MkP StorageDemo.full [] false)) as [s' [id|e|m]] eqn:Hrun;
    [|by vm_compute in Hrun..].
  destruct Hv as (Hno & -> & Hq). exists s'. split_and!; [done..|].
  destruct Hq as [Hl|(p & _ & Hq)]; [|by eauto].
  assert (Hlog : length (p_log (fst (volumeProvisionImpl stored volume_reservation (MkP StorageDemo.full [] false)))) = 1%nat)
    by (vm_compute; reflexivity).
  rewrite Hrun in Hlog. cbn in Hlog, Hl. by rewrite Hl in Hlog.
Defined.

Lemma converted_identity_witness :
  SplitID volume_reservation = Ok (7, 1) /\ WorkloadIDFromFilesystem (FilesystemName volume_reservation) = Ok 7 /\
  (1000 <> nullTime -> 2000 <= 1000 + MaxInt64 -> validate 2000 volume_reservation = Ok tt).
Proof.
  apply (converted_identity volume volume_reservation 2000 volume_converted); [by vm_compute|by vm_compute].
Defined.

(** The container uses volume 1 of its own reservation and a volume of another one. *)
Lemma volume_reference_witness : exists rw cfg, WorkloadToProvisionType container = Ok rw /\
  r_Data rw = "7-1,3-1" /\ enc_Container cfg = inl (r_Data rw) /\ cc_Mounts cfg !! 0%nat = Some (MkMount "7-1" "/data").
Proof.
  destruct (WorkloadToProvisionType container) as [rw|e|p] eqn:Hw; [|by vm_compute in Hw..].
  assert (Hd : r_Data rw = "7-1,3-1") by (vm_compute in Hw; by injection Hw as <-).
  destruct (volume_reference container volume rw volume_reservation
    (MkSContainer "flist" "" ∅ ∅ "" false [MkMount "-1" "/data"; MkMount "3-1" "/other"] [] [] [] 1 64 "ssd" 0)
    0 "/data" Hw eq_refl eq_refl volume_converted eq_refl ltac:(by vm_compute) eq_refl) as (cfg & He & Hm).
  exists rw, cfg. by split_and!.
Defined.

Lemma result_roundtrip_witness : exists s,
  ResultToSchemaType (MkResult NetworkResourceReservation "7-1" 5 1 "" "data" "sig") = Ok s /\
  resultFromSchemaType s = MkResult NetworkReservation "7-1" 5 1 "" "data" "sig".
Proof.
  eexists. split; [reflexivity|].
  exact (result_roundtrip (MkResult NetworkResourceReservation "7-1" 5 1 "" "data" "sig") _ eq_refl).
Defined.

Lemma Poll_stops_witness : exists e,
  Poll (fun _ => inl ([volume; workload 3 WorkloadTypeVolume (BVolume 5 "nvme")], 3)) inputConv None 0 = ([], 0, Some e).
Proof.
  apply (Poll_stops _ None 0 [volume; workload 3 WorkloadTypeVolume (BVolume 5 "nvme")] 3
    (workload 3 WorkloadTypeVolume (BVolume 5 "nvme")) 5 "nvme"); [reflexivity|by right; left|reflexivity..].
Defined.

End ConvDemo.
