(* ===== verification/Failures.v ===== *)
(** The cache of failures that the daemons of virtual machines and of containers
    keep: how often a workload was found down lately, or that it is not to be started
    again. *)

From stdpp Require Import gmap strings list.
From Stdlib Require Import ZArith Lia.
From S2P Require Import Prelude.

Open Scope Z_scope.

(** What the cache holds for a workload. *)
Inductive marker := Permanent | Failures (n : Z).

Definition seconds (n : Z) : Z := n * 1000000000.

(** github.com/patrickmn/go-cache, as it is documented. *)
Class GoCache (C : Type) := {
  gc_New : C;
  gc_Get : Z -> string -> C -> option marker;
  gc_Set : Z -> string -> marker -> option Z -> C -> C;
  gc_IncrementInt : Z -> string -> Z -> C -> C * res Z;
  gc_Delete : string -> C -> C
}.

(** The state of such a daemon: the cache, the node, and what was asked of it. *)
Record FState (C W O : Type) := MkV { v_failures : C; v_world : W; v_log : list O }.
Arguments MkV {C W O}.
Arguments v_failures {C W O}.
Arguments v_world {C W O}.
Arguments v_log {C W O}.


Section state.
  Context {C W O : Type} `{GoCache C} (clock : W -> Z).

Notation FM := (M (FState C W O)).

Definition fask {A} (m : M W A) : FM A := fun s =>
  let '(w, x) := m (v_world s) in (MkV (v_failures s) w (v_log s), x).

Definition fact {A} (o : O) (m : M W A) : FM A := fun s =>
  let '(w, x) := m (v_world s) in (MkV (v_failures s) w (v_log s ++ [o]), x).

Definition failures_Get (id : string) : FM (option marker) := fun s =>
  (s, Ok (gc_Get (clock (v_world s)) id (v_failures s))).

(** [ttl] is the life time, none for [NoExpiration]; the default is two minutes. *)
Definition failures_Set (id : string) (x : marker) (ttl : option Z) : FM unit := fun s =>
  (MkV (gc_Set (clock (v_world s)) id x ttl (v_failures s)) (v_world s) (v_log s), Ok tt).

Definition failures_Increment (id : string) : FM Z := fun s =>
  let '(c, x) := gc_IncrementInt (clock (v_world s)) id 1 (v_failures s) in
  (MkV c (v_world s) (v_log s), x).

Definition failures_Delete (id : string) : FM unit := fun s =>
  (MkV (gc_Delete id (v_failures s)) (v_world s) (v_log s), Ok tt).

End state.

(** What the daemon relies on: the entries with the instant they expire at, if they
    do. A purge may drop what has expired. *)
Class GoCacheLaws (C : Type) `{GoCache C} := {
  gc_abs : C -> gmap string (marker * option Z);
  gc_live now k c m e : gc_abs c !! k = Some (m, e) -> (forall t, e = Some t -> now < t) ->
    gc_Get now k c = Some m;
  gc_absent now k c : gc_abs c !! k = None -> gc_Get now k c = None;
  gc_set now k m ttl c :
    gc_abs (gc_Set now k m ttl c) = <[k := (m, (fun d => now + d) <$> ttl)]> (gc_abs c);
  gc_incr now k n e d c : gc_abs c !! k = Some (Failures n, e) -> (forall t, e = Some t -> now < t) ->
    gc_abs (gc_IncrementInt now k d c).1 = <[k := (Failures (n + d), e)]> (gc_abs c) /\
    (gc_IncrementInt now k d c).2 = Ok (n + d);
  gc_not_int now k e d c : gc_abs c !! k = Some (Permanent, e) ->
    gc_abs (gc_IncrementInt now k d c).1 = gc_abs c /\
    exists err, (gc_IncrementInt now k d c).2 = Err err;
  gc_delete k c : gc_abs (gc_Delete k c) = delete k (gc_abs c)
}.

(** ** What a procedure adds to the log *)

Definition starts {O} (is_start : O -> bool) (l : list O) : nat :=
  length (filter (fun o => is_start o = true) l).

(** At most [n] workloads are started. *)
Definition starting {O} (is_start : O -> bool) (n : nat) (l : list O) : Prop := (starts is_start l <= n)%nat.

Section adds.
  Context {C W O : Type} {is_start : O -> bool}.

Notation FM := (M (FState C W O)).

(** A procedure that leaves the failures alone and adds to the log what [P] allows. *)
Definition adds {A} (P : list O -> Prop) (m : FM A) : Prop := forall s,
  v_failures (m s).1 = v_failures s /\ exists l, v_log (m s).1 = v_log s ++ l /\ P l.

#[local] Notation starts := (starts is_start).
#[local] Notation starting := (starting is_start).

Lemma starts_app l l' : starts (l ++ l') = (starts l + starts l')%nat.
Proof. unfold starts. by rewrite filter_app, length_app. Qed.

Lemma adds_fask {A} (m : M W A) n : adds (starting n) (fask m).
Proof.
  intros s. unfold fask. destruct (m (v_world s)) as [w x]. cbn. split; [done|]. exists [].
  rewrite app_nil_r. split; [done|]. unfold Failures.starting, Failures.starts. cbn. lia.
Qed.

Lemma adds_fact {A} o (m : M W A) n : ((if is_start o then 1 else 0) <= n)%nat ->
  adds (starting n) (fact o m).
Proof.
  intros Ho s. unfold fact. destruct (m (v_world s)) as [w x]. split; [done|]. exists [o].
  split; [done|]. unfold Failures.starting, Failures.starts. rewrite filter_cons, filter_nil.
  by case_decide as Hs; [rewrite Hs in Ho|destruct (is_start o)]; cbn; lia.
Qed.

Lemma adds_pure {A} (m : FM A) n : (forall s, (m s).1 = s) -> adds (starting n) m.
Proof.
  intros Hm s. rewrite Hm. split; [done|]. exists []. rewrite app_nil_r. split; [done|].
  unfold Failures.starting, Failures.starts. cbn. lia.
Qed.

Lemma adds_bind {A B} (m : FM A) (k : A -> FM B) n1 n2 n : (n1 + n2 <= n)%nat ->
  adds (starting n1) m -> (forall a, adds (starting n2) (k a)) -> adds (starting n) (m ≫= k).
Proof.
  intros Hn Hm Hk s. unfold mbind, M_bind. destruct (Hm s) as (Hf & l & Hl & Hp).
  destruct (m s) as [s1 [a|e|p]]; cbn in Hf, Hl |- *.
  2,3: split; [done|]; exists l; split; [done|]; unfold Failures.starting in *; lia.
  destruct (Hk a s1) as (Hf' & l' & Hl' & Hp'). rewrite Hf', Hl', Hf, Hl. split; [done|].
  exists (l ++ l'). rewrite (assoc_L (++)). split; [done|]. unfold Failures.starting in *. rewrite starts_app. lia.
Qed.

Lemma adds_same {A B} (m : FM A) (m' : FM B) P : (forall s, (m' s).1 = (m s).1) -> adds P m -> adds P m'.
Proof. intros Hs Hm s. rewrite Hs. apply Hm. Qed.

Lemma adds_try {A} (m : FM A) P : adds P m -> adds P (try m).
Proof. apply adds_same. intros s. unfold try. by destruct (m s) as [s1 []]. Qed.

Lemma adds_wrap {A} msg (m : FM A) P : adds P m -> adds P (wrap msg m).
Proof. apply adds_same. intros s. unfold wrap. by destruct (m s) as [s1 []]. Qed.

Lemma adds_ignore {A} (m : FM A) P : adds P m -> adds P (ignore m).
Proof. apply adds_same. intros s. unfold ignore. by destruct (m s) as [s1 []]. Qed.

Lemma adds_for_each {A} (body : A -> FM unit) l :
  (forall x, adds (starting 0) (body x)) -> adds (starting 0) (for_each body l).
Proof.
  intros Hb. induction l as [|x l IH]; cbn [for_each]; [by apply adds_pure|].
  by apply (adds_bind _ _ 0 0); [lia|apply Hb|intros _].
Qed.

Lemma adds_retry {A} (m : FM A) n : adds (starting 0) m -> adds (starting 0) (retry n m).
Proof.
  intros Hm. induction n as [|n IH]; cbn [retry]; (apply (adds_bind _ _ 0 0); [lia|by apply adds_try|]);
    intros [a|e]; (exact IH || by apply adds_pure).
Qed.

End adds.

(** Procedures that start nothing, by their structure. *)
Ltac starts_nothing :=
  repeat first
    [ apply adds_fask | apply adds_fact; cbn; lia | apply adds_wrap | apply adds_try | apply adds_ignore
    | apply adds_for_each; intros | apply adds_retry
    | apply (adds_bind _ _ 0 0); [lia| |intros] | by apply adds_pure | case_match ].

(** ** Procedures that ask for nothing *)

Section unlogged.
  Context {C W O : Type}.

Notation FM := (M (FState C W O)).

Definition unlogged {A} (m : FM A) : Prop := forall s, v_log (m s).1 = v_log s.

Lemma unlogged_fask {A} (m : M W A) : unlogged (fask m).
Proof. intros s. unfold fask. by destruct (m (v_world s)). Qed.

Lemma unlogged_bind {A B} (m : FM A) (k : A -> FM B) :
  unlogged m -> (forall a, unlogged (k a)) -> unlogged (m ≫= k).
Proof.
  intros Hm Hk s. specialize (Hm s). unfold mbind, M_bind.
  destruct (m s) as [s1 [a|e|p]]; cbn in *; [by rewrite Hk|done|done].
Qed.

Lemma unlogged_same {A B} (m : FM A) (m' : FM B) : (forall s, (m' s).1 = (m s).1) -> unlogged m -> unlogged m'.
Proof. intros Hs Hm s. by rewrite Hs. Qed.

Lemma unlogged_try {A} (m : FM A) : unlogged m -> unlogged (try m).
Proof. apply unlogged_same. intros s. unfold try. by destruct (m s) as [s1 []]. Qed.

Lemma unlogged_wrap {A} msg (m : FM A) : unlogged m -> unlogged (wrap msg m).
Proof. apply unlogged_same. intros s. unfold wrap. by destruct (m s) as [s1 []]. Qed.

Lemma unlogged_for_each {A} (body : A -> FM unit) l : (forall x, unlogged (body x)) -> unlogged (for_each body l).
Proof.
  intros Hb. induction l as [|x l IH]; cbn [for_each]; [done|]. by apply unlogged_bind; [|intros].
Qed.

Lemma unlogged_retry {A} (m : FM A) n : unlogged m -> unlogged (retry n m).
Proof.
  intros Hm. induction n as [|n IH]; cbn [retry]; (apply unlogged_bind; [by apply unlogged_try|]);
    by intros [a|e].
Qed.

Lemma fact_log {A} o (m : M W A) (s s' : FState C W O) x : fact o m s = (s', x) -> v_log s' = v_log s ++ [o].
Proof. unfold fact. by destruct (m (v_world s)) as [w y]; intros [= <- _]. Qed.

(** The log before and after a call that asks for nothing. *)
Lemma unlogged_log {A} (m : FM A) s s' x : unlogged m -> m s = (s', x) -> v_log s' = v_log s.
Proof. intros Hm Hs. specialize (Hm s). by rewrite Hs in Hm. Qed.

(** A procedure that leaves the failures alone. *)
Definition failures_kept {A} (m : FM A) : Prop := forall s, v_failures (m s).1 = v_failures s.

Lemma fk_fask {A} (m : M W A) : failures_kept (fask m).
Proof. intros s. unfold fask. by destruct (m (v_world s)). Qed.

Lemma fk_fact {A} o (m : M W A) : failures_kept (fact o m).
Proof. intros s. unfold fact. by destruct (m (v_world s)). Qed.

Lemma fk_bind {A B} (m : FM A) (k : A -> FM B) :
  failures_kept m -> (forall a, failures_kept (k a)) -> failures_kept (m ≫= k).
Proof.
  intros Hm Hk s. specialize (Hm s). unfold mbind, M_bind.
  destruct (m s) as [s1 [a|e|p]]; cbn in *; [by rewrite Hk|done|done].
Qed.

Lemma fk_try {A} (m : FM A) : failures_kept m -> failures_kept (try m).
Proof. intros Hm s. specialize (Hm s). unfold try. by destruct (m s) as [s1 []]. Qed.

Lemma fk_ignore {A} (m : FM A) : failures_kept m -> failures_kept (ignore m).
Proof. intros Hm s. specialize (Hm s). unfold ignore. by destruct (m s) as [s1 []]. Qed.

End unlogged.

(** ** Counting the failures *)

Section count.
  Context {C W O : Type} `{GoCacheLaws C}.

(** What the cache has for a workload. *)
Definition entry_of (s : FState C W O) (id : string) : option (marker * option Z) :=
  gc_abs (v_failures s) !! id.

(** What is left of a workload after some turns: how often its failure has been
    counted, or that it is not to be restarted. *)
Definition counted (deadline : Z) (n : nat) (e : option (marker * option Z)) : Prop :=
  (n = 0%nat /\ e = None) \/
  (exists t, e = Some (Failures (Z.of_nat n), Some t) /\ deadline <= t).

(** One more failure is counted, the first one with the life time [ttl]. *)
Lemma counted_next now ttl deadline n id c : counted deadline n (gc_abs c !! id) -> now < deadline <= now + ttl ->
  let c1 := match gc_Get now id c with None => gc_Set now id (Failures 0) (Some ttl) c | Some _ => c end in
  gc_Get now id c <> Some Permanent /\
  (gc_IncrementInt now id 1 c1).2 = Ok (Z.of_nat (S n)) /\
  counted deadline (S n) (gc_abs (gc_IncrementInt now id 1 c1).1 !! id).
Proof.
  intros [[-> He]|(t & He & Ht)] Hnow c1; unfold c1.
  - rewrite (gc_absent _ _ _ He).
    destruct (gc_incr now id 0 (Some (now + ttl)) 1 (gc_Set now id (Failures 0) (Some ttl) c)) as [Ha ->].
    { by rewrite gc_set, lookup_insert_eq. } { intros t [= <-]. lia. }
    rewrite Ha, lookup_insert_eq. split_and!; [done|done|]. right. exists (now + ttl). split; [done|lia].
  - assert (Hlive : forall t', Some t = Some t' -> now < t') by (intros t' [= <-]; lia).
    rewrite (gc_live _ _ _ _ _ He Hlive). destruct (gc_incr now id _ _ 1 _ He Hlive) as [Ha ->].
    rewrite Ha, lookup_insert_eq. replace (Z.of_nat n + 1) with (Z.of_nat (S n)) by lia.
    split_and!; [done|done|]. right. by exists t.
Qed.

End count.

(** ** A cache to run the definitions with *)
Module FailuresDemo.

Notation cache := (gmap string (marker * option Z)).

Definition get (t : Z) (id : string) (c : cache) : option marker :=
  match c !! id with
  | Some (m, Some e) => if t <? e then Some m else None
  | Some (m, None) => Some m
  | None => None
  end.

#[export] Instance go_cache : GoCache cache := {|
  gc_New := ∅;
  gc_Get := get;
  gc_Set t id m ttl c := <[id := (m, (fun d => t + d) <$> ttl)]> c;
  gc_IncrementInt t id d c :=
    match get t id c, c !! id with
    | Some (Failures n), Some (_, e) => (<[id := (Failures (n + d), e)]> c, Ok (n + d))
    | _, _ => (c, Err (ErrMsg "Item not found"))
    end;
  gc_Delete id c := delete id c
|}.

Lemma get_live t id m e (c : cache) : c !! id = Some (m, e) -> (forall x, e = Some x -> t < x) ->
  get t id c = Some m.
Proof.
  intros Hc He. unfold get. rewrite Hc. destruct e as [x|]; [|done].
  by rewrite (proj2 (Z.ltb_lt t x) (He x eq_refl)).
Qed.

#[export] Instance go_cache_laws : GoCacheLaws cache.
Proof.
  refine {| gc_abs c := c |}.
  - intros t k c m e. apply get_live.
  - intros t k c Hc. cbn. unfold get. by rewrite Hc.
  - done.
  - intros t k n e d c Hc He. cbn. by rewrite (get_live t k (Failures n) e c Hc He), Hc.
  - intros t k e d c Hc. cbn. unfold get. rewrite Hc. destruct e as [x|]; [destruct (t <? x)|]; cbn; eauto.
  - done.
Defined.

End FailuresDemo.
