(* ===== verification/VmDaemon.v ===== *)
(** The virtual machine daemon: src/pkg/vm (machine.go, ch.go, find.go, client.go,
    manager.go, monitor.go and legacy.go) with [VM.Validate] of src/pkg/vm.go.

    [Hypervisor] is what the daemon uses of the node: the processes, the files, the
    tap devices and the sockets of the machines, over a world [W]. The failures of a
    machine are in a [GoCache] (of [Failures]). *)

From stdpp Require Import gmap strings list.
From Stdlib Require Import Ascii ZArith Lia.
From S2P Require Import Prelude Reservation Counters NetIP Storage Disk Bus VmPrim Failures.

Open Scope Z_scope.
Open Scope go_scope.

(** ** Data *)

Record Boot := MkBoot { boot_Kernel : string; boot_Initrd : string; boot_Args : string }.

Record MDisk := MkMDisk {
  md_ID : string; md_Path : string; md_RootDevice : bool; md_ReadOnly : bool
}.

Record Interface := MkInterface { ifc_ID : string; ifc_Tap : string; ifc_Mac : string }.

Record MConfig := MkMConfig { mc_CPU : Z; mc_Mem : Z; mc_HTEnabled : bool }.

Record Machine := MkMachine {
  m_ID : string; m_Boot : Boot; m_Disks : list MDisk; m_Interfaces : list Interface;
  m_Config : MConfig; m_NoKeepAlive : bool
}.

Inductive InterfaceType := InterfaceTAP | InterfaceMACvTAP.

Definition failuresBeforeDestroy : Z := 4.
Definition vm_socketDir : string := "/var/run/cloud-hypervisor".
Definition configDir : string := "config".
Definition logsDir : string := "logs".
Definition defaultKernelArgs : string := "ro console=ttyS0 noapic reboot=k panic=1 pci=off nomodules".

(** ** Machines as arguments of cloud-hypervisor *)

Definition Disk_String (d : MDisk) : string :=
  "path=" +:+ md_Path d +:+ ",readonly=" +:+ (if md_ReadOnly d then "on" else "off").

Definition with_mac (i : Interface) : string :=
  if (ifc_Mac i =? "")%string then "" else ",mac=" +:+ ifc_Mac i.

Definition asMACvTap (fd : nat) (i : Interface) : string :=
  "fd=" +:+ FormatInt (Z.of_nat fd) +:+ with_mac i.

Definition asTap (i : Interface) : string := "tap=" +:+ ifc_Tap i +:+ with_mac i.

Definition MemMib_String (m : Z) : string := "size=" +:+ FormatInt m +:+ "M".

Definition CPU_String (c : Z) : string := "boot=" +:+ FormatInt c.

(** [json.Encoder] and [json.Decoder] on a machine; the strings that JSON can
    write are read back. *)
Class MachineJson := {
  enc_Machine : Machine -> string;
  dec_Machine : string -> res Machine;
  json_storable : Machine -> Prop;
  json_roundtrip m : json_storable m -> dec_Machine (enc_Machine m) = Ok m
}.

(** The flags of a machine with their values, as the map of [Run] has them. *)
Definition machine_args (m : Machine) (nets : list string) (socket logs : string) :
    list (string * list string) :=
  [("--kernel", [boot_Kernel (m_Boot m)]); ("--cmdline", [boot_Args (m_Boot m)]);
   ("--cpus", [CPU_String (mc_CPU (m_Config m))]); ("--memory", [MemMib_String (mc_Mem (m_Config m))]);
   ("--log-file", [logs]); ("--api-socket", [socket])] ++
  (if (boot_Initrd (m_Boot m) =? "")%string then [] else [("--initramfs", [boot_Initrd (m_Boot m)])]) ++
  (match m_Disks m with [] => [] | ds => [("--disk", Disk_String <$> ds)] end) ++
  (match m_Interfaces m with [] => [] | _ => [("--net", nets)] end).

Definition flatten_args (args : list (string * list string)) : list string :=
  concat ((fun kv => kv.1 :: kv.2) <$> args).

Definition chBin : string := "cloud-hypervisor".

(** ** Finding the processes *)

Definition nul : ascii := "000".

(** The argument after the first [flag], if there is one. *)
Fixpoint flag_value (flag : string) (parts : list string) : option string :=
  match parts with
  | [] => None
  | p :: rest => if (p =? flag)%string then head rest else flag_value flag rest
  end.

(** The machine that a command line runs: its program is [search], and the value
    of [idFlag] names it. *)
Definition process_id (search idFlag : string) (name_of : string -> string) (cmdline : string) :
    option string :=
  let parts := Split nul cmdline in
  if (default "" (head parts) =? search)%string then name_of <$> flag_value idFlag parts
  else None.

(** The walk over the entries of /proc, in lexical order, each with what reading its
    command line gives. *)
Fixpoint scan_proc (search idFlag : string) (name_of : string -> string)
    (entries : list (string * res string)) (found : gmap string Z) : res (gmap string Z) :=
  match entries with
  | [] => Ok found
  | (name, cmd) :: entries =>
      match ParseInt name with
      | Ok pid =>
          match cmd with
          | Ok cmd =>
              scan_proc search idFlag name_of entries
                (match process_id search idFlag name_of cmd with
                 | Some id => <[id := pid]> found
                 | None => found
                 end)
          | Err e => if IsNotExist e then scan_proc search idFlag name_of entries found else Err e
          | Panic p => Panic p
          end
      | _ => scan_proc search idFlag name_of entries found
      end
  end.

(** ** Networks *)

Definition makeDevices (disks : list VMDisk) : list MDisk :=
  imap (fun i d => MkMDisk (FormatInt (Z.of_nat i + 2)) (vmd_Path d) (vmd_Root d) (vmd_ReadOnly d)) disks.

Definition makeNetCmdLine (idx : nat) (ifcfg : VMIface) : string :=
  let ip4Elems :=
    [net_String (if_IP4AddressCIDR ifcfg); IP_String (if_IP4GatewayIP ifcfg)] ++
    (if (0 <? length (net_IP (if_IP4Net ifcfg)))%nat then [net_String (if_IP4Net ifcfg)] else []) in
  let ip6Elems :=
    match To16 (net_IP (if_IP6AddressCIDR ifcfg)) with
    | Some _ => [net_String (if_IP6AddressCIDR ifcfg); IP_String (if_IP6GatewayIP ifcfg)]
    | None => ["slaac"]
    end in
  "net_eth" +:+ FormatInt (Z.of_nat idx) +:+ "=" +:+ join_with "," ip4Elems +:+ "," +:+
  join_with "," ip6Elems +:+ "," +:+ (if if_Public ifcfg then "public" else "priv").

Definition make_nics (ifaces : list VMIface) : list Interface :=
  imap (fun i c => MkInterface ("eth" +:+ FormatInt (Z.of_nat i)) (if_Tap c) (if_MAC c)) ifaces.

Definition makeNetwork (net : VMNetworkInfo) : res (list Interface * string) :=
  let nics := make_nics (vn_Ifaces net) in
  if negb (vn_NewStyle net) then
    match vn_Ifaces net with
    | [] => Panic "index out of range"
    | ifc :: _ =>
        let dns i := match vn_Nameservers net !! i with Some ns => IP_String ns | None => "" end in
        Ok (take 1 nics,
            "ip=" +:+ IP_String (net_IP (if_IP4AddressCIDR ifc)) +:+ "::" +:+
            IP_String (if_IP4GatewayIP ifc) +:+ ":" +:+ IP_String (net_Mask (if_IP4AddressCIDR ifc)) +:+
            ":::off:" +:+ dns 0%nat +:+ ":" +:+ dns 1%nat +:+ ":")
    end
  else
    Ok (nics,
        join_with " " (imap makeNetCmdLine (vn_Ifaces net) ++
                       ["net_dns=" +:+ join_with "," (IP_String <$> vn_Nameservers net)])).

(** [VM.Validate] of src/pkg/vm.go. *)
Definition VMSpec_Validate (vm : VMSpec) : res unit :=
  if (vs_Name vm =? "")%string then Err (ErrMsg "name is required")
  else if (vs_KernelImage vm =? "")%string then Err (ErrMsg "kernel-image is required")
  else if vs_Memory vm <? 512 then Err (ErrMsg "invalid memory must not be less than 512M")
  else if (vs_CPU vm =? 0) || (32 <? vs_CPU vm) then Err (ErrMsg "invalid cpu must be between 1 and 32")
  else Ok tt.

(** The last 2048 bytes of a file. *)
Definition tail_of (content : string) : string :=
  let n := Z.to_nat (Z.min (Z.of_nat (String.length content)) 2048) in
  String.substring (String.length content - n) n content.

(** ** The node *)

Class Hypervisor (W : Type) := {
  hv_Now : W -> Z;
  (** the entries of /proc with their command lines *)
  hv_proc : M W (list (string * res string));
  (** the entries of a directory, and which are directories *)
  hv_ReadDir : string -> M W (list (string * bool));
  hv_ReadFile : string -> M W string;
  hv_MkdirAll : string -> M W unit;
  hv_Create : string -> M W unit;
  hv_Write : string -> string -> M W unit;
  hv_RemoveAll : string -> M W unit;
  hv_Unmount : string -> M W unit;
  (** the type and the index of a network device *)
  hv_LinkByName : string -> M W (string * Z);
  hv_OpenTap : string -> M W unit;
  (** a process with these arguments and these tap devices *)
  hv_Start : list string -> list Z -> M W unit;
  hv_Release : M W unit;
  hv_kill : Z -> Z -> M W unit;
  hv_Dial : string -> M W unit;
  (** a request to the socket of a machine: the status and the body *)
  hv_request : string -> string -> string -> M W (Z * string);
  hv_sleep : Z -> M W unit;
  hv_DecommissionCached : string -> string -> M W unit
}.

(** The cpus and the bytes of memory in the answer of cloud-hypervisor. *)
Class InfoDecoder := dec_VmInfo : string -> res (Z * Z).

(** What was asked of the node. *)
Inductive vop :=
| VMkdir (path : string)
| VWrite (path content : string)
| VRemove (path : string)
| VUnmount (path : string)
| VStart (args : list string) (taps : list Z)
| VKill (pid signal : Z)
| VShutdown (socket : string)
| VDecommission (id reason : string).

Definition SIGKILL : Z := 9.
Definition SIGTERM : Z := 15.

#[local] Notation failures_Get := (failures_Get hv_Now).
#[local] Notation failures_Set := (failures_Set hv_Now).
#[local] Notation failures_Increment := (failures_Increment hv_Now).

Section vmd.
  Context {C W : Type} `{Hypervisor W} `{GoCache C} `{MachineJson} `{MapOrder} `{InfoDecoder}.

Notation VM := (M (FState C W vop)).

Definition now : VM Z := fun s => (s, Ok (hv_Now (v_world s))).

(** The life time is none for [NoExpiration]; the default is two minutes. *)
Definition cacheExpiration : Z := seconds 120.

(** *** find.go and legacy.go *)

Definition findAll : VM (gmap string Z) :=
  l ← fask hv_proc; lift (scan_proc "cloud-hypervisor" "--log-file" Base l ∅).

Definition findAllFC : VM (gmap string Z) :=
  l ← fask hv_proc; lift (scan_proc "/firecracker" "--id" (fun id => id) l ∅).

Definition find_in_map (name : string) (machines : gmap string Z) : VM Z :=
  match machines !! name with
  | Some pid => mret pid
  | None => throw (ErrMsg ("vm '" +:+ name +:+ "' not found"))
  end.

Definition find (name : string) : VM Z := machines ← findAll; find_in_map name machines.
Definition findFC (name : string) : VM Z := machines ← findAllFC; find_in_map name machines.

(** *** machine.go and ch.go *)

Definition Save (m : Machine) (n : string) : VM unit :=
  wrap "failed to create vm config file" (fact (VWrite n "") (hv_Create n)) ;;
  wrap "failed to serialize machine object" (fact (VWrite n (enc_Machine m)) (hv_Write n (enc_Machine m))).

Definition MachineFromFile (n : string) : VM Machine :=
  content ← wrap "failed to open machine config file" (fask (hv_ReadFile n));
  wrap "failed to decode machine config file" (lift (dec_Machine content)).

Definition getType (i : Interface) : VM (InterfaceType * Z) :=
  '(typ, idx) ← fask (hv_LinkByName (ifc_Tap i));
  if (typ =? "macvtap")%string then mret (InterfaceMACvTAP, idx)
  else if (typ =? "tuntap")%string then mret (InterfaceTAP, idx)
  else throw (ErrMsg "unknown tap type").

(** The arguments of the interfaces and the devices that are passed to the process
    as files, the first of which is number 3. *)
Fixpoint interface_args (nics : list Interface) (interfaces : list string) (fds : list Z) :
    VM (list string * list Z) :=
  match nics with
  | [] => mret (interfaces, fds)
  | nic :: nics =>
      '(typ, idx) ← wrap ("failed to detect interface type '" +:+ ifc_Tap nic +:+ "'") (getType nic);
      match typ with
      | InterfaceTAP => interface_args nics (interfaces ++ [asTap nic]) fds
      | InterfaceMACvTAP =>
          interface_args nics (interfaces ++ [asMACvTap (length fds + 3) nic]) (fds ++ [idx])
      end
  end.

Definition Machine_Run (m : Machine) (socket logs : string) : VM unit :=
  '(interfaces, fds) ← interface_args (m_Interfaces m) [] [];
  let args := flatten_args (map_range (machine_args m interfaces socket logs)) in
  for_each (fun idx => fask (hv_OpenTap (Join "/dev" ("tap" +:+ FormatInt idx)))) fds ;;
  ignore (fact (VWrite (logs +:+ ".out") "") (hv_Create (logs +:+ ".out"))) ;;
  let fullArgs := ["setsid"; chBin] ++ args in
  wrap "failed to start cloud-hypervisor" (fact (VStart fullArgs fds) (hv_Start fullArgs fds)) ;;
  wrap "failed to release cloud-hypervisor process" (fask hv_Release).

(** *** client.go *)

Definition Client_Shutdown (socket : string) : VM unit :=
  '(status, _) ← wrap "error calling machine shutdown"
      (fact (VShutdown socket) (hv_request socket "PUT" "http://unix/api/v1/vm.shutdown"));
  if status =? 204 then mret tt
  else throw (ErrMsg "got unexpected http code on machine shutdown").

Definition Client_Inspect (socket : string) : VM (Z * Z) :=
  '(status, body) ← wrap "error calling machine info"
      (fask (hv_request socket "GET" "http://unix/api/v1/vm.info"));
  if negb (status =? 200) then throw (ErrMsg "got unexpected http code on machine info")
  else
    '(cpu, size) ← wrap "failed to parse machine information" (lift (dec_VmInfo body));
    mret (cpu, Z.quot size mib).

(** *** manager.go *)

(** The directory of the module, and how often starting a machine is checked. *)
Context (root : string) (retries : nat).

Definition socketPath (name : string) : string := Join vm_socketDir name.
Definition configPath (name : string) : string := Join (Join root configDir) name.
Definition logsPath (name : string) : string := Join (Join root logsDir) name.

Definition NewVMModule : VM unit :=
  for_each (fun dir => fact (VMkdir dir) (hv_MkdirAll dir))
    [vm_socketDir; Join root configDir; Join root logsDir].

Definition Exists (id : string) : VM bool :=
  got ← try (find id); mret (match got with inl _ => true | inr _ => false end).

Definition tail (path : string) : VM string :=
  got ← try (fask (hv_ReadFile path));
  match got with
  | inl content => mret (tail_of content)
  | inr e =>
      if IsNotExist e then mret "no logs available"
      else throw (ErrWrap ("failed to tail file: " +:+ path) e)
  end.

(** The error with the logs, as a format, which is thrown. *)
Definition throw_with_logs {A} (path : string) (err : error) : VM A :=
  got ← try (tail path);
  match got with
  | inr tailErr => throw (ErrWrap ("failed to tail machine logs: " +:+ Error tailErr) err)
  | inl logs => throw (ErrWrap (Sprintf logs) err)
  end.

Definition Logs_ (name : string) : VM string := tail (logsPath name).

Definition List_ : VM (list string) :=
  machines ← findAll; legacy ← findAllFC;
  mret ((map_range (map_to_list machines)).*1 ++ (map_range (map_to_list legacy)).*1).

Definition waitAndAdjOom (name : string) : VM unit :=
  retry retries
    (present ← Exists name;
     if negb present then throw (ErrMsg ("failed to spawn vm machine process '" +:+ name +:+ "'"))
     else fask (hv_Dial (socketPath name))) ;;
  pid ← wrap ("failed to find vm with id '" +:+ name +:+ "'") (find name);
  let path := Join (Join "/proc/" (FormatInt pid)) "oom_adj" in
  wrap ("failed to update oom priority for machine '" +:+ name +:+ "'")
    (fact (VWrite path "-17") (hv_Write path "-17")).

Definition Inspect_ (name : string) : VM (Z * Z) :=
  present ← Exists name;
  if negb present then throw (ErrMsg ("machine '" +:+ name +:+ "' does not exist"))
  else wrap "failed to get machine configuration" (Client_Inspect (socketPath name)).

(** *** legacy.go *)

Definition machineRoot (id : string) : string := Join (Join root "firecracker") id.

Definition cleanFsFirecracker (id : string) : VM unit :=
  let mroot := Join (machineRoot id) "root" in
  files ← try (fask (hv_ReadDir mroot));
  match files with
  | inr e => if IsNotExist e then mret tt else throw e
  | inl files =>
      for_each (fun entry : string * bool =>
          if entry.2 then mret tt
          else ignore (fact (VUnmount (Join mroot entry.1)) (hv_Unmount (Join mroot entry.1)))) files ;;
      fact (VRemove (machineRoot id)) (hv_RemoveAll (machineRoot id))
  end.

Definition legacy_monitorID (running : gmap string Z) (id : string) : VM unit :=
  match running !! id with Some _ => mret tt | None => cleanFsFirecracker id end.

(** Whether there is more to monitor. *)
Definition legacy_monitor : VM bool :=
  running ← findAllFC;
  items ← try (fask (hv_ReadDir (Join root "firecracker")));
  let kill_all :=
    for_each (fun pid => ignore (fact (VKill pid SIGKILL) (hv_kill pid SIGKILL)))
      (map_range (map_to_list running)).*2 ;;
    mret false in
  match items with
  | inl [] => kill_all
  | inr e => (* a failing ReadDir gives no items *) kill_all
  | inl items =>
      for_each (fun item : string * bool =>
          if item.2 then ignore (legacy_monitorID running item.1) else mret tt) items ;;
      mret true
  end.

(** *** Deleting a machine *)

(** The wait for the end of the process: a second at a time, a signal after five
    seconds and the other one after ten. *)
Fixpoint wait_gone (fuel : nat) (name : string) (pid start : Z) : VM unit :=
  match fuel with
  | O => panic "out of fuel"
  | S fuel =>
      present ← Exists name;
      if negb present then mret tt
      else
        t ← now;
        (if seconds 5 <? t - start then ignore (fact (VKill pid SIGTERM) (hv_kill pid SIGTERM)) else mret tt) ;;
        t ← now;
        if seconds 10 <? t - start then ignore (fact (VKill pid SIGKILL) (hv_kill pid SIGKILL))
        else fask (hv_sleep (seconds 1)) ;; wait_gone fuel name pid start
  end.

(** Twelve turns are enough for ten seconds. *)
Definition delete_turns : nat := 12.

Definition delete_body (name : string) : VM unit :=
  fc ← try (findFC name);
  match fc with
  | inl pid => ignore (fact (VKill pid SIGKILL) (hv_kill pid SIGKILL)) ;; cleanFsFirecracker name
  | inr _ =>
      found ← try (find name);
      match found with
      | inr _ => mret tt
      | inl pid =>
          start ← now;
          ignore (Client_Shutdown (socketPath name)) ;;
          wait_gone delete_turns name pid start
      end
  end.

(** [defer]: the clean-up runs whatever the body returns. *)
Definition deferring {A} (m : VM A) (c : VM unit) : VM A := fun s =>
  let '(s1, x) := m s in
  let '(s2, y) := c s1 in
  (s2, match y with Panic p => Panic p | _ => x end).

Definition Delete (name : string) : VM unit :=
  deferring
    (failures_Set name Permanent None ;;
     deferring (delete_body name)
       (ignore (fact (VRemove (configPath name)) (hv_RemoveAll (configPath name)))))
    (failures_Delete name).

(** *** Running a machine *)

(** The check of the machine after its start, whose error is in a variable of its
    own: it does not delete the machine. *)
Definition Run (vm : VMSpec) : VM unit :=
  wrap "machine configuration validation failed" (lift (VMSpec_Validate vm)) ;;
  present ← Exists (vs_Name vm);
  if present : bool then throw (ErrMsg "a vm with same name already exists")
  else
    '(nics, args) ← lift (makeNetwork (vs_Network vm));
    let kargs := if (vs_KernelArgs vm =? "")%string then defaultKernelArgs else vs_KernelArgs vm in
    let machine := MkMachine (vs_Name vm)
      (MkBoot (vs_KernelImage vm) (vs_InitrdImage vm) (kargs +:+ " " +:+ args))
      (makeDevices (vs_Disks vm)) nics (MkMConfig (vs_CPU vm) (vs_Memory vm) false)
      (vs_NoKeepAlive vm) in
    Save machine (configPath (vs_Name vm)) ;;
    (if vs_NoKeepAlive vm then failures_Set (vs_Name vm) Permanent None else mret tt) ;;
    started ← try (Machine_Run machine (socketPath (vs_Name vm)) (logsPath (vs_Name vm)));
    match started with
    | inr e =>
        deferring (throw_with_logs (logsPath (vs_Name vm)) e) (ignore (Delete (m_ID machine)))
    | inl _ =>
        waited ← try (waitAndAdjOom (vs_Name vm));
        match waited with
        | inr e => throw_with_logs (logsPath (vs_Name vm)) e
        | inl _ => mret tt
        end
    end.

(** *** monitor.go *)

(** Restarting a machine: the reason to give it up, or none. *)
Definition restart (id : string) (vm : Machine) : VM (option error) :=
  r ← try (Machine_Run vm (socketPath id) (logsPath id));
  match r with
  | inr e => mret (Some e)
  | inl _ =>
      w ← try (waitAndAdjOom id);
      mret (match w with inr e => Some e | inl _ => None end)
  end.

Definition abandon (id : string) (reason : error) : VM unit :=
  ignore (fact (VRemove (configPath id)) (hv_RemoveAll (configPath id))) ;;
  wrap ("failed to decommission reservation '" +:+ id +:+ "'")
    (fact (VDecommission id (Error reason)) (hv_DecommissionCached id (Error reason))).

Definition monitorID (running : gmap string Z) (id : string) : VM unit :=
  match running !! id with
  | Some _ => mret tt
  | None =>
      mk ← failures_Get id;
      match mk with
      | None => failures_Set id (Failures 0) (Some cacheExpiration)
      | Some _ => mret tt
      end ;;
      match mk with
      | Some Permanent => ignore (fact (VRemove (configPath id)) (hv_RemoveAll (configPath id)))
      | _ =>
          count ← wrap "failed to check number of failure for the vm" (failures_Increment id);
          if count <? failuresBeforeDestroy then
            vm ← MachineFromFile (configPath id);
            if m_NoKeepAlive vm then failures_Set id Permanent None
            else
              reason ← restart id vm;
              match reason with Some e => abandon id e | None => mret tt end
          else abandon id (ErrMsg "deleting vm due to so many crashes")
      end
  end.

Definition monitor : VM unit :=
  items ← try (fask (hv_ReadDir (Join root configDir)));
  match items with
  | inr e => if IsNotExist e then mret tt else throw e
  | inl items =>
      running ← findAll;
      for_each (fun item : string * bool =>
          if item.2 then mret tt else ignore (monitorID running item.1)) items
  end.

End vmd.

(** ** A machine is found by its process *)

(** A rooted, clean path that is not the root. *)
Definition rooted (path : string) (elems : list string) : Prop :=
  elems <> [] /\ Forall clean_elem elems /\ path = String slash (join elems).

Lemma Join_rooted path elems c : rooted path elems -> clean_elem c ->
  rooted (Join path c) (elems ++ [c]).
Proof.
  intros (Hne & He & ->) Hc. split; [by destruct elems|].
  assert (Hall : Forall clean_elem (elems ++ [c])) by (apply Forall_app; split; [exact He|by apply Forall_singleton]).
  split; [exact Hall|]. unfold Join.
  destruct (String slash (join elems) =? "")%string eqn:E; [by apply String.eqb_eq in E|].
  change (String slash (join elems) +:+ String slash c) with (String slash (join elems +:+ String slash c)).
  rewrite Clean_rooted, Split_snoc by apply Hc.
  rewrite Split_join by (done || by apply clean_no_slash). by rewrite norm_clean.
Qed.

Lemma Base_rooted path elems c : rooted path (elems ++ [c]) -> Base path = c.
Proof.
  intros (_ & He & ->). unfold Base.
  destruct (String slash (join (elems ++ [c])) =? "")%string eqn:E; [by apply String.eqb_eq in E|].
  change (Split slash (String slash (join (elems ++ [c])))) with ("" :: Split slash (join (elems ++ [c]))).
  rewrite Split_join by (by apply clean_no_slash || by destruct elems).
  assert (Hf : filter (fun c => c <> "") ("" :: elems ++ [c]) = elems ++ [c]).
  { rewrite filter_cons_False by naive_solver. clear E. induction He as [|x l (Hx & _) Hl IH]; [done|].
    by rewrite filter_cons_True, IH. }
  by rewrite Hf, rev_app_distr.
Qed.

(** The command line of a process as /proc shows it: each argument ends with a
    byte 0. *)
Definition proc_cmdline (args : list string) : string :=
  String.concat "" ((fun a => a +:+ String nul EmptyString) <$> args).

Lemma Split_proc_cmdline args : Forall (fun a => split_first nul a = None) args ->
  Split nul (proc_cmdline args) = args ++ [""].
Proof.
  induction 1 as [|a args Ha Hargs IH]; [done|].
  assert (Hc : proc_cmdline (a :: args) = a +:+ String nul (proc_cmdline args)).
  { unfold proc_cmdline. cbn [fmap list_fmap]. destruct args as [|b args]; [by cbn|].
    cbn [fmap list_fmap String.concat]. by rewrite string_app_assoc. }
  by rewrite Hc, Split_app, IH.
Qed.

Lemma flag_value_app flag l l' : flag ∉ l -> flag_value flag (l ++ l') = flag_value flag l'.
Proof.
  induction l as [|p l IH]; intros Hl; [done|]. apply not_elem_of_cons in Hl as [Hp Hl]. cbn.
  destruct (String.eqb_spec p flag) as [->|_]; [done|]. by apply IH.
Qed.

(** In whatever order the flags stand, the value of a flag that nothing else looks
    like is found. *)
Lemma flag_value_flatten flag v l rest : (flag, [v]) ∈ l ->
  (forall kv, kv ∈ l -> kv = (flag, [v]) \/ flag ∉ kv.1 :: kv.2) ->
  flag_value flag (flatten_args l ++ rest) = Some v.
Proof.
  intros Hin Hl. induction l as [|kv l IH]; [by apply elem_of_nil in Hin|].
  change (flatten_args (kv :: l)) with ((kv.1 :: kv.2) ++ flatten_args l).
  destruct (Hl kv ltac:(by left)) as [->|Hkv].
  - cbn. by rewrite String.eqb_refl.
  - rewrite <- (assoc_L (++)), flag_value_app by done. apply IH; [|intros kv' Hkv'; apply Hl; by right].
    apply elem_of_cons in Hin as [<-|Hin]; [|done]. exfalso. apply Hkv. by left.
Qed.

Section found.
  Context `{MapOrder}.

(** The daemon finds the machines it has started. Whatever the order
    in which the flags of a machine are put on the command line of
    cloud-hypervisor, the scan of /proc reads the name of the machine back from
    it, as long as the name is one element of a path, no argument contains a byte 0
    and no value of another flag is [--log-file]. *)
Theorem process_found (m : Machine) nets socket root elems name :
  rooted root elems -> clean_elem name ->
  let args := machine_args m nets socket (logsPath root name) in
  Forall (fun a => split_first nul a = None) (flatten_args args) ->
  (forall k vs, (k, vs) ∈ args -> k <> "--log-file" -> "--log-file" ∉ vs) ->
  process_id "cloud-hypervisor" "--log-file" Base
    (proc_cmdline (chBin :: flatten_args (map_range args))) = Some name.
Proof.
  intros Hroot Hname args Hnul Hvals. set (l := map_range args).
  assert (Hl : l ≡ₚ args) by apply map_range_perm.
  assert (Hnul' : Forall (fun a => split_first nul a = None) (chBin :: flatten_args l)).
  { constructor; [done|]. unfold flatten_args. by rewrite Hl. }
  unfold process_id. rewrite Split_proc_cmdline by exact Hnul'.
  cbn [app head default from_option]. change (chBin =? "cloud-hypervisor")%string with true. cbn iota.
  cbn [flag_value]. change (chBin =? "--log-file")%string with false. cbn iota.
  rewrite (flag_value_flatten _ (logsPath root name)).
  - cbn. f_equal. eapply Base_rooted, Join_rooted; [|exact Hname]. by eapply Join_rooted.
  - rewrite Hl. unfold args, machine_args. set_solver.
  - intros [k vs] Hkv. rewrite Hl in Hkv. destruct (decide (k = "--log-file")) as [->|Hk].
    + left. unfold args, machine_args in Hkv.
      rewrite !elem_of_app in Hkv. repeat case_match; rewrite ?elem_of_cons, ?elem_of_nil in Hkv; naive_solver.
    + right. cbn. apply not_elem_of_cons. split; [done|]. by eapply Hvals.
Qed.

End found.

(** ** A machine that crashes again and again *)

Definition is_start (o : vop) : bool := match o with VStart _ _ => true | _ => false end.

Section crash_loop.
  Context {C W : Type} `{Hypervisor W} `{GoCacheLaws C} `{MachineJson} `{MapOrder}.
  Context (root : string) (retries : nat).

Notation VM := (M (FState C W vop)).

#[local] Notation starting := (starting is_start).
#[local] Notation starts := (starts is_start).

Lemma adds_find name : adds (starting 0) (find name : VM Z).
Proof. unfold find, findAll, find_in_map. starts_nothing. Qed.

Lemma adds_Exists name : adds (starting 0) (Exists name : VM bool).
Proof. unfold Exists. apply (adds_bind _ _ 0 0); [lia|apply adds_try, adds_find|intros]. starts_nothing. Qed.

Lemma adds_waitAndAdjOom name : adds (starting 0) (waitAndAdjOom retries name : VM unit).
Proof.
  unfold waitAndAdjOom. apply (adds_bind _ _ 0 0); [lia| |intros _].
  - apply adds_retry, (adds_bind _ _ 0 0); [lia|apply adds_Exists|intros]. starts_nothing.
  - apply (adds_bind _ _ 0 0); [lia|apply adds_wrap, adds_find|intros]. starts_nothing.
Qed.

Lemma adds_interface_args nics : forall i f, adds (starting 0) (interface_args nics i f : VM _).
Proof.
  induction nics as [|nic nics IH]; intros i f; cbn [interface_args]; [by apply adds_pure|].
  apply (adds_bind _ _ 0 0); [lia|unfold getType; starts_nothing|intros [[] idx]; apply IH].
Qed.

Lemma adds_Machine_Run m socket logs : adds (starting 1) (Machine_Run m socket logs : VM unit).
Proof.
  unfold Machine_Run. apply (adds_bind _ _ 0 1); [lia|apply adds_interface_args|intros [ifs fds]].
  apply (adds_bind _ _ 0 1); [lia|starts_nothing|intros _].
  apply (adds_bind _ _ 0 1); [lia|starts_nothing|intros _].
  apply (adds_bind _ _ 1 0); [lia|by apply adds_wrap, adds_fact; cbn; lia|intros _]. starts_nothing.
Qed.

Lemma adds_restart id vm : adds (starting 1) (restart root retries id vm : VM _).
Proof.
  unfold restart. apply (adds_bind _ _ 1 0); [lia|apply adds_try, adds_Machine_Run|intros [u|e]].
  - apply (adds_bind _ _ 0 0); [lia|apply adds_try, adds_waitAndAdjOom|intros]. by apply adds_pure.
  - by apply adds_pure.
Qed.

Lemma adds_abandon id e : adds (starting 0) (abandon root id e : VM unit).
Proof. unfold abandon. starts_nothing. Qed.

Lemma adds_MachineFromFile path : adds (starting 0) (MachineFromFile path : VM Machine).
Proof. unfold MachineFromFile. starts_nothing. Qed.

(** Once the failure has been counted. *)
Definition after_count (id : string) (count : Z) : VM unit :=
  if count <? failuresBeforeDestroy then
    vm ← MachineFromFile (configPath root id);
    if m_NoKeepAlive vm then failures_Set id Permanent None
    else
      reason ← restart root retries id vm;
      match reason with Some e => abandon root id e | None => mret tt end
  else abandon root id (ErrMsg "deleting vm due to so many crashes").

Lemma abandon_removes id e (s : FState C W vop) : exists l, v_log (abandon root id e s).1 = v_log s ++ l /\
  VRemove (configPath root id) ∈ l /\ starts l = 0%nat /\
  v_failures (abandon root id e s).1 = v_failures s.
Proof.
  unfold abandon, mbind, M_bind, ignore, fact, wrap.
  destruct (hv_RemoveAll _ _) as [w [[]|?|?]]; cbn;
    [destruct (hv_DecommissionCached _ _ _) as [w' [[]|?|?]]; cbn..|];
    eexists; rewrite <- ?(assoc_L (++)); (split; [reflexivity|]); (split; [by left|by split]).
Qed.

Lemma after_count_low id count (s : FState C W vop) : count < failuresBeforeDestroy ->
  exists l, v_log (after_count id count s).1 = v_log s ++ l /\ (starts l <= 1)%nat /\
    (entry_of (after_count id count s).1 id = entry_of s id \/
     entry_of (after_count id count s).1 id = Some (Permanent, None)).
Proof.
  intros Hc. unfold after_count. rewrite (proj2 (Z.ltb_lt _ _) Hc). unfold mbind, M_bind.
  destruct (adds_MachineFromFile (configPath root id) s) as (Hf & l & Hl & Hs).
  destruct (MachineFromFile _ s) as [s1 [vm|e|p]]; cbn in Hf, Hl |- *;
    [|exists l; unfold entry_of, Failures.starting in *; rewrite Hf; split_and!; [done|lia|by left]..].
  destruct (m_NoKeepAlive vm).
  - exists l. cbn. unfold entry_of, Failures.starting in *. cbn. rewrite gc_set, lookup_insert_eq, Hl. cbn.
    split_and!; [done|lia|by right].
  - destruct (adds_restart id vm s1) as (Hf2 & l2 & Hl2 & Hs2).
    destruct (restart _ _ id vm s1) as [s2 [[e|]|e|p]]; cbn in Hf2, Hl2 |- *.
    2-4: exists (l ++ l2); rewrite Hl2, Hl, (assoc_L (++)); unfold entry_of, Failures.starting in *;
      rewrite Hf2, Hf, starts_app; split_and!; [done|lia|by left].
    destruct (abandon_removes id e s2) as (l3 & Hl3 & _ & Hs3 & Hf3).
    exists (l ++ l2 ++ l3). rewrite Hl3, Hl2, Hl, !(assoc_L (++)). unfold entry_of, Failures.starting in *.
    rewrite Hf3, Hf2, Hf, !starts_app. split_and!; [done|lia|by left].
Qed.

Lemma monitorID_counts running id deadline n (s : FState C W vop) :
  running !! id = None -> counted deadline n (entry_of s id) ->
  hv_Now (v_world s) < deadline <= hv_Now (v_world s) + cacheExpiration ->
  let s' := (monitorID root retries running id s).1 in
  exists l, v_log s' = v_log s ++ l /\
    ((Z.of_nat n + 1 < failuresBeforeDestroy /\ (starts l <= 1)%nat /\
      (counted deadline (S n) (entry_of s' id) \/ entry_of s' id = Some (Permanent, None))) \/
     (failuresBeforeDestroy <= Z.of_nat n + 1 /\ starts l = 0%nat /\ VRemove (configPath root id) ∈ l /\
      counted deadline (S n) (entry_of s' id))).
Proof.
  intros Hrun Hcount Hnow s'.
  assert (Hs : exists c, counted deadline (S n) (gc_abs c !! id) /\
    s' = (after_count id (Z.of_nat (S n)) (MkV c (v_world s) (v_log s))).1).
  { destruct (counted_next _ cacheExpiration _ _ id (v_failures s) Hcount Hnow) as (Hp & Hi & Hc).
    unfold s', monitorID. rewrite Hrun. unfold mbind, M_bind, Failures.failures_Get, Failures.failures_Increment, wrap.
    destruct (gc_Get _ id _) as [[|k]|]; [done|cbn in *..];
      (destruct (gc_IncrementInt _ _ _ _) as [c x]; cbn in Hi, Hc; subst x; exists c; by split). }
  destruct Hs as (c & Hc & ->).
  destruct (Z.lt_ge_cases (Z.of_nat (S n)) failuresBeforeDestroy) as [Hlow|Hhigh].
  - destruct (after_count_low id _ (MkV c (v_world s) (v_log s)) Hlow) as (l & Hl & Hst & He).
    exists l. split; [exact Hl|]. left. split; [lia|]. split; [done|].
    destruct He as [He|He]; rewrite He; [left|by right]. done.
  - unfold after_count. rewrite (proj2 (Z.ltb_ge _ _) Hhigh).
    destruct (abandon_removes id (ErrMsg "deleting vm due to so many crashes")
      (MkV c (v_world s) (v_log s))) as (l & Hl & Hin & Hst & Hf).
    exists l. split; [exact Hl|]. right. split_and!; [lia|done|done|]. unfold entry_of. by rewrite Hf.
Qed.

(** A machine that is not to be restarted. *)
Lemma monitorID_permanent running id (s : FState C W vop) :
  running !! id = None -> entry_of s id = Some (Permanent, None) ->
  let s' := (monitorID root retries running id s).1 in
  v_log s' = v_log s ++ [VRemove (configPath root id)] /\ v_failures s' = v_failures s.
Proof.
  intros Hrun Hp. unfold monitorID. rewrite Hrun. unfold mbind, M_bind, failures_Get.
  rewrite (gc_live _ _ _ _ _ Hp) by done. cbn. unfold ignore, fact.
  by destruct (hv_RemoveAll _ _) as [w []].
Qed.

(** [n] turns of the monitor that find the machine down, before [deadline]. Between
    them the world changes as it likes; the log is that of this machine. *)
Inductive crashes (id : string) (t0 : Z) : nat -> FState C W vop -> FState C W vop -> Prop :=
| crashes_none s : crashes id t0 0 s s
| crashes_turn n s s1 s2 running :
    crashes id t0 n s s1 -> running !! id = None ->
    t0 <= hv_Now (v_world s1) < t0 + cacheExpiration ->
    v_log s2 = v_log (monitorID root retries running id s1).1 ->
    entry_of s2 id = entry_of (monitorID root retries running id s1).1 id ->
    crashes id t0 (S n) s s2.

Lemma crashes_counted id t0 n s s' : entry_of s id = None -> crashes id t0 n s s' ->
  exists l, v_log s' = v_log s ++ l /\ (starts l <= Nat.min n 3)%nat /\
    ((4 <= n)%nat -> VRemove (configPath root id) ∈ l) /\
    (counted (t0 + cacheExpiration) n (entry_of s' id) \/ entry_of s' id = Some (Permanent, None) /\ (1 <= n)%nat).
Proof.
  intros Hnew Hn. induction Hn as [s|n s s1 s2 running Hn IH Hrun Ht Hlog Hentry].
  - exists []. rewrite app_nil_r. split_and!; [done|unfold Failures.starts; cbn; lia|lia|left; by left].
  - destruct (IH Hnew) as (l & Hl & Hst & Hrem & [Hc|[Hp Hn1]]).
    + destruct (monitorID_counts running id (t0 + cacheExpiration) n s1 Hrun Hc ltac:(lia))
        as (l' & Hl' & Hcase).
      exists (l ++ l'). rewrite Hlog, Hl', Hl, (assoc_L (++)), Hentry, starts_app.
      unfold failuresBeforeDestroy in Hcase.
      destruct Hcase as [(Hlow & Hst' & Hc')|(Hhigh & Hst' & Hin & Hc')]; (split; [done|]).
      * split; [lia|]. split; [lia|]. destruct Hc' as [Hc'|Hc']; [by left|right; split; [done|lia]].
      * split; [lia|]. split; [intros _; set_solver|by left].
    + destruct (monitorID_permanent running id s1 Hrun Hp) as (Hlog' & Hf).
      exists (l ++ [VRemove (configPath root id)]).
      rewrite Hlog, Hlog', Hl, (assoc_L (++)), Hentry, starts_app. unfold entry_of in *. rewrite Hf, Hp.
      split; [done|]. split; [change (starts [VRemove (configPath root id)]) with 0%nat; lia|]. split; [intros _; set_solver|].
      right. split; [done|lia].
Qed.

(** C17 (safety): a machine that crashes again and again is given up. However often
    the monitor finds it down within two minutes, it is started at most three
    times, and at the fourth turn at the latest its configuration is removed, so
    that it is not looked at any more. *)
Theorem crash_loop_ends id t0 n s s' :
  entry_of s id = None -> crashes id t0 n s s' ->
  exists l, v_log s' = v_log s ++ l /\ (starts l <= 3)%nat /\
    ((4 <= n)%nat -> VRemove (configPath root id) ∈ l).
Proof.
  intros Hnew Hn. apply crashes_counted in Hn as (l & Hl & Hst & Hrem & _); [|done].
  exists l. split_and!; [done|lia|done].
Qed.

End crash_loop.

(** ** Deleting a machine ends *)

(** The clock goes on, also while the daemon works, and these calls answer. *)
Class HypervisorLaws (W : Type) `{Hypervisor W} := {
  hv_proc_time w : hv_Now w <= hv_Now (hv_proc w).1;
  hv_proc_answers w p : (hv_proc w).2 <> Panic p;
  hv_entry_answers w l name p : (hv_proc w).2 = Ok l -> (name, Panic p) ∉ l;
  hv_kill_time pid sig w : hv_Now w <= hv_Now (hv_kill pid sig w).1;
  hv_kill_answers pid sig w p : (hv_kill pid sig w).2 <> Panic p;
  hv_sleep_time n w : hv_Now w + n <= hv_Now (hv_sleep n w).1;
  hv_sleep_answers n w : (hv_sleep n w).2 = Ok tt
}.

Lemma scan_proc_answers search flag name_of l : forall found p, (forall name p, (name, Panic p) ∉ l) ->
  scan_proc search flag name_of l found <> Panic p.
Proof.
  induction l as [|[name cmd] l IH]; intros found p Hl; cbn [scan_proc]; [done|].
  assert (Hl' : forall name p, (name, Panic p) ∉ l) by (intros name' p' Hin; eapply Hl; by right).
  destruct (ParseInt name); [|by apply IH..].
  destruct cmd as [cmd|e|q]; [by apply IH|case_match; [by apply IH|done]|].
  exfalso. eapply Hl. by left.
Qed.

Section delete_ends.
  Context {C W : Type} `{HypervisorLaws W} `{GoCache C}.
  Context (root : string).

Lemma Exists_answers name (s : FState C W vop) :
  exists b, (Exists name s).2 = Ok b /\ v_log (Exists name s).1 = v_log s /\
    hv_Now (v_world s) <= hv_Now (v_world (Exists name s).1).
Proof.
  unfold Exists, find, findAll, find_in_map, try, mbind, M_bind, fask, lift.
  pose proof (hv_proc_time (v_world s)) as Ht. pose proof (hv_proc_answers (v_world s)) as Hp.
  pose proof (hv_entry_answers (v_world s)) as He.
  destruct (hv_proc (v_world s)) as [w [l|e|p]]; cbn in *; [|by exists false|by destruct (Hp p)].
  assert (Hscan := scan_proc_answers "cloud-hypervisor" "--log-file" Base l ∅).
  destruct (scan_proc _ _ _ l ∅) as [found|e|p]; cbn; [|by exists false|].
  - destruct (found !! name); cbn; by eexists.
  - exfalso. apply (Hscan p); [|done]. intros name' p'. by apply (He l).
Qed.

(** A signal, whose error is dropped. *)
Lemma kill_answers pid sig (s : FState C W vop) :
  let r := ignore (fact (VKill pid sig) (hv_kill pid sig)) s in
  r.2 = Ok tt /\ v_log r.1 = v_log s ++ [VKill pid sig] /\ hv_Now (v_world s) <= hv_Now (v_world r.1).
Proof.
  unfold ignore, fact. pose proof (hv_kill_time pid sig (v_world s)) as Ht.
  pose proof (hv_kill_answers pid sig (v_world s)) as Hp.
  destruct (hv_kill pid sig (v_world s)) as [w [[]|e|p]]; cbn in *; [done|done|by destruct (Hp p)].
Qed.

Lemma wait_gone_turns name pid start fuel : forall s : FState C W vop, (1 <= fuel <= 12)%nat ->
  seconds (12 - Z.of_nat fuel) <= hv_Now (v_world s) - start ->
  exists s' l, wait_gone fuel name pid start s = (s', Ok tt) /\ v_log s' = v_log s ++ l /\
    (VKill pid SIGKILL ∈ l \/ exists s1, Exists name s1 = (s', Ok false)).
Proof.
  induction fuel as [|fuel IH]; intros s Hf Ht; [lia|]. cbn [wait_gone].
  unfold mbind at 1, M_bind at 1. destruct (Exists_answers name s) as (b & Hb & Hl & Hn).
  destruct (Exists name s) as [s1 x] eqn:Ex. cbn in Hb, Hl, Hn. subst x. destruct b; cbn [negb].
  2: { exists s1, []. rewrite app_nil_r. split_and!; [done..|right; by exists s]. }
  unfold mbind at 1, M_bind at 1. cbn [now].
  set (term := if seconds 5 <? _ then _ else _).
  assert (Hterm : exists s2 l2, term s1 = (s2, Ok tt) /\ v_log s2 = v_log s1 ++ l2 /\
    hv_Now (v_world s1) <= hv_Now (v_world s2)).
  { unfold term. destruct (seconds 5 <? _).
    - destruct (kill_answers pid SIGTERM s1) as (H1' & H2' & H3').
      destruct (ignore _ s1) as [s2 x]. cbn in *. subst x. by exists s2, [VKill pid SIGTERM].
    - exists s1, []. rewrite app_nil_r. by split_and!. }
  destruct Hterm as (s2 & l2 & Hterm & Hl2 & Hn2). unfold mbind at 1, M_bind at 1. rewrite Hterm.
  unfold mbind at 1, M_bind at 1. cbn [now].
  destruct (Z.ltb_spec (seconds 10) (hv_Now (v_world s2) - start)) as [Hlate|Hearly].
  - destruct (kill_answers pid SIGKILL s2) as (H1' & H2' & H3').
    destruct (ignore _ s2) as [s3 x]. cbn in *. subst x. exists s3, (l2 ++ [VKill pid SIGKILL]).
    rewrite H2', Hl2, Hl, (assoc_L (++)). split_and!; [done..|left; set_solver].
  - unfold mbind at 1, M_bind at 1, fask. pose proof (hv_sleep_time (seconds 1) (v_world s2)) as Hsl.
    pose proof (hv_sleep_answers (seconds 1) (v_world s2)) as Ha.
    destruct (hv_sleep (seconds 1) (v_world s2)) as [w x]. cbn in Hsl, Ha. subst x.
    unfold seconds in *.
    destruct (IH (MkV (v_failures s2) w (v_log s2))) as (s3 & l3 & Hrun & Hl3 & Hend); [lia|cbn; lia|].
    exists s3, (l2 ++ l3). rewrite Hrun, Hl3. cbn. rewrite Hl2, Hl, (assoc_L (++)).
    split_and!; [done..|]. destruct Hend as [Hin|Hgone]; [left; set_solver|by right].
Qed.

(** The wait for a machine that is deleted ends. Whatever the
    process does and however long each call takes, twelve turns of the loop are
    enough: it returns when the process is gone, or after it has been killed. *)
Theorem wait_gone_ends name pid (s : FState C W vop) :
  exists s' l, wait_gone delete_turns name pid (hv_Now (v_world s)) s = (s', Ok tt) /\
    v_log s' = v_log s ++ l /\
    (VKill pid SIGKILL ∈ l \/ exists s1, Exists name s1 = (s', Ok false)).
Proof. apply wait_gone_turns; unfold delete_turns, seconds; lia. Qed.

End delete_ends.

(** ** What a machine is started with

    Written from the specification of the machine, for [Run_starts] to compare with. *)

(** The address of an interface as the script of the new images reads it: the address
    with its mask, the gateway, the route if there is one, the same of IPv6 or [slaac], and
    whether the network is public. *)
Definition iface_text (i : nat) (c : VMIface) : string :=
  join_with ","
    (["net_eth" +:+ FormatInt (Z.of_nat i) +:+ "=" +:+ net_String (if_IP4AddressCIDR c); IP_String (if_IP4GatewayIP c)] ++
     (match net_IP (if_IP4Net c) with [] => [] | _ => [net_String (if_IP4Net c)] end) ++
     (match To16 (net_IP (if_IP6AddressCIDR c)) with
      | Some _ => [net_String (if_IP6AddressCIDR c); IP_String (if_IP6GatewayIP c)]
      | None => ["slaac"]
      end) ++
     [if if_Public c then "public" else "priv"]).

(** The network on the command line of the kernel: for an old image the fields of the
    parameter [ip] of the first interface (client, server, gateway, mask, host, device,
    autoconfiguration, two name servers, time server). *)
Definition network_text (net : VMNetworkInfo) : string :=
  if vn_NewStyle net then
    join_with " " (imap iface_text (vn_Ifaces net) ++
                   ["net_dns=" +:+ join_with "," (IP_String <$> vn_Nameservers net)])
  else
    let dns i := default "" (IP_String <$> vn_Nameservers net !! i) in
    join_with "" (((fun c =>
      join_with ":" ["ip=" +:+ IP_String (net_IP (if_IP4AddressCIDR c)); ""; IP_String (if_IP4GatewayIP c);
                     IP_String (net_Mask (if_IP4AddressCIDR c)); ""; ""; "off"; dns 0%nat; dns 1%nat; ""])
      <$> take 1 (vn_Ifaces net))).

Definition kernel_line (vm : VMSpec) : string :=
  (if (vs_KernelArgs vm =? "")%string
   then "ro console=ttyS0 noapic reboot=k panic=1 pci=off nomodules" else vs_KernelArgs vm) +:+
  " " +:+ network_text (vs_Network vm).

(** The interfaces that are used: one for an old image. *)
Definition used_ifaces (vm : VMSpec) : list VMIface :=
  if vn_NewStyle (vs_Network vm) then vn_Ifaces (vs_Network vm) else take 1 (vn_Ifaces (vs_Network vm)).

(** The flags of cloud-hypervisor, each with its values. *)
Definition command (vm : VMSpec) (nets : list string) (socket logs : string) : list (list string) :=
  [["--kernel"; vs_KernelImage vm]; ["--cmdline"; kernel_line vm];
   ["--cpus"; "boot=" +:+ FormatInt (vs_CPU vm)]; ["--memory"; "size=" +:+ FormatInt (vs_Memory vm) +:+ "M"];
   ["--log-file"; logs]; ["--api-socket"; socket]] ++
  (if (vs_InitrdImage vm =? "")%string then [] else [["--initramfs"; vs_InitrdImage vm]]) ++
  (match vs_Disks vm with
   | [] => []
   | ds => ["--disk" :: ((fun d => "path=" +:+ vmd_Path d +:+ ",readonly=" +:+
                                   (if vmd_ReadOnly d then "on" else "off")) <$> ds)]
   end) ++
  (match used_ifaces vm with [] => [] | _ => ["--net" :: nets] end).

(** The machine that is saved is the one of the specification. *)
Record describes (vm : VMSpec) (m : Machine) : Prop := MkDescribes {
  ds_ID : m_ID m = vs_Name vm;
  ds_boot : m_Boot m = MkBoot (vs_KernelImage vm) (vs_InitrdImage vm) (kernel_line vm);
  ds_disks : (fun d => (md_Path d, md_RootDevice d, md_ReadOnly d)) <$> m_Disks m =
             (fun d => (vmd_Path d, vmd_Root d, vmd_ReadOnly d)) <$> vs_Disks vm;
  ds_nics : (fun i => (ifc_Tap i, ifc_Mac i)) <$> m_Interfaces m = (fun c => (if_Tap c, if_MAC c)) <$> used_ifaces vm;
  ds_config : m_Config m = MkMConfig (vs_CPU vm) (vs_Memory vm) false;
  ds_keep : m_NoKeepAlive m = vs_NoKeepAlive vm
}.

Definition mac_text (mac : string) : string := if (mac =? "")%string then "" else ",mac=" +:+ mac.

(** What stands for the interfaces, each a tap and a hardware address, on the command
    line, and the devices that the process gets as open files from number [n] on: a tap
    device is named, a macvtap device is the file with its number. *)
Inductive nets_of {W} `{Hypervisor W} : Z -> list (string * string) -> list string -> list Z -> Prop :=
  | nets_none n : nets_of n [] [] []
  | nets_tap n tap mac idx w w' cs nets fds : hv_LinkByName tap w = (w', Ok ("tuntap", idx)) ->
      nets_of n cs nets fds -> nets_of n ((tap, mac) :: cs) (("tap=" +:+ tap +:+ mac_text mac) :: nets) fds
  | nets_macvtap n tap mac idx w w' cs nets fds : hv_LinkByName tap w = (w', Ok ("macvtap", idx)) ->
      nets_of (n + 1) cs nets fds ->
      nets_of n ((tap, mac) :: cs) (("fd=" +:+ FormatInt n +:+ mac_text mac) :: nets) (idx :: fds).

(** ** Running a machine *)

Lemma join_with_app sep l l' : l <> [] -> l' <> [] ->
  join_with sep (l ++ l') = join_with sep l +:+ sep +:+ join_with sep l'.
Proof.
  intros Hl Hl'. induction l as [|x l IH]; [done|]. destruct l as [|y l].
  - by destruct l'.
  - cbn in *. rewrite IH by done. by rewrite !string_app_assoc.
Qed.

Lemma join_with_prefix sep p x l : join_with sep ((p +:+ x) :: l) = p +:+ join_with sep (x :: l).
Proof. destruct l; cbn [join_with]; [done|by rewrite string_app_assoc]. Qed.

Lemma makeNetCmdLine_text i c : makeNetCmdLine i c = iface_text i c.
Proof.
  unfold makeNetCmdLine, iface_text.
  assert (Hnet : (if (0 <? length (net_IP (if_IP4Net c)))%nat then [net_String (if_IP4Net c)] else []) =
    match net_IP (if_IP4Net c) with [] => [] | _ => [net_String (if_IP4Net c)] end) by by destruct (net_IP _).
  rewrite Hnet. generalize (match net_IP (if_IP4Net c) with [] => [] | _ => [net_String (if_IP4Net c)] end). intros route.
  set (ip6 := match To16 _ with Some _ => _ | None => _ end).
  assert (H6 : ip6 <> []) by (unfold ip6; by destruct (To16 _)). clearbody ip6.
  cbn [app]. rewrite !app_comm_cons, (join_with_app _ _ (ip6 ++ _)), (join_with_app _ ip6) by (done || by destruct ip6).
  change (join_with "," [if if_Public c then "public" else "priv"]) with (if if_Public c then "public" else "priv").
  rewrite <- !string_app_assoc, join_with_prefix. by rewrite !string_app_assoc.
Qed.

Lemma makeNetwork_text net nics args : makeNetwork net = Ok (nics, args) ->
  args = network_text net /\
  (fun i => (ifc_Tap i, ifc_Mac i)) <$> nics =
    (fun c => (if_Tap c, if_MAC c)) <$> (if vn_NewStyle net then vn_Ifaces net else take 1 (vn_Ifaces net)).
Proof.
  unfold makeNetwork, network_text, make_nics. destruct (vn_NewStyle net); cbn [negb].
  - intros [= <- <-]. split.
    + do 2 f_equal. apply imap_ext. intros i c _. apply makeNetCmdLine_text.
    + rewrite fmap_imap. by rewrite <- imap_const.
  - destruct (vn_Ifaces net) as [|c cs]; [done|]. intros [= <- <-]. split; [|done].
    cbn [take fmap list_fmap join_with]. rewrite !string_app_assoc.
    by destruct (vn_Nameservers net) as [|d0 [|d1 ds]].
Qed.

Section run.
  Context {C W : Type} `{Hypervisor W} `{GoCache C} `{MachineJson} `{MapOrder}.
  Context (root : string) (retries : nat).

Notation VM := (M (FState C W vop)).

Lemma unlogged_find name : unlogged (find name : VM Z).
Proof.
  unfold find, findAll, find_in_map. repeat (apply unlogged_bind; [|intros]); [apply unlogged_fask|done|].
  by case_match.
Qed.

Lemma unlogged_Exists name : unlogged (Exists name : VM bool).
Proof. unfold Exists. by apply unlogged_bind; [apply unlogged_try, unlogged_find|intros]. Qed.

Lemma unlogged_interface_args nics : forall i f, unlogged (interface_args nics i f : VM _).
Proof.
  induction nics as [|nic nics IH]; intros i f; cbn [interface_args]; [done|].
  apply unlogged_bind; [|intros [typ idx]; destruct typ; apply IH].
  unfold getType. apply unlogged_wrap, unlogged_bind; [apply unlogged_fask|intros [typ idx]].
  by repeat case_match.
Qed.

Lemma throw_logs {A} path e (s s' : FState C W vop) (a : A) : throw_with_logs path e s <> (s', Ok a).
Proof. unfold throw_with_logs. intros Hrun. ok_bind Hrun s1 x Hx. by destruct x. Qed.

Lemma throw_deferred {A} path e c (s s' : FState C W vop) (a : A) :
  deferring (throw_with_logs path e) c s <> (s', Ok a).
Proof.
  unfold deferring. destruct (throw_with_logs path e s) as [s1 x] eqn:E.
  destruct x as [b|e'|p]; [by apply throw_logs in E|..]; by destruct (c s1) as [s2 []].
Qed.

Definition start_args (m : Machine) (nets : list string) (socket logs : string) : list string :=
  ["setsid"; chBin] ++ flatten_args (map_range (machine_args m nets socket logs)).

Lemma interface_args_nets nics : forall i f (s s' : FState C W vop) nets fds,
  interface_args nics i f s = (s', Ok (nets, fds)) -> exists nets' fds', nets = i ++ nets' /\ fds = f ++ fds' /\
    nets_of (Z.of_nat (length f) + 3) ((fun n => (ifc_Tap n, ifc_Mac n)) <$> nics) nets' fds'.
Proof.
  induction nics as [|nic nics IH]; intros i f s s' nets fds; cbn [interface_args].
  { intros [= _ <- <-]. exists [], []. rewrite !app_nil_r. split_and!; [done..|constructor]. }
  intros Hrun. ok_bind Hrun s1 ti Ht. destruct ti as [typ idx]. apply wrap_Ok in Ht. unfold getType in Ht.
  ok_bind Ht s2 link Hl. destruct link as [ltyp lidx]. unfold fask in Hl.
  destruct (hv_LinkByName (ifc_Tap nic) (v_world s)) as [w x] eqn:Hlink. injection Hl as _ ->.
  destruct (String.eqb_spec ltyp "macvtap") as [->|]; [|destruct (String.eqb_spec ltyp "tuntap") as [->|]; [|done]];
    injection Ht as _ <- <-; apply IH in Hrun as (nets' & fds' & -> & -> & Hn).
  - eexists _, _. rewrite <- !(assoc_L (++)). split_and!; [done..|]. rewrite length_app in Hn. cbn [length] in Hn.
    replace (Z.of_nat (length f + 1) + 3) with (Z.of_nat (length f) + 3 + 1) in Hn by lia.
    cbn [fmap list_fmap]. replace (asMACvTap (length f + 3) nic)
      with ("fd=" +:+ FormatInt (Z.of_nat (length f) + 3) +:+ mac_text (ifc_Mac nic))
      by (unfold asMACvTap, with_mac, mac_text; do 3 f_equal; lia).
    by econstructor.
  - eexists _, _. rewrite <- !(assoc_L (++)). split_and!; [done..|]. cbn [fmap list_fmap].
    change (asTap nic) with ("tap=" +:+ ifc_Tap nic +:+ mac_text (ifc_Mac nic)). by econstructor.
Qed.

Lemma Machine_Run_Ok m socket logs (s s' : FState C W vop) : Machine_Run m socket logs s = (s', Ok tt) ->
  exists nets fds, nets_of 3 ((fun n => (ifc_Tap n, ifc_Mac n)) <$> m_Interfaces m) nets fds /\
    v_log s' = v_log s ++ [VWrite (logs +:+ ".out") ""; VStart (start_args m nets socket logs) fds].
Proof.
  unfold Machine_Run. intros Hrun. ok_bind Hrun s1 x Hx. destruct x as [nets fds].
  pose proof (interface_args_nets _ _ _ _ _ _ _ Hx) as (nets' & fds' & -> & -> & Hnets).
  apply unlogged_log in Hx; [|apply unlogged_interface_args]. exists nets', fds'. split; [done|].
  ok_bind Hrun s2 u Hu. apply unlogged_log in Hu; [|apply unlogged_for_each; intros; apply unlogged_fask].
  ok_bind Hrun s3 v Hv. ok_bind Hrun s4 q Hq. apply wrap_Ok, fact_log in Hq.
  apply unlogged_log in Hrun; [|apply unlogged_wrap, unlogged_fask]. rewrite Hrun, Hq.
  assert (Hout : v_log s3 = v_log s2 ++ [VWrite (logs +:+ ".out") ""]).
  { revert Hv. unfold ignore, fact. destruct (hv_Create _ _) as [w [[]|e|p]]; by intros [= <-]. }
  rewrite Hout, Hu, Hx, <- (assoc_L (++)). done.
Qed.

(** The flags of a machine that was made from a specification. *)
Lemma start_args_command vm m nets socket logs : describes vm m -> exists groups,
  groups ≡ₚ command vm nets socket logs /\
  start_args m nets socket logs = ["setsid"; "cloud-hypervisor"] ++ concat groups.
Proof.
  intros [_ Hboot Hdisks Hnics Hconf _]. unfold start_args, flatten_args.
  eexists. split; [|reflexivity]. rewrite map_range_perm. unfold machine_args, command. rewrite Hboot, Hconf.
  cbn [boot_Kernel boot_Initrd boot_Args mc_CPU mc_Mem]. rewrite !fmap_app. apply reflexive_eq. f_equal. f_equal.
  { by destruct (vs_InitrdImage vm =? "")%string. }
  f_equal.
  - destruct (m_Disks m) as [|d ds], (vs_Disks vm) as [|d' ds']; [done..|]. cbn [fmap list_fmap]. do 2 f_equal.
    apply (f_equal (fmap (fun x : string * bool * bool => "path=" +:+ x.1.1 +:+ ",readonly=" +:+ (if x.2 then "on" else "off"))))
      in Hdisks. by rewrite <- !list_fmap_compose in Hdisks.
  - by destruct (m_Interfaces m), (used_ifaces vm).
Qed.

Lemma waitAndAdjOom_Ok name (s s' : FState C W vop) : waitAndAdjOom retries name s = (s', Ok tt) ->
  exists pid, v_log s' = v_log s ++ [VWrite (Join (Join "/proc/" (FormatInt pid)) "oom_adj") "-17"].
Proof.
  unfold waitAndAdjOom. intros Hrun. ok_bind Hrun s1 u Hu. ok_bind Hrun s2 pid Hpid.
  apply unlogged_log in Hpid; [|apply unlogged_wrap, unlogged_find]. apply wrap_Ok, fact_log in Hrun.
  apply unlogged_log in Hu.
  - eexists. by rewrite Hrun, Hpid, Hu.
  - apply unlogged_retry, unlogged_bind; [apply unlogged_Exists|intros b]. destruct b; cbn; [apply unlogged_fask|done].
Qed.

(** C30 (functional): a machine that [Run] reports as started has a valid configuration and
    had no process before. Its configuration is saved, with the boot images, disks, taps
    and size of the specification, and reads back as it is; one process is started, with
    exactly these flags in some order: the kernel, its command line with the network, the
    cpus, the memory, the log file and the socket of that name, the initial ramdisk if there
    is one, every disk with its path and whether it is read only, and every interface, a
    macvtap device as the number under which the process gets it as an open file. *)
Theorem Run_starts vm (s s' : FState C W vop) : Run root retries vm s = (s', Ok tt) ->
  VMSpec_Validate vm = Ok tt /\ (exists s0, Exists (vs_Name vm) s = (s0, Ok false)) /\
  let logs := Join (Join root "logs") (vs_Name vm) in
  exists m nets fds groups pid,
    describes vm m /\ (json_storable m -> dec_Machine (enc_Machine m) = Ok m) /\
    nets_of 3 ((fun c => (if_Tap c, if_MAC c)) <$> used_ifaces vm) nets fds /\
    groups ≡ₚ command vm nets (Join "/var/run/cloud-hypervisor" (vs_Name vm)) logs /\
    v_log s' = v_log s ++
      [VWrite (Join (Join root "config") (vs_Name vm)) "";
       VWrite (Join (Join root "config") (vs_Name vm)) (enc_Machine m);
       VWrite (logs +:+ ".out") "";
       VStart (["setsid"; "cloud-hypervisor"] ++ concat groups) fds;
       VWrite (Join (Join "/proc/" (FormatInt pid)) "oom_adj") "-17"].
Proof.
  unfold Run. intros Hrun. ok_bind Hrun s0 u Hu.
  destruct (VMSpec_Validate vm) as [[]|e|p]; [|done..]. injection Hu as <- <-. split; [done|].
  ok_bind Hrun s1 b Hb. destruct b; [done|]. split; [by exists s1|].
  apply unlogged_log in Hb; [|apply unlogged_Exists].
  ok_bind Hrun s2 na Hna. destruct na as [nics args]. injection Hna as <- Hna.
  apply makeNetwork_text in Hna as [-> Hnics].
  set (m := MkMachine _ _ _ _ _ _) in Hrun. ok_bind Hrun s3 w Hw. ok_bind Hw s4 w1 Hw1.
  apply wrap_Ok, fact_log in Hw1, Hw. ok_bind Hrun s5 k Hk.
  assert (Hk' : v_log s5 = v_log s3) by (by destruct (vs_NoKeepAlive vm); injection Hk as <-).
  ok_bind Hrun s6 st Hst. destruct st as [[]|e]; [|by apply throw_deferred in Hrun].
  apply try_inl, Machine_Run_Ok in Hst as (nets & fds & Hnets & Hst).
  ok_bind Hrun s7 wt Hwt. destruct wt as [[]|e]; [|by apply throw_logs in Hrun].
  apply try_inl, waitAndAdjOom_Ok in Hwt as (pid & Hwt). injection Hrun as <-.
  assert (Hm : describes vm m).
  { constructor; [done|done| |exact Hnics|done|done]. cbn. unfold makeDevices. rewrite fmap_imap. by rewrite <- imap_const. }
  destruct (start_args_command vm m nets (socketPath (vs_Name vm)) (logsPath root (vs_Name vm)) Hm) as (groups & Hg & Ha).
  exists m, nets, fds, groups, pid. split; [done|]. split; [apply json_roundtrip|].
  split; [by rewrite <- (ds_nics _ _ Hm)|]. split; [exact Hg|].
  rewrite Hwt, Hst, Hk', Hw, Hw1, Hb, Ha, <- !(assoc_L (++)). done.
Qed.

End run.

(** ** The monitor and a deletion at the same time

    [Delete] does not take the lock of the module, so its steps come between those
    of a turn of the monitor that has seen the machine down. A state is about one
    machine: whether its configuration and its process are there, its entry in the
    cache, and how far the two are. *)
Module Race.

Inductive mon := MIdle | MRead | MCounted | MLoaded | MDone.
Inductive del := DIdle | DMarked | DKilled | DRemoved | DDone.

Record state := MkRace {
  config : bool; process : bool; mark : option marker; at_mon : mon; at_del : del
}.

Inductive step : state -> state -> Prop :=
| mon_first c p d :
    step (MkRace c p None MIdle d) (MkRace c p (Some (Failures 0)) MRead d)
| mon_again c p n d :
    step (MkRace c p (Some (Failures n)) MIdle d) (MkRace c p (Some (Failures n)) MRead d)
| mon_permanent c p d :
    step (MkRace c p (Some Permanent) MIdle d) (MkRace false p (Some Permanent) MDone d)
| mon_count c p n d : n + 1 < failuresBeforeDestroy ->
    step (MkRace c p (Some (Failures n)) MRead d) (MkRace c p (Some (Failures (n + 1))) MCounted d)
| mon_give_up c p n d : failuresBeforeDestroy <= n + 1 ->
    step (MkRace c p (Some (Failures n)) MRead d) (MkRace false p (Some (Failures (n + 1))) MDone d)
| mon_not_int c p d :
    step (MkRace c p (Some Permanent) MRead d) (MkRace c p (Some Permanent) MDone d)
| mon_not_found c p d :
    step (MkRace c p None MRead d) (MkRace c p None MDone d)
| mon_load p k d :
    step (MkRace true p k MCounted d) (MkRace true p k MLoaded d)
| mon_no_keep p k d :
    step (MkRace true p k MCounted d) (MkRace true p (Some Permanent) MDone d)
| mon_no_file c p k d :
    step (MkRace c p k MCounted d) (MkRace c p k MDone d)
| mon_start c p k d :
    step (MkRace c p k MLoaded d) (MkRace c true k MDone d)
| mon_not_started c p k d :
    step (MkRace c p k MLoaded d) (MkRace false p k MDone d)
| del_mark c p k m :
    step (MkRace c p k m DIdle) (MkRace c p (Some Permanent) m DMarked)
| del_kill c p k m :
    step (MkRace c p k m DMarked) (MkRace c false k m DKilled)
| del_remove c p k m :
    step (MkRace c p k m DKilled) (MkRace false p k m DRemoved)
| del_forget c p k m :
    step (MkRace c p k m DRemoved) (MkRace c p None m DDone).

(** The deletion has set the mark before the monitor has counted the failure. *)
Definition marked_first (s : state) : Prop :=
  at_del s = DMarked /\ mark s = Some Permanent /\ (at_mon s = MIdle \/ at_mon s = MRead).

Definition safe (s : state) : Prop :=
  at_del s <> DIdle /\ at_mon s <> MLoaded /\
  (at_del s = DRemoved \/ at_del s = DDone -> config s = false) /\
  (at_del s <> DDone -> mark s = Some Permanent /\ at_mon s <> MCounted) /\
  (at_del s <> DMarked -> process s = false).

Lemma safe_step s s' : safe s -> step s s' -> safe s'.
Proof.
  intros (Hd & Hm & Hc & Hk & Hp) Hstep.
  destruct Hstep; cbn in *; unfold safe; cbn; split_and!; try naive_solver.
  all: destruct d; naive_solver.
Qed.

End Race.

(** A deletion that has marked the machine before the monitor has
    counted its failure wins. Whatever way the two go on together, the monitor
    does not start the machine, and once the deletion has killed it no process is
    left. *)
Theorem deletion_wins s s' :
  Race.marked_first s -> rtc Race.step s s' ->
  Race.at_mon s' <> Race.MLoaded /\ (Race.at_del s' <> Race.DMarked -> Race.process s' = false).
Proof.
  intros (Hd & Hk & Hm) Hrun. assert (Hsafe : Race.safe s).
  { unfold Race.safe. rewrite Hd, Hk. split_and!; destruct Hm; intuition congruence. }
  clear Hd Hk Hm. induction Hrun as [s|s s1 s' Hs Hrun IH]; [|by eapply IH, Race.safe_step].
  destruct Hsafe as (_ & Hm & _ & _ & Hp). by split.
Qed.

(** Without it the machine can be running when the deletion has returned: the
    monitor reads the configuration before it is removed and starts the machine
    after its process has been looked for. *)
Lemma deleted_machine_runs :
  rtc Race.step (Race.MkRace true false None Race.MIdle Race.DIdle)
    (Race.MkRace false true None Race.MDone Race.DDone).
Proof.
  eapply rtc_l; [apply Race.mon_first|]. eapply rtc_l; [by apply Race.mon_count|].
  eapply rtc_l; [apply Race.mon_load|]. eapply rtc_l; [apply Race.del_mark|].
  eapply rtc_l; [apply Race.del_kill|]. eapply rtc_l; [apply Race.mon_start|].
  eapply rtc_l; [apply Race.del_remove|]. eapply rtc_l; [apply Race.del_forget|]. apply rtc_refl.
Qed.

Lemma deletion_wins_witness :
  Race.process (Race.MkRace false false None Race.MDone Race.DDone) = false.
Proof.
  refine (proj2 (deletion_wins (Race.MkRace true true (Some Permanent) Race.MRead Race.DMarked) _ _ _) _).
  - split_and!; [done|done|by right].
  - eapply rtc_l; [apply Race.del_kill|]. eapply rtc_l; [apply Race.mon_not_int|].
    eapply rtc_l; [apply Race.del_remove|]. eapply rtc_l; [apply Race.del_forget|]. apply rtc_refl.
  - done.
Defined.

(** ** A node with one machine *)
Module VmdDemo.
Import FailuresDemo.

(** The clock, the processes, the files, and whether a machine dies at once. *)
Record world := MkWorld {
  w_now : Z; w_procs : list (string * string); w_files : gmap string string; w_dies : bool
}.

#[local] Instance hv : Hypervisor world := {|
  hv_Now := w_now;
  hv_proc w := (w, Ok ((fun p => (p.1, Ok p.2)) <$> w_procs w));
  hv_ReadDir _ w := (w, Ok ((fun p => (Base p.1, false)) <$> map_to_list (w_files w)));
  hv_ReadFile path w := (w, match w_files w !! path with Some c => Ok c | None => Err ErrNotExist end);
  hv_MkdirAll _ w := (w, Ok tt);
  hv_Create path w := (MkWorld (w_now w) (w_procs w) (<[path := ""]> (w_files w)) (w_dies w), Ok tt);
  hv_Write path c w := (MkWorld (w_now w) (w_procs w) (<[path := c]> (w_files w)) (w_dies w), Ok tt);
  hv_RemoveAll path w := (MkWorld (w_now w) (w_procs w) (delete path (w_files w)) (w_dies w), Ok tt);
  hv_Unmount _ w := (w, Ok tt);
  hv_LinkByName name w := (w, Ok (if HasPrefix name "p-" then ("macvtap", 9) else ("tuntap", 7)));
  hv_OpenTap _ w := (w, Ok tt);
  hv_Start args _ w :=
    (MkWorld (w_now w)
       (if w_dies w then w_procs w else w_procs w ++ [("77", proc_cmdline (drop 1 args))])
       (w_files w) (w_dies w), Ok tt);
  hv_Release w := (w, Ok tt);
  hv_kill _ _ w := (MkWorld (w_now w) [] (w_files w) (w_dies w), Ok tt);
  hv_Dial _ w := (w, Ok tt);
  hv_request _ _ _ w := (w, Ok (500, ""));
  hv_sleep n w := (MkWorld (w_now w + n) (w_procs w) (w_files w) (w_dies w), Ok tt);
  hv_DecommissionCached _ _ w := (w, Ok tt)
|}.

#[local] Instance hv_laws : HypervisorLaws world.
Proof.
  split; cbn; try done; try lia.
  intros w l name p [= <-] (q & Hq & _)%list_elem_of_fmap. discriminate.
Qed.

Definition vm : VMSpec :=
  MkVMSpec "12-1" 2 2048
    (MkVMNetworkInfo
       [MkVMIface "t-1" "" (MkIPNet [10; 1; 2; 3] [255; 255; 255; 0]) [10; 1; 2; 1]
          (MkIPNet [10; 1; 0; 0] [255; 255; 0; 0]) zeroIPNet [] false;
        MkVMIface "p-1" "7e:a1:00:00:00:01" (MkIPNet [185; 69; 166; 7] [255; 255; 255; 0]) [185; 69; 166; 1]
          zeroIPNet zeroIPNet [] true]
       nameservers true)
    "/flist/kernel" "" "root=/dev/vda" [MkVMDisk "/vdisks/12-1-vda" false false] false.

Definition kargs : string :=
  "root=/dev/vda net_eth0=10.1.2.3/24,10.1.2.1,10.1.0.0/16,slaac,priv net_eth1=185.69.166.7/24,185.69.166.1,slaac,public net_dns=8.8.8.8,1.1.1.1,2001:4860:4860::8888".

Definition machine : Machine :=
  MkMachine "12-1" (MkBoot "/flist/kernel" "" kargs) [MkMDisk "2" "/vdisks/12-1-vda" false false]
    [MkInterface "eth0" "t-1" ""; MkInterface "eth1" "p-1" "7e:a1:00:00:00:01"] (MkMConfig 2 2048 false) false.

#[local] Instance json : MachineJson.
Proof.
  refine {| enc_Machine m := m_ID m;
            dec_Machine s := if (s =? "12-1")%string then Ok machine else Err ErrUnexpectedEOF;
            json_storable m := m = machine |}.
  by intros m ->.
Defined.

#[local] Instance order : MapOrder := {| map_range A l := rev l; map_range_perm A l := Permutation_sym (Permutation_rev l) |}.

Definition root : string := "/var/cache/modules/vmd".
Definition elems : list string := ["var"; "cache"; "modules"; "vmd"].

Lemma root_ok : rooted root elems.
Proof. split_and!; [done|by repeat constructor|done]. Qed.

Lemma process_found_witness :
  process_id "cloud-hypervisor" "--log-file" Base
    (proc_cmdline (chBin :: flatten_args (map_range
      (machine_args machine ["tap=t-1"] "/run/s" (logsPath root "12-1"))))) = Some "12-1".
Proof.
  apply (process_found machine ["tap=t-1"] "/run/s" root elems "12-1" root_ok).
  - by split_and!.
  - vm_compute. by repeat constructor.
  - intros k vs Hin Hk. vm_compute in Hin.
    repeat (apply elem_of_cons in Hin as [Hin|Hin]; [injection Hin as -> ->; try done;
      by intros [Hv|Hv%elem_of_nil]%elem_of_cons|]).
    by apply elem_of_nil in Hin.
Defined.

(** [n] seconds after the start, with a saved configuration and no process. *)
Definition down (n : Z) (dies : bool) : world :=
  MkWorld (seconds n) [] {[configPath root "12-1" := "12-1"]} dies.

Definition idle (dies : bool) : FState cache world vop := MkV ∅ (down 0 dies) [].

Definition turn (s : FState cache world vop) : FState cache world vop := (monitorID root 3 ∅ "12-1" s).1.
Definition crash (n : Z) (s : FState cache world vop) : FState cache world vop :=
  MkV (v_failures s) (down n false) (v_log s).

Definition first : FState cache world vop := crash 10 (turn (idle false)).
Definition second : FState cache world vop := crash 20 (turn first).
Definition third : FState cache world vop := crash 30 (turn second).

Lemma crashed n s s1 s2 : crashes root 3 "12-1" 0 n s s1 -> 0 <= hv_Now (v_world s1) < cacheExpiration ->
  v_log s2 = v_log (turn s1) -> v_failures s2 = v_failures (turn s1) -> crashes root 3 "12-1" 0 (S n) s s2.
Proof.
  intros Hn Ht Hl Hf. apply (crashes_turn root 3 "12-1" 0 n s s1 s2 ∅); [done|done|lia|done|].
  unfold entry_of. by rewrite Hf.
Qed.

Lemma crash_loop_ends_witness :
  starts is_start (v_log (turn third)) = 3%nat /\
  exists l, v_log (turn third) = [] ++ l /\ (starts is_start l <= 3)%nat /\
    ((4 <= 4)%nat -> VRemove (configPath root "12-1") ∈ l).
Proof.
  split; [vm_compute; reflexivity|].
  apply (crash_loop_ends root 3 "12-1" 0 4 (idle false) (turn third)); [reflexivity|].
  apply (crashed 3 _ third); [|by vm_compute|done|done]. apply (crashed 2 _ second); [|by vm_compute|done|done].
  apply (crashed 1 _ first); [|by vm_compute|done|done]. apply (crashed 0 _ (idle false)); [|by vm_compute|done|done].
  apply crashes_none.
Defined.

(** A machine that dies at once is given up at the first turn. *)
Example dies_at_once : v_log (turn (idle true)) =
  [VWrite (logsPath root "12-1" +:+ ".out") "";
   VStart (start_args machine ["tap=t-1"; "fd=3,mac=7e:a1:00:00:00:01"] (socketPath "12-1") (logsPath root "12-1")) [9];
   VRemove (configPath root "12-1");
   VDecommission "12-1" "failed to spawn vm machine process '12-1'"].
Proof. vm_compute. reflexivity. Qed.

Definition fresh (dies : bool) : FState cache world vop := MkV ∅ (MkWorld 0 [] ∅ dies) [].

(** The flags come in the order of the map, here the reverse one. *)
Lemma Run_starts_witness :
  let s' := (Run root 3 vm (fresh false)).1 in
  VMSpec_Validate vm = Ok tt /\
  (exists nets fds groups, groups ≡ₚ command vm nets "/var/run/cloud-hypervisor/12-1" (Join (Join root "logs") "12-1") /\
     v_log s' !! 3%nat = Some (VStart (["setsid"; "cloud-hypervisor"] ++ concat groups) fds)) /\
  v_log s' !! 3%nat = Some (VStart
    ["setsid"; "cloud-hypervisor"; "--net"; "tap=t-1"; "fd=3,mac=7e:a1:00:00:00:01";
     "--disk"; "path=/vdisks/12-1-vda,readonly=off"; "--api-socket"; "/var/run/cloud-hypervisor/12-1";
     "--log-file"; "/var/cache/modules/vmd/logs/12-1"; "--memory"; "size=2048M"; "--cpus"; "boot=2";
     "--cmdline"; kargs; "--kernel"; "/flist/kernel"] [9]).
Proof.
  intros s'.
  assert (Hrun : Run root 3 vm (fresh false) = (s', Ok tt)) by (vm_compute; reflexivity).
  destruct (Run_starts root 3 vm (fresh false) s' Hrun) as
    (Hv & _ & m & nets & fds & groups & pid & _ & _ & _ & Hg & Hl).
  split; [exact Hv|]. split; [|vm_compute; reflexivity].
  exists nets, fds, groups. split; [exact Hg|]. rewrite Hl. reflexivity.
Defined.

(** A machine that is not there when its start is checked keeps its configuration. *)
Example failed_check_keeps_configuration :
  is_ok (Run root 3 vm (fresh true)).2 = false /\
  w_files (v_world (Run root 3 vm (fresh true)).1) !! configPath root "12-1" = Some "12-1".
Proof. split; vm_compute; reflexivity. Qed.

Lemma wait_gone_ends_witness :
  let s := MkV (∅ : cache) (MkWorld 0 [("5", proc_cmdline ["cloud-hypervisor"; "--log-file"; "/l/a"])] ∅ false) [] in
  exists s' l, wait_gone delete_turns "a" 5 0 s = (s', Ok tt) /\ v_log s' = [] ++ l /\
    (VKill 5 SIGKILL ∈ l \/ exists s1, Exists "a" s1 = (s', Ok false)).
Proof. intros s. exact (wait_gone_ends "a" 5 s). Defined.

End VmdDemo.
