(* ===== verification/Flist.v ===== *)
(** The flist daemon: src/pkg/flist (flist.go and cleanup.go).

    [FlistNode] is what the daemon uses of the node: files, mounts, the 0-fs
    program g8ufs, the hub, over a world [W]. The storage daemon is
    [StorageModule] of [Bus]; what is asked of both is in the log of [PState]. The
    fields of the module are the directories below its root. *)

From stdpp Require Import gmap strings list.
From Stdlib Require Import Ascii ZArith Lia.
From S2P Require Import Prelude Reservation NetIP Storage BtrfsUtil Disk Bus VmPrim VmDaemon.

Open Scope Z_scope.
Open Scope go_scope.

Class FlistNode (W : Type) := {
  (** whether a path is a directory *)
  fn_Stat : string -> M W bool;
  (** the program mountpoint, which succeeds on a mount point *)
  fn_mountpoint : string -> M W unit;
  (** the url of the storage in the environment of the node *)
  fn_FlistURL : M W string;
  (** the status and the body *)
  fn_http_Get : string -> M W (Z * string);
  fn_random : M W string;
  fn_ReadFile : string -> M W string;
  fn_ReadDir : string -> M W (list (string * bool));
  fn_TempFile : string -> M W string;
  fn_Write : string -> string -> M W unit;
  fn_Rename : string -> string -> M W unit;
  fn_MkdirAll : string -> M W unit;
  fn_Chmod : string -> M W unit;
  fn_Symlink : string -> string -> M W unit;
  fn_Remove : string -> M W unit;
  fn_RemoveAll : string -> M W unit;
  fn_Unmount : string -> M W unit;
  fn_Command : string -> list string -> M W unit;
  fn_signal : Z -> Z -> M W unit;
  (** the next line of an open file *)
  fn_ReadString : string -> M W string;
  (** the files below a directory, with the seconds since their last use *)
  fn_Walk : string -> M W (list (string * Z))
}.

(** The digest of md5 in hexadecimal. *)
Class Md5Hex := {
  md5_hex : string -> string;
  md5_hex_trimmed content : TrimSpace (md5_hex content) = md5_hex content
}.

(** [options.Find]: the index of an option, whatever its case, or -1. *)
Fixpoint options_Find (k : string) (o : list string) : Z :=
  match o with
  | [] => -1
  | x :: o =>
      if EqualFold x k then 0
      else let i := options_Find k o in if i <? 0 then -1 else i + 1
  end.

Section flist.
  Context {W : Type} `{FlistNode W} `{Md5Hex} (storage : StorageModule W).

(** The root of the module, and how often a condition is looked at before the time
    is up. *)
Context (root : string) (polls : nat).

Definition f_flist : string := Join root "flist".
Definition f_cache : string := Join root "cache".
Definition f_mountpoint : string := Join root "mountpoint".
Definition f_pid : string := Join root "pid".
Definition f_log : string := Join root "log".
Definition f_run : string := Join root "run".

Definition defaultRoot : string := "/var/cache/modules/flist".

(** [if err := ...; err != nil { panic(err) }] *)
Definition must (m : PM W unit) : PM W unit :=
  got ← try m; match got with inl _ => mret tt | inr e => panic (Error e) end.

(** The directories of a new module; the result is its root. *)
Definition newFlister (root : string) : PM W string :=
  let root := if (root =? "")%string then defaultRoot else root in
  must (node_call "mkdir" [root] (fn_MkdirAll root)) ;;
  must (node_call "chmod" [root] (fn_Chmod root)) ;;
  for_each (fun path =>
    let p := Join root path in
    must (node_call "mkdir" [p] (fn_MkdirAll p)) ;;
    must (node_call "chmod" [p] (fn_Chmod p)))
    ["flist"; "cache"; "mountpoint"; "pid"; "log"; "run"] ;;
  mret root.

Definition mountpath (name : string) : res string :=
  let path := Join f_mountpoint name in
  if (Dir path =? f_mountpoint)%string then Ok path else Err (ErrMsg "invalid mount name").

(** Whether something is mounted on the path already; an error when it cannot be a
    mount point. *)
Definition valid (path : string) : PM W bool :=
  stat ← try (call (fn_Stat path));
  match stat with
  | inr e => if IsNotExist e then mret false
             else throw (ErrWrap ("failed to check mountpoint: " +:+ path) e)
  | inl isdir =>
      if negb isdir then throw (ErrMsg ("not a directory: " +:+ path))
      else
        got ← try (call (fn_mountpoint path));
        mret (match got with inl _ => true | inr _ => false end)
  end.

(** ** Downloads *)

Definition FlistHash (url : string) : PM W string :=
  '(status, body) ← call (fn_http_Get (url +:+ ".md5"));
  if status =? 200 then mret (TrimSpace body)
  else throw (ErrMsg "fail to fetch hash").

Definition md5Compare (hash content : string) : bool := (md5_hex content =? hash)%string.

Definition saveFlist (body : string) : PM W string :=
  tmp ← call (fn_TempFile f_flist);
  node_call "write" [tmp; body] (fn_Write tmp body) ;;
  let path := Join f_flist (md5_hex body) in
  node_call "mkdir" [Dir path] (fn_MkdirAll (Dir path)) ;;
  node_call "rename" [tmp; path] (fn_Rename tmp path) ;;
  mret path.

Definition fetch (url : string) : PM W string :=
  '(status, body) ← call (fn_http_Get url);
  if negb (status =? 200) then throw (ErrMsg "fail to download flist")
  else saveFlist body.

Definition downloadFlist (url : string) : PM W string :=
  hash ← try (FlistHash url);
  match hash with
  | inr _ => fetch url
  | inl hash =>
      let flistPath := Join f_flist (TrimSpace hash) in
      content ← try (call (fn_ReadFile flistPath));
      match content with
      | inl content => if md5Compare hash content then mret flistPath else fetch url
      | inr e => if IsNotExist e then fetch url else throw e
      end
  end.

(** ** Waiting for the 0-fs process *)

(** The first loop of [waitPidFile]: until the file is there, or gone. *)
Fixpoint wait_file (n : nat) (path : string) (present : bool) : PM W unit :=
  match n with
  | O => throw (ErrMsg "context deadline exceeded")
  | S n =>
      stat ← try (call (fn_Stat path));
      match stat with
      | inl _ => if present then mret tt else wait_file n path present
      | inr e =>
          if IsNotExist e then if present then wait_file n path present else mret tt
          else throw e
      end
  end.

(** The second one: until a number is in the file. *)
Fixpoint wait_pid (n : nat) (path : string) : PM W Z :=
  match n with
  | O => throw (ErrMsg "context deadline exceeded")
  | S n =>
      content ← call (fn_ReadFile path);
      if (content =? "")%string then wait_pid n path
      else match ParseInt (TrimSpace content) with
           | Ok pid => mret pid
           | _ => wait_pid n path
           end
  end.

Definition waitPidFile (path : string) (present : bool) : PM W Z :=
  wait_file polls path present ;;
  if negb present then mret 0 else wait_pid polls path.

Fixpoint wait_line (n : nat) (logfile target : string) : PM W unit :=
  match n with
  | O => throw (ErrMsg "context deadline exceeded")
  | S n =>
      line ← try (call (fn_ReadString logfile));
      match line with
      | inl line => if Contains line target then mret tt else wait_line n logfile target
      | inr _ => wait_line n logfile target
      end
  end.

Definition waitMountedLog (logfile : string) : PM W unit :=
  call (fn_ReadFile logfile) ;; wait_line polls logfile "mount ready".

Definition oom_file (pid : Z) : string := Join (Join "/proc/" (FormatInt pid)) "oom_adj".

Definition setOOMAdj (pid adj : Z) : PM W unit :=
  wrap "failed to update oom priority"
    (node_call "write" [oom_file pid] (fn_Write (oom_file pid) (FormatInt adj))).

(** ** Mounting *)

Definition pidPath (name : string) : string := Join f_pid name +:+ ".pid".
Definition logPath (name : string) : string := Join f_log name +:+ ".log".

(** The arguments of g8ufs; [backend] is the path of the volume for the changes. *)
Definition mount_args (backend flistPath url name mountpoint : string) : list string :=
  (if (backend =? "")%string then ["-ro"] else ["-backend"; backend]) ++
  ["-cache"; f_cache; "-meta"; flistPath; "-storage-url"; url; "-daemon"; "-pid"; pidPath name;
   "-log"; logPath name; mountpoint].

(** The volume of a mount that can be written: its path, and whether it is new. *)
Definition mount_backend (name : string) (opts : MountOptions) : PM W (string * bool) :=
  if mo_ReadOnly opts then mret ("", false)
  else
    found ← try (Bus.call (sm_Path storage name));
    match found with
    | inl path => mret (path, false)
    | inr _ =>
        if (mo_Limit opts =? 0) || bool_decide (mo_Type opts = OtherDevice "") then
          throw (ErrMsg "invalid mount option, missing disk type and/or size")
        else
          let size := mo_Limit opts *u mib in
          path ← wrap "failed to create read-write subvolume for 0-fs"
                   (act_path (CreateFilesystem name size (mo_Type opts))
                      (sm_CreateFilesystem storage name size (mo_Type opts)));
          mret (path, true)
    end.

(** What is left once the volume is there: the result, and the value of the variable
    [err] that the deferred function looks at. The error of [waitMountedLog] is in a
    variable of its own; that of [os.Symlink] is in [err] and is not returned. *)
Definition mount_start (name url flistPath backend mountpoint : string) :
    PM W ((string + error) * option error) :=
  made ← try (node_call "mkdir" [mountpoint] (fn_MkdirAll mountpoint));
  match made with
  | inr e => mret (inr e, Some e)
  | inl _ =>
      let args := mount_args backend flistPath url name mountpoint in
      started ← try (node_call "g8ufs" args (fn_Command "g8ufs" args));
      match started with
      | inr e => mret (inr e, Some e)
      | inl _ =>
          pid ← try (waitPidFile (pidPath name) true);
          match pid with
          | inr e => mret (inr e, Some e)
          | inl pid =>
              ignore (setOOMAdj pid (-17)) ;;
              ready ← try (waitMountedLog (logPath name));
              match ready with
              | inr e => mret (inr e, None)
              | inl _ =>
                  let trackPath := Join f_run name in
                  linked ← try (node_call "symlink" [pidPath name; trackPath]
                                  (fn_Symlink (pidPath name) trackPath));
                  mret (inl mountpoint, match linked with inl _ => None | inr e => Some e end)
              end
          end
      end
  end.

Definition mount (name url storage_url : string) (opts : MountOptions) : PM W string :=
  mountpoint ← lift (mountpath name);
  already ← valid mountpoint;
  if already : bool then mret mountpoint
  else
    env ← wrap "failed to parse node environment" (call fn_FlistURL);
    let storage_url := if (storage_url =? "")%string then env else storage_url in
    flistPath ← downloadFlist url;
    '(backend, newAllocation) ← mount_backend name opts;
    '(result, err) ← mount_start name storage_url flistPath backend mountpoint;
    (if negb (backend =? "")%string && newAllocation && bool_decide (is_Some err)
     then ignore (act_ (ReleaseFilesystem name) (sm_ReleaseFilesystem storage name))
     else mret tt) ;;
    match result with inl path => mret path | inr e => throw e end.

Definition NamedMount (name url storage_url : string) (opts : MountOptions) : PM W string :=
  mount name url storage_url opts.

Definition Mount (url storage_url : string) (opts : MountOptions) : PM W string :=
  rnd ← wrap "failed to generate random id for the mount" (call fn_random);
  mount rnd url storage_url opts.

(** ** What a mount was made with *)

Definition getPid (path : string) : PM W Z :=
  content ← call (fn_ReadFile path);
  match ParseInt content with
  | Ok pid => mret pid
  | _ => throw (ErrMsg "invalid pid value in file, expected int")
  end.

Definition getMountOptionsForPID (pid : Z) : PM W (list string) :=
  cmdline ← wrap "failed to read mount cmdline"
              (call (fn_ReadFile (Join (Join "/proc" (FormatInt pid)) "cmdline")));
  mret (Split nul cmdline).

Definition getMountOptions (path : string) : PM W (list string) :=
  pid ← wrap ("failed to get pid from file: " +:+ path) (getPid path);
  getMountOptionsForPID pid.

Definition HashFromRootPath (name : string) : PM W string :=
  opts ← getMountOptions (pidPath (Base name));
  match list_find (fun opt => HasPrefix opt f_flist = true) opts with
  | Some (_, opt) => mret (Base opt)
  | None => throw (ErrMsg "could not find rootfs hash name")
  end.

(** ** Unmounting *)

Definition pidExist (pid : Z) : PM W bool :=
  got ← try (call (fn_signal pid 0)); mret (match got with inl _ => true | inr _ => false end).

Definition forceStop (pid : Z) : PM W unit :=
  ignore (node_call "kill" [FormatInt pid; "15"] (fn_signal pid SIGTERM)) ;;
  alive ← pidExist pid;
  if alive : bool then ignore (node_call "kill" [FormatInt pid; "9"] (fn_signal pid SIGKILL)) else mret tt.

(** The name of a path is what follows its last slash. *)
Definition name_of (path : string) : string := List.last (Split slash path) "".

(** The process ends by itself, or is stopped. *)
Definition await_stop (name : string) : PM W unit :=
  stopped ← try (waitPidFile (pidPath name) false);
  match stopped with
  | inl _ => mret tt
  | inr _ =>
      pid ← try (getPid (pidPath name));
      match pid with inl pid => ignore (forceStop pid) | inr _ => mret tt end
  end.

Definition Umount (path : string) : PM W unit :=
  isdir ← call (fn_Stat path);
  if negb isdir then throw (ErrMsg "specified path is not a directory")
  else if negb (Dir path =? Clean f_mountpoint)%string then
    throw (ErrMsg "trying to unmount a directory outside of the flist module boundaries")
  else
    let name := name_of path in
    opts ← try (getMountOptions (pidPath name));
    let opts := match opts with inl opts => opts | inr _ => [] end in
    ignore (node_call "unmount" [path] (fn_Unmount path)) ;;
    await_stop name ;;
    ignore (node_call "removeall" [pidPath name] (fn_RemoveAll (pidPath name))) ;;
    ignore (node_call "removeall" [path] (fn_RemoveAll path)) ;;
    if 0 <=? options_Find "-ro" opts then mret tt
    else ignore (act_ (ReleaseFilesystem name) (sm_ReleaseFilesystem storage name)).

Definition NamedUmount (name : string) : PM W unit := Umount (Join f_mountpoint name).

(** ** cleanup.go *)

(** The pid of each tracked mount: -1 when its process has ended, 0 when it cannot
    be read. *)
Fixpoint mount_pids (infos : list (string * bool)) : PM W (list (string * Z)) :=
  match infos with
  | [] => mret []
  | (name, isdir) :: infos =>
      if isdir : bool then mount_pids infos
      else
        got ← try (getPid (Join f_run name));
        rest ← mount_pids infos;
        mret ((name, match got with
                     | inl pid => pid
                     | inr e => if IsNotExist e then -1 else 0
                     end) :: rest)
  end.

Definition listMounts : PM W (list (string * Z)) :=
  infos ← wrap "failed to list g8ufs process pids" (call (fn_ReadDir f_run));
  mount_pids infos.

(** The files of the mount are removed whatever happens before. *)
Definition cleanupMount (name : string) : PM W unit :=
  path ← lift (mountpath name);
  ignore (node_call "unmount" [path] (fn_Unmount path)) ;;
  fs ← try (call (sm_Path storage name));
  match fs with
  | inl fs => ignore (node_call "unmount" [Join fs "ro"] (fn_Unmount (Join fs "ro")))
  | inr _ => mret tt
  end ;;
  for_each (fun file => ignore (node_call "remove" [file] (fn_Remove file)))
    [Join f_pid (name +:+ ".pid"); Join f_run name].

Definition cleanup_one (m : string * Z) : PM W unit :=
  let '(name, pid) := m in
  if pid =? -1 then ignore (cleanupMount name)
  else if pid =? 0 then mret tt
  else
    opts ← try (getMountOptionsForPID pid);
    match opts with inl _ => mret tt | inr _ => ignore (cleanupMount name) end.

Definition cleanupAll `{MapOrder} : PM W unit :=
  mounts ← wrap "failed to list current possible mounts" listMounts;
  for_each cleanup_one (map_range mounts).

(** Files of the cache that were not used for longer than [age]. *)
Definition cleanCache (age : Z) : PM W unit :=
  files ← call (fn_Walk f_cache);
  for_each (fun file : string * Z =>
    if age <? file.2 then ignore (node_call "remove" [file.1] (fn_Remove file.1)) else mret tt) files.

(** The loops of the cleaners, over the channels that are ready: whether it is the
    clock, or the context that is done, which does not end the loop. *)
Definition MountsCleaner `{MapOrder} (ready : list bool) : PM W unit :=
  for_each (fun clock : bool => if clock then ignore cleanupAll else mret tt) ready.

Definition CacheCleaner (age : Z) (ready : list bool) : PM W unit :=
  ignore (cleanCache age) ;;
  for_each (fun clock : bool => if clock then ignore (cleanCache age) else mret tt) ready.

(** ** Lemmas *)

(** A volume that is made and released again. *)
Lemma held_volume down evs name size t path out R : Forall neutral down -> Forall neutral evs ->
  held (down ++ Ran (CreateFilesystem name size t) (inl path) :: evs ++ [Ran (ReleaseFilesystem name) out]) R ⊆ R.
Proof.
  intros Hdown Hevs. rewrite held_app.
  change (?ev :: evs ++ ?l) with ([ev] ++ evs ++ l). rewrite !held_app.
  pose proof (held_neutral down R Hdown) as H1.
  pose proof (held_neutral evs (held [Ran (CreateFilesystem name size t) (inl path)] (held down R)) Hevs) as H2.
  revert H1 H2. generalize (held down R). intros X H1.
  generalize (held evs (held [Ran (CreateFilesystem name size t) (inl path)] X)). intros Y.
  cbn. set_solver.
Qed.

Lemma quiet_valid path : quiet (valid path).
Proof.
  unfold valid. apply quiet_bind; [auto with zos_monad|intros [isdir|e]].
  - destruct isdir; cbn; [|auto with zos_monad]. apply quiet_bind; auto with zos_monad.
  - destruct (IsNotExist e); auto with zos_monad.
Qed.

Lemma quiet_FlistHash url : quiet (FlistHash url).
Proof.
  unfold FlistHash. apply quiet_bind; [auto with zos_monad|intros [status body]].
  destruct (status =? 200); auto with zos_monad.
Qed.

Lemma quiet_wait_file n path present : quiet (wait_file n path present).
Proof.
  induction n as [|n IH]; cbn [wait_file]; [auto with zos_monad|].
  apply quiet_bind; [auto with zos_monad|intros [u|e]].
  - destruct present; auto with zos_monad.
  - destruct (IsNotExist e), present; auto with zos_monad.
Qed.

Lemma quiet_wait_pid n path : quiet (wait_pid n path).
Proof.
  induction n as [|n IH]; cbn [wait_pid]; [auto with zos_monad|].
  apply quiet_bind; [auto with zos_monad|intros content].
  destruct (content =? "")%string; [done|]. destruct (ParseInt _); auto with zos_monad.
Qed.

Lemma quiet_waitPidFile path present : quiet (waitPidFile path present).
Proof.
  apply quiet_bind; [apply quiet_wait_file|intros _].
  destruct present; cbn; [apply quiet_wait_pid|auto with zos_monad].
Qed.

Lemma quiet_waitMountedLog logfile : quiet (waitMountedLog logfile).
Proof.
  apply quiet_bind; [auto with zos_monad|intros _]. induction polls as [|n IH]; cbn [wait_line];
    [auto with zos_monad|].
  apply quiet_bind; [auto with zos_monad|intros [line|e]; [destruct (Contains _ _)|]]; auto with zos_monad.
Qed.

Lemma saveFlist_log body s s' x : saveFlist body s = (s', x) ->
  (exists evs, p_log s' = p_log s ++ evs /\ Forall neutral evs) /\
  (forall path, x = Ok path -> path = Join f_flist (md5_hex body) /\
    exists tmp, Ran (NodeCall "rename" [tmp; path]) (inl "") ∈ p_log s').
Proof.
  intros Hrun. split.
  - eapply emits_run, Hrun. unfold saveFlist. apply emits_bind; [auto with zos_monad|intros tmp _ _ _].
    do 3 (apply emits_bind; [by apply emits_node_call|intros [] _ _ _]). apply emits_quiet, quiet_ret.
  - intros path ->. unfold saveFlist in Hrun. ok_bind Hrun s1 tmp H1. ok_bind Hrun s2 u2 H2.
    ok_bind Hrun s3 u3 H3. ok_bind Hrun s4 u4 H4. injection Hrun as <- <-. split; [done|].
    apply act_Ok in H4. exists tmp. rewrite H4. set_solver.
Qed.

Lemma fetch_log url s s' x : fetch url s = (s', x) ->
  (exists evs, p_log s' = p_log s ++ evs /\ Forall neutral evs) /\
  (forall path, x = Ok path -> exists content, path = Join f_flist (md5_hex content) /\
    (exists w w', fn_http_Get url w = (w', Ok (200, content))) /\
    exists tmp, Ran (NodeCall "rename" [tmp; path]) (inl "") ∈ p_log s').
Proof.
  unfold fetch, mbind, M_bind. destruct (call (fn_http_Get url) s) as [s1 [[status body]|e|p]] eqn:Hget.
  - apply quiet_log in Hget as Hl; [|apply quiet_call]. apply call_inv in Hget. rewrite <- Hl.
    destruct (Z.eqb_spec status 200) as [->|Hs]; cbn.
    + intros [Hlog Hok]%saveFlist_log. split; [done|]. intros path Hx. exists body.
      destruct (Hok path Hx) as [? ?]. by split_and!.
    + intros [= <- <-]. split; [|done]. exists []. by rewrite app_nil_r.
  - intros [= <- <-]. apply quiet_log in Hget; [|apply quiet_call]. split; [|done]. exists [].
    by rewrite app_nil_r.
  - intros [= <- <-]. apply quiet_log in Hget; [|apply quiet_call]. split; [|done]. exists [].
    by rewrite app_nil_r.
Qed.

Lemma emits_downloadFlist url : emits neutral (downloadFlist url).
Proof.
  assert (Hf : emits neutral (fetch url)).
  { intros s. destruct (fetch url s) as [s' x] eqn:Hx. by apply fetch_log in Hx as [Hx _]. }
  unfold downloadFlist. apply emits_bind; [apply emits_quiet, quiet_try, quiet_FlistHash|].
  intros [hash|e] _ _ _; [|done].
  apply emits_bind; [auto with zos_monad|intros [content|e] _ _ _].
  - destruct (md5Compare hash content); [apply emits_quiet, quiet_ret|done].
  - destruct (IsNotExist e); [done|apply emits_quiet, quiet_throw].
Qed.

(** The volume of a mount: one that was there, a new one, or none. *)
Lemma mount_backend_log name opts s s' x : mount_backend name opts s = (s', x) ->
  exists evs, p_log s' = p_log s ++ evs /\
    match x with
    | Ok (path, false) => evs = []
    | Ok (path, true) => (exists w w', sm_CreateFilesystem storage name (mo_Limit opts *u mib) (mo_Type opts) w = (w', Ok path)) /\
        evs = [Ran (CreateFilesystem name (mo_Limit opts *u mib) (mo_Type opts)) (inl path)]
    | _ => Forall neutral evs
    end.
Proof.
  unfold mount_backend. destruct (mo_ReadOnly opts).
  { intros [= <- <-]. exists []. by rewrite app_nil_r. }
  unfold mbind, M_bind. destruct (try (Bus.call (sm_Path storage name)) s) as [s1 found] eqn:Hp.
  apply quiet_log in Hp; [|auto with zos_monad]. rewrite <- Hp.
  destruct found as [[path|e]|e|p].
  - intros [= <- <-]. exists []. by rewrite app_nil_r.
  - destruct (_ || _). { intros [= <- <-]. exists []. by rewrite app_nil_r. }
    unfold wrap, act_path, act. destruct (sm_CreateFilesystem _ _ _ _ (p_world s1)) as [w [path|e1|p]] eqn:Hc;
      intros [= <- <-]; cbn.
    + eexists. split; [reflexivity|]. split; [by eauto|done].
    + eexists. split; [reflexivity|]. by repeat constructor.
    + exists []. by rewrite app_nil_r.
  - intros [= <- <-]. exists []. by rewrite app_nil_r.
  - intros [= <- <-]. exists []. by rewrite app_nil_r.
Qed.

(** The process was started and its pid found. *)
Definition serving (args : list string) (evs : list event) : Prop := exists pre pid out,
  evs = pre ++ [Ran (NodeCall "g8ufs" args) (inl ""); Ran (NodeCall "write" [oom_file pid]) out].

Lemma mount_start_log name url flistPath backend mountpoint s s' x :
  mount_start name url flistPath backend mountpoint s = (s', x) ->
  (forall e, x <> Err e) /\
  exists evs, p_log s' = p_log s ++ evs /\ Forall neutral evs /\
    (forall e, x = Ok (inr e, None) -> serving (mount_args backend flistPath url name mountpoint) evs).
Proof.
  intros Hrun. split.
  { intros e ->. revert Hrun. apply no_error_bind; [apply no_error_try|intros [u|e0]; [|apply no_error_ret]].
    apply no_error_bind; [apply no_error_try|intros [u0|e0]; [|apply no_error_ret]].
    apply no_error_bind; [apply no_error_try|intros [pid|e0]; [|apply no_error_ret]].
    apply no_error_bind; [apply no_error_ignore|intros _].
    apply no_error_bind; [apply no_error_try|intros [u1|e0]; [|apply no_error_ret]].
    apply no_error_bind; [apply no_error_try|intros; apply no_error_ret]. }
  assert (Hn : emits neutral (mount_start name url flistPath backend mountpoint)).
  { apply emits_bind; [by apply emits_try, emits_node_call|intros [u|e0] _ _ _; [|by apply emits_quiet]].
    apply emits_bind; [by apply emits_try, emits_node_call|intros [u0|e0] _ _ _; [|by apply emits_quiet]].
    apply emits_bind; [by apply emits_quiet, quiet_try, quiet_waitPidFile|intros [pid|e0] _ _ _; [|by apply emits_quiet]].
    apply emits_bind; [by apply emits_ignore, emits_wrap, emits_node_call|intros _ _ _ _].
    apply emits_bind; [by apply emits_quiet, quiet_try, quiet_waitMountedLog|intros [u1|e0] _ _ _; [|by apply emits_quiet]].
    apply emits_bind; [by apply emits_try, emits_node_call|intros; by apply emits_quiet]. }
  destruct (emits_run _ _ _ _ _ Hn Hrun) as (evs & Hl & Hev). exists evs. split; [done|]. split; [done|].
  intros e ->. clear Hn Hev. ok_bind Hrun s1 made H1. destruct made as [u|e1]; [|done].
  ok_bind Hrun s2 started H2. destruct started as [u2|e2]; [|done].
  ok_bind Hrun s3 pid H3. destruct pid as [pid|e3]; [|done].
  ok_bind Hrun s4 u4 H4. destruct u4. ok_bind Hrun s5 ready H5. destruct ready as [u5|e5].
  { ok_bind Hrun s6 linked H6. by injection Hrun. }
  injection Hrun as <- _.
  apply try_inl, act_Ok in H1. apply try_inl, act_Ok in H2.
  apply quiet_log in H3; [|apply quiet_try, quiet_waitPidFile].
  apply quiet_log in H5; [|apply quiet_try, quiet_waitMountedLog].
  assert (exists out, p_log s4 = p_log s3 ++ [Ran (NodeCall "write" [oom_file pid]) out]) as [out H4'].
  { apply ignore_inv in H4 as (x & H4 & Hx). unfold setOOMAdj in H4.
    unfold wrap in H4. destruct (node_call "write" [oom_file pid] _ s3) as [s4' y] eqn:Hw in H4.
    destruct y as [[]|e4|p4]; simplify_eq; [apply act_inv in Hw; [by eexists|done]..|by destruct (Hx p4)]. }
  rewrite H5, H4', H3, H2, H1, <- !(assoc_L (++)) in Hl. apply app_inv_head in Hl as <-.
  by exists [Ran (NodeCall "mkdir" [mountpoint]) (inl "")], pid, out.
Qed.

(** What is done for one mount. *)
Inductive cleanup_call (name : string) : event -> Prop :=
| cleanup_unmount path out : mountpath name = Ok path ->
    cleanup_call name (Ran (NodeCall "unmount" [path]) out)
| cleanup_ro w w' fs out : sm_Path storage name w = (w', Ok fs) ->
    cleanup_call name (Ran (NodeCall "unmount" [Join fs "ro"]) out)
| cleanup_pid out : cleanup_call name (Ran (NodeCall "remove" [Join f_pid (name +:+ ".pid")]) out)
| cleanup_track out : cleanup_call name (Ran (NodeCall "remove" [Join f_run name]) out).

Lemma emits_cleanupMount name : emits (cleanup_call name) (cleanupMount name).
Proof.
  unfold cleanupMount. apply emits_bind; [auto with zos_monad|intros path s0 s1 Hpath].
  injection Hpath as _ Hpath. apply emits_bind.
  { apply emits_ignore, emits_node_call. intros out. by constructor. }
  intros _ _ _ _. apply emits_bind; [auto with zos_monad|intros fs s2 s3 Hfs]. apply emits_bind.
  - destruct fs as [fs|e]; [|by apply emits_quiet]. apply try_inl, call_inv in Hfs as (w & w' & Hfs).
    apply emits_ignore, emits_node_call. intros out. by eapply cleanup_ro.
  - intros _ _ _ _. cbn [for_each].
    apply emits_bind; [apply emits_ignore, emits_node_call; intros; constructor|intros _ _ _ _].
    apply emits_bind; [apply emits_ignore, emits_node_call; intros; constructor|intros _ _ _ _].
    by apply emits_quiet.
Qed.

(** The track file of a mount, whose process has ended: the file is gone, or no
    command line is there for its number. *)
Definition gone (name : string) : Prop :=
  (exists w w' e, fn_ReadFile (Join f_run name) w = (w', Err e) /\ IsNotExist e = true) \/
  exists w w' content pid, fn_ReadFile (Join f_run name) w = (w', Ok content) /\ ParseInt content = Ok pid /\
    (pid = -1 \/ exists w1 w1' e,
       fn_ReadFile (Join (Join "/proc" (FormatInt pid)) "cmdline") w1 = (w1', Err e)).

(** What [getPid] says of the track file. *)
Lemma getPid_try path s s' got : try (getPid path) s = (s', Ok got) ->
  match got with
  | inl pid => exists w w' content, fn_ReadFile path w = (w', Ok content) /\ ParseInt content = Ok pid
  | inr e => IsNotExist e = true -> exists w w' e', fn_ReadFile path w = (w', Err e') /\ IsNotExist e' = true
  end.
Proof.
  intros Hrun. apply try_inv in Hrun. unfold getPid, mbind, M_bind in Hrun.
  destruct (call (fn_ReadFile path) s) as [s1 [content|e|p]] eqn:Hread; apply call_inv in Hread as (w & w' & Hread).
  - destruct (ParseInt content) as [pid|e|p] eqn:Hp; destruct got as [pid'|e']; inversion Hrun; subst; try done.
    by exists w, w', content.
  - destruct got as [pid'|e']; [done|]. injection Hrun as <- <-. by eauto 10.
  - by destruct got.
Qed.

(** The number [m.2] was found for the mount [m.1]. *)
Definition tracked (m : string * Z) : Prop :=
  (m.2 = -1 -> gone m.1) /\
  (m.2 <> 0 -> m.2 <> -1 ->
   exists w w' content, fn_ReadFile (Join f_run m.1) w = (w', Ok content) /\ ParseInt content = Ok m.2).

Lemma mount_pids_tracked infos : forall s s' mounts, mount_pids infos s = (s', Ok mounts) -> Forall tracked mounts.
Proof.
  induction infos as [|[name isdir] infos IH]; intros s s' mounts; cbn [mount_pids]; [by intros [= <- <-]|].
  destruct isdir; [apply IH|]. intros Hrun. ok_bind Hrun s1 got H1. ok_bind Hrun s2 rest H2.
  injection Hrun as <- <-. constructor; [|by eapply IH]. apply getPid_try in H1. destruct got as [pid|e].
  - destruct H1 as (w & w' & content & Hc & Hp). split; cbn.
    + intros ->. right. exists w, w', content, (-1). by auto.
    + by eauto.
  - destruct (IsNotExist e) eqn:He; split; cbn; [|done..]. intros _. left. by apply H1.
Qed.

Lemma quiet_getPid path : quiet (getPid path).
Proof.
  apply quiet_bind; [auto with zos_monad|intros content]. destruct (ParseInt content); auto with zos_monad.
Qed.

Lemma quiet_getMountOptionsForPID pid : quiet (getMountOptionsForPID pid).
Proof. apply quiet_bind; auto with zos_monad. Qed.

Lemma quiet_listMounts : quiet listMounts.
Proof.
  apply quiet_bind; [auto with zos_monad|intros infos].
  induction infos as [|[name isdir] infos IH]; cbn [mount_pids]; [done|]. destruct isdir; [done|].
  apply quiet_bind; [apply quiet_try, quiet_getPid|intros got]. apply quiet_bind; auto with zos_monad.
Qed.

Definition stale_call (mounts : list (string * Z)) (ev : event) : Prop :=
  exists name, name ∈ mounts.*1 /\ gone name /\ cleanup_call name ev.

Lemma emits_cleanup_one mounts m : m ∈ mounts -> tracked m -> emits (stale_call mounts) (cleanup_one m).
Proof.
  destruct m as [name pid]. intros Hin [Hgone Hpid]. cbn in Hgone, Hpid.
  assert (Hc : gone name -> emits (stale_call mounts) (ignore (cleanupMount name))).
  { intros Hg s. destruct (emits_ignore _ _ (emits_cleanupMount name) s) as (evs & Hl & Hev).
    exists evs. split; [done|]. eapply Forall_impl; [exact Hev|]. intros ev Hcall. exists name.
    split_and!; [|done|done]. apply list_elem_of_fmap. by exists (name, pid). }
  unfold cleanup_one. destruct (Z.eqb_spec pid (-1)) as [->|H1]; [by apply Hc, Hgone|].
  destruct (Z.eqb_spec pid 0) as [->|H2]; [by apply emits_quiet|].
  apply emits_bind; [apply emits_quiet, quiet_try, quiet_getMountOptionsForPID|intros opts s s' Hopts].
  destruct opts as [opts|e]; [by apply emits_quiet|]. apply Hc. right.
  destruct (Hpid H2 H1) as (w & w' & content & Hr & Hp). exists w, w', content, pid. split_and!; [done..|]. right.
  apply try_inv, bind_Err_inv in Hopts as [Hopts|(s1 & c & _ & Hopts)]; [|done].
  apply wrap_Err in Hopts as (e' & Hopts & _). apply call_inv in Hopts as (w1 & w1' & Hopts). by eauto.
Qed.

(** The process of the mount was run with -ro. *)
Definition read_only (name : string) : Prop := exists w w' content pid w1 w1' cmdline,
  fn_ReadFile (pidPath name) w = (w', Ok content) /\ ParseInt content = Ok pid /\
  fn_ReadFile (Join (Join "/proc" (FormatInt pid)) "cmdline") w1 = (w1', Ok cmdline) /\
  0 <= options_Find "-ro" (Split nul cmdline).

Definition is_kill (ev : event) : Prop := exists args, ev_op ev = NodeCall "kill" args.

Lemma getMountOptions_read name s s' opts : getMountOptions (pidPath name) s = (s', Ok opts) ->
  0 <= options_Find "-ro" opts -> read_only name.
Proof.
  unfold getMountOptions. intros Hrun Hro. ok_bind Hrun s1 pid H1. apply wrap_Ok in H1.
  ok_bind H1 s2 content H2. apply call_inv in H2 as (w & w' & H2).
  destruct (ParseInt content) as [pid'|e|p] eqn:Hp; [|done..]. injection H1 as _ ->.
  ok_bind Hrun s3 cmdline H3. apply wrap_Ok, call_inv in H3 as (w1 & w1' & H3). injection Hrun as _ <-.
  by exists w, w', content, pid, w1, w1', cmdline.
Qed.

Lemma quiet_getMountOptions path : quiet (getMountOptions path).
Proof.
  apply quiet_bind; [apply quiet_wrap, quiet_getPid|intros pid; apply quiet_getMountOptionsForPID].
Qed.

Lemma emits_forceStop pid : emits is_kill (forceStop pid).
Proof.
  assert (Hk : forall args (m : M W unit), emits is_kill (ignore (node_call "kill" args m))).
  { intros. apply emits_ignore, emits_node_call. intros out. by eexists. }
  unfold forceStop. apply emits_bind; [apply Hk|intros _ _ _ _].
  apply emits_bind; [|intros alive _ _ _; destruct alive; [apply Hk|by apply emits_quiet]].
  apply emits_quiet, quiet_bind; auto with zos_monad.
Qed.

Lemma stop_log name s s' u : await_stop name s = (s', Ok u) ->
  exists kills, p_log s' = p_log s ++ kills /\ Forall is_kill kills.
Proof.
  intros Hrun. eapply emits_run, Hrun.
  apply emits_bind; [apply emits_quiet, quiet_try, quiet_waitPidFile|intros [p|e] _ _ _; [by apply emits_quiet|]].
  apply emits_bind; [apply emits_quiet, quiet_try, quiet_getPid|intros [p|e'] _ _ _; [|by apply emits_quiet]].
  apply emits_ignore, emits_forceStop.
Qed.

End flist.

(** ** Properties *)

(** *** The files of the node *)

(** What the files hold: a new temporary file is empty and its name was free, what is
    written to an empty file is then its content, and a file that is renamed keeps it. *)
Class FlistFiles (W : Type) `{FlistNode W} := {
  fn_files : W -> gmap string string;
  fn_http_Get_files url w w' x : fn_http_Get url w = (w', x) -> fn_files w' = fn_files w;
  fn_ReadFile_files p w w' x : fn_ReadFile p w = (w', x) -> fn_files w' = fn_files w /\
    forall c, x = Ok c -> fn_files w !! p = Some c;
  fn_TempFile_files dir w w' x : fn_TempFile dir w = (w', x) ->
    match x with
    | Ok tmp => fn_files w !! tmp = None /\ fn_files w' = <[tmp := ""]> (fn_files w)
    | _ => True
    end;
  fn_Write_files p c w w' : fn_files w !! p = Some "" -> fn_Write p c w = (w', Ok tt) ->
    fn_files w' = <[p := c]> (fn_files w);
  fn_MkdirAll_files p w w' x : fn_MkdirAll p w = (w', x) -> fn_files w' = fn_files w;
  fn_Rename_files a b c w w' : fn_files w !! a = Some c -> fn_Rename a b w = (w', Ok tt) ->
    fn_files w' = <[b := c]> (delete a (fn_files w))
}.

Section files.
  Context {W : Type} {node : FlistNode W} {laws : FlistFiles W} `{Md5Hex} (root : string).

Definition files (s : PState W) : gmap string string := fn_files (p_world s).

(** The file that a body is saved in. *)
Lemma saveFlist_files body s s' path : saveFlist root body s = (s', Ok path) ->
  path = Join (f_flist root) (md5_hex body) /\ files s' !! path = Some body /\
  forall q, q <> path -> files s' !! q = files s !! q.
Proof.
  unfold saveFlist, files. intros Hrun.
  ok_bind Hrun s1 tmp H1. apply call_world, fn_TempFile_files in H1 as [Hfree H1].
  ok_bind Hrun s2 u2 H2. destruct u2. apply node_call_world, fn_Write_files in H2; [|by rewrite H1, lookup_insert_eq].
  ok_bind Hrun s3 u3 H3. destruct u3. apply node_call_world, fn_MkdirAll_files in H3.
  ok_bind Hrun s4 u4 H4. destruct u4. injection Hrun as <- <-.
  apply node_call_world, (fn_Rename_files _ _ body) in H4; [|by rewrite H3, H2, lookup_insert_eq].
  split; [done|]. rewrite H4. split; [by rewrite lookup_insert_eq|]. intros q Hq.
  rewrite lookup_insert_ne, H3, H2, H1 by done. destruct (decide (q = tmp)) as [->|Hne].
  - by rewrite lookup_delete_eq.
  - by rewrite lookup_delete_ne, !lookup_insert_ne by done.
Qed.

Lemma fetch_files url s s' path : fetch root url s = (s', Ok path) -> exists content w w',
  fn_files w = files s /\ fn_http_Get url w = (w', Ok (200, content)) /\
  path = Join (f_flist root) (md5_hex content) /\ files s' !! path = Some content /\
  forall q, q <> path -> files s' !! q = files s !! q.
Proof.
  unfold fetch. intros Hrun. ok_bind Hrun s1 got H1. destruct got as [status body].
  apply call_world in H1. pose proof (fn_http_Get_files _ _ _ _ H1) as Hf.
  destruct (Z.eqb_spec status 200) as [->|]; [|done].
  apply saveFlist_files in Hrun as (Hp & Hc & Ho). exists body, (p_world s), (p_world s1).
  split_and!; [done..|]. intros q Hq. rewrite Ho by done. unfold files. by rewrite Hf.
Qed.

Lemma FlistHash_files url s s' x : try (FlistHash url) s = (s', x) -> files s' = files s.
Proof.
  unfold try, FlistHash, mbind, M_bind, files. destruct (call _ s) as [s1 got] eqn:H1.
  apply call_world, fn_http_Get_files in H1. destruct got as [[status body]|e|p]; cbn;
    [destruct (status =? 200); cbn|..]; by intros [= <- _].
Qed.

End files.

Section flist_properties.
  Context {W : Type} `{FlistNode W} `{Md5Hex} (storage : StorageModule W) (root : string) (polls : nat).

(** C18 (safety): a mount that fails leaves no volume behind, whichever step fails,
    unless the 0-fs process was started, wrote its pid, and never said that it is
    ready: that error is in a variable that the deferred release does not look at. *)
Theorem mount_gives_back name url surl opts s s' e (R : resources) :
  (forall n z t w w' path, sm_CreateFilesystem storage n z t w = (w', Ok path) -> path <> "") ->
  mount storage root polls name url surl opts s = (s', Err e) ->
  exists evs, p_log s' = p_log s ++ evs /\
    (held evs R ⊆ R \/ exists args, serving args evs).
Proof.
  intros Hpath Hrun. unfold mount in Hrun.
  apply bind_Err_inv in Hrun as [Hrun|(s1 & mountpoint & H1 & Hrun)].
  { injection Hrun as <- _. exists []. rewrite app_nil_r. by split; [|left]. }
  injection H1 as <- _. apply ask_Err in Hrun as [->|(s1 & already & <- & Hrun)]; [|..|apply quiet_valid].
  { exists []. rewrite app_nil_r. by split; [|left]. }
  destruct already; [done|]. apply ask_Err in Hrun as [->|(s2 & env & <- & Hrun)]; [|..|auto with zos_monad].
  { exists []. rewrite app_nil_r. by split; [|left]. }
  apply bind_Err_inv in Hrun as [Hrun|(s3 & flistPath & H3 & Hrun)].
  { destruct (emits_run _ _ _ _ _ (emits_downloadFlist _ url) Hrun) as (evs & Hl & Hev).
    exists evs. split; [done|]. left. by apply held_neutral. }
  destruct (emits_run _ _ _ _ _ (emits_downloadFlist _ url) H3) as (down & Hl3 & Hdown).
  apply bind_Err_inv in Hrun as [Hrun|(s4 & [backend new] & H4 & Hrun)].
  { apply mount_backend_log in Hrun as (evs & Hl & Hev). exists (down ++ evs).
    rewrite Hl, Hl3, (assoc_L (++)). split; [done|]. left. by apply held_neutral, Forall_app. }
  apply mount_backend_log in H4 as (made & Hl4 & Hmade).
  apply bind_Err_inv in Hrun as [Hrun|(s5 & [result err] & H5 & Hrun)].
  { apply mount_start_log in Hrun as [Hne _]. by destruct (Hne e). }
  apply mount_start_log in H5 as (_ & evs & Hl5 & Hev & Hserv).
  apply bind_Err_inv in Hrun as [Hrun|(s6 & u6 & H6 & Hrun)].
  { destruct (_ && _ && _) in Hrun; [by apply no_error_ignore in Hrun|done]. }
  destruct result as [path|e1]; [done|]. injection Hrun as <- <-.
  destruct new; cycle 1.
  { rewrite andb_false_r in H6. injection H6 as <- _. subst made. exists (down ++ evs).
    rewrite Hl5, Hl4, app_nil_r, Hl3, (assoc_L (++)). split; [done|]. left. by apply held_neutral, Forall_app. }
  destruct Hmade as [(w & w' & Hc) ->]. apply Hpath in Hc. destruct backend as [|c backend]; [done|]. cbn [String.eqb negb andb] in H6.
  destruct err as [e2|]; cbn in H6.
  - destruct u6. apply ignore_inv in H6 as (x & H6 & Hx). apply act_inv in H6; [|done].
    eexists (down ++ _ :: evs ++ [_]). split; [rewrite H6, Hl5, Hl4, Hl3, <- !(assoc_L (++)); reflexivity|]. left.
    by apply held_volume.
  - injection H6 as <- _. destruct (Hserv e1 eq_refl) as (pre & pid & out & Hs).
    eexists (down ++ _ :: evs). split; [rewrite Hl5, Hl4, Hl3, <- !(assoc_L (++)); reflexivity|]. right.
    eexists. exists (down ++ Ran (CreateFilesystem name (mo_Limit opts *u mib) (mo_Type opts)) (inl (String c backend)) :: pre), pid, out.
    by rewrite Hs, <- (assoc_L (++)).
Qed.

(** C29 (safety): the flist that a download returns is a file that is named by the md5
    digest of what it contains: either it was there, with that content, or its content is
    the body that the hub has just sent with status 200. No other file is changed: a
    file that is corrupted is never returned as it is, it is written again. *)
Theorem downloadFlist_integrity {laws : FlistFiles W} url s s' path : downloadFlist root url s = (s', Ok path) ->
  exists content, path = Join (f_flist root) (md5_hex content) /\ files s' !! path = Some content /\
    (files s !! path = Some content \/
     exists w w', fn_files w = files s /\ fn_http_Get url w = (w', Ok (200, content))) /\
    forall q, q <> path -> files s' !! q = files s !! q.
Proof.
  assert (Hfetch : forall s0, files s0 = files s -> fetch root url s0 = (s', Ok path) ->
    exists content, path = Join (f_flist root) (md5_hex content) /\ files s' !! path = Some content /\
    (files s !! path = Some content \/
     exists w w', fn_files w = files s /\ fn_http_Get url w = (w', Ok (200, content))) /\
    forall q, q <> path -> files s' !! q = files s !! q).
  { intros s0 Hs0 Hrun. apply fetch_files in Hrun as (content & w & w' & Hw & Hget & Hp & Hc & Ho). rewrite Hs0 in *.
    exists content. split_and!; [done..|right; by exists w, w'|done]. }
  unfold downloadFlist. intros Hrun. ok_bind Hrun s1 hash H1. apply FlistHash_files in H1.
  destruct hash as [hash|e]; [|by apply (Hfetch s1)].
  ok_bind Hrun s2 found H2. apply try_inv in H2. apply call_world in H2. apply fn_ReadFile_files in H2 as [H2 Hread].
  assert (Hs2 : files s2 = files s) by by rewrite <- H1.
  destruct found as [content|e].
  - unfold md5Compare in Hrun. destruct (String.eqb_spec (md5_hex content) hash) as [<-|]; [|by apply (Hfetch s2)].
    injection Hrun as <- <-. rewrite md5_hex_trimmed in *. specialize (Hread content eq_refl).
    exists content. split_and!; [done|by rewrite Hs2, <- H1|left; by rewrite <- H1|by rewrite Hs2].
  - destruct (IsNotExist e); [by apply (Hfetch s2)|done].
Qed.

(** An unmount touches nothing when it returns an error. Otherwise the
    path is directly below the mount points, and whatever fails on the way the path
    is unmounted, the file with the pid and the mount point are removed, and the
    volume is released unless the process was run with -ro; a process that does not
    stop is killed in between. *)
Theorem Umount_spec path s s' x : Umount storage root polls path s = (s', x) ->
  (forall e, x = Err e -> p_log s' = p_log s) /\
  (x = Ok tt -> Dir path = Clean (f_mountpoint root) /\
   let name := name_of path in
   exists o1 kills o2 o3 released,
     p_log s' = p_log s ++ Ran (NodeCall "unmount" [path]) o1 :: kills ++
       [Ran (NodeCall "removeall" [pidPath root name]) o2; Ran (NodeCall "removeall" [path]) o3] ++ released /\
     Forall is_kill kills /\
     (released = [] /\ read_only root name \/ exists out, released = [Ran (ReleaseFilesystem name) out])).
Proof.
  unfold Umount. intros Hrun. split.
  - intros e ->. apply ask_Err in Hrun as [Hl|(s1 & isdir & <- & Hrun)]; [done| |auto with zos_monad].
    destruct isdir; cbn [negb] in Hrun; [|by injection Hrun as <-].
    destruct (Dir path =? Clean (f_mountpoint root))%string; cbn [negb] in Hrun; [|by injection Hrun as <-].
    exfalso. revert Hrun. apply no_error_bind; [apply no_error_try|intros opts].
    apply no_error_bind; [apply no_error_ignore|intros _].
    apply no_error_bind; [apply no_error_bind; [apply no_error_try|intros [p|e1]; [apply no_error_ret|]]|intros _].
    { apply no_error_bind; [apply no_error_try|intros [p|e2]; [apply no_error_ignore|apply no_error_ret]]. }
    apply no_error_bind; [apply no_error_ignore|intros _].
    apply no_error_bind; [apply no_error_ignore|intros _].
    destruct (0 <=? _); [apply no_error_ret|apply no_error_ignore].
  - intros ->. ok_bind Hrun s1 isdir H1. apply quiet_log in H1; [|auto with zos_monad].
    destruct isdir; cbn [negb] in Hrun; [|done].
    destruct (String.eqb_spec (Dir path) (Clean (f_mountpoint root))) as [Hd|]; cbn [negb] in Hrun; [|done].
    split; [done|]. cbn zeta. ok_bind Hrun s2 opts H2. pose proof H2 as Hopts.
    apply quiet_log in H2; [|apply quiet_try, quiet_getMountOptions].
    ok_bind Hrun s3 u3 H3. apply ignored_call in H3 as [o1 H3].
    ok_bind Hrun s4 u4 H4. apply (stop_log root polls) in H4 as (kills & H4 & Hk).
    ok_bind Hrun s5 u5 H5. apply ignored_call in H5 as [o2 H5].
    ok_bind Hrun s6 u6 H6. apply ignored_call in H6 as [o3 H6].
    rewrite H4, H3, H2, H1 in H5. rewrite H5 in H6.
    destruct (0 <=? options_Find "-ro" (match opts with inl opts => opts | inr _ => [] end)) eqn:Hro.
    + injection Hrun as <-. exists o1, kills, o2, o3, []. rewrite H6, <- !(assoc_L (++)). split_and!; [done..|left].
      split; [done|]. apply Z.leb_le in Hro. destruct opts as [opts|e]; [|done].
      by eapply getMountOptions_read, Hro; apply try_inl in Hopts.
    + apply ignore_inv in Hrun as (x & Hrun & Hx). apply act_inv in Hrun; [|done].
      eexists o1, kills, o2, o3, _. rewrite Hrun, H6, <- !(assoc_L (++)). split_and!; [done..|by right; eexists].
Qed.

(** The clean-up of stale mounts touches only mounts whose process has
    ended: their file with the pid is gone, or the process has no command line.
    Mounts that are in use keep their mount point and their files. *)
Theorem cleanupAll_stale `{MapOrder} s s' x : cleanupAll storage root s = (s', x) ->
  exists mounts evs, p_log s' = p_log s ++ evs /\
    Forall (fun ev => exists name, name ∈ mounts.*1 /\ gone root name /\ cleanup_call storage root name ev) evs /\
    (x = Ok tt -> exists s1, listMounts root s = (s1, Ok mounts)).
Proof.
  unfold cleanupAll, mbind, M_bind. intros Hrun.
  destruct (wrap _ (listMounts root) s) as [s1 [mounts|e|p]] eqn:Hm; cycle 1.
  1,2: injection Hrun as <- <-; exists [], []; rewrite app_nil_r; split_and!; [|done|done];
    eapply quiet_log, Hm; apply quiet_wrap, quiet_listMounts.
  exists mounts. apply wrap_Ok in Hm. pose proof (quiet_log _ _ _ _ (quiet_listMounts root) Hm) as Hl.
  assert (Ht : Forall (tracked root) mounts).
  { unfold listMounts in Hm. ok_bind Hm s2 infos Hd. by eapply mount_pids_tracked. }
  assert (Hall : forall l, l ⊆ mounts -> emits (stale_call storage root mounts) (for_each (cleanup_one storage root) l)).
  { induction l as [|m l IH]; intros Hsub; cbn [for_each]; [by apply emits_quiet|].
    assert (m ∈ mounts) by (apply Hsub; set_solver).
    apply emits_bind; [|intros _ _ _ _; apply IH; set_solver].
    apply emits_cleanup_one; [done|]. by eapply Forall_forall. }
  destruct (emits_run _ _ _ _ _ (Hall (map_range mounts) ltac:(intros m Hin; by rewrite map_range_perm in Hin)) Hrun)
    as (evs & Hl' & Hev).
  exists evs. rewrite Hl', Hl. split_and!; [done|exact Hev|]. intros _. by exists s1.
Qed.

End flist_properties.

(** ** A node with some files *)
Module FlistDemo.

Import BusDemo.

(** What fails, and the files. *)
Record world := MkWorld { w_fails : list string; w_files : gmap string string }.

Definition does {A} (method : string) (a : A) : M world A := fun w =>
  (w, if failing (w_fails w) method then Err (ErrMsg (method +:+ " failed")) else Ok a).

Definition read (path : string) : M world string := fun w =>
  (w, match w_files w !! path with Some c => Ok c | None => Err ErrNotExist end).

(** What changes the files. *)
Definition change (method : string) (f : gmap string string -> gmap string string) : M world unit := fun w =>
  if failing (w_fails w) method then (w, Err (ErrMsg (method +:+ " failed"))) else (MkWorld (w_fails w) (f (w_files w)), Ok tt).

Definition temp_file (dir : string) : M world string := fun w =>
  let tmp := Join dir "1_flist_temp" in
  if failing (w_fails w) "TempFile" || bool_decide (is_Some (w_files w !! tmp)) then (w, Err (ErrMsg "TempFile failed"))
  else (MkWorld (w_fails w) (<[tmp := ""]> (w_files w)), Ok tmp).

#[local] Instance demo_node : FlistNode world := {|
  fn_Stat path w := (w, if failing (w_fails w) path then Err ErrNotExist else Ok true);
  fn_mountpoint _ := does "mountpoint" tt;
  fn_FlistURL := does "env" "zdb://hub";
  fn_http_Get url := does url (200, if Contains url ".md5" then "d1" else "body");
  fn_random := does "random" "r4nd0m";
  fn_ReadFile := read;
  fn_ReadDir _ w := (w, Ok [("live", false); ("dead", false); ("left", false)]);
  fn_TempFile := temp_file;
  fn_Write p c := change "Write" (insert p c);
  fn_Rename a b := change "Rename" (fun f => match f !! a with Some c => <[b := c]> (delete a f) | None => f end);
  fn_MkdirAll _ := does "MkdirAll" tt;
  fn_Chmod _ := does "Chmod" tt;
  fn_Symlink _ _ w := (w, if failing (w_fails w) "Symlink" then Err ErrExist else Ok tt);
  fn_Remove _ := does "Remove" tt;
  fn_RemoveAll _ := does "RemoveAll" tt;
  fn_Unmount _ := does "Unmount" tt;
  fn_Command _ _ := does "Command" tt;
  fn_signal _ _ := does "signal" tt;
  fn_ReadString _ := does "ReadString" "mount ready";
  fn_Walk _ w := (w, Ok [])
|}.

#[local] Instance demo_files : FlistFiles world.
Proof.
  refine {| fn_files := w_files |}; cbn; unfold does, read, change, temp_file.
  - by intros url w w' x [= <- _].
  - intros p w w' x [= <- <-]. split; [done|]. intros c. destruct (w_files w !! p); congruence.
  - intros dir w w' x. destruct (_ || _) eqn:E; intros [= <- <-]; [done|]. apply orb_false_iff in E as [_ E].
    split; [|done]. apply bool_decide_eq_false in E. by apply eq_None_not_Some.
  - intros p c w w' _. destruct (failing _ _); [done|]. by intros [= <-].
  - by intros p w w' x [= <- _].
  - intros a b c w w' Ha. destruct (failing _ _); [done|]. intros [= <-]. cbn. by rewrite Ha.
Defined.

#[local] Instance demo_md5 : Md5Hex.
Proof. refine {| md5_hex s := if (s =? "")%string then "d0" else "d1" |}. intros s. by destruct (s =? "")%string. Defined.

#[local] Instance order : MapOrder := {| map_range A l := rev l; map_range_perm A l := Permutation_sym (Permutation_rev l) |}.

Definition root : string := "/var/cache/modules/flistd".

(** The node: a mount c1 with its files, and the tracked mounts live, dead and left. *)
Definition node_files : list (string * string) :=
  [(root +:+ "/pid/c1.pid", "41"); (root +:+ "/log/c1.log", ""); ("/proc/41/cmdline", "g8ufs");
   (root +:+ "/run/live", "41"); (root +:+ "/run/dead", "55")].

Definition mounting (fails : list string) : PState world * res string :=
  mount (storaged (daemons_on (failing fails))) root 3 "c1" "https://hub/a.flist" ""
    (MkMountOptions false 256 SSDDevice) (MkP (MkWorld fails (list_to_map node_files)) [] false).

Definition new : list string := ["Path"; "mountpoint"].

(** g8ufs does not start. *)
Lemma mount_gives_back_witness :
  let run := mounting ("Command" :: new) in
  is_ok (snd run) = false /\ length (p_log (fst run)) = 7%nat /\
  exists evs, p_log (fst run) = [] ++ evs /\ (held evs ∅ ⊆ ∅ \/ exists args, serving args evs).
Proof.
  split; [vm_compute; reflexivity|]. split; [vm_compute; reflexivity|].
  eapply (mount_gives_back (storaged (daemons_on (failing ("Command" :: new)))) root 3 "c1"
    "https://hub/a.flist" "" (MkMountOptions false 256 SSDDevice) (MkP (MkWorld ("Command" :: new) (list_to_map node_files)) [] false)
    (fst (mounting ("Command" :: new))) _ ∅).
  - intros n z t w w' path. cbn. unfold says. by intros [= _ <-].
  - vm_compute. reflexivity.
Defined.

(** When 0-fs does not say that it is ready the new volume stays, and nothing will
    release it; when a track file of an earlier mount is in the way the mount
    succeeds, on a volume that has just been released. *)
Example mount_volumes :
  is_ok (snd (mounting ("ReadString" :: new))) = false /\
  elements (held (p_log (fst (mounting ("ReadString" :: new)))) ∅) = [RVolume "c1"] /\
  snd (mounting ("Symlink" :: new)) = Ok (root +:+ "/mountpoint/c1") /\
  elements (held (p_log (fst (mounting ("Symlink" :: new)))) ∅) = [] /\
  snd (mounting new) = Ok (root +:+ "/mountpoint/c1") /\
  elements (held (p_log (fst (mounting new))) ∅) = [RVolume "c1"].
Proof. split_and!; vm_compute; reflexivity. Qed.

Definition start (l : list (string * string)) : PState world := MkP (MkWorld [] (list_to_map l)) [] false.

(** A flist whose file is corrupted, and one that was saved before. *)
Lemma downloadFlist_integrity_witness :
  let bad := start [(root +:+ "/flist/d1", "")] in
  let good := start [(root +:+ "/flist/d1", "body")] in
  (downloadFlist root "https://hub/a.flist" bad).2 = Ok (root +:+ "/flist/d1") /\
  files (downloadFlist root "https://hub/a.flist" bad).1 !! (root +:+ "/flist/d1") = Some "body" /\
  exists content, root +:+ "/flist/d1" = Join (f_flist root) (md5_hex content) /\
    files (downloadFlist root "https://hub/a.flist" good).1 !! (root +:+ "/flist/d1") = Some content.
Proof.
  intros bad good. split; [vm_compute; reflexivity|]. split; [vm_compute; reflexivity|].
  destruct (downloadFlist_integrity root "https://hub/a.flist" good (downloadFlist root "https://hub/a.flist" good).1
    (root +:+ "/flist/d1")) as (content & Hp & Hc & _); [vm_compute; reflexivity|].
  exists content. split; [exact Hp|exact Hc].
Defined.

Definition unmounting : PState world * res unit :=
  Umount (storaged (daemons_on (failing []))) root 3 (root +:+ "/mountpoint/c1") (start node_files).

(** The process does not stop, it is killed and the volume released. *)
Lemma Umount_spec_witness :
  length (p_log (fst unmounting)) = 6%nat /\
  Dir (root +:+ "/mountpoint/c1") = Clean (f_mountpoint root) /\
  exists o1 kills o2 o3 released, p_log (fst unmounting) = [] ++
    Ran (NodeCall "unmount" [root +:+ "/mountpoint/c1"]) o1 :: kills ++
    [Ran (NodeCall "removeall" [pidPath root "c1"]) o2; Ran (NodeCall "removeall" [root +:+ "/mountpoint/c1"]) o3] ++
    released.
Proof.
  split; [vm_compute; reflexivity|].
  assert (Hrun : unmounting = (fst unmounting, Ok tt)) by (vm_compute; reflexivity).
  destruct (proj2 (Umount_spec (storaged (daemons_on (failing []))) root 3 (root +:+ "/mountpoint/c1") (start node_files)
    (fst unmounting) (Ok tt) Hrun) eq_refl) as (Hd & o1 & kills & o2 & o3 & released & Hl & _).
  split; [exact Hd|]. exists o1, kills, o2, o3, released. exact Hl.
Defined.

Definition cleaning : PState world * res unit :=
  cleanupAll (storaged (daemons_on (failing []))) root (start node_files).

(** Of three mounts one is in use. *)
Lemma cleanupAll_stale_witness :
  length (p_log (fst cleaning)) = 8%nat /\
  exists (mounts : list (string * Z)) evs, p_log (fst cleaning) = [] ++ evs /\
    Forall (fun ev => exists name, name ∈ mounts.*1 /\ gone (W := world) root name /\
      cleanup_call (W := world) (storaged (daemons_on (failing []))) root name ev) evs.
Proof.
  split; [vm_compute; reflexivity|].
  assert (Hrun : cleaning = (fst cleaning, Ok tt)) by (vm_compute; reflexivity).
  destruct (cleanupAll_stale (storaged (daemons_on (failing []))) root (start node_files) (fst cleaning) (Ok tt)
    Hrun) as (mounts & evs & Hl & Hev & _).
  exists mounts, evs. split; [exact Hl|exact Hev].
Defined.

End FlistDemo.
