(* ===== verification/Zinit.v ===== *)
(** The client of zinit, the init process of the node: src/pkg/zinit.

    A command is a line on the socket; the answer is some header lines, an empty
    line, and as many lines as the headers announce. [Scanner] is what bufio reads
    from the socket: the lines that arrive until the connection ends. The client
    keeps one connection, so the answers have to be read to their last line.
    gopkg.in/yaml.v2 is the argument [ZYaml]. *)

From stdpp Require Import gmap strings list.
From Stdlib Require Import Ascii ZArith Lia.
From S2P Require Import Prelude Reservation BtrfsUtil Disk.

Open Scope Z_scope.
Open Scope go_scope.

(** ** The socket *)

Record Scanner := MkScanner { sc_lines : list string; sc_end : option error; sc_done : bool }.

(** [Client]: whether it is connected, what it reads, and the world it writes to. *)
Record Client (W : Type) := MkClient { cl_conn : bool; cl_scan : Scanner; cl_world : W }.
Arguments MkClient {W}.
Arguments cl_conn {W}.
Arguments cl_scan {W}.
Arguments cl_world {W}.

Class Socket (W : Type) := {
  so_Dial : string -> M W Scanner;
  so_Write : string -> M W unit;
  so_Close : M W unit;
  so_WriteFile : string -> string -> M W unit;
  so_RemoveAll : string -> M W unit
}.

Section scanner.
  Context {W : Type}.

(** [scanner.Scan] and [scanner.Text]: the next line. *)
Definition Scan : M (Client W) (option string) := fun c =>
  match sc_lines (cl_scan c) with
  | line :: lines =>
      (MkClient (cl_conn c) (MkScanner lines (sc_end (cl_scan c)) false) (cl_world c), Ok (Some line))
  | [] => (MkClient (cl_conn c) (MkScanner [] (sc_end (cl_scan c)) true) (cl_world c), Ok None)
  end.

(** [scanner.Err]. *)
Definition scan_Err : M (Client W) unit := fun c =>
  (c, match sc_end (cl_scan c) with
      | Some e => if sc_done (cl_scan c) then Err e else Ok tt
      | None => Ok tt
      end).

(** The header lines; the fuel is the number of lines there are. *)
Fixpoint read_headers (n : nat) (headers : gmap string string) : M (Client W) (gmap string string) :=
  match n with
  | O => mret headers
  | S n =>
      line ← Scan;
      match line with
      | None => mret headers
      | Some line =>
          if (line =? "")%string then mret headers
          else
            match split_first ":" line with
            | None => panic "index out of range"
            | Some (k, v) => read_headers n (<[TrimSpace k := TrimSpace v]> headers)
            end
      end
  end.

Definition put_line (content line : string) : string :=
  (if (content =? "")%string then content else content +:+ String nl "") +:+ line.

Fixpoint read_content (count : nat) (content : string) : M (Client W) string :=
  match count with
  | O => mret content
  | S count =>
      line ← Scan;
      match line with
      | None => mret content
      | Some line => read_content count (put_line content line)
      end
  end.

(** [strconv.ParseUint(s, 10, 32)]. *)
Definition ParseUint32 (s : string) : res Z :=
  match ParseUint s with
  | Ok n => if n <? 4294967296 then Ok n else Err ErrRange
  | e => e
  end.

Definition readResponse : M (Client W) string := fun c =>
  (headers ← read_headers (S (length (sc_lines (cl_scan c)))) ∅;
   wrap "error while reading socket" scan_Err ;;
   count ← wrap "failed to parse response length" (lift (ParseUint32 (default "" (headers !! "lines"))));
   content ← read_content (Z.to_nat count) "";
   wrap "error while reading socket" scan_Err ;;
   if (default "" (headers !! "status") =? "error")%string then throw (ErrMsg (Sprintf content))
   else mret content) c.

End scanner.

(** ** The state of a service *)

Record ServiceState := MkServiceState { zs_state : string; zs_reason : string }.

Definition ServiceStateUnknown : string := "unknown".
Definition ServiceStateRunning : string := "running".
Definition ServiceStateSuccess : string := "success".
Definition ServiceStateError : string := "error".
Definition ServiceStateFailure : string := "failure".
Definition ServiceTargetUp : string := "up".
Definition ServiceTargetDown : string := "down".

(** The character in front of the end of a string, and what precedes it. *)
Fixpoint unsnoc (s : string) : option (string * ascii) :=
  match s with
  | EmptyString => None
  | String c EmptyString => Some (EmptyString, c)
  | String c s => match unsnoc s with Some (t, d) => Some (String c t, d) | None => None end
  end.

(** The groups of [^(\w+)(?:\((.+)\))?$]. *)
Definition statusRegex (buf : string) : option (string * string) :=
  match span is_word buf with
  | (EmptyString, _) => None
  | (word, EmptyString) => Some (word, EmptyString)
  | (word, String c rest) =>
      if Ascii.eqb c "(" then
        match unsnoc rest with
        | Some (String d reason, e) =>
            if Ascii.eqb e ")" && bool_decide (split_first nl (String d reason) = None)
            then Some (word, String d reason) else None
        | _ => None
        end
      else None
  end.

Definition ServiceState_Unmarshal (buf : string) : res ServiceState :=
  match statusRegex buf with
  | None => Err (ErrMsg "invalid service state value")
  | Some (state, reason) => Ok (MkServiceState (ToLower state) (ToLower reason))
  end.

Definition ServiceState_String (s : ServiceState) : string :=
  (if (zs_state s =? "")%string then ServiceStateUnknown else zs_state s) +:+
  (if (zs_reason s =? "")%string then "" else "(" +:+ zs_reason s +:+ ")").

Definition Is (s : ServiceState) (state : string) : bool := EqualFold (zs_state s) state.

Definition Exited (s : ServiceState) : bool :=
  Is s ServiceStateSuccess || Is s ServiceStateError || Is s ServiceStateFailure.

Record ServiceStatus := MkServiceStatus {
  ss_Name : string; ss_Pid : Z; ss_State : ServiceState; ss_Target : string; ss_Deps : gmap string string
}.

(** [InitService]; the log type is lower case when it is read. *)
Record InitService := MkInitService {
  is_Exec : string; is_Oneshot : bool; is_Test : string; is_After : list string; is_Log : string
}.

(** What yaml makes of a text before the methods UnmarshalYAML of the client see the
    scalars. A state that is missing is the zero value. *)
Class ZYaml := {
  yaml_list : string -> res (gmap string string);
  yaml_status : string -> res (string * Z * option string * option string * gmap string string);
  yaml_service : InitService -> res string
}.

Section client.
  Context {W : Type} `{Socket W} `{ZYaml}.

(** ** zinit.go *)

Definition defaultSocketPath : string := "/var/run/zinit.sock".

Definition New (socket : string) : M W (Client W) := fun w =>
  let socket := if (socket =? "")%string then defaultSocketPath else socket in
  match so_Dial socket w with
  | (w, Ok scan) => (w, Ok (MkClient true scan w))
  | (w, Err e) => (w, Err e)
  | (w, Panic p) => (w, Panic p)
  end.

Definition on_world {A} (m : M W A) : M (Client W) A := fun c =>
  let '(w, x) := m (cl_world c) in (MkClient (cl_conn c) (cl_scan c) w, x).

Definition Close : M (Client W) unit :=
  conn ← gets cl_conn;
  (if conn : bool then on_world so_Close else mret tt) ;;
  modify (fun c => MkClient false (cl_scan c) (cl_world c)).

Definition cmd (line : string) : M (Client W) string :=
  conn ← gets cl_conn;
  if negb conn then throw (ErrMsg "not connected, call Connect() before executing command ")
  else
    on_world (so_Write line) ;;
    on_world (so_Write (String nl "")) ;;
    readResponse.

(** ** commands.go *)

Fixpoint unmarshal_states (l : list (string * string)) : res (gmap string ServiceState) :=
  match l with
  | [] => Ok ∅
  | (name, buf) :: l =>
      match ServiceState_Unmarshal buf, unmarshal_states l with
      | Ok s, Ok m => Ok (<[name := s]> m)
      | Ok _, e => e
      | Err e, _ => Err e
      | Panic p, _ => Panic p
      end
  end.

Definition parseList (s : string) : res (gmap string ServiceState) :=
  match yaml_list s with
  | Ok m => unmarshal_states (map_to_list m)
  | Err e => Err e
  | Panic p => Panic p
  end.

Definition List : M (Client W) (gmap string ServiceState) :=
  resp ← cmd "list"; lift (parseList resp).

Definition parseStatus (s : string) : res ServiceStatus :=
  match yaml_status s with
  | Ok (name, pid, state, target, deps) =>
      match state with
      | None => Ok (MkServiceStatus name pid (MkServiceState "" "") (ToLower (default "" target)) deps)
      | Some buf =>
          res_map (fun st => MkServiceStatus name pid st (ToLower (default "" target)) deps)
            (ServiceState_Unmarshal buf)
      end
  | Err e => Err e
  | Panic p => Panic p
  end.

Definition ErrUnknownService : error := ErrMsg "unknown service".

Definition Status (service : string) : M (Client W) ServiceStatus :=
  resp ← try (cmd ("status " +:+ service));
  match resp with
  | inr e => throw (if HasPrefix (Error e) "unknown service" then ErrUnknownService else e)
  | inl resp => lift (parseStatus resp)
  end.

Definition Start (service : string) : M (Client W) unit := cmd ("start " +:+ service) ;; mret tt.
Definition Stop (service : string) : M (Client W) unit := cmd ("stop " +:+ service) ;; mret tt.
Definition Forget (service : string) : M (Client W) unit := cmd ("forget " +:+ service) ;; mret tt.

Definition Kill (service sig : string) : M (Client W) unit :=
  cmd ("kill " +:+ service +:+ " " +:+ sig) ;; mret tt.

Definition Monitor (service : string) : M (Client W) unit :=
  resp ← try (cmd ("monitor " +:+ service));
  match resp with
  | inl _ => mret tt
  | inr e => if Contains (Error e) "already monitored" then mret tt else throw e
  end.

(** The loop of [StartWait]; [turns] of it before the time is up. *)
Fixpoint start_wait (turns : nat) (service : string) : M (Client W) unit :=
  status ← Status service;
  match turns with
  | O =>
      if Exited (ss_State status) then throw (ErrMsg ("service '" +:+ service +:+ "' did not start in time"))
      else mret tt
  | S turns =>
      if negb (ss_Target status =? ServiceTargetUp)%string
      then throw (ErrMsg "expected service target should be UP. found DOWN")
      else if Is (ss_State status) ServiceStateRunning || Is (ss_State status) ServiceStateSuccess then mret tt
      else start_wait turns service
  end.

Definition StartWait (turns : option nat) (service : string) : M (Client W) unit :=
  Start service ;; match turns with None => mret tt | Some turns => start_wait turns service end.

(** The loop of [StopWait]. *)
Fixpoint stop_wait (turns : nat) (service : string) : M (Client W) unit :=
  match turns with
  | O => Kill service "SIGKILL"
  | S turns =>
      status ← Status service;
      if negb (ss_Target status =? ServiceTargetDown)%string
      then throw (ErrMsg "expected service target should be DOWN. found UP")
      else if Exited (ss_State status) then mret tt
      else stop_wait turns service
  end.

Definition StopWait (turns : option nat) (service : string) : M (Client W) unit :=
  Stop service ;; match turns with None => mret tt | Some turns => stop_wait turns service end.

(** ** service.go *)

Definition service_path (name : string) : string := Join "/etc/zinit" (name +:+ ".yaml").

Definition AddService (name : string) (service : InitService) : M (Client W) unit :=
  b ← lift (yaml_service service); on_world (so_WriteFile (service_path name) b).

Definition RemoveService (name : string) : M (Client W) unit := on_world (so_RemoveAll (service_path name)).

End client.

(** What other daemons ask of zinit; the client above provides it. *)
Class ZinitOps (W : Type) := {
  z_Start : string -> M W unit;
  z_Stop : string -> M W unit;
  z_Forget : string -> M W unit;
  z_Monitor : string -> M W unit;
  z_Kill : string -> string -> M W unit;
  z_Status : string -> M W ServiceStatus;
  (** the number of turns before the time is up *)
  z_StartWait : option nat -> string -> M W unit;
  z_StopWait : option nat -> string -> M W unit;
  z_AddService : string -> InitService -> M W unit
}.

#[export] Instance Client_ZinitOps {W} `{Socket W} `{ZYaml} : ZinitOps (Client W) := {|
  z_Start := Start; z_Stop := Stop; z_Forget := Forget; z_Monitor := Monitor; z_Kill := Kill;
  z_Status := Status; z_StartWait := StartWait; z_StopWait := StopWait; z_AddService := AddService
|}.

(** ** Lemmas *)

Section zinit_lemmas.
  Context {W : Type}.

(** What zinit answers. *)
Definition reply (status : string) (lines : list string) : list string :=
  ("lines: " +:+ Itoa (Z.of_nat (length lines))) :: ("status: " +:+ status) :: "" :: lines.

(** The client drops empty lines at the start of an answer. *)
Fixpoint drop_empty (lines : list string) : list string :=
  match lines with
  | EmptyString :: lines => drop_empty lines
  | _ => lines
  end.

Definition content_of (lines : list string) : string := String.concat (String nl "") (drop_empty lines).

Definition answer (status : string) (lines : list string) : res string :=
  if (status =? "error")%string then Err (ErrMsg (Sprintf (content_of lines))) else Ok (content_of lines).

Lemma put_line_content lines : forall acc, acc <> "" ->
  foldl put_line acc lines = acc +:+ foldr (fun l out => String nl l +:+ out) "" lines.
Proof.
  induction lines as [|l lines IH]; intros acc Hacc; cbn [foldl foldr]; [by rewrite string_app_nil_r|].
  assert (put_line acc l = acc +:+ String nl l) as ->.
  { unfold put_line. destruct acc as [|c acc]; [done|]. cbn [String.eqb].
    by rewrite string_app_assoc. }
  rewrite IH by (by destruct acc). by rewrite string_app_assoc.
Qed.

Lemma concat_foldr l lines :
  String.concat (String nl "") (l :: lines) = l +:+ foldr (fun l out => String nl l +:+ out) "" lines.
Proof.
  revert l. induction lines as [|l' lines IH]; intros l; [by rewrite string_app_nil_r|].
  change (String.concat (String nl "") (l :: l' :: lines)) with
    (l +:+ (String nl "" +:+ String.concat (String nl "") (l' :: lines))).
  by rewrite IH.
Qed.

Lemma put_lines lines : foldl put_line "" lines = content_of lines.
Proof.
  unfold content_of. induction lines as [|[|c l] lines IH]; [done|exact IH|].
  cbn [drop_empty]. rewrite concat_foldr. by apply (put_line_content lines (String c l)).
Qed.

Lemma read_content_lines lines : forall acc tail conn e d (w : W), (d = false \/ lines <> []) ->
  read_content (length lines) acc (MkClient conn (MkScanner (lines ++ tail) e d) w) =
  (MkClient conn (MkScanner tail e false) w, Ok (foldl put_line acc lines)).
Proof.
  induction lines as [|l lines IH]; intros acc tail conn e d w Hd; cbn [length read_content app foldl].
  - destruct Hd as [->|Hd]; [done|done].
  - unfold mbind, M_bind, Scan. cbn. by apply IH; left.
Qed.

Lemma TrimSpace_Itoa n : is_u64 n -> TrimSpace (String " " (Itoa n)) = Itoa n.
Proof.
  intros Hn. unfold TrimSpace. pose proof (skip_white_Itoa n "" Hn) as Hs. rewrite string_app_nil_r in Hs.
  rewrite Hs. assert (is_word_of (Itoa n)) as (t & c & -> & Hc)%word_last; [|by apply trim_right_last].
  split; [apply Itoa_nonempty|]. apply digits_value_Itoa, all_digits in Hn. eapply all_chars_impl, Hn.
  intros c Hc. unfold is_digit in Hc. destruct (digit c) as [x|] eqn:Hd; [|done].
  unfold not_white. by rewrite (proj1 (digit_not_sign c x Hd)).
Qed.

Notation reading lines e w conn := (MkClient conn (MkScanner lines e false) w).

Lemma read_headers_line n h l k v lines conn e d (w : W) : l <> "" -> split_first ":" l = Some (k, v) ->
  read_headers (S n) h (MkClient conn (MkScanner (l :: lines) e d) w) =
  read_headers n (<[TrimSpace k := TrimSpace v]> h) (reading lines e w conn).
Proof.
  intros Hl Hs. cbn [read_headers]. unfold mbind, M_bind, Scan. cbn. apply String.eqb_neq in Hl. by rewrite Hl, Hs.
Qed.

(** One answer is read to its last line, and nothing of the next one. *)
Lemma readResponse_reply conn status lines tail e d (w : W) :
  Z.of_nat (length lines) < 4294967296 -> TrimSpace (String " " status) = status ->
  readResponse (MkClient conn (MkScanner (reply status lines ++ tail) e d) w) =
  (reading tail e w conn, answer status lines).
Proof.
  intros Hlen Hstatus. unfold readResponse.
  assert (Hu : is_u64 (Z.of_nat (length lines))) by (unfold is_u64, W64; lia).
  cbn [sc_lines cl_scan reply app length].
  set (h := <["status" := status]> (<["lines" := Itoa (Z.of_nat (length lines))]> (∅ : gmap string string))).
  rewrite (bind_Ok _ _ _ (reading (lines ++ tail) e w conn) h); cycle 1.
  { rewrite (read_headers_line _ _ _ "lines" (String " " (Itoa (Z.of_nat (length lines))))) by done.
    rewrite (read_headers_line _ _ _ "status" (String " " status)) by done.
    rewrite Hstatus, TrimSpace_Itoa by done. done. }
  assert (Hok : forall conn l, wrap (S := Client W) "error while reading socket" scan_Err (reading l e w conn)
    = (reading l e w conn, Ok tt)).
  { intros. unfold wrap, scan_Err. cbn. by destruct e. }
  rewrite (bind_Ok _ _ _ _ _ (Hok _ _)).
  rewrite (bind_Ok _ _ _ (reading (lines ++ tail) e w conn) (Z.of_nat (length lines))); cycle 1.
  { unfold h. rewrite lookup_insert_ne, lookup_insert_eq by done.
    unfold wrap, lift, ParseUint32. cbn [default from_option id].
    rewrite ParseUint_Itoa by done. by rewrite (proj2 (Z.ltb_lt _ _) Hlen). }
  rewrite Nat2Z.id, (bind_Ok _ _ _ _ _ (read_content_lines lines "" tail conn e false w (or_introl eq_refl))).
  rewrite (bind_Ok _ _ _ _ _ (Hok _ _)). unfold h. rewrite lookup_insert_eq. cbn.
  rewrite put_lines. unfold answer. by destruct (status =? "error")%string.
Qed.

End zinit_lemmas.

(** ** Properties *)

Section zinit_properties.
  Context {W : Type} `{Socket W}.

(** Commands one after the other on the same connection. *)
Fixpoint session (cmds : list string) : M (Client W) (list (string + error)) :=
  match cmds with
  | [] => mret []
  | c :: cmds => r ← try (cmd c); rs ← session cmds; mret (r :: rs)
  end.

(** What a command returns for an answer, a status and lines. *)
Definition returned (r : string * list string) (x : string + error) : Prop :=
  if (r.1 =? "error")%string
  then x = inr (ErrMsg (Sprintf (content_of r.2))) /\ (split_first "%" (content_of r.2) = None -> x = inr (ErrMsg (content_of r.2)))
  else x = inl (content_of r.2).

(** C35 (roundtrip): the client stays in step with zinit. When zinit answers some
    commands in order, each of them, also one that is answered with an error, gets
    its own answer with all of its lines, and what arrives after the last answer
    is left for the next command. The lines come back as they are, but for empty lines at
    the start of an answer, which are dropped; an error is the text of the answer when it
    has no percent sign, and else what [Sprintf] makes of it as a format without arguments. *)
Theorem session_in_step cmds replies tail e d w :
  (forall l w, exists w', so_Write l w = (w', Ok tt)) ->
  length cmds = length replies ->
  Forall (fun r => Z.of_nat (length r.2) < 4294967296 /\ TrimSpace (String " " r.1) = r.1) replies ->
  exists w' results,
    session cmds (MkClient true (MkScanner (concat ((fun r => reply r.1 r.2) <$> replies) ++ tail) e d) w) =
    (MkClient true (MkScanner tail e (match replies with [] => d | _ => false end)) w', Ok results) /\
    Forall2 returned replies results.
Proof.
  intros Hwrite. revert cmds d w. induction replies as [|r replies IH]; intros [|c cmds] d w Hlen Hr; try done.
  { exists w, []. by repeat constructor. }
  apply Forall_cons in Hr as [[Hread Hst] Hr]. cbn [fmap list_fmap concat session]. rewrite <- (assoc_L (++)).
  destruct (Hwrite c w) as [w1 H1]. destruct (Hwrite (String nl "") w1) as [w2 H2].
  set (rest := concat _ ++ tail) in *.
  assert (Hcmd : cmd c (MkClient true (MkScanner (reply r.1 r.2 ++ rest) e d) w) =
    (MkClient true (MkScanner rest e false) w2, answer r.1 r.2)).
  { unfold cmd, mbind, M_bind, gets, on_world. cbn [cl_conn negb cl_world cl_scan].
    rewrite H1. cbn [cl_world cl_conn cl_scan]. rewrite H2. by apply readResponse_reply. }
  destruct (IH cmds false w2) as (w3 & results & IH' & Hres); [by injection Hlen|done|]. fold rest in IH'.
  assert (exists x, try (cmd c) (MkClient true (MkScanner (reply r.1 r.2 ++ rest) e d) w) =
    (MkClient true (MkScanner rest e false) w2, Ok x) /\ returned r x) as (x & Hx & Hret).
  { unfold try. rewrite Hcmd. unfold returned, answer. destruct (r.1 =? "error")%string; eexists; (split; [done|]); [|done].
    split; [done|]. intros Hp. by rewrite Sprintf_plain. }
  exists w3, (x :: results). split; [|by constructor].
  rewrite (bind_Ok _ _ _ _ _ Hx), (bind_Ok _ _ _ _ _ IH'). by destruct replies.
Qed.

Lemma unsnoc_app s c : unsnoc (s +:+ String c "") = Some (s, c).
Proof.
  induction s as [|d s IH]; [done|]. change (String d s +:+ String c "") with (String d (s +:+ String c "")).
  cbn [unsnoc]. rewrite IH. by destruct s.
Qed.

(** The state of a service is read back as it was written, with or
    without a reason, in whatever case: the client keeps it in lower case. *)
Theorem ServiceState_roundtrip s :
  zs_state s <> "" -> all_chars is_word (zs_state s) = true -> split_first nl (zs_reason s) = None ->
  ServiceState_Unmarshal (ServiceState_String s) =
  Ok (MkServiceState (ToLower (zs_state s)) (ToLower (zs_reason s))).
Proof.
  destruct s as [st reason]. cbn [zs_state zs_reason]. intros Hne Hw Hr.
  unfold ServiceState_String, ServiceState_Unmarshal, statusRegex. cbn [zs_state zs_reason].
  apply String.eqb_neq in Hne as Hne'. rewrite Hne'. destruct reason as [|c reason].
  - cbn [String.eqb]. rewrite string_app_nil_r, span_all_end by done. by destruct st.
  - cbn [String.eqb]. change ("(" +:+ String c reason +:+ ")") with (String "(" (String c reason +:+ String ")" "")).
    rewrite span_all by done. destruct st as [|a st]; [done|]. 
    change (Ascii.eqb "(" "(") with true. cbn iota. rewrite unsnoc_app.
    change (Ascii.eqb ")" ")") with true. cbn [andb]. by rewrite bool_decide_true.
Qed.

End zinit_properties.

(** ** A connection at work *)
Module ZinitDemo.

#[local] Instance socket : Socket unit := {|
  so_Dial _ w := (w, Ok (MkScanner [] None false));
  so_Write _ w := (w, Ok tt);
  so_Close w := (w, Ok tt);
  so_WriteFile _ _ w := (w, Ok tt);
  so_RemoveAll _ w := (w, Ok tt)
|}.

Definition incoming : list string :=
  ["lines: 3"; "status: ok"; ""; ""; "redis: Running"; "networkd: Success";
   "lines: 1"; "status: error"; ""; "unknown service";
   "lines: 0"; "status: ok"; ""; "left"].

Definition client (lines : list string) : Client unit := MkClient true (MkScanner lines None false) tt.

Definition replies : list (string * list string) :=
  [("ok", [""; "redis: Running"; "networkd: Success"]); ("error", ["unknown service"]); ("ok", [])].

Lemma session_in_step_witness :
  (session ["list"; "status nope"; "stop redis"] (client incoming)).2 =
    Ok [inl ("redis: Running" +:+ String nl "networkd: Success"); inr (ErrMsg "unknown service"); inl ""] /\
  exists w' results, session ["list"; "status nope"; "stop redis"] (client incoming) =
    (MkClient true (MkScanner ["left"] None false) w', Ok results) /\ Forall2 returned replies results.
Proof.
  split; [vm_compute; reflexivity|].
  apply (session_in_step ["list"; "status nope"; "stop redis"] replies ["left"] None false tt).
  - intros l w. by exists w.
  - reflexivity.
  - repeat (apply Forall_cons; split; [split; [vm_compute; reflexivity|vm_compute; reflexivity]|]).
    constructor.
Defined.

(** An answer with a percent sign is not what the caller sees. *)
Example garbled_error :
  (cmd "start app" (client ["lines: 1"; "status: error"; ""; "disk is 97% full"])).2 =
  Err (ErrMsg "disk is 97%!f(MISSING)ull").
Proof. vm_compute. reflexivity. Qed.

(** A header line without a colon is indexed out of range. *)
Example bad_header : snd (cmd "list" (client ["zinit"])) = Panic "index out of range".
Proof. vm_compute. reflexivity. Qed.

Lemma ServiceState_roundtrip_witness :
  ServiceState_Unmarshal "Error(Exited(1))" = Ok (MkServiceState "error" "exited(1)") /\
  ServiceState_Unmarshal (ServiceState_String (MkServiceState "error" "exited(1)")) =
    Ok (MkServiceState (ToLower "error") (ToLower "exited(1)")).
Proof.
  split; [vm_compute; reflexivity|].
  apply (ServiceState_roundtrip (MkServiceState "error" "exited(1)")); [done|vm_compute; reflexivity..].
Defined.

End ZinitDemo.
