(* ===== verification/Ndmz.v ===== *)
(** The namespace through which the networks of the users reach the internet:
    src/pkg/network/ndmz (dualstack.go, ipam.go, nft.go, dhcp_monitor.go), the only
    implementation of the interface [DMZ] of ndmz.go.

    [Ipam] is what is used of the host-local allocator of
    github.com/containernetworking/plugins: a directory of leases, by id and interface.
    The polls of [waitIP4] and the retries of [waitIP6] are those before the time is up. *)

From stdpp Require Import gmap strings list.
From Stdlib Require Import Ascii ZArith Lia.
From S2P Require Import Prelude Reservation Versioned NetIP NetTypes Storage BtrfsUtil Disk Bus Netlink NetResource Zinit.

Open Scope Z_scope.

Definition ndmzBridge : string := "br-ndmz".
Definition dmzNamespace : string := "ndmz".
Definition ndmzNsMACDerivationSuffix6 : string := "-ndmz6".
Definition ndmzNsMACDerivationSuffix4 : string := "-ndmz4".
Definition dmzPub4 : string := "npub4".
Definition dmzPub6 : string := "npub6".
Definition nrPubIface : string := "public".
Definition tonrsIface : string := "tonrs".

(** [yggdrasil.YggListenTCP] and the like. *)
Definition YggListenTCP : Z := 9943.
Definition YggListenTLS : Z := 9944.
Definition YggListenLinkLocal : Z := 9945.
Definition YggIface : string := "ygg0".

(** [allocator.Range]. *)
Record Range := MkIpRange { rg_Start : IP; rg_End : IP; rg_Subnet : IPNet; rg_Gateway : IP }.

Class Ipam (W : Type) := {
  (** [disk.New] and [store.ns_Close] *)
  ipam_New : string -> M W unit;
  ipam_Close : string -> M W unit;
  ipam_Canonicalize : Range -> res Range;
  ipam_GetByID : string -> string -> string -> M W (list IP);
  ipam_RangeFor : Range -> IP -> res Range;
  (** [IPAllocator.Get] *)
  ipam_Get : string -> Range -> string -> string -> M W IPNet
}.

Definition dmz_range : Range :=
  MkIpRange (ParseIP "100.127.0.2") (ParseIP "100.127.255.254")
    (MkIPNet (ParseIP "100.127.0.0") (CIDRMask 16 32)) (ParseIP "100.127.0.1").

Definition convertIpv4ToIpv6 (ip : IP) : res IP :=
  let i := if (length ip =? 4)%nat then 2%nat else 14%nat in
  match ip !! i, ip !! S i with
  | Some a, Some b => Ok (ParseIP ("fd00::" +:+ hex_byte a +:+ hex_byte b))
  | _, _ => Panic "index out of range"
  end.

(** ** nft.go *)

Definition dmz_rules (YggPorts : string) : string := unlines
  [""; "flush ruleset"; "";
   "table inet nat {";
   "  chain prerouting {";
   "    type nat hook prerouting priority dstnat; policy accept;";
   "  }"; "";
   "  chain input {";
   "    type nat hook input priority 100; policy accept;";
   "  }"; "";
   "  chain output {";
   "    type nat hook output priority -100; policy accept;";
   "  }"; "";
   "  chain postrouting {";
   "    type nat hook postrouting priority srcnat; policy accept;";
   "    ip6 saddr 200::/7 accept";
   "    oifname " +:+ quoted "npub4" +:+ " masquerade fully-random;";
   "    oifname " +:+ quoted "npub6" +:+ " masquerade fully-random;";
   "  }";
   "}"; "";
   "table inet filter {"; "";
   "  chain base_checks {";
   "    # allow established/related connections";
   "    ct state {established, related} accept";
   "    # early drop of invalid connections";
   "    ct state invalid drop";
   "  }";
   "  ";
   "  chain input {";
   "    type filter hook input priority 0; policy accept;";
   "    jump base_checks"; "";
   "    ip6 daddr ff02::/64 accept";
   "    tcp dport { " +:+ YggPorts +:+ " } accept";
   "    ip6 nexthdr icmpv6 accept";
   "    iifname " +:+ quoted "npub6" +:+ " counter drop";
   "    iifname " +:+ quoted "npub4" +:+ " counter drop";
   "  }"; "";
   "  chain forward {";
   "    type filter hook forward priority 0; policy accept;";
   "    # is there already an existing stream? (outgoing)";
   "    jump base_checks";
   "    # if not, verify if it's new and coming in from the br4-gw network";
   "    # if it is, drop it";
   "    iifname " +:+ quoted "npub6" +:+ " counter drop";
   "    iifname " +:+ quoted "npub4" +:+ " counter drop";
   "  }"; "";
   "  chain output {";
   "    type filter hook output priority 0; policy accept;";
   "  }";
   "}"].

Section dmz.
  Context {W : Type} `{NetKernel W} `{Ipam W} `{MD5} `{ZinitOps W}.

Notation PM := (PM W).

(** ** ipam.go *)

Definition allocateIPv4 (networkID leaseDir : string) : PM IPNet :=
  call (ipam_New leaseDir) ;;
  finally (call (ipam_Close leaseDir))
    (r ← lift (ipam_Canonicalize dmz_range);
     ips ← call (ipam_GetByID leaseDir networkID "eth0");
     match ips with
     | ip :: _ => rng ← lift (ipam_RangeFor r ip); mret (MkIPNet ip (net_Mask (rg_Subnet rng)))
     | [] => call (ipam_Get leaseDir r networkID "eth0")
     end).

(** ** dualstack.go *)

Definition dmz_ns : PM string := namespace_GetByName dmzNamespace.

Definition createRoutingBridge (name netNS : string) : PM unit :=
  there ← bridge_Exists name;
  when_ (negb there) (wrap ("couldn't create bridge " +:+ name) (bridge_New name) ;; mret tt) ;;
  there ← iface_Exists tonrsIface (Some netNS);
  when_ (negb there)
    (wrap ("ndmz: couldn't create " +:+ tonrsIface) (macvlan_Create tonrsIface name (Some netNS)) ;; mret tt) ;;
  wrap ("failed to disable ip6 on bridge " +:+ name) (options_Set None name [IPv6Disable true]) ;;
  ns_Do netNS (fun ns =>
    link ← LinkByName ns tonrsIface;
    wrap ("failed to enable ip6 on interface " +:+ tonrsIface) (options_Set ns tonrsIface [IPv6Disable false]) ;;
    for_each (add_addr ns link)
      [MkIPNet (ParseIP "100.127.0.1") (CIDRMask 16 32);
       MkIPNet (ParseIP "fe80::1") (CIDRMask 64 128);
       MkIPNet (ParseIP "fd00::1") (CIDRMask 64 128)] ;;
    net_do ns (LinkSetUp link)).

(** The hardware address depends on the node alone, so that the same address comes from
    DHCP. *)
Definition createPubIface6 (name master nodeID netNS : string) : PM unit :=
  there ← iface_Exists name (Some netNS);
  when_ (negb there) (macvlan_Create name master (Some netNS) ;; mret tt) ;;
  ns_Do netNS (fun ns =>
    SetMAC ns name (HardwareAddrFromInputBytes (bytes_of (nodeID +:+ ndmzNsMACDerivationSuffix6))) None).

Definition createPubIface4 (name nodeID netNS : string) : PM unit :=
  there ← iface_Exists name (Some netNS);
  when_ (negb there) (macvlan_Create name DefaultBridge (Some netNS) ;; mret tt) ;;
  ns_Do netNS (fun ns =>
    wrap ("failed to disable ip6 on " +:+ name) (options_Set ns name [IPv6Disable true]) ;;
    SetMAC ns name (HardwareAddrFromInputBytes (bytes_of (nodeID +:+ ndmzNsMACDerivationSuffix4))) None).

Definition dmz_applyFirewall : PM unit :=
  let ports := join_with "," [Itoa YggListenTCP; Itoa YggListenTLS; Itoa YggListenLinkLocal] in
  wrap "failed to apply nft rule set" (nft_Apply (dmz_rules ports) dmzNamespace).

(** A look per second at the default route. *)
Fixpoint wait_gw (polls : nat) (ns : option string) (link : Link) : PM unit :=
  match polls with
  | O => throw (ErrMsg "public interface in ndmz did not received an IP. make sure DHCP is working")
  | S polls =>
      '(hasGW, _) ← HasDefaultGW ns link FAMILY_V4;
      if hasGW : bool then mret tt else wait_gw polls ns link
  end.

Definition waitIP4 (polls : nat) (ns : option string) : PM unit :=
  Probe_Start ns dmzPub4 ;;
  finally (Probe_Stop dmzPub4) (link ← LinkByName ns dmzPub4; wait_gw polls ns link).

Definition waitIP6 (retries : nat) (ns : option string) : PM unit :=
  wrap "ndmz: couldn't bring lo up in ndmz namespace" (SetLoUp ns) ;;
  wrap "ndmz: failed to set ndmz pub6 flags"
    (options_Set ns dmzPub6
       [AcceptRA RAAcceptIfForwardingIsEnabled; LearnDefaultRouteInRA true; ProxyArp false]) ;;
  retry retries
    (wrap "ndmz: failed to get the IPv6 routes in ndmz" (call (nk_RouteGet ns (ParseIP "2606:4700:4700::1111")))).

(** [Create], up to the monitor of the DHCP client that it starts. *)
Definition dmz_Create (nodeID public : string) (polls retries : nat) (zinit_New : M W unit) : PM unit :=
  got ← try dmz_ns;
  netNS ← match got with
          | inl netNS => mret netNS
          | inr _ => wrap "failed to create ndmz namespace" (namespace_Create dmzNamespace)
          end;
  finally (ns_Close netNS)
    (wrap "ndmz: createRoutingBride error" (createRoutingBridge ndmzBridge netNS) ;;
     wrap "ndmz: could not node create pub iface 6" (createPubIface6 dmzPub6 public nodeID netNS) ;;
     wrap "ndmz: could not create pub iface 4" (createPubIface4 dmzPub4 nodeID netNS) ;;
     dmz_applyFirewall ;;
     ns_Do netNS (fun ns =>
       wrap "failed to enable forwarding in ndmz" (SetIPv6Forwarding ns true) ;;
       waitIP4 polls ns ;;
       ignore (waitIP6 retries ns)) ;;
     call zinit_New).

Definition dmz_Delete : PM unit :=
  got ← try dmz_ns;
  match got with
  | inl netNS => wrap "failed to delete ndmz network namespace" (namespace_Delete (Some netNS))
  | inr _ => mret tt
  end.

Definition configure_public (networkID ipamLeaseDir : string) (ns : option string) : PM unit :=
  addr ← wrap "ip allocation for network resource" (allocateIPv4 networkID ipamLeaseDir);
  pubIface ← LinkByName ns nrPubIface;
  add_addr ns pubIface addr ;;
  ipv6 ← lift (convertIpv4ToIpv6 (net_IP addr));
  add_addr ns pubIface (MkIPNet ipv6 (CIDRMask 64 128)) ;;
  net_do ns (LinkSetUp pubIface) ;;
  unless IsExist (net_do ns (RouteAdd (default_route "0.0.0.0" 32 (ParseIP "100.127.0.1") (ln_Index pubIface)))) ;;
  unless IsExist (net_do ns (RouteAdd (default_route "::" 128 (ParseIP "fe80::1") (ln_Index pubIface)))).

Definition AttachNR (networkID : string) (r : NetResource) (ipamLeaseDir : string) : PM unit :=
  nrNSName ← lift (Namespace (nr_NetID r));
  nrNS ← namespace_GetByName nrNSName;
  there ← iface_Exists nrPubIface (Some nrNS);
  when_ (negb there) (macvlan_Create nrPubIface ndmzBridge (Some nrNS) ;; mret tt) ;;
  ns_Do nrNS (configure_public networkID ipamLeaseDir).

(** Whether no address of the public interface can be reached from outside. *)
Definition IsIPv4Only : PM bool :=
  netNS ← wrap "failed to get ndmz namespace" dmz_ns;
  finally (ns_Close netNS)
    (ns_Do netNS (fun ns =>
       link ← wrap ("failed to get interface '" +:+ dmzPub6 +:+ "'") (LinkByName ns dmzPub6);
       ips ← wrap ("failed to list '" +:+ dmzPub6 +:+ "' ips") (AddrList ns link FAMILY_V6);
       mret (negb (existsb (fun ip => IsGlobalUnicast (net_IP ip) && negb (IsULA (net_IP ip))) ips)))).

Definition GetIPFor (inf : string) : PM (list IPNet) :=
  netns ← dmz_ns;
  finally (ns_Close netns) (ns_Do netns (fun ns => ln ← LinkByName ns inf; AddrList ns ln FAMILY_ALL)).

Fixpoint addresses_of (ns : option string) (family : Z) (links : list string) : PM (list IPNet) :=
  match links with
  | [] => mret []
  | name :: links =>
      ln ← LinkByName ns name;
      ips ← AddrList ns ln family;
      rest ← addresses_of ns family links;
      mret (ips ++ rest)
  end.

Definition GetIP (family : Z) : PM (list IPNet) :=
  let links := (if (family =? FAMILY_V4) || (family =? FAMILY_ALL) then [dmzPub4] else []) ++
               (if (family =? FAMILY_V6) || (family =? FAMILY_ALL) then [dmzPub6] else []) in
  match links with
  | [] => mret []
  | _ =>
      netns ← dmz_ns;
      finally (ns_Close netns) (ns_Do netns (fun ns => addresses_of ns family links))
  end.

Definition SetIP (subnet : IPNet) : PM unit :=
  netns ← dmz_ns;
  finally (ns_Close netns)
    (ns_Do netns (fun ns =>
       link ← LinkByName ns (if bool_decide (is_Some (To16 (net_IP subnet))) then dmzPub6 else dmzPub4);
       add_addr ns link subnet)).

Definition SupportsPubIPv4 : bool := true.

Fixpoint iface_infos (ns : option string) (links : list Link) : PM (list IfaceInfo) :=
  match links with
  | [] => mret []
  | link :: links =>
      if (ln_Name link =? tonrsIface)%string then iface_infos ns links
      else
        addrs ← AddrList ns link FAMILY_ALL;
        rest ← iface_infos ns links;
        mret (MkIfaceInfo (ln_Name link) addrs [] (ln_HardwareAddr link) :: rest)
  end.

Definition Interfaces : PM (list IfaceInfo) :=
  ndmz ← dmz_ns;
  finally (ns_Close ndmz)
    (ns_Do ndmz (fun ns => links ← call (nk_LinkList ns); iface_infos ns links)).

(** ** dhcp_monitor.go *)

(** [DHCPMon]. *)
Record DHCPMon := MkDHCPMon { dm_service : string; dm_iface : string; dm_namespace : string }.

Definition NewDHCPMon (iface namespace : string) : DHCPMon :=
  MkDHCPMon ("dhcp-" +:+ iface) iface namespace.

Definition hasDefaultRoute (iface netNS : string) : PM bool :=
  let do_ ns := link ← LinkByName ns iface; '(has, _) ← HasDefaultGW ns link FAMILY_V4; mret has in
  if (netNS =? "")%string then do_ None
  else n ← namespace_GetByName netNS; ns_Do n do_.

Definition wakeUp (d : DHCPMon) : PM unit :=
  node_call "zinit kill" [dm_service d; "SIGUSR1"] (z_Kill (dm_service d) "SIGUSR1").

Definition udhcpc_exec (d : DHCPMon) : string :=
  (if (dm_namespace d =? "")%string then "" else "ip netns exec " +:+ TrimSpace (dm_namespace d) +:+ " ") +:+
  "/sbin/udhcpc -v -f -i " +:+ dm_iface d +:+ " -t 20 -T 1 -s /usr/share/udhcp/simple.script".

Definition is_unknown (e : error) : bool :=
  match e with ErrMsg m => (m =? "unknown service")%string | _ => false end.

(** A service that zinit knows and that runs is added again. *)
Definition startZinit (d : DHCPMon) : PM unit :=
  got ← try (call (z_Status (dm_service d)));
  state ← match got with
          | inl status => mret (ss_State status)
          | inr e => if is_unknown e then mret (MkServiceState "" "") else throw e
          end;
  if Exited state then node_call "zinit start" [dm_service d] (z_Start (dm_service d))
  else
    act_ (ZinitAdd (dm_service d) (udhcpc_exec d))
      (z_AddService (dm_service d) (MkInitService (udhcpc_exec d) false "" [] "")) ;;
    act_ (ZinitMonitor (dm_service d)) (z_Monitor (dm_service d)).

Definition stopZinit (d : DHCPMon) : PM unit :=
  wrap ("failed to stop zinit service " +:+ dm_service d)
    (act_ (ZinitStop (dm_service d)) (z_StopWait (Some 10%nat) (dm_service d))) ;;
  act_ (ZinitForget (dm_service d)) (z_Forget (dm_service d)).

(** One minute of the monitor. *)
Definition check_lease (d : DHCPMon) : PM unit :=
  has ← try (hasDefaultRoute (dm_iface d) (dm_namespace d));
  match has with
  | inl false => ignore (wakeUp d)
  | _ => mret tt
  end.

(** The monitor for a number of minutes, until its context ends. *)
Definition DHCPMon_Start (minutes : nat) (d : DHCPMon) : PM unit :=
  startZinit d ;;
  finally (ignore (stopZinit d)) (for_each (fun _ => check_lease d) (replicate minutes tt)).

End dmz.

(** ** Addresses of the networks *)

Section leases.

Lemma hex_byte_read a b : 0 <= a < 256 -> 0 <= b < 256 ->
  xtoi (hex_byte a +:+ hex_byte b) = Some (a * 256 + b, "").
Proof.
  intros Ha Hb. destruct (nibbles a Ha) as (? & ? & ?), (nibbles b Hb) as (? & ? & ?).
  unfold hex_byte, xtoi. cbn [String.append].
  change (String ?x (String ?y "") +:+ String ?z (String ?w "")) with (String x (String y (String z (String w "")))).
  rewrite !number_hex by (unfold big; lia). rewrite number_end by by left. do 2 f_equal. lia.
Qed.

Definition byte (x : Z) : Prop := 0 <= x < 256.

(** The address that [convertIpv4ToIpv6] derives, fd00:: and the two last bytes. *)
Definition fd00 (a b : Z) : IP := [253; 0] ++ replicate 12 0 ++ [a; b].

Lemma fd00_inj a b a' b' : fd00 a b = fd00 a' b' -> a = a' /\ b = b'.
Proof. by intros [= -> ->]. Qed.

Lemma ParseIP_fd00 a b : byte a -> byte b -> ParseIP ("fd00::" +:+ hex_byte a +:+ hex_byte b) = fd00 a b.
Proof.
  intros Ha Hb. set (g := hex_byte a +:+ hex_byte b).
  assert (Hg : xtoi g = Some (a * 256 + b, "")) by by apply hex_byte_read.
  change (default [] (parse_groups 8 [] None ("fd00::" +:+ g) ≫= (fun '(ip, e) => expand ip e)) = fd00 a b).
  rewrite (parse_ellipsis _ _ _ 64768 g); [|reflexivity|lia|done]. unfold byte in *.
  rewrite (parse_last _ _ _ _ (a * 256 + b)); [|exact Hg|lia].
  by destruct (word_bytes a b) as [-> ->]; [lia|].
Qed.

(** The address of a network in the namespace, from its lease in either form: the four
    bytes that are allocated, or the sixteen that the text of a lease is read to. *)
Lemma convertIpv4ToIpv6_v4 ip x y a b : is_v4 ip x y a b -> byte a -> byte b ->
  convertIpv4ToIpv6 ip = Ok (fd00 a b).
Proof. intros [-> | ->] Ha Hb; apply (f_equal Ok), ParseIP_fd00; done. Qed.

(** What the allocator is documented to do. A lease is a file that is named by the text of
    the address: [GetByID] reads that text with net.ParseIP, to an address of 16 bytes;
    [Get] allocates, to an id that has no lease, an address of the range that has no file. *)
Class IpamLaws (W : Type) `{Ipam W} := {
  ipam_leases : W -> string -> gmap string IP;
  ipam_New_leases d w w' x : ipam_New d w = (w', x) -> ipam_leases w' = ipam_leases w;
  ipam_Close_leases d w w' x : ipam_Close d w = (w', x) -> ipam_leases w' = ipam_leases w;
  ipam_Canonicalize_mask r : ipam_Canonicalize dmz_range = Ok r -> net_Mask (rg_Subnet r) = CIDRMask 16 32;
  ipam_RangeFor_one r ip rng : ipam_RangeFor r ip = Ok rng -> rng = r;
  ipam_GetByID_leases d id w w' x : ipam_GetByID d id "eth0" w = (w', x) -> ipam_leases w' = ipam_leases w /\
    forall ips, x = Ok ips ->
      ips = match ipam_leases w d !! id with Some ip => option_list (To16 ip) | None => [] end;
  ipam_Get_leases d r id w w' x : ipam_Canonicalize dmz_range = Ok r -> ipam_leases w d !! id = None ->
    ipam_Get d r id "eth0" w = (w', x) ->
    match x with
    | Ok i => exists a b, byte a /\ byte b /\ is_v4 (net_IP i) 100 127 a b /\
        net_Mask i = net_Mask (rg_Subnet r) /\ (forall id', ipam_leases w d !! id' <> Some [100; 127; a; b]) /\
        ipam_leases w' d = <[id := [100; 127; a; b]]> (ipam_leases w d)
    | _ => ipam_leases w' = ipam_leases w
    end
}.

(** The leases of a directory: addresses of the range, each with one network. *)
Definition leases_ok (m : gmap string IP) : Prop :=
  (forall id ip, m !! id = Some ip -> exists a b, byte a /\ byte b /\ ip = [100; 127; a; b]) /\
  (forall id id' ip, m !! id = Some ip -> m !! id' = Some ip -> id = id').

End leases.

Section attach.
  Context {W : Type} {kernel : NetKernel W} {ops : Ipam W} {laws : IpamLaws W}.

Lemma leases_insert (m : gmap string IP) id ip : leases_ok m -> (forall id', m !! id' <> Some ip) ->
  (exists a b, byte a /\ byte b /\ ip = [100; 127; a; b]) -> leases_ok (<[id := ip]> m).
Proof.
  intros [Hr Hu] Hfresh Hip. split.
  - intros id' ip'. rewrite lookup_insert_Some. intros [[_ <-]|[_ ?]]; [done|by eapply Hr].
  - intros i j ip'. rewrite !lookup_insert_Some.
    intros [[<- <-]|[Hi Hmi]] [[<- ?]|[Hj Hmj]]; [done|by destruct (Hfresh j)|subst; by destruct (Hfresh i)|by eapply Hu].
Qed.

(** What is true of the lease of [id] once it is allocated as [i], [m] being the leases
    before and [m'] those after. *)
Record leased (id : string) (m m' : gmap string IP) (i : IPNet) : Prop := MkLeased {
  lz_ok : leases_ok m';
  lz_mask : net_Mask i = CIDRMask 16 32;
  lz_lease : exists a b, byte a /\ byte b /\ is_v4 (net_IP i) 100 127 a b /\ m' !! id = Some [100; 127; a; b];
  lz_again : is_Some (m !! id) -> m' = m;
  lz_others id' : id' <> id -> m' !! id' = m !! id'
}.

Lemma allocate_lease id d s s' i : leases_ok (ipam_leases (p_world s) d) ->
  allocateIPv4 id d s = (s', Ok i) ->
  leased id (ipam_leases (p_world s) d) (ipam_leases (p_world s') d) i.
Proof.
  unfold allocateIPv4. intros Hok Hrun. ok_bind Hrun s1 u1 H1. unfold call in H1.
  destruct (ipam_New d (p_world s)) as [w1 x1] eqn:E1. injection H1 as <- _. apply ipam_New_leases in E1.
  apply finally_Ok in Hrun as (s2 & Hrun & y & Hclose). unfold call in Hclose.
  destruct (ipam_Close d (p_world s2)) as [w2 x2] eqn:E2. injection Hclose as <- _. apply ipam_Close_leases in E2.
  ok_bind Hrun s3 r H3. injection H3 as <- Hr. ok_bind Hrun s4 ips H4. unfold call in H4. cbn [p_world] in *.
  destruct (ipam_GetByID d id "eth0" w1) as [w4 x4] eqn:E4. injection H4 as <- ->.
  apply ipam_GetByID_leases in E4 as [E4 Hips]. specialize (Hips ips eq_refl). rewrite E2.
  pose proof (ipam_Canonicalize_mask r Hr) as Hmask. cbn [p_world] in *. rewrite E1 in *.
  destruct (ipam_leases (p_world s) d !! id) as [ip|] eqn:Hid.
  - destruct (proj1 Hok _ _ Hid) as (a & b & Ha & Hb & ->). cbn in Hips. subst ips.
    ok_bind Hrun s5 rng H5. injection H5 as <- H5. apply ipam_RangeFor_one in H5 as ->.
    injection Hrun as <- <-. cbn [p_world]. rewrite E4. constructor; [done..| |done|done].
    exists a, b. split_and!; [done|done|by right|done].
  - subst ips. unfold call in Hrun. cbn [p_world] in Hrun.
    destruct (ipam_Get d r id "eth0" w4) as [w5 x5] eqn:E5. injection Hrun as <- ->.
    apply (ipam_Get_leases d r id) in E5 as (a & b & Ha & Hb & Hi & Hm & Hfresh & Hins); [|done|by rewrite E4].
    cbn [p_world]. rewrite E4 in *. rewrite Hins. constructor.
    + apply leases_insert; [done..|]. by exists a, b.
    + by rewrite Hm.
    + exists a, b. by rewrite lookup_insert_eq.
    + rewrite Hid. by intros [ip [=]].
    + intros id' Hne. by rewrite lookup_insert_ne.
Qed.

(** C19 (invariant): attaching a network to the namespace gives it, with the mask of the
    range, the address of the lease it has, and takes a lease when it has none: a network
    that is attached again takes no other lease, and the leases of the other networks stay.
    The IPv6 address derived for the interface is fd00:: with the two last bytes of the
    lease, whether the address is one just allocated (four bytes) or one read back from the
    directory of the leases (sixteen), and differs from the one derived, in either form,
    for every other network. That an address is leased once is the law of the allocator. *)
Theorem allocateIPv4_unique id d s s' i : leases_ok (ipam_leases (p_world s) d) ->
  allocateIPv4 id d s = (s', Ok i) ->
  let m := ipam_leases (p_world s) d in
  let m' := ipam_leases (p_world s') d in
  leases_ok m' /\ net_Mask i = CIDRMask 16 32 /\
  (is_Some (m !! id) -> m' = m) /\ (forall id', id' <> id -> m' !! id' = m !! id') /\
  exists a b, m' !! id = Some [100; 127; a; b] /\ is_v4 (net_IP i) 100 127 a b /\
    convertIpv4ToIpv6 (net_IP i) = Ok (fd00 a b) /\
    forall id' lease ip, id' <> id -> m' !! id' = Some lease -> ip = lease \/ To16 lease = Some ip ->
      exists ip6, convertIpv4ToIpv6 ip = Ok ip6 /\ ip6 <> fd00 a b.
Proof.
  intros Hok Hrun m m'.
  destruct (allocate_lease id d s s' i Hok Hrun) as [Hok' Hmask (a & b & Ha & Hb & Hi & Hid) Hagain Hothers].
  split_and!; [done..|]. exists a, b. split_and!; [done|done|by eapply convertIpv4ToIpv6_v4|].
  intros id' lease ip Hne Hl Hform. destruct Hok' as [Hr Hu]. destruct (Hr _ _ Hl) as (a' & b' & Ha' & Hb' & ->).
  exists (fd00 a' b'). split; [|by intros [-> ->]%fd00_inj; apply Hne, (Hu _ _ _ Hl Hid)].
  apply (convertIpv4ToIpv6_v4 _ 100 127); [|done..]. destruct Hform as [-> | [= <-]]; [by left|by right].
Qed.

End attach.

Module NdmzDemo.

Definition candidates : list IP := (fun b => [100; 127; 0; Z.of_nat b]) <$> seq 2 5.

Definition fresh (m : gmap string IP) (ip : IP) : bool := forallb (fun x => negb (bool_decide (x.2 = ip))) (map_to_list m).

Definition give (id : string) (m : gmap string IP) : gmap string IP * res IPNet :=
  match List.find (fresh m) candidates with
  | Some ip => (<[id := ip]> m, Ok (MkIPNet ip (CIDRMask 16 32)))
  | None => (m, Err (ErrMsg "no IP addresses available in range set"))
  end.

#[local] Instance leases : Ipam (gmap string IP) := {|
  ipam_New _ m := (m, Ok tt);
  ipam_Close _ m := (m, Ok tt);
  ipam_Canonicalize r := Ok r;
  ipam_GetByID _ id _ m := (m, Ok (match m !! id with Some ip => option_list (To16 ip) | None => [] end));
  ipam_RangeFor r _ := Ok r;
  ipam_Get _ _ id _ m := give id m
|}.

Lemma fresh_spec m ip id : fresh m ip = true -> m !! id <> Some ip.
Proof.
  unfold fresh. rewrite forallb_forall. intros Hall Hl. apply elem_of_map_to_list in Hl.
  specialize (Hall (id, ip) (proj1 (list_elem_of_In _ _) Hl)). cbn in Hall.
  rewrite bool_decide_eq_true_2 in Hall; done.
Qed.

#[local] Instance leases_laws : IpamLaws (gmap string IP).
Proof.
  refine {| ipam_leases := fun m _ => m |}.
  - by intros d w w' x [= <- _].
  - by intros d w w' x [= <- _].
  - by intros r [= <-].
  - by intros r ip rng [= <-].
  - intros d id w w' x [= <- <-]. split; [done|]. by intros ips [= <-].
  - intros d r id w w' x [= <-] _. cbn [ipam_Get leases]. unfold give.
    destruct (List.find (fresh w) candidates) as [ip|] eqn:E; intros [= <- <-]; [|done].
    apply find_some in E as [Hin Hf].
    apply list_elem_of_In, list_elem_of_fmap in Hin as (b & -> & Hb%elem_of_seq).
    exists 0, (Z.of_nat b). unfold byte. split_and!; [lia..|by left|done|by intros id'; apply fresh_spec|done].
Defined.

Definition had : PState (gmap string IP) := MkP {["neta1" := [100; 127; 0; 2]]} [] false.
Definition attached := allocateIPv4 "netb1" "/lease" had.

Lemma had_ok : leases_ok (ipam_leases (p_world had) "/lease").
Proof.
  change (leases_ok {["neta1" := [100; 127; 0; 2]]}). split.
  - intros id ip [<- <-]%lookup_singleton_Some. exists 0, 2. unfold byte. split_and!; [lia..|done].
  - by intros id id' ip [<- _]%lookup_singleton_Some [<- _]%lookup_singleton_Some.
Qed.

(** The network that had a lease is attached again. *)
Definition again := allocateIPv4 "neta1" "/lease" attached.1.

Example again_same : again.2 = Ok (MkIPNet (IPv4 100 127 0 2) (CIDRMask 16 32)).
Proof. reflexivity. Qed.

Lemma attached_ok : leases_ok (ipam_leases (p_world attached.1) "/lease").
Proof.
  assert (Hrun : attached = (attached.1, Ok (MkIPNet [100; 127; 0; 3] (CIDRMask 16 32)))) by (vm_compute; reflexivity).
  exact (lz_ok _ _ _ _ (allocate_lease "netb1" "/lease" had attached.1 _ had_ok Hrun)).
Qed.

(** A first lease, and one that is read back. *)
Lemma allocateIPv4_unique_witness :
  (attached.2 = Ok (MkIPNet [100; 127; 0; 3] (CIDRMask 16 32)) /\
   leases_ok (ipam_leases (p_world attached.1) "/lease")) /\
  (again.2 = Ok (MkIPNet (IPv4 100 127 0 2) (CIDRMask 16 32)) /\
   ipam_leases (p_world again.1) "/lease" = ipam_leases (p_world attached.1) "/lease").
Proof.
  assert (Hrun : attached = (attached.1, Ok (MkIPNet [100; 127; 0; 3] (CIDRMask 16 32)))) by (vm_compute; reflexivity).
  assert (Hagain : again = (again.1, Ok (MkIPNet (IPv4 100 127 0 2) (CIDRMask 16 32)))) by (vm_compute; reflexivity).
  split; (split; [first [exact (f_equal snd Hrun) | exact (f_equal snd Hagain)]|]).
  - exact (proj1 (allocateIPv4_unique "netb1" "/lease" had attached.1 _ had_ok Hrun)).
  - apply (allocateIPv4_unique "neta1" "/lease" attached.1 again.1 _ attached_ok Hagain).
    exists [100; 127; 0; 2]. vm_compute. reflexivity.
Defined.

End NdmzDemo.
