(* ===== verification/Yggdrasil.v ===== *)
(** The overlay network of the node: src/pkg/network/yggdrasil (config.go, yygdrasil.go,
    public_peerlist.go).

    [YggCrypto] is what is used of github.com/yggdrasil-network/yggdrasil-go and of the
    hashes. *)

From stdpp Require Import gmap strings list.
From Stdlib Require Import Ascii ZArith Lia.
From S2P Require Import Prelude Reservation Versioned NetIP NetTypes Storage BtrfsUtil Disk Bus Netlink Zinit Ndmz.

Open Scope Z_scope.

(** [config.NodeConfig], as far as it is set here. *)
Record NodeConfig := MkNodeConfig {
  yc_Listen : list string; yc_MulticastInterfaces : list string; yc_LinkLocalTCPPort : Z;
  yc_SigningPrivateKey : string; yc_SigningPublicKey : string;
  yc_EncryptionPrivateKey : string; yc_EncryptionPublicKey : string;
  yc_IfName : string; yc_TunnelRouting : bool; yc_SessionFirewall : bool; yc_Name : option string;
  yc_Peers : list string
}.

Class YggCrypto := {
  (** the subnet is eight bytes, the digest of sha512 64 *)
  ygg_NodeID : Type;
  ygg_GetNodeID : list Z -> ygg_NodeID;
  ygg_AddrForNodeID : ygg_NodeID -> list Z;
  ygg_SubnetForNodeID : ygg_NodeID -> list Z;
  sha512 : list Z -> list Z;
  ygg_Subnet_length id : length (ygg_SubnetForNodeID id) = 8%nat;
  (** a subnet of 300::/8 *)
  ygg_Subnet_head id : head (ygg_SubnetForNodeID id) = Some 3;
  sha512_length b : length (sha512 b) = 64%nat
}.

(** The keys: ed25519 and curve25519, and base58. *)
Class YggKeys := {
  ed_Public : list Z -> list Z;
  PrivateKeyToCurve25519 : list Z -> list Z;
  PublicKeyToCurve25519 : list Z -> list Z;
  base58_Encode : list Z -> string
}.

Definition hex_EncodeToString (b : list Z) : string := foldr (fun x s => hex_byte x +:+ s) "" b.

(** ** config.go *)

(** [s[:6]]. *)
Definition first6 (s : string) : res string :=
  if (String.length s <? 6)%nat then Panic "slice bounds out of range" else Ok (String.substring 0 6 s).

(** [cfg] is what [config.GenerateConfig] returns: keys of its own. *)
Definition GenerateConfig `{YggKeys} (cfg : NodeConfig) (privateKey : option (list Z)) : res NodeConfig :=
  let listen := ["tcp://[::]:" +:+ Itoa YggListenTCP; "tls://[::]:" +:+ Itoa YggListenTLS] in
  let multicast := ["npub6"; "npub4"] in
  match privateKey with
  | None =>
      Ok (MkNodeConfig listen multicast YggListenLinkLocal (yc_SigningPrivateKey cfg) (yc_SigningPublicKey cfg)
            (yc_EncryptionPrivateKey cfg) (yc_EncryptionPublicKey cfg) YggIface true false (yc_Name cfg)
            (yc_Peers cfg))
  | Some key =>
      let pub := ed_Public key in
      res_map (fun name =>
        MkNodeConfig listen multicast YggListenLinkLocal (hex_EncodeToString key) (hex_EncodeToString pub)
          (hex_EncodeToString (PrivateKeyToCurve25519 key)) (hex_EncodeToString (PublicKeyToCurve25519 pub))
          YggIface true false (Some name) (yc_Peers cfg)) (first6 (base58_Encode pub))
  end.

(** ** yygdrasil.go *)

(** [copy(box[:], pubkey)] into an array of 32 bytes. *)
Definition box_key (pubkey : list Z) : list Z := take 32 (pubkey ++ replicate 32 0).

Section server.
  Context `{YggCrypto} (cfg : NodeConfig).

Definition NodeID : res ygg_NodeID :=
  if (yc_EncryptionPublicKey cfg =? "")%string then Panic "EncryptionPublicKey empty"
  else res_map (fun key => ygg_GetNodeID (box_key (bytes_of key))) (hex_DecodeString (yc_EncryptionPublicKey cfg)).

Definition Address : res IP := res_map (fun id => take 16 (ygg_AddrForNodeID id ++ replicate 16 0)) NodeID.

Definition Subnet : res IPNet :=
  res_map (fun id => let snet := ygg_SubnetForNodeID id in
                     MkIPNet (snet ++ replicate 8 0) (CIDRMask (Z.of_nat (length snet) * 8) 128)) NodeID.

Definition Gateway : res IPNet :=
  res_map (fun n => MkIPNet (<[(length (net_IP n) - 1)%nat := 1]> (net_IP n)) (net_Mask n)) Subnet.

Definition Tun : string := yc_IfName cfg.

(** [copy(prefix[8:], digest[:8])]. *)
Definition subnetFor (prefix : IP) (b : list Z) : IP := take 8 prefix ++ take 8 (sha512 b).

Definition SubnetFor (b : list Z) : res IP :=
  res_map (fun n => subnetFor (take 16 (net_IP n ++ replicate 16 0)) b) Subnet.

End server.

Definition zinitService : string := "yggdrasil".
Definition confPath : string := "/var/cache/modules/networkd/yggdrasil.conf".

Section service.
  Context {W : Type} `{NetKernel W} `{ZinitOps W} (encode_config : NodeConfig -> string).

Definition writeConfig (path : string) (cfg : NodeConfig) : PM W unit :=
  sys "mkdir" [Dir path] ;;
  sys "create" [path] ;;
  sys "write" [path; encode_config cfg].

Definition ygg_exec (bin : string) : string :=
  "ip netns exec ndmz " +:+ bin +:+ " -useconffile " +:+ confPath +:+ " -loglevel trace".

Definition ygg_Start (cfg : NodeConfig) : PM W unit :=
  status ← try (call (z_Status zinitService));
  if match status with inl status => Is (ss_State status) ServiceStateRunning | inr _ => false end
  then mret tt
  else
    writeConfig confPath cfg ;;
    bin ← call (nk_LookPath "yggdrasil");
    act_ (ZinitAdd zinitService (ygg_exec bin))
      (z_AddService zinitService
         (MkInitService (ygg_exec bin) false "yggdrasilctl getself | grep -i coords" ["node-ready"; "networkd"] "")) ;;
    act_ (ZinitMonitor zinitService) (z_Monitor zinitService) ;;
    node_call "zinit start" [zinitService] (z_StartWait (Some 20%nat) zinitService).

Definition ygg_Stop : PM W unit :=
  status ← call (z_Status zinitService);
  if negb (Is (ss_State status) ServiceStateRunning) then mret tt
  else act_ (ZinitStop zinitService) (z_StopWait (Some 5%nat) zinitService).

End service.

(** ** public_peerlist.go *)

Record NodeInfo := MkNodeInfo {
  ni_Endpoint : string; ni_Up : bool; ni_Address : string; ni_BoxPubKey : string; ni_LastSeen : Z
}.

Definition PeerList : Type := gmap string (gmap string NodeInfo).

Definition fallback (endpoint : string) : string * NodeInfo := (endpoint, MkNodeInfo endpoint true "" "" 0).

Definition PeerListFallback : PeerList :=
  {["fallback.md" := list_to_map (fallback <$> ["tls://45.147.198.155:6010"; "tcp://85.17.15.221:35239";
                                                "tcp://51.255.223.60:64982"])]}.

(** The list that was decoded, with the endpoint of each peer. *)
Definition named (endpoint : string) (info : NodeInfo) : option NodeInfo :=
  Some (MkNodeInfo endpoint (ni_Up info) (ni_Address info) (ni_BoxPubKey info) (ni_LastSeen info)).

Definition with_endpoints (peers : PeerList) : PeerList := fmap (M := gmap string) (map_imap named) peers.

Definition FetchPeerList {W} (get : M W string) (decode : string -> res PeerList) : M W PeerList :=
  body ← get; peers ← lift (decode body); mret (with_endpoints peers).

Definition Peers `{MapOrder} (p : PeerList) : list NodeInfo :=
  concat ((fun l => (map_range (map_to_list l.2)).*2) <$> map_range (map_to_list p)).

(** The peers that are up are moved to the front of the array. *)
Definition Ups `{MapOrder} (p : PeerList) : list NodeInfo := filter (fun x => ni_Up x = true) (Peers p).

(** ** The addresses of the overlay network *)

Section overlay.
  Context {crypto : YggCrypto}.

Lemma and_mask_64 l r : length l = 8%nat -> and_bytes (l ++ r) (replicate 8 255 ++ replicate 8 0) =
  and_bytes l (replicate 8 255) ++ and_bytes r (replicate 8 0).
Proof. intros Hl. unfold and_bytes. by rewrite zip_with_app by by rewrite length_replicate. Qed.

Lemma and_zeros r k : length r = k -> and_bytes r (replicate k 0) = replicate k 0.
Proof.
  intros <-. unfold and_bytes. induction r as [|x r IH]; [done|]. cbn [length replicate zip_with].
  by rewrite Z.land_0_r, IH.
Qed.

(** An address of 16 bytes that begins with 3 is not an IPv4 one. *)
Lemma ygg_not_v4 l : length l = 16%nat -> head l = Some 3 -> To4 l = None.
Proof.
  intros Hl Hh. unfold To4. rewrite Hl. cbn [Nat.eqb andb]. rewrite bool_decide_eq_false_2; [done|].
  destruct l as [|x l]; [done|]. injection Hh as ->. by destruct l.
Qed.

(** The address that a member gets in the overlay network is one of the
    subnet of its node, and of the network that the route of the member leads to. *)
Theorem SubnetFor_in_Subnet cfg b ip : SubnetFor cfg b = Ok ip ->
  exists i, Subnet cfg = Ok i /\ net_Contains i ip = true /\ isYgg ip = true.
Proof.
  unfold SubnetFor, Subnet. destruct (NodeID cfg) as [id|e|p]; [|done..]. cbn [res_map]. intros [= <-].
  eexists. split; [done|]. set (l := ygg_SubnetForNodeID id). pose proof (ygg_Subnet_length id) as Hl.
  pose proof (ygg_Subnet_head id) as Hh. fold l in Hl, Hh. cbn [net_IP]. unfold subnetFor.
  set (r := take 8 (sha512 b)). assert (Hr : length r = 8%nat) by (unfold r; rewrite length_take, sha512_length; done).
  rewrite take_take, <- app_assoc, take_app_length' by (cbn; lia).
  assert (H1 : length (l ++ r) = 16%nat) by (rewrite length_app; lia).
  assert (H2 : length (l ++ replicate 8 0) = 16%nat) by (rewrite length_app, length_replicate; lia).
  assert (H3 : forall x, head (l ++ x) = Some 3) by (intros x; by destruct l).
  unfold net_Contains, isYgg, networkNumberAndMask. cbn [net_IP net_Mask]. rewrite Hl.
  change (CIDRMask (Z.of_nat 8 * 8) 128) with (replicate 8 255 ++ replicate 8 0).
  rewrite (ygg_not_v4 (l ++ replicate 8 0)), (ygg_not_v4 (l ++ r)), H2 by done. split.
  - change ((length (l ++ r) =? length (l ++ replicate 8 0%Z))%nat &&
      bool_decide (and_bytes (l ++ replicate 8 0) (replicate 8 255 ++ replicate 8 0) =
                   and_bytes (l ++ r) (replicate 8 255 ++ replicate 8 0)) = true).
    rewrite H1, H2. apply bool_decide_eq_true. by rewrite !and_mask_64, (and_zeros r 8) by done.
  - destruct (l ++ r) as [|x t] eqn:E; [done|]. specialize (H3 r). rewrite E in H3. injection H3 as ->.
    unfold net_Contains.
    assert (Hn : networkNumberAndMask yggPrefix = Some (2 :: replicate 15 0, 254 :: replicate 15 0)) by (vm_compute; reflexivity).
    rewrite Hn. cbn [default from_option]. rewrite ygg_not_v4 by done. cbn [default from_option].
    rewrite H1. apply bool_decide_eq_true.
    change (2 :: and_bytes (replicate 15 0) (replicate 15 0) = 2 :: and_bytes t (replicate 15 0)).
    rewrite (and_zeros t 15); [done|]. cbn in H1. lia.
Qed.

End overlay.
