(* ===== verification/Networker.v ===== *)
(** The network daemon: src/pkg/network (networker.go, v1.go) with [VolatileDir] of
    src/pkg/cache.

    The state is the set of wireguard ports that are taken, the files of the networks
    (by the id of the network) and the node. What a file holds is part of the state;
    whether a call on a file succeeds is for the world to say. *)

From stdpp Require Import gmap strings list.
From Stdlib Require Import Ascii ZArith Lia.
From S2P Require Import Prelude Reservation Versioned Cache NetIP NetTypes PortM Storage BtrfsUtil Disk Bus Netlink NetResource Primitives Zinit Ndmz Yggdrasil.

Open Scope Z_scope.

Definition ZDBIface : string := "zdb0".
Definition networkDir : string := "networks".
Definition ipamLeaseDir_name : string := "ndmz-lease".
Definition ipamPath : string := "/var/cache/modules/networkd/lease".
Definition zdbNamespacePrefix : string := "zdb-ns-".
Definition NodeExporterPort : Z := 9100.

(** [pkg.Network]: the whole network, as the first version of the files has it. *)
Record Network := MkNetwork {
  net_Name : string; net_NetID : string; net_IPRange : IPNet; net_NetResources : list NetResource
}.

Definition zeroNetResource : NetResource := MkNetResource "" "" zeroIPNet "" zeroIPNet "" "" 0 [].

(** encoding/json on the records of the files; the decoder reads the first value. *)
Class NetworkJson := {
  enc_nr : NetResource -> res string;
  dec_nr : string -> res NetResource;
  dec_network : string -> res Network
}.

Record NState (W : Type) := MkN {
  nt_ports : gset Z; nt_files : gmap string string; nt_node : PState W
}.
Arguments MkN {W}.
Arguments nt_ports {W}.
Arguments nt_files {W}.
Arguments nt_node {W}.

(** What the daemon is made with. *)
Record networker (W : Type) := MkNetworkd {
  nd_identity : IdentityManager W;
  nd_networkDir : string;
  nd_ipamLeaseDir : string;
  (** [Directory.NodeSetPorts] of the explorer *)
  nd_NodeSetPorts : string -> list Z -> M W unit;
  nd_ygg : option NodeConfig
}.
Arguments nd_identity {W}.
Arguments nd_networkDir {W}.
Arguments nd_ipamLeaseDir {W}.
Arguments nd_NodeSetPorts {W}.
Arguments nd_ygg {W}.

Definition tapName (netID : string) : res string := short_name "tap name too long" "t-" netID.
Definition pubTapName (resID : string) : res string := short_name "tap name too long" "p-" resID.

(** [strings.Replace(s, ":", "", -1)]. *)
Fixpoint without (c : ascii) (s : string) : string :=
  match s with
  | EmptyString => EmptyString
  | String d s => if Ascii.eqb d c then without c s else String d (without c s)
  end.

Definition convertMac (mac : string) : string := without ":" mac.

(** [strings.Replace(name, "n-", "w-", 1)]. *)
Fixpoint replace_n (s : string) : string :=
  match s with
  | String "n" (String "-" s) => String "w" (String "-" s)
  | String c s => String c (replace_n s)
  | EmptyString => EmptyString
  end.

Section networker.
  Context {W : Type} `{NetKernel W} `{WgKeys} `{MD5} `{MapOrder} `{Ipam W} `{YggCrypto} `{NetworkJson}.
  Context `{JsonUnquote} `{Semver} (v0 NetworkSchemaV1 NetworkSchemaLatestVersion : Version).
  Context (n : networker W).

Notation NM := (M (NState W)).

Definition on_node {A} (m : PM W A) : NM A := fun s =>
  let '(p, x) := m (nt_node s) in (MkN (nt_ports s) (nt_files s) p, x).

Definition on_ports {A} (m : M (gset Z) A) : NM A := fun s =>
  let '(p, x) := m (nt_ports s) in (MkN p (nt_files s) (nt_node s), x).

Definition set_file (id content : string) : NM unit :=
  modify (fun s => MkN (nt_ports s) (<[id := content]> (nt_files s)) (nt_node s)).

Definition del_file (id : string) : NM unit :=
  modify (fun s => MkN (nt_ports s) (delete id (nt_files s)) (nt_node s)).

(** The error of [m] makes [cleanup] run; its own errors are dropped. *)
Definition or_cleanup {A} (cleanup : NM unit) (m : NM A) : NM A := fun s =>
  let '(s1, x) := m s in
  match x with
  | Err _ => let '(s2, y) := cleanup s1 in (s2, match y with Panic p => Panic p | _ => x end)
  | _ => (s1, x)
  end.

(** ** The ports *)

Definition reservePort (port : Z) : NM unit :=
  wrap "wireguard listen port already in use, pick another one" (on_ports (UIntSet.Add port)).

Definition releasePort (port : Z) : NM unit := on_ports (UIntSet.Remove port).

Definition publishWGPorts : NM unit :=
  ports ← on_ports UIntSet.List_;
  id ← on_node (call (id_NodeID (nd_identity n)));
  wrap "fail to publish wireguard port to bcdb"
    (on_node (node_call "NodeSetPorts" (id :: (Itoa <$> ports)) (nd_NodeSetPorts n id ports))).

(** The port of the wireguard interface of a network's namespace. *)
Definition readPort (name : string) : PM W Z :=
  netNS ← namespace_GetByName name;
  finally (ns_Close netNS)
    (ns_Do netNS (fun ns => link ← wireguard_GetByName ns (replace_n name); wg_Device ns link)).

(** A port that cannot be read, or that is taken, is skipped. *)
Definition syncWGPorts : NM unit :=
  names ← on_node (namespace_List "n-");
  for_each (fun name =>
    port ← try (on_node (readPort name));
    match port with
    | inl port => ignore (on_ports (UIntSet.Add (u64 port)))
    | inr _ => mret tt
    end) names.

(** ** The files of the networks *)

Definition net_path (id : string) : string := Join (nd_networkDir n) id.

Definition storeNetwork (network : NetResource) : NM unit :=
  let id := nr_NetID network in
  on_node (sys "create" [net_path id]) ;; set_file id "" ;;
  on_node (sys "write" [net_path id]) ;; set_file id (NewWriter NetworkSchemaLatestVersion) ;;
  data ← lift (enc_nr network);
  on_node (sys "write" [net_path id]) ;; set_file id (NewWriter NetworkSchemaLatestVersion +:+ data).

(** [os.OpenFile(path, os.O_RDWR, 0660)] and what is in the file. *)
Definition open_network (id : string) : NM string :=
  content ← gets (fun s => nt_files s !! id);
  match content with
  | None => throw ErrNotExist
  | Some content => on_node (call (nk_sys "open" [net_path id])) ;; mret content
  end.

(** The resource of this node among those of a network. *)
Fixpoint find_mine (l : list NetResource) : PM W NetResource :=
  match l with
  | [] => mret zeroNetResource
  | nr :: l =>
      id ← call (id_NodeID (nd_identity n));
      if (nr_NodeID nr =? id)%string then mret nr else find_mine l
  end.

(** The file of the first version is written again as one of the second, from its start. *)
Definition migrate_v1 (id content rest : string) : NM NetResource :=
  network ← lift (dec_network rest);
  mine ← on_node (find_mine (net_NetResources network));
  let net := MkNetResource (net_Name network) (net_NetID network) (net_IPRange network) (nr_NodeID mine)
               (nr_Subnet mine) (nr_WGPrivateKey mine) (nr_WGPublicKey mine) (nr_WGListenPort mine) (nr_Peers mine) in
  let version := NewWriter NetworkSchemaLatestVersion in
  on_node (sys "write" [net_path id]) ;; set_file id (overwrite content version) ;;
  data ← lift (enc_nr net);
  on_node (sys "write" [net_path id]) ;; set_file id (overwrite content (version +:+ data)) ;;
  mret net.

Definition networkOf (id : string) : NM NetResource :=
  content ← open_network id;
  '(version, rest) ← match NewReader content with
                     | Ok r => mret r
                     | Err e => if IsNotVersioned e then mret (v0, content) else throw e
                     | Panic p => panic p
                     end;
  net ← (if ver_le version NetworkSchemaV1 && ver_le NetworkSchemaV1 version then migrate_v1 id content rest
         else if ver_le version NetworkSchemaLatestVersion then lift (dec_nr rest)
         else throw (ErrMsg ("unknown network object version (" +:+ ver_String version +:+ ")")));
  wrap ("failed to validate cached network resource: " +:+ nr_NetID net) (lift (NetResource_Valid net)) ;;
  mret net.

Definition load_network (id : string) : NM NetResource :=
  wrap ("couldn't load network with id (" +:+ id +:+ ")") (networkOf id).

(** ** The network resources *)

Definition extractPrivateKey (hexKey : string) : PM W string :=
  sk ← lift (hex_DecodeString hexKey); call (id_Decrypt (nd_identity n) sk).

(** What runs once the port is reserved: the resource as the calls leave it is stored. *)
Definition create_resource (netNR : NetResource) (privateKey : string) : NM unit :=
  wgName ← wrap "failed to get wg interface name for network resource" (lift (WGName (nr_NetID netNR)));
  netr ← wrap "failed to create network resource" (on_node (nr_Create netNR));
  exists_ ← wrap "failed to check if network resource has wireguard setup" (on_node (HasWireguard netr));
  when_ (negb exists_)
    (wg ← wrap ("failed to create wg interface for network resource '" +:+ nr_Name netNR +:+ "'")
            (on_node (NewWireguard wgName));
     wrap "failed to setup wireguard interface for network resource" (on_node (SetWireguard netr wg))) ;;
  wrap "failed to attach network resource to DMZ bridge"
    (on_node (AttachNR (nr_NetID netNR) netr (nd_ipamLeaseDir n))) ;;
  wrap "failed to configure network resource" (on_node (ConfigureWG netr privateKey)) ;;
  wrap "failed to store network object" (storeNetwork netr).

Definition cleanup_resource (netNR : NetResource) : NM unit :=
  ignore (on_node (nr_Delete netNR)) ;; ignore (releasePort (nr_WGListenPort netNR)).

(** The port of the network as it is stored is free from here on. *)
Definition release_stored (id : string) : NM unit :=
  stored ← try (networkOf id);
  match stored with
  | inl storedNR => releasePort (nr_WGListenPort storedNR)
  | inr e => if IsNotExist e then mret tt else throw e
  end.

Definition create_reserved (netNR : NetResource) (privateKey : string) : NM string :=
  reservePort (nr_WGListenPort netNR) ;;
  or_cleanup (cleanup_resource netNR) (create_resource netNR privateKey) ;;
  lift (Namespace (nr_NetID netNR)).

Definition create_nr (netNR : NetResource) : NM string :=
  privateKey ← wrap "failed to extract private key from network object"
    (on_node (extractPrivateKey (nr_WGPrivateKey netNR)));
  release_stored (nr_NetID netNR) ;;
  create_reserved netNR privateKey.

Definition CreateNR (netNR : NetResource) : NM string :=
  finally (ignore publishWGPorts) (create_nr netNR).

Definition delete_nr (netNR : NetResource) : NM unit :=
  wrap "failed to delete network resource" (on_node (nr_Delete netNR)) ;;
  ignore (releasePort (nr_WGListenPort netNR)) ;;
  (let id := nr_NetID netNR in
   file ← gets (fun s => nt_files s !! id);
   match file with
   | None => mret tt
   | Some _ => removed ← try (on_node (sys "remove" [net_path id]));
               match removed with inl _ => del_file id | inr _ => mret tt end
   end).

Definition DeleteNR (netNR : NetResource) : NM unit := finally (ignore publishWGPorts) (delete_nr netNR).

(** ** Members *)

(** An interface on the public bridge in a namespace, with an address of its own. *)
Definition createMacVlan (iface : string) (hw : list Z) (ips : list IPNet) (routes : list Route) (netNs : string)
    : PM W unit :=
  got ← try (ns_Do netNs (fun ns => macvlan_GetByName ns iface));
  macVlan ← match got with
            | inl l => mret (Some l)
            | inr (ErrLinkNotFound _) => macvlan_Create iface PublicBridge (Some netNs)
            | inr e => throw e
            end;
  match macVlan : option Link with
  | None => panic "nil pointer dereference"
  | Some macVlan => macvlan_Install macVlan hw ips routes (Some netNs)
  end.

(** The address of [hw] in the overlay network, and the route to it. *)
Definition ygg_config (cfg : NodeConfig) (hw : list Z) : res (IP * list Route) :=
  res_bind (SubnetFor cfg hw) (fun ip =>
  res_map (fun gw => (ip, [MkRoute (MkIPNet (ParseIP "200::") (CIDRMask 7 128)) (net_IP gw) 0])) (Gateway cfg)).

Definition Join_ (networkID containerID : string) (cfg : ContainerNetworkConfig) : NM Member :=
  localNR ← load_network networkID;
  ipv4Only ← wrap "failed to check ipv6 support" (on_node IsIPv4Only);
  if cn_PublicIP6 cfg && ipv4Only then
    throw (ErrMsg "this node runs in IPv4 only mode and you asked for a public IPv6. Impossible to fulfill the request")
  else
    join ← wrap "failed to load network resource"
      (on_node (nr_Join localNR (MkContainerConfig containerID (ParseIP <$> cn_IPs cfg) (cn_PublicIP6 cfg) ipv4Only)));
    let hw := HardwareAddrFromInputBytes (bytes_of containerID) in
    netNs ← wrap "failed to found a valid network interface to use as parent for 0-db container"
      (on_node (namespace_GetByName (mb_Namespace join)));
    finally (on_node (ns_Close netNs))
      (when_ (cn_PublicIP6 cfg)
         (wrap "failed to create public macvlan interface" (on_node (createMacVlan "pub" hw [] [] netNs))) ;;
       if cn_YggdrasilIP cfg then
         match nd_ygg n with
         | None => panic "nil pointer dereference"
         | Some ygg =>
             '(ip, routes) ← lift (ygg_config ygg hw);
             wrap "failed to create yggdrasil macvlan interface"
               (on_node (createMacVlan "ygg" hw [MkIPNet ip (CIDRMask 64 128)] routes netNs)) ;;
             mret (MkMember (mb_Namespace join) (mb_IPv6 join) (mb_IPv4 join) ip)
         end
       else mret join).

Definition Leave (networkID containerID : string) : NM unit :=
  load_network networkID ;; on_node (nr_Leave containerID).

(** A namespace that is there is taken as it is; one whose lo does not come up goes. *)
Definition net_createNetNS (name : string) : PM W string :=
  netNs ← wrap ("fail to create network namespace " +:+ name)
    (there ← namespace_Exists name;
     if there : bool then namespace_GetByName name else namespace_Create name);
  up ← try (ns_Do netNs SetLoUp);
  match up with
  | inl _ => mret netNs
  | inr e =>
      ignore (namespace_Delete (Some netNs)) ;;
      throw (ErrWrap ("failed to bring lo interface up in namespace " +:+ name) e)
  end.

Definition ZDBPrepare (hw : list Z) : PM W string :=
  let netNSName := zdbNamespacePrefix +:+ without ":" (hw_String hw) in
  netNs ← net_createNetNS netNSName;
  finally (ns_Close netNs)
    ('(ips, routes) ← match nd_ygg n with
                      | None => mret ([], [])
                      | Some ygg =>
                          ip ← wrap "failed to generate ygg subnet IP" (lift (SubnetFor ygg hw));
                          gw ← wrap "failed to get ygg gateway IP" (lift (Gateway ygg));
                          mret ([MkIPNet ip (CIDRMask 64 128)],
                                [MkRoute (MkIPNet (ParseIP "200::") (CIDRMask 7 128)) (net_IP gw) 0])
                      end;
     createMacVlan ZDBIface hw ips routes netNs ;;
     mret netNSName).

Definition ZDBDestroy (ns : string) : PM W unit :=
  if negb (HasPrefix ns zdbNamespacePrefix) then throw (ErrMsg ("invalid zdb namespace name '" +:+ ns +:+ "'"))
  else
    there ← namespace_Exists ns;
    if negb there then mret tt
    else
      got ← try (namespace_GetByName ns);
      match got with
      | inl nSpace => namespace_Delete (Some nSpace)
      | inr e => if IsNotExist e then mret tt else throw (ErrWrap ("failed to get namespace '" +:+ ns +:+ "'") e)
      end.

(** ** Tap devices *)

Definition SetupTap (networkID : string) : NM string :=
  localNR ← load_network networkID;
  bridgeName ← wrap "could not get network namespace bridge" (lift (BridgeName (nr_NetID localNR)));
  tapIface ← wrap "could not get network namespace tap device name" (lift (tapName networkID));
  on_node (CreateTap tapIface bridgeName) ;;
  mret tapIface.

Definition TapExists (networkID : string) : PM W bool :=
  tapIface ← wrap "could not get network namespace tap device name" (lift (tapName networkID));
  iface_Exists tapIface None.

Definition RemoveTap (networkID : string) : PM W unit :=
  tapIface ← wrap "could not get network namespace tap device name" (lift (tapName networkID));
  iface_Delete tapIface None.

Definition PublicIPv4Support : bool := SupportsPubIPv4.

Definition SetupPubTap (id : string) : PM W string :=
  if negb SupportsPubIPv4 then throw (ErrMsg "can't create public tap on this node")
  else
    tapIface ← wrap "could not get network namespace tap device name" (lift (pubTapName id));
    CreateMACvTap tapIface PublicBridge (HardwareAddrFromInputBytes (bytes_of id)) ;;
    mret tapIface.

Definition PubTapExists (id : string) : PM W bool :=
  tapIface ← wrap "could not get network namespace tap device name" (lift (pubTapName id));
  iface_Exists tapIface None.

Definition RemovePubTap (id : string) : PM W unit :=
  tapIface ← wrap "could not get network namespace tap device name" (lift (pubTapName id));
  iface_Delete tapIface None.

(** ** Questions *)

Definition GetPublicIPv6Subnet : PM W IPNet :=
  addrs ← wrap "could not get ips from ndmz" (GetIP FAMILY_V6);
  match List.find (fun a => IsGlobalUnicast (net_IP a) && negb (IsULA (net_IP a)) && negb (isYgg (net_IP a))) addrs with
  | Some addr => mret addr
  | None => throw (ErrMsg "no public ipv6 found")
  end.

Definition GetSubnet (networkID : string) : NM IPNet :=
  localNR ← load_network networkID; mret (nr_Subnet localNR).

Definition GetNet (networkID : string) : NM IPNet :=
  localNR ← load_network networkID; mret (nr_NetworkIPRange localNR).

Definition GetDefaultGwIP (networkID : string) : NM (IP * IP) :=
  localNR ← load_network networkID;
  match To4 (net_IP (nr_Subnet localNR)) with
  | None => throw (ErrMsg "nr subnet is not valid IPv4")
  | Some ip =>
      gw ← lift (first_address ip);
      gw6 ← lift (Convert4to6 networkID gw);
      mret (gw, gw6)
  end.

Definition GetIPv6From4 (networkID : string) (ip : IP) : res IPNet :=
  match To4 ip with
  | None => Err (ErrMsg "invalid IPv4 address")
  | Some _ => res_map (fun ip6 => MkIPNet ip6 (CIDRMask 64 128)) (Convert4to6 networkID ip)
  end.

Definition Addrs (iface netns : string) : PM W (list IP) :=
  let f ns :=
    link ← wrap ("failed to get interface " +:+ iface) (LinkByName ns iface);
    addrs ← wrap ("failed to list addresses of interfaces " +:+ iface) (AddrList ns link FAMILY_ALL);
    mret (net_IP <$> addrs) in
  if negb (netns =? "")%string then
    netNS ← wrap ("failed to get network namespace " +:+ netns) (namespace_GetByName netns);
    finally (ns_Close netNS) (ns_Do netNS f)
  else f None.

(** ** v1.go *)

Definition NodeIDv1 : PM W string :=
  zos ← LinkByName None DefaultBridge;
  links ← call (nk_LinkList None);
  match List.find (fun l => ln_MasterIndex l =? ln_Index zos) links with
  | Some l => mret (convertMac (hw_String (ln_HardwareAddr l)))
  | None => throw (ErrMsg "not physical interface attached to default bridge found")
  end.

End networker.

(** ** The start of the daemon *)

(** [VolatileDir] of src/pkg/cache: a directory that is there is an error. *)
Definition VolatileDir {W} `{NetKernel W} (name : string) (size : Z) : PM W string :=
  let base := "/var/run/cache" in
  let name := Join base name in
  sys "mkdirall" [base] ;;
  sys "mkdir" [name] ;;
  sys "mount" [""; name; "tmpfs"; "size=" +:+ Itoa size] ;;
  mret name.

Section start.
  Context {W : Type} `{NetKernel W} `{WgKeys}.

Notation NM := (M (NState W)).

(** The files of an older version, copied into the directory of the networks. *)
Definition copyNetworksToVolatile (src dst : string) : NM unit :=
  on_node (sys "mkdirall" [dst]) ;;
  infos ← on_node (call (nk_ReadDir src));
  for_each (fun info : string * bool =>
    if info.2 then mret tt
    else
      data ← on_node (call (nk_ReadFile (Join src info.1)));
      on_node (sys "write" [Join dst info.1]) ;; set_file info.1 data) infos.

(** The ports that are never given to a network. *)
Definition reserved_ports : list Z := [YggListenTCP; YggListenTLS; YggListenLinkLocal; NodeExporterPort].

(** The conflict that is looked for is that of port 0. *)
Definition reserve_own (port : Z) : NM unit :=
  got ← try (on_ports (UIntSet.Add port));
  match got with
  | inr (ErrConflict 0) => throw (ErrConflict 0)
  | _ => mret tt
  end.

Definition NewNetworker (identity : IdentityManager W) (NodeSetPorts : string -> list Z -> M W unit)
    (storageDir : string) (ygg : option NodeConfig) : NM (networker W) :=
  let vd := Join "/var/run/cache" "networkd" in
  made ← try (on_node (VolatileDir "networkd" (50 * mib)));
  match made with
  | inr e => if IsExist e then mret tt else throw (ErrWrap "failed to create networkd cache directory" e)
  | inl _ => mret tt
  end ;;
  let nwDir := Join vd networkDir in
  let ipamLease := Join vd ipamLeaseDir_name in
  let oldPath := Join ipamPath "ndmz" in
  stat ← try (on_node (call (nk_Stat oldPath)));
  when_ (match stat with inl _ => true | inr _ => false end)
    (on_node (sys "copytree" [oldPath; Join ipamLease "ndmz"]) ;; ignore (on_node (sys "removeall" [ipamPath]))) ;;
  stat ← try (on_node (call (nk_Stat storageDir)));
  when_ (match stat with inl _ => true | inr _ => false end)
    (wrap "failed to copy old networks directory" (copyNetworksToVolatile storageDir nwDir)) ;;
  let n := MkNetworkd W identity nwDir ipamLease NodeSetPorts ygg in
  for_each reserve_own reserved_ports ;;
  syncWGPorts ;;
  publishWGPorts n ;;
  mret n.

End start.

(** Follows a program step by step. *)
Ltac keeps_tac :=
  repeat match goal with
  | |- keeps _ (_ ≫= _) => apply keeps_bind; [|intros ?]
  | |- keeps _ (match ?x with _ => _ end) => destruct x
  | |- keeps _ _ => solve [auto with zos_monad]
  | |- keeps _ (wrap _ _) => apply keeps_wrap
  | |- keeps _ (when_ _ _) => apply keeps_when
  | |- keeps _ (try _) => apply keeps_try
  end.

(** ** The ports *)

Section port_lemmas.
  Context {W : Type} {kernel : NetKernel W} {keys : WgKeys} {md5 : MD5} {order : MapOrder} {ipam : Ipam W}
    {crypto : YggCrypto} {json : NetworkJson} {uq : JsonUnquote} {semver : Semver}.
  Context (v0 V1 V2 : Version) (n : networker W).

Notation NM := (M (NState W)).
Notation networkOf := (networkOf v0 V1 V2 n).
Notation CreateNR := (CreateNR v0 V1 V2 n).

(** What is not the ports. *)
Definition with_ports (ports : gset Z) (s : NState W) : Prop := nt_ports s = ports.

Lemma keeps_on_node {A} ports (m : PM W A) : keeps (with_ports ports) (on_node m).
Proof. intros s Hs. unfold on_node. by destruct (m (nt_node s)). Qed.

Lemma keeps_set_file ports id c : keeps (with_ports ports) (set_file id c).
Proof. by apply keeps_modify. Qed.

#[local] Hint Resolve keeps_on_node keeps_set_file : zos_monad.

Lemma keeps_networkOf ports id : keeps (with_ports ports) (networkOf id).
Proof. unfold networkOf, open_network, migrate_v1. keeps_tac. Qed.

Lemma keeps_create_resource ports nr key : keeps (with_ports ports) (create_resource V2 n nr key).
Proof. unfold create_resource, storeNetwork. keeps_tac. Qed.

Lemma keeps_publishWGPorts ports : keeps (with_ports ports) (publishWGPorts n).
Proof.
  unfold publishWGPorts. apply keeps_bind; [|intros ?; keeps_tac]. by intros s.
Qed.

(** The ports after [m]. *)
Lemma ports_run {A} (m : NM A) s s' x : (forall ports, keeps (with_ports ports) m) -> m s = (s', x) ->
  nt_ports s' = nt_ports s.
Proof. intros Hm Hx. specialize (Hm (nt_ports s) s eq_refl). by rewrite Hx in Hm. Qed.

Lemma Add_inv port s s' x : on_ports (W := W) (UIntSet.Add port) s = (s', x) ->
  (x = Ok tt /\ (port ∉ nt_ports s) /\ nt_ports s' = {[port]} ∪ nt_ports s) \/
  (x = Err (ErrConflict port) /\ port ∈ nt_ports s /\ nt_ports s' = nt_ports s).
Proof.
  unfold on_ports, UIntSet.Add. destruct (decide (port ∈ nt_ports s)); cbn; intros [= <- <-]; [by right|by left].
Qed.

(** The port that an update gives back first: that of the stored network. *)
Definition gives_back (s : NState W) (id : string) (free : gset Z) : Prop :=
  free = ∅ \/ exists s1 s2 old, nt_files s1 = nt_files s /\ networkOf id s1 = (s2, Ok old) /\
    free = {[nr_WGListenPort old]}.

Lemma files_on_node {A} (m : PM W A) s s' x : on_node m s = (s', x) -> nt_files s' = nt_files s.
Proof. unfold on_node. destruct (m (nt_node s)). by intros [= <- <-]. Qed.

Lemma wrap_run {S A} msg (m : M S A) s s' x : wrap msg m s = (s', x) -> exists y, m s = (s', y) /\
  match x with Ok a => y = Ok a | Err e => exists e', y = Err e' | Panic p => y = Panic p end.
Proof. unfold wrap. destruct (m s) as [s1 [a|e|p]]; intros [= <- <-]; eexists; eauto. Qed.

Lemma release_stored_ports s0 id s s' x : nt_files s = nt_files s0 -> release_stored v0 V1 V2 n id s = (s', x) ->
  exists free, gives_back s0 id free /\ nt_ports s' = nt_ports s ∖ free.
Proof.
  unfold release_stored. intros Hf Hrun. unfold mbind, M_bind, try in Hrun.
  destruct (networkOf id s) as [s1 [old|e|p]] eqn:E1;
    pose proof (ports_run _ _ _ _ (fun ports => keeps_networkOf ports id) E1) as Hp.
  - injection Hrun as <- <-. exists {[nr_WGListenPort old]}. split; [right; by exists s, s1, old|]. cbn. by rewrite Hp.
  - exists ∅. split; [by left|]. destruct (IsNotExist e); injection Hrun as <- <-; set_solver.
  - exists ∅. split; [by left|]. injection Hrun as <- <-. set_solver.
Qed.

Lemma create_resource_named nr key s s' u : create_resource V2 n nr key s = (s', Ok u) ->
  exists ns, Namespace (nr_NetID nr) = Ok ns.
Proof.
  unfold create_resource. intros Hrun. ok_bind Hrun s1 wgName H1. apply wrap_Ok in H1. injection H1 as _ Hw.
  revert Hw. unfold WGName, Namespace, short_name. rewrite !length_append. cbn [String.length].
  destruct (15 <? _)%nat; [done|eauto].
Qed.

Lemma create_reserved_ports nr key s s' x : create_reserved V2 n nr key s = (s', x) ->
  match x with
  | Ok _ => (nr_WGListenPort nr ∉ nt_ports s) /\ nt_ports s' = {[nr_WGListenPort nr]} ∪ nt_ports s
  | Err _ => nt_ports s' = nt_ports s
  | Panic _ => True
  end.
Proof.
  unfold create_reserved. intros Hrun. unfold mbind at 1, M_bind in Hrun. unfold reservePort, wrap in Hrun.
  destruct (on_ports _ s) as [s1 y] eqn:E1. destruct (Add_inv _ _ _ _ E1) as [(-> & Hn & Hp)|(-> & Hn & Hp)].
  2: { injection Hrun as <- <-. by rewrite Hp. }
  unfold mbind, M_bind, or_cleanup in Hrun. destruct (create_resource V2 n nr key s1) as [s2 z] eqn:E2.
  pose proof (ports_run _ _ _ _ (fun ports => keeps_create_resource ports nr key) E2) as Hp2.
  destruct z as [u|e|p].
  - destruct (create_resource_named _ _ _ _ _ E2) as [ns Hns]. rewrite Hns in Hrun. injection Hrun as <- <-.
    split; [done|congruence].
  - destruct (cleanup_resource nr s2) as [s3 w] eqn:E3. unfold cleanup_resource in E3.
    destruct w as [u|e'|p]; [| |by injection Hrun as <- <-].
    + injection Hrun as <- <-. ok_bind E3 s4 u4 H4. apply ignore_inv' in H4 as (y4 & H4 & _); [|done].
      apply (ports_run _ _ _ _ (fun ports => keeps_on_node ports _)) in H4.
      apply ignore_inv' in E3 as (y3 & H3 & _); [|done]. injection H3 as <- _. cbn. rewrite H4, Hp2, Hp. set_solver.
    + injection Hrun as <- <-. exfalso. revert E3. unfold mbind, M_bind, ignore.
      by destruct (on_node _ s2) as [? []].
  - by injection Hrun as <- <-.
Qed.

(** On success the port was free, or was that of the stored network that is updated, and it is
    taken afterwards; a creation that fails takes no port, and one that gives none back
    leaves the ports as they are. *)
Lemma CreateNR_free nr s s' x : CreateNR nr s = (s', x) ->
  exists free, gives_back s (nr_NetID nr) free /\
    match x with
    | Ok _ => (nr_WGListenPort nr ∉ nt_ports s ∖ free) /\ nt_ports s' = {[nr_WGListenPort nr]} ∪ (nt_ports s ∖ free)
    | Err _ => nt_ports s' = nt_ports s ∖ free
    | Panic _ => True
    end.
Proof.
  unfold CreateNR, finally. intros Hrun. destruct (create_nr v0 V1 V2 n nr s) as [s3 z] eqn:Hc.
  destruct (ignore _ s3) as [s4 y] eqn:Hp. injection Hrun as <- <-.
  assert (Hs4 : nt_ports s4 = nt_ports s3).
  { revert Hp. apply ports_run. intros ports. apply keeps_ignore, keeps_publishWGPorts. }
  assert (Hz : exists free, gives_back s (nr_NetID nr) free /\
    match z with
    | Ok _ => (nr_WGListenPort nr ∉ nt_ports s ∖ free) /\ nt_ports s3 = {[nr_WGListenPort nr]} ∪ (nt_ports s ∖ free)
    | Err _ => nt_ports s3 = nt_ports s ∖ free
    | Panic _ => True
    end); [|destruct Hz as (free & Hg & Hz); exists free; split; [done|]; rewrite Hs4; by destruct y, z].
  unfold create_nr in Hc. unfold mbind at 1, M_bind in Hc.
  destruct (wrap _ _ s) as [s1 k] eqn:E1. pose proof (wrap_run _ _ _ _ _ E1) as (y1 & Ek & _).
  pose proof (files_on_node _ _ _ _ Ek) as Hf1.
  apply (ports_run _ _ _ _ (fun ports => keeps_on_node ports _)) in Ek.
  destruct k as [key|e|p]; [|injection Hc as <- <-; exists ∅; (split; [by left|]); set_solver..].
  unfold mbind, M_bind in Hc. destruct (release_stored v0 V1 V2 n (nr_NetID nr) s1) as [s2 r] eqn:E2.
  destruct (release_stored_ports s _ _ _ _ Hf1 E2) as (free & Hg & Hp2). rewrite Ek in Hp2. exists free.
  split; [done|]. destruct r as [u|e|p]; [|injection Hc as <- <-; set_solver..].
  rewrite <- Hp2. exact (create_reserved_ports _ _ _ _ _ Hc).
Qed.

(** ** The files *)

Lemma storeNetwork_content nr s s' u : storeNetwork V2 n nr s = (s', Ok u) ->
  exists data, enc_nr nr = Ok data /\ nt_files s' !! nr_NetID nr = Some (NewWriter V2 +:+ data).
Proof.
  unfold storeNetwork. intros Hrun. ok_bind Hrun s1 u1 H1. ok_bind Hrun s2 u2 H2. ok_bind Hrun s3 u3 H3.
  ok_bind Hrun s4 u4 H4. ok_bind Hrun s5 data H5. injection H5 as _ Hd. ok_bind Hrun s6 u6 H6.
  injection Hrun as <- _. exists data. split; [done|]. cbn. apply lookup_insert_eq.
Qed.

(** The array of the subnet's address is written to. *)
Lemma nr_Create_subnet r s s' r' : nr_Create (W := W) r s = (s', Ok r') ->
  exists ip, first_address (net_IP (nr_Subnet r)) = Ok ip /\ r' = with_Subnet ip r.
Proof.
  unfold nr_Create, attachToNRBridge. intros Hrun. ok_bind Hrun s1 u1 H1. ok_bind Hrun s2 u2 H2.
  ok_bind Hrun s3 r3 H3. ok_bind Hrun s4 u4 H4. injection Hrun as _ <-.
  ok_bind H3 t1 nsName H5. ok_bind H3 t2 ifc H6. ok_bind H3 t3 netNS H7. apply finally_Ok in H3 as (t4 & H3 & _).
  ok_bind H3 t5 br H8. ok_bind H3 t6 there H9. ok_bind H3 t7 u7 H10. unfold ns_Do in H3. ok_bind H3 t8 x8 H11.
  unfold configure_bridge_iface in H3. ok_bind H3 q1 link G1. ok_bind H3 q2 ip G2. injection G2 as _ G2.
  ok_bind H3 q3 v3 G3. ok_bind H3 q4 ip6 G4. ok_bind H3 q5 v5 G5. ok_bind H3 q6 v6 G6. ok_bind H3 q7 v7 G7.
  injection H3 as _ <-. by exists ip.
Qed.

(** What a creation writes to the file of the network. *)
Lemma CreateNR_file nr s s' ns : CreateNR nr s = (s', Ok ns) ->
  exists ip data, first_address (net_IP (nr_Subnet nr)) = Ok ip /\ enc_nr (with_Subnet ip nr) = Ok data /\
    nt_files s' !! nr_NetID nr = Some (NewWriter V2 +:+ data).
Proof.
  unfold CreateNR. intros (s1 & Hc & y & Hp)%finally_Ok.
  assert (Hf : nt_files s' = nt_files s1).
  { assert (Hk : keeps (fun s => nt_files s = nt_files s1) (publishWGPorts n)).
    { unfold publishWGPorts. apply keeps_bind; [by intros t|intros ports]. apply keeps_bind.
      - intros t Ht. unfold on_node. by destruct (call _ _).
      - intros id. apply keeps_wrap. intros t Ht. unfold on_node. by destruct (node_call _ _ _ _). }
    pose proof (keeps_ignore _ _ Hk s1 eq_refl) as Hk'. by rewrite Hp in Hk'. }
  unfold create_nr, create_reserved in Hc. ok_bind Hc s2 key H2. ok_bind Hc s3 u3 H3. ok_bind Hc s4 u4 H4.
  ok_bind Hc s5 u5 H5. injection Hc as <- _. unfold or_cleanup in H5.
  destruct (create_resource V2 n nr key s4) as [s6 [u|e|p]] eqn:E; [|by destruct (cleanup_resource nr s6) as [? []]|done].
  injection H5 as <- _. unfold create_resource in E. ok_bind E t1 wgName G1. ok_bind E t2 netr G2.
  ok_bind E t3 had G3. ok_bind E t4 v4 G4. ok_bind E t5 v5 G5. ok_bind E t6 v6 G6.
  apply wrap_Ok, storeNetwork_content in E as (data & Hd & Hfile). apply wrap_Ok in G2. unfold on_node in G2.
  destruct (nr_Create nr (nt_node t1)) as [pp [r'|?|?]] eqn:Ec; [|done..]. injection G2 as _ <-.
  apply nr_Create_subnet in Ec as (ip & Hip & ->). exists ip, data. by rewrite Hf.
Qed.

(** A file of the second version is read back. *)
Lemma networkOf_stored id data nr s : nt_files s !! id = Some (NewWriter V2 +:+ data) ->
  (nk_sys "open" [net_path n id] (p_world (nt_node s))).2 = Ok tt ->
  ver_le V2 V1 && ver_le V1 V2 = false -> ver_le V2 V2 = true ->
  dec_nr data = Ok nr -> NetResource_Valid nr = Ok tt ->
  exists s', networkOf id s = (s', Ok nr).
Proof.
  intros Hfile Hopen H1 H2 Hdec Hv. unfold networkOf, open_network. unfold mbind, M_bind, gets. rewrite Hfile.
  unfold on_node, call. destruct (nk_sys _ _ _) as [w x]. cbn [snd] in Hopen. subst x. cbn [mret M_ret].
  rewrite NewReader_NewWriter. cbn [mret M_ret]. rewrite H1, H2. unfold lift, wrap. rewrite Hdec, Hv. by eexists.
Qed.

End port_lemmas.

(** ** Reading a network back *)

(** A net that is written and read again. *)
Definition reread (i : IPNet) : IPNet := match ParseIPNet (MarshalText i) with Ok m => m | _ => i end.

Definition json_nr (r : NetResource) : NetResource :=
  MkNetResource (nr_Name r) (nr_NetID r) (reread (nr_NetworkIPRange r)) (nr_NodeID r) (reread (nr_Subnet r))
    (nr_WGPrivateKey r) (nr_WGPublicKey r) (nr_WGListenPort r)
    ((fun p => MkPeer (reread (peer_Subnet p)) (peer_WGPublicKey p) (reread <$> peer_AllowedIPs p) (peer_Endpoint p))
       <$> nr_Peers r).

(** The nets of a resource can be read again. *)
Definition rereadable (r : NetResource) : bool :=
  forallb (fun i => is_ok (ParseIPNet (MarshalText i)))
    (nr_NetworkIPRange r :: nr_Subnet r ::
     concat ((fun p => peer_Subnet p :: peer_AllowedIPs p) <$> nr_Peers r)).

Class NetworkJsonLaws `{NetworkJson} :=
  dec_enc_nr nr s : rereadable nr = true -> enc_nr nr = Ok s -> dec_nr s = Ok (json_nr nr).

Section stored.
  Context {W : Type} {kernel : NetKernel W} {keys : WgKeys} {md5 : MD5} {order : MapOrder} {ipam : Ipam W}
    {crypto : YggCrypto} {json : NetworkJson} {laws : NetworkJsonLaws} {uq : JsonUnquote} {semver : Semver}.
  Context (v0 V1 V2 : Version) (n : networker W).

(** The network that a file of the second version holds. *)
Definition stored (s : NState W) (id : string) (nr : NetResource) : Prop :=
  exists data, nt_files s !! id = Some (NewWriter V2 +:+ data) /\ dec_nr data = Ok nr.

(** Every file can be read, the port of every stored network is taken, and no two of them
    have the same port. *)
Record ports_ok (s : NState W) : Prop := {
  files_read id c : nt_files s !! id = Some c -> exists nr, stored s id nr;
  ports_taken id nr : stored s id nr -> nr_WGListenPort nr ∈ nt_ports s;
  ports_distinct id id' nr nr' : stored s id nr -> stored s id' nr' ->
    nr_WGListenPort nr = nr_WGListenPort nr' -> id = id'
}.

Lemma stored_det s id nr nr' : stored s id nr -> stored s id nr' -> nr = nr'.
Proof.
  intros (d & Hd & Hnr) (d' & Hd' & Hnr').
  assert (Hr : NewReader (NewWriter V2 +:+ d) = NewReader (NewWriter V2 +:+ d')) by (f_equal; congruence).
  rewrite !NewReader_NewWriter in Hr. congruence.
Qed.

Lemma stored_files s s' id nr : nt_files s' !! id = nt_files s !! id -> stored s id nr -> stored s' id nr.
Proof. unfold stored. by intros ->. Qed.

(** A network that is read from a file of the second version is the stored one. *)
Lemma networkOf_inv id nr s s' old : ver_le V2 V1 && ver_le V1 V2 = false ->
  stored s id nr -> networkOf v0 V1 V2 n id s = (s', Ok old) -> old = nr.
Proof.
  intros Hver (data & Hfile & Hdec) Hrun. unfold networkOf in Hrun. ok_bind Hrun s1 content H1.
  unfold open_network in H1. ok_bind H1 s2 got H2. injection H2 as <- <-. rewrite Hfile in H1.
  ok_bind H1 s3 u3 H3. injection H1 as _ <-. rewrite NewReader_NewWriter in Hrun.
  ok_bind Hrun s4 got H4. injection H4 as _ <-. rewrite Hver in Hrun. ok_bind Hrun s5 net H5.
  ok_bind Hrun s6 u6 H6. injection Hrun as _ <-. destruct (ver_le V2 V2); [|done]. unfold lift in H5. congruence.
Qed.

(** The files of the other networks. *)
Definition others (id : string) (files : gmap string string) (s : NState W) : Prop :=
  forall id', id' <> id -> nt_files s !! id' = files !! id'.

Lemma others_on_node {A} id files (m : PM W A) : keeps (others id files) (on_node m).
Proof. intros s Hs. unfold on_node. by destruct (m (nt_node s)). Qed.

Lemma others_on_ports {A} id files (m : M (gset Z) A) : keeps (others id files) (on_ports m).
Proof. intros s Hs. unfold on_ports. by destruct (m (nt_ports s)). Qed.

Lemma others_set_file id files c : keeps (others id files) (set_file id c).
Proof. apply keeps_modify. intros s Hs id' Hid. cbn. rewrite lookup_insert_ne by done. by apply Hs. Qed.

#[local] Hint Resolve others_on_node others_on_ports others_set_file : zos_monad.

Lemma others_release_stored id files : keeps (others id files) (release_stored v0 V1 V2 n id).
Proof. unfold release_stored, networkOf, open_network, migrate_v1, releasePort. keeps_tac. Qed.

Lemma CreateNR_others nr s s' ns id' : CreateNR v0 V1 V2 n nr s = (s', Ok ns) -> id' <> nr_NetID nr ->
  nt_files s' !! id' = nt_files s !! id'.
Proof.
  intros Hrun Hid. set (files := nt_files s). assert (Hs : others (nr_NetID nr) files s) by done.
  unfold CreateNR in Hrun. apply finally_Ok in Hrun as (s1 & Hc & y & Hp).
  assert (Hk : keeps (others (nr_NetID nr) files) (ignore (publishWGPorts n))).
  { unfold publishWGPorts. apply keeps_ignore. keeps_tac. }
  assert (Hs1 : others (nr_NetID nr) files s1); [|specialize (Hk s1 Hs1); rewrite Hp in Hk; by apply Hk].
  unfold create_nr, create_reserved in Hc. ok_bind Hc s2 key H2. ok_bind Hc s3 u3 H3. ok_bind Hc s4 u4 H4.
  ok_bind Hc s5 u5 H5. injection Hc as <- _.
  assert (Hs2 : others (nr_NetID nr) files s2).
  { pose proof (keeps_wrap _ "failed to extract private key from network object" _ (others_on_node (nr_NetID nr) files
      (extractPrivateKey n (nr_WGPrivateKey nr))) s Hs) as Hx. by rewrite H2 in Hx. }
  pose proof (others_release_stored (nr_NetID nr) files s2 Hs2) as Hs3. rewrite H3 in Hs3.
  assert (Hs4 : others (nr_NetID nr) files s4).
  { pose proof (keeps_wrap _ "wireguard listen port already in use, pick another one" _ (others_on_ports (nr_NetID nr) files
      (UIntSet.Add (nr_WGListenPort nr))) s3 Hs3) as Hx. unfold reservePort in H4. by rewrite H4 in Hx. }
  unfold or_cleanup in H5. destruct (create_resource V2 n nr key s4) as [s6 [u|e|p]] eqn:E;
    [|by destruct (cleanup_resource nr s6) as [? []]|done]. injection H5 as <- _.
  unfold create_resource in E. ok_bind E t1 wgName G1. ok_bind E t2 netr G2.
  ok_bind E t3 had G3. ok_bind E t4 v4 G4. ok_bind E t5 v5 G5. ok_bind E t6 v6 G6. apply wrap_Ok in E.
  assert (Hid' : nr_NetID netr = nr_NetID nr).
  { apply wrap_Ok in G2. unfold on_node in G2. destruct (nr_Create nr (nt_node t1)) as [pp [r'|?|?]] eqn:Ec; [|done..].
    injection G2 as _ <-. by apply nr_Create_subnet in Ec as (ip & _ & ->). }
  assert (Ht6 : nt_files t6 = nt_files s4).
  { assert (Hw : forall A msg (m : PM W A) a t t', wrap msg (on_node m) t = (t', Ok a) -> nt_files t' = nt_files t)
      by (intros A msg m a t t' Hw%wrap_Ok; by eapply files_on_node).
    assert (H4' : nt_files t4 = nt_files t3).
    { unfold when_ in G4. destruct had; cbn [negb] in G4; [by injection G4 as <- _|]. ok_bind G4 q1 wg F1.
      etrans; [by eapply Hw|by eapply Hw]. }
    apply wrap_Ok in G1. injection G1 as <- _. etrans; [by eapply Hw|]. etrans; [by eapply Hw|]. rewrite H4'.
    etrans; [by eapply Hw|by eapply Hw]. }
  assert (Hst : keeps (others (nr_NetID nr) files) (storeNetwork V2 n netr)).
  { unfold storeNetwork. rewrite Hid'. keeps_tac. }
  specialize (Hst t6). rewrite E in Hst. apply Hst. intros k Hne. rewrite Ht6. by apply Hs4.
Qed.

(** C10 (safety): on a node whose stored networks have their ports taken, each its own, a
    network gets the wireguard port it asks for only when no other stored network has it,
    and then the node is such a node again; so networks that are created or updated
    successfully, in any order, never share a port. A creation of a new network that fails
    leaves the ports as they were. (An update that fails does not: it has given the port of
    the stored network back, [port_freed_twice].) *)
Theorem CreateNR_ports nr s s' x : ver_le V2 V1 && ver_le V1 V2 = false ->
  (forall ip, first_address (net_IP (nr_Subnet nr)) = Ok ip -> rereadable (with_Subnet ip nr) = true) ->
  ports_ok s -> CreateNR v0 V1 V2 n nr s = (s', x) ->
  match x with
  | Ok _ => ports_ok s' /\ nr_WGListenPort nr ∈ nt_ports s' /\
      (exists nr', stored s' (nr_NetID nr) nr' /\ nr_WGListenPort nr' = nr_WGListenPort nr) /\
      forall id other, id <> nr_NetID nr -> stored s id other ->
        stored s' id other /\ nr_WGListenPort other <> nr_WGListenPort nr
  | Err _ => nt_files s !! nr_NetID nr = None -> nt_ports s' = nt_ports s
  | Panic _ => True
  end.
Proof.
  intros Hver Hre [Hread Htaken Hdist] Hrun. pose proof Hrun as Hfree. apply CreateNR_free in Hfree as (free & Hg & Hx).
  assert (Hold : forall p, p ∈ free -> exists old, stored s (nr_NetID nr) old /\ p = nr_WGListenPort old).
  { intros p Hp. destruct Hg as [->|(s1 & s2 & old & Hf & Hnet & ->)]; [set_solver|].
    apply elem_of_singleton in Hp as ->. destruct (nt_files s !! nr_NetID nr) as [c|] eqn:Hc.
    - destruct (Hread _ _ Hc) as [nr0 Hst]. exists nr0. split; [done|].
      by rewrite (networkOf_inv _ nr0 s1 s2 old Hver (stored_files s s1 _ _ ltac:(by rewrite Hf) Hst) Hnet).
    - exfalso. unfold networkOf in Hnet. ok_bind Hnet t1 content H1. unfold open_network in H1.
      ok_bind H1 t2 got H2. injection H2 as <- <-. by rewrite Hf, Hc in H1. }
  destruct x as [ns|e|p]; [|intros Hnone|done].
  2: { rewrite Hx. apply leibniz_equiv. intros p. rewrite elem_of_difference. split; [by intros []|]. intros Hp. split; [done|].
       intros Hp'. destruct (Hold p Hp') as (old & (d & Hd & _) & _). congruence. }
  destruct Hx as [Hn Hports].
  assert (Hother : forall id other, id <> nr_NetID nr -> stored s id other ->
    nr_WGListenPort other ∈ nt_ports s ∖ free).
  { intros id other Hid Hst. apply elem_of_difference. split; [by eapply Htaken|]. intros Hp.
    destruct (Hold _ Hp) as (old & Hst' & Heq). apply Hid. by eapply Hdist. }
  destruct (CreateNR_file v0 V1 V2 n nr s s' ns Hrun) as (ip & data & Hip & Henc & Hfile).
  assert (Hnew : stored s' (nr_NetID nr) (json_nr (with_Subnet ip nr))).
  { exists data. split; [done|]. apply dec_enc_nr; [by apply Hre|done]. }
  assert (Hback : forall id other, id <> nr_NetID nr -> stored s' id other -> stored s id other).
  { intros id other Hid. apply stored_files. symmetry. by eapply CreateNR_others. }
  split_and!.
  - split.
    + intros id c Hc. destruct (decide (id = nr_NetID nr)) as [->|Hid]; [by eexists|].
      rewrite (CreateNR_others nr s s' ns id Hrun Hid) in Hc. destruct (Hread _ _ Hc) as [r Hr]. exists r.
      eapply stored_files; [|exact Hr]. by eapply CreateNR_others.
    + intros id r Hr. rewrite Hports. destruct (decide (id = nr_NetID nr)) as [->|Hid].
      * rewrite (stored_det _ _ _ _ Hr Hnew). set_solver.
      * apply elem_of_union_r. by eapply Hother, Hback.
    + intros id id' r r' Hr Hr' Heq.
      destruct (decide (id = nr_NetID nr)) as [->|Hid], (decide (id' = nr_NetID nr)) as [->|Hid']; [done|..].
      * rewrite (stored_det _ _ _ _ Hr Hnew) in Heq. exfalso. apply Hn. cbn in Heq. rewrite Heq. by eapply Hother, Hback.
      * rewrite (stored_det _ _ _ _ Hr' Hnew) in Heq. exfalso. apply Hn. cbn in Heq. rewrite <- Heq. by eapply Hother, Hback.
      * eapply Hdist; [by apply Hback|by apply Hback|done].
  - rewrite Hports. set_solver.
  - by eexists.
  - intros id other Hid Hst. split; [eapply stored_files; [|exact Hst]; by eapply CreateNR_others|].
    intros Heq. apply Hn. rewrite <- Heq. by eapply Hother.
Qed.

(** C32 (roundtrip): the IPv4 subnet of a network that was created, as the daemon reports it
    afterwards: the address of the gateway with the mask that was given. The last byte
    of the subnet's address has become 1, because the resource shares the array of the
    address with the code that configures the bridge. This holds for an address of 16 bytes,
    which is what the subnet of a reservation is read into, and for one of four. *)
Theorem CreateNR_GetSubnet nr ip a b c d k s s' ns gw :
  nr_Subnet nr = MkIPNet ip (CIDRMask k 32) -> is_v4 ip a b c d ->
  is_byte a -> is_byte b -> is_byte c -> 0 <= k <= 32 -> is_v4 gw a b c 1 -> length gw = length ip ->
  rereadable (with_Subnet gw nr) = true -> NetResource_Valid (json_nr (with_Subnet gw nr)) = Ok tt ->
  ver_le V2 V1 && ver_le V1 V2 = false -> ver_le V2 V2 = true ->
  CreateNR v0 V1 V2 n nr s = (s', Ok ns) ->
  (nk_sys "open" [net_path n (nr_NetID nr)] (p_world (nt_node s'))).2 = Ok tt ->
  exists s2, GetSubnet v0 V1 V2 n (nr_NetID nr) s' = (s2, Ok (MkIPNet (IPv4 a b c 1) (CIDRMask k 32))).
Proof.
  intros Hsub Hform Ha Hb Hc Hk Hgw Hlen Hre Hv H1 H2 (ip' & data & Hip & Henc & Hfile)%CreateNR_file Hopen.
  assert (ip' = gw) as ->.
  { rewrite Hsub in Hip. by destruct Hform as [-> | ->], Hgw as [-> | ->]; injection Hip as <-. }
  destruct (networkOf_stored v0 V1 V2 n (nr_NetID nr) data (json_nr (with_Subnet gw nr)) s')
    as (s2 & Hs2); [done..|by apply dec_enc_nr|done|].
  exists s2. unfold GetSubnet, load_network, wrap, mbind, M_bind. rewrite Hs2. cbn [mret M_ret].
  unfold json_nr, with_Subnet. cbn [nr_Subnet net_Mask]. rewrite Hsub. cbn [net_Mask]. unfold reread.
  by rewrite (IPNet_roundtrip gw a b c 1) by (done || (unfold is_byte; lia)).
Qed.

End stored.

Module NetworkerDemo.
Import BusDemo NetDemo NrDemo.

#[local] Instance order : MapOrder := {| map_range A l := l; map_range_perm A l := reflexivity l |}.

#[local] Instance ipam : Ipam kern := {|
  ipam_New _ w := (w, Ok tt);
  ipam_Close _ w := (w, Ok tt);
  ipam_Canonicalize r := Ok r;
  ipam_GetByID _ _ _ w := (w, Ok []);
  ipam_RangeFor r _ := Ok r;
  ipam_Get _ r _ _ w := (w, Ok (MkIPNet [100; 127; 0; 5] (net_Mask (rg_Subnet r))))
|}.

Definition demo_sha512 (b : list Z) : list Z := take 64 (b ++ replicate 64 1).

Lemma demo_sha512_length b : length (demo_sha512 b) = 64%nat.
Proof. unfold demo_sha512. rewrite length_take, length_app, length_replicate. lia. Qed.

#[local] Instance crypto : YggCrypto := {|
  ygg_NodeID := unit; ygg_GetNodeID _ := tt; ygg_AddrForNodeID _ := replicate 16 2;
  ygg_SubnetForNodeID _ := 3 :: replicate 7 9; sha512 := demo_sha512;
  ygg_Subnet_length _ := eq_refl; ygg_Subnet_head _ := eq_refl; sha512_length := demo_sha512_length
|}.

(** A node with a key of the overlay network. *)
Definition demo_config : NodeConfig :=
  MkNodeConfig [] [] 9945 "" "" "" "0a0b" "ygg0" true false None [].

Definition member_ip : IP := [3; 9; 9; 9; 9; 9; 9; 9; 7; 7; 1; 1; 1; 1; 1; 1].

Lemma SubnetFor_in_Subnet_witness :
  SubnetFor demo_config [7; 7] = Ok member_ip /\
  exists i, Subnet demo_config = Ok i /\ net_Contains i member_ip = true /\ isYgg member_ip = true.
Proof.
  assert (Hrun : SubnetFor demo_config [7; 7] = Ok member_ip) by (vm_compute; reflexivity).
  split; [exact Hrun|]. exact (SubnetFor_in_Subnet demo_config [7; 7] member_ip Hrun).
Defined.

(** The networks of the examples, each with its text. *)
Definition on_port (id : string) (port : Z) : NetResource :=
  MkNetResource "mynet" id (MkIPNet (IPv4 10 1 0 0) (CIDRMask 16 32)) "node"
    (MkIPNet (IPv4 10 1 2 0) (CIDRMask 24 32)) "6b6579" "pub" port [].

#[local] Instance peer_eq_dec : EqDecision Peer.
Proof. solve_decision. Defined.
#[local] Instance nr_eq_dec : EqDecision NetResource.
Proof. solve_decision. Defined.

Definition known : list (string * NetResource) :=
  (fun '(t, id, port) => (t, with_Subnet (IPv4 10 1 2 1) (on_port id port))) <$>
    [("a5", "neta1", 5555); ("b5", "netb1", 5555); ("a6", "neta1", 6666)].

#[local] Instance json : NetworkJson := {|
  enc_nr r := match List.find (fun x => bool_decide (x.2 = r)) known with
              | Some x => Ok x.1 | None => Err (ErrMsg "json") end;
  dec_nr t := match List.find (fun x => bool_decide (x.1 = t)) known with
              | Some x => Ok (json_nr x.2) | None => Err (ErrMsg "json") end;
  dec_network _ := Err (ErrMsg "json")
|}.

#[local] Instance laws : NetworkJsonLaws.
Proof.
  intros nr t _. cbn [enc_nr json]. destruct (List.find _ known) as [[t' nr']|] eqn:E; [|done]. intros [= <-].
  apply find_some in E as [Hin He]. apply bool_decide_eq_true in He. cbn in He. subst nr'. cbn [fst].
  repeat (destruct Hin as [[= <- <-]|Hin]; [reflexivity|]). destruct Hin.
Qed.

#[local] Existing Instance demo_JsonUnquote.
#[local] Existing Instance demo_Semver.

Definition daemon : networker kern :=
  MkNetworkd kern (MkIdentityManager kern (fun w => (w, Ok "node")) (fun d w => (w, Ok d)) (fun d _ w => (w, Ok d)))
    "/var/run/cache/networkd/networks" "/lease" (fun _ _ w => (w, Ok tt)) None.

Definition create := CreateNR (W := kern) V0 V1 V2 daemon.
Definition started : NState kern := MkN {[9943; 9944; 9945; 9100]} ∅ node.

Definition created := create (on_port "neta1" 5555) started.

Lemma created_run : created = (created.1, Ok "n-neta1").
Proof. vm_compute. reflexivity. Qed.

Lemma started_ok : ports_ok V2 started.
Proof.
  assert (Hno : forall id nr, ~ stored V2 started id nr) by by intros id nr (d & Hd & _).
  split; [done|intros id nr Hs; by destruct (Hno id nr)|intros id id' nr nr' Hs; by destruct (Hno id nr)].
Qed.

(** A second network that asks for the port of the first does not get it. *)
Lemma CreateNR_ports_witness :
  created.2 = Ok "n-neta1" /\ ports_ok V2 created.1 /\ 5555 ∈ nt_ports created.1 /\
  is_ok (create (on_port "netb1" 5555) created.1).2 = false.
Proof.
  split; [rewrite created_run; reflexivity|].
  destruct (CreateNR_ports (semver := demo_Semver) V0 V1 V2 daemon (on_port "neta1" 5555) started created.1 (Ok "n-neta1")) as (H1 & H2 & _);
    [reflexivity|intros ip [= <-]; vm_compute; reflexivity|exact started_ok|exact created_run|].
  split; [exact H1|]. split; [exact H2|]. vm_compute. reflexivity.
Defined.

Lemma CreateNR_GetSubnet_witness :
  nr_Subnet (on_port "neta1" 5555) = MkIPNet (IPv4 10 1 2 0) (CIDRMask 24 32) /\
  exists s2, GetSubnet V0 V1 V2 daemon "neta1" created.1 = (s2, Ok (MkIPNet (IPv4 10 1 2 1) (CIDRMask 24 32))).
Proof.
  split; [reflexivity|].
  apply (CreateNR_GetSubnet (semver := demo_Semver) V0 V1 V2 daemon (on_port "neta1" 5555) (IPv4 10 1 2 0) 10 1 2 0 24
    started created.1 "n-neta1" (IPv4 10 1 2 1));
    [reflexivity|by right|unfold is_byte; lia..|lia|by right|reflexivity|vm_compute; reflexivity|vm_compute; reflexivity|
     reflexivity|reflexivity|exact created_run|reflexivity].
Defined.

(** An update that fails frees the old port but leaves the file that names it: another
    network can take the port, and a later update of the first one frees it once more. *)
Definition with_fail (f : string) (s : NState kern) : NState kern :=
  MkN (nt_ports s) (nt_files s) (MkP (MkKern (k_links (p_world (nt_node s))) (k_ns (p_world (nt_node s)))
    (k_next (p_world (nt_node s))) f) [] false).

Definition after_failed_update := (create (on_port "neta1" 6666) (with_fail "ConfigureDevice" created.1)).1.
Definition taken_by_b := create (on_port "netb1" 5555) (with_fail "none" after_failed_update).
Definition after_second_update := create (on_port "neta1" 6666) taken_by_b.1.

Example port_freed_twice :
  taken_by_b.2 = Ok "n-netb1" /\ after_second_update.2 = Ok "n-neta1" /\
  bool_decide (5555 ∈ nt_ports after_second_update.1) = false /\
  nt_files after_second_update.1 !! "netb1" = Some (NewWriter V2 +:+ "b5").
Proof. split_and!; vm_compute; reflexivity. Qed.

End NetworkerDemo.
