(* ===== verification/NetBoot.v ===== *)
(** The start of the network of a node: src/pkg/network/bootstrap (bootstrap.go, bridge.go),
    src/pkg/network/public (public.go), src/pkg/network/latency, and the programs that use
    them, src/cmds/internet and src/cmds/modules/networkd.

    The links are analysed by a goroutine each, in a namespace of its own: here they run
    one after the other, in the order of [MapOrder]; so do the workers of the latency
    sorter. The number of polls of a loop is that before its time is up. The state is that
    of Netlink.v. *)

From stdpp Require Import gmap strings list.
From Stdlib Require Import Ascii ZArith Lia Sorted.
From S2P Require Import Prelude Reservation Versioned NetIP NetTypes Storage BtrfsUtil Disk Bus Netlink NetResource Zinit Ndmz Yggdrasil Networker.

Open Scope Z_scope.

(** ** bootstrap.go *)

Record IfaceConfig := MkIfaceConfig {
  ic_Name : string; ic_Addrs4 : list IPNet; ic_Addrs6 : list IPNet;
  ic_Routes4 : list Route; ic_Routes6 : list Route
}.

(** Bits of [Requires]. *)
Definition RequiresIPv4 : Z := 1.
Definition RequiresIPv6 : Z := 2.

Definition private_blocks : list string :=
  ["10.0.0.0/8"; "172.16.0.0/12"; "192.168.0.0/16"; "169.254.0.0/16"; "::1/128"; "fe80::/10"; "fc00::/7"].

Definition isPrivateIP (ip : IP) : res bool :=
  match mapM ParseCIDR private_blocks with
  | None => Panic "parse error"
  | Some blocks =>
      Ok (IsLinkLocalUnicast ip || IsLinkLocalMulticast ip ||
          existsb (fun b : IP * IPNet => net_Contains b.2 ip) blocks)
  end.

(** *** The addresses of an interface, by their text *)

Definition addrSet : Type := gmap string IPNet.

Definition addrSet_Add (s : addrSet) (addr : IPNet) : addrSet := <[net_String addr := addr]> s.
Definition addrSet_AddSlice (s : addrSet) (addrs : list IPNet) : addrSet := foldl addrSet_Add s addrs.
Definition addrSet_ToSlice `{MapOrder} (s : addrSet) : list IPNet := (map_range (map_to_list s)).*2.

(** *** The interface of the node *)

(** A slice that was cut from [cfgs] to length 0: it writes into the array of [cfgs] until
    the capacity is reached, then into one of its own. [sh_array] is the array, from the
    start. *)
Record shared := MkShared { sh_array : list IfaceConfig; sh_len : nat; sh_own : option (list IfaceConfig) }.

Definition sh_slice (s : shared) : list IfaceConfig := default (take (sh_len s) (sh_array s)) (sh_own s).

Definition sh_append (cap : nat) (s : shared) (x : IfaceConfig) : shared :=
  match sh_own s with
  | Some l => MkShared (sh_array s) (S (sh_len s)) (Some (l ++ [x]))
  | None =>
      if (sh_len s <? cap)%nat then
        MkShared (take (sh_len s) (sh_array s) ++ x :: drop (S (sh_len s)) (sh_array s)) (S (sh_len s)) None
      else MkShared (sh_array s) (S (sh_len s)) (Some (sh_slice s ++ [x]))
  end.

(** An element is added once for each of its routes that is wanted. *)
Definition select_one (wanted : Route -> bool) (cap : nat) (s : shared) (i : nat) : shared :=
  match sh_array s !! i with
  | Some cfg => foldl (fun s r => if wanted r then sh_append cap s cfg else s) s (ic_Routes4 cfg)
  | None => s
  end.

(** [range cfgs] reads the element of each turn from the array. *)
Definition select_all (wanted : Route -> bool) (cap len : nat) (s : shared) : shared :=
  foldl (select_one wanted cap) s (seq 0 len).

Definition has_gw (r : Route) : bool := negb (bool_decide (rt_Gw r = [])).
Definition private_gw (r : Route) : bool :=
  has_gw r && match isPrivateIP (rt_Gw r) with Ok b => b | _ => false end.

(** [byAddr], and the least address of an interface. *)
Definition byAddr (a b : IPNet) : bool := negb (bytes_le (net_IP b) (net_IP a)).

Definition least_addr `{Sorter} (c : IfaceConfig) : IP :=
  match sort_slice byAddr (ic_Addrs4 c) with a :: _ => net_IP a | [] => [] end.

(** [byIP4.Less], where both have an address. *)
Definition byIP4 `{Sorter} (a b : IfaceConfig) : bool := negb (bytes_le (least_addr b) (least_addr a)).

Definition no_addr (c : IfaceConfig) : bool := match ic_Addrs4 c with [] => true | _ => false end.

(** [cap] is the capacity of [cfgs]. Every element of two or more is compared. *)
Definition SelectZOS `{Sorter} (cap : nat) (cfgs : list IfaceConfig) : res string :=
  let s := select_all private_gw cap (length cfgs) (MkShared cfgs 0 None) in
  let s := match sh_slice s with [] => select_all has_gw cap (length cfgs) s | _ => s end in
  match sh_slice s with
  | [] => Err (ErrMsg "no route with default gateway found")
  | [c] => Ok (ic_Name c)
  | l =>
      if existsb no_addr l then Panic "index out of range"
      else match sort_slice byIP4 l with c :: _ => Ok (ic_Name c) | [] => Panic "index out of range" end
  end.

Section bootstrap.
  Context {W : Type} `{NetKernel W} `{MapOrder}.

Notation PM := (PM W).

(** *** Filters *)

Definition PhysicalFilter (link : Link) : PM bool := mret (ln_Type link =? "device")%string.

Definition PluggedFilter (link : Link) : PM bool :=
  wrap ("failed to bring interface '" +:+ ln_Name link +:+ "' up") (net_do None (LinkSetUp link)) ;;
  virt ← IsVirtEth (ln_Name link);
  if virt : bool then mret true else IsPluggedTimeout 10 (ln_Name link).

Definition NotAttachedFilter (link : Link) : PM bool := mret (ln_MasterIndex link =? 0).

Fixpoint passes (filters : list (Link -> PM bool)) (link : Link) : PM bool :=
  match filters with
  | [] => mret true
  | f :: filters =>
      ok ← wrap "failed to filter link" (f link);
      if ok : bool then passes filters link else mret false
  end.

Fixpoint filter_links (filters : list (Link -> PM bool)) (links : list Link) : PM (list Link) :=
  match links with
  | [] => mret []
  | link :: links =>
      if (ln_Name link =? "lo")%string then filter_links filters links
      else
        ok ← passes filters link;
        rest ← filter_links filters links;
        mret (if ok : bool then link :: rest else rest)
  end.

(** *** A link *)

Definition public6 (a : IPNet) : bool := IsGlobalUnicast (net_IP a) && negb (IsULA (net_IP a)).

Definition enough (requires : Z) (addrs4 addrs6 : addrSet) : bool :=
  ((Z.land requires RequiresIPv6 =? 0) || negb (size addrs6 =? 0)%nat) &&
  ((Z.land requires RequiresIPv4 =? 0) || negb (size addrs4 =? 0)%nat).

(** A look per second. *)
Fixpoint wait_addrs (polls : nat) (requires : Z) (ns : option string) (link : Link) (addrs4 addrs6 : addrSet) :
    PM (addrSet * addrSet) :=
  match polls with
  | O => throw (ErrMsg "context deadline exceeded")
  | S polls =>
      let fail := "could not read address from interface " +:+ ln_Name link in
      a4 ← wrap fail (AddrList ns link FAMILY_V4);
      a6 ← wrap fail (AddrList ns link FAMILY_V6);
      let addrs4 := addrSet_AddSlice addrs4 a4 in
      let addrs6 := addrSet_AddSlice addrs6 (List.filter public6 a6) in
      if enough requires addrs4 addrs6 then mret (addrs4, addrs6)
      else wait_addrs polls requires ns link addrs4 addrs6
  end.

(** The body in the namespace of the link. The link is moved to the host, then brought
    down where it was. *)
Definition probe_link (polls : nat) (requires : Z) (link : Link) (ns : option string) : PM IfaceConfig :=
  let name := ln_Name link in
  wrap "failed to bring interface up" (net_do ns (LinkSetUp link)) ;;
  finally (net_do ns (LinkSetDown link)) (finally (net_do ns (LinkSetNsFd link None))
    (wrap ("failed to enable ip6 on " +:+ name) (options_Set ns name [IPv6Disable false]) ;;
     wrap "error duging DHCP probe" (Probe_Start ns name) ;;
     finally (ignore (Probe_Stop name))
       ('(addrs4, addrs6) ← wait_addrs polls requires ns link ∅ ∅;
        let fail := "could not read routes from interface " +:+ name in
        routes4 ← wrap fail (call (nk_RouteList ns link FAMILY_V4));
        routes6 ← wrap fail (call (nk_RouteList ns link FAMILY_V6));
        mret (MkIfaceConfig name (addrSet_ToSlice addrs4) (addrSet_ToSlice addrs6) routes4 routes6)))).

Definition AnalyseLink (polls : nat) (requires : Z) (link : Link) : PM IfaceConfig :=
  if negb (ln_MasterIndex link =? 0) then throw (ErrMsg "link is attached to device")
  else
    tmpNS ← wrap "failed to create network namespace" (namespace_Create (ln_Name link));
    finally (ignore (namespace_Delete (Some tmpNS)))
      (wrap "failed to sent interface into network namespace" (net_do None (LinkSetNsFd link (Some tmpNS))) ;;
       ns_Do tmpNS (probe_link polls requires link)).

(** A link that could not be analysed is sent with its name alone. *)
Definition analyseLink (polls : nat) (requires : Z) (link : Link) : PM IfaceConfig :=
  got ← try (AnalyseLink polls requires link);
  mret (match got with inl cfg => cfg | inr _ => MkIfaceConfig (ln_Name link) [] [] [] [] end).

Fixpoint analyse_all (polls : nat) (requires : Z) (links : list Link) : PM (list IfaceConfig) :=
  match links with
  | [] => mret []
  | link :: links =>
      cfg ← analyseLink polls requires link;
      rest ← analyse_all polls requires links;
      mret (cfg :: rest)
  end.

(** The configurations, and the capacity of their slice: the number of the links. *)
Definition AnalyseLinks (polls : nat) (requires : Z) (filters : list (Link -> PM bool)) :
    PM (nat * list IfaceConfig) :=
  links ← call (nk_LinkList None);
  filterred ← filter_links filters links;
  cfgs ← analyse_all polls requires (map_range filterred);
  mret (length links, cfgs).

(** ** bridge.go *)

Definition DefaultBridgeValid : PM unit :=
  link ← LinkByName None DefaultBridge;
  if negb (ln_Type link =? "bridge")%string then
    throw (ErrMsg ("invalid default bridge type (" +:+ ln_Type link +:+ ") expecting (bridge)"))
  else
    '(hasGW, _) ← HasDefaultGW None link FAMILY_V6;
    when_ (negb hasGW)
      (or_exit (SetIPv6AcceptRA None RAOff) ;;
       or_exit (SetIPv6AcceptRA None RAAcceptIfForwardingIsDisabled)) ;;
    wrap "failed to disable ipv6 forwarding" (SetIPv6Forwarding None false).

Definition CreateDefaultBridge (name : string) : PM Link :=
  br ← bridge_New name;
  wrap ("failed to enable ip6 on bridge " +:+ name) (options_Set None name [IPv6Disable false]) ;;
  wrap "failed to disable ipv6 forwarding" (SetIPv6Forwarding None false) ;;
  mret br.

End bootstrap.

(** ** public.go *)

Definition toZosVeth : string := "tozos".
Definition publicNsMACDerivationSuffix : string := "-public".

(** The addresses and the routes of the exit interface; [default_route] has no link. *)
Definition publicConfig (iface : PubIface) : res (list IPNet * list Route) :=
  let use6 := negb (IPNet_Nil (pi_IPv6 iface)) && negb (bool_decide (pi_GW6 iface = [])) in
  let use4 := negb (IPNet_Nil (pi_IPv4 iface)) && negb (bool_decide (pi_GW4 iface = [])) in
  let routes := (if use6 then [default_route "::" 128 (pi_GW6 iface) 0] else []) ++
                (if use4 then [default_route "0.0.0.0" 32 (pi_GW4 iface) 0] else []) in
  let ips := (if use6 then [pi_IPv6 iface] else []) ++ (if use4 then [pi_IPv4 iface] else []) in
  if (length ips <=? 0)%nat || (length routes <=? 0)%nat then
    Err (ErrMsg "missing some information in the exit iface object")
  else Ok (ips, routes).

Section public.
  Context {W : Type} `{NetKernel W} `{MapOrder} `{MD5}.

Notation PM := (PM W).

Definition ensurePublicBridge : PM Link :=
  got ← try (bridge_Get PublicBridge);
  br ← match got with inl br => mret br | inr _ => bridge_New PublicBridge end;
  options_Set None (ln_Name br) [IPv6Disable true; AcceptRA RAOff] ;;
  mret br.

Definition public_IPs : PM (list IPNet) :=
  ns ← getPublicNamespace;
  match ns with
  | None => mret []
  | Some namespace =>
      finally (ns_Close namespace)
        (ns_Do namespace (fun ns =>
           ln ← wrap "failed to get public interface" (LinkByName ns PublicIface);
           wrap "failed to list ips for public interface" (AddrList ns ln FAMILY_ALL)))
  end.

(** The first link with a public IPv6 address; without one the bridge of the node. *)
Definition findPossibleExit (polls : nat) : PM string :=
  '(_, links) ← wrap "failed to analyse links"
    (AnalyseLinks polls RequiresIPv6 [PhysicalFilter; NotAttachedFilter; PluggedFilter]);
  mret (match List.find (fun link => existsb public6 (ic_Addrs6 link)) links with
        | Some link => ic_Name link
        | None => DefaultBridge
        end).

Definition ensureNamespace : PM string :=
  there ← namespace_Exists PublicNamespace;
  if negb there then namespace_Create PublicNamespace else namespace_GetByName PublicNamespace.

Definition ensurePublicMacvlan (iface : PubIface) (pubNS : string) : PM (option Link) :=
  there ← iface_Exists PublicIface (Some pubNS);
  if negb there then
    if (pi_Type iface =? MacVlanIface)%string then
      wrap "failed to create public mac vlan interface" (macvlan_Create PublicIface PublicBridge (Some pubNS))
    else throw (ErrMsg ("unsupported public interface type " +:+ pi_Type iface))
  else
    l ← wrap "failed to get public macvlan interface"
          (ns_Do pubNS (fun ns => macvlan_GetByName ns PublicIface));
    mret (Some l).

Definition createPublicNS (nodeID : string) (iface : PubIface) : PM unit :=
  pubNS ← ensureNamespace;
  finally (ns_Close pubNS)
    (pubIface ← ensurePublicMacvlan iface pubNS;
     '(ips, routes) ← wrap "failed configure public network interface" (lift (publicConfig iface));
     let mac := HardwareAddrFromInputBytes (bytes_of (nodeID +:+ publicNsMACDerivationSuffix)) in
     match pubIface with
     | None => panic "nil pointer dereference"
     | Some pubIface => macvlan_Install pubIface mac ips routes (Some pubNS)
     end ;;
     wrap "error while configuring IPv6 public namespace"
       (ns_Do pubNS (fun ns =>
          wrap "failed to accept_ra=2 in public namespace" (SetIPv6AcceptRA ns RAAcceptIfForwardingIsEnabled) ;;
          wrap "failed to enable enable_defrtr=1 in public namespace" (SetIPv6LearnDefaultRouteInRA ns true)))).

(** A bridge that has a link is taken as it is. *)
Definition EnsurePublicSetup (polls : nat) (nodeID : string) (inf : option PubIface) : PM Link :=
  br ← ensurePublicBridge;
  links ← wrap "failed to list host links" (call (nk_LinkList None));
  match List.filter (fun link => ln_MasterIndex link =? ln_Index br) links with
  | _ :: _ => mret br
  | [] =>
      exit ← match inf with
             | None => wrap "failed to find possible exit" (findPossibleExit polls)
             | Some inf => mret (pi_Master inf)
             end;
      exitLink ← wrap ("failed to get link '" +:+ exit +:+ "' by name") (LinkByName None exit);
      wrap ("failed to set link '" +:+ ln_Name exitLink +:+ "' up") (net_do None (LinkSetUp exitLink)) ;;
      wrap "failed to attach exit nic to public bridge 'br-pub'" (bridge_Attach exitLink br (Some toZosVeth)) ;;
      match inf with
      | Some inf => wrap "failed to ensure public namespace setup" (createPublicNS nodeID inf)
      | None => mret tt
      end ;;
      net_do None (LinkSetUp br) ;;
      mret br
  end.

End public.

(** ** latency.go *)

Record Latency_Result := MkLatency { lr_Endpoint : string; lr_Latency : Z }.

(** [IPFilter]; a nil one cannot be called. *)
Definition IPFilter : Type := option (IP -> bool).

Definition IPV4Only (ip : IP) : bool := bool_decide (is_Some (To4 ip)).
Definition ExcludePrefix (prefix : list Z) (ip : IP) : bool := negb (bool_decide (prefix `prefix_of` ip)).

Definition cleanupEndpoint (endpoint : string) : string :=
  if HasPrefix endpoint "tcp://" || HasPrefix endpoint "tls://"
  then String.substring 6 (String.length endpoint - 6) endpoint else endpoint.

Fixpoint keep_host (filters : list IPFilter) (ip : IP) : res bool :=
  match filters with
  | [] => Ok true
  | None :: _ => Panic "nil pointer dereference"
  | Some f :: filters => if f ip then keep_host filters ip else Ok false
  end.

Section latency.
  Context {W : Type} (dial : string -> M W Z).

(** [dial] is how long it takes to connect, in nanoseconds. *)
Definition Latency (host : string) : M W Z :=
  duration ← dial host; mret (Z.quot duration (Z.quot 3 2)).

(** What a worker sends for an endpoint. *)
Definition measure (filters : list IPFilter) (endpoint : string) : M W (option Latency_Result) :=
  let addr := cleanupEndpoint endpoint in
  match SplitHostPort addr with
  | Ok (host, _) =>
      keep ← lift (keep_host filters (ParseIP host));
      if keep : bool then
        t ← try (Latency addr);
        mret (Some (MkLatency endpoint (match t with inl t => t | inr _ => 0 end)))
      else mret None
  | _ => mret None
  end.

Fixpoint measure_all (filters : list IPFilter) (endpoints : list string) : M W (list Latency_Result) :=
  match endpoints with
  | [] => mret []
  | e :: endpoints =>
      r ← measure filters e;
      rest ← measure_all filters endpoints;
      mret (match r with
            | Some r => if lr_Latency r =? 0 then rest else r :: rest
            | None => rest
            end)
  end.

Definition by_latency (a b : Latency_Result) : bool := lr_Latency a <? lr_Latency b.

Definition Sorter_Run `{MapOrder} `{Sorter} (endpoints : list string) (filters : list IPFilter) :
    M W (list Latency_Result) :=
  results ← measure_all filters (map_range endpoints);
  mret (sort_slice by_latency results).

End latency.

(** ** cmds/internet *)

Section internet.
  Context {W : Type} `{NetKernel W} `{MapOrder} `{Sorter} `{ZinitOps W}.

Notation PM := (PM W).

(** One attempt. *)
Definition configure_once (polls : nat) (zinit_New : M W unit) : PM unit :=
  call zinit_New ;;
  '(cap, ifaceConfigs) ← AnalyseLinks polls RequiresIPv4 [PhysicalFilter; PluggedFilter];
  zosChild ← lift (SelectZOS cap ifaceConfigs);
  br ← CreateDefaultBridge DefaultBridge;
  link ← wrap ("could not get link " +:+ zosChild) (LinkByName None zosChild);
  AttachNicWithMac link br ;;
  wrap ("failed to disable ip6 on zos slave " +:+ zosChild) (options_Set None zosChild [IPv6Disable true]) ;;
  wrap ("could not bring " +:+ zosChild +:+ " up") (net_do None (LinkSetUp link)) ;;
  let exec := "/sbin/udhcpc -v -f -i " +:+ DefaultBridge +:+ " -s /usr/share/udhcp/simple.script" in
  act_ (ZinitAdd "dhcp-zos" exec) (z_AddService "dhcp-zos" (MkInitService exec false "" [] "")) ;;
  act_ (ZinitMonitor "dhcp-zos") (z_Monitor "dhcp-zos") ;;
  node_call "zinit start" ["dhcp-zos"] (z_Start "dhcp-zos").

Definition configureZOS (retries polls : nat) (zinit_New : M W unit) : PM unit :=
  retry retries (configure_once polls zinit_New).

Definition internet_check (retries : nat) : PM unit :=
  retry retries (sys "ping" ["-c"; "1"; "google.com"]).

(** The exit status: an interface [lo] that does not come up ends the program with 0. *)
Definition internet_main (retries polls : nat) (zinit_New : M W unit) : PM Z :=
  up ← try (SetLoUp None);
  match up with
  | inr _ => mret 0
  | inl _ =>
      done ← try (configureZOS retries polls zinit_New);
      match done with
      | inr _ => mret 1
      | inl _ =>
          got ← try (internet_check retries);
          mret (match got with inl _ => 0 | inr _ => 1 end)
      end
  end.

End internet.

(** ** cmds/modules/networkd *)

(** The directory of the explorer, as far as it is used. *)
Record Directory (W : Type) := MkDirectory {
  dir_NodeGet : string -> M W directory_Node;
  dir_NodeSetInterfaces : string -> list directory_Iface -> M W unit;
  dir_NodeSetPorts : string -> list Z -> M W unit
}.
Arguments dir_NodeGet {W}.
Arguments dir_NodeSetInterfaces {W}.
Arguments dir_NodeSetPorts {W}.

Definition ErrNoPubInterface : error := ErrMsg "no public interface configured for this node".
Definition is_no_pub (e : error) : bool :=
  match e with ErrMsg m => (m =? "no public interface configured for this node")%string | _ => false end.

(** What the watcher of the addresses receives: an address of a link at a time, or the
    end of the subscription. *)
Inductive addr_event := AddrUpdate (now : Z) (linkIndex : Z) | AddrClosed.

Definition ten_minutes : Z := 600000000000.

Definition filter_rules : string := unlines
  ["nft 'add table inet filter'";
   "nft 'add chain inet filter input   { type filter hook input priority filter; policy accept; }'";
   "nft 'add chain inet filter forward { type filter hook input priority filter; policy accept; }'";
   "nft 'add chain inet filter output  { type filter hook input priority filter; policy accept; }'"; "";
   "nft 'add table arp filter'";
   "nft 'add chain arp filter input  { type filter hook input priority filter; policy accept; }'";
   "nft 'add chain arp filter output { type filter hook input priority filter; policy accept; }'"; "";
   "nft 'add table bridge filter'";
   "nft 'add chain bridge filter input   { type filter hook input priority filter; policy accept; }'";
   "nft 'add chain bridge filter forward { type filter hook input priority filter; policy accept; }'";
   "nft 'add chain bridge filter output  { type filter hook input priority filter; policy accept; }'"].

(** [results[i].Endpoint] for the three places that there are. *)
Definition best_peers (results : list Latency_Result) : list string :=
  (fun i => match results !! i with Some r => lr_Endpoint r | None => "" end) <$> [0%nat; 1%nat; 2%nat].

Definition with_Peers (peers : list string) (c : NodeConfig) : NodeConfig :=
  MkNodeConfig (yc_Listen c) (yc_MulticastInterfaces c) (yc_LinkLocalTCPPort c) (yc_SigningPrivateKey c)
    (yc_SigningPublicKey c) (yc_EncryptionPrivateKey c) (yc_EncryptionPublicKey c) (yc_IfName c)
    (yc_TunnelRouting c) (yc_SessionFirewall c) (yc_Name c) peers.

Section networkd.
  Context {W : Type} `{NetKernel W} `{MapOrder} `{Sorter} `{ZinitOps W} `{MD5} `{IfaceTypes}.
  Context (directory : Directory W).

Notation PM := (PM W).

(** *** pubiface.go *)

Definition getExitInterface (nodeID : string) : PM PubIface :=
  schemaNode ← call (dir_NodeGet directory nodeID);
  match n_PublicConfig (NewNodeFromSchema schemaNode) with
  | None => throw ErrNoPubInterface
  | Some pub => mret pub
  end.

(** *** nft.go *)

Definition ensureHostFw (list_ruleset : M W string) : PM unit :=
  out ← wrap "could not load existing nft rules" (call list_ruleset);
  if negb (TrimSpace out =? "")%string then mret tt
  else wrap "could not set up host nft rules" (net_do None (Nft ["/bin/sh"; "-c"] filter_rules)).

(** *** addr_watcher.go *)

Fixpoint local_infos (links : list Link) : PM (list IfaceInfo) :=
  match links with
  | [] => mret []
  | link :: links =>
      if HasPrefix (ln_Name link) "b-" then local_infos links
      else
        up ← try (net_do None (LinkSetUp link));
        match up with
        | inr _ => local_infos links
        | inl _ =>
            virt ← IsVirtEth (ln_Name link);
            plugged ← if virt : bool then mret true else IsPluggedTimeout 5 (ln_Name link);
            if negb plugged then local_infos links
            else
              '(_, gw) ← HasDefaultGW None link FAMILY_ALL;
              addrs ← AddrList None link FAMILY_ALL;
              rest ← local_infos links;
              mret (MkIfaceInfo (ln_Name link) addrs (if bool_decide (gw = []) then [] else [gw])
                      (ln_HardwareAddr link) :: rest)
        end
  end.

Definition getLocalInterfaces : PM (list IfaceInfo) :=
  links ← call (nk_LinkList None); local_infos (LinkFilter links ["device"; "bridge"]).

Definition publishIfaces (retries : nat) (ifaces : list IfaceInfo) (nodeID : string) : PM unit :=
  retry retries (call (dir_NodeSetInterfaces directory nodeID (IfaceInfo_ToSchema <$> ifaces))).

(** [linkNames] are the links that are watched. *)
Definition callBack (retries : nat) (linkNames : gset string) (nodeID : string) (linkIndex : Z) : PM unit :=
  got ← try (call (nk_LinkByIndex None linkIndex));
  match got with
  | inr _ => mret tt
  | inl link =>
      if bool_decide (ln_Name link ∈ linkNames) then
        ifaces ← getLocalInterfaces;
        ndmzIfaces ← Interfaces;
        publishIfaces retries (ifaces ++ ndmzIfaces) nodeID
      else mret tt
  end.

(** The updates until the context ends. *)
Fixpoint Forever (retries : nat) (linkNames : gset string) (nodeID : string) (nextAllowed : Z)
    (events : list addr_event) : PM unit :=
  match events with
  | [] => mret tt
  | AddrClosed :: _ => throw (ErrMsg "netlink closed the subscription channel")
  | AddrUpdate now linkIndex :: events =>
      if nextAllowed <? now then
        ignore (callBack retries linkNames nodeID linkIndex) ;;
        Forever retries linkNames nodeID (now + ten_minutes) events
      else Forever retries linkNames nodeID nextAllowed events
  end.

(** [startAddrWatch]: the watcher is started again when it fails. A subscription is the
    time it starts and what it receives. *)
Fixpoint startAddrWatch (retries : nat) (nodeID : string) (ifaces : list IfaceInfo)
    (subscriptions : list (Z * list addr_event)) : PM unit :=
  match subscriptions with
  | [] => mret tt
  | (now, events) :: subscriptions =>
      got ← try (Forever retries (list_to_set (ii_Name <$> ifaces)) nodeID now events);
      match got with
      | inl _ => mret tt
      | inr _ => startAddrWatch retries nodeID ifaces subscriptions
      end
  end.

(** *** main.go *)

(** Without an end: a model that has no retry left is one that still waits. *)
Definition waitYggdrasilBin (retries : nat) : PM unit :=
  retry retries (call (nk_LookPath "yggdrasil") ;; mret tt).

(** Four retries, then the list of the program. *)
Definition fetchPeerList (get : M W string) (decode : string -> res PeerList) : PM PeerList :=
  got ← try (retry 4 (call (FetchPeerList get decode)));
  mret (match got with inl pl => pl | inr _ => PeerListFallback end).

(** The hosts that are asked: on a node without public IPv6 those with an IPv4 address,
    otherwise those of another segment. *)
Definition peer_filter : PM IPFilter :=
  ipv4Only ← wrap "failed to check ipv6 support for dmz" IsIPv4Only;
  if ipv4Only : bool then mret (Some IPV4Only)
  else
    ips ← wrap "failed to get ndmz public ipv6" (GetIP FAMILY_V6);
    match List.find (fun ip => IsGlobalUnicast (net_IP ip)) ips with
    | Some ip =>
        if (length (net_IP ip) <? 8)%nat then panic "slice bounds out of range"
        else mret (Some (ExcludePrefix (take 8 (net_IP ip))))
    | None => mret None
    end.

Definition startYggdrasil `{YggKeys} (dial : string -> M W Z) (get : M W string) (decode : string -> res PeerList)
    (generated : NodeConfig) (encode_config : NodeConfig -> string) (zinit_New : M W unit)
    (privateKey : list Z) : PM NodeConfig :=
  pl ← fetchPeerList get decode;
  let endpoints := ni_Endpoint <$> Ups pl in
  f ← peer_filter;
  results ← call (Sorter_Run dial endpoints [f]);
  match results with
  | [] => throw (ErrMsg "cannot find public yggdrasil peer to connect to")
  | _ =>
      call zinit_New ;;
      cfg ← lift (GenerateConfig generated (Some privateKey));
      let cfg := with_Peers (best_peers results) cfg in
      ygg_Start encode_config cfg ;;
      mret cfg
  end.

(** A server that could not connect is used all the same. *)
Definition startServer (connect run : M W unit) : PM unit :=
  got ← try (call connect);
  match got with
  | inr _ => panic "nil pointer dereference"
  | inl _ => unless (fun e => bool_decide (Error e = "context canceled")) (call run)
  end.

End networkd.

Section action.
  Context {W : Type} `{NetKernel W} `{WgKeys} `{MapOrder} `{Sorter} `{ZinitOps W} `{MD5} `{IfaceTypes} `{Ipam W}.
  Context `{YggCrypto} `{YggKeys}.

(** What the module is started with: the connections, the peers of the overlay network and
    how often and how long it waits. *)
Record Env := MkEnv {
  env_identity : IdentityManager W; env_PrivateKey : M W (list Z);
  env_broker : M W unit; env_explorer : M W (Directory W); env_zinit : M W unit;
  env_connect : M W unit; env_run : M W unit;
  env_dial : string -> M W Z; env_peers : M W string; env_decode : string -> res PeerList;
  env_generated : NodeConfig; env_encode : NodeConfig -> string; env_ruleset : M W string;
  env_polls : nat; env_retries : nat
}.

(** [action], up to the watcher of the addresses, that runs beside it; it is started with
    the interfaces that are returned. *)
Definition networkd_action (e : Env) (root : string) : M (NState W) (list IfaceInfo) :=
  '(nodeID, directory, ygg, ifaces) ← on_node
    (waitYggdrasilBin (env_retries e) ;;
     wrap "invalid setup" DefaultBridgeValid ;;
     wrap "failed to connect to zbus broker" (call (env_broker e)) ;;
     directory ← wrap "failed to connect to BCDB" (call (env_explorer e));
     nodeID ← call (id_NodeID (env_identity e));
     got ← try (getExitInterface directory nodeID);
     pub ← match got with
           | inl pub => mret (Some pub)
           | inr err => if is_no_pub err then mret None
                        else throw (ErrWrap "failed to get node public_config" err)
           end;
     master ← wrap "failed to setup public bridge" (EnsurePublicSetup (env_polls e) nodeID pub);
     wrap "failed to create ndmz" (dmz_Create nodeID (ln_Name master) (env_polls e) (env_retries e) (env_zinit e)) ;;
     wrap "failed to host firewall rules" (ensureHostFw (env_ruleset e)) ;;
     key ← call (env_PrivateKey e);
     ygg ← wrap "fail to start yggdrasil"
             (startYggdrasil (env_dial e) (env_peers e) (env_decode e) (env_generated e) (env_encode e)
                (env_zinit e) key);
     gw ← wrap "fail read yggdrasil subnet" (lift (Gateway ygg));
     wrap "fail to configure yggdrasil subnet gateway IP" (SetIP gw) ;;
     ndmzIfaces ← wrap "failed to read ndmz network interfaces" Interfaces;
     local ← wrap "failed to read local network interfaces" getLocalInterfaces;
     let ifaces := local ++ ndmzIfaces in
     wrap "failed to publish ndmz network interfaces to BCDB"
       (publishIfaces directory (env_retries e) ifaces nodeID) ;;
     wrap "fail to create module root" (sys "mkdirall" [root]) ;;
     mret (nodeID, directory, ygg, ifaces));
  wrap "error creating network manager"
    (NewNetworker (env_identity e) (dir_NodeSetPorts directory) root (Some ygg)) ;;
  on_node (wrap "unexpected error" (startServer (env_connect e) (env_run e))) ;;
  mret ifaces.

End action.

(** ** Lemmas *)

Section orders.

Lemma bytes_le_total a : forall b, bytes_le a b = false -> bytes_le b a = true.
Proof.
  induction a as [|x a IH]; intros [|y b]; cbn; try done.
  destruct (Z.ltb_spec x y), (Z.eqb_spec x y), (Z.ltb_spec y x), (Z.eqb_spec y x); cbn; try done; try lia.
  apply IH.
Qed.

Lemma bytes_le_trans a : forall b c, bytes_le a b = true -> bytes_le b c = true -> bytes_le a c = true.
Proof.
  induction a as [|x a IH]; intros [|y b] [|z c]; cbn; try done.
  destruct (Z.ltb_spec x y), (Z.eqb_spec x y), (Z.ltb_spec y z), (Z.eqb_spec y z), (Z.ltb_spec x z), (Z.eqb_spec x z);
    cbn; try done; try lia. apply IH.
Qed.

(** The head of a slice that is sorted by [bytes.Compare] of a key. *)
Lemma sort_bytes_head `{Sorter} {A} (key : A -> list Z) l x rest :
  sort_slice (fun a b => negb (bytes_le (key b) (key a))) l = x :: rest ->
  x ∈ l /\ forall y, y ∈ l -> bytes_le (key x) (key y) = true.
Proof.
  set (less := fun a b => _). intros Hl. pose proof (sort_slice_perm less l) as Hp.
  assert (Hs : Sorted (fun x y => less y x = false) (sort_slice less l)).
  { apply sort_slice_sorted; unfold less.
    - intros a b. rewrite negb_true_iff, negb_false_iff. apply bytes_le_total.
    - intros a b c. rewrite !negb_false_iff. apply bytes_le_trans. }
  rewrite Hl in Hp, Hs. apply Sorted_StronglySorted in Hs;
    [|intros a b c; unfold less; rewrite !negb_false_iff; apply bytes_le_trans].
  apply StronglySorted_inv in Hs as [_ Hall]. split; [rewrite <- Hp; left|].
  intros y. rewrite <- Hp, elem_of_cons. intros [->|Hy].
  - destruct (bytes_le (key x) (key x)) eqn:E; [done|]. pose proof (bytes_le_total _ _ E). congruence.
  - rewrite Forall_forall in Hall. apply negb_false_iff. exact (Hall y Hy).
Qed.

End orders.

Section selection.
  Context (wanted : Route -> bool) (cap : nat) (cfgs : list IfaceConfig).
  Hypothesis room : (length cfgs <= cap)%nat.
  Hypothesis once : forall c, c ∈ cfgs -> (length (List.filter wanted (ic_Routes4 c)) <= 1)%nat.

Definition wants (c : IfaceConfig) : bool := existsb wanted (ic_Routes4 c).

Lemma fold_none s c routes : List.filter wanted routes = [] ->
  foldl (fun s r => if wanted r then sh_append cap s c else s) s routes = s.
Proof.
  revert s. induction routes as [|r routes IH]; intros s; cbn; [done|]. destruct (wanted r); [done|]. apply IH.
Qed.

Lemma fold_once s c routes : (length (List.filter wanted routes) <= 1)%nat ->
  foldl (fun s r => if wanted r then sh_append cap s c else s) s routes =
  if existsb wanted routes then sh_append cap s c else s.
Proof.
  revert s. induction routes as [|r routes IH]; intros s; cbn; [done|].
  destruct (wanted r) eqn:E; cbn; [|apply IH]. intros Hl. apply fold_none.
  destruct (List.filter wanted routes); [done|cbn in Hl; lia].
Qed.

(** After [i] turns: what was selected is at the front, the rest is as it was. *)
Definition clean (i : nat) (s : shared) : Prop :=
  sh_own s = None /\ (sh_len s <= i)%nat /\
  take (sh_len s) (sh_array s) = List.filter wants (take i cfgs) /\ drop i (sh_array s) = drop i cfgs.

Lemma clean_step i s c : clean i s -> cfgs !! i = Some c -> clean (S i) (select_one wanted cap s i).
Proof.
  intros (Ho & Hn & Ht & Hd) Hc. pose proof (lookup_lt_Some _ _ _ Hc) as Hlt.
  assert (Ha : sh_array s !! i = Some c).
  { rewrite <- (Nat.add_0_r i), <- lookup_drop, Hd, lookup_drop, Nat.add_0_r. done. }
  pose proof (lookup_lt_Some _ _ _ Ha) as Hla. unfold select_one. rewrite Ha, fold_once by by eapply once, list_elem_of_lookup_2.
  assert (HS : drop (S i) (sh_array s) = drop (S i) cfgs).
  { rewrite <- (Nat.add_1_r i), <- !drop_drop. by rewrite Hd. }
  assert (Hf : List.filter wants (take (S i) cfgs) = List.filter wants (take i cfgs) ++ List.filter wants [c]).
  { by rewrite (take_S_r _ _ _ Hc), List.filter_app. }
  unfold clean. rewrite Hf. cbn [List.filter]. unfold wants at 2. destruct (existsb wanted (ic_Routes4 c)) eqn:E.
  - unfold sh_append. rewrite Ho. destruct (Nat.ltb_spec (sh_len s) cap); [|lia]. cbn [sh_own sh_len sh_array].
    split; [done|]. split; [lia|]. split.
    + rewrite <- Ht. rewrite cons_middle, app_assoc. rewrite take_app_length'; [done|].
      rewrite length_app, length_take_le by lia. cbn. lia.
    + rewrite drop_app_ge by (rewrite length_take_le; lia). rewrite length_take_le by lia.
      replace (S i - sh_len s)%nat with (S (i - sh_len s)) by lia. cbn [drop]. rewrite drop_drop.
      replace (S (sh_len s) + (i - sh_len s))%nat with (S i) by lia. done.
  - rewrite app_nil_r. split; [done|]. split; [lia|]. done.
Qed.

Lemma clean_fold k : forall i s, (i + k <= length cfgs)%nat -> clean i s ->
  clean (i + k) (foldl (select_one wanted cap) s (seq i k)).
Proof.
  induction k as [|k IH]; intros i s Hk Hs; [by rewrite Nat.add_0_r|]. cbn.
  destruct (lookup_lt_is_Some_2 cfgs i) as [c Hc]; [lia|].
  rewrite <- Nat.add_succ_comm. apply IH; [lia|]. by eapply clean_step.
Qed.

(** Where an interface has one wanted route at most, the slice is the wanted interfaces. *)
Lemma select_all_clean : let s := select_all wanted cap (length cfgs) (MkShared cfgs 0 None) in
  sh_slice s = List.filter wants cfgs /\ (List.filter wants cfgs = [] -> s = MkShared cfgs 0 None).
Proof.
  pose proof (clean_fold (length cfgs) 0 (MkShared cfgs 0 None) ltac:(lia)) as (Ho & _ & Ht & _);
    [by split; [|split; [cbn; lia|]]|].
  rewrite (take_ge cfgs) in Ht by lia. fold (select_all wanted cap (length cfgs) (MkShared cfgs 0 None)) in Ho, Ht.
  split; [unfold sh_slice; by rewrite Ho|].
  intros Hnone. unfold select_all. clear Ho Ht.
  assert (Hw : forall c, c ∈ cfgs -> existsb wanted (ic_Routes4 c) = false).
  { intros c Hc. destruct (existsb wanted (ic_Routes4 c)) eqn:E; [|done].
    assert (Hin : In c (List.filter wants cfgs)) by (apply filter_In; split; [by apply list_elem_of_In|done]).
    by rewrite Hnone in Hin. }
  generalize (seq 0 (length cfgs)) as idx. induction idx as [|i idx IH]; [done|]. cbn [foldl].
  assert (Hone : select_one wanted cap (MkShared cfgs 0 None) i = MkShared cfgs 0 None); [|by rewrite Hone].
  unfold select_one. cbn [sh_array]. destruct (cfgs !! i) as [c|] eqn:E; [|done].
  apply list_elem_of_lookup_2 in E. by rewrite fold_once, Hw by auto.
Qed.

End selection.

Section zos.
  Context {sorter : Sorter}.

(** The interfaces that are considered: those with a private gateway, when there are. *)
Definition candidates (cfgs : list IfaceConfig) : list IfaceConfig :=
  match List.filter (wants private_gw) cfgs with [] => List.filter (wants has_gw) cfgs | l => l end.

Lemma private_once routes : (length (List.filter has_gw routes) <= 1)%nat ->
  (length (List.filter private_gw routes) <= 1)%nat.
Proof.
  intros Hl. etrans; [|exact Hl]. clear Hl. induction routes as [|r routes IH]; cbn; [done|].
  unfold private_gw at 1. destruct (has_gw r); cbn; [|done].
  destruct (match isPrivateIP _ with Ok b => b | _ => false end); cbn; lia.
Qed.

Lemma SelectZOS_candidates cap cfgs : (length cfgs <= cap)%nat ->
  (forall c, c ∈ cfgs -> (length (List.filter has_gw (ic_Routes4 c)) <= 1)%nat) ->
  SelectZOS cap cfgs =
  match candidates cfgs with
  | [] => Err (ErrMsg "no route with default gateway found")
  | [c] => Ok (ic_Name c)
  | l =>
      if existsb no_addr l then Panic "index out of range"
      else match sort_slice byIP4 l with c :: _ => Ok (ic_Name c) | [] => Panic "index out of range" end
  end.
Proof.
  intros Hcap Honce. unfold SelectZOS, candidates.
  destruct (select_all_clean private_gw cap cfgs Hcap) as [Hp Hp0]; [by intros; apply private_once, Honce|].
  destruct (select_all_clean has_gw cap cfgs Hcap Honce) as [Hg _]. cbv zeta in *. rewrite Hp.
  destruct (List.filter (wants private_gw) cfgs) as [|c l] eqn:E; [|by rewrite Hp].
  rewrite (Hp0 eq_refl), Hg. done.
Qed.

Lemma candidates_in cfgs c : c ∈ candidates cfgs -> c ∈ cfgs /\ wants has_gw c = true.
Proof.
  assert (Hin : forall w, c ∈ List.filter (wants w) cfgs -> c ∈ cfgs /\ wants w c = true).
  { intros w. by rewrite list_elem_of_In, filter_In, <- list_elem_of_In. }
  unfold candidates. destruct (List.filter (wants private_gw) cfgs) as [|c1 l] eqn:E; [apply Hin|].
  rewrite <- E. intros Hc. apply Hin in Hc as [Hc Hw]. split; [done|]. unfold wants in *.
  rewrite existsb_exists in *. destruct Hw as (r & Hr & Hw). exists r. split; [done|].
  unfold private_gw in Hw. by apply andb_prop in Hw as [? _].
Qed.

Lemma no_candidates cfgs c : candidates cfgs = [] -> c ∈ cfgs -> wants has_gw c = false.
Proof.
  unfold candidates. destruct (List.filter (wants private_gw) cfgs); [|done]. intros Hn Hc.
  destruct (wants has_gw c) eqn:E; [|done].
  assert (Hin : In c (List.filter (wants has_gw) cfgs)) by (apply filter_In; split; [by apply list_elem_of_In|done]).
  by rewrite Hn in Hin.
Qed.

Lemma least_addr_spec c : ic_Addrs4 c <> [] ->
  exists a, a ∈ ic_Addrs4 c /\ net_IP a = least_addr c /\
    forall a', a' ∈ ic_Addrs4 c -> bytes_le (least_addr c) (net_IP a') = true.
Proof.
  intros Hne. unfold least_addr. destruct (sort_slice byAddr (ic_Addrs4 c)) as [|a rest] eqn:E.
  - pose proof (sort_slice_perm byAddr (ic_Addrs4 c)) as Hp. rewrite E in Hp. by apply Permutation_nil in Hp.
  - destruct (sort_bytes_head net_IP _ _ _ E) as [Ha Hle]. by exists a.
Qed.

(** The head of the sorted candidates has the least of their addresses. *)
Lemma least_candidate l c rest : (forall c, c ∈ l -> ic_Addrs4 c <> []) -> sort_slice byIP4 l = c :: rest ->
  exists a, c ∈ l /\ a ∈ ic_Addrs4 c /\
    forall c' a', c' ∈ l -> a' ∈ ic_Addrs4 c' -> bytes_le (net_IP a) (net_IP a') = true.
Proof.
  intros Hne Hs. destruct (sort_bytes_head least_addr _ _ _ Hs) as [Hc Hle].
  destruct (least_addr_spec c (Hne c Hc)) as (a & Ha & He & _). exists a. split; [done|]. split; [done|].
  intros c' a' Hc' Ha'. rewrite He. destruct (least_addr_spec c' (Hne c' Hc')) as (_ & _ & _ & Hmin).
  apply (bytes_le_trans _ (least_addr c')); [by apply Hle|by apply Hmin].
Qed.

(** C15 (functional): the interface of the node. When no interface has two routes with
    a gateway, and those with one have an address, the interface that is chosen is, among
    those with a private gateway (without any, among those with a gateway), the one with
    the smallest address; there is none only when no interface has a gateway. *)
Theorem SelectZOS_spec cap cfgs : (length cfgs <= cap)%nat ->
  (forall c, c ∈ cfgs -> (length (List.filter has_gw (ic_Routes4 c)) <= 1)%nat) ->
  (forall c, c ∈ cfgs -> wants has_gw c = true -> ic_Addrs4 c <> []) ->
  match SelectZOS cap cfgs with
  | Ok name => exists c a, c ∈ candidates cfgs /\ ic_Name c = name /\ a ∈ ic_Addrs4 c /\
      forall c' a', c' ∈ candidates cfgs -> a' ∈ ic_Addrs4 c' -> bytes_le (net_IP a) (net_IP a') = true
  | Err _ => forall c, c ∈ cfgs -> wants has_gw c = false
  | Panic _ => False
  end.
Proof.
  intros Hcap Honce Haddr. rewrite SelectZOS_candidates by done.
  assert (Hne : forall c, c ∈ candidates cfgs -> ic_Addrs4 c <> []).
  { intros c Hc. by apply candidates_in in Hc as [? ?]; apply Haddr. }
  pose proof (fun c => no_candidates cfgs c) as Hno. destruct (candidates cfgs) as [|c1 [|c2 l]]; [by auto|..].
  - destruct (least_addr_spec c1) as (a & Ha & He & Hmin); [apply Hne; left|]. exists c1, a.
    split; [left|]. split; [done|]. split; [done|]. intros c' a' Hc'. apply list_elem_of_singleton in Hc' as ->.
    rewrite He. apply Hmin.
  - cbv zeta. destruct (existsb no_addr (c1 :: c2 :: l)) eqn:E.
    + apply existsb_exists in E as (c & Hc & Hn). apply list_elem_of_In in Hc. specialize (Hne c Hc).
      unfold no_addr in Hn. by destruct (ic_Addrs4 c).
    + destruct (sort_slice byIP4 (c1 :: c2 :: l)) as [|c rest] eqn:Es.
      * pose proof (sort_slice_perm byIP4 (c1 :: c2 :: l)) as Hp. rewrite Es in Hp. by apply Permutation_nil in Hp.
      * destruct (least_candidate _ _ _ Hne Es) as (a & Hc & Ha & Hle). by exists c, a.
Qed.

End zos.

Section peers.
  Context {W : Type} (dial : string -> M W Z) {order : MapOrder} {sorter : Sorter}.

(** An endpoint with a host and a port whose host passes the filters. *)
Definition admitted_host (filters : list IPFilter) (endpoint : string) : Prop :=
  exists host port, SplitHostPort (cleanupEndpoint endpoint) = Ok (host, port) /\
    forall f, f ∈ filters -> exists g, f = Some g /\ g (ParseIP host) = true.

Lemma keep_host_true filters ip : keep_host filters ip = Ok true ->
  forall f, f ∈ filters -> exists g, f = Some g /\ g ip = true.
Proof.
  induction filters as [|[g|] filters IH]; cbn; [by intros _ ? ?%not_elem_of_nil| |done].
  destruct (g ip) eqn:E; [|done]. intros Hk f [->|Hf]%elem_of_cons; [by exists g|by apply IH].
Qed.

Lemma measure_spec filters e w w' r : measure dial filters e w = (w', Ok (Some r)) ->
  lr_Endpoint r = e /\ admitted_host filters e.
Proof.
  unfold measure. destruct (SplitHostPort (cleanupEndpoint e)) as [[host port]|?|?] eqn:Es; [|by intros [= ]..].
  intros Hrun. ok_bind Hrun w1 keep Hk. injection Hk as <- Hk.
  destruct keep; [|by injection Hrun]. ok_bind Hrun w2 lat Ht. injection Hrun as <- <-.
  split; [done|]. exists host, port. split; [done|]. by apply keep_host_true.
Qed.

Lemma measure_all_spec filters endpoints : forall w w' l, measure_all dial filters endpoints w = (w', Ok l) ->
  forall r, r ∈ l -> lr_Endpoint r ∈ endpoints /\ lr_Latency r <> 0 /\ admitted_host filters (lr_Endpoint r).
Proof.
  induction endpoints as [|e endpoints IH]; cbn [measure_all]; intros w w' l Hrun r Hr.
  { injection Hrun as <- <-. by apply not_elem_of_nil in Hr. }
  ok_bind Hrun w1 o Hm. ok_bind Hrun w2 rest Hrest.
  injection Hrun as <- <-.
  assert (Hin : r ∈ rest -> lr_Endpoint r ∈ e :: endpoints /\ lr_Latency r <> 0 /\ admitted_host filters (lr_Endpoint r)).
  { intros H. destruct (IH _ _ _ Hrest r H) as (? & ?). split; [by right|done]. }
  destruct o as [x|]; [|by auto]. destruct (Z.eqb_spec (lr_Latency x) 0); [by auto|].
  apply elem_of_cons in Hr as [->|Hr]; [|by auto]. destruct (measure_spec _ _ _ _ _ Hm) as [He Ha].
  rewrite He. split; [left|done].
Qed.

(** The peers of the overlay network. The results of the latency sorter
    are endpoints that were asked for, whose host passes every filter and answered, the
    fastest first. *)
Theorem Sorter_Run_spec endpoints filters w w' l : Sorter_Run dial endpoints filters w = (w', Ok l) ->
  StronglySorted (fun a b => lr_Latency a <= lr_Latency b) l /\
  forall r, r ∈ l -> lr_Endpoint r ∈ endpoints /\ lr_Latency r <> 0 /\ admitted_host filters (lr_Endpoint r).
Proof.
  intros Hrun. ok_bind Hrun w1 results Hm. injection Hrun as <- <-. split.
  - assert (Hs : StronglySorted (fun x y => by_latency y x = false) (sort_slice by_latency results)).
    { apply Sorted_StronglySorted; [intros x y z|apply sort_slice_sorted; intros *]; unfold by_latency;
        rewrite ?Z.ltb_lt, ?Z.ltb_ge; lia. }
    induction Hs as [|x l' _ IH Hall]; constructor; [done|]. eapply Forall_impl; [exact Hall|].
    intros y. unfold by_latency. by rewrite Z.ltb_ge.
  - intros r Hr. rewrite (sort_slice_perm by_latency results) in Hr.
    destruct (measure_all_spec _ _ _ _ _ Hm r Hr) as (He & ?). rewrite map_range_perm in He. done.
Qed.

End peers.

(** ** Examples *)

Module BootDemo.
Import BusDemo NetDemo NrDemo NetworkerDemo.

#[local] Existing Instance order.

Definition via (gw : IP) : Route := MkRoute zeroIPNet gw 0.

Definition nic (name : string) (last : Z) (gws : list IP) : IfaceConfig :=
  MkIfaceConfig name [MkIPNet [192; 168; 0; last] (CIDRMask 24 32)] [] (via <$> [] :: gws) [].

Definition home : IP := [192; 168; 0; 1].
Definition nics : list IfaceConfig := [nic "eth0" 9 [home]; nic "eth1" 4 [home]; nic "eth2" 2 [[8; 8; 8; 8]]].

Lemma SelectZOS_spec_witness : SelectZOS 4 nics = Ok "eth1" /\
  exists c a, c ∈ candidates nics /\ ic_Name c = "eth1" /\ a ∈ ic_Addrs4 c /\
    forall c' a', c' ∈ candidates nics -> a' ∈ ic_Addrs4 c' -> bytes_le (net_IP a) (net_IP a') = true.
Proof.
  assert (Hrun : SelectZOS 4 nics = Ok "eth1") by (vm_compute; reflexivity).
  assert (H1 : forall c, c ∈ nics -> (length (List.filter has_gw (ic_Routes4 c)) <= 1)%nat).
  { apply Forall_forall. by repeat constructor. }
  assert (H2 : forall c, c ∈ nics -> wants has_gw c = true -> ic_Addrs4 c <> []).
  { assert (Hall : Forall (fun c => ic_Addrs4 c <> []) nics) by by repeat constructor.
    intros c Hc _. rewrite Forall_forall in Hall. exact (Hall c Hc). }
  pose proof (SelectZOS_spec 4 nics ltac:(cbn; lia) H1 H2) as Hs. rewrite Hrun in Hs. split; [exact Hrun|exact Hs].
Defined.

(** An interface with two private gateways is written over the next one, which has the
    smaller address and is lost. *)
Example second_gateway :
  SelectZOS 4 [nic "eth0" 9 [home; home]; nic "eth1" 4 [home]] = Ok "eth0" /\
  SelectZOS 4 [nic "eth0" 9 [home]; nic "eth1" 4 [home]] = Ok "eth1".
Proof. vm_compute. done. Qed.

(** Two peers that answer, one of another family and one that does not. *)
Definition dial_demo (host : string) : M unit Z := fun w =>
  (w, if (host =? "1.1.1.1:80")%string then Ok 30 else if (host =? "2.2.2.2:80")%string then Ok 20
      else if (host =? "[2a00::1]:80")%string then Ok 5 else Err (ErrMsg "refused")).

Definition asked : list string := ["tcp://1.1.1.1:80"; "tls://2.2.2.2:80"; "tcp://[2a00::1]:80"; "tcp://3.3.3.3:80"].

Definition answered : list Latency_Result := [MkLatency "tls://2.2.2.2:80" 20; MkLatency "tcp://1.1.1.1:80" 30].

Lemma Sorter_Run_spec_witness : Sorter_Run dial_demo asked [Some IPV4Only] tt = (tt, Ok answered) /\
  StronglySorted (fun a b => lr_Latency a <= lr_Latency b) answered /\
  forall r, r ∈ answered -> lr_Endpoint r ∈ asked /\ lr_Latency r <> 0 /\ admitted_host [Some IPV4Only] (lr_Endpoint r).
Proof.
  assert (Hrun : Sorter_Run dial_demo asked [Some IPV4Only] tt = (tt, Ok answered)) by (vm_compute; reflexivity).
  split; [exact Hrun|]. exact (Sorter_Run_spec dial_demo asked [Some IPV4Only] tt tt answered Hrun).
Defined.

(** A connection that took 30 ns: 3/2 is 1. *)
Example handshake : (Latency dial_demo "1.1.1.1:80" tt).2 = Ok 30.
Proof. reflexivity. Qed.

End BootDemo.
