(* ===== verification/Identity.v ===== *)
(** The identity of a node: src/pkg/identity (keys.go, identityd.go), the cryptography it
    uses (src/pkg/crypto), the signature of a reservation (src/pkg/provision/crypto.go), and
    what the node reads from the command line of its kernel (src/pkg/kernel,
    src/pkg/environment).

    Byte slices are strings. [Ed25519] and [Curve] are what is used of the cryptographic
    libraries, [Bip39] of the mnemonics; a file that cannot be written is not modelled. *)

From stdpp Require Import gmap strings list.
From Stdlib Require Import Ascii ZArith Lia.
From S2P Require Import Prelude Reservation Versioned Storage BtrfsUtil Disk Bus.

Open Scope Z_scope.

(** ** kernel.go *)

Definition Params : Type := gmap string (list string).

Definition params_Exists (k : Params) (key : string) : bool := bool_decide (is_Some (k !! key)).
Definition params_Get (k : Params) (key : string) : option (list string) := k !! key.

(** A parameter without a value forgets the values that came before it. *)
Definition add_param (options : Params) (option : string) : Params :=
  match split_first "=" option with
  | Some (key, v) => <[key := default [] (options !! key) ++ [v]]> options
  | None => <[option := []]> options
  end.

(** [shlex_Split] is [shlex.Split] of github.com/google/shlex. *)
Definition parseParams (shlex_Split : string -> list string) (content : string) : Params :=
  foldl add_param ∅ (shlex_Split (TrimSpace content)).

Definition GetParams {W} (shlex_Split : string -> list string) (cmdline : M W string) : M W Params :=
  content ← try cmdline;
  mret (match content with inl content => parseParams shlex_Split content | inr _ => ∅ end).

(** ** environment.go *)

Inductive RunningMode := RunningDev | RunningTest | RunningMain.

Definition RunningMode_String (r : RunningMode) : string :=
  match r with RunningDev => "development" | RunningMain => "production" | RunningTest => "testing" end.

Record Environment := MkEnvironment {
  env_RunningMode : RunningMode; env_BcdbURL : string; env_BcdbPassword : string;
  env_FlistURL : string; env_BinRepo : string; env_FarmerID : Z; env_Orphan : bool
}.

Definition OrphanageDev : Z := 0.
Definition OrphanageTest : Z := 0.
Definition OrphanageMain : Z := 0.

Definition envDev : Environment :=
  MkEnvironment RunningDev "https://explorer.devnet.grid.tf/explorer" "" "zdb://hub.grid.tf:9900" "tf-zos-bins.dev" 0 false.
Definition envTest : Environment :=
  MkEnvironment RunningTest "https://explorer.testnet.grid.tf/explorer" "" "zdb://hub.grid.tf:9900" "tf-zos-bins.test" 0 false.
Definition envProd : Environment :=
  MkEnvironment RunningMain "https://explorer.grid.tf/explorer" "" "zdb://hub.grid.tf:9900" "tf-zos-bins" 0 false.

Definition set_BcdbURL (u : string) (e : Environment) : Environment :=
  MkEnvironment (env_RunningMode e) u (env_BcdbPassword e) (env_FlistURL e) (env_BinRepo e) (env_FarmerID e) (env_Orphan e).
Definition set_Farm (id : Z) (orphan : bool) (e : Environment) : Environment :=
  MkEnvironment (env_RunningMode e) (env_BcdbURL e) (env_BcdbPassword e) (env_FlistURL e) (env_BinRepo e) id orphan.

(** The first value of a parameter. *)
Definition first_value (params : Params) (key : string) : option string :=
  match params_Get params key with Some (v :: _) => Some v | _ => None end.

Definition env_of_mode (mode : string) : Environment :=
  if (mode =? "dev")%string then envDev else if (mode =? "test")%string then envTest else envProd.

Definition farm_of (params : Params) (env : Environment) : res Environment :=
  match first_value params "farmer_id" with
  | None | Some "" =>
      Ok (set_Farm (match env_RunningMode env with
                    | RunningDev => OrphanageDev | RunningTest => OrphanageTest | RunningMain => OrphanageMain
                    end) true env)
  | Some id =>
      match ParseUint id with
      | Ok id => Ok (set_Farm id false env)
      | Err e => Err (ErrWrap "wrong format for farm ID" e)
      | Panic p => Panic p
      end
  end.

(** The variables of the process win. *)
Definition override (Getenv : string -> string) (e : Environment) : Environment :=
  let or name v := let x := Getenv name in if (x =? "")%string then v else x in
  MkEnvironment (env_RunningMode e) (or "ZOS_BCDB_URL" (env_BcdbURL e)) (or "ZOS_BCDB_PASSWORD" (env_BcdbPassword e))
    (or "ZOS_FLIST_URL" (env_FlistURL e)) (or "ZOS_BIN_REPO" (env_BinRepo e)) (env_FarmerID e) (env_Orphan e).

Definition getEnvironmentFromParams (Getenv : string -> string) (params : Params) : res Environment :=
  let mode := default "prod" (first_value params "runmode") in
  let env := env_of_mode mode in
  let env := if (mode =? "dev")%string then
               match first_value params "bcdb" with Some u => set_BcdbURL u env | None => env end
             else env in
  res_map (override Getenv) (farm_of params env).

Definition environment_Get {W} (Getenv : string -> string) (shlex_Split : string -> list string)
    (cmdline : M W string) : M W Environment :=
  params ← GetParams shlex_Split cmdline; lift (getEnvironmentFromParams Getenv params).

(** ** The package crypto *)

Class Ed25519 := {
  (** [ed25519.NewKeyFromSeed]: the seed followed by the public key *)
  NewKeyFromSeed : string -> string;
  ed_Sign : string -> string -> string;
  ed_Verify : string -> string -> string -> bool;
  b58_Encode : string -> string;
  b58_Decode : string -> string
}.

Class Curve (W : Type) := {
  PrivateToCurve : string -> string;
  PublicToCurve : string -> string;
  X25519 : string -> string -> res string;
  blake2b : string -> string;
  (** nacl: the nonce is in front of what [secretbox_Seal] returns *)
  secretbox_Seal : string -> string -> string -> string;
  secretbox_Open : string -> string -> string -> option string;
  box_Seal : string -> string -> M W string;
  box_Open : string -> string -> string -> res string;
  rand_Read : nat -> M W string
}.

Definition PublicKeySize : nat := 32.
Definition PrivateKeySize : nat := 64.
Definition SeedSize : nat := 32.

(** [sk.Public()] and [sk.Seed()]. *)
Definition key_Public (sk : string) : string := String.substring 32 32 sk.
Definition key_Seed (sk : string) : string := String.substring 0 32 sk.

Section keys.
  Context `{Ed25519}.

Definition KeyFromID (id : string) : res string :=
  let b := b58_Decode id in
  if negb (String.length b =? PublicKeySize)%nat then Err (ErrMsg "wrong key size") else Ok b.

Definition KeyFromHex (h : string) : res string :=
  match hex_DecodeString h with
  | Ok b => if negb (String.length b =? PublicKeySize)%nat then Err (ErrMsg "wrong key size") else Ok b
  | Err e => Err (ErrWrap "invalid hex format" e)
  | Panic p => Panic p
  end.

Definition crypto_Verify (publicKey message sig : string) : res unit :=
  if negb (String.length publicKey =? PublicKeySize)%nat then Err (ErrMsg "public key has the wrong size")
  else if negb (ed_Verify publicKey message sig) then Err (ErrMsg "signature verification failed")
  else Ok tt.

Definition crypto_Sign (privateKey message : string) : res string :=
  if negb (String.length privateKey =? PrivateKeySize)%nat then Err (ErrMsg "private key has the wrong size")
  else Ok (ed_Sign privateKey message).

(** *** provision/crypto.go *)

(** What is signed of a reservation. *)
Definition signed_bytes (r : Reservation) : string :=
  r_NodeID r +:+ (r_User r +:+ (r_Type r +:+ r_Data r)).

Definition set_r_Signature (sig : string) (r : Reservation) : Reservation :=
  MkReservation (r_ID r) (r_NodeID r) (r_User r) (r_Type r) (r_Data r) (r_Created r)
    (r_Duration r) sig (r_ToDelete r) (r_Tag r) (r_Reference r) (r_Result r) (r_Version r).

Definition Reservation_Sign (privateKey : string) (r : Reservation) : res Reservation :=
  res_map (fun sig => set_r_Signature sig r) (crypto_Sign privateKey (signed_bytes r)).

Definition Reservation_Verify (r : Reservation) : res unit :=
  match KeyFromID (r_User r) with
  | Ok publicKey => crypto_Verify publicKey (signed_bytes r) (r_Signature r)
  | Err e => Err (ErrWrap "failed to extract public key from user ID" e)
  | Panic p => Panic p
  end.

End keys.

Section encryption.
  Context {W : Type} `{Curve W}.

Definition crypto_Encrypt (msg pk : string) : M W string := box_Seal msg (PublicToCurve pk).

Definition crypto_Decrypt (msg sk : string) : res string :=
  if (String.length msg <? 48)%nat then Err (ErrMsg "invalid cipher text too short")
  else box_Open msg (PublicToCurve (key_Public sk)) (PrivateToCurve sk).

Definition sharedSecret (sk pk : string) : res string :=
  res_map blake2b (X25519 (PrivateToCurve sk) (PublicToCurve pk)).

(** [msg[:24]] of a shorter message panics. *)
Definition DecryptECDH (msg sk pk : string) : res string :=
  match sharedSecret sk pk with
  | Ok key =>
      if (String.length msg <? 24)%nat then Panic "slice bounds out of range"
      else match secretbox_Open (String.substring 24 (String.length msg - 24) msg) (String.substring 0 24 msg) key with
           | Some decrypted => Ok decrypted
           | None => Err (ErrMsg "decryption error")
           end
  | Err e => Err e
  | Panic p => Panic p
  end.

Definition EncryptECDH (msg sk pk : string) : M W string :=
  key ← lift (sharedSecret sk pk);
  nonce ← rand_Read 24;
  mret (nonce +:+ secretbox_Seal msg nonce key).

End encryption.

(** ** keys.go *)

Record KeyPair := MkKeyPair { kp_PrivateKey : string; kp_PublicKey : string }.

(** The files by their path, and the world. *)
Record IState (W : Type) := MkI { is_files : gmap string string; is_world : W }.
Arguments MkI {W}.
Arguments is_files {W}.
Arguments is_world {W}.

(** The mnemonic of the JSON of a seed, and the entropy it stands for. *)
Class Bip39 := {
  dec_mnemonic : string -> res string;
  EntropyFromMnemonic : string -> res string
}.

Section identity.
  Context {W : Type} `{Ed25519} `{Bip39} `{JsonUnquote} `{Semver}.
  Context (v0 SeedVersion1 SeedVersion11 : Version).
  (** [ed25519.GenerateKey]: the public and the private key *)
  Context (ed_GenerateKey : M W (string * string)).

Notation IM := (M (IState W)).

Definition ver_EQ (a b : Version) : bool := ver_le a b && ver_le b a.

Definition KeyPair_Identity (k : KeyPair) : string := b58_Encode (kp_PublicKey k).

Definition in_world {A} (m : M W A) : IM A := fun s =>
  let '(w, x) := m (is_world s) in (MkI (is_files s) w, x).

Definition GenerateKeyPair : IM KeyPair :=
  '(publicKey, privateKey) ← in_world ed_GenerateKey;
  mret (MkKeyPair privateKey publicKey).

Definition write_seed (path : string) (v : Version) (seed : string) : IM unit :=
  modify (fun s => MkI (<[path := WriteFile v seed]> (is_files s)) (is_world s)).

Definition KeyPair_Save (k : KeyPair) (path : string) : IM unit :=
  write_seed path SeedVersion1 (key_Seed (kp_PrivateKey k)).

(** A seed without a version is a binary one; it is written back as one of the latest
    version. *)
Definition LoadSeed (path : string) : IM string :=
  content ← gets (fun s => is_files s !! path);
  match content with
  | None => throw ErrNotExist
  | Some content =>
      let '((version, seed), err) := ReadFile v0 content in
      version ← match err with
                | Some _ => write_seed path SeedVersion11 seed ;; mret SeedVersion1
                | None => mret version
                end;
      if negb (ver_EQ version SeedVersion1) && negb (ver_EQ version SeedVersion11) then
        throw (ErrMsg "unknown seed version")
      else if ver_EQ version SeedVersion1 then mret seed
      else mnemonic ← lift (dec_mnemonic seed); lift (EntropyFromMnemonic mnemonic)
  end.

Definition FromSeed (seed : string) : res KeyPair :=
  if negb (String.length seed =? SeedSize)%nat then
    Err (ErrMsg ("seed has the wrong size " +:+ Itoa (Z.of_nat (String.length seed)) +:+ " and should be 32"))
  else let privateKey := NewKeyFromSeed seed in Ok (MkKeyPair privateKey (key_Public privateKey)).

Definition loadKeyPair (path : string) : IM KeyPair := seed ← LoadSeed path; lift (FromSeed seed).

(** ** identityd.go *)

Definition NewManager (path : string) : IM KeyPair :=
  got ← try (LoadSeed path);
  match got with
  | inr e =>
      if IsNotExist e then
        pair ← wrap "failed to generate key pair" GenerateKeyPair;
        wrap "failed to persist key seed" (KeyPair_Save pair path) ;;
        mret pair
      else throw (ErrWrap "failed to load seed" e)
  | inl seed => wrap "invalid seed file" (lift (FromSeed seed))
  end.

Definition manager_NodeID (key : KeyPair) : string := KeyPair_Identity key.
Definition manager_FarmID (Getenv : string -> string) (shlex_Split : string -> list string) (cmdline : M W string) : M W Z :=
  env ← wrap "failed to parse node environment" (environment_Get Getenv shlex_Split cmdline); mret (env_FarmerID env).
Definition manager_PrivateKey (key : KeyPair) : string := kp_PrivateKey key.
Definition manager_Sign (key : KeyPair) (message : string) : res string := crypto_Sign (kp_PrivateKey key) message.
Definition manager_Verify (key : KeyPair) (message sig : string) : res unit :=
  crypto_Verify (kp_PublicKey key) message sig.
Definition manager_Encrypt `{Curve W} (key : KeyPair) (msg : string) : M W string :=
  crypto_Encrypt msg (kp_PublicKey key).
Definition manager_Decrypt `{Curve W} (key : KeyPair) (msg : string) : res string :=
  crypto_Decrypt msg (kp_PrivateKey key).
Definition manager_EncryptECDH `{Curve W} (key : KeyPair) (msg pk : string) : M W string :=
  EncryptECDH msg (kp_PrivateKey key) pk.
Definition manager_DecryptECDH `{Curve W} (key : KeyPair) (msg pk : string) : res string :=
  DecryptECDH msg (kp_PrivateKey key) pk.

End identity.

(** ** Laws of the libraries *)

Class Ed25519Laws `{Ed25519} := {
  NewKey_length seed : String.length seed = SeedSize -> String.length (NewKeyFromSeed seed) = PrivateKeySize;
  NewKey_seed seed : String.length seed = SeedSize -> key_Seed (NewKeyFromSeed seed) = seed;
  Verify_Sign seed m : String.length seed = SeedSize ->
    ed_Verify (key_Public (NewKeyFromSeed seed)) m (ed_Sign (NewKeyFromSeed seed) m) = true;
  b58_Decode_Encode b : b58_Decode (b58_Encode b) = b
}.

(** Diffie-Hellman: both sides get the same secret. *)
Class CurveLaws (W : Type) `{Curve W} := {
  X25519_comm a b :
    X25519 (PrivateToCurve a) (PublicToCurve (key_Public b)) = X25519 (PrivateToCurve b) (PublicToCurve (key_Public a));
  secretbox_Open_Seal msg nonce key : secretbox_Open (secretbox_Seal msg nonce key) nonce key = Some msg;
  rand_length n w w' b : rand_Read n w = (w', Ok b) -> String.length b = n
}.

(** ** Lemmas *)

Section byte_strings.

Lemma length_append_string a b : String.length (a +:+ b) = (String.length a + String.length b)%nat.
Proof. induction a as [|c a IH]; [done|]. change (S (String.length (a +:+ b)) = S (String.length a + String.length b)). by rewrite IH. Qed.

Lemma length_substring_all n m s : (n + m <= String.length s)%nat -> String.length (String.substring n m s) = m.
Proof.
  revert n m. induction s as [|c s IH]; intros n m Hl; cbn [String.length] in Hl.
  - by destruct n, m; cbn in *; try lia.
  - destruct n as [|n]; [|cbn; apply IH; lia]. destruct m as [|m]; [done|]. cbn. f_equal. apply IH. lia.
Qed.

End byte_strings.

Section signatures.
  Context {ed : Ed25519} {laws : Ed25519Laws}.

Lemma key_Public_length seed : String.length seed = SeedSize -> String.length (key_Public (NewKeyFromSeed seed)) = PublicKeySize.
Proof. intros Hs. apply length_substring_all. rewrite NewKey_length by done. unfold PublicKeySize, PrivateKeySize. lia. Qed.

(** A reservation that a user signs with the key of his identity is
    accepted, and what was signed is not changed by signing it. *)
Theorem Sign_Verify seed k r : FromSeed seed = Ok k -> r_User r = KeyPair_Identity k ->
  exists r', Reservation_Sign (kp_PrivateKey k) r = Ok r' /\ Reservation_Verify r' = Ok tt /\
    signed_bytes r' = signed_bytes r.
Proof.
  unfold FromSeed. destruct (Nat.eqb_spec (String.length seed) SeedSize) as [Hs|]; cbn [negb]; [|done].
  intros [= <-] Hu. cbn [kp_PrivateKey]. unfold Reservation_Sign, crypto_Sign. rewrite NewKey_length, Nat.eqb_refl by done.
  cbn [negb res_map]. eexists. split; [done|]. split; [|done]. unfold Reservation_Verify, KeyFromID.
  cbn [r_User set_r_Signature r_Signature]. rewrite Hu. unfold KeyPair_Identity. cbn [kp_PublicKey].
  rewrite b58_Decode_Encode, key_Public_length, Nat.eqb_refl by done. cbn [negb]. unfold crypto_Verify.
  rewrite key_Public_length, Nat.eqb_refl by done. cbn [negb].
  change (signed_bytes (set_r_Signature ?x r)) with (signed_bytes r). by rewrite Verify_Sign.
Qed.

End signatures.

Section secrets.
  Context {W : Type} {curve : Curve W} {laws : CurveLaws W}.

(** What is encrypted for a node with the keys of a user is what the node
    decrypts with its own key and the public key of the user. *)
Theorem ECDH_roundtrip msg a b w w' c : EncryptECDH msg a (key_Public b) w = (w', Ok c) ->
  DecryptECDH c b (key_Public a) = Ok msg.
Proof.
  unfold EncryptECDH, DecryptECDH, sharedSecret. rewrite (X25519_comm a b). intros Hrun.
  ok_bind Hrun w1 key H1. ok_bind Hrun w2 nonce H2. injection Hrun as _ <-. injection H1 as _ H1. rewrite H1.
  apply rand_length in H2. rewrite length_append_string, H2.
  destruct (Nat.ltb_spec (24 + String.length (secretbox_Seal msg nonce key)) 24); [lia|].
  replace (24 + String.length (secretbox_Seal msg nonce key) - 24)%nat with (String.length (secretbox_Seal msg nonce key)) by lia.
  pose proof (substring_suffix nonce (secretbox_Seal msg nonce key)) as Hs. rewrite H2 in Hs.
  pose proof (substring_0 nonce (secretbox_Seal msg nonce key)) as Hp. rewrite H2 in Hp.
  rewrite Hs, Hp. by rewrite secretbox_Open_Seal.
Qed.

End secrets.

Section managers.
  Context {W : Type} {ed : Ed25519} {laws : Ed25519Laws} {bip : Bip39} {uq : JsonUnquote} {semver : Semver}.
  Context (v0 SeedVersion1 SeedVersion11 : Version) (gen : M W (string * string)).
  (** a key that is generated comes from a seed *)
  Hypothesis gen_key : forall w w' pub priv, gen w = (w', Ok (pub, priv)) ->
    exists seed, String.length seed = SeedSize /\ priv = NewKeyFromSeed seed /\ pub = key_Public priv.
  Hypothesis version1 : ver_EQ SeedVersion1 SeedVersion1 = true.

Notation NewManager := (NewManager v0 SeedVersion1 SeedVersion11 gen).
Notation LoadSeed := (LoadSeed (W := W) v0 SeedVersion1 SeedVersion11).

(** A file that is versioned is not written. *)
Lemma LoadSeed_keeps path s : (forall c, is_files s !! path = Some c -> exists v d, NewReader c = Ok (v, d)) ->
  (LoadSeed path s).1 = s.
Proof.
  intros Hv. unfold Identity.LoadSeed. cbn [mbind M_bind gets]. unfold mbind, M_bind, gets.
  destruct (is_files s !! path) as [c|]; [|done]. destruct (Hv c eq_refl) as (v & d & Hr).
  unfold ReadFile. rewrite Hr. cbn. by repeat case_match.
Qed.

Lemma LoadSeed_saved path seed m w : LoadSeed path (MkI (<[path := WriteFile SeedVersion1 seed]> m) w) =
  (MkI (<[path := WriteFile SeedVersion1 seed]> m) w, Ok seed).
Proof.
  unfold Identity.LoadSeed, mbind, M_bind, gets. cbn [is_files]. rewrite lookup_insert_eq, ReadFile_WriteFile.
  cbn. by rewrite version1.
Qed.

Lemma FromSeed_seed seed : String.length seed = SeedSize -> FromSeed seed = Ok (MkKeyPair (NewKeyFromSeed seed) (key_Public (NewKeyFromSeed seed))).
Proof. intros Hs. unfold FromSeed. by rewrite Hs. Qed.

(** C21 (invariant): the identity of a node survives its restarts: once the manager has
    started, with a seed file that has a version or with none, starting it again gives
    the same keys. *)
Theorem NewManager_stable path s s' k :
  (forall c, is_files s !! path = Some c -> exists v d, NewReader c = Ok (v, d)) ->
  NewManager path s = (s', Ok k) -> NewManager path s' = (s', Ok k).
Proof.
  intros Hv Hrun. pose proof (LoadSeed_keeps path s Hv) as Hk. pose proof Hrun as Hrun0.
  unfold Identity.NewManager in Hrun. ok_bind Hrun s1 got H1. unfold try in H1.
  destruct (LoadSeed path s) as [s2 x] eqn:El. cbn in Hk. subst s2. destruct x as [seed|e|]; simplify_eq.
  - destruct (FromSeed seed); unfold wrap, lift in Hrun; simplify_eq. done.
  - destruct (IsNotExist e); [|done]. ok_bind Hrun s2 kp H2. ok_bind Hrun s3 u H3. injection Hrun as <- <-.
    apply wrap_Ok in H2, H3. unfold GenerateKeyPair in H2. ok_bind H2 s4 pp H4. destruct pp as [pub priv].
    injection H2 as <- <-. unfold in_world in H4. destruct (gen (is_world s1)) as [w y] eqn:Eg. simplify_eq.
    destruct (gen_key _ _ _ _ Eg) as (seed & Hs & -> & ->). injection H3 as <- _. cbn [is_files is_world].
    unfold Identity.NewManager, mbind, M_bind, try. unfold KeyPair_Save, write_seed. cbn [kp_PrivateKey].
    rewrite NewKey_seed, LoadSeed_saved by done. unfold wrap, lift. by rewrite FromSeed_seed.
Qed.

End managers.

(** A seed without a version is read once: the file is written back as a mnemonic, which
    the bytes of a seed are not, and the next start fails. *)
Theorem unversioned_seed_lost `{Ed25519} `{Bip39} `{JsonUnquote} `{Semver} {W} v0 V1 V11 (gen : M W (string * string))
    path seed k e e' m w :
  m !! path = Some seed -> NewReader seed = Err e -> FromSeed seed = Ok k ->
  dec_mnemonic seed = Err e' -> IsNotExist e' = false ->
  ver_EQ V1 V1 = true -> ver_EQ V11 V11 = true -> ver_EQ V11 V1 = false ->
  exists s1, NewManager v0 V1 V11 gen path (MkI m w) = (s1, Ok k) /\
    (NewManager v0 V1 V11 gen path s1).2 = Err (ErrWrap "failed to load seed" e').
Proof.
  intros Hm Hr Hk Hd Hn H1' H2' H3'. exists (MkI (<[path := WriteFile V11 seed]> m) w). split.
  - unfold NewManager, LoadSeed, try, mbind, M_bind, gets. cbn [is_files]. rewrite Hm. unfold ReadFile. rewrite Hr.
    cbn. rewrite H1'. cbn. unfold wrap, lift. by rewrite Hk.
  - unfold NewManager, LoadSeed, try, mbind, M_bind, gets. cbn [is_files].
    rewrite lookup_insert_eq, ReadFile_WriteFile. cbn. rewrite H2', H3'. cbn. rewrite Hd. cbn. by rewrite Hn.
Qed.

(** ** Examples *)

Module IdDemo.

(** Keys whose public half is the seed itself. *)
#[local] Instance demo_ed : Ed25519 := {|
  NewKeyFromSeed s := s +:+ s;
  ed_Sign k m := String.substring 0 32 k +:+ m;
  ed_Verify p m sig := (sig =? p +:+ m)%string;
  b58_Encode b := b;
  b58_Decode b := b
|}.

#[local] Instance demo_ed_laws : Ed25519Laws.
Proof.
  assert (Hp : forall s, String.length s = SeedSize -> key_Public (s +:+ s) = s).
  { intros s Hs. pose proof (substring_suffix s s) as H. rewrite Hs in H. exact H. }
  assert (H0 : forall s, String.length s = SeedSize -> key_Seed (s +:+ s) = s).
  { intros s Hs. pose proof (substring_0 s s) as H. rewrite Hs in H. exact H. }
  split; cbn.
  - intros s Hs. rewrite length_append_string, Hs. reflexivity.
  - exact H0.
  - intros s m Hs. rewrite Hp by done. change (String.substring 0 32 (s +:+ s)) with (key_Seed (s +:+ s)).
    rewrite H0 by done. apply String.eqb_refl.
  - done.
Qed.

#[local] Instance demo_bip : Bip39 := {|
  dec_mnemonic s := if HasPrefix s "{" then Ok s else Err (ErrMsg "invalid character");
  EntropyFromMnemonic s := Ok s
|}.

#[local] Existing Instance demo_JsonUnquote.
#[local] Existing Instance demo_Semver.

Definition demo_seed : string := "abcdefghijklmnopqrstuvwxyz012345".
Definition demo_gen : M unit (string * string) := fun w => (w, Ok (demo_seed, demo_seed +:+ demo_seed)).

Lemma demo_gen_key w w' pub priv : demo_gen w = (w', Ok (pub, priv)) ->
  exists seed, String.length seed = SeedSize /\ priv = NewKeyFromSeed seed /\ pub = key_Public priv.
Proof. intros [= _ <- <-]. exists demo_seed. done. Qed.

Definition demo_key : KeyPair := MkKeyPair (demo_seed +:+ demo_seed) demo_seed.
Definition empty_node : IState unit := MkI ∅ tt.
Definition first_start := NewManager V0 V1 V2 demo_gen "/seed.txt" empty_node.

Lemma NewManager_stable_witness :
  first_start = (first_start.1, Ok demo_key) /\
  NewManager V0 V1 V2 demo_gen "/seed.txt" first_start.1 = (first_start.1, Ok demo_key).
Proof.
  assert (Hrun : first_start = (first_start.1, Ok demo_key)) by (vm_compute; reflexivity).
  split; [exact Hrun|].
  apply (NewManager_stable (semver := demo_Semver) V0 V1 V2 demo_gen demo_gen_key eq_refl "/seed.txt" empty_node first_start.1 demo_key);
    [done|exact Hrun].
Defined.

Definition order_ : Reservation :=
  MkReservation "1-1" "node" demo_seed "volume" "{}" 0 0 "" false ∅ "" zeroResult 0.

Lemma Sign_Verify_witness :
  FromSeed demo_seed = Ok demo_key /\ r_User order_ = KeyPair_Identity demo_key /\
  exists r', Reservation_Sign (kp_PrivateKey demo_key) order_ = Ok r' /\ Reservation_Verify r' = Ok tt /\
    signed_bytes r' = signed_bytes order_.
Proof.
  split; [reflexivity|]. split; [reflexivity|].
  exact (Sign_Verify demo_seed demo_key order_ eq_refl eq_refl).
Defined.

Fixpoint zeros (n : nat) : string := match n with O => "" | S n => String "0" (zeros n) end.

Lemma length_zeros n : String.length (zeros n) = n.
Proof. induction n as [|n IH]; cbn; congruence. Qed.

(** A curve on which both sides know how long the keys are. *)
#[local] Instance demo_curve : Curve nat := {|
  PrivateToCurve s := key_Public s;
  PublicToCurve s := s;
  X25519 a b := Ok (zeros (String.length a + String.length b));
  blake2b s := s;
  secretbox_Seal m n k := k +:+ m;
  secretbox_Open c n k := Some (String.substring (String.length k) (String.length c - String.length k) c);
  box_Seal m p w := (w, Ok m);
  box_Open m p k := Ok m;
  rand_Read n w := (S w, Ok (zeros n))
|}.

#[local] Instance demo_curve_laws : CurveLaws nat.
Proof.
  split; cbn.
  - intros a b. by rewrite Nat.add_comm.
  - intros m _ k. rewrite length_append_string.
    replace (String.length k + String.length m - String.length k)%nat with (String.length m) by lia.
    by rewrite substring_suffix.
  - intros n w w' b [= _ <-]. apply length_zeros.
Qed.

Definition alice : string := "aliceisateapot00".
Definition bob : string := demo_seed +:+ demo_seed.
Definition cipher : string := zeros 24 +:+ (zeros 32 +:+ "secret").

Lemma ECDH_roundtrip_witness :
  EncryptECDH "secret" alice (key_Public bob) 0%nat = (1%nat, Ok cipher) /\
  DecryptECDH cipher bob (key_Public alice) = Ok "secret".
Proof.
  assert (Hrun : EncryptECDH "secret" alice (key_Public bob) 0%nat = (1%nat, Ok cipher)) by (vm_compute; reflexivity).
  split; [exact Hrun|]. exact (ECDH_roundtrip "secret" alice bob 0%nat 1%nat cipher Hrun).
Defined.

(** A cipher text of fewer than 24 bytes. *)
Example short_cipher : DecryptECDH "short" bob (key_Public alice) = Panic "slice bounds out of range".
Proof. vm_compute. reflexivity. Qed.

(** The seed of the example without a version: the second start fails. *)
Example second_start : let first := NewManager V0 V1 V2 demo_gen "/seed.txt" (MkI {["/seed.txt" := demo_seed]} tt) in
  first.2 = Ok demo_key /\ is_ok (NewManager V0 V1 V2 demo_gen "/seed.txt" first.1).2 = false.
Proof. vm_compute. done. Qed.

(** A parameter of the kernel that is repeated without a value has none. *)
Example flag_resets :
  first_value (foldl add_param ∅ ["farmer_id=12"; "farmer_id"]) "farmer_id" = None /\
  res_map env_FarmerID (getEnvironmentFromParams (fun _ => "") (foldl add_param ∅ ["runmode=dev"; "farmer_id=12"])) = Ok 12.
Proof. vm_compute. done. Qed.

End IdDemo.
