(* ===== verification/Capacity.v ===== *)
(** The capacity of a node: src/pkg/capacity (capacity.go, resource.go, size.go) and what it
    reads of the hardware, src/pkg/capacity/dmi (the parser of dmidecode) and
    src/pkg/capacity/smartctl.

    The output of a program is its text; white space is that of ASCII. A regular expression
    is the function that finds its leftmost match. *)

From stdpp Require Import gmap strings list.
From Stdlib Require Import Ascii ZArith Lia.
From S2P Require Import Prelude Reservation Versioned Storage BtrfsUtil.

Open Scope Z_scope.

(** ** dmi.go *)

Definition DecoderVersion : string := "0-core Go dmi decoder v0.2.0".

Record PropertyData := MkPropertyData { pd_Val : string; pd_Items : list string }.
Record SubSection := MkSubSection { sub_Title : string; sub_Properties : gmap string PropertyData }.
Record DmiSection := MkDmiSection {
  sec_HandleLine : string; sec_TypeStr : string; sec_Type : Z; sec_SubSections : list SubSection
}.
Record Tooling := MkTooling { to_Aggregator : string; to_Decoder : string }.
Record DMI := MkDMI { dmi_Tooling : Tooling; dmi_Sections : list DmiSection }.

(** The types from 0. *)
Definition dmitypeToString : list string :=
  ["BIOS"; "System"; "Baseboard"; "Chassis"; "Processor"; "MemoryController"; "MemoryModule"; "Cache";
   "PortConnector"; "SystemSlots"; "OnBoardDevices"; "OEMSettings"; "SystemConfigurationOptions"; "BIOSLanguage";
   "GroupAssociations"; "SystemEventLog"; "PhysicalMemoryArray"; "MemoryDevice"; "32BitMemoryError";
   "MemoryArrayMappedAddress"; "MemoryDeviceMappedAddress"; "BuiltinPointingDevice"; "PortableBattery";
   "SystemReset"; "HardwareSecurity"; "SystemPowerControls"; "VoltageProbe"; "CoolingDevice"; "TempratureProbe";
   "ElectricalCurrentProbe"; "OutOfBandRemoteAccess"; "BootIntegrityServices"; "SystemBoot"; "64BitMemoryError";
   "ManagementDevice"; "ManagementDeviceComponent"; "ManagementThresholdData"; "MemoryChannel"; "IPMIDevice";
   "PowerSupply"; "AdditionalInformation"; "OnboardDeviceExtendedInformation"; "ManagementControllerHostInterface"].

(** A type is not negative: it is read from digits. *)
Definition dmiTypeToString (t : Z) : string :=
  match dmitypeToString !! Z.to_nat t with Some s => s | None => "Custom Type " +:+ Itoa t end.

Definition is_digit (c : ascii) : bool := bool_decide (is_Some (digit c)).

(** [DMI type ([0-9]+)]: the digits of the leftmost match. *)
Fixpoint dmiTypeRegex (s : string) : option string :=
  let here := if HasPrefix s "DMI type " then
                match span is_digit (String.substring 9 (String.length s - 9) s) with
                | (EmptyString, _) => None
                | (digits, _) => Some digits
                end
              else None in
  match here, s with
  | Some digits, _ => Some digits
  | None, EmptyString => None
  | None, String _ s => dmiTypeRegex s
  end.

Definition getTypeFromHandleLine (line : string) : res Z :=
  match dmiTypeRegex line with
  | Some digits => ParseInt digits
  | None => Err (ErrMsg ("couldn't find dmitype in handleline " +:+ line))
  end.

(** The index of the first character that is not white space, 0 without one. *)
Fixpoint first_black (s : string) : option nat :=
  match s with
  | EmptyString => None
  | String c s => if is_white c then S <$> first_black s else Some 0%nat
  end.

Definition getLineLevel (line : string) : nat := default 0%nat (first_black line).

(** The regular expression of a property: one character, then up to the next colon, and the
    rest. *)
Definition kvRegex (line : string) : option (string * string) :=
  match line with
  | EmptyString => None
  | String c rest =>
      match split_first ":" rest with
      | Some (a, b) => Some (String c a, b)
      | None => None
      end
  end.

Definition propertyFromLine (line : string) : res (string * PropertyData) :=
  match kvRegex line with
  | Some (k, v) => Ok (TrimSpace k, MkPropertyData (TrimSpace v) [])
  | None => Err (ErrMsg ("couldn't find key value pair on the line " +:+ line))
  end.

(** The lines from the first on that are indented as much as it. *)
Fixpoint read_items (level : nat) (lines : list string) : list string * list string :=
  match lines with
  | [] => ([], [])
  | line :: rest =>
      if (level <=? getLineLevel line)%nat then
        let '(items, rest) := read_items level rest in (TrimSpace line :: items, rest)
      else ([], lines)
  end.

(** The items, and the lines behind them. *)
Definition readList (d : PropertyData) (lines : list string) : PropertyData * list string :=
  match lines with
  | [] => (d, [])
  | line :: _ =>
      let '(items, rest) := read_items (getLineLevel line) lines in
      (MkPropertyData (pd_Val d) (pd_Items d ++ items), rest)
  end.

Definition add_property (k : string) (d : PropertyData) (s : SubSection) : SubSection :=
  MkSubSection (sub_Title s) (<[k := d]> (sub_Properties s)).

Definition indented (line : string) : bool :=
  match line with String c _ => is_white c | EmptyString => false end.

(** The loop of [readSection]: the sub-sections that are done, the one that is read, and the
    lines that are left, an empty one first. *)
Fixpoint read_lines (fuel : nat) (subs : list SubSection) (cur : SubSection) (lines : list string)
    : res (list SubSection * list string) :=
  match fuel with
  | O => Panic "fuel"
  | S fuel =>
      match lines with
      | [] => Ok (subs ++ [cur], [])
      | line :: rest =>
          if (TrimSpace line =? "")%string then Ok (subs ++ [cur], lines)
          else if negb (indented line) then read_lines fuel (subs ++ [cur]) (MkSubSection line ∅) rest
          else
            match propertyFromLine line with
            | Ok (key, d) =>
                let next := match rest with l :: _ => getLineLevel l | [] => 0%nat end in
                let '(d, rest) := if (getLineLevel line <? next)%nat then readList d rest else (d, rest) in
                read_lines fuel subs (add_property key d cur) rest
            | Err e => Err e
            | Panic p => Panic p
            end
      end
  end.

Definition readSection (lines : list string) : res (DmiSection * list string) :=
  match lines with
  | handle :: title :: rest =>
      match getTypeFromHandleLine handle with
      | Ok t =>
          res_map (fun '(subs, rest) => (MkDmiSection handle (dmiTypeToString t) t subs, rest))
            (read_lines (S (length rest)) [] (MkSubSection title ∅) rest)
      | Err e => Err e
      | Panic p => Panic p
      end
  | _ => Err (ErrMsg "invalid section size")
  end.

(** The aggregator, and the lines behind it. *)
Fixpoint read_header (lines : list string) : string * list string :=
  match lines with
  | [] => ("", [])
  | line :: rest =>
      if HasPrefix line "Handle" then ("", lines)
      else if HasPrefix line "#" then (TrimSpace (TrimPrefix line "#"), rest)
      else read_header rest
  end.

(** The line that a section ends with is skipped. *)
Fixpoint read_sections (fuel : nat) (lines : list string) : res (list DmiSection) :=
  match fuel with
  | O => Panic "fuel"
  | S fuel =>
      match lines with
      | [] => Ok []
      | line :: rest =>
          if HasPrefix line "Handle" then
            match readSection lines with
            | Ok (section, rest) => res_map (cons section) (read_sections fuel (drop 1 rest))
            | Err e => Err e
            | Panic p => Panic p
            end
          else read_sections fuel rest
      end
  end.

Definition parseDMI (input : string) : res DMI :=
  let '(aggregator, lines) := read_header (Split nl input) in
  let aggregator := if (aggregator =? "")%string then "unknown" else aggregator in
  res_map (MkDMI (MkTooling aggregator DecoderVersion)) (read_sections (S (length lines)) lines).

(** ** smartctl.go *)

Record SmartDevice := MkSmartDevice { sd_Type : string; sd_Path : string }.
Record SmartInfo := MkSmartInfo { si_Tool : string; si_Environment : string; si_Information : gmap string string }.

Definition ErrEmpty : error := ErrMsg "smartctl returned an empty response".

Definition black (c : ascii) : bool := negb (is_white c).

(** A run of a class, of at least one character. *)
Definition run (f : ascii -> bool) (s : string) : option (string * string) :=
  match span f s with (EmptyString, _) => None | r => Some r end.

Definition strip (p s : string) : option string :=
  if HasPrefix s p then Some (String.substring (String.length p) (String.length s - String.length p) s) else None.

(** A word, [-d], a word and [#], with white space between them. *)
Definition reScan (line : string) : option (string * string) :=
  '(path, s) ← run black line;
  '(_, s) ← run is_white s;
  s ← strip "-d" s;
  '(_, s) ← run is_white s;
  '(type, s) ← run black s;
  '(_, s) ← run is_white s;
  _ ← strip "#" s;
  Some (path, type).

Fixpoint parse_scan_lines (lines : list string) : res (list SmartDevice) :=
  match lines with
  | [] => Ok []
  | line :: lines =>
      match reScan line with
      | Some (path, type) => res_map (cons (MkSmartDevice type path)) (parse_scan_lines lines)
      | None => Err (ErrMsg "failed to parse ourput of 'smartctl --scan'")
      end
  end.

Definition parseScan (b : string) : res (list SmartDevice) := parse_scan_lines (Split nl (TrimSpace b)).

(** The part of a string in front of its last [c]. *)
Fixpoint before_last (c : ascii) (s : string) : option string :=
  match s with
  | EmptyString => None
  | String x s =>
      match before_last c s with
      | Some a => Some (String x a)
      | None => if Ascii.eqb x c then Some EmptyString else None
      end
  end.

Definition is_bracket (c : ascii) : bool := Ascii.eqb c "[".

(** The tool, and in brackets its environment, at the start of a string. *)
Definition header_here (s : string) : option (string * string) :=
  '(tool, s) ← run (fun c => negb (is_bracket c)) s;
  s ← strip "[" s;
  match before_last "]" (span (fun c => negb (is_bracket c)) s).1 with
  | None | Some EmptyString => None
  | Some env => Some (tool, env)
  end.

Fixpoint reHeader (s : string) : option (string * string) :=
  match header_here s, s with
  | Some m, _ => Some m
  | None, EmptyString => None
  | None, String _ s => reHeader s
  end.

(** A key, a colon, white space and a value at the start of a string; the value without
    the white space around it. *)
Definition info_here (s : string) : option (string * string) :=
  '(k, s) ← run (fun c => negb (Ascii.eqb c ":")) s;
  s ← strip ":" s;
  match s with
  | String c (String _ _) => if is_white c then Some (k, TrimSpace s) else None
  | _ => None
  end.

Fixpoint reInfo (s : string) : option (string * string) :=
  match info_here s, s with
  | Some m, _ => Some m
  | None, EmptyString => None
  | None, String _ s => reInfo s
  end.

Definition add_info (m : gmap string string) (line : string) : gmap string string :=
  match reInfo line with
  | Some (k, v) =>
      let k := TrimSpace k in
      if (k =? "Local Time is")%string then m else <[k := v]> m
  | None => m
  end.

(** [header[1]] of a line that does not match panics. *)
Definition parseInfo (b : string) : res SmartInfo :=
  match Split nl (TrimSpace b) with
  | [] => Err (ErrMsg "fail to parse smarctl device information")
  | line :: lines =>
      match reHeader line with
      | Some (tool, env) => Ok (MkSmartInfo (TrimSpace tool) (TrimSpace env) (foldl add_info ∅ lines))
      | None => Panic "index out of range"
      end
  end.

Section smartctl.
  Context {W : Type} (smartctl : list string -> M W string).

Definition ListDevices : M W (list SmartDevice) :=
  output ← smartctl ["--scan"];
  if (output =? "")%string then throw ErrEmpty else lift (parseScan output).

Definition DeviceInfo (d : SmartDevice) : M W SmartInfo :=
  output ← smartctl ["-i"; sd_Path d; "-d"; sd_Type d]; lift (parseInfo output).

(** ** capacity.go *)

Record Disks := MkDisks {
  d_Tool : string; d_Environment : string; d_Aggregator : string; d_Devices : list SmartInfo
}.

Definition zeroInfo : SmartInfo := MkSmartInfo "" "" ∅.

(** A device whose information cannot be read has an empty entry. The error is that of
    the last device. *)
Fixpoint device_infos (d : Disks) (err : option error) (devices : list SmartDevice) : M W (Disks * option error) :=
  match devices with
  | [] => mret (d, err)
  | device :: devices =>
      got ← try (DeviceInfo device);
      match got with
      | inl info =>
          device_infos
            (MkDisks (if (d_Tool d =? "")%string then si_Tool info else d_Tool d)
               (if (d_Environment d =? "")%string then si_Environment info else d_Environment d)
               (d_Aggregator d) (d_Devices d ++ [info])) None devices
      | inr e =>
          device_infos (MkDisks (d_Tool d) (d_Environment d) (d_Aggregator d) (d_Devices d ++ [zeroInfo]))
            (Some e) devices
      end
  end.

Definition is_ErrEmpty (e : error) : bool :=
  match e with ErrMsg m => (m =? "smartctl returned an empty response")%string | _ => false end.

Definition Oracle_Disks : M W Disks :=
  let none := MkDisks "" "" "" [] in
  got ← try ListDevices;
  match got with
  | inr e => if is_ErrEmpty e then mret none else throw e
  | inl devices =>
      '(d, err) ← device_infos none None devices;
      match err with
      | Some e => throw e
      | None => mret (MkDisks (d_Tool d) (d_Environment d) "0-OS smartctl aggregator" (d_Devices d))
      end
  end.

End smartctl.

(** ** resource.go *)

Record Capacity_ := MkCapacity { CRU : Z; MRU : Z; SRU : Z; HRU : Z }.

Definition GiB : Z := 2 ^ 30.

(** What the node is asked: its processors, its memory, its storage by the type of the
    disks, the output of dmidecode and of virt-what, and the time it has been up. *)
Record Probes (W : Type) := MkProbes {
  cpu_Counts : M W Z; mem_Total : M W Z; storage_Total : bool -> M W Z;
  dmidecode : M W string; virt_what : M W string; host_Uptime : M W Z
}.
Arguments cpu_Counts {W}.
Arguments mem_Total {W}.
Arguments storage_Total {W}.
Arguments dmidecode {W}.
Arguments virt_what {W}.
Arguments host_Uptime {W}.

Section oracle.
  Context {W : Type} (p : Probes W).

Definition cru : M W Z := n ← cpu_Counts p; mret (u64 n).
(** The division by [2 ^ 30] is exact. *)
Definition mru : M W Z := total ← mem_Total p; mret (f64_trunc (f64_scale (-30) (f64_of total))).
Definition sru : M W Z := total ← storage_Total p true; mret (total / GiB).
Definition hru : M W Z := total ← storage_Total p false; mret (total / GiB).

Definition Oracle_Total : M W Capacity_ :=
  c ← cru; m ← mru; s ← sru; h ← hru; mret (MkCapacity c m s h).

Definition Oracle_DMI : M W DMI := output ← dmidecode p; lift (parseDMI output).
Definition Oracle_Uptime : M W Z := host_Uptime p.

Definition GetHypervisor : M W (list string) :=
  out ← wrap "could not detect if VM or not" (virt_what p);
  let str := TrimSpace out in
  mret (if (str =? "")%string then [] else Split nl str).

(** *** cmds/modules/capacityd *)

(** The explorer, as far as the daemon uses it. *)
Record CapacityDirectory := MkCapacityDirectory {
  cd_NodeSetCapacity : string -> Capacity_ -> DMI -> Disks -> list string -> M W unit;
  cd_NodeUpdateUptime : string -> Z -> M W unit
}.

Definition sendUptime (cl : CapacityDirectory) (NodeID : M W string) : M W unit :=
  uptime ← Oracle_Uptime; id ← NodeID; cd_NodeUpdateUptime cl id uptime.

(** [cap], up to the ticks: [bcdb] connects to the explorer. Where the code waits for ever,
    no retry is left in a run that still waits. *)
Definition cap (smartctl : list string -> M W string) (retries : nat) (bcdb : M W CapacityDirectory)
    (NodeID : M W string) (Ready : M W unit) : M W CapacityDirectory :=
  cl ← or_exit bcdb;
  nodeID ← NodeID;
  retry retries Ready ;;
  resources ← or_exit Oracle_Total;
  dmi ← or_exit Oracle_DMI;
  disks ← or_exit (Oracle_Disks smartctl);
  hypervisor ← or_exit GetHypervisor;
  retry retries (cd_NodeSetCapacity cl nodeID resources dmi disks hypervisor) ;;
  or_exit (sendUptime cl NodeID) ;;
  mret cl.

(** Each ten minutes. *)
Definition heart_beat (cl : CapacityDirectory) (retries : nat) (NodeID : M W string) : M W unit :=
  ignore (retry retries (sendUptime cl NodeID)).

End oracle.

(** ** Lemmas *)

Section totality.

Lemma read_items_length level lines : (length (read_items level lines).2 <= length lines)%nat.
Proof.
  induction lines as [|l lines IH]; cbn; [lia|]. destruct (_ <=? _)%nat; [|done].
  destruct (read_items level lines) as [items rest]. cbn in *. lia.
Qed.

Lemma readList_length d lines : (length (readList d lines).2 <= length lines)%nat.
Proof.
  unfold readList. destruct lines as [|l lines]; [done|].
  pose proof (read_items_length (getLineLevel l) (l :: lines)) as Hl. by destruct (read_items _ _).
Qed.

(** The fuel is enough: every turn takes a line at least. *)
Lemma read_lines_total fuel : forall subs cur lines, (length lines < fuel)%nat ->
  match read_lines fuel subs cur lines with
  | Ok (_, rest) => (length rest <= length lines)%nat | Err _ => True | Panic _ => False
  end.
Proof.
  induction fuel as [|fuel IH]; intros subs cur lines Hf; [lia|]. cbn [read_lines].
  destruct lines as [|line rest]; [done|]. cbn [length] in Hf. destruct (_ =? _)%string; [done|].
  destruct (indented line); cbn [negb].
  - unfold propertyFromLine. destruct (kvRegex line) as [[k v]|]; [|done].
    set (b := (_ <? _)%nat). set (d := MkPropertyData _ _). pose proof (readList_length d rest) as Hl.
    destruct (if b then readList d rest else (d, rest)) as [d' rest'] eqn:E.
    assert (Hr : (length rest' <= length rest)%nat) by (destruct b; [by rewrite E in Hl|by injection E as <- <-]).
    specialize (IH subs (add_property (TrimSpace k) d' cur) rest' ltac:(lia)).
    destruct (read_lines _ _ _ _) as [[? ?]|?|?]; cbn [length]; [lia|done..].
  - specialize (IH (subs ++ [cur]) (MkSubSection line ∅) rest ltac:(lia)).
    destruct (read_lines _ _ _ _) as [[? ?]|?|?]; cbn [length]; [lia|done..].
Qed.

Lemma read_sections_total fuel : forall lines, (length lines < fuel)%nat ->
  match read_sections fuel lines with Panic _ => False | _ => True end.
Proof.
  induction fuel as [|fuel IH]; intros lines Hf; [lia|]. cbn [read_sections].
  destruct lines as [|line rest]; [done|]. cbn [length] in Hf. destruct (HasPrefix line "Handle"); [|apply IH; lia].
  unfold readSection. destruct rest as [|title rest]; [done|]. cbn [length] in Hf.
  destruct (getTypeFromHandleLine line) as [t|e|m] eqn:Et; [|done|].
  - pose proof (read_lines_total (S (length rest)) [] (MkSubSection title ∅) rest ltac:(lia)) as Hr.
    destruct (read_lines _ _ _ _) as [[subs rest']|?|?]; cbn [res_map]; [|done..].
    specialize (IH (drop 1 rest') ltac:(rewrite length_drop; lia)). by destruct (read_sections _ _).
  - unfold getTypeFromHandleLine in Et. destruct (dmiTypeRegex line); [|done].
    unfold ParseInt in Et. by repeat case_match; simplify_eq.
Qed.

(** The output of dmidecode is always parsed to its end: to the sections
    or to an error, whatever the text is, and without an index out of range. *)
Theorem parseDMI_total input : (exists d, parseDMI input = Ok d) \/ (exists e, parseDMI input = Err e).
Proof.
  unfold parseDMI. destruct (read_header (Split nl input)) as [aggregator lines].
  pose proof (read_sections_total (S (length lines)) lines ltac:(lia)) as Hr.
  destruct (read_sections _ _) as [l|e|m]; [left|right|done]; eauto.
Qed.

End totality.

(** ** The text that dmidecode prints *)

Definition tab : ascii := "009".

(** A line behind some tabs. *)
Fixpoint indent (n : nat) (s : string) : string := match n with O => s | S n => String tab (indent n s) end.

(** A character that is not white space first. *)
Definition word (s : string) : Prop := match s with String c _ => is_white c = false | EmptyString => False end.

(** An item, behind [d] tabs or more; it is read without the white space around it. *)
Definition item_line (d : nat) (item line : string) : Prop :=
  exists n t, line = indent n t /\ (d <= n)%nat /\ word t /\ TrimSpace t = item.

(** The items of a property that is behind [m] tabs: the first one is indented more than
    the property, and the others not less than the first one. *)
Inductive item_lines (m : nat) : list string -> list string -> Prop :=
| items_none : item_lines m [] []
| items_some d t items lines : (m < d)%nat -> word t -> Forall2 (item_line d) items lines ->
    item_lines m (TrimSpace t :: items) (indent d t :: lines).

(** A key without a colon, a colon, and the value, if there is one. *)
Inductive property_lines (m : nat) : string * PropertyData -> list string -> Prop :=
| property_shown k v items lines : word k -> split_first ":" k = None -> item_lines m items lines ->
    property_lines m (TrimSpace k, MkPropertyData (TrimSpace v) items) (indent m (k +:+ String ":" v) :: lines).

(** A title, and the properties in some order. *)
Inductive sub_lines : SubSection -> list string -> Prop :=
| sub_shown m title properties order lines : word title -> (0 < m)%nat ->
    order ≡ₚ map_to_list properties -> Forall2 (property_lines m) order lines ->
    sub_lines (MkSubSection title properties) (title :: concat lines).

(** The handle, the parts, an empty line, and what else there is that is no handle. *)
Inductive section_lines : DmiSection -> list string -> Prop :=
| section_shown handle t bytes subs lines rest :
    all_chars (fun c => negb (Ascii.eqb c "M")) handle = true -> 0 <= t < 256 -> subs <> [] ->
    Forall2 sub_lines subs lines -> Forall (fun l => HasPrefix l "Handle" = false) rest ->
    section_lines
      (MkDmiSection ("Handle " +:+ handle +:+ ", DMI type " +:+ Itoa t +:+ String "," bytes) (dmiTypeToString t) t subs)
      (("Handle " +:+ handle +:+ ", DMI type " +:+ Itoa t +:+ String "," bytes) :: concat lines ++ "" :: rest).

(** The lines of a report: any lines, the name of the program behind a hash, what it says of
    the table, and the sections. *)
Inductive report_lines : DMI -> list string -> Prop :=
| report_shown before name between sections lines :
    Forall (fun l => HasPrefix l "Handle" = false /\ HasPrefix l "#" = false) before ->
    TrimSpace name <> "" -> Forall (fun l => HasPrefix l "Handle" = false) between ->
    Forall2 section_lines sections lines ->
    report_lines (MkDMI (MkTooling (TrimSpace name) "0-core Go dmi decoder v0.2.0") sections)
      (before ++ ("#" +:+ name) :: between ++ concat lines).

Section printing.

Lemma word_cases s : word s -> exists c s', s = String c s' /\ is_white c = false.
Proof. destruct s as [|c s]; [done|]. intros Hc. by exists c, s. Qed.

Lemma trim_word s : word s -> TrimSpace s <> "".
Proof.
  intros (c & s' & -> & Hc)%word_cases. unfold TrimSpace. cbn [skip_white]. rewrite Hc. cbn [trim_right].
  destruct (trim_right s'); rewrite ?Hc; done.
Qed.

Lemma trim_indent n s : TrimSpace (indent n s) = TrimSpace s.
Proof. by induction n. Qed.

Lemma level_indent n s : word s -> getLineLevel (indent n s) = n.
Proof.
  intros (c & s' & -> & Hc)%word_cases. unfold getLineLevel.
  assert (first_black (indent n (String c s')) = Some n) as ->; [|done].
  induction n as [|n IH]; cbn; [by rewrite Hc|]. by rewrite IH.
Qed.

Lemma word_app s t : word s -> word (s +:+ t).
Proof. by destruct s. Qed.

(** The first line is not indented by more than [m]. *)
Definition low (m : nat) (lines : list string) : Prop :=
  match lines with [] => True | l :: _ => (getLineLevel l <= m)%nat end.

Lemma read_items_lines m d items lines rest : (m < d)%nat -> Forall2 (item_line d) items lines -> low m rest ->
  read_items d (lines ++ rest) = (items, rest).
Proof.
  intros Hm Hi Hr. induction Hi as [|i l items lines (n & t & -> & Hn & Hw & <-) _ IH]; cbn [app read_items].
  - destruct rest as [|l rest]; [done|]. cbn [low] in Hr. cbn [read_items].
    by destruct (Nat.leb_spec d (getLineLevel l)); [lia|].
  - rewrite level_indent by done. destruct (Nat.leb_spec d n); [|lia]. by rewrite IH, trim_indent.
Qed.

(** The value and the items of a property. *)
Lemma readList_lines m v items lines rest : item_lines m items lines -> low m rest ->
  (if (m <? match lines ++ rest with l :: _ => getLineLevel l | [] => 0%nat end)%nat
   then readList (MkPropertyData v []) (lines ++ rest) else (MkPropertyData v [], lines ++ rest)) =
  (MkPropertyData v items, rest).
Proof.
  intros Hi Hr. destruct Hi as [|d t items lines Hd Hw Hi].
  - cbn [app]. destruct (Nat.ltb_spec m (match rest with l :: _ => getLineLevel l | [] => 0%nat end)); [|done].
    destruct rest; cbn in *; lia.
  - cbn [app]. rewrite level_indent by done. destruct (Nat.ltb_spec m d); [|lia].
    unfold readList. rewrite level_indent by done. cbn [read_items pd_Val pd_Items app].
    rewrite level_indent, Nat.leb_refl by done. by rewrite (read_items_lines m d items lines), trim_indent.
Qed.

Lemma split_first_indent n k v : split_first ":" k = None ->
  split_first ":" (indent n (k +:+ String ":" v)) = Some (indent n k, v).
Proof. intros Hk. induction n as [|n IH]; cbn [indent]; [by apply split_first_app|]. cbn [split_first]. by rewrite IH. Qed.

(** One property, and its items. *)
Lemma read_property m fuel subs cur kd lines rest : (0 < m)%nat -> property_lines m kd lines -> low m rest ->
  read_lines (S fuel) subs cur (lines ++ rest) = read_lines fuel subs (add_property kd.1 kd.2 cur) rest.
Proof.
  intros Hm [k v items ls Hw Hk Hi] Hr. cbn [fst snd app read_lines].
  set (line := k +:+ String ":" v). assert (Hwl : word line) by by apply word_app.
  rewrite trim_indent. destruct (String.eqb_spec (TrimSpace line) "") as [E|_]; [by apply trim_word in E|].
  rewrite level_indent by done. destruct m as [|m]; [lia|]. cbn [indent indented].
  change (is_white tab) with true. cbn [negb]. unfold propertyFromLine, kvRegex, line.
  rewrite split_first_indent by done.
  change (TrimSpace (String tab (indent m k))) with (TrimSpace (indent (S m) k)). rewrite trim_indent.
  by rewrite (readList_lines (S m) _ items ls rest).
Qed.

(** More fuel than lines makes no difference. *)
Lemma read_lines_fuel f : forall f' subs cur lines, (length lines < f)%nat -> (length lines < f')%nat ->
  read_lines f subs cur lines = read_lines f' subs cur lines.
Proof.
  induction f as [|f IH]; intros f' subs cur lines Hf Hf'; [lia|]. destruct f' as [|f']; [lia|]. cbn [read_lines].
  destruct lines as [|line rest]; [done|]. cbn [length] in Hf, Hf'. destruct (_ =? _)%string; [done|].
  destruct (indented line); cbn [negb]; [|apply IH; lia].
  destruct (propertyFromLine line) as [[k d]|?|?]; [|done..]. pose proof (readList_length d rest) as Hl.
  destruct (_ <? _)%nat; [|apply IH; lia]. destruct (readList d rest). apply IH; cbn in Hl; lia.
Qed.

(** [readSection] with the fuel it takes. *)
Definition read_all (subs : list SubSection) (cur : SubSection) (lines : list string) :=
  read_lines (S (length lines)) subs cur lines.

Lemma read_all_property m subs cur kd lines rest : (0 < m)%nat -> property_lines m kd lines -> low m rest ->
  read_all subs cur (lines ++ rest) = read_all subs (add_property kd.1 kd.2 cur) rest.
Proof.
  intros Hm Hp Hr. unfold read_all. rewrite (read_property m _ _ _ kd) by done. apply read_lines_fuel; [|lia].
  destruct Hp. rewrite length_app. cbn [length]. lia.
Qed.

Lemma read_all_title subs cur title rest : word title ->
  read_all subs cur (title :: rest) = read_all (subs ++ [cur]) (MkSubSection title ∅) rest.
Proof.
  intros Hw. unfold read_all. cbn [read_lines length].
  destruct (String.eqb_spec (TrimSpace title) "") as [E|_]; [by apply trim_word in E|].
  apply word_cases in Hw as (c & s & -> & Hc). cbn [indented]. by rewrite Hc.
Qed.

Lemma read_all_properties m ps lines : (0 < m)%nat -> Forall2 (property_lines m) ps lines ->
  forall subs cur rest, low 0 rest ->
  read_all subs cur (concat lines ++ rest) =
  read_all subs (foldl (fun s kd => add_property kd.1 kd.2 s) cur ps) rest.
Proof.
  intros Hm Hp. induction Hp as [|kd ls ps lines Hkd Hps IH]; intros subs cur rest Hr; [done|].
  cbn [concat foldl]. rewrite <- app_assoc, (read_all_property m _ _ kd); [by apply IH|done|done|].
  destruct Hps as [|kd' ls' ps lines [k v items l Hw _ _] _]; cbn [concat app].
  - destruct rest; cbn in *; [done|lia].
  - cbn [low]. by rewrite level_indent by by apply word_app.
Qed.

Lemma fold_properties title m order : order ≡ₚ map_to_list m ->
  foldl (fun s kd => add_property kd.1 kd.2 s) (MkSubSection title ∅) order = MkSubSection title m.
Proof.
  intros Ho.
  assert (Hf : forall l m0, foldl (fun s (kd : string * PropertyData) => add_property kd.1 kd.2 s) (MkSubSection title m0) l =
    MkSubSection title (foldr (fun kd m => <[kd.1 := kd.2]> m) m0 (reverse l))).
  { induction l as [|kd l IH]; intros m0; [done|]. cbn [foldl]. unfold add_property at 2. cbn [sub_Title sub_Properties].
    by rewrite IH, reverse_cons, foldr_app. }
  rewrite Hf. f_equal. change (list_to_map (reverse order) = m).
  rewrite <- (list_to_map_to_list m). apply list_to_map_proper.
  - rewrite fmap_reverse, reverse_Permutation, Ho. apply NoDup_fst_map_to_list.
  - by rewrite reverse_Permutation.
Qed.

(** The parts after the title of the first one. *)
Lemma read_all_subs more ls : Forall2 sub_lines more ls -> forall subs m title properties order lines rest, (0 < m)%nat ->
  order ≡ₚ map_to_list properties -> Forall2 (property_lines m) order lines ->
  read_all subs (MkSubSection title ∅) (concat lines ++ concat ls ++ "" :: rest) =
  Ok (subs ++ MkSubSection title properties :: more, "" :: rest).
Proof.
  induction 1 as [|s' l more ls Hs Hmore IH]; intros subs m title properties order lines rest Hm Ho Hp.
  - cbn [concat app]. rewrite (read_all_properties m order) by (try done; cbn; lia).
    by rewrite (fold_properties title properties).
  - destruct Hs as [m' title' properties' order' lines' Hw Hm' Ho' Hp']. cbn [concat app].
    rewrite (read_all_properties m order); [|done..|cbn [low]; by rewrite (level_indent 0 title' Hw : getLineLevel title' = 0%nat)].
    rewrite (fold_properties title properties), read_all_title, <- app_assoc by done.
    rewrite (IH _ m' title' properties' order') by done. by rewrite <- app_assoc.
Qed.

(** The type in a handle. *)
Lemma dmiTypeRegex_skip a rest : all_chars (fun c => negb (Ascii.eqb c "M")) a = true ->
  dmiTypeRegex (a +:+ String "D" rest) = dmiTypeRegex (String "D" rest).
Proof.
  induction a as [|c a IH]; [done|]. intros [Hc Ha]%andb_prop. change (String c a +:+ ?x) with (String c (a +:+ x)).
  cbn [dmiTypeRegex]. rewrite (IH Ha).
  assert (HasPrefix (String c (a +:+ String "D" rest)) "DMI type " = false) as ->; [|done].
  unfold HasPrefix. cbn [String.prefix]. destruct (Ascii.ascii_dec "D" c); [|done].
  destruct a as [|c' a]; [done|]. apply andb_prop in Ha as [Ha _]. change (String c' a +:+ ?x) with (String c' (a +:+ x)).
  cbn [String.prefix]. destruct (Ascii.ascii_dec "M" c') as [<-|]; [done|done].
Qed.

Lemma dmiTypeRegex_here s digits rest : HasPrefix s "DMI type " = true ->
  span is_digit (String.substring 9 (String.length s - 9) s) = (digits, rest) -> digits <> "" ->
  dmiTypeRegex s = Some digits.
Proof.
  destruct s as [|c s]; [done|]. cbn [dmiTypeRegex]. intros -> -> Hd. by destruct digits.
Qed.

Lemma handle_type handle t bytes : all_chars (fun c => negb (Ascii.eqb c "M")) handle = true -> 0 <= t < 256 ->
  getTypeFromHandleLine ("Handle " +:+ handle +:+ ", DMI type " +:+ Itoa t +:+ String "," bytes) = Ok t.
Proof.
  intros Hh Ht. unfold getTypeFromHandleLine.
  change (", DMI type " +:+ ?x) with (", " +:+ String "D" ("MI type " +:+ x)).
  rewrite <- !string_app_assoc, dmiTypeRegex_skip.
  2: { rewrite !all_chars_app. repeat (apply andb_true_intro; split); done. }
  assert (Hd : all_chars is_digit (Itoa t) = true).
  { assert (Hu : is_u64 t) by (unfold is_u64, W64; lia). pose proof (all_digits _ _ _ (digits_value_Itoa t Hu)) as Hd.
    eapply all_chars_impl, Hd. intros c. unfold is_digit, BtrfsUtil.is_digit. by destruct (digit c). }
  assert (Hm : dmiTypeRegex ("DMI type " +:+ (Itoa t +:+ String "," bytes)) = Some (Itoa t)).
  { apply (dmiTypeRegex_here _ _ (String "," bytes)); [apply prefix_app| |apply Itoa_nonempty].
    rewrite <- (span_all is_digit (Itoa t) "," bytes) by done. f_equal.
    generalize (Itoa t +:+ String "," bytes). intros b.
    replace (String.length ("DMI type " +:+ b) - 9)%nat with (String.length b) by (change (String.length ("DMI type " +:+ b)) with (9 + String.length b)%nat; lia).
    apply (substring_suffix "DMI type "). }
  change ("DMI type " +:+ ?x) with (String "D" ("MI type " +:+ x)) in Hm. rewrite string_app_assoc, Hm.
  by rewrite ParseInt_Itoa by lia.
Qed.

Lemma readSection_lines s lines rest : section_lines s lines -> exists handle more after,
  lines = handle :: more /\ HasPrefix handle "Handle" = true /\
  Forall (fun l => HasPrefix l "Handle" = false) after /\ (length after < length more)%nat /\
  readSection (lines ++ rest) = Ok (s, "" :: after ++ rest).
Proof.
  intros [handle t bytes subs ls after Hh Ht Hne Hs Ha]. eexists _, _, after.
  split; [reflexivity|]. split; [apply (prefix_app "Handle")|]. split; [done|].
  split; [rewrite length_app; cbn [length]; lia|].
  destruct Hs as [|s0 l subs ls [m title properties order lines0 Hw Hm Ho Hp] Hs]; [done|]. cbn [concat app readSection].
  rewrite handle_type by done. rewrite <- !(assoc_L (++)). cbn [app].
  pose proof (read_all_subs subs ls Hs [] m title properties order lines0 (after ++ rest) Hm Ho Hp) as Hr.
  unfold read_all in Hr. by rewrite Hr.
Qed.

Lemma read_sections_skip after : Forall (fun l => HasPrefix l "Handle" = false) after -> forall fuel rest,
  read_sections (length after + fuel) (after ++ rest) = read_sections fuel rest.
Proof.
  intros Ha. induction Ha as [|l after Hl _ IH]; intros fuel rest; [done|].
  cbn [length app Nat.add read_sections]. by rewrite Hl.
Qed.

Lemma read_sections_lines sections lines : Forall2 section_lines sections lines ->
  forall fuel, (length (concat lines) < fuel)%nat -> read_sections fuel (concat lines) = Ok sections.
Proof.
  induction 1 as [|s l sections lines Hs _ IH]; intros fuel Hf; (destruct fuel as [|fuel]; [lia|]); [done|].
  cbn [concat] in *. destruct (readSection_lines s l (concat lines) Hs) as (handle & more & after & -> & Hh & Ha & Hle & Hr).
  cbn [length app] in *. rewrite length_app in Hf. cbn [read_sections]. rewrite Hh, Hr. cbn [drop].
  replace fuel with (length after + (fuel - length after))%nat by lia.
  rewrite drop_0, read_sections_skip, IH by (done || lia). done.
Qed.

Lemma Split_lines lines : lines <> [] -> Forall (fun l => split_first nl l = None) lines ->
  Split nl (String.concat (String nl "") lines) = lines.
Proof.
  intros Hne Hl. destruct lines as [|l lines]; [done|]. clear Hne. revert l Hl.
  induction lines as [|l' lines IH]; intros l [Hl Hls]%Forall_cons.
  - cbn [String.concat]. induction l as [|c l IHl]; [done|]. apply split_first_cons in Hl as [Hc Hl]. cbn [Split].
    by rewrite Hc, IHl.
  - change (String.concat (String nl "") (l :: l' :: lines)) with (l +:+ String nl (String.concat (String nl "") (l' :: lines))).
    by rewrite Split_app, IH.
Qed.

Lemma read_header_lines before name rest :
  Forall (fun l => HasPrefix l "Handle" = false /\ HasPrefix l "#" = false) before ->
  read_header (before ++ ("#" +:+ name) :: rest) = (TrimSpace name, rest).
Proof.
  induction 1 as [|l before [H1 H2] _ IH]; cbn [app read_header].
  - change (HasPrefix ("#" +:+ name) "Handle") with false. cbn iota.
    assert (HasPrefix ("#" +:+ name) "#" = true) as -> by apply prefix_app. by rewrite TrimPrefix_app.
  - by rewrite H1, H2.
Qed.

End printing.

(** C36 (roundtrip): what dmidecode prints is read as the report that it prints: the name of
    the program behind the hash, whatever lines come before it and between it and the
    first handle, and of every section the handle with its type, the titles, and each
    property under its key with its value, if it has one, and all its items in order, the
    ones that are indented further too; the lines behind the empty line that ends a section
    are passed over. A key has no colon in it, and no item is blank. *)
Theorem parseDMI_show d lines : report_lines d lines -> Forall (fun l => split_first nl l = None) lines ->
  parseDMI (String.concat (String nl "") lines) = Ok d.
Proof.
  intros [before name between sections ls Hb Hname Hn Hs] Hl. unfold parseDMI.
  rewrite Split_lines by (done || by destruct before). rewrite read_header_lines by done. cbn iota.
  destruct (String.eqb_spec (TrimSpace name) "") as [|_]; [done|].
  rewrite length_app, <- Nat.add_succ_r, read_sections_skip, (read_sections_lines sections) by (done || lia). done.
Qed.

Module CapacityDemo.

(** The sixth sample of dmi_test.go. *)
Definition report : DMI :=
  MkDMI (MkTooling "dmidecode 3.1" DecoderVersion)
    [MkDmiSection "Handle 0x0076, DMI type 216, 23 bytes" "Custom Type 216" 216
       [MkSubSection "OEM-specific Type"
          (list_to_map
             [("Header and Data", MkPropertyData "" ["D8 17 76 00 06 00 01 02 05 20 31 2E 33 2E 31 39"; "00 00 00 00 00 00 00"]);
              ("Strings", MkPropertyData "" ["Chassis Firmware"; "1.3.19"])])]].

Definition printed : list string :=
  [""; "# dmidecode 3.1"; "Getting SMBIOS data from sysfs."; "SMBIOS 3.1 present.";
   "188 structures occupying 9476 bytes."; "Table at 0x74921000."; "";
   "Handle 0x0076, DMI type 216, 23 bytes"; "OEM-specific Type";
   indent 1 "Header and Data:"; indent 2 "D8 17 76 00 06 00 01 02 05 20 31 2E 33 2E 31 39"; indent 2 "00 00 00 00 00 00 00";
   indent 1 "Strings:"; indent 2 "Chassis Firmware"; indent 3 "1.3.19"; ""].

Lemma item_shown d n t : (d <= n)%nat -> word t -> item_line d (TrimSpace t) (indent n t).
Proof. intros. by exists n, t. Qed.

Lemma printed_report : report_lines report printed.
Proof.
  apply (report_shown [""] " dmidecode 3.1"
    ["Getting SMBIOS data from sysfs."; "SMBIOS 3.1 present."; "188 structures occupying 9476 bytes."; "Table at 0x74921000."; ""]
    _ [drop 7 printed]); [by repeat constructor|done|by repeat constructor|]. apply Forall2_cons. split; [|constructor].
  apply (section_shown "0x0076" 216 " 23 bytes" _ [take 7 (drop 8 printed)] []); [done|lia|done| |done].
  apply Forall2_cons. split; [|constructor].
  apply (sub_shown 1 "OEM-specific Type" _
    [("Header and Data", MkPropertyData "" ["D8 17 76 00 06 00 01 02 05 20 31 2E 33 2E 31 39"; "00 00 00 00 00 00 00"]);
     ("Strings", MkPropertyData "" ["Chassis Firmware"; "1.3.19"])]
    [take 3 (drop 9 printed); take 3 (drop 12 printed)]); [done|lia| |].
  - symmetry. apply map_to_list_to_map. apply (bool_decide_unpack _). by vm_compute.
  - repeat (apply Forall2_cons; split); [..|constructor].
    + apply (property_shown 1 "Header and Data" ""); [done|done|]. apply (items_some 1 2 "D8 17 76 00 06 00 01 02 05 20 31 2E 33 2E 31 39"); [lia|done|].
      apply Forall2_cons. split; [by apply (item_shown 2 2 "00 00 00 00 00 00 00")|constructor].
    + apply (property_shown 1 "Strings" ""); [done|done|]. apply (items_some 1 2 "Chassis Firmware"); [lia|done|].
      apply Forall2_cons. split; [apply (item_shown 2 3 "1.3.19"); [lia|done]|constructor].
Qed.

Lemma parseDMI_show_witness : length printed = 16%nat /\ parseDMI (String.concat (String nl "") printed) = Ok report.
Proof. split; [done|]. apply (parseDMI_show report printed printed_report). by repeat constructor. Defined.

(** Two disks; the one at [bad] cannot be read. *)
Definition two_disks (bad : string) (args : list string) : M unit string :=
  match args with
  | ["--scan"] => mret ("/dev/sda -d scsi # /dev/sda, SCSI device" +:+ String nl "/dev/sdb -d sat # /dev/sdb, SCSI device")
  | [_; path; _; _] =>
      if (path =? bad)%string then throw (ErrMsg "exit status 2")
      else mret ("smartctl 7.0 [x86_64-linux]" +:+ String nl "Device Model:     QEMU HARDDISK")
  | _ => throw (ErrMsg "usage")
  end.

(** A disk that cannot be read is passed over when another one follows it, and fails the
    whole list when it is the last. *)
Example last_disk :
  (exists d, (Oracle_Disks (two_disks "/dev/sda") tt).2 = Ok d /\ length (d_Devices d) = 2%nat) /\
  (Oracle_Disks (two_disks "/dev/sdb") tt).2 = Err (ErrMsg "exit status 2").
Proof. split; [eexists; split|]; vm_compute; reflexivity. Qed.

Example headless_panics : parseInfo "Smartctl open device: /dev/sda failed" = Panic "index out of range".
Proof. vm_compute. reflexivity. Qed.

End CapacityDemo.
