(* ===== verification/ZdbClient.v ===== *)
(** The client of a 0-db: src/pkg/zdb. A client has an address, a password and, once it is
    connected, a pool of connections; a request before that dereferences nil.

    The redis library is a parameter: how an address is parsed, and what a connection of a
    pool answers to a command. *)

From stdpp Require Import strings list.
From Stdlib Require Import Ascii ZArith Lia.
From S2P Require Import Prelude BtrfsUtil.

Open Scope Z_scope.

(** [url.URL], as far as it is used. *)
Record Url := MkUrl { url_Scheme : string; url_Host : string; url_Path : string; url_User : option string }.

(** What a pool dials with. *)
Record Pool := MkPool { pool_Network : string; pool_Address : string; pool_DialPassword : option string; pool_Auth : string }.

(** The redis library: [Do] of a connection that is taken from a pool and put back, as an
    answer, as a string, as strings, and as a number. *)
Class Redis (W : Type) := {
  url_Parse : string -> res Url;
  redis_Do : Pool -> list string -> M W unit;
  redis_String : Pool -> list string -> M W string;
  redis_Strings : Pool -> list string -> M W (list string);
  redis_Uint64 : Pool -> list string -> M W Z;
  redis_Close : Pool -> M W unit
}.

Record clientImpl (W : Type) := MkClient { cl_addr : string; cl_pool : option Pool; cl_password : string; cl_world : W }.
Arguments MkClient {W}.
Arguments cl_addr {W}.
Arguments cl_pool {W}.
Arguments cl_password {W}.
Arguments cl_world {W}.

Definition New {W} (password addr : string) (w : W) : clientImpl W := MkClient addr None password w.

Section client.
  Context {W : Type} `{Redis W}.

Notation CM := (M (clientImpl W)).

Definition newRedisPool (password address : string) : res Pool :=
  match url_Parse address with
  | Ok u =>
      let pool host := Ok (MkPool (url_Scheme u) host (url_User u) password) in
      if (url_Scheme u =? "tcp")%string then pool (url_Host u)
      else if (url_Scheme u =? "unix")%string then pool (url_Path u)
      else Err (ErrMsg ("unknown scheme '" +:+ url_Scheme u +:+ "' expecting tcp or unix"))
  | Err e => Err e
  | Panic p => Panic p
  end.

(** [Dial] of the pool: a 0-db without a password answers that AUTH is disabled. *)
Definition dial_AUTH (auth : M W unit) : M W unit :=
  got ← try auth;
  match got with
  | inl _ => mret tt
  | inr e => if Contains (Error e) "disabled" then mret tt else throw e
  end.

Definition on_world {A} (m : M W A) : CM A := fun c =>
  let '(w, x) := m (cl_world c) in (MkClient (cl_addr c) (cl_pool c) (cl_password c) w, x).

Definition set_pool (p : option Pool) : CM unit :=
  modify (fun c => MkClient (cl_addr c) p (cl_password c) (cl_world c)).

(** [c.pool.Get()]. *)
Definition the_pool : CM Pool :=
  p ← gets cl_pool; match p with Some p => mret p | None => panic "nil pointer dereference" end.

Definition Connect : CM unit :=
  p ← gets cl_pool;
  match p with
  | Some _ => mret tt
  | None =>
      c ← gets (fun c => c);
      pool ← wrap ("failed to connect to " +:+ cl_addr c) (lift (newRedisPool (cl_password c) (cl_addr c)));
      set_pool (Some pool)
  end ;;
  p ← the_pool; on_world (redis_Do p ["PING"]).

Definition Close : CM unit :=
  p ← gets cl_pool;
  match p with
  | None => mret tt
  | Some p => on_world (redis_Close p) ;; set_pool None
  end.

(** A command whose answer is OK; another answer, which is a message without verbs of a
    format, is the error. *)
Definition do_ok (args : list string) : CM unit :=
  p ← the_pool;
  ok ← on_world (redis_String p args);
  if (ok =? "OK")%string then mret tt else throw (ErrMsg ok).

Definition CreateNamespace (name : string) : CM unit := do_ok ["NSNEW"; name].
Definition DeleteNamespace (name : string) : CM unit := do_ok ["NSDEL"; name].
Definition NamespaceSetSize (name : string) (size : Z) : CM unit := do_ok ["NSSET"; name; "maxsize"; Itoa size].
Definition NamespaceSetPassword (name password : string) : CM unit := do_ok ["NSSET"; name; "password"; password].
Definition NamespaceSetPublic (name : string) (public : bool) : CM unit :=
  do_ok ["NSSET"; name; "public"; if public then "1" else "0"].

Definition Exist (name : string) : CM bool :=
  p ← the_pool;
  got ← try (on_world (redis_Do p ["NSINFO"; name]));
  match got with
  | inl _ => mret true
  | inr e => if Contains (Error e) "not found" then mret false else throw e
  end.

Definition Namespaces : CM (list string) := p ← the_pool; on_world (redis_Strings p ["NSLIST"]).
Definition DBSize : CM Z := p ← the_pool; on_world (redis_Uint64 p ["DBSIZE"]).

End client.

(** ** Sessions *)

Inductive request :=
| QConnect | QCreate (name : string) | QDelete (name : string) | QSize (name : string) (size : Z)
| QPassword (name password : string) | QPublic (name : string) (public : bool) | QExist (name : string)
| QNamespaces | QDBSize.

Section sessions.
  Context {W : Type} {redis : Redis W}.
  (** A connection gives an answer or an error. *)
  Context (Do_calm : forall p args w, forall m, (redis_Do p args w).2 <> Panic m).
  Context (String_calm : forall p args w, forall m, (redis_String p args w).2 <> Panic m).
  Context (Strings_calm : forall p args w, forall m, (redis_Strings p args w).2 <> Panic m).
  Context (Uint64_calm : forall p args w, forall m, (redis_Uint64 p args w).2 <> Panic m).

Definition request_run (q : request) : M (clientImpl W) unit :=
  match q with
  | QConnect => Connect
  | QCreate name => CreateNamespace name
  | QDelete name => DeleteNamespace name
  | QSize name size => NamespaceSetSize name size
  | QPassword name password => NamespaceSetPassword name password
  | QPublic name public => NamespaceSetPublic name public
  | QExist name => Exist name ;; mret tt
  | QNamespaces => Namespaces ;; mret tt
  | QDBSize => DBSize ;; mret tt
  end.

(** A run that keeps the pool and does not panic. *)
Definition safe {A} (p : Pool) (m : M (clientImpl W) A) : Prop :=
  forall c, cl_pool c = Some p -> cl_pool (m c).1 = Some p /\ forall e, (m c).2 <> Panic e.

Lemma safe_bind {A B} p (m : M (clientImpl W) A) (k : A -> M (clientImpl W) B) :
  safe p m -> (forall a, safe p (k a)) -> safe p (m ≫= k).
Proof.
  intros Hm Hk c Hc. destruct (Hm c Hc) as [Hp He]. unfold mbind, M_bind.
  destruct (m c) as [c1 [a|e|e]]; cbn in *; [by apply Hk|split; [done|discriminate]|by destruct (He e)].
Qed.

Lemma safe_ret {A} p (a : A) : safe p (mret a).
Proof. by intros c Hc. Qed.

Lemma safe_throw {A} p e : safe p (throw (A := A) e).
Proof. by intros c Hc. Qed.

Lemma safe_try {A} p (m : M (clientImpl W) A) : safe p m -> safe p (try m).
Proof. intros Hm c Hc. destruct (Hm c Hc) as [Hp He]. unfold try. destruct (m c) as [c1 [a|e|e]]; (split; [done|]); try discriminate. by destruct (He e). Qed.

Lemma safe_pool {B} p (k : Pool -> M (clientImpl W) B) : safe p (k p) -> safe p (the_pool ≫= k).
Proof. intros Hk c Hc. unfold the_pool, gets, mbind, M_bind. rewrite Hc. by apply Hk. Qed.

Lemma safe_world {A} p (m : M W A) : (forall w e, (m w).2 <> Panic e) -> safe p (on_world m).
Proof. intros Hm c Hc. unfold on_world. pose proof (Hm (cl_world c)) as He. by destruct (m (cl_world c)). Qed.

#[local] Hint Resolve safe_ret safe_throw safe_try safe_pool safe_world : core.

Lemma safe_do_ok p args : safe p (do_ok args).
Proof. apply safe_pool, safe_bind; [auto|intros ok]. destruct (ok =? "OK")%string; auto. Qed.

#[local] Hint Resolve safe_do_ok : core.

(** A client that has its pool keeps it over every sequence of requests, and none of them
    panics, whatever the 0-db answers. *)
Theorem session_safe p qs : forall c, cl_pool c = Some p ->
  cl_pool (for_each (fun q => ignore (request_run q)) qs c).1 = Some p /\
  forall e, (for_each (fun q => ignore (request_run q)) qs c).2 <> Panic e.
Proof.
  assert (Hone : forall q, safe p (request_run q)).
  { intros [] ; cbn [request_run]; unfold CreateNamespace, DeleteNamespace, NamespaceSetSize, NamespaceSetPassword,
      NamespaceSetPublic, Exist, Namespaces, DBSize; auto.
    - intros c Hc. assert (Hrun : Connect c = (p ← the_pool; on_world (redis_Do p ["PING"])) c).
      { unfold Connect, gets, mbind, M_bind. by rewrite Hc. }
      rewrite Hrun. apply (safe_pool p (fun p => on_world (redis_Do p ["PING"]))); auto.
    - apply safe_bind; [|auto]. apply safe_pool, safe_bind; [auto|intros [[]|e]; [auto|]]. destruct (Contains _ _); auto.
    - apply safe_bind; auto.
    - apply safe_bind; auto. }
  change (safe p (for_each (fun q => ignore (request_run q)) qs)).
  induction qs as [|q qs IH]; cbn [for_each]; [auto|]. apply safe_bind; [|auto]. intros c Hc.
  destruct (Hone q c Hc) as [Hp He]. unfold ignore. destruct (request_run q c) as [c1 [a|e|e]]; cbn in *; done.
Qed.

End sessions.

Module ZdbDemo.

(** A 0-db that says OK to everything but the removal of a namespace. *)
#[local] Instance redis : Redis unit := {|
  url_Parse a := Ok (MkUrl (if Contains a "unix" then "unix" else "http") "" a None);
  redis_Do _ _ w := (w, Ok tt);
  redis_String _ args w := (w, Ok (match args with "NSDEL" :: _ => "Namespace not found" | _ => "OK" end));
  redis_Strings _ _ w := (w, Ok ["default"]);
  redis_Uint64 _ _ w := (w, Ok 42);
  redis_Close _ w := (w, Ok tt)
|}.

Definition client := New "secret" "unix:///var/run/zdb.sock" tt.
Definition pool : Pool := MkPool "unix" "unix:///var/run/zdb.sock" None "secret".

(** A request before the connection, and one after the client is closed. *)
Example not_connected :
  (CreateNamespace "ns" client).2 = Panic "nil pointer dereference" /\
  ((Connect ;; Close ;; CreateNamespace "ns") client).2 = Panic "nil pointer dereference" /\
  (Connect (New "secret" "http://zdb" tt)).2 =
    Err (ErrWrap "failed to connect to http://zdb" (ErrMsg "unknown scheme 'http' expecting tcp or unix")).
Proof. split_and!; vm_compute; reflexivity. Qed.

Lemma session_safe_witness :
  cl_pool (Connect client).1 = Some pool /\
  cl_pool (for_each (fun q => ignore (request_run q)) [QCreate "ns"; QDelete "ns"; QConnect; QDBSize] (Connect client).1).1 = Some pool.
Proof.
  split; [vm_compute; reflexivity|].
  refine (proj1 (session_safe _ _ _ _ pool [QCreate "ns"; QDelete "ns"; QConnect; QDBSize] (Connect client).1 _)); done.
Defined.

End ZdbDemo.
