(* ===== verification/ContainerDaemon.v ===== *)
(** The container daemon: src/pkg/container (container.go, opts.go, startup.go,
    watch.go, logger/logger.go, stats).

    [Containerd] is what the daemon uses of containerd and of the node, over a world
    [W]; [Oci] are the options of github.com/containerd/containerd/oci that the
    specification of a container is made with, and [OciLaws] what they are documented
    to do. How often a container has failed is in a [GoCache] (of [Failures]). *)

From stdpp Require Import gmap strings list.
From Stdlib Require Import Ascii ZArith Lia.
From S2P Require Import Prelude Reservation Versioned NetIP Storage BtrfsUtil Disk Bus VmPrim Failures VmDaemon.

Open Scope Z_scope.
Open Scope go_scope.

(** ** Data *)

Definition containerdSock : string := "/run/containerd/containerd.sock".
Definition binaryLogsShim : string := "/bin/shim-logs".

Definition defaultMemory : Z := 256 * 1024 * 1204.
Definition defaultCPU : Z := 1.
Definition c_failuresBeforeDestroy : Z := 4.
Definition restartDelay : Z := seconds 2.
Definition c_cacheExpiration : Z := seconds 60.

Definition ignoreMntTypes : list string := ["proc"; "tmpfs"; "devpts"; "mqueue"; "sysfs"].

Definition ErrEmptyRootFS : error := ErrMsg "RootFS of the container creation data cannot be empty".

(** The parts of an OCI specification that the program reads or sets. A missing
    [Resources], [Memory] or [CPU] is a limit that is not set. *)
Record SpecMount := MkSpecMount {
  smt_Destination : string; smt_Type : string; smt_Source : string; smt_Options : list string
}.

Record LinuxNamespace := MkLinuxNamespace { lns_Type : string; lns_Path : string }.

Record LinuxSpec := MkLinuxSpec {
  lx_Namespaces : list LinuxNamespace; lx_Limit : option Z; lx_CPU : option (Z * Z);
  lx_Devices : list (string * string)
}.

Record Process := MkProcess {
  pr_Args : list string; pr_Env : list string; pr_Cwd : string; pr_Capabilities : list string
}.

Record Spec := MkSpec {
  sp_Root : string; sp_Process : option Process; sp_Mounts : list SpecMount;
  sp_Linux : option LinuxSpec; sp_Windows : option (option Z)
}.

Definition emptySpec : Spec := MkSpec "" None [] None None.

Definition set_Mounts (l : list SpecMount) (s : Spec) : Spec :=
  MkSpec (sp_Root s) (sp_Process s) l (sp_Linux s) (sp_Windows s).

Definition set_Linux (l : LinuxSpec) (s : Spec) : Spec :=
  MkSpec (sp_Root s) (sp_Process s) (sp_Mounts s) (Some l) (sp_Windows s).

Definition set_Windows (l : option Z) (s : Spec) : Spec :=
  MkSpec (sp_Root s) (sp_Process s) (sp_Mounts s) (sp_Linux s) (Some l).

Definition NetworkNamespace : string := "network".

(** ** startup.go *)

Record args := MkArgs { ar_Name : string; ar_Dir : string; ar_Args : list string; ar_Env : gmap string string }.
Record entry := MkEntry { en_Name : string; en_Args : args }.

(** [toml.DecodeReader] into a [startup]: the entries. *)
Class StartupToml := dec_startup : string -> res (gmap string entry).

(** [strings.Replace] of each double quote by one with a backslash in front. *)
Fixpoint escape_quotes (s : string) : string :=
  match s with
  | EmptyString => EmptyString
  | String c s =>
      if Ascii.eqb c dquote then String backslash (String dquote (escape_quotes s))
      else String c (escape_quotes s)
  end.

Definition quoted_arg (arg : string) : string :=
  String " " (String dquote (escape_quotes arg +:+ String dquote "")).

Definition Entrypoint (e : entry) : string :=
  if (en_Name e =? "core.system")%string ||
     (en_Name e =? "core.base")%string && negb (ar_Name (en_Args e) =? "")%string then
    ar_Name (en_Args e) +:+ foldr (fun a s => quoted_arg a +:+ s) "" (ar_Args (en_Args e))
  else "".

Definition WorkingDir (e : entry) : string := ar_Dir (en_Args e).

Definition env_line (kv : string * string) : string := kv.1 +:+ String "=" kv.2.

Definition Envs `{MapOrder} (e : entry) : list string :=
  env_line <$> map_range (map_to_list (ar_Env (en_Args e))).

(** The variables of a list on top of those of a map; [ss[1]] panics when there is no
    equals sign. *)
Fixpoint put_envs (l : list string) (m : gmap string string) : res (gmap string string) :=
  match l with
  | [] => Ok m
  | s :: l =>
      match split_first "=" s with
      | Some (k, v) => put_envs l (<[k := v]> m)
      | None => Panic "index out of range"
      end
  end.

Definition mergeEnvs `{MapOrder} (a b : list string) : res (list string) :=
  match put_envs b ∅ with
  | Ok m =>
      match put_envs a m with
      | Ok m => Ok (env_line <$> map_range (map_to_list m))
      | Err e => Err e
      | Panic p => Panic p
      end
  | Err e => Err e
  | Panic p => Panic p
  end.

Definition startup_data `{MapOrder} (data : ContainerSpec) (e : entry) : res ContainerSpec :=
  match mergeEnvs (ct_Env data) (Envs e) with
  | Ok env =>
      let choose old new := if (old =? "")%string && negb (new =? "")%string then new else old in
      Ok (MkContainerSpec (ct_Name data) (ct_RootFS data) env (choose (ct_WorkingDir data) (WorkingDir e))
            (ct_Namespace data) (ct_Mounts data) (choose (ct_Entrypoint data) (Entrypoint e))
            (ct_Interactive data) (ct_CPU data) (ct_Memory data) (ct_Logs data) (ct_Stats data)
            (ct_Elevated data))
  | Err e => Err e
  | Panic p => Panic p
  end.

(** ** stats_redis.go *)

(** What [url.Parse] makes of an address; the request is not empty. *)
Record URL := MkURL { url_Scheme : string; url_Host : string; url_Port : string; url_RequestURI : string }.

Class UrlParser := url_Parse : string -> res URL.

Definition RedisParseURL `{UrlParser} (address : string) : res (string * string) :=
  match url_Parse address with
  | Ok u =>
      if negb (url_Scheme u =? "redis")%string then Err (ErrMsg "invalid scheme, expected redis://")
      else if (url_RequestURI u =? "/")%string then
        Err (ErrMsg "missing channel name, expected: redis://host/channel")
      else
        match url_RequestURI u with
        | EmptyString => Panic "slice bounds out of range"
        | String _ channel =>
            Ok (if (url_Port u =? "")%string then url_Host u +:+ ":6379" else url_Host u, channel)
        end
  | Err e => Err e
  | Panic p => Panic p
  end.

(** ** stats.go *)

Record Metrics := MkMetrics {
  me_Timestamp : Z; me_MemoryUsage : Z; me_MemoryLimit : Z; me_MemoryCache : Z; me_CPUUsage : Z;
  me_PidsCurrent : Z
}.

(** ** containerd and the node *)

(** An option changes a specification. *)
Definition SpecOpt (W : Type) : Type := Spec -> M W Spec.

Class Oci (W : Type) := {
  oci_WithDefaultSpecForPlatform : string -> SpecOpt W;
  oci_WithRootFSPath : string -> SpecOpt W;
  oci_WithEnv : list string -> SpecOpt W;
  oci_WithHostResolvconf : SpecOpt W;
  oci_WithLinuxNamespace : LinuxNamespace -> SpecOpt W;
  oci_WithMounts : list SpecMount -> SpecOpt W;
  oci_WithProcessArgs : list string -> SpecOpt W;
  oci_WithProcessCwd : string -> SpecOpt W;
  oci_WithAddedCapabilities : list string -> SpecOpt W;
  oci_WithLinuxDevice : string -> string -> SpecOpt W;
  oci_Compose : list (SpecOpt W) -> SpecOpt W
}.

(** A container is used by its namespace and its id. *)
Class Containerd (W : Type) := {
  cd_Now : W -> Z;
  cd_New : string -> M W unit;
  cd_Namespaces : M W (list string);
  cd_CreateNamespace : string -> M W unit;
  cd_Containers : string -> M W (list string);
  cd_NewContainer : string -> string -> list (SpecOpt W) -> M W unit;
  cd_LoadContainer : string -> string -> M W unit;
  cd_Spec : string -> string -> M W Spec;
  cd_NoRestarts : string -> string -> M W unit;
  cd_Delete : string -> string -> M W unit;
  cd_Task : string -> string -> M W unit;
  cd_NewTask : string -> string -> M W unit;
  cd_StartTask : string -> string -> M W unit;
  cd_DeleteTask : string -> string -> M W unit;
  cd_Wait : string -> string -> M W unit;
  cd_Kill : string -> string -> Z -> M W unit;
  (** whether the task exits within a second *)
  cd_Exits : string -> string -> W -> W * bool;
  (** the numbers of a task, none when they are of another type *)
  cd_Metrics : string -> string -> M W (option Metrics);
  cd_IsNotFound : error -> bool;
  cd_Counts : M W Z;
  cd_Open : string -> M W unit;
  cd_Read : string -> M W string;
  cd_MkdirAll : string -> M W unit;
  cd_WriteFile : string -> string -> M W unit;
  cd_Dial : string -> M W unit;
  cd_Publish : string -> string -> M W unit;
  cd_Sleep : Z -> M W unit;
  cd_DecommissionCached : string -> string -> M W unit
}.

(** encoding/json on the settings of the logs and on the metrics. *)
Class ContainerJson := {
  enc_Logs : list Logs -> string;
  dec_Logs : string -> res (list Logs);
  enc_Metrics : Metrics -> string
}.

(** github.com/google/shlex. *)
Class Shlex := shlex_Split : string -> res (list string).

(** What was asked of containerd and of the node. *)
Inductive cop :=
| CNewNamespace (ns : string)
| CNewContainer (ns id : string)
| CNoRestarts (ns id : string)
| CDelete (ns id : string)
| CNewTask (ns id : string)
| CStart (ns id : string)
| CDeleteTask (ns id : string)
| CKill (ns id : string) (signal : Z)
| CMkdir (path : string)
| CWrite (path content : string)
| CMonitor (ns id host channel : string)
| CPublish (channel data : string)
| CDecommission (id reason : string).

(** ** opts.go *)

Definition period : Z := 100000.

Definition cruToLimit (cru : Z) : Z * Z := (i64 (period *u cru), period).

Section container.
  Context {C W : Type} `{Containerd W} `{Oci W} `{GoCache C} `{MapOrder} `{StartupToml} `{ContainerJson}
    `{Shlex} `{UrlParser}.

Notation CM := (M (FState C W cop)).
#[local] Notation failures_Get := (failures_Get cd_Now).
#[local] Notation failures_Set := (failures_Set cd_Now).
#[local] Notation failures_Increment := (failures_Increment cd_Now).

Definition withNetworkNamespace (name : string) : SpecOpt W :=
  oci_WithLinuxNamespace (MkLinuxNamespace NetworkNamespace (Join "/var/run/netns" name)).

(** The first mount at /run is taken out. *)
Fixpoint remove_run (l : list SpecMount) : list SpecMount :=
  match l with
  | [] => []
  | m :: l => if (smt_Destination m =? "/run")%string then l else m :: remove_run l
  end.

Definition removeRunMount : SpecOpt W := fun s => mret (set_Mounts (remove_run (sp_Mounts s)) s).

Definition withCoreX : SpecOpt W :=
  oci_Compose
    [fun s => mret (set_Mounts (sp_Mounts s ++ [MkSpecMount "/corex" "bind" "/usr/bin/corex" ["rbind"; "ro"]]) s);
     oci_WithProcessArgs ["/corex"; "--ipv6"; "-d"; "7"; "--interface"; "eth0"]].

Definition bind_mount (m : MountInfo) : SpecMount :=
  MkSpecMount (mi_Target m) "bind" (mi_Source m) ["rbind"].

Definition withMounts (mounts : list MountInfo) : SpecOpt W :=
  oci_Compose [oci_WithMounts (bind_mount <$> mounts)].

Definition WithMemoryLimit (limit : Z) : SpecOpt W := fun s =>
  let s :=
    match sp_Linux s with
    | Some l => set_Linux (MkLinuxSpec (lx_Namespaces l) (Some (i64 limit)) (lx_CPU l) (lx_Devices l)) s
    | None => s
    end in
  mret (match sp_Windows s with Some _ => set_Windows (Some limit) s | None => s end).

Definition WithCPUCount (cru : Z) : SpecOpt W := fun s =>
  totalCPU ← cd_Counts;
  if u64 totalCPU <? cru then throw (ErrMsg ("asked " +:+ Itoa cru +:+ " CRU while only " +:+ FormatInt totalCPU +:+ " are available"))
  else
    match sp_Linux s with
    | None => panic "nil pointer dereference"
    | Some l =>
        mret (match lx_CPU l with
              | Some _ => s
              | None => set_Linux (MkLinuxSpec (lx_Namespaces l) (lx_Limit l) (Some (cruToLimit cru)) (lx_Devices l)) s
              end)
    end.

(** ** logger.go *)

Definition Serialize (path : string) (logs : list Logs) : CM unit :=
  fact (CWrite path (enc_Logs logs)) (cd_WriteFile path (enc_Logs logs)).

Definition Deserialize (path : string) : CM (list Logs) :=
  data ← fask (cd_Read path); lift (dec_Logs data).

(** ** stats.go and stats_redis.go *)

Definition NewRedis (endpoint : string) : CM (string * string) :=
  '(host, channel) ← lift (RedisParseURL endpoint);
  fask (cd_Dial host) ;; mret (host, channel).

Definition monitor_task (ns id : string) : CM string :=
  metric ← fask (cd_Metrics ns id);
  match metric with
  | Some data => mret (enc_Metrics data)
  | None => throw (ErrMsg "wrong metric type")
  end.

Definition StatsPushInterval : Z := seconds 2.

(** One round of the loop of [Monitor]. *)
Definition push_metrics (ns id channel : string) : CM unit :=
  fask (cd_Task ns id) ;;
  b ← monitor_task ns id;
  ignore (fact (CPublish channel b) (cd_Publish channel b)) ;;
  fask (cd_Sleep StatsPushInterval).

(** The first [rounds] of them. *)
Definition Monitor (sock : string) (rounds : nat) (ns id channel : string) : CM unit :=
  fask (cd_New sock) ;;
  fask (cd_LoadContainer ns id) ;;
  for_each (fun _ => push_metrics ns id channel) (seq 0 rounds).

(** ** container.go *)

(** The socket of containerd and the directory of the module. *)
Context (sock root : string).

Definition upgrade : CM unit :=
  fask (cd_New sock) ;;
  nss ← fask cd_Namespaces;
  for_each (fun ns =>
    containers ← try (fask (cd_Containers ns));
    match containers with
    | inr _ => mret tt
    | inl l => for_each (fun id => ignore (fact (CNoRestarts ns id) (cd_NoRestarts ns id))) l
    end) nss.

Definition ensureNamespace (namespace : string) : CM unit :=
  namespaces ← fask cd_Namespaces;
  if existsb (String.eqb namespace) namespaces then mret tt
  else fact (CNewNamespace namespace) (cd_CreateNamespace namespace).

(** What the startup file of the root file system adds. *)
Definition applyStartup (data : ContainerSpec) (path : string) : CM ContainerSpec :=
  f ← try (fask (cd_Open path));
  match f with
  | inr _ => mret data
  | inl _ =>
      content ← fask (cd_Read path);
      entries ← lift (dec_startup content);
      match entries !! "entry" with
      | None => mret data
      | Some e => lift (startup_data data e)
      end
  end.

Definition with_defaults (data : ContainerSpec) : ContainerSpec :=
  MkContainerSpec (ct_Name data) (ct_RootFS data) (ct_Env data) (ct_WorkingDir data) (ct_Namespace data)
    (ct_Mounts data) (ct_Entrypoint data) (ct_Interactive data)
    (if ct_CPU data =? 0 then defaultCPU else ct_CPU data)
    (if ct_Memory data =? 0 then defaultMemory else ct_Memory data)
    (ct_Logs data) (ct_Stats data) (ct_Elevated data).

(** The options of the specification, up to the process. *)
Definition base_options (data : ContainerSpec) : list (SpecOpt W) :=
  [oci_WithDefaultSpecForPlatform "linux/amd64"; oci_WithRootFSPath (ct_RootFS data); oci_WithEnv (ct_Env data);
   oci_WithHostResolvconf; removeRunMount; withNetworkNamespace (ct_Namespace data); withMounts (ct_Mounts data);
   WithMemoryLimit (ct_Memory data); WithCPUCount (ct_CPU data)] ++
  (if ct_Elevated data then
     [oci_WithAddedCapabilities ["CAP_SYS_ADMIN"]; oci_WithLinuxDevice "/dev/fuse" "rwm"]
   else []) ++
  (if (ct_WorkingDir data =? "")%string then [] else [oci_WithProcessCwd (ct_WorkingDir data)]).

Definition process_options (data : ContainerSpec) : res (list (SpecOpt W)) :=
  if ct_Interactive data then Ok [withCoreX]
  else
    match shlex_Split (ct_Entrypoint data) with
    | Ok (arg :: args) => Ok [oci_WithProcessArgs (arg :: args)]
    | Panic p => Panic p
    | _ => Err (ErrMsg ("invalid entrypoint definition '" +:+ ct_Entrypoint data +:+ "'"))
    end.

Definition ensureTask (ns id : string) : CM unit :=
  task ← try (fask (cd_Task ns id));
  match task with
  | inr e => if cd_IsNotFound e then mret tt else throw e
  | inl _ => fact (CDeleteTask ns id) (cd_DeleteTask ns id)
  end ;;
  fact (CNewTask ns id) (cd_NewTask ns id) ;;
  fact (CStart ns id) (cd_StartTask ns id).

Definition start_stats (ns id : string) (l : Stats) : CM unit :=
  if (stats_Type l =? "redis")%string then
    s ← try (NewRedis (stats_Endpoint l));
    match s with
    | inr _ => mret tt
    | inl (host, channel) => fact (CMonitor ns id host channel) (mret tt)
    end
  else mret tt.

Definition logs_path (ns id : string) : string :=
  Join (Join (Join root "config") ns) (id +:+ "-logs.json").

(** The steps after which the container is deleted when there is an error. *)
Definition start_container (ns : string) (data : ContainerSpec) : CM unit :=
  let cfgs := Join (Join root "config") ns in
  fact (CMkdir cfgs) (cd_MkdirAll cfgs) ;;
  Serialize (logs_path ns (ct_Name data)) (ct_Logs data) ;;
  for_each (start_stats ns (ct_Name data)) (ct_Stats data) ;;
  ensureTask ns (ct_Name data).

Definition or_delete {A} (ns id : string) (m : CM A) : CM A :=
  r ← try m;
  match r with
  | inl a => mret a
  | inr e => ignore (fact (CDelete ns id) (cd_Delete ns id)) ;; throw e
  end.

(** From the startup file on. *)
Definition create_container (ns : string) (data : ContainerSpec) : CM string :=
  process ← lift (process_options data);
  fact (CNewContainer ns (ct_Name data))
    (cd_NewContainer ns (ct_Name data) (base_options data ++ process)) ;;
  spec ← fask (cd_Spec ns (ct_Name data));
  match sp_Linux spec with
  | None => panic "nil pointer dereference"
  | Some _ => or_delete ns (ct_Name data) (start_container ns data) ;; mret (ct_Name data)
  end.

Definition with_startup (data : ContainerSpec) : CM ContainerSpec :=
  got ← try (applyStartup data (Join (ct_RootFS data) ".startup.toml"));
  mret (match got with inl data => data | inr _ => data end).

Definition Run (ns : string) (data : ContainerSpec) : CM string :=
  fask (cd_New sock) ;;
  ensureNamespace ns ;;
  if (ct_RootFS data =? "")%string then throw ErrEmptyRootFS
  else if (ct_Namespace data =? "")%string then
    throw (ErrMsg "cannot create container without network namespace")
  else data ← with_startup (with_defaults data); create_container ns data.

Definition start (ns id : string) : CM unit :=
  fask (cd_New sock) ;; fask (cd_LoadContainer ns id) ;; ensureTask ns id.

Definition inspected (id : string) (spec : Spec) : res ContainerSpec :=
  match sp_Linux spec with
  | None => Panic "nil pointer dereference"
  | Some linux =>
      Ok (MkContainerSpec id (sp_Root spec)
            (match sp_Process spec with Some p => pr_Env p | None => [] end) ""
            (foldl (fun found n =>
               if (lns_Type n =? NetworkNamespace)%string then Base (lns_Path n) else found) "" (lx_Namespaces linux))
            ((fun m => MkMountInfo (smt_Source m) (smt_Destination m)) <$>
               filter (fun m => smt_Type m ∉ ignoreMntTypes) (sp_Mounts spec))
            (match sp_Process spec with Some p => join_with " " (pr_Args p) | None => "" end)
            (sp_Root spec =? "/usr/lib/corex")%string 0 0 [] [] false)
  end.

Definition Inspect (ns id : string) : CM ContainerSpec :=
  fask (cd_New sock) ;;
  fask (cd_LoadContainer ns id) ;;
  spec ← fask (cd_Spec ns id);
  lift (inspected id spec).

Definition ListNS : CM (list string) := fask (cd_New sock) ;; fask cd_Namespaces.

Definition List (ns : string) : CM (list string) := fask (cd_New sock) ;; fask (cd_Containers ns).

(** Signals until the task exits. *)
Fixpoint stop_task (turns : nat) (trials : Z) (ns id : string) : CM unit :=
  match turns with
  | O => panic "still waiting"
  | S turns =>
      let signal := if trials <=? 0 then SIGKILL else SIGTERM in
      ignore (fact (CKill ns id signal) (cd_Kill ns id signal)) ;;
      let trials := trials - 1 in
      exited ← fask (fun w => let '(w', b) := cd_Exits ns id w in (w', Ok b));
      if exited : bool then mret tt
      else if trials <? -5 then mret tt
      else stop_task turns trials ns id
  end.

(** Enough turns for the loop, by [stop_task_ends]. *)
Definition stop_turns : nat := 9.

Definition Delete (ns id : string) : CM unit :=
  fask (cd_New sock) ;;
  fask (cd_LoadContainer ns id) ;;
  failures_Set id Permanent (Some c_cacheExpiration) ;;
  task ← try (fask (cd_Task ns id));
  match task with
  | inr _ => mret tt
  | inl _ =>
      fask (cd_Wait ns id) ;;
      stop_task stop_turns 3 ns id ;;
      fact (CDeleteTask ns id) (cd_DeleteTask ns id)
  end ;;
  fact (CDelete ns id) (cd_Delete ns id).

(** ** watch.go *)

Definition handlerEventTaskExit (ns id : string) : CM unit :=
  mk ← failures_Get id;
  match mk with
  | None => failures_Set id (Failures 0) (Some c_cacheExpiration)
  | Some _ => mret tt
  end ;;
  match mk with
  | Some Permanent => mret tt
  | _ =>
      counted ← try (failures_Increment id);
      match counted with
      | inr _ => mret tt
      | inl count =>
          reason ←
            (if count <? c_failuresBeforeDestroy then
               fask (cd_Sleep restartDelay) ;;
               started ← try (start ns id);
               mret (match started with inr e => Some e | inl _ => None end)
             else mret (Some (ErrMsg "deleting container due to so many crashes")));
          match reason with
          | Some e => ignore (fact (CDecommission id (Error e)) (cd_DecommissionCached id (Error e)))
          | None => mret tt
          end
      end
  end.

End container.

Section new.
  Context {C W : Type} `{Containerd W} `{GoCache C}.

(** The module with the socket it uses. *)
Definition New (containerd : string) : M (FState C W cop) string :=
  let sock := if (containerd =? "")%string then containerdSock else containerd in
  ignore (upgrade sock) ;; mret sock.

End new.

(** What the watcher gets: the end of its context, an event of a namespace or the
    error that there is none in it, and an error of the stream. *)
Inductive task_event := TaskExit (id : string) | OtherEvent.

Inductive signal :=
| CtxDone
| Envelope (ns : string) (event : res task_event)
| StreamError (e : error).

(** [handleEvent]: the handlers that are started, each in a goroutine of its own. *)
Definition handleEvent (ns : string) (event : task_event) : list (string * string) :=
  match event with TaskExit id => [(ns, id)] | OtherEvent => [] end.

(** [watch] on what its stream brings: the handlers it starts and what it returns, none
    when it goes on waiting. *)
Fixpoint watch (stream : list signal) : list (string * string) * option (res unit) :=
  match stream with
  | [] => ([], None)
  | CtxDone :: _ => ([], Some (Ok tt))
  | StreamError e :: _ => ([], Some (Err e))
  | Envelope ns event :: stream =>
      let '(handlers, r) := watch stream in
      (match event with Ok event => handleEvent ns event | _ => [] end ++ handlers, r)
  end.

(** [Watch] on its connections, each with its stream or the error of making it. *)
Fixpoint Watch (connections : list (res (list signal))) : list (string * string) :=
  match connections with
  | [] => []
  | Ok stream :: connections =>
      match watch stream with
      | (handlers, Some (Err _)) => handlers ++ Watch connections
      | (handlers, _) => handlers
      end
  | _ :: connections => Watch connections
  end.

(** ** The environment of a container *)

(** The value a list of variables gives to [k]: that of its last line for it. *)
Fixpoint binding (k : string) (l : list string) : option string :=
  match l with
  | [] => None
  | s :: l =>
      match binding k l, split_first "=" s with
      | Some v, _ => Some v
      | None, Some (k', v) => if (k' =? k)%string then Some v else None
      | None, None => None
      end
  end.

Definition is_env (s : string) : Prop := is_Some (split_first "=" s).

Lemma split_first_key sep s k v : split_first sep s = Some (k, v) -> split_first sep k = None.
Proof.
  revert k. induction s as [|c s IH]; intros k; cbn [split_first]; [done|].
  destruct (Ascii.eqb c sep) eqn:Hc; [by intros [= <- <-]|].
  destruct (split_first sep s) as [[a b]|] eqn:Hs; [|done]. intros [= <- <-]. cbn [split_first].
  by rewrite Hc, (IH a).
Qed.

Definition keys_ok (m : gmap string string) : Prop := forall k, is_Some (m !! k) -> split_first "=" k = None.

Lemma put_envs_spec l : forall m, Forall is_env l -> keys_ok m ->
  exists m', put_envs l m = Ok m' /\ keys_ok m' /\
    forall k, m' !! k = match binding k l with Some v => Some v | None => m !! k end.
Proof.
  induction l as [|s l IH]; intros m Hl Hm; cbn [put_envs binding]; [by exists m|].
  inversion_clear Hl as [|? ? [[k v] Hs] Hl']. rewrite Hs.
  destruct (IH (<[k := v]> m) Hl') as (m' & -> & Hm' & Hget).
  { intros k' [v' Hk']. apply lookup_insert_Some in Hk' as [[<- _]|[_ Hk']]; [by eapply split_first_key|by apply Hm; eexists]. }
  exists m'. split_and!; [done|done|]. intros k'. rewrite Hget. destruct (binding k' l); [done|].
  destruct (String.eqb_spec k k') as [->|Hk]; [by rewrite lookup_insert_eq|by rewrite lookup_insert_ne].
Qed.

Lemma elem_of_env_lines (m : gmap string string) k v : keys_ok m -> split_first "=" k = None ->
  env_line (k, v) ∈ env_line <$> map_to_list m <-> m !! k = Some v.
Proof.
  intros Hm Hk. rewrite list_elem_of_fmap. split.
  - intros ([k' v'] & Heq & Hin%elem_of_map_to_list).
    apply (f_equal (split_first "=")) in Heq. unfold env_line in Heq. cbn in Heq.
    rewrite !split_first_app in Heq by (done || by apply Hm; eexists). by simplify_eq.
  - intros Hin. exists (k, v). split; [done|]. by apply elem_of_map_to_list.
Qed.

(** The environment of a container is its own, with what the startup file has for the
    other variables: the container's settings win, and every variable has one line. *)
Theorem mergeEnvs_spec `{MapOrder} a b : Forall is_env a -> Forall is_env b ->
  exists r, mergeEnvs a b = Ok r /\ NoDup r /\
    forall k v, split_first "=" k = None ->
      (env_line (k, v) ∈ r <-> match binding k a with Some v' => v' = v | None => binding k b = Some v end).
Proof.
  intros Ha Hb. unfold mergeEnvs.
  destruct (put_envs_spec b ∅ Hb) as (m & -> & Hm & Hget); [by intros k [v Hk%lookup_empty_Some]|].
  destruct (put_envs_spec a m Ha Hm) as (m' & -> & Hm' & Hget'). eexists. split; [done|]. split.
  - rewrite map_range_perm. apply NoDup_fmap_2_strong, NoDup_map_to_list.
    intros [k v] [k' v'] Hk%elem_of_map_to_list Hk'%elem_of_map_to_list Heq.
    apply (f_equal (split_first "=")) in Heq. unfold env_line in Heq. cbn in Heq.
    rewrite !split_first_app in Heq by (by apply Hm'; eexists). by simplify_eq.
  - intros k v Hk. rewrite map_range_perm, elem_of_env_lines, Hget', Hget, lookup_empty by done.
    destruct (binding k a); [naive_solver|]. by destruct (binding k b).
Qed.

(** ** The command of a container *)

(** What shlex is documented to do with words of ordinary characters and with text in
    double quotes, in which a backslash takes the character behind it as it is. *)
Inductive token := Word (w : string) | Quoted (body : string).

Definition special : list ascii :=
  [" "%char; "009"%char; "013"%char; "010"%char; dquote; "'"%char; backslash; "#"%char].

Definition ordinary (c : ascii) : bool := negb (existsb (Ascii.eqb c) special).

Fixpoint unescape (s : string) : option string :=
  match s with
  | EmptyString => Some ""
  | String c s =>
      if Ascii.eqb c backslash then
        match s with
        | EmptyString => None
        | String c' s => String c' <$> unescape s
        end
      else if Ascii.eqb c dquote then None
      else String c <$> unescape s
  end.

Definition token_value (t : token) : option string :=
  match t with
  | Word w => if negb (w =? "")%string && all_chars ordinary w then Some w else None
  | Quoted body => unescape body
  end.

Definition token_text (t : token) : string :=
  match t with Word w => w | Quoted body => String dquote (body +:+ String dquote "") end.

Class ShlexLaws `{Shlex} := {
  shlex_tokens t ts ws : mapM token_value (t :: ts) = Some ws ->
    shlex_Split (token_text t +:+ foldr (fun t s => String " " (token_text t) +:+ s) "" ts) = Ok ws
}.

Lemma unescape_escape_quotes s : split_first backslash s = None -> unescape (escape_quotes s) = Some s.
Proof.
  induction s as [|c s IH]; intros Hs; [done|]. apply split_first_cons in Hs as [Hc Hs].
  cbn [escape_quotes]. destruct (Ascii.eqb c dquote) eqn:Hq.
  - apply Ascii.eqb_eq in Hq as ->. cbn [unescape]. rewrite Ascii.eqb_refl, IH by done. done.
  - cbn [unescape]. by rewrite Hc, Hq, IH.
Qed.

(** The entry of a startup file becomes the command it names: when the name is a plain
    word and no argument has a backslash, splitting the entry point gives the name and
    the arguments, with whatever spaces and quotes they have. *)
Theorem Entrypoint_splits `{ShlexLaws} e :
  en_Name e = "core.system" \/ en_Name e = "core.base" ->
  ar_Name (en_Args e) <> "" -> all_chars ordinary (ar_Name (en_Args e)) = true ->
  Forall (fun a => split_first backslash a = None) (ar_Args (en_Args e)) ->
  shlex_Split (Entrypoint e) = Ok (ar_Name (en_Args e) :: ar_Args (en_Args e)).
Proof.
  intros Hname Hne Hplain Hargs.
  assert (Hne' : (ar_Name (en_Args e) =? "")%string = false) by (by apply String.eqb_neq).
  assert (Entrypoint e = token_text (Word (ar_Name (en_Args e))) +:+
    foldr (fun t s => String " " (token_text t) +:+ s) "" ((fun a => Quoted (escape_quotes a)) <$> ar_Args (en_Args e))) as ->.
  { unfold Entrypoint. rewrite Hne'. cbn [negb token_text].
    assert ((en_Name e =? "core.system")%string || (en_Name e =? "core.base")%string && true = true) as ->.
    { by destruct Hname as [-> | ->]. }
    f_equal. induction (ar_Args (en_Args e)) as [|a l IH]; [done|]. cbn [foldr fmap list_fmap].
    inversion_clear Hargs. by rewrite IH. }
  apply (shlex_tokens (Word _) _ (_ :: _)).
  cbn [mapM token_value]. rewrite Hne', Hplain. cbn [negb andb mbind option_bind].
  assert (mapM token_value ((fun a => Quoted (escape_quotes a)) <$> ar_Args (en_Args e)) = Some (ar_Args (en_Args e))) as ->; [|done].
  induction Hargs as [|a l Ha Hl IH]; [done|]. cbn. by rewrite unescape_escape_quotes, IH.
Qed.

(** ** Deleting a container *)

(** What the loop sends, until the task exits. *)
Definition stop_signals : list Z := replicate 3 SIGTERM ++ replicate 6 SIGKILL.

Section delete.
  Context {C W : Type} `{Containerd W} `{GoCacheLaws C}.

Notation CM := (M (FState C W cop)).

(** Sending a signal always answers. *)
Definition kill_answers : Prop := forall ns id sig w p, (cd_Kill ns id sig w).2 <> Panic p.

Lemma stop_task_turns ns id turns : forall trials (s : FState C W cop), kill_answers ->
  trials = Z.of_nat turns - 6 -> (1 <= turns <= 9)%nat ->
  exists s' k, stop_task turns trials ns id s = (s', Ok tt) /\ (1 <= k <= turns)%nat /\
    v_log s' = v_log s ++ (CKill ns id <$> take k (drop (9 - turns) stop_signals)) /\
    v_failures s' = v_failures s.
Proof.
  induction turns as [|turns IH]; intros trials s Hkill -> Hturns; [lia|]. cbn [stop_task].
  set (sig := if Z.of_nat (S turns) - 6 <=? 0 then SIGKILL else SIGTERM).
  assert (Hsig : drop (9 - S turns) stop_signals = sig :: drop (9 - turns) stop_signals).
  { unfold sig. do 9 (destruct turns as [|turns]; [reflexivity|]). lia. }
  rewrite Hsig. unfold mbind, M_bind, ignore, fact. pose proof (Hkill ns id sig (v_world s)) as Hp.
  destruct (cd_Kill ns id sig (v_world s)) as [w x]. cbn in Hp.
  destruct x as [u|e|p]; [| |by destruct (Hp p)]; clear Hp; unfold fask; cbn;
    destruct (cd_Exits ns id w) as [w' b]; destruct b; cbn.
  all: try (eexists _, 1%nat; split_and!; [reflexivity|lia|lia|done|done]).
  all: destruct (Z.ltb_spec (Z.of_nat (S turns) - 6 - 1) (-5)) as [Hend|Hgo];
    [eexists _, 1%nat; split_and!; [reflexivity|lia|lia|done|done]|].
  all: destruct (IH (Z.of_nat (S turns) - 6 - 1) (MkV (v_failures s) w' (v_log s ++ [CKill ns id sig])))
    as (s' & k & Hrun & Hk & Hlog & Hf); [done|lia|lia|];
    exists s', (S k); rewrite Hrun; (split_and!; [done|lia|lia| |done]);
    rewrite Hlog; cbn; by rewrite <- (assoc_L (++)).
Qed.

(** Stopping a task ends whatever the task does: after at most nine signals, three times
    SIGTERM and then six times SIGKILL. *)
Theorem stop_task_ends ns id (s : FState C W cop) : kill_answers ->
  exists s' k, stop_task stop_turns 3 ns id s = (s', Ok tt) /\ (1 <= k <= 9)%nat /\
    v_log s' = v_log s ++ (CKill ns id <$> take k stop_signals) /\ v_failures s' = v_failures s.
Proof. intros Hkill. apply (stop_task_turns ns id 9 3 s Hkill); [done|lia]. Qed.

End delete.

(** ** Containers that exit *)

Definition is_cstart (o : cop) : bool := match o with CStart _ _ => true | _ => false end.

Section exits.
  Context {C W : Type} `{Containerd W} `{GoCacheLaws C}.
  Context (sock : string).

Notation CM := (M (FState C W cop)).
#[local] Notation starting := (starting is_cstart).
#[local] Notation starts := (starts is_cstart).

Lemma adds_start ns id : adds (starting 1) (start sock ns id : CM unit).
Proof.
  unfold start, ensureTask. repeat (apply (adds_bind _ _ 0 1); [lia|starts_nothing|intros]).
  apply adds_fact. cbn. lia.
Qed.

(** Once the exit has been counted. *)
Definition after_exit (ns id : string) (count : Z) : CM unit :=
  reason ←
    (if count <? c_failuresBeforeDestroy then
       fask (cd_Sleep restartDelay) ;;
       started ← try (start sock ns id);
       mret (match started with inr e => Some e | inl _ => None end)
     else mret (Some (ErrMsg "deleting container due to so many crashes")));
  match reason with
  | Some e => ignore (fact (CDecommission id (Error e)) (cd_DecommissionCached id (Error e)))
  | None => mret tt
  end.

Lemma after_exit_low ns id count : count < c_failuresBeforeDestroy -> adds (starting 1) (after_exit ns id count).
Proof.
  intros Hc. unfold after_exit. rewrite (proj2 (Z.ltb_lt _ _) Hc).
  apply (adds_bind _ _ 1 0); [lia| |intros []; starts_nothing].
  apply (adds_bind _ _ 0 1); [lia|starts_nothing|intros _].
  apply (adds_bind _ _ 1 0); [lia|apply adds_try, adds_start|intros]. starts_nothing.
Qed.

Lemma after_exit_high ns id count (s : FState C W cop) : c_failuresBeforeDestroy <= count ->
  v_failures (after_exit ns id count s).1 = v_failures s /\
  v_log (after_exit ns id count s).1 =
    v_log s ++ [CDecommission id "deleting container due to so many crashes"].
Proof.
  intros Hc. unfold after_exit. rewrite (proj2 (Z.ltb_ge _ _) Hc). unfold mbind, M_bind, ignore, fact. cbn.
  by destruct (cd_DecommissionCached _ _ _) as [w []].
Qed.

Lemma handler_counts ns id deadline n (s : FState C W cop) : counted deadline n (entry_of s id) ->
  cd_Now (v_world s) < deadline <= cd_Now (v_world s) + c_cacheExpiration ->
  exists c, counted deadline (S n) (gc_abs c !! id) /\
    handlerEventTaskExit sock ns id s = after_exit ns id (Z.of_nat (S n)) (MkV c (v_world s) (v_log s)).
Proof.
  intros Hcount Hnow.
  destruct (counted_next _ c_cacheExpiration _ _ id (v_failures s) Hcount Hnow) as (Hp & Hi & Hc).
  unfold handlerEventTaskExit. unfold mbind at 1, M_bind at 1, failures_Get.
  destruct (gc_Get _ id _) as [[|k]|]; [done|cbn in Hi, Hc..];
    (unfold mbind at 1, M_bind at 1; cbn; unfold mbind at 1, M_bind at 1, try, failures_Increment; cbn;
     destruct (gc_IncrementInt _ _ _ _) as [c x]; cbn in Hi, Hc; subst x; exists c; by split).
Qed.

(** [n] exits of the container within a minute of [t0]. Between them the world changes
    as it likes. *)
Inductive exits (ns id : string) (t0 : Z) : nat -> FState C W cop -> FState C W cop -> Prop :=
| exits_none s : exits ns id t0 0 s s
| exits_again n s s1 s2 :
    exits ns id t0 n s s1 -> t0 <= cd_Now (v_world s1) < t0 + c_cacheExpiration ->
    v_log s2 = v_log (handlerEventTaskExit sock ns id s1).1 ->
    entry_of s2 id = entry_of (handlerEventTaskExit sock ns id s1).1 id ->
    exits ns id t0 (S n) s s2.

Lemma exits_counted ns id t0 n s s' : entry_of s id = None -> exits ns id t0 n s s' ->
  exists l, v_log s' = v_log s ++ l /\ (starts l <= Nat.min n 3)%nat /\
    ((4 <= n)%nat -> CDecommission id "deleting container due to so many crashes" ∈ l) /\
    counted (t0 + c_cacheExpiration) n (entry_of s' id).
Proof.
  intros Hnew Hn. induction Hn as [s|n s s1 s2 Hn IH Ht Hlog Hentry].
  - exists []. rewrite app_nil_r. split_and!; [done|unfold Failures.starts; cbn; lia|lia|by left].
  - destruct (IH Hnew) as (l & Hl & Hst & Hdec & Hc).
    destruct (handler_counts ns id _ n s1 Hc ltac:(lia)) as (c & Hc' & Hrun). rewrite Hrun in Hlog, Hentry.
    unfold c_failuresBeforeDestroy in *.
    destruct (Z.lt_ge_cases (Z.of_nat (S n)) 4) as [Hlow|Hhigh].
    + destruct (after_exit_low ns id _ Hlow (MkV c (v_world s1) (v_log s1))) as (Hf & l' & Hl' & Hs').
      exists (l ++ l'). rewrite Hlog, Hl', Hentry. unfold entry_of. rewrite Hf. cbn.
      rewrite Hl, (assoc_L (++)), starts_app. unfold Failures.starting in Hs'. split_and!; [done|lia|lia|done].
    + destruct (after_exit_high ns id _ (MkV c (v_world s1) (v_log s1)) Hhigh) as (Hf & Hl').
      exists (l ++ [CDecommission id "deleting container due to so many crashes"]).
      rewrite Hlog, Hl', Hentry. unfold entry_of. rewrite Hf. cbn.
      rewrite Hl, (assoc_L (++)), starts_app. change (starts [CDecommission _ _]) with 0%nat.
      split_and!; [done|lia|set_solver|done].
Qed.

(** C22 (safety): a container that exits again and again is given up. However often it
    exits within a minute, it is started at most three times, and from the fourth exit
    on its reservation is decommissioned. *)
Theorem container_crash_loop ns id t0 n s s' : entry_of s id = None -> exits ns id t0 n s s' ->
  exists l, v_log s' = v_log s ++ l /\ (starts l <= 3)%nat /\
    ((4 <= n)%nat -> CDecommission id "deleting container due to so many crashes" ∈ l).
Proof.
  intros Hnew Hn. destruct (exits_counted _ _ _ _ _ _ Hnew Hn) as (l & Hl & Hst & Hdec & _).
  exists l. split_and!; [done|lia|done].
Qed.

(** Nothing is done for a container that is marked. *)
Lemma handler_permanent ns id t (s : FState C W cop) : entry_of s id = Some (Permanent, Some t) ->
  cd_Now (v_world s) < t -> handlerEventTaskExit sock ns id s = (s, Ok tt).
Proof.
  intros He Ht. unfold handlerEventTaskExit. unfold mbind at 1, M_bind at 1, failures_Get.
  by rewrite (gc_live _ _ _ _ _ He) by (by intros t' [= <-]).
Qed.

End exits.

(** ** What containerd promises *)

Section opts.
  Context {W : Type}.

(** The options of a new specification, in their order. *)
Fixpoint run_opts (opts : list (SpecOpt W)) (s : Spec) : M W Spec :=
  match opts with
  | [] => mret s
  | o :: opts => s ← o s; run_opts opts s
  end.

Definition set_Root (path : string) (s : Spec) : Spec :=
  MkSpec path (sp_Process s) (sp_Mounts s) (sp_Linux s) (sp_Windows s).

Definition set_Process (p : Process) (s : Spec) : Spec :=
  MkSpec (sp_Root s) (Some p) (sp_Mounts s) (sp_Linux s) (sp_Windows s).

Definition resolvconf : SpecMount :=
  MkSpecMount "/etc/resolv.conf" "bind" "/etc/resolv.conf" ["rbind"; "ro"].

(** A namespace in the place of the one of the same type, or at the end. *)
Fixpoint replace_ns (n : LinuxNamespace) (l : list LinuxNamespace) : list LinuxNamespace :=
  match l with
  | [] => [n]
  | n' :: l => if (lns_Type n' =? lns_Type n)%string then n :: l else n' :: replace_ns n l
  end.

(** The documented effect of the options, when they succeed. *)
Class OciLaws `{Oci W} := {
  oci_default platform s w w' s' : oci_WithDefaultSpecForPlatform platform s w = (w', Ok s') ->
    exists p l, sp_Process s' = Some p /\ sp_Linux s' = Some l /\ sp_Windows s' = None /\
      ("CAP_SYS_ADMIN" ∉ pr_Capabilities p) /\ NoDup (lns_Type <$> lx_Namespaces l) /\ lx_CPU l = None /\
      Forall (fun m => smt_Type m ∈ ignoreMntTypes) (sp_Mounts s');
  oci_rootfs path s w w' s' : oci_WithRootFSPath path s w = (w', Ok s') -> s' = set_Root path s;
  oci_env env s w w' s' p : oci_WithEnv env s w = (w', Ok s') -> sp_Process s = Some p ->
    exists env', s' = set_Process (MkProcess (pr_Args p) env' (pr_Cwd p) (pr_Capabilities p)) s;
  oci_resolvconf s w w' s' : oci_WithHostResolvconf s w = (w', Ok s') ->
    s' = set_Mounts (sp_Mounts s ++ [resolvconf]) s;
  oci_namespace n s w w' s' l : oci_WithLinuxNamespace n s w = (w', Ok s') -> sp_Linux s = Some l ->
    s' = set_Linux (MkLinuxSpec (replace_ns n (lx_Namespaces l)) (lx_Limit l) (lx_CPU l) (lx_Devices l)) s;
  oci_mounts l s w w' s' : oci_WithMounts l s w = (w', Ok s') -> s' = set_Mounts (sp_Mounts s ++ l) s;
  oci_args args s w w' s' p : oci_WithProcessArgs args s w = (w', Ok s') -> sp_Process s = Some p ->
    s' = set_Process (MkProcess args (pr_Env p) (pr_Cwd p) (pr_Capabilities p)) s;
  oci_cwd cwd s w w' s' p : oci_WithProcessCwd cwd s w = (w', Ok s') -> sp_Process s = Some p ->
    s' = set_Process (MkProcess (pr_Args p) (pr_Env p) cwd (pr_Capabilities p)) s;
  oci_capabilities caps s w w' s' p : oci_WithAddedCapabilities caps s w = (w', Ok s') -> sp_Process s = Some p ->
    exists caps', s' = set_Process (MkProcess (pr_Args p) (pr_Env p) (pr_Cwd p) caps') s;
  oci_device path perms s w w' s' l : oci_WithLinuxDevice path perms s w = (w', Ok s') -> sp_Linux s = Some l ->
    exists devices, s' = set_Linux (MkLinuxSpec (lx_Namespaces l) (lx_Limit l) (lx_CPU l) devices) s;
  oci_compose opts s w : oci_Compose opts s w = run_opts opts s w
}.

(** A call that leaves the specifications of the containers alone, and one that does
    not turn the clock back. *)
Definition keeps_view {A B} (view : W -> B) (m : M W A) : Prop := forall w, view (m w).1 = view w.
Definition passes {A} (clock : W -> Z) (m : M W A) : Prop := forall w, clock w <= clock (m w).1.

Class ContainerdLaws `{Containerd W} `{Oci W} := {
  (** the specifications of the containers, by namespace and id *)
  cd_specs : W -> gmap (string * string) Spec;
  cd_created ns id opts w w' : cd_NewContainer ns id opts w = (w', Ok tt) ->
    exists w1 w2 sp, run_opts opts emptySpec w1 = (w2, Ok sp) /\ cd_specs w' !! (ns, id) = Some sp;
  cd_Spec_reads ns id w w' sp : cd_Spec ns id w = (w', Ok sp) -> cd_specs w !! (ns, id) = Some sp;
  cd_Spec_keeps ns id : keeps_view cd_specs (cd_Spec ns id);
  cd_New_keeps sock : keeps_view cd_specs (cd_New sock);
  cd_Load_keeps ns id : keeps_view cd_specs (cd_LoadContainer ns id);
  cd_Task_keeps ns id : keeps_view cd_specs (cd_Task ns id);
  cd_DeleteTask_keeps ns id : keeps_view cd_specs (cd_DeleteTask ns id);
  cd_NewTask_keeps ns id : keeps_view cd_specs (cd_NewTask ns id);
  cd_StartTask_keeps ns id : keeps_view cd_specs (cd_StartTask ns id);
  cd_MkdirAll_keeps path : keeps_view cd_specs (cd_MkdirAll path);
  cd_WriteFile_keeps path content : keeps_view cd_specs (cd_WriteFile path content);
  cd_Dial_keeps host : keeps_view cd_specs (cd_Dial host);
  cd_New_time sock : passes cd_Now (cd_New sock);
  cd_Load_time ns id : passes cd_Now (cd_LoadContainer ns id)
}.

End opts.
Arguments OciLaws W {_}.
Arguments ContainerdLaws W {_ _}.

(** ** The specification of a container *)

(** What of the host a container is given. *)
Definition host_mounts (data : ContainerSpec) : list SpecMount :=
  resolvconf :: ((bind_mount <$> ct_Mounts data) ++
    (if ct_Interactive data then [MkSpecMount "/corex" "bind" "/usr/bin/corex" ["rbind"; "ro"]] else [])).

Definition confined (data : ContainerSpec) (sp : Spec) : Prop :=
  sp_Root sp = ct_RootFS data /\
  exists l p, sp_Linux sp = Some l /\ sp_Process sp = Some p /\
    lx_Limit l = Some (i64 (ct_Memory data)) /\ lx_CPU l = Some (cruToLimit (ct_CPU data)) /\
    MkLinuxNamespace NetworkNamespace (Join "/var/run/netns" (ct_Namespace data)) ∈ lx_Namespaces l /\
    (forall n, n ∈ lx_Namespaces l -> lns_Type n = NetworkNamespace ->
       lns_Path n = Join "/var/run/netns" (ct_Namespace data)) /\
    ("CAP_SYS_ADMIN" ∈ pr_Capabilities p -> ct_Elevated data = true) /\
    exists own, Forall (fun m => smt_Type m ∈ ignoreMntTypes) own /\ sp_Mounts sp = own ++ host_mounts data.

Lemma replace_ns_elem n l : n ∈ replace_ns n l.
Proof. induction l as [|n' l IH]; cbn; [by left|]. destruct (_ =? _)%string; [by left|by right]. Qed.

Lemma replace_ns_only n l n' : NoDup (lns_Type <$> l) -> n' ∈ replace_ns n l -> lns_Type n' = lns_Type n -> n' = n.
Proof.
  induction l as [|m l IH]; cbn; [by intros _ ->%list_elem_of_singleton|].
  intros [Hm Hl]%NoDup_cons Hin Ht. destruct (String.eqb_spec (lns_Type m) (lns_Type n)) as [Heq|Hne].
  - apply elem_of_cons in Hin as [->|Hin]; [done|]. destruct Hm. rewrite Heq, <- Ht. by apply list_elem_of_fmap_2.
  - apply elem_of_cons in Hin as [->|Hin]; [done|]. by apply IH.
Qed.

Lemma remove_run_app l m : smt_Destination m <> "/run" -> exists l', remove_run (l ++ [m]) = l' ++ [m] /\ l' ⊆ l.
Proof.
  intros Hm. induction l as [|x l (l' & Hl & Hsub)]; cbn.
  - destruct (String.eqb_spec (smt_Destination m) "/run"); [done|]. by exists [].
  - destruct (_ =? _)%string; [exists l|exists (x :: l')]; rewrite ?Hl; (split; [done|set_solver]).
Qed.

Section confine.
  Context {C W : Type} `{Containerd W} `{OciLaws W} `{MapOrder} `{StartupToml} `{ContainerJson} `{Shlex} `{UrlParser}.

Lemma run_opts_app (l l' : list (SpecOpt W)) : forall s w w' s', run_opts (l ++ l') s w = (w', Ok s') ->
  exists w1 s1, run_opts l s w = (w1, Ok s1) /\ run_opts l' s1 w1 = (w', Ok s').
Proof.
  induction l as [|o l IH]; intros s w w' s' Hrun; cbn [run_opts app] in *; [by exists w, s|].
  ok_bind Hrun w1 s1 Ho. apply IH in Hrun as (w2 & s2 & Hl & Hl'). exists w2, s2. split; [|done].
  unfold mbind, M_bind. by rewrite Ho.
Qed.

(** The options that make no difference for what a container is confined to. *)
Definition same_bounds (data : ContainerSpec) (s s' : Spec) : Prop :=
  sp_Root s' = sp_Root s /\ sp_Mounts s' = sp_Mounts s /\
  (forall l, sp_Linux s = Some l -> exists devices,
     sp_Linux s' = Some (MkLinuxSpec (lx_Namespaces l) (lx_Limit l) (lx_CPU l) devices)) /\
  (forall p, sp_Process s = Some p -> exists p', sp_Process s' = Some p' /\
     (ct_Elevated data = true \/ pr_Capabilities p' = pr_Capabilities p)).

Lemma elevated_same data s w w' s' l p : sp_Linux s = Some l -> sp_Process s = Some p -> ct_Elevated data = true ->
  run_opts [oci_WithAddedCapabilities ["CAP_SYS_ADMIN"]; oci_WithLinuxDevice "/dev/fuse" "rwm"] s w = (w', Ok s') ->
  same_bounds data s s'.
Proof.
  intros Hl Hp He Hrun. cbn [run_opts] in Hrun. ok_bind Hrun w1 s1 E1. ok_bind Hrun w2 s2 E2. injection Hrun as <- <-.
  destruct (oci_capabilities _ _ _ _ _ _ E1 Hp) as (caps & ->).
  destruct (oci_device _ _ _ _ _ _ l E2 Hl) as (devices & ->). unfold same_bounds. cbn. rewrite Hl, Hp.
  split_and!; [done|done|naive_solver|]. intros p' [= <-]. eexists. split; [done|by left].
Qed.

Lemma cwd_same data cwd s w w' s' l p : sp_Linux s = Some l -> sp_Process s = Some p ->
  run_opts [oci_WithProcessCwd cwd] s w = (w', Ok s') -> same_bounds data s s'.
Proof.
  intros Hl Hp Hrun. cbn [run_opts] in Hrun. ok_bind Hrun w1 s1 E1. injection Hrun as <- <-.
  rewrite (oci_cwd _ _ _ _ _ _ E1 Hp). unfold same_bounds. cbn. rewrite Hl, Hp.
  split_and!; [done|done|intros l' [= <-]; exists (lx_Devices l); by destruct l|].
  intros p' [= <-]. eexists. split; [done|by right].
Qed.

Lemma same_bounds_refl data s : same_bounds data s s.
Proof. split_and!; [done|done|intros l ->; exists (lx_Devices l); by destruct l|intros p ->; eauto]. Qed.

Lemma same_bounds_trans data s1 s2 s3 :
  same_bounds data s1 s2 -> same_bounds data s2 s3 -> same_bounds data s1 s3.
Proof.
  intros (Hr & Hm & Hlx & Hpr) (Hr' & Hm' & Hlx' & Hpr'). split_and!; [congruence|congruence| |].
  - intros l' Hl'. destruct (Hlx l' Hl') as (d & Hd). destruct (Hlx' _ Hd) as (d' & Hd'). by exists d'.
  - intros p' Hp'. destruct (Hpr p' Hp') as (p2 & Hp2 & Hc). destruct (Hpr' _ Hp2) as (p3 & Hp3 & Hc').
    exists p3. split; [done|]. destruct Hc as [?| <-]; [by left|]. done.
Qed.

(** The specification up to the limits. *)
Lemma base_confines data s w w' sp :
  run_opts (take 9 (base_options data)) s w = (w', Ok sp) ->
  exists own l p, Forall (fun m => smt_Type m ∈ ignoreMntTypes) own /\
    sp_Root sp = ct_RootFS data /\ sp_Mounts sp = own ++ resolvconf :: (bind_mount <$> ct_Mounts data) /\
    sp_Linux sp = Some l /\ sp_Process sp = Some p /\ ("CAP_SYS_ADMIN" ∉ pr_Capabilities p) /\
    lx_Limit l = Some (i64 (ct_Memory data)) /\ lx_CPU l = Some (cruToLimit (ct_CPU data)) /\
    exists ns, NoDup (lns_Type <$> ns) /\ lx_Namespaces l =
      replace_ns (MkLinuxNamespace NetworkNamespace (Join "/var/run/netns" (ct_Namespace data))) ns.
Proof.
  intros Hrun. cbn [base_options take app run_opts] in Hrun.
  ok_bind Hrun w1 s1 E1. ok_bind Hrun w2 s2 E2. ok_bind Hrun w3 s3 E3. ok_bind Hrun w4 s4 E4. ok_bind Hrun w5 s5 E5.
  ok_bind Hrun w6 s6 E6. ok_bind Hrun w7 s7 E7. ok_bind Hrun w8 s8 E8. ok_bind Hrun w9 s9 E9. injection Hrun as <- <-.
  apply oci_default in E1 as (p & l & Hp & Hl & Hw & Hcap & Hns & Hcpu & Hmounts).
  apply oci_rootfs in E2 as ->. destruct (oci_env _ _ _ _ _ _ E3 Hp) as (env & ->).
  apply oci_resolvconf in E4 as ->. injection E5 as _ <-.
  apply (oci_namespace _ _ _ _ _ l) in E6 as ->; [|done].
  unfold withMounts in E7. rewrite oci_compose in E7. cbn [run_opts] in E7. ok_bind E7 w7' s7' E7'. injection E7 as _ <-.
  apply oci_mounts in E7' as ->. unfold WithMemoryLimit in E8. cbn in E8. rewrite Hw in E8. cbn in E8. injection E8 as _ <-.
  unfold WithCPUCount in E9. ok_bind E9 w9' cpus Hcpus. destruct (_ <? _); [done|]. cbn in E9. rewrite Hcpu in E9.
  injection E9 as _ <-. cbn.
  destruct (remove_run_app (sp_Mounts s1) resolvconf) as (own & Hown & Hsub); [done|].
  exists own, (MkLinuxSpec (replace_ns (MkLinuxNamespace NetworkNamespace (Join "/var/run/netns" (ct_Namespace data)))
    (lx_Namespaces l)) (Some (i64 (ct_Memory data))) (Some (cruToLimit (ct_CPU data))) (lx_Devices l)),
    (MkProcess (pr_Args p) env (pr_Cwd p) (pr_Capabilities p)).
  split_and!; [|done| |done|done|done|done|done|by exists (lx_Namespaces l)].
  - apply Forall_forall. intros m Hm%Hsub. by apply (proj1 (Forall_forall _ _) Hmounts).
  - rewrite Hown. by rewrite <- (assoc_L (++)).
Qed.

Lemma process_confines data process s w w' s' l p : process_options data = Ok process ->
  sp_Linux s = Some l -> sp_Process s = Some p -> run_opts process s w = (w', Ok s') ->
  sp_Root s' = sp_Root s /\ sp_Linux s' = Some l /\
  sp_Mounts s' = sp_Mounts s ++
    (if ct_Interactive data then [MkSpecMount "/corex" "bind" "/usr/bin/corex" ["rbind"; "ro"]] else []) /\
  exists p', sp_Process s' = Some p' /\ pr_Capabilities p' = pr_Capabilities p.
Proof.
  unfold process_options. intros Hopts Hl Hp Hrun. destruct (ct_Interactive data).
  - injection Hopts as <-. cbn [run_opts] in Hrun. ok_bind Hrun w1 s1 E1. injection Hrun as _ <-.
    unfold withCoreX in E1. rewrite oci_compose in E1. cbn [run_opts] in E1. ok_bind E1 w2 s2 E2. injection E2 as _ <-.
    ok_bind E1 w3 s3 E3. injection E1 as _ <-. rewrite (oci_args _ _ _ _ _ _ E3 Hp). cbn. rewrite Hl. eauto 10.
  - destruct (shlex_Split _) as [[|a l']|e|e]; try done. injection Hopts as <-. cbn [run_opts] in Hrun.
    ok_bind Hrun w1 s1 E1. injection Hrun as _ <-. rewrite (oci_args _ _ _ _ _ _ E1 Hp). cbn.
    rewrite app_nil_r, Hl. eauto 10.
Qed.

Lemma options_confine data process s w w' sp : process_options data = Ok process ->
  run_opts (base_options data ++ process) s w = (w', Ok sp) -> confined data sp.
Proof.
  intros Hopts Hrun. rewrite <- (take_drop 9 (base_options data)), <- (assoc_L (++)) in Hrun.
  apply run_opts_app in Hrun as (w1 & s1 & E1 & Hrun). apply run_opts_app in Hrun as (w2 & s2 & E2 & E3).
  apply base_confines in E1 as (own & l & p & Hown & Hroot & Hmnt & Hl & Hp & Hcap & Hlim & Hcpu & ns & Hns & Hnss).
  assert (Hsame : same_bounds data s1 s2).
  { unfold base_options in E2. cbn [drop app] in E2. apply run_opts_app in E2 as (w3 & s3 & E2 & E4).
    apply (same_bounds_trans _ _ s3).
    - destruct (ct_Elevated data) eqn:He; [by eapply elevated_same|]. injection E2 as _ <-. apply same_bounds_refl.
    - destruct (ct_WorkingDir data =? "")%string; [injection E4 as _ <-; apply same_bounds_refl|].
      assert (exists l' p', sp_Linux s3 = Some l' /\ sp_Process s3 = Some p') as (l' & p' & Hl' & Hp').
      { destruct (ct_Elevated data) eqn:He; [|injection E2 as _ <-; eauto].
        destruct (elevated_same data _ _ _ _ _ _ Hl Hp He E2) as (_ & _ & Hlx & Hpr).
        destruct (Hlx _ Hl) as (d & Hd). destruct (Hpr _ Hp) as (p' & Hp' & _). eauto. }
      by eapply cwd_same. }
  destruct Hsame as (Hroot2 & Hmnt2 & Hl2 & Hp2). destruct (Hl2 _ Hl) as (d & Hd). destruct (Hp2 _ Hp) as (p2 & Hp2' & Hcap2).
  destruct (process_confines _ _ _ _ _ _ _ _ Hopts Hd Hp2' E3) as (Hroot3 & Hl3 & Hmnt3 & p3 & Hp3 & Hcap3).
  split; [congruence|]. eexists _, p3. split; [exact Hl3|]. cbn. rewrite Hlim, Hcpu, Hnss, Hcap3. split_and!; try done.
  - apply replace_ns_elem.
  - intros n Hn Ht. by rewrite (replace_ns_only _ _ _ Hns Hn Ht).
  - intros Hin. destruct Hcap2 as [?|Heq]; [done|]. by rewrite Heq in Hin.
  - exists own. split; [done|]. rewrite Hmnt3, Hmnt2, Hmnt. by rewrite <- (assoc_L (++)).
Qed.

End confine.

(** ** Running a container *)

Section run.
  Context {C W : Type} `{GoCacheLaws C} `{ContainerdLaws W} `{!OciLaws W} `{MapOrder} `{StartupToml} `{ContainerJson}
    `{Shlex} `{UrlParser}.
  Context (sock root : string).

Notation CM := (M (FState C W cop)).

Definition keeps_specs {A} (m : CM A) : Prop := forall s, cd_specs (v_world (m s).1) = cd_specs (v_world s).

Lemma ks_fask {A} (m : M W A) : keeps_view cd_specs m -> keeps_specs (fask m).
Proof. intros Hm s. unfold fask. specialize (Hm (v_world s)). by destruct (m (v_world s)). Qed.

Lemma ks_fact {A} o (m : M W A) : keeps_view cd_specs m -> keeps_specs (fact o m).
Proof. intros Hm s. unfold fact. specialize (Hm (v_world s)). by destruct (m (v_world s)). Qed.

Lemma ks_pure {A} (m : CM A) : (forall s, (m s).1 = s) -> keeps_specs m.
Proof. intros Hm s. by rewrite Hm. Qed.

Lemma ks_bind {A B} (m : CM A) (k : A -> CM B) : keeps_specs m -> (forall a, keeps_specs (k a)) -> keeps_specs (m ≫= k).
Proof.
  intros Hm Hk s. unfold mbind, M_bind. specialize (Hm s). destruct (m s) as [s1 [a|e|p]]; [|done..].
  cbn in Hm. by rewrite Hk.
Qed.

Lemma ks_try {A} (m : CM A) : keeps_specs m -> keeps_specs (try m).
Proof. intros Hm s. unfold try. specialize (Hm s). by destruct (m s) as [s1 []]. Qed.

Lemma ks_for_each {A} (body : A -> CM unit) l : (forall x, keeps_specs (body x)) -> keeps_specs (for_each body l).
Proof. intros Hb. induction l as [|x l IH]; cbn [for_each]; [by apply ks_pure|]. by apply ks_bind. Qed.

Lemma ks_Ok {A} (m : CM A) s s' x : keeps_specs m -> m s = (s', x) -> cd_specs (v_world s') = cd_specs (v_world s).
Proof. intros Hm Hrun. specialize (Hm s). by rewrite Hrun in Hm. Qed.

(** Procedures that leave the specifications alone, by their structure. *)
Ltac keep_specs :=
  repeat first
    [ apply ks_bind; [|intros] | apply ks_try | apply ks_for_each; intros | apply ks_fask | apply ks_fact
    | apply cd_Spec_keeps | apply cd_New_keeps | apply cd_Load_keeps | apply cd_Task_keeps | apply cd_DeleteTask_keeps
    | apply cd_NewTask_keeps | apply cd_StartTask_keeps | apply cd_MkdirAll_keeps | apply cd_WriteFile_keeps
    | apply cd_Dial_keeps | by apply ks_pure | done | case_match ].

Lemma ks_start_container ns data : keeps_specs (start_container root ns data).
Proof. unfold start_container, Serialize, start_stats, ensureTask, NewRedis. keep_specs. Qed.

(** What the startup file leaves as it is. *)
Definition same_limits (data data' : ContainerSpec) : Prop :=
  ct_Name data' = ct_Name data /\ ct_RootFS data' = ct_RootFS data /\ ct_Namespace data' = ct_Namespace data /\
  ct_Mounts data' = ct_Mounts data /\ ct_Interactive data' = ct_Interactive data /\ ct_CPU data' = ct_CPU data /\
  ct_Memory data' = ct_Memory data /\ ct_Elevated data' = ct_Elevated data.

Lemma with_startup_same data (s s' : FState C W cop) data' :
  with_startup data s = (s', Ok data') -> same_limits data data'.
Proof.
  unfold with_startup. intros Hrun. ok_bind Hrun s1 got Hgot. injection Hrun as <- <-.
  destruct got as [d|e]; [|done]. apply try_inl in Hgot. unfold applyStartup in Hgot.
  ok_bind Hgot s2 f Hf. destruct f as [[]|e]; [|by injection Hgot as _ <-].
  ok_bind Hgot s3 content Hc. ok_bind Hgot s4 entries He. destruct (entries !! "entry") as [e|]; [|by injection Hgot as _ <-].
  injection Hgot as _ Hgot. unfold startup_data in Hgot. destruct (mergeEnvs _ _); [|done..]. by injection Hgot as <-.
Qed.

Lemma confined_same data data' sp : same_limits data data' -> confined data' sp -> confined data sp.
Proof.
  unfold confined, host_mounts. by intros (_ & -> & -> & -> & -> & -> & -> & ->).
Qed.

Lemma Run_spec ns data (s s' : FState C W cop) id : Run sock root ns data s = (s', Ok id) ->
  id = ct_Name data /\
  exists sp, cd_specs (v_world s') !! (ns, id) = Some sp /\ confined (with_defaults data) sp.
Proof.
  intros Hrun. unfold Run in Hrun. ok_bind Hrun s1 u1 E1. ok_bind Hrun s2 u2 E2.
  destruct (ct_RootFS data =? "")%string; [done|]. destruct (ct_Namespace data =? "")%string; [done|].
  ok_bind Hrun s3 data' E3. pose proof (with_startup_same _ _ _ _ E3) as Hsame.
  unfold create_container in Hrun. ok_bind Hrun s4 process E4. injection E4 as <- Hopts.
  ok_bind Hrun s5 u5 E5. ok_bind Hrun s6 spec E6. destruct (sp_Linux spec) as [l|]; [|done].
  ok_bind Hrun s7 u7 E7. injection Hrun as <- <-. destruct Hsame as [Hname Hsame].
  split; [exact Hname|].
  assert (Hspec : exists sp, cd_specs (v_world s5) !! (ns, ct_Name data') = Some sp /\ confined data' sp).
  { unfold fact in E5. destruct (cd_NewContainer _ _ _ _) as [w [[]|e|p]] eqn:Hnew; [|done..]. injection E5 as <-.
    apply cd_created in Hnew as (w1 & w2 & sp & Hsp & Hin). exists sp. split; [done|]. by eapply options_confine. }
  destruct Hspec as (sp & Hin & Hconf). exists sp. split; [|by eapply confined_same].
  unfold or_delete in E7. ok_bind E7 s8 r E8. destruct r as [[]|e]; [|ok_bind E7 s9 u9 E9; done].
  injection E7 as <-. apply try_inl in E8.
  rewrite (ks_Ok _ _ _ _ (ks_start_container ns data') E8).
  rewrite (ks_Ok _ _ _ _ (ks_fask _ (cd_Spec_keeps ns (ct_Name data'))) E6). done.
Qed.

(** C12 (safety): a container that runs is confined to what it was given. Its root file
    system is the one of the reservation, it has the limits of memory and of cpu (those
    by default when none is asked for), it is in the network namespace of its network
    and in no other, it sees of the host the mounts it was given and the files every
    container gets, and it is privileged only when it is elevated. *)
Theorem Run_confines ns data (s s' : FState C W cop) id : Run sock root ns data s = (s', Ok id) ->
  id = ct_Name data /\
  exists sp, cd_specs (v_world s') !! (ns, id) = Some sp /\ confined (with_defaults data) sp.
Proof. apply Run_spec. Qed.

Lemma foldl_network path l : forall found,
  (forall n, n ∈ l -> lns_Type n = NetworkNamespace -> lns_Path n = path) ->
  (found = Base path \/ exists n, n ∈ l /\ lns_Type n = NetworkNamespace) ->
  foldl (fun found n => if (lns_Type n =? NetworkNamespace)%string then Base (lns_Path n) else found) found l = Base path.
Proof.
  induction l as [|n l IH]; intros found Hl Hex; cbn.
  - destruct Hex as [?|(n & Hn & _)]; [done|by apply elem_of_nil in Hn].
  - apply IH; [intros n' Hn'; apply Hl; by right|].
    destruct (String.eqb_spec (lns_Type n) NetworkNamespace) as [Ht|Ht]; [left; by rewrite (Hl n); [|by left|]|].
    destruct Hex as [?|(n' & [->|Hn']%elem_of_cons & Ht')]; [by left|done|right; eauto].
Qed.

Definition inspected_mounts (data : ContainerSpec) : list MountInfo :=
  MkMountInfo "/etc/resolv.conf" "/etc/resolv.conf" :: (ct_Mounts data ++
    (if ct_Interactive data then [MkMountInfo "/usr/bin/corex" "/corex"] else [])).

Lemma filter_all {A} (P : A -> Prop) `{!forall x, Decision (P x)} l : Forall P l -> filter P l = l.
Proof. induction 1 as [|x l Hx Hl IH]; [done|]. by rewrite filter_cons_True, IH. Qed.

Lemma filter_none {A} (P : A -> Prop) `{!forall x, Decision (P x)} l : Forall (fun x => ~ P x) l -> filter P l = [].
Proof. induction 1 as [|x l Hx Hl IH]; [done|]. by rewrite filter_cons_False. Qed.

Lemma filter_mounts own data : Forall (fun m => smt_Type m ∈ ignoreMntTypes) own ->
  (fun m => MkMountInfo (smt_Source m) (smt_Destination m)) <$>
    filter (fun m => smt_Type m ∉ ignoreMntTypes) (own ++ host_mounts data) = inspected_mounts data.
Proof.
  intros Hown. rewrite filter_app, (filter_none _ own) by (eapply Forall_impl; [exact Hown|naive_solver]).
  assert (Hall : Forall (fun m => smt_Type m ∉ ignoreMntTypes) (host_mounts data)).
  { assert (Hbind : "bind" ∉ ignoreMntTypes) by (by apply (bool_decide_unpack _); vm_compute).
    unfold host_mounts. constructor; [done|]. apply Forall_app. split; [by apply Forall_fmap, Forall_true|].
    destruct (ct_Interactive data); by repeat constructor. }
  rewrite filter_all by done. cbn [app]. unfold inspected_mounts, host_mounts. rewrite fmap_cons. f_equal.
  rewrite fmap_app, <- list_fmap_compose. f_equal; [|by destruct (ct_Interactive data)].
  rewrite <- (list_fmap_id (ct_Mounts data)) at 2. apply list_fmap_ext. by intros i [].
Qed.

(** What is said of a container that was run is what it was run with:
    the name, the root file system, the network namespace, and the mounts, in their
    order and with those that every container gets. The janitor relies on it when it
    asks which volumes are in use. *)
Theorem Run_Inspect ns data (s s1 s2 s3 : FState C W cop) id c : clean_elem (ct_Namespace data) ->
  Run sock root ns data s = (s1, Ok id) ->
  cd_specs (v_world s2) !! (ns, id) = cd_specs (v_world s1) !! (ns, id) ->
  Inspect sock ns id s2 = (s3, Ok c) ->
  ct_Name c = ct_Name data /\ ct_RootFS c = ct_RootFS data /\ ct_Namespace c = ct_Namespace data /\
  ct_Mounts c = inspected_mounts data.
Proof.
  intros Hclean Hrun Hsame Hins. apply Run_spec in Hrun as (-> & sp & Hsp & Hroot & l & p & Hl & _ & _ & _ & Hin & Hnet & _ & own & Hown & Hmnt).
  unfold Inspect in Hins. ok_bind Hins s4 u4 E4. ok_bind Hins s5 u5 E5. ok_bind Hins s6 spec E6.
  injection Hins as _ Hc.
  assert (spec = sp) as ->.
  { apply (ks_Ok _ _ _ _ (ks_fask _ (cd_New_keeps sock))) in E4.
    apply (ks_Ok _ _ _ _ (ks_fask _ (cd_Load_keeps ns (ct_Name data)))) in E5.
    unfold fask in E6. destruct (cd_Spec _ _ _) as [w x] eqn:Hread. injection E6 as _ ->.
    apply cd_Spec_reads in Hread. rewrite E5, E4, Hsame, Hsp in Hread. by injection Hread. }
  unfold inspected in Hc. rewrite Hl in Hc. injection Hc as <-. cbn [ct_Name ct_RootFS ct_Namespace ct_Mounts].
  rewrite Hmnt, filter_mounts by done. split_and!; [done|done| |done].
  rewrite (foldl_network (Join "/var/run/netns" (ct_Namespace data))); [|done|right; eexists; split; [exact Hin|done]].
  eapply (Base_rooted _ ["var"; "run"; "netns"]), Join_rooted; [|done]. split_and!; [done|by repeat constructor|done].
Qed.

(** The last thing that was asked for. *)
Definition asked_last (o : cop) (l : list cop) : Prop := exists l', l = l' ++ [o].

Definition creates (o : cop) : bool := match o with CNewContainer _ _ => true | _ => false end.

Lemma ensureNamespace_log ns (s s' : FState C W cop) x : ensureNamespace ns s = (s', x) ->
  exists l, v_log s' = v_log s ++ l /\ Forall (fun o => creates o = false) l.
Proof.
  unfold ensureNamespace, mbind, M_bind. destruct (fask cd_Namespaces s) as [s1 [l|e|p]] eqn:Hl;
    apply unlogged_log in Hl; try apply unlogged_fask.
  2,3: intros [= <- <-]; exists []; rewrite app_nil_r; by split.
  destruct (existsb _ l); [intros [= <- <-]; exists []; by rewrite app_nil_r|].
  intros Hrun%fact_log. rewrite Hrun, Hl. eexists. split; [done|by repeat constructor].
Qed.

Lemma unlogged_with_startup data : unlogged (with_startup data : CM ContainerSpec).
Proof.
  unfold with_startup, applyStartup.
  repeat first [apply unlogged_bind; [|intros] | apply unlogged_try | apply unlogged_fask | done | case_match].
Qed.

Lemma adds_start_container ns data : adds (starting is_cstart 1) (start_container root ns data : CM unit).
Proof.
  unfold start_container, Serialize, start_stats, NewRedis, ensureTask.
  repeat (apply (adds_bind _ _ 0 1); [lia|starts_nothing|intros]). apply adds_fact. cbn. lia.
Qed.

Lemma create_container_fails ns data (s s' : FState C W cop) e : create_container root ns data s = (s', Err e) ->
  exists l, v_log s' = v_log s ++ l /\
    (l = [] \/ asked_last (CNewContainer ns (ct_Name data)) l \/ asked_last (CDelete ns (ct_Name data)) l).
Proof.
  intros Hrun. unfold create_container in Hrun.
  apply bind_Err_inv in Hrun as [[= <- _]|(s1 & process & [= <- _] & Hrun)]; [exists []; rewrite app_nil_r; auto|].
  apply bind_Err_inv in Hrun as [Hrun%fact_log|(s2 & u2 & E2%fact_log & Hrun)];
    [eexists; split; [done|right; left; by exists []]|].
  apply bind_Err_inv in Hrun as [Hrun|(s3 & spec & E3 & Hrun)];
    [apply unlogged_log in Hrun; [|apply unlogged_fask]; rewrite Hrun, E2; eexists; split; [done|right; left; by exists []]|].
  destruct (sp_Linux spec); [|done]. apply bind_Err_inv in Hrun as [Hrun|(s4 & u4 & E4 & Hrun)]; [|done].
  unfold or_delete in Hrun. apply bind_Err_inv in Hrun as [Hrun|(s4 & r & E4 & Hrun)].
  { unfold try in Hrun. by destruct (start_container root ns data s3) as [? []]. }
  destruct r as [[]|e']; [done|]. apply bind_Err_inv in Hrun as [Hrun|(s5 & u5 & E5 & Hrun)].
  { unfold ignore in Hrun. by destruct (fact _ _ s4) as [? []]. }
  injection Hrun as <- _. destruct (adds_start_container ns data s3) as (_ & more & Hl & _).
  destruct u5. apply ignore_inv in E5 as (x & E5%fact_log & _). apply try_inv in E4. rewrite E4 in Hl.
  apply unlogged_log in E3; [|apply unlogged_fask].
  exists ([CNewContainer ns (ct_Name data)] ++ more ++ [CDelete ns (ct_Name data)]).
  rewrite E5. cbn in Hl. rewrite Hl, E3, E2, !(assoc_L (++)). split; [done|]. right. right. eexists. done.
Qed.

(** A container that cannot be started is deleted. When [Run] returns an
    error, either no container was created; or creating it, or reading it back right
    after, is what failed; or the deletion of the container is the last thing that was
    asked of containerd. *)
Theorem Run_gives_back ns data (s s' : FState C W cop) e : Run sock root ns data s = (s', Err e) ->
  exists l, v_log s' = v_log s ++ l /\
    (Forall (fun o => creates o = false) l \/ asked_last (CNewContainer ns (ct_Name data)) l \/
     asked_last (CDelete ns (ct_Name data)) l).
Proof.
  intros Hrun. unfold Run in Hrun. apply bind_Err_inv in Hrun as [Hrun|(s1 & u1 & E1 & Hrun)].
  { apply unlogged_log in Hrun; [|apply unlogged_fask]. exists []. rewrite app_nil_r. auto. }
  apply unlogged_log in E1; [|apply unlogged_fask]. rewrite <- E1. clear E1.
  apply bind_Err_inv in Hrun as [Hrun%ensureNamespace_log|(s2 & u2 & E2%ensureNamespace_log & Hrun)]; [naive_solver|].
  destruct E2 as (l & Hl & Hc). destruct (ct_RootFS data =? "")%string; [injection Hrun as <- _; eauto|].
  destruct (ct_Namespace data =? "")%string; [injection Hrun as <- _; eauto|].
  apply bind_Err_inv in Hrun as [Hrun|(s3 & data' & E3 & Hrun)].
  { apply unlogged_log in Hrun; [|apply unlogged_with_startup]. rewrite Hrun. eauto. }
  pose proof (with_startup_same _ _ _ _ E3) as [Hname _]. apply unlogged_log in E3; [|apply unlogged_with_startup].
  apply create_container_fails in Hrun as (l' & Hl' & Hcase). exists (l ++ l'). cbn in Hname. rewrite Hname in Hcase.
  rewrite Hl', E3, Hl, (assoc_L (++)). split; [done|]. destruct Hcase as [->|[(l2 & ->)|(l2 & ->)]].
  - left. by rewrite app_nil_r.
  - right. left. exists (l ++ l2). by rewrite (assoc_L (++)).
  - right. right. exists (l ++ l2). by rewrite (assoc_L (++)).
Qed.

Lemma fk_stop_task ns id turns : forall trials, failures_kept (stop_task turns trials ns id : CM unit).
Proof.
  induction turns as [|turns IH]; intros trials; cbn [stop_task]; [done|].
  apply fk_bind; [apply fk_ignore, fk_fact|intros _]. apply fk_bind; [apply fk_fask|intros []]; [done|].
  by destruct (_ <? _).
Qed.

(** What [Delete] does once the container is marked. *)
Lemma delete_rest_failures ns id (s s' : FState C W cop) x c : v_failures s = c ->
  (task ← try (fask (cd_Task ns id));
   match task with
   | inr _ => mret tt
   | inl _ =>
       fask (cd_Wait ns id) ;; stop_task stop_turns 3 ns id ;; fact (CDeleteTask ns id) (cd_DeleteTask ns id)
   end ;;
   fact (CDelete ns id) (cd_Delete ns id)) s = (s', x) -> v_failures s' = c.
Proof.
  intros <- Hrun.
  enough (Hk : failures_kept _) by (specialize (Hk s); rewrite Hrun in Hk; exact Hk). clear Hrun.
  repeat first [apply fk_stop_task | apply fk_bind; [|intros] | apply fk_try | apply fk_fask | apply fk_fact | done | case_match].
Qed.

(** C34 (safety): a container that is deleted is not started again. Once [Delete] has
    found the container, an exit of it that is handled within a minute, while the
    deletion goes on or after it and in whatever way it ended, asks for nothing. *)
Theorem deleted_not_restarted ns ns' id (s s1 s2 : FState C W cop) x :
  Delete sock ns id s = (s1, x) -> v_log s1 <> v_log s ->
  entry_of s2 id = entry_of s1 id -> cd_Now (v_world s2) < cd_Now (v_world s) + c_cacheExpiration ->
  handlerEventTaskExit sock ns' id s2 = (s2, Ok tt).
Proof.
  intros Hrun Hlog Hentry Hnow.
  assert (Hmark : exists t, entry_of s1 id = Some (Permanent, Some t) /\ cd_Now (v_world s) + c_cacheExpiration <= t).
  { unfold Delete in Hrun. unfold mbind at 1, M_bind at 1, fask at 1 in Hrun.
    pose proof (cd_New_time sock (v_world s)) as T1. destruct (cd_New sock (v_world s)) as [w1 [[]|e|p]];
      [|by injection Hrun as <- _..].
    unfold mbind at 1, M_bind at 1, fask at 1 in Hrun. cbn [v_world v_failures v_log] in Hrun.
    pose proof (cd_Load_time ns id w1) as T2. destruct (cd_LoadContainer ns id w1) as [w2 [[]|e|p]];
      [|by injection Hrun as <- _..].
    cbn in T1, T2. unfold mbind at 1, M_bind at 1, failures_Set in Hrun. cbn [v_world v_failures v_log] in Hrun.
    set (c := gc_Set _ _ _ _ _) in Hrun. exists (cd_Now w2 + c_cacheExpiration).
    assert (Hkeep : v_failures s1 = c).
    { by eapply delete_rest_failures in Hrun. }
    unfold entry_of. rewrite Hkeep. unfold c. rewrite gc_set, lookup_insert_eq. split; [done|lia]. }
  destruct Hmark as (t & Ht & Hlate). apply (handler_permanent _ _ _ t); [by rewrite Hentry|lia].
Qed.

End run.

(** Every exit that is reported is handled once, in the order of the reports. *)
Definition exit_of (x : signal) : list (string * string) :=
  match x with Envelope ns (Ok (TaskExit id)) => [(ns, id)] | _ => [] end.

(** The watcher loses no exit when its connection breaks: over connections that end with
    an error, all the exits of all the streams are handled, in their order. *)
Theorem Watch_handles (connections : list (list signal * error)) :
  Forall (fun c => Forall (fun x => match x with Envelope _ _ => True | _ => False end) c.1) connections ->
  Watch ((fun c => Ok (c.1 ++ [StreamError c.2])) <$> connections) = connections ≫= (fun c => c.1 ≫= exit_of).
Proof.
  intros Hall. induction Hall as [|[stream e] l Hs _ IH]; [done|]. cbn.
  assert (watch (stream ++ [StreamError e]) = (stream ≫= exit_of, Some (Err e))) as ->; [|by rewrite IH].
  cbn in Hs. induction Hs as [|x stream Hx Hs IHs]; [done|]. destruct x as [|ns ev|e']; [done| |done].
  cbn. rewrite IHs. by destruct ev as [[]| |].
Qed.

(** ** A node that runs containers *)
Module ContDemo.
Import FailuresDemo.

(** The time, the containers with their specifications, those with a task, what a
    startup file says, and the calls that fail. *)
Record world := MkWorld {
  w_now : Z; w_specs : gmap (string * string) Spec; w_tasks : list (string * string); w_startup : option string;
  w_fails : list string
}.

Definition fails (w : world) (call : string) : bool := existsb (String.eqb call) (w_fails w).

(** A call that may fail and does [f]. *)
Definition does (call : string) (f : world -> world) : M world unit := fun w =>
  if fails w call then (w, Err (ErrMsg call)) else (f w, Ok tt).

Definition set_specs (f : gmap (string * string) Spec -> gmap (string * string) Spec) (w : world) : world :=
  MkWorld (w_now w) (f (w_specs w)) (w_tasks w) (w_startup w) (w_fails w).

Definition set_tasks (f : list (string * string) -> list (string * string)) (w : world) : world :=
  MkWorld (w_now w) (w_specs w) (f (w_tasks w)) (w_startup w) (w_fails w).

Definition later (d : Z) (w : world) : world :=
  MkWorld (w_now w + d) (w_specs w) (w_tasks w) (w_startup w) (w_fails w).

Definition pure (f : Spec -> Spec) : SpecOpt world := fun s w => (w, Ok (f s)).

Definition on_process (f : Process -> Process) (s : Spec) : Spec :=
  match sp_Process s with Some p => set_Process (f p) s | None => s end.

Definition on_linux (f : LinuxSpec -> LinuxSpec) (s : Spec) : Spec :=
  match sp_Linux s with Some l => set_Linux (f l) s | None => s end.

Definition default_spec : Spec :=
  MkSpec "rootfs" (Some (MkProcess [] ["PATH=/bin"] "/" ["CAP_CHOWN"]))
    [MkSpecMount "/proc" "proc" "proc" []; MkSpecMount "/run" "tmpfs" "tmpfs" []]
    (Some (MkLinuxSpec [MkLinuxNamespace "pid" ""; MkLinuxNamespace "network" ""] None None [])) None.

#[local] Instance oci : Oci world := {|
  oci_WithDefaultSpecForPlatform _ := pure (fun _ => default_spec);
  oci_WithRootFSPath path := pure (set_Root path);
  oci_WithEnv env := pure (on_process (fun p => MkProcess (pr_Args p) (pr_Env p ++ env) (pr_Cwd p) (pr_Capabilities p)));
  oci_WithHostResolvconf := pure (fun s => set_Mounts (sp_Mounts s ++ [resolvconf]) s);
  oci_WithLinuxNamespace n := pure (on_linux (fun l =>
    MkLinuxSpec (replace_ns n (lx_Namespaces l)) (lx_Limit l) (lx_CPU l) (lx_Devices l)));
  oci_WithMounts l := pure (fun s => set_Mounts (sp_Mounts s ++ l) s);
  oci_WithProcessArgs args := pure (on_process (fun p => MkProcess args (pr_Env p) (pr_Cwd p) (pr_Capabilities p)));
  oci_WithProcessCwd cwd := pure (on_process (fun p => MkProcess (pr_Args p) (pr_Env p) cwd (pr_Capabilities p)));
  oci_WithAddedCapabilities caps := pure (on_process (fun p =>
    MkProcess (pr_Args p) (pr_Env p) (pr_Cwd p) (pr_Capabilities p ++ caps)));
  oci_WithLinuxDevice path perms := pure (on_linux (fun l =>
    MkLinuxSpec (lx_Namespaces l) (lx_Limit l) (lx_CPU l) (lx_Devices l ++ [(path, perms)])));
  oci_Compose opts := run_opts opts
|}.

#[local] Instance oci_laws : OciLaws world.
Proof.
  split; cbn; unfold pure; try (intros; by simplify_eq).
  - intros _ s w w' s' [= <- <-]. eexists _, _. do 3 (split; [reflexivity|]). cbn. split; [set_solver|].
    split; [repeat constructor; set_solver|]. split; [done|]. repeat constructor; set_solver.
  - intros env s w w' s' p [= <- <-] Hp. unfold on_process. rewrite Hp. eauto.
  - intros n s w w' s' l [= <- <-] Hl. unfold on_linux. by rewrite Hl.
  - intros args s w w' s' p [= <- <-] Hp. unfold on_process. by rewrite Hp.
  - intros cwd s w w' s' p [= <- <-] Hp. unfold on_process. by rewrite Hp.
  - intros caps s w w' s' p [= <- <-] Hp. unfold on_process. rewrite Hp. eauto.
  - intros path perms s w w' s' l [= <- <-] Hl. unfold on_linux. rewrite Hl. eauto.
Qed.

#[local] Instance node : Containerd world := {|
  cd_Now := w_now;
  cd_New _ := does "connect" (later 1);
  cd_Namespaces w := (w, Ok ["zdb"]);
  cd_CreateNamespace _ := does "namespace" id;
  cd_Containers ns w := (w, Ok (snd <$> filter (fun k => k.1 = ns) (map_to_list (w_specs w)).*1));
  cd_NewContainer ns id opts w :=
    match run_opts opts emptySpec w with
    | (w', Ok sp) => (set_specs (insert (ns, id) sp) w', Ok tt)
    | (w', Err e) => (w', Err e)
    | (w', Panic p) => (w', Panic p)
    end;
  cd_LoadContainer ns id w := (w, match w_specs w !! (ns, id) with Some _ => Ok tt | None => Err ErrNotExist end);
  cd_Spec ns id w := (w, match w_specs w !! (ns, id) with Some sp => Ok sp | None => Err ErrNotExist end);
  cd_NoRestarts _ _ := does "update" id;
  cd_Delete ns id := does "delete" (set_specs (delete (ns, id)));
  cd_Task ns id w := (w, if bool_decide ((ns, id) ∈ w_tasks w) then Ok tt else Err ErrNotExist);
  cd_NewTask ns id := does "task" (set_tasks (cons (ns, id)));
  cd_StartTask _ _ := does "start" (fun w => w);
  cd_DeleteTask ns id := does "deletetask" (set_tasks (filter (fun k => k <> (ns, id))));
  cd_Wait _ _ w := (w, Ok tt);
  cd_Kill _ _ _ w := (w, Ok tt);
  cd_Exits _ _ w := (later (seconds 1) w, negb (fails w "exit"));
  cd_Metrics _ _ w := (w, Ok None);
  cd_IsNotFound := IsNotExist;
  cd_Counts w := (w, Ok 8);
  cd_Open _ w := (w, match w_startup w with Some _ => Ok tt | None => Err ErrNotExist end);
  cd_Read _ w := (w, match w_startup w with Some c => Ok c | None => Err ErrNotExist end);
  cd_MkdirAll _ := does "mkdir" id;
  cd_WriteFile _ _ := does "write" id;
  cd_Dial _ := does "dial" id;
  cd_Publish _ _ := does "publish" id;
  cd_Sleep d w := (later d w, Ok tt);
  cd_DecommissionCached _ _ := does "decommission" id
|}.

#[local] Instance laws : ContainerdLaws world.
Proof.
  refine {| cd_specs := w_specs |}.
  all: unfold keeps_view, passes; intros; cbn; unfold does; try (destruct (fails _ _); (done || cbn; lia)); try done.
  - cbn in H. destruct (run_opts opts emptySpec w) as [w1 [sp|e|p]] eqn:Hrun; [|done..]. injection H as <-.
    exists w, w1, sp. split; [done|]. cbn. by rewrite lookup_insert_eq.
  - cbn in H. destruct (w_specs w !! (ns, id)); [|done]. by injection H as _ <-.
Defined.

(** A lexer with words, spaces and double quotes. *)
Inductive lexing := Between | InWord (w : string) | InQuote (w : string) | Escaped (w : string).

Definition one (c : ascii) : string := String c "".

Fixpoint lex (st : lexing) (s : string) : res (list string) :=
  match s with
  | EmptyString =>
      match st with Between => Ok [] | InWord w => Ok [w] | _ => Err ErrUnexpectedEOF end
  | String c s =>
      match st with
      | Between =>
          if Ascii.eqb c " " then lex Between s
          else if Ascii.eqb c dquote then lex (InQuote "") s
          else lex (InWord (one c)) s
      | InWord w =>
          if Ascii.eqb c " " then res_map (cons w) (lex Between s)
          else if Ascii.eqb c dquote then lex (InQuote w) s
          else lex (InWord (w +:+ one c)) s
      | InQuote w =>
          if Ascii.eqb c dquote then lex (InWord w) s
          else if Ascii.eqb c backslash then lex (Escaped w) s
          else lex (InQuote (w +:+ one c)) s
      | Escaped w => lex (InQuote (w +:+ one c)) s
      end
  end.

#[local] Instance shlex : Shlex := lex Between.

Lemma ordinary_ne c : ordinary c = true -> Ascii.eqb c " " = false /\ Ascii.eqb c dquote = false.
Proof.
  unfold ordinary, special. cbn [existsb]. rewrite negb_true_iff, !orb_false_iff. naive_solver.
Qed.

Lemma app_one w c s : (w +:+ one c) +:+ s = w +:+ String c s.
Proof. by rewrite string_app_assoc. Qed.

Lemma lex_word w : forall a rest, all_chars ordinary w = true -> lex (InWord a) (w +:+ rest) = lex (InWord (a +:+ w)) rest.
Proof.
  induction w as [|c w IH]; intros a rest Hw; [by rewrite string_app_nil_r|].
  apply andb_true_iff in Hw as [Hc Hw]. apply ordinary_ne in Hc as [H1 H2].
  change (String c w +:+ rest) with (String c (w +:+ rest)). cbn [lex]. by rewrite H1, H2, IH, app_one.
Qed.

Lemma lex_quote n : forall body a v rest, (String.length body <= n)%nat -> unescape body = Some v ->
  lex (InQuote a) (body +:+ String dquote rest) = lex (InWord (a +:+ v)) rest.
Proof.
  induction n as [|n IH]; intros [|c body] a v rest Hn Hv; cbn in Hn; try lia.
  1,2: injection Hv as <-; by rewrite string_app_nil_r.
  change (String c body +:+ String dquote rest) with (String c (body +:+ String dquote rest)).
  cbn [unescape] in Hv. cbn [lex]. destruct (Ascii.eqb c backslash) eqn:Hb.
  - apply Ascii.eqb_eq in Hb as ->. change (Ascii.eqb backslash dquote) with false. cbn iota.
    destruct body as [|c' body]; [done|]. destruct (unescape body) as [v'|] eqn:Hv'; [|done]. injection Hv as <-.
    change (String c' body +:+ String dquote rest) with (String c' (body +:+ String dquote rest)). cbn [lex].
    rewrite (IH _ _ v') by (done || (cbn in Hn; lia)). by rewrite app_one.
  - destruct (Ascii.eqb c dquote) eqn:Hq; [done|]. destruct (unescape body) as [v'|] eqn:Hv'; [|done]. injection Hv as <-.
    rewrite (IH _ _ v') by (done || lia). by rewrite app_one.
Qed.

Lemma lex_token t v rest : token_value t = Some v -> lex Between (token_text t +:+ rest) = lex (InWord v) rest.
Proof.
  destruct t as [w|body]; cbn [token_value token_text]; intros Hv.
  - destruct w as [|c w]; [done|]. destruct (all_chars ordinary (String c w)) eqn:Hw; [|done]. injection Hv as <-.
    apply andb_true_iff in Hw as [Hc Hw]. apply ordinary_ne in Hc as [H1 H2].
    change (String c w +:+ rest) with (String c (w +:+ rest)). cbn [lex]. by rewrite H1, H2, lex_word.
  - change (String dquote (body +:+ String dquote "") +:+ rest) with (String dquote ((body +:+ String dquote "") +:+ rest)).
    rewrite string_app_assoc. change (lex (InQuote "") (body +:+ String dquote rest) = lex (InWord v) rest).
    by rewrite (lex_quote (String.length body) body "" v).
Qed.

#[local] Instance shlex_laws : ShlexLaws.
Proof.
  split. intros t ts. revert t. induction ts as [|t' ts IH]; intros t ws Hws.
  - cbn [foldr] in *. change (mapM token_value [t] = Some ws) in Hws. apply mapM_Some in Hws. inversion_clear Hws as [|? v ? l Hv Hl].
    inversion_clear Hl. unfold shlex_Split, shlex. by rewrite (lex_token t v).
  - apply mapM_Some in Hws. inversion_clear Hws as [|? v ? l Hv Hl]. apply mapM_Some in Hl.
    specialize (IH t' l Hl). unfold shlex_Split, shlex in *. rewrite (lex_token t v) by done. cbn [foldr].
    change (String " " (token_text t') +:+ ?x) with (String " " (token_text t' +:+ x)). cbn [lex]. by rewrite IH.
Qed.

Definition server : entry :=
  MkEntry "core.system" (MkArgs "/start" "/data" ["argument with spaces"; "with " +:+ String dquote "skip"]
    (list_to_map [("LEVEL", "world"); ("PORT", "25565")])).

#[local] Instance toml : StartupToml := fun _ => Ok {[ "entry" := server ]}.
#[local] Instance json : ContainerJson := {|
  enc_Logs _ := "[]"; dec_Logs _ := Ok []; enc_Metrics _ := "{}"
|}.
#[local] Instance urls : UrlParser := fun a => Ok (MkURL "redis" a "" "/channel").
#[local] Instance order : MapOrder := {| map_range A l := l; map_range_perm A l := Permutation_refl l |}.

Definition data (entrypoint : string) : ContainerSpec :=
  MkContainerSpec "12-1" "/mnt/root" ["PORT=80"] "" "net-1" [MkMountInfo "/mnt/vol" "/data"] entrypoint false 2 0 []
    [MkStats "redis" "host"] false.

Definition idle (startup : option string) (fails : list string) : FState cache world cop :=
  MkV ∅ (MkWorld 0 ∅ [] startup fails) [].

Definition run (fails : list string) : FState cache world cop * res string :=
  Run "/sock" "/root" "12" (data "/bin/app -x") (idle None fails).

Lemma Run_confines_witness : exists sp,
  cd_specs (v_world (fst (run []))) !! ("12", "12-1") = Some sp /\ confined (with_defaults (data "/bin/app -x")) sp.
Proof.
  assert (Hrun : run [] = (fst (run []), Ok "12-1")) by (vm_compute; reflexivity).
  exact (proj2 (Run_confines "/sock" "/root" "12" (data "/bin/app -x") (idle None []) (fst (run [])) "12-1" Hrun)).
Defined.

(** The startup file gives the command and the variables that are not set. *)
Example startup_applies :
  let sp := w_specs (v_world (fst (Run "/sock" "/root" "12" (data "") (idle (Some "toml") [])))) !! ("12", "12-1") in
  sp ≫= sp_Process = Some (MkProcess ["/start"; "argument with spaces"; "with " +:+ String dquote "skip"]
    ["PATH=/bin"; "LEVEL=world"; "PORT=80"] "/data" ["CAP_CHOWN"]).
Proof. vm_compute. reflexivity. Qed.

Lemma Run_Inspect_witness : exists c,
  snd (Inspect "/sock" "12" "12-1" (fst (run []))) = Ok c /\
  ct_Mounts c = [MkMountInfo "/etc/resolv.conf" "/etc/resolv.conf"; MkMountInfo "/mnt/vol" "/data"] /\
  ct_Namespace c = "net-1".
Proof.
  eexists. split; [vm_compute; reflexivity|].
  assert (Hrun : run [] = (fst (run []), Ok "12-1")) by (vm_compute; reflexivity).
  assert (Hclean : clean_elem (ct_Namespace (data "/bin/app -x"))) by (by split_and!).
  set (c := MkContainerSpec _ _ _ _ _ _ _ _ _ _ _ _ _).
  assert (Hins : Inspect "/sock" "12" "12-1" (fst (run [])) = (fst (Inspect "/sock" "12" "12-1" (fst (run []))), Ok c))
    by (vm_compute; reflexivity).
  destruct (Run_Inspect "/sock" "/root" "12" (data "/bin/app -x") (idle None []) (fst (run [])) (fst (run []))
    _ "12-1" c Hclean Hrun eq_refl Hins) as (_ & _ & Hns & Hm). split; [exact Hm|exact Hns].
Defined.

(** The task cannot be started: the container is deleted. *)
Lemma Run_gives_back_witness :
  last (v_log (fst (run ["start"]))) = Some (CDelete "12" "12-1") /\
  exists l, v_log (fst (run ["start"])) = [] ++ l /\
    (Forall (fun o => creates o = false) l \/ asked_last (CNewContainer "12" "12-1") l \/
     asked_last (CDelete "12" "12-1") l).
Proof.
  split; [vm_compute; reflexivity|].
  assert (Hrun : run ["start"] = (fst (run ["start"]), Err (ErrMsg "start"))) by (vm_compute; reflexivity).
  exact (Run_gives_back "/sock" "/root" "12" (data "/bin/app -x") (idle None ["start"]) (fst (run ["start"])) _ Hrun).
Defined.

Definition started : FState cache world cop := MkV ∅ (v_world (fst (run []))) [].
Definition exit_once (s : FState cache world cop) : FState cache world cop := fst (handlerEventTaskExit "/sock" "12" "12-1" s).

(** The fourth exit within a minute. *)
Lemma container_crash_loop_witness :
  starts is_cstart (v_log (exit_once (exit_once (exit_once (exit_once started))))) = 3%nat /\
  exists l, v_log (exit_once (exit_once (exit_once (exit_once started)))) = [] ++ l /\ (starts is_cstart l <= 3)%nat /\
    ((4 <= 4)%nat -> CDecommission "12-1" "deleting container due to so many crashes" ∈ l).
Proof.
  split; [vm_compute; reflexivity|].
  apply (container_crash_loop "/sock" "12" "12-1" 0 4 started); [reflexivity|].
  assert (Hexit : forall n s, exits "/sock" "12" "12-1" 0 n started s -> 0 <= cd_Now (v_world s) < c_cacheExpiration ->
    exits "/sock" "12" "12-1" 0 (S n) started (exit_once s)) by (intros n s Hn Ht; by apply (exits_again _ _ _ _ n _ s)).
  apply Hexit; [|by vm_compute]. apply Hexit; [|by vm_compute]. apply Hexit; [|by vm_compute].
  apply Hexit; [|by vm_compute]. apply exits_none.
Defined.

Definition deleting : FState cache world cop * res unit := Delete "/sock" "12" "12-1" started.

Lemma deleted_not_restarted_witness :
  v_log (fst deleting) = [CKill "12" "12-1" SIGTERM; CDeleteTask "12" "12-1"; CDelete "12" "12-1"] /\
  handlerEventTaskExit "/sock" "12" "12-1" (fst deleting) = (fst deleting, Ok tt).
Proof.
  split; [vm_compute; reflexivity|].
  assert (Hrun : deleting = (fst deleting, Ok tt)) by (vm_compute; reflexivity).
  apply (deleted_not_restarted "/sock" "12" "12" "12-1" started (fst deleting) (fst deleting) (Ok tt) Hrun);
    [by vm_compute|reflexivity|by vm_compute].
Defined.

Lemma stop_task_ends_witness : let stubborn := MkV (∅ : cache) (MkWorld 0 ∅ [] None ["exit"]) [] in
  v_log (fst (stop_task stop_turns 3 "12" "a" stubborn)) = CKill "12" "a" <$> stop_signals /\
  exists s' k, stop_task stop_turns 3 "12" "a" stubborn = (s', Ok tt) /\ (1 <= k <= 9)%nat /\
    v_log s' = [] ++ (CKill "12" "a" <$> take k stop_signals) /\ v_failures s' = ∅.
Proof.
  intros stubborn. split; [vm_compute; reflexivity|]. apply (stop_task_ends "12" "a" stubborn). by intros ns id sig w p.
Defined.

Lemma Entrypoint_splits_witness : shlex_Split (Entrypoint server) =
  Ok ["/start"; "argument with spaces"; "with " +:+ String dquote "skip"].
Proof. apply (Entrypoint_splits server); [by left|done|done|by repeat constructor]. Defined.

(** A backslash at the end of an argument takes the quote behind it: the command is not
    understood. *)
Example backslash_breaks :
  shlex_Split (Entrypoint (MkEntry "core.system" (MkArgs "/start" "" [String backslash ""; "b"] ∅))) =
  Err ErrUnexpectedEOF.
Proof. vm_compute. reflexivity. Qed.

Lemma mergeEnvs_spec_witness : exists r, mergeEnvs ["FOO=BAR"; "HELLO=WORLD"] ["HELLO=HELLO"] = Ok r /\
  env_line ("HELLO", "WORLD") ∈ r.
Proof.
  destruct (mergeEnvs_spec ["FOO=BAR"; "HELLO=WORLD"] ["HELLO=HELLO"]) as (r & Hr & _ & Hin);
    [by repeat econstructor..|]. exists r. split; [exact Hr|]. by apply Hin.
Defined.

End ContDemo.
