(* ===== verification/Upgrade.v ===== *)
(** The upgrade of the node: src/pkg/upgrade, and src/pkg/version.

    The hub says which version of the flist of the system there is; the watchers
    compare it with what the node runs, and the upgrader replaces first itself, then
    all the other daemons. [UpgradeNode] is what it uses of the node and of the hub,
    [FlistStore] the content of a flist as 0-fs gives it, [ZinitOps] (of [Zinit])
    the services. What is changed is in the log of [PState]. *)

From stdpp Require Import gmap strings list.
From Stdlib Require Import Ascii ZArith Lia.
From S2P Require Import Prelude Reservation Versioned ZdbPool Storage BtrfsUtil Disk Bus Zinit VmDaemon.

Open Scope Z_scope.
Open Scope go_scope.

(** ** Versions of the binaries: src/pkg/version *)

(** The two groups of the regular expression of the package: what is between
    [Version:] and [@Revision:] without an at sign, and what follows up to a
    parenthesis, which is not empty. *)
Definition version_Parse (v : string) : res (string * string) :=
  let not_at c := negb (Ascii.eqb c "@") in
  let not_paren c := negb (Ascii.eqb c "(") in
  if HasPrefix v "Version:" then
    let '(version, rest) := span not_at (TrimPrefix v "Version:") in
    if HasPrefix rest "@Revision:" then
      match span not_paren (TrimPrefix rest "@Revision:") with
      | (EmptyString, _) => Err (ErrMsg "invalid version string")
      | (revision, _) => Ok (TrimSpace version, TrimSpace revision)
      end
    else Err (ErrMsg "invalid version string")
  else Err (ErrMsg "invalid version string").

(** [version.String]. *)
Definition version_String (branch revision dirty : string) : string :=
  "Version: " +:+ branch +:+ " @Revision: " +:+ revision +:+ (if (dirty =? "")%string then "" else " (dirty-repo)").

(** ** hub.go *)

Record FListInfo := MkFListInfo {
  fi_Name : string; fi_Target : string; fi_Type : string; fi_Updated : Z; fi_Repository : string
}.

Definition zeroFListInfo : FListInfo := MkFListInfo "" "" "" 0 "".

Record FullFListInfo := MkFull { full_Info : FListInfo; full_Hash : string; full_Size : Z }.

Record FileInfo := MkFileInfo { file_Path : string; file_Size : Z }.

(** The decoders of encoding/json; a decoder leaves the fields that are not in its
    text as they are, so the repository is the one that was set before. *)
Class HubJson := {
  dec_full : string -> string -> res FullFListInfo;
  dec_list : string -> res (list FListInfo);
  dec_files : string -> res (list FileInfo)
}.

Inductive FType := RegularType | LinkType (target : string) | DirType | OtherType.

(** A file of a flist: its path, which is not rooted, and its kind. *)
Record Meta := MkMeta { mt_Path : string; mt_Type : FType }.

(** The store of a flist: the files below a path in the order of a walk, every
    directory in front of what it contains, and the file at a path. *)
Class FlistStore (St : Type) := {
  st_Walk : St -> string -> res (list Meta);
  st_Get : St -> string -> option Meta
}.

Class UpgradeNode (St W : Type) := {
  un_Get : string -> M W (Z * string);
  (** the path of a url with what has to be escaped *)
  un_Escape : string -> string;
  un_Unpack : string -> string -> M W unit;
  (** the store of an unpacked flist; none when it cannot be walked *)
  un_NewStore : string -> M W (option St);
  (** whether a path is a directory *)
  un_Stat : string -> M W bool;
  un_Rename : string -> string -> M W unit;
  un_Remove : string -> M W unit;
  un_MkdirAll : string -> M W unit;
  un_Symlink : string -> string -> M W unit;
  (** an empty file *)
  un_OpenFile : string -> M W unit;
  (** the content of a file of the flist, written to an open file *)
  un_Download : Meta -> string -> M W unit;
  (** the path of this program, and what a program prints for -v *)
  un_BinPath : M W string;
  un_Version : string -> M W string
}.

Definition Fqdn (b : FListInfo) : string := Join (fi_Repository b) (fi_Name b).

Definition Absolute (b : FListInfo) : string :=
  Join (fi_Repository b) (if (fi_Type b =? "symlink")%string then fi_Target b else fi_Name b).

Section versions.
  Context `{Semver}.

Definition extractVersion (name : string) : res Version :=
  Parse (TrimSuffix (TrimPrefix (List.last (Split ":" name) "") "v") ".flist").

Definition info_Version (b : FListInfo) : res Version :=
  extractVersion (if (fi_Type b =? "symlink")%string then fi_Target b else fi_Name b).

(** [v.GT(w)]. *)
Definition GT (v w : Version) : bool := negb (ver_le v w).

End versions.

Definition is_symlink (i : FListInfo) : bool := (fi_Type i =? "symlink")%string.

Section upgrade.
  Context {St W : Type} `{FlistStore St} `{UpgradeNode St W} `{HubJson} `{ZinitOps W}.

Definition hubBaseURL : string := "https://hub.grid.tf/".

Definition hub_get (path : string) : PM W (Z * string) := call (un_Get (hubBaseURL +:+ un_Escape path)).

Definition Info (flist : string) : PM W FullFListInfo :=
  '(status, body) ← hub_get (Join (Join (Join "api" "flist") flist) "light");
  if negb (status =? 200) then throw (ErrMsg "failed to get flist info")
  else lift (dec_full (Dir flist) body).

Definition set_Repository (repo : string) (i : FListInfo) : FListInfo :=
  MkFListInfo (fi_Name i) (fi_Target i) (fi_Type i) (fi_Updated i) repo.

Definition List (repo : string) : PM W (list FListInfo) :=
  '(status, body) ← hub_get (Join (Join "api" "flist") repo);
  if negb (status =? 200) then throw (ErrMsg "failed to get repository listing")
  else lift (res_map (fmap (set_Repository repo)) (dec_list body)).

Definition Files (b : FListInfo) : PM W (list FileInfo) :=
  let flist := Absolute b in
  if (flist =? "")%string then throw (ErrMsg "invalid flist info")
  else
    '(status, body) ← hub_get (Join (Join "api" "flist") flist);
    if negb (status =? 200) then throw (ErrMsg "failed to get flist info")
    else lift (dec_files body).

(** The links are followed for ever; a run that follows more than [hops] of them is
    one that does not return. *)
Fixpoint resolve (hops : nat) (flist : string) : PM W (string * FullFListInfo) :=
  match hops with
  | O => panic "still following links"
  | S hops =>
      info ← Info flist;
      let i := full_Info info in
      if is_symlink i then resolve hops (Join (Dir flist) (fi_Target i))
      else if (fi_Type i =? "regular")%string then mret (flist, info)
      else throw (ErrMsg ("unknown flist type: " +:+ fi_Type i))
  end.

Definition dbFileName : string := "flistdb.sqlite3".

Definition Download (hops : nat) (cache flist : string) : PM W string :=
  '(flist, info) ← resolve hops flist;
  if (full_Hash info =? "")%string then throw (ErrMsg "invalid flist info returned")
  else
    let extracted := Join cache (full_Hash info) +:+ ".d" in
    there ← try (call (un_Stat (Join extracted dbFileName)));
    match there with
    | inl _ => mret extracted
    | inr _ =>
        '(status, body) ← wrap "failed to download flist" (hub_get flist);
        if negb (status =? 200) then throw (ErrMsg "failed to download flist")
        else node_call "unpack" [extracted] (un_Unpack body extracted) ;; mret extracted
    end.

(** ** upgrade.go *)

Definition protected : list string := ["identityd"; "redis"].
Definition flistIdentityPath : string := "/bin/identityd".

Definition isIn (target : string) (l : list string) : bool := existsb (String.eqb target) l.

(** [Upgrader]; [hops] and [turns] are how far its loops are followed, [deadline]
    the turn in which the time to stop services is up. *)
Record Upgrader := MkUpgrader { up_cache : string; up_noSelfUpdate : bool; up_hops : nat; up_turns : nat;
  up_deadline : nat }.

Variable u : Upgrader.

Definition flistCache : string := Join (up_cache u) "flist".

(** For a store of another type the code wraps an error that is nil: it returns no
    store and no error, and its callers use the store at once. *)
Definition getFlist (flist : string) : PM W St :=
  db ← wrap "failed to download flist" (Download (up_hops u) flistCache flist);
  store ← wrap "failed to load flist db" (call (un_NewStore db));
  match store with
  | Some store => mret store
  | None => panic "nil pointer dereference"
  end.

Definition zinitPath : string := "/etc/zinit".

(** The name of a file without its directories. *)
Definition meta_Name (m : Meta) : string := Base (mt_Path m).

Definition is_dir (m : Meta) : bool := match mt_Type m with DirType => true | _ => false end.

Definition service_of (m : Meta) : option string :=
  if is_dir m then None
  else if negb (Dir (mt_Path m) =? zinitPath)%string then None
  else if HasSuffix (meta_Name m) ".yaml" then Some (TrimSuffix (meta_Name m) ".yaml") else None.

Definition servicesFromStore (store : St) : res (list string) :=
  match st_Walk store zinitPath with
  | Ok l => Ok (omap service_of l)
  | Err e => if IsNotExist e then Ok [] else Err e
  | Panic p => Panic p
  end.

(** *** Stopping services *)

Fixpoint stop_all (names : list string) (services : list string) : PM W (list string) :=
  match names with
  | [] => mret services
  | name :: names =>
      stopped ← try (act_ (ZinitStop name) (z_Stop name));
      stop_all names (match stopped with
                      | inl _ => if isIn name services then services else services ++ [name]
                      | inr _ => services
                      end)
  end.

(** The services that have not exited yet. *)
Fixpoint check_stopped (services : list string) : PM W (list string) :=
  match services with
  | [] => mret []
  | service :: services =>
      status ← call (z_Status service);
      if negb (ss_Target status =? ServiceTargetDown)%string
      then throw (ErrMsg ("expected service '" +:+ service +:+ "' target should be DOWN. found UP"))
      else
        rest ← check_stopped services;
        mret (if Exited (ss_State status) then rest else service :: rest)
  end.

Definition zinit_kill (service : string) : PM W unit :=
  ignore (node_call "zinit kill" [service; "SIGKILL"] (z_Kill service "SIGKILL")).

(** The loop over the services that run; the deadline passes once, in the turn
    [deadline]. It has no bound: a service that does not exit is waited for for
    ever, and a run of more than [turns] turns is one that does not return. *)
Fixpoint wait_stopped (turns deadline : nat) (services : list string) : PM W unit :=
  match services with
  | [] => mret tt
  | _ =>
      match turns with
      | O => panic "still waiting"
      | S turns =>
          left ← check_stopped services;
          match left with
          | [] => mret tt
          | _ =>
              (if (deadline =? 1)%nat then for_each zinit_kill left else mret tt) ;;
              wait_stopped turns (Nat.pred deadline) left
          end
      end
  end.

Definition stopMultiple (names : list string) : PM W unit :=
  services ← stop_all names [];
  wait_stopped (up_turns u) (up_deadline u) services.

Definition ensureRestarted (names : list string) : PM W unit :=
  match names with
  | [] => mret tt
  | _ =>
      stopMultiple names ;;
      for_each (fun name =>
        ignore (act_ (ZinitForget name) (z_Forget name)) ;;
        ignore (act_ (ZinitMonitor name) (z_Monitor name))) names
  end.

(** *** Files *)

Definition old_of (dst : string) : string := dst +:+ ".old".

(** The new content; an error is the [err] of the deferred function. *)
Definition write_file (dst : string) (src : Meta) : PM W unit :=
  node_call "open" [dst] (un_OpenFile dst) ;;
  node_call "download" [dst] (un_Download src dst).

Definition copyFile (dst : string) (src : Meta) : PM W unit :=
  stat ← try (call (un_Stat dst));
  if match stat with inr e => IsNotExist e | inl _ => false end then write_file dst src
  else
    node_call "rename" [dst; old_of dst] (un_Rename dst (old_of dst)) ;;
    written ← try (write_file dst src);
    match written with
    | inl _ => ignore (node_call "remove" [old_of dst] (un_Remove (old_of dst)))
    | inr e =>
        ignore (node_call "rename" [old_of dst; dst] (un_Rename (old_of dst) dst)) ;;
        throw e
    end.

Definition IsAbs (path : string) : bool := HasPrefix path "/".

(** One file of the walk; [true] to skip the directory. *)
Definition copy_one (destination : string) (skip : list string) (m : Meta) : PM W bool :=
  let dest := Join destination (mt_Path m) in
  if isIn dest skip then mret (is_dir m)
  else
    match mt_Type m with
    | DirType => node_call "mkdir" [dest] (un_MkdirAll dest) ;; mret false
    | RegularType => copyFile dest m ;; mret false
    | LinkType target =>
        let target := if IsAbs target then Join destination target else target in
        removed ← try (node_call "remove" [dest] (un_Remove dest));
        match removed with
        | inr e => if IsNotExist e then mret tt else throw e
        | inl _ => mret tt
        end ;;
        node_call "symlink" [target; dest] (un_Symlink target dest) ;; mret false
    | OtherType => mret false
    end.

(** The walk over the files; what is below a directory that is skipped is left out. *)
Fixpoint copy_walk (destination : string) (skip : list string) (entries : list Meta) (under : option string) :
    PM W unit :=
  match entries with
  | [] => mret tt
  | m :: entries =>
      if match under with Some dir => HasPrefix (mt_Path m) (dir +:+ "/") | None => false end
      then copy_walk destination skip entries under
      else
        skipped ← copy_one destination skip m;
        copy_walk destination skip entries (if skipped : bool then Some (mt_Path m) else None)
  end.

Definition copyRecursive (store : St) (destination : string) (skip : list string) : PM W unit :=
  entries ← lift (st_Walk store "");
  copy_walk destination skip entries None.

(** *** The daemon itself *)

Definition ErrRestartNeeded : error := ErrMsg "restart needed".

Definition revisionOf (bin : string) : PM W string :=
  output ← wrap ("failed to get '" +:+ bin +:+ "' version string") (call (un_Version bin));
  '(_, revision) ← wrap "failed to parse current revision" (lift (version_Parse (TrimSpace output)));
  mret revision.

(** [currentRevision] and [currentBinPath] panic on an error. *)
Definition or_panic {A} (m : PM W A) : PM W A :=
  r ← try m; match r with inl a => mret a | inr e => panic (Error e) end.

(** [self] is the name the program was started by. *)
Definition upgradeSelf (self : string) (store : St) : PM W unit :=
  if up_noSelfUpdate u then mret tt
  else
    current ← or_panic (revisionOf self);
    bin ← or_panic (wrap "failed to resolve the upgrade daemon path" (call un_BinPath));
    match st_Get store bin with
    | None => mret tt
    | Some info =>
        let newBin := bin +:+ ".new" in
        copyFile newBin info ;;
        new ← wrap "failed to check new update daemon revision number" (revisionOf newBin);
        if (current =? new)%string then mret tt
        else
          wrap "failed to update self binary" (node_call "rename" [newBin; bin] (un_Rename newBin bin)) ;;
          throw ErrRestartNeeded
    end.

(** *** Uninstalling *)

Definition file_service (f : FileInfo) : option string :=
  if negb (Dir (file_Path f) =? zinitPath)%string then None
  else if negb (HasSuffix (Base (file_Path f)) ".yaml") then None
  else
    let name := TrimSuffix (Base (file_Path f)) ".yaml" in
    if isIn name protected then None else Some name.

Definition delete_file (f : FileInfo) : PM W unit :=
  stat ← try (call (un_Stat (file_Path f)));
  match stat with
  | inr _ => mret tt
  | inl isdir =>
      if isdir : bool then mret tt
      else if (file_Path f =? flistIdentityPath)%string then mret tt
      else ignore (node_call "remove" [file_Path f] (un_Remove (file_Path f)))
  end.

Definition uninstall (flist : FListInfo) : PM W unit :=
  files ← wrap ("failed to get list of current installed files for '" +:+ Absolute flist +:+ "'") (Files flist);
  let names := omap file_service files in
  wrap "failed to stop services" (stopMultiple names) ;;
  for_each (fun name => ignore (act_ (ZinitForget name) (z_Forget name))) names ;;
  for_each delete_file files.

Definition UninstallBinary (flist : FListInfo) : PM W unit := uninstall flist.

(** *** The whole upgrade *)

Definition start_service (service : string) : PM W unit :=
  ignore (act_ (ZinitMonitor service) (z_Monitor service)) ;;
  ignore (node_call "zinit start" [service] (z_Start service)).

Definition applyUpgrade (self : string) (from to : FullFListInfo) : PM W unit :=
  store ← wrap "failed to get flist store" (getFlist (Fqdn (full_Info to)));
  upgradeSelf self store ;;
  ignore (uninstall (full_Info from)) ;;
  services ← lift (servicesFromStore store);
  copyRecursive store "/" [flistIdentityPath] ;;
  for_each start_service services.

Definition InstallBinary (flist : FListInfo) : PM W unit :=
  store ← wrap ("failed to process flist: " +:+ Fqdn flist) (getFlist (Fqdn flist));
  wrap ("failed to install flist: " +:+ Fqdn flist) (copyRecursive store "/" []) ;;
  services ← wrap "failed to list services from flist" (lift (servicesFromStore store));
  ensureRestarted services.

End upgrade.

(** ** watcher.go *)

Section watcher.
  Context {St W : Type} `{FlistStore St} `{UpgradeNode St W} `{HubJson} `{Semver} `{MapOrder}.

(** One tick of [FListSemverWatcher]: the event that is sent, and the current
    version afterwards. *)
Definition newer (info : FullFListInfo) (current v : Version) : option FullFListInfo * Version :=
  if GT v current then (Some info, v) else (None, current).

Definition semver_turn (flist : string) (current : Version) : PM W (option FullFListInfo * Version) :=
  info ← try (Info flist);
  match info with
  | inr _ => mret (None, current)
  | inl info =>
      match info_Version (full_Info info) with
      | Ok v => mret (newer info current v)
      | Err _ => mret (None, current)
      | Panic p => panic p
      end
  end.

Definition event_list {A} (e : option A) : list A := match e with Some e => [e] | None => [] end.

(** The ticks until the context is done. *)
Fixpoint semver_ticks (ticks : nat) (flist : string) (current : Version) : PM W (list FullFListInfo * Version) :=
  match ticks with
  | O => mret ([], current)
  | S ticks =>
      '(event, current) ← semver_turn flist current;
      '(events, current) ← semver_ticks ticks flist current;
      mret (event_list event ++ events, current)
  end.

(** [FListSemverWatcher.Watch]: the events that are sent on the channel. *)
Definition semver_Watch (ticks : nat) (flist : string) (current : Version) : PM W (list FullFListInfo * Version) :=
  info ← Info flist;
  v ← lift (info_Version (full_Info info));
  let '(event, current) := newer info current v in
  '(events, current) ← semver_ticks ticks flist current;
  mret (event_list event ++ events, current).

(** [FListRepoWatcher]: the packages of a repository by their full names. *)
Notation packages := (gmap string FListInfo).

Definition repo_list (repo : string) : PM W packages :=
  l ← List repo; mret (foldl (fun m pkg => <[Fqdn pkg := pkg]> m) ∅ l).

Definition to_add (current all : packages) : list FListInfo :=
  omap (fun p : string * FListInfo =>
    match current !! p.1 with
    | Some c => if fi_Updated p.2 =? fi_Updated c then None else Some p.2
    | None => Some p.2
    end) (map_range (map_to_list all)).

(** What is added to the list is the value that was just not found. *)
Definition to_del (current all : packages) : list FListInfo :=
  omap (fun p : string * FListInfo =>
    match all !! p.1 with Some _ => None | None => Some zeroFListInfo end) (map_range (map_to_list current)).

Record RepoEvent := MkRepoEvent { re_Repo : string; re_ToAdd : list FListInfo; re_ToDel : list FListInfo }.

Definition Diff (repo : string) (current : packages) : PM W (packages * list FListInfo * list FListInfo) :=
  all ← wrap "failed to get available packages" (repo_list repo);
  mret (all, to_add current all, to_del current all).

(** The event of a difference, and the current packages afterwards. *)
Definition repo_event (repo : string) (current : packages) (d : packages * list FListInfo * list FListInfo) :
    option RepoEvent * packages :=
  let '(all, toAdd, toDel) := d in
  match toAdd, toDel with
  | [], [] => (None, current)
  | _, _ => (Some (MkRepoEvent repo toAdd toDel), all)
  end.

Definition repo_turn (repo : string) (current : packages) : PM W (option RepoEvent * packages) :=
  d ← try (Diff repo current);
  match d with
  | inr _ => mret (None, current)
  | inl d => mret (repo_event repo current d)
  end.

Fixpoint repo_ticks (ticks : nat) (repo : string) (current : packages) : PM W (list RepoEvent * packages) :=
  match ticks with
  | O => mret ([], current)
  | S ticks =>
      '(event, current) ← repo_turn repo current;
      '(events, current) ← repo_ticks ticks repo current;
      mret (event_list event ++ events, current)
  end.

Definition repo_Watch (ticks : nat) (repo : string) (current : packages) : PM W (list RepoEvent * packages) :=
  d ← wrap "failed to get available packages" (Diff repo current);
  let '(event, current) := repo_event repo current d in
  '(events, current) ← repo_ticks ticks repo current;
  mret (event_list event ++ events, current).

End watcher.

(** ** boot.go *)

Definition FlistNameFile : string := "/tmp/flist.name".
Definition FlistInfoFile : string := "/tmp/flist.info".
Definition BinariesFile : string := "/tmp/bins.info".

(** The files of the boot, and their encoding; the repository of a flist is not
    written. *)
Class BootNode (W : Type) := {
  bt_Stat : string -> M W unit;
  bt_ReadFile : string -> M W string;
  bt_WriteFile : string -> string -> M W unit;
  enc_full : FullFListInfo -> res string;
  enc_bins : gmap string FListInfo -> res string;
  dec_bins : string -> res (gmap string FListInfo)
}.

Inductive BootMethod := BootMethodFList | BootMethodOther.

Section boot.
  Context {W : Type} `{BootNode W} `{HubJson} `{Semver}.

Definition DetectBootMethod : M W BootMethod :=
  stat ← try (bt_Stat FlistNameFile);
  mret (match stat with inl _ => BootMethodFList | inr _ => BootMethodOther end).

Definition Boot_Name : M W string :=
  data ← try (bt_ReadFile FlistNameFile);
  mret (match data with inl data => TrimSpace data | inr _ => "" end).

Definition CurrentBins : M W (gmap string FListInfo) :=
  data ← bt_ReadFile BinariesFile; lift (dec_bins data).

Definition SetBins (current : gmap string FListInfo) : M W unit :=
  data ← lift (enc_bins current); bt_WriteFile BinariesFile data.

Definition loadInfo (fqn path : string) : M W FullFListInfo :=
  data ← bt_ReadFile path; lift (dec_full (Dir fqn) data).

Definition Boot_Current : M W FullFListInfo :=
  name ← Boot_Name;
  if (name =? "")%string then throw (ErrMsg "flist name is not known")
  else loadInfo name FlistInfoFile.

Definition Commit (b : FullFListInfo) (path : string) : M W unit :=
  data ← lift (enc_full b); bt_WriteFile path data.

Definition Boot_Set (c : FullFListInfo) : M W unit := Commit c FlistInfoFile.

Definition Boot_Version : M W Version :=
  info ← wrap "failed to load flist info" Boot_Current; lift (info_Version (full_Info info)).

Definition MustVersion : M W Version :=
  v ← try Boot_Version; match v with inl v => mret v | inr e => panic (Error e) end.

End boot.

(** ** What the system calls do to the files *)

(** The contents of the regular files, the content of a file of a flist, and what a
    call makes of the files when it succeeds ([Ok]) and when it does not. *)
Class UpgradeLaws (St W : Type) `{UpgradeNode St W} := {
  un_files : W -> gmap string string;
  un_content : Meta -> string;
  un_Stat_files p w w' x : un_Stat p w = (w', x) -> un_files w' = un_files w /\
    (forall e, x = Err e -> IsNotExist e = true -> un_files w !! p = None);
  un_Rename_files a b c w w' x : un_Rename a b w = (w', x) -> un_files w !! a = Some c ->
    match x with
    | Ok _ => un_files w' = <[b := c]> (delete a (un_files w))
    | Err _ => un_files w' = un_files w
    | Panic _ => False
    end;
  un_Remove_files p w w' x : un_Remove p w = (w', x) ->
    match x with
    | Ok _ => un_files w' = delete p (un_files w)
    | Err _ => un_files w' = un_files w
    | Panic _ => False
    end;
  un_OpenFile_files p w w' x : un_OpenFile p w = (w', x) ->
    match x with
    | Ok _ => un_files w' = <[p := ""]> (un_files w)
    | Err _ => un_files w' = un_files w
    | Panic _ => False
    end;
  (** on an error there is what has come so far *)
  un_Download_files m p w w' x : un_Download m p w = (w', x) ->
    match x with
    | Ok _ => un_files w' = <[p := un_content m]> (un_files w)
    | Err _ => exists part, un_files w' = <[p := part]> (un_files w)
    | Panic _ => False
    end;
  un_MkdirAll_files p w w' x : un_MkdirAll p w = (w', x) -> un_files w' = un_files w;
  un_Symlink_files t p w w' x : un_Symlink t p w = (w', x) -> un_files w' = un_files w
}.

Section copy_lemmas.
  Context {St W : Type} {node : UpgradeNode St W} {laws : UpgradeLaws St W}.

Notation files s := (un_files (p_world s)).

(** Only the paths [l] may have changed. *)
Definition changes (l : list string) (f f' : gmap string string) : Prop := forall q, q ∉ l -> f' !! q = f !! q.

Lemma changes_insert l p c (f g : gmap string string) : changes l f g -> p ∈ l -> changes l f (<[p := c]> g).
Proof. intros Hg Hp q Hq. rewrite lookup_insert_ne by set_solver. by apply Hg. Qed.

Lemma changes_delete l p (f g : gmap string string) : changes l f g -> p ∈ l -> changes l f (delete p g).
Proof. intros Hg Hp q Hq. rewrite lookup_delete_ne by set_solver. by apply Hg. Qed.

Lemma changes_refl l f : changes l f f.
Proof. done. Qed.

#[local] Hint Resolve changes_insert changes_delete changes_refl : core.

Lemma write_file_files dst src s s' x : write_file dst src s = (s', x) ->
  changes [dst] (files s) (files s') /\
  match x with Ok _ => files s' !! dst = Some (un_content src) | Err _ => True | Panic _ => False end.
Proof.
  unfold write_file, mbind, M_bind. destruct (node_call "open" _ _ s) as [s1 y] eqn:Ho.
  apply node_call_world, un_OpenFile_files in Ho. destruct y as [[]|e|p].
  - intros Hd%node_call_world%un_Download_files. destruct x as [[]|e|p]; [|destruct Hd as [part Hd]|done];
      rewrite Hd, Ho; (split; [by repeat (apply changes_insert; [|set_solver])|]); [|done].
    by rewrite lookup_insert_eq.
  - intros [= <- <-]. by rewrite Ho.
  - done.
Qed.

Lemma old_of_ne dst : old_of dst <> dst.
Proof.
  unfold old_of. intros Heq. induction dst as [|c dst IH]; [done|].
  change (String c dst +:+ ".old") with (String c (dst +:+ ".old")) in Heq. by injection Heq.
Qed.

(** What is in place of the file after it was moved away and the new content was
    written or not. *)
Lemma replaced_files dst src s s' x old : files s !! old_of dst = Some old ->
  (written ← try (write_file dst src);
   match written with
   | inl _ => ignore (node_call "remove" [old_of dst] (un_Remove (old_of dst)))
   | inr e =>
       ignore (node_call "rename" [old_of dst; dst] (un_Rename (old_of dst) dst)) ;;
       throw e
   end) s = (s', x) ->
  changes [dst; old_of dst] (files s) (files s') /\
  match x with
  | Ok _ => files s' !! dst = Some (un_content src)
  | Err _ => files s' !! dst = Some old \/ files s' !! old_of dst = Some old
  | Panic _ => False
  end.
Proof.
  pose proof (old_of_ne dst) as Hne.
  intros Hold. unfold mbind, M_bind, try. destruct (write_file dst src s) as [s1 y] eqn:Hw.
  apply write_file_files in Hw as [Hch Hw].
  assert (Hch2 : changes [dst; old_of dst] (files s) (files s1)) by (intros q Hq; apply Hch; set_solver).
  assert (Hold1 : files s1 !! old_of dst = Some old) by (rewrite Hch; [done|set_solver]).
  destruct y as [[]|e|p]; [| |done]; unfold ignore.
  - destruct (node_call "remove" _ _ s1) as [s2 z] eqn:Hr. apply node_call_world, un_Remove_files in Hr.
    destruct z as [[]|e|p]; intros [= <- <-]; [| |done]; rewrite Hr; (split; [|]); auto.
    + apply changes_delete; [done|set_solver].
    + by rewrite lookup_delete_ne.
  - destruct (node_call "rename" _ _ s1) as [s2 z] eqn:Hr. apply node_call_world in Hr.
    eapply un_Rename_files in Hr; [|exact Hold1].
    destruct z as [[]|e'|p]; intros [= <- <-]; [| |done]; rewrite Hr.
    + split; [|left; by rewrite lookup_insert_eq].
      apply changes_insert; [apply changes_delete; [done|set_solver]|set_solver].
    + split; [done|by right].
Qed.

(** C24 (safety): replacing a file never loses it. When the new content cannot be
    written the old file is put back, or, if that fails too, is left beside it under
    the name with .old; when it succeeds the file has the new content. No other file
    changes. *)
Theorem copyFile_safe dst src s s' x old : copyFile dst src s = (s', x) -> files s !! dst = Some old ->
  changes [dst; old_of dst] (files s) (files s') /\
  match x with
  | Ok _ => files s' !! dst = Some (un_content src)
  | Err _ => files s' !! dst = Some old \/ files s' !! old_of dst = Some old
  | Panic _ => files s' = files s
  end.
Proof.
  intros Hrun Hold. unfold copyFile in Hrun. unfold mbind at 1, M_bind at 1, try at 1 in Hrun.
  destruct (call (un_Stat dst) s) as [s1 stat] eqn:Hst. apply call_world, un_Stat_files in Hst as [Hst Hno].
  rewrite <- Hst in *. destruct stat as [isdir|e|p]; [| |by injection Hrun as <- <-].
  2: destruct (IsNotExist e) eqn:He; [by rewrite (Hno e) in Hold|].
  all: unfold mbind at 1, M_bind at 1 in Hrun;
    destruct (node_call "rename" _ _ s1) as [s2 moved] eqn:Hmv;
    apply node_call_world in Hmv; eapply un_Rename_files in Hmv; [|exact Hold];
    destruct moved as [[]|e1|p]; [|injection Hrun as <- <-; rewrite Hmv; by auto|done];
    eapply (replaced_files _ _ _ _ _ old) in Hrun as [Hch Hx]; [|by rewrite Hmv, lookup_insert_eq];
    (split; [intros q Hq; rewrite Hch, Hmv by done;
             rewrite lookup_insert_ne, lookup_delete_ne by set_solver; done|by destruct x]).
Qed.

End copy_lemmas.

(** ** The order of an upgrade *)

Section order_lemmas.
  Context {St W : Type} {node : UpgradeNode St W} {store_ops : FlistStore St} {json : HubJson}
    {zinit : ZinitOps W} (u : Upgrader).

(** The path of this program. *)
Definition is_self (bin : string) : Prop := exists w w', un_BinPath w = (w', Ok bin).

(** What an upgrade does before it is known that the daemon itself is the one of the
    flist: the flist is unpacked, and the daemon of the flist written next to this one. *)
Inductive prepares : event -> Prop :=
  | prep_unpack hash out : prepares (Ran (NodeCall "unpack" [Join (flistCache u) hash +:+ ".d"]) out)
  | prep_file bin name out : is_self bin -> name = "open" \/ name = "download" ->
      prepares (Ran (NodeCall name [bin +:+ ".new"]) out)
  | prep_backup bin out : is_self bin -> prepares (Ran (NodeCall "rename" [bin +:+ ".new"; bin +:+ ".new.old"]) out)
  | prep_restore bin out : is_self bin -> prepares (Ran (NodeCall "rename" [bin +:+ ".new.old"; bin +:+ ".new"]) out)
  | prep_clean bin out : is_self bin -> prepares (Ran (NodeCall "remove" [bin +:+ ".new.old"]) out).

(** This program is replaced. *)
Definition replaces_self (ev : event) : Prop :=
  exists bin, is_self bin /\ ev_op ev = NodeCall "rename" [bin +:+ ".new"; bin].

Lemma quiet_hub_get path : quiet (hub_get path).
Proof. apply quiet_call. Qed.

Lemma quiet_Info flist : quiet (Info flist).
Proof.
  apply quiet_bind; [apply quiet_hub_get|intros [status body]].
  destruct (negb (status =? 200)); auto with zos_monad.
Qed.

Lemma quiet_resolve hops : forall flist, quiet (resolve hops flist).
Proof.
  induction hops as [|hops IH]; intros flist; cbn [resolve]; [auto with zos_monad|].
  apply quiet_bind; [apply quiet_Info|intros info]. destruct (is_symlink _); [done|].
  destruct (fi_Type _ =? "regular")%string; auto with zos_monad.
Qed.

Lemma emits_getFlist flist : emits prepares (getFlist u flist).
Proof.
  unfold getFlist, Download. apply emits_bind.
  - apply emits_wrap, emits_bind; [apply emits_quiet, quiet_resolve|intros [f info] _ _ _].
    destruct (full_Hash info =? "")%string; [apply emits_quiet, quiet_throw|].
    apply emits_bind; [auto with zos_monad|intros [isdir|e] _ _ _; [apply emits_quiet, quiet_ret|]].
    apply emits_bind; [apply emits_wrap, emits_quiet, quiet_hub_get|intros [status body] _ _ _].
    destruct (negb (status =? 200)); [apply emits_quiet, quiet_throw|].
    apply emits_bind; [|intros; apply emits_quiet, quiet_ret].
    apply emits_node_call. intros out. constructor.
  - intros db _ _ _. apply emits_bind; [auto with zos_monad|intros [store|] _ _ _];
      apply emits_quiet; auto with zos_monad.
Qed.

(** The requests of a copy, when they all fulfil a condition. *)
Lemma emits_copyFile (P : event -> Prop) dst src :
  (forall name out, name = "open" \/ name = "download" -> P (Ran (NodeCall name [dst]) out)) ->
  (forall out, P (Ran (NodeCall "rename" [dst; old_of dst]) out)) ->
  (forall out, P (Ran (NodeCall "rename" [old_of dst; dst]) out)) ->
  (forall out, P (Ran (NodeCall "remove" [old_of dst]) out)) ->
  emits P (copyFile dst src).
Proof.
  intros Hw Hb Hr Hc.
  assert (Hwrite : emits P (write_file dst src)).
  { apply emits_bind; [|intros _ _ _ _]; apply emits_node_call; intros out; apply Hw; auto. }
  unfold copyFile. apply emits_bind; [auto with zos_monad|intros stat _ _ _].
  destruct (match stat with inl _ => _ | inr _ => _ end); [done|].
  apply emits_bind; [by apply emits_node_call|intros _ _ _ _].
  apply emits_bind; [by apply emits_try|intros [?|e] _ _ _].
  - by apply emits_ignore, emits_node_call.
  - apply emits_bind; [by apply emits_ignore, emits_node_call|intros; apply emits_quiet, quiet_throw].
Qed.

Lemma emits_copy_self bin src : is_self bin -> emits prepares (copyFile (bin +:+ ".new") src).
Proof.
  intros Hbin. assert (Hold : old_of (bin +:+ ".new") = bin +:+ ".new.old") by apply string_app_assoc.
  apply emits_copyFile; rewrite ?Hold; intros; by constructor.
Qed.

Lemma quiet_revisionOf bin : quiet (revisionOf bin).
Proof.
  apply quiet_bind; [auto with zos_monad|intros output].
  apply quiet_bind; [auto with zos_monad|intros [? ?]; auto with zos_monad].
Qed.

Lemma quiet_or_panic {A} (m : PM W A) : quiet m -> quiet (or_panic m).
Proof. intros Hm. apply quiet_bind; [by apply quiet_try|intros [a|e]; auto with zos_monad]. Qed.

(** The revision that a program prints in a state of the node. *)
Definition prints (bin rev : string) (s s' : PState W) : Prop := exists out branch,
  call (un_Version bin) s = (s', Ok out) /\ version_Parse (TrimSpace out) = Ok (branch, rev).

(** In the run from [s] to [s'] it turned out that the daemon does not have to be replaced
    first: it is told not to be, the flist has no such program, or the one of the flist,
    written next to this one, prints the revision that this one prints. *)
Inductive up_to_date (self : string) (store : St) (s s' : PState W) : Prop :=
  | told_not_to : up_noSelfUpdate u = true -> s' = s -> up_to_date self store s s'
  | not_in_flist rev s1 bin : prints self rev s s1 -> call un_BinPath s1 = (s', Ok bin) ->
      st_Get store bin = None -> up_to_date self store s s'
  | same_revision rev s1 s2 s3 bin info : prints self rev s s1 -> call un_BinPath s1 = (s2, Ok bin) ->
      st_Get store bin = Some info -> copyFile (bin +:+ ".new") info s2 = (s3, Ok tt) ->
      prints (bin +:+ ".new") rev s3 s' -> up_to_date self store s s'.

Lemma revisionOf_run bin s s' rev : revisionOf bin s = (s', Ok rev) -> prints bin rev s s'.
Proof.
  unfold revisionOf. intros Hrun. ok_bind Hrun s1 out H1. apply wrap_Ok in H1.
  ok_bind Hrun s2 parsed H2. apply wrap_Ok in H2. destruct parsed as [branch rev']. injection H2 as <- H2.
  injection Hrun as <- ->. by exists out, branch.
Qed.

Lemma or_panic_Ok {A} (m : PM W A) s s' a : or_panic m s = (s', Ok a) -> m s = (s', Ok a).
Proof.
  unfold or_panic. intros Hrun. ok_bind Hrun s1 r H1. apply try_inv in H1. destruct r as [b|e]; [|done].
  by injection Hrun as <- <-.
Qed.

Lemma upgradeSelf_Ok self store s s' : upgradeSelf u self store s = (s', Ok tt) -> up_to_date self store s s'.
Proof.
  unfold upgradeSelf. destruct (up_noSelfUpdate u) eqn:Hno; [intros [= <-]; by apply told_not_to|]. intros Hrun.
  ok_bind Hrun s1 current H1. apply or_panic_Ok, revisionOf_run in H1.
  ok_bind Hrun s2 bin H2. apply or_panic_Ok, wrap_Ok in H2.
  destruct (st_Get store bin) as [info|] eqn:Hget.
  - ok_bind Hrun s3 u3 H3. ok_bind Hrun s4 new H4. apply wrap_Ok, revisionOf_run in H4. destruct u3.
    destruct (String.eqb_spec current new) as [<-|]; [injection Hrun as <-|by ok_bind Hrun s5 u5 H5].
    by eapply same_revision.
  - injection Hrun as <-. by eapply not_in_flist.
Qed.

(** The requests of the upgrade of the daemon: what prepares it, and in the end, if at
    all, its replacement, after which the upgrade does not go on. *)
Definition self_log (s s' : PState W) (y : res unit) : Prop := exists own,
  Forall prepares own /\ (p_log s' = p_log s ++ own \/
    exists ev, replaces_self ev /\ p_log s' = p_log s ++ own ++ [ev] /\ y <> Ok tt).

Lemma self_log_bind {A} (m : PM W A) (k : A -> PM W unit) s s' y : (m ≫= k) s = (s', y) -> emits prepares m ->
  (forall s1 a, m s = (s1, Ok a) -> k a s1 = (s', y) -> self_log s1 s' y) -> self_log s s' y.
Proof.
  intros Hrun Hm Hk. unfold mbind, M_bind in Hrun. destruct (Hm s) as (own & Hl & Hown).
  destruct (m s) as [s1 [a|e|p]]; [|injection Hrun as <- <-; exists own; auto..]. cbn in Hl.
  destruct (Hk s1 a eq_refl Hrun) as (own' & Hown' & H). exists (own ++ own'). split; [by apply Forall_app|].
  rewrite Hl in H. destruct H as [->|(ev & Hev & -> & Hy)]; [left|right; exists ev]; by rewrite <- !(assoc_L (++)).
Qed.

Lemma upgradeSelf_log self store s s' y : upgradeSelf u self store s = (s', y) -> self_log s s' y.
Proof.
  assert (Hnil : forall s0 z, self_log s0 s0 z) by (intros s0 z; exists []; rewrite app_nil_r; auto).
  unfold upgradeSelf. destruct (up_noSelfUpdate u); [intros [= <- <-]; apply Hnil|]. intros Hrun.
  apply (self_log_bind _ _ _ _ _ Hrun); [apply emits_quiet, quiet_or_panic, quiet_revisionOf|].
  clear Hrun. intros s1 current _ Hrun.
  apply (self_log_bind _ _ _ _ _ Hrun); [apply emits_quiet, quiet_or_panic; auto with zos_monad|].
  clear Hrun. intros s2 bin H2%or_panic_Ok%wrap_Ok Hrun.
  assert (Hbin : is_self bin) by by apply call_inv in H2.
  destruct (st_Get store bin) as [info|]; [|injection Hrun as <- <-; apply Hnil].
  apply (self_log_bind _ _ _ _ _ Hrun); [by apply emits_copy_self|]. clear Hrun. intros s3 u3 _ Hrun.
  apply (self_log_bind _ _ _ _ _ Hrun); [apply emits_wrap, emits_quiet, quiet_revisionOf|].
  clear Hrun. intros s4 new _ Hrun.
  destruct (current =? new)%string; [injection Hrun as <- <-; apply Hnil|].
  unfold mbind, M_bind, wrap, node_call, act_, act in Hrun.
  destruct (un_Rename (bin +:+ ".new") bin (p_world s4)) as [w [v|e|p]]; cbn in Hrun; injection Hrun as <- <-;
    exists []; (split; [done|]); [right|right|left; by rewrite app_nil_r];
    (match goal with |- context [_ ++ [?ev]] => exists ev end; split_and!; [by exists bin|reflexivity|done]).
Qed.

(** *** What is uninstalled *)

Definition touches_service (n : string) (ev : event) : Prop :=
  ev_op ev = ZinitStop n \/ ev_op ev = ZinitForget n \/ ev_op ev = NodeCall "zinit kill" [n; "SIGKILL"].

Lemma stop_all_sub names : forall l s s' l', stop_all names l s = (s', Ok l') -> l' ⊆ names ++ l.
Proof.
  induction names as [|n names IH]; intros l s s' l'; cbn [stop_all]; [by intros [= _ <-]|].
  intros Hrun. ok_bind Hrun s1 r H1. apply IH in Hrun. etrans; [exact Hrun|].
  destruct r; [destruct (isIn n l)|]; set_solver.
Qed.

Lemma emits_stop_all P names : forall l, (forall n ev, n ∈ names -> touches_service n ev -> P ev) ->
  emits P (stop_all names l).
Proof.
  induction names as [|n names IH]; intros l HP; cbn [stop_all]; [apply emits_quiet, quiet_ret|].
  apply emits_bind; [|intros r _ _ _; apply IH; set_solver].
  apply emits_try, emits_act. intros out. apply (HP n); [set_solver|by left].
Qed.

Lemma quiet_check_stopped l : quiet (check_stopped l).
Proof.
  induction l as [|n l IH]; cbn [check_stopped]; [auto with zos_monad|].
  apply quiet_bind; [auto with zos_monad|intros st]. destruct (negb _); [auto with zos_monad|].
  apply quiet_bind; auto with zos_monad.
Qed.

(** What is left of the services is part of them, and the others have exited. *)
Lemma check_stopped_Ok l : forall s s' left, check_stopped l s = (s', Ok left) -> left ⊆ l /\
  forall n, n ∈ l -> n ∉ left -> exists w w' st, z_Status n w = (w', Ok st) /\ Exited (ss_State st) = true.
Proof.
  induction l as [|n l IH]; intros s s' left; cbn [check_stopped]; [intros [= _ <-]; split; set_solver|].
  intros Hrun. ok_bind Hrun s1 st H1. apply call_inv in H1 as (w & w' & H1).
  destruct (negb _); [done|]. ok_bind Hrun s2 rest H2. apply IH in H2 as [Hsub Hex]. injection Hrun as _ <-.
  destruct (Exited (ss_State st)) eqn:He; (split; [set_solver|]); intros m Hm Hnot.
  - apply elem_of_cons in Hm as [->|Hm]; [by exists w, w', st|by apply Hex].
  - apply Hex; set_solver.
Qed.

Lemma emits_wait_stopped P turns : forall deadline l,
  (forall n ev, n ∈ l -> touches_service n ev -> P ev) -> emits P (wait_stopped turns deadline l).
Proof.
  induction turns as [|turns IH]; intros deadline [|n l] HP; cbn [wait_stopped];
    [apply emits_quiet, quiet_ret|apply emits_quiet, quiet_panic|apply emits_quiet, quiet_ret|].
  apply emits_bind; [apply emits_quiet, quiet_check_stopped|intros left s s' Hleft].
  apply check_stopped_Ok in Hleft as [Hsub _]. destruct left as [|m left]; [apply emits_quiet, quiet_ret|].
  assert (HP' : forall k ev, k ∈ m :: left -> touches_service k ev -> P ev) by (intros k ev Hk; apply HP, Hsub, Hk).
  apply emits_bind; [|intros _ _ _ _; by apply IH].
  destruct (deadline =? 1)%nat; [|apply emits_quiet, quiet_ret].
  clear IH Hsub HP. induction (m :: left) as [|k ks IH]; cbn [for_each]; [apply emits_quiet, quiet_ret|].
  apply emits_bind; [|intros _ _ _ _; apply IH; set_solver].
  apply emits_ignore, emits_node_call. intros out. apply (HP' k); [set_solver|by right; right].
Qed.

Lemma emits_stopMultiple P names : (forall n ev, n ∈ names -> touches_service n ev -> P ev) ->
  emits P (stopMultiple u names).
Proof.
  intros HP. apply emits_bind; [by apply emits_stop_all|intros l s s' Hl%stop_all_sub].
  apply emits_wait_stopped. intros n ev Hn. apply HP. apply Hl in Hn. set_solver.
Qed.

Lemma emits_each {A} P (body : A -> PM W unit) l : (forall x, x ∈ l -> emits P (body x)) ->
  emits P (for_each body l).
Proof.
  intros Hb. induction l as [|x l IH]; cbn [for_each]; [apply emits_quiet, quiet_ret|].
  apply emits_bind; [apply Hb; set_solver|intros _ _ _ _; apply IH; set_solver].
Qed.

Lemma quiet_Files flist : quiet (Files flist).
Proof.
  unfold Files. destruct (_ =? "")%string; [auto with zos_monad|].
  apply quiet_bind; [apply quiet_hub_get|intros [status body]]. destruct (negb _); auto with zos_monad.
Qed.

(** The requests of an uninstallation: to a service that is not protected, whose
    file is one of the flist, and the removal of such a file, but not of the
    daemon's own. *)
Definition stops_of (files : list FileInfo) (ev : event) : Prop :=
  exists f n, f ∈ files /\ file_service f = Some n /\ (n ∉ protected) /\ touches_service n ev.

Definition removes_of (files : list FileInfo) (ev : event) : Prop :=
  exists f, f ∈ files /\ file_Path f <> flistIdentityPath /\ ev_op ev = NodeCall "remove" [file_Path f].

Lemma file_service_protected f n : file_service f = Some n -> n ∉ protected.
Proof.
  unfold file_service. destruct (negb _); [done|]. destruct (negb _); [done|].
  destruct (isIn _ protected) eqn:Hin; [done|]. intros [= <-] Helem.
  apply not_true_iff_false in Hin. apply Hin, existsb_exists. eexists. split; [|apply String.eqb_refl].
  by apply list_elem_of_In.
Qed.

Lemma service_stops files n ev : n ∈ omap file_service files -> touches_service n ev -> stops_of files ev.
Proof.
  intros (f & Hf & Hs)%list_elem_of_omap Hev. exists f, n. split_and!; [done..| |done].
  by eapply file_service_protected.
Qed.

Lemma emits_stop_services files : emits (stops_of files) (stopMultiple u (omap file_service files)).
Proof. apply emits_stopMultiple. intros n ev. apply service_stops. Qed.

Definition remove_files (files : list FileInfo) : PM W unit :=
  for_each (fun name => ignore (act_ (ZinitForget name) (z_Forget name))) (omap file_service files) ;;
  for_each delete_file files.

Lemma emits_remove_files files : emits (fun ev => stops_of files ev \/ removes_of files ev) (remove_files files).
Proof.
  apply emits_bind.
  { apply emits_each. intros n Hin. apply emits_ignore, emits_act. intros out. left.
    by apply (service_stops _ n); [|right; left]. }
  intros _ _ _ _. apply emits_each. intros f Hf. unfold delete_file.
  apply emits_bind; [auto with zos_monad|intros [isdir|e] _ _ _; [|apply emits_quiet, quiet_ret]].
  destruct isdir; [apply emits_quiet, quiet_ret|].
  destruct (String.eqb_spec (file_Path f) flistIdentityPath); [apply emits_quiet, quiet_ret|].
  apply emits_ignore, emits_node_call. intros out. right. by exists f.
Qed.

Lemma emits_mono {A} (P Q : event -> Prop) (m : PM W A) : (forall ev, P ev -> Q ev) -> emits P m -> emits Q m.
Proof.
  intros HPQ Hm s. destruct (Hm s) as (evs & Hl & Hev). exists evs. split; [done|].
  by eapply Forall_impl.
Qed.

Lemma emits_uninstall flist : emits (fun _ => True) (uninstall u flist).
Proof.
  unfold uninstall. apply emits_bind; [apply emits_wrap, emits_quiet, quiet_Files|intros files _ _ _].
  apply emits_bind; [eapply emits_wrap, emits_mono, emits_stop_services; done|intros _ _ _ _].
  eapply emits_mono; [|apply (emits_remove_files files)]. done.
Qed.

Lemma emits_copyRecursive store dst skip : emits (fun _ => True) (copyRecursive store dst skip).
Proof.
  assert (Hc : forall name args (m : M W unit), emits (fun _ => True) (node_call name args m)).
  { intros. by apply emits_node_call. }
  assert (Hone : forall m, emits (fun _ => True) (copy_one dst skip m)).
  { intros m. unfold copy_one. destruct (isIn _ skip); [apply emits_quiet, quiet_ret|].
    destruct (mt_Type m) as [|target| |].
    - apply emits_bind; [by apply emits_copyFile|intros; apply emits_quiet, quiet_ret].
    - apply emits_bind; [by apply emits_try|intros r _ _ _]. apply emits_bind.
      { destruct r as [v|e]; [|destruct (IsNotExist e)]; apply emits_quiet; auto with zos_monad. }
      intros _ _ _ _. apply emits_bind; [done|intros; apply emits_quiet, quiet_ret].
    - apply emits_bind; [done|intros; apply emits_quiet, quiet_ret].
    - apply emits_quiet, quiet_ret. }
  unfold copyRecursive. apply emits_bind; [auto with zos_monad|intros entries _ _ _]. generalize (@None string).
  induction entries as [|m entries IH]; intros under; cbn [copy_walk]; [apply emits_quiet, quiet_ret|].
  destruct (match under with Some _ => _ | None => _ end); [apply IH|].
  apply emits_bind; [apply Hone|intros; apply IH].
Qed.

Lemma emits_rest store from : emits (fun _ => True)
  (ignore (uninstall u (full_Info from)) ;;
   services ← lift (servicesFromStore store);
   copyRecursive store "/" [flistIdentityPath] ;;
   for_each start_service services).
Proof.
  apply emits_bind; [apply emits_ignore, emits_uninstall|intros _ _ _ _].
  apply emits_bind; [auto with zos_monad|intros services _ _ _].
  apply emits_bind; [apply emits_copyRecursive|intros _ _ _ _].
  apply emits_each. intros n _. apply emits_bind; [by apply emits_ignore, emits_act|intros _ _ _ _].
  by apply emits_ignore, emits_node_call.
Qed.


(** Every service that was asked to stop has exited. *)
Lemma wait_stopped_Ok turns : forall deadline l s s', wait_stopped turns deadline l s = (s', Ok tt) ->
  forall n, n ∈ l -> exists w w' st, z_Status n w = (w', Ok st) /\ Exited (ss_State st) = true.
Proof.
  induction turns as [|turns IH]; intros deadline [|m l] s s' Hrun n Hn; cbn [wait_stopped] in Hrun;
    [by apply elem_of_nil in Hn|done|by apply elem_of_nil in Hn|].
  ok_bind Hrun s1 still H1. apply check_stopped_Ok in H1 as [_ Hex].
  destruct (decide (n ∈ still)) as [Hl|Hl]; [|by apply Hex].
  destruct still as [|k still]; [by apply elem_of_nil in Hl|]. ok_bind Hrun s2 u2 H2. by eapply IH.
Qed.

Lemma stop_all_in names : forall l s s' l', stop_all names l s = (s', Ok l') -> l ⊆ l' /\
  exists evs, p_log s' = p_log s ++ evs /\ forall n, Ran (ZinitStop n) (inl "") ∈ evs -> n ∈ l'.
Proof.
  induction names as [|n names IH]; intros l s s' l'; cbn [stop_all].
  { intros [= <- <-]. split; [done|]. exists []. rewrite app_nil_r. split; [done|]. by intros ? ?%elem_of_nil. }
  intros Hrun. ok_bind Hrun s1 r H1. apply try_inv, act_inv in H1; [|by destruct r].
  apply IH in Hrun as [Hsub (evs & Hl & Hin)]. split; [destruct r; [destruct (isIn n l)|]; set_solver|].
  eexists. split; [rewrite Hl, H1, <- (assoc_L (++)); reflexivity|].
  intros m [Hm|Hm]%elem_of_app; [|by apply Hin]. apply list_elem_of_singleton in Hm.
  injection Hm as -> Hm. destruct r as [v|e]; [|done]. apply Hsub.
  destruct (isIn n l) eqn:Hi; [|set_solver]. apply existsb_exists in Hi as (k & Hk & ->%String.eqb_eq).
  by apply list_elem_of_In.
Qed.

(** Waiting for services stops none. *)
Lemma emits_no_stop turns : forall deadline l,
  emits (fun ev => forall k, ev_op ev <> ZinitStop k) (wait_stopped turns deadline l).
Proof.
  induction turns as [|turns IH]; intros deadline [|n l]; cbn [wait_stopped];
    [apply emits_quiet, quiet_ret|apply emits_quiet, quiet_panic|apply emits_quiet, quiet_ret|].
  apply emits_bind; [apply emits_quiet, quiet_check_stopped|intros [|m still] _ _ _; [apply emits_quiet, quiet_ret|]].
  apply emits_bind; [|intros _ _ _ _; apply IH].
  destruct (deadline =? 1)%nat; [|apply emits_quiet, quiet_ret].
  apply emits_each. intros k _. by apply emits_ignore, emits_node_call.
Qed.

(** Removing a flist from the node touches only services and files of
    that flist, and of these neither a protected service nor the program of the
    daemon itself; no file is removed before every service that was asked to stop
    has exited. When the list of the files cannot be had, nothing is touched. *)
Theorem uninstall_spec flist s s' x : uninstall u flist s = (s', x) ->
  p_log s' = p_log s \/ exists files stops rest,
    (exists s1 s2, Files flist s1 = (s2, Ok files)) /\
    p_log s' = p_log s ++ stops ++ rest /\ Forall (stops_of files) stops /\
    Forall (fun ev => stops_of files ev \/ removes_of files ev) rest /\
    (rest = [] \/ forall n, Ran (ZinitStop n) (inl "") ∈ stops ->
       exists w w' st, z_Status n w = (w', Ok st) /\ Exited (ss_State st) = true).
Proof.
  intros Hrun. unfold uninstall in Hrun. unfold mbind at 1, M_bind at 1 in Hrun.
  destruct (wrap _ (Files flist) s) as [s1 got] eqn:Hf.
  pose proof (quiet_log _ _ _ _ (quiet_wrap _ _ (quiet_Files flist)) Hf) as Hl. rewrite <- Hl.
  destruct got as [files|e|p]; [|injection Hrun as <- <-; by left..]. right. apply wrap_Ok in Hf.
  exists files. unfold mbind at 1, M_bind at 1 in Hrun.
  destruct (wrap _ (stopMultiple u _) s1) as [s2 y] eqn:Hs.
  destruct (emits_run _ _ _ _ _ (emits_wrap _ _ _ (emits_stop_services files)) Hs) as (stops & Hst & Hstops).
  exists stops. destruct y as [[]|e|p].
  2,3: injection Hrun as <- <-; exists []; rewrite app_nil_r; split_and!; by eauto.
  destruct (emits_run _ _ _ _ _ (emits_remove_files files) Hrun) as (rest & Hrest & Hall).
  exists rest. rewrite Hrest, Hst, (assoc_L (++)). split_and!; [by eauto|done..|]. right. intros n Hn.
  apply wrap_Ok in Hs. ok_bind Hs s3 l H3. apply stop_all_in in H3 as [_ (evs & Hevs & Hin)].
  eapply wait_stopped_Ok; [exact Hs|]. apply Hin.
  destruct (emits_run (fun ev => forall k, ev_op ev <> ZinitStop k) _ _ _ _ (emits_no_stop _ _ _) Hs) as (more & Hmore & Hno).
  rewrite Hst, Hevs, <- (assoc_L (++)) in Hmore. apply app_inv_head in Hmore as ->.
  apply elem_of_app in Hn as [Hn|Hn]; [done|]. rewrite Forall_forall in Hno. by destruct (Hno _ Hn n).
Qed.

End order_lemmas.

(** ** What the watchers send *)

Section watcher_lemmas.
  Context {St W : Type} {node : UpgradeNode St W} {json : HubJson} {semver : Semver} {order : MapOrder}.

(** Each version is newer than the one before it. *)
Fixpoint increasing (current : Version) (vs : list Version) : Prop :=
  match vs with [] => True | v :: vs => GT v current = true /\ increasing v vs end.

Definition versions_of (events : list FullFListInfo) (vs : list Version) : Prop :=
  Forall2 (fun e v => info_Version (full_Info e) = Ok v) events vs.

Definition announces (current : Version) (r : list FullFListInfo * Version) : Prop :=
  exists vs, versions_of r.1 vs /\ increasing current vs /\ r.2 = List.last vs current.

Lemma last_cons {A} (v c : A) vs : List.last (v :: vs) c = List.last vs v.
Proof.
  revert v c. induction vs as [|w vs IH]; intros v c; [done|].
  change (List.last (v :: w :: vs) c) with (List.last (w :: vs) c). by rewrite !IH.
Qed.

Lemma newer_announces info current v r : info_Version (full_Info info) = Ok v ->
  announces (newer info current v).2 r ->
  announces current (event_list (newer info current v).1 ++ r.1, r.2).
Proof.
  intros Hv (vs & Hvs & Hinc & Hlast). unfold newer in *. destruct (GT v current) eqn:Hgt; cbn in *.
  - exists (v :: vs). split; [by constructor|]. split; [done|].
    change (r.2 = List.last (v :: vs) current). by rewrite last_cons.
  - by exists vs.
Qed.

Lemma semver_ticks_announces flist ticks : forall current s s' r,
  semver_ticks ticks flist current s = (s', Ok r) -> announces current r.
Proof.
  induction ticks as [|ticks IH]; intros current s s' r; cbn [semver_ticks].
  { intros [= _ <-]. exists []. by repeat constructor. }
  intros Hrun. ok_bind Hrun s1 t H1. destruct t as [event c1]. ok_bind Hrun s2 r2 H2. destruct r2 as [events c2].
  injection Hrun as _ <-. apply IH in H2. unfold semver_turn in H1. ok_bind H1 s3 got H3.
  destruct got as [info|e]; [|by injection H1 as _ <- <-].
  destruct (info_Version (full_Info info)) as [v|e|p] eqn:Hv; [|by injection H1 as _ <- <-|done].
  injection H1 as _ H1. apply (newer_announces info current v (events, c2)) in Hv; rewrite H1 in *; done.
Qed.

(** The watcher of the system's flist announces each version once
    and never goes back: along any number of ticks, whatever the hub answers, every
    version it sends is newer than the one before it, the first newer than the one
    that runs, and its current version is the last one it has sent. *)
Theorem semver_Watch_increasing ticks flist current s s' r :
  semver_Watch ticks flist current s = (s', Ok r) -> announces current r.
Proof.
  unfold semver_Watch. intros Hrun. ok_bind Hrun s1 info H1. ok_bind Hrun s2 v H2. injection H2 as _ Hv.
  destruct (newer info current v) as [event c1] eqn:Hn. ok_bind Hrun s3 r3 H3. destruct r3 as [events c2].
  injection Hrun as _ <-. apply semver_ticks_announces in H3.
  apply (newer_announces info current v (events, c2)) in Hv; rewrite Hn in *; done.
Qed.

Notation packages := (gmap string FListInfo).

Lemma to_add_spec (current all : packages) pkg : pkg ∈ to_add current all <->
  exists name, all !! name = Some pkg /\
    (current !! name = None \/ exists c, current !! name = Some c /\ fi_Updated pkg <> fi_Updated c).
Proof.
  unfold to_add. rewrite list_elem_of_omap. setoid_rewrite map_range_perm. split.
  - intros ([name p] & Hin%elem_of_map_to_list & Hc). exists name. cbn in Hc.
    destruct (current !! name) as [c|]; [|by injection Hc as ->; auto].
    destruct (Z.eqb_spec (fi_Updated p) (fi_Updated c)); [done|]. injection Hc as ->. by eauto.
  - intros (name & Hall & Hc). exists (name, pkg). rewrite elem_of_map_to_list. split; [done|]. cbn.
    destruct Hc as [->|(c & -> & Hne)]; [done|]. by apply Z.eqb_neq in Hne as ->.
Qed.

Lemma to_del_zero (current all : packages) : Forall (fun pkg => pkg = zeroFListInfo) (to_del current all).
Proof.
  apply Forall_forall. intros pkg ([name p] & _ & Hc)%list_elem_of_omap. cbn in Hc.
  destruct (all !! name); [done|]. by injection Hc.
Qed.


Lemma omap_nil {A B} (f : A -> option B) l : omap f l = [] <-> forall x, x ∈ l -> f x = None.
Proof.
  induction l as [|x l IH]; cbn; [split; [by intros _ ? ?%elem_of_nil|done]|].
  destruct (f x) as [y|] eqn:Hx.
  - split; [done|]. intros Hall. specialize (Hall x). rewrite Hx in Hall. by discriminate Hall; left.
  - rewrite IH. split; [intros Hall z [->|Hz]%elem_of_cons; [done|by apply Hall]|].
    intros Hall z Hz. apply Hall. by right.
Qed.

Lemma to_add_nil (current all : packages) : to_add current all = [] <->
  forall name p, all !! name = Some p -> exists c, current !! name = Some c /\ fi_Updated p = fi_Updated c.
Proof.
  unfold to_add. rewrite omap_nil. setoid_rewrite map_range_perm. split.
  - intros Hall name p Hp. specialize (Hall (name, p) (proj2 (elem_of_map_to_list _ _ _) Hp)). cbn in Hall.
    destruct (current !! name) as [c|]; [|done]. exists c. split; [done|].
    by destruct (Z.eqb_spec (fi_Updated p) (fi_Updated c)).
  - intros Hall [name p] (c & Hc & Heq)%elem_of_map_to_list%Hall. cbn. by rewrite Hc, Heq, Z.eqb_refl.
Qed.

Lemma to_del_nil (current all : packages) : to_del current all = [] <->
  forall name, is_Some (current !! name) -> is_Some (all !! name).
Proof.
  unfold to_del. rewrite omap_nil. setoid_rewrite map_range_perm. split.
  - intros Hall name [p Hp]. specialize (Hall (name, p) (proj2 (elem_of_map_to_list _ _ _) Hp)). cbn in Hall.
    by destruct (all !! name); [eexists|].
  - intros Hall [name p] Hp%elem_of_map_to_list. cbn. by destruct (Hall name (mk_is_Some _ _ Hp)) as [q ->].
Qed.

(** The watcher of a repository reports exactly the packages that
    are new or have another date, and then is settled: with the packages it has
    just reported there is no difference left. It reports nothing only when the
    names and the dates are those it knows. What it reports as deleted are empty
    packages, not those that are gone. *)
Theorem repo_event_spec repo (current all : packages) :
  match repo_event repo current (all, to_add current all, to_del current all) with
  | (Some e, after) =>
      after = all /\ to_add after all = [] /\ to_del after all = [] /\
      (forall pkg, pkg ∈ re_ToAdd e <-> exists name, all !! name = Some pkg /\
        (current !! name = None \/ exists c, current !! name = Some c /\ fi_Updated pkg <> fi_Updated c)) /\
      Forall (fun pkg => pkg = zeroFListInfo) (re_ToDel e)
  | (None, after) =>
      after = current /\ dom current = dom all /\
      forall name p c, all !! name = Some p -> current !! name = Some c -> fi_Updated p = fi_Updated c
  end.
Proof.
  assert (Hsettled : to_add all all = [] /\ to_del all all = []).
  { split; [apply to_add_nil; by eauto|by apply to_del_nil]. }
  unfold repo_event. destruct (to_add current all) as [|p ps] eqn:Ha; [destruct (to_del current all) as [|d ds] eqn:Hd|].
  2,3: split; [done|]; split; [apply Hsettled|]; split; [apply Hsettled|]; cbn [re_ToAdd re_ToDel];
    (split; [intros pkg; rewrite <- to_add_spec, Ha; done|]); try rewrite <- Hd; apply to_del_zero.
  split; [done|]. rewrite to_add_nil in Ha. rewrite to_del_nil in Hd. split.
  - apply set_eq. intros name. rewrite !elem_of_dom. split; [apply Hd|]. intros [q Hq].
    apply Ha in Hq as (c & Hc & _). by eexists.
  - intros name q c Hq Hc. apply Ha in Hq as (c' & Hc' & Heq). by simplify_eq.
Qed.

End watcher_lemmas.

(** ** Versions are read back *)

Lemma trim_right_space s : trim_right (s +:+ " ") = trim_right s.
Proof.
  induction s as [|c s IH]; [done|]. change (String c s +:+ " ") with (String c (s +:+ " ")).
  cbn [trim_right]. by rewrite IH.
Qed.

Lemma word_trimmed w : is_word_of w -> TrimSpace (String " " w) = w /\ TrimSpace (String " " (w +:+ " ")) = w.
Proof.
  intros Hw. pose proof Hw as [Hne Hall]. destruct w as [|c w]; [done|].
  assert (Hc : is_white c = false) by (cbn in Hall; unfold not_white in Hall; by destruct (is_white c)).
  destruct (word_last _ Hw) as (t & d & Heq & Hd).
  assert (Htrim : trim_right (String c w) = String c w) by (rewrite Heq; by apply trim_right_last).
  unfold TrimSpace. split.
  - change (skip_white (String " " (String c w))) with (skip_white (String c w)). cbn [skip_white]. by rewrite Hc.
  - change (skip_white (String " " (String c w +:+ " "))) with (skip_white (String c (w +:+ " "))).
    cbn [skip_white]. rewrite Hc. change (String c (w +:+ " ")) with (String c w +:+ " "). by rewrite trim_right_space.
Qed.

Section span_free.
  Context (sep : ascii).

Lemma free_chars w : split_first sep w = None -> all_chars (fun c => negb (Ascii.eqb c sep)) w = true.
Proof.
  induction w as [|c w IH]; intros Hw; [done|]. apply split_first_cons in Hw as [Hc Hw]. cbn. by rewrite Hc, IH.
Qed.

Lemma span_free w rest : split_first sep w = None ->
  span (fun c => negb (Ascii.eqb c sep)) (w +:+ String sep rest) = (w, String sep rest).
Proof. intros Hw. apply span_all; [by apply free_chars|]. by rewrite Ascii.eqb_refl. Qed.

Lemma span_free_end w : split_first sep w = None -> span (fun c => negb (Ascii.eqb c sep)) w = (w, "").
Proof. intros Hw. by apply span_all_end, free_chars. Qed.

(** A blank on both sides of a text does not separate it. *)
Lemma split_first_blank w : Ascii.eqb " " sep = false -> split_first sep w = None ->
  split_first sep (String " " w) = None /\ split_first sep (String " " (w +:+ " ")) = None.
Proof.
  intros Hsep Hw. assert (Hw' : split_first sep (w +:+ " ") = None).
  { induction w as [|c w IH]; [change (split_first sep " " = None); cbn [split_first]; by rewrite Hsep|]. apply split_first_cons in Hw as [Hc Hw].
    change (String c w +:+ " ") with (String c (w +:+ " ")). cbn [split_first]. by rewrite Hc, IH. }
  cbn [split_first]. by rewrite Hsep, Hw, Hw'.
Qed.

End span_free.

(** The version that a program prints is read back, whether or not it was built
    from a clean repository. *)
Theorem version_roundtrip branch revision dirty : is_word_of branch -> is_word_of revision ->
  split_first "@" branch = None -> split_first "(" revision = None ->
  version_Parse (version_String branch revision dirty) = Ok (branch, revision).
Proof.
  intros Hb Hr Hat Hpar.
  pose proof (word_trimmed _ Hb) as [_ Htb]. pose proof (word_trimmed _ Hr) as [Htr Htr'].
  set (d := if (dirty =? "")%string then "" else " (dirty-repo)").
  assert (version_String branch revision dirty =
    "Version:" +:+ (String " " (branch +:+ " ") +:+ ("@Revision:" +:+ (String " " revision +:+ d)))) as ->.
  { unfold version_String. fold d. change (String " " (branch +:+ " ")) with (" " +:+ (branch +:+ " ")).
    change (String " " revision) with (" " +:+ revision). by rewrite !string_app_assoc. }
  unfold version_Parse, HasPrefix. rewrite prefix_app, TrimPrefix_app. change ("@Revision:" +:+ ?x) with
    (String "@" ("Revision:" +:+ x)) at 1. rewrite span_free by (by apply split_first_blank).
  change (String "@" ("Revision:" +:+ ?x)) with ("@Revision:" +:+ x). rewrite prefix_app, TrimPrefix_app, Htb.
  unfold d. destruct (dirty =? "")%string.
  - rewrite string_app_nil_r, span_free_end by (by apply split_first_blank). by rewrite Htr.
  - change (String " " revision +:+ " (dirty-repo)") with (String " " (revision +:+ (" " +:+ String "(" "dirty-repo)"))).
    rewrite <- string_app_assoc. change (String " " ((revision +:+ " ") +:+ ?x)) with (String " " (revision +:+ " ") +:+ x).
    rewrite span_free by (by apply split_first_blank). by rewrite Htr'.
Qed.

(** ** A node that upgrades *)
Module UpgradeDemo.

(** The files, what fails, and what each program prints for -v. *)
Record world := MkWorld { w_files : gmap string string; w_fails : list string; w_versions : gmap string string }.

Definition set_files (f : gmap string string -> gmap string string) (w : world) : world :=
  MkWorld (f (w_files w)) (w_fails w) (w_versions w).

Definition broken (w : world) (call : string) : bool := existsb (String.eqb call) (w_fails w).

Definition store : Type := list Meta.

#[local] Instance store_ops : FlistStore store := {|
  st_Walk st dir := Ok (if (dir =? "")%string then st else filter (fun m => HasPrefix (mt_Path m) dir = true) st);
  st_Get st path := snd <$> list_find (fun m => String slash (mt_Path m) = path) st
|}.

Definition content_of (m : Meta) : string := "new " +:+ mt_Path m.

#[local] Instance node : UpgradeNode store world := {|
  un_Get url w := (w, Ok (200, url));
  un_Escape path := path;
  un_Unpack _ _ w := (w, Ok tt);
  un_NewStore _ w := (w, Ok (Some [MkMeta "bin" DirType; MkMeta "bin/identityd" RegularType;
                                   MkMeta "bin/networkd" RegularType]));
  un_Stat p w := (w, if bool_decide (is_Some (w_files w !! p)) then Ok false else Err ErrNotExist);
  un_Rename a b w :=
    match w_files w !! a with
    | Some c => if broken w ("rename " +:+ a) then (w, Err ErrExist)
                else (set_files (fun f => <[b := c]> (delete a f)) w, Ok tt)
    | None => (w, Err ErrNotExist)
    end;
  un_Remove p w := if broken w "remove" then (w, Err ErrExist) else (set_files (delete p) w, Ok tt);
  un_MkdirAll _ w := (w, Ok tt);
  un_Symlink _ _ w := (w, Ok tt);
  un_OpenFile p w := (set_files (insert p "") w, Ok tt);
  un_Download m p w :=
    if broken w "download" then (set_files (insert p "ne") w, Err ErrNetwork)
    else (set_files (insert p (content_of m)) w, Ok tt);
  un_BinPath w := (w, Ok "/bin/identityd");
  un_Version bin w :=
    (w, match w_versions w !! bin with Some v => Ok v | None => Err ErrNotExist end)
|}.

#[local] Instance laws : UpgradeLaws store world.
Proof.
  refine {| un_files := w_files; un_content := content_of |}; cbn.
  - intros p w w' x [= <- <-]. split; [done|]. intros e He _.
    case_bool_decide as Hp; [done|]. by apply eq_None_not_Some.
  - intros a b c w w' x Hx Ha. rewrite Ha in Hx. destruct (broken _ _); by injection Hx as <- <-.
  - intros p w w' x Hx. destruct (broken _ _); by injection Hx as <- <-.
  - intros p w w' x [= <- <-]. done.
  - intros m p w w' x Hx. destruct (broken _ _); injection Hx as <- <-; [by exists "ne"|done].
  - intros p w w' x [= <- <-]. done.
  - intros t p w w' x [= <- <-]. done.
Defined.

#[local] Instance zinit : ZinitOps world := {|
  z_Start _ w := (w, Ok tt); z_Stop _ w := (w, Ok tt); z_Forget _ w := (w, Ok tt); z_Monitor _ w := (w, Ok tt);
  z_Kill _ _ w := (w, Ok tt);
  z_Status n w := (w, Ok (MkServiceStatus n 7 (MkServiceState "success" "") "down" ∅));
  z_StartWait _ _ w := (w, Ok tt); z_StopWait _ _ w := (w, Ok tt); z_AddService _ _ w := (w, Ok tt)
|}.

#[local] Instance json : HubJson := {|
  dec_full repo body := Ok (MkFull (MkFListInfo "zos:v2.0.0.flist" "loop" (if Contains body "loop" then "symlink" else "regular") 5 repo) "h4sh" 1);
  dec_list body := Ok [];
  dec_files body := Ok [MkFileInfo "/etc/zinit/networkd.yaml" 1; MkFileInfo "/etc/zinit/identityd.yaml" 1;
                        MkFileInfo "/bin/networkd" 1; MkFileInfo "/bin/identityd" 1]
|}.

Definition u : Upgrader := MkUpgrader "/var/cache" false 5 5 3.

Definition installed : gmap string string :=
  list_to_map [("/bin/identityd", "old"); ("/bin/networkd", "old"); ("/etc/zinit/networkd.yaml", "y")].

Definition start (fails : list string) (rev : string) : PState world :=
  MkP (MkWorld installed fails
         (list_to_map [("identityd", version_String "main" "abc" ""); ("/bin/identityd.new", version_String "main" rev "")]))
    [] false.

Definition flist : FullFListInfo := MkFull (MkFListInfo "zos.flist" "" "regular" 5 "tf-zos") "h4sh" 1.

Definition networkd : Meta := MkMeta "bin/networkd" RegularType.

(** The download breaks off: the file is put back. *)
Lemma copyFile_safe_witness :
  let run := copyFile "/bin/networkd" networkd (start ["download"] "abc") in
  snd run = Err ErrNetwork /\ w_files (p_world (fst run)) !! "/bin/networkd" = Some "old" /\
  (un_files (p_world (fst run)) !! "/bin/networkd" = Some "old" \/
   un_files (p_world (fst run)) !! "/bin/networkd.old" = Some "old").
Proof.
  split; [vm_compute; reflexivity|]. split; [vm_compute; reflexivity|].
  assert (Hrun : copyFile "/bin/networkd" networkd (start ["download"] "abc") =
    (fst (copyFile "/bin/networkd" networkd (start ["download"] "abc")), Err ErrNetwork)) by (vm_compute; reflexivity).
  assert (Hold : w_files (p_world (start ["download"] "abc")) !! "/bin/networkd" = Some "old")
    by (vm_compute; reflexivity).
  exact (proj2 (copyFile_safe (laws := laws) "/bin/networkd" networkd (start ["download"] "abc") _ (Err ErrNetwork)
    "old" Hrun Hold)).
Defined.

Definition upgraded (rev : string) : PState world * res unit :=
  applyUpgrade u "identityd" flist flist (start [] rev).

(** Another revision: the daemon replaces itself and stops there. The same one: the
    services and the files of the others are replaced. *)
Example upgrade_in_two_steps :
  snd (upgraded "def") = Err ErrRestartNeeded /\
  w_files (p_world (fst (upgraded "def"))) !! "/bin/identityd" = Some "new bin/identityd" /\
  w_files (p_world (fst (upgraded "def"))) !! "/bin/networkd" = Some "old" /\
  snd (upgraded "abc") = Ok tt /\
  w_files (p_world (fst (upgraded "abc"))) !! "/bin/networkd" = Some "new bin/networkd" /\
  w_files (p_world (fst (upgraded "abc"))) !! "/bin/identityd" = Some "old".
Proof. split_and!; vm_compute; reflexivity. Qed.

(** What is asked for after the daemon is prepared: nothing but its replacement, or all
    the rest. *)
Definition self_first (rev : string) : Prop :=
  exists own rest, p_log (upgraded rev).1 = [] ++ own ++ rest /\ Forall (prepares u) own /\
    (rest = [] \/ (exists ev, rest = [ev] /\ replaces_self ev /\ (upgraded rev).2 <> Ok tt) \/
     exists st s1 s2, getFlist u (Fqdn (full_Info flist)) (start [] rev) = (s1, Ok st) /\
       up_to_date u "identityd" st s1 s2 /\ p_log s2 = [] ++ own).


Definition uninstalled : PState world * res unit := uninstall u (full_Info flist) (start [] "abc").

Lemma uninstall_spec_witness :
  (ev_op <$> p_log (fst uninstalled)) =
    [ZinitStop "networkd"; ZinitForget "networkd"; NodeCall "remove" ["/etc/zinit/networkd.yaml"];
     NodeCall "remove" ["/bin/networkd"]] /\
  (p_log (fst uninstalled) = [] \/ exists files stops rest,
     p_log (fst uninstalled) = [] ++ stops ++ rest /\ Forall (stops_of files) stops /\
     Forall (fun ev => stops_of files ev \/ removes_of files ev) rest).
Proof.
  split; [vm_compute; reflexivity|].
  assert (Hrun : uninstalled = (fst uninstalled, Ok tt)) by (vm_compute; reflexivity).
  destruct (uninstall_spec u (full_Info flist) (start [] "abc") (fst uninstalled) (Ok tt) Hrun)
    as [Hl|(files & stops & rest & _ & Hl & Hs & Hr & _)]; [left; exact Hl|right].
  exists files, stops, rest. split; [exact Hl|]. split; [exact Hs|exact Hr].
Defined.

(** A package that is gone from the repository is reported as an empty one, and
    uninstalling that fails: it stays on the node. *)
Example removed_package_stays : exists e,
  UninstallBinary u zeroFListInfo (start [] "abc") = (start [] "abc", Err e).
Proof. eexists. vm_compute. reflexivity. Qed.

(** A link of the hub to itself is followed for as long as there are hops left. *)
Example link_loop :
  snd (resolve 3 "loop" (start [] "abc")) = Panic "still following links" /\
  snd (resolve 40 "loop" (start [] "abc")) = Panic "still following links".
Proof. split; vm_compute; reflexivity. Qed.

Section watch.
  #[local] Existing Instance demo_Semver.

(** The hub has version 2.0.0 all the time: it is announced once. *)
Definition watched : PState world * res (list FullFListInfo * Version) :=
  semver_Watch 3 "tf-zos/zos" V1 (start [] "abc").

Definition announced : list FullFListInfo * Version :=
  ([MkFull (MkFListInfo "zos:v2.0.0.flist" "loop" "regular" 5 "tf-zos") "h4sh" 1], V2).

Lemma semver_Watch_increasing_witness :
  snd watched = Ok announced /\ announces V1 announced.
Proof.
  split; [vm_compute; reflexivity|].
  assert (Hrun : watched = (fst watched, snd watched)) by apply surjective_pairing.
  refine (semver_Watch_increasing 3 "tf-zos/zos" V1 (start [] "abc") (fst watched) _ _).
  change (watched = (fst watched, Ok announced)). rewrite Hrun at 1. f_equal.
Defined.

End watch.

End UpgradeDemo.
