(* ===== verification/Identityd.v ===== *)
(** The identity daemon: src/cmds/identityd and src/pkg/geoip. It registers the node,
    installs the packages of the node and follows the flist it was booted from.

    The watchers of [Upgrade] send their events on two channels; [upgradeLoop] is the loop
    that reads them, on the events in the order in which it reads them. *)

From stdpp Require Import gmap strings list.
From Stdlib Require Import Ascii ZArith Lia.
From S2P Require Import Prelude Reservation Versioned NetIP NetTypes Storage BtrfsUtil Disk Bus Netlink Zinit Networker Upgrade Identity.

Open Scope Z_scope.

(** ** geoip.go *)

(** A coordinate is a float that is passed on. *)
Record Location (F : Type) := MkLocation {
  loc_Longitute : F; loc_Latitude : F; loc_Continent : string; loc_Country : string; loc_City : string
}.
Arguments MkLocation {F}.
Arguments loc_Longitute {F}.
Arguments loc_Latitude {F}.
Arguments loc_Continent {F}.
Arguments loc_Country {F}.
Arguments loc_City {F}.

Definition unknownLocation {F} (zero : F) : Location F := MkLocation zero zero "Unknown" "Unknown" "Unknown".

(** [geoip.Fetch]; the decoder leaves what is not in the text as it is. *)
Definition geoip_Fetch {W F} (zero : F) (get : string -> M W (Z * string))
    (decode : Location F -> string -> res (Location F)) : M W (Location F) :=
  '(status, body) ← get "https://geoip.grid.tf";
  if negb (status =? 200) then throw (ErrMsg "error fetch location")
  else lift (decode (unknownLocation zero) body).

(** ** The registration of the node *)

(** [int64] of an unsigned integer. *)
Definition int64 (x : Z) : Z := let x := u64 x in if x <? 2 ^ 63 then x else x - 2 ^ 64.

Record Node (F : Type) := MkNode {
  node_NodeId : string; node_HostName : string; node_NodeIdV1 : string; node_FarmId : Z;
  node_OsVersion : string; node_Location : Location F; node_PublicKeyHex : string; node_Uptime : Z
}.
Arguments MkNode {F}.
Arguments node_OsVersion {F}.

Section register.
  Context {W F : Type} `{NetKernel W} `{Ed25519}.
  Context (hex_Encode : string -> string) (Hostname : M W string) (host_Uptime : M W Z).
  Context (NodeRegister : Node F -> M W unit).

(** The request that registers a version. *)
Definition is_register (ev : event) : Prop := exists v, ev_op ev = NodeCall "NodeRegister" [v].

Definition registerNode (nodeID : string) (farmID : Z) (version : string) (loc : Location F) : PM W unit :=
  v1 ← try NodeIDv1;
  let publicKeyHex := hex_Encode (b58_Decode nodeID) in
  hostName ← try (call Hostname);
  uptime ← wrap "could not get node uptime" (call host_Uptime);
  node_call "NodeRegister" [version]
    (NodeRegister (MkNode nodeID (match hostName with inl h => h | inr _ => "unknown" end)
       (match v1 with inl v => v | inr _ => "" end) (int64 farmID) version loc publicKeyHex (int64 uptime))).

End register.

(** ** The daemon *)

(** [setup]: it asks for redis, with five seconds of [turns]. *)
Definition setup {W} `{ZinitOps W} (turns : nat) : M W unit := for_each (z_StartWait (Some turns)) ["redis"].

(** [identityMgr]: the manager of the seed file; the environment is read to be printed. *)
Definition seedName : string := "seed.txt".

Definition identityMgr {W} `{Ed25519} `{Bip39} `{JsonUnquote} `{Semver} (v0 SeedVersion1 SeedVersion11 : Version)
    (ed_GenerateKey : M W (string * string)) (environment : M W Environment) (root : string) : M (IState W) KeyPair :=
  manager ← NewManager v0 SeedVersion1 SeedVersion11 ed_GenerateKey (Join root seedName);
  wrap "failed to parse node environment" (in_world environment) ;;
  mret manager.

(** The repository of the packages. An error of the environment is dropped, and what was
    read in front of it is used. *)
Definition bin_repo (Getenv : string -> string) (params : Params) : string :=
  match getEnvironmentFromParams Getenv params with
  | Ok env => env_BinRepo env
  | _ => env_BinRepo (env_of_mode (default "prod" (first_value params "runmode")))
  end.

(** The stream of versions ([monitorStream]): after two seconds it repeats its version, and
    a version that is sent to it replaces that one. *)
Definition monitor_turn {V} (version : V) (received : option V) : V * V :=
  let v := default version received in (v, v).

Section daemon.
  Context {St W : Type} `{FlistStore St} `{UpgradeNode St W} `{HubJson} `{ZinitOps W} `{BootNode W} `{Semver} `{MapOrder}.
  (** The upgrader, the name of the program, and what registers a version; a version that is
      sent to the monitor. *)
  Context (u : Upgrader) (self : string) (register : string -> PM W unit) (monitor : Version -> PM W unit).
  Context (BinRepo : PM W string).

Notation packages := (gmap string FListInfo).

Definition current_bins : PM W packages :=
  bins ← try (call CurrentBins); mret (match bins with inl bins => bins | inr _ => ∅ end).

(** What is removed, then what is added; errors are printed. *)
Definition change_bins (toDel toAdd : list FListInfo) : PM W unit :=
  for_each (fun pkg => ignore (UninstallBinary u pkg)) toDel ;;
  for_each (fun pkg => ignore (InstallBinary u pkg)) toAdd.

Definition set_bins (current : packages) : PM W unit := ignore (call (SetBins current)).

Definition installBinaries : PM W unit :=
  bins ← current_bins;
  repo ← BinRepo;
  diff ← try (Diff repo bins);
  let '(current, toAdd, toDel) := match diff with inl d => d | inr _ => (∅, [], []) end in
  change_bins toDel toAdd ;;
  set_bins current.

(** [debugReinstall], one signal. *)
Definition debugReinstall : PM W unit :=
  current ← try (call Boot_Current);
  match current with
  | inl current => ignore (applyUpgrade u self current current)
  | inr _ => mret tt
  end.

Definition needs_restart (e : error) : bool :=
  match e with ErrMsg m => (m =? "restart needed")%string | _ => false end.

(** The upgrade, again for an hour, but not when the daemon has to be restarted. *)
Fixpoint retry_upgrade (retries : nat) (from event : FullFListInfo) : PM W unit :=
  got ← try (applyUpgrade u self from event);
  match got with
  | inl _ => mret tt
  | inr e =>
      if needs_restart e then throw e
      else match retries with O => throw e | S retries => retry_upgrade retries from event end
  end.

(** Whether the loop ends. *)
Definition flist_event (retries registrations : nat) (event : FullFListInfo) : PM W bool :=
  match info_Version (full_Info event) with
  | Err _ => mret false
  | Panic p => panic p
  | Ok version =>
      from ← or_exit (call Boot_Current);
      got ← try (retry_upgrade retries from event);
      match got with
      | inr e => mret (needs_restart e)
      | inl _ =>
          ignore (act_ (NodeCall "boot.Set" [full_Hash event]) (Boot_Set event)) ;;
          monitor version ;;
          ignore (retry registrations (register (ver_String version))) ;;
          mret false
      end
  end.

(** [current] is [repoWatcher.Current] when the event is handled. *)
Definition repo_changed (event : RepoEvent) (current : packages) : PM W unit :=
  change_bins (re_ToDel event) (re_ToAdd event) ;;
  set_bins current.

(** What is read from the channels: a closed one gives nothing, at once and for ever. *)
Inductive loop_event :=
| FListCame (event : FullFListInfo)
| RepoCame (event : RepoEvent) (current : packages)
| ClosedChannel.

Fixpoint upgrade_events (retries registrations : nat) (events : list loop_event) : PM W unit :=
  match events with
  | [] => mret tt
  | FListCame event :: events =>
      stop ← flist_event retries registrations event;
      if stop : bool then mret tt else upgrade_events retries registrations events
  | RepoCame event current :: events =>
      repo_changed event current ;; upgrade_events retries registrations events
  | ClosedChannel :: events => upgrade_events retries registrations events
  end.

(** [upgradeLoop], without the signal of the debug mode, over the events that the watchers
    send until the context is done. *)
Definition upgradeLoop (retries registrations : nat) (events : string -> Version -> string -> packages -> PM W (list loop_event)) :
    PM W unit :=
  flist ← call Boot_Name;
  current ← call MustVersion;
  monitor current ;;
  bins ← current_bins;
  repo ← BinRepo;
  events ← or_exit (events flist current repo bins);
  upgrade_events retries registrations events.

End daemon.

(** ** What the daemon announces *)

Section announce.
  Context {St W : Type} {node : UpgradeNode St W} {store_ops : FlistStore St} {json : HubJson}
    {zinit : ZinitOps W} {boot : BootNode W} {semver : Semver} {order : MapOrder}.
  Context (u : Upgrader) (self : string).

(** A condition that every request fulfils that is no registration. *)
Definition on_register (P : event -> Prop) : Prop := forall ev, ~ is_register ev -> P ev.

Section upgrade_emits.
  Context (P : event -> Prop) (HP : on_register P).

#[local] Hint Resolve quiet_hub_get quiet_resolve quiet_revisionOf quiet_Files quiet_or_panic : zos_monad.

(** One step of a program whose requests are no registrations. *)
Ltac emits_step := first
  [ apply emits_quiet; solve [auto with zos_monad]
  | apply emits_bind; [|intros]
  | apply emits_try | apply emits_wrap | apply emits_ignore
  | apply emits_each; intros
  | apply emits_act; intros; apply HP; by intros [? ?]
  | match goal with |- context [match ?x with _ => _ end] => destruct x end ].

Lemma emits_Download cache flist hops : emits P (Download hops cache flist).
Proof. unfold Download. repeat emits_step. Qed.

Lemma emits_flist flist : emits P (getFlist u flist).
Proof. unfold getFlist. emits_step; [apply emits_wrap, emits_Download|]. repeat emits_step. Qed.

Lemma emits_copy_file dst src : emits P (copyFile dst src).
Proof. unfold copyFile, write_file. repeat emits_step. Qed.

Lemma emits_self store : emits P (upgradeSelf u self store).
Proof.
  unfold upgradeSelf. repeat (apply emits_copy_file || emits_step).
Qed.

Lemma emits_stop names : emits P (stopMultiple u names).
Proof.
  apply emits_stopMultiple. intros n ev _ Hev. apply HP. intros [v Hv].
  destruct Hev as [Hev|[Hev|Hev]]; rewrite Hv in Hev; discriminate.
Qed.

Lemma emits_uninstalled flist : emits P (uninstall u flist).
Proof.
  unfold uninstall, delete_file. repeat (apply emits_stop || emits_step).
Qed.

Lemma emits_walk dst skip l : forall under, emits P (copy_walk dst skip l under).
Proof.
  induction l as [|m l IH]; intros under; cbn [copy_walk]; [repeat emits_step|].
  destruct (match under with Some _ => _ | None => _ end); [apply IH|]. emits_step; [|apply IH].
  unfold copy_one. repeat (apply emits_copy_file || emits_step).
Qed.

Lemma emits_copies store dst skip : emits P (copyRecursive store dst skip).
Proof. unfold copyRecursive. repeat (apply emits_walk || emits_step). Qed.

Lemma emits_applyUpgrade from to : emits P (applyUpgrade u self from to).
Proof.
  unfold applyUpgrade, start_service.
  repeat (apply emits_flist || apply emits_self || apply emits_uninstalled || apply emits_copies || emits_step).
Qed.

Lemma emits_InstallBinary flist : emits P (InstallBinary u flist).
Proof.
  unfold InstallBinary, ensureRestarted.
  repeat (apply emits_flist || apply emits_copies || apply emits_stop || emits_step).
Qed.

Lemma emits_change_bins toDel toAdd : emits P (change_bins u toDel toAdd).
Proof.
  apply emits_bind; [|intros _ _ _ _]; apply emits_each; intros pkg _; apply emits_ignore.
  - apply emits_uninstalled.
  - apply emits_InstallBinary.
Qed.

Lemma emits_retry_upgrade retries from event : emits P (retry_upgrade u self retries from event).
Proof.
  induction retries as [|retries IH]; cbn [retry_upgrade];
    (emits_step; [apply emits_try, emits_applyUpgrade|]); repeat (apply IH || emits_step).
Qed.

End upgrade_emits.

(** What registers a version, and does nothing else that is logged; the monitor is a
    channel of the daemon. *)
Context (register : string -> PM W unit) (monitor : Version -> PM W unit) (BinRepo : PM W string).
Context (register_version : forall v, emits (fun ev => ev_op ev = NodeCall "NodeRegister" [v]) (register v)).
Context (quiet_monitor : forall v, quiet (monitor v)).

(** Of a run from [s], each new request stands behind a log that justifies it. *)
Definition justified {A} (J : list event -> event -> Prop) (m : PM W A) (s : PState W) : Prop :=
  exists evs, p_log (m s).1 = p_log s ++ evs /\ forall pre ev post, evs = pre ++ ev :: post -> J (p_log s ++ pre) ev.

Lemma justified_emits {A} (J : list event -> event -> Prop) P (m : PM W A) s : emits P m ->
  (forall pre ev, P ev -> J (p_log s ++ pre) ev) -> justified J m s.
Proof.
  intros Hm HJ. destruct (Hm s) as (evs & Hl & Hev). exists evs. split; [done|]. intros pre ev post ->.
  apply HJ. apply Forall_app in Hev as [_ Hev]. by apply Forall_cons in Hev as [Hev _].
Qed.

Lemma justified_quiet {A} J (m : PM W A) s : quiet m -> justified J m s.
Proof. intros Hm. by apply (justified_emits J (fun _ => False)); [apply emits_quiet|]. Qed.

Lemma justified_bind {A B} J (m : PM W A) (k : A -> PM W B) s : justified J m s ->
  (forall a s1, m s = (s1, Ok a) -> justified J (k a) s1) -> justified J (m ≫= k) s.
Proof.
  intros (evs & Hl & HJ) Hk. unfold justified, mbind, M_bind. destruct (m s) as [s1 [a|e|e]] eqn:Em; [|by exists evs..].
  destruct (Hk a s1 eq_refl) as (evs' & Hl' & HJ'). cbn in Hl. exists (evs ++ evs').
  rewrite Hl', Hl, (assoc_L (++)). split; [done|]. intros pre ev post Heq.
  destruct (app_eq_inv _ _ _ _ Heq) as [(more & -> & Heq')|(more & -> & ->)].
  - destruct more as [|ev' more]; cbn in Heq'.
    + subst evs'. rewrite app_nil_r in Hl. rewrite <- Hl, <- (app_nil_r (p_log s1)). by eapply (HJ' []).
    + injection Heq' as <- ->. by eapply HJ.
  - rewrite (assoc_L (++)), <- Hl. by eapply HJ'.
Qed.

(** A registration of a version behind a log [h]: of a flist that was announced, to which
    an upgrade of the node has succeeded between [start] and the end of [h]. *)
Definition upgraded_to (start : list event) (events : list loop_event) (h : list event) (ev : event) : Prop :=
  forall v, ev_op ev = NodeCall "NodeRegister" [v] ->
  exists event version from s s', FListCame event ∈ events /\ info_Version (full_Info event) = Ok version /\
    v = ver_String version /\ applyUpgrade u self from event s = (s', Ok tt) /\
    start `prefix_of` p_log s /\ p_log s' `prefix_of` h.

Lemma upgraded_register start events h : on_register (upgraded_to start events h).
Proof. intros ev Hev v Hv. by destruct Hev; exists v. Qed.

(** What registers nothing is justified. *)
Lemma justified_other {A} start events (m : PM W A) s : (forall P, on_register P -> emits P m) ->
  justified (upgraded_to start events) m s.
Proof.
  intros Hm. apply (justified_emits _ (fun ev => ~ is_register ev)); [apply Hm; by intros ev|].
  intros pre ev Hev. by apply upgraded_register.
Qed.

Lemma grows {A} (m : PM W A) s s' x : emits (fun _ => True) m -> m s = (s', x) -> p_log s `prefix_of` p_log s'.
Proof. intros Hm Hrun. destruct (emits_run _ _ _ _ _ Hm Hrun) as (evs & -> & _). by exists evs. Qed.

Lemma retry_upgrade_Ok retries from event : forall s s', retry_upgrade u self retries from event s = (s', Ok tt) ->
  exists s1, applyUpgrade u self from event s1 = (s', Ok tt) /\ p_log s `prefix_of` p_log s1.
Proof.
  induction retries as [|retries IH]; intros s s' Hrun; cbn [retry_upgrade] in Hrun; ok_bind Hrun s1 got H1;
    pose proof H1 as Hg; apply try_inv in H1; destruct got as [[]|e]; try (injection Hrun as <-; by exists s);
    destruct (needs_restart e); try done.
  apply IH in Hrun as (s2 & Hrun & Hp). exists s2. split; [done|]. etrans; [|exact Hp].
  eapply grows; [|exact Hg]. by apply emits_try, emits_applyUpgrade.
Qed.

Lemma emits_retry {A} P n (m : PM W A) : emits P m -> emits P (retry n m).
Proof.
  intros Hm. induction n as [|n IH]; cbn [retry]; (apply emits_bind; [by apply emits_try|intros [a|e] _ _ _]);
    first [exact IH | apply emits_quiet; auto with zos_monad].
Qed.

Lemma justified_flist_event retries registrations event events start s : FListCame event ∈ events ->
  start `prefix_of` p_log s ->
  justified (upgraded_to start events) (flist_event u self register monitor retries registrations event) s.
Proof.
  intros Hin Hs. unfold flist_event. destruct (info_Version (full_Info event)) as [version|e|p] eqn:Hv;
    [|apply justified_quiet; auto with zos_monad..].
  assert (Hcur : quiet (or_exit (call (Boot_Current (W := W))))) by (apply quiet_bind; [auto with zos_monad|intros []; auto with zos_monad]).
  apply justified_bind; [by apply justified_quiet|intros from s1 H1].
  apply quiet_log in H1; [|done]. rewrite <- H1 in Hs.
  apply justified_bind; [apply justified_other; intros P HP; by apply emits_try, emits_retry_upgrade|].
  intros [[]|e] s2 Hup; [|apply justified_quiet, quiet_ret]. apply try_inv in Hup.
  apply retry_upgrade_Ok in Hup as (s0 & Hup & Hs0).
  apply (justified_emits _ (fun ev => forall v, ev_op ev = NodeCall "NodeRegister" [v] -> v = ver_String version)).
  - apply emits_bind; [apply emits_ignore, emits_act; by intros out v Hop|intros _ _ _ _].
    apply emits_bind; [apply emits_quiet, quiet_monitor|intros _ _ _ _].
    apply emits_bind; [|intros; apply emits_quiet, quiet_ret]. apply emits_ignore, emits_retry.
    eapply emits_mono; [|apply register_version]. intros ev Hev v Hop. rewrite Hev in Hop. by injection Hop.
  - intros pre ev Hev v Hop. exists event, version, from, s0, s2. split_and!; [done..|by apply Hev|done| |].
    + by etrans.
    + by exists pre.
Qed.

(** C20 (safety): the node announces only what it runs: whatever the watchers send, in
    whatever order, and whatever fails, each version that is registered while the loop
    runs is that of a flist that came, and in front of the registration an upgrade of the
    node to this flist has succeeded in the same run. *)
Theorem upgrade_announced retries registrations events s s' x :
  upgrade_events u self register monitor retries registrations events s = (s', x) ->
  exists evs, p_log s' = p_log s ++ evs /\
    forall pre ev post, evs = pre ++ ev :: post -> upgraded_to (p_log s) events (p_log s ++ pre) ev.
Proof.
  intros Hrun. assert (Hall : forall l s0, l ⊆ events -> p_log s `prefix_of` p_log s0 ->
    justified (upgraded_to (p_log s) events) (upgrade_events u self register monitor retries registrations l) s0).
  2:{ pose proof (Hall events s (reflexivity _) (reflexivity _)) as Hj. unfold justified in Hj. by rewrite Hrun in Hj. }
  clear Hrun. induction l as [|[event|event current|] l IH]; intros s0 Hl Hs; cbn [upgrade_events];
    [apply justified_quiet, quiet_ret|..].
  - pose proof (justified_flist_event retries registrations event events (p_log s) s0) as Hj.
    apply justified_bind; [apply Hj; [set_solver|done]|]. intros stop s1 Hrun.
    destruct stop; [apply justified_quiet, quiet_ret|]. apply IH; [set_solver|]. etrans; [exact Hs|].
    destruct Hj as (evs & Hlog & _); [set_solver|done|]. rewrite Hrun in Hlog. cbn in Hlog. rewrite Hlog. by exists evs.
  - assert (Hem : forall P, on_register P -> emits P (repo_changed u event current)).
    { intros P HP. apply emits_bind; [by apply emits_change_bins|intros _ _ _ _]. apply emits_quiet. unfold set_bins. auto with zos_monad. }
    apply justified_bind; [by apply justified_other|intros [] s1 Hrun]. apply IH; [set_solver|]. etrans; [exact Hs|].
    eapply grows; [|exact Hrun]. by apply Hem.
  - apply IH; [set_solver|done].
Qed.

End announce.

Lemma emits_registerNode {W F} `{NetKernel W} `{Ed25519} hex_Encode Hostname host_Uptime (NodeRegister : Node F -> M W unit)
    nodeID farmID loc v :
  emits (fun ev => ev_op ev = NodeCall "NodeRegister" [v]) (registerNode hex_Encode Hostname host_Uptime NodeRegister nodeID farmID v loc).
Proof.
  unfold registerNode. apply emits_bind; [|intros v1 _ _ _].
  { apply emits_try, emits_quiet, quiet_bind; [apply quiet_LinkByName|intros zos].
    apply quiet_bind; [auto with zos_monad|intros links]. case_match; auto with zos_monad. }
  apply emits_bind; [apply emits_quiet; auto with zos_monad|intros host _ _ _].
  apply emits_bind; [apply emits_quiet; auto with zos_monad|intros up _ _ _].
  by apply emits_node_call.
Qed.

(** ** The record of the packages *)

(** A file that was written is read back, and so are the packages. *)
Class BootLaws (W : Type) `{BootNode W} := {
  bt_Read_Write path data w w' : bt_WriteFile path data w = (w', Ok tt) -> exists w'', bt_ReadFile path w' = (w'', Ok data);
  dec_enc_bins bins data : enc_bins bins = Ok data -> dec_bins data = Ok bins
}.

Section packages.
  Context {St W : Type} {node : UpgradeNode St W} {store_ops : FlistStore St} {json : HubJson}
    {zinit : ZinitOps W} {boot : BootNode W} {laws : BootLaws W} {order : MapOrder}.
  Context (u : Upgrader) (BinRepo : PM W string).

Lemma SetBins_CurrentBins bins (w w' : W) : SetBins bins w = (w', Ok tt) -> exists w'', CurrentBins w' = (w'', Ok bins).
Proof.
  unfold SetBins. intros Hrun. ok_bind Hrun w1 data H1. injection H1 as <- H1.
  apply bt_Read_Write in Hrun as [w'' Hr]. exists w''. unfold CurrentBins, mbind, M_bind. rewrite Hr.
  unfold lift. by rewrite (dec_enc_bins _ _ H1).
Qed.

(** The difference of a listing with itself is nothing. *)
Lemma Diff_settled (all : gmap string FListInfo) : to_add all all = [] /\ to_del all all = [].
Proof.
  split.
  - apply to_add_nil. intros name p Hp. by exists p.
  - by apply to_del_nil.
Qed.

(** A package whose installation fails is recorded with the others: whatever the removals
    and the installations return, the record holds every package of the listing, and with
    that record the same listing has nothing to install. *)
Theorem failed_package_recorded s s1 s2 s3 s4 w5 bins repo all toAdd toDel :
  current_bins s = (s1, Ok bins) -> BinRepo s1 = (s2, Ok repo) -> Diff repo bins s2 = (s3, Ok (all, toAdd, toDel)) ->
  change_bins u toDel toAdd s3 = (s4, Ok tt) -> SetBins all (p_world s4) = (w5, Ok tt) ->
  exists s5, installBinaries u BinRepo s = (s5, Ok tt) /\ (exists s6, current_bins s5 = (s6, Ok all)) /\
    repo_event repo all (all, to_add all all, to_del all all) = (None, all).
Proof.
  intros H1 H2 H3 H4 H5. unfold installBinaries, mbind, M_bind. rewrite H1, H2. unfold try at 1. rewrite H3, H4.
  unfold set_bins, ignore, call. rewrite H5. eexists. split; [reflexivity|]. split.
  - destruct (SetBins_CurrentBins _ _ _ H5) as [w6 H6]. unfold current_bins, mbind, M_bind, try, call. cbn [p_world].
    rewrite H6. by eexists.
  - destruct (Diff_settled all) as [-> ->]. done.
Qed.

End packages.

Module IdentitydDemo.

Import UpgradeDemo.
#[local] Existing Instances UpgradeDemo.store_ops UpgradeDemo.node UpgradeDemo.zinit demo_Semver.

#[local] Instance info_eq : EqDecision FListInfo.
Proof. solve_decision. Defined.

Definition tcpdump : FListInfo := MkFListInfo "tcpdump.flist" "" "regular" 7 "tf-zos-bins".
Definition listing : gmap string FListInfo := {[ Fqdn tcpdump := tcpdump ]}.

Definition read (path : string) (w : world) : res string :=
  match w_files w !! path with Some data => Ok data | None => Err ErrNotExist end.

(** The record of the packages knows no packages, and those of the listing. *)
#[local] Instance boot : BootNode world := {|
  bt_Stat p w := (w, res_map (fun _ => tt) (read p w));
  bt_ReadFile p w := (w, read p w);
  bt_WriteFile p data w := (set_files (insert p data) w, Ok tt);
  enc_full f := Ok (full_Hash f);
  enc_bins m := if decide (m = ∅) then Ok "none" else if decide (m = listing) then Ok "all" else Err ErrNetwork;
  dec_bins data := if (data =? "none")%string then Ok ∅ else if (data =? "all")%string then Ok listing else Err ErrNetwork
|}.

#[local] Instance boot_laws : BootLaws world.
Proof.
  constructor; cbn.
  - intros path data w w' [= <-]. exists (set_files (insert path data) w). unfold read. cbn. by rewrite lookup_insert_eq.
  - intros bins data. repeat case_decide; intros [= <-]; by subst.
Qed.

#[local] Instance order : MapOrder := {| map_range A l := l; map_range_perm A l := reflexivity l |}.

(** A hub that lists the package, and has no information on it. *)
Definition broken_hub : HubJson := {|
  dec_full _ _ := Err ErrNetwork; dec_list _ := Ok [tcpdump]; dec_files _ := Err ErrNetwork
|}.

Definition repo : PM world string := mret "tf-zos-bins".
Lemma failed_package_recorded_witness :
  snd (InstallBinary (H1 := broken_hub) u tcpdump (start [] "abc")) <> Ok tt /\
  exists s5, installBinaries (H1 := broken_hub) u repo (start [] "abc") = (s5, Ok tt) /\
    (exists s6, current_bins s5 = (s6, Ok listing)).
Proof.
  split; [vm_compute; discriminate|].
  destruct (failed_package_recorded (json := broken_hub) u repo (start [] "abc") (start [] "abc") (start [] "abc")
    (start [] "abc") (start [] "abc") (set_files (insert BinariesFile "all") (p_world (start [] "abc"))) ∅ "tf-zos-bins"
    listing [tcpdump] []) as (s5 & H5 & H6 & _); [vm_compute; reflexivity..|].
  exists s5. split; [exact H5|exact H6].
Defined.

(** The node booted from a flist; version 2.0.0 comes, and then a channel is closed. *)
Definition booted : PState world :=
  MkP (set_files (fun f => <[FlistNameFile := "tf-zos/zos.flist"]> (<[FlistInfoFile := "info"]> f)) (p_world (start [] "abc"))) [] false.

Definition zos2 : FullFListInfo := MkFull (MkFListInfo "zos:v2.0.0.flist" "" "regular" 5 "tf-zos") "h4sh" 1.
Definition registration (v : string) : PM world unit := node_call "NodeRegister" [v] (mret tt).
Definition loop_run := upgrade_events (H1 := UpgradeDemo.json) u "identityd" registration (fun _ => mret tt) 1 1
  [FListCame zos2; ClosedChannel] booted.

Lemma upgrade_announced_witness :
  last (ev_op <$> p_log (fst loop_run)) = Some (NodeCall "NodeRegister" ["2.0.0"]) /\
  exists evs, p_log (fst loop_run) = [] ++ evs /\
    forall pre ev post, evs = pre ++ ev :: post ->
      upgraded_to (json := UpgradeDemo.json) u "identityd" [] [FListCame zos2; ClosedChannel] ([] ++ pre) ev.
Proof.
  split; [vm_compute; reflexivity|].
  assert (Hrun : loop_run = (loop_run.1, Ok tt)) by (vm_compute; reflexivity).
  exact (upgrade_announced (json := UpgradeDemo.json) u "identityd" registration (fun _ => mret tt)
    (fun v => emits_node_call _ "NodeRegister" [v] (mret tt) (fun _ => eq_refl))
    (fun _ => quiet_ret tt) 1 1 [FListCame zos2; ClosedChannel] booted loop_run.1 (Ok tt) Hrun).
Defined.

End IdentitydDemo.
